(* ===== verification/_CoqProject ===== *)
-Q . S2P
Prelude.v
Memory.v
Kalloc.v
Vm.v
Space.v
Swap.v
SwapCorrect.v
SwapOps.v
Uvm.v
UvmCorrect.v
UvmCopy.v
Bio.v
Log.v
LogCorrect.v
Pipe.v
CString.v
Fs.v
FsBlocks.v
FsFiles.v
FsIO.v
FsInode.v
FsWrite.v
FsTrunc.v
Grep.v
Shell.v
ShellCorrect.v
ShellRun.v
Spinlock.v
Sleeplock.v
Proc.v
ProcSteps.v
ProcCorrect.v
ProcSafe.v
Syscall.v
File.v
Sysfile.v
FileRefs.v
Umalloc.v
Printf.v
Console.v
Kbd.v
Ide.v
Protect.v
Trap.v
FsDir.v
FileIO.v
SwapFile.v
Exec.v
ExecImage.v
Boot.v
Mp.v
Apic.v
Rtc.v
Uart.v
Startup.v
Programs.v
Mkfs.v
MkfsCorrect.v
