(* ===== verification/Prelude.v ===== *)
(** * xv6 with demand paging: a verification development

    The program is a small Unix kernel for the x86 with its user programs
    (src/): xv6 extended with demand paging, in which a process keeps at most
    [MAX_PSYC_PAGES] pages in memory and the rest in a swap file.

    ** The parts and how they interact

    Physical pages come from the allocator (kalloc.c).  Page tables (vm.c) are
    built from such pages; the paging code (swap.c) moves user pages between
    memory and a swap file.  Files live in inodes and blocks (fs.c) that are read
    through a buffer cache (bio.c) and written through a crash-safe log (log.c)
    on a disk (ide.c, or memide.c in memory); mkfs.c builds the first disk image.
    Processes (proc.c) are scheduled on several processors under spin locks
    (spinlock.c); they enter the kernel by traps (trap.c) and system calls
    (syscall.c), whose handlers (sysproc.c, sysfile.c) use open files (file.c),
    pipes (pipe.c) and inodes.  The console (console.c, kbd.c) is a line-edited
    terminal.  User programs (sh.c, grep.c) use the user library (ulib.c,
    printf.c, umalloc.c).

    ** How code becomes definitions

    A C function is a Rocq function in the monad [kern S A] of this file over the
    state [S] of its component: it returns a value and a new state, calls
    [panic], goes to sleep, or runs out of fuel.  Definitions carry the names of
    the C functions.  A loop is a [Fixpoint] on the number of iterations where
    the C loop counts, and on fuel otherwise; the fuel is computed by the caller
    from the arguments (for example the number of pages for [deallocuvm], the
    length of the format for [printf]) and the theorems are total: they state
    that the function returns, so [Fuel] is not reached.  Machine integers are
    [Z] with explicit [u32], [i32], [u8]; memory is a function from addresses to
    bytes, accessed with 32-bit little-endian words.  Concurrency is a step
    relation whose steps are the code between two points where the processor can
    change hands; the theorems hold for every interleaving.

    ** Files

    - Memory: byte memory, memset, memcmp, memmove (string.c).
    - Kalloc: the page allocator (kalloc.c); free and held pages partition memory.
    - Vm: page tables (vm.c: walkpgdir, mappages, clearpteu, uva2ka, copyout).
    - Space: address spaces as disjoint trees and frames.
    - Swap, SwapCorrect, SwapOps: paging (swap.c) for both replacement policies,
      over an interface [SwapStore] to the swap file; a page fault is
      transparent, and every operation keeps the paging invariant.
    - Uvm, UvmCorrect, UvmCopy: whole address spaces (vm.c: setupkvm, inituvm,
      allocuvm, deallocuvm, freevm, copyuvm); freeing and copying
      account for every page.
    - Bio: the buffer cache (bio.c) and the memory disk (memide.c).
    - Log, LogCorrect: the log (log.c); a crash at any block write leaves the old
      or the new contents, and recovery can itself be interrupted.
    - Pipe: pipes (pipe.c) under every interleaving of readers and writers.
    - CString: the string routines (string.c, ulib.c, itoa of fs.c).
    - Fs: the file system (fs.c).  FsBlocks (block allocation), FsFiles (what a
      file is), FsIO, FsInode, FsWrite (readi and writei against a byte
      sequence), FsTrunc (itrunc, iput), FsDir (directories as maps).
    - FileIO: reads and writes of open inodes; SwapFile: the swap files of fs.c, a
      refinement of the store Swap.v is proved against.
    - Mkfs, MkfsCorrect: mkfs.c; the kernel reads back every file of the image.
    - Grep: grep.c; the matcher against a denotational regular expression.
    - Shell, ShellCorrect: the parser of sh.c; printing and parsing round trip.
    - ShellRun: running commands and the main loop of sh.c on descriptor tables.
    - Programs: cat, wc, echo, ls, rm, mkdir, ln and kill on an interface of the
      system calls.
    - Spinlock: spin locks (spinlock.c) at the level of memory operations;
      Sleeplock: sleep locks (sleeplock.c) under every interleaving.
    - Proc, ProcSteps, ProcCorrect, ProcSafe: the process table and scheduler
      (proc.c); invariants over every interleaving of processors.
    - Syscall: argument fetching and dispatch (syscall.c).
    - File, Sysfile, FileRefs: open files (file.c, pipealloc) and the file system
      calls (sysfile.c); reference counts are exact.
    - Umalloc: the user heap (umalloc.c); blocks in use are disjoint and keep
      their bytes.
    - Printf: printf.c and cprintf of console.c.
    - Console: screen, line editor and reads (console.c) against an abstract
      terminal.
    - Kbd: the keyboard decoder (kbd.c, kbd.h); Uart: the serial port (uart.c).
    - Ide: the disk driver (ide.c) over an interface of port operations; its
      requests and interrupts implement the memory disk.
    - Protect: segment, task and gate descriptors (mmu.h, seginit and switchuvm
      of vm.c, tvinit); how user programs can enter the kernel.
    - Trap: trap.c and sysproc.c; killed processes do not return to user mode,
      and sleep waits for exactly the ticks asked for.
    - Exec, ExecImage: exec.c, loaduvm of vm.c and elf.h; the stack a program
      starts with, and that a failed exec changes nothing.
    - Boot: the boot loader (bootmain.c); Mp: finding the processors (mp.c);
      Apic: the interrupt controllers (lapic.c, ioapic.c, picirq.c); Startup: the
      start of the other processors (main.c, entryother.S), each on its own
      stack; Rtc: the clock chip (cmostime of lapic.c).

    Devices are interfaces (type classes of port or register operations) whose
    laws state documented behaviour; each has an instance, so the laws hold of
    some device.

    ** Not modelled

    The remaining assembly files (boot, trap entry, context switch, system call
    stubs) and the loading of processor registers in C (switchkvm, idtinit):
    the models start and end where C code is entered.  main of main.c and init.c,
    which only call routines modelled here.  The test programs (usertests.c,
    forktest.c, stressfs.c, pagetest.c, pageforktest.c, nulltest.c, zombie.c) and
    time.c: they are scripts of system calls that exercise the kernel.  Header
    files that only declare prototypes.  Outside Trap interrupts appear as the
    points where a processor can be taken away. *)

From stdpp Require Export base numbers list option strings sets gmap.
From Stdlib Require Export ZArith Lia.

#[global] Open Scope Z_scope.

(** ** The kernel monad

    Kernel code is stateful and partial: it returns, it calls [panic], or it
    gives up the processor in [sleep].  [Fuel] is the outcome of a loop model
    whose iteration bound was too small; the theorems show it is not reached. *)

Inductive outcome (S A : Type) : Type :=
| Ret (a : A) (s : S)
| Panic (msg : string)
| Sleep (chan : Z) (s : S)
| Fuel.

Arguments Ret {S A} _ _.
Arguments Panic {S A} _.
Arguments Sleep {S A} _ _.
Arguments Fuel {S A}.

Definition kern (S A : Type) : Type := S -> outcome S A.

#[global] Instance kern_ret S : MRet (kern S) := fun A a s => Ret a s.

#[global] Instance kern_bind S : MBind (kern S) :=
  fun A B f m s =>
    match m s with
    | Ret a s' => f a s'
    | Panic msg => Panic msg
    | Sleep c s' => Sleep c s'
    | Fuel => Fuel
    end.

Definition panic {S A} (msg : string) : kern S A := fun _ => Panic msg.
Definition sleep_on {S A} (chan : Z) : kern S A := fun s => Sleep chan s.
Definition gets {S A} (f : S -> A) : kern S A := fun s => Ret (f s) s.
Definition modify {S} (f : S -> S) : kern S unit := fun s => Ret tt (f s).
Definition assert_panic {S} (b : bool) (msg : string) : kern S unit :=
  fun s => if b then Ret tt s else Panic msg.

(** Run an operation of a component on the part of the state it owns. *)
Definition zoom {S T A} (get : S -> T) (set : T -> S -> S) (m : kern T A)
  : kern S A :=
  fun s =>
    match m (get s) with
    | Ret a t => Ret a (set t s)
    | Panic msg => Panic msg
    | Sleep c t => Sleep c (set t s)
    | Fuel => Fuel
    end.

(** The run of [m] from [s] returns [a] and leaves the state [s']. *)
Definition runs {S A} (m : kern S A) (s : S) (a : A) (s' : S) : Prop :=
  m s = Ret a s'.

Section kern_lemmas.
Context {S : Type}.

Lemma bind_Ret {A B} (m : kern S A) (f : A -> kern S B) s a s' :
  m s = Ret a s' -> (m ≫= f) s = f a s'.
Proof. intros H. unfold mbind, kern_bind. by rewrite H. Qed.

Lemma bind_gets {A B} (g : S -> A) (k : A -> kern S B) s : (gets g ≫= k) s = k (g s) s.
Proof. reflexivity. Qed.

Lemma bind_mret {A B} (a : A) (k : A -> kern S B) s : (mret a ≫= k) s = k a s.
Proof. reflexivity. Qed.

Lemma bind_modify {B} (g : S -> S) (k : unit -> kern S B) s : (modify g ≫= k) s = k tt (g s).
Proof. reflexivity. Qed.

Lemma bind_bind {A B C} (m : kern S A) (f : A -> kern S B) (g : B -> kern S C) s :
  ((m ≫= f) ≫= g) s = (m ≫= (fun a => f a ≫= g)) s.
Proof. unfold mbind, kern_bind. by destruct (m s). Qed.

Lemma bind_inv {A B} (m : kern S A) (f : A -> kern S B) s b s2 :
  (m ≫= f) s = Ret b s2 ->
  exists a s1, m s = Ret a s1 /\ f a s1 = Ret b s2.
Proof.
  unfold mbind, kern_bind. destruct (m s) eqn:E; intros; try discriminate; eauto.
Qed.

Lemma ret_inv {A} (a b : A) (s s' : S) :
  (mret a : kern S A) s = Ret b s' -> a = b /\ s = s'.
Proof. unfold mret, kern_ret. by intros [= -> ->]. Qed.

Lemma zoom_Ret {T A} (get : S -> T) set (m : kern T A) s a t :
  m (get s) = Ret a t -> zoom get set m s = Ret a (set t s).
Proof. intros H. unfold zoom. by rewrite H. Qed.

End kern_lemmas.

(** Unfold the plumbing of the monad, leaving the operations themselves. *)
Ltac kunfold :=
  unfold mbind, mret, kern_bind, kern_ret, gets, modify, panic, assert_panic in *;
  cbn beta iota in *.

(** Break a hypothesis [(m ≫= f) s = Ret b s'] into the runs of its parts. *)
Ltac kinv :=
  repeat match goal with
  | H : (_ ≫= _) _ = Ret _ _ |- _ =>
      let a := fresh "a" in let s := fresh "s" in let H1 := fresh "Hrun" in
      apply bind_inv in H as (a & s & H1 & H)
  | H : mret _ _ = Ret _ _ |- _ => apply ret_inv in H as [<- <-]
  | H : gets _ _ = Ret _ _ |- _ => unfold gets in H; simplify_eq H; intros; subst; clear H
  | H : modify _ _ = Ret _ _ |- _ => unfold modify in H; simplify_eq H; intros; subst; clear H
  | H : panic _ _ = Ret _ _ |- _ => discriminate H
  end.

(** ** Machine integers

    A C integer is a [Z] in the range of its type; these are the conversions
    of the compiler (x86, 32-bit [int] and pointers). *)

Definition u32 (x : Z) : Z := x mod 2 ^ 32.
Definition u16 (x : Z) : Z := x mod 2 ^ 16.
Definition u8 (x : Z) : Z := x mod 2 ^ 8.
Definition i32 (x : Z) : Z := if u32 x <? 2 ^ 31 then u32 x else u32 x - 2 ^ 32.
Definition i16 (x : Z) : Z := if u16 x <? 2 ^ 15 then u16 x else u16 x - 2 ^ 16.
Definition i8 (x : Z) : Z := if u8 x <? 2 ^ 7 then u8 x else u8 x - 2 ^ 8.

Definition is_u32 (x : Z) : Prop := 0 <= x < 2 ^ 32.
Definition is_u16 (x : Z) : Prop := 0 <= x < 2 ^ 16.
Definition is_u8 (x : Z) : Prop := 0 <= x < 2 ^ 8.

(** C truth value of [x & f]. *)
Definition has (x f : Z) : bool := negb (Z.land x f =? 0).

(** Truth value of a C comparison result. *)
Definition b2z (b : bool) : Z := if b then 1 else 0.

Create HintDb word.

Lemma u32_range x : is_u32 (u32 x).
Proof. unfold is_u32, u32. apply Z.mod_pos_bound. lia. Qed.

Lemma u32_id x : is_u32 x -> u32 x = x.
Proof. apply Z.mod_small. Qed.

Lemma i32_id x : - 2 ^ 31 <= x < 2 ^ 31 -> i32 x = x.
Proof. intros Hx. unfold i32, u32. destruct (Z.ltb_spec (x mod 2 ^ 32) (2 ^ 31)); Z.div_mod_to_equations; lia. Qed.

Lemma u32_u32 x : u32 (u32 x) = u32 x.
Proof. apply u32_id, u32_range. Qed.

Lemma u8_range x : is_u8 (u8 x).
Proof. unfold is_u8, u8. apply Z.mod_pos_bound. lia. Qed.

Lemma u8_id x : is_u8 x -> u8 x = x.
Proof. apply Z.mod_small. Qed.

#[export] Hint Resolve u32_range u8_range : word.

(** Bitwise equality of two integers, by comparing every bit. *)
Ltac zbits :=
  apply Z.bits_inj'; let n := fresh "n" in let Hn := fresh "Hn" in
  intros n Hn;
  repeat first
    [ rewrite Z.land_spec | rewrite Z.lor_spec | rewrite Z.ldiff_spec
    | rewrite Z.lxor_spec ].

Lemma land_ones_mod x k : 0 <= k -> Z.land x (Z.ones k) = x mod 2 ^ k.
Proof. apply Z.land_ones. Qed.

Lemma land_fff x : Z.land x 0xFFF = x mod 4096.
Proof. change 0xFFF with (Z.ones 12). by rewrite Z.land_ones. Qed.

Lemma testbit_u32_high x n : is_u32 x -> 32 <= n -> Z.testbit x n = false.
Proof.
  intros Hx Hn. rewrite <- (Z.mod_small x (2 ^ 32)) by exact Hx.
  apply Z.mod_pow2_bits_high. lia.
Qed.

(** Masking a word with [~0xFFF] clears its low twelve bits. *)
Lemma land_not_fff x : is_u32 x -> Z.land x 0xFFFFF000 = x - x mod 4096.
Proof.
  intros Hx.
  assert (Hm : x - x mod 4096 = Z.shiftl (Z.shiftr x 12) 12).
  { rewrite Z.shiftl_mul_pow2, Z.shiftr_div_pow2 by lia.
    change (2 ^ 12) with 4096. pose proof (Z.div_mod x 4096). lia. }
  rewrite Hm. change 0xFFFFF000 with (Z.shiftl (Z.ones 20) 12).
  zbits.
  destruct (decide (n < 12)).
  - rewrite !Z.shiftl_spec_low by lia. by rewrite andb_false_r.
  - rewrite !Z.shiftl_spec by lia. rewrite Z.shiftr_spec by lia.
    replace (n - 12 + 12) with n by lia.
    destruct (decide (n < 32)).
    + rewrite Z.ones_spec_low by lia. by rewrite andb_true_r.
    + rewrite Z.ones_spec_high by lia.
      by rewrite testbit_u32_high, andb_false_r by (assumption || lia).
Qed.

Lemma mod_aligned_testbit a k n :
  0 <= k -> a mod 2 ^ k = 0 -> n < k -> Z.testbit a n = false.
Proof.
  intros Hk Ha Hn. destruct (decide (n < 0)); [by apply Z.testbit_neg_r; lia|].
  rewrite <- (Z.mod_pow2_bits_low a k n) by lia. rewrite Ha. apply Z.testbit_0_l.
Qed.

Lemma small_testbit f k n :
  0 <= k -> 0 <= f < 2 ^ k -> k <= n -> Z.testbit f n = false.
Proof.
  intros Hk Hf Hn. rewrite <- (Z.mod_small f (2 ^ k)) by exact Hf.
  apply Z.mod_pow2_bits_high. lia.
Qed.

(** A page-aligned word and a twelve-bit flag field share no bit, so [|] adds. *)
Lemma lor_add_aligned k a f :
  0 <= k -> a mod 2 ^ k = 0 -> 0 <= f < 2 ^ k -> Z.lor a f = a + f.
Proof.
  intros Hk Ha Hf.
  assert (Hl : Z.land a f = 0).
  { apply Z.bits_inj'. intros n Hn. rewrite Z.land_spec, Z.testbit_0_l.
    destruct (decide (n < k)).
    - by rewrite (mod_aligned_testbit a k n).
    - by rewrite (small_testbit f k n), andb_false_r by lia. }
  rewrite <- Z.lxor_lor by exact Hl. symmetry. by apply Z.add_nocarry_lxor.
Qed.

Lemma lor_range k a b :
  0 <= k -> 0 <= a < 2 ^ k -> 0 <= b < 2 ^ k -> 0 <= Z.lor a b < 2 ^ k.
Proof.
  intros Hk Ha Hb. split; [by apply Z.lor_nonneg; lia|].
  destruct (decide (Z.lor a b = 0)) as [->|Hnz]; [lia|].
  assert (Hp : 0 < Z.lor a b).
  { assert (0 <= Z.lor a b) by (apply Z.lor_nonneg; lia). lia. }
  apply Z.log2_lt_pow2; [exact Hp|]. rewrite Z.log2_lor by lia.
  destruct (decide (a = 0)), (decide (b = 0)); subst; simpl in *;
    try (rewrite Z.lor_0_l in Hnz; done).
  all: try (change (Z.log2 0) with 0).
  all: apply Z.max_lub_lt;
    first [ apply Z.log2_lt_pow2; lia
          | destruct (decide (k = 0)); [subst; change (2 ^ 0) with 1 in *; lia | lia] ].
Qed.

(** Testing one flag is testing one bit. *)
Lemma has_pow2 x k : 0 <= k -> has x (2 ^ k) = Z.testbit x k.
Proof.
  intros Hk. unfold has.
  assert (E : Z.land x (2 ^ k) = if Z.testbit x k then 2 ^ k else 0).
  { zbits. rewrite Z.pow2_bits_eqb by lia.
    destruct (Z.eqb_spec k n) as [->|Hne].
    - rewrite andb_true_r. destruct (Z.testbit x n);
        by rewrite ?Z.pow2_bits_true, ?Z.testbit_0_l by lia.
    - rewrite andb_false_r. destruct (Z.testbit x k);
        by rewrite ?Z.pow2_bits_false, ?Z.testbit_0_l by lia. }
  rewrite E. destruct (Z.testbit x k); [|done].
  destruct (Z.eqb_spec (2 ^ k) 0); [|done].
  pose proof (Z.pow_pos_nonneg 2 k). lia.
Qed.

Lemma has_lor x y f : has (Z.lor x y) f = has x f || has y f.
Proof.
  unfold has. rewrite Z.land_lor_distr_l.
  destruct (Z.eqb_spec (Z.land x f) 0) as [E|E];
    destruct (Z.eqb_spec (Z.land y f) 0) as [E'|E'];
    destruct (Z.eqb_spec (Z.lor (Z.land x f) (Z.land y f)) 0) as [E2|E2];
    try done; rewrite Z.lor_eq_0_iff in E2; naive_solver.
Qed.

(** ** Lists as arrays *)

Section lists.
Context {A : Type}.
Implicit Types l : list A.

Lemma list_insert_same l i x : l !! i = Some x -> <[i:=x]> l = l.
Proof. apply list_insert_id. Qed.

Lemma Forall_insert_weak (P : A -> Prop) l i x :
  Forall P l -> P x -> Forall P (<[i:=x]> l).
Proof. intros. by apply Forall_insert. Qed.

Lemma lookup_total_lt (d : A) l i :
  (i < length l)%nat -> l !! i = Some (nth i l d).
Proof.
  intros Hi. destruct (nth_lookup_or_length l i d) as [H|H]; [done|lia].
Qed.

End lists.

(** An invariant of every step holds in every reachable state. *)
Lemma rtc_preserves {A} (R : relation A) (P : A -> Prop) x y :
  (forall a b, P a -> R a b -> P b) -> P x -> rtc R x y -> P y.
Proof. intros HR Hx Hr. induction Hr; eauto. Qed.

(** Case analysis on the boolean comparisons of the code. *)
Ltac zcases :=
  repeat match goal with
  | |- context [Z.eqb ?x ?y] => destruct (Z.eqb_spec x y)
  | |- context [Z.ltb ?x ?y] => destruct (Z.ltb_spec x y)
  | |- context [Z.leb ?x ?y] => destruct (Z.leb_spec x y)
  | H : context [Z.eqb ?x ?y] |- _ => destruct (Z.eqb_spec x y)
  | H : context [Z.ltb ?x ?y] |- _ => destruct (Z.ltb_spec x y)
  | H : context [Z.leb ?x ?y] |- _ => destruct (Z.leb_spec x y)
  end.
