(* ===== verification/Memory.v ===== *)
(** Byte-addressed memory, and the memory routines of [string.c].

    The kernel's view of memory is a total function from kernel virtual
    addresses to bytes: every physical page is mapped at [KERNBASE + pa], so a
    kernel pointer identifies a physical byte.  [ld32]/[st32] are the x86
    little-endian word accesses.  [memset] and [memmove] are the loops of
    [string.c]; [memset_fill] and [memmove_copy] show that they implement the
    range operations [fill_range] and [copy_range] that the kernel components
    are written with. *)

From S2P Require Import Prelude.

Definition mem : Type := Z -> Z.

Definition st8 (m : mem) (a v : Z) : mem :=
  fun x => if x =? a then u8 v else m x.

Definition ld32 (m : mem) (a : Z) : Z :=
  m a + 256 * m (a + 1) + 65536 * m (a + 2) + 16777216 * m (a + 3).

Definition st32 (m : mem) (a v : Z) : mem :=
  fun x =>
    if x =? a then v mod 256
    else if x =? a + 1 then (v / 256) mod 256
    else if x =? a + 2 then (v / 65536) mod 256
    else if x =? a + 3 then (v / 16777216) mod 256
    else m x.

Definition fill_range (m : mem) (a c n : Z) : mem :=
  fun x => if (a <=? x) && (x <? a + n) then c else m x.

Definition copy_range (m : mem) (dst src n : Z) : mem :=
  fun x => if (dst <=? x) && (x <? dst + n) then m (x - dst + src) else m x.

(** The bytes at [a .. a+n-1]. *)
Definition bytes_at (m : mem) (a : Z) (n : nat) : list Z :=
  (fun i => m (a + Z.of_nat i)) <$> seq 0 n.

(** Store a list of bytes at [a]. *)
Definition put_bytes (m : mem) (a : Z) (bs : list Z) : mem :=
  fun x => if (a <=? x) && (x <? a + Z.of_nat (length bs))
           then nth (Z.to_nat (x - a)) bs 0 else m x.

Definition mem_ok (m : mem) : Prop := forall a, is_u8 (m a).

(** ** Word accesses *)

Lemma byte_split v :
  v mod 256 + 256 * ((v / 256) mod 256) + 65536 * ((v / 65536) mod 256)
  + 16777216 * ((v / 16777216) mod 256) = u32 v.
Proof.
  unfold u32. change (2 ^ 32) with (256 * (256 * (256 * 256))).
  change 65536 with (256 * 256). change 16777216 with (256 * (256 * 256)).
  rewrite !Z.rem_mul_r, <- !Z.div_div by lia.
  change (256 * 256) with 65536. lia.
Qed.

Lemma ld32_st32_eq m a v : ld32 (st32 m a v) a = u32 v.
Proof.
  rewrite <- byte_split. unfold ld32, st32.
  repeat match goal with |- context [?x =? ?y] => destruct (Z.eqb_spec x y); try lia end.
Qed.

Lemma ld32_st32_ne m a b v : b + 4 <= a \/ a + 4 <= b -> ld32 (st32 m a v) b = ld32 m b.
Proof.
  intros H. unfold ld32, st32.
  repeat match goal with |- context [?x =? ?y] => destruct (Z.eqb_spec x y); try lia end.
Qed.

Lemma st32_other m a v x : x < a \/ a + 4 <= x -> st32 m a v x = m x.
Proof.
  intros H. unfold st32.
  repeat match goal with |- context [?y =? ?z] => destruct (Z.eqb_spec y z); try lia end.
Qed.

Lemma ld32_range m a : mem_ok m -> is_u32 (ld32 m a).
Proof.
  intros Hm. pose proof (Hm a). pose proof (Hm (a + 1)).
  pose proof (Hm (a + 2)). pose proof (Hm (a + 3)).
  unfold is_u8, is_u32, ld32 in *. lia.
Qed.

Lemma st32_ok m a v : mem_ok m -> mem_ok (st32 m a v).
Proof.
  intros Hm x. unfold st32, is_u8.
  repeat case_match; try apply Hm; apply Z.mod_pos_bound; lia.
Qed.

Lemma ld32_ext m m' a :
  (forall x, a <= x < a + 4 -> m x = m' x) -> ld32 m a = ld32 m' a.
Proof. intros H. unfold ld32. rewrite !H by lia. done. Qed.

(** ** Range operations *)

Lemma fill_in m a c n x : a <= x < a + n -> fill_range m a c n x = c.
Proof. intros H. unfold fill_range. zcases; simpl; lia. Qed.

Lemma fill_out m a c n x : x < a \/ a + n <= x -> fill_range m a c n x = m x.
Proof. intros H. unfold fill_range. zcases; simpl; lia || done. Qed.

Lemma copy_in m d s n x : d <= x < d + n -> copy_range m d s n x = m (x - d + s).
Proof. intros H. unfold copy_range. zcases; simpl; lia || done. Qed.

Lemma copy_out m d s n x : x < d \/ d + n <= x -> copy_range m d s n x = m x.
Proof. intros H. unfold copy_range. zcases; simpl; lia || done. Qed.

Lemma fill_ok m a c n : mem_ok m -> is_u8 c -> mem_ok (fill_range m a c n).
Proof. intros Hm Hc x. unfold fill_range. case_match; auto. Qed.

Lemma copy_ok m d s n : mem_ok m -> mem_ok (copy_range m d s n).
Proof. intros Hm x. unfold copy_range. case_match; auto. Qed.

Lemma ld32_fill_0 m a n b : a <= b -> b + 4 <= a + n -> ld32 (fill_range m a 0 n) b = 0.
Proof. intros. unfold ld32. rewrite !fill_in by lia. lia. Qed.

Lemma ld32_fill_out m a c n b :
  b + 4 <= a \/ a + n <= b -> ld32 (fill_range m a c n) b = ld32 m b.
Proof. intros. apply ld32_ext. intros x Hx. apply fill_out. lia. Qed.

Lemma length_bytes_at m a n : length (bytes_at m a n) = n.
Proof. unfold bytes_at. by rewrite length_fmap, length_seq. Qed.

Lemma bytes_at_lookup m a n i :
  (i < n)%nat -> bytes_at m a n !! i = Some (m (a + Z.of_nat i)).
Proof.
  intros Hi. unfold bytes_at. rewrite list_lookup_fmap, lookup_seq_lt by lia. done.
Qed.

Lemma bytes_at_ext m m' a a' n :
  (forall i, 0 <= i < Z.of_nat n -> m (a + i) = m' (a' + i)) ->
  bytes_at m a n = bytes_at m' a' n.
Proof.
  intros H. apply list_eq_same_length with n; rewrite ?length_bytes_at; try done.
  intros i x y Hi. rewrite !bytes_at_lookup by lia. rewrite H by lia. congruence.
Qed.

Lemma put_bytes_in m a bs x :
  a <= x < a + Z.of_nat (length bs) -> put_bytes m a bs x = nth (Z.to_nat (x - a)) bs 0.
Proof. intros. unfold put_bytes. zcases; simpl; lia || done. Qed.

Lemma put_bytes_out m a bs x :
  x < a \/ a + Z.of_nat (length bs) <= x -> put_bytes m a bs x = m x.
Proof. intros. unfold put_bytes. zcases; simpl; lia || done. Qed.

Lemma bytes_at_put m a bs : bytes_at (put_bytes m a bs) a (length bs) = bs.
Proof.
  apply list_eq_same_length with (length bs); rewrite ?length_bytes_at; try done.
  intros i x y Hi. rewrite bytes_at_lookup, put_bytes_in by lia.
  replace (Z.to_nat (a + Z.of_nat i - a)) with i by lia.
  rewrite (lookup_total_lt 0) by done. congruence.
Qed.

Lemma put_bytes_ok m a bs : mem_ok m -> Forall is_u8 bs -> mem_ok (put_bytes m a bs).
Proof.
  intros Hm Hb x. unfold put_bytes. case_match eqn:E; [|apply Hm].
  apply andb_true_iff in E as [E1%Z.leb_le E2%Z.ltb_lt].
  eapply Forall_lookup_1; [exact Hb|]. apply (lookup_total_lt 0). lia.
Qed.

#[export] Hint Resolve st32_ok fill_ok copy_ok put_bytes_ok : word.

(** ** memset *)

Fixpoint stosb (m : mem) (addr data : Z) (cnt : nat) : mem :=
  match cnt with
  | O => m
  | S k => stosb (st8 m addr data) (addr + 1) data k
  end.

Fixpoint stosl (m : mem) (addr data : Z) (cnt : nat) : mem :=
  match cnt with
  | O => m
  | S k => stosl (st32 m addr data) (addr + 4) data k
  end.

Definition memset (m : mem) (dst c n : Z) : mem :=
  if (Z.rem (i32 dst) 4 =? 0) && (n mod 4 =? 0) then
    let c := Z.land c 0xFF in
    stosl m dst
      (Z.lor (Z.lor (Z.lor (u32 (Z.shiftl c 24)) (Z.shiftl c 16)) (Z.shiftl c 8)) c)
      (Z.to_nat (n / 4))
  else stosb m dst c (Z.to_nat n).

(** ** memcmp, memmove *)

Fixpoint memcmp (m : mem) (s1 s2 : Z) (n : nat) : Z :=
  match n with
  | O => 0
  | S k => if m s1 =? m s2 then memcmp m (s1 + 1) (s2 + 1) k else m s1 - m s2
  end.

Fixpoint memmove_down (m : mem) (d s : Z) (n : nat) : mem :=
  match n with
  | O => m
  | S k => memmove_down (st8 m (d - 1) (m (s - 1))) (d - 1) (s - 1) k
  end.

Fixpoint memmove_up (m : mem) (d s : Z) (n : nat) : mem :=
  match n with
  | O => m
  | S k => memmove_up (st8 m d (m s)) (d + 1) (s + 1) k
  end.

Definition memmove (m : mem) (dst src n : Z) : mem :=
  if (src <? dst) && (dst <? src + n)
  then memmove_down m (dst + n) (src + n) (Z.to_nat n)
  else memmove_up m dst src (Z.to_nat n).

Lemma st8_eq m a v : is_u8 v -> st8 m a v a = v.
Proof. intros. unfold st8. rewrite Z.eqb_refl. by apply u8_id. Qed.

Lemma st8_ne m a v x : x <> a -> st8 m a v x = m x.
Proof. intros. unfold st8. by destruct (Z.eqb_spec x a). Qed.

Lemma st8_ok m a v : mem_ok m -> mem_ok (st8 m a v).
Proof. intros Hm x. unfold st8. case_match; auto with word. Qed.

#[export] Hint Resolve st8_ok : word.

Lemma stosb_spec m a c n x :
  stosb m a c n x = fill_range m a (u8 c) (Z.of_nat n) x.
Proof.
  revert m a. induction n as [|n IH]; intros m a; simpl.
  - unfold fill_range. zcases; simpl; lia || done.
  - rewrite IH. destruct (decide (a + 1 <= x < a + 1 + Z.of_nat n)).
    + rewrite !fill_in by lia. done.
    + rewrite fill_out by lia. destruct (decide (x = a)) as [->|].
      * rewrite fill_in by lia. unfold st8. by rewrite Z.eqb_refl.
      * rewrite st8_ne, fill_out by lia. done.
Qed.

Lemma stosl_spec m a c n x :
  c mod 256 = (c / 256) mod 256 -> c mod 256 = (c / 65536) mod 256 ->
  c mod 256 = (c / 16777216) mod 256 ->
  stosl m a c n x = fill_range m a (c mod 256) (4 * Z.of_nat n) x.
Proof.
  intros H1 H2 H3. revert m a. induction n as [|n IH]; intros m a; simpl stosl.
  - unfold fill_range. zcases; simpl; lia || done.
  - rewrite IH. destruct (decide (a + 4 <= x < a + 4 + 4 * Z.of_nat n)).
    + rewrite !fill_in by lia. done.
    + rewrite fill_out by lia. destruct (decide (a <= x < a + 4)).
      * rewrite fill_in by lia. unfold st32.
        zcases; try congruence. lia.
      * rewrite st32_other, fill_out by lia. done.
Qed.

Lemma replicate_byte c :
  0 <= c < 256 ->
  Z.lor (Z.lor (Z.lor (u32 (Z.shiftl c 24)) (Z.shiftl c 16)) (Z.shiftl c 8)) c
  = 16777216 * c + 65536 * c + 256 * c + c.
Proof.
  intros Hc. rewrite !Z.shiftl_mul_pow2 by lia.
  rewrite u32_id by (unfold is_u32; lia).
  rewrite (lor_add_aligned 24 (c * 2 ^ 24)) by (rewrite ?Z.mod_mul; lia).
  replace (c * 2 ^ 24 + c * 2 ^ 16) with ((c * 256 + c) * 2 ^ 16) by lia.
  rewrite (lor_add_aligned 16 ((c * 256 + c) * 2 ^ 16)) by (rewrite ?Z.mod_mul; lia).
  replace ((c * 256 + c) * 2 ^ 16 + c * 2 ^ 8)
    with ((c * 65536 + c * 256 + c) * 2 ^ 8) by lia.
  rewrite (lor_add_aligned 8) by (rewrite ?Z.mod_mul; lia). lia.
Qed.

(** [memset] fills exactly the [n] bytes at [dst] with the low byte of [c],
    whichever of its two store instructions it selects. *)
Lemma memset_fill m dst c n x :
  0 <= n -> memset m dst c n x = fill_range m dst (u8 c) n x.
Proof.
  intros Hn. unfold memset. destruct (_ && _) eqn:E.
  - apply andb_true_iff in E as [_ E%Z.eqb_eq].
    change 0xFF with (Z.ones 8). rewrite Z.land_ones by lia. fold (u8 c).
    pose proof (u8_range c) as Hu. unfold is_u8 in Hu.
    rewrite replicate_byte by lia. generalize (u8 c) Hu. intros b Hb.
    set (w := 16777216 * b + 65536 * b + 256 * b + b).
    assert (w mod 256 = b).
    { unfold w. symmetry. apply Z.mod_unique with (65536 * b + 256 * b + b); lia. }
    assert ((w / 256) mod 256 = b).
    { replace (w / 256) with (65536 * b + 256 * b + b) by (apply Z.div_unique with b; lia).
      symmetry. apply Z.mod_unique with (256 * b + b); lia. }
    assert ((w / 65536) mod 256 = b).
    { replace (w / 65536) with (256 * b + b)
        by (apply Z.div_unique with (256 * b + b); lia).
      symmetry. apply Z.mod_unique with b; lia. }
    assert ((w / 16777216) mod 256 = b).
    { replace (w / 16777216) with b
        by (apply Z.div_unique with (65536 * b + 256 * b + b); lia).
      apply Z.mod_small; lia. }
    rewrite stosl_spec by congruence. rewrite Z2Nat.id by (apply Z.div_pos; lia).
    f_equal; [congruence|]. pose proof (Z.div_mod n 4). lia.
  - rewrite stosb_spec. f_equal. lia.
Qed.

Lemma memmove_up_spec m d s n x :
  mem_ok m -> d <= s \/ s + Z.of_nat n <= d ->
  memmove_up m d s n x = copy_range m d s (Z.of_nat n) x.
Proof.
  revert m d s. induction n as [|n IH]; intros m d s Hm Hd; simpl.
  - unfold copy_range. zcases; simpl; lia || done.
  - rewrite IH by (auto with word; lia).
    destruct (decide (d + 1 <= x < d + 1 + Z.of_nat n)).
    + rewrite !copy_in by lia.
      destruct (decide (x - (d + 1) + (s + 1) = d)) as [E|E].
      * (* the source byte was overwritten: only when source and target coincide *)
        assert (x - d + s = d) as -> by lia. rewrite E.
        assert (d = s) as -> by lia. rewrite st8_eq by apply Hm. done.
      * rewrite st8_ne by lia. f_equal. lia.
    + rewrite copy_out by lia. destruct (decide (x = d)) as [->|].
      * rewrite copy_in, st8_eq by (lia || apply Hm). f_equal. lia.
      * rewrite st8_ne, copy_out by lia. done.
Qed.

Lemma memmove_down_spec m d s n x :
  mem_ok m -> s <= d ->
  memmove_down m d s n x = copy_range m (d - Z.of_nat n) (s - Z.of_nat n) (Z.of_nat n) x.
Proof.
  revert m d s. induction n as [|n IH]; intros m d s Hm Hd; simpl memmove_down.
  - unfold copy_range. zcases; simpl; lia || done.
  - rewrite IH by (auto with word; lia).
    destruct (decide (d - 1 - Z.of_nat n <= x < d - 1)).
    + rewrite !copy_in by lia. rewrite st8_ne by lia. f_equal. lia.
    + rewrite copy_out by lia. destruct (decide (x = d - 1)) as [->|].
      * rewrite copy_in, st8_eq by (lia || apply Hm). f_equal. lia.
      * rewrite st8_ne, copy_out by lia. done.
Qed.

(** The two directions of [memmove] agree with copying from the original
    memory, also when source and destination overlap. *)
Lemma memmove_copy_aux m dst src n x :
  mem_ok m -> 0 <= n -> memmove m dst src n x = copy_range m dst src n x.
Proof.
  intros Hm Hn. unfold memmove. destruct (_ && _) eqn:E.
  - apply andb_true_iff in E as [E1%Z.ltb_lt E2%Z.ltb_lt].
    rewrite memmove_down_spec by (auto; lia). rewrite Z2Nat.id by lia.
    by replace (dst + n - n) with dst by lia; replace (src + n - n) with src by lia.
  - rewrite memmove_up_spec; [by rewrite Z2Nat.id by lia|done|].
    apply andb_false_iff in E as [E%Z.ltb_ge|E%Z.ltb_ge]; lia.
Qed.
