(* ===== verification/Kalloc.v ===== *)
(** The physical page allocator, [kalloc.c].

    [kmem] is the allocator's state together with the memory it manages: the
    free list is threaded through the free pages themselves, as in the code
    ([struct run] is the first word of a free page).  [freelist_at m p l] says
    that the chain starting at [p] visits exactly the pages [l].  [kend] is the
    linker symbol [end], a parameter. *)

From S2P Require Import Prelude Memory.

(** ** Memory layout: memlayout.h, mmu.h *)

Definition EXTMEM : Z := 0x100000.
Definition PHYSTOP : Z := 0xE000000.
Definition DEVSPACE : Z := 0xFE000000.
Definition KERNBASE : Z := 0x80000000.
Definition KERNLINK : Z := KERNBASE + EXTMEM.
Definition V2P (a : Z) : Z := u32 (a - KERNBASE).
Definition P2V (a : Z) : Z := u32 (a + KERNBASE).

Definition PGSIZE : Z := 4096.
Definition PGROUNDUP (sz : Z) : Z := Z.land (u32 (sz + PGSIZE - 1)) 0xFFFFF000.
Definition PGROUNDDOWN (a : Z) : Z := Z.land (u32 a) 0xFFFFF000.

Record kmem := Kmem {
  km_mem : mem;               (* all of physical memory, by kernel address *)
  use_lock : bool;
  freelist : Z;               (* struct run *, 0 at the end *)
  total_free_pages : Z;
}.

Definition with_mem (f : mem -> mem) (k : kmem) : kmem :=
  Kmem (f (km_mem k)) (use_lock k) (freelist k) (total_free_pages k).

(** Dereferences through kernel pointers. *)
Definition load32 (a : Z) : kern kmem Z := gets (fun k => ld32 (km_mem k) a).
Definition store32 (a v : Z) : kern kmem unit :=
  modify (with_mem (fun m => st32 m a v)).
Definition memset_k (a c n : Z) : kern kmem unit :=
  modify (with_mem (fun m => fill_range m a (u8 c) n)).
Definition memmove_k (d s n : Z) : kern kmem unit :=
  modify (with_mem (fun m => copy_range m d s n)).

Section kalloc.
Variable kend : Z.

Definition kfree (v : Z) : kern kmem unit := fun k =>
  let k := Kmem (km_mem k) (use_lock k) (freelist k) (i32 (total_free_pages k + 1)) in
  if negb (v mod PGSIZE =? 0) || (v <? kend) || (PHYSTOP <=? V2P v)
  then Panic "kfree"
  else
    let m := fill_range (km_mem k) v 1 PGSIZE in     (* memset(v, 1, PGSIZE) *)
    let m := st32 m v (freelist k) in                (* r->next = kmem.freelist *)
    Ret tt (Kmem m (use_lock k) v (total_free_pages k)).

Definition kalloc : kern kmem Z := fun k =>
  let n := i32 (total_free_pages k - 1) in
  let r := freelist k in
  let fl := if r =? 0 then freelist k else ld32 (km_mem k) r in
  Ret r (Kmem (km_mem k) (use_lock k) fl n).

(** [for(p = PGROUNDUP(vstart); p + PGSIZE <= vend; p += PGSIZE) kfree(p)];
    the [n] iterations that remain are computed by [freerange]. *)
Fixpoint freerange_loop (n : nat) (p vend : Z) : kern kmem unit :=
  if p + PGSIZE <=? vend then
    match n with
    | O => fun _ => Fuel
    | S n => kfree p ;; freerange_loop n (p + PGSIZE) vend
    end
  else mret tt.

Definition freerange (vstart vend : Z) : kern kmem unit :=
  let p := PGROUNDUP vstart in
  freerange_loop (Z.to_nat ((vend - p) / PGSIZE)) p vend.

Definition kinit1 (vstart vend : Z) : kern kmem unit :=
  modify (fun k => Kmem (km_mem k) false (freelist k) (total_free_pages k)) ;;
  freerange vstart vend.

Definition kinit2 (vstart vend : Z) : kern kmem unit :=
  freerange vstart vend ;;
  modify (fun k => Kmem (km_mem k) true (freelist k) (total_free_pages k)).

(** ** The invariant *)

(** A page the allocator may own. *)
Definition page_ok (v : Z) : Prop :=
  v mod PGSIZE = 0 /\ kend <= v /\ KERNBASE < v /\ v < KERNBASE + PHYSTOP.

Inductive freelist_at (m : mem) : Z -> list Z -> Prop :=
| freelist_nil : freelist_at m 0 []
| freelist_cons p l :
    page_ok p -> freelist_at m (ld32 m p) l -> freelist_at m p (p :: l).

(** The free pages are the list [l], without repetition. *)
Record kmem_inv (k : kmem) (l : list Z) : Prop := {
  inv_mem : mem_ok (km_mem k);
  inv_list : freelist_at (km_mem k) (freelist k) l;
  inv_nodup : NoDup l;
}.

Definition same_page (x p : Z) : Prop := p <= x < p + PGSIZE.

(** ** Addresses *)

Lemma V2P_id v : KERNBASE <= v < KERNBASE + PHYSTOP -> V2P v = v - KERNBASE.
Proof. intros H. unfold V2P. apply u32_id. unfold is_u32, KERNBASE, PHYSTOP in *. lia. Qed.

Lemma P2V_V2P v : is_u32 v -> P2V (V2P v) = v.
Proof.
  intros H. unfold P2V, V2P, u32.
  rewrite Zplus_mod_idemp_l. replace (v - KERNBASE + KERNBASE) with v by lia.
  by apply Z.mod_small.
Qed.

Lemma page_ok_u32 v : page_ok v -> is_u32 v.
Proof.
  intros (_ & _ & H1 & H2). unfold is_u32, KERNBASE, PHYSTOP in *. lia.
Qed.

Lemma page_ok_V2P v : page_ok v -> V2P v = v - KERNBASE.
Proof. intros (_ & _ & H1 & H2). apply V2P_id. lia. Qed.

Lemma page_ok_nonzero v : page_ok v -> v <> 0.
Proof. intros (_ & _ & H & _). unfold KERNBASE in H. lia. Qed.

(** Distinct pages do not overlap. *)
Lemma pages_apart p q :
  p mod PGSIZE = 0 -> q mod PGSIZE = 0 -> p <> q -> p + PGSIZE <= q \/ q + PGSIZE <= p.
Proof.
  intros Hp Hq Hne. unfold PGSIZE in *.
  apply Z.mod_divide in Hp as [a ->], Hq as [b ->]; [|lia..]. lia.
Qed.

(** A linked list depends only on the first words of its pages. *)
Lemma freelist_at_ext m m' p l :
  freelist_at m p l ->
  (forall q, q ∈ l -> ld32 m' q = ld32 m q) -> freelist_at m' p l.
Proof.
  induction 1 as [|p l Hp Hl IH]; intros Hm; constructor; auto.
  rewrite Hm by set_solver. apply IH. set_solver.
Qed.

Lemma freelist_pages m p l : freelist_at m p l -> Forall page_ok l.
Proof. induction 1; auto. Qed.

Lemma freelist_head m p l :
  freelist_at m p l -> (p = 0 /\ l = []) \/ (exists l', l = p :: l' /\ p <> 0).
Proof.
  inversion 1; subst; [by left|right]. eexists. eauto using page_ok_nonzero.
Qed.

(** Memory writes outside the free pages keep the allocator's invariant. *)
Lemma kmem_inv_frame k k' l :
  kmem_inv k l -> mem_ok (km_mem k') -> freelist k' = freelist k ->
  (forall q, q ∈ l -> ld32 (km_mem k') q = ld32 (km_mem k) q) ->
  kmem_inv k' l.
Proof.
  intros [Hm Hl Hn] Hm' Hf He. split; auto. rewrite Hf.
  eapply freelist_at_ext; eauto.
Qed.

(** ** kfree and kalloc *)

(** Freeing a page that is not free puts it at the head of the free list. *)
Lemma kfree_inv k l v :
  kmem_inv k l -> page_ok v -> v ∉ l ->
  exists k', kfree v k = Ret tt k' /\ kmem_inv k' (v :: l) /\
    total_free_pages k' = i32 (total_free_pages k + 1) /\
    use_lock k' = use_lock k /\
    (forall x, ~ same_page x v -> km_mem k' x = km_mem k x).
Proof.
  intros [Hm Hl Hn] Hv Hnew. pose proof Hv as (Ha & He & Hb & Ht).
  unfold kfree. rewrite page_ok_V2P by done. rewrite Ha. simpl.
  destruct (Z.ltb_spec v kend); [lia|].
  destruct (Z.leb_spec PHYSTOP (v - KERNBASE)); [lia|]. simpl.
  eexists. split; [done|]. split; [|split; [done|split; [done|]]].
  - split; simpl.
    + apply st32_ok, fill_ok; [done|]. unfold is_u8. lia.
    + constructor; [done|]. rewrite ld32_st32_eq.
      assert (Hr : u32 (freelist k) = freelist k).
      { apply u32_id. destruct (freelist_head _ _ _ Hl) as [[-> _]|(l' & -> & _)].
        - unfold is_u32. lia.
        - inversion Hl; subst. by apply page_ok_u32. }
      rewrite Hr. eapply freelist_at_ext; [exact Hl|].
      intros q Hq.
      assert (Hqp : page_ok q).
      { eapply Forall_forall; [eapply freelist_pages; exact Hl|done]. }
      assert (q <> v) by set_solver.
      destruct (pages_apart q v) as [?|?]; [apply Hqp|done|done|..];
        unfold PGSIZE in *; (rewrite ld32_st32_ne by lia; apply ld32_fill_out; lia).
    + by constructor.
  - intros x Hx. simpl. unfold same_page, PGSIZE in *.
    rewrite st32_other, fill_out by lia. done.
Qed.

(** [kalloc] on a non-empty free list returns its head and removes it. *)
Lemma kalloc_inv k p l :
  kmem_inv k (p :: l) ->
  exists k', kalloc k = Ret p k' /\ kmem_inv k' l /\ page_ok p /\ (p ∉ l) /\
    km_mem k' = km_mem k /\ use_lock k' = use_lock k /\
    total_free_pages k' = i32 (total_free_pages k - 1).
Proof.
  intros [Hm Hl Hn]. remember (freelist k) as q eqn:Eq.
  inversion Hl as [|? ? Hp Hl' E1 E2]; subst q; subst.
  apply NoDup_cons in Hn as [Hnp Hn]. unfold kalloc.
  set (p := freelist k) in *.
  destruct (Z.eqb_spec p 0) as [->|Hne]; [by apply page_ok_nonzero in Hp|].
  eexists. split; [done|]. split_and!; try done.
Qed.

(** [kalloc] on an empty free list returns the null pointer. *)
Lemma kalloc_empty k :
  kmem_inv k [] ->
  exists k', kalloc k = Ret 0 k' /\ kmem_inv k' [] /\ km_mem k' = km_mem k /\
    total_free_pages k' = i32 (total_free_pages k - 1).
Proof.
  intros [Hm Hl Hn]. inversion Hl as [E|]. unfold kalloc. rewrite <- E. simpl.
  eexists. split; [done|]. split_and!; try done. split; simpl; try done. constructor.
Qed.

(** What a caller of [kalloc] sees, whichever branch is taken. *)
Lemma kalloc_cases k l :
  kmem_inv k l ->
  (l = [] /\ exists k', kalloc k = Ret 0 k' /\ kmem_inv k' [] /\ km_mem k' = km_mem k)
  \/ (exists p l' k', l = p :: l' /\ kalloc k = Ret p k' /\ kmem_inv k' l' /\
        page_ok p /\ (p ∉ l') /\ km_mem k' = km_mem k).
Proof.
  intros Hk. destruct l as [|p l].
  - left. split; [done|].
    destruct (kalloc_empty k Hk) as (k' & E & Hk' & Em & _). eauto.
  - right. destruct (kalloc_inv k p l Hk) as (k' & ? & ? & ? & ? & ? & ?).
    exists p, l, k'. naive_solver.
Qed.

(** ** freerange *)

(** The page addresses [p, p + PGSIZE, ...] of [n] consecutive pages. *)
Fixpoint pages_from (p : Z) (n : nat) : list Z :=
  match n with
  | O => []
  | S n => p :: pages_from (p + PGSIZE) n
  end.

Lemma elem_pages_from p n q :
  q ∈ pages_from p n -> p <= q /\ q < p + PGSIZE * Z.of_nat n.
Proof.
  revert p. induction n as [|n IH]; intros p; simpl; [set_solver|].
  intros [->|H]%elem_of_cons; unfold PGSIZE in *; [lia|].
  apply IH in H. lia.
Qed.

Lemma freerange_loop_inv k l p vend n :
  kmem_inv k l -> p mod PGSIZE = 0 -> kend <= p -> KERNBASE < p ->
  vend <= KERNBASE + PHYSTOP ->
  (forall q, q ∈ l -> q < p \/ vend <= q) ->
  n = Z.to_nat ((vend - p) / PGSIZE) ->
  exists k', freerange_loop n p vend k = Ret tt k' /\
    kmem_inv k' (reverse (pages_from p n) ++ l) /\ use_lock k' = use_lock k /\
    u32 (total_free_pages k') = u32 (total_free_pages k + Z.of_nat n).
Proof.
  revert k l p. induction n as [|n IH]; intros k l p Hk Ha He Hb Ht Hl Hn; simpl.
  - destruct (Z.leb_spec (p + PGSIZE) vend) as [Hle|_].
    + exfalso. assert (1 <= (vend - p) / PGSIZE); [|lia].
      apply Z.div_le_lower_bound; unfold PGSIZE in *; lia.
    + exists k. split_and!; try done. by rewrite Z.add_0_r.
  - assert (Hle : p + PGSIZE <= vend).
    { assert (1 <= (vend - p) / PGSIZE) by lia.
      assert (PGSIZE * 1 <= PGSIZE * ((vend - p) / PGSIZE))
        by (apply Z.mul_le_mono_nonneg_l; unfold PGSIZE in *; lia).
      pose proof (Z.mul_div_le (vend - p) PGSIZE). unfold PGSIZE in *. lia. }
    destruct (Z.leb_spec (p + PGSIZE) vend) as [_|]; [|lia].
    assert (Hp : page_ok p) by (unfold page_ok, PGSIZE in *; split_and!; lia).
    destruct (kfree_inv k l p Hk Hp) as (k1 & E1 & Hk1 & Hc1 & Hu1 & _).
    { intros Hin. destruct (Hl p Hin); unfold PGSIZE in *; lia. }
    rewrite (bind_Ret _ _ _ _ _ E1).
    destruct (IH k1 (p :: l) (p + PGSIZE)) as (k' & E' & Hk' & Hu & Hc); auto.
    { by rewrite Zplus_mod, Ha. }
    1-2: unfold PGSIZE in *; lia.
    { intros q [->|Hq]%elem_of_cons; [left; unfold PGSIZE; lia|].
      destruct (Hl q Hq); [left; unfold PGSIZE in *; lia|by right]. }
    { replace (vend - (p + PGSIZE)) with (vend - p + (-1) * PGSIZE) by lia.
      rewrite Z.div_add by done. lia. }
    exists k'. rewrite reverse_cons, <- app_assoc. split_and!; try done; [congruence|].
    rewrite Hc, Hc1. unfold u32, i32, u32.
    destruct (_ <? _); rewrite <- (Zplus_mod_idemp_l _ (Z.of_nat n)).
    + rewrite Zmod_mod, Zplus_mod_idemp_l. f_equal. lia.
    + replace ((total_free_pages k + 1) mod 2 ^ 32 - 2 ^ 32)
        with ((total_free_pages k + 1) mod 2 ^ 32 + (-1) * 2 ^ 32) by lia.
      rewrite Z_mod_plus_full, Zmod_mod, Zplus_mod_idemp_l. f_equal. lia.
Qed.

(** ** Clients of the allocator

    [a] is the list of pages handed out.  A client may allocate, give back a
    page it holds, and write any bytes of the pages it holds. *)
Inductive kstep : kmem * list Z -> kmem * list Z -> Prop :=
| kstep_alloc k a p k' :
    kalloc k = Ret p k' -> p <> 0 -> kstep (k, a) (k', p :: a)
| kstep_nomem k a k' :
    kalloc k = Ret 0 k' -> kstep (k, a) (k', a)
| kstep_free k a1 p a2 k' :
    kfree p k = Ret tt k' -> kstep (k, a1 ++ p :: a2) (k', a1 ++ a2)
| kstep_write k a p x v :
    p ∈ a -> same_page x p ->
    kstep (k, a) (with_mem (fun m => st8 m x v) k, a).

(** Free pages and pages handed out together are the initial pages. *)
Definition kparted (l0 : list Z) (st : kmem * list Z) : Prop :=
  exists l, kmem_inv st.1 l /\ Forall page_ok st.2 /\ l ++ st.2 ≡ₚ l0.

Lemma kparted_step l0 st st' :
  NoDup l0 -> kparted l0 st -> kstep st st' -> kparted l0 st'.
Proof.
  intros Hnd (l & Hk & Ha & Hp) Hs. inversion Hs; subst; simpl in *.
  - destruct (kalloc_cases k l Hk) as [[-> (k1 & E & _)]|(q & l' & k1 & -> & E & Hk1 & Hq & _)];
      rewrite E in *; simplify_eq.
    exists l'. simpl. rewrite Forall_cons, <- Permutation_middle. auto.
  - destruct (kalloc_cases k l Hk) as [[-> (k1 & E & Hk1 & _)]|(q & l' & k1 & -> & E & Hk1 & Hq & _)];
      rewrite E in *; simplify_eq; [by exists []|].
    by apply page_ok_nonzero in Hq.
  - apply Forall_app in Ha as [Ha1 [Hpp Ha2]%Forall_cons].
    assert (Hnew : p ∉ l).
    { rewrite <- Hp in Hnd. apply NoDup_app in Hnd as (_ & Hd & _).
      intros Hin. apply (Hd p Hin). set_solver. }
    destruct (kfree_inv k l p Hk Hpp Hnew) as (k1 & E & Hk1 & _).
    rewrite E in *. simplify_eq. exists (p :: l). simpl. split_and!; auto.
    { by apply Forall_app. }
    rewrite <- Hp, !(app_assoc l a1). apply Permutation_middle.
  - exists l. split_and!; auto. destruct Hk as [Hm Hl Hn].
    eapply kmem_inv_frame; [by split| | |]; simpl; auto with word.
    intros q Hq. apply ld32_ext. intros y Hy. apply st8_ne.
    assert (Hqp : page_ok q) by (eapply Forall_forall; [eapply freelist_pages; eauto|done]).
    assert (Hpp : page_ok p) by (eapply Forall_forall; [exact Ha|done]).
    assert (q <> p).
    { intros ->. rewrite <- Hp in Hnd. apply NoDup_app in Hnd as (_ & Hd & _).
      by apply (Hd p Hq). }
    unfold same_page in *.
    destruct (pages_apart q p) as [?|?]; [apply Hqp|apply Hpp|done|..];
      unfold PGSIZE in *; lia.
Qed.

End kalloc.

#[export] Hint Resolve page_ok_u32 page_ok_nonzero : word.


(** [freerange] terminates without a panic and puts exactly the whole pages
    between [vstart] and [vend] on the free list, once each, counting them. *)
Theorem freerange_frees_range kend k vstart vend :
  kmem_inv kend k [] -> 0 <= vstart -> kend <= vstart -> KERNBASE < vstart ->
  vstart <= vend -> vend <= KERNBASE + PHYSTOP ->
  let first := PGROUNDUP vstart in
  let n := Z.to_nat ((vend - first) / PGSIZE) in
  exists k', freerange kend vstart vend k = Ret tt k' /\
    kmem_inv kend k' (reverse (pages_from first n)) /\
    u32 (total_free_pages k') = u32 (total_free_pages k + Z.of_nat n).
Proof.
  intros Hk H0 He Hb Hle Ht first n.
  assert (Hr : is_u32 (vstart + PGSIZE - 1))
    by (unfold is_u32, PGSIZE, KERNBASE, PHYSTOP in *; lia).
  assert (Hf : first = vstart + PGSIZE - 1 - (vstart + PGSIZE - 1) mod 4096).
  { unfold first, PGROUNDUP. rewrite u32_id by done. by apply land_not_fff. }
  pose proof (Z.mod_pos_bound (vstart + PGSIZE - 1) 4096).
  destruct (freerange_loop_inv kend k [] first vend n) as (k' & E & Hk' & _ & Hc);
    auto; unfold PGSIZE in *.
  - rewrite Hf. rewrite Zminus_mod_idemp_r. by rewrite Z.sub_diag.
  - lia.
  - lia.
  - set_solver.
  - exists k'. rewrite app_nil_r in Hk'. eauto.
Qed.

(** The counter [total_free_pages] agrees with the length of the free list
    after a [kalloc] exactly when the allocation succeeded: a failed allocation
    decrements the counter although no page left the list. *)
Theorem free_count_exact_iff_allocated kend k l :
  kmem_inv kend k l -> total_free_pages k = Z.of_nat (length l) ->
  Z.of_nat (length l) < 2 ^ 31 ->
  exists r k' l', kalloc k = Ret r k' /\ kmem_inv kend k' l' /\
    (total_free_pages k' = Z.of_nat (length l') <-> r <> 0).
Proof.
  intros Hk Hc Hb. destruct l as [|p l].
  - destruct (kalloc_empty kend k Hk) as (k' & E & Hk' & _ & Ht).
    exists 0, k', []. split_and!; try done. rewrite Ht, Hc. by split.
  - destruct (kalloc_inv kend k p l Hk) as (k' & E & Hk' & Hp & _ & _ & _ & Ht).
    exists p, k', l. split_and!; try done. rewrite Ht, Hc. simpl length in *.
    split; [by eauto with word|intros _].
    replace (Z.of_nat (S (length l)) - 1) with (Z.of_nat (length l)) by lia.
    unfold i32. rewrite u32_id by (unfold is_u32; lia).
    destruct (Z.ltb_spec (Z.of_nat (length l)) (2 ^ 31)); lia.
Qed.

(** ** Witnesses *)

Definition wit_end : Z := 0x80108000.

(** A machine with one free page. *)
Definition wit_k1 : kmem := Kmem (fun _ => 0) false 0x80200000 1.

Lemma wit_k1_inv : kmem_inv wit_end wit_k1 [0x80200000].
Proof.
  split.
  - intros a. unfold is_u8. simpl. lia.
  - simpl. constructor; [|exact (freelist_nil _ _)].
    unfold page_ok, wit_end, KERNBASE, PHYSTOP. split_and!; [done|lia..].
  - repeat constructor. set_solver.
Qed.


Definition wit_k0 : kmem := Kmem (fun _ => 0) false 0 0.

Lemma wit_k0_inv : kmem_inv wit_end wit_k0 [].
Proof.
  split; [intros a; unfold is_u8; simpl; lia|constructor|constructor].
Qed.

Lemma freerange_frees_range_witness :
  exists k', freerange wit_end 0x80200001 0x80204000 wit_k0 = Ret tt k' /\
    kmem_inv wit_end k' [0x80203000; 0x80202000; 0x80201000].
Proof.
  destruct (freerange_frees_range wit_end wit_k0 0x80200001 0x80204000 wit_k0_inv)
    as (k' & E & Hk & _); try (unfold wit_end, KERNBASE, PHYSTOP; lia).
  exists k'. split; [exact E|exact Hk].
Defined.

Lemma free_count_witness :
  exists r k' l', kalloc wit_k0 = Ret r k' /\ kmem_inv wit_end k' l' /\
    (total_free_pages k' = Z.of_nat (length l') <-> r <> 0).
Proof. apply (free_count_exact_iff_allocated wit_end wit_k0 [] wit_k0_inv); done. Defined.
