(* ===== verification/Vm.v ===== *)
(** Two-level page tables: the walk and the mapping routines of [vm.c].

    Page directories and page tables live in pages obtained from [kalloc]; a
    page-table entry is a 32-bit word of memory.  [walkpgdir] and [mappages] run
    on the allocator's state.  [pte_of] is the logical content of an address
    space, the entry for every virtual address (0 where no table exists), and
    [pt_wf] the structure invariant under which the routines keep it intact. *)

From S2P Require Import Prelude Memory Kalloc.

(** ** mmu.h *)

Definition PDX (va : Z) : Z := Z.land (Z.shiftr va 22) 0x3FF.
Definition PTX (va : Z) : Z := Z.land (Z.shiftr va 12) 0x3FF.
Definition PGADDR (d t o : Z) : Z :=
  u32 (Z.lor (Z.lor (Z.shiftl d 22) (Z.shiftl t 12)) o).
Definition NPDENTRIES : Z := 1024.

Definition PTE_P : Z := 0x001.
Definition PTE_W : Z := 0x002.
Definition PTE_U : Z := 0x004.
Definition PTE_A : Z := 0x020.
Definition PTE_PG : Z := 0x200.
Definition PTE_ADDR (pte : Z) : Z := Z.land (u32 pte) 0xFFFFF000.
Definition PTE_FLAGS (pte : Z) : Z := Z.land (u32 pte) 0xFFF.

(** ** The routines *)

(** Address of the entry for [va], 0 if its page table does not exist (and
    could not be created). *)
Definition walkpgdir (pgdir va : Z) (alloc : bool) : kern kmem Z :=
  pde ← load32 (pgdir + 4 * PDX va);
  if has pde PTE_P then mret (P2V (PTE_ADDR pde) + 4 * PTX va)
  else if negb alloc then mret 0
  else
    pgtab ← kalloc;
    if pgtab =? 0 then mret 0
    else
      memset_k pgtab 0 PGSIZE ;;
      store32 (pgdir + 4 * PDX va) (Z.lor (Z.lor (Z.lor (V2P pgtab) PTE_P) PTE_W) PTE_U) ;;
      mret (pgtab + 4 * PTX va).

(** [for(;;)] of [mappages]: [n] bounds the iterations, [a] advances to [last]. *)
Fixpoint mappages_loop (n : nat) (pgdir a last pa perm : Z) : kern kmem Z :=
  match n with
  | O => fun _ => Fuel
  | S n =>
      pte ← walkpgdir pgdir a true;
      if pte =? 0 then mret (-1)
      else
        old ← load32 pte;
        if has old PTE_P then panic "remap"
        else
          store32 pte (Z.lor (Z.lor pa perm) PTE_P) ;;
          if a =? last then mret 0
          else mappages_loop n pgdir (u32 (a + PGSIZE)) last (u32 (pa + PGSIZE)) perm
  end.

Definition mappages (pgdir va size pa perm : Z) : kern kmem Z :=
  let a := PGROUNDDOWN va in
  let last := PGROUNDDOWN (va + size - 1) in
  if negb (Z.land size (PGSIZE - 1) =? 0)
  then panic "mappages: size not multiple of PGSIZE"
  else mappages_loop (Z.to_nat (u32 (last - a) / PGSIZE + 1)) pgdir a last pa perm.

Definition clearpteu (pgdir uva : Z) : kern kmem unit :=
  pte ← walkpgdir pgdir uva false;
  if pte =? 0 then panic "clearpteu"
  else old ← load32 pte; store32 pte (Z.land old (Z.lnot PTE_U)).

(** The walk's result is dereferenced without a test: a null pointer faults in
    the kernel (page 0 is unmapped), which is [panic("trap")]. *)
Definition uva2ka (pgdir uva : Z) : kern kmem Z :=
  pte ← walkpgdir pgdir uva false;
  if pte =? 0 then panic "trap"
  else
    e ← load32 pte;
    if negb (has e PTE_P) then mret 0
    else if negb (has e PTE_U) then mret 0
    else mret (P2V (PTE_ADDR e)).

(** [while(len > 0)] of [copyout]; every iteration consumes at least one byte,
    so [len] iterations are enough. *)
Fixpoint copyout_loop (fuel : nat) (pgdir va buf len : Z) : kern kmem Z :=
  if len <=? 0 then mret 0
  else
    match fuel with
    | O => fun _ => Fuel
    | S fuel =>
        let va0 := PGROUNDDOWN va in
        pa0 ← uva2ka pgdir va0;
        if pa0 =? 0 then mret (-1)
        else
          let n := PGSIZE - (va - va0) in
          let n := if len <? n then len else n in
          memmove_k (pa0 + (va - va0)) buf n ;;
          copyout_loop fuel pgdir (u32 (va0 + PGSIZE)) (buf + n) (len - n)
    end.

Definition copyout (pgdir va p len : Z) : kern kmem Z :=
  copyout_loop (Z.to_nat len) pgdir va p len.

(** ** The logical view *)

Definition pde_at (m : mem) (pgdir va : Z) : Z := ld32 m (pgdir + 4 * PDX va).

Definition table_of (m : mem) (pgdir i : Z) : Z := P2V (PTE_ADDR (ld32 m (pgdir + 4 * i))).

Definition present_pde (m : mem) (pgdir i : Z) : bool := has (ld32 m (pgdir + 4 * i)) PTE_P.

Definition pte_addr (m : mem) (pgdir va : Z) : Z := table_of m pgdir (PDX va) + 4 * PTX va.

Definition pte_of (m : mem) (pgdir va : Z) : Z :=
  if present_pde m pgdir (PDX va) then ld32 m (pte_addr m pgdir va) else 0.

(** The page tables of a directory. *)
Definition tables (m : mem) (pgdir : Z) : list Z :=
  table_of m pgdir <$> filter (fun i => present_pde m pgdir i = true) (seqZ 0 1024).

(** Two addresses on the same page. *)
Definition same_vpage (va vb : Z) : Prop := PDX va = PDX vb /\ PTX va = PTX vb.

#[global] Instance same_vpage_dec va vb : Decision (same_vpage va vb).
Proof. unfold same_vpage. apply _. Defined.

Section pt.
Variable kend : Z.

(** Page tables are distinct kernel pages, none of them free. *)
Record pt_wf (m : mem) (pgdir : Z) (l : list Z) : Prop := {
  pt_dir : page_ok kend pgdir;
  pt_dir_used : pgdir ∉ l;
  pt_tab i : 0 <= i < 1024 -> present_pde m pgdir i = true ->
    page_ok kend (table_of m pgdir i) /\ table_of m pgdir i <> pgdir /\
    (table_of m pgdir i ∉ l);
  pt_inj i j : 0 <= i < 1024 -> 0 <= j < 1024 ->
    present_pde m pgdir i = true -> present_pde m pgdir j = true ->
    table_of m pgdir i = table_of m pgdir j -> i = j;
}.

Lemma PDX_range va : 0 <= PDX va < 1024.
Proof.
  unfold PDX. change 0x3FF with (Z.ones 10). rewrite Z.land_ones by lia.
  apply Z.mod_pos_bound. lia.
Qed.

Lemma PTX_range va : 0 <= PTX va < 1024.
Proof.
  unfold PTX. change 0x3FF with (Z.ones 10). rewrite Z.land_ones by lia.
  apply Z.mod_pos_bound. lia.
Qed.

Lemma PTE_ADDR_spec x : is_u32 x -> PTE_ADDR x = x - x mod 4096.
Proof. intros H. unfold PTE_ADDR. rewrite u32_id by done. by apply land_not_fff. Qed.

Lemma PTE_FLAGS_spec x : is_u32 x -> PTE_FLAGS x = x mod 4096.
Proof. intros H. unfold PTE_FLAGS. rewrite u32_id by done. apply land_fff. Qed.

Lemma has_P_0 : has 0 PTE_P = false.
Proof. done. Qed.

(** An entry made of a page address and flags gives both back. *)
Lemma pte_make a f :
  is_u32 a -> a mod PGSIZE = 0 -> 0 <= f < 4096 ->
  is_u32 (Z.lor a f) /\ PTE_ADDR (Z.lor a f) = a /\ PTE_FLAGS (Z.lor a f) = f.
Proof.
  intros Ha Hal Hf. unfold PGSIZE in Hal.
  rewrite (lor_add_aligned 12) by (change (2 ^ 12) with 4096; lia).
  assert (Hr : is_u32 (a + f)).
  { unfold is_u32 in *. pose proof (Z.div_mod a 4096 ltac:(lia)) as E.
    rewrite Hal in E. assert (a / 4096 < 1048576) by (apply Z.div_lt_upper_bound; lia). lia. }
  assert (Hm : (a + f) mod 4096 = f).
  { rewrite Zplus_mod, Hal, Z.add_0_l, Z.mod_mod by lia. apply Z.mod_small. lia. }
  split_and!; [done| |].
  - rewrite PTE_ADDR_spec by done. lia.
  - rewrite PTE_FLAGS_spec by done. done.
Qed.

(** The directory entry that [walkpgdir] installs for a fresh table. *)
Lemma pde_make p :
  page_ok kend p ->
  let e := Z.lor (Z.lor (Z.lor (V2P p) PTE_P) PTE_W) PTE_U in
  u32 e = e /\ has e PTE_P = true /\ P2V (PTE_ADDR e) = p.
Proof.
  intros Hp e. pose proof Hp as (Ha & _ & Hb & Ht).
  assert (E : e = Z.lor (V2P p) 7).
  { unfold e. rewrite <- !Z.lor_assoc. done. }
  rewrite E, (page_ok_V2P _ _ Hp).
  destruct (pte_make (p - KERNBASE) 7) as (Hr & Hadr & _).
  - unfold is_u32, KERNBASE, PHYSTOP in *. lia.
  - unfold PGSIZE, KERNBASE in *. rewrite Zminus_mod, Ha. done.
  - lia.
  - split_and!.
    + by apply u32_id.
    + rewrite has_lor. apply orb_true_iff. by right.
    + rewrite Hadr. rewrite <- (page_ok_V2P _ _ Hp). apply P2V_V2P. eauto with word.
Qed.

(** Entry addresses of one well-formed tree are distinct words of distinct pages. *)
Lemma pte_addr_in_page m pgdir va :
  same_page (pte_addr m pgdir va) (table_of m pgdir (PDX va)) /\
  pte_addr m pgdir va + 4 <= table_of m pgdir (PDX va) + PGSIZE.
Proof.
  unfold same_page, pte_addr, PGSIZE. pose proof (PTX_range va). lia.
Qed.

Lemma pte_addr_apart m pgdir l va vb :
  pt_wf m pgdir l ->
  present_pde m pgdir (PDX va) = true -> present_pde m pgdir (PDX vb) = true ->
  ~ same_vpage va vb ->
  pte_addr m pgdir va + 4 <= pte_addr m pgdir vb \/
  pte_addr m pgdir vb + 4 <= pte_addr m pgdir va.
Proof.
  intros Hw Ha Hb Hne. unfold pte_addr.
  pose proof (PTX_range va). pose proof (PTX_range vb).
  pose proof (PDX_range va). pose proof (PDX_range vb).
  destruct (pt_tab _ _ _ Hw (PDX va)) as ((Hpa & _) & _ & _); [done..|].
  destruct (pt_tab _ _ _ Hw (PDX vb)) as ((Hpb & _) & _ & _); [done..|].
  destruct (decide (table_of m pgdir (PDX va) = table_of m pgdir (PDX vb))) as [E|E].
  - rewrite E. assert (PDX va = PDX vb) by (eapply pt_inj; eauto).
    assert (PTX va <> PTX vb) by (unfold same_vpage in Hne; tauto). lia.
  - destruct (pages_apart _ _ Hpa Hpb E); unfold PGSIZE in *; lia.
Qed.

(** Directory words of distinct indices, and of the directory and a table, are
    apart. *)
Lemma pde_apart pgdir i j :
  i <> j -> pgdir + 4 * i + 4 <= pgdir + 4 * j \/ pgdir + 4 * j + 4 <= pgdir + 4 * i.
Proof. lia. Qed.

Lemma tab_dir_apart m pgdir l i a :
  pt_wf m pgdir l -> 0 <= i < 1024 -> present_pde m pgdir i = true ->
  same_page a (table_of m pgdir i) -> a + 4 <= table_of m pgdir i + PGSIZE ->
  forall j, 0 <= j < 1024 -> pgdir + 4 * j + 4 <= a \/ a + 4 <= pgdir + 4 * j.
Proof.
  intros Hw Hi Hp Ha Ha4 j Hj. destruct (pt_tab _ _ _ Hw i Hi Hp) as ((Hal & _) & Hne & _).
  destruct (pt_dir _ _ _ Hw) as (Hd & _). unfold same_page in *.
  destruct (pages_apart _ _ Hal Hd Hne); unfold PGSIZE in *; lia.
Qed.

(** Writing one entry changes the logical view at its page only. *)
Lemma pte_of_store m pgdir l va v vb :
  pt_wf m pgdir l -> present_pde m pgdir (PDX va) = true ->
  pte_of (st32 m (pte_addr m pgdir va) v) pgdir vb =
  if decide (same_vpage va vb) then u32 v else pte_of m pgdir vb.
Proof.
  intros Hw Hp. set (a := pte_addr m pgdir va).
  pose proof (pte_addr_in_page m pgdir va) as [Hin Hin4].
  assert (Hpde : forall j, 0 <= j < 1024 ->
    ld32 (st32 m a v) (pgdir + 4 * j) = ld32 m (pgdir + 4 * j)).
  { intros j Hj. apply ld32_st32_ne.
    destruct (tab_dir_apart m pgdir l (PDX va) a Hw (PDX_range va) Hp Hin Hin4 j Hj); auto. }
  unfold pte_of, present_pde. rewrite Hpde by apply PDX_range.
  fold (present_pde m pgdir (PDX vb)).
  assert (Hadr : pte_addr (st32 m a v) pgdir vb = pte_addr m pgdir vb).
  { unfold pte_addr, table_of. by rewrite Hpde by apply PDX_range. }
  rewrite Hadr. case_decide as Hs.
  - destruct Hs as [Hs1 Hs2]. rewrite <- Hs1, Hp.
    replace (pte_addr m pgdir vb) with a by (unfold a, pte_addr; congruence).
    apply ld32_st32_eq.
  - destruct (present_pde m pgdir (PDX vb)) eqn:Eb; [|done].
    apply ld32_st32_ne. destruct (pte_addr_apart m pgdir l va vb); auto.
Qed.

(** A change of memory that leaves the directory and its tables alone. *)
Definition pt_same (m m' : mem) (pgdir : Z) : Prop :=
  (forall x, same_page x pgdir -> m' x = m x) /\
  (forall i x, 0 <= i < 1024 -> present_pde m pgdir i = true ->
     same_page x (table_of m pgdir i) -> m' x = m x).

Lemma pt_same_pde m m' pgdir i :
  pt_same m m' pgdir -> 0 <= i < 1024 ->
  ld32 m' (pgdir + 4 * i) = ld32 m (pgdir + 4 * i).
Proof.
  intros [Hd _] Hi. apply ld32_ext. intros x Hx. apply Hd.
  unfold same_page, PGSIZE. lia.
Qed.

Lemma pt_same_pte_of m m' pgdir va : pt_same m m' pgdir -> pte_of m' pgdir va = pte_of m pgdir va.
Proof.
  intros Hs. pose proof (PDX_range va). unfold pte_of, pte_addr, table_of, present_pde.
  rewrite (pt_same_pde m m') by done.
  fold (present_pde m pgdir (PDX va)). fold (table_of m pgdir (PDX va)).
  destruct (present_pde m pgdir (PDX va)) eqn:E; [|done].
  apply ld32_ext. intros x Hx. eapply (proj2 Hs); eauto.
  pose proof (PTX_range va). unfold same_page, PGSIZE. lia.
Qed.

Lemma pt_same_wf m m' pgdir l l' :
  pt_same m m' pgdir -> (forall q, q ∈ l' -> q ∈ l) -> pt_wf m pgdir l -> pt_wf m' pgdir l'.
Proof.
  intros Hs Hl [Hd Hu Ht Hi].
  assert (He : forall i, 0 <= i < 1024 ->
    present_pde m' pgdir i = present_pde m pgdir i /\ table_of m' pgdir i = table_of m pgdir i).
  { intros i Hr. unfold present_pde, table_of. by rewrite (pt_same_pde m m'). }
  split; [done|eauto| |].
  - intros i Hr. destruct (He i Hr) as [-> ->]. intros Hp.
    destruct (Ht i Hr Hp) as (? & ? & ?). naive_solver.
  - intros i j Hr Hr'. destruct (He i Hr) as [-> ->], (He j Hr') as [-> ->]. eauto.
Qed.

(** A store into a page table keeps the tree well formed. *)
Lemma pt_wf_store m pgdir l va v :
  pt_wf m pgdir l -> present_pde m pgdir (PDX va) = true ->
  pt_wf (st32 m (pte_addr m pgdir va) v) pgdir l.
Proof.
  intros Hw Hp. pose proof Hw as [Hd Hu Ht Hi].
  pose proof (pte_addr_in_page m pgdir va) as [Hin Hin4].
  assert (He : forall i, 0 <= i < 1024 ->
    ld32 (st32 m (pte_addr m pgdir va) v) (pgdir + 4 * i) = ld32 m (pgdir + 4 * i)).
  { intros j Hj. apply ld32_st32_ne.
    destruct (tab_dir_apart m pgdir l (PDX va) _ Hw (PDX_range va) Hp Hin Hin4 j Hj); auto. }
  split; [done|done| |].
  - intros i Hr. unfold present_pde, table_of. rewrite He by done. apply Ht. done.
  - intros i j Hr Hr'. unfold present_pde, table_of. rewrite !He by done. by apply Hi.
Qed.

(** ** walkpgdir *)

Lemma walkpgdir_noalloc k pgdir va :
  walkpgdir pgdir va false k =
  Ret (if present_pde (km_mem k) pgdir (PDX va) then pte_addr (km_mem k) pgdir va else 0) k.
Proof.
  unfold walkpgdir, load32. kunfold. unfold present_pde, pte_addr, table_of. by case_match.
Qed.

Lemma walkpgdir_present k pgdir va alloc :
  present_pde (km_mem k) pgdir (PDX va) = true ->
  walkpgdir pgdir va alloc k = Ret (pte_addr (km_mem k) pgdir va) k.
Proof.
  intros H. unfold walkpgdir, load32. kunfold.
  unfold present_pde in H. rewrite H. done.
Qed.

(** Bytes outside the tree of [pgdir] and outside the free pages [l]. *)
Definition outside (m : mem) (pgdir : Z) (l : list Z) (x : Z) : Prop :=
  ~ same_page x pgdir /\
  (forall i, 0 <= i < 1024 -> present_pde m pgdir i = true ->
     ~ same_page x (table_of m pgdir i)) /\
  (forall p, p ∈ l -> ~ same_page x p).

(** What a successful walk with [alloc] leaves: a well-formed tree with a table
    for [va], the same logical view, at most one page less on the free list. *)
Record walk_ok (k : kmem) (l : list Z) (pgdir va : Z) (k' : kmem) (l' : list Z) : Prop := {
  wk_inv : kmem_inv kend k' l';
  wk_wf : pt_wf (km_mem k') pgdir l';
  wk_present : present_pde (km_mem k') pgdir (PDX va) = true;
  wk_view vb : pte_of (km_mem k') pgdir vb = pte_of (km_mem k) pgdir vb;
  wk_list : l' = l \/ exists p, l = p :: l';
  wk_tab i : 0 <= i < 1024 -> present_pde (km_mem k') pgdir i = true ->
    (present_pde (km_mem k) pgdir i = true /\
     table_of (km_mem k') pgdir i = table_of (km_mem k) pgdir i) \/
    table_of (km_mem k') pgdir i ∈ l;
  wk_frame x : outside (km_mem k) pgdir l x -> km_mem k' x = km_mem k x;
  wk_tables : tables (km_mem k') pgdir ++ l' ≡ₚ tables (km_mem k) pgdir ++ l;
}.

Section newtable.
Context (m : mem) (pgdir va p : Z) (l : list Z).
Hypothesis Hw : pt_wf m pgdir (p :: l).
Hypothesis Hp : page_ok kend p.
Hypothesis Hnp : p ∉ l.
Hypothesis Habs : present_pde m pgdir (PDX va) = false.

Let e := Z.lor (Z.lor (Z.lor (V2P p) PTE_P) PTE_W) PTE_U.
Let m' := st32 (fill_range m p 0 PGSIZE) (pgdir + 4 * PDX va) e.

Lemma newtable_apart : p + PGSIZE <= pgdir \/ pgdir + PGSIZE <= p.
Proof.
  destruct (pt_dir _ _ _ Hw) as (Hd & _), Hp as (Ha & _).
  apply pages_apart; [done..|]. pose proof (pt_dir_used _ _ _ Hw). set_solver.
Qed.

Lemma newtable_pde j :
  0 <= j < 1024 ->
  ld32 m' (pgdir + 4 * j) = if decide (j = PDX va) then e else ld32 m (pgdir + 4 * j).
Proof.
  intros Hj. unfold m'. pose proof newtable_apart as Hap. unfold PGSIZE in *.
  destruct (pde_make p Hp) as (Hu & _ & _). fold e in Hu.
  case_decide as E.
  - subst j. by rewrite ld32_st32_eq.
  - rewrite ld32_st32_ne by lia. apply ld32_fill_out. lia.
Qed.

Lemma newtable_tab j :
  0 <= j < 1024 ->
  present_pde m' pgdir j = (if decide (j = PDX va) then true else present_pde m pgdir j) /\
  table_of m' pgdir j = if decide (j = PDX va) then p else table_of m pgdir j.
Proof.
  intros Hj. unfold present_pde, table_of. rewrite newtable_pde by done.
  destruct (pde_make p Hp) as (_ & H1 & H2). fold e in H1, H2.
  by case_decide.
Qed.

Lemma newtable_wf : pt_wf m' pgdir l.
Proof.
  destruct Hw as [Hd Hu Ht Hi]. split; [done|set_solver| |].
  - intros i Hr Hpi. destruct (newtable_tab i Hr) as [E1 E2]. rewrite E1 in Hpi. rewrite E2.
    case_decide.
    + split_and!; [done|set_solver|done].
    + destruct (Ht i Hr Hpi) as (? & ? & ?). set_solver.
  - intros i j Hr Hr' Hpi Hpj. destruct (newtable_tab i Hr) as [E1 E2].
    destruct (newtable_tab j Hr') as [F1 F2]. rewrite E1 in Hpi. rewrite F1 in Hpj.
    rewrite E2, F2. repeat case_decide; intros E; try congruence.
    + destruct (Ht i Hr Hpi) as (_ & _ & Hn). rewrite E in Hn. set_solver.
    + destruct (Ht j Hr' Hpj) as (_ & _ & Hn). rewrite <- E in Hn. set_solver.
    + by apply Hi.
Qed.

Lemma newtable_view vb : pte_of m' pgdir vb = pte_of m pgdir vb.
Proof.
  destruct (newtable_tab (PDX vb) (PDX_range vb)) as [E1 E2].
  pose proof newtable_apart as Hap. pose proof (PTX_range vb) as Ht.
  pose proof (PDX_range va) as Hd. unfold PGSIZE in *.
  unfold pte_of, pte_addr. rewrite E1, E2. case_decide as E.
  - rewrite E, Habs. unfold m'. rewrite ld32_st32_ne by lia.
    apply ld32_fill_0; unfold PGSIZE; lia.
  - destruct (present_pde m pgdir (PDX vb)) eqn:Ep; [|done].
    destruct (pt_tab _ _ _ Hw (PDX vb) (PDX_range vb) Ep) as ((Ha & _) & Hne & Hnl).
    destruct (pt_dir _ _ _ Hw) as (Hda & _). destruct Hp as (Hpa & _).
    assert (Hnp' : table_of m pgdir (PDX vb) <> p)
      by (intros Ex; apply Hnl; rewrite Ex; by left).
    destruct (pages_apart _ _ Ha Hda Hne) as [?|?], (pages_apart _ _ Ha Hpa Hnp') as [?|?];
      unfold m', PGSIZE in *;
      (rewrite ld32_st32_ne by lia; apply ld32_fill_out; lia).
Qed.

Lemma newtable_tables : tables m' pgdir ++ l ≡ₚ tables m pgdir ++ p :: l.
Proof.
  pose proof (PDX_range va) as Hd. rewrite <- Permutation_middle, app_comm_cons. apply Permutation_app_tail.
  unfold tables.
  assert (EF : filter (fun i => present_pde m' pgdir i = true) (seqZ 0 1024) ≡ₚ
    PDX va :: filter (fun i => present_pde m pgdir i = true) (seqZ 0 1024)).
  { apply NoDup_Permutation; [apply NoDup_filter, NoDup_seqZ| |].
    - apply NoDup_cons. split; [|apply NoDup_filter, NoDup_seqZ].
      rewrite list_elem_of_filter, Habs. naive_solver.
    - intros i. rewrite elem_of_cons, !list_elem_of_filter, elem_of_seqZ. split.
      + intros [H1 H2]. destruct (newtable_tab i ltac:(lia)) as [E _]. rewrite E in H1. case_decide; auto.
      + intros H. assert (Hi : 0 <= i < 1024) by (destruct H as [->|[_ ?]]; lia).
        destruct (newtable_tab i Hi) as [E _]. rewrite E. case_decide; [split; [done|lia]|]. tauto. }
  rewrite EF, fmap_cons. destruct (newtable_tab (PDX va) Hd) as [_ E]. rewrite decide_True in E by done.
  rewrite E. apply perm_skip. erewrite list_fmap_ext; [reflexivity|]. intros n i Hi.
  apply list_elem_of_lookup_2 in Hi. apply list_elem_of_filter in Hi as [Hi1 Hi2%elem_of_seqZ].
  destruct (newtable_tab i ltac:(lia)) as [_ Ei]. rewrite Ei, decide_False; [done|]. intros ->. by rewrite Habs in Hi1.
Qed.

End newtable.

(** [walkpgdir] with [alloc]: it fails only when it needs a page table and the
    free list is empty; otherwise it returns the entry's address. *)
Lemma walkpgdir_alloc k l pgdir va :
  kmem_inv kend k l -> pt_wf (km_mem k) pgdir l ->
  (l = [] /\ present_pde (km_mem k) pgdir (PDX va) = false /\
     exists k', walkpgdir pgdir va true k = Ret 0 k' /\ kmem_inv kend k' [] /\
       km_mem k' = km_mem k) \/
  (exists k' l', walkpgdir pgdir va true k = Ret (pte_addr (km_mem k') pgdir va) k' /\
     walk_ok k l pgdir va k' l').
Proof.
  intros Hk Hw. destruct (present_pde (km_mem k) pgdir (PDX va)) eqn:Ep.
  { right. exists k, l. split; [by apply walkpgdir_present|]. split; auto. }
  unfold walkpgdir, load32, memset_k, store32. unfold present_pde in Ep.
  kunfold. rewrite Ep. cbn [negb].
  destruct (kalloc_cases kend k l Hk)
    as [[-> (k1 & E & Hk1 & Em)]|(p & l' & k1 & -> & E & Hk1 & Hp & Hnp & Em)].
  { left. rewrite E. cbn. eauto 10. }
  right. rewrite E. destruct (Z.eqb_spec p 0) as [->|_]; [by apply page_ok_nonzero in Hp|].
  set (m' := st32 (fill_range (km_mem k) p 0 PGSIZE) (pgdir + 4 * PDX va)
               (Z.lor (Z.lor (Z.lor (V2P p) PTE_P) PTE_W) PTE_U)).
  exists (Kmem m' (use_lock k1) (freelist k1) (total_free_pages k1)), l'.
  unfold with_mem. cbn [km_mem use_lock freelist total_free_pages].
  rewrite Em. change (u8 0) with 0. fold m'.
  assert (Habs : present_pde (km_mem k) pgdir (PDX va) = false) by done.
  pose proof (newtable_tab (km_mem k) pgdir va p l' Hw Hp Hnp Habs) as Htab. fold m' in Htab.
  destruct (Htab (PDX va) (PDX_range va)) as [E1 E2]. rewrite decide_True in E1 by done.
  rewrite decide_True in E2 by done.
  split; [unfold pte_addr; by rewrite E2|].
  assert (Hmok : mem_ok m').
  { apply st32_ok, fill_ok; [apply Hk|]. unfold is_u8. lia. }
  split; simpl.
  - destruct Hk1 as [Hm1 Hl1 Hn1]. split; simpl; [done| |done].
    eapply freelist_at_ext; [exact Hl1|]. intros q Hq. rewrite Em. unfold m'.
    assert (Hqp : page_ok kend q) by (eapply Forall_forall; [eapply freelist_pages; exact Hl1|done]).
    destruct (pt_dir _ _ _ Hw) as (Hda & _). pose proof (pt_dir_used _ _ _ Hw) as Hdu.
    destruct Hqp as (Hqa & _). destruct Hp as (Hpa & _). pose proof (PDX_range va).
    destruct (pages_apart q pgdir Hqa Hda) as [?|?]; [set_solver|..];
      (destruct (pages_apart q p Hqa Hpa) as [?|?]; [set_solver|..]); unfold PGSIZE in *;
      (rewrite ld32_st32_ne by lia; apply ld32_fill_out; lia).
  - by apply newtable_wf.
  - done.
  - intros vb. by apply (newtable_view _ _ _ _ l').
  - eauto.
  - intros i Hi. destruct (Htab i Hi) as [-> ->]. case_decide; [right; set_solver|by left].
  - intros x (Hx1 & _ & Hx3). unfold m'. specialize (Hx3 p ltac:(set_solver)).
    pose proof (PDX_range va). unfold same_page, PGSIZE in *.
    rewrite st32_other, fill_out by lia. done.
  - by apply newtable_tables.
Qed.

End pt.

(** ** Page numbers *)

Lemma PDX_spec va : PDX va = (va / 4194304) mod 1024.
Proof.
  unfold PDX. change 0x3FF with (Z.ones 10). rewrite Z.land_ones by lia.
  by rewrite Z.shiftr_div_pow2 by lia.
Qed.

Lemma PTX_spec va : PTX va = (va / 4096) mod 1024.
Proof.
  unfold PTX. change 0x3FF with (Z.ones 10). rewrite Z.land_ones by lia.
  by rewrite Z.shiftr_div_pow2 by lia.
Qed.

Lemma same_vpage_div va vb :
  is_u32 va -> is_u32 vb -> same_vpage va vb <-> va / 4096 = vb / 4096.
Proof.
  intros Ha Hb. unfold same_vpage. rewrite !PDX_spec, !PTX_spec.
  change 4194304 with (4096 * 1024). rewrite <- !Z.div_div by lia.
  assert (Hr : forall v, is_u32 v -> 0 <= v / 4096 / 1024 < 1024).
  { intros v Hv. unfold is_u32 in Hv. split; [repeat apply Z.div_pos; lia|].
    rewrite Z.div_div by lia. apply Z.div_lt_upper_bound; lia. }
  rewrite !(Z.mod_small (_ / 1024)) by auto.
  pose proof (Z.div_mod (va / 4096) 1024). pose proof (Z.div_mod (vb / 4096) 1024).
  split; [|intros ->]; lia.
Qed.

Lemma PGROUNDDOWN_spec a : is_u32 a -> PGROUNDDOWN a = 4096 * (a / 4096).
Proof.
  intros H. unfold PGROUNDDOWN. rewrite u32_id by done. rewrite land_not_fff by done.
  pose proof (Z.div_mod a 4096). lia.
Qed.

Lemma PGROUNDUP_spec a :
  0 <= a < 2 ^ 32 - 4095 -> PGROUNDUP a = 4096 * ((a + 4095) / 4096).
Proof.
  intros H. unfold PGROUNDUP, PGSIZE. rewrite u32_id by (unfold is_u32; lia).
  rewrite land_not_fff by (unfold is_u32; lia).
  replace (a + 4096 - 1) with (a + 4095) by lia.
  pose proof (Z.div_mod (a + 4095) 4096). lia.
Qed.

Lemma aligned_div a : a mod 4096 = 0 -> a = 4096 * (a / 4096).
Proof. intros H. pose proof (Z.div_mod a 4096). lia. Qed.

Section mappages.
Variable kend : Z.

(** A well-formed tree after a store into the table page of [va]: the free list
    is untouched. *)
Lemma store_pte_inv k l pgdir va v :
  kmem_inv kend k l -> pt_wf kend (km_mem k) pgdir l ->
  present_pde (km_mem k) pgdir (PDX va) = true ->
  let k' := with_mem (fun m => st32 m (pte_addr (km_mem k) pgdir va) v) k in
  kmem_inv kend k' l /\ pt_wf kend (km_mem k') pgdir l /\
  (forall vb, pte_of (km_mem k') pgdir vb =
     if decide (same_vpage va vb) then u32 v else pte_of (km_mem k) pgdir vb) /\
  (forall i, 0 <= i < 1024 ->
     present_pde (km_mem k') pgdir i = present_pde (km_mem k) pgdir i /\
     table_of (km_mem k') pgdir i = table_of (km_mem k) pgdir i).
Proof.
  intros Hk Hw Hp k'. pose proof (pte_addr_in_page (km_mem k) pgdir va) as [Hin Hin4].
  destruct (pt_tab _ _ _ _ Hw _ (PDX_range va) Hp) as ((Ha & _) & _ & Hnl).
  split_and!.
  - eapply kmem_inv_frame; [exact Hk| |done|].
    + apply st32_ok, Hk.
    + intros q Hq. simpl. apply ld32_st32_ne.
      assert (Hqp : page_ok kend q).
      { eapply Forall_forall; [eapply freelist_pages; apply Hk|done]. }
      destruct (pages_apart q (table_of (km_mem k) pgdir (PDX va))) as [?|?];
        [apply Hqp|done|set_solver|..]; unfold same_page, PGSIZE in *; lia.
  - by apply pt_wf_store.
  - intros vb. by apply (pte_of_store kend _ _ l).
  - intros i Hi. unfold present_pde, table_of. simpl. rewrite ld32_st32_ne; [done|].
    destruct (tab_dir_apart _ _ _ _ _ _ Hw (PDX_range va) Hp Hin Hin4 i Hi); auto.
Qed.

Lemma tables_same m m' pgdir :
  (forall i, 0 <= i < 1024 ->
     present_pde m' pgdir i = present_pde m pgdir i /\ table_of m' pgdir i = table_of m pgdir i) ->
  tables m' pgdir = tables m pgdir.
Proof.
  intros H. unfold tables.
  assert (Hin : Forall (fun i => 0 <= i < 1024) (seqZ 0 1024)).
  { apply Forall_forall. intros i Hi%elem_of_seqZ. lia. }
  induction Hin as [|i l Hi Hl IH]; [done|]. destruct (H i Hi) as [E1 E2].
  rewrite !filter_cons, E1. case_decide; [rewrite !fmap_cons, E2; by f_equal|done].
Qed.

(** The state after [n] pages from [a] have been mapped to [pa], .... *)
Record mapped (k : kmem) (l : list Z) (pgdir a pa perm : Z) (n : nat)
    (k' : kmem) (l' : list Z) : Prop := {
  mp_inv : kmem_inv kend k' l';
  mp_wf : pt_wf kend (km_mem k') pgdir l';
  mp_list : exists used, l = used ++ l' /\ (length used <= n)%nat;
  mp_view vb : is_u32 vb ->
    pte_of (km_mem k') pgdir vb =
    if decide (a <= 4096 * (vb / 4096) < a + PGSIZE * Z.of_nat n)
    then Z.lor (Z.lor (pa + (4096 * (vb / 4096) - a)) perm) PTE_P
    else pte_of (km_mem k) pgdir vb;
  mp_tab i : 0 <= i < 1024 -> present_pde (km_mem k') pgdir i = true ->
    (present_pde (km_mem k) pgdir i = true /\
     table_of (km_mem k') pgdir i = table_of (km_mem k) pgdir i) \/
    table_of (km_mem k') pgdir i ∈ l;
  mp_frame x : outside (km_mem k) pgdir l x -> km_mem k' x = km_mem k x;
  mp_tables : tables (km_mem k') pgdir ++ l' ≡ₚ tables (km_mem k) pgdir ++ l;
}.

Lemma mapped_trans k l pgdir a pa perm n k1 l1 k2 l2 :
  mapped k l pgdir a pa perm 1 k1 l1 ->
  mapped k1 l1 pgdir (a + PGSIZE) (pa + PGSIZE) perm n k2 l2 ->
  mapped k l pgdir a pa perm (S n) k2 l2.
Proof.
  intros [Hk1 Hw1 (u1 & -> & Hu1) Hv1 Ht1 Hf1 Hc1] [Hk2 Hw2 (u2 & -> & Hu2) Hv2 Ht2 Hf2 Hc2].
  split; auto.
  - exists (u1 ++ u2). rewrite <- app_assoc, length_app. split; [done|lia].
  - intros vb Hb. rewrite Hv2, Hv1 by done. unfold PGSIZE in *.
    repeat case_decide; try lia; try done. f_equal. f_equal. lia.
  - intros i Hi Hp. destruct (Ht2 i Hi Hp) as [[Hp1 ->]|Hin]; [|right; set_solver].
    by apply Ht1.
  - intros x (Hx1 & Hx2 & Hx3). rewrite Hf2, Hf1; [done|done|].
    split_and!; [done| |intros p Hp; apply Hx3; set_solver].
    intros i Hi Hp. destruct (Ht1 i Hi Hp) as [[Hp0 ->]|Hin]; eauto.
  - by rewrite Hc2.
Qed.

Lemma pte_word pa perm :
  is_u32 pa -> 0 <= perm < 4096 ->
  u32 (Z.lor (Z.lor pa perm) PTE_P) = Z.lor (Z.lor pa perm) PTE_P.
Proof.
  intros Hp Hf. apply u32_id. unfold is_u32 in *.
  apply lor_range; [lia| |unfold PTE_P; lia]. apply lor_range; lia.
Qed.

Lemma pte_addr_nonzero m pgdir l va :
  pt_wf kend m pgdir l -> present_pde m pgdir (PDX va) = true ->
  (pte_addr m pgdir va =? 0) = false.
Proof.
  intros Hw Hp. destruct (pt_tab _ _ _ _ Hw _ (PDX_range va) Hp) as ((_ & _ & Hk & _) & _).
  apply Z.eqb_neq. unfold pte_addr, KERNBASE in *. pose proof (PTX_range va). lia.
Qed.

(** One iteration of the loop. *)
Lemma mappages_step n k l pgdir a last pa perm :
  kmem_inv kend k l -> pt_wf kend (km_mem k) pgdir l ->
  a mod PGSIZE = 0 -> is_u32 a -> is_u32 pa -> 0 <= perm < 4096 ->
  l <> [] \/ present_pde (km_mem k) pgdir (PDX a) = true ->
  has (pte_of (km_mem k) pgdir a) PTE_P = false ->
  exists k1 l1, mapped k l pgdir a pa perm 1 k1 l1 /\
    mappages_loop (S n) pgdir a last pa perm k =
    (if a =? last then mret 0
     else mappages_loop n pgdir (u32 (a + PGSIZE)) last (u32 (pa + PGSIZE)) perm) k1.
Proof.
  intros Hk Hw Hal Ha Hpa Hperm Hl Hfree.
  destruct (walkpgdir_alloc kend k l pgdir a Hk Hw)
    as [(-> & Hno & _)|(k1 & l1 & E1 & [Hk1 Hw1 Hp1 Hv1 Hl1 Ht1 Hf1 Hc1])].
  { destruct Hl as [?|Hyes]; [done|]. by rewrite Hyes in Hno. }
  destruct (store_pte_inv k1 l1 pgdir a (Z.lor (Z.lor pa perm) PTE_P) Hk1 Hw1 Hp1)
    as (Hk2 & Hw2 & Hv2 & Ht2).
  eexists _, l1. split.
  2: { change (mappages_loop (S n) pgdir a last pa perm k) with
         ((walkpgdir pgdir a true ≫= fun pte =>
            if pte =? 0 then mret (-1)
            else load32 pte ≫= fun old =>
              if has old PTE_P then panic "remap"
              else store32 pte (Z.lor (Z.lor pa perm) PTE_P) ≫= fun _ =>
                if a =? last then mret 0
                else mappages_loop n pgdir (u32 (a + PGSIZE)) last (u32 (pa + PGSIZE)) perm) k).
       rewrite (bind_Ret _ _ _ _ _ E1). rewrite (pte_addr_nonzero _ _ l1) by done.
       rewrite (bind_Ret (load32 _) _ k1 (pte_of (km_mem k) pgdir a) k1).
       2: { unfold load32, gets. rewrite <- Hv1. unfold pte_of. by rewrite Hp1. }
       rewrite Hfree. rewrite (bind_Ret (store32 _ _) _ k1 tt _ eq_refl). reflexivity. }
  split; [exact Hk2|exact Hw2| | | | |].
  - destruct Hl1 as [->|(p & ->)]; [exists []; split; [done|simpl; lia]|by exists [p]].
  - intros vb Hb. rewrite Hv2, Hv1. rewrite pte_word by done.
    pose proof (same_vpage_div a vb Ha Hb) as Hs.
    pose proof (aligned_div a Hal). unfold PGSIZE in *.
    destruct (decide (same_vpage a vb)) as [Hd|Hd]; rewrite Hs in Hd.
    + rewrite decide_True by lia. f_equal. f_equal. lia.
    + rewrite decide_False by lia. done.
  - intros i Hi. destruct (Ht2 i Hi) as [-> ->]. auto.
  - intros x Hx. simpl. rewrite st32_other; [by apply Hf1|].
    pose proof (pte_addr_in_page (km_mem k1) pgdir a) as [Hin Hin4].
    unfold same_page in *. destruct Hx as (Hx1 & Hx2 & Hx3).
    destruct (Ht1 _ (PDX_range a) Hp1) as [[Hp0 E]|Hin'].
    + rewrite E in *. specialize (Hx2 _ (PDX_range a) Hp0). unfold same_page in *. lia.
    + specialize (Hx3 _ Hin'). unfold same_page in *. lia.
  - rewrite (tables_same (km_mem k1)) by done. exact Hc1.
Qed.

(** Out of memory for a page table, or the walk will succeed. *)
Lemma no_table_or k l pgdir a :
  kmem_inv kend k l -> pt_wf kend (km_mem k) pgdir l ->
  (l = [] /\ exists k', walkpgdir pgdir a true k = Ret 0 k' /\
     forall pa perm, mapped k l pgdir a pa perm 0 k' []) \/
  (l <> [] \/ present_pde (km_mem k) pgdir (PDX a) = true).
Proof.
  intros Hk Hw. destruct (walkpgdir_alloc kend k l pgdir a Hk Hw)
    as [(-> & Hno & k' & E & Hk' & Em)|(k1 & l1 & E1 & Hok)].
  - left. split; [done|]. exists k'. split; [done|]. intros pa perm. split; rewrite ?Em; auto.
    + by exists [].
    + intros vb Hb. by rewrite decide_False by lia.
  - right. destruct (present_pde (km_mem k) pgdir (PDX a)) eqn:E; [by right|]. left. intros ->.
    destruct (wk_list _ _ _ _ _ _ _ Hok) as [->|[p ?]]; [|done].
    destruct (wk_tab _ _ _ _ _ _ _ Hok _ (PDX_range a) (wk_present _ _ _ _ _ _ _ Hok)) as [[? _]|?]; [congruence|set_solver].
Qed.

(** The whole loop: all pages are mapped, or memory ran out after [j] of them. *)
Lemma mappages_loop_any n k l pgdir a last pa perm :
  kmem_inv kend k l -> pt_wf kend (km_mem k) pgdir l ->
  a mod PGSIZE = 0 -> 0 <= a -> 0 <= pa -> 0 <= perm < 4096 ->
  last = a + PGSIZE * Z.of_nat n -> last + PGSIZE <= 2 ^ 32 ->
  pa + PGSIZE * Z.of_nat (S n) <= 2 ^ 32 ->
  (forall i, 0 <= i <= Z.of_nat n ->
     has (pte_of (km_mem k) pgdir (a + PGSIZE * i)) PTE_P = false) ->
  (exists k' l', mappages_loop (S n) pgdir a last pa perm k = Ret 0 k' /\
     mapped k l pgdir a pa perm (S n) k' l') \/
  (exists j k', mappages_loop (S n) pgdir a last pa perm k = Ret (-1) k' /\ (j <= n)%nat /\
     mapped k l pgdir a pa perm j k' []).
Proof.
  revert k l a pa. induction n as [|n IH];
    intros k l a pa Hk Hw Hal Ha Hpa Hperm Hlast Hb Hpb Hfree.
  all: pose proof (Hfree 0 ltac:(lia)) as Hf0; rewrite Z.mul_0_r, Z.add_0_r in Hf0.
  all: destruct (no_table_or k l pgdir a Hk Hw) as [(Hl & k1 & E & Hm)|Hl];
    [right; exists 0%nat, k1; split; [|split; [lia|apply Hm]];
     cbn [mappages_loop]; by rewrite (bind_Ret _ _ _ _ _ E)|].
  - destruct (mappages_step 0 k l pgdir a last pa perm) as (k1 & l1 & Hm & E); auto;
      try (unfold is_u32, PGSIZE in *; lia).
    left. exists k1, l1. split; [|done]. rewrite E.
    destruct (Z.eqb_spec a last); [done|unfold PGSIZE in *; lia].
  - destruct (mappages_step (S n) k l pgdir a last pa perm) as (k1 & l1 & Hm & E); auto;
      try (unfold is_u32, PGSIZE in *; lia).
    rewrite E. destruct (Z.eqb_spec a last); [unfold PGSIZE in *; lia|].
    rewrite !u32_id by (unfold is_u32, PGSIZE in *; lia).
    pose proof Hm as [Hk1 Hw1 (u & Hu & Hul) Hv1 _ _ _].
    destruct (IH k1 l1 (a + PGSIZE) (pa + PGSIZE)) as [(k' & l' & E' & Hm')|(j & k' & E' & Hj & Hm')]; auto;
      try (unfold PGSIZE in *; lia).
    + by rewrite Zplus_mod, Hal.
    + intros i Hi. pose proof (aligned_div a Hal). rewrite Hv1 by (unfold is_u32, PGSIZE in *; lia).
      assert (Ed : (a + PGSIZE + PGSIZE * i) / 4096 = a / 4096 + 1 + i).
      { unfold PGSIZE. symmetry. apply Z.div_unique with 0; lia. }
      rewrite Ed. case_decide; [unfold PGSIZE in *; lia|].
      replace (a + PGSIZE + PGSIZE * i) with (a + PGSIZE * (i + 1)) by lia.
      apply Hfree. lia.
    + left. exists k', l'. split; [done|]. by eapply mapped_trans.
    + right. exists (S j), k'. split; [done|]. split; [lia|]. by eapply mapped_trans.
Qed.

Lemma mappages_loop_spec n k l pgdir a last pa perm :
  kmem_inv kend k l -> pt_wf kend (km_mem k) pgdir l ->
  a mod PGSIZE = 0 -> 0 <= a -> 0 <= pa -> 0 <= perm < 4096 ->
  last = a + PGSIZE * Z.of_nat n -> last + PGSIZE <= 2 ^ 32 ->
  pa + PGSIZE * Z.of_nat (S n) <= 2 ^ 32 ->
  (S n <= length l)%nat ->
  (forall i, 0 <= i <= Z.of_nat n ->
     has (pte_of (km_mem k) pgdir (a + PGSIZE * i)) PTE_P = false) ->
  exists k' l', mappages_loop (S n) pgdir a last pa perm k = Ret 0 k' /\
    mapped k l pgdir a pa perm (S n) k' l'.
Proof.
  intros Hk Hw Hal Ha Hpa Hperm Hlast Hb Hpb Hlen Hfree.
  destruct (mappages_loop_any n k l pgdir a last pa perm) as [?|(j & k' & _ & Hj & Hm)]; [done..|].
  destruct (mp_list _ _ _ _ _ _ _ _ _ Hm) as (u & -> & Hu). rewrite app_nil_r in Hlen. lia.
Qed.

End mappages.

(** Kernel address of the byte at user address [va], when the page is present
    and accessible to the user. *)
Definition user_ka (m : mem) (pgdir va : Z) : option Z :=
  let e := pte_of m pgdir va in
  if has e PTE_P && has e PTE_U then Some (P2V (PTE_ADDR e) + va mod 4096) else None.

Section copyout.
Variable kend : Z.

Lemma uva2ka_spec k pgdir l va :
  pt_wf kend (km_mem k) pgdir l -> present_pde (km_mem k) pgdir (PDX va) = true ->
  uva2ka pgdir va k =
  Ret (let e := pte_of (km_mem k) pgdir va in
       if has e PTE_P && has e PTE_U then P2V (PTE_ADDR e) else 0) k.
Proof.
  intros Hw Hp. unfold uva2ka.
  rewrite (bind_Ret _ _ _ _ _ (walkpgdir_present k pgdir va false Hp)).
  rewrite (pte_addr_nonzero kend _ _ l) by done.
  unfold load32. kunfold. unfold pte_of. rewrite Hp.
  destruct (has _ PTE_P); simpl; [|done]. by destruct (has _ PTE_U).
Qed.

Lemma present_of_P m pgdir va : has (pte_of m pgdir va) PTE_P = true ->
  present_pde m pgdir (PDX va) = true.
Proof. unfold pte_of. by destruct (present_pde _ _ _). Qed.

(** Addresses on one page share their entry. *)
Lemma pte_of_page m pgdir va vb :
  is_u32 va -> is_u32 vb -> va / 4096 = vb / 4096 -> pte_of m pgdir va = pte_of m pgdir vb.
Proof.
  intros Ha Hb E. apply same_vpage_div in E as [E1 E2]; [|done..].
  unfold pte_of, pte_addr. by rewrite E1, E2.
Qed.

(** The [len] user bytes at [va] are the kernel bytes [f 0 .. f (len-1)], which
    are distinct, outside the page tables and outside the source buffer. *)
Record user_range (m : mem) (pgdir va buf len : Z) (f : Z -> Z) : Prop := {
  ur_range : 0 <= va /\ 0 <= len /\ va + len <= 2 ^ 32;
  ur_map i : 0 <= i < len -> user_ka m pgdir (va + i) = Some (f i);
  ur_inj i j : 0 <= i < len -> 0 <= j < len -> f i = f j -> i = j;
  ur_tables i : 0 <= i < len -> ~ same_page (f i) pgdir /\
    forall d, 0 <= d < 1024 -> present_pde m pgdir d = true -> ~ same_page (f i) (table_of m pgdir d);
  ur_src i j : 0 <= i < len -> 0 <= j < len -> f i <> buf + j;
  ur_phys i : 0 <= i < len -> KERNBASE <= f i;
}.

Lemma user_range_chunk m pgdir va buf len f i :
  user_range m pgdir va buf len f -> 0 <= i < len -> i < 4096 - va mod 4096 ->
  f i = f 0 + i.
Proof.
  intros H Hi Hc. pose proof (ur_range _ _ _ _ _ _ H) as Hr.
  pose proof (ur_map _ _ _ _ _ _ H i Hi) as Ei.
  pose proof (ur_map _ _ _ _ _ _ H 0 ltac:(lia)) as E0. rewrite Z.add_0_r in E0.
  pose proof (Z.mod_pos_bound va 4096 ltac:(lia)).
  assert (Ed : (va + i) / 4096 = va / 4096).
  { symmetry. apply Z.div_unique with (va mod 4096 + i); [lia|].
    pose proof (Z.div_mod va 4096). lia. }
  assert (Em : (va + i) mod 4096 = va mod 4096 + i).
  { symmetry. apply Z.mod_unique with (va / 4096); [lia|].
    pose proof (Z.div_mod va 4096). lia. }
  unfold user_ka in *.
  rewrite (pte_of_page m pgdir (va + i) va) in Ei by (unfold is_u32; lia || done).
  rewrite Em in Ei. destruct (_ && _); simplify_eq. lia.
Qed.

(** After a chunk has been copied, the rest of the range is as before. *)
Lemma user_range_rest m m' pgdir va buf len f n :
  user_range m pgdir va buf len f -> 0 <= n <= len ->
  pt_same m m' pgdir ->
  user_range m' pgdir (va + n) (buf + n) (len - n) (fun i => f (n + i)).
Proof.
  intros [Hr Hm Hi Ht Hs Hk] Hn Hp. split.
  - lia.
  - intros i H. unfold user_ka. rewrite (pt_same_pte_of m m') by done.
    replace (va + n + i) with (va + (n + i)) by lia. apply Hm. lia.
  - intros i j H1 H2 E. apply Hi in E; lia.
  - intros i H. destruct (Ht (n + i) ltac:(lia)) as [H1 H2]. split; [done|].
    intros d Hd. unfold present_pde, table_of. rewrite (pt_same_pde m m') by done. by apply H2.
  - intros i j H1 H2. replace (buf + n + j) with (buf + (n + j)) by lia. apply Hs; lia.
  - intros i H. apply Hk. lia.
Qed.

(** One iteration: the bytes of the chunk are copied, the page tables are not
    touched. *)
Lemma copyout_step fuel k l pgdir va buf len f :
  pt_wf kend (km_mem k) pgdir l ->
  user_range (km_mem k) pgdir va buf len f -> 0 < len ->
  let n := Z.min len (4096 - va mod 4096) in
  exists k', pt_same (km_mem k) (km_mem k') pgdir /\
    (forall i, 0 <= i < n -> km_mem k' (f i) = km_mem k (buf + i)) /\
    (forall x, (forall i, 0 <= i < n -> x <> f i) -> km_mem k' x = km_mem k x) /\
    copyout_loop (S fuel) pgdir va buf len k =
    copyout_loop fuel pgdir (u32 (PGROUNDDOWN va + PGSIZE)) (buf + n) (len - n) k'.
Proof.
  intros Hw Hu Hlen n. pose proof Hu as [Hr Hm Hi Ht Hs Hk].
  pose proof (Z.mod_pos_bound va 4096 ltac:(lia)) as Hmod.
  pose proof (Z.div_mod va 4096 ltac:(lia)) as Hdm.
  assert (Hva : is_u32 va) by (unfold is_u32; lia).
  pose proof (PGROUNDDOWN_spec va Hva) as Ev0.
  pose proof (Hm 0 ltac:(lia)) as E0. rewrite Z.add_0_r in E0. unfold user_ka in E0.
  assert (Ep : pte_of (km_mem k) pgdir (PGROUNDDOWN va) = pte_of (km_mem k) pgdir va).
  { apply pte_of_page; [unfold is_u32 in *; lia|done|].
    rewrite Ev0, (Z.mul_comm 4096), Z.div_mul by lia. done. }
  destruct (has (pte_of (km_mem k) pgdir va) PTE_P) eqn:EP; [|done].
  destruct (has (pte_of (km_mem k) pgdir va) PTE_U) eqn:EU; [|done].
  simpl in E0. simplify_eq.
  assert (Hpr : present_pde (km_mem k) pgdir (PDX (PGROUNDDOWN va)) = true)
    by (apply present_of_P; by rewrite Ep).
  pose proof (uva2ka_spec k pgdir l (PGROUNDDOWN va) Hw Hpr) as Euv.
  cbv zeta in Euv. rewrite Ep, EP, EU in Euv. cbn [andb] in Euv.
  set (pa0 := P2V (PTE_ADDR (pte_of (km_mem k) pgdir va))) in *.
  pose proof (Hk 0 ltac:(lia)) as Hk0. unfold KERNBASE in Hk0.
  assert (Hn : (if len <? PGSIZE - (va - PGROUNDDOWN va) then len
                else PGSIZE - (va - PGROUNDDOWN va)) = n).
  { unfold n. unfold PGSIZE. zcases; lia. }
  assert (Hd : pa0 + (va - PGROUNDDOWN va) = f 0) by lia.
  exists (with_mem (fun m => copy_range m (f 0) buf n) k). cbn [km_mem with_mem].
  assert (Hfi : forall i, 0 <= i < n -> f i = f 0 + i).
  { intros i H. apply (user_range_chunk _ _ _ _ _ _ _ Hu); lia. }
  assert (Hout : forall x, (forall i, 0 <= i < n -> x <> f i) ->
    copy_range (km_mem k) (f 0) buf n x = km_mem k x).
  { intros x Hx. apply copy_out.
    destruct (decide (f 0 <= x < f 0 + n)) as [Hin|]; [|lia].
    exfalso. apply (Hx (x - f 0)); [lia|]. rewrite Hfi by lia. lia. }
  split_and!.
  - split.
    + intros x Hx. apply Hout. intros i H ->. by destruct (Ht i ltac:(lia)).
    + intros d x Hd1 Hd2 Hx. apply Hout. intros i H ->.
      destruct (Ht i ltac:(lia)) as [_ Ht']. exact (Ht' d Hd1 Hd2 Hx).
  - intros i H. rewrite (Hfi i) by done. rewrite copy_in by lia. f_equal. lia.
  - exact Hout.
  - change (copyout_loop (S fuel) pgdir va buf len k) with
      ((if len <=? 0 then mret 0 else
        uva2ka pgdir (PGROUNDDOWN va) ≫= fun pa0 =>
        if pa0 =? 0 then mret (-1)
        else
          let n := PGSIZE - (va - PGROUNDDOWN va) in
          let n := if len <? n then len else n in
          memmove_k (pa0 + (va - PGROUNDDOWN va)) buf n ≫= fun _ =>
          copyout_loop fuel pgdir (u32 (PGROUNDDOWN va + PGSIZE)) (buf + n) (len - n)) k).
    destruct (Z.leb_spec len 0); [lia|].
    rewrite (bind_Ret _ _ _ _ _ Euv). fold pa0.
    destruct (Z.eqb_spec pa0 0) as [E|_]; [lia|]. cbv zeta.
    rewrite Hn, Hd. rewrite (bind_Ret (memmove_k _ _ _) _ k tt _ eq_refl). done.
Qed.

Lemma copyout_loop_spec fuel k l pgdir va buf len f :
  pt_wf kend (km_mem k) pgdir l ->
  user_range (km_mem k) pgdir va buf len f -> len <= Z.of_nat fuel ->
  exists k', copyout_loop fuel pgdir va buf len k = Ret 0 k' /\
    (forall i, 0 <= i < len -> km_mem k' (f i) = km_mem k (buf + i)) /\
    (forall x, (forall i, 0 <= i < len -> x <> f i) -> km_mem k' x = km_mem k x).
Proof.
  revert k va buf len f. induction fuel as [|fuel IH]; intros k va buf len f Hw Hu Hf.
  all: pose proof Hu as [Hr _ Hi _ Hs _].
  { assert (len = 0) as -> by lia. exists k. split_and!; try done. lia. }
  destruct (decide (len = 0)) as [->|Hnz].
  { exists k. split_and!; try done. lia. }
  destruct (copyout_step fuel k l pgdir va buf len f Hw Hu) as (k1 & Hsame & Hin & Hout & E);
    [lia|].
  set (n := Z.min len (4096 - va mod 4096)) in *. rewrite E.
  pose proof (Z.mod_pos_bound va 4096 ltac:(lia)) as Hmod.
  pose proof (Z.div_mod va 4096 ltac:(lia)) as Hdm.
  destruct (decide (n = len)) as [En|En].
  { rewrite En in *. exists k1. split_and!; auto.
    rewrite Z.sub_diag. by destruct fuel. }
  assert (Hva : is_u32 va) by (unfold is_u32; lia).
  assert (Enext : u32 (PGROUNDDOWN va + PGSIZE) = va + n).
  { rewrite PGROUNDDOWN_spec by done. unfold PGSIZE. rewrite u32_id; [lia|].
    unfold is_u32 in *. lia. }
  rewrite Enext.
  destruct (IH k1 (va + n) (buf + n) (len - n) (fun i => f (n + i))) as (k' & E' & Hin' & Hout').
  - eapply pt_same_wf; eauto.
  - eapply user_range_rest; eauto. lia.
  - lia.
  - exists k'. split; [done|]. split.
    + intros i H. destruct (decide (i < n)).
      * rewrite Hout'; [apply Hin; lia|]. intros j Hj E2. apply Hi in E2; lia.
      * replace i with (n + (i - n)) by lia. rewrite (Hin' (i - n)) by lia.
        replace (buf + (n + (i - n))) with (buf + n + (i - n)) by lia.
        apply Hout. intros j Hj E2. apply (Hs j (n + (i - n))); lia.
    + intros x Hx. rewrite Hout', Hout; [done| |].
      * intros i H. apply Hx. lia.
      * intros i H. apply Hx. lia.
Qed.

End copyout.

(** [mappages] on an unmapped range with enough free pages returns 0, after
    which every page of the range maps to the corresponding physical page with
    the given permissions, every other address of the space keeps its entry, the
    page tables stay well formed, and no memory outside the tables and the free
    pages has changed. *)
Theorem mappages_maps kend k l pgdir va size pa perm :
  kmem_inv kend k l -> pt_wf kend (km_mem k) pgdir l ->
  0 <= va -> 0 < size -> size mod PGSIZE = 0 -> va + size <= 2 ^ 32 ->
  0 <= pa -> 0 <= perm < 4096 ->
  let first := va / 4096 in
  let lastp := (va + size - 1) / 4096 in
  pa + PGSIZE * (lastp - first + 1) <= 2 ^ 32 ->
  lastp - first + 1 <= Z.of_nat (length l) ->
  (forall v, is_u32 v -> first <= v / 4096 <= lastp ->
     has (pte_of (km_mem k) pgdir v) PTE_P = false) ->
  exists k' l', mappages pgdir va size pa perm k = Ret 0 k' /\
    kmem_inv kend k' l' /\ pt_wf kend (km_mem k') pgdir l' /\
    (forall v, is_u32 v -> pte_of (km_mem k') pgdir v =
       if decide (first <= v / 4096 <= lastp)
       then Z.lor (Z.lor (pa + PGSIZE * (v / 4096 - first)) perm) PTE_P
       else pte_of (km_mem k) pgdir v) /\
    (forall x, outside (km_mem k) pgdir l x -> km_mem k' x = km_mem k x).
Proof.
  intros Hk Hw Hva Hsz Hal Hb Hpa Hperm first lastp Hpb Hlen Hfree.
  assert (Ha : is_u32 va) by (unfold is_u32; lia).
  assert (Hl : is_u32 (va + size - 1)) by (unfold is_u32; lia).
  assert (Hle : first <= lastp) by (apply Z.div_le_mono; lia).
  assert (H0 : 0 <= first) by (apply Z.div_pos; lia).
  assert (Hlb : lastp < 1048576) by (apply Z.div_lt_upper_bound; lia).
  unfold mappages. rewrite !PGROUNDDOWN_spec by done. fold first lastp.
  change (PGSIZE - 1) with 0xFFF. rewrite land_fff.
  unfold PGSIZE in *. rewrite Hal. cbn [Z.eqb negb].
  set (n := Z.to_nat (lastp - first)).
  assert (En : Z.to_nat (u32 (4096 * lastp - 4096 * first) / 4096 + 1) = S n).
  { rewrite u32_id by (unfold is_u32; lia).
    replace (4096 * lastp - 4096 * first) with ((lastp - first) * 4096) by lia.
    rewrite Z.div_mul by lia. lia. }
  rewrite En.
  destruct (mappages_loop_spec kend n k l pgdir (4096 * first) (4096 * lastp) pa perm)
    as (k' & l' & E & Hm); auto; unfold PGSIZE in *; try lia.
  - rewrite Z.mul_comm. apply Z.mod_mul. lia.
  - intros i Hi. apply Hfree; [unfold is_u32; lia|].
    replace (4096 * first + 4096 * i) with ((first + i) * 4096) by lia.
    rewrite Z.div_mul by lia. lia.
  - destruct Hm as [Hk' Hw' _ Hv _ Hf]. exists k', l'. split_and!; auto.
    intros v Hvr. rewrite Hv by done. unfold PGSIZE.
    repeat case_decide; try lia; try done. f_equal. f_equal. lia.
Qed.

(** [copyout] to a user range whose pages are present and user-accessible
    returns 0 and stores exactly the source bytes at the user addresses, whatever
    page boundaries the range crosses; no other byte of memory changes. *)
Theorem copyout_copies kend k l pgdir va p len f :
  pt_wf kend (km_mem k) pgdir l ->
  user_range (km_mem k) pgdir va p len f ->
  exists k', copyout pgdir va p len k = Ret 0 k' /\
    (forall i, 0 <= i < len -> user_ka (km_mem k') pgdir (va + i) = Some (f i) /\
       km_mem k' (f i) = km_mem k (p + i)) /\
    (forall x, (forall i, 0 <= i < len -> x <> f i) -> km_mem k' x = km_mem k x).
Proof.
  intros Hw Hu. unfold copyout. pose proof Hu as [Hr Hm _ Ht _ _].
  destruct (copyout_loop_spec kend (Z.to_nat len) k l pgdir va p len f)
    as (k' & E & Hin & Hout); auto; [lia|].
  exists k'. split_and!; auto. intros i Hi. split; [|auto].
  rewrite <- Hm by done. unfold user_ka.
  assert (Hsame : pt_same (km_mem k) (km_mem k') pgdir).
  { split.
    - intros x Hx. apply Hout. intros j Hj ->. by destruct (Ht j Hj).
    - intros d x Hd Hd' Hx. apply Hout. intros j Hj ->.
      destruct (Ht j Hj) as [_ Ht']. exact (Ht' d Hd Hd' Hx). }
  by rewrite (pt_same_pte_of (km_mem k) (km_mem k')).
Qed.

(** ** Witnesses *)

(** Two free pages and an empty page directory. *)
Definition wit_m2 : mem := st32 (fun _ => 0) 0x80200000 0x80201000.
Definition wit_k2 : kmem := Kmem wit_m2 true 0x80200000 2.

Lemma zero_mem_ok : mem_ok (fun _ => 0).
Proof. intros a. unfold is_u8. lia. Qed.

Lemma wit_k2_inv : kmem_inv wit_end wit_k2 [0x80200000; 0x80201000].
Proof.
  split.
  - apply st32_ok, zero_mem_ok.
  - constructor; [unfold page_ok, wit_end, KERNBASE, PHYSTOP; split_and!; [done|lia..]|].
    change (ld32 (km_mem wit_k2) 0x80200000) with 0x80201000.
    constructor; [unfold page_ok, wit_end, KERNBASE, PHYSTOP; split_and!; [done|lia..]|].
    constructor.
  - apply (bool_decide_eq_true_1 _). vm_compute. reflexivity.
Qed.

Lemma wit_m2_pde i : 0 <= i < 1024 -> ld32 wit_m2 (0x80300000 + 4 * i) = 0.
Proof. intros Hi. unfold wit_m2. rewrite ld32_st32_ne by lia. done. Qed.

Lemma wit_pt_wf : pt_wf wit_end wit_m2 0x80300000 [0x80200000; 0x80201000].
Proof.
  split.
  - unfold page_ok, wit_end, KERNBASE, PHYSTOP. split_and!; [done|lia..].
  - apply (bool_decide_eq_true_1 _). vm_compute. reflexivity.
  - intros i Hi. unfold present_pde. by rewrite wit_m2_pde.
  - intros i j Hi Hj. unfold present_pde. by rewrite wit_m2_pde.
Qed.

Lemma mappages_maps_witness :
  exists k', mappages 0x80300000 0x1000 4096 0x400000 6 wit_k2 = Ret 0 k' /\
    pte_of (km_mem k') 0x80300000 0x1234 = 0x400007.
Proof.
  destruct (mappages_maps wit_end wit_k2 [0x80200000; 0x80201000] 0x80300000 0x1000 4096
    0x400000 6 wit_k2_inv wit_pt_wf) as (k' & l' & E & _ & _ & Hv & _).
  1-8: vm_compute; try split; done.
  - intros v Hv _. unfold pte_of, present_pde. rewrite wit_m2_pde by apply PDX_range. done.
  - exists k'. split; [exact E|]. rewrite Hv by (unfold is_u32; lia). reflexivity.
Defined.

(** A page directory with one table that maps user page 1. *)
Definition wit_m3 : mem :=
  st32 (st32 (fun _ => 0) 0x80300000 0x301007) 0x80301004 0x400007.
Definition wit_k3 : kmem := Kmem wit_m3 true 0 0.

Lemma wit_m3_pde i :
  0 <= i < 1024 -> present_pde wit_m3 0x80300000 i = true -> i = 0.
Proof.
  intros Hi. unfold present_pde. destruct (decide (i = 0)); [done|].
  unfold wit_m3. rewrite !ld32_st32_ne by lia. done.
Qed.

Lemma wit_m3_wf : pt_wf wit_end wit_m3 0x80300000 [].
Proof.
  split.
  - unfold page_ok, wit_end, KERNBASE, PHYSTOP. split_and!; [done|lia..].
  - set_solver.
  - intros i Hi Hp. apply wit_m3_pde in Hp as ->; [|done].
    change (table_of wit_m3 0x80300000 0) with 0x80301000.
    split_and!; [|done|set_solver].
    unfold page_ok, wit_end, KERNBASE, PHYSTOP. split_and!; [done|lia..].
  - intros i j Hi Hj Hp Hp'. apply wit_m3_pde in Hp, Hp'; congruence.
Qed.

Lemma copyout_copies_witness :
  exists k', copyout 0x80300000 0x1004 0x80500000 1 wit_k3 = Ret 0 k' /\
    km_mem k' 0x80400004 = 0.
Proof.
  destruct (copyout_copies wit_end wit_k3 [] 0x80300000 0x1004 0x80500000 1
    (fun i => 0x80400004 + i) wit_m3_wf) as (k' & E & Hin & _).
  - split.
    + lia.
    + intros i Hi. assert (i = 0) as -> by lia. vm_compute. reflexivity.
    + intros i j Hi Hj. lia.
    + intros i Hi. split; [unfold same_page, PGSIZE; lia|].
      intros d Hd Hp. apply wit_m3_pde in Hp as ->; [|done].
      change (table_of (km_mem wit_k3) 0x80300000 0) with 0x80301000.
      unfold same_page, PGSIZE. lia.
    + intros i j Hi Hj. lia.
    + intros i Hi. unfold KERNBASE. lia.
  - exists k'. split; [exact E|]. exact (proj2 (Hin 0 ltac:(lia))).
Defined.
