(* ===== verification/Space.v ===== *)
(** The address space of a process as the paging code sees it.

    [aspace m pgdir l R] says that, besides a well-formed page-table tree, the
    pages [R] are resident: each has a present entry to a frame of its own,
    which is neither free nor part of the tree.  The lemmas are the memory steps
    the paging code takes: write a page that is not in use yet, install an entry,
    drop an entry. *)

From S2P Require Import Prelude Memory Kalloc Vm.

Definition frame (m : mem) (pgdir v : Z) : Z := P2V (PTE_ADDR (pte_of m pgdir v)).
Definition page_data (m : mem) (pgdir v : Z) : list Z :=
  bytes_at m (frame m pgdir v) (Z.to_nat PGSIZE).

(** A user virtual page address. *)
Definition is_vpa (v : Z) : Prop := is_u32 v /\ v mod 4096 = 0.

Lemma is_vpa_flags v : is_vpa v -> PTE_FLAGS v = 0.
Proof. intros [Hv Ha]. by rewrite PTE_FLAGS_spec. Qed.

Lemma vpa_same_page v w : is_vpa v -> is_vpa w -> same_vpage v w -> v = w.
Proof.
  intros [Hv Hav] [Hw Haw] H. apply same_vpage_div in H; [|done..].
  apply aligned_div in Hav, Haw. lia.
Qed.

Section space.
Variable kend : Z.

(** A page in use by nobody: not free, not in the tree, not a resident frame. *)
Record unused (m : mem) (pgdir : Z) (l : list Z) (R : Z -> Prop) (p : Z) : Prop := {
  un_page : page_ok kend p;
  un_free : p ∉ l;
  un_dir : p <> pgdir;
  un_tab i : 0 <= i < 1024 -> present_pde m pgdir i = true -> table_of m pgdir i <> p;
  un_frame v : R v -> frame m pgdir v <> p;
}.

Record aspace (m : mem) (pgdir : Z) (l : list Z) (R : Z -> Prop) : Prop := {
  as_wf : pt_wf kend m pgdir l;
  as_vpa v : R v -> is_vpa v;
  as_present v : R v -> has (pte_of m pgdir v) PTE_P = true;
  as_frame v : R v -> page_ok kend (frame m pgdir v) /\ (frame m pgdir v ∉ l) /\
    frame m pgdir v <> pgdir;
  as_tab v i : R v -> 0 <= i < 1024 -> present_pde m pgdir i = true ->
    table_of m pgdir i <> frame m pgdir v;
  as_inj v w : R v -> R w -> frame m pgdir v = frame m pgdir w -> v = w;
}.

(** Bytes that belong to the space: tree and resident frames. *)
Definition in_space (m : mem) (pgdir : Z) (R : Z -> Prop) (x : Z) : Prop :=
  same_page x pgdir \/
  (exists i, 0 <= i < 1024 /\ present_pde m pgdir i = true /\
     same_page x (table_of m pgdir i)) \/
  (exists v, R v /\ same_page x (frame m pgdir v)).

Lemma same_page_apart x p q :
  p mod PGSIZE = 0 -> q mod PGSIZE = 0 -> same_page x p -> same_page x q -> p = q.
Proof.
  intros Hp Hq H1 H2. destruct (decide (p = q)) as [|Hne]; [done|].
  destruct (pages_apart p q Hp Hq Hne); unfold same_page in *; lia.
Qed.

Lemma pt_same_frame m m' pgdir v :
  pt_same m m' pgdir -> frame m' pgdir v = frame m pgdir v.
Proof. intros H. unfold frame. by rewrite (pt_same_pte_of _ _ _ _ H). Qed.

Lemma pt_same_tab m m' pgdir i :
  pt_same m m' pgdir -> 0 <= i < 1024 ->
  present_pde m' pgdir i = present_pde m pgdir i /\ table_of m' pgdir i = table_of m pgdir i.
Proof.
  intros H Hi. unfold present_pde, table_of. by rewrite (pt_same_pde _ _ _ _ H Hi).
Qed.

(** Memory may change anywhere outside the space, and the free list may shrink
    or take pages that are not in use. *)
Lemma aspace_frame m m' pgdir l l' R :
  aspace m pgdir l R ->
  (forall x, in_space m pgdir R x -> m' x = m x) ->
  (forall q, q ∈ l' -> q ∈ l \/ unused m pgdir l R q) ->
  aspace m' pgdir l' R /\ pt_same m m' pgdir /\
  (forall v, R v -> page_data m' pgdir v = page_data m pgdir v).
Proof.
  intros Ha Hm Hl.
  assert (Hs : pt_same m m' pgdir).
  { split; [intros x Hx; apply Hm; by left|].
    intros i x Hi Hp Hx. apply Hm. right; left. eauto. }
  assert (Hnl : forall q, q ∈ l' -> (q ∉ l) -> unused m pgdir l R q).
  { intros q Hq Hn. by destruct (Hl q Hq). }
  split; [|split; [done|]].
  - destruct (as_wf _ _ _ _ Ha) as [H1 H2 H3 H4].
    split.
    + split; [done| | |].
      * intros Hin. apply Hnl in Hin as Hu; [|done]. by destruct (un_dir _ _ _ _ _ Hu).
      * intros i Hi Hp. destruct (pt_same_tab _ _ _ _ Hs Hi) as [E1 E2].
        rewrite E1 in Hp. rewrite E2. destruct (H3 i Hi Hp) as (?&?&?).
        split; [done|split; [done|]]. intros Hin. apply Hnl in Hin as Hu; [|done].
        by eapply (un_tab _ _ _ _ _ Hu).
      * intros i j Hi Hj. destruct (pt_same_tab _ _ _ _ Hs Hi) as [-> ->].
        destruct (pt_same_tab _ _ _ _ Hs Hj) as [-> ->]. by apply H4.
    + apply Ha.
    + intros v Hv. rewrite (pt_same_pte_of _ _ _ _ Hs). by apply Ha.
    + intros v Hv. rewrite (pt_same_frame _ _ _ _ Hs).
      destruct (as_frame _ _ _ _ Ha v Hv) as (?&?&?). split; [done|split; [|done]].
      intros Hin. apply Hnl in Hin as Hu; [|done]. by eapply (un_frame _ _ _ _ _ Hu).
    + intros v i Hv Hi. destruct (pt_same_tab _ _ _ _ Hs Hi) as [-> ->].
      rewrite (pt_same_frame _ _ _ _ Hs). by apply Ha.
    + intros v w Hv Hw. rewrite !(pt_same_frame _ _ _ _ Hs). by apply Ha.
  - intros v Hv. unfold page_data. rewrite (pt_same_frame _ _ _ _ Hs).
    apply bytes_at_ext. intros i Hi. apply Hm. right; right. exists v.
    split; [done|]. unfold same_page, PGSIZE in *. lia.
Qed.

(** A byte of an unused page, or of a free page, is not in the space. *)
Lemma unused_outside m pgdir l R p x :
  aspace m pgdir l R -> unused m pgdir l R p -> same_page x p -> ~ in_space m pgdir R x.
Proof.
  intros Ha [Hp Hf Hd Ht Hfr] Hx Hin. destruct Hp as [Hal _].
  destruct Hin as [H|[(i&Hi&Hpi&H)|(v&Hv&H)]].
  - destruct (pt_dir _ _ _ _ (as_wf _ _ _ _ Ha)) as [Hd' _].
    apply Hd. by eapply same_page_apart.
  - destruct (pt_tab _ _ _ _ (as_wf _ _ _ _ Ha) i Hi Hpi) as [[Hd' _] _].
    apply (Ht i Hi Hpi). by eapply same_page_apart.
  - destruct (as_frame _ _ _ _ Ha v Hv) as [[Hd' _] _].
    apply (Hfr v Hv). by eapply same_page_apart.
Qed.

(** A page taken from the free list is unused. *)
Lemma unused_alloc m pgdir p l R :
  aspace m pgdir (p :: l) R -> page_ok kend p -> (p ∉ l) -> unused m pgdir l R p.
Proof.
  intros Ha Hp Hn. split; [done..| | |].
  - intros ->. apply (pt_dir_used _ _ _ _ (as_wf _ _ _ _ Ha)). left.
  - intros i Hi Hpi <-. destruct (pt_tab _ _ _ _ (as_wf _ _ _ _ Ha) i Hi Hpi) as (_&_&H).
    apply H. left.
  - intros v Hv <-. destruct (as_frame _ _ _ _ Ha v Hv) as (_&H&_). apply H. left.
Qed.

Lemma unused_same m m' pgdir l R p :
  pt_same m m' pgdir -> unused m pgdir l R p -> unused m' pgdir l R p.
Proof.
  intros Hs [H1 H2 H3 H4 H5]. split; [done..| |].
  - intros i Hi. destruct (pt_same_tab _ _ _ _ Hs Hi) as [-> ->]. by apply H4.
  - intros v Hv. rewrite (pt_same_frame _ _ _ _ Hs). by apply H5.
Qed.

Lemma aspace_weaken m pgdir l R R' :
  (forall v, R' v -> R v) -> aspace m pgdir l R -> aspace m pgdir l R'.
Proof. intros H [H1 H2 H3 H4 H5 H6]. split; eauto. Qed.

(** Storing the entry of page [v]. *)
Section store.
Context (m : mem) (pgdir : Z) (l : list Z) (R : Z -> Prop) (v e : Z).
Hypothesis Ha : aspace m pgdir l R.
Hypothesis Hv : is_vpa v.
Hypothesis Hp : present_pde m pgdir (PDX v) = true.
Let m' := st32 m (pte_addr m pgdir v) e.

Lemma store_pte_of w :
  is_vpa w -> pte_of m' pgdir w = if decide (w = v) then u32 e else pte_of m pgdir w.
Proof.
  intros Hw. unfold m'. rewrite (pte_of_store kend _ _ l) by (apply Ha || done).
  destruct (decide (same_vpage v w)) as [Hs|Hs], (decide (w = v)) as [->|Hne]; try done.
  - apply vpa_same_page in Hs; [by subst|done..].
  - by destruct Hs.
Qed.

Lemma store_tab i :
  0 <= i < 1024 ->
  present_pde m' pgdir i = present_pde m pgdir i /\ table_of m' pgdir i = table_of m pgdir i.
Proof.
  intros Hi. unfold present_pde, table_of, m'. rewrite ld32_st32_ne; [done|].
  destruct (pte_addr_in_page m pgdir v) as [H1 H2].
  pose proof (tab_dir_apart kend _ _ _ _ _ (as_wf _ _ _ _ Ha) (PDX_range v) Hp H1 H2 i Hi).
  lia.
Qed.

Lemma store_bytes x : ~ same_page x (table_of m pgdir (PDX v)) -> m' x = m x.
Proof.
  intros Hx. unfold m'. apply st32_other.
  destruct (pte_addr_in_page m pgdir v) as [H1 H2]. unfold same_page in *. lia.
Qed.

Lemma store_data w : R w -> w <> v -> page_data m' pgdir w = page_data m pgdir w.
Proof.
  intros Hw Hne. assert (Hvw : is_vpa w) by by apply Ha.
  unfold page_data, frame. rewrite store_pte_of, decide_False by done.
  apply bytes_at_ext. intros i Hi. apply store_bytes. intros Hx.
  destruct (as_frame _ _ _ _ Ha w Hw) as [[Hal _] _].
  destruct (pt_tab _ _ _ _ (as_wf _ _ _ _ Ha) _ (PDX_range v) Hp) as [[Hal' _] _].
  apply (as_tab _ _ _ _ Ha w (PDX v) Hw (PDX_range v) Hp).
  eapply same_page_apart; [done..|]. unfold same_page, PGSIZE, frame in *. lia.
Qed.

Lemma aspace_store R' :
  (forall w, R' w -> w <> v -> R w) ->
  (R' v -> has (u32 e) PTE_P = true /\
     unused m pgdir l (fun w => R w /\ w <> v) (P2V (PTE_ADDR (u32 e)))) ->
  aspace m' pgdir l R'.
Proof.
  intros HR He.
  assert (HvR : forall w, R' w -> is_vpa w).
  { intros w Hw. destruct (decide (w = v)) as [->|]; [done|]. eapply as_vpa; eauto. }
  assert (Hold : forall w, R' w -> w <> v -> frame m' pgdir w = frame m pgdir w).
  { intros w Hw Hne. unfold frame. by rewrite store_pte_of, decide_False by auto. }
  assert (Hnew : R' v -> frame m' pgdir v = P2V (PTE_ADDR (u32 e))).
  { intros H. unfold frame. by rewrite store_pte_of, decide_True by auto. }
  split; [apply pt_wf_store; [apply Ha|done]|done| | | |].
  - intros w Hw. rewrite store_pte_of by auto.
    destruct (decide (w = v)) as [->|]; [by apply He|]. eapply as_present; eauto.
  - intros w Hw. destruct (decide (w = v)) as [->|Hne].
    + rewrite Hnew by done. destruct (He Hw) as [_ []]. done.
    + rewrite Hold by done. eapply as_frame; eauto.
  - intros w i Hw Hi. destruct (store_tab i Hi) as [-> ->]. intros Hpi.
    destruct (decide (w = v)) as [->|Hne].
    + rewrite Hnew by done. destruct (He Hw) as [_ []]. auto.
    + rewrite Hold by done. eapply as_tab; eauto.
  - intros w1 w2 H1 H2.
    destruct (decide (w1 = v)) as [->|Hn1], (decide (w2 = v)) as [->|Hn2]; [done| | |].
    + rewrite Hnew, Hold by done. destruct (He H1) as [_ Hu]. intros E.
      destruct (un_frame _ _ _ _ _ Hu w2); auto.
    + rewrite Hold, Hnew by done. destruct (He H2) as [_ Hu]. intros E.
      destruct (un_frame _ _ _ _ _ Hu w1); auto.
    + rewrite !Hold by done. eapply as_inj; eauto.
Qed.

(** A page outside the space keeps being so. *)
Lemma unused_store R' p :
  unused m pgdir l R' p -> (forall w, R' w -> is_vpa w /\ w <> v) ->
  unused m' pgdir l R' p.
Proof.
  intros [H1 H2 H3 H4 H5] HR. split; [done..| |].
  - intros i Hi. destruct (store_tab i Hi) as [-> ->]. auto.
  - intros w Hw. destruct (HR w Hw). unfold frame.
    rewrite store_pte_of, decide_False by done. by apply H5.
Qed.

(** The frame of a resident page whose entry is dropped becomes unused. *)
Lemma unused_drop :
  R v -> unused m' pgdir l (fun w => R w /\ w <> v) (frame m pgdir v).
Proof.
  intros HRv. apply unused_store.
  - destruct (as_frame _ _ _ _ Ha v HRv) as (?&?&?). split; [done..| |].
    + intros i Hi Hpi. by eapply as_tab.
    + intros w [Hw Hne] E. by apply (as_inj _ _ _ _ Ha) in E.
  - intros w [Hw Hne]. split; [by eapply as_vpa|done].
Qed.

End store.
End space.
