(* ===== verification/Swap.v ===== *)
(** Demand paging: the swap metadata and page replacement of [swap.c].

    Each process keeps the virtual page addresses of its resident pages in
    [VPA_Memory] (with a usage counter in the low bits under NFU) and of its
    swapped-out pages in [VPA_Swap] (with the present bit [SWAP_P]).  The two
    replacement policies of the code, selected by [FIFO_SWAP] / [NFU_SWAP] in
    [defs.h], are the two constructors of [policy].

    The swap file is used through the interface [SwapStore]: the four routines
    of [fs.c] that [swap.c] calls.  [SwapStoreLaws] states what [swap.c] relies
    on; [flat_store] is the instance in which a swap file is its list of bytes. *)

From S2P Require Import Prelude Memory Kalloc Vm.

(** ** mmu.h, swap.h *)

Definition MAX_PSYC_PAGES : Z := 15.
Definition MAX_TOTAL_PAGES : Z := 30.
Definition MAX_SWAP_PAGES : Z := MAX_TOTAL_PAGES - MAX_PSYC_PAGES.

Definition SWAP_ADDR (x : Z) : Z := Z.land (u32 x) 0xFFFFF000.
Definition MEM_ADDR (x : Z) : Z := Z.land (u32 x) 0xFFFFF000.
Definition SWAP_P : Z := 0x800.
Definition NFU_MEM_COUNTER (x : Z) : Z := Z.land (u32 x) 0x7FF.

Inductive policy := FIFO_SWAP | NFU_SWAP.

#[global] Instance policy_eq_dec : EqDecision policy.
Proof. solve_decision. Defined.

(** ** The interface to the swap file *)

(** Largest file, in bytes: [MAXFILE * BSIZE]. *)
Definition MAXFILE_BYTES : Z := (12 + 128) * 512.

Class SwapStore (F : Type) := {
  createSwapFile : Z -> kern F Z;                         (* pid *)
  removeSwapFile : Z -> kern F Z;                         (* pid *)
  writeToSwapFile : Z -> list Z -> Z -> kern F Z;         (* pid, bytes, placeOnFile *)
  readFromSwapFile : Z -> Z -> Z -> kern F (Z * list Z);  (* pid, placeOnFile, size *)
}.

(** Overwrite [bs] at offset [off] of [c], extending it when it is at the end. *)
Definition splice (c : list Z) (off : nat) (bs : list Z) : list Z :=
  take off c ++ bs ++ drop (off + length bs) c.

Class SwapStoreLaws (F : Type) `{SwapStore F} := {
  ss_file : F -> Z -> option (list Z);
  ss_create f pid :
    exists f', createSwapFile pid f = Ret 0 f' /\
      ss_file f' pid = Some (default [] (ss_file f pid)) /\
      (forall q, q <> pid -> ss_file f' q = ss_file f q);
  ss_write f pid c bs off :
    ss_file f pid = Some c -> 0 <= off <= Z.of_nat (length c) ->
    off + Z.of_nat (length bs) <= MAXFILE_BYTES ->
    exists f', writeToSwapFile pid bs off f = Ret (Z.of_nat (length bs)) f' /\
      ss_file f' pid = Some (splice c (Z.to_nat off) bs) /\
      (forall q, q <> pid -> ss_file f' q = ss_file f q);
  ss_write_hole f pid c bs off :
    ss_file f pid = Some c -> Z.of_nat (length c) < off -> bs <> [] ->
    exists f', writeToSwapFile pid bs off f = Ret (-1) f' /\
      (forall q, ss_file f' q = ss_file f q);
  ss_read f pid c off n :
    ss_file f pid = Some c -> 0 <= off -> 0 <= n -> off + n <= Z.of_nat (length c) ->
    exists f', readFromSwapFile pid off n f =
        Ret (n, take (Z.to_nat n) (drop (Z.to_nat off) c)) f' /\
      (forall q, ss_file f' q = ss_file f q);
}.

(** The instance in which a swap file is its bytes. *)
#[global] Instance flat_store : SwapStore (gmap Z (list Z)) := {
  createSwapFile pid f := Ret 0 (<[pid := default [] (f !! pid)]> f);
  removeSwapFile pid f :=
    match f !! pid with None => Ret (-1) f | Some _ => Ret 0 (delete pid f) end;
  writeToSwapFile pid bs off f :=
    match f !! pid with
    | None => Ret (-1) f
    | Some c =>
        if (Z.of_nat (length c) <? off) || (MAXFILE_BYTES <? off + Z.of_nat (length bs))
        then Ret (-1) f
        else Ret (Z.of_nat (length bs)) (<[pid := splice c (Z.to_nat off) bs]> f)
    end;
  readFromSwapFile pid off n f :=
    match f !! pid with
    | None => Ret (-1, []) f
    | Some c =>
        if Z.of_nat (length c) <? off then Ret (-1, []) f
        else
          let bs := take (Z.to_nat n) (drop (Z.to_nat off) c) in
          Ret (Z.of_nat (length bs), bs) f
    end;
}.

#[global] Instance flat_store_laws : SwapStoreLaws (gmap Z (list Z)).
Proof.
  refine {| ss_file f pid := f !! pid |}.
  - intros f pid. eexists. split; [done|]. rewrite lookup_insert_eq.
    split; [done|]. intros q Hq. by rewrite lookup_insert_ne.
  - intros f pid c bs off Hc Ho Hm. simpl. rewrite Hc.
    rewrite (proj2 (Z.ltb_ge _ _)), (proj2 (Z.ltb_ge _ _)) by lia.
    eexists. split; [done|]. rewrite lookup_insert_eq.
    split; [done|]. intros q Hq. by rewrite lookup_insert_ne.
  - intros f pid c bs off Hc Ho Hb. simpl. rewrite Hc.
    rewrite (proj2 (Z.ltb_lt _ _) Ho). by exists f.
  - intros f pid c off n Hc Ho Hn Hl. simpl. rewrite Hc.
    rewrite (proj2 (Z.ltb_ge _ _)) by lia. eexists. split; [|done].
    rewrite length_take, length_drop. do 2 f_equal. lia.
Defined.

(** ** State *)

(** The part of [struct proc] that [swap.c] uses. *)
Record proc := Proc {
  p_pid : Z;
  p_pgdir : Z;
  p_parent : option nat;
  VPA_Swap : list Z;
  VPA_Memory : list Z;
  size_mem : Z;
  q_head : Z;
  q_tail : Z;
}.

Record machine (F : Type) := Machine {
  km : kmem;
  store : F;
  procs : nat -> proc;
  curproc : nat;              (* myproc() *)
  cr3 : Z;
}.
Arguments Machine {F} _ _ _ _ _.
Arguments km {F} _.
Arguments store {F} _.
Arguments procs {F} _ _.
Arguments curproc {F} _.
Arguments cr3 {F} _.

Definition set_swap (v : list Z) (p : proc) : proc :=
  Proc (p_pid p) (p_pgdir p) (p_parent p) v (VPA_Memory p) (size_mem p) (q_head p) (q_tail p).
Definition set_memory (v : list Z) (n : Z) (p : proc) : proc :=
  Proc (p_pid p) (p_pgdir p) (p_parent p) (VPA_Swap p) v n (q_head p) (q_tail p).
Definition set_queue (h t : Z) (p : proc) : proc :=
  Proc (p_pid p) (p_pgdir p) (p_parent p) (VPA_Swap p) (VPA_Memory p) (size_mem p) h t.

(** [a[i]] and [a[i] = x] of the fixed-size arrays. *)
Definition aget (a : list Z) (i : Z) : Z := nth (Z.to_nat i) a 0.
Definition aset (a : list Z) (i x : Z) : list Z := <[Z.to_nat i := x]> a.

Section swap.
Context {F : Type} `{SwapStore F}.
Variable kend : Z.

Local Abbreviation M := (kern (machine F)).

Definition set_km (k : kmem) (s : machine F) : machine F :=
  Machine k (store s) (procs s) (curproc s) (cr3 s).
Definition set_store (f : F) (s : machine F) : machine F :=
  Machine (km s) f (procs s) (curproc s) (cr3 s).
Definition upd_proc (p : nat) (g : proc -> proc) (s : machine F) : machine F :=
  Machine (km s) (store s) (fun q => if decide (q = p) then g (procs s p) else procs s q)
    (curproc s) (cr3 s).
Definition set_cr3 (v : Z) (s : machine F) : machine F :=
  Machine (km s) (store s) (procs s) (curproc s) v.

Definition lift_km {A} (m : kern kmem A) : M A := zoom km set_km m.
Definition lift_store {A} (m : kern F A) : M A := zoom store set_store m.
Definition getp (p : nat) : M proc := gets (fun s => procs s p).
Definition setp (p : nat) (g : proc -> proc) : M unit := modify (upd_proc p g).
Definition lcr3 (v : Z) : M unit := modify (set_cr3 v).

(** ** swap.c *)

(** [for(i...)] of [initSwap]; [n] iterations remain, [NELEM(VPA_Swap) = i + n]. *)
Fixpoint initSwap_loop (p q : nat) (buff : Z) (n : nat) (i j : Z) : M Z :=
  match n with
  | O => mret 0
  | S n =>
      pr ← getp p;
      if negb (has (aget (VPA_Swap pr) i) SWAP_P)
      then initSwap_loop p q buff n (i + 1) j
      else
        pa ← getp q;
        r ← lift_store (readFromSwapFile (p_pid pa) (i * PGSIZE) PGSIZE);
        if r.1 <? 0 then lift_store (removeSwapFile (p_pid pr)) ;; mret (-1)
        else
          lift_km (modify (with_mem (fun m => put_bytes m buff r.2))) ;;
          (if negb (j =? i) then
             setp p (fun x => set_swap
               (aset (aset (VPA_Swap x) j (aget (VPA_Swap x) i)) i 0) x)
           else mret tt) ;;
          m ← gets (fun s => km_mem (km s));
          w ← lift_store (writeToSwapFile (p_pid pr) (bytes_at m buff (Z.to_nat PGSIZE)) (j * PGSIZE));
          if w <? 0 then lift_store (removeSwapFile (p_pid pr)) ;; mret (-1)
          else initSwap_loop p q buff n (i + 1) (j + 1)
  end.

Definition initSwap (pol : policy) (p : nat) : M Z :=
  pr ← getp p;
  match p_parent pr with
  | None => panic "p->parent!=0"
  | Some q =>
      pa ← getp q;
      setp p (set_swap (VPA_Swap pa)) ;;
      setp p (set_memory (VPA_Memory pa) (size_mem pa)) ;;
      (match pol with
       | FIFO_SWAP => setp p (set_queue (q_head pa) (q_tail pa))
       | NFU_SWAP => mret tt
       end) ;;
      r ← lift_store (createSwapFile (p_pid pr));
      if r <? 0 then mret (-1)
      else
        buff ← lift_km kalloc;
        if buff =? 0 then panic "(buff = kalloc()) != 0"
        else
          r ← initSwap_loop p q buff (Z.to_nat MAX_SWAP_PAGES) 0 0;
          if r <? 0 then mret r
          else lift_km (kfree kend buff) ;; mret 0
  end.

Definition initFreshSwap (pol : policy) (p : nat) : M Z :=
  setp p (set_swap (replicate (Z.to_nat MAX_SWAP_PAGES) 0)) ;;
  setp p (set_memory (replicate (Z.to_nat MAX_PSYC_PAGES) 0) 0) ;;
  (match pol with
   | FIFO_SWAP => setp p (set_queue 0 0)
   | NFU_SWAP => mret tt
   end) ;;
  pr ← getp p;
  lift_store (createSwapFile (p_pid pr)).

Definition destroySwap (p : nat) : M Z :=
  pr ← getp p; lift_store (removeSwapFile (p_pid pr)).

(** [for(i...)] of [restoreSwap], [n] iterations remaining. *)
Fixpoint restoreSwap_loop (p : nat) (n : nat) (i : Z) : M Z :=
  match n with
  | O => mret 0
  | S n =>
      pr ← getp p;
      if negb (has (aget (VPA_Swap pr) i) SWAP_P) then restoreSwap_loop p n (i + 1)
      else
        let vpa := SWAP_ADDR (aget (VPA_Swap pr) i) in
        pte ← lift_km (walkpgdir (p_pgdir pr) vpa false);
        assert_panic (negb (pte =? 0)) "pte!=0" ;;
        e ← lift_km (load32 pte);
        assert_panic (has e PTE_PG) "(*pte & PTE_PG)" ;;
        assert_panic (negb (has e PTE_P)) "!(*pte & PTE_P)" ;;
        let flags := Z.lor (Z.land (PTE_FLAGS e) (Z.lnot PTE_PG)) PTE_P in
        mem ← lift_km kalloc;
        if mem =? 0 then mret (-1)
        else
          let new_val := Z.lor (V2P mem) flags in
          c ← gets cr3;
          assert_panic (V2P (p_pgdir pr) =? c) "V2P(p->pgdir) == rcr3()" ;;
          lift_km (store32 pte new_val) ;;
          lcr3 (V2P (p_pgdir pr)) ;;
          c ← gets cr3;
          assert_panic (V2P (p_pgdir pr) =? c) "V2P(p->pgdir) == rcr3()" ;;
          restoreSwap_loop p n (i + 1)
  end.

Definition restoreSwap (p : nat) : M Z := restoreSwap_loop p (Z.to_nat MAX_SWAP_PAGES) 0.

(** First slot of the swap file that is not occupied, -1 if there is none. *)
Fixpoint free_slot_from (l : list Z) (i : Z) : Z :=
  match l with
  | [] => -1
  | e :: l => if has e SWAP_P then free_slot_from l (i + 1) else i
  end.

Definition getFreeSwapPageIndex (p : proc) : Z := free_slot_from (VPA_Swap p) 0.

Definition moveToSwap (p : nat) (idx_mem idx_swap : Z) : M Z :=
  assert_panic (idx_mem <? MAX_PSYC_PAGES) "idx_mem < MAX_PSYC_PAGES" ;;
  assert_panic (idx_swap <? MAX_SWAP_PAGES) "idx_swap < MAX_SWAP_PAGES" ;;
  pr ← getp p;
  let vpa := MEM_ADDR (aget (VPA_Memory pr) idx_mem) in
  assert_panic (PTE_FLAGS vpa =? 0) "PTE_FLAGS(vpa)==0" ;;
  pte ← lift_km (walkpgdir (p_pgdir pr) vpa false);
  if pte =? 0 then mret (-1)
  else
    e ← lift_km (load32 pte);
    let mem := P2V (PTE_ADDR e) in
    if mem =? 0 then mret (-1)
    else
      m ← gets (fun s => km_mem (km s));
      w ← lift_store (writeToSwapFile (p_pid pr) (bytes_at m mem (Z.to_nat PGSIZE))
                        (idx_swap * PGSIZE));
      if negb (w =? PGSIZE) then mret (-1)
      else
        setp p (fun x => set_swap (aset (VPA_Swap x) idx_swap (Z.lor SWAP_P vpa)) x) ;;
        let new_val := Z.lor (Z.land e (Z.lnot PTE_P)) PTE_PG in
        me ← gets curproc;
        assert_panic (bool_decide (me = p)) "myproc() == p" ;;
        c ← gets cr3;
        assert_panic (V2P (p_pgdir pr) =? c) "V2P(p->pgdir) == rcr3()" ;;
        lift_km (store32 pte new_val) ;;
        lcr3 (V2P (p_pgdir pr)) ;;
        c ← gets cr3;
        assert_panic (V2P (p_pgdir pr) =? c) "V2P(p->pgdir) == rcr3()" ;;
        lift_km (kfree kend mem) ;;
        mret 0.

(** [for(i...)] of [moveFromSwap]: slot of the first occupied entry for [vpa]. *)
Fixpoint find_slot (l : list Z) (vpa i : Z) : option Z :=
  match l with
  | [] => None
  | e :: l => if has e SWAP_P && (SWAP_ADDR e =? vpa) then Some i else find_slot l vpa (i + 1)
  end.

Definition moveFromSwap (p : nat) (vpa mem : Z) : M Z :=
  assert_panic (PTE_FLAGS vpa =? 0) "PTE_FLAGS(vpa) == 0" ;;
  pr ← getp p;
  match find_slot (VPA_Swap pr) vpa 0 with
  | None => mret (-1)
  | Some i =>
      r ← lift_store (readFromSwapFile (p_pid pr) (i * PGSIZE) PGSIZE);
      lift_km (modify (with_mem (fun m => put_bytes m mem r.2))) ;;
      if negb (r.1 =? PGSIZE) then mret (-1)
      else
        setp p (fun x => set_swap (aset (VPA_Swap x) i 0) x) ;;
        mret 0
  end.

(** NFU: index of the entry with the lowest counter, the last one on ties. *)
Fixpoint nfu_victim (l : list Z) (i idx mx_count : Z) : Z :=
  match l with
  | [] => idx
  | e :: l =>
      if NFU_MEM_COUNTER e <=? mx_count
      then nfu_victim l (i + 1) i (NFU_MEM_COUNTER e)
      else nfu_victim l (i + 1) idx mx_count
  end.

Definition linkNewPage (pol : policy) (p : nat) (vpa : Z) : M Z :=
  assert_panic (PTE_FLAGS vpa =? 0) "PTE_FLAGS(vpa) ==0" ;;
  pr ← getp p;
  match pol with
  | FIFO_SWAP =>
      if size_mem pr =? MAX_PSYC_PAGES then
        assert_panic (q_head pr =? q_tail pr) "p->q_head == p->q_tail" ;;
        let idx_swap := getFreeSwapPageIndex pr in
        if idx_swap =? -1 then mret (-1)
        else
          moveToSwap p (q_head pr) idx_swap ;;
          setp p (fun x => set_memory (aset (VPA_Memory x) (q_tail x) vpa) (size_mem x) x) ;;
          setp p (fun x => set_queue (q_head x) (Z.rem (q_tail x + 1) MAX_PSYC_PAGES) x) ;;
          setp p (fun x => set_queue (Z.rem (q_head x + 1) MAX_PSYC_PAGES) (q_tail x) x) ;;
          mret 0
      else
        setp p (fun x => set_memory (aset (VPA_Memory x) (q_tail x) vpa) (size_mem x) x) ;;
        setp p (fun x => set_queue (q_head x) (Z.rem (q_tail x + 1) MAX_PSYC_PAGES) x) ;;
        setp p (fun x => set_memory (VPA_Memory x) (u32 (size_mem x + 1)) x) ;;
        mret 0
  | NFU_SWAP =>
      if size_mem pr =? MAX_PSYC_PAGES then
        let idx_swap := getFreeSwapPageIndex pr in
        if idx_swap =? -1 then mret (-1)
        else
          let idx_mem := nfu_victim (VPA_Memory pr) 0 (-1) 0xffffffff in
          assert_panic (negb (idx_mem =? -1)) "idx_mem != -1" ;;
          r ← moveToSwap p idx_mem idx_swap;
          if negb (r =? 0) then mret (-1)
          else
            setp p (fun x => set_memory (aset (VPA_Memory x) idx_mem vpa) (size_mem x) x) ;;
            mret 0
      else
        setp p (fun x => set_memory (aset (VPA_Memory x) (size_mem x) vpa)
                           (u32 (size_mem x + 1)) x) ;;
        mret 0
  end.

(** FIFO: the inner [while(i + 1 < size_mem)] shifts the queue down by one from
    [idx]; it returns the array and the last index, the new tail. *)
Fixpoint fifo_shift (n : nat) (a : list Z) (idx i sz : Z) : list Z * Z :=
  if i + 1 <? sz then
    match n with
    | O => (a, idx)
    | S n =>
        let nxt := if idx + 1 =? MAX_PSYC_PAGES then 0 else idx + 1 in
        fifo_shift n (aset a idx (aget a nxt)) nxt (i + 1) sz
    end
  else (a, idx).

(** FIFO: the outer [for(i < size_mem)]; [Some] when the page was found. *)
Fixpoint fifo_unlink (n : nat) (p : proc) (vpa idx i : Z) : option (list Z * Z) :=
  match n with
  | O => None
  | S n =>
      if MEM_ADDR (aget (VPA_Memory p) idx) =? vpa
      then Some (fifo_shift (Z.to_nat (size_mem p)) (VPA_Memory p) idx i (size_mem p))
      else fifo_unlink n p vpa (if idx + 1 =? MAX_PSYC_PAGES then 0 else idx + 1) (i + 1)
  end.

(** NFU: first index below [size_mem] that holds [vpa]. *)
Fixpoint nfu_find (l : list Z) (vpa i : Z) : option Z :=
  match l with
  | [] => None
  | e :: l => if MEM_ADDR e =? vpa then Some i else nfu_find l vpa (i + 1)
  end.

(** The scan of [VPA_Swap] at the end of [unlinkPage]. *)
Definition unlink_swap (p : nat) (vpa : Z) : M Z :=
  pr ← getp p;
  match find_slot (VPA_Swap pr) vpa 0 with
  | Some i => setp p (fun x => set_swap (aset (VPA_Swap x) i 0) x) ;; mret 0
  | None => mret (-1)
  end.

Definition unlinkPage (pol : policy) (p : nat) (vpa : Z) : M Z :=
  assert_panic (PTE_FLAGS vpa =? 0) "PTE_FLAGS(vpa) == 0" ;;
  pr ← getp p;
  match pol with
  | FIFO_SWAP =>
      match fifo_unlink (Z.to_nat (size_mem pr)) pr vpa (q_head pr) 0 with
      | Some (a, tail) =>
          setp p (fun x => set_queue (q_head x) tail (set_memory a (u32 (size_mem x - 1)) x)) ;;
          pr ← getp p;
          (if size_mem pr =? 0 then
             assert_panic (q_head pr =? q_tail pr) "p->q_head == p->q_tail"
           else if q_head pr <? q_tail pr then
             assert_panic (q_tail pr - q_head pr =? size_mem pr) "p->q_tail-p->q_head == p->size_mem"
           else
             assert_panic (MAX_PSYC_PAGES - q_head pr + q_tail pr =? size_mem pr)
               "MAX_PSYC_PAGES - p->q_head + p->q_tail == p->size_mem") ;;
          mret 0
      | None => unlink_swap p vpa
      end
  | NFU_SWAP =>
      assert_panic (size_mem pr <=? MAX_PSYC_PAGES) "p->size_mem <= MAX_PSYC_PAGES" ;;
      match nfu_find (take (Z.to_nat (size_mem pr)) (VPA_Memory pr)) vpa 0 with
      | Some i =>
          assert_panic (0 <? size_mem pr) "p->size_mem > 0" ;;
          let sz := size_mem pr - 1 in
          setp p (fun x => set_memory
            (aset (aset (VPA_Memory x) i (aget (VPA_Memory x) sz)) sz 0) sz x) ;;
          mret 0
      | None => unlink_swap p vpa
      end
  end.

Definition recoverPageFault (pol : policy) (va : Z) : M Z :=
  let vpa := PGROUNDDOWN va in
  p ← gets curproc;
  pr ← getp p;
  pte ← lift_km (walkpgdir (p_pgdir pr) va false);
  if pte =? 0 then mret (-1)
  else
    e ← lift_km (load32 pte);
    if negb (has e PTE_PG) then mret (-1)
    else
      mem ← lift_km kalloc;
      if mem =? 0 then mret (-1)
      else
        let flags := PTE_FLAGS e in
        r ← moveFromSwap p vpa mem;
        if r <? 0 then lift_km (kfree kend mem) ;; mret (-1)
        else
          assert_panic (has flags PTE_PG) "flags & PTE_PG" ;;
          assert_panic (negb (has flags PTE_P)) "!(flags & PTE_P)" ;;
          let flags := Z.lor (Z.land flags (Z.lnot PTE_PG)) PTE_P in
          c ← gets cr3;
          assert_panic (c =? V2P (p_pgdir pr)) "rcr3() == V2P(p->pgdir)" ;;
          lift_km (store32 pte (Z.lor (V2P mem) flags)) ;;
          lcr3 (V2P (p_pgdir pr)) ;;
          linkNewPage pol p vpa ;;
          c ← gets cr3;
          assert_panic (c =? V2P (p_pgdir pr)) "rcr3() == V2P(p->pgdir)" ;;
          mret 0.

(** [for(i < size_mem)] of [nfu_Increment_Counter], [n] iterations remaining. *)
Fixpoint nfu_loop (p : nat) (n : nat) (i : Z) : M unit :=
  match n with
  | O => mret tt
  | S n =>
      pr ← getp p;
      let vpa := MEM_ADDR (aget (VPA_Memory pr) i) in
      pte ← lift_km (walkpgdir (p_pgdir pr) vpa false);
      assert_panic (negb (pte =? 0)) "pte != 0" ;;
      e ← lift_km (load32 pte);
      (if has e PTE_A then
         let cnt := u32 (NFU_MEM_COUNTER (aget (VPA_Memory pr) i) + 1) in
         setp p (fun x => set_memory
           (aset (VPA_Memory x) i (Z.lor vpa (NFU_MEM_COUNTER cnt))) (size_mem x) x) ;;
         pte ← lift_km (walkpgdir (p_pgdir pr) vpa false);
         e ← lift_km (load32 pte);
         lift_km (store32 pte (Z.land e (Z.lnot PTE_A)))
       else mret tt) ;;
      nfu_loop p n (i + 1)
  end.

Definition nfu_Increment_Counter (p : option nat) : M unit :=
  match p with
  | None => mret tt
  | Some p => pr ← getp p; nfu_loop p (Z.to_nat (size_mem pr)) 0
  end.

End swap.

(** ** One step of the monad on the machine *)

Section steps.
Context {F : Type} `{SwapStore F}.
Implicit Types s : machine F.

Lemma bind_getp {B} p (f : proc -> kern (machine F) B) s :
  (getp p ≫= f) s = f (procs s p) s.
Proof. done. Qed.

Lemma bind_setp {B} p g (f : unit -> kern (machine F) B) s :
  (setp p g ≫= f) s = f tt (upd_proc p g s).
Proof. done. Qed.

Lemma bind_lcr3 {B} v (f : unit -> kern (machine F) B) s :
  (lcr3 v ≫= f) s = f tt (set_cr3 v s).
Proof. done. Qed.

Lemma bind_assert {B} b msg (f : unit -> kern (machine F) B) s :
  b = true -> (assert_panic b msg ≫= f) s = f tt s.
Proof. by intros ->. Qed.

Lemma bind_km {A B} (m : kern kmem A) (f : A -> kern (machine F) B) s a k :
  m (km s) = Ret a k -> (lift_km m ≫= f) s = f a (set_km k s).
Proof. intros E. unfold lift_km, zoom, mbind, kern_bind. by rewrite E. Qed.

Lemma bind_store {A B} (m : kern F A) (f : A -> kern (machine F) B) s a t :
  m (store s) = Ret a t -> (lift_store m ≫= f) s = f a (set_store t s).
Proof. intros E. unfold lift_store, zoom, mbind, kern_bind. by rewrite E. Qed.

Lemma bind_load {B} a (f : Z -> kern (machine F) B) s :
  (lift_km (load32 a) ≫= f) s = f (ld32 (km_mem (km s)) a) s.
Proof. by destruct s. Qed.

Lemma bind_walk {B} pgdir va (f : Z -> kern (machine F) B) s :
  (lift_km (walkpgdir pgdir va false) ≫= f) s =
  f (if present_pde (km_mem (km s)) pgdir (PDX va) then pte_addr (km_mem (km s)) pgdir va
     else 0) s.
Proof.
  erewrite bind_km by apply walkpgdir_noalloc. by destruct s.
Qed.

Lemma km_run {A} (m : kern kmem A) s a k : m (km s) = Ret a k -> lift_km m s = Ret a (set_km k s).
Proof. intros E. unfold lift_km. by apply zoom_Ret. Qed.

Lemma set_km_same s : set_km (km s) s = s.
Proof. by destruct s. Qed.

Lemma procs_upd p g s : procs (upd_proc p g s) p = g (procs s p).
Proof. simpl. by rewrite decide_True. Qed.

Lemma procs_upd_ne p g s q : q <> p -> procs (upd_proc p g s) q = procs s q.
Proof. intros. simpl. by rewrite decide_False. Qed.

End steps.
