(* ===== verification/SwapCorrect.v ===== *)
(** Correctness of the paging code of [Swap]: moving pages between memory and
    the swap file is transparent to the process.

    [space_ok] is the paging invariant of one process and [upage] the contents
    of a user page wherever it is, in its frame or in its slot of the swap file.
    The steps of the code are related by [paged], which says that no user page
    changes and that nothing outside the process is touched. *)

From S2P Require Import Prelude Memory Kalloc Vm Space Swap.

(** Entry flags apart from the two that paging owns. *)
Definition soft (e : Z) : Z := Z.ldiff (PTE_FLAGS e) (Z.lor PTE_P PTE_PG).

Definition slot_data (c : list Z) (i : nat) : list Z :=
  take (Z.to_nat PGSIZE) (drop (i * Z.to_nat PGSIZE) c).

(** Slot [i] of the swap file holds page [v]. *)
Definition swapped (pr : proc) (v : Z) (i : nat) : Prop :=
  exists e, VPA_Swap pr !! i = Some e /\ has e SWAP_P = true /\ SWAP_ADDR e = v.

(** ** Entries *)

Definition evict_pte (e : Z) : Z := Z.lor (Z.land e (Z.lnot PTE_P)) PTE_PG.
Definition restore_flags (e : Z) : Z :=
  Z.lor (Z.land (PTE_FLAGS e) (Z.lnot PTE_PG)) PTE_P.

Lemma land_u32 e x : is_u32 e -> is_u32 (Z.land e x).
Proof.
  intros He.
  assert (E : Z.land e x = u32 (Z.land e x)).
  { unfold u32. rewrite <- Z.land_ones by lia.
    rewrite <- Z.land_assoc, (Z.land_comm x), Z.land_assoc.
    rewrite (Z.land_ones e) by lia. by rewrite (Z.mod_small e) by done. }
  rewrite E. apply u32_range.
Qed.

Lemma PTE_FLAGS_range e : 0 <= PTE_FLAGS e < 4096.
Proof. unfold PTE_FLAGS. rewrite land_fff. by apply Z.mod_pos_bound. Qed.

Lemma has_flag_bit e :
  is_u32 e ->
  has e PTE_P = Z.testbit e 0 /\ has e PTE_PG = Z.testbit e 9 /\
  has (PTE_FLAGS e) PTE_P = Z.testbit e 0 /\ has (PTE_FLAGS e) PTE_PG = Z.testbit e 9.
Proof.
  intros He. change PTE_P with (2 ^ 0). change PTE_PG with (2 ^ 9).
  rewrite !has_pow2 by lia. unfold PTE_FLAGS. rewrite u32_id by done.
  by rewrite !Z.land_spec, !andb_true_r.
Qed.

Lemma evict_u32 e : is_u32 e -> is_u32 (evict_pte e).
Proof.
  intros He. apply (lor_range 32); [lia|by apply land_u32|unfold PTE_PG; lia].
Qed.

Lemma testbit_not_fff n : 12 <= n -> Z.testbit 0xFFF n = false.
Proof. intros. apply (small_testbit _ 12); lia. Qed.

Lemma evict_spec e :
  is_u32 e ->
  has (evict_pte e) PTE_P = false /\ has (evict_pte e) PTE_PG = true /\
  soft (evict_pte e) = soft e.
Proof.
  intros He. destruct (has_flag_bit _ (evict_u32 _ He)) as (->&->&_&_).
  unfold evict_pte, soft, PTE_FLAGS.
  rewrite !(u32_id e), u32_id by (done || by apply evict_u32).
  rewrite !Z.lor_spec, !Z.land_spec. split; [by rewrite andb_false_r|].
  split; [by rewrite orb_true_r|]. zbits. rewrite Z.lnot_spec by lia.
  change PTE_P with (2 ^ 0). change PTE_PG with (2 ^ 9). rewrite !Z.pow2_bits_eqb by lia.
  destruct (Z.testbit e n), (0 =? n), (9 =? n), (Z.testbit 0xFFF n); done.
Qed.

Lemma restore_range e : 0 <= restore_flags e < 4096.
Proof.
  unfold restore_flags, PTE_FLAGS. apply (lor_range 12); [lia| |unfold PTE_P; lia].
  rewrite land_fff. rewrite <- (Z.mod_small (u32 e mod 4096) 4096) by (apply Z.mod_pos_bound; lia).
  rewrite <- land_fff. rewrite <- Z.land_assoc, (Z.land_comm 0xFFF), Z.land_assoc, land_fff.
  by apply Z.mod_pos_bound.
Qed.

Lemma soft_fits e f : is_u32 e -> PTE_FLAGS f = restore_flags e -> soft f = soft e.
Proof.
  intros He Hf. unfold soft. rewrite Hf. unfold restore_flags. zbits.
  rewrite Z.lnot_spec by lia.
  change PTE_P with (2 ^ 0). change PTE_PG with (2 ^ 9). rewrite !Z.pow2_bits_eqb by lia.
  destruct (Z.testbit (PTE_FLAGS e) n), (0 =? n), (9 =? n); done.
Qed.

(** The entry that brings a page back: its frame, present, the other flags of
    the entry that was evicted. *)
Lemma restore_spec kend q e :
  is_u32 e -> page_ok kend q ->
  let e' := Z.lor (V2P q) (restore_flags e) in
  is_u32 e' /\ P2V (PTE_ADDR e') = q /\ has e' PTE_P = true /\ has e' PTE_PG = false /\
  soft e' = soft e.
Proof.
  intros He Hq e'.
  assert (HV : V2P q = q - KERNBASE) by by apply (page_ok_V2P kend).
  assert (Hal : V2P q mod PGSIZE = 0).
  { rewrite HV. destruct Hq as [Hm _]. unfold KERNBASE, PGSIZE in *.
    by rewrite Zminus_mod, Hm. }
  assert (Hu : is_u32 (V2P q)) by apply u32_range.
  destruct (pte_make (V2P q) (restore_flags e) Hu Hal (restore_range e)) as (E1&E2&E3).
  split; [done|]. split. { unfold e'. rewrite E2. apply P2V_V2P. by eapply page_ok_u32. }
  fold e' in E1, E3. destruct (has_flag_bit e' E1) as (HP&HG&HP'&HG').
  rewrite HP, HG, <- HP', <- HG', E3. unfold restore_flags at 1 2.
  split; [|split; [|by apply soft_fits]].
  - by rewrite has_lor, orb_true_r.
  - rewrite has_lor, orb_false_r. change PTE_PG with (2 ^ 9). rewrite has_pow2 by lia.
    by rewrite Z.land_spec, andb_false_r.
Qed.

(** ** Slots of the swap file *)

Lemma length_splice c off bs :
  (off <= length c)%nat -> length (splice c off bs) = Nat.max (length c) (off + length bs).
Proof.
  intros. unfold splice. rewrite !length_app, length_take, length_drop. lia.
Qed.

Lemma Forall_splice (P : Z -> Prop) c off bs :
  Forall P c -> Forall P bs -> Forall P (splice c off bs).
Proof.
  intros. unfold splice. apply Forall_app. split; [by apply Forall_take|].
  apply Forall_app. split; [done|by apply Forall_drop].
Qed.

Lemma splice_slot_eq (N i : nat) c bs :
  length bs = N -> (i * N <= length c)%nat ->
  take N (drop (i * N) (splice c (i * N) bs)) = bs.
Proof.
  intros Hb Hc. unfold splice.
  rewrite drop_app_ge by (rewrite length_take; lia).
  rewrite length_take, Nat.min_l, Nat.sub_diag, drop_0 by lia.
  by rewrite <- Hb, take_app_length.
Qed.

Lemma splice_slot_ne (N i j : nat) c bs :
  length bs = N -> i <> j -> (i * N <= length c)%nat -> ((j + 1) * N <= length c)%nat ->
  take N (drop (j * N) (splice c (i * N) bs)) = take N (drop (j * N) c).
Proof.
  intros Hb Hij Hc Hj. apply list_eq. intros k.
  destruct (decide (k < N)%nat) as [Hk|Hk].
  2: { rewrite !lookup_take_ge by lia. done. }
  rewrite !lookup_take_lt, !lookup_drop by done. unfold splice.
  destruct (decide (j < i)%nat) as [Hlt|Hge].
  - assert ((j + 1) * N <= i * N)%nat by (apply Nat.mul_le_mono_r; lia).
    rewrite lookup_app_l by (rewrite length_take; lia).
    by rewrite lookup_take_lt by lia.
  - assert ((i + 1) * N <= j * N)%nat by (apply Nat.mul_le_mono_r; lia).
    rewrite lookup_app_r by (rewrite length_take; lia).
    rewrite length_take, Nat.min_l by lia.
    rewrite lookup_app_r by lia. rewrite lookup_drop. f_equal. lia.
Qed.

Lemma free_slot_spec l i :
  (free_slot_from l i = -1 /\ Forall (fun e => has e SWAP_P = true) l) \/
  (exists n e, free_slot_from l i = i + Z.of_nat n /\ l !! n = Some e /\
     has e SWAP_P = false /\
     forall j e', (j < n)%nat -> l !! j = Some e' -> has e' SWAP_P = true).
Proof.
  revert i. induction l as [|e l IH]; intros i; simpl; [by left|].
  destruct (has e SWAP_P) eqn:He.
  - destruct (IH (i + 1)) as [[-> HF]|(n&e'&->&Hl&Hf&Hb)].
    + left. split; [done|]. by constructor.
    + right. exists (S n), e'. split; [lia|]. split; [done|split; [done|]].
      intros [|j] x Hj; simpl; [by intros [= <-]|]. apply Hb. lia.
  - right. exists 0%nat, e. split; [lia|]. split; [done|split; [done|]]. lia.
Qed.

Lemma find_slot_spec l v i :
  match find_slot l v i with
  | None => forall n e, l !! n = Some e -> has e SWAP_P = true -> SWAP_ADDR e <> v
  | Some r => exists n e, r = i + Z.of_nat n /\ l !! n = Some e /\
      has e SWAP_P = true /\ SWAP_ADDR e = v
  end.
Proof.
  revert i. induction l as [|e l IH]; intros i; simpl; [done|].
  destruct (has e SWAP_P) eqn:He; simpl.
  - destruct (Z.eqb_spec (SWAP_ADDR e) v) as [Hv|Hv].
    + exists 0%nat, e. split; [lia|done].
    + specialize (IH (i + 1)). destruct (find_slot l v (i + 1)).
      * destruct IH as (n&e'&->&?). exists (S n), e'. split; [lia|done].
      * intros [|n] x; simpl; [by intros [= <-]|eauto].
  - specialize (IH (i + 1)). destruct (find_slot l v (i + 1)).
    + destruct IH as (n&e'&->&?). exists (S n), e'. split; [lia|done].
    + intros [|n] x; simpl; [intros [= <-]; congruence|eauto].
Qed.

(** The entry of [VPA_Swap] for a page. *)
Lemma swap_entry v :
  is_vpa v -> has (Z.lor SWAP_P v) SWAP_P = true /\ SWAP_ADDR (Z.lor SWAP_P v) = v.
Proof.
  intros [Hu Ha]. split; [by rewrite has_lor|]. rewrite Z.lor_comm.
  apply (pte_make v SWAP_P); [done..|unfold SWAP_P; lia].
Qed.

(** ** The two memory steps of paging *)

Section memory_steps.
Variable kend : Z.
Context (k : kmem) (pgdir : Z) (R : Z -> Prop) (v : Z).
Local Abbreviation m := (km_mem k).

Lemma pte_u32 w : mem_ok m -> is_u32 (pte_of m pgdir w).
Proof.
  intros Hm. unfold pte_of. destruct (present_pde m pgdir (PDX w)); [by apply ld32_range|].
  unfold is_u32. lia.
Qed.

Lemma in_space_same m' R' x :
  (forall i, 0 <= i < 1024 -> present_pde m' pgdir i = present_pde m pgdir i /\
     table_of m' pgdir i = table_of m pgdir i) ->
  (forall w, R' w -> R w /\ frame m' pgdir w = frame m pgdir w) ->
  in_space m' pgdir R' x -> in_space m pgdir R x.
Proof.
  intros Ht Hf [H|[(i&Hi&Hp&H)|(w&Hw&H)]].
  - by left.
  - right; left. exists i. destruct (Ht i Hi) as [<- <-]. done.
  - right; right. exists w. destruct (Hf w Hw) as [? <-]. done.
Qed.

(** Evicting [v]: its entry is marked swapped out and its frame is freed. *)
Lemma evict_mem l :
  kmem_inv kend k l -> aspace kend m pgdir l R -> R v ->
  let fr := frame m pgdir v in
  let R' := fun w => R w /\ w <> v in
  exists k',
    kfree kend fr
      (with_mem (fun m0 => st32 m0 (pte_addr m pgdir v) (evict_pte (pte_of m pgdir v))) k)
      = Ret tt k' /\
    kmem_inv kend k' (fr :: l) /\ aspace kend (km_mem k') pgdir (fr :: l) R' /\
    (forall w, is_vpa w -> pte_of (km_mem k') pgdir w =
       if decide (w = v) then evict_pte (pte_of m pgdir v) else pte_of m pgdir w) /\
    (forall w, R' w -> page_data (km_mem k') pgdir w = page_data m pgdir w) /\
    (forall x, ~ in_space m pgdir R x -> km_mem k' x = m x) /\
    (forall x, in_space (km_mem k') pgdir R' x -> in_space m pgdir R x).
Proof.
  intros Hk Ha HRv fr R'.
  assert (Hv : is_vpa v) by by eapply as_vpa.
  assert (Hp : present_pde m pgdir (PDX v) = true).
  { apply present_of_P. by eapply as_present. }
  assert (He : is_u32 (pte_of m pgdir v)) by by apply pte_u32, Hk.
  destruct (store_pte_inv kend k l pgdir v (evict_pte (pte_of m pgdir v)) Hk
    (as_wf _ _ _ _ _ Ha) Hp) as (Hk1&_&_&Ht1).
  set (k1 := with_mem _ k) in *.
  pose proof (fun w => store_pte_of kend _ _ _ _ _ (evict_pte (pte_of m pgdir v)) Ha Hv Hp w) as Hpte1.
  change (st32 m _ _) with (km_mem k1) in Hpte1.
  assert (Ha1 : aspace kend (km_mem k1) pgdir l R').
  { eapply aspace_store; [done..|by intros w []|by intros []]. }
  assert (Hu : unused kend (km_mem k1) pgdir l R' fr) by by apply unused_drop.
  destruct (kfree_inv kend k1 l fr Hk1) as (k'&Hf&Hk'&_&_&Hm'); [apply Hu|apply Hu|].
  exists k'. split; [done|]. split; [done|].
  destruct (aspace_frame kend (km_mem k1) (km_mem k') pgdir l (fr :: l) R' Ha1)
    as (Ha'&Hs&Hd).
  { intros x Hx. apply Hm'. intros Hfr. by eapply unused_outside. }
  { intros q [->|]%elem_of_cons; auto. }
  assert (Hpte : forall w, is_vpa w -> pte_of (km_mem k') pgdir w =
    if decide (w = v) then evict_pte (pte_of m pgdir v) else pte_of m pgdir w).
  { intros w Hw. rewrite (pt_same_pte_of _ _ _ _ Hs), Hpte1 by done.
    by rewrite u32_id by by apply evict_u32. }
  split; [done|split; [done|split; [|split]]].
  - intros w [Hw Hne]. rewrite Hd by done. by eapply store_data.
  - intros x Hx. rewrite Hm'.
    + eapply store_bytes; [done..|]. intros H. apply Hx. right; left. exists (PDX v).
      split; [apply PDX_range|done].
    + intros H. apply Hx. right; right. eauto.
  - intros x. apply in_space_same.
    + intros i Hi. destruct (pt_same_tab _ _ _ i Hs Hi) as [-> ->]. by apply Ht1.
    + intros w [Hw Hne]. split; [done|]. unfold frame.
      by rewrite Hpte, decide_False by (done || by eapply as_vpa).
Qed.

(** Writing an unused page. *)
Lemma put_unused q l bs :
  kmem_inv kend k l -> aspace kend m pgdir l R -> unused kend m pgdir l R q ->
  length bs = Z.to_nat PGSIZE -> Forall is_u8 bs ->
  let k1 := with_mem (fun m0 => put_bytes m0 q bs) k in
  kmem_inv kend k1 l /\ aspace kend (km_mem k1) pgdir l R /\
  pt_same m (km_mem k1) pgdir /\ unused kend (km_mem k1) pgdir l R q /\
  (forall w, R w -> page_data (km_mem k1) pgdir w = page_data m pgdir w) /\
  (forall x, ~ same_page x q -> km_mem k1 x = m x).
Proof.
  intros Hk Ha Hu Hlen Hbs k1.
  assert (Hput : forall x, ~ same_page x q -> km_mem k1 x = m x).
  { intros x Hx. simpl. apply put_bytes_out. rewrite Hlen. unfold same_page, PGSIZE in *. lia. }
  destruct (aspace_frame kend m (km_mem k1) pgdir l l R Ha) as (Ha1&Hs&Hd).
  { intros x Hx. apply Hput. intros Hxq. by eapply unused_outside. }
  { auto. }
  split; [|split; [done|split; [done|split; [by eapply unused_same|done]]]].
  eapply kmem_inv_frame; [done|by apply put_bytes_ok, Hbs; apply Hk|done|].
  intros r Hr. apply ld32_ext. intros x Hx. apply Hput. intros Hxq.
  assert (Hro : page_ok kend r).
  { pose proof (freelist_pages _ _ _ _ (inv_list _ _ _ Hk)) as HF.
    rewrite Forall_forall in HF. auto. }
  apply (un_free _ _ _ _ _ _ Hu). replace q with r; [done|].
  eapply (same_page_apart x); [apply Hro|apply Hu|unfold same_page, PGSIZE; lia|done].
Qed.

(** Bringing [v] back: a page [q] taken from the free list gets the bytes [bs]
    and becomes the frame of [v]. *)
Lemma bring_mem q l bs fl :
  kmem_inv kend k l -> aspace kend m pgdir l R -> unused kend m pgdir l R q ->
  is_vpa v -> ~ R v -> present_pde m pgdir (PDX v) = true ->
  length bs = Z.to_nat PGSIZE -> Forall is_u8 bs ->
  let e' := Z.lor (V2P q) fl in
  is_u32 e' -> P2V (PTE_ADDR e') = q -> has e' PTE_P = true ->
  let R' := fun w => w = v \/ R w in
  let k1 := with_mem (fun m0 => put_bytes m0 q bs) k in
  let k' := with_mem (fun m0 => st32 m0 (pte_addr m pgdir v) e') k1 in
  pte_addr (km_mem k1) pgdir v = pte_addr m pgdir v /\
  pte_of (km_mem k1) pgdir v = pte_of m pgdir v /\
  kmem_inv kend k' l /\ aspace kend (km_mem k') pgdir l R' /\
  (forall w, is_vpa w -> pte_of (km_mem k') pgdir w =
     if decide (w = v) then e' else pte_of m pgdir w) /\
  page_data (km_mem k') pgdir v = bs /\
  (forall w, R w -> page_data (km_mem k') pgdir w = page_data m pgdir w) /\
  (forall x, ~ in_space m pgdir R x -> ~ same_page x q -> km_mem k' x = m x) /\
  (forall x, in_space (km_mem k') pgdir R' x -> in_space m pgdir R x \/ same_page x q).
Proof.
  intros Hk Ha Hu Hv HnR Hp Hlen Hbs e' He' Hfr HP R' k1 k'.
  destruct (put_unused q l bs Hk Ha Hu Hlen Hbs) as (Hk1&Ha1&Hs&Hu1&Hd&Hput).
  fold k1 in Hk1, Ha1, Hs, Hu1, Hd, Hput.
  destruct (pt_same_tab _ _ _ (PDX v) Hs (PDX_range v)) as [Ep Et].
  assert (Ea : pte_addr (km_mem k1) pgdir v = pte_addr m pgdir v).
  { unfold pte_addr. by rewrite Et. }
  assert (Hp1 : present_pde (km_mem k1) pgdir (PDX v) = true) by by rewrite Ep.
  split; [done|]. split; [by apply pt_same_pte_of|].
  destruct (store_pte_inv kend k1 l pgdir v e' Hk1 (as_wf _ _ _ _ _ Ha1) Hp1)
    as (Hk2&_&_&Ht2).
  rewrite Ea in Hk2, Ht2. fold k' in Hk2, Ht2. split; [done|].
  assert (Hm' : km_mem k' = st32 (km_mem k1) (pte_addr (km_mem k1) pgdir v) e') by by rewrite Ea.
  assert (Hpte : forall w, is_vpa w -> pte_of (km_mem k') pgdir w =
     if decide (w = v) then e' else pte_of m pgdir w).
  { intros w Hw. rewrite Hm'. rewrite (store_pte_of kend _ _ _ _ _ e' Ha1 Hv Hp1 w Hw).
    rewrite (u32_id e') by done. by rewrite (pt_same_pte_of _ _ _ _ Hs). }
  assert (Hfv : frame (km_mem k') pgdir v = q).
  { unfold frame. by rewrite Hpte, decide_True. }
  split. { rewrite Hm'. eapply aspace_store; [done..|by intros w [->|]|].
    intros _. rewrite (u32_id e') by done. split; [done|]. rewrite Hfr.
    destruct Hu1; split; naive_solver. }
  assert (Htq : forall x, same_page x q -> km_mem k' x = km_mem k1 x).
  { intros x Hx. rewrite Hm'. eapply store_bytes; [done..|]. intros Hx2.
    eapply (unused_outside kend _ _ _ _ _ x Ha1 Hu1 Hx). right; left. exists (PDX v).
    split; [apply PDX_range|done]. }
  split; [done|split; [|split; [|split]]].
  - unfold page_data. rewrite Hfv.
    rewrite <- (bytes_at_put m q bs) at 1. rewrite Hlen.
    apply bytes_at_ext. intros i Hi. apply Htq. unfold same_page, PGSIZE in *. lia.
  - intros w Hw. rewrite <- Hd by done. rewrite Hm'. eapply store_data; [done..|congruence].
  - intros x Hx Hxq. rewrite <- Hput by done. rewrite Hm'. eapply store_bytes; [done..|].
    rewrite Et. intros H. apply Hx. right; left. exists (PDX v). split; [apply PDX_range|done].
  - intros x [H|[(i&Hi&Hpi&H)|(w&[->|Hw]&H)]].
    + left. by left.
    + left. right; left. exists i. destruct (Ht2 i Hi) as [E1 E2].
      rewrite E1 in Hpi. rewrite E2 in H.
      destruct (pt_same_tab _ _ _ i Hs Hi) as [E3 E4]. rewrite E3 in Hpi. rewrite E4 in H. done.
    + right. by rewrite Hfv in H.
    + left. right; right. exists w. split; [done|]. revert H. unfold frame.
      rewrite Hpte, decide_False by (congruence || by eapply as_vpa). done.
Qed.

End memory_steps.

#[local] Opaque Z.to_nat.

(** ** The resident pages according to the metadata *)

Definition resident (pol : policy) (pr : proc) : list Z :=
  match pol with
  | NFU_SWAP => MEM_ADDR <$> take (Z.to_nat (size_mem pr)) (VPA_Memory pr)
  | FIFO_SWAP =>
      (fun i => MEM_ADDR (aget (VPA_Memory pr) ((q_head pr + Z.of_nat i) mod MAX_PSYC_PAGES)))
        <$> seq 0 (Z.to_nat (size_mem pr))
  end.

Record meta_ok (pol : policy) (pr : proc) : Prop := {
  mo_len : length (VPA_Memory pr) = Z.to_nat MAX_PSYC_PAGES;
  mo_size : 0 <= size_mem pr <= MAX_PSYC_PAGES;
  mo_nodup : NoDup (resident pol pr);
  mo_queue : pol = FIFO_SWAP -> 0 <= q_head pr < MAX_PSYC_PAGES /\
    q_tail pr = (q_head pr + size_mem pr) mod MAX_PSYC_PAGES;
}.

Lemma length_resident pol pr :
  length (VPA_Memory pr) = Z.to_nat MAX_PSYC_PAGES -> 0 <= size_mem pr <= MAX_PSYC_PAGES ->
  length (resident pol pr) = Z.to_nat (size_mem pr).
Proof.
  intros Hl Hs. unfold resident. destruct pol; rewrite length_fmap.
  - by rewrite length_seq.
  - rewrite length_take. lia.
Qed.

(** Index into [VPA_Memory] of the page to evict when all frames are in use. *)
Definition victim (pol : policy) (pr : proc) : Z :=
  match pol with
  | FIFO_SWAP => q_head pr
  | NFU_SWAP => nfu_victim (VPA_Memory pr) 0 (-1) 0xffffffff
  end.

Definition victim_page (pol : policy) (pr : proc) : Z :=
  MEM_ADDR (aget (VPA_Memory pr) (victim pol pr)).

(** The resident pages after linking [v]. *)
Definition link_resident (pol : policy) (pr : proc) (v : Z) : list Z :=
  if size_mem pr =? MAX_PSYC_PAGES then
    match pol with
    | FIFO_SWAP => drop 1 (resident pol pr) ++ [v]
    | NFU_SWAP => <[Z.to_nat (victim pol pr) := v]> (resident pol pr)
    end
  else resident pol pr ++ [v].

Lemma counter_range e : 0 <= NFU_MEM_COUNTER e < 2048.
Proof.
  unfold NFU_MEM_COUNTER. change 0x7FF with (Z.ones 11). rewrite Z.land_ones by lia.
  by apply Z.mod_pos_bound.
Qed.

Lemma nfu_victim_aux l : forall i idx mx,
  (nfu_victim l i idx mx = idx /\ Forall (fun e => mx < NFU_MEM_COUNTER e) l) \/
  (exists n e, nfu_victim l i idx mx = i + Z.of_nat n /\ l !! n = Some e /\
     NFU_MEM_COUNTER e <= mx /\
     (forall j e', l !! j = Some e' -> NFU_MEM_COUNTER e <= NFU_MEM_COUNTER e' /\
        ((n < j)%nat -> NFU_MEM_COUNTER e < NFU_MEM_COUNTER e'))).
Proof.
  induction l as [|e l IH]; intros i idx mx; cbn [nfu_victim]; [by left|].
  destruct (Z.leb_spec (NFU_MEM_COUNTER e) mx) as [Hle|Hgt].
  - right. destruct (IH (i + 1) i (NFU_MEM_COUNTER e)) as [[-> HF]|(n&e'&->&Hl&Hm&Hmin)].
    + exists 0%nat, e. split; [lia|]. split; [done|]. split; [done|].
      intros [|j] e' Hj; [injection Hj as <-; lia|].
      rewrite Forall_lookup in HF. apply HF in Hj. lia.
    + exists (S n), e'. split; [lia|]. split; [done|]. split; [lia|].
      intros [|j] x Hj; [injection Hj as <-; lia|]. apply Hmin in Hj. split; [lia|].
      intros. apply Hj. lia.
  - destruct (IH (i + 1) idx mx) as [[-> HF]|(n&e'&->&Hl&Hm&Hmin)].
    + left. split; [done|]. by constructor.
    + right. exists (S n), e'. split; [lia|]. split; [done|]. split; [lia|].
      intros [|j] x Hj; [injection Hj as <-; lia|]. apply Hmin in Hj. split; [lia|].
      intros. apply Hj. lia.
Qed.

Lemma nfu_victim_spec l :
  l <> [] ->
  exists n e, nfu_victim l 0 (-1) 0xffffffff = Z.of_nat n /\ l !! n = Some e /\
    (forall j e', l !! j = Some e' -> NFU_MEM_COUNTER e <= NFU_MEM_COUNTER e' /\
       ((n < j)%nat -> NFU_MEM_COUNTER e < NFU_MEM_COUNTER e')).
Proof.
  intros Hl. destruct (nfu_victim_aux l 0 (-1) 0xffffffff) as [[_ HF]|(n&e&->&?&_&?)].
  - destruct l as [|e l]; [done|]. inversion HF as [|? ? Hlt]; subst.
    pose proof (counter_range e). lia.
  - exists n, e. split; [lia|done].
Qed.

Lemma victim_range pol pr :
  meta_ok pol pr -> 0 <= victim pol pr < MAX_PSYC_PAGES.
Proof.
  intros Hm. destruct pol; simpl; [by apply (mo_queue _ _ Hm)|].
  destruct (nfu_victim_spec (VPA_Memory pr)) as (n&e&->&He&_).
  - intros E. pose proof (mo_len _ _ Hm) as Hl. by rewrite E in Hl.
  - apply lookup_lt_Some in He. rewrite (mo_len _ _ Hm) in He. lia.
Qed.

Lemma aget_lookup a i x : a !! i = Some x -> aget a (Z.of_nat i) = x.
Proof. intros E. unfold aget. rewrite Nat2Z.id. by apply nth_lookup_Some. Qed.

Lemma aget_aset a i j x :
  0 <= i < Z.of_nat (length a) -> 0 <= j ->
  aget (aset a i x) j = if decide (j = i) then x else aget a j.
Proof.
  intros Hi Hj. unfold aget, aset. rewrite !nth_lookup.
  destruct (decide (j = i)) as [->|Hne].
  - by rewrite list_lookup_insert_eq by lia.
  - by rewrite list_lookup_insert_ne by lia.
Qed.

(** The change [linkNewPage] makes to the metadata of resident pages. *)
Definition link_meta (pol : policy) (v : Z) (pr : proc) : proc :=
  let full := size_mem pr =? MAX_PSYC_PAGES in
  match pol with
  | FIFO_SWAP =>
      set_queue (if full then Z.rem (q_head pr + 1) MAX_PSYC_PAGES else q_head pr)
        (Z.rem (q_tail pr + 1) MAX_PSYC_PAGES)
        (set_memory (aset (VPA_Memory pr) (q_tail pr) v)
           (if full then size_mem pr else u32 (size_mem pr + 1)) pr)
  | NFU_SWAP =>
      if full then set_memory (aset (VPA_Memory pr) (victim pol pr) v) (size_mem pr) pr
      else set_memory (aset (VPA_Memory pr) (size_mem pr) v) (u32 (size_mem pr + 1)) pr
  end.

Lemma MEM_ADDR_vpa v : is_vpa v -> MEM_ADDR v = v.
Proof.
  intros [Hu Ha]. unfold MEM_ADDR. rewrite u32_id, land_not_fff by done. lia.
Qed.

Lemma u32_succ_size n : 0 <= n <= 15 -> u32 (n + 1) = n + 1.
Proof. intros. apply u32_id. unfold is_u32. lia. Qed.

Lemma mod15_ne h i j :
  0 <= i < 15 -> 0 <= j < 15 -> i <> j -> (h + i) mod 15 <> (h + j) mod 15.
Proof. intros Hi Hj Hne E. Z.to_euclidean_division_equations. lia. Qed.

Lemma resident_fifo_lookup pr i :
  resident FIFO_SWAP pr !! i =
  if decide (i < Z.to_nat (size_mem pr))%nat
  then Some (MEM_ADDR (aget (VPA_Memory pr) ((q_head pr + Z.of_nat i) mod 15))) else None.
Proof.
  unfold resident. rewrite list_lookup_fmap. destruct (decide _).
  - by rewrite lookup_seq_lt by done.
  - by rewrite lookup_seq_ge by lia.
Qed.

Section link_fifo.
Context (pr : proc) (v : Z).
Hypothesis Hm : meta_ok FIFO_SWAP pr.
Hypothesis Hv : is_vpa v.
Local Abbreviation r := (resident FIFO_SWAP pr).

Lemma fifo_tail_range : 0 <= q_tail pr < Z.of_nat (length (VPA_Memory pr)).
Proof.
  destruct (mo_queue _ _ Hm eq_refl) as [Hh ->]. rewrite (mo_len _ _ Hm).
  unfold MAX_PSYC_PAGES. rewrite Z2Nat.id by lia. by apply Z.mod_pos_bound.
Qed.

Lemma link_meta_fifo_full :
  size_mem pr = 15 -> resident FIFO_SWAP (link_meta FIFO_SWAP v pr) = drop 1 r ++ [v].
Proof.
  intros Hf. destruct (mo_queue _ _ Hm eq_refl) as [Hh Ht]. rewrite Hf in Ht.
  pose proof fifo_tail_range as Hq.
  assert (Hlr : length r = 15%nat).
  { rewrite length_resident by apply Hm. by rewrite Hf. }
  apply list_eq. intros i. rewrite resident_fifo_lookup. unfold link_meta. rewrite Hf.
  cbn [size_mem set_queue set_memory q_head VPA_Memory]. unfold MAX_PSYC_PAGES in *.
  rewrite Z.eqb_refl. rewrite Z.rem_mod_nonneg by lia.
  destruct (decide (i < Z.to_nat 15)%nat) as [Hi|Hi].
  2: { symmetry. apply lookup_ge_None. rewrite length_app, length_drop, Hlr.
       change (length [v]) with 1%nat. lia. }
  rewrite aget_aset by (done || apply Z.mod_pos_bound; lia).
  destruct (decide (i = 14)%nat) as [->|Hi'].
  - rewrite decide_True by (rewrite Ht; Z.to_euclidean_division_equations; lia).
    rewrite lookup_app_r by (rewrite length_drop, Hlr; lia).
    rewrite length_drop, Hlr. by rewrite MEM_ADDR_vpa.
  - rewrite decide_False by (rewrite Ht; Z.to_euclidean_division_equations; lia).
    rewrite lookup_app_l by (rewrite length_drop, Hlr; lia).
    rewrite lookup_drop, resident_fifo_lookup, decide_True by lia. do 3 f_equal.
    Z.to_euclidean_division_equations; lia.
Qed.

Lemma link_meta_fifo_room :
  size_mem pr <> 15 -> resident FIFO_SWAP (link_meta FIFO_SWAP v pr) = r ++ [v].
Proof.
  intros Hf. destruct (mo_queue _ _ Hm eq_refl) as [Hh Ht].
  pose proof (mo_size _ _ Hm) as Hsz. pose proof fifo_tail_range as Hq.
  assert (Hlr : length r = Z.to_nat (size_mem pr)) by (apply length_resident; apply Hm).
  apply list_eq. intros i. rewrite resident_fifo_lookup. unfold link_meta.
  cbn [size_mem set_queue set_memory q_head VPA_Memory]. unfold MAX_PSYC_PAGES in *.
  rewrite (proj2 (Z.eqb_neq _ _) Hf), u32_succ_size by lia.
  destruct (decide (i < _)%nat) as [Hi|Hi].
  2: { symmetry. apply lookup_ge_None. rewrite length_app, Hlr.
       change (length [v]) with 1%nat. lia. }
  rewrite aget_aset by (done || apply Z.mod_pos_bound; lia). rewrite Ht.
  destruct (decide (i = Z.to_nat (size_mem pr))) as [->|Hi'].
  - rewrite Z2Nat.id by lia. rewrite decide_True by done.
    rewrite lookup_app_r, Hlr, Nat.sub_diag by lia. by rewrite MEM_ADDR_vpa.
  - rewrite decide_False by (apply mod15_ne; lia).
    rewrite lookup_app_l by lia. by rewrite resident_fifo_lookup, decide_True by lia.
Qed.

End link_fifo.

Lemma link_meta_nfu pr v :
  meta_ok NFU_SWAP pr -> is_vpa v ->
  resident NFU_SWAP (link_meta NFU_SWAP v pr) = link_resident NFU_SWAP pr v.
Proof.
  intros Hm Hv. pose proof (victim_range _ _ Hm) as Hvic.
  pose proof (mo_size _ _ Hm) as Hsz. pose proof (mo_len _ _ Hm) as Hl.
  unfold link_meta, link_resident, resident, aset, MAX_PSYC_PAGES in *.
  destruct (Z.eqb_spec (size_mem pr) 15) as [Hf|Hf]; cbn [size_mem VPA_Memory set_memory].
  - rewrite Hf, !take_ge by (rewrite ?length_insert; lia).
    rewrite list_fmap_insert. by rewrite MEM_ADDR_vpa.
  - rewrite u32_succ_size by lia.
    replace (Z.to_nat (size_mem pr + 1)) with (S (Z.to_nat (size_mem pr))) by lia.
    rewrite (take_S_r _ _ v) by (apply list_lookup_insert_eq; lia).
    rewrite take_insert_ge by lia. rewrite fmap_app. simpl. by rewrite MEM_ADDR_vpa.
Qed.

Lemma link_meta_resident pol pr v :
  meta_ok pol pr -> is_vpa v -> resident pol (link_meta pol v pr) = link_resident pol pr v.
Proof.
  intros Hm Hv. destruct pol; [|by apply link_meta_nfu].
  unfold link_resident. destruct (Z.eqb_spec (size_mem pr) MAX_PSYC_PAGES).
  - by apply link_meta_fifo_full.
  - by apply link_meta_fifo_room.
Qed.

Lemma insert_nodup (l : list Z) n x v :
  NoDup l -> l !! n = Some x -> (v ∉ l) ->
  NoDup (<[n:=v]> l) /\ forall w, w ∈ <[n:=v]> l <-> w = v \/ (w ∈ l /\ w <> x).
Proof.
  intros Hn Hx Hv. pose proof (lookup_lt_Some _ _ _ Hx) as Hlt.
  set (r := take n l ++ drop (S n) l).
  assert (E1 : l ≡ₚ x :: r).
  { rewrite <- (take_drop_middle l n x Hx) at 1. symmetry. apply Permutation_middle. }
  assert (E2 : <[n:=v]> l ≡ₚ v :: r).
  { rewrite insert_take_drop by done. symmetry. apply Permutation_middle. }
  generalize dependent (<[n:=v]> l). intros l' E2. clearbody r.
  rewrite E1 in Hn, Hv. rewrite E2. setoid_rewrite E2. setoid_rewrite E1.
  apply NoDup_cons in Hn as [Hxr Hn]. rewrite not_elem_of_cons in Hv.
  setoid_rewrite elem_of_cons. split; [apply NoDup_cons; naive_solver|naive_solver].
Qed.

Lemma victim_lookup pol pr :
  meta_ok pol pr -> size_mem pr = MAX_PSYC_PAGES ->
  resident pol pr !! (match pol with FIFO_SWAP => 0%nat | NFU_SWAP => Z.to_nat (victim pol pr) end)
  = Some (victim_page pol pr).
Proof.
  intros Hm Hf. pose proof (victim_range _ _ Hm) as Hr. pose proof (mo_len _ _ Hm) as Hl.
  unfold victim_page. destruct pol.
  - rewrite resident_fifo_lookup, Hf. unfold MAX_PSYC_PAGES in *.
    rewrite decide_True by lia. do 3 f_equal. rewrite Z.add_0_r.
    apply Z.mod_small. exact Hr.
  - unfold resident. rewrite Hf. unfold MAX_PSYC_PAGES in *.
    rewrite take_ge, list_lookup_fmap by lia.
    destruct (lookup_lt_is_Some_2 (VPA_Memory pr) (Z.to_nat (victim NFU_SWAP pr))) as [e He]; [lia|].
    rewrite He. cbn -[victim]. do 2 f_equal. symmetry.
    rewrite <- (Z2Nat.id (victim NFU_SWAP pr)) by lia. by apply aget_lookup.
Qed.

Lemma link_elem pol pr v :
  meta_ok pol pr -> (v ∉ resident pol pr) ->
  NoDup (link_resident pol pr v) /\
  forall w, w ∈ link_resident pol pr v <->
    w = v \/ (w ∈ resident pol pr /\ (size_mem pr = MAX_PSYC_PAGES -> w <> victim_page pol pr)).
Proof.
  intros Hm Hv. pose proof (mo_nodup _ _ Hm) as Hn. unfold link_resident.
  destruct (Z.eqb_spec (size_mem pr) MAX_PSYC_PAGES) as [Hf|Hf].
  - pose proof (victim_lookup _ _ Hm Hf) as Hx. destruct pol.
    + destruct (resident FIFO_SWAP pr) as [|x r] eqn:Er; [done|]. injection Hx as ->.
      apply NoDup_cons in Hn as [Hxr Hn]. rewrite not_elem_of_cons in Hv.
      cbn [drop]. rewrite drop_0. split.
      * apply NoDup_app. split; [done|]. split; [|apply NoDup_singleton].
        intros w Hw ->%list_elem_of_singleton. naive_solver.
      * intros w. rewrite elem_of_app, list_elem_of_singleton, elem_of_cons.
        destruct (decide (w = victim_page FIFO_SWAP pr)); naive_solver.
    + destruct (insert_nodup _ _ _ v Hn Hx Hv) as [? E]. split; [done|].
      intros w. rewrite E. naive_solver.
  - split.
    + apply NoDup_app. split; [done|]. split; [|apply NoDup_singleton].
      intros w Hw ->%list_elem_of_singleton. done.
    + intros w. rewrite elem_of_app, list_elem_of_singleton. naive_solver.
Qed.

Lemma link_meta_ok pol pr v :
  meta_ok pol pr -> is_vpa v -> (v ∉ resident pol pr) -> meta_ok pol (link_meta pol v pr).
Proof.
  intros Hm Hv Hn. pose proof (mo_size _ _ Hm) as Hsz. pose proof (mo_len _ _ Hm) as Hl.
  split.
  - unfold link_meta, aset.
    destruct pol; [|destruct (_ =? _)]; simpl; by rewrite length_insert.
  - unfold link_meta, MAX_PSYC_PAGES in *.
    destruct pol; destruct (Z.eqb_spec (size_mem pr) 15); simpl;
      rewrite ?u32_succ_size by lia; lia.
  - rewrite link_meta_resident by done. by apply link_elem.
  - intros ->. destruct (mo_queue _ _ Hm eq_refl) as [Hh Ht].
    unfold link_meta, MAX_PSYC_PAGES in *. simpl.
    rewrite !Z.rem_mod_nonneg by (rewrite ?Ht; Z.to_euclidean_division_equations; lia).
    destruct (Z.eqb_spec (size_mem pr) 15) as [Hf|Hf].
    + rewrite Ht, Hf. split; [by apply Z.mod_pos_bound|].
      Z.to_euclidean_division_equations; lia.
    + rewrite u32_succ_size by lia. split; [done|]. rewrite Ht.
      Z.to_euclidean_division_equations; lia.
Qed.

(** ** Execution steps *)

(** ** The invariant and the relation between states *)

Section paging.
Context {F : Type} `{SwapStoreLaws F}.
Variable kend : Z.
Variable p : nat.
Implicit Types s : machine F.

Local Abbreviation mm s := (km_mem (km s)).
Local Abbreviation pd s := (p_pgdir (procs s p)).
Local Abbreviation pid s := (p_pid (procs s p)).

Record space_ok s (l : list Z) (R : Z -> Prop) : Prop := {
  sp_kmem : kmem_inv kend (km s) l;
  sp_as : aspace kend (mm s) (pd s) l R;
  sp_len : length (VPA_Swap (procs s p)) = Z.to_nat MAX_SWAP_PAGES;
  sp_nopg v : R v -> has (pte_of (mm s) (pd s) v) PTE_PG = false;
  sp_slot v i : swapped (procs s p) v i ->
    is_vpa v /\ has (pte_of (mm s) (pd s) v) PTE_P = false /\
    has (pte_of (mm s) (pd s) v) PTE_PG = true;
  sp_slot_inj v i j : swapped (procs s p) v i -> swapped (procs s p) v j -> i = j;
  sp_file : exists c, ss_file (store s) (pid s) = Some c /\ Forall is_u8 c /\
    forall v i, swapped (procs s p) v i -> ((i + 1) * Z.to_nat PGSIZE <= length c)%nat;
}.

(** Page [v] of the process has the bytes [bs] and the flags [fl]. *)
Definition upage s (R : Z -> Prop) (v : Z) (bs : list Z) (fl : Z) : Prop :=
  fl = soft (pte_of (mm s) (pd s) v) /\
  ((R v /\ bs = page_data (mm s) (pd s) v) \/
   (exists i c, swapped (procs s p) v i /\ ss_file (store s) (pid s) = Some c /\
      bs = slot_data c i)).

(** Bytes of memory the process or the free list owns. *)
Definition owned s (l : list Z) (R : Z -> Prop) (x : Z) : Prop :=
  in_space (mm s) (pd s) R x \/ exists q, q ∈ l /\ same_page x q.

Record paged s l R s' l' (R' : Z -> Prop) : Prop := {
  pg_page v bs fl : upage s R v bs fl -> upage s' R' v bs fl;
  pg_procs q : q <> p -> procs s' q = procs s q;
  pg_files q : q <> pid s -> ss_file (store s') q = ss_file (store s) q;
  pg_ids : pid s' = pid s /\ pd s' = pd s /\ curproc s' = curproc s /\ cr3 s' = cr3 s;
  pg_mem x : ~ owned s l R x -> mm s' x = mm s x;
  pg_owned x : owned s' l' R' x -> owned s l R x;
}.

Lemma paged_trans s1 l1 R1 s2 l2 R2 s3 l3 R3 :
  paged s1 l1 R1 s2 l2 R2 -> paged s2 l2 R2 s3 l3 R3 -> paged s1 l1 R1 s3 l3 R3.
Proof.
  intros [A1 A2 A3 (A4&A5&A6&A7) A8 A9] [B1 B2 B3 (B4&B5&B6&B7) B8 B9]. split; auto.
  - intros q Hq. by rewrite B2, A2.
  - intros q Hq. rewrite B3, A3 by congruence. done.
  - repeat split; congruence.
  - intros x Hx. rewrite B8, A8 by auto. done.
Qed.

(** Slot [i] is free and every slot below it is occupied. *)
Definition first_free (pr : proc) (i : nat) : Prop :=
  (exists e, VPA_Swap pr !! i = Some e /\ has e SWAP_P = false) /\
  (forall j e, (j < i)%nat -> VPA_Swap pr !! j = Some e -> has e SWAP_P = true).

Lemma first_free_bound pr i :
  length (VPA_Swap pr) = Z.to_nat MAX_SWAP_PAGES -> first_free pr i ->
  (i < Z.to_nat MAX_SWAP_PAGES)%nat.
Proof. intros Hl [(e&He&_) _]. apply lookup_lt_Some in He. lia. Qed.

Lemma getFree_spec pr :
  (getFreeSwapPageIndex pr = -1 /\ forall i, ~ first_free pr i) \/
  (exists i, getFreeSwapPageIndex pr = Z.of_nat i /\ first_free pr i).
Proof.
  unfold getFreeSwapPageIndex. destruct (free_slot_spec (VPA_Swap pr) 0)
    as [[-> HF]|(n&e&->&?&?&?)].
  - left. split; [done|]. intros i [(e&He&Hn) _].
    rewrite Forall_lookup in HF. apply HF in He. congruence.
  - right. exists n. split; [lia|]. split; eauto.
Qed.

(** There is no hole below the first free slot. *)
Lemma first_free_file s l R c i :
  space_ok s l R -> ss_file (store s) (pid s) = Some c -> first_free (procs s p) i ->
  (i * Z.to_nat PGSIZE <= length c)%nat.
Proof.
  intros Hs Hc Hi. destruct (sp_file _ _ _ Hs) as (c'&Hc'&_&Hl).
  rewrite Hc in Hc'. injection Hc' as <-.
  destruct i as [|i]; [lia|].
  pose proof (first_free_bound _ _ (sp_len _ _ _ Hs) Hi) as Hb.
  destruct (lookup_lt_is_Some_2 (VPA_Swap (procs s p)) i) as [e He].
  { rewrite (sp_len _ _ _ Hs). lia. }
  destruct Hi as [_ Hbelow].
  replace (S i) with (i + 1)%nat by lia. apply (Hl (SWAP_ADDR e)).
  exists e. split; [done|]. split; [|done]. eapply Hbelow; [|done]. lia.
Qed.

Lemma swapped_insert pr i e v j :
  (i < length (VPA_Swap pr))%nat ->
  swapped (set_swap (<[i:=e]> (VPA_Swap pr)) pr) v j <->
  (j = i /\ has e SWAP_P = true /\ SWAP_ADDR e = v) \/ (j <> i /\ swapped pr v j).
Proof.
  intros Hi. unfold swapped. simpl. destruct (decide (j = i)) as [->|Hne].
  - rewrite list_lookup_insert_eq by done. naive_solver.
  - rewrite list_lookup_insert_ne by done. naive_solver.
Qed.

(** The state after page [v] went to slot [i]. *)
Definition evicted s (v : Z) (i : nat) (k' : kmem) (f' : F) : machine F :=
  set_km k' (set_store f'
    (upd_proc p (fun x => set_swap (<[i := Z.lor SWAP_P v]> (VPA_Swap x)) x) s)).

Section evict.
Context (s : machine F) (l : list Z) (R : Z -> Prop) (v : Z) (i : nat) (k' : kmem) (f' : F).
Context (c : list Z).
Hypothesis Hs : space_ok s l R.
Hypothesis HRv : R v.
Hypothesis Hi : first_free (procs s p) i.
Hypothesis Hc : ss_file (store s) (pid s) = Some c.
Hypothesis Hf' : ss_file f' (pid s) =
  Some (splice c (i * Z.to_nat PGSIZE) (page_data (mm s) (pd s) v)).
Hypothesis Hfo : forall q, q <> pid s -> ss_file f' q = ss_file (store s) q.
Let fr := frame (mm s) (pd s) v.
Let R' := fun w => R w /\ w <> v.
Hypothesis Hk' : kmem_inv kend k' (fr :: l).
Hypothesis Ha' : aspace kend (km_mem k') (pd s) (fr :: l) R'.
Hypothesis Hpte : forall w, is_vpa w -> pte_of (km_mem k') (pd s) w =
  if decide (w = v) then evict_pte (pte_of (mm s) (pd s) v) else pte_of (mm s) (pd s) w.
Hypothesis Hdata : forall w, R' w -> page_data (km_mem k') (pd s) w = page_data (mm s) (pd s) w.
Hypothesis Hmem : forall x, ~ in_space (mm s) (pd s) R x -> km_mem k' x = mm s x.
Hypothesis Hin : forall x, in_space (km_mem k') (pd s) R' x -> in_space (mm s) (pd s) R x.
Let s' := evicted s v i k' f'.

Lemma evicted_proc :
  procs s' p = set_swap (<[i := Z.lor SWAP_P v]> (VPA_Swap (procs s p))) (procs s p).
Proof. unfold s', evicted. simpl. by rewrite decide_True. Qed.

Lemma evicted_pd : pd s' = pd s.
Proof. by rewrite evicted_proc. Qed.

Lemma evicted_swapped w j :
  swapped (procs s' p) w j <-> (j = i /\ w = v) \/ (j <> i /\ swapped (procs s p) w j).
Proof.
  rewrite evicted_proc, swapped_insert.
  2: { destruct Hi as [(e&He&_) _]. by eapply lookup_lt_Some. }
  destruct (swap_entry v (as_vpa _ _ _ _ _ (sp_as _ _ _ Hs) v HRv)) as [-> ->]. naive_solver.
Qed.

Lemma slot_not_v w j : swapped (procs s p) w j -> w <> v.
Proof.
  intros Hw ->. destruct (sp_slot _ _ _ Hs _ _ Hw) as (_&Hn&_).
  rewrite (as_present _ _ _ _ _ (sp_as _ _ _ Hs) v HRv) in Hn. done.
Qed.

Lemma v_pte : is_u32 (pte_of (mm s) (pd s) v).
Proof. apply pte_u32, Hs. Qed.

Lemma evicted_ok : space_ok s' (fr :: l) R'.
Proof.
  pose proof (first_free_file _ _ _ _ _ Hs Hc Hi) as Hhole.
  destruct (sp_file _ _ _ Hs) as (c'&Hc'&Hu8&Hlen). rewrite Hc in Hc'. injection Hc' as <-.
  destruct (evict_spec _ v_pte) as (HP&HG&_).
  split; rewrite ?evicted_pd; simpl km_mem; simpl km; [done|done| | | | |].
  - rewrite evicted_proc. simpl. rewrite length_insert. by apply (sp_len _ _ _ Hs).
  - intros w [Hw Hne]. rewrite Hpte, decide_False by (done || by eapply as_vpa, Hw; apply Hs).
    by apply (sp_nopg _ _ _ Hs).
  - intros w j [[-> ->]|[Hji Hw]]%evicted_swapped.
    + assert (is_vpa v) by by eapply as_vpa, HRv; apply Hs.
      rewrite Hpte, decide_True by done. done.
    + destruct (sp_slot _ _ _ Hs _ _ Hw) as (Hv&?&?).
      rewrite Hpte, decide_False by (done || by eapply slot_not_v). done.
  - intros w j1 j2 [[-> ->]|[Hn1 H1]]%evicted_swapped [[-> E]|[Hn2 H2]]%evicted_swapped;
      subst; try done.
    + by destruct (slot_not_v _ _ H2).
    + by destruct (slot_not_v _ _ H1).
    + by eapply (sp_slot_inj _ _ _ Hs).
  - exists (splice c (i * Z.to_nat PGSIZE) (page_data (mm s) (pd s) v)).
    rewrite evicted_proc. split; [exact Hf'|]. split.
    + apply Forall_splice; [done|]. apply Forall_lookup_2. intros j b Hb.
      unfold page_data, bytes_at in Hb. rewrite list_lookup_fmap in Hb.
      destruct (seq _ _ !! j); [|done]. injection Hb as <-. apply Hs.
    + intros w j Hw. rewrite <- evicted_proc in Hw. apply evicted_swapped in Hw.
      rewrite length_splice by done. unfold page_data. rewrite length_bytes_at.
      destruct Hw as [[-> ->]|[_ Hw]]; [lia|]. pose proof (Hlen _ _ Hw). lia.
Qed.

Lemma evicted_upage w bs fl : upage s R w bs fl -> upage s' R' w bs fl.
Proof.
  pose proof (first_free_file _ _ _ _ _ Hs Hc Hi) as Hhole.
  destruct (sp_file _ _ _ Hs) as (c'&Hc'&Hu8&Hlen). rewrite Hc in Hc'. injection Hc' as <-.
  assert (Hlb : length (page_data (mm s) (pd s) v) = Z.to_nat PGSIZE) by apply length_bytes_at.
  intros [-> Hw]. unfold upage. rewrite evicted_pd. simpl km_mem; simpl km.
  assert (Hvw : is_vpa w).
  { destruct Hw as [[Hw _]|(j&c0&Hw&_)]; [by eapply as_vpa, Hw; apply Hs|].
    by eapply (sp_slot _ _ _ Hs). }
  split.
  { rewrite Hpte by done. destruct (decide (w = v)) as [->|]; [|done].
    by destruct (evict_spec _ v_pte) as (_&_&->). }
  destruct Hw as [[Hw ->]|(j&c0&Hw&Hc0&->)].
  - destruct (decide (w = v)) as [->|Hne].
    + right. exists i, (splice c (i * Z.to_nat PGSIZE) (page_data (mm s) (pd s) v)).
      split; [apply evicted_swapped; left; split; reflexivity|]. rewrite evicted_proc. split; [exact Hf'|].
      symmetry. by apply splice_slot_eq.
    + left. split; [exact (conj Hw Hne)|]. symmetry. exact (Hdata w (conj Hw Hne)).
  - rewrite Hc in Hc0. injection Hc0 as <-. right.
    exists j, (splice c (i * Z.to_nat PGSIZE) (page_data (mm s) (pd s) v)).
    assert (Hji : j <> i).
    { intros ->. destruct Hi as [(e&He&Hn) _]. destruct Hw as (e'&He'&Hp&_). congruence. }
    split; [apply evicted_swapped; right; exact (conj Hji Hw)|]. rewrite evicted_proc. split; [exact Hf'|].
    symmetry. apply splice_slot_ne; [done..|]. by eapply Hlen.
Qed.

Lemma evicted_paged : paged s l R s' (fr :: l) R'.
Proof.
  split.
  - apply evicted_upage.
  - intros q Hq. unfold s', evicted. simpl. by rewrite decide_False.
  - exact Hfo.
  - by rewrite evicted_proc.
  - intros x Hx. apply Hmem. intros Hxs. apply Hx. by left.
  - intros x [Hx|(q&Hq&Hx)].
    + left. apply Hin. by rewrite evicted_pd in Hx.
    + apply elem_of_cons in Hq as [->|Hq]; [|right; eauto].
      left. right; right. eauto.
Qed.

End evict.

(** The frame of a page, as a kernel pointer, is not null. *)
Lemma resident_frame s l R v :
  space_ok s l R -> R v -> (frame (mm s) (pd s) v =? 0) = false.
Proof.
  intros Hs HRv. apply Z.eqb_neq, (page_ok_nonzero kend).
  by apply (as_frame _ _ _ _ _ (sp_as _ _ _ Hs)).
Qed.

Lemma resident_pte s l R v :
  space_ok s l R -> R v ->
  present_pde (mm s) (pd s) (PDX v) = true /\
  ld32 (mm s) (pte_addr (mm s) (pd s) v) = pte_of (mm s) (pd s) v /\
  (pte_addr (mm s) (pd s) v =? 0) = false.
Proof.
  intros Hs HRv. assert (Hp : present_pde (mm s) (pd s) (PDX v) = true).
  { apply present_of_P. by eapply as_present; [apply Hs|]. }
  split; [done|]. split; [unfold pte_of; by rewrite Hp|].
  eapply pte_addr_nonzero; [apply (sp_as _ _ _ Hs)|done].
Qed.

(** The swap file takes a page at the first free slot. *)
Lemma write_slot s l R c i bs :
  space_ok s l R -> ss_file (store s) (pid s) = Some c -> first_free (procs s p) i ->
  length bs = Z.to_nat PGSIZE ->
  exists f', writeToSwapFile (pid s) bs (Z.of_nat i * PGSIZE) (store s) = Ret PGSIZE f' /\
    ss_file f' (pid s) = Some (splice c (i * Z.to_nat PGSIZE) bs) /\
    (forall q, q <> pid s -> ss_file f' q = ss_file (store s) q).
Proof.
  intros Hs Hc Hi Hb.
  pose proof (first_free_file _ _ _ _ _ Hs Hc Hi) as Hhole.
  pose proof (first_free_bound _ _ (sp_len _ _ _ Hs) Hi) as Hbnd.
  destruct (ss_write (store s) (pid s) c bs (Z.of_nat i * PGSIZE) Hc) as (f'&Hw&Hf&Ho).
  - unfold PGSIZE in *. lia.
  - rewrite Hb. unfold PGSIZE, MAX_SWAP_PAGES, MAX_TOTAL_PAGES, MAX_PSYC_PAGES, MAXFILE_BYTES in *.
    lia.
  - exists f'. split; [rewrite Hw, Hb; by rewrite Z2Nat.id by (unfold PGSIZE; lia)|].
    split; [|done]. rewrite Hf. do 2 f_equal. unfold PGSIZE. lia.
Qed.

Lemma moveToSwap_spec s l R idx_mem i v :
  space_ok s l R -> curproc s = p -> cr3 s = V2P (pd s) ->
  R v -> 0 <= idx_mem < MAX_PSYC_PAGES ->
  MEM_ADDR (aget (VPA_Memory (procs s p)) idx_mem) = v ->
  first_free (procs s p) i ->
  exists s', moveToSwap kend p idx_mem (Z.of_nat i) s = Ret 0 s' /\
    space_ok s' (frame (mm s) (pd s) v :: l) (fun w => R w /\ w <> v) /\
    paged s l R s' (frame (mm s) (pd s) v :: l) (fun w => R w /\ w <> v) /\
    procs s' p = set_swap (<[i := Z.lor SWAP_P v]> (VPA_Swap (procs s p))) (procs s p).
Proof.
  intros Hs Hcur Hcr3 HRv Hidx Hv Hi.
  destruct (sp_file _ _ _ Hs) as (c&Hc&_).
  pose proof (first_free_bound _ _ (sp_len _ _ _ Hs) Hi) as Hb.
  destruct (evict_mem kend (km s) (pd s) R v l (sp_kmem _ _ _ Hs) (sp_as _ _ _ Hs) HRv)
    as (k'&Hfree&Hk'&Ha'&Hpte&Hdata&Hmem&Hin).
  destruct (write_slot s l R c i (page_data (mm s) (pd s) v) Hs Hc Hi) as (f'&Hw&Hf'&Hfo).
  { apply length_bytes_at. }
  destruct (resident_pte _ _ _ _ Hs HRv) as (Hp&Hld&Hnz).
  exists (evicted s v i k' f'). split; [|split; [by eapply evicted_ok|split;
    [by eapply evicted_paged|by apply evicted_proc]]].
  unfold moveToSwap.
  rewrite bind_assert by (apply Z.ltb_lt; lia).
  rewrite bind_assert by (apply Z.ltb_lt; lia).
  rewrite bind_getp, Hv.
  rewrite bind_assert.
  2: { apply Z.eqb_eq, is_vpa_flags. by eapply as_vpa, HRv; apply Hs. }
  rewrite bind_walk, Hp, Hnz. rewrite bind_load, Hld.
  fold (frame (mm s) (pd s) v). rewrite (resident_frame _ _ _ _ Hs HRv).
  rewrite bind_gets. fold (page_data (mm s) (pd s) v).
  erewrite bind_store by exact Hw. rewrite Z.eqb_refl. cbn [negb].
  rewrite bind_setp, bind_gets. rewrite bind_assert by (by apply bool_decide_eq_true_2).
  rewrite bind_gets. rewrite bind_assert by (by apply Z.eqb_eq).
  fold (evict_pte (pte_of (mm s) (pd s) v)).
  erewrite bind_km by reflexivity.
  rewrite bind_lcr3, bind_gets. rewrite bind_assert by (by apply Z.eqb_eq).
  erewrite bind_km by exact Hfree.
  unfold mret, kern_ret, evicted, set_km, set_store, set_cr3, upd_proc. simpl.
  rewrite Hcr3. unfold aset. by rewrite Nat2Z.id.
Qed.

(** A change of the resident-page metadata only. *)
Record same_paging s s' : Prop := {
  sm_km : km s' = km s;
  sm_store : store s' = store s;
  sm_cur : curproc s' = curproc s;
  sm_cr3 : cr3 s' = cr3 s;
  sm_procs q : q <> p -> procs s' q = procs s q;
  sm_pid : pid s' = pid s;
  sm_pd : pd s' = pd s;
  sm_swap : VPA_Swap (procs s' p) = VPA_Swap (procs s p);
}.

Lemma same_paging_refl s : same_paging s s.
Proof. by split. Qed.

Lemma same_paging_upd s s' g :
  same_paging s s' ->
  (forall x, p_pid (g x) = p_pid x /\ p_pgdir (g x) = p_pgdir x /\ VPA_Swap (g x) = VPA_Swap x) ->
  same_paging s (upd_proc p g s').
Proof.
  intros [] Hg. destruct (Hg (procs s' p)) as (?&?&?).
  split; rewrite ?procs_upd; simpl; try congruence.
  intros q Hq. rewrite decide_False by done. auto.
Qed.

Lemma same_paging_ok s s' l R R' :
  same_paging s s' -> (forall w, R' w <-> R w) -> space_ok s l R ->
  space_ok s' l R' /\ paged s l R s' l R'.
Proof.
  intros [E1 E2 E3 E4 E5 E6 E7 E8] HR [H1 H2' H3 H4 H5 H6 H7].
  assert (Hsw : forall v i, swapped (procs s' p) v i <-> swapped (procs s p) v i).
  { intros v i. unfold swapped. by rewrite E8. }
  split.
  - split; rewrite ?E1, ?E2, ?E6, ?E7, ?E8; auto.
    + eapply aspace_weaken; [|done]. intros v. apply HR.
    + intros v Hv. by apply H4, HR.
    + intros v i Hv. by eapply H5, Hsw.
    + intros v i j Hi Hj. eapply H6; by apply Hsw.
    + destruct H7 as (c&?&?&Hl). exists c. split; [done|split; [done|]].
      intros v i Hv. by eapply Hl, Hsw.
  - split; rewrite ?E1, ?E2, ?E6, ?E7, ?E8; auto.
    + intros v bs fl [-> Hv]. unfold upage. rewrite E1, E2, E6, E7. split; [done|].
      setoid_rewrite Hsw. by rewrite HR.
    + intros x. unfold owned. rewrite E1, E7. intros [Hx|Hx]; [left|by right].
      destruct Hx as [?|[?|(v&Hv&?)]]; [by left|by right; left|].
      right; right. exists v. by rewrite <- HR.
Qed.

(** What [linkNewPage] leaves. *)
Record linked (pol : policy) s l R (v : Z) s' l' : Prop := {
  lk_space : space_ok s' l' (fun w => w ∈ resident pol (procs s' p));
  lk_paged : paged s l R s' l' (fun w => w ∈ resident pol (procs s' p));
  lk_meta : meta_ok pol (procs s' p);
  lk_resident : resident pol (procs s' p) = link_resident pol (procs s p) v;
  lk_free : l' = if size_mem (procs s p) =? MAX_PSYC_PAGES
                 then frame (mm s) (pd s) (victim_page pol (procs s p)) :: l else l;
}.

Section link.
Context (pol : policy) (s : machine F) (l : list Z) (v : Z).
Local Abbreviation pr := (procs s p).
Local Abbreviation R := (fun w => w = v \/ w ∈ resident pol pr).
Hypothesis Hs : space_ok s l R.
Hypothesis Hm : meta_ok pol pr.
Hypothesis Hcur : curproc s = p.
Hypothesis Hcr3 : cr3 s = V2P (pd s).
Hypothesis Hnew : v ∉ resident pol pr.

Lemma link_vpa : is_vpa v.
Proof. eapply as_vpa; [apply Hs|]. by left. Qed.

(** The metadata of [s'] is that of [x] with [v] linked. *)
Definition meta_is (s' : machine F) (x : proc) : Prop :=
  VPA_Memory (procs s' p) = VPA_Memory x /\ size_mem (procs s' p) = size_mem x /\
  (pol = FIFO_SWAP -> q_head (procs s' p) = q_head x /\ q_tail (procs s' p) = q_tail x).

Lemma meta_is_resident s' x : meta_is s' x -> resident pol (procs s' p) = resident pol x.
Proof.
  intros (E1&E2&E3). unfold resident. destruct pol; rewrite ?E1, ?E2; [|done].
  by destruct (E3 eq_refl) as [-> _].
Qed.

Lemma meta_is_ok s' x : meta_is s' x -> meta_ok pol x -> meta_ok pol (procs s' p).
Proof.
  intros Hx [M1 M2 M3 M4]. pose proof (meta_is_resident _ _ Hx) as Er.
  destruct Hx as (E1&E2&E3). split; rewrite ?Er, ?E1, ?E2; [done..|].
  intros Hp. destruct (E3 Hp) as [-> ->]. auto.
Qed.

Lemma linked_intro s1 l1 (R1 : Z -> Prop) s' :
  space_ok s1 l1 R1 -> paged s l R s1 l1 R1 ->
  same_paging s1 s' -> meta_is s' (link_meta pol v pr) ->
  (forall w, R1 w <-> w ∈ link_resident pol pr v) ->
  l1 = (if size_mem pr =? MAX_PSYC_PAGES then frame (mm s) (pd s) (victim_page pol pr) :: l else l) ->
  linked pol s l R v s' l1.
Proof.
  intros Hs1 Hpg Hsame Hmeta HR1 Hl1.
  pose proof (meta_is_resident _ _ Hmeta) as Er.
  rewrite link_meta_resident in Er by (done || apply link_vpa).
  destruct (same_paging_ok s1 s' l1 R1 (fun w => w ∈ resident pol (procs s' p)) Hsame)
    as [Hok Hpg']; [|done|].
  { intros w. by rewrite Er, HR1. }
  split; [done|by eapply paged_trans| |done|done].
  eapply meta_is_ok; [done|]. apply link_meta_ok; [done|apply link_vpa|done].
Qed.

Lemma linkNewPage_room :
  size_mem pr <> MAX_PSYC_PAGES ->
  exists s', linkNewPage kend pol p v s = Ret 0 s' /\ linked pol s l R v s' l.
Proof.
  intros Hf.
  assert (Hex : forall s', same_paging s s' -> meta_is s' (link_meta pol v pr) ->
    linked pol s l R v s' l).
  { intros s' Hsm Hmt. eapply linked_intro; [exact Hs|by apply same_paging_ok|done..| |].
    - intros w. destruct (link_elem _ _ v Hm Hnew) as [_ ->]. naive_solver.
    - by rewrite (proj2 (Z.eqb_neq _ _) Hf). }
  apply Z.eqb_neq in Hf. unfold linkNewPage.
  rewrite bind_assert by (apply Z.eqb_eq, is_vpa_flags, link_vpa).
  rewrite bind_getp. unfold meta_is, link_meta in Hex. rewrite Hf in *.
  destruct pol; rewrite ?bind_setp; eexists; (split; [done|]); apply Hex;
    try (repeat (apply same_paging_upd; [|done]); apply same_paging_refl).
  all: by rewrite !procs_upd.
Qed.

Lemma linkNewPage_full i :
  size_mem pr = MAX_PSYC_PAGES -> first_free pr i ->
  exists s', linkNewPage kend pol p v s = Ret 0 s' /\
    linked pol s l R v s' (frame (mm s) (pd s) (victim_page pol pr) :: l).
Proof.
  intros Hf Hi. set (x := victim_page pol pr).
  assert (Hx : x ∈ resident pol pr).
  { eapply list_elem_of_lookup_2. by apply victim_lookup. }
  assert (Hxv : x <> v) by congruence.
  destruct (moveToSwap_spec s l R (victim pol pr) i x Hs Hcur Hcr3) as (s1&Hmv&Hs1&Hpg1&Hp1);
    [by right|by apply victim_range|done|done|].
  destruct (getFree_spec pr) as [[_ Hno]|(i'&Hgf&Hi')]; [by destruct (Hno i)|].
  assert (i' = i) as ->.
  { destruct Hi as [(e&He&Hn) Hb], Hi' as [(e'&He'&Hn') Hb'].
    destruct (Nat.lt_trichotomy i i') as [Hlt|[->|Hlt]]; [|done|].
    - by rewrite (Hb' _ _ Hlt He) in Hn.
    - by rewrite (Hb _ _ Hlt He') in Hn'. }
  assert (HR1 : forall w, (R w /\ w <> x) <-> w ∈ link_resident pol pr v).
  { intros w. destruct (link_elem _ _ v Hm Hnew) as [_ ->]. fold x. naive_solver. }
  assert (Hex : forall s', same_paging s1 s' -> meta_is s' (link_meta pol v pr) ->
    linked pol s l R v s' (frame (mm s) (pd s) x :: l)).
  { intros s' Hsm Hmt. eapply linked_intro; [exact Hs1|done..|by rewrite Hf, Z.eqb_refl]. }
  unfold linkNewPage. rewrite bind_assert by (apply Z.eqb_eq, is_vpa_flags, link_vpa).
  rewrite bind_getp, Hf, Hgf. rewrite !Z.eqb_refl.
  assert (Hi1 : (Z.of_nat i =? -1) = false) by (apply Z.eqb_neq; lia). rewrite Hi1.
  pose proof (victim_range _ _ Hm) as Hvr. unfold meta_is in Hex.
  unfold link_meta in Hex. rewrite Hf in Hex. rewrite Z.eqb_refl in Hex.
  destruct pol.
  - assert (Hht : (q_head pr =? q_tail pr) = true).
    { destruct (mo_queue _ _ Hm eq_refl) as [Hh ->]. rewrite Hf. apply Z.eqb_eq.
      unfold MAX_PSYC_PAGES in *. Z.to_euclidean_division_equations; lia. }
    rewrite bind_assert by done. simpl in Hmv. rewrite (bind_Ret _ _ _ _ _ Hmv).
    rewrite !bind_setp. eexists. split; [done|]. apply Hex.
    + repeat (apply same_paging_upd; [|done]); apply same_paging_refl.
    + rewrite !procs_upd, Hp1. simpl. by rewrite Hf.
  - rewrite bind_assert by (apply negb_true_iff, Z.eqb_neq; simpl in Hvr; lia).
    simpl in Hmv. rewrite (bind_Ret _ _ _ _ _ Hmv). cbn [Z.eqb negb].
    rewrite bind_setp. eexists. split; [done|]. apply Hex.
    + repeat (apply same_paging_upd; [|done]); apply same_paging_refl.
    + rewrite !procs_upd, Hp1. simpl. by rewrite Hf.
Qed.

(** All frames and all slots in use: the request is refused, nothing changes. *)
Lemma linkNewPage_refused :
  size_mem pr = MAX_PSYC_PAGES -> (forall i, ~ first_free pr i) ->
  linkNewPage kend pol p v s = Ret (-1) s.
Proof using Hs Hm.
  clear Hcur Hcr3 Hnew. intros Hf Hno. destruct (getFree_spec pr) as [[Hg _]|(i&_&Hi)]; [|by destruct (Hno i)].
  unfold linkNewPage. rewrite bind_assert by (apply Z.eqb_eq, is_vpa_flags, link_vpa).
  rewrite bind_getp, Hf, Hg, !Z.eqb_refl. destruct pol; [|done].
  rewrite bind_assert; [done|]. destruct (mo_queue _ _ Hm eq_refl) as [Hh ->].
  rewrite Hf. apply Z.eqb_eq. unfold MAX_PSYC_PAGES in *.
  Z.to_euclidean_division_equations; lia.
Qed.

End link.

(** The state after page [v] came back from slot [i]. *)
Definition brought s (i : nat) (k' : kmem) (f' : F) : machine F :=
  set_km k' (set_store f' (upd_proc p (fun x => set_swap (<[i := 0]> (VPA_Swap x)) x) s)).

Section bring.
Context (s : machine F) (l0 : list Z) (R : Z -> Prop) (v q : Z) (i : nat) (k' : kmem) (f' : F).
Context (c : list Z) (e' : Z).
Hypothesis Hs : space_ok s (q :: l0) R.
Hypothesis Hi : swapped (procs s p) v i.
Hypothesis Hc : ss_file (store s) (pid s) = Some c.
Hypothesis Hf' : forall r, ss_file f' r = ss_file (store s) r.
Let R' := fun w => w = v \/ R w.
Hypothesis Hk' : kmem_inv kend k' l0.
Hypothesis Ha' : aspace kend (km_mem k') (pd s) l0 R'.
Hypothesis Hpte : forall w, is_vpa w -> pte_of (km_mem k') (pd s) w =
  if decide (w = v) then e' else pte_of (mm s) (pd s) w.
Hypothesis He' : has e' PTE_PG = false /\ soft e' = soft (pte_of (mm s) (pd s) v).
Hypothesis Hv : page_data (km_mem k') (pd s) v = slot_data c i.
Hypothesis Hdata : forall w, R w -> page_data (km_mem k') (pd s) w = page_data (mm s) (pd s) w.
Hypothesis Hmem : forall x, ~ in_space (mm s) (pd s) R x -> ~ same_page x q -> km_mem k' x = mm s x.
Hypothesis Hin : forall x, in_space (km_mem k') (pd s) R' x ->
  in_space (mm s) (pd s) R x \/ same_page x q.
Let s' := brought s i k' f'.

Lemma brought_proc : procs s' p = set_swap (<[i := 0]> (VPA_Swap (procs s p))) (procs s p).
Proof. unfold s', brought. simpl. by rewrite decide_True. Qed.

Lemma brought_pd : pd s' = pd s.
Proof. by rewrite brought_proc. Qed.

Lemma not_resident : ~ R v.
Proof.
  intros HRv. destruct (sp_slot _ _ _ Hs _ _ Hi) as (_&Hn&_).
  by rewrite (as_present _ _ _ _ _ (sp_as _ _ _ Hs) v HRv) in Hn.
Qed.

Lemma brought_swapped w j :
  swapped (procs s' p) w j <-> w <> v /\ swapped (procs s p) w j.
Proof.
  rewrite brought_proc, swapped_insert.
  2: { destruct Hi as (e&He&_). by eapply lookup_lt_Some. }
  split.
  - intros [(_&H1&_)|[Hne Hw]]; [done|]. split; [|done]. intros ->. apply Hne.
    by eapply (sp_slot_inj _ _ _ Hs).
  - intros [Hne Hw]. right. split; [|done]. intros ->.
    destruct Hi as (e&He&_&<-), Hw as (e2&He2&_&<-). congruence.
Qed.

Lemma brought_ok : space_ok s' l0 R'.
Proof.
  destruct (sp_file _ _ _ Hs) as (c'&Hc'&Hu8&Hlen). rewrite Hc in Hc'. injection Hc' as <-.
  split; rewrite ?brought_pd; simpl km_mem; simpl km; [done|done| | | | |].
  - rewrite brought_proc. simpl. rewrite length_insert. by apply (sp_len _ _ _ Hs).
  - intros w Hw. rewrite Hpte by (by eapply as_vpa).
    destruct (decide (w = v)) as [->|Hne]; [by apply He'|].
    destruct Hw as [->|Hw]; [done|]. by apply (sp_nopg _ _ _ Hs).
  - intros w j [Hne Hw]%brought_swapped. destruct (sp_slot _ _ _ Hs _ _ Hw) as (Hvw&?&?).
    by rewrite Hpte, decide_False.
  - intros w j1 j2 [_ H1]%brought_swapped [_ H2']%brought_swapped.
    by eapply (sp_slot_inj _ _ _ Hs).
  - exists c. split; [|split; [done|]].
    + rewrite brought_proc. simpl. by rewrite Hf'.
    + intros w j [_ Hw]%brought_swapped. by eapply Hlen.
Qed.

Lemma brought_upage w bs fl : upage s R w bs fl -> upage s' R' w bs fl.
Proof.
  destruct He' as [_ Hsoft]. intros [-> Hw]. unfold upage. rewrite brought_pd.
  simpl km_mem; simpl km.
  assert (Hvw : is_vpa w).
  { destruct Hw as [[Hw _]|(j&c0&Hw&_)]; [by eapply as_vpa, Hw; apply Hs|].
    by eapply (sp_slot _ _ _ Hs). }
  split.
  { rewrite Hpte by done. by destruct (decide (w = v)) as [->|]. }
  destruct Hw as [[Hw ->]|(j&c0&Hw&Hc0&->)].
  - left. split; [by right|]. symmetry. by apply Hdata.
  - rewrite Hc in Hc0. injection Hc0 as <-. destruct (decide (w = v)) as [->|Hne].
    + left. split; [by left|]. rewrite Hv. f_equal. by eapply (sp_slot_inj _ _ _ Hs).
    + right. exists j, c. split; [by apply brought_swapped|]. split; [|reflexivity].
      rewrite brought_proc. simpl. by rewrite Hf'.
Qed.

Lemma brought_paged : paged s (q :: l0) R s' l0 R'.
Proof.
  split.
  - apply brought_upage.
  - intros r Hr. unfold s', brought. simpl. by rewrite decide_False.
  - intros r _. apply Hf'.
  - by rewrite brought_proc.
  - intros x Hx. apply Hmem; intros Hx2; apply Hx; [by left|].
    right. exists q. split; [left|done].
  - intros x [Hx|(r&Hr&Hx)].
    + rewrite brought_pd in Hx. destruct (Hin x Hx); [by left|].
      right. exists q. split; [left|done].
    + right. exists r. split; [by right|done].
Qed.

End bring.

Lemma first_free_exists pr i e :
  VPA_Swap pr !! i = Some e -> has e SWAP_P = false -> exists j, first_free pr j.
Proof.
  intros He Hn. destruct (free_slot_spec (VPA_Swap pr) 0) as [[_ HF]|(n&e'&_&?&?&?)].
  - rewrite Forall_lookup in HF. apply HF in He. congruence.
  - exists n. split; eauto.
Qed.

Lemma page_of va :
  is_u32 va -> is_vpa (PGROUNDDOWN va) /\ PDX va = PDX (PGROUNDDOWN va) /\
    PTX va = PTX (PGROUNDDOWN va).
Proof.
  intros Hva. rewrite PGROUNDDOWN_spec by done.
  assert (Hu : is_u32 (4096 * (va / 4096))).
  { unfold is_u32 in *. Z.to_euclidean_division_equations. lia. }
  split; [split; [done|by rewrite Z.mul_comm, Z_mod_mult]|].
  apply same_vpage_div; [done..|]. by rewrite Z.mul_comm, Z_div_mult.
Qed.

(** The slot of a swapped-out page holds a whole page of bytes. *)
Lemma read_slot s l R c v i :
  space_ok s l R -> ss_file (store s) (pid s) = Some c -> swapped (procs s p) v i ->
  length (slot_data c i) = Z.to_nat PGSIZE /\ Forall is_u8 (slot_data c i) /\
  exists f', readFromSwapFile (pid s) (Z.of_nat i * PGSIZE) PGSIZE (store s) =
      Ret (PGSIZE, slot_data c i) f' /\
    (forall q, ss_file f' q = ss_file (store s) q).
Proof.
  intros Hs Hc Hi. destruct (sp_file _ _ _ Hs) as (c'&Hc'&Hu8&Hlen).
  rewrite Hc in Hc'. injection Hc' as <-. specialize (Hlen _ _ Hi).
  split; [|split].
  - unfold slot_data. rewrite length_take, length_drop. lia.
  - unfold slot_data. by apply Forall_take, Forall_drop.
  - destruct (ss_read (store s) (pid s) c (Z.of_nat i * PGSIZE) PGSIZE Hc) as (f'&Hr&Ho);
      [unfold PGSIZE in *; lia..|].
    exists f'. split; [|done]. rewrite Hr. unfold slot_data. do 4 f_equal. unfold PGSIZE. lia.
Qed.

Lemma find_swapped s l R v i :
  space_ok s l R -> swapped (procs s p) v i ->
  find_slot (VPA_Swap (procs s p)) v 0 = Some (Z.of_nat i).
Proof.
  intros Hs Hi. pose proof (find_slot_spec (VPA_Swap (procs s p)) v 0) as Hf.
  destruct (find_slot (VPA_Swap (procs s p)) v 0) as [r|].
  - destruct Hf as (n&e&->&He&Hp&Ha). f_equal.
    rewrite (sp_slot_inj _ _ _ Hs v n i); [lia| |done]. by exists e.
  - destruct Hi as (e&He&Hp&Ha). by destruct (Hf _ _ He Hp).
Qed.

Section fault.
Context (pol : policy) (s : machine F) (q : Z) (l0 : list Z) (va : Z) (i : nat).
Local Abbreviation v := (PGROUNDDOWN va).
Local Abbreviation R := (fun w => w ∈ resident pol (procs s p)).
Hypothesis Hs : space_ok s (q :: l0) R.
Hypothesis Hva : is_u32 va.
Hypothesis Hi : swapped (procs s p) v i.

(** The first half of [recoverPageFault], up to the new entry. *)
Lemma fault_bring :
  exists k1 f1 k2,
    kalloc (km s) = Ret q k1 /\ (q =? 0) = false /\
    moveFromSwap p v q (set_km k1 s) =
      Ret 0 (brought s i (with_mem (fun m => put_bytes m q
               (slot_data (default [] (ss_file (store s) (pid s))) i)) k1) f1) /\
    store32 (pte_addr (mm s) (pd s) v)
      (Z.lor (V2P q) (restore_flags (pte_of (mm s) (pd s) v)))
      (with_mem (fun m => put_bytes m q
               (slot_data (default [] (ss_file (store s) (pid s))) i)) k1) = Ret tt k2 /\
    let s1 := brought s i k2 f1 in
    let R1 := fun w => w = v \/ R w in
    space_ok s1 l0 R1 /\ paged s (q :: l0) R s1 l0 R1.
Proof.
  destruct (sp_file _ _ _ Hs) as (c&Hc&_). rewrite Hc. cbn [default].
  destruct (kalloc_inv kend (km s) q l0 (sp_kmem _ _ _ Hs)) as (k1&Hal&Hk1&Hq&Hql&Em&_).
  destruct (read_slot s _ _ c v i Hs Hc Hi) as (Hlen&Hu8&f1&Hrd&Hf1).
  destruct (sp_slot _ _ _ Hs _ _ Hi) as (Hv&HnP&HPG).
  assert (Hnv : ~ R v) by exact (not_resident s l0 R v q i Hs Hi).
  assert (Ha : aspace kend (km_mem k1) (pd s) l0 R).
  { rewrite Em. eapply aspace_frame; [apply Hs|done|]. intros r Hr. left. by right. }
  assert (Hu : unused kend (km_mem k1) (pd s) l0 R q).
  { rewrite Em. apply unused_alloc; [apply Hs|done..]. }
  assert (Hpd : present_pde (mm s) (pd s) (PDX v) = true).
  { destruct (present_pde (mm s) (pd s) (PDX v)) eqn:E; [done|].
    unfold pte_of in HPG. by rewrite E in HPG. }
  assert (He : is_u32 (pte_of (mm s) (pd s) v)) by (apply pte_u32, Hs).
  destruct (restore_spec kend q _ He Hq) as (Eu&Ef&EP&EG&Es).
  destruct (bring_mem kend k1 (pd s) R v q l0 (slot_data c i)
    (restore_flags (pte_of (mm s) (pd s) v)) Hk1 Ha Hu Hv Hnv) as
    (_&_&Hk2&Ha2&Hpte&Hd1&Hd2&Hm2&Hin2); [by rewrite Em|done..|].
  rewrite Em in Hk2, Ha2, Hpte, Hd1, Hd2, Hm2, Hin2.
  exists k1, f1. eexists. split; [done|]. split; [by apply Z.eqb_neq, (page_ok_nonzero kend)|].
  split; [|split; [reflexivity|]].
  - unfold moveFromSwap. rewrite bind_assert by (apply Z.eqb_eq; by apply is_vpa_flags).
    rewrite bind_getp. change (procs (set_km k1 s) p) with (procs s p).
    rewrite (find_swapped _ _ _ _ _ Hs Hi).
    erewrite bind_store by exact Hrd. erewrite bind_km by reflexivity.
    cbn [fst snd]. rewrite Z.eqb_refl. cbn [negb]. rewrite bind_setp.
    unfold mret, kern_ret, brought, aset. by rewrite Nat2Z.id.
  - split.
    + eapply brought_ok; try exact Hpte; done.
    + eapply brought_paged; try exact Hpte; done.
Qed.

Hypothesis Hm : meta_ok pol (procs s p).
Hypothesis Hcur : curproc s = p.
Hypothesis Hcr3 : cr3 s = V2P (pd s).

Lemma recover_spec :
  exists s' l', recoverPageFault kend pol va s = Ret 0 s' /\
    space_ok s' l' (fun w => w ∈ resident pol (procs s' p)) /\
    meta_ok pol (procs s' p) /\
    paged s (q :: l0) R s' l' (fun w => w ∈ resident pol (procs s' p)) /\
    resident pol (procs s' p) = link_resident pol (procs s p) v.
Proof.
  destruct fault_bring as (k1&f1&k2&Hal&Hq&Hmv&Hst&Hs1&Hpg1). revert Hs1 Hpg1.
  set (s1 := brought s i k2 f1). intros Hs1 Hpg1.
  destruct (sp_slot _ _ _ Hs _ _ Hi) as (Hv&HnP&HPG).
  assert (Hp1 : procs s1 p = set_swap (<[i := 0]> (VPA_Swap (procs s p))) (procs s p))
    by apply brought_proc.
  assert (Er : resident pol (procs s1 p) = resident pol (procs s p)) by by rewrite Hp1; destruct pol.
  assert (Hm1 : meta_ok pol (procs s1 p)).
  { rewrite Hp1 in *. by destruct Hm; split; try rewrite Er. }
  assert (Hnew : v ∉ resident pol (procs s1 p)).
  { rewrite Er. exact (not_resident s l0 R v q i Hs Hi). }
  rewrite <- Er in Hs1.
  assert (Hlink : exists s' l', linkNewPage kend pol p v s1 = Ret 0 s' /\
    linked pol s1 l0 (fun w => w = v \/ w ∈ resident pol (procs s1 p)) v s' l').
  { assert (Hpd1 : cr3 s1 = V2P (pd s1)) by by rewrite Hp1.
    destruct (decide (size_mem (procs s1 p) = MAX_PSYC_PAGES)) as [Hf|Hf].
    - destruct (first_free_exists (procs s1 p) i 0) as [j Hj]; [|done|].
      { rewrite Hp1. simpl. apply list_lookup_insert_eq.
        destruct Hi as (e&He&_). by eapply lookup_lt_Some. }
      destruct (linkNewPage_full pol s1 l0 v Hs1 Hm1 Hcur Hpd1 Hnew j Hf Hj) as (s'&?&?). eauto.
    - destruct (linkNewPage_room pol s1 l0 v Hs1 Hm1 Hnew Hf) as (s'&?&?). eauto. }
  destruct Hlink as (s'&l'&Hrun&[L1 L2 L3 L4 _]).
  exists s', l'. split; [|split; [done|split; [done|split]]].
  2: { rewrite Er in L2. by eapply paged_trans. }
  2: { rewrite L4. unfold link_resident. rewrite Er, Hp1. by destruct pol. }
  destruct (page_of va Hva) as (_&HD&HT).
  assert (Hpd : present_pde (mm s) (pd s) (PDX v) = true).
  { destruct (present_pde (mm s) (pd s) (PDX v)) eqn:E; [done|].
    unfold pte_of in HPG. by rewrite E in HPG. }
  assert (Hnz : (pte_addr (mm s) (pd s) v =? 0) = false).
  { eapply pte_addr_nonzero; [apply (sp_as _ _ _ Hs)|done]. }
  assert (Ea : pte_addr (mm s) (pd s) va = pte_addr (mm s) (pd s) v).
  { unfold pte_addr. by rewrite HD, HT. }
  assert (Hld : ld32 (mm s) (pte_addr (mm s) (pd s) v) = pte_of (mm s) (pd s) v).
  { unfold pte_of. by rewrite Hpd. }
  assert (He : is_u32 (pte_of (mm s) (pd s) v)) by (apply pte_u32, Hs).
  destruct (has_flag_bit _ He) as (F1&F2&F3&F4).
  unfold recoverPageFault. rewrite bind_gets, bind_getp, Hcur.
  rewrite bind_walk, HD, Hpd, Ea, Hnz, bind_load, Hld, HPG. cbn [negb].
  erewrite bind_km by exact Hal. rewrite Hq.
  rewrite (bind_Ret _ _ _ _ _ Hmv). cbn [Z.ltb Z.compare].
  rewrite bind_assert by congruence.
  rewrite bind_assert by (rewrite F3, <- F1, HnP; done).
  rewrite bind_gets. rewrite bind_assert by (apply Z.eqb_eq; exact Hcr3).
  erewrite bind_km by exact Hst. rewrite bind_lcr3.
  replace (set_cr3 _ _) with s1.
  2: { unfold s1, brought, set_cr3, set_km, set_store. simpl. by rewrite Hcr3. }
  rewrite (bind_Ret _ _ _ _ _ Hrun). rewrite bind_gets. rewrite bind_assert; [done|].
  apply Z.eqb_eq. destruct (pg_ids _ _ _ _ _ _ L2) as (_&_&_&->). exact Hcr3.
Qed.

End fault.

End paging.
