(* ===== verification/SwapOps.v ===== *)
(** The remaining operations of [Swap]: unlinking a page, ageing, the copy of a
    swap file on [fork], [restoreSwap]; and the theorems of the paging
    component with their witnesses. *)

From S2P Require Import Prelude Memory Kalloc Vm Space Swap SwapCorrect.

#[local] Opaque Z.to_nat.

(** ** unlinkPage, FIFO: deleting from the circular queue *)

Section fifo_queue.
Variable h : Z.
Hypothesis Hh : 0 <= h < 15.

(** Element [k] of the queue stored in the array [a] from [h] on. *)
Definition qat (a : list Z) (k : Z) : Z := aget a ((h + k) mod 15).

Lemma circle_next i :
  0 <= i -> (if (h + i) mod 15 + 1 =? MAX_PSYC_PAGES then 0 else (h + i) mod 15 + 1)
            = (h + (i + 1)) mod 15.
Proof.
  intros Hi. unfold MAX_PSYC_PAGES. zcases; Z.to_euclidean_division_equations; lia.
Qed.

Lemma qat_aset a i k x :
  length a = 15%nat -> 0 <= i < 15 -> 0 <= k < 15 ->
  qat (aset a ((h + i) mod 15) x) k = if decide (k = i) then x else qat a k.
Proof.
  intros Hl Hi Hk. unfold qat. pose proof (Z.mod_pos_bound (h + i) 15).
  pose proof (Z.mod_pos_bound (h + k) 15).
  rewrite aget_aset by lia. destruct (decide (k = i)) as [->|Hne].
  - by rewrite decide_True.
  - by rewrite decide_False by (apply mod15_ne; lia).
Qed.

Lemma fifo_shift_spec sz : forall n a i,
  length a = 15%nat -> 0 <= i < sz -> sz <= 15 -> sz - i <= Z.of_nat n + 1 ->
  exists a', fifo_shift n a ((h + i) mod 15) i sz = (a', (h + (sz - 1)) mod 15) /\
    length a' = 15%nat /\
    forall k, 0 <= k < sz - 1 -> qat a' k = if decide (k < i) then qat a k else qat a (k + 1).
Proof.
  induction n as [|n IH]; intros a i Hl Hi Hsz Hn; cbn [fifo_shift].
  - rewrite (proj2 (Z.ltb_ge (i + 1) sz)) by lia. exists a.
    split; [do 2 f_equal; f_equal; lia|]. split; [done|]. intros k Hk. by rewrite decide_True by lia.
  - destruct (Z.ltb_spec (i + 1) sz) as [Hlt|Hge].
    + rewrite circle_next by lia.
      destruct (IH (aset a ((h + i) mod 15) (aget a ((h + (i + 1)) mod 15))) (i + 1))
        as (a'&->&Hl'&Hq); [by unfold aset; rewrite length_insert|lia..|].
      exists a'. split; [done|]. split; [done|]. intros k Hk. rewrite Hq by done.
      fold (qat a (i + 1)).
      destruct (decide (k < i + 1)), (decide (k < i)); try lia; rewrite qat_aset by lia.
      * by rewrite decide_False by lia.
      * assert (k = i) as -> by lia. by rewrite decide_True.
      * by rewrite decide_False by lia.
    + exists a. split; [do 2 f_equal; f_equal; lia|]. split; [done|].
      intros k Hk. by rewrite decide_True by lia.
Qed.

End fifo_queue.

Lemma tail_distance h t n :
  0 <= h < 15 -> 0 <= n <= 15 -> t = (h + n) mod 15 ->
  (n = 0 -> h = t) /\ (n <> 0 -> h < t -> t - h = n) /\ (n <> 0 -> t <= h -> 15 - h + t = n).
Proof. intros. subst. Z.to_euclidean_division_equations. lia. Qed.

Section fifo_unlink.
Context (pr : proc) (v : Z).
Hypothesis Hm : meta_ok FIFO_SWAP pr.
Local Abbreviation r := (resident FIFO_SWAP pr).

Lemma fifo_sizes : 0 <= q_head pr < 15 /\ 0 <= size_mem pr <= 15 /\ length (VPA_Memory pr) = 15%nat.
Proof.
  split; [by apply (mo_queue _ _ Hm)|]. split; [apply Hm|]. by rewrite (mo_len _ _ Hm).
Qed.

Lemma resident_qat i :
  r !! i = if decide (i < Z.to_nat (size_mem pr))%nat
           then Some (MEM_ADDR (qat (q_head pr) (VPA_Memory pr) (Z.of_nat i))) else None.
Proof. apply resident_fifo_lookup. Qed.

Lemma fifo_unlink_scan n i :
  Z.of_nat i + Z.of_nat n = size_mem pr ->
  (forall j, (j < i)%nat -> r !! j <> Some v) ->
  fifo_unlink n pr v ((q_head pr + Z.of_nat i) mod 15) (Z.of_nat i) =
  match list_find (fun w => w = v) (drop i r) with
  | Some (j, _) =>
      Some (fifo_shift (Z.to_nat (size_mem pr)) (VPA_Memory pr)
        ((q_head pr + Z.of_nat (i + j)) mod 15) (Z.of_nat (i + j)) (size_mem pr))
  | None => None
  end.
Proof.
  destruct fifo_sizes as (Hh&Hsz&Hl).
  revert i. induction n as [|n IH]; intros i Hi Hlt; cbn [fifo_unlink].
  - rewrite drop_ge; [done|]. rewrite length_resident by apply Hm. lia.
  - assert (Hr : r !! i = Some (MEM_ADDR (qat (q_head pr) (VPA_Memory pr) (Z.of_nat i)))).
    { by rewrite resident_qat, decide_True by lia. }
    rewrite (drop_S _ _ _ Hr). cbn [list_find].
    fold (qat (q_head pr) (VPA_Memory pr) (Z.of_nat i)).
    destruct (Z.eqb_spec (MEM_ADDR (qat (q_head pr) (VPA_Memory pr) (Z.of_nat i))) v) as [E|E].
    + rewrite decide_True by done. by rewrite Nat.add_0_r.
    + rewrite decide_False by done. rewrite circle_next by lia.
      replace (Z.of_nat i + 1) with (Z.of_nat (S i)) by lia.
      rewrite IH; [|lia|].
      * destruct (list_find _ (drop (S i) r)) as [[j x]|]; [|done].
        cbn [fmap option_fmap option_map prod_map]. by rewrite Nat.add_succ_r.
      * intros j Hj. destruct (decide (j = i)) as [->|]; [rewrite Hr; congruence|].
        apply Hlt. lia.
Qed.

(** The queue without its element [i]. *)
Definition unlinked_fifo (a : list Z) : proc :=
  set_queue (q_head pr) ((q_head pr + (size_mem pr - 1)) mod 15)
    (set_memory a (u32 (size_mem pr - 1)) pr).

Lemma unlinked_fifo_ok i a :
  r !! i = Some v -> length a = 15%nat ->
  (forall k, 0 <= k < size_mem pr - 1 -> qat (q_head pr) a k =
     if decide (k < Z.of_nat i) then qat (q_head pr) (VPA_Memory pr) k
     else qat (q_head pr) (VPA_Memory pr) (k + 1)) ->
  resident FIFO_SWAP (unlinked_fifo a) = delete i r /\ meta_ok FIFO_SWAP (unlinked_fifo a).
Proof.
  intros Hi Hla Hq. destruct fifo_sizes as (Hh&Hsz&Hl).
  assert (Hpos : 0 < size_mem pr).
  { rewrite resident_qat in Hi. destruct (decide _); [lia|done]. }
  assert (Hu : u32 (size_mem pr - 1) = size_mem pr - 1) by (apply u32_id; unfold is_u32; lia).
  assert (Er : resident FIFO_SWAP (unlinked_fifo a) = delete i r).
  { apply list_eq. intros j. rewrite resident_fifo_lookup. unfold unlinked_fifo.
    cbn [size_mem set_queue set_memory q_head VPA_Memory]. rewrite Hu.
    fold (qat (q_head pr) a (Z.of_nat j)).
    destruct (decide (j < i)%nat) as [Hji|Hji].
    - rewrite list_lookup_delete_lt by done. rewrite resident_qat.
      assert (Hi2 : (i < Z.to_nat (size_mem pr))%nat).
      { apply lookup_lt_Some in Hi. rewrite length_resident in Hi by apply Hm. done. }
      rewrite !decide_True by lia. by rewrite Hq, decide_True by lia.
    - rewrite list_lookup_delete_ge by lia. rewrite resident_qat.
      destruct (decide (j < Z.to_nat (size_mem pr - 1))%nat).
      + rewrite decide_True by lia. rewrite Hq, decide_False by lia. do 3 f_equal. lia.
      + by rewrite decide_False by lia. }
  split; [done|]. split.
  - done.
  - simpl. rewrite Hu. unfold MAX_PSYC_PAGES in *. lia.
  - rewrite Er. pose proof (mo_nodup _ _ Hm) as Hn.
    rewrite (delete_Permutation r i v Hi) in Hn. by apply NoDup_cons in Hn as [_ ?].
  - intros _. simpl. rewrite Hu. done.
Qed.

End fifo_unlink.

(** ** unlinkPage *)

Section unlink.
Context {F : Type} `{SwapStore F}.
Variable p : nat.
Implicit Types s : machine F.

(** What [unlinkPage] does to the metadata. *)
Record unlinked (pol : policy) (v : Z) s (r : Z) s' : Prop := {
  ul_km : km s' = km s /\ store s' = store s /\ curproc s' = curproc s /\ cr3 s' = cr3 s;
  ul_procs q : q <> p -> procs s' q = procs s q;
  ul_meta : meta_ok pol (procs s' p);
  ul_resident : v ∈ resident pol (procs s p) ->
    r = 0 /\ v :: resident pol (procs s' p) ≡ₚ resident pol (procs s p) /\
    VPA_Swap (procs s' p) = VPA_Swap (procs s p) /\
    (pol = FIFO_SWAP -> exists i, resident pol (procs s p) !! i = Some v /\
       resident pol (procs s' p) = delete i (resident pol (procs s p)));
  ul_swapped : v ∉ resident pol (procs s p) ->
    resident pol (procs s' p) = resident pol (procs s p) /\
    ((exists i, r = 0 /\ swapped (procs s p) v i /\
        VPA_Swap (procs s' p) = <[i := 0]> (VPA_Swap (procs s p))) \/
     (r = -1 /\ s' = s /\ forall i, ~ swapped (procs s p) v i));
}.

Lemma unlink_swap_spec pol v s :
  meta_ok pol (procs s p) -> (v ∉ resident pol (procs s p)) ->
  exists r s', unlink_swap p v s = Ret r s' /\ unlinked pol v s r s'.
Proof.
  intros Hm Hv. unfold unlink_swap. rewrite bind_getp.
  pose proof (find_slot_spec (VPA_Swap (procs s p)) v 0) as Hf.
  destruct (find_slot (VPA_Swap (procs s p)) v 0) as [i|].
  - destruct Hf as (n&e&->&He&Hp&Ha). rewrite bind_setp. do 2 eexists. split; [done|].
    set (s' := upd_proc _ _ _).
    assert (Ep : procs s' p = set_swap (<[n := 0]> (VPA_Swap (procs s p))) (procs s p)).
    { unfold s'. rewrite procs_upd. unfold aset. by rewrite Z.add_0_l, Nat2Z.id. }
    split; [done| | | |].
    + intros q Hq. by apply procs_upd_ne.
    + rewrite Ep. destruct Hm. destruct pol; by split.
    + done.
    + intros _. rewrite Ep. split; [by destruct pol|]. left. exists n. split; [done|].
      split; [by exists e|done].
  - exists (-1), s. split; [done|]. split; [done|done|done|done|]. intros _. split; [done|].
    right. split; [done|]. split; [done|]. intros i (e&He&Hp&Ha). by apply (Hf i e).
Qed.

Lemma resident_dec pol pr v :
  (exists i, list_find (fun w => w = v) (resident pol pr) = Some (i, v) /\
     resident pol pr !! i = Some v) \/
  (list_find (fun w => w = v) (resident pol pr) = None /\ (v ∉ resident pol pr)).
Proof.
  destruct (list_find (fun w => w = v) (resident pol pr)) as [[i x]|] eqn:E.
  - left. apply list_find_Some in E as E'. destruct E' as (Hi&->&_). by exists i.
  - right. split; [done|]. apply list_find_None in E. rewrite Forall_forall in E.
    intros Hv. by apply (E v).
Qed.

Lemma unlink_fifo_run v s :
  meta_ok FIFO_SWAP (procs s p) -> is_vpa v ->
  exists r s', unlinkPage FIFO_SWAP p v s = Ret r s' /\ unlinked FIFO_SWAP v s r s'.
Proof.
  intros Hm Hv. destruct (fifo_sizes _ Hm) as (Hh&Hsz&Hl).
  unfold unlinkPage. rewrite bind_assert by (apply Z.eqb_eq; by apply is_vpa_flags).
  rewrite bind_getp. set (pr := procs s p) in *.
  pose proof (fifo_unlink_scan pr v Hm (Z.to_nat (size_mem pr)) 0) as Hscan.
  change (Z.of_nat 0) with 0 in Hscan.
  rewrite Z.add_0_r, (Z.mod_small (q_head pr) 15), drop_0 in Hscan by lia. rewrite Hscan by first [lia | by intros j Hj; lia].
  destruct (resident_dec FIFO_SWAP pr v) as [(i&->&Hi)|[-> Hn]]; [|by apply unlink_swap_spec].
  cbn [Nat.add].
  assert (Hi2 : (i < Z.to_nat (size_mem pr))%nat).
  { apply lookup_lt_Some in Hi. rewrite length_resident in Hi by apply Hm. done. }
  destruct (fifo_shift_spec (q_head pr) Hh (size_mem pr) (Z.to_nat (size_mem pr))
    (VPA_Memory pr) (Z.of_nat i)) as (a&->&Hla&Hq); [done|lia..|].
  destruct (unlinked_fifo_ok pr v Hm i a Hi Hla Hq) as [Er Hm'].
  rewrite bind_setp, bind_getp.
  assert (Ep : procs (upd_proc p (fun x => set_queue (q_head x)
    ((q_head pr + (size_mem pr - 1)) mod 15) (set_memory a (u32 (size_mem x - 1)) x)) s) p
    = unlinked_fifo pr a) by by rewrite procs_upd.
  rewrite Ep. set (s' := upd_proc _ _ _) in *.
  exists 0, s'. split.
  - destruct (mo_queue _ _ Hm' eq_refl) as [_ Ht']. pose proof (mo_size _ _ Hm') as Hs'.
    revert Ht' Hs'. set (pr' := unlinked_fifo pr a).
    assert (Hh' : 0 <= q_head pr' < 15) by done. unfold MAX_PSYC_PAGES. intros Ht' Hs'.
    destruct (tail_distance _ _ _ Hh' Hs' Ht') as (D1&D2&D3).
    destruct (Z.eqb_spec (size_mem pr') 0) as [E0|E0];
      [|destruct (Z.ltb_spec (q_head pr') (q_tail pr'))];
      (rewrite bind_assert; [done|]); apply Z.eqb_eq; auto with lia.
  - split; [done| | | |].
    + intros q Hq'. by apply procs_upd_ne.
    + by rewrite Ep.
    + intros _. rewrite Ep. fold pr. rewrite Er. split; [done|].
      split; [symmetry; by apply delete_Permutation|]. split; [done|]. intros _. by exists i.
    + intros Hn. destruct Hn. by eapply list_elem_of_lookup_2.
Qed.

Lemma nfu_find_spec l v i :
  nfu_find l v i = match list_find (fun w => w = v) (MEM_ADDR <$> l) with
                   | Some (j, _) => Some (i + Z.of_nat j) | None => None end.
Proof.
  revert i. induction l as [|e l IH]; intros i; [done|]. cbn [nfu_find fmap list_fmap list_find].
  destruct (Z.eqb_spec (MEM_ADDR e) v) as [E|E].
  - rewrite decide_True by done. f_equal. change (Z.of_nat 0) with 0. lia.
  - rewrite decide_False by done. rewrite IH. change (fmap MEM_ADDR l) with (MEM_ADDR <$> l).
    destruct (list_find _ (MEM_ADDR <$> l)) as [[j x]|]; [|done].
    cbn -[Z.of_nat Z.add]. f_equal. lia.
Qed.

(** Removing by moving the last element into the gap. *)
Lemma swap_remove (l : list Z) n i :
  (i < n)%nat -> (n <= length l)%nat ->
  take (n - 1)%nat (<[(n - 1)%nat := 0]> (<[i := nth (n - 1)%nat l 0]> l)) ++ [nth i l 0]
  ≡ₚ take n l.
Proof.
  intros Hi Hn. rewrite take_insert_ge by lia.
  assert (Hlast : l !! (n - 1)%nat = Some (nth (n - 1)%nat l 0)) by (apply lookup_total_lt; lia).
  assert (Hith : l !! i = Some (nth i l 0)) by (apply lookup_total_lt; lia).
  replace (take n l) with (take (n - 1)%nat l ++ [nth (n - 1)%nat l 0]).
  2: { rewrite <- take_S_r by done. f_equal. lia. }
  destruct (decide (i = n - 1)%nat) as [->|Hne].
  - by rewrite take_insert_ge by lia.
  - rewrite take_insert_lt by lia.
    set (t := take (n - 1)%nat l). set (x := nth (n - 1)%nat l 0).
    assert (Ht : t !! i = Some (nth i l 0)) by (unfold t; rewrite lookup_take_lt by lia; done).
    rewrite insert_take_drop by (by eapply lookup_lt_Some).
    rewrite <- (take_drop_middle t i _ Ht) at 3.
    rewrite <- !app_assoc. cbn [app]. apply Permutation_app_head.
    rewrite <- !Permutation_cons_append. apply perm_swap.
Qed.

Lemma unlink_nfu_run v s :
  meta_ok NFU_SWAP (procs s p) -> is_vpa v ->
  exists r s', unlinkPage NFU_SWAP p v s = Ret r s' /\ unlinked NFU_SWAP v s r s'.
Proof.
  intros Hm Hv. pose proof (mo_size _ _ Hm) as Hsz. pose proof (mo_len _ _ Hm) as Hl.
  unfold unlinkPage. rewrite bind_assert by (apply Z.eqb_eq; by apply is_vpa_flags).
  rewrite bind_getp. set (pr := procs s p) in *.
  rewrite bind_assert by (apply Z.leb_le; lia). rewrite nfu_find_spec.
  change (MEM_ADDR <$> take _ (VPA_Memory pr)) with (resident NFU_SWAP pr).
  destruct (resident_dec NFU_SWAP pr v) as [(i&->&Hi)|[-> Hn]]; [|by apply unlink_swap_spec].
  assert (Hi2 : (i < Z.to_nat (size_mem pr))%nat).
  { apply lookup_lt_Some in Hi. rewrite length_resident in Hi by apply Hm. done. }
  rewrite bind_assert by (apply Z.ltb_lt; lia). rewrite bind_setp.
  do 2 eexists. split; [done|]. set (s' := upd_proc _ _ _).
  unfold MAX_PSYC_PAGES in *.
  set (n := Z.to_nat (size_mem pr)) in *.
  assert (Ep : procs s' p = set_memory
    (<[(n - 1)%nat := 0]> (<[i := nth (n - 1)%nat (VPA_Memory pr) 0]> (VPA_Memory pr)))
    (size_mem pr - 1) pr).
  { unfold s'. rewrite procs_upd. fold pr. unfold aset, aget. rewrite Z.add_0_l, Nat2Z.id.
    by replace (Z.to_nat (size_mem pr - 1)) with (n - 1)%nat by (unfold n; lia). }
  assert (Hperm : v :: resident NFU_SWAP (procs s' p) ≡ₚ resident NFU_SWAP pr).
  { rewrite Ep. unfold resident. cbn [size_mem set_memory VPA_Memory].
    replace (Z.to_nat (size_mem pr - 1)) with (n - 1)%nat by (unfold n; lia).
    fold n. rewrite <- (swap_remove (VPA_Memory pr) n i) by (done || unfold n; lia).
    rewrite fmap_app.
    change (MEM_ADDR <$> [nth i (VPA_Memory pr) 0]) with [MEM_ADDR (nth i (VPA_Memory pr) 0)].
    rewrite <- Permutation_cons_append.
    assert (Ev : v = MEM_ADDR (nth i (VPA_Memory pr) 0)).
    { unfold resident in Hi. rewrite list_lookup_fmap, lookup_take_lt in Hi by done.
      rewrite (lookup_total_lt 0) in Hi by lia. by injection Hi as <-. }
    by rewrite Ev. }
  split; [done| | | |].
  - intros q Hq. by apply procs_upd_ne.
  - split.
    + rewrite Ep. simpl. by rewrite !length_insert.
    + rewrite Ep. simpl. unfold MAX_PSYC_PAGES. lia.
    + pose proof (mo_nodup _ _ Hm) as Hn. rewrite <- Hperm in Hn.
      by apply NoDup_cons in Hn as [_ ?].
    + done.
  - intros _. split; [done|]. split; [done|]. split; [by rewrite Ep|done].
  - intros Hn. destruct Hn. by eapply list_elem_of_lookup_2.
Qed.

End unlink.

(** ** Ageing: nfu_Increment_Counter *)

Lemma clear_accessed e :
  is_u32 e ->
  let e' := Z.land e (Z.lnot PTE_A) in
  is_u32 e' /\ PTE_ADDR e' = PTE_ADDR e /\ has e' PTE_P = has e PTE_P /\
  has e' PTE_PG = has e PTE_PG /\ has e' PTE_A = false /\
  (has e PTE_A = false -> e' = e).
Proof.
  intros He e'. assert (He' : is_u32 e') by by apply land_u32.
  split; [done|]. split.
  { unfold PTE_ADDR. rewrite !u32_id by done. unfold e'. zbits. rewrite Z.lnot_spec by lia.
    change PTE_A with (2 ^ 5). rewrite Z.pow2_bits_eqb by lia.
    destruct (Z.eqb_spec 5 n) as [<-|]; [by rewrite !andb_false_r|by rewrite andb_true_r]. }
  change PTE_P with (2 ^ 0). change PTE_PG with (2 ^ 9). change PTE_A with (2 ^ 5) in *.
  rewrite !has_pow2 by lia. unfold e'. rewrite !Z.land_spec, !Z.lnot_spec by lia.
  rewrite !Z.pow2_bits_eqb by lia. cbn [Z.eqb Pos.eqb negb].
  rewrite !andb_true_r, andb_false_r. do 3 (split; [done|]). intros H5.
  apply Z.bits_inj'. intros n Hn. rewrite Z.land_spec, Z.lnot_spec, Z.pow2_bits_eqb by lia.
  destruct (Z.eqb_spec 5 n) as [<-|]; [by rewrite H5|by rewrite andb_true_r].
Qed.

Section touch.
Variable kend : Z.
Context (k : kmem) (pgdir : Z) (R : Z -> Prop) (v e' : Z) (l : list Z).
Local Abbreviation m := (km_mem k).

(** Changing flags of a resident entry. *)
Lemma touch_mem :
  kmem_inv kend k l -> aspace kend m pgdir l R -> R v -> is_u32 e' ->
  PTE_ADDR e' = PTE_ADDR (pte_of m pgdir v) -> has e' PTE_P = true ->
  let k' := with_mem (fun m0 => st32 m0 (pte_addr m pgdir v) e') k in
  kmem_inv kend k' l /\ aspace kend (km_mem k') pgdir l R /\
  (forall w, is_vpa w -> pte_of (km_mem k') pgdir w =
     if decide (w = v) then e' else pte_of m pgdir w) /\
  (forall w, R w -> page_data (km_mem k') pgdir w = page_data m pgdir w).
Proof.
  intros Hk Ha HRv He' Hadr HP k'.
  assert (Hv : is_vpa v) by by eapply as_vpa.
  assert (Hp : present_pde m pgdir (PDX v) = true) by (apply present_of_P; by eapply as_present).
  destruct (store_pte_inv kend k l pgdir v e' Hk (as_wf _ _ _ _ _ Ha) Hp) as (Hk'&_&_&_).
  fold k' in Hk'.
  assert (Hpte : forall w, is_vpa w -> pte_of (km_mem k') pgdir w =
     if decide (w = v) then e' else pte_of m pgdir w).
  { intros w Hw. unfold k'. simpl. rewrite (store_pte_of kend _ _ l R) by done.
    by rewrite u32_id. }
  split; [done|]. split; [|split; [done|]].
  - eapply aspace_store; [done..|]. intros _. rewrite u32_id by done. split; [done|].
    rewrite Hadr. fold (frame m pgdir v).
    destruct (as_frame _ _ _ _ _ Ha v HRv) as (?&?&?). split; [done..| |].
    + intros i Hi Hpi. by eapply as_tab.
    + intros w [Hw Hne] E. by apply (as_inj _ _ _ _ _ Ha) in E.
  - intros w Hw. destruct (decide (w = v)) as [->|Hne]; [|by eapply store_data].
    unfold page_data.
    assert (Ef : frame (km_mem k') pgdir v = frame m pgdir v).
    { unfold frame. rewrite Hpte, decide_True by done. by rewrite Hadr. }
    rewrite Ef. apply bytes_at_ext. intros i Hi. eapply store_bytes; [done..|]. intros Hx.
    destruct (as_frame _ _ _ _ _ Ha v HRv) as [[Hal _] _].
    destruct (pt_tab _ _ _ _ (as_wf _ _ _ _ _ Ha) _ (PDX_range v) Hp) as [[Hal' _] _].
    apply (as_tab _ _ _ _ _ Ha v (PDX v) HRv (PDX_range v) Hp).
    eapply same_page_apart; [done..|]. unfold same_page, PGSIZE in *. lia.
Qed.

End touch.

(** The new value of an entry of [VPA_Memory]. *)
Definition age (m : mem) (pgdir e : Z) : Z :=
  if has (pte_of m pgdir (MEM_ADDR e)) PTE_A
  then Z.lor (MEM_ADDR e) ((NFU_MEM_COUNTER e + 1) mod 2048) else e.

Lemma counter_succ e : NFU_MEM_COUNTER (u32 (NFU_MEM_COUNTER e + 1)) = (NFU_MEM_COUNTER e + 1) mod 2048.
Proof.
  pose proof (counter_range e). rewrite (u32_id (_ + 1)) by (unfold is_u32; lia).
  unfold NFU_MEM_COUNTER at 1. rewrite u32_id by (unfold is_u32; lia).
  change 0x7FF with (Z.ones 11). by rewrite Z.land_ones by lia.
Qed.

Section ageing.
Context {F : Type} `{SwapStoreLaws F}.
Variable kend : Z.
Variable p : nat.
Implicit Types s : machine F.
Local Abbreviation mm s := (km_mem (km s)).
Local Abbreviation pd s := (p_pgdir (procs s p)).
Local Abbreviation VM s := (VPA_Memory (procs s p)).

(** The pages [done] have been aged between [s] and [s']. *)
Record aged s l R (done : list Z) s' : Prop := {
  ag_space : space_ok kend p s' l R;
  ag_pte w : is_vpa w -> pte_of (mm s') (pd s) w =
    if decide (w ∈ done) then Z.land (pte_of (mm s) (pd s) w) (Z.lnot PTE_A)
    else pte_of (mm s) (pd s) w;
  ag_data w : R w -> page_data (mm s') (pd s) w = page_data (mm s) (pd s) w;
  ag_procs q : q <> p -> procs s' q = procs s q;
  ag_rest : store s' = store s /\ curproc s' = curproc s /\ cr3 s' = cr3 s;
  ag_proc : procs s' p = set_memory (VM s') (size_mem (procs s p)) (procs s p);
}.

Lemma aged_refl s l R : space_ok kend p s l R -> aged s l R [] s.
Proof.
  intros. split; try done.
  by destruct (procs s p).
Qed.

Lemma aged_trans s l R d1 s1 d2 s2 :
  aged s l R d1 s1 -> aged s1 l R d2 s2 -> (forall w, w ∈ d1 -> w ∉ d2) ->
  aged s l R (d1 ++ d2) s2.
Proof.
  intros [A1 A2 A3 A4 (A5&A6&A7) A8] [B1 B2 B3 B4 (B5&B6&B7) B8] Hd.
  assert (Epd : pd s1 = pd s) by by rewrite A8.
  rewrite Epd in *. split; [done| | | | |].
  - intros w Hw. rewrite B2, A2 by done. pose proof (Hd w).
    destruct (decide (w ∈ d1 ++ d2)) as [Hin|Hin]; rewrite elem_of_app in Hin;
      destruct (decide (w ∈ d1)), (decide (w ∈ d2)); tauto.
  - intros w Hw. by rewrite B3, A3.
  - intros q Hq. by rewrite B4, A4.
  - repeat split; congruence.
  - rewrite B8, A8. by destruct (procs s p).
Qed.

Lemma age_step s l R i e :
  space_ok kend p s l R -> VM s !! i = Some e -> R (MEM_ADDR e) ->
  exists s', aged s l R [MEM_ADDR e] s' /\ VM s' = <[i := age (mm s) (pd s) e]> (VM s) /\
    forall n, nfu_loop p (S n) (Z.of_nat i) s = nfu_loop p n (Z.of_nat (S i)) s'.
Proof.
  intros Hs Hi HR. set (v := MEM_ADDR e) in *.
  destruct (resident_pte kend p s l R v Hs HR) as (Hp&Hld&Hnz).
  assert (He : is_u32 (pte_of (mm s) (pd s) v)) by apply pte_u32, Hs.
  destruct (clear_accessed _ He) as (C1&C2&C3&C4&C5&C6).
  assert (Hge : aget (VM s) (Z.of_nat i) = e) by by apply aget_lookup.
  assert (Hrun : forall n, nfu_loop p (S n) (Z.of_nat i) s =
    ((if has (pte_of (mm s) (pd s) v) PTE_A then
       let cnt := u32 (NFU_MEM_COUNTER e + 1) in
       setp p (fun x => set_memory
         (aset (VPA_Memory x) (Z.of_nat i) (Z.lor v (NFU_MEM_COUNTER cnt))) (size_mem x) x) ;;
       pte ← lift_km (walkpgdir (pd s) v false);
       e ← lift_km (load32 pte);
       lift_km (store32 pte (Z.land e (Z.lnot PTE_A)))
     else mret tt) ;; nfu_loop p n (Z.of_nat (S i))) s).
  { intros n. cbn [nfu_loop]. rewrite bind_getp, Hge. fold v.
    rewrite bind_walk, Hp. rewrite bind_assert by (by rewrite Hnz).
    rewrite bind_load, Hld. by replace (Z.of_nat i + 1) with (Z.of_nat (S i)) by lia. }
  unfold age. fold v. destruct (has (pte_of (mm s) (pd s) v) PTE_A) eqn:HA.
  - destruct (touch_mem kend (km s) (pd s) R v (Z.land (pte_of (mm s) (pd s) v) (Z.lnot PTE_A)) l)
      as (T1&T2&T3&T4); [apply Hs|apply Hs|done|done|done| |].
    { rewrite C3. eapply as_present; [apply Hs|done]. }
    set (k' := with_mem _ (km s)) in *.
    set (s' := set_km k' (upd_proc p (fun x => set_memory
         (aset (VPA_Memory x) (Z.of_nat i) (Z.lor v (NFU_MEM_COUNTER (u32 (NFU_MEM_COUNTER e + 1)))))
         (size_mem x) x) s)).
    assert (Ep : procs s' p = set_memory (<[i := Z.lor v ((NFU_MEM_COUNTER e + 1) mod 2048)]> (VM s))
      (size_mem (procs s p)) (procs s p)).
    { unfold s'. simpl. rewrite decide_True by done. unfold aset. by rewrite Nat2Z.id, counter_succ. }
    exists s'. split; [|split; [by rewrite Ep|]].
    + split; simpl km_mem; simpl km; [| |done| |done|by rewrite Ep].
      * destruct Hs as [S1 S2 S3 S4 S5 S6 S7].
        assert (Hsw : forall w j, swapped (procs s' p) w j <-> swapped (procs s p) w j).
        { intros. by rewrite Ep. }
        split; rewrite ?Ep; simpl km_mem; simpl km; [done|done|done| | | |].
        -- intros w Hw. cbn [p_pgdir set_memory].
           rewrite T3 by (by eapply as_vpa). destruct (decide (w = v)) as [->|]; [|by apply S4].
           rewrite C4. by apply S4.
        -- intros w j Hw. destruct (S5 w j Hw) as (?&Hnp&?). cbn [p_pgdir set_memory].
           rewrite T3, decide_False; [done| |done]. intros ->.
           by rewrite (as_present _ _ _ _ _ S2 v HR) in Hnp.
        -- exact S6.
        -- exact S7.
      * intros w Hw. rewrite T3 by done.
        destruct (decide (w = v)) as [->|Hne]; [by rewrite decide_True by (left; done)|].
        by rewrite decide_False by (by rewrite list_elem_of_singleton).
      * intros q Hq. unfold s'. simpl. by rewrite decide_False.
    + intros n. rewrite Hrun. unfold mbind at 1, kern_bind at 1.
      rewrite bind_setp, bind_walk. simpl km_mem; simpl km. rewrite Hp.
      rewrite bind_load. simpl km_mem; simpl km. by rewrite Hld.
  - exists s. split; [|split; [by rewrite list_insert_id|intros n; by rewrite Hrun]].
    destruct (aged_refl s l R Hs) as [A1 A2 A3 A4 A5 A6]. split; try done.
    intros w Hw. destruct (decide (w ∈ [v])) as [Hin|]; [|done].
    apply list_elem_of_singleton in Hin as ->. by rewrite C6.
Qed.

Lemma nfu_loop_spec l R : forall n i s,
  space_ok kend p s l R -> (i + n <= length (VM s))%nat ->
  (forall j e, (i <= j < i + n)%nat -> VM s !! j = Some e -> R (MEM_ADDR e)) ->
  NoDup (MEM_ADDR <$> take n (drop i (VM s))) ->
  exists s', nfu_loop p n (Z.of_nat i) s = Ret tt s' /\
    aged s l R (MEM_ADDR <$> take n (drop i (VM s))) s' /\
    length (VM s') = length (VM s) /\
    (forall j e, VM s !! j = Some e -> VM s' !! j = Some
       (if decide (i <= j < i + n)%nat then age (mm s) (pd s) e else e)).
Proof.
  induction n as [|n IH]; intros i s Hs Hlen HR Hnd.
  { exists s. split; [done|]. split; [by apply aged_refl|]. split; [done|].
    intros j e Hj. by rewrite decide_False by lia. }
  destruct (lookup_lt_is_Some_2 (VM s) i) as [e He]; [lia|].
  rewrite (drop_S _ _ _ He) in *. cbn [take] in *. rewrite fmap_cons in *.
  apply NoDup_cons in Hnd as [Hni Hnd].
  destruct (age_step s l R i e Hs He) as (s1&Hag&HVM&Hrun); [by eapply HR; [|done]; lia|].
  rewrite Hrun.
  assert (Hdrop : drop (S i) (VM s1) = drop (S i) (VM s)).
  { rewrite HVM. by rewrite drop_insert_lt by lia. }
  destruct (IH (S i) s1) as (s'&Hr&Hag'&Hl'&HV').
  - apply Hag.
  - rewrite HVM, length_insert. lia.
  - intros j x Hj. rewrite HVM, list_lookup_insert_ne by lia. apply HR. lia.
  - by rewrite Hdrop.
  - exists s'. rewrite Hdrop in *. split; [done|]. split.
    { change (MEM_ADDR e :: ?x) with ([MEM_ADDR e] ++ x). eapply aged_trans; [done..|].
      by intros w ->%list_elem_of_singleton. }
    split; [rewrite Hl', HVM; apply length_insert|].
    intros j x Hj. destruct (decide (j = i)) as [->|Hne].
    + assert (x = e) as -> by congruence. rewrite decide_True by lia.
      rewrite (HV' i (age (mm s) (pd s) e)).
      * by rewrite decide_False by lia.
      * rewrite HVM. apply list_lookup_insert_eq. lia.
    + rewrite (HV' j x) by (by rewrite HVM, list_lookup_insert_ne).
      destruct (decide (S i <= j < S i + n)%nat) as [Hin|Hin].
      2: { by rewrite decide_False by lia. }
      rewrite decide_True by lia. f_equal. unfold age.
      assert (Epd : pd s1 = pd s) by by rewrite (ag_proc _ _ _ _ _ Hag).
      assert (Hvx : is_vpa (MEM_ADDR x)).
      { eapply as_vpa; [apply Hs|]. eapply HR; [|done]. lia. }
      rewrite Epd, (ag_pte _ _ _ _ _ Hag) by done. rewrite decide_False; [done|].
      rewrite list_elem_of_singleton. intros E. apply Hni. rewrite <- E.
      apply list_elem_of_fmap_2. apply (list_elem_of_lookup_2 _ (j - S i)).
      rewrite lookup_take_lt, lookup_drop by lia. rewrite <- Hj. f_equal. lia.
Qed.

End ageing.

Lemma age_addr m pgdir e : is_u32 e -> MEM_ADDR (age m pgdir e) = MEM_ADDR e.
Proof.
  intros He. unfold age. destruct (has _ _); [|done].
  assert (Hv : is_vpa (MEM_ADDR e)).
  { unfold MEM_ADDR. rewrite u32_id, land_not_fff by done. unfold is_vpa, is_u32 in *.
    split; Z.to_euclidean_division_equations; lia. }
  destruct Hv as [Hu Ha]. unfold MEM_ADDR at 1.
  apply (pte_make (MEM_ADDR e) ((NFU_MEM_COUNTER e + 1) mod 2048)); [done..|].
  pose proof (Z.mod_pos_bound (NFU_MEM_COUNTER e + 1) 2048). lia.
Qed.

Lemma age_counter m pgdir e :
  is_u32 e ->
  NFU_MEM_COUNTER (age m pgdir e) =
  if has (pte_of m pgdir (MEM_ADDR e)) PTE_A then (NFU_MEM_COUNTER e + 1) mod 2048
  else NFU_MEM_COUNTER e.
Proof.
  intros He. unfold age. destruct (has _ _); [|done].
  set (c := (NFU_MEM_COUNTER e + 1) mod 2048).
  assert (Hc : 0 <= c < 2048) by by apply Z.mod_pos_bound.
  assert (Hu : is_u32 (MEM_ADDR e)) by (apply land_u32, u32_range).
  assert (Hm : MEM_ADDR e mod 2 ^ 11 = 0).
  { unfold MEM_ADDR. rewrite u32_id, land_not_fff by done.
    change (2 ^ 11) with 2048. Z.to_euclidean_division_equations. lia. }
  assert (Hlor : Z.lor (MEM_ADDR e) c = MEM_ADDR e + c).
  { apply (lor_add_aligned 11); [lia|done|done]. }
  unfold NFU_MEM_COUNTER. rewrite Hlor.
  change 0x7FF with (Z.ones 11). rewrite Z.land_ones by lia. unfold u32.
  change (2 ^ 11) with 2048 in *. Z.to_euclidean_division_equations. lia.
Qed.

(** ** initSwap: the child's copy of the swap file *)

Section fork_swap.
Context {F : Type} `{SwapStoreLaws F}.
Variable kend : Z.
Variables p q : nat.
Implicit Types s : machine F.
(** The parent's metadata and swap file, the child's fixed fields, the buffer. *)
Context (P : list Z) (c : list Z) (pidp pidq : Z) (pr0 : proc) (buff : Z) (l : list Z) (m0 : mem).
Hypothesis Hpq : p <> q.
Hypothesis Hpids : pidp <> pidq.
Hypothesis Hpid0 : p_pid pr0 = pidp.
Hypothesis HlenP : length P = Z.to_nat MAX_SWAP_PAGES.
Hypothesis Hu8 : Forall is_u8 c.
Hypothesis Hocc : forall i e, P !! i = Some e -> has e SWAP_P = true ->
  ((i + 1) * Z.to_nat PGSIZE <= length c)%nat.
Hypothesis Hbuff : page_ok kend buff.
Hypothesis Hbl : buff ∉ l.

(** The first [i] slots have been scanned, [j] of them were occupied. *)
Record copying s (i j : nat) : Prop := {
  cp_kmem : kmem_inv kend (km s) l;
  cp_mem x : ~ same_page x buff -> km_mem (km s) x = m0 x;
  cp_parent : VPA_Swap (procs s q) = P /\ p_pid (procs s q) = pidq;
  cp_child : procs s p = set_swap (VPA_Swap (procs s p)) pr0;
  cp_len : length (VPA_Swap (procs s p)) = Z.to_nat MAX_SWAP_PAGES;
  cp_le : (j <= i)%nat;
  cp_src : ss_file (store s) pidq = Some c;
  cp_dst : exists cf, ss_file (store s) pidp = Some cf /\ Forall is_u8 cf /\
    length cf = (j * Z.to_nat PGSIZE)%nat /\
    (forall k, (k < j)%nat -> exists o e, (o < i)%nat /\ VPA_Swap (procs s p) !! k = Some e /\
       P !! o = Some e /\ has e SWAP_P = true /\ slot_data cf k = slot_data c o) /\
    (forall o e, (o < i)%nat -> P !! o = Some e -> has e SWAP_P = true ->
       exists k, (k < j)%nat /\ VPA_Swap (procs s p) !! k = Some e /\
         slot_data cf k = slot_data c o);
  cp_gap k e : (j <= k < i)%nat -> VPA_Swap (procs s p) !! k = Some e -> has e SWAP_P = false;
  cp_rest k : (i <= k)%nat -> VPA_Swap (procs s p) !! k = P !! k;
}.

Lemma copying_skip s i j e :
  copying s i j -> P !! i = Some e -> has e SWAP_P = false -> copying s (S i) j.
Proof.
  intros [C1 C2 C3 C4 C5 C6 C7 (cf&D1&D2&D3&D4&D5) C8 C9] He Hn.
  split; [done..|lia|done| | |].
  - exists cf. split; [done|]. split; [done|]. split; [done|]. split.
    + intros k Hk. destruct (D4 k Hk) as (o&x&?&?). exists o, x. split; [lia|done].
    + intros o x Ho Hx Hp. apply D5; [|done..].
      destruct (decide (o = i)) as [->|]; [congruence|lia].
  - intros k x Hk Hx. destruct (decide (k = i)) as [->|]; [|eapply C8; [|done]; lia].
    rewrite C9, He in Hx by lia. congruence.
  - intros k Hk. apply C9. lia.
Qed.

(** Moving entry [i] of the child down to [j]. *)
Definition moved (A : list Z) (i j : nat) (e : Z) : list Z :=
  if decide (j = i) then A else <[i := 0]> (<[j := e]> A).

Lemma moved_lookup A i j e k :
  (j <= i < length A)%nat -> A !! i = Some e ->
  moved A i j e !! k = if decide (k = j) then Some e
                       else if decide (k = i) then Some 0 else A !! k.
Proof.
  intros Hij He. unfold moved. destruct (decide (j = i)) as [->|Hne].
  - destruct (decide (k = i)) as [->|]; [done|]. done.
  - destruct (decide (k = j)) as [->|Hk].
    + rewrite list_lookup_insert_ne by lia. apply list_lookup_insert_eq. lia.
    + destruct (decide (k = i)) as [->|].
      * apply list_lookup_insert_eq. rewrite length_insert. lia.
      * by rewrite !list_lookup_insert_ne by lia.
Qed.

(** One occupied slot copied. *)
Lemma copying_copy s i j e k' f' s' cf :
  copying s i j -> P !! i = Some e -> has e SWAP_P = true ->
  ss_file (store s) pidp = Some cf ->
  kmem_inv kend k' l -> (forall x, ~ same_page x buff -> km_mem k' x = m0 x) ->
  ss_file f' pidq = Some c ->
  ss_file f' pidp = Some (splice cf (j * Z.to_nat PGSIZE) (slot_data c i)) ->
  km s' = k' -> store s' = f' -> procs s' q = procs s q ->
  procs s' p = set_swap (moved (VPA_Swap (procs s p)) i j e) pr0 ->
  copying s' (S i) (S j).
Proof.
  intros [C1 C2 C3 C4 C5 C6 C7 (cf'&D1&D2&D3&D4&D5) C8 C9] He Hp Hcf Hk' Hm' Hq' Hp' E1 E2 E3 E4.
  rewrite D1 in Hcf. injection Hcf as ->.
  assert (Hil : (i < Z.to_nat MAX_SWAP_PAGES)%nat).
  { apply lookup_lt_Some in He. by rewrite HlenP in He. }
  assert (Hci : VPA_Swap (procs s p) !! i = Some e) by by rewrite C9.
  pose proof (Hocc _ _ He Hp) as Hci2.
  assert (Hsl : length (slot_data c i) = Z.to_nat PGSIZE).
  { unfold slot_data. rewrite length_take, length_drop. lia. }
  pose proof (fun k => moved_lookup (VPA_Swap (procs s p)) i j e k ltac:(lia) Hci) as Hmv.
  assert (Hnew : slot_data (splice cf (j * Z.to_nat PGSIZE) (slot_data c i)) j = slot_data c i).
  { apply splice_slot_eq; [done|lia]. }
  assert (Hold : forall k, (k < j)%nat ->
    slot_data (splice cf (j * Z.to_nat PGSIZE) (slot_data c i)) k = slot_data cf k).
  { intros k Hk. apply splice_slot_ne; [done|lia|lia|]. rewrite D3.
    apply Nat.mul_le_mono_r. lia. }
  split; rewrite ?E1, ?E2, ?E3, ?E4; cbn [VPA_Swap set_swap]; [done..| |lia|done| | |].
  - unfold moved. destruct (decide (j = i)); by rewrite ?length_insert.
  - eexists. split; [exact Hp'|]. split; [apply Forall_splice; [done|]|].
    { unfold slot_data. by apply Forall_take, Forall_drop. }
    split; [rewrite length_splice, Hsl, D3 by lia; lia|]. split.
    + intros k Hk. destruct (decide (k = j)) as [->|Hne].
      * exists i, e. rewrite Hmv, decide_True by done. split; [lia|done].
      * destruct (D4 k) as (o&x&Ho&Hx&Hx2&Hx3&Hd); [lia|]. exists o, x.
        rewrite Hmv, !decide_False, Hold by lia. split; [lia|done].
    + intros o x Ho Hx Hpx. destruct (decide (o = i)) as [->|Hne].
      * exists j. rewrite Hmv, decide_True by done. split; [lia|]. split; [congruence|done].
      * destruct (D5 o x) as (k&Hk&Hkx&Hd); [lia|done..|]. exists k.
        rewrite Hmv, !decide_False, Hold by lia. split; [lia|done].
  - intros k x Hk. rewrite Hmv, decide_False by lia. destruct (decide (k = i)) as [->|].
    + by intros [= <-].
    + apply C8. lia.
  - intros k Hk. rewrite Hmv, !decide_False by lia. apply C9. lia.
Qed.

(** The buffer page may be written freely. *)
Lemma put_buffer k bs :
  kmem_inv kend k l -> (forall x, ~ same_page x buff -> km_mem k x = m0 x) ->
  length bs = Z.to_nat PGSIZE -> Forall is_u8 bs ->
  let k' := with_mem (fun m => put_bytes m buff bs) k in
  kmem_inv kend k' l /\ (forall x, ~ same_page x buff -> km_mem k' x = m0 x) /\
  bytes_at (km_mem k') buff (Z.to_nat PGSIZE) = bs.
Proof.
  intros Hk Hm Hlen Hbs k'.
  assert (Hput : forall x, ~ same_page x buff -> km_mem k' x = km_mem k x).
  { intros x Hx. simpl. apply put_bytes_out. rewrite Hlen. unfold same_page, PGSIZE in *. lia. }
  split; [|split].
  - eapply kmem_inv_frame; [done|by apply put_bytes_ok; [apply Hk|]|done|].
    intros r Hr. apply ld32_ext. intros x Hx. apply Hput. intros Hxq.
    assert (Hro : page_ok kend r).
    { pose proof (freelist_pages _ _ _ _ (inv_list _ _ _ Hk)) as HF.
      rewrite Forall_forall in HF. auto. }
    apply Hbl. replace buff with r; [done|].
    eapply (same_page_apart x); [apply Hro|apply Hbuff|unfold same_page, PGSIZE; lia|done].
  - intros x Hx. by rewrite Hput, Hm.
  - rewrite <- Hlen. apply bytes_at_put.
Qed.

Lemma copying_step s i j e n :
  copying s i j -> P !! i = Some e -> has e SWAP_P = true ->
  exists s', copying s' (S i) (S j) /\
    (forall r, r <> p -> procs s' r = procs s r) /\
    (forall r, r <> pidp -> ss_file (store s') r = ss_file (store s) r) /\
    curproc s' = curproc s /\ cr3 s' = cr3 s /\
    initSwap_loop p q buff (S n) (Z.of_nat i) (Z.of_nat j) s =
    initSwap_loop p q buff n (Z.of_nat (S i)) (Z.of_nat (S j)) s'.
Proof.
  intros Hc He Hp. pose proof Hc as Hc0.
  destruct Hc as [C1 C2 [C3 C3'] C4 C5 C6 C7 (cf&D1&D2&D3&_) _ C9].
  assert (Hil : (i < Z.to_nat MAX_SWAP_PAGES)%nat).
  { apply lookup_lt_Some in He. by rewrite HlenP in He. }
  pose proof (Hocc _ _ He Hp) as Hci.
  assert (Hsl : length (slot_data c i) = Z.to_nat PGSIZE).
  { unfold slot_data. rewrite length_take, length_drop. lia. }
  assert (Hae : aget (VPA_Swap (procs s p)) (Z.of_nat i) = e).
  { apply aget_lookup. by rewrite C9. }
  assert (Epid : p_pid (procs s p) = pidp) by by rewrite C4.
  destruct (ss_read (store s) pidq c (Z.of_nat i * PGSIZE) PGSIZE C7) as (f1&Hr&Hf1);
    [unfold PGSIZE in *; lia..|].
  replace (take _ (drop _ c)) with (slot_data c i) in Hr.
  2: { unfold slot_data. do 2 f_equal. unfold PGSIZE. lia. }
  destruct (put_buffer (km s) (slot_data c i) C1 C2 Hsl) as (Hk'&Hm'&Hb').
  { unfold slot_data. by apply Forall_take, Forall_drop. }
  set (k' := with_mem _ (km s)) in *.
  destruct (ss_write f1 pidp cf (slot_data c i) (Z.of_nat j * PGSIZE)) as (f2&Hw&Hf2&Hf2').
  { by rewrite Hf1. }
  { rewrite D3. unfold PGSIZE. lia. }
  { rewrite Hsl. unfold PGSIZE, MAXFILE_BYTES, MAX_SWAP_PAGES, MAX_TOTAL_PAGES,
      MAX_PSYC_PAGES in *. lia. }
  replace (Z.to_nat (Z.of_nat j * PGSIZE)) with (j * Z.to_nat PGSIZE)%nat in Hf2
    by (unfold PGSIZE; lia).
  set (s2 := set_km k' (set_store f1 s)).
  set (s3 := if negb (Z.of_nat j =? Z.of_nat i) then
     upd_proc p (fun x => set_swap (aset (aset (VPA_Swap x) (Z.of_nat j)
       (aget (VPA_Swap x) (Z.of_nat i))) (Z.of_nat i) 0) x) s2 else s2).
  assert (Hs3 : km s3 = k' /\ store s3 = f1 /\ curproc s3 = curproc s /\ cr3 s3 = cr3 s).
  { unfold s3. by destruct (negb _). }
  destruct Hs3 as (K1&K2&K3&K4).
  assert (Hq3 : forall r, r <> p -> procs s3 r = procs s r).
  { intros r Hr'. unfold s3. destruct (negb _); [|done]. simpl. by rewrite decide_False. }
  assert (Hp3 : procs s3 p = set_swap (moved (VPA_Swap (procs s p)) i j e) pr0).
  { unfold s3, moved. destruct (Z.eqb_spec (Z.of_nat j) (Z.of_nat i)); cbn [negb].
    - rewrite decide_True by lia. exact C4.
    - rewrite procs_upd, decide_False by lia. change (procs s2 p) with (procs s p).
      rewrite Hae. unfold aset. rewrite !Nat2Z.id. by rewrite C4. }
  exists (set_store f2 s3). split; [|split; [done|split; [|split; [done|split; [done|]]]]].
  - eapply copying_copy; [exact Hc0|done|done|exact D1|exact Hk'|exact Hm'| |exact Hf2|exact K1|done| |exact Hp3].
    + rewrite Hf2' by done. by rewrite Hf1.
    + by apply Hq3.
  - intros r Hr'. simpl. rewrite Hf2' by done. apply Hf1.
  - cbn [initSwap_loop]. rewrite bind_getp, Hae, Hp. cbn [negb]. rewrite bind_getp, C3', Epid.
    erewrite bind_store by exact Hr. cbn [fst snd]. rewrite (proj2 (Z.ltb_ge PGSIZE 0)) by done.
    erewrite bind_km by reflexivity. fold k'. change (set_km k' (set_store f1 s)) with s2.
    replace (Z.of_nat i + 1) with (Z.of_nat (S i)) by lia.
    replace (Z.of_nat j + 1) with (Z.of_nat (S j)) by lia.
    rewrite (bind_Ret _ _ s2 tt s3) by (unfold s3; by destruct (negb _)).
    rewrite bind_gets, K1, Hb'. erewrite bind_store by (rewrite K2; exact Hw).
    rewrite Hsl. by rewrite (proj2 (Z.ltb_ge _ 0)) by lia.
Qed.

Lemma copying_loop n : forall s i j,
  copying s i j -> (i + n = Z.to_nat MAX_SWAP_PAGES)%nat ->
  exists s' j', copying s' (Z.to_nat MAX_SWAP_PAGES) j' /\
    (forall r, r <> p -> procs s' r = procs s r) /\
    (forall r, r <> pidp -> ss_file (store s') r = ss_file (store s) r) /\
    curproc s' = curproc s /\ cr3 s' = cr3 s /\
    initSwap_loop p q buff n (Z.of_nat i) (Z.of_nat j) s = Ret 0 s'.
Proof.
  induction n as [|n IH]; intros s i j Hc Hi.
  { exists s, j. rewrite Nat.add_0_r in Hi. by subst. }
  destruct (lookup_lt_is_Some_2 P i) as [e He]; [lia|].
  destruct (has e SWAP_P) eqn:Hp.
  - destruct (copying_step s i j e n Hc He Hp) as (s1&Hc1&G1&G2&G3&G4&->).
    destruct (IH s1 (S i) (S j) Hc1) as (s'&j'&Hc'&K1&K2&K3&K4&->); [lia|].
    exists s', j'. split; [done|]. split; [intros r Hr; by rewrite K1, G1|].
    split; [intros r Hr; by rewrite K2, G2|]. split; [congruence|]. split; [congruence|done].
  - destruct (IH s (S i) j) as (s'&j'&Hc'&K1&K2&K3&K4&HK); [by eapply copying_skip|lia|].
    exists s', j'. do 5 (split; [done|]). rewrite <- HK.
    cbn [initSwap_loop]. rewrite bind_getp.
    rewrite (aget_lookup _ _ e) by (rewrite (cp_rest _ _ _ Hc); done). rewrite Hp.
    by replace (Z.of_nat i + 1) with (Z.of_nat (S i)) by lia.
Qed.

End fork_swap.

(** ** Theorems *)

(** Exactly the resident pages of [p] are mapped, and the paging invariant
    holds. *)
Definition resident_ok {F} `{SwapStoreLaws F} kend pol p (s : machine F) l : Prop :=
  space_ok kend p s l (fun w => w ∈ resident pol (procs s p)).

(** The processes [pa] and [pr] have swapped out the same pages, with the same
    bytes in their swap files [c] and [cf]. *)
Definition same_swap (pa : proc) (c : list Z) (pr : proc) (cf : list Z) : Prop :=
  forall v bs, (exists k, swapped pr v k /\ bs = slot_data cf k) <->
               (exists i, swapped pa v i /\ bs = slot_data c i).

(** C3: A fault on a swapped-out page is repaired transparently.  With a free
    frame available, [recoverPageFault] returns 0 and the faulting page is
    resident afterwards; every page of the process, in memory or in the swap
    file, has the same bytes and the same flags as before; the paging invariant
    holds again, under either policy; no other process, no other swap file and
    no memory outside the process and the free list is touched. *)
Theorem recoverPageFault_transparent {F} `{SwapStoreLaws F} kend pol p (s : machine F) l va i :
  resident_ok kend pol p s l ->
  meta_ok pol (procs s p) -> curproc s = p -> cr3 s = V2P (p_pgdir (procs s p)) ->
  is_u32 va -> swapped (procs s p) (PGROUNDDOWN va) i -> l <> [] ->
  exists s' l', recoverPageFault kend pol va s = Ret 0 s' /\
    resident_ok kend pol p s' l' /\
    meta_ok pol (procs s' p) /\
    PGROUNDDOWN va ∈ resident pol (procs s' p) /\
    paged p s l (fun w => w ∈ resident pol (procs s p))
          s' l' (fun w => w ∈ resident pol (procs s' p)).
Proof.
  intros Hs Hm Hcur Hcr3 Hva Hi Hl. destruct l as [|q l0]; [done|].
  destruct (recover_spec kend p pol s q l0 va i Hs Hva Hi Hm Hcur Hcr3)
    as (s'&l'&Hrun&Hs'&Hm'&Hpg&Hres).
  exists s', l'. do 3 (split; [done|]). split; [|done].
  rewrite Hres. apply link_elem; [done| |by left].
  exact (not_resident kend p s l0 _ _ q i Hs Hi).
Qed.

(** Linking a freshly mapped page.  With a frame to spare the page joins the
    resident pages; with all [MAX_PSYC_PAGES] in use and a free slot, exactly one
    page is evicted to the swap file and its frame freed: under FIFO the one
    linked longest ago, under NFU one with the lowest counter.  No page of the
    process loses its bytes or flags, and the invariant is kept. *)
Theorem linkNewPage_links {F} `{SwapStoreLaws F} kend pol p (s : machine F) l v :
  let pr := procs s p in
  let R := fun w => w = v \/ w ∈ resident pol pr in
  space_ok kend p s l R -> meta_ok pol pr -> curproc s = p -> cr3 s = V2P (p_pgdir pr) ->
  (v ∉ resident pol pr) ->
  (size_mem pr < MAX_PSYC_PAGES \/ exists i, first_free pr i) ->
  exists s' l', linkNewPage kend pol p v s = Ret 0 s' /\
    let res' := resident pol (procs s' p) in
    resident_ok kend pol p s' l' /\ meta_ok pol (procs s' p) /\
    paged p s l R s' l' (fun w => w ∈ res') /\
    (size_mem pr < MAX_PSYC_PAGES -> res' = resident pol pr ++ [v] /\ l' = l) /\
    (size_mem pr = MAX_PSYC_PAGES ->
       exists x, l' = frame (km_mem (km s)) (p_pgdir pr) x :: l /\
       match pol with
       | FIFO_SWAP => exists rest, resident pol pr = x :: rest /\ res' = rest ++ [v]
       | NFU_SWAP => exists n e, VPA_Memory pr !! n = Some e /\ MEM_ADDR e = x /\
           (forall j e', VPA_Memory pr !! j = Some e' ->
              NFU_MEM_COUNTER e <= NFU_MEM_COUNTER e') /\
           res' = <[n := v]> (resident pol pr)
       end).
Proof.
  intros pr R Hs Hm Hcur Hcr3 Hnew Hroom. pose proof (mo_size _ _ Hm) as Hsz.
  destruct (decide (size_mem pr = MAX_PSYC_PAGES)) as [Hf|Hf].
  - destruct Hroom as [?|[i Hi]]; [lia|].
    destruct (linkNewPage_full kend p pol s l v Hs Hm Hcur Hcr3 Hnew i Hf Hi)
      as (s'&Hrun&[L1 L2 L3 L4 _]).
    exists s'. eexists. do 4 (split; [done|]). split; [lia|]. intros _.
    eexists. split; [done|]. rewrite L4. unfold link_resident. fold pr. rewrite Hf, Z.eqb_refl.
    pose proof (victim_lookup _ _ Hm Hf) as Hx. destruct pol.
    + destruct (resident FIFO_SWAP pr) as [|y r] eqn:Er; [done|]. injection Hx as ->.
      exists r. cbn [drop]. by rewrite drop_0.
    + destruct (nfu_victim_spec (VPA_Memory pr)) as (n&e&Hn&He&Hmin).
      { intros E. pose proof (mo_len _ _ Hm) as Hl. by rewrite E in Hl. }
      exists n, e. split; [done|]. unfold victim_page, victim. rewrite Hn.
      rewrite (aget_lookup _ _ _ He), Nat2Z.id. split; [done|]. split; [|done].
      intros j e' Hj. by apply (Hmin j e').
  - destruct (linkNewPage_room kend p pol s l v Hs Hm Hnew Hf) as (s'&Hrun&[L1 L2 L3 L4 _]).
    exists s', l. do 4 (split; [done|]). split; [|done]. intros _. split; [|done].
    rewrite L4. unfold link_resident. fold pr. by rewrite (proj2 (Z.eqb_neq _ _) Hf).
Qed.

(** With every frame and every slot of the swap file in use, [linkNewPage]
    refuses the page with -1 and changes nothing. *)
Theorem linkNewPage_refuses {F} `{SwapStoreLaws F} kend pol p (s : machine F) l v :
  space_ok kend p s l (fun w => w = v \/ w ∈ resident pol (procs s p)) ->
  meta_ok pol (procs s p) -> size_mem (procs s p) = MAX_PSYC_PAGES ->
  Forall (fun e => has e SWAP_P = true) (VPA_Swap (procs s p)) ->
  linkNewPage kend pol p v s = Ret (-1) s.
Proof.
  intros Hs Hm Hf Hall. eapply linkNewPage_refused; [exact Hs|exact Hm|exact Hf|].
  intros i [(e&He&Hn) _]. rewrite Forall_lookup in Hall. apply Hall in He. congruence.
Qed.

(** [unlinkPage] forgets exactly the given page: if it is resident, it leaves
    the resident pages (and the FIFO order of the others stays); otherwise its
    slot is released; if it is neither, -1 is returned and nothing changes. *)
Theorem unlinkPage_removes {F} `{SwapStore F} pol p v (s : machine F) :
  meta_ok pol (procs s p) -> is_vpa v ->
  exists r s', unlinkPage pol p v s = Ret r s' /\ unlinked p pol v s r s'.
Proof. destruct pol; [apply unlink_fifo_run|apply unlink_nfu_run]. Qed.

(** The timer's [nfu_Increment_Counter] adds one, modulo 2^11, to the counter
    of exactly the resident pages whose accessed bit is set, clears those bits,
    and changes neither the resident pages nor their contents. *)
Theorem nfu_ageing {F} `{SwapStoreLaws F} kend p (s : machine F) l :
  let pr := procs s p in
  let pte := fun s e => pte_of (km_mem (km s)) (p_pgdir pr) (MEM_ADDR e) in
  resident_ok kend NFU_SWAP p s l -> meta_ok NFU_SWAP pr ->
  Forall is_u32 (VPA_Memory pr) ->
  exists s', nfu_Increment_Counter (Some p) s = Ret tt s' /\
    resident_ok kend NFU_SWAP p s' l /\
    resident NFU_SWAP (procs s' p) = resident NFU_SWAP pr /\
    (forall w, w ∈ resident NFU_SWAP pr ->
       page_data (km_mem (km s')) (p_pgdir pr) w = page_data (km_mem (km s)) (p_pgdir pr) w) /\
    (forall i e, Z.of_nat i < size_mem pr -> VPA_Memory pr !! i = Some e ->
       exists e', VPA_Memory (procs s' p) !! i = Some e' /\ MEM_ADDR e' = MEM_ADDR e /\
         NFU_MEM_COUNTER e' = (if has (pte s e) PTE_A then (NFU_MEM_COUNTER e + 1) mod 2048
                               else NFU_MEM_COUNTER e) /\
         has (pte s' e) PTE_A = false).
Proof.
  intros pr pte Hs Hm Hw. pose proof (mo_size _ _ Hm) as Hsz. pose proof (mo_len _ _ Hm) as Hl.
  assert (Hres : resident NFU_SWAP pr = MEM_ADDR <$> take (Z.to_nat (size_mem pr)) (drop 0 (VPA_Memory pr)))
    by by rewrite drop_0.
  destruct (nfu_loop_spec kend p l (fun w => w ∈ resident NFU_SWAP pr)
    (Z.to_nat (size_mem pr)) 0 s Hs) as (s'&Hrun&Hag&Hlen&HV).
  { fold pr. unfold MAX_PSYC_PAGES in *. lia. }
  { intros j e Hj He. rewrite Hres, drop_0. apply list_elem_of_fmap_2.
    apply (list_elem_of_lookup_2 _ j). by rewrite lookup_take_lt by lia. }
  { fold pr. rewrite <- Hres. apply Hm. }
  assert (Hat : forall i e, Z.of_nat i < size_mem pr -> VPA_Memory pr !! i = Some e ->
    VPA_Memory (procs s' p) !! i = Some (age (km_mem (km s)) (p_pgdir pr) e)).
  { intros i e Hi He. rewrite (HV i e He). by rewrite decide_True by lia. }
  assert (Hres' : resident NFU_SWAP (procs s' p) = resident NFU_SWAP pr).
  { unfold resident. rewrite (ag_proc _ _ _ _ _ _ _ Hag) at 1. cbn [size_mem set_memory].
    fold pr. apply list_eq. intros i. rewrite !list_lookup_fmap.
    destruct (decide (i < Z.to_nat (size_mem pr))%nat) as [Hi|Hi];
      [|by rewrite !lookup_take_ge by lia].
    rewrite !lookup_take_lt by done.
    destruct (lookup_lt_is_Some_2 (VPA_Memory pr) i) as [e He];
      [unfold MAX_PSYC_PAGES in *; lia|].
    rewrite He, (Hat i e) by (done || lia). simpl. f_equal. apply age_addr.
    rewrite Forall_lookup in Hw. by eapply Hw. }
  exists s'. split; [exact Hrun|]. unfold resident_ok; rewrite Hres'. split; [apply Hag|]. split; [done|].
  split; [apply Hag|]. intros i e Hi He. rewrite Forall_lookup in Hw.
  eexists. split; [by apply Hat|]. split; [by apply age_addr; eapply Hw|].
  split; [by apply age_counter; eapply Hw|]. unfold pte.
  assert (Hin : MEM_ADDR e ∈ resident NFU_SWAP pr).
  { rewrite Hres, drop_0. apply list_elem_of_fmap_2. apply (list_elem_of_lookup_2 _ i).
    by rewrite lookup_take_lt by lia. }
  rewrite (ag_pte _ _ _ _ _ _ _ Hag) by (eapply as_vpa; [apply Hs|done]).
  fold pr. rewrite <- Hres, decide_True by done.
  apply clear_accessed, pte_u32, Hs.
Qed.

(** The child's metadata before the swap file is copied. *)
Definition child_meta (pol : policy) (pa pr : proc) : proc :=
  let pr := set_memory (VPA_Memory pa) (size_mem pa) (set_swap (VPA_Swap pa) pr) in
  match pol with
  | FIFO_SWAP => set_queue (q_head pa) (q_tail pa) pr
  | NFU_SWAP => pr
  end.

(** [initSwap] up to its loop. *)
Lemma initSwap_start {F} `{SwapStore F} kend pol p q (s : machine F) buff f1 k1 :
  p_parent (procs s p) = Some q -> kalloc (km s) = Ret buff k1 ->
  createSwapFile (p_pid (procs s p)) (store s) = Ret 0 f1 -> buff <> 0 ->
  exists s0, procs s0 p = child_meta pol (procs s q) (procs s p) /\
    (forall r, r <> p -> procs s0 r = procs s r) /\ km s0 = k1 /\ store s0 = f1 /\
    initSwap kend pol p s =
      (initSwap_loop p q buff (Z.to_nat MAX_SWAP_PAGES) 0 0 ≫= fun r =>
       if r <? 0 then mret r else lift_km (kfree kend buff) ;; mret 0) s0.
Proof.
  intros Hpar Hal Hcr Hb. apply Z.eqb_neq in Hb.
  unfold initSwap. rewrite bind_getp, Hpar, bind_getp, !bind_setp.
  destruct pol; rewrite ?bind_setp, ?bind_mret;
    erewrite bind_store by exact Hcr; cbn [Z.ltb Z.compare];
    erewrite bind_km by exact Hal; rewrite Hb;
    match goal with |- exists s0, _ /\ _ /\ _ /\ _ /\ (_ ≫= _) ?x = _ => exists x end;
    unfold set_km, set_store; cbn [procs km store]; rewrite !procs_upd;
    split_and!; try done; intros r Hr; by rewrite !procs_upd_ne.
Qed.

(** On [fork], [initSwap] gives the child the parent's resident-page metadata
    and a swap file of its own that holds exactly the parent's swapped-out pages,
    packed from slot 0 without gaps; the parent, its swap file and all memory but
    a borrowed buffer page, which is given back, are unchanged. *)
Theorem initSwap_copies {F} `{SwapStoreLaws F} kend pol p q (s : machine F) buff l c :
  let pa := procs s q in
  let pidp := p_pid (procs s p) in
  p_parent (procs s p) = Some q -> p <> q -> pidp <> p_pid pa ->
  kmem_inv kend (km s) (buff :: l) ->
  length (VPA_Swap pa) = Z.to_nat MAX_SWAP_PAGES ->
  ss_file (store s) (p_pid pa) = Some c -> Forall is_u8 c ->
  (forall v i, swapped pa v i -> ((i + 1) * Z.to_nat PGSIZE <= length c)%nat) ->
  ss_file (store s) pidp = None ->
  exists s' j cf, initSwap kend pol p s = Ret 0 s' /\
    kmem_inv kend (km s') (buff :: l) /\
    (forall x, ~ same_page x buff -> km_mem (km s') x = km_mem (km s) x) /\
    (forall r, r <> p -> procs s' r = procs s r) /\
    (forall r, r <> pidp -> ss_file (store s') r = ss_file (store s) r) /\
    resident pol (procs s' p) = resident pol pa /\
    ss_file (store s') pidp = Some cf /\ length cf = (j * Z.to_nat PGSIZE)%nat /\
    (forall k, (exists v, swapped (procs s' p) v k) <-> (k < j)%nat) /\
    same_swap pa c (procs s' p) cf.
Proof.
  intros pa pidp Hpar Hpq Hpids Hk HlenP Hc Hu8 Hocc Hnone.
  destruct (kalloc_inv kend (km s) buff l Hk) as (k1&Hal&Hk1&Hb&Hbl&Em&_).
  destruct (ss_create (store s) pidp) as (f1&Hcr&Hf1&Hf1'). rewrite Hnone in Hf1. cbn [default] in Hf1.
  destruct (initSwap_start kend pol p q s buff f1 k1 Hpar Hal Hcr)
    as (s0&Hp0&Hr0&Hkm0&Hst0&->); [by eapply page_ok_nonzero|].
  fold pa in Hp0. set (pr0 := child_meta pol pa (procs s p)) in *.
  destruct (copying_loop kend p q (VPA_Swap pa) c pidp (p_pid pa) pr0 buff l (km_mem (km s))
    Hpq Hpids) with (n := Z.to_nat MAX_SWAP_PAGES) (s := s0) (i := 0%nat) (j := 0%nat)
    as (s1&j&Hcp&K1&K2&K3&K4&Hrun); try done.
  - by destruct pol.
  - intros i e He Hp. by apply (Hocc (SWAP_ADDR e)); exists e.
  - split; rewrite ?Hkm0, ?Hst0, ?Hp0; try done.
    + intros x _. by rewrite Em.
    + by rewrite Hr0 by congruence.
    + by destruct pol.
    + by destruct pol.
    + rewrite Hf1' by congruence. done.
    + exists []. split; [done|]. split; [constructor|]. split; [done|]. split; lia.
    + lia.
    + intros k _. by destruct pol.
  - change (Z.of_nat 0) with 0 in Hrun. rewrite (bind_Ret _ _ _ _ _ Hrun).
    cbn [Z.ltb Z.compare].
    destruct Hcp as [C1 C2 _ C4 C5 _ C7 (cf&D1&D2&D3&D4&D5) C8 _].
    destruct (kfree_inv kend (km s1) l buff C1 Hb Hbl) as (k2&Hf2&Hk2&_&_&Hm2).
    erewrite bind_km by exact Hf2.
    exists (set_km k2 s1), j, cf. split; [done|]. split; [done|].
    split; [intros x Hx; simpl; by rewrite Hm2, C2|].
    split; [intros r Hr; simpl; by rewrite K1, Hr0|].
    split; [intros r Hr; simpl; by rewrite K2, Hst0, Hf1'|].
    split; [simpl; rewrite C4; by destruct pol|]. do 2 (split; [done|]).
    simpl procs. split.
    + intros k. split.
      * intros (v&e&He&Hp&_). destruct (decide (k < j)%nat); [done|].
        rewrite (C8 k e) in Hp; [done| |done]. apply lookup_lt_Some in He.
        rewrite C5 in He. lia.
      * intros Hkj. destruct (D4 k Hkj) as (o&e&_&He&_&Hp&_). exists (SWAP_ADDR e), e. done.
    + intros v bs. split.
      * intros (k&(e&He&Hp&Ha)&->). destruct (decide (k < j)%nat) as [Hkj|Hkj].
        -- destruct (D4 k Hkj) as (o&e'&_&He'&Ho&_&Hd). exists o. split; [|done].
           exists e. by assert (e' = e) as -> by congruence.
        -- rewrite (C8 k e) in Hp; [done| |done]. apply lookup_lt_Some in He.
           rewrite C5 in He. lia.
      * intros (i&(e&He&Hp&Ha)&->). destruct (D5 i e) as (k&Hkj&Hke&Hd); [|done..|].
        { apply lookup_lt_Some in He. by rewrite HlenP in He. }
        exists k. split; [by exists e|done].
Qed.

(** Apply a function to the state of an outcome. *)
Definition map_state {S T A} (g : S -> T) (o : outcome S A) : outcome T A :=
  match o with
  | Ret a s => Ret a (g s)
  | Panic msg => Panic msg
  | Sleep c s => Sleep c (g s)
  | Fuel => Fuel
  end.

(** An operation that neither reads nor writes the swap files. *)
Definition no_store {F A} (m : kern (machine F) A) : Prop :=
  forall f s, m (set_store f s) = map_state (set_store f) (m s).

Lemma no_store_ret {F A} (a : A) : no_store (F := F) (mret a).
Proof. done. Qed.

Lemma no_store_bind {F A B} (m : kern (machine F) A) (k : A -> kern (machine F) B) :
  no_store m -> (forall a, no_store (k a)) -> no_store (m ≫= k).
Proof.
  intros Hm Hk f s. unfold mbind, kern_bind. rewrite Hm. destruct (m s); try done. apply Hk.
Qed.

Lemma no_store_km {F A} (m : kern kmem A) : no_store (F := F) (lift_km m).
Proof. intros f s. unfold lift_km, zoom. simpl. by destruct (m (km s)). Qed.

Lemma no_store_getp {F} p : no_store (F := F) (getp p).
Proof. done. Qed.

Lemma no_store_cr3 {F} : no_store (F := F) (gets cr3).
Proof. done. Qed.

Lemma no_store_lcr3 {F} v : no_store (F := F) (lcr3 v).
Proof. done. Qed.

Lemma no_store_assert {F} b msg : no_store (F := F) (assert_panic b msg).
Proof. by destruct b. Qed.

Create HintDb nostore.
#[local] Hint Resolve no_store_ret no_store_bind no_store_km no_store_getp no_store_cr3
  no_store_lcr3 no_store_assert : nostore.

Lemma restoreSwap_no_store {F} p n : forall i, no_store (F := F) (restoreSwap_loop p n i).
Proof.
  induction n as [|n IH]; intros i; cbn [restoreSwap_loop]; [by auto with nostore|].
  repeat (apply no_store_bind; [by auto with nostore|intros ?]
          || destruct (negb (has _ _)) || destruct (_ =? 0) || apply IH || by auto with nostore).
Qed.

(** [restoreSwap], which [exec] calls so that the pages of the old image are
    in memory again, never looks at the swap file: for whatever contents of the
    swap files it computes the same memory, so the frames it maps do not hold the
    pages that were swapped out. *)
Theorem restoreSwap_ignores_swap_file {F} p (s : machine F) f :
  restoreSwap p (set_store f s) = map_state (set_store f) (restoreSwap p s).
Proof.
  apply restoreSwap_no_store.
Qed.

(** ** Witnesses *)

(** A page directory with one table, whose entries are [f 0], [f 1], .... *)
Definition wit_tab (f : Z -> Z) : mem := fun x =>
  if (0x80301000 <=? x) && (x <? 0x80302000)
  then (f ((x - 0x80301000) / 4) / 256 ^ ((x - 0x80301000) mod 4)) mod 256
  else st32 (fun _ => 0) 0x80300000 0x301007 x.

Definition wit_pd : Z := 0x80300000.

Lemma wit_tab_ok f : mem_ok (wit_tab f).
Proof.
  intros x. unfold wit_tab. destruct (_ && _); [by apply Z.mod_pos_bound|].
  apply st32_ok. intros ?. unfold is_u8. lia.
Qed.

Lemma wit_tab_out f a :
  a + 4 <= 0x80301000 \/ 0x80302000 <= a ->
  ld32 (wit_tab f) a = ld32 (st32 (fun _ => 0) 0x80300000 0x301007) a.
Proof.
  intros Ha. apply ld32_ext. intros x Hx. unfold wit_tab.
  destruct (Z.leb_spec 0x80301000 x), (Z.ltb_spec x 0x80302000); try done. lia.
Qed.

Lemma wit_tab_entry f j : 0 <= j < 1024 -> ld32 (wit_tab f) (0x80301000 + 4 * j) = u32 (f j).
Proof.
  intros Hj.
  assert (E : forall k, 0 <= k < 4 ->
    wit_tab f (0x80301000 + 4 * j + k) = (f j / 256 ^ k) mod 256).
  { intros k Hk. unfold wit_tab. rewrite (proj2 (Z.leb_le _ _)), (proj2 (Z.ltb_lt _ _)) by lia.
    cbn [andb]. replace (0x80301000 + 4 * j + k - 0x80301000) with (k + j * 4) by lia.
    by rewrite Z.div_add, Z.mod_add, (Z.div_small k), (Z.mod_small k) by lia. }
  unfold ld32. rewrite <- (Z.add_0_r (0x80301000 + 4 * j)) at 1. rewrite !E by lia.
  rewrite Z.div_1_r. apply byte_split.
Qed.

Lemma wit_pde f i :
  0 <= i < 1024 -> present_pde (wit_tab f) wit_pd i = true -> i = 0.
Proof.
  intros Hi. unfold present_pde, wit_pd. rewrite wit_tab_out by lia.
  destruct (decide (i = 0)); [done|]. by rewrite ld32_st32_ne by lia.
Qed.

Lemma wit_table f : table_of (wit_tab f) wit_pd 0 = 0x80301000.
Proof. unfold table_of, wit_pd. by rewrite wit_tab_out by lia. Qed.

Lemma wit_pte f j : 0 <= j < 1024 -> pte_of (wit_tab f) wit_pd (4096 * j) = u32 (f j).
Proof.
  intros Hj. unfold pte_of, pte_addr. rewrite PDX_spec, PTX_spec.
  replace (4096 * j / 4194304) with 0 by (Z.to_euclidean_division_equations; lia).
  replace (4096 * j / 4096) with j by (Z.to_euclidean_division_equations; lia).
  rewrite Z.mod_0_l, (Z.mod_small j) by lia. rewrite wit_table.
  unfold present_pde, wit_pd. rewrite wit_tab_out by lia.
  change (has _ _) with true. by apply wit_tab_entry.
Qed.

(** The free page, if any. *)
Definition wit_free (b : bool) : list Z := if b then [0x80200000] else [].

Definition wit_kmem (f : Z -> Z) (b : bool) : kmem :=
  Kmem (wit_tab f) true (if b then 0x80200000 else 0) (b2z b).

Lemma wit_page a :
  a mod 4096 = 0 -> 0x80108000 <= a < 0x80000000 + 0xE000000 -> page_ok wit_end a.
Proof. unfold page_ok, wit_end, KERNBASE, PHYSTOP, PGSIZE. lia. Qed.

Lemma wit_kmem_inv f b : kmem_inv wit_end (wit_kmem f b) (wit_free b).
Proof.
  split.
  - apply wit_tab_ok.
  - destruct b; [|constructor]. simpl. constructor; [by apply wit_page|].
    rewrite wit_tab_out by lia. constructor.
  - destruct b; repeat constructor. set_solver.
Qed.

Lemma wit_pt_wf' f b : pt_wf wit_end (wit_tab f) wit_pd (wit_free b).
Proof.
  split.
  - by apply wit_page.
  - destruct b; unfold wit_pd; set_solver.
  - intros i Hi Hp. apply wit_pde in Hp as ->; [|done]. rewrite wit_table.
    split; [by apply wit_page|]. split; [done|]. destruct b; set_solver.
  - intros i j Hi Hj Hp Hp'. apply wit_pde in Hp, Hp'; congruence.
Qed.

(** A resident page [4096 * j] with frame [0x80400000 + 4096 * j]. *)
Definition wit_res (f : Z -> Z) (v : Z) : Prop :=
  exists j fl, 1 <= j <= 16 /\ v = 4096 * j /\ f j = Z.lor (0x400000 + 4096 * j) fl /\
    0 <= fl < 0x200 /\ Z.odd fl = true.

Lemma wit_res_entry f v :
  wit_res f v -> exists j, 1 <= j <= 16 /\ v = 4096 * j /\
    let e := pte_of (wit_tab f) wit_pd v in
    has e PTE_P = true /\ has e PTE_PG = false /\
    frame (wit_tab f) wit_pd v = 0x80400000 + 4096 * j.
Proof.
  intros (j&fl&Hj&->&Hf&Hfl&Hodd). exists j. do 2 (split; [done|]).
  set (a := 0x400000 + 4096 * j) in *.
  assert (Ha : a mod PGSIZE = 0) by (unfold a, PGSIZE; Z.to_euclidean_division_equations; lia).
  assert (Hau : is_u32 a) by (unfold a, is_u32; lia).
  destruct (pte_make a fl Hau Ha) as (E1&E2&E3); [lia|].
  unfold frame. rewrite wit_pte, Hf, (u32_id (Z.lor a fl)) by (done || lia).
  assert (Hbit : forall n, 0 <= n < 12 -> Z.testbit (Z.lor a fl) n = Z.testbit fl n).
  { intros n Hn. rewrite Z.lor_spec. by rewrite (mod_aligned_testbit a 12 n) by (done || lia). }
  cbv zeta. change PTE_P with (2 ^ 0). change PTE_PG with (2 ^ 9).
  rewrite !has_pow2, !Hbit by lia. split; [by rewrite Z.bit0_odd|].
  split; [apply (small_testbit fl 9); [lia|change (2 ^ 9) with 0x200; lia|lia]|].
  rewrite E2. unfold P2V, KERNBASE, a. rewrite u32_id by (unfold is_u32; lia). lia.
Qed.

Lemma wit_aspace f b R :
  (forall v, R v -> wit_res f v) -> aspace wit_end (wit_tab f) wit_pd (wit_free b) R.
Proof.
  intros HR. split; [apply wit_pt_wf'|..].
  - intros v Hv. destruct (HR v Hv) as (j&fl&Hj&->&_).
    unfold is_vpa, is_u32. Z.to_euclidean_division_equations. lia.
  - intros v Hv. by destruct (wit_res_entry f v (HR v Hv)) as (j&_&_&?&_).
  - intros v Hv. destruct (wit_res_entry f v (HR v Hv)) as (j&Hj&_&_&_&->).
    split; [apply wit_page; Z.to_euclidean_division_equations; lia|].
    split; [|unfold wit_pd; lia]. destruct b; simpl; [|set_solver].
    rewrite list_elem_of_singleton. lia.
  - intros v i Hv Hi Hp. apply wit_pde in Hp as ->; [|done]. rewrite wit_table.
    destruct (wit_res_entry f v (HR v Hv)) as (j&Hj&_&_&_&->). lia.
  - intros v w Hv Hw. destruct (wit_res_entry f v (HR v Hv)) as (j&Hj&->&_&_&->).
    destruct (wit_res_entry f w (HR w Hw)) as (j'&Hj'&->&_&_&->). lia.
Qed.

Definition wit_machine (f : Z -> Z) (b : bool) (n : nat) (pr : nat -> proc)
    : machine (gmap Z (list Z)) :=
  Machine (wit_kmem f b) {[ 7 := replicate n 0 ]} pr 0 (V2P wit_pd).

(** Swapped-out pages are [4096 * j], j from 17, with entries [0x206]. *)
Lemma wit_space_ok f b n pr R :
  p_pgdir (pr 0%nat) = wit_pd -> p_pid (pr 0%nat) = 7 ->
  length (VPA_Swap (pr 0%nat)) = 15%nat ->
  (forall i i' e, VPA_Swap (pr 0%nat) !! i = Some e -> VPA_Swap (pr 0%nat) !! i' = Some e ->
     has e SWAP_P = true -> i = i') ->
  (forall v, R v -> wit_res f v) ->
  (forall i e, VPA_Swap (pr 0%nat) !! i = Some e -> has e SWAP_P = true ->
     exists j, 17 <= j <= 31 /\ e = Z.lor SWAP_P (4096 * j) /\ f j = 0x206 /\
       ((i + 1) * Z.to_nat PGSIZE <= n)%nat) ->
  space_ok wit_end 0 (wit_machine f b n pr) (wit_free b) R.
Proof.
  intros Epd Epid Hlen Hnd HR Hsw.
  assert (Hvpa : forall j, 17 <= j <= 31 -> is_vpa (4096 * j)).
  { intros j Hj. unfold is_vpa, is_u32. Z.to_euclidean_division_equations. lia. }
  split; simpl; rewrite ?Epd, ?Epid.
  - apply wit_kmem_inv.
  - by apply wit_aspace.
  - done.
  - intros v Hv. by destruct (wit_res_entry f v (HR v Hv)) as (j&_&_&_&?&_).
  - intros v i (e&He&Hp&<-). destruct (Hsw i e He Hp) as (j&Hj&->&Hf&_).
    rewrite (proj2 (swap_entry (4096 * j) (Hvpa j Hj))).
    rewrite wit_pte, Hf by lia. split; [by apply Hvpa|done].
  - intros v i i' (e&He&Hp&Ha) (e'&He'&Hp'&Ha').
    destruct (Hsw i e He Hp) as (j&Hj&Ej&_), (Hsw i' e' He' Hp') as (j'&Hj'&Ej'&_).
    assert (j = j') as <-.
    { rewrite Ej, (proj2 (swap_entry (4096 * j) (Hvpa j Hj))) in Ha.
      rewrite Ej', (proj2 (swap_entry (4096 * j') (Hvpa j' Hj'))) in Ha'. lia. }
    assert (e' = e) as -> by congruence.
    by eapply Hnd.
  - exists (replicate n 0). split; [apply lookup_singleton_eq|]. split.
    + apply Forall_replicate. unfold is_u8. lia.
    + intros v i (e&He&Hp&_). rewrite length_replicate. by destruct (Hsw i e He Hp) as (j&_&_&_&?).
Qed.

(** One page swapped out, none resident, one free page. *)
Definition wit_slot : list Z := Z.lor SWAP_P (4096 * 17) :: replicate 14 0.

Lemma wit_slot_lookup i e : wit_slot !! i = Some e -> has e SWAP_P = true ->
  i = 0%nat /\ e = Z.lor SWAP_P (4096 * 17).
Proof.
  destruct i as [|i]; [by intros [= <-]|].
  intros [-> _]%lookup_replicate. done.
Qed.

Definition wit_proc (sw vm : list Z) (n : Z) (r : nat) : proc :=
  Proc (7 + Z.of_nat r) wit_pd (if r is O then None else Some 0%nat) sw vm n 0 n.

Lemma wit_meta pol sw (r : nat) : meta_ok pol (wit_proc sw (replicate 15 0) 0 r).
Proof. split; [done|done|destruct pol; constructor|done]. Qed.

Lemma recoverPageFault_transparent_witness :
  exists s', recoverPageFault wit_end NFU_SWAP 0x11234
      (wit_machine (fun _ => 0x206) true (Z.to_nat PGSIZE) (wit_proc wit_slot (replicate 15 0) 0))
      = Ret 0 s' /\ 0x11000 ∈ resident NFU_SWAP (procs s' 0).
Proof.
  destruct (recoverPageFault_transparent wit_end NFU_SWAP 0
    (wit_machine (fun _ => 0x206) true (Z.to_nat PGSIZE) (wit_proc wit_slot (replicate 15 0) 0))
    (wit_free true) 0x11234 0) as (s'&l'&Hrun&_&_&Hin&_).
  - apply wit_space_ok; try done.
    + intros i i' e Hi Hi' Hp. apply wit_slot_lookup in Hi, Hi'; [|done..]. lia.
    + intros v Hv. by apply not_elem_of_nil in Hv.
    + intros i e Hi Hp. apply wit_slot_lookup in Hi as [-> ->]; [|done]. exists 17. lia.
  - apply wit_meta.
  - done.
  - done.
  - unfold is_u32. lia.
  - by exists (Z.lor SWAP_P (4096 * 17)).
  - done.
  - exists s'. split; [exact Hrun|exact Hin].
Defined.

(** All frames in use by pages 1 .. 15, and a new page 16. *)
Definition wit_pages : list Z := (fun j => 4096 * Z.of_nat j) <$> seq 1 15.
Definition wit_slots : list Z := (fun j => Z.lor SWAP_P (4096 * Z.of_nat j)) <$> seq 17 15.
Definition wit_f (fl : Z) (j : Z) : Z := if j <=? 16 then Z.lor (0x400000 + 4096 * j) fl else 0x206.

Lemma wit_pages_res fl v :
  0 <= fl < 0x200 -> Z.odd fl = true -> v = 4096 * 16 \/ v ∈ wit_pages -> wit_res (wit_f fl) v.
Proof.
  intros Hfl Ho Hv.
  assert (exists j, 1 <= j <= 16 /\ v = 4096 * j) as (j&Hj&->).
  { destruct Hv as [->|(j&->&Hj)%list_elem_of_fmap]; [by exists 16|].
    apply elem_of_seq in Hj. exists (Z.of_nat j). lia. }
  exists j, fl. split; [done|]. split; [done|]. split; [|done]. unfold wit_f.
  by rewrite (proj2 (Z.leb_le _ _)) by lia.
Qed.

Lemma wit_full_meta pol sw (r : nat) :
  meta_ok pol (set_queue 0 0 (wit_proc sw wit_pages 15 r)).
Proof.
  split; [done|done| |done].
  destruct pol; apply (bool_decide_unpack _); vm_compute; exact I.
Qed.

Definition wit_full (sw : list Z) (r : nat) : proc := set_queue 0 0 (wit_proc sw wit_pages 15 r).

Lemma wit_full_space fl sw n pol :
  0 <= fl < 0x200 -> Z.odd fl = true ->
  (sw = replicate 15 0 \/ (sw = wit_slots /\ n = (15 * Z.to_nat PGSIZE)%nat)) ->
  space_ok wit_end 0 (wit_machine (wit_f fl) false n (wit_full sw)) []
    (fun w => w = 4096 * 16 \/ w ∈ resident pol (wit_full sw 0)).
Proof.
  intros Hfl Ho Hsw. apply wit_space_ok; [done|done| | | |].
  - by destruct Hsw as [->|[-> _]].
  - intros i i' e Hi Hi' Hp. destruct Hsw as [->|[-> _]].
    + by apply lookup_replicate in Hi as [-> _].
    + assert (NoDup wit_slots) as Hnd by (apply (bool_decide_unpack _); vm_compute; exact I).
      by eapply NoDup_lookup.
  - intros v Hv. apply wit_pages_res; [done..|]. by destruct pol.
  - intros i e Hi Hp. destruct Hsw as [->|[-> ->]].
    + by apply lookup_replicate in Hi as [-> _].
    + apply list_lookup_fmap_Some in Hi as (j&->&Hi).
      apply lookup_seq in Hi as [-> Hi]. exists (Z.of_nat (17 + i)). split; [lia|].
      split; [done|]. split; [unfold wit_f; by rewrite (proj2 (Z.leb_gt _ _)) by lia|].
      apply Nat.mul_le_mono_r. lia.
Qed.

Lemma linkNewPage_links_witness :
  exists s', linkNewPage wit_end FIFO_SWAP 0 0x10000
      (wit_machine (wit_f 7) false 0 (wit_full (replicate 15 0))) = Ret 0 s' /\
    exists rest, wit_pages = 0x1000 :: rest /\ resident FIFO_SWAP (procs s' 0) = rest ++ [0x10000].
Proof.
  destruct (linkNewPage_links wit_end FIFO_SWAP 0
    (wit_machine (wit_f 7) false 0 (wit_full (replicate 15 0))) [] 0x10000)
    as (s'&l'&Hrun&_&_&_&_&Hfull).
  - apply wit_full_space; [lia|done|by left].
  - apply wit_full_meta.
  - done.
  - done.
  - apply (bool_decide_unpack _). vm_compute. exact I.
  - right. exists 0%nat. split; [by exists 0|lia].
  - exists s'. split; [exact Hrun|]. destruct (Hfull eq_refl) as (x&_&rest&Hr&Hr').
    exists rest. assert (x = 0x1000 /\ wit_pages = x :: rest) as [-> ->].
    { change (resident FIFO_SWAP _) with wit_pages in Hr. split; [by inversion Hr|done]. }
    by split.
Defined.

Lemma linkNewPage_refuses_witness :
  let s := wit_machine (wit_f 7) false (15 * Z.to_nat PGSIZE) (wit_full wit_slots) in
  linkNewPage wit_end NFU_SWAP 0 0x10000 s = Ret (-1) s.
Proof.
  apply (linkNewPage_refuses wit_end NFU_SWAP 0
    (wit_machine (wit_f 7) false (15 * Z.to_nat PGSIZE) (wit_full wit_slots)) [] 0x10000).
  - apply wit_full_space; [lia|done|by right].
  - apply wit_full_meta.
  - done.
  - apply (bool_decide_unpack _). vm_compute. exact I.
Defined.

Lemma unlinkPage_removes_witness :
  exists r s', unlinkPage FIFO_SWAP 0 0x3000
      (wit_machine (wit_f 7) false 0 (wit_full (replicate 15 0))) = Ret r s' /\
    0x3000 :: resident FIFO_SWAP (procs s' 0) ≡ₚ wit_pages.
Proof.
  destruct (unlinkPage_removes FIFO_SWAP 0 0x3000
    (wit_machine (wit_f 7) false 0 (wit_full (replicate 15 0)))) as (r&s'&Hrun&Hul).
  - apply wit_full_meta.
  - unfold is_vpa, is_u32. done.
  - exists r, s'. split; [exact Hrun|]. apply (ul_resident _ _ _ _ _ _ Hul).
    apply (bool_decide_unpack _). vm_compute. exact I.
Defined.

Lemma nfu_ageing_witness :
  exists s' e', nfu_Increment_Counter (Some 0%nat)
      (wit_machine (wit_f 0x27) false 0 (wit_full (replicate 15 0))) = Ret tt s' /\
    VPA_Memory (procs s' 0) !! 2%nat = Some e' /\ NFU_MEM_COUNTER e' = 1.
Proof.
  destruct (nfu_ageing wit_end 0
    (wit_machine (wit_f 0x27) false 0 (wit_full (replicate 15 0))) []) as (s'&Hrun&_&_&_&Hage).
  - pose proof (wit_full_space 0x27 (replicate 15 0) 0 NFU_SWAP ltac:(lia) eq_refl (or_introl eq_refl))
      as [S1 S2 S3 S4 S5 S6 S7].
    split; [exact S1| |exact S3| |exact S5|exact S6|exact S7].
    + eapply aspace_weaken; [|exact S2]. by right.
    + intros v Hv. apply S4. by right.
  - apply wit_full_meta.
  - apply Forall_fmap, Forall_seq. intros j Hj. simpl. unfold is_u32. lia.
  - destruct (Hage 2%nat 0x3000) as (e'&He'&_&Hc&_); [done|done|].
    exists s', e'. split; [exact Hrun|]. split; [exact He'|]. rewrite Hc. vm_compute. reflexivity.
Defined.

Lemma initSwap_copies_witness :
  exists s' cf, initSwap wit_end FIFO_SWAP 1
      (wit_machine (fun _ => 0x206) true (Z.to_nat PGSIZE) (wit_proc wit_slot (replicate 15 0) 0))
      = Ret 0 s' /\ ss_file (store s') 8 = Some cf /\ exists k, swapped (procs s' 1) 0x11000 k.
Proof.
  destruct (initSwap_copies wit_end FIFO_SWAP 1 0
    (wit_machine (fun _ => 0x206) true (Z.to_nat PGSIZE) (wit_proc wit_slot (replicate 15 0) 0))
    0x80200000 [] (replicate (Z.to_nat PGSIZE) 0))
    as (s'&j&cf&Hrun&_&_&_&_&_&Hf&_&_&Hsame).
  - reflexivity.
  - discriminate.
  - discriminate.
  - apply (wit_kmem_inv _ true).
  - reflexivity.
  - reflexivity.
  - apply Forall_replicate. unfold is_u8. lia.
  - intros v i (e&He&Hp&_). apply wit_slot_lookup in He as [-> _]; [|done].
    rewrite length_replicate. lia.
  - reflexivity.
  - exists s', cf. split; [exact Hrun|]. split; [exact Hf|].
    destruct (proj2 (Hsame 0x11000 (slot_data (replicate (Z.to_nat PGSIZE) 0) 0))) as (k&Hk&_).
    + exists 0%nat. split; [|reflexivity].
      exact (ex_intro _ (Z.lor SWAP_P (4096 * 17)) (conj eq_refl (conj eq_refl eq_refl))).
    + exists k. exact Hk.
Defined.
