(* ===== verification/Uvm.v ===== *)
(** Whole address spaces (vm.c): building the kernel part of a page table,
    growing, shrinking, copying and freeing the user part.

    The routines run on the machine of Swap.v because growing and shrinking a
    process links and unlinks its pages for paging.  [data] is the linker symbol
    that ends the kernel's text. *)

From S2P Require Import Prelude Memory Kalloc Vm Space Swap.

Section uvm.
Context {F : Type} `{SwapStore F}.
Context (kend data : Z) (pol : policy).

Local Abbreviation M := (kern (machine F)).

(** ** deallocuvm, freevm *)

(** [for(; a < oldsz; a += PGSIZE)]; every iteration advances by a page at least. *)
Fixpoint deallocuvm_loop (fuel : nat) (pgdir a oldsz : Z) : M unit :=
  match fuel with
  | O => fun _ => Fuel
  | S fuel =>
      if a <? oldsz then
        pte ← lift_km (walkpgdir pgdir a false);
        if pte =? 0 then
          let a := u32 (PGADDR (PDX a + 1) 0 0 - PGSIZE) in
          deallocuvm_loop fuel pgdir (u32 (a + PGSIZE)) oldsz
        else
          e ← lift_km (load32 pte);
          (if has e PTE_PG then
             if negb (oldsz =? KERNBASE) then
               lift_km (store32 pte 0) ;;
               me ← gets curproc;
               r ← unlinkPage pol me a;
               assert_panic (r =? 0) "unlinkPage(myproc(), a)==0"
             else mret tt
           else if has e PTE_P then
             let pa := PTE_ADDR e in
             if pa =? 0 then panic "kfree"
             else
               (if negb (oldsz =? KERNBASE) then
                  me ← gets curproc;
                  r ← unlinkPage pol me a;
                  assert_panic (r =? 0) "unlinkPage(myproc(),(uint)a) == 0"
                else mret tt) ;;
               lift_km (kfree kend (P2V pa)) ;;
               lift_km (store32 pte 0)
           else mret tt) ;;
          deallocuvm_loop fuel pgdir (u32 (a + PGSIZE)) oldsz
      else mret tt
  end.

Definition deallocuvm (pgdir oldsz newsz : Z) : M Z :=
  if oldsz <=? newsz then mret oldsz
  else
    deallocuvm_loop (Z.to_nat (oldsz / PGSIZE) + 2) pgdir (PGROUNDUP newsz) oldsz ;;
    mret newsz.

(** [for(i = 0; i < NPDENTRIES; i++)] of [freevm], from [i], [n] entries left. *)
Fixpoint freevm_loop (n : nat) (pgdir i : Z) : M unit :=
  match n with
  | O => mret tt
  | S n =>
      e ← lift_km (load32 (pgdir + 4 * i));
      (if has e PTE_P then lift_km (kfree kend (P2V (PTE_ADDR e))) else mret tt) ;;
      freevm_loop n pgdir (i + 1)
  end.

Definition freevm (pgdir : Z) : M unit :=
  if pgdir =? 0 then panic "freevm: no pgdir"
  else
    deallocuvm pgdir KERNBASE 0 ;;
    freevm_loop (Z.to_nat NPDENTRIES) pgdir 0 ;;
    lift_km (kfree kend pgdir).

(** ** setupkvm *)

(** virt, phys_start, phys_end, perm *)
Definition kmap : list (Z * Z * Z * Z) :=
  [(KERNBASE, 0, EXTMEM, PTE_W);
   (KERNLINK, V2P KERNLINK, V2P data, 0);
   (data, V2P data, PHYSTOP, PTE_W);
   (DEVSPACE, DEVSPACE, 0, PTE_W)].

Fixpoint setupkvm_loop (ks : list (Z * Z * Z * Z)) (pgdir : Z) : M bool :=
  match ks with
  | [] => mret true
  | (virt, phys_start, phys_end, perm) :: ks =>
      r ← lift_km (mappages pgdir virt (u32 (phys_end - phys_start)) phys_start perm);
      if r <? 0 then freevm pgdir ;; mret false
      else setupkvm_loop ks pgdir
  end.

(** [for(int i=512;i<1024;i++) pgdir[i]&=~PTE_U], from [i], [n] entries left. *)
Fixpoint clear_user (n : nat) (pgdir i : Z) : M unit :=
  match n with
  | O => mret tt
  | S n =>
      e ← lift_km (load32 (pgdir + 4 * i));
      lift_km (store32 (pgdir + 4 * i) (Z.land e (Z.lnot PTE_U))) ;;
      clear_user n pgdir (i + 1)
  end.

Definition setupkvm : M Z :=
  pgdir ← lift_km kalloc;
  if pgdir =? 0 then mret 0
  else
    lift_km (memset_k pgdir 0 PGSIZE) ;;
    if DEVSPACE <? P2V PHYSTOP then panic "PHYSTOP too high"
    else
      ok ← setupkvm_loop kmap pgdir;
      if ok : bool then clear_user 512 pgdir 512 ;; mret pgdir else mret 0.

(** ** allocuvm *)

Fixpoint allocuvm_loop (fuel : nat) (pgdir a oldsz newsz : Z) : M Z :=
  match fuel with
  | O => fun _ => Fuel
  | S fuel =>
      if a <? newsz then
        mem ← lift_km kalloc;
        if mem =? 0 then deallocuvm pgdir newsz oldsz ;; mret 0
        else
          lift_km (memset_k mem 0 PGSIZE) ;;
          r ← lift_km (mappages pgdir a PGSIZE (V2P mem) (Z.lor PTE_W PTE_U));
          if r <? 0 then
            deallocuvm pgdir newsz oldsz ;;
            lift_km (kfree kend mem) ;;
            mret 0
          else
            me ← gets curproc;
            r ← linkNewPage kend pol me a;
            if negb (r =? 0) then
              pte ← lift_km (walkpgdir pgdir a false);
              assert_panic (negb (pte =? 0)) "pte != 0" ;;
              lift_km (store32 pte 0) ;;
              lift_km (kfree kend mem) ;;
              deallocuvm pgdir newsz oldsz ;;
              mret 0
            else allocuvm_loop fuel pgdir (u32 (a + PGSIZE)) oldsz newsz
      else mret newsz
  end.

Definition allocuvm (pgdir oldsz newsz : Z) : M Z :=
  if KERNBASE <=? newsz then mret 0
  else if newsz <? oldsz then mret oldsz
  else allocuvm_loop (Z.to_nat (newsz / PGSIZE) + 2) pgdir (PGROUNDUP oldsz) oldsz newsz.

(** ** inituvm *)

Definition inituvm (pgdir : Z) (init : list Z) : M unit :=
  if PGSIZE <=? Z.of_nat (length init) then panic "inituvm: more than a page"
  else
    mem ← lift_km kalloc;
    lift_km (memset_k mem 0 PGSIZE) ;;
    lift_km (mappages pgdir 0 PGSIZE (V2P mem) (Z.lor PTE_W PTE_U)) ;;
    lift_km (modify (with_mem (fun m => put_bytes m mem init))).

(** ** copyuvm *)

(** From page [i]; [true] is success, [false] the jump to [bad]. *)
Fixpoint copyuvm_loop (fuel : nat) (pgdir d i sz : Z) : M bool :=
  match fuel with
  | O => fun _ => Fuel
  | S fuel =>
      if i <? sz then
        pte ← lift_km (walkpgdir pgdir i false);
        if pte =? 0 then panic "copyuvm: pte should exist"
        else
          e ← lift_km (load32 pte);
          if has e PTE_PG then
            newPte ← lift_km (walkpgdir d i true);
            assert_panic (negb (newPte =? 0)) "newPte != 0" ;;
            lift_km (store32 newPte (PTE_FLAGS e)) ;;
            c ← gets cr3;
            assert_panic (negb (V2P d =? c)) "V2P(d)!=rcr3()" ;;
            assert_panic (V2P pgdir =? c) "V2P(pgdir)==rcr3()" ;;
            copyuvm_loop fuel pgdir d (u32 (i + PGSIZE)) sz
          else if negb (has e PTE_P) then panic "copyuvm: page not present"
          else
            let pa := PTE_ADDR e in
            let flags := PTE_FLAGS e in
            mem ← lift_km kalloc;
            if mem =? 0 then mret false
            else
              lift_km (memmove_k mem (P2V pa) PGSIZE) ;;
              r ← lift_km (mappages d i PGSIZE (V2P mem) flags);
              if r <? 0 then lift_km (kfree kend mem) ;; mret false
              else copyuvm_loop fuel pgdir d (u32 (i + PGSIZE)) sz
      else mret true
  end.

Definition copyuvm (pgdir sz : Z) : M Z :=
  d ← setupkvm;
  if d =? 0 then mret 0
  else
    ok ← copyuvm_loop (Z.to_nat (sz / PGSIZE) + 2) pgdir d PGSIZE sz;
    if ok : bool then mret d else freevm d ;; mret 0.

End uvm.
