(* ===== verification/UvmCorrect.v ===== *)
(** Correctness of the routines on whole address spaces.

    [space m pgdir l us] is an address space whose resident user pages are
    exactly [us]: page tables and frames are pages of their own, none of them on
    the free list [l].  [owned] are the pages the space is made of.  [freevm]
    gives exactly these back; [copyuvm] either builds a second space with the
    same contents or gives everything back. *)

From S2P Require Import Prelude Memory Kalloc Vm Space Swap Uvm.

(** A page that is in memory and not in the swap file. *)
Definition resident (e : Z) : bool := has e PTE_P && negb (has e PTE_PG).

Definition owned (m : mem) (pgdir : Z) (us : list Z) : list Z :=
  pgdir :: tables m pgdir ++ (frame m pgdir <$> us).

Section uvm.
Context {F : Type} {ST : SwapStore F}.
Context (kend : Z) (pol : policy).

Record space (m : mem) (pgdir : Z) (l : list Z) (us : list Z) : Prop := {
  sp_space : aspace kend m pgdir l (.∈ us);
  sp_nodup : NoDup us;
  sp_user v : v ∈ us <-> is_vpa v /\ v < KERNBASE /\ resident (pte_of m pgdir v) = true;
}.

(** Bytes outside the given pages. *)
Definition off_pages (ps : list Z) (x : Z) : Prop := forall p, p ∈ ps -> ~ same_page x p.

Lemma off_pages_perm ps ps' x : ps ≡ₚ ps' -> off_pages ps x -> off_pages ps' x.
Proof. intros E Hx p Hp. apply Hx. by rewrite E. Qed.

(** ** Freeing one user page *)

Record freed1 (k : kmem) (l : list Z) (pgdir a : Z) (us : list Z) (k' : kmem) : Prop := {
  f1_inv : kmem_inv kend k' (frame (km_mem k) pgdir a :: l);
  f1_space : aspace kend (km_mem k') pgdir (frame (km_mem k) pgdir a :: l) (.∈ us);
  f1_tab i : 0 <= i < 1024 -> present_pde (km_mem k') pgdir i = present_pde (km_mem k) pgdir i /\
    table_of (km_mem k') pgdir i = table_of (km_mem k) pgdir i;
  f1_view v : is_vpa v -> pte_of (km_mem k') pgdir v = if decide (v = a) then 0 else pte_of (km_mem k) pgdir v;
  f1_frame x : off_pages (tables (km_mem k) pgdir ++ [frame (km_mem k) pgdir a]) x -> km_mem k' x = km_mem k x;
}.

Lemma elem_of_tables m pgdir i : 0 <= i < 1024 -> present_pde m pgdir i = true -> table_of m pgdir i ∈ tables m pgdir.
Proof.
  intros Hi Hp. unfold tables. apply list_elem_of_fmap_2. apply list_elem_of_filter. split; [done|].
  apply elem_of_seqZ. lia.
Qed.

Lemma free_page k l pgdir a us :
  kmem_inv kend k l -> aspace kend (km_mem k) pgdir l (.∈ a :: us) -> (a ∉ us) ->
  exists k1 k2, kfree kend (frame (km_mem k) pgdir a) k = Ret tt k1 /\
    store32 (pte_addr (km_mem k) pgdir a) 0 k1 = Ret tt k2 /\ freed1 k l pgdir a us k2.
Proof.
  intros Hk Ha Hn. set (m := km_mem k) in *. set (p := frame m pgdir a).
  assert (Hain : a ∈ a :: us) by left.
  destruct (as_frame _ _ _ _ _ Ha a Hain) as (Hp & Hpl & Hpd).
  assert (Hpr : present_pde m pgdir (PDX a) = true) by (apply present_of_P; by apply (as_present _ _ _ _ _ Ha)).
  assert (Hv : is_vpa a) by (by apply (as_vpa _ _ _ _ _ Ha)).
  destruct (kfree_inv kend k l p Hk Hp Hpl) as (k1 & E1 & Hk1 & _ & _ & Hm1).
  assert (Ha' : aspace kend m pgdir l (.∈ us)).
  { eapply aspace_weaken; [|exact Ha]. intros v Hu. by right. }
  assert (Hun : unused kend m pgdir l (.∈ us) p).
  { split; [done..| |].
    - intros i Hi Hpi. by apply (as_tab _ _ _ _ _ Ha).
    - intros v Hu E. apply (as_inj _ _ _ _ _ Ha) in E; [by subst|by right|done]. }
  destruct (aspace_frame kend m (km_mem k1) pgdir l (p :: l) (.∈ us) Ha') as (Ha1 & Hs & _).
  { intros x Hx. apply Hm1. intros Hxp. exact (unused_outside kend m pgdir l _ p x Ha' Hun Hxp Hx). }
  { intros q [->|Hq]%elem_of_cons; auto. }
  assert (Hpr1 : present_pde (km_mem k1) pgdir (PDX a) = true) by (by rewrite (proj1 (pt_same_tab _ _ _ _ Hs (PDX_range a)))).
  assert (Ead : pte_addr (km_mem k1) pgdir a = pte_addr m pgdir a).
  { unfold pte_addr. by rewrite (proj2 (pt_same_tab _ _ _ _ Hs (PDX_range a))). }
  destruct (store_pte_inv kend k1 (p :: l) pgdir a 0 Hk1 (as_wf _ _ _ _ _ Ha1) Hpr1) as (Hk2 & Hw2 & Hv2 & Ht2).
  rewrite Ead in *. eexists k1, _. split; [exact E1|]. split; [reflexivity|].
  split; [exact Hk2| | | |].
  - cbn. rewrite <- Ead. apply (aspace_store kend _ pgdir (p :: l) (.∈ us) a 0 Ha1 Hv Hpr1); [done|].
    intros Hu. done.
  - intros i Hi. destruct (Ht2 i Hi) as [-> ->]. by apply pt_same_tab.
  - intros v Hvv. cbn. rewrite <- Ead, (store_pte_of kend _ pgdir (p :: l) _ a 0 Ha1 Hv Hpr1 v Hvv).
    case_decide; [done|]. by apply pt_same_pte_of.
  - intros x Hx. cbn. rewrite st32_other.
    + apply Hm1, Hx, elem_of_app. right. by left.
    + destruct (pte_addr_in_page m pgdir a) as [H1 H2].
      pose proof (Hx _ (proj2 (elem_of_app _ _ _) (or_introl (elem_of_tables m pgdir _ (PDX_range a) Hpr)))) as Hxt.
      clear -H1 H2 Hxt. unfold same_page in *. lia.
Qed.

(** ** deallocuvm over the whole user part *)

Lemma PDX_user a : 0 <= a < KERNBASE -> PDX a = a / 4194304 /\ 0 <= a / 4194304 < 512.
Proof.
  intros Ha. unfold KERNBASE in Ha. rewrite PDX_spec. assert (0 <= a / 4194304 < 512).
  { split; [apply Z.div_pos; lia|apply Z.div_lt_upper_bound; lia]. }
  rewrite Z.mod_small by lia. lia.
Qed.

(** The first address of the next page table. *)
Lemma next_table a : 0 <= a < KERNBASE ->
  u32 (u32 (PGADDR (PDX a + 1) 0 0 - PGSIZE) + PGSIZE) = (a / 4194304 + 1) * 4194304.
Proof.
  intros Ha. destruct (PDX_user a Ha) as [-> Hr]. unfold PGADDR. rewrite Z.shiftl_0_l, !Z.lor_0_r.
  rewrite Z.shiftl_mul_pow2 by lia. change (2 ^ 22) with 4194304.
  set (t := (a / 4194304 + 1) * 4194304). assert (Ht : 4194304 <= t <= 2147483648) by lia.
  unfold PGSIZE. rewrite (u32_id t), (u32_id (t - 4096)) by (unfold is_u32; lia).
  rewrite u32_id by (unfold is_u32; lia). lia.
Qed.

Record unmapped (k : kmem) (l : list Z) (pgdir : Z) (us : list Z) (k' : kmem) (l' : list Z) : Prop := {
  um_inv : kmem_inv kend k' l';
  um_wf : pt_wf kend (km_mem k') pgdir l';
  um_list : l' ≡ₚ (frame (km_mem k) pgdir <$> us) ++ l;
  um_tab i : 0 <= i < 1024 -> present_pde (km_mem k') pgdir i = present_pde (km_mem k) pgdir i /\
    table_of (km_mem k') pgdir i = table_of (km_mem k) pgdir i;
  um_frame x : off_pages (tables (km_mem k) pgdir ++ (frame (km_mem k) pgdir <$> us)) x ->
    km_mem k' x = km_mem k x;
}.

(** The pages from [a] to [KERNBASE] that are still to be freed. *)
Definition above (m : mem) (pgdir a : Z) (us : list Z) : Prop :=
  forall v, v ∈ us <-> is_vpa v /\ a <= v < KERNBASE /\ resident (pte_of m pgdir v) = true.

Lemma above_skip m pgdir a b us :
  above m pgdir a us -> a <= b ->
  (forall v, is_vpa v -> a <= v < b -> v < KERNBASE -> resident (pte_of m pgdir v) = false) -> above m pgdir b us.
Proof.
  intros H Hab Hn v. rewrite (H v). split; intros (Hv & Hr & He); split; auto; split; auto; [|lia].
  destruct (decide (v < b)); [|lia]. rewrite Hn in He; [done|done|lia..].
Qed.

Lemma vpa_next a v : is_vpa a -> is_vpa v -> a <= v < a + PGSIZE -> v = a.
Proof.
  intros [_ Ha] [_ Hv] Hr. apply aligned_div in Ha, Hv. unfold PGSIZE in Hr. lia.
Qed.

Lemma vpa_step a : is_vpa a -> a < KERNBASE -> u32 (a + PGSIZE) = a + PGSIZE /\ is_vpa (a + PGSIZE).
Proof.
  intros [Hu Ha] Hk. unfold is_u32, KERNBASE, PGSIZE in *. rewrite u32_id by (unfold is_u32; lia).
  split; [done|]. split; [unfold is_u32; lia|]. by rewrite Zplus_mod, Ha.
Qed.

Lemma unmapped_refl k l pgdir : kmem_inv kend k l -> pt_wf kend (km_mem k) pgdir l -> unmapped k l pgdir [] k l.
Proof. by split. Qed.

Lemma unmapped_cons k l pgdir a us k1 k2 l2 :
  (forall v, v ∈ us -> is_vpa v /\ v <> a) -> freed1 k l pgdir a us k1 ->
  unmapped k1 (frame (km_mem k) pgdir a :: l) pgdir us k2 l2 -> unmapped k l pgdir (a :: us) k2 l2.
Proof.
  intros Hne [H1 H2 H3 H4 H5] [G1 G2 G3 G4 G5].
  assert (E : frame (km_mem k1) pgdir <$> us = frame (km_mem k) pgdir <$> us).
  { apply list_fmap_ext. intros n v Hv%list_elem_of_lookup_2. destruct (Hne v Hv).
    unfold frame. by rewrite H4, decide_False. }
  split; [done|done| | |].
  - rewrite G3, E, fmap_cons. simpl. by rewrite Permutation_middle.
  - intros i Hi. destruct (G4 i Hi) as [-> ->]. by apply H3.
  - intros x Hx. rewrite G5, H5; [done| |].
    + intros p [Hp|Hp%list_elem_of_singleton]%elem_of_app; apply Hx, elem_of_app; [by left|].
      right. subst. apply list_elem_of_fmap_2. by left.
    + intros p Hp. apply Hx. rewrite (tables_same (km_mem k)), E in Hp by done.
      apply elem_of_app in Hp. apply elem_of_app. destruct Hp; [by left|]. right. rewrite fmap_cons. by right.
Qed.

Section dealloc_step.
Context (s : machine F) (l : list Z) (pgdir a : Z) (us : list Z).
Let m := km_mem (km s).
Hypothesis Hva : is_vpa a.
Hypothesis Hlt : a < KERNBASE.
Hypothesis Hk : kmem_inv kend (km s) l.
Hypothesis Ha : aspace kend m pgdir l (.∈ us).
Hypothesis Hnd : NoDup us.
Hypothesis Hab : above m pgdir a us.

(** No table: the loop goes on at the next one. *)
Lemma dealloc_no_table fuel :
  present_pde m pgdir (PDX a) = false ->
  let b := (a / 4194304 + 1) * 4194304 in
  deallocuvm_loop kend pol (S fuel) pgdir a KERNBASE s = deallocuvm_loop kend pol fuel pgdir b KERNBASE s /\
  is_vpa b /\ a + PGSIZE <= b <= KERNBASE /\ above m pgdir b us.
Proof.
  intros Hp b. pose proof (proj1 (proj1 Hva)) as H0. destruct (PDX_user a ltac:(lia)) as [Ed Hd].
  pose proof (Z.div_mod a 4194304 ltac:(lia)) as Hdm. pose proof (Z.mod_pos_bound a 4194304 ltac:(lia)) as Hm.
  assert (Hb : a < b <= KERNBASE) by (unfold b, KERNBASE in *; lia).
  assert (Hbv : is_vpa b).
  { split; [unfold is_u32, KERNBASE in *; lia|]. unfold b. change 4194304 with (1024 * 4096). rewrite Z.mul_assoc. by rewrite Z.mod_mul. }
  split; [|split; [done|split]].
  - cbn [deallocuvm_loop]. rewrite (proj2 (Z.ltb_lt _ _) Hlt).
    rewrite (bind_km _ _ _ _ _ (walkpgdir_noalloc _ _ _)), set_km_same. fold m. rewrite Hp.
    cbn [Z.eqb]. by rewrite next_table by lia.
  - destruct Hva as [_ Hal], Hbv as [_ Hbl]. apply aligned_div in Hal, Hbl. unfold PGSIZE. lia.
  - eapply above_skip; [exact Hab|lia|]. intros v Hv Hr Hvk. destruct (PDX_user v ltac:(lia)) as [Ev Hdv].
    assert (E : PDX v = PDX a).
    { rewrite Ev, Ed. symmetry. apply Z.div_unique with (v - 4194304 * (a / 4194304)); unfold b in Hr; lia. }
    unfold pte_of. by rewrite E, Hp.
Qed.

(** An entry that is not resident is left alone. *)
Lemma dealloc_not_resident fuel :
  present_pde m pgdir (PDX a) = true -> resident (pte_of m pgdir a) = false ->
  deallocuvm_loop kend pol (S fuel) pgdir a KERNBASE s =
  deallocuvm_loop kend pol fuel pgdir (a + PGSIZE) KERNBASE s /\ above m pgdir (a + PGSIZE) us.
Proof.
  intros Hp Hr. destruct (vpa_step a Hva Hlt) as [Eu _]. split.
  - cbn [deallocuvm_loop]. rewrite (proj2 (Z.ltb_lt _ _) Hlt).
    rewrite (bind_km _ _ _ _ _ (walkpgdir_noalloc _ _ _)), set_km_same. fold m. rewrite Hp.
    rewrite (pte_addr_nonzero kend _ _ l) by (apply Ha || done).
    rewrite (bind_km (load32 _) _ s (pte_of m pgdir a) (km s)), set_km_same by (unfold load32, gets, pte_of; by rewrite Hp).
    rewrite Eu. unfold resident in Hr.
    destruct (has (pte_of m pgdir a) PTE_PG); [done|]. by destruct (has (pte_of m pgdir a) PTE_P).
  - eapply above_skip; [exact Hab|unfold PGSIZE; lia|]. intros v Hv Hr' _.
    by rewrite (vpa_next a v).
Qed.

(** A resident page is freed. *)
Lemma dealloc_resident fuel :
  resident (pte_of m pgdir a) = true ->
  exists us' k1, us ≡ₚ a :: us' /\ freed1 (km s) l pgdir a us' k1 /\
    deallocuvm_loop kend pol (S fuel) pgdir a KERNBASE s =
    deallocuvm_loop kend pol fuel pgdir (a + PGSIZE) KERNBASE (set_km k1 s).
Proof.
  intros Hr. destruct (vpa_step a Hva Hlt) as [Eu _]. unfold resident in Hr.
  assert (Hin : a ∈ us) by (apply Hab; split; [done|]; split; [lia|done]).
  apply andb_true_iff in Hr as [HP HPG%negb_true_iff].
  pose proof (present_of_P _ _ _ HP) as Hp.
  destruct (elem_of_Permutation us a) as [[us' E] _]; [done|]. exists us'.
  destruct (free_page (km s) l pgdir a us' Hk) as (k1 & k2 & E1 & E2 & Hf).
  { eapply aspace_weaken; [|exact Ha]. cbn. intros v Hv. by rewrite E. }
  { rewrite E in Hnd. by apply NoDup_cons in Hnd as [? _]. }
  exists k2. split; [done|]. split; [done|].
  cbn [deallocuvm_loop]. rewrite (proj2 (Z.ltb_lt _ _) Hlt).
  rewrite (bind_km _ _ _ _ _ (walkpgdir_noalloc _ _ _)), set_km_same. fold m. rewrite Hp.
  rewrite (pte_addr_nonzero kend _ _ l) by (apply Ha || done).
  rewrite (bind_km (load32 _) _ s (pte_of m pgdir a) (km s)), set_km_same by (unfold load32, gets, pte_of; by rewrite Hp).
  rewrite HP, HPG, Eu.
  destruct (Z.eqb_spec (PTE_ADDR (pte_of m pgdir a)) 0) as [E0|_].
  { destruct (as_frame _ _ _ _ _ Ha a Hin) as ((_ & _ & Hb & _) & _). unfold frame in Hb. rewrite E0 in Hb. done. }
  rewrite !bind_bind. unfold frame in E1. cbn [negb]. change (KERNBASE =? KERNBASE) with true. cbn [negb].
  rewrite bind_mret, bind_bind, (bind_km _ _ _ _ _ E1).
  by rewrite (bind_km _ _ (set_km k1 s) _ _ E2).
Qed.

End dealloc_step.

Lemma dealloc_all fuel : forall (s : machine F) l pgdir a us,
  is_vpa a -> a <= KERNBASE -> (Z.to_nat ((KERNBASE - a) / PGSIZE) < fuel)%nat ->
  kmem_inv kend (km s) l -> aspace kend (km_mem (km s)) pgdir l (.∈ us) -> NoDup us ->
  above (km_mem (km s)) pgdir a us ->
  exists k' l', deallocuvm_loop kend pol fuel pgdir a KERNBASE s = Ret tt (set_km k' s) /\
    unmapped (km s) l pgdir us k' l'.
Proof.
  induction fuel as [|fuel IH]; intros s l pgdir a us Hva Hak Hf Hk Ha Hnd Hab; [lia|].
  destruct (Z.ltb_spec a KERNBASE) as [Hlt|Hge].
  2: { assert (us = []) as ->.
       { destruct us as [|v us]; [done|]. destruct (proj1 (Hab v) ltac:(left)) as (_ & ? & _). lia. }
       exists (km s), l. rewrite set_km_same. split; [|apply unmapped_refl; [done|apply Ha]].
       cbn [deallocuvm_loop]. by rewrite (proj2 (Z.ltb_ge _ _) Hge). }
  assert (Hfuel : forall b, a + PGSIZE <= b -> b <= KERNBASE -> (Z.to_nat ((KERNBASE - b) / PGSIZE) < fuel)%nat).
  { intros b Hb Hbk. assert ((KERNBASE - b) / PGSIZE + 1 <= (KERNBASE - a) / PGSIZE).
    { rewrite <- Z.div_add by done. apply Z.div_le_mono; unfold PGSIZE in *; lia. }
    assert (0 <= (KERNBASE - b) / PGSIZE) by (apply Z.div_pos; unfold PGSIZE; lia). lia. }
  destruct (vpa_step a Hva Hlt) as [_ Hnv].
  assert (Hnk : a + PGSIZE <= KERNBASE).
  { destruct Hva as [_ Hal]. apply aligned_div in Hal. unfold PGSIZE, KERNBASE in *. lia. }
  destruct (present_pde (km_mem (km s)) pgdir (PDX a)) eqn:Hp.
  2: { destruct (dealloc_no_table s pgdir a us Hva Hlt Hab fuel Hp) as (E & Hb & Hr & Hab').
       rewrite E. apply IH; auto; [lia|apply Hfuel; lia]. }
  destruct (resident (pte_of (km_mem (km s)) pgdir a)) eqn:Hr.
  2: { destruct (dealloc_not_resident s l pgdir a us Hva Hlt Ha Hab fuel Hp Hr) as (E & Hab').
       rewrite E. apply IH; auto; apply Hfuel; lia. }
  destruct (dealloc_resident s l pgdir a us Hva Hlt Hk Ha Hnd Hab fuel Hr) as (us' & k1 & EP & Hf1 & E).
  rewrite E. rewrite EP in Hnd. apply NoDup_cons in Hnd as [Hn Hnd].
  assert (Hne : forall v, v ∈ us' -> is_vpa v /\ v <> a).
  { intros v Hv. split; [|by intros ->]. eapply as_vpa; [exact Ha|]. cbn. rewrite EP. by right. }
  destruct (IH (set_km k1 s) (frame (km_mem (km s)) pgdir a :: l) pgdir (a + PGSIZE) us') as (k' & l' & E' & Hu);
    [done|done|by apply Hfuel|apply Hf1|apply Hf1|done| |].
  { intros v. cbn. split.
    - intros Hv. destruct (Hne v Hv) as [Hvv Hva']. rewrite (f1_view _ _ _ _ _ _ Hf1 v Hvv), decide_False by done.
      destruct (proj1 (Hab v)) as (_ & Hr' & He); [rewrite EP; by right|]. split; [done|]. split; [|done].
      destruct (decide (v < a + PGSIZE)); [|lia]. by destruct Hva'; apply vpa_next; [..|lia].
    - intros (Hvv & Hr' & He). rewrite (f1_view _ _ _ _ _ _ Hf1 v Hvv) in He. case_decide as Ed; [done|].
      assert (Hv : v ∈ us) by (apply Hab; split; [done|]; split; [unfold PGSIZE in *; lia|done]).
      rewrite EP in Hv. by apply elem_of_cons in Hv as [?|?]. }
  exists k', l'. split; [exact E'|]. pose proof (unmapped_cons _ _ _ _ _ _ _ _ Hne Hf1 Hu) as [G1 G2 G3 G4 G5].
  split; [done|done| |done|].
  - by rewrite G3, EP.
  - intros x Hx. apply G5. eapply off_pages_perm; [|exact Hx]. by rewrite EP.
Qed.

(** ** freevm *)

Definition tabs (m : mem) (pgdir : Z) (js : list Z) : list Z :=
  table_of m pgdir <$> filter (fun i => present_pde m pgdir i = true) js.

Lemma tabs_snoc m pgdir js i :
  tabs m pgdir (js ++ [i]) = tabs m pgdir js ++ (if present_pde m pgdir i then [table_of m pgdir i] else []).
Proof.
  unfold tabs. rewrite filter_app, fmap_app. f_equal. rewrite filter_cons, filter_nil.
  destruct (present_pde m pgdir i); by case_decide.
Qed.

Lemma elem_of_tabs m pgdir js p :
  p ∈ tabs m pgdir js <-> exists i, i ∈ js /\ present_pde m pgdir i = true /\ p = table_of m pgdir i.
Proof.
  unfold tabs. rewrite list_elem_of_fmap. split.
  - intros (i & -> & [Hp Hi]%list_elem_of_filter). eauto.
  - intros (i & Hi & Hp & ->). exists i. split; [done|]. by apply list_elem_of_filter.
Qed.

(** After the tables below [i] have been freed. *)
Record freeing (m : mem) (pgdir : Z) (l0 : list Z) (i : Z) (k : kmem) : Prop := {
  fr_inv : exists l, kmem_inv kend k l /\ l ≡ₚ tabs m pgdir (seqZ 0 i) ++ l0;
  fr_mem x : off_pages (tabs m pgdir (seqZ 0 i)) x -> km_mem k x = m x;
}.

Lemma tab_fresh m pgdir l0 i :
  pt_wf kend m pgdir l0 -> 0 <= i < 1024 -> present_pde m pgdir i = true ->
  table_of m pgdir i ∉ tabs m pgdir (seqZ 0 i) ++ l0.
Proof.
  intros Hw Hi Hp [(j & Hj%elem_of_seqZ & Hpj & E)%elem_of_tabs|Hl]%elem_of_app.
  - apply (pt_inj _ _ _ _ Hw) in E; [lia|lia|lia|done|done].
  - by destruct (pt_tab _ _ _ _ Hw i Hi Hp) as (_ & _ & ?).
Qed.

Lemma dir_off_tabs m pgdir l0 i x :
  pt_wf kend m pgdir l0 -> i <= 1024 -> same_page x pgdir -> off_pages (tabs m pgdir (seqZ 0 i)) x.
Proof.
  intros Hw Hi Hx p (j & Hj%elem_of_seqZ & Hpj & ->)%elem_of_tabs Hp.
  destruct (pt_tab _ _ _ _ Hw j ltac:(lia) Hpj) as ((Ha & _) & Hne & _). apply Hne.
  destruct (pt_dir _ _ _ _ Hw) as (Hd & _). by eapply same_page_apart.
Qed.

Lemma freeing_step m pgdir l0 i k :
  pt_wf kend m pgdir l0 -> 0 <= i < 1024 -> freeing m pgdir l0 i k ->
  ld32 (km_mem k) (pgdir + 4 * i) = ld32 m (pgdir + 4 * i) /\
  if present_pde m pgdir i
  then exists k', kfree kend (table_of m pgdir i) k = Ret tt k' /\ freeing m pgdir l0 (i + 1) k'
  else freeing m pgdir l0 (i + 1) k.
Proof.
  intros Hw Hi [(l & Hk & Hl) Hm]. split.
  { apply ld32_ext. intros x Hx. apply Hm. eapply dir_off_tabs; [done|lia|]. unfold same_page, PGSIZE. lia. }
  assert (Es : seqZ 0 (i + 1) = seqZ 0 i ++ [i]) by (rewrite seqZ_app by lia; done).
  destruct (present_pde m pgdir i) eqn:Hp.
  - destruct (pt_tab _ _ _ _ Hw i Hi Hp) as (Hpg & _).
    destruct (kfree_inv kend k l (table_of m pgdir i) Hk Hpg) as (k' & E & Hk' & _ & _ & Hm').
    { rewrite Hl. by apply tab_fresh. }
    exists k'. split; [done|]. split.
    + exists (table_of m pgdir i :: l). split; [done|]. rewrite Es, tabs_snoc, Hp, Hl.
      rewrite <- app_assoc. simpl. by rewrite Permutation_middle.
    + intros x. rewrite Es, tabs_snoc, Hp. intros Hx. rewrite Hm', Hm; [done| |].
      * intros p Hpp. apply Hx, elem_of_app. by left.
      * apply Hx, elem_of_app. right. by left.
  - split; rewrite Es, tabs_snoc, Hp, app_nil_r; [by exists l|done].
Qed.

Lemma freevm_loop_ok m pgdir l0 n : forall i (s : machine F),
  pt_wf kend m pgdir l0 -> 0 <= i -> i + Z.of_nat n = 1024 -> freeing m pgdir l0 i (km s) ->
  exists k', freevm_loop kend n pgdir i s = Ret tt (set_km k' s) /\ freeing m pgdir l0 1024 k'.
Proof.
  induction n as [|n IH]; intros i s Hw Hi Hn Hf.
  { exists (km s). rewrite set_km_same. split; [done|]. by replace 1024 with i by lia. }
  destruct (freeing_step m pgdir l0 i (km s) Hw ltac:(lia) Hf) as [El Hs].
  cbn [freevm_loop]. rewrite (bind_km (load32 _) _ s (ld32 m (pgdir + 4 * i)) (km s)), set_km_same
    by (unfold load32, gets; by rewrite El).
  unfold present_pde in Hs. destruct (has (ld32 m (pgdir + 4 * i)) PTE_P) eqn:Hp.
  - destruct Hs as (k1 & E1 & Hf1). rewrite (bind_km _ _ _ _ _ E1).
    destruct (IH (i + 1) (set_km k1 s)) as (k' & E' & Hf'); [done|lia|lia|done|]. by exists k'.
  - rewrite bind_mret. apply IH; auto; lia.
Qed.

Lemma frame_off_dir k l pgdir us x :
  aspace kend (km_mem k) pgdir l (.∈ us) -> same_page x pgdir ->
  off_pages (tables (km_mem k) pgdir ++ (frame (km_mem k) pgdir <$> us)) x.
Proof.
  intros Ha Hx p [Hp|Hp]%elem_of_app Hxp.
  - unfold tables in Hp. fold (tabs (km_mem k) pgdir (seqZ 0 1024)) in Hp.
    revert Hxp. eapply dir_off_tabs; [apply Ha| |done|done]. lia.
  - apply list_elem_of_fmap in Hp as (v & -> & Hv). destruct (as_frame _ _ _ _ _ Ha v Hv) as ((Hpa & _) & _ & Hne).
    apply Hne. destruct (pt_dir _ _ _ _ (as_wf _ _ _ _ _ Ha)) as (Hd & _). by eapply same_page_apart.
Qed.

(** [freevm] gives back exactly the pages of the address space. *)
Lemma freevm_ok (s : machine F) l pgdir us :
  kmem_inv kend (km s) l -> space (km_mem (km s)) pgdir l us ->
  exists k' l', freevm kend pol pgdir s = Ret tt (set_km k' s) /\ kmem_inv kend k' l' /\
    l' ≡ₚ owned (km_mem (km s)) pgdir us ++ l /\
    (forall x, off_pages (owned (km_mem (km s)) pgdir us) x -> km_mem k' x = km_mem (km s) x).
Proof.
  intros Hk [Ha Hnd Hus]. set (m := km_mem (km s)) in *. pose proof (pt_dir _ _ _ _ (as_wf _ _ _ _ _ Ha)) as Hd.
  unfold freevm. rewrite (proj2 (Z.eqb_neq pgdir 0)) by (by eapply page_ok_nonzero).
  assert (Hfu : exists fu, (Z.to_nat (KERNBASE / PGSIZE) + 2)%nat = fu /\ (Z.to_nat ((KERNBASE - 0) / PGSIZE) < fu)%nat).
  { eexists. split; [reflexivity|]. rewrite Z.sub_0_r. lia. }
  destruct Hfu as (fu & Efu & Hfu).
  destruct (dealloc_all fu s l pgdir 0 us) as (k1 & l1 & E1 & [G1 G2 G3 G4 G5]); [|unfold KERNBASE; lia|done..| |].
  { split; [unfold is_u32; lia|done]. }
  { intros v. rewrite Hus. split; intros (Hv & Hr & He); split; auto; split; auto; [|lia]. destruct Hv as [Hv _]. unfold is_u32 in Hv. lia. }
  fold m in G3, G4, G5. rewrite (bind_Ret _ _ s 0 (set_km k1 s)).
  2: { unfold deallocuvm. change (KERNBASE <=? 0) with false. cbv iota. change (PGROUNDUP 0) with 0. rewrite Efu. by rewrite (bind_Ret _ _ _ _ _ E1). }
  destruct (freevm_loop_ok (km_mem k1) pgdir l1 (Z.to_nat NPDENTRIES) 0 (set_km k1 s)) as (k2 & E2 & [(l2 & Hk2 & Hl2) Hm2]); [done|lia|done| |].
  { split; [by exists l1|done]. }
  rewrite (bind_Ret _ _ _ _ _ E2).
  change (tabs (km_mem k1) pgdir (seqZ 0 1024)) with (tables (km_mem k1) pgdir) in Hl2, Hm2.
  rewrite (tables_same m) in Hl2, Hm2 by done.
  assert (Hnd2 : pgdir ∉ l2).
  { rewrite Hl2. intros [Hp|Hp]%elem_of_app; [|by apply (pt_dir_used _ _ _ _ G2)].
    apply elem_of_tabs in Hp as (i & Hi%elem_of_seqZ & Hpi & E).
    by destruct (pt_tab _ _ _ _ (as_wf _ _ _ _ _ Ha) i ltac:(lia) Hpi) as (_ & ? & _). }
  destruct (kfree_inv kend k2 l2 pgdir Hk2 Hd Hnd2) as (k3 & E3 & Hk3 & _ & _ & Hm3).
  exists k3, (pgdir :: l2). split; [|split; [done|split]].
  - by rewrite (km_run _ (set_km k2 (set_km k1 s)) _ _ E3).
  - rewrite Hl2, G3. unfold owned. simpl. by rewrite !app_assoc.
  - intros x Hx. unfold owned in Hx. rewrite Hm3, Hm2, G5; [done| | |].
    + intros p Hp. apply Hx. by right.
    + intros p Hp. apply Hx. right. apply elem_of_app. by left.
    + apply Hx. by left.
Qed.

(** C16: [freevm] gives back exactly what an address space is made of: its frames,
    its page tables and its directory go to the free list, each once; swapped
    pages have no frame to give.  No other memory changes, and it always
    returns. *)
Theorem freevm_frees (s : machine F) l pgdir us :
  kmem_inv kend (km s) l -> space (km_mem (km s)) pgdir l us ->
  exists k' l', freevm kend pol pgdir s = Ret tt (set_km k' s) /\ kmem_inv kend k' l' /\
    l' ≡ₚ owned (km_mem (km s)) pgdir us ++ l /\
    (forall x, off_pages (owned (km_mem (km s)) pgdir us) x -> km_mem k' x = km_mem (km s) x).
Proof. apply freevm_ok. Qed.

End uvm.

(** ** Witness: a process with page 1 in memory and page 2 swapped out *)

Definition wit_dir : Z := 0x80300000.
Definition wit_tree : mem :=
  st32 (st32 (st32 (fun _ => 0) 0x80300000 0x301007) 0x80301004 0x400007) 0x80301008 0x206.
Definition wit_machine (m : mem) (fl : Z) : machine (gmap Z (list Z)) :=
  Machine (Kmem m true fl 0) ∅ (fun _ => Proc 1 wit_dir None [] [] 0 0 0) 0 0x300000.

(** A memory with this tree in it, whatever else it holds. *)
Definition has_tree (m : mem) : Prop := forall x, 0x80300000 <= x < 0x80302000 -> m x = wit_tree x.

Section wit.
Variable m : mem.
Hypothesis Hm : has_tree m.

Lemma wit_ld a : 0x80300000 <= a -> a + 4 <= 0x80302000 -> ld32 m a = ld32 wit_tree a.
Proof. intros H1 H2. apply ld32_ext. intros x Hx. apply Hm. lia. Qed.

Lemma tree_pde i : 0 <= i < 1024 -> present_pde m wit_dir i = bool_decide (i = 0).
Proof.
  intros Hi. unfold present_pde, wit_dir. rewrite wit_ld by lia. unfold wit_tree.
  case_bool_decide as E; [subst; by vm_compute|]. by rewrite !ld32_st32_ne by lia.
Qed.

Lemma tree_table : table_of m wit_dir 0 = 0x80301000.
Proof. unfold table_of, wit_dir. rewrite wit_ld by lia. by vm_compute. Qed.

Lemma tree_pte v : is_vpa v -> pte_of m wit_dir v = if decide (v = 0x1000) then 0x400007 else if decide (v = 0x2000) then 0x206 else 0.
Proof.
  intros [Hu Ha]. apply aligned_div in Ha. unfold pte_of, pte_addr. rewrite tree_pde by apply PDX_range.
  pose proof (PTX_range v) as Ht. rewrite PDX_spec in *. rewrite PTX_spec in *.
  assert (Hd : 0 <= v / 4194304 < 1024).
  { unfold is_u32 in Hu. split; [apply Z.div_pos; lia|apply Z.div_lt_upper_bound; lia]. }
  rewrite Z.mod_small by done. case_bool_decide as E.
  - assert (Hv : v / 4096 < 1024) by (apply Z.div_lt_upper_bound; [lia|]; apply Z.div_small_iff in E; lia).
    rewrite Z.mod_small in * by (split; [apply Z.div_pos; unfold is_u32 in Hu; lia|done]).
    rewrite E, tree_table, wit_ld by lia. unfold wit_tree.
    destruct (decide (v = 0x1000)) as [->|H1]; [by vm_compute|].
    destruct (decide (v = 0x2000)) as [->|H2]; [by vm_compute|]. by rewrite !ld32_st32_ne by lia.
  - rewrite !decide_False; [done|..]; intros ->; by vm_compute in E.
Qed.

Lemma wit_frame : frame m wit_dir 0x1000 = 0x80400000.
Proof. unfold frame. rewrite tree_pte by (split; [unfold is_u32; lia|done]). by vm_compute. Qed.

Lemma tree_aspace (l : list Z) (R : Z -> Prop) :
  (forall v, R v -> v = 0x1000) -> (forall q, q ∈ l -> 0x80800000 <= q) -> aspace wit_end m wit_dir l R.
Proof.
  intros HR Hl. assert (Hpg : forall q, q ∈ [0x80300000; 0x80301000; 0x80400000] -> page_ok wit_end q /\ (q ∉ l)).
  { intros q Hq. split; [|intros Hin; apply Hl in Hin; set_solver by lia].
    unfold page_ok, wit_end, KERNBASE, PHYSTOP.
    repeat (apply elem_of_cons in Hq as [->|Hq]; [split_and!; [done|lia..]|]). by apply not_elem_of_nil in Hq. }
  split; [split| | | | |].
  - apply Hpg. by left.
  - apply Hpg. by left.
  - intros i Hi. rewrite tree_pde by done. intros ->%bool_decide_eq_true. rewrite tree_table.
    split; [apply Hpg; set_solver|]. split; [done|apply Hpg; set_solver].
  - intros i j Hi Hj. rewrite !tree_pde by done. by intros ->%bool_decide_eq_true ->%bool_decide_eq_true.
  - intros v ->%HR. split; [unfold is_u32; lia|done].
  - intros v ->%HR. rewrite tree_pte by (split; [unfold is_u32; lia|done]). by vm_compute.
  - intros v ->%HR. rewrite wit_frame. split; [apply Hpg; set_solver|]. split; [apply Hpg; set_solver|done].
  - intros v i ->%HR Hi. rewrite wit_frame, tree_pde by done. intros ->%bool_decide_eq_true. by rewrite tree_table.
  - by intros v w ->%HR ->%HR.
Qed.

End wit.

Lemma wit_tree_ok : mem_ok wit_tree.
Proof. unfold wit_tree. do 3 apply st32_ok. apply zero_mem_ok. Qed.

Lemma wit_space : space wit_end wit_tree wit_dir [] [0x1000].
Proof.
  assert (Hm : has_tree wit_tree) by done. split.
  - apply tree_aspace; [done|by intros v Hv%list_elem_of_singleton|intros q Hq; by apply not_elem_of_nil in Hq].
  - apply NoDup_singleton.
  - intros v. rewrite list_elem_of_singleton. split.
    + intros ->. split; [split; [unfold is_u32; lia|done]|]. split; [done|].
      rewrite (tree_pte _ Hm) by (split; [unfold is_u32; lia|done]). by vm_compute.
    + intros (Hv & _ & Hr). rewrite (tree_pte _ Hm v Hv) in Hr. by repeat case_decide.
Qed.

Lemma wit_owned : owned wit_tree wit_dir [0x1000] = [0x80300000; 0x80301000; 0x80400000].
Proof.
  assert (Hm : has_tree wit_tree) by done. unfold owned, tables.
  assert (filter (fun i => present_pde wit_tree wit_dir i = true) (seqZ 0 1024) = [0]) as -> by (by vm_compute).
  cbn [fmap list_fmap app]. by rewrite (tree_table _ Hm), (wit_frame _ Hm).
Qed.

Lemma freevm_frees_witness :
  exists k' l', freevm wit_end NFU_SWAP wit_dir (wit_machine wit_tree 0) = Ret tt (set_km k' (wit_machine wit_tree 0)) /\
    kmem_inv wit_end k' l' /\ l' ≡ₚ [0x80300000; 0x80301000; 0x80400000].
Proof.
  destruct (freevm_frees wit_end NFU_SWAP (wit_machine wit_tree 0) [] wit_dir [0x1000]) as (k' & l' & E & Hk & Hl & _).
  - split; [apply wit_tree_ok|constructor|constructor].
  - apply wit_space.
  - exists k', l'. split; [exact E|]. split; [exact Hk|]. clear E Hk. rewrite Hl, app_nil_r.
    change (km_mem (km (wit_machine wit_tree 0))) with wit_tree. rewrite wit_owned. reflexivity.
Defined.
