(* ===== verification/UvmCopy.v ===== *)
(** Building and copying address spaces: [setupkvm] and [copyuvm].

    [building] is an address space under construction from the free list [l0]:
    its pages and the remaining free pages are exactly [l0], and nothing outside
    [l0] has changed.  Every way out of the routines either completes the space
    or returns all of [l0] through [freevm]. *)

From S2P Require Import Prelude Memory Kalloc Vm Space Swap Uvm UvmCorrect.

(** The entries the kernel part of every space has, from the table [kmap]. *)
Definition kspan (e : Z * Z * Z * Z) : Z := let '(virt, ps, pe, perm) := e in u32 (pe - ps).

Definition kentry (e : Z * Z * Z * Z) (v : Z) : Z :=
  let '(virt, ps, pe, perm) := e in Z.lor (Z.lor (ps + (4096 * (v / 4096) - virt)) perm) PTE_P.

Fixpoint overlay (ks : list (Z * Z * Z * Z)) (g : Z -> Z) : Z -> Z :=
  match ks with
  | [] => g
  | e :: ks =>
      overlay ks (fun v => if (e.1.1.1 <=? v) && (v <? e.1.1.1 + kspan e) then kentry e v else g v)
  end.

Definition kernel_pte (data v : Z) : Z := overlay (kmap data) (fun _ => 0) v.

Section build.
Context {F : Type} {ST : SwapStore F}.
Context (kend data : Z) (pol : policy).

(** ** Growing the tree of a directory *)

Record grown (k : kmem) (l : list Z) (d : Z) (k' : kmem) (l' : list Z) : Prop := {
  gr_inv : kmem_inv kend k' l';
  gr_wf : pt_wf kend (km_mem k') d l';
  gr_sub q : q ∈ l' -> q ∈ l;
  gr_tab i : 0 <= i < 1024 -> present_pde (km_mem k') d i = true ->
    (present_pde (km_mem k) d i = true /\ table_of (km_mem k') d i = table_of (km_mem k) d i) \/
    table_of (km_mem k') d i ∈ l;
  gr_frame x : outside (km_mem k) d l x -> km_mem k' x = km_mem k x;
  gr_tables : tables (km_mem k') d ++ l' ≡ₚ tables (km_mem k) d ++ l;
}.

Lemma mapped_grown k l d a pa perm n k' l' : mapped kend k l d a pa perm n k' l' -> grown k l d k' l'.
Proof. intros [H1 H2 (u & -> & _) H4 H5 H6 H7]. split; auto. intros q Hq. apply elem_of_app. by right. Qed.

Lemma walk_grown k l d va k' l' : walk_ok kend k l d va k' l' -> grown k l d k' l'.
Proof.
  intros [H1 H2 H3 H4 H5 H6 H7 H8]. split; auto.
  intros q Hq. destruct H5 as [->|[p ->]]; [done|]. by right.
Qed.

Lemma store_grown k l d va v :
  kmem_inv kend k l -> pt_wf kend (km_mem k) d l -> present_pde (km_mem k) d (PDX va) = true ->
  grown k l d (with_mem (fun m => st32 m (pte_addr (km_mem k) d va) v) k) l.
Proof.
  intros Hk Hw Hp. destruct (store_pte_inv kend k l d va v Hk Hw Hp) as (Hk' & Hw' & Hv & Ht).
  split; [done|done|done| | |].
  - intros i Hi. destruct (Ht i Hi) as [-> ->]. auto.
  - intros x (Hx1 & Hx2 & Hx3). cbn. apply st32_other.
    destruct (pte_addr_in_page (km_mem k) d va) as [H1 H2]. pose proof (Hx2 _ (PDX_range va) Hp) as Hn.
    clear -H1 H2 Hn. unfold same_page in *. lia.
  - by rewrite (tables_same (km_mem k)).
Qed.

(** Frames of the space are outside its tree and the free pages. *)
Lemma frame_outside m d l R v x :
  aspace kend m d l R -> Forall (page_ok kend) l -> R v -> same_page x (frame m d v) -> outside m d l x.
Proof.
  intros Ha Hl Hv Hx. destruct (as_frame _ _ _ _ _ Ha v Hv) as ((Hal & _) & Hn & Hne).
  pose proof (as_wf _ _ _ _ _ Ha) as Hw. split_and!.
  - intros Hx'. apply Hne. eapply same_page_apart; [done|apply Hw|done|done].
  - intros i Hi Hp Hx'. destruct (pt_tab _ _ _ _ Hw i Hi Hp) as ((Ht & _) & _).
    apply (as_tab _ _ _ _ _ Ha v i Hv Hi Hp). by eapply same_page_apart.
  - intros p Hp Hx'. rewrite Forall_forall in Hl. destruct (Hl p Hp) as (Hpa & _).
    apply Hn. assert (frame m d v = p) as -> by (by eapply same_page_apart). done.
Qed.

Lemma inv_pages k l : kmem_inv kend k l -> Forall (page_ok kend) l.
Proof. intros Hk. eapply freelist_pages, Hk. Qed.

Section grow.
Context (k : kmem) (l : list Z) (d : Z) (k' : kmem) (l' us : list Z).
Hypothesis Hk : kmem_inv kend k l.
Hypothesis Ha : aspace kend (km_mem k) d l (.∈ us).
Hypothesis Hg : grown k l d k' l'.
Hypothesis Hv : forall v, v ∈ us -> pte_of (km_mem k') d v = pte_of (km_mem k) d v.

Lemma grown_frame v : v ∈ us -> frame (km_mem k') d v = frame (km_mem k) d v.
Proof. intros H. unfold frame. by rewrite Hv. Qed.

Lemma grown_frames : frame (km_mem k') d <$> us = frame (km_mem k) d <$> us.
Proof. apply list_fmap_ext. intros n v H%list_elem_of_lookup_2. by apply grown_frame. Qed.

Lemma grown_data v : v ∈ us -> page_data (km_mem k') d v = page_data (km_mem k) d v.
Proof.
  intros H. unfold page_data. rewrite grown_frame by done. apply bytes_at_ext. intros i Hi.
  apply (gr_frame _ _ _ _ _ Hg). eapply frame_outside; [exact Ha|by eapply inv_pages|exact H|].
  clear -Hi. unfold same_page, PGSIZE in *. lia.
Qed.

Lemma grown_aspace : aspace kend (km_mem k') d l' (.∈ us).
Proof.
  split; [apply Hg|apply Ha| | | |].
  - intros v H. rewrite Hv by done. by apply Ha.
  - intros v H. rewrite grown_frame by done. destruct (as_frame _ _ _ _ _ Ha v H) as (?&Hn&?).
    split; [done|split; [|done]]. intros Hin. by apply Hn, (gr_sub _ _ _ _ _ Hg).
  - intros v i H Hi Hp. rewrite grown_frame by done.
    destruct (gr_tab _ _ _ _ _ Hg i Hi Hp) as [[Hp' ->]|Hin]; [by apply Ha|].
    intros E. rewrite E in Hin. by destruct (as_frame _ _ _ _ _ Ha v H) as (_&?&_).
  - intros v w H1 H2. rewrite !grown_frame by done. by apply Ha.
Qed.

(** A page that was unused before is unused after. *)
Lemma grown_unused p : unused kend (km_mem k) d l (.∈ us) p -> unused kend (km_mem k') d l' (.∈ us) p.
Proof.
  intros [H1 H2 H3 H4 H5]. split; [done| |done| |].
  - intros Hin. by apply H2, (gr_sub _ _ _ _ _ Hg).
  - intros i Hi Hp. destruct (gr_tab _ _ _ _ _ Hg i Hi Hp) as [[Hp' ->]|Hin]; [by apply H4|]. by intros <-.
  - intros v H. rewrite grown_frame by done. by apply H5.
Qed.

End grow.

Lemma shuffle {A} (T T' U hs l l' : list A) p :
  T' ++ l' ≡ₚ T ++ l -> (T' ++ p :: U) ++ hs ++ l' ≡ₚ (T ++ U) ++ p :: hs ++ l.
Proof.
  intros E. rewrite <- !Permutation_middle, <- app_comm_cons. constructor.
  rewrite <- !app_assoc, !(app_assoc U hs). rewrite !(Permutation_app_swap_app T), !(Permutation_app_swap_app T').
  by rewrite E.
Qed.

(** ** An address space under construction *)

(** [hs] are pages taken from the free list and not yet part of the space. *)
Record building (m0 : mem) (l0 : list Z) (k : kmem) (d : Z) (l us hs : list Z) : Prop := {
  bd_inv : kmem_inv kend k l;
  bd_space : space kend (km_mem k) d l us;
  bd_list : owned (km_mem k) d us ++ hs ++ l ≡ₚ l0;
  bd_frame x : off_pages l0 x -> km_mem k x = m0 x;
}.

Section building.
Context (m0 : mem) (l0 : list Z).
Hypothesis Hnd : NoDup l0.
Hypothesis Hok : Forall (page_ok kend) l0.

Lemma bd_unused k d l us hs p : building m0 l0 k d l us hs -> p ∈ hs -> unused kend (km_mem k) d l (.∈ us) p.
Proof.
  intros [Hk Hs Hl _] Hp. rewrite <- Hl in Hnd, Hok. unfold owned in Hnd, Hok.
  apply NoDup_app in Hnd as (_ & H1 & H2). apply NoDup_app in H2 as (_ & H2 & _).
  assert (Hno : forall q, q ∈ owned (km_mem k) d us -> q <> p).
  { intros q Hq ->. apply (H1 p Hq). apply elem_of_app. by left. }
  split.
  - rewrite Forall_forall in Hok. apply Hok. apply elem_of_app. right. apply elem_of_app. by left.
  - by apply H2.
  - intros ->. by apply (Hno d); [left|].
  - intros i Hi Hpi. apply Hno. right. apply elem_of_app. left. by apply elem_of_tables.
  - intros v Hv. apply Hno. right. apply elem_of_app. right. by apply list_elem_of_fmap_2.
Qed.

Lemma bd_outside k d l us hs x : building m0 l0 k d l us hs -> off_pages l0 x -> outside (km_mem k) d l x.
Proof.
  intros [Hk Hs Hl _] Hx. apply (off_pages_perm _ _ _ (symmetry Hl)) in Hx. split_and!.
  - apply Hx. by left.
  - intros i Hi Hp. apply Hx. apply elem_of_app. left. right. apply elem_of_app. left. by apply elem_of_tables.
  - intros p Hp. apply Hx. apply elem_of_app. right. apply elem_of_app. by right.
Qed.

Lemma bd_keep k d l us hs k' l' :
  building m0 l0 k d l us hs -> grown k l d k' l' ->
  (forall v, v ∈ us -> pte_of (km_mem k') d v = pte_of (km_mem k) d v) ->
  (forall v, is_vpa v -> v < KERNBASE -> resident (pte_of (km_mem k') d v) = resident (pte_of (km_mem k) d v)) ->
  building m0 l0 k' d l' us hs.
Proof.
  intros Hb Hg Hv Hr. pose proof Hb as [Hk [Ha Hn Hu] Hl Hm]. split.
  - apply Hg.
  - split; [by eapply grown_aspace|done|]. intros v. rewrite Hu. split; intros (H1&H2&H3); (split; [done|split; [done|]]).
    + by rewrite Hr.
    + by rewrite <- Hr.
  - rewrite <- Hl. unfold owned. rewrite (grown_frames k d k' us Hv). simpl. constructor.
    rewrite <- !app_assoc, !(Permutation_app_swap_app _ hs), !app_assoc.
    rewrite <- !(app_assoc _ (tables _ _)), <- !app_assoc.
    apply Permutation_app_head. rewrite !(Permutation_app_swap_app (tables _ _)).
    apply Permutation_app_head. apply Hg.
  - intros x Hx. rewrite (gr_frame _ _ _ _ _ Hg), Hm; [done|done|]. by eapply bd_outside.
Qed.

Lemma space_same m m' d l l' us :
  space kend m d l us -> (forall x, in_space m d (.∈ us) x -> m' x = m x) ->
  (forall q, q ∈ l' -> q ∈ l \/ unused kend m d l (.∈ us) q) ->
  space kend m' d l' us /\ pt_same m m' d.
Proof.
  intros [Ha Hn Hu] Hm Hl. destruct (aspace_frame kend m m' d l l' _ Ha Hm Hl) as (Ha' & Hs & _).
  split; [|done]. split; [done|done|]. intros v. by rewrite Hu, (pt_same_pte_of _ _ _ _ Hs).
Qed.

Lemma owned_same m m' d us : pt_same m m' d -> owned m' d us = owned m d us.
Proof.
  intros Hs. unfold owned. f_equal. f_equal.
  - apply tables_same. intros i Hi. by apply pt_same_tab.
  - apply list_fmap_ext. intros n v _. by apply pt_same_frame.
Qed.

Lemma bd_alloc k d p l us hs k1 :
  building m0 l0 k d (p :: l) us hs -> kmem_inv kend k1 l -> km_mem k1 = km_mem k ->
  building m0 l0 k1 d l us (p :: hs).
Proof.
  intros [Hk Hs Hl Hm] Hk1 Em. split; [done| | |]; rewrite Em; [|rewrite <- Hl|done].
  - apply (space_same (km_mem k) _ d (p :: l) l us Hs); [done|]. intros q Hq. left. by right.
  - apply Permutation_app_head. simpl. by rewrite Permutation_middle.
Qed.

(** Writing into a held page. *)
Lemma bd_write k d l us hs p f :
  building m0 l0 k d l us hs -> p ∈ hs -> mem_ok (f (km_mem k)) ->
  (forall x, ~ same_page x p -> f (km_mem k) x = km_mem k x) ->
  building m0 l0 (with_mem f k) d l us hs /\ pt_same (km_mem k) (f (km_mem k)) d.
Proof.
  intros Hb Hp Hmo Hf. pose proof (bd_unused _ _ _ _ _ _ Hb Hp) as Hun. pose proof Hb as [Hk Hs Hl Hm].
  destruct (space_same (km_mem k) (f (km_mem k)) d l l us Hs) as [Hs' Hpt].
  { intros x Hx. apply Hf. intros Hxp. eapply (unused_outside kend); [apply Hs|exact Hun|exact Hxp|exact Hx]. }
  { by left. }
  split; [|done]. split; [|done| |].
  - eapply kmem_inv_frame; [exact Hk|done|done|]. intros q Hq. apply ld32_ext. intros x Hx. apply Hf. intros Hxp.
    apply (un_free _ _ _ _ _ _ Hun). assert (p = q) as ->; [|done]. eapply same_page_apart; [apply Hun| |exact Hxp|].
    + pose proof (inv_pages _ _ Hk) as Hpg. rewrite Forall_forall in Hpg. by apply Hpg.
    + clear -Hx. unfold same_page, PGSIZE. lia.
  - change (km_mem (with_mem f k)) with (f (km_mem k)). by rewrite (owned_same _ _ _ _ Hpt).
  - intros x Hx. cbn. rewrite Hf; [by apply Hm|]. apply Hx. rewrite <- Hl. apply elem_of_app. right. apply elem_of_app. by left.
Qed.

(** Giving a held page back. *)
Lemma bd_free k d l us hs p :
  building m0 l0 k d l us (p :: hs) ->
  exists k', kfree kend p k = Ret tt k' /\ building m0 l0 k' d (p :: l) us hs.
Proof.
  intros Hb. pose proof (bd_unused _ _ _ _ _ p Hb ltac:(left)) as Hun. pose proof Hb as [Hk Hs Hl Hm].
  destruct (kfree_inv kend k l p Hk (un_page _ _ _ _ _ _ Hun) (un_free _ _ _ _ _ _ Hun)) as (k' & E & Hk' & _ & _ & Hm').
  exists k'. split; [done|].
  destruct (space_same (km_mem k) (km_mem k') d l (p :: l) us Hs) as [Hs' Hpt].
  { intros x Hx. apply Hm'. intros Hxp. eapply (unused_outside kend); [apply Hs|exact Hun|exact Hxp|exact Hx]. }
  { intros q [->|Hq]%elem_of_cons; auto. }
  split; [done|done| |].
  - rewrite (owned_same _ _ _ _ Hpt), <- Hl. apply Permutation_app_head. simpl. by rewrite Permutation_middle.
  - intros x Hx. rewrite Hm'; [by apply Hm|]. apply Hx. rewrite <- Hl. apply elem_of_app. right. by left.
Qed.

(** A new resident page backed by a held page. *)
Lemma bd_map k d l us hs p v k' l' :
  building m0 l0 k d l us (p :: hs) -> grown k l d k' l' -> is_vpa v -> v < KERNBASE -> (v ∉ us) ->
  (forall w, is_vpa w -> w < KERNBASE -> w <> v -> pte_of (km_mem k') d w = pte_of (km_mem k) d w) ->
  resident (pte_of (km_mem k') d v) = true -> frame (km_mem k') d v = p ->
  building m0 l0 k' d l' (v :: us) hs.
Proof.
  intros Hb Hg Hv Hvk Hn Hw Hr Hf. pose proof (bd_unused _ _ _ _ _ p Hb ltac:(left)) as Hun.
  pose proof Hb as [Hk [Ha Hnu Hu] Hl Hm].
  assert (Hsame : forall w, w ∈ us -> pte_of (km_mem k') d w = pte_of (km_mem k) d w).
  { intros w Hwu. destruct (proj1 (Hu w) Hwu) as (? & ? & _). apply Hw; [done|done|]. by intros ->. }
  pose proof (grown_aspace k l d k' l' us Ha Hg Hsame) as Ha'.
  pose proof (grown_unused k l d k' l' us Hg Hsame p Hun) as [U1 U2 U3 U4 U5].
  split; [apply Hg| | |].
  - split; [| |].
    + split; [apply Hg| | | | |].
      * intros w [->|Hwu]%elem_of_cons; [done|by apply Ha'].
      * intros w [->|Hwu]%elem_of_cons; [|by apply Ha'].
        unfold resident in Hr. by apply andb_true_iff in Hr as [? _].
      * intros w [->|Hwu]%elem_of_cons; [by rewrite Hf|by apply Ha'].
      * intros w i [->|Hwu]%elem_of_cons Hi Hpi; [rewrite Hf; by apply U4|].
        by apply (as_tab _ _ _ _ _ Ha').
      * intros w1 w2 [->|H1]%elem_of_cons [->|H2]%elem_of_cons E; [done| | |by apply (as_inj _ _ _ _ _ Ha')].
        -- rewrite Hf in E. by destruct (U5 w2 H2).
        -- rewrite Hf in E. by destruct (U5 w1 H1).
    + by apply NoDup_cons.
    + intros w. rewrite elem_of_cons, Hu. destruct (decide (w = v)) as [->|Hne]; [naive_solver|].
      split; [intros [?|(H1&H2&H3)]; [done|]; by rewrite Hw|intros (H1&H2&H3); right; by rewrite <- Hw].
  - rewrite <- Hl. unfold owned. rewrite fmap_cons, Hf, (grown_frames k d k' us Hsame).
    simpl. constructor. apply shuffle, Hg.
  - intros x Hx. rewrite (gr_frame _ _ _ _ _ Hg), Hm; [done|done|]. by eapply bd_outside.
Qed.

End building.

(** ** mappages, whether memory is enough or not *)

Lemma mappages_any k l d va size pa perm :
  kmem_inv kend k l -> pt_wf kend (km_mem k) d l ->
  va mod PGSIZE = 0 -> 0 <= va -> 0 < size -> size mod PGSIZE = 0 -> va + size <= 2 ^ 32 ->
  0 <= pa -> pa + size <= 2 ^ 32 -> 0 <= perm < 4096 ->
  (forall v, va <= v < va + size -> has (pte_of (km_mem k) d v) PTE_P = false) ->
  exists j k' l', mapped kend k l d va pa perm j k' l' /\
    (mappages d va size pa perm k = Ret 0 k' /\ PGSIZE * Z.of_nat j = size \/
     mappages d va size pa perm k = Ret (-1) k' /\ PGSIZE * Z.of_nat j < size /\ l' = []).
Proof.
  intros Hk Hw Hal Hva Hsz Hsal Hb Hpa Hpb Hperm Hfree.
  pose proof (aligned_div va Hal) as Ev. pose proof (aligned_div size Hsal) as Es.
  set (a := va / 4096) in *. set (q := size / 4096) in *. assert (Hq : 0 < q) by lia.
  assert (El : (va + size - 1) / 4096 = a + q - 1).
  { symmetry. apply Z.div_unique with 4095; lia. }
  unfold mappages. rewrite !PGROUNDDOWN_spec by (unfold is_u32; lia). fold a. rewrite El.
  change (PGSIZE - 1) with 0xFFF. rewrite land_fff. change (size mod 4096) with (size mod PGSIZE). rewrite Hsal.
  cbn [Z.eqb negb]. unfold PGSIZE.
  assert (En : Z.to_nat (u32 (4096 * (a + q - 1) - 4096 * a) / 4096 + 1) = S (Z.to_nat (q - 1))).
  { rewrite u32_id by (unfold is_u32; lia). replace (4096 * (a + q - 1) - 4096 * a) with ((q - 1) * 4096) by lia.
    rewrite Z.div_mul by lia. lia. }
  rewrite En. rewrite <- Ev.
  destruct (mappages_loop_any kend (Z.to_nat (q - 1)) k l d va (4096 * (a + q - 1)) pa perm)
    as [(k' & l' & E & Hm)|(j & k' & E & Hj & Hm)]; auto; unfold PGSIZE; try lia.
  - intros i Hi. apply Hfree. lia.
  - exists (S (Z.to_nat (q - 1))), k', l'. split; [done|]. left. split; [done|lia].
  - exists j, k', []. split; [done|]. right. split; [done|]. split; [lia|done].
Qed.

(** ** setupkvm *)

(** What a caller of a failed construction gets: all pages are free again. *)
Definition restored (m0 : mem) (l0 : list Z) (k : kmem) : Prop :=
  exists l, kmem_inv kend k l /\ l ≡ₚ l0 /\ forall x, off_pages l0 x -> km_mem k x = m0 x.

Definition view (k : kmem) (d : Z) (g : Z -> Z) : Prop := forall v, is_u32 v -> pte_of (km_mem k) d v = g v.

(** Entries of the kernel map, ascending from [lo]. *)
Fixpoint kmap_ok (lo : Z) (ks : list (Z * Z * Z * Z)) : Prop :=
  match ks with
  | [] => True
  | (virt, ps, pe, perm) as e :: ks =>
      lo <= virt /\ virt mod PGSIZE = 0 /\ 0 < kspan e /\ kspan e mod PGSIZE = 0 /\ virt + kspan e <= 2 ^ 32 /\
      0 <= ps /\ ps + kspan e <= 2 ^ 32 /\ 0 <= perm < 4096 /\ kmap_ok (virt + kspan e) ks
  end.

Section setup.
Context (m0 : mem) (l0 : list Z).
Hypothesis Hnd : NoDup l0.
Hypothesis Hok : Forall (page_ok kend) l0.

Lemma freevm_restores (s : machine F) d l us :
  building m0 l0 (km s) d l us [] ->
  exists k', freevm kend pol d s = Ret tt (set_km k' s) /\ restored m0 l0 k'.
Proof.
  intros [Hk Hs Hl Hm]. destruct (freevm_ok kend pol s l d us Hk Hs) as (k' & l' & E & Hk' & Hl' & Hm').
  exists k'. split; [done|]. exists l'. split; [done|]. split; [by rewrite Hl'|].
  intros x Hx. rewrite Hm'; [by apply Hm|]. intros p Hp. apply Hx. rewrite <- Hl. apply elem_of_app. by left.
Qed.

Lemma kernel_keep k d l us hs a pa perm j k' l' :
  building m0 l0 k d l us hs -> mapped kend k l d a pa perm j k' l' -> KERNBASE <= a -> building m0 l0 k' d l' us hs.
Proof.
  intros Hb Hm Ha.
  assert (Hv : forall v, is_vpa v -> v < KERNBASE -> pte_of (km_mem k') d v = pte_of (km_mem k) d v).
  { intros v [Hvu _] Hvk. rewrite (mp_view _ _ _ _ _ _ _ _ _ _ Hm v Hvu).
    pose proof (Z.mul_div_le v 4096 ltac:(lia)). by rewrite decide_False by lia. }
  eapply bd_keep; [done|by eapply mapped_grown| |].
  - intros v Hu. destruct (proj1 (sp_user _ _ _ _ _ (bd_space _ _ _ _ _ _ _ Hb) v) Hu) as (? & ? & _). auto.
  - intros v H1 H2. by rewrite Hv.
Qed.

Lemma length_owned m d us : (length (owned m d us) <= 1025 + length us)%nat.
Proof.
  unfold owned, tables. simpl. rewrite length_app, !length_fmap.
  pose proof (length_filter (fun i => present_pde m d i = true) (seqZ 0 1024)) as Hf. rewrite length_seqZ in Hf. lia.
Qed.

Lemma built_all k d l us : building m0 l0 k d l us [] -> (length l0 <= 1025 + length us + length l)%nat.
Proof.
  intros [_ _ Hl _]. rewrite <- Hl, !length_app. pose proof (length_owned (km_mem k) d us). cbn [length]. lia.
Qed.

Lemma in_pages a sz v : a mod 4096 = 0 -> sz mod 4096 = 0 ->
  (a <= 4096 * (v / 4096) < a + sz) <-> (a <= v < a + sz).
Proof.
  intros Ha%aligned_div Hs%aligned_div. pose proof (Z.div_mod v 4096 ltac:(lia)).
  pose proof (Z.mod_pos_bound v 4096 ltac:(lia)). lia.
Qed.

Lemma setupkvm_loop_ok ks : forall lo g (s : machine F) d l,
  building m0 l0 (km s) d l [] [] -> KERNBASE <= lo -> kmap_ok lo ks ->
  view (km s) d g -> (forall v, lo <= v -> g v = 0) ->
  exists k',
    (setupkvm_loop kend pol ks d s = Ret true (set_km k' s) /\ view k' d (overlay ks g) /\
       exists l', building m0 l0 k' d l' [] []) \/
    (setupkvm_loop kend pol ks d s = Ret false (set_km k' s) /\ restored m0 l0 k' /\ (length l0 <= 1025)%nat).
Proof.
  induction ks as [|[[[virt ps] pe] perm] ks IH]; intros lo g s d l Hb Hlo Hks Hv Hg.
  { exists (km s). left. rewrite set_km_same. eauto. }
  cbn [kmap_ok] in Hks. unfold kspan in Hks. set (sz := u32 (pe - ps)) in *.
  destruct Hks as (H1 & H2 & H3 & H4 & H5 & H6 & H7 & H8 & Hks).
  pose proof (bd_space _ _ _ _ _ _ _ Hb) as Hs.
  destruct (mappages_any (km s) l d virt sz ps perm) as (j & k1 & l1 & Hm & Hout); try done.
  { apply Hb. } { apply Hs. } { unfold KERNBASE in *. lia. }
  { intros v Hvr. rewrite Hv by (unfold is_u32, KERNBASE in *; lia). by rewrite Hg by lia. }
  pose proof (kernel_keep _ _ _ _ _ _ _ _ _ _ _ Hb Hm ltac:(lia)) as Hb1.
  cbn [setupkvm_loop]. fold sz. destruct Hout as [[E Ej]|(E & _ & ->)].
  - rewrite (bind_km _ _ _ _ _ E). cbn [Z.ltb Z.compare].
    destruct (IH (virt + sz) (fun v => if (virt <=? v) && (v <? virt + sz) then kentry (virt, ps, pe, perm) v else g v)
      (set_km k1 s) d l1) as (k' & Hk'); [done|lia|done| | |].
    + intros v Hvu. cbn. rewrite (mp_view _ _ _ _ _ _ _ _ _ _ Hm v Hvu), Ej.
      pose proof (in_pages virt sz v H2 H4) as Hin. unfold kentry.
      destruct (Z.leb_spec virt v), (Z.ltb_spec v (virt + sz)); cbn [andb];
        first [rewrite decide_True by lia; done | rewrite decide_False by lia; by apply Hv].
    + intros v Hvr. rewrite (proj2 (Z.ltb_ge _ _)), andb_false_r by lia. apply Hg. lia.
    + exists k'. exact Hk'.
  - rewrite (bind_km _ _ _ _ _ E). cbn [Z.ltb Z.compare].
    destruct (freevm_restores (set_km k1 s) d [] [] Hb1) as (k' & E' & Hr). exists k'. right.
    rewrite (bind_Ret _ _ _ _ _ E'). split; [done|]. split; [done|]. by apply built_all in Hb1; cbn [length] in Hb1; lia.
Qed.

(** The last loop of [setupkvm] only clears bits the walk does not look at. *)
Lemma clear_bit e : is_u32 e ->
  let e' := u32 (Z.land e (Z.lnot PTE_U)) in has e' PTE_P = has e PTE_P /\ PTE_ADDR e' = PTE_ADDR e.
Proof.
  intros He e'. assert (E : e' = Z.land e (Z.lnot PTE_U)).
  { unfold e', u32. rewrite <- Z.land_ones by lia. rewrite <- Z.land_assoc, (Z.land_comm (Z.lnot _)), Z.land_assoc.
    rewrite Z.land_ones by lia. by rewrite Z.mod_small. }
  rewrite E. split.
  - unfold has. by rewrite <- Z.land_assoc.
  - unfold PTE_ADDR. rewrite (u32_id e) by done. fold e'. rewrite E. by rewrite <- Z.land_assoc.
Qed.

Lemma space_ext m m' d l us :
  (forall i, 0 <= i < 1024 -> present_pde m' d i = present_pde m d i /\ table_of m' d i = table_of m d i) ->
  (forall v, pte_of m' d v = pte_of m d v) -> space kend m d l us -> space kend m' d l us.
Proof.
  intros Ht Hv [[[W1 W2 W3 W4] A2 A3 A4 A5 A6] Hn Hu].
  assert (Hf : forall v, frame m' d v = frame m d v) by (intros v; unfold frame; by rewrite Hv).
  split; [|done|intros v; by rewrite Hv].
  split; [split; [done|done| |]|done| | | |].
  - intros i Hi. destruct (Ht i Hi) as [-> ->]. by apply W3.
  - intros i j Hi Hj. destruct (Ht i Hi) as [-> ->], (Ht j Hj) as [-> ->]. by apply W4.
  - intros v H. rewrite Hv. by apply A3.
  - intros v H. rewrite Hf. by apply A4.
  - intros v i H Hi. rewrite Hf. destruct (Ht i Hi) as [-> ->]. by apply A5.
  - intros v w H1 H2. rewrite !Hf. by apply A6.
Qed.

Lemma clear_step k d l us hs i :
  building m0 l0 k d l us hs -> 0 <= i < 1024 ->
  let e := ld32 (km_mem k) (d + 4 * i) in
  let k' := with_mem (fun m => st32 m (d + 4 * i) (Z.land e (Z.lnot PTE_U))) k in
  building m0 l0 k' d l us hs /\ forall v, pte_of (km_mem k') d v = pte_of (km_mem k) d v.
Proof.
  intros [Hk Hs Hl Hm] Hi e k'. pose proof (as_wf _ _ _ _ _ (sp_space _ _ _ _ _ Hs)) as Hw.
  destruct (clear_bit e) as [C1 C2]; [apply ld32_range, Hk|].
  assert (Hd : forall j, 0 <= j < 1024 -> ld32 (km_mem k') (d + 4 * j) =
    if decide (j = i) then u32 (Z.land e (Z.lnot PTE_U)) else ld32 (km_mem k) (d + 4 * j)).
  { intros j Hj. unfold k'. cbn. case_decide as E; [subst j; apply ld32_st32_eq|]. apply ld32_st32_ne. lia. }
  assert (Ht : forall j, 0 <= j < 1024 -> present_pde (km_mem k') d j = present_pde (km_mem k) d j /\
    table_of (km_mem k') d j = table_of (km_mem k) d j).
  { intros j Hj. unfold present_pde, table_of. rewrite Hd by done. case_decide as E; [subst j|done].
    unfold e in *. by rewrite C1, C2. }
  assert (Hout : forall x, ~ same_page x d -> km_mem k' x = km_mem k x).
  { intros x Hx. unfold k'. cbn. apply st32_other. clear -Hx Hi. unfold same_page, PGSIZE in *. lia. }
  assert (Hv : forall v, pte_of (km_mem k') d v = pte_of (km_mem k) d v).
  { intros v. unfold pte_of, pte_addr. destruct (Ht _ (PDX_range v)) as [-> ->].
    destruct (present_pde (km_mem k) d (PDX v)) eqn:Ep; [|done]. apply ld32_ext. intros x Hx. apply Hout. intros Hxd.
    destruct (pt_tab _ _ _ _ Hw _ (PDX_range v) Ep) as ((Ha & _) & Hne & _). apply Hne.
    eapply same_page_apart; [exact Ha|apply Hw| |exact Hxd]. pose proof (PTX_range v). clear Hxd. unfold same_page, PGSIZE. lia. }
  split; [|done]. split.
  - eapply kmem_inv_frame; [exact Hk|apply st32_ok, Hk|done|]. intros q Hq. apply ld32_ext. intros x Hx. apply Hout. intros Hxd.
    apply (pt_dir_used _ _ _ _ Hw). assert (d = q) as ->; [|done]. eapply same_page_apart; [apply Hw| |exact Hxd|].
    + pose proof (inv_pages _ _ Hk) as Hpg. rewrite Forall_forall in Hpg. by apply Hpg.
    + clear -Hx. unfold same_page, PGSIZE. lia.
  - eapply space_ext; [exact Ht|exact Hv|done].
  - rewrite <- Hl. unfold owned. rewrite (tables_same (km_mem k)) by done. f_equiv. f_equiv. f_equiv.
    erewrite list_fmap_ext; [reflexivity|]. intros n v _. unfold frame. by rewrite Hv.
  - intros x Hx. rewrite Hout; [by apply Hm|]. apply Hx. rewrite <- Hl. by left.
Qed.

Lemma clear_user_ok n : forall i (s : machine F) d l us hs,
  building m0 l0 (km s) d l us hs -> 0 <= i -> i + Z.of_nat n <= 1024 ->
  exists k', clear_user n d i s = Ret tt (set_km k' s) /\ building m0 l0 k' d l us hs /\
    forall v, pte_of (km_mem k') d v = pte_of (km_mem (km s)) d v.
Proof.
  induction n as [|n IH]; intros i s d l us hs Hb Hi Hn.
  { exists (km s). rewrite set_km_same. done. }
  destruct (clear_step (km s) d l us hs i Hb ltac:(lia)) as [Hb1 Hv1].
  destruct (IH (i + 1) (set_km _ s) d l us hs Hb1 ltac:(lia) ltac:(lia)) as (k' & E & Hb' & Hv').
  exists k'. split; [|split; [done|]].
  - cbn [clear_user]. rewrite (bind_km (load32 _) _ s _ (km s) eq_refl), set_km_same.
    rewrite (bind_km (store32 _ _) _ s _ _ eq_refl). exact E.
  - intros v. rewrite Hv'. apply Hv1.
Qed.

(** A fresh directory. *)
Lemma bd_start k p l :
  kmem_inv kend k l -> l0 ≡ₚ p :: l -> (forall x, off_pages l0 x -> km_mem k x = m0 x) ->
  let k' := with_mem (fun m => fill_range m p 0 PGSIZE) k in
  building m0 l0 k' p l [] [] /\ view k' p (fun _ => 0).
Proof.
  intros Hk Hl Hm k'.
  assert (Hp : page_ok kend p) by (rewrite Hl in Hok; by apply Forall_cons in Hok as [? _]).
  assert (Hpl : p ∉ l) by (rewrite Hl in Hnd; by apply NoDup_cons in Hnd as [? _]).
  assert (Hpde : forall i, 0 <= i < 1024 -> present_pde (km_mem k') p i = false).
  { intros i Hi. unfold present_pde, k'. cbn. rewrite ld32_fill_0; [done|lia|unfold PGSIZE; lia]. }
  assert (Hv : forall v, pte_of (km_mem k') p v = 0).
  { intros v. unfold pte_of. by rewrite Hpde by apply PDX_range. }
  split; [|intros v _; apply Hv]. split.
  - eapply kmem_inv_frame; [exact Hk|apply fill_ok; [apply Hk|unfold is_u8; lia]|done|].
    intros q Hq. unfold k'. cbn. apply ld32_fill_out.
    pose proof (inv_pages _ _ Hk) as Hpg. rewrite Forall_forall in Hpg. destruct (Hpg q Hq) as (Hqa & _), Hp as (Hpa & _).
    destruct (pages_apart q p Hqa Hpa) as [?|?]; [by intros ->|..]; unfold PGSIZE in *; lia.
  - split; [|constructor|].
    + split; [split; [done|done| |]| | | | |]; 
        try (intros; match goal with Hin : _ ∈ [] |- _ => by apply not_elem_of_nil in Hin end).
      * intros i Hi Hpi. by rewrite Hpde in Hpi.
      * intros i j Hi Hj Hpi. by rewrite Hpde in Hpi.
    + intros v. rewrite Hv. split; [intros Hin; by apply not_elem_of_nil in Hin|]. by intros (_ & _ & ?).
  - rewrite Hl. unfold owned. assert (tables (km_mem k') p = []) as ->; [|done].
    unfold tables.
    assert (Hf : Forall (fun i => 0 <= i < 1024) (seqZ 0 1024)) by (apply Forall_forall; intros i Hi%elem_of_seqZ; lia).
    induction Hf as [|i js Hi _ IH]; [done|]. rewrite filter_cons_False by (by rewrite Hpde). done.
  - intros x Hx. unfold k'. cbn. rewrite fill_out; [by apply Hm|].
    assert (Hxp : ~ same_page x p) by (apply Hx; rewrite Hl; by left). clear -Hxp. unfold same_page in Hxp. lia.
Qed.

End setup.

(** The end of the kernel's text is a page boundary (kernel.ld). *)
Definition data_ok : Prop := data mod PGSIZE = 0 /\ KERNLINK < data < KERNBASE + PHYSTOP.

Lemma kmap_good : data_ok -> kmap_ok KERNBASE (kmap data).
Proof.
  intros [Ha Hr]. unfold KERNLINK, KERNBASE, PHYSTOP, EXTMEM in Hr.
  assert (Ev : V2P data = data - KERNBASE) by (apply V2P_id; unfold KERNBASE, PHYSTOP; lia).
  pose proof (aligned_div data Ha) as Ed. cbn -[u32 V2P Z.pow Z.modulo]. rewrite Ev.
  change (V2P KERNLINK) with EXTMEM. unfold KERNLINK, KERNBASE, PHYSTOP, EXTMEM, DEVSPACE, PTE_W, PGSIZE in *.
  change (u32 (0 - 4261412864)) with 33554432. change (u32 (1048576 - 0)) with 1048576.
  rewrite (u32_id (data - 2147483648 - 1048576)), (u32_id (234881024 - (data - 2147483648))) by (unfold is_u32; lia).
  set (q := data / 4096) in *.
  assert (E1 : (data - 2147483648 - 1048576) mod 4096 = 0).
  { rewrite Ed. replace (4096 * q - 2147483648 - 1048576) with ((q - 524544) * 4096) by lia. by rewrite Z.mod_mul. }
  assert (E2 : (234881024 - (data - 2147483648)) mod 4096 = 0).
  { rewrite Ed. replace (234881024 - (4096 * q - 2147483648)) with ((581632 - q) * 4096) by lia. by rewrite Z.mod_mul. }
  rewrite E1, E2, Ha. repeat split; first [done|lia].
Qed.

Lemma overlay_low ks : forall lo g v, kmap_ok lo ks -> v < lo -> overlay ks g v = g v.
Proof.
  induction ks as [|[[[virt ps] pe] perm] ks IH]; intros lo g v Hks Hv; [done|].
  cbn [kmap_ok] in Hks. destruct Hks as (H1 & _ & H3 & _ & _ & _ & _ & _ & Hks). cbn [overlay].
  rewrite (IH _ _ v Hks) by lia. cbn [fst]. by rewrite (proj2 (Z.leb_gt _ _)) by lia.
Qed.

Lemma kernel_pte_user v : data_ok -> v < KERNBASE -> kernel_pte data v = 0.
Proof. intros Hd Hv. unfold kernel_pte. by rewrite (overlay_low _ KERNBASE) by (by apply kmap_good || done). Qed.

Lemma setupkvm_ok (s : machine F) l0 :
  data_ok -> kmem_inv kend (km s) l0 ->
  exists k',
    (exists d l, setupkvm kend data pol s = Ret d (set_km k' s) /\ d <> 0 /\
       building (km_mem (km s)) l0 k' d l [] [] /\ view k' d (kernel_pte data)) \/
    (setupkvm kend data pol s = Ret 0 (set_km k' s) /\ restored (km_mem (km s)) l0 k' /\ (length l0 <= 1025)%nat).
Proof.
  intros Hdata Hk. pose proof (inv_nodup _ _ _ Hk) as Hnd. pose proof (inv_pages _ _ Hk) as Hok. unfold setupkvm.
  destruct (kalloc_cases kend (km s) l0 Hk) as [[-> (k1 & E & Hk1 & Em)]|(p & l & k1 & -> & E & Hk1 & Hp & Hnp & Em)];
    rewrite (bind_km _ _ _ _ _ E).
  { exists k1. right. split; [done|]. split; [|simpl; lia]. exists []. rewrite Em. done. }
  rewrite (proj2 (Z.eqb_neq p 0)) by (by eapply page_ok_nonzero).
  rewrite (bind_km (memset_k _ _ _) _ _ _ _ eq_refl). change (DEVSPACE <? P2V PHYSTOP) with false. cbv iota.
  destruct (bd_start (km_mem (km s)) (p :: l) Hnd Hok k1 p l Hk1) as [Hb Hv]; [done|by rewrite Em|].
  change (u8 0) with 0. set (k2 := with_mem _ k1) in *.
  destruct (setupkvm_loop_ok (km_mem (km s)) (p :: l) (kmap data) KERNBASE (fun _ => 0) (set_km k2 (set_km k1 s)) p l)
    as (k3 & [(E3 & Hv3 & l3 & Hb3)|(E3 & Hr & Hn)]); [done|done|by apply kmap_good|done|done| |].
  - rewrite (bind_Ret _ _ _ _ _ E3).
    destruct (clear_user_ok (km_mem (km s)) (p :: l) 512 512 (set_km k3 s) p l3 [] [] Hb3) as (k4 & E4 & Hb4 & Hv4); [lia|lia|].
    exists k4. left. exists p, l3. change (set_km k3 (set_km k2 (set_km k1 s))) with (set_km k3 s).
    rewrite (bind_Ret _ _ _ _ _ E4). split; [done|]. split; [by eapply page_ok_nonzero|]. split; [done|].
    intros v Hvu. rewrite Hv4. by apply Hv3.
  - rewrite (bind_Ret _ _ _ _ _ E3). exists k3. right. done.
Qed.

(** ** copyuvm *)

(** Page [v] of the new space holds what page [v] of the old one held. *)
Definition copy_of (m : mem) (pgdir : Z) (m' : mem) (d v : Z) : Prop :=
  let e := pte_of m pgdir v in
  if has e PTE_PG then pte_of m' d v = PTE_FLAGS e
  else PTE_FLAGS (pte_of m' d v) = PTE_FLAGS e /\ page_data m' d v = page_data m pgdir v.

(** The parent: user pages from the second one to [sz] are resident or swapped out. *)
Record parent_ok (m : mem) (pgdir : Z) (l : list Z) (sz : Z) : Prop := {
  pa_size : 0 <= sz <= KERNBASE;
  pa_pages v : is_vpa v -> PGSIZE <= v < sz -> has (pte_of m pgdir v) PTE_P || has (pte_of m pgdir v) PTE_PG = true;
  pa_space : aspace kend m pgdir l (fun v => is_vpa v /\ PGSIZE <= v < sz /\ resident (pte_of m pgdir v) = true);
}.

(** The state of the loop at page [i]. *)
Record copied (m0 : mem) (l0 : list Z) (pgdir : Z) (k : kmem) (d : Z) (l us : list Z) (i : Z) : Prop := {
  co_build : building m0 l0 k d l us [];
  co_pages v : is_vpa v -> PGSIZE <= v < i -> copy_of m0 pgdir (km_mem k) d v;
  co_rest v : is_u32 v -> v < PGSIZE \/ i <= v -> pte_of (km_mem k) d v = if v <? KERNBASE then 0 else kernel_pte data v;
  co_count : Z.of_nat (length us) <= i / PGSIZE - 1;
}.

Section copy.
Context (m0 : mem) (l0 : list Z) (pgdir sz : Z).
Hypothesis Hnd : NoDup l0.
Hypothesis Hok : Forall (page_ok kend) l0.
Hypothesis Hpar : parent_ok m0 pgdir l0 sz.
Hypothesis Hm0 : mem_ok m0.

Lemma off_l0 p x : page_ok kend p -> (p ∉ l0) -> same_page x p -> off_pages l0 x.
Proof.
  intros (Hp & _) Hn Hx q Hq Hxq. rewrite Forall_forall in Hok. destruct (Hok q Hq) as (Hqa & _).
  apply Hn. assert (p = q) as ->; [|done]. by eapply same_page_apart.
Qed.

(** The parent is untouched while the child is built. *)
Lemma parent_same k d l us hs : building m0 l0 k d l us hs -> pt_same m0 (km_mem k) pgdir.
Proof.
  intros Hb. pose proof (as_wf _ _ _ _ _ (pa_space _ _ _ _ Hpar)) as Hw. split.
  - intros x Hx. apply (bd_frame _ _ _ _ _ _ _ Hb). eapply off_l0; [apply Hw|apply Hw|done].
  - intros i x Hi Hp Hx. apply (bd_frame _ _ _ _ _ _ _ Hb). destruct (pt_tab _ _ _ _ Hw i Hi Hp) as (?&_&?).
    by eapply off_l0.
Qed.

Lemma parent_page v : is_vpa v -> PGSIZE <= v < sz -> resident (pte_of m0 pgdir v) = true ->
  page_ok kend (frame m0 pgdir v) /\ (frame m0 pgdir v ∉ l0) /\ frame m0 pgdir v <> pgdir.
Proof. intros Hv Hr He. apply (as_frame _ _ _ _ _ (pa_space _ _ _ _ Hpar)). done. Qed.

Lemma flags_has e f : is_u32 e -> 0 <= f < 4096 -> has (PTE_FLAGS e) f = has e f.
Proof.
  intros He Hf. unfold has, PTE_FLAGS. rewrite u32_id by done. rewrite <- Z.land_assoc.
  replace (Z.land 4095 f) with f; [done|]. rewrite Z.land_comm. change 4095 with (Z.ones 12).
  rewrite Z.land_ones by lia. by rewrite Z.mod_small by (change (2 ^ 12) with 4096; lia).
Qed.

Lemma pte_of_u32 m d v : mem_ok m -> is_u32 (pte_of m d v).
Proof. intros Hm. unfold pte_of. case_match; [by apply ld32_range|unfold is_u32; lia]. Qed.

Lemma flags_resident e e' : is_u32 e -> is_u32 e' -> PTE_FLAGS e = PTE_FLAGS e' -> resident e = resident e'.
Proof.
  intros He He' E. unfold resident. rewrite <- (flags_has e PTE_P), <- (flags_has e PTE_PG), E
    by (done || (unfold PTE_P, PTE_PG; lia)).
  by rewrite !flags_has by (done || (unfold PTE_P, PTE_PG; lia)).
Qed.

(** Pages already copied stay so while their entries and frames stay. *)
Lemma copy_keep k d l us hs k' v :
  building m0 l0 k d l us hs ->
  (forall w x, w ∈ us -> same_page x (frame (km_mem k) d w) -> km_mem k' x = km_mem k x) ->
  pte_of (km_mem k') d v = pte_of (km_mem k) d v -> is_vpa v -> PGSIZE <= v < sz ->
  copy_of m0 pgdir (km_mem k) d v -> copy_of m0 pgdir (km_mem k') d v.
Proof.
  intros Hb Hw Ev Hv Hr. unfold copy_of. rewrite Ev.
  destruct (has (pte_of m0 pgdir v) PTE_PG) eqn:Epg; [done|]. intros [H1 H2]. split; [done|]. rewrite <- H2.
  unfold page_data, frame. rewrite Ev. apply bytes_at_ext. intros i Hi. apply (Hw v).
  - apply (sp_user _ _ _ _ _ (bd_space _ _ _ _ _ _ _ Hb)). split; [done|]. split; [pose proof (pa_size _ _ _ _ Hpar); lia|].
    rewrite (flags_resident _ (pte_of m0 pgdir v)); [|apply pte_of_u32; apply Hb|by apply pte_of_u32|done].
    pose proof (pa_pages _ _ _ _ Hpar v Hv Hr) as Hp. unfold resident. rewrite Epg in *. by rewrite orb_false_r in Hp; rewrite Hp.
  - clear -Hi. unfold same_page, PGSIZE, frame in *. lia.
Qed.

Lemma copied_step k d l us i k' l' us' :
  copied m0 l0 pgdir k d l us i -> is_vpa i -> PGSIZE <= i < sz ->
  building m0 l0 k' d l' us' [] ->
  (forall w x, w ∈ us -> same_page x (frame (km_mem k) d w) -> km_mem k' x = km_mem k x) ->
  (forall v, is_u32 v -> v / 4096 <> i / 4096 -> pte_of (km_mem k') d v = pte_of (km_mem k) d v) ->
  copy_of m0 pgdir (km_mem k') d i -> (length us' <= S (length us))%nat ->
  copied m0 l0 pgdir k' d l' us' (i + PGSIZE).
Proof.
  intros [Hb Hc Hrest Hcnt] Hi Hir Hb' Hw Hv Hci Hlen. pose proof (aligned_div i (proj2 Hi)) as Ei. split; [done| | |].
  - intros v Hvv Hr. destruct (decide (v = i)) as [->|Hne]; [done|].
    assert (Hvi : PGSIZE <= v < i).
    { destruct (decide (v < i)); [lia|]. destruct Hne. apply vpa_next; [done|done|lia]. }
    eapply copy_keep; [exact Hb|exact Hw| |done|lia|by apply Hc].
    apply Hv; [apply Hvv|]. destruct Hvv as [_ Ha%aligned_div]. lia.
  - intros v Hvu Hvr. rewrite Hv; [|done|]; [apply Hrest; [done|unfold PGSIZE in *; lia]|].
    unfold PGSIZE in *. pose proof (Z.div_mod v 4096 ltac:(lia)). pose proof (Z.mod_pos_bound v 4096 ltac:(lia)). lia.
  - replace (i + PGSIZE) with (i + 1 * PGSIZE) by lia. rewrite Z.div_add by done. lia.
Qed.

Section page.
Context (k : kmem) (d : Z) (l us : list Z) (i : Z).
Hypothesis Hc : copied m0 l0 pgdir k d l us i.
Hypothesis Hi : is_vpa i.
Hypothesis Hir : PGSIZE <= i < sz.
Let e := pte_of m0 pgdir i.

Lemma page_user : i < KERNBASE.
Proof. pose proof (pa_size _ _ _ _ Hpar). lia. Qed.

Lemma page_free : pte_of (km_mem k) d i = 0.
Proof.
  rewrite (co_rest _ _ _ _ _ _ _ _ Hc); [|apply Hi|lia].
  by rewrite (proj2 (Z.ltb_lt _ _) page_user).
Qed.

Lemma page_new : i ∉ us.
Proof.
  intros Hin. apply (sp_user _ _ _ _ _ (bd_space _ _ _ _ _ _ _ (co_build _ _ _ _ _ _ _ _ Hc))) in Hin as (_ & _ & Hr).
  by rewrite page_free in Hr.
Qed.

(** Growing the tree keeps the bytes of the frames. *)
Lemma grown_bytes k1 l1 hs k2 l2 w x :
  building m0 l0 k1 d l1 us hs -> grown k1 l1 d k2 l2 -> w ∈ us -> same_page x (frame (km_mem k1) d w) ->
  km_mem k2 x = km_mem k1 x.
Proof.
  intros [Hk1 [Ha _ _] _ _] Hg Hw Hx. apply (gr_frame _ _ _ _ _ Hg).
  eapply frame_outside; [exact Ha|by eapply inv_pages|exact Hw|exact Hx].
Qed.

Lemma same_vpage_i v : is_u32 v -> same_vpage i v <-> v / 4096 = i / 4096.
Proof. intros Hv. rewrite same_vpage_div; [split; congruence|apply Hi|done]. Qed.

(** A swapped-out page: its flags go to the child's table. *)
Lemma copy_swapped :
  has e PTE_PG = true ->
  (l = [] /\ exists k1, walkpgdir d i true k = Ret 0 k1) \/
  (exists k1 l2, walkpgdir d i true k = Ret (pte_addr (km_mem k1) d i) k1 /\
     (pte_addr (km_mem k1) d i =? 0) = false /\
     copied m0 l0 pgdir (with_mem (fun m => st32 m (pte_addr (km_mem k1) d i) (PTE_FLAGS e)) k1) d l2 us (i + PGSIZE)).
Proof.
  intros Hpg. pose proof (co_build _ _ _ _ _ _ _ _ Hc) as Hb. pose proof Hb as [Hk [Ha Hn Hu] Hl Hm].
  destruct (walkpgdir_alloc kend k l d i Hk (as_wf _ _ _ _ _ Ha)) as [(-> & _ & k1 & E & _)|(k1 & l1 & E & Hok1)].
  { left. split; [done|]. by exists k1. }
  right. exists k1, l1. split; [done|]. pose proof (wk_present _ _ _ _ _ _ _ Hok1) as Hp1.
  pose proof (wk_inv _ _ _ _ _ _ _ Hok1) as Hk1. pose proof (wk_wf _ _ _ _ _ _ _ Hok1) as Hw1.
  split; [by eapply pte_addr_nonzero|].
  pose proof (walk_grown _ _ _ _ _ _ Hok1) as Hg1. pose proof (wk_view _ _ _ _ _ _ _ Hok1) as Hv1.
  pose proof (store_grown k1 l1 d i (PTE_FLAGS e) Hk1 Hw1 Hp1) as Hg2. set (k2 := with_mem _ k1) in *.
  destruct (store_pte_inv kend k1 l1 d i (PTE_FLAGS e) Hk1 Hw1 Hp1) as (_ & _ & Hv2 & _). fold k2 in Hv2.
  assert (He : is_u32 e) by (by apply pte_of_u32).
  assert (Ef : u32 (PTE_FLAGS e) = PTE_FLAGS e).
  { apply u32_id. rewrite PTE_FLAGS_spec by done. pose proof (Z.mod_pos_bound e 4096 ltac:(lia)). unfold is_u32. lia. }
  assert (Hvu : forall v, v ∈ us -> v <> i) by (intros v Hvu ->; by apply page_new).
  assert (Hview : forall v, is_u32 v -> v / 4096 <> i / 4096 -> pte_of (km_mem k2) d v = pte_of (km_mem k) d v).
  { intros v Hv Hne. rewrite Hv2, decide_False; [by apply Hv1|]. by rewrite same_vpage_i. }
  assert (Hvi : pte_of (km_mem k2) d i = PTE_FLAGS e).
  { rewrite Hv2, decide_True; [done|]. by split. }
  assert (Hsame : forall v, is_vpa v -> v <> i -> pte_of (km_mem k2) d v = pte_of (km_mem k) d v).
  { intros v Hv Hne. apply Hview; [apply Hv|]. destruct Hv as [_ Hv%aligned_div], Hi as [_ Hi'%aligned_div]. lia. }
  assert (Hb1 : building m0 l0 k1 d l1 us []).
  { eapply (bd_keep m0 l0 k d l us []); [done|exact Hg1|intros v _; apply Hv1|intros v _ _; by rewrite Hv1]. }
  assert (Hb2 : building m0 l0 k2 d l1 us []).
  { eapply (bd_keep m0 l0 k1 d l1 us []); [done|exact Hg2| |].
    - intros v Hv. rewrite Hv1. apply Hsame; [by apply Ha|by apply Hvu].
    - intros v Hv _. rewrite Hv1. destruct (decide (v = i)) as [->|Hne]; [|by rewrite Hsame].
      rewrite Hvi, page_free. unfold resident. rewrite !flags_has by (done || (unfold PTE_P, PTE_PG; lia)).
      rewrite Hpg. by rewrite andb_false_r. }
  eapply copied_step; [exact Hc|done|done|exact Hb2| |exact Hview| |lia].
  - intros w x Hw Hx. rewrite (grown_bytes k1 l1 [] k2 l1 w x Hb1 Hg2 Hw), (grown_bytes k l [] k1 l1 w x Hb Hg1 Hw); [done|done|].
    unfold frame in *. by rewrite Hv1.
  - unfold copy_of. fold e. by rewrite Hpg.
Qed.

(** The child's new page after the copy: held, with the parent's bytes. *)
Lemma copy_bytes p l1 k1 :
  l = p :: l1 -> kmem_inv kend k1 l1 -> km_mem k1 = km_mem k -> resident e = true ->
  let k2 := with_mem (fun m => copy_range m p (frame m0 pgdir i) PGSIZE) k1 in
  building m0 l0 k2 d l1 us [p] /\ pt_same (km_mem k) (km_mem k2) d /\
  (forall x, ~ same_page x p -> km_mem k2 x = km_mem k x) /\
  bytes_at (km_mem k2) p (Z.to_nat PGSIZE) = page_data m0 pgdir i.
Proof.
  intros -> Hk1 Em Hr k2. pose proof (co_build _ _ _ _ _ _ _ _ Hc) as Hb.
  pose proof (bd_alloc m0 l0 k d p l1 us [] k1 Hb Hk1 Em) as Hb1.
  destruct (parent_page i Hi Hir Hr) as (Hfp & Hfl & _).
  assert (Hp : p ∈ l0).
  { rewrite <- (bd_list _ _ _ _ _ _ _ Hb). apply elem_of_app. right. by left. }
  destruct (bd_write m0 l0 Hnd Hok k1 d l1 us [p] p (fun m => copy_range m p (frame m0 pgdir i) PGSIZE)) as [Hb2 Hpt].
  - done.
  - by left.
  - apply copy_ok, Hk1.
  - intros x Hx. apply copy_out. clear -Hx. unfold same_page in Hx. lia.
  - rewrite Em in Hpt. split; [done|]. split; [unfold k2; cbn; by rewrite Em|]. split.
    + intros x Hx. unfold k2. cbn. rewrite copy_out, Em; [done|]. clear -Hx. unfold same_page in Hx. lia.
    + unfold page_data. apply bytes_at_ext. intros j Hj. unfold k2. cbn. rewrite copy_in by (unfold PGSIZE in *; lia).
      replace (p + j - p + frame m0 pgdir i) with (frame m0 pgdir i + j) by lia.
      apply (bd_frame _ _ _ _ _ _ _ Hb1). eapply off_l0; [exact Hfp|done|]. unfold same_page, PGSIZE in *. lia.
Qed.

(** The child's entry for a page copied to frame [p]. *)
Lemma copy_entry p : page_ok kend p -> resident e = true ->
  let n := Z.lor (Z.lor (V2P p) (PTE_FLAGS e)) PTE_P in
  PTE_FLAGS n = PTE_FLAGS e /\ P2V (PTE_ADDR n) = p /\ is_u32 (V2P p) /\ 0 <= V2P p /\ V2P p + PGSIZE <= 2 ^ 32 /\
  0 <= PTE_FLAGS e < 4096.
Proof.
  intros Hp Hr n. assert (He : is_u32 e) by (by apply pte_of_u32).
  assert (Hf : 0 <= PTE_FLAGS e < 4096) by (rewrite PTE_FLAGS_spec by done; apply Z.mod_pos_bound; lia).
  pose proof (page_ok_V2P _ _ Hp) as Ev. pose proof Hp as (Hal & _ & Hlo & Hhi).
  assert (HP : has (PTE_FLAGS e) PTE_P = true).
  { rewrite flags_has by (done || (unfold PTE_P; lia)). unfold resident in Hr. by apply andb_true_iff in Hr as [? _]. }
  assert (En : n = Z.lor (V2P p) (PTE_FLAGS e)).
  { unfold n. rewrite <- Z.lor_assoc. f_equal. zbits. change PTE_P with (2 ^ 0) in HP |- *. rewrite has_pow2 in HP by lia.
    rewrite Z.pow2_bits_eqb by lia. destruct (Z.eqb_spec 0 n0) as [<-|]; [by rewrite HP|by rewrite orb_false_r]. }
  destruct (pte_make (V2P p) (PTE_FLAGS e)) as (Hu & E1 & E2).
  { rewrite Ev. unfold is_u32, KERNBASE, PHYSTOP in *. lia. }
  { rewrite Ev. unfold PGSIZE, KERNBASE in *. rewrite Zminus_mod, Hal. done. }
  { done. }
  rewrite En, E1, E2. split; [done|]. split; [apply P2V_V2P, page_ok_u32 with kend; done|].
  rewrite Ev. unfold is_u32, KERNBASE, PHYSTOP, PGSIZE in *. split; [lia|]. split; [lia|]. split; [lia|done].
Qed.

(** Bytes of a held page are outside the tree and the free pages. *)
Lemma held_outside k2 l1 hs p x :
  building m0 l0 k2 d l1 us hs -> p ∈ hs -> same_page x p -> outside (km_mem k2) d l1 x.
Proof.
  intros Hb2 Hin Hsx. pose proof (bd_unused m0 l0 Hnd Hok _ _ _ _ _ p Hb2 Hin) as Hun.
  pose proof (un_page _ _ _ _ _ _ Hun) as Hp.
  pose proof (inv_pages _ _ (bd_inv _ _ _ _ _ _ _ Hb2)) as Hpg. rewrite Forall_forall in Hpg.
  pose proof (as_wf _ _ _ _ _ (sp_space _ _ _ _ _ (bd_space _ _ _ _ _ _ _ Hb2))) as Hw2. split_and!.
  - intros Hx'. apply (un_dir _ _ _ _ _ _ Hun). eapply same_page_apart; [apply Hp|apply Hw2|exact Hsx|exact Hx'].
  - intros t Ht Hpt' Hx'. apply (un_tab _ _ _ _ _ _ Hun t Ht Hpt'). eapply same_page_apart; [|apply Hp|exact Hx'|exact Hsx].
    by apply (pt_tab _ _ _ _ Hw2).
  - intros q Hq Hx'. apply (un_free _ _ _ _ _ _ Hun). assert (p = q) as ->; [|done].
    eapply same_page_apart; [apply Hp|apply (Hpg q Hq)|exact Hsx|exact Hx'].
Qed.

Section resident.
Context (p : Z) (l1 : list Z) (k1 : kmem).
Hypothesis El : l = p :: l1.
Hypothesis Hk1 : kmem_inv kend k1 l1.
Hypothesis Em : km_mem k1 = km_mem k.
Hypothesis Hr : resident e = true.
Let k2 := with_mem (fun m => copy_range m p (frame m0 pgdir i) PGSIZE) k1.

Lemma copy_mapped k3 l3 :
  mapped kend k2 l1 d i (V2P p) (PTE_FLAGS e) 1 k3 l3 -> copied m0 l0 pgdir k3 d l3 (i :: us) (i + PGSIZE).
Proof.
  intros Hm. destruct (copy_bytes p l1 k1 El Hk1 Em Hr) as (Hb2 & Hpt & Hout & _). fold k2 in Hb2, Hpt, Hout.
  pose proof (bd_unused m0 l0 Hnd Hok _ _ _ _ _ p Hb2 ltac:(left)) as Hun. pose proof (un_page _ _ _ _ _ _ Hun) as Hp.
  destruct (copy_entry p Hp Hr) as (Ef & Ea & _). pose proof page_user as Hik.
  pose proof (bd_space _ _ _ _ _ _ _ Hb2) as Hs2.
  pose proof (mapped_grown _ _ _ _ _ _ _ _ _ Hm) as Hg3. pose proof (mp_view _ _ _ _ _ _ _ _ _ _ Hm) as Hv3.
  pose proof (aligned_div i (proj2 Hi)) as Ei.
  assert (Hview : forall v, is_u32 v -> v / 4096 <> i / 4096 -> pte_of (km_mem k3) d v = pte_of (km_mem k) d v).
  { intros v Hv Hne. rewrite Hv3, decide_False by (done || (unfold PGSIZE in *; lia)). by apply pt_same_pte_of. }
  assert (Hvi : pte_of (km_mem k3) d i = Z.lor (Z.lor (V2P p) (PTE_FLAGS e)) PTE_P).
  { rewrite Hv3 by apply Hi. rewrite decide_True by (unfold PGSIZE in *; lia). f_equal. f_equal. lia. }
  assert (Hfr : frame (km_mem k3) d i = p) by (unfold frame; by rewrite Hvi).
  assert (Hb3 : building m0 l0 k3 d l3 (i :: us) []).
  { eapply (bd_map m0 l0 Hnd Hok k2 d l1 us [] p i); [done|done|done|done|apply page_new| | |done].
    - intros w Hw _ Hne. rewrite Hview; [by rewrite (pt_same_pte_of _ _ _ _ Hpt)|apply Hw|].
      destruct Hw as [_ Hw%aligned_div]. lia.
    - rewrite (flags_resident _ e); [done|apply pte_of_u32, Hg3|by apply pte_of_u32|by rewrite Hvi]. }
  eapply copied_step; [exact Hc|done|done|exact Hb3| |exact Hview| |simpl; lia].
  - intros w x Hw Hx. rewrite <- (pt_same_frame _ _ _ w Hpt) in Hx.
    rewrite (grown_bytes k2 l1 [p] k3 l3 w x Hb2 Hg3 Hw Hx). apply Hout. intros Hxp.
    apply (un_frame _ _ _ _ _ _ Hun w Hw). eapply same_page_apart; [|apply Hp|exact Hx|exact Hxp].
    apply (as_frame _ _ _ _ _ (sp_space _ _ _ _ _ Hs2) w Hw).
  - unfold copy_of. fold e. pose proof Hr as Hr'. unfold resident in Hr'. apply andb_true_iff in Hr' as [_ ->%negb_true_iff].
    split; [by rewrite Hvi|]. destruct (copy_bytes p l1 k1 El Hk1 Em Hr) as (_ & _ & _ & Hby). rewrite <- Hby.
    unfold page_data. rewrite Hfr. apply bytes_at_ext. intros x Hx. apply (gr_frame _ _ _ _ _ Hg3).
    eapply held_outside; [exact Hb2|by left|]. clear -Hx. unfold same_page, PGSIZE in *. lia.
Qed.

(** A resident page: a new frame with the same bytes and the same flags, or the
    frame is given back when there is no memory for a page table. *)
Lemma copy_resident :
  (exists k3 l3, mappages d i PGSIZE (V2P p) (PTE_FLAGS e) k2 = Ret 0 k3 /\
     copied m0 l0 pgdir k3 d l3 (i :: us) (i + PGSIZE)) \/
  (exists k3 k4, mappages d i PGSIZE (V2P p) (PTE_FLAGS e) k2 = Ret (-1) k3 /\ kfree kend p k3 = Ret tt k4 /\
     building m0 l0 k4 d [p] us []).
Proof.
  destruct (copy_bytes p l1 k1 El Hk1 Em Hr) as (Hb2 & Hpt & Hout & _). fold k2 in Hb2, Hpt, Hout.
  pose proof (un_page _ _ _ _ _ _ (bd_unused m0 l0 Hnd Hok _ _ _ _ _ p Hb2 ltac:(left))) as Hp.
  destruct (copy_entry p Hp Hr) as (_ & _ & Hpu & Hp0 & Hp1 & Hf).
  pose proof (bd_space _ _ _ _ _ _ _ Hb2) as Hs2. pose proof page_user as Hik.
  destruct (mappages_any k2 l1 d i PGSIZE (V2P p) (PTE_FLAGS e)) as (j & k3 & l3 & Hm & Hcase);
    [apply Hb2|apply Hs2|apply Hi|unfold PGSIZE in *; lia|done|done|unfold PGSIZE, KERNBASE in *; lia|done|done|done| |].
  { intros v Hv. rewrite (pt_same_pte_of _ _ _ _ Hpt). rewrite (pte_of_page _ _ v i), page_free; [done| |apply Hi|].
    - unfold is_u32, PGSIZE, KERNBASE in *. lia.
    - destruct Hi as [_ Ha%aligned_div]. symmetry. apply Z.div_unique with (v - i); unfold PGSIZE in *; lia. }
  destruct Hcase as [[E Ej]|(E & Ej & ->)].
  - left. exists k3, l3. split; [done|]. apply copy_mapped. by replace 1%nat with j by (unfold PGSIZE in *; lia).
  - right. pose proof (mapped_grown _ _ _ _ _ _ _ _ _ Hm) as Hg3.
    assert (Hv0 : forall v, is_u32 v -> pte_of (km_mem k3) d v = pte_of (km_mem k2) d v).
    { intros v Hv. rewrite (mp_view _ _ _ _ _ _ _ _ _ _ Hm), decide_False by (done || (unfold PGSIZE in *; lia)). done. }
    assert (Hb3 : building m0 l0 k3 d [] us [p]).
    { eapply (bd_keep m0 l0 k2 d l1 us [p]); [done|exact Hg3| |].
      - intros v Hv. apply Hv0. by apply (as_vpa _ _ _ _ _ (sp_space _ _ _ _ _ Hs2)).
      - intros v Hv _. rewrite Hv0; [done|apply Hv]. }
    destruct (bd_free m0 l0 Hnd Hok k3 d [] us [] p Hb3) as (k4 & E4 & Hb4). exists k3, k4. done.
Qed.

End resident.

End page.

(** Memory was short: the free pages could not hold a full tree and the pages. *)
Definition short : Prop := Z.of_nat (length l0) <= 1025 + sz / PGSIZE.

Lemma short_of (us : list Z) i : Z.of_nat (length us) <= i / PGSIZE - 1 -> i < sz -> (length l0 <= 1026 + length us)%nat -> short.
Proof. intros H1 H2 H3. unfold short. pose proof (Z.div_le_mono i sz PGSIZE ltac:(done) ltac:(lia)). lia. Qed.

Definition swapped_page : Prop :=
  exists v, is_vpa v /\ PGSIZE <= v < sz /\ has (pte_of m0 pgdir v) PTE_PG = true.

(** The outcomes of the loop. *)
Definition loop_outcome (s : machine F) (d : Z) (o : outcome (machine F) bool) : Prop :=
  (exists k' l' us' j, o = Ret true (set_km k' s) /\ copied m0 l0 pgdir k' d l' us' j /\ is_vpa j /\
     sz <= j /\ (j = PGSIZE \/ j - PGSIZE < sz)) \/
  (exists k' l' us', o = Ret false (set_km k' s) /\ building m0 l0 k' d l' us' [] /\ short) \/
  (o = Panic "newPte != 0" /\ swapped_page /\ short).

Lemma loop_load (s : machine F) d l us i :
  copied m0 l0 pgdir (km s) d l us i -> is_vpa i -> PGSIZE <= i < sz ->
  walkpgdir pgdir i false (km s) = Ret (pte_addr (km_mem (km s)) pgdir i) (km s) /\
  (pte_addr (km_mem (km s)) pgdir i =? 0) = false /\
  load32 (pte_addr (km_mem (km s)) pgdir i) (km s) = Ret (pte_of m0 pgdir i) (km s).
Proof.
  intros Hc Hi Hir. pose proof (parent_same _ _ _ _ _ (co_build _ _ _ _ _ _ _ _ Hc)) as Hs.
  pose proof (as_wf _ _ _ _ _ (pa_space _ _ _ _ Hpar)) as Hw.
  assert (Hp : present_pde m0 pgdir (PDX i) = true).
  { pose proof (pa_pages _ _ _ _ Hpar i Hi Hir) as Hpg. unfold pte_of in Hpg. by destruct (present_pde m0 pgdir (PDX i)). }
  destruct (pt_same_tab _ _ _ _ Hs (PDX_range i)) as [E1 E2]. rewrite walkpgdir_noalloc, E1, Hp.
  split; [done|]. split.
  - unfold pte_addr. rewrite E2. by eapply (pte_addr_nonzero kend m0).
  - unfold load32, gets. rewrite <- (pt_same_pte_of _ _ _ i Hs). unfold pte_of. by rewrite E1, Hp.
Qed.

Lemma dir_differs k d l us hs : building m0 l0 k d l us hs -> V2P d <> V2P pgdir.
Proof.
  intros Hb E. pose proof (as_wf _ _ _ _ _ (pa_space _ _ _ _ Hpar)) as Hw.
  pose proof (as_wf _ _ _ _ _ (sp_space _ _ _ _ _ (bd_space _ _ _ _ _ _ _ Hb))) as Hw'.
  apply (pt_dir_used _ _ _ _ Hw). assert (pgdir = d) as ->.
  { rewrite <- (P2V_V2P pgdir), <- (P2V_V2P d), E by (eapply page_ok_u32; (apply Hw || apply Hw')). done. }
  rewrite <- (bd_list _ _ _ _ _ _ _ Hb). by left.
Qed.

Lemma copyuvm_loop_ok fuel : forall i (s : machine F) d l us,
  copied m0 l0 pgdir (km s) d l us i -> is_vpa i -> PGSIZE <= i -> i = PGSIZE \/ i - PGSIZE < sz ->
  cr3 s = V2P pgdir -> (Z.to_nat ((sz - i + 4095) / 4096) < fuel)%nat ->
  loop_outcome s d (copyuvm_loop kend fuel pgdir d i sz s).
Proof.
  induction fuel as [|fuel IH]; intros i s d l us Hc Hi Hip Hib Hcr Hf; [lia|]. cbn [copyuvm_loop].
  destruct (Z.ltb_spec i sz) as [Hlt|Hge].
  2: { left. exists (km s), l, us, i. rewrite set_km_same. done. }
  destruct (loop_load s d l us i Hc Hi ltac:(lia)) as (E1 & E2 & E3).
  rewrite (bind_km _ _ _ _ _ E1), set_km_same, E2, (bind_km _ _ _ _ _ E3), set_km_same. clear E1 E2 E3.
  pose proof (page_user i (conj Hip Hlt)) as Hik. destruct (vpa_step i Hi Hik) as [Eu Hn]. rewrite Eu.
  pose proof (co_count _ _ _ _ _ _ _ _ Hc) as Hcnt. pose proof (co_build _ _ _ _ _ _ _ _ Hc) as Hb.
  assert (Hf' : (Z.to_nat ((sz - (i + PGSIZE) + 4095) / 4096) < fuel)%nat).
  { replace (sz - (i + PGSIZE) + 4095) with (sz - i + 4095 + (-1) * 4096) by (unfold PGSIZE; lia).
    rewrite Z.div_add by lia. assert (1 <= (sz - i + 4095) / 4096) by (apply Z.div_le_lower_bound; lia). lia. }
  assert (Hnext : forall k' l' us', copied m0 l0 pgdir k' d l' us' (i + PGSIZE) ->
    loop_outcome s d (copyuvm_loop kend fuel pgdir d (i + PGSIZE) sz (set_km k' s))).
  { intros k' l' us' Hc'. apply (IH (i + PGSIZE) (set_km k' s) d l' us'); [done|done|unfold PGSIZE in *; lia|right; lia|done|done]. }
  destruct (has (pte_of m0 pgdir i) PTE_PG) eqn:Epg.
  - destruct (copy_swapped (km s) d l us i Hc Hi ltac:(lia) Epg) as [[-> (k1 & E)]|(k1 & l1 & E & En & Hc1)];
      rewrite (bind_km _ _ _ _ _ E).
    + right; right. split; [done|]. split; [by exists i|]. eapply short_of; [exact Hcnt|done|].
      pose proof (built_all _ _ _ _ _ _ Hb) as Hall. cbn [length] in Hall. lia.
    + rewrite En. cbn [negb]. rewrite bind_assert by done.
      rewrite (bind_km (store32 _ _) _ _ _ _ eq_refl), bind_gets. cbn [cr3 set_km]. rewrite Hcr.
      rewrite (proj2 (Z.eqb_neq _ _) (dir_differs _ _ _ _ _ Hb)), Z.eqb_refl. cbn [negb].
      rewrite !bind_assert by done. by eapply Hnext.
  - assert (HP : has (pte_of m0 pgdir i) PTE_P = true).
    { pose proof (pa_pages _ _ _ _ Hpar i Hi ltac:(lia)) as Hp. by rewrite Epg, orb_false_r in Hp. }
    rewrite HP. cbn [negb].
    assert (Hr : resident (pte_of m0 pgdir i) = true) by (unfold resident; by rewrite HP, Epg).
    destruct (kalloc_cases kend (km s) l (bd_inv _ _ _ _ _ _ _ Hb))
      as [[-> (k1 & E & Hk1 & Em)]|(p & l1 & k1 & -> & E & Hk1 & Hp & Hnp & Em)]; rewrite (bind_km _ _ _ _ _ E).
    + right; left. exists k1, [], us. split; [done|]. split.
      * destruct Hb as [? ? ? ?]. split; rewrite ?Em; done.
      * eapply short_of; [exact Hcnt|done|]. pose proof (built_all _ _ _ _ _ _ Hb) as Hall. cbn [length] in Hall. lia.
    + rewrite (proj2 (Z.eqb_neq p 0)) by (by eapply page_ok_nonzero).
      rewrite (bind_km (memmove_k _ _ _) _ _ _ _ eq_refl).
      destruct (copy_resident (km s) d (p :: l1) us i Hc Hi ltac:(lia) p l1 k1 eq_refl Hk1 Em Hr)
        as [(k3 & l3 & E3 & Hc3)|(k3 & k4 & E3 & E4 & Hb4)].
      * erewrite bind_km by exact E3. cbn [Z.ltb Z.compare]. by eapply Hnext.
      * erewrite bind_km by exact E3. cbn [Z.ltb Z.compare].
        erewrite bind_km by exact E4. right; left. exists k4, [p], us. split; [done|]. split; [done|].
        eapply short_of; [exact Hcnt|done|]. apply built_all in Hb4. cbn [length] in Hb4. lia.
Qed.

End copy.

(** C15: [fork] copies the address space.  With enough free pages [copyuvm] returns a
    new directory whose space is separate from the parent's, made of pages that
    were free, in which every resident user page has a frame of its own with the
    same bytes and the same flags, every swapped-out page is recorded with its
    flags, all other user pages are absent, and the kernel part is the kernel
    map.  Nothing outside the free pages has changed, the parent in particular.
    Otherwise it returns 0 with every page free again, or it panics, which
    happens only at a page that is swapped out. *)
Theorem copyuvm_copies (s : machine F) l pgdir sz :
  data_ok -> kmem_inv kend (km s) l -> parent_ok (km_mem (km s)) pgdir l sz -> cr3 s = V2P pgdir ->
  (exists d k' l' us, copyuvm kend data pol pgdir sz s = Ret d (set_km k' s) /\ d <> 0 /\
     kmem_inv kend k' l' /\ space kend (km_mem k') d l' us /\ owned (km_mem k') d us ++ l' ≡ₚ l /\
     (forall v, is_vpa v -> PGSIZE <= v < sz -> copy_of (km_mem (km s)) pgdir (km_mem k') d v) /\
     (forall v, is_vpa v -> v < PGSIZE \/ sz <= v ->
        pte_of (km_mem k') d v = if v <? KERNBASE then 0 else kernel_pte data v) /\
     (forall x, off_pages l x -> km_mem k' x = km_mem (km s) x)) \/
  (Z.of_nat (length l) <= 1025 + sz / PGSIZE /\
   ((exists k', copyuvm kend data pol pgdir sz s = Ret 0 (set_km k' s) /\ restored (km_mem (km s)) l k') \/
    (copyuvm kend data pol pgdir sz s = Panic "newPte != 0" /\
       exists v, is_vpa v /\ PGSIZE <= v < sz /\ has (pte_of (km_mem (km s)) pgdir v) PTE_PG = true))).
Proof.
  intros Hdata Hk Hpar Hcr. pose proof (inv_nodup _ _ _ Hk) as Hnd. pose proof (inv_pages _ _ Hk) as Hok.
  pose proof (pa_size _ _ _ _ Hpar) as Hsz. unfold copyuvm.
  destruct (setupkvm_ok s l Hdata Hk) as (k1 & [(d & l1 & E1 & Hd0 & Hb1 & Hv1)|(E1 & Hr & Hn)]); rewrite (bind_Ret _ _ _ _ _ E1).
  2: { right. split; [|left; by exists k1]. assert (0 <= sz / PGSIZE) by (apply Z.div_pos; [lia|done]). lia. }
  rewrite (proj2 (Z.eqb_neq d 0)) by done.
  assert (Hc : copied (km_mem (km s)) l pgdir k1 d l1 [] PGSIZE).
  { split; [done|intros v Hv Hr; lia| |done]. intros v Hvu _. rewrite Hv1 by done.
    destruct (Z.ltb_spec v KERNBASE); [|done]. by apply kernel_pte_user. }
  assert (Hfu : exists fu, (Z.to_nat (sz / PGSIZE) + 2)%nat = fu /\ (Z.to_nat ((sz - PGSIZE + 4095) / 4096) < fu)%nat).
  { eexists. split; [reflexivity|]. assert ((sz - PGSIZE + 4095) / 4096 <= sz / PGSIZE) by (apply Z.div_le_mono; unfold PGSIZE; lia). lia. }
  destruct Hfu as (fu & -> & Hfu).
  destruct (copyuvm_loop_ok (km_mem (km s)) l pgdir sz Hnd Hok Hpar (inv_mem _ _ _ Hk) fu PGSIZE (set_km k1 s) d l1 [])
    as [(k' & l' & us & j & E & [Hb Hp Hrest _] & Hj & Hsj & Hjj)|[(k' & l' & us & E & Hb & Hsh)|(E & (v & Hv) & Hsh)]];
    [done|done|done|by left|done|done| | |].
  - left. exists d, k', l', us. rewrite (bind_Ret _ _ _ _ _ E). split; [done|]. split; [done|].
    destruct Hb as [B1 B2 B3 B4]. split; [done|]. split; [done|]. split; [done|]. split; [|split; [|done]].
    + intros v Hv Hr. apply Hp; [done|lia].
    + intros v Hv Hr. apply Hrest; [apply Hv|]. destruct (decide (v < PGSIZE)); [by left|]. right.
      destruct Hr as [?|Hr]; [done|]. destruct (decide (j <= v)) as [|Hvj]; [done|]. exfalso.
      destruct Hjj as [->|Hjj]; [lia|]. destruct Hv as [_ Hva%aligned_div], Hj as [_ Hja%aligned_div]. unfold PGSIZE in *. lia.
  - right. split; [done|]. left. rewrite (bind_Ret _ _ _ _ _ E).
    destruct (freevm_restores (km_mem (km s)) l (set_km k' s) d l' us Hb) as (k2 & E2 & Hr). exists k2.
    change (set_km k' (set_km k1 s)) with (set_km k' s). by rewrite (bind_Ret _ _ _ _ _ E2).
  - right. split; [done|]. right. split; [|by exists v]. unfold mbind, kern_bind. by rewrite E.
Qed.

End build.

(** ** Witness: a child of the process of UvmCorrect, with 1100 free pages *)

Fixpoint wit_chain (p : Z) (n : nat) (m : mem) : mem :=
  match n with
  | O => m
  | S n => st32 (wit_chain (p + PGSIZE) n m) p (if (n =? 0)%nat then 0 else p + PGSIZE)
  end.

Lemma wit_chain_low n : forall p m x, x < p -> wit_chain p n m x = m x.
Proof.
  induction n as [|n IH]; intros p m x Hx; [done|]. cbn [wit_chain]. rewrite st32_other by lia.
  apply IH. unfold PGSIZE. lia.
Qed.

Lemma wit_chain_ok n : forall p m, mem_ok m -> mem_ok (wit_chain p n m).
Proof. induction n as [|n IH]; intros p m Hm; [done|]. cbn [wit_chain]. by apply st32_ok, IH. Qed.

Lemma wit_chain_list n : forall p m, p mod PGSIZE = 0 -> wit_end <= p -> KERNBASE < p ->
  p + PGSIZE * Z.of_nat n <= KERNBASE + PHYSTOP -> freelist_at wit_end (wit_chain p n m) (if (n =? 0)%nat then 0 else p) (pages_from p n).
Proof.
  induction n as [|n IH]; intros p m Ha He Hk Hb; [constructor|]. cbn [pages_from Nat.eqb].
  constructor; [unfold page_ok, PGSIZE in *; lia|]. cbn [wit_chain]. rewrite ld32_st32_eq.
  rewrite u32_id by (case_match; unfold is_u32, PGSIZE, KERNBASE, PHYSTOP in *; lia).
  eapply freelist_at_ext; [apply IH|].
  - by rewrite Zplus_mod, Ha.
  - unfold PGSIZE. lia.
  - unfold PGSIZE. lia.
  - lia.
  - intros q Hq%elem_pages_from. apply ld32_st32_ne. unfold PGSIZE in *. lia.
Qed.

Lemma pages_from_nodup n : forall p, NoDup (pages_from p n).
Proof.
  induction n as [|n IH]; intros p; cbn [pages_from]; constructor; [|apply IH].
  intros Hin%elem_pages_from. unfold PGSIZE in *. lia.
Qed.

Definition wit_mem : mem := wit_chain 0x80800000 1100 wit_tree.
Definition wit_parent : machine (gmap Z (list Z)) := wit_machine wit_mem 0x80800000.

Lemma length_pages_from n : forall p, length (pages_from p n) = n.
Proof. induction n as [|n IH]; intros p; cbn [pages_from length]; [done|]. by rewrite IH. Qed.

Lemma wit_mem_tree : has_tree wit_mem.
Proof. intros x Hx. unfold wit_mem. apply wit_chain_low. lia. Qed.

Lemma wit_parent_inv : kmem_inv wit_end (km wit_parent) (pages_from 0x80800000 1100).
Proof.
  split; cbn [km wit_parent wit_machine km_mem freelist].
  - apply wit_chain_ok, wit_tree_ok.
  - apply (wit_chain_list 1100); [done|unfold wit_end; lia|unfold KERNBASE; lia|unfold PGSIZE, KERNBASE, PHYSTOP; lia].
  - apply pages_from_nodup.
Qed.

Lemma wit_parent_ok : parent_ok wit_end (km_mem (km wit_parent)) wit_dir (pages_from 0x80800000 1100) 0x3000.
Proof.
  split.
  - unfold KERNBASE. lia.
  - intros v Hv Hr. cbn [km wit_parent wit_machine km_mem]. rewrite (tree_pte _ wit_mem_tree v Hv).
    destruct Hv as [_ Ha%aligned_div]. unfold PGSIZE in Hr.
    assert (v = 0x1000 \/ v = 0x2000) as [-> | ->] by lia; by vm_compute.
  - apply tree_aspace; [apply wit_mem_tree| |by intros q [? _]%elem_pages_from].
    intros v (Hv & _ & Hr). cbn [km wit_parent wit_machine km_mem] in Hr. rewrite (tree_pte _ wit_mem_tree v Hv) in Hr.
    by repeat case_decide.
Qed.

Lemma copyuvm_copies_witness :
  exists d k', copyuvm wit_end 0x80108000 NFU_SWAP wit_dir 0x3000 wit_parent = Ret d (set_km k' wit_parent) /\ d <> 0 /\
    PTE_FLAGS (pte_of (km_mem k') d 0x1000) = 7 /\ page_data (km_mem k') d 0x1000 = page_data wit_mem wit_dir 0x1000 /\
    pte_of (km_mem k') d 0x2000 = 0x206.
Proof.
  assert (Hv : forall n, 0 <= n < 1000 -> is_vpa (n * 4096)) by (intros n Hn; split; [unfold is_u32; lia|by rewrite Z.mod_mul]).
  destruct (copyuvm_copies wit_end 0x80108000 NFU_SWAP wit_parent (pages_from 0x80800000 1100) wit_dir 0x3000)
    as [(d & k' & l' & us & E & Hd & _ & _ & _ & Hc & _)|[Hshort _]].
  - split; [done|]. unfold KERNLINK, KERNBASE, EXTMEM, PHYSTOP. lia.
  - apply wit_parent_inv.
  - apply wit_parent_ok.
  - by vm_compute.
  - exists d, k'. split; [exact E|]. split; [exact Hd|].
    pose proof (Hc 0x1000 (Hv 1 ltac:(lia)) ltac:(unfold PGSIZE; lia)) as H1.
    pose proof (Hc 0x2000 (Hv 2 ltac:(lia)) ltac:(unfold PGSIZE; lia)) as H2.
    change (km_mem (km wit_parent)) with wit_mem in H1, H2. unfold copy_of in H1, H2.
    rewrite (tree_pte _ wit_mem_tree 0x1000 (Hv 1 ltac:(lia))) in H1. rewrite (tree_pte _ wit_mem_tree 0x2000 (Hv 2 ltac:(lia))) in H2.
    destruct H1 as [H1 H1']. split; [exact H1|]. split; [exact H1'|exact H2].
  - rewrite length_pages_from in Hshort. by vm_compute in Hshort.
Defined.
