(* ===== verification/Bio.v ===== *)
(** The buffer cache, [bio.c], on the memory disk of [memide.c].

    The doubly linked list through [prev]/[next] is the list [lru] of buffer
    indices, [head.next] first.  The disk is a map from block numbers to blocks;
    [writes] is the history of the block writes the device performed, in order,
    from which the disk contents at every instant can be recovered.  A buffer's
    sleep-lock is the pid of its holder; taking a lock that is held puts the
    process to sleep on the buffer. *)

From S2P Require Import Prelude Memory.

Definition BSIZE : Z := 512.
Definition MAXOPBLOCKS : Z := 10.
Definition LOGSIZE : Z := MAXOPBLOCKS * 3.
Definition NBUF : Z := MAXOPBLOCKS * 3.
Definition ROOTDEV : Z := 1.

Definition B_VALID : Z := 0x2.
Definition B_DIRTY : Z := 0x4.

Definition block : Type := list Z.

(** The little-endian word at offset [o] of a block, and storing one. *)
Definition get32 (d : block) (o : nat) : Z :=
  nth o d 0 + 256 * nth (o + 1) d 0 + 65536 * nth (o + 2) d 0 + 16777216 * nth (o + 3) d 0.

Definition word_bytes (v : Z) : list Z :=
  [v mod 256; (v / 256) mod 256; (v / 65536) mod 256; (v / 16777216) mod 256].

Definition put_at (d : block) (o : nat) (bs : list Z) : block :=
  take o d ++ bs ++ drop (o + length bs) d.

Definition put32 (d : block) (o : nat) (v : Z) : block := put_at d o (word_bytes v).

Lemma length_put_at d o bs :
  (o + length bs <= length d)%nat -> length (put_at d o bs) = length d.
Proof. intros. unfold put_at. rewrite !length_app, length_take, length_drop. lia. Qed.

Lemma put_at_in d o bs k :
  (o + length bs <= length d)%nat -> (o <= k < o + length bs)%nat ->
  nth k (put_at d o bs) 0 = nth (k - o) bs 0.
Proof.
  intros Hl Hk. unfold put_at. rewrite app_nth2 by (rewrite length_take; lia).
  rewrite length_take, Nat.min_l by lia. by rewrite app_nth1 by lia.
Qed.

Lemma put_at_out d o bs k :
  (o + length bs <= length d)%nat -> (k < o \/ o + length bs <= k)%nat ->
  nth k (put_at d o bs) 0 = nth k d 0.
Proof.
  intros Hl Hk. unfold put_at. rewrite !nth_lookup. f_equal.
  destruct (decide (k < o)%nat).
  - rewrite lookup_app_l by (rewrite length_take; lia). by rewrite lookup_take_lt.
  - rewrite lookup_app_r by (rewrite length_take; lia).
    rewrite length_take, Nat.min_l by lia. rewrite lookup_app_r by lia.
    rewrite lookup_drop. f_equal. lia.
Qed.

Lemma length_put32 d o v : (o + 4 <= length d)%nat -> length (put32 d o v) = length d.
Proof. intros. by apply length_put_at. Qed.

Lemma get32_put32_eq d o v : (o + 4 <= length d)%nat -> get32 (put32 d o v) o = u32 v.
Proof.
  intros Hl. unfold get32, put32. rewrite !put_at_in by (simpl; lia).
  replace (o - o)%nat with 0%nat by lia. replace (o + 1 - o)%nat with 1%nat by lia.
  replace (o + 2 - o)%nat with 2%nat by lia. replace (o + 3 - o)%nat with 3%nat by lia.
  apply (Memory.byte_split v).
Qed.

Lemma get32_put32_ne d o o' v :
  (o + 4 <= length d)%nat -> (o' + 4 <= o \/ o + 4 <= o')%nat ->
  get32 (put32 d o v) o' = get32 d o'.
Proof. intros Hl Ho. unfold get32, put32. by rewrite !put_at_out by (simpl; lia). Qed.

Record buf := Buf {
  b_flags : Z;
  b_dev : Z;
  b_blockno : Z;
  b_lock : option Z;          (* sleep-lock: pid of the holder *)
  b_refcnt : Z;
  b_data : block;
}.

Record bcache := Bcache {
  bufs : list buf;
  lru : list nat;             (* head.next, ..., head.prev *)
  disk : Z -> block;
  disksize : Z;
  writes : list (Z * block);
  mypid : Z;                  (* myproc()->pid *)
}.

Definition buf0 : buf := Buf 0 0 0 None 0 [].
Definition bufat (s : bcache) (i : nat) : buf := nth i (bufs s) buf0.

Definition upd_buf (i : nat) (g : buf -> buf) (s : bcache) : bcache :=
  Bcache (<[i := g (bufat s i)]> (bufs s)) (lru s) (disk s) (disksize s) (writes s) (mypid s).
Definition set_lru (l : list nat) (s : bcache) : bcache :=
  Bcache (bufs s) l (disk s) (disksize s) (writes s) (mypid s).
Definition put_block (b : Z) (d : block) (s : bcache) : bcache :=
  Bcache (bufs s) (lru s) (fun x => if decide (x = b) then d else disk s x) (disksize s)
    (writes s ++ [(b, d)]) (mypid s).

Definition set_flags (f : Z) (b : buf) : buf :=
  Buf f (b_dev b) (b_blockno b) (b_lock b) (b_refcnt b) (b_data b).
Definition set_lock (l : option Z) (b : buf) : buf :=
  Buf (b_flags b) (b_dev b) (b_blockno b) l (b_refcnt b) (b_data b).
Definition set_refcnt (n : Z) (b : buf) : buf :=
  Buf (b_flags b) (b_dev b) (b_blockno b) (b_lock b) n (b_data b).
Definition set_data (d : block) (b : buf) : buf :=
  Buf (b_flags b) (b_dev b) (b_blockno b) (b_lock b) (b_refcnt b) d.

(** ** Sleep-locks of buffers *)

Definition acquiresleep (i : nat) : kern bcache unit := fun s =>
  match b_lock (bufat s i) with
  | Some _ => Sleep (Z.of_nat i) s
  | None => Ret tt (upd_buf i (set_lock (Some (mypid s))) s)
  end.

Definition releasesleep (i : nat) : kern bcache unit := modify (upd_buf i (set_lock None)).

Definition holdingsleep (s : bcache) (i : nat) : bool :=
  bool_decide (b_lock (bufat s i) = Some (mypid s)).

(** ** The device *)

Definition iderw (i : nat) : kern bcache unit := fun s =>
  let b := bufat s i in
  if negb (holdingsleep s i) then Panic "iderw: buf not locked"
  else if Z.land (b_flags b) (Z.lor B_VALID B_DIRTY) =? B_VALID then Panic "iderw: nothing to do"
  else if negb (b_dev b =? 1) then Panic "iderw: request not for disk 1"
  else if disksize s <=? b_blockno b then Panic "iderw: block out of range"
  else if has (b_flags b) B_DIRTY then
    let s := upd_buf i (set_flags (Z.land (b_flags b) (Z.lnot B_DIRTY))) s in
    let s := put_block (b_blockno b) (b_data b) s in
    Ret tt (upd_buf i (fun b => set_flags (Z.lor (b_flags b) B_VALID) b) s)
  else
    let s := upd_buf i (set_data (disk s (b_blockno b))) s in
    Ret tt (upd_buf i (fun b => set_flags (Z.lor (b_flags b) B_VALID) b) s).

(** ** bio.c *)

(** [binit] inserts every buffer at the head, so the last one comes first. *)
Definition binit (dsk : Z -> block) (size pid : Z) : bcache :=
  foldl (fun s i => set_lru (i :: lru s) s)
    (Bcache (replicate (Z.to_nat NBUF) buf0) [] dsk size [] pid)
    (seq 0 (Z.to_nat NBUF)).

(** First element of a list that satisfies a test. *)
Fixpoint first_that (f : nat -> bool) (l : list nat) : option nat :=
  match l with
  | [] => None
  | i :: l => if f i then Some i else first_that f l
  end.

Definition is_block (s : bcache) (dev blockno : Z) (i : nat) : bool :=
  (b_dev (bufat s i) =? dev) && (b_blockno (bufat s i) =? blockno).

Definition is_unused (s : bcache) (i : nat) : bool :=
  (b_refcnt (bufat s i) =? 0) && negb (has (b_flags (bufat s i)) B_DIRTY).

Definition bget (dev blockno : Z) : kern bcache nat := fun s =>
  match first_that (is_block s dev blockno) (lru s) with
  | Some i =>
      (modify (upd_buf i (fun b => set_refcnt (u32 (b_refcnt b + 1)) b)) ;;
       acquiresleep i ;; mret i) s
  | None =>
      match first_that (is_unused s) (reverse (lru s)) with
      | Some i =>
          (modify (upd_buf i (fun b => Buf 0 dev blockno (b_lock b) 1 (b_data b))) ;;
           acquiresleep i ;; mret i) s
      | None => Panic "bget: no buffers"
      end
  end.

Definition bread (dev blockno : Z) : kern bcache nat :=
  i ← bget dev blockno;
  valid ← gets (fun s => has (b_flags (bufat s i)) B_VALID);
  if negb valid then iderw i ;; mret i else mret i.

Definition bwrite (i : nat) : kern bcache unit := fun s =>
  if negb (holdingsleep s i) then Panic "bwrite"
  else (modify (upd_buf i (fun b => set_flags (Z.lor (b_flags b) B_DIRTY) b)) ;; iderw i) s.

Definition brelse (i : nat) : kern bcache unit := fun s =>
  if negb (holdingsleep s i) then Panic "brelse"
  else
    (releasesleep i ;;
     modify (upd_buf i (fun b => set_refcnt (u32 (b_refcnt b - 1)) b)) ;;
     modify (fun s => if b_refcnt (bufat s i) =? 0
                      then set_lru (i :: filter (fun j => j <> i) (lru s)) s else s)) s.

(** ** Invariant and view *)

(** Buffer [i] holds block [b] of the root device. *)
Definition holds (s : bcache) (b : Z) (i : nat) : Prop :=
  (i < length (bufs s))%nat /\ b_dev (bufat s i) = ROOTDEV /\ b_blockno (bufat s i) = b.

Definition valid (s : bcache) (i : nat) : bool := has (b_flags (bufat s i)) B_VALID.
Definition dirty (s : bcache) (i : nat) : bool := has (b_flags (bufat s i)) B_DIRTY.
Definition locked (s : bcache) (i : nat) : bool := bool_decide (is_Some (b_lock (bufat s i))).

(** Between operations every buffer of the device that nobody holds is valid,
    and unless it is dirty it agrees with the disk. *)
Record binv (s : bcache) : Prop := {
  bi_len : length (bufs s) = Z.to_nat NBUF;
  bi_lru : lru s ≡ₚ seq 0 (Z.to_nat NBUF);
  bi_uniq b i j : holds s b i -> holds s b j -> i = j;
  bi_valid b i : holds s b i -> valid s i = true;
  bi_clean b i : holds s b i -> locked s i = false -> dirty s i = false ->
    b_data (bufat s i) = disk s b;
  bi_ref i : (i < length (bufs s))%nat ->
    b_refcnt (bufat s i) = if locked s i then 1 else 0;
  bi_free i : (i < length (bufs s))%nat -> b_dev (bufat s i) <> ROOTDEV ->
    locked s i = false /\ dirty s i = false;
  bi_block b i : holds s b i -> 0 <= b < disksize s;
}.

(** What a reader of block [b] sees. *)
Definition view (s : bcache) (b : Z) : block :=
  match first_that (is_block s ROOTDEV b) (lru s) with
  | Some i => b_data (bufat s i)
  | None => disk s b
  end.

(** ** Lookups *)

Lemma bufat_upd s i g j :
  (i < length (bufs s))%nat ->
  bufat (upd_buf i g s) j = if decide (j = i) then g (bufat s i) else bufat s j.
Proof.
  intros Hi. unfold bufat, upd_buf. cbn [bufs]. rewrite !nth_lookup.
  destruct (decide (j = i)) as [->|Hne].
  - rewrite list_lookup_insert_eq by done. cbn. unfold bufat. by rewrite nth_lookup.
  - by rewrite list_lookup_insert_ne.
Qed.

Lemma first_that_Some f l i :
  first_that f l = Some i -> f i = true /\
  exists l1 l2, l = l1 ++ i :: l2 /\ Forall (fun j => f j = false) l1.
Proof.
  induction l as [|j l IH]; simpl; [done|]. destruct (f j) eqn:E.
  - intros [= <-]. split; [done|]. by exists [], l.
  - intros H. destruct (IH H) as (?&l1&l2&->&HF). split; [done|].
    exists (j :: l1), l2. split; [done|]. by constructor.
Qed.

Lemma first_that_None f l : first_that f l = None <-> Forall (fun j => f j = false) l.
Proof.
  induction l as [|j l IH]; simpl; [done|]. rewrite Forall_cons, <- IH.
  destruct (f j); naive_solver.
Qed.

Lemma first_that_In f l i : first_that f l = Some i -> i ∈ l.
Proof. intros (_&l1&l2&->&_)%first_that_Some. set_solver. Qed.

Lemma is_block_holds s b i :
  (i < length (bufs s))%nat -> is_block s ROOTDEV b i = true <-> holds s b i.
Proof.
  intros Hi. unfold is_block, holds. rewrite andb_true_iff, !Z.eqb_eq. naive_solver.
Qed.

Section inv.
Context (s : bcache).
Hypothesis Hs : binv s.

Lemma lru_elem i : i ∈ lru s <-> (i < length (bufs s))%nat.
Proof. rewrite (bi_lru _ Hs), elem_of_seq, (bi_len _ Hs). lia. Qed.

Lemma cached_iff b i :
  first_that (is_block s ROOTDEV b) (lru s) = Some i <-> holds s b i.
Proof.
  split.
  - intros H. apply first_that_In in H as Hin. apply lru_elem in Hin.
    apply first_that_Some in H as [H _]. by apply is_block_holds.
  - intros H. destruct (first_that (is_block s ROOTDEV b) (lru s)) as [j|] eqn:E.
    + f_equal. eapply (bi_uniq _ Hs b); [|done]. apply first_that_In in E as Hin.
      apply lru_elem in Hin. apply first_that_Some in E as [E _]. by apply is_block_holds.
    + apply first_that_None in E. rewrite Forall_forall in E.
      destruct H as [Hi H]. specialize (E i (proj2 (lru_elem i) Hi)).
      by rewrite (proj2 (is_block_holds s b i Hi)) in E.
Qed.

Lemma cached_none b :
  first_that (is_block s ROOTDEV b) (lru s) = None <-> forall i, ~ holds s b i.
Proof.
  destruct (first_that _ _) as [i|] eqn:E.
  - apply cached_iff in E. split; [done|]. intros H. by destruct (H i).
  - split; [|done]. intros _ i H. apply cached_iff in H. congruence.
Qed.

Lemma view_holds b i : holds s b i -> view s b = b_data (bufat s i).
Proof. intros H. unfold view. apply cached_iff in H. by rewrite H. Qed.

Lemma view_uncached b : (forall i, ~ holds s b i) -> view s b = disk s b.
Proof. intros H. unfold view. apply cached_none in H. by rewrite H. Qed.

Lemma holds_dec b : (exists i, holds s b i) \/ (forall i, ~ holds s b i).
Proof.
  destruct (first_that (is_block s ROOTDEV b) (lru s)) as [i|] eqn:E.
  - left. exists i. by apply cached_iff.
  - right. by apply cached_none.
Qed.

End inv.

(** A change of one buffer, and of the disk at its block at most. *)
Section one_buffer.
Context (s s' : bcache) (i : nat) (b : Z).
Hypothesis Hs : binv s.
Hypothesis Hi : (i < length (bufs s))%nat.
Local Abbreviation nb := (bufat s' i).
Hypothesis Hbufs : length (bufs s') = length (bufs s).
Hypothesis Hother : forall j, j <> i -> bufat s' j = bufat s j.
Hypothesis Hlru : lru s' ≡ₚ lru s.
Hypothesis Hsize : disksize s' = disksize s.
Hypothesis Hdisk : forall x, x <> b -> disk s' x = disk s x.
Hypothesis Hb : b_dev nb = ROOTDEV /\ b_blockno nb = b /\ 0 <= b < disksize s.
Hypothesis Hfresh : forall j, j <> i -> ~ holds s b j.
Hypothesis Hval : valid s' i = true.
Hypothesis Href : b_refcnt nb = if locked s' i then 1 else 0.
Hypothesis Hcl : locked s' i = false -> dirty s' i = false -> b_data nb = disk s' b.

Lemma holds_other x j : holds s' x j <-> (j = i /\ x = b) \/ (j <> i /\ holds s x j).
Proof.
  unfold holds. rewrite Hbufs. destruct (decide (j = i)) as [->|Hne].
  - destruct Hb as (->&->&_). naive_solver.
  - rewrite Hother by done. naive_solver.
Qed.

Lemma one_buffer_inv : binv s'.
Proof.
  assert (Hlk : forall j, j <> i -> locked s' j = locked s j /\ dirty s' j = dirty s j /\
    valid s' j = valid s j).
  { intros j Hj. unfold locked, dirty, valid. by rewrite Hother. }
  split.
  - by rewrite Hbufs, (bi_len _ Hs).
  - by rewrite Hlru, (bi_lru _ Hs).
  - intros x j k [[-> ->]|[Hj H1]]%holds_other [[-> E]|[Hk H2]]%holds_other; subst; try done.
    + by destruct (Hfresh k Hk).
    + by destruct (Hfresh j Hj).
    + by eapply (bi_uniq _ Hs).
  - intros x j [[-> ->]|[Hj H1]]%holds_other; [done|].
    destruct (Hlk j Hj) as (_&_&->). by eapply (bi_valid _ Hs).
  - intros x j [[-> ->]|[Hj H1]]%holds_other Hl Hd; [by apply Hcl|].
    destruct (Hlk j Hj) as (E1&E2&_). rewrite Hother by done.
    assert (x <> b) by (intros ->; by destruct (Hfresh j Hj)).
    rewrite Hdisk by done. eapply (bi_clean _ Hs); congruence.
  - intros j Hj. rewrite Hbufs in Hj. destruct (decide (j = i)) as [->|Hne]; [done|].
    destruct (Hlk j Hne) as (->&_). rewrite Hother by done. by apply (bi_ref _ Hs).
  - intros j Hj Hdev. rewrite Hbufs in Hj. destruct (decide (j = i)) as [->|Hne].
    + by destruct Hb as [? _].
    + destruct (Hlk j Hne) as (->&->&_). rewrite Hother in Hdev by done. by apply (bi_free _ Hs).
  - intros x j. rewrite Hsize. intros [[-> ->]|[Hj H1]]%holds_other; [apply Hb|].
    by eapply (bi_block _ Hs).
Qed.

(** Other blocks read the same, if the buffer did not hold a private copy. *)
Lemma one_buffer_view x :
  x <> b -> (forall y, y <> b -> holds s y i -> b_data (bufat s i) = disk s y) ->
  view s' x = view s x.
Proof.
  intros Hx Hold. pose proof one_buffer_inv as Hs'.
  destruct (holds_dec s Hs x) as [[j Hj]|Hno].
  - rewrite (view_holds s Hs x j Hj). destruct (decide (j = i)) as [->|Hne].
    + rewrite (view_uncached s' Hs'), Hdisk; [symmetry; by apply Hold|done|].
      intros k [[-> ->]|[Hk H1]]%holds_other; [done|]. apply Hk. by eapply (bi_uniq _ Hs).
    + rewrite (view_holds s' Hs' x j), Hother by (done || by apply holds_other; right). done.
  - rewrite (view_uncached s Hs x Hno), (view_uncached s' Hs'), Hdisk; [done..|].
    intros k [[-> ->]|[Hk H1]]%holds_other; [done|]. by apply (Hno k).
Qed.

Lemma one_buffer_view_self : view s' b = b_data nb.
Proof.
  apply (view_holds s' one_buffer_inv). apply holds_other. by left.
Qed.

Lemma one_buffer :
  (forall y, y <> b -> holds s y i -> b_data (bufat s i) = disk s y) ->
  binv s' /\ holds s' b i /\ view s' b = b_data nb /\ forall x, x <> b -> view s' x = view s x.
Proof.
  intros Hold. split; [apply one_buffer_inv|]. split; [apply holds_other; by left|].
  split; [apply one_buffer_view_self|]. intros x Hx. by apply one_buffer_view.
Qed.

End one_buffer.

(** ** Operations *)

Lemma flag_lor f x : has (Z.lor f x) x = negb (x =? 0) || has f x.
Proof.
  rewrite has_lor. unfold has at 2. rewrite Z.land_diag. by rewrite orb_comm.
Qed.

Lemma has_clear f k : 0 <= k -> has (Z.land f (Z.lnot (2 ^ k))) (2 ^ k) = false.
Proof.
  intros Hk. rewrite has_pow2, Z.land_spec, Z.lnot_spec by done.
  by rewrite Z.pow2_bits_true, andb_false_r.
Qed.

Lemma flag_clear_dirty f :
  has (Z.lor (Z.land (Z.lor f B_DIRTY) (Z.lnot B_DIRTY)) B_VALID) B_DIRTY = false.
Proof.
  rewrite has_lor. change B_DIRTY with (2 ^ 2). by rewrite has_clear by lia.
Qed.

(** A buffer can be had for block [b]. *)
Definition available (s : bcache) (b : Z) : Prop :=
  exists i, (i < length (bufs s))%nat /\ locked s i = false /\ (holds s b i \/ dirty s i = false).

(** Only buffer [i] changes. *)
Record only (s : bcache) (i : nat) (s' : bcache) : Prop := {
  on_len : length (bufs s') = length (bufs s);
  on_other j : j <> i -> bufat s' j = bufat s j;
  on_env : disksize s' = disksize s /\ mypid s' = mypid s;
}.

Record bread_ok (s : bcache) (b : Z) (i : nat) (s' : bcache) : Prop := {
  br_inv : binv s';
  br_holds : holds s' b i;
  br_lock : b_lock (bufat s' i) = Some (mypid s');
  br_data : b_data (bufat s' i) = view s b;
  br_view x : view s' x = view s x;
  br_disk : disk s' = disk s /\ writes s' = writes s /\ lru s' = lru s;
  br_only : only s i s';
  br_was : locked s i = false /\
    ((holds s b i /\ dirty s' i = dirty s i) \/
     ((forall j, ~ holds s b j) /\ dirty s i = false /\ dirty s' i = false));
}.

Lemma only_upd s i g : (i < length (bufs s))%nat -> only s i (upd_buf i g s).
Proof.
  intros Hi. split; [by apply length_insert| |done].
  intros j Hj. by rewrite bufat_upd, decide_False.
Qed.

Lemma locked_lock s i : locked s i = false -> b_lock (bufat s i) = None.
Proof.
  unfold locked. intros H. apply bool_decide_eq_false in H. by apply eq_None_not_Some.
Qed.

Lemma bufat_upd_eq s i g : (i < length (bufs s))%nat -> bufat (upd_buf i g s) i = g (bufat s i).
Proof. intros. by rewrite bufat_upd, decide_True. Qed.

(** The block is cached. *)
Lemma bread_hit s b i :
  binv s -> holds s b i -> locked s i = false ->
  exists s', bread ROOTDEV b s = Ret i s' /\ bread_ok s b i s'.
Proof.
  intros Hs Hh Hl. pose proof (proj1 Hh) as Hi.
  pose proof (proj2 (cached_iff s Hs b i) Hh) as Hc.
  pose proof (locked_lock _ _ Hl) as Hlk.
  set (s1 := upd_buf i (fun b => set_refcnt (u32 (b_refcnt b + 1)) b) s).
  set (s2 := upd_buf i (set_lock (Some (mypid s1))) s1).
  assert (Hi1 : (i < length (bufs s1))%nat) by (by unfold s1; simpl; rewrite length_insert).
  assert (Eb : bufat s2 i = Buf (b_flags (bufat s i)) (b_dev (bufat s i)) (b_blockno (bufat s i))
    (Some (mypid s)) 1 (b_data (bufat s i))).
  { unfold s2. rewrite bufat_upd_eq by done. unfold s1. rewrite bufat_upd_eq by done.
    rewrite (bi_ref _ Hs i Hi), Hl. done. }
  assert (Hon : only s i s2).
  { split; [unfold s2, s1; simpl; by rewrite !length_insert| |done].
    intros j Hj. unfold s2. rewrite bufat_upd, decide_False by done.
    unfold s1. by rewrite bufat_upd, decide_False. }
  exists s2. split.
  - unfold bread, bget, mbind, kern_bind. rewrite Hc. unfold modify. cbn beta iota. fold s1.
    assert (Hal : acquiresleep i s1 = Ret tt s2).
    { unfold acquiresleep. assert (b_lock (bufat s1 i) = None) as ->; [|done].
      unfold s1. by rewrite bufat_upd_eq. }
    rewrite Hal. unfold mret, kern_ret, gets. cbn beta iota. rewrite Eb. cbn [b_flags].
    pose proof (bi_valid _ Hs b i Hh) as Hv. unfold valid in Hv. by rewrite Hv.
  - destruct Hh as (_&Hdev&Hno).
    destruct (one_buffer s s2 i b Hs Hi) as (Hinv&Hh2&Hv2&Hvx);
      try apply Hon; rewrite ?Eb; try done.
    + split; [done|]. split; [done|]. eapply (bi_block _ Hs). by split.
    + intros j Hj Hj2. apply Hj. eapply (bi_uniq _ Hs); [done|]. by split.
    + unfold valid. rewrite Eb. eapply (bi_valid _ Hs b). by split.
    + unfold locked. by rewrite Eb.
    + unfold locked. by rewrite Eb.
    + intros y Hy (_&_&?). congruence.
    + assert (Evb : view s b = b_data (bufat s i)) by (apply view_holds; [done|by split]).
      split; [done|done|by rewrite Eb|by rewrite Eb, Evb| |done|done|].
      * intros x. destruct (decide (x = b)) as [->|]; [by rewrite Hv2, Eb, Evb|auto].
      * split; [done|]. left. split; [by split|]. unfold dirty. by rewrite Eb.
Qed.

(** The block is not cached: the least recently used free buffer is taken. *)
Lemma bread_miss s b i :
  binv s -> (forall j, ~ holds s b j) -> 0 <= b < disksize s ->
  first_that (is_unused s) (reverse (lru s)) = Some i ->
  exists s', bread ROOTDEV b s = Ret i s' /\ bread_ok s b i s'.
Proof.
  intros Hs Hno Hb Hf.
  assert (Hi : (i < length (bufs s))%nat).
  { apply first_that_In in Hf. rewrite elem_of_reverse in Hf. by apply lru_elem. }
  apply first_that_Some in Hf as Hf'. destruct Hf' as [Hu _].
  unfold is_unused in Hu. apply andb_true_iff in Hu as [Hr Hd].
  apply Z.eqb_eq in Hr. apply negb_true_iff in Hd.
  assert (Hl : locked s i = false).
  { pose proof (bi_ref _ Hs i Hi). destruct (locked s i); [lia|done]. }
  pose proof (locked_lock _ _ Hl) as Hlk.
  pose proof (proj2 (cached_none s Hs b) Hno) as Hc.
  set (s1 := upd_buf i (fun x => Buf 0 ROOTDEV b (b_lock x) 1 (b_data x)) s).
  set (s2 := upd_buf i (set_lock (Some (mypid s1))) s1).
  set (s3 := upd_buf i (set_data (disk s2 b)) s2).
  set (s4 := upd_buf i (fun b => set_flags (Z.lor (b_flags b) B_VALID) b) s3).
  assert (Hi1 : (i < length (bufs s1))%nat) by (by unfold s1; simpl; rewrite length_insert).
  assert (Hi2 : (i < length (bufs s2))%nat) by (by unfold s2; simpl; rewrite length_insert).
  assert (Hi3 : (i < length (bufs s3))%nat) by (by unfold s3; simpl; rewrite length_insert).
  assert (Eb2 : bufat s2 i = Buf 0 ROOTDEV b (Some (mypid s)) 1 (b_data (bufat s i))).
  { unfold s2. rewrite bufat_upd_eq by done. unfold s1. by rewrite bufat_upd_eq. }
  assert (Eb : bufat s4 i = Buf B_VALID ROOTDEV b (Some (mypid s)) 1 (disk s b)).
  { unfold s4. rewrite bufat_upd_eq by done. unfold s3. by rewrite bufat_upd_eq, Eb2. }
  assert (Hon : only s i s4).
  { split; [unfold s4, s3, s2, s1; simpl; by rewrite !length_insert| |done].
    intros j Hj. unfold s4. rewrite bufat_upd, decide_False by done. unfold s3.
    rewrite bufat_upd, decide_False by done. unfold s2. rewrite bufat_upd, decide_False by done.
    unfold s1. by rewrite bufat_upd, decide_False. }
  exists s4. split.
  - unfold bread, bget, mbind, kern_bind. rewrite Hc, Hf. unfold modify. cbn beta iota. fold s1.
    assert (Hal : acquiresleep i s1 = Ret tt s2).
    { unfold acquiresleep. assert (b_lock (bufat s1 i) = None) as ->; [|done].
      unfold s1. by rewrite bufat_upd_eq. }
    rewrite Hal. unfold mret, kern_ret, gets. cbn beta iota. rewrite Eb2. cbn [b_flags].
    change (negb (has 0 B_VALID)) with true. cbn iota. unfold iderw, holdingsleep. rewrite Eb2.
    cbn [b_lock b_flags b_dev b_blockno]. rewrite bool_decide_eq_true_2 by done.
    rewrite (proj2 (Z.leb_gt (disksize s2) b)) by (apply Hb). done.
  - destruct (one_buffer s s4 i b Hs Hi) as (Hinv&Hh4&Hv4&Hvx);
      try apply Hon; rewrite ?Eb; try done.
    + unfold valid. by rewrite Eb.
    + unfold locked. by rewrite Eb.
    + intros y Hy Hyi. by apply (bi_clean _ Hs).
    + assert (Evb : view s b = disk s b) by by apply view_uncached.
      split; [done|done|by rewrite Eb|by rewrite Eb, Evb| |done|done|].
      * intros x. destruct (decide (x = b)) as [->|]; [by rewrite Hv4, Eb, Evb|auto].
      * split; [done|]. right. unfold dirty. by rewrite Eb.
Qed.

Lemma bread_spec s b :
  binv s -> 0 <= b < disksize s -> available s b ->
  (forall i, holds s b i -> locked s i = false) ->
  exists i s', bread ROOTDEV b s = Ret i s' /\ bread_ok s b i s'.
Proof.
  intros Hs Hb (k&Hk&Hlk&Hav) Hl. destruct (holds_dec s Hs b) as [[i Hi]|Hno].
  - destruct (bread_hit s b i Hs Hi (Hl i Hi)) as (s'&?&?). eauto.
  - destruct Hav as [?|Hd]; [by destruct (Hno k)|].
    destruct (first_that (is_unused s) (reverse (lru s))) as [i|] eqn:E.
    + destruct (bread_miss s b i Hs Hno Hb E) as (s'&?&?). eauto.
    + apply first_that_None in E. rewrite Forall_forall in E.
      assert (Hin : k ∈ reverse (lru s)) by (rewrite elem_of_reverse; by apply lru_elem).
      specialize (E k Hin). unfold is_unused in E.
      rewrite (bi_ref _ Hs k Hk), Hlk in E. unfold dirty in Hd. by rewrite Hd in E.
Qed.

(** ** Operations on a held buffer *)

Definition held (s : bcache) (b : Z) (i : nat) : Prop :=
  holds s b i /\ b_lock (bufat s i) = Some (mypid s).

(** What every operation on a held buffer keeps. *)
Record kept (s : bcache) (i : nat) (s' : bcache) : Prop := {
  kp_inv : binv s';
  kp_only : only s i s';
  kp_lru : lru s' = lru s;
}.

Lemma held_holding s b i : held s b i -> holdingsleep s i = true.
Proof. intros [_ Hl]. by apply bool_decide_eq_true_2. Qed.

Section held_ops.
Context (s : bcache) (b : Z) (i : nat).
Hypothesis Hs : binv s.
Hypothesis Hh : held s b i.

Lemma held_lt : (i < length (bufs s))%nat.
Proof. apply Hh. Qed.

(** The buffer record changes but keeps its identity, its lock and validity. *)
Lemma held_change s' :
  only s i s' -> lru s' = lru s ->
  (forall x, x <> b -> disk s' x = disk s x) ->
  b_dev (bufat s' i) = b_dev (bufat s i) -> b_blockno (bufat s' i) = b_blockno (bufat s i) ->
  b_lock (bufat s' i) = b_lock (bufat s i) -> b_refcnt (bufat s' i) = b_refcnt (bufat s i) ->
  valid s' i = true ->
  kept s i s' /\ held s' b i /\ view s' b = b_data (bufat s' i) /\
  forall x, x <> b -> view s' x = view s x.
Proof.
  intros Hon Hlru Hdisk E1 E2 E3 E4 Hv. destruct Hh as [(Hi&Hdev&Hno) Hl].
  assert (Hlk : locked s i = true) by (unfold locked; by rewrite Hl).
  assert (Hlk' : locked s' i = true) by (unfold locked; by rewrite E3, Hl).
  destruct (one_buffer s s' i b Hs Hi) as (Hinv&Hh'&Hvb&Hvx); try apply Hon; try done.
  - by rewrite Hlru.
  - rewrite E1, E2. split; [done|]. split; [done|]. eapply (bi_block _ Hs). by split.
  - intros j Hj Hj2. apply Hj. eapply (bi_uniq _ Hs); [done|]. by split.
  - rewrite E4, Hlk', (bi_ref _ Hs i Hi), Hlk. done.
  - congruence.
  - intros y Hy (_&_&?). congruence.
  - split; [by split|]. split; [split; [done|]|done].
    rewrite E3, Hl. by destruct (on_env _ _ _ Hon) as [_ ->].
Qed.

Lemma view_held : view s b = b_data (bufat s i).
Proof. apply view_holds; [done|apply Hh]. Qed.

(** Modifying [b->data]. *)
Lemma data_spec d :
  let s' := upd_buf i (set_data d) s in
  kept s i s' /\ held s' b i /\ b_data (bufat s' i) = d /\ dirty s' i = dirty s i /\
  disk s' = disk s /\ writes s' = writes s /\
  (forall x, view s' x = if decide (x = b) then d else view s x).
Proof.
  intros s'. pose proof held_lt as Hi.
  assert (Eb : bufat s' i = set_data d (bufat s i)) by by apply bufat_upd_eq.
  destruct (held_change s') as (Hk&Hh'&Hv&Hvx); rewrite ?Eb; try done.
  - by apply only_upd.
  - unfold valid. rewrite Eb. eapply (bi_valid _ Hs), Hh.
  - split; [done|]. split; [done|]. split; [done|]. split; [unfold dirty; by rewrite Eb|].
    split; [done|]. split; [done|].
    intros x. destruct (decide (x = b)) as [->|]; [by rewrite Hv, Eb|auto].
Qed.

(** [b->flags |= B_DIRTY], which [log_write] does. *)
Lemma mark_spec :
  let s' := upd_buf i (fun x => set_flags (Z.lor (b_flags x) B_DIRTY) x) s in
  kept s i s' /\ held s' b i /\ b_data (bufat s' i) = b_data (bufat s i) /\ dirty s' i = true /\
  disk s' = disk s /\ writes s' = writes s /\ (forall x, view s' x = view s x).
Proof.
  intros s'. pose proof held_lt as Hi.
  assert (Eb : bufat s' i = set_flags (Z.lor (b_flags (bufat s i)) B_DIRTY) (bufat s i))
    by (unfold s'; by rewrite bufat_upd_eq).
  destruct (held_change s') as (Hk&Hh'&Hv&Hvx); rewrite ?Eb; try done.
  - by apply only_upd.
  - unfold valid. rewrite Eb. simpl. rewrite has_lor.
    pose proof (bi_valid _ Hs b i (proj1 Hh)) as Hval. unfold valid in Hval. by rewrite Hval.
  - split; [done|]. split; [done|]. split; [done|].
    split; [unfold dirty; rewrite Eb; simpl; by rewrite flag_lor|]. split; [done|]. split; [done|].
    intros x. destruct (decide (x = b)) as [->|]; [by rewrite Hv, Eb, view_held|auto].
Qed.

(** [bwrite] writes the buffer through to the disk. *)
Lemma bwrite_spec :
  let d := b_data (bufat s i) in
  exists s', bwrite i s = Ret tt s' /\ kept s i s' /\ held s' b i /\
    b_data (bufat s' i) = d /\ dirty s' i = false /\
    (forall x, disk s' x = if decide (x = b) then d else disk s x) /\
    writes s' = writes s ++ [(b, d)] /\ (forall x, view s' x = view s x).
Proof.
  intros d. pose proof held_lt as Hi. destruct Hh as [(_&Hdev&Hno) Hl].
  set (s1 := upd_buf i (fun x => set_flags (Z.lor (b_flags x) B_DIRTY) x) s).
  assert (Hi1 : (i < length (bufs s1))%nat) by (unfold s1; simpl; by rewrite length_insert).
  assert (Eb1 : bufat s1 i = set_flags (Z.lor (b_flags (bufat s i)) B_DIRTY) (bufat s i))
    by (unfold s1; by rewrite bufat_upd_eq).
  set (s2 := put_block b d (upd_buf i (set_flags
    (Z.land (Z.lor (b_flags (bufat s i)) B_DIRTY) (Z.lnot B_DIRTY))) s1)).
  set (s3 := upd_buf i (fun x => set_flags (Z.lor (b_flags x) B_VALID) x) s2).
  assert (Hi2 : (i < length (bufs s2))%nat).
  { unfold s2. simpl. by rewrite length_insert. }
  assert (Eb2 : bufat s2 i = set_flags
    (Z.land (Z.lor (b_flags (bufat s i)) B_DIRTY) (Z.lnot B_DIRTY)) (bufat s i)).
  { change (bufat s2 i) with (bufat (upd_buf i (set_flags
      (Z.land (Z.lor (b_flags (bufat s i)) B_DIRTY) (Z.lnot B_DIRTY))) s1) i).
    rewrite bufat_upd_eq by done. by rewrite Eb1. }
  assert (Eb : bufat s3 i = set_flags (Z.lor
    (Z.land (Z.lor (b_flags (bufat s i)) B_DIRTY) (Z.lnot B_DIRTY)) B_VALID) (bufat s i)).
  { unfold s3. rewrite bufat_upd_eq by done. by rewrite Eb2. }
  assert (Hon : only s i s3).
  { split; [unfold s3, s2, s1; simpl; by rewrite !length_insert| |done].
    intros j Hj. unfold s3. rewrite bufat_upd, decide_False by done.
    change (bufat s2 j) with (bufat (upd_buf i (set_flags
      (Z.land (Z.lor (b_flags (bufat s i)) B_DIRTY) (Z.lnot B_DIRTY))) s1) j).
    rewrite bufat_upd, decide_False by done. unfold s1. by rewrite bufat_upd, decide_False. }
  exists s3. split.
  - unfold bwrite. rewrite (held_holding s b i Hh). cbn [negb].
    unfold mbind, kern_bind, modify. cbn beta iota. fold s1. unfold iderw, holdingsleep.
    rewrite Eb1. cbn [set_flags b_lock b_flags b_dev b_blockno b_data].
    rewrite Hl, bool_decide_eq_true_2 by done. cbn [negb].
    assert (Hd1 : has (Z.lor (b_flags (bufat s i)) B_DIRTY) B_DIRTY = true) by by rewrite flag_lor.
    destruct (Z.eqb_spec (Z.land (Z.lor (b_flags (bufat s i)) B_DIRTY) (Z.lor B_VALID B_DIRTY)) B_VALID)
      as [E|_].
    { exfalso. assert (Hb2 : Z.testbit (Z.land (Z.lor (b_flags (bufat s i)) B_DIRTY)
        (Z.lor B_VALID B_DIRTY)) 2 = false) by by rewrite E.
      rewrite Z.land_spec, Z.lor_spec in Hb2. by rewrite orb_true_r in Hb2. }
    rewrite Hdev, Hno. cbn [Z.eqb Pos.eqb negb ROOTDEV].
    rewrite (proj2 (Z.leb_gt (disksize s1) b)).
    2: { apply (bi_block _ Hs b i). by split. }
    rewrite Hd1. done.
  - destruct (held_change s3) as (Hk&Hh'&Hv&Hvx); rewrite ?Eb; try done.
    + intros x Hx. simpl. by rewrite decide_False.
    + unfold valid. rewrite Eb. simpl. by rewrite flag_lor.
    + split; [done|]. split; [done|]. split; [done|].
      split; [unfold dirty; rewrite Eb; apply flag_clear_dirty|]. split; [done|]. split; [done|].
      intros x. destruct (decide (x = b)) as [->|]; [by rewrite Hv, Eb, view_held|auto].
Qed.

(** [brelse] of a buffer whose changes were written or logged. *)
Lemma brelse_spec :
  dirty s i = true \/ b_data (bufat s i) = disk s b ->
  exists s', brelse i s = Ret tt s' /\ binv s' /\ only s i s' /\ holds s' b i /\
    locked s' i = false /\ b_data (bufat s' i) = b_data (bufat s i) /\ dirty s' i = dirty s i /\
    lru s' = i :: filter (fun j => j <> i) (lru s) /\
    disk s' = disk s /\ writes s' = writes s /\ (forall x, view s' x = view s x).
Proof.
  intros Hclean. pose proof held_lt as Hi. destruct Hh as [(_&Hdev&Hno) Hl].
  assert (Hlk : locked s i = true) by (unfold locked; by rewrite Hl).
  set (s1 := upd_buf i (set_lock None) s).
  set (s2 := upd_buf i (fun x => set_refcnt (u32 (b_refcnt x - 1)) x) s1).
  assert (Hi1 : (i < length (bufs s1))%nat) by (unfold s1; simpl; by rewrite length_insert).
  assert (Eb : bufat s2 i = Buf (b_flags (bufat s i)) (b_dev (bufat s i)) (b_blockno (bufat s i))
    None 0 (b_data (bufat s i))).
  { unfold s2. rewrite bufat_upd_eq by done. unfold s1. rewrite bufat_upd_eq by done.
    unfold set_refcnt. cbn [set_lock b_refcnt b_flags b_dev b_blockno b_lock b_data].
    rewrite (bi_ref _ Hs i Hi), Hlk. done. }
  set (s3 := set_lru (i :: filter (fun j => j <> i) (lru s)) s2).
  assert (Eb3 : bufat s3 i = bufat s2 i) by done.
  assert (Hon : only s i s3).
  { split; [unfold s3, s2, s1; simpl; by rewrite !length_insert| |done].
    intros j Hj. change (bufat s3 j) with (bufat s2 j). unfold s2.
    rewrite bufat_upd, decide_False by done. unfold s1. by rewrite bufat_upd, decide_False. }
  assert (Hperm : i :: filter (fun j => j <> i) (lru s) ≡ₚ lru s).
  { assert (Hnd : NoDup (lru s)) by (rewrite (bi_lru _ Hs); apply NoDup_seq).
    apply NoDup_Permutation; [|done|].
    - apply NoDup_cons. split; [|by apply NoDup_filter]. rewrite list_elem_of_filter. naive_solver.
    - intros j. rewrite elem_of_cons, list_elem_of_filter.
      assert (i ∈ lru s) by by apply lru_elem. destruct (decide (j = i)); naive_solver. }
  exists s3. split.
  - unfold brelse. rewrite (held_holding s b i Hh). cbn [negb].
    unfold releasesleep, mbind, kern_bind, modify. cbn beta iota. fold s1 s2. by rewrite Eb.
  - destruct (one_buffer s s3 i b Hs Hi) as (Hinv&Hh'&Hvb&Hvx);
      try apply Hon; rewrite ?Eb3, ?Eb; try done.
    + split; [done|]. split; [done|]. eapply (bi_block _ Hs). by split.
    + intros j Hj Hj2. apply Hj. eapply (bi_uniq _ Hs); [done|]. by split.
    + unfold valid. rewrite Eb3, Eb. eapply (bi_valid _ Hs b). by split.
    + unfold locked. by rewrite Eb3, Eb.
    + intros _. unfold dirty. rewrite Eb3, Eb. cbn [b_flags b_data]. intros Hd.
      destruct Hclean as [Hd'|Hd']; [unfold dirty in Hd'; congruence|done].
    + intros y Hy (_&_&?). congruence.
    + split; [done|]. split; [done|]. split; [done|].
      split; [unfold locked; by rewrite Eb3, Eb|]. split; [done|].
      split; [unfold dirty; by rewrite Eb3, Eb|]. split; [done|]. split; [done|]. split; [done|].
      intros x. destruct (decide (x = b)) as [->|]; [|auto].
      rewrite Hvb, Eb3, Eb. symmetry. by apply view_held.
Qed.

End held_ops.

(** ** The cache after boot *)

Lemma binit_lru dsk size pid : lru (binit dsk size pid) = reverse (seq 0 (Z.to_nat NBUF)).
Proof. reflexivity. Qed.

Lemma binit_bufs dsk size pid i : bufat (binit dsk size pid) i = buf0.
Proof.
  change (bufs (binit dsk size pid)) with (replicate (Z.to_nat NBUF) buf0).
  unfold bufat. rewrite nth_lookup.
  change (bufs (binit dsk size pid)) with (replicate (Z.to_nat NBUF) buf0).
  destruct (replicate _ _ !! i) eqn:E; [|done]. by apply lookup_replicate in E as [-> _].
Qed.

Lemma binit_env dsk size pid :
  disksize (binit dsk size pid) = size /\ disk (binit dsk size pid) = dsk /\
  writes (binit dsk size pid) = [].
Proof. split_and!; reflexivity. Qed.

Lemma binit_inv dsk size pid : binv (binit dsk size pid).
Proof.
  assert (Hno : forall b i, ~ holds (binit dsk size pid) b i).
  { intros b i (_&H&_). by rewrite binit_bufs in H. }
  split.
  - reflexivity.
  - rewrite binit_lru. apply reverse_Permutation.
  - intros b i j Hb. destruct (Hno b i Hb).
  - intros b i Hb. destruct (Hno b i Hb).
  - intros b i Hb. destruct (Hno b i Hb).
  - intros i Hi. unfold locked. by rewrite binit_bufs.
  - intros i Hi _. unfold locked, dirty. by rewrite binit_bufs.
  - intros b i Hb. destruct (Hno b i Hb).
Qed.

Lemma binit_view dsk size pid b : view (binit dsk size pid) b = dsk b.
Proof.
  apply (view_uncached _ (binit_inv dsk size pid)). intros i (_&H&_). by rewrite binit_bufs in H.
Qed.

(** [bread] of a block that nobody holds, when a buffer can be had, returns a
    locked buffer with the current contents of the block: the cached copy if
    there is one, else the disk's.  It never writes the disk and no block changes
    for any reader; on a miss the buffer recycled is the least recently used one
    that is neither locked nor dirty. *)
Theorem bread_reads s b :
  binv s -> 0 <= b < disksize s -> available s b ->
  (forall i, holds s b i -> locked s i = false) ->
  exists i s', bread ROOTDEV b s = Ret i s' /\ bread_ok s b i s' /\
    ((exists j, holds s b j) \/
     exists l1 l2, lru s = l1 ++ i :: l2 /\
       forall j, j ∈ l2 -> locked s j = true \/ dirty s j = true).
Proof.
  intros Hs Hb Hav Hl. destruct (holds_dec s Hs b) as [Hc|Hno].
  - destruct (bread_spec s b Hs Hb Hav Hl) as (i&s'&?&?). exists i, s'. auto.
  - destruct Hav as (k&Hk&Hlk&[?|Hd]); [by destruct (Hno k)|].
    destruct (first_that (is_unused s) (reverse (lru s))) as [i|] eqn:E.
    + destruct (bread_miss s b i Hs Hno Hb E) as (s'&?&?). exists i, s'.
      split; [done|]. split; [done|]. right.
      apply first_that_Some in E as (_&l1&l2&E&HF).
      exists (reverse l2), (reverse l1). split.
      * rewrite <- (reverse_involutive (lru s)), E, reverse_app, reverse_cons.
        by rewrite <- app_assoc.
      * intros j Hj. rewrite elem_of_reverse in Hj. rewrite Forall_forall in HF.
        pose proof (HF j Hj) as Hu. unfold is_unused in Hu.
        assert (Hjl : (j < length (bufs s))%nat).
        { apply (lru_elem s Hs). rewrite <- elem_of_reverse, E. set_solver. }
        rewrite (bi_ref _ Hs j Hjl) in Hu. unfold dirty.
        destruct (locked s j); [by left|]. right.
        destruct (has (b_flags (bufat s j)) B_DIRTY); done.
    + apply first_that_None in E. rewrite Forall_forall in E.
      assert (Hin : k ∈ reverse (lru s)) by (rewrite elem_of_reverse; by apply lru_elem).
      specialize (E k Hin). unfold is_unused in E.
      rewrite (bi_ref _ Hs k Hk), Hlk in E. unfold dirty in Hd. by rewrite Hd in E.
Qed.

Lemma bread_reads_witness :
  exists i s', bread ROOTDEV 2 (binit (fun _ => [7]) 1000 3) = Ret i s' /\
    b_data (bufat s' i) = [7].
Proof.
  destruct (bread_reads (binit (fun _ => [7]) 1000 3) 2) as (i&s'&Hrun&Hok&_).
  - apply binit_inv.
  - change (0 <= 2 < 1000). lia.
  - exists 0%nat. split; [change (0 < 30)%nat; lia|]. unfold locked, dirty.
    rewrite binit_bufs. split; [reflexivity|right; reflexivity].
  - intros i (_&H&_). by rewrite binit_bufs in H.
  - exists i, s'. split; [exact Hrun|]. rewrite (br_data _ _ _ _ Hok). apply binit_view.
Defined.
