(* ===== verification/LogCorrect.v ===== *)
(** Correctness of the log: the writes each routine of [Log] performs, and crash
    safety of [commit] with [recover_from_log]. *)

From S2P Require Import Prelude Memory Bio Log.

(** The disk after a sequence of block writes. *)
Definition upd_disk (d : Z -> block) (w : Z * block) : Z -> block :=
  fun x => if decide (x = w.1) then w.2 else d x.
Definition apply_writes (ws : list (Z * block)) (d : Z -> block) : Z -> block :=
  foldl upd_disk d ws.

Lemma apply_writes_app ws1 ws2 d :
  apply_writes (ws1 ++ ws2) d = apply_writes ws2 (apply_writes ws1 d).
Proof. apply foldl_app. Qed.

Lemma apply_writes_cons w ws d : apply_writes (w :: ws) d = apply_writes ws (upd_disk d w).
Proof. done. Qed.

Lemma apply_writes_ext ws d d' x :
  d x = d' x -> apply_writes ws d x = apply_writes ws d' x.
Proof.
  revert d d'. induction ws as [|w ws IH]; intros d d' E; [done|].
  rewrite !apply_writes_cons. apply IH.
  unfold upd_disk. by destruct (decide (x = w.1)).
Qed.

Lemma apply_writes_other ws d x : (x ∉ ws.*1) -> apply_writes ws d x = d x.
Proof.
  revert d. induction ws as [|w ws IH]; intros d Hx; [done|].
  rewrite fmap_cons, not_elem_of_cons in Hx. destruct Hx as [Hx1 Hx2].
  rewrite apply_writes_cons, IH by done. unfold upd_disk. by rewrite decide_False.
Qed.

Lemma apply_writes_in ws d k x v :
  NoDup (ws.*1) -> ws !! k = Some (x, v) -> apply_writes ws d x = v.
Proof.
  revert d k. induction ws as [|w ws IH]; intros d k Hnd Hk; [done|].
  rewrite fmap_cons in Hnd. apply NoDup_cons in Hnd as [Hw Hnd].
  rewrite apply_writes_cons.
  destruct k as [|k]; simpl in Hk; [|by eapply IH].
  injection Hk as ->. rewrite apply_writes_other by done. unfold upd_disk. by rewrite decide_True.
Qed.

(** ** Buffer-level steps *)

Definition dirtyb (s : bcache) (x : Z) : Prop := exists i, holds s x i /\ dirty s i = true.
Definition quiet (s : bcache) : Prop := forall i, locked s i = false.
Definition clean (s : bcache) (i : nat) : Prop :=
  (i < length (bufs s))%nat /\ locked s i = false /\ dirty s i = false.

(** [s'] is [s] after the block writes [ws]; all buffers are released. *)
Record bstep (s s' : bcache) (ws : list (Z * block)) : Prop := {
  bs_inv : binv s';
  bs_quiet : quiet s';
  bs_disk x : disk s' x = apply_writes ws (disk s) x;
  bs_view x : view s' x = apply_writes ws (view s) x;
  bs_writes : writes s' = writes s ++ ws;
  bs_env : disksize s' = disksize s /\ mypid s' = mypid s;
  bs_dirty x : dirtyb s' x <-> dirtyb s x /\ (x ∉ ws.*1);
}.

Lemma bstep_trans s1 s2 s3 ws1 ws2 :
  bstep s1 s2 ws1 -> bstep s2 s3 ws2 -> bstep s1 s3 (ws1 ++ ws2).
Proof.
  intros [A1 A2 A3 A4 A5 [A6 A7] A8] [B1 B2 B3 B4 B5 [B6 B7] B8]. split; [done|done| | | | |].
  - intros x. rewrite apply_writes_app, B3. by apply apply_writes_ext.
  - intros x. rewrite apply_writes_app, B4. by apply apply_writes_ext.
  - by rewrite B5, A5, app_assoc.
  - split; congruence.
  - intros x. rewrite B8, A8, fmap_app, not_elem_of_app. tauto.
Qed.

Lemma bstep_refl s : binv s -> quiet s -> bstep s s [].
Proof.
  intros. split; try done; [by rewrite app_nil_r|]. intros x. split; [|tauto].
  intros. split; [done|apply not_elem_of_nil].
Qed.

(** After [bread], the buffer can be released again: it is dirty or agrees with
    the disk. *)
Lemma bread_releasable s b i s' :
  binv s -> bread_ok s b i s' -> dirty s' i = true \/ b_data (bufat s' i) = disk s' b.
Proof.
  intros Hs [R1 R2 R3 R4 R5 (R6&_&_) R7 (R8&R9)]. rewrite R4, R6.
  destruct R9 as [[Hh Hd]|[Hno _]].
  - rewrite Hd. destruct (dirty s i) eqn:E; [by left|]. right.
    rewrite (view_holds s Hs b i Hh). by apply (bi_clean _ Hs).
  - right. by apply view_uncached.
Qed.

Lemma bread_held s b i s' : bread_ok s b i s' -> held s' b i.
Proof. intros [R1 R2 R3]. by split. Qed.

(** Blocks held by other buffers. *)
Lemma only_holds s i s' j x : only s i s' -> j <> i -> holds s' x j <-> holds s x j.
Proof.
  intros [H1 H2 _] Hj. unfold holds. by rewrite H1, H2.
Qed.

Lemma only_flags s i s' j :
  only s i s' -> j <> i -> dirty s' j = dirty s j /\ locked s' j = locked s j.
Proof. intros [_ H2 _] Hj. unfold dirty, locked. by rewrite H2. Qed.

Lemma bread_dirtyb s b i s' x : binv s -> bread_ok s b i s' -> dirtyb s' x <-> dirtyb s x.
Proof.
  intros Hs [R1 R2 R3 R4 R5 _ R7 (R8&R9)]. split; intros (j&Hj&Hd).
  - destruct (decide (j = i)) as [->|Hne].
    + assert (x = b) as -> by (destruct Hj as (_&_&<-), R2 as (_&_&<-); done).
      destruct R9 as [[Hh E]|(_&_&E)]; [exists i; by rewrite <- E|congruence].
    + exists j. rewrite <- (only_holds s i s' j x R7 Hne). split; [done|].
      by destruct (only_flags s i s' j R7 Hne) as [<- _].
  - destruct (decide (j = i)) as [->|Hne].
    + destruct R9 as [[Hh E]|(_&E&_)]; [|congruence].
      assert (x = b) as -> by (destruct Hj as (_&_&<-), Hh as (_&_&<-); done).
      exists i. by rewrite E.
    + exists j. rewrite (only_holds s i s' j x R7 Hne). split; [done|].
      by destruct (only_flags s i s' j R7 Hne) as [-> _].
Qed.

(** Two buffers can be had, for [a] and then for [b]. *)
Definition roomy (s : bcache) (b : Z) : Prop :=
  (exists i, clean s i) /\ (dirtyb s b \/ exists i j, i <> j /\ clean s i /\ clean s j).

(** Both blocks read and held. *)
Record two_held (s : bcache) (a b : Z) (i j : nat) (s' : bcache) : Prop := {
  th_inv : binv s';
  th_ne : i <> j;
  th_a : held s' a i /\ b_data (bufat s' i) = view s a /\
    (dirty s' i = true \/ b_data (bufat s' i) = disk s' a);
  th_b : held s' b j /\ b_data (bufat s' j) = view s b /\
    (dirty s' j = true \/ b_data (bufat s' j) = disk s' b);
  th_view x : view s' x = view s x;
  th_disk : disk s' = disk s /\ writes s' = writes s;
  th_env : disksize s' = disksize s /\ mypid s' = mypid s;
  th_locked k : k <> i -> k <> j -> locked s' k = false;
  th_dirty x : dirtyb s' x <-> dirtyb s x;
}.

Lemma read_two s a b :
  binv s -> quiet s -> a <> b -> 0 <= a < disksize s -> 0 <= b < disksize s -> roomy s b ->
  exists i j s1 s2, bread ROOTDEV a s = Ret i s1 /\ bread ROOTDEV b s1 = Ret j s2 /\
    two_held s a b i j s2.
Proof.
  intros Hs Hq Hab Ha Hb [(c&Hc&_&Hcd) Hroom].
  destruct (bread_spec s a Hs Ha) as (i&s1&Hrun1&H1).
  { exists c. split; [done|]. split; [apply Hq|by right]. }
  { intros. apply Hq. }
  pose proof (bread_releasable _ _ _ _ Hs H1) as Hrel1.
  pose proof (bread_dirtyb _ _ _ _ b Hs H1) as Hdb1.
  destruct (on_env _ _ _ (br_only _ _ _ _ H1)) as [Esz Epid].
  assert (Hnot : forall k, holds s1 b k -> k <> i).
  { intros k Hk ->. destruct Hk as (_&_&E), (br_holds _ _ _ _ H1) as (_&_&E'). congruence. }
  assert (Hl1 : forall k, k <> i -> locked s1 k = false).
  { intros k Hk. destruct (only_flags s i s1 k (br_only _ _ _ _ H1) Hk) as [_ ->]. apply Hq. }
  destruct (bread_spec s1 b (br_inv _ _ _ _ H1)) as (j&s2&Hrun2&H2).
  { by rewrite Esz. }
  { destruct Hroom as [Hd|(c1&c2&Hne&(Hl&_&Hd1)&(Hl'&_&Hd2))].
    - apply Hdb1 in Hd as (k&Hk&Hkd). exists k.
      split; [apply Hk|]. split; [by apply Hl1, Hnot|by left].
    - rewrite <- (on_len _ _ _ (br_only _ _ _ _ H1)) in Hl, Hl'.
      destruct (decide (c1 = i)) as [->|Hc1].
      + exists c2. split; [done|]. assert (c2 <> i) by congruence. split; [by apply Hl1|]. right.
        by destruct (only_flags s i s1 c2 (br_only _ _ _ _ H1)) as [-> _].
      + exists c1. split; [done|]. split; [by apply Hl1|]. right.
        by destruct (only_flags s i s1 c1 (br_only _ _ _ _ H1)) as [-> _]. }
  { intros k Hk. by apply Hl1, Hnot. }
  exists i, j, s1, s2. split; [done|]. split; [done|].
  pose proof (br_only _ _ _ _ H2) as Hon2. destruct (on_env _ _ _ Hon2) as [Esz2 Epid2].
  destruct (br_disk _ _ _ _ H1) as (D1&W1&_). destruct (br_disk _ _ _ _ H2) as (D2&W2&_).
  assert (Hij : i <> j).
  { intros ->. destruct (br_was _ _ _ _ H2) as [Hlk _]. unfold locked in Hlk.
    by rewrite (br_lock _ _ _ _ H1) in Hlk. }
  assert (Ebi : bufat s2 i = bufat s1 i) by by apply (on_other _ _ _ Hon2).
  split; [apply H2|done| | | |by split; congruence|by split; congruence| |].
  - rewrite Ebi. split; [|split].
    + split; [|rewrite Ebi, Epid2; apply H1].
      apply (only_holds s1 j s2 i a Hon2); [done|apply H1].
    + apply H1.
    + destruct (only_flags s1 j s2 i Hon2 Hij) as [-> _]. by rewrite D2.
  - split; [by eapply bread_held|]. rewrite (br_data _ _ _ _ H2), (br_view _ _ _ _ H1).
    split; [done|]. pose proof (bread_releasable _ _ _ _ (br_inv _ _ _ _ H1) H2) as Hrel.
    by rewrite (br_data _ _ _ _ H2), (br_view _ _ _ _ H1) in Hrel.
  - intros x. by rewrite (br_view _ _ _ _ H2), (br_view _ _ _ _ H1).
  - intros k Hki Hkj. destruct (only_flags s1 j s2 k Hon2 Hkj) as [_ ->]. by apply Hl1.
  - intros x. rewrite (bread_dirtyb _ _ _ _ x (br_inv _ _ _ _ H1) H2).
    by apply (bread_dirtyb _ _ _ _ x Hs H1).
Qed.

Lemma two_held_sym s a b i j s' : two_held s a b i j s' -> two_held s b a j i s'.
Proof. intros []. split; auto. Qed.

Lemma only_held s i s' j x :
  only s i s' -> j <> i -> held s x j -> held s' x j.
Proof.
  intros Hon Hj [Hh Hl]. split; [by apply (only_holds s i)|].
  destruct (on_env _ _ _ Hon) as [_ ->]. by rewrite (on_other _ _ _ Hon).
Qed.

(** [bwrite] and [brelse] keep which other blocks are dirty. *)
Lemma only_dirtyb s b i s' x :
  only s i s' -> holds s b i -> holds s' b i -> x <> b -> dirtyb s' x <-> dirtyb s x.
Proof.
  intros Hon Hi Hi' Hx.
  assert (Hne : forall s0 j, holds s0 b i -> holds s0 x j -> j <> i).
  { intros s0 j (_&_&E) (_&_&E') ->. congruence. }
  split; intros (j&Hj&Hd).
  - pose proof (Hne s' j Hi' Hj) as Hji. exists j. rewrite (only_holds s i s' j x Hon Hji) in Hj.
    split; [done|]. by destruct (only_flags s i s' j Hon Hji) as [<- _].
  - pose proof (Hne s j Hi Hj) as Hji. exists j. rewrite (only_holds s i s' j x Hon Hji).
    split; [done|]. by destruct (only_flags s i s' j Hon Hji) as [-> _].
Qed.

Lemma dirtyb_holds s b i : binv s -> holds s b i -> dirtyb s b <-> dirty s i = true.
Proof.
  intros Hs Hi. split; [|by exists i]. intros (j&Hj&Hd). by rewrite (bi_uniq _ Hs b i j Hi Hj).
Qed.

(** Write [d] to the second block and release both buffers. *)
Lemma write_second s a b i j s2 d :
  two_held s a b i j s2 -> a <> b ->
  exists s4 s5 s6, bwrite j (upd_buf j (set_data d) s2) = Ret tt s4 /\
    brelse i s4 = Ret tt s5 /\ brelse j s5 = Ret tt s6 /\ bstep s s6 [(b, d)].
Proof.
  intros [T1 T2 (Ta&Tad&Tar) (Tb&Tbd&_) Tv (Td&Tw) (Te1&Te2) Tl Tdb] Hab.
  destruct (data_spec s2 b j T1 Tb d) as ([K3 O3 _]&H3&E3&_&D3&W3&V3).
  set (s3 := upd_buf j (set_data d) s2) in *.
  destruct (bwrite_spec s3 b j K3 H3) as (s4&Hw&[K4 O4 _]&H4&E4&F4&D4&W4&V4). rewrite E3 in *.
  assert (O24 : only s2 j s4).
  { destruct O3 as [a1 a2 [a3 a4]], O4 as [b1 b2 [b3 b4]]. split; [congruence| |split; congruence].
    intros k Hk. by rewrite b2, a2. }
  assert (Hai : held s4 a i) by by eapply only_held.
  assert (Ebi : bufat s4 i = bufat s2 i) by by apply (on_other _ _ _ O24).
  destruct (brelse_spec s4 a i K4 Hai) as (s5&Hr5&K5&O5&H5&L5&E5&F5&_&D5&W5&V5).
  { destruct (only_flags s2 j s4 i O24 T2) as [-> _]. rewrite Ebi, D4, decide_False by done.
    destruct Tar as [?|Tar]; [by left|right]. by rewrite Tar, <- D3. }
  assert (Hbj : held s5 b j) by (eapply only_held; [done|congruence|done]).
  assert (Ebj : bufat s5 j = bufat s4 j) by (apply (on_other _ _ _ O5); congruence).
  destruct (brelse_spec s5 b j K5 Hbj) as (s6&Hr6&K6&O6&H6&L6&E6&F6&_&D6&W6&V6).
  { right. by rewrite Ebj, E4, D5, D4, decide_True. }
  exists s4, s5, s6. do 3 (split; [done|]).
  assert (Hdb : forall x, dirtyb s6 x <-> dirtyb s4 x).
  { intros x. transitivity (dirtyb s5 x).
    - destruct (decide (x = b)) as [->|Hne].
      + rewrite (dirtyb_holds s6 b j K6 H6), (dirtyb_holds s5 b j K5 (proj1 Hbj)). by rewrite F6.
      + apply (only_dirtyb s5 b j); [done|apply Hbj|done|done].
    - destruct (decide (x = a)) as [->|Hne].
      + rewrite (dirtyb_holds s5 a i K5 H5), (dirtyb_holds s4 a i K4 (proj1 Hai)). by rewrite F5.
      + apply (only_dirtyb s4 a i); [done|apply Hai|done|done]. }
  split; [done| | | | | |].
  - intros k. destruct (decide (k = j)) as [->|Hkj]; [done|].
    destruct (only_flags s5 j s6 k O6 Hkj) as [_ ->].
    destruct (decide (k = i)) as [->|Hki]; [done|].
    destruct (only_flags s4 i s5 k O5 Hki) as [_ ->].
    destruct (only_flags s2 j s4 k O24 Hkj) as [_ ->]. by apply Tl.
  - intros x. rewrite D6, D5, D4, D3, Td. done.
  - intros x. rewrite V6, V5, V4, V3. rewrite Tv. done.
  - rewrite W6, W5, W4, W3, Tw. done.
  - destruct (on_env _ _ _ O6), (on_env _ _ _ O5), (on_env _ _ _ O24). split; congruence.
  - intros x. rewrite Hdb. cbn [fmap list_fmap fst]. rewrite list_elem_of_singleton.
    destruct (decide (x = b)) as [->|Hne].
    + rewrite (dirtyb_holds s4 b j K4 (proj1 H4)), F4. split; [done|naive_solver].
    + rewrite (only_dirtyb s2 b j s4 x O24 (proj1 Tb) (proj1 H4) Hne), Tdb. naive_solver.
Qed.

(** Read one block, write [f] of its contents, release it. *)
Lemma rewrite_one s b f :
  binv s -> quiet s -> 0 <= b < disksize s -> (exists i, clean s i) ->
  exists i s1 s3 s4, bread ROOTDEV b s = Ret i s1 /\ b_data (bufat s1 i) = view s b /\
    bwrite i (upd_buf i (set_data (f (view s b))) s1) = Ret tt s3 /\
    brelse i s3 = Ret tt s4 /\ bstep s s4 [(b, f (view s b))].
Proof.
  intros Hs Hq Hb (c&Hc&_&Hcd).
  destruct (bread_spec s b Hs Hb) as (i&s1&Hrun1&H1).
  { exists c. split; [done|]. split; [apply Hq|by right]. }
  { intros. apply Hq. }
  pose proof (bread_held _ _ _ _ H1) as Hh1. pose proof (br_inv _ _ _ _ H1) as K1.
  pose proof (br_only _ _ _ _ H1) as O1. destruct (br_disk _ _ _ _ H1) as (D1&W1&_).
  set (d := f (view s b)).
  destruct (data_spec s1 b i K1 Hh1 d) as ([K2 O2 _]&H2&E2&_&D2&W2&V2).
  set (s2 := upd_buf i (set_data d) s1) in *.
  destruct (bwrite_spec s2 b i K2 H2) as (s3&Hw&[K3 O3 _]&H3&E3&F3&D3&W3&V3). rewrite E2 in *.
  destruct (brelse_spec s3 b i K3 H3) as (s4&Hr&K4&O4&H4&L4&E4&F4&_&D4&W4&V4).
  { right. by rewrite E3, D3, decide_True. }
  exists i, s1, s3, s4. split; [done|]. split; [apply H1|]. split; [done|]. split; [done|].
  split; [done| | | | | |].
  - intros k. destruct (decide (k = i)) as [->|Hk]; [done|].
    destruct (only_flags _ _ _ k O4 Hk) as [_ ->], (only_flags _ _ _ k O3 Hk) as [_ ->],
      (only_flags _ _ _ k O2 Hk) as [_ ->], (only_flags _ _ _ k O1 Hk) as [_ ->]. apply Hq.
  - intros x. rewrite D4, D3, D2, D1. done.
  - intros x. rewrite V4, V3, V2. rewrite (br_view _ _ _ _ H1). done.
  - by rewrite W4, W3, W2, W1.
  - destruct (on_env _ _ _ O4), (on_env _ _ _ O3), (on_env _ _ _ O2), (on_env _ _ _ O1).
    split; congruence.
  - intros x. cbn [fmap list_fmap fst]. rewrite list_elem_of_singleton.
    destruct (decide (x = b)) as [->|Hne].
    + rewrite (dirtyb_holds s4 b i K4 H4), F4, F3. split; [done|naive_solver].
    + rewrite (only_dirtyb s3 b i s4 x O4 (proj1 H3) H4 Hne).
      rewrite (only_dirtyb s2 b i s3 x O3 (proj1 H2) (proj1 H3) Hne).
      rewrite (only_dirtyb s1 b i s2 x O2 (proj1 Hh1) (proj1 H2) Hne).
      rewrite (bread_dirtyb _ _ _ _ x Hs H1). naive_solver.
Qed.

(** Read one block and release it. *)
Lemma read_one s b :
  binv s -> quiet s -> 0 <= b < disksize s -> (exists i, clean s i) ->
  exists i s1 s2, bread ROOTDEV b s = Ret i s1 /\ b_data (bufat s1 i) = view s b /\
    brelse i s1 = Ret tt s2 /\ bstep s s2 [].
Proof.
  intros Hs Hq Hb (c&Hc&_&Hcd).
  destruct (bread_spec s b Hs Hb) as (i&s1&Hrun1&H1).
  { exists c. split; [done|]. split; [apply Hq|by right]. }
  { intros. apply Hq. }
  pose proof (bread_held _ _ _ _ H1) as Hh1. pose proof (br_inv _ _ _ _ H1) as K1.
  pose proof (br_only _ _ _ _ H1) as O1. destruct (br_disk _ _ _ _ H1) as (D1&W1&_).
  destruct (brelse_spec s1 b i K1 Hh1) as (s2&Hr&K2&O2&H2&L2&E2&F2&_&D2&W2&V2).
  { exact (bread_releasable s b i s1 Hs H1). }
  exists i, s1, s2. split; [done|]. split; [apply H1|]. split; [done|].
  split; [done| | | | | |].
  - intros k. destruct (decide (k = i)) as [->|Hk]; [done|].
    destruct (only_flags _ _ _ k O2 Hk) as [_ ->], (only_flags _ _ _ k O1 Hk) as [_ ->]. apply Hq.
  - intros x. by rewrite D2, D1.
  - intros x. by rewrite V2, (br_view _ _ _ _ H1).
  - by rewrite W2, W1, app_nil_r.
  - destruct (on_env _ _ _ O2), (on_env _ _ _ O1). split; congruence.
  - intros x. rewrite <- (bread_dirtyb _ _ _ _ x Hs H1).
    destruct (decide (x = b)) as [->|Hne].
    + rewrite (dirtyb_holds s2 b i K2 H2), (dirtyb_holds s1 b i K1 (proj1 Hh1)), F2.
      split; [intros; split; [done|apply not_elem_of_nil]|tauto].
    + rewrite (only_dirtyb s1 b i s2 x O2 (proj1 Hh1) H2 Hne).
      split; [intros; split; [done|apply not_elem_of_nil]|tauto].
Qed.

(** ** A free buffer *)

Definition few_dirty (s : bcache) : Prop :=
  exists D, (length D < Z.to_nat NBUF)%nat /\ forall x, dirtyb s x -> x ∈ D.

Lemma few_dirty_clean s : binv s -> quiet s -> few_dirty s -> exists i, clean s i.
Proof.
  intros Hs Hq (D&HD&Hin).
  destruct (decide (Forall (fun i => dirty s i = true) (seq 0 (Z.to_nat NBUF)))) as [HF|HF].
  - exfalso. rewrite Forall_forall in HF.
    assert (Hh : forall i, i ∈ seq 0 (Z.to_nat NBUF) -> holds s (b_blockno (bufat s i)) i).
    { intros i Hi. apply HF in Hi as Hd. apply elem_of_seq in Hi.
      assert (Hlt : (i < length (bufs s))%nat) by (rewrite (bi_len _ Hs); lia).
      split; [done|]. split; [|done]. destruct (decide (b_dev (bufat s i) = ROOTDEV)); [done|].
      destruct (bi_free _ Hs i Hlt); [done|]. congruence. }
    assert (Hnd : NoDup ((fun i => b_blockno (bufat s i)) <$> seq 0 (Z.to_nat NBUF))).
    { apply NoDup_fmap_2_strong; [|apply NoDup_seq]. intros i j Hi Hj E.
      eapply (bi_uniq _ Hs); [by apply Hh|]. rewrite E. by apply Hh. }
    assert (Hsub : (fun i => b_blockno (bufat s i)) <$> seq 0 (Z.to_nat NBUF) ⊆+ D).
    { apply NoDup_submseteq; [done|]. intros x (i&->&Hi)%list_elem_of_fmap.
      apply Hin. exists i. split; [by apply Hh|by apply HF]. }
    apply submseteq_length in Hsub. rewrite length_fmap, length_seq in Hsub. lia.
  - apply not_Forall_Exists in HF; [|apply _]. apply Exists_exists in HF as (i&Hi&Hd).
    apply elem_of_seq in Hi. exists i. split; [rewrite (bi_len _ Hs); lia|]. split; [apply Hq|].
    simpl in Hd. by destruct (dirty s i).
Qed.

Lemma none_dirty_room s b : binv s -> quiet s -> (forall x, ~ dirtyb s x) -> roomy s b.
Proof.
  intros Hs Hq Hn.
  assert (Hc : forall i, (i < Z.to_nat NBUF)%nat -> clean s i).
  { intros i Hi. assert (Hlt : (i < length (bufs s))%nat) by (rewrite (bi_len _ Hs); lia).
    split; [done|]. split; [apply Hq|]. destruct (dirty s i) eqn:E; [|done].
    destruct (Hn (b_blockno (bufat s i))). exists i. split; [|done]. split; [done|]. split; [|done].
    destruct (decide (b_dev (bufat s i) = ROOTDEV)); [done|].
    destruct (bi_free _ Hs i Hlt); [done|]. congruence. }
  split; [exists 0%nat; apply Hc; unfold NBUF, MAXOPBLOCKS; lia|].
  right. exists 0%nat, 1%nat. split; [lia|].
  split; apply Hc; unfold NBUF, MAXOPBLOCKS; lia.
Qed.

Lemma few_dirty_step s s' ws : bstep s s' ws -> few_dirty s -> few_dirty s'.
Proof.
  intros Hb (D&HD&Hin). exists D. split; [done|]. intros x Hx. apply Hin.
  by apply (bs_dirty _ _ _ Hb).
Qed.

(** ** Log-level steps *)

Record lstep (s s' : log) (ws : list (Z * block)) : Prop := {
  ls_step : bstep (bc s) (bc s') ws;
  ls_same : s' = set_bc (bc s') s;
}.

Lemma lstep_trans s1 s2 s3 ws1 ws2 :
  lstep s1 s2 ws1 -> lstep s2 s3 ws2 -> lstep s1 s3 (ws1 ++ ws2).
Proof.
  intros [A1 A2] [B1 B2]. split; [by eapply bstep_trans|]. rewrite B2, A2. done.
Qed.

Lemma bind_lift {A B} (m : kern bcache A) (f : A -> kern log B) s a c :
  m (bc s) = Ret a c -> (lift m ≫= f) s = f a (set_bc c s).
Proof. intros E. unfold lift, zoom, mbind, kern_bind. by rewrite E. Qed.

Lemma bind_getl {A B} (g : log -> A) (f : A -> kern log B) s : (gets g ≫= f) s = f (g s) s.
Proof. done. Qed.

Lemma bind_modl {B} g (f : unit -> kern log B) s : (modify g ≫= f) s = f tt (g s).
Proof. done. Qed.

(** The log is usable: its blocks and the logged home blocks are on the disk, and
    home blocks are not log blocks. *)
Record area_ok (s : log) (n : nat) : Prop := {
  ar_inv : binv (bc s);
  ar_quiet : quiet (bc s);
  ar_dev : lg_dev s = ROOTDEV;
  ar_few : few_dirty (bc s);
  ar_log k : 0 <= k <= Z.of_nat n -> 0 <= lg_start s + k < disksize (bc s);
  ar_home k : (k < n)%nat -> 0 <= nth k (lh_block s) 0 < disksize (bc s);
  ar_apart k j : (k < n)%nat -> 0 <= j <= Z.of_nat n -> nth k (lh_block s) 0 <> lg_start s + j;
  ar_nodup j k : (j < n)%nat -> (k < n)%nat -> nth j (lh_block s) 0 = nth k (lh_block s) 0 -> j = k;
}.

Lemma area_step s s' ws n : lstep s s' ws -> area_ok s n -> area_ok s' n.
Proof.
  intros [Hb Hsame] [A1 A2 A3 A4 A5 A6 A7 A8]. destruct (bs_env _ _ _ Hb) as [E1 E2].
  split.
  - apply Hb.
  - apply Hb.
  - by rewrite Hsame.
  - by eapply few_dirty_step.
  - intros k Hk. rewrite E1, Hsame. by apply A5.
  - intros k Hk. rewrite E1, Hsame. by apply A6.
  - rewrite Hsame. apply A7.
  - rewrite Hsame. apply A8.
Qed.

(** The writes of [install_trans]: log block [tail+1], ... to their homes. *)
Fixpoint install_writes (v : Z -> block) (bl : list Z) (start : Z) (n tail : nat) : list (Z * block) :=
  match n with
  | O => []
  | S n => (nth tail bl 0, v (start + Z.of_nat tail + 1))
           :: install_writes v bl start n (S tail)
  end.

(** The writes of [write_log]: home blocks to the log. *)
Fixpoint log_writes (v : Z -> block) (bl : list Z) (start : Z) (n tail : nat) : list (Z * block) :=
  match n with
  | O => []
  | S n => (start + Z.of_nat tail + 1, v (nth tail bl 0))
           :: log_writes v bl start n (S tail)
  end.

Lemma install_writes_ext v v' bl bl' start n : forall tail,
  (forall k, (tail <= k < tail + n)%nat ->
     nth k bl' 0 = nth k bl 0 /\ v' (start + Z.of_nat k + 1) = v (start + Z.of_nat k + 1)) ->
  install_writes v' bl' start n tail = install_writes v bl start n tail.
Proof.
  induction n as [|n IH]; intros tail Hv; [done|]. cbn [install_writes].
  destruct (Hv tail) as [-> ->]; [lia|]. f_equal. apply IH. intros k Hk. apply Hv. lia.
Qed.

Lemma log_writes_ext v v' bl start n : forall tail,
  (forall k, (tail <= k < tail + n)%nat -> v' (nth k bl 0) = v (nth k bl 0)) ->
  log_writes v' bl start n tail = log_writes v bl start n tail.
Proof.
  induction n as [|n IH]; intros tail Hv; [done|]. cbn [log_writes].
  rewrite Hv by lia. f_equal. apply IH. intros k Hk. apply Hv. lia.
Qed.

Lemma blk_nat s k : blk s (Z.of_nat k) = nth k (lh_block s) 0.
Proof. unfold blk. by rewrite Nat2Z.id. Qed.

Lemma install_loop_spec N n : forall s tail,
  area_ok s N -> (tail + n = N)%nat ->
  ((forall k, (tail <= k < N)%nat -> dirtyb (bc s) (nth k (lh_block s) 0)) \/
   (forall x, ~ dirtyb (bc s) x)) ->
  exists s', install_loop n (Z.of_nat tail) s = Ret tt s' /\
    lstep s s' (install_writes (view (bc s)) (lh_block s) (lg_start s) n tail).
Proof.
  induction n as [|n IH]; intros s tail Ha Hn Hd.
  { exists s. split; [done|]. split; [apply bstep_refl; apply Ha|by destruct s]. }
  set (L := lg_start s + Z.of_nat tail + 1). set (h := nth tail (lh_block s) 0).
  assert (HL : 0 <= L < disksize (bc s)).
  { unfold L. rewrite <- Z.add_assoc. apply (ar_log _ _ Ha). lia. }
  assert (Hh : 0 <= h < disksize (bc s)) by (apply (ar_home _ _ Ha); lia).
  assert (Hne : L <> h).
  { unfold L, h. rewrite <- Z.add_assoc. apply not_eq_sym, (ar_apart _ _ Ha); lia. }
  assert (Hroom : roomy (bc s) h).
  { destruct Hd as [Hd|Hd]; [|apply none_dirty_room; [apply Ha..|done]].
    split; [apply few_dirty_clean; apply Ha|]. left. apply Hd. lia. }
  destruct (read_two (bc s) L h (ar_inv _ _ Ha) (ar_quiet _ _ Ha) Hne HL Hh Hroom)
    as (i&j&c1&c2&Hr1&Hr2&Hth).
  destruct (write_second (bc s) L h i j c2 (view (bc s) L) Hth Hne)
    as (c4&c5&c6&Hw&Hrl1&Hrl2&Hb).
  set (s1 := set_bc c6 s).
  assert (Hls : lstep s s1 [(h, view (bc s) L)]) by by split.
  assert (Ha1 : area_ok s1 N) by by eapply area_step.
  destruct (IH s1 (S tail) Ha1) as (s'&Hrun&Hls').
  { lia. }
  { destruct Hd as [Hd|Hd]; [left|right].
    - intros k Hk. apply (bs_dirty _ _ _ Hb). split; [apply Hd; lia|].
      cbn. rewrite list_elem_of_singleton. intros E. apply (ar_nodup _ _ Ha) in E; lia.
    - intros x Hx. apply (bs_dirty _ _ _ Hb) in Hx as [Hx _]. by apply (Hd x). }
  exists s'. split.
  - cbn [install_loop]. rewrite !bind_getl, (ar_dev _ _ Ha).
    erewrite bind_lift by exact Hr1. rewrite bind_getl.
    change (blk (set_bc c1 s) (Z.of_nat tail)) with (blk s (Z.of_nat tail)). rewrite blk_nat.
    erewrite bind_lift by exact Hr2. unfold data_of, set_data_of. rewrite bind_getl.
    change (bc (set_bc c2 (set_bc c1 s))) with c2.
    destruct (th_a _ _ _ _ _ _ Hth) as (_&->&_).
    erewrite bind_lift by reflexivity.
    erewrite bind_lift by exact Hw. erewrite bind_lift by exact Hrl1.
    erewrite bind_lift by exact Hrl2.
    replace (Z.of_nat tail + 1) with (Z.of_nat (S tail)) by lia. exact Hrun.
  - cbn [install_writes]. fold L h.
    change ((h, view (bc s) L) :: ?x) with ([(h, view (bc s) L)] ++ x).
    eapply lstep_trans; [done|].
    replace (install_writes (view (bc s)) (lh_block s) (lg_start s) n (S tail))
      with (install_writes (view (bc s1)) (lh_block s1) (lg_start s1) n (S tail)); [done|].
    apply install_writes_ext. intros k Hk. split; [done|].
    rewrite (bs_view _ _ _ Hb). apply apply_writes_other. cbn. rewrite list_elem_of_singleton.
    rewrite <- Z.add_assoc. apply not_eq_sym, (ar_apart _ _ Ha); lia.
Qed.

Lemma write_log_loop_spec N n : forall s tail,
  area_ok s N -> (tail + n = N)%nat ->
  (forall k, (k < N)%nat -> dirtyb (bc s) (nth k (lh_block s) 0)) ->
  exists s', write_log_loop n (Z.of_nat tail) s = Ret tt s' /\
    lstep s s' (log_writes (view (bc s)) (lh_block s) (lg_start s) n tail).
Proof.
  induction n as [|n IH]; intros s tail Ha Hn Hd.
  { exists s. split; [done|]. split; [apply bstep_refl; apply Ha|by destruct s]. }
  set (L := lg_start s + Z.of_nat tail + 1). set (h := nth tail (lh_block s) 0).
  assert (HL : 0 <= L < disksize (bc s)).
  { unfold L. rewrite <- Z.add_assoc. apply (ar_log _ _ Ha). lia. }
  assert (Hh : 0 <= h < disksize (bc s)) by (apply (ar_home _ _ Ha); lia).
  assert (Hne : L <> h).
  { unfold L, h. rewrite <- Z.add_assoc. apply not_eq_sym, (ar_apart _ _ Ha); lia. }
  assert (Hroom : roomy (bc s) h).
  { split; [apply few_dirty_clean; apply Ha|]. left. apply Hd. lia. }
  destruct (read_two (bc s) L h (ar_inv _ _ Ha) (ar_quiet _ _ Ha) Hne HL Hh Hroom)
    as (i&j&c1&c2&Hr1&Hr2&Hth).
  destruct (write_second (bc s) h L j i c2 (view (bc s) h) (two_held_sym _ _ _ _ _ _ Hth)
    (not_eq_sym Hne)) as (c4&c5&c6&Hw&Hrl1&Hrl2&Hb).
  set (s1 := set_bc c6 s).
  assert (Hls : lstep s s1 [(L, view (bc s) h)]) by by split.
  assert (Ha1 : area_ok s1 N) by by eapply area_step.
  assert (Hhome : forall k, (k < N)%nat -> nth k (lh_block s) 0 <> L).
  { intros k Hk. unfold L. rewrite <- Z.add_assoc. apply (ar_apart _ _ Ha); lia. }
  destruct (IH s1 (S tail) Ha1) as (s'&Hrun&Hls').
  { lia. }
  { intros k Hk. apply (bs_dirty _ _ _ Hb). split; [by apply Hd|].
    cbn. rewrite list_elem_of_singleton. by apply Hhome. }
  exists s'. split.
  - cbn [write_log_loop]. rewrite !bind_getl, (ar_dev _ _ Ha).
    erewrite bind_lift by exact Hr1. rewrite bind_getl.
    change (blk (set_bc c1 s) (Z.of_nat tail)) with (blk s (Z.of_nat tail)). rewrite blk_nat.
    erewrite bind_lift by exact Hr2. unfold data_of, set_data_of. rewrite bind_getl.
    change (bc (set_bc c2 (set_bc c1 s))) with c2.
    destruct (th_b _ _ _ _ _ _ Hth) as (_&->&_).
    erewrite bind_lift by reflexivity.
    erewrite bind_lift by exact Hw. erewrite bind_lift by exact Hrl1.
    erewrite bind_lift by exact Hrl2.
    replace (Z.of_nat tail + 1) with (Z.of_nat (S tail)) by lia. exact Hrun.
  - cbn [log_writes]. fold L h.
    change ((L, view (bc s) h) :: ?x) with ([(L, view (bc s) h)] ++ x).
    eapply lstep_trans; [done|].
    replace (log_writes (view (bc s)) (lh_block s) (lg_start s) n (S tail))
      with (log_writes (view (bc s1)) (lh_block s1) (lg_start s1) n (S tail)); [done|].
    apply log_writes_ext. intros k Hk.
    rewrite (bs_view _ _ _ Hb). apply apply_writes_other. cbn. rewrite list_elem_of_singleton.
    apply Hhome. lia.
Qed.

(** ** The header block *)

Lemma i32_small x : 0 <= x < 2 ^ 31 -> i32 x = x.
Proof.
  intros Hx. unfold i32. rewrite u32_id by (unfold is_u32; lia).
  by rewrite (proj2 (Z.ltb_lt _ _)) by lia.
Qed.

Lemma write_blocks_spec n : forall i bl d,
  (4 + 4 * (i + n) <= length d)%nat ->
  length (write_blocks n i bl d) = length d /\
  (forall o, (o + 4 <= 4 + 4 * i)%nat -> get32 (write_blocks n i bl d) o = get32 d o) /\
  (forall k, (i <= k < i + n)%nat ->
     get32 (write_blocks n i bl d) (4 + 4 * k) = u32 (nth k bl 0)).
Proof.
  induction n as [|n IH]; intros i bl d Hl; cbn [write_blocks].
  { split; [done|]. split; [done|]. lia. }
  destruct (IH (S i) bl (put32 d (4 + 4 * i) (nth i bl 0))) as (E1&E2&E3).
  { rewrite length_put32 by lia. lia. }
  rewrite length_put32 in E1 by lia. split; [done|]. split.
  - intros o Ho. rewrite E2 by lia. apply get32_put32_ne; lia.
  - intros k Hk. destruct (decide (k = i)) as [->|Hne].
    + rewrite E2 by lia. apply get32_put32_eq. lia.
    + apply E3. lia.
Qed.

Lemma read_blocks_spec n : forall i d bl,
  (i + n <= length bl)%nat ->
  length (read_blocks n i d bl) = length bl /\
  (forall k, nth k (read_blocks n i d bl) 0 =
     if decide (i <= k < i + n)%nat then i32 (get32 d (4 + 4 * k)) else nth k bl 0).
Proof.
  induction n as [|n IH]; intros i d bl Hl; cbn [read_blocks].
  { split; [done|]. intros k. by rewrite decide_False by lia. }
  destruct (IH (S i) d (<[i := i32 (get32 d (4 + 4 * i))]> bl)) as (E1&E2).
  { rewrite length_insert. lia. }
  rewrite length_insert in E1. split; [done|]. intros k. rewrite E2.
  destruct (decide (k = i)) as [->|Hne].
  - rewrite decide_False, decide_True by lia.
    by rewrite nth_lookup, list_lookup_insert_eq by lia.
  - rewrite !nth_lookup, list_lookup_insert_ne by done.
    destruct (decide (S i <= k < S i + n)%nat), (decide (i <= k < i + S n)%nat); done || lia.
Qed.

(** The header for [n] blocks [bl], over the old contents [d]. *)
Definition header (n : nat) (bl : list Z) (d : block) : block :=
  write_blocks n 0 bl (put32 d 0 (Z.of_nat n)).

Lemma header_spec n bl d :
  length d = Z.to_nat BSIZE -> (n <= Z.to_nat LOGSIZE)%nat ->
  (forall k, (k < n)%nat -> 0 <= nth k bl 0 < 2 ^ 31) ->
  length (header n bl d) = Z.to_nat BSIZE /\ i32 (get32 (header n bl d) 0) = Z.of_nat n /\
  (forall k, (k < n)%nat -> i32 (get32 (header n bl d) (4 + 4 * k)) = nth k bl 0).
Proof.
  intros Hd Hn Hbl. unfold BSIZE, LOGSIZE, MAXOPBLOCKS in *.
  assert (Hp : length (put32 d 0 (Z.of_nat n)) = length d) by (apply length_put32; lia).
  destruct (write_blocks_spec n 0 bl (put32 d 0 (Z.of_nat n))) as (E1&E2&E3); [lia|].
  unfold header. split; [congruence|]. split.
  - rewrite E2 by lia. rewrite get32_put32_eq by lia. rewrite u32_id by (unfold is_u32; lia).
    apply i32_small. lia.
  - intros k Hk. rewrite E3 by lia. pose proof (Hbl k Hk).
    rewrite u32_id by (unfold is_u32; lia). by apply i32_small.
Qed.

Lemma write_head_spec s N n :
  area_ok s N -> lh_n s = Z.of_nat n ->
  exists s', write_head s = Ret tt s' /\
    lstep s s' [(lg_start s, header n (lh_block s) (view (bc s) (lg_start s)))].
Proof.
  intros Ha Hn.
  destruct (rewrite_one (bc s) (lg_start s) (header n (lh_block s)))
    as (i&c1&c3&c4&Hr&Hd&Hw&Hrl&Hb).
  - apply Ha.
  - apply Ha.
  - rewrite <- (Z.add_0_r (lg_start s)). apply (ar_log _ _ Ha). lia.
  - apply few_dirty_clean; apply Ha.
  - exists (set_bc c4 s). split; [|by split].
    unfold write_head. rewrite !bind_getl, (ar_dev _ _ Ha).
    erewrite bind_lift by exact Hr. unfold data_of, set_data_of. rewrite bind_getl.
    change (bc (set_bc c1 s)) with c1. rewrite Hd, !bind_getl.
    change (lh_n (set_bc c1 s)) with (lh_n s). rewrite Hn, Nat2Z.id.
    erewrite bind_lift by reflexivity. erewrite bind_lift by exact Hw.
    unfold lift, zoom. change (bc (set_bc c3 _)) with c3. by rewrite Hrl.
Qed.

Lemma read_head_spec s N :
  area_ok s N ->
  let d := view (bc s) (lg_start s) in
  let n := i32 (get32 d 0) in
  exists s', read_head s = Ret tt s' /\ bstep (bc s) (bc s') [] /\
    s' = set_lh n (read_blocks (Z.to_nat n) 0 d (lh_block s)) (set_bc (bc s') s).
Proof.
  intros Ha d n.
  destruct (read_one (bc s) (lg_start s)) as (i&c1&c2&Hr&Hd&Hrl&Hb).
  - apply Ha.
  - apply Ha.
  - rewrite <- (Z.add_0_r (lg_start s)). apply (ar_log _ _ Ha). lia.
  - apply few_dirty_clean; apply Ha.
  - exists (set_lh n (read_blocks (Z.to_nat n) 0 d (lh_block s)) (set_bc c2 s)).
    split; [|by split].
    unfold read_head. rewrite !bind_getl, (ar_dev _ _ Ha).
    erewrite bind_lift by exact Hr. unfold data_of. rewrite bind_getl.
    change (bc (set_bc c1 s)) with c1. rewrite Hd, bind_modl.
    unfold lift, zoom. change (bc (set_lh _ _ _)) with c1. by rewrite Hrl.
Qed.

(** ** Recovery *)

Lemma install_writes_lookup v bl start n : forall tail k,
  (k < n)%nat -> install_writes v bl start n tail !! k =
    Some (nth (tail + k) bl 0, v (start + Z.of_nat (tail + k) + 1)).
Proof.
  induction n as [|n IH]; intros tail k Hk; [lia|]. cbn [install_writes].
  destruct k as [|k]; [by rewrite Nat.add_0_r|]. cbn. rewrite IH by lia. by rewrite Nat.add_succ_r.
Qed.

Lemma length_install_writes v bl start n tail : length (install_writes v bl start n tail) = n.
Proof. revert tail. induction n as [|n IH]; intros tail; cbn; [done|]. by rewrite IH. Qed.

Lemma install_writes_fst v bl start n tail x :
  x ∈ (install_writes v bl start n tail).*1 <-> exists k, (k < n)%nat /\ x = nth (tail + k) bl 0.
Proof.
  rewrite list_elem_of_fmap. split.
  - intros (w&->&(k&Hk)%list_elem_of_lookup). pose proof (lookup_lt_Some _ _ _ Hk) as Hlt.
    rewrite length_install_writes in Hlt. rewrite install_writes_lookup in Hk by done.
    injection Hk as <-. by exists k.
  - intros (k&Hk&->). eexists. split; [|by eapply list_elem_of_lookup_2, install_writes_lookup]. done.
Qed.

Lemma install_writes_nodup v bl start n :
  (forall j k, (j < n)%nat -> (k < n)%nat -> nth j bl 0 = nth k bl 0 -> j = k) ->
  NoDup (install_writes v bl start n 0).*1.
Proof.
  intros Hnd. apply NoDup_alt. intros i j x Hi Hj. rewrite list_lookup_fmap in Hi, Hj.
  assert (Hlt : forall i, is_Some ((install_writes v bl start n 0) !! i) -> (i < n)%nat).
  { intros k Hk. apply lookup_lt_is_Some in Hk. by rewrite length_install_writes in Hk. }
  destruct (install_writes v bl start n 0 !! i) eqn:Ei; [|done].
  destruct (install_writes v bl start n 0 !! j) eqn:Ej; [|done].
  assert (i < n)%nat by (apply Hlt; eauto). assert (j < n)%nat by (apply Hlt; eauto).
  rewrite install_writes_lookup in Ei, Ej by done. simplify_eq. cbn in *.
  injection Hi as <-. injection Hj as Hj. apply Hnd; [done..|congruence].
Qed.

(** Where the log and the home blocks of a transaction are. *)
Record geometry (size start lsize : Z) (N : nat) (bl : list Z) : Prop := {
  ge_start : 0 <= start;
  ge_size : start + lsize <= size;
  ge_n : Z.of_nat N <= LOGSIZE /\ Z.of_nat N <= lsize - 1;
  ge_home k : (k < N)%nat -> 0 <= nth k bl 0 < size /\ 0 <= nth k bl 0 < 2 ^ 31;
  ge_apart k : (k < N)%nat -> nth k bl 0 < start \/ start + lsize <= nth k bl 0;
  ge_nodup j k : (j < N)%nat -> (k < N)%nat -> nth j bl 0 = nth k bl 0 -> j = k;
}.

#[local] Opaque binit.

(** The machine after a reboot with disk [d]. *)
Definition boot (d : Z -> block) (size start lsize pid : Z) : log :=
  Log (binit d size pid) start lsize 0 false ROOTDEV 0 (replicate (Z.to_nat LOGSIZE) 0).

Lemma boot_none_dirty d size pid x : ~ dirtyb (binit d size pid) x.
Proof. intros (i&(_&H&_)&_). by rewrite binit_bufs in H. Qed.

Lemma none_dirty_few s : (forall x, ~ dirtyb s x) -> few_dirty s.
Proof. intros H. exists []. split; [unfold NBUF, MAXOPBLOCKS; simpl; lia|]. intros x Hx. by destruct (H x). Qed.

Lemma geometry_area s size N :
  geometry size (lg_start s) (lg_size s) N (lh_block s) -> disksize (bc s) = size ->
  binv (bc s) -> quiet (bc s) -> lg_dev s = ROOTDEV -> few_dirty (bc s) -> area_ok s N.
Proof.
  intros [G1 G2 [G3 G3'] G4 G5 G6] Hsz Hinv Hq Hdev Hfew. rewrite <- Hsz in *.
  split; [done..| | | |done].
  - intros k Hk. lia.
  - intros k Hk. by apply G4.
  - intros k j Hk Hj. destruct (G5 k Hk); lia.
Qed.

(** The log header of disk [d] describes [N] committed blocks [bl]. *)
Definition committed (d : Z -> block) (start : Z) (N : nat) (bl : list Z) : Prop :=
  i32 (get32 (d start) 0) = Z.of_nat N /\
  forall k, (k < N)%nat -> i32 (get32 (d start) (4 + 4 * k)) = nth k bl 0.

Lemma recover_run d size start lsize pid N bl :
  geometry size start lsize N bl -> committed d start N bl ->
  exists r, recover_from_log (boot d size start lsize pid) = Ret tt r /\ lh_n r = 0 /\
    writes (bc r) = install_writes d bl start N 0 ++ [(start, header 0 bl (d start))] /\
    (forall x, disk (bc r) x = apply_writes (writes (bc r)) d x).
Proof.
  intros Hg [Hn Hbl]. set (s := boot d size start lsize pid).
  assert (Hq : quiet (bc s)).
  { intros i. unfold locked. simpl. by rewrite binit_bufs. }
  assert (Ha0 : area_ok s 0).
  { apply (geometry_area s size); [|apply binit_env|apply binit_inv|done|done|
      apply none_dirty_few, boot_none_dirty].
    destruct Hg as [G1 G2 [G3 G3'] _ _ _]. split; [done|done| |lia|lia|lia].
    unfold LOGSIZE, MAXOPBLOCKS. simpl. lia. }
  destruct (read_head_spec s 0 Ha0) as (s1&Hr1&Hb1&E1).
  change (lg_start s) with start in *.
  change (view (bc s) start) with (view (binit d size pid) start) in *. rewrite binit_view, Hn in *.
  rewrite Nat2Z.id in E1. set (bl' := read_blocks N 0 (d start) (lh_block s)) in *.
  destruct (read_blocks_spec N 0 (d start) (lh_block s)) as (Hl'&Hbl').
  { change (lh_block s) with (replicate (Z.to_nat LOGSIZE) 0). rewrite length_replicate.
    destruct (ge_n _ _ _ _ _ Hg). lia. }
  fold bl' in Hl', Hbl'.
  assert (Hbb : forall k, (k < N)%nat -> nth k bl' 0 = nth k bl 0).
  { intros k Hk. rewrite Hbl', decide_True by lia. by apply Hbl. }
  assert (Hnd1 : forall x, ~ dirtyb (bc s1) x).
  { intros x Hx. apply (bs_dirty _ _ _ Hb1) in Hx as [Hx _]. by apply boot_none_dirty in Hx. }
  assert (Hv1 : forall x, view (bc s1) x = d x).
  { intros x. rewrite (bs_view _ _ _ Hb1). apply binit_view. }
  assert (Fst : lg_start s1 = start) by by rewrite E1.
  assert (Fsz : lg_size s1 = lsize) by by rewrite E1.
  assert (Fbl : lh_block s1 = bl') by by rewrite E1.
  assert (Fn : lh_n s1 = Z.of_nat N) by by rewrite E1.
  assert (Ha1 : area_ok s1 N).
  { apply (geometry_area s1 size).
    - rewrite Fst, Fsz, Fbl. destruct Hg as [G1 G2 G3 G4 G5 G6]. split; [done..| | |].
      + intros k Hk. rewrite Hbb by done. by apply G4.
      + intros k Hk. rewrite Hbb by done. by apply G5.
      + intros j k Hj Hk. rewrite !Hbb by done. by apply G6.
    - destruct (bs_env _ _ _ Hb1) as [-> _]. apply binit_env.
    - apply Hb1.
    - apply Hb1.
    - by rewrite E1.
    - by apply none_dirty_few. }
  destruct (install_loop_spec N N s1 0 Ha1) as (s2&Hr2&[Hb2 E2]); [lia|by right|].
  assert (Eiw : install_writes (view (bc s1)) (lh_block s1) (lg_start s1) N 0 =
    install_writes d bl start N 0).
  { rewrite Fbl, Fst. apply install_writes_ext. intros k Hk. rewrite Hv1. split; [|done].
    apply Hbb. lia. }
  rewrite Eiw in Hb2.
  set (s3 := set_lh 0 (lh_block s2) s2).
  assert (Ha3 : area_ok s3 0).
  { assert (Ha2 : area_ok s2 N) by by eapply area_step; [split|].
    destruct Ha2 as [A1 A2 A3 A4 A5 A6 A7 A8]. split; [done..| |lia|lia|lia]. intros k Hk. apply A5. lia. }
  destruct (write_head_spec s3 0 0 Ha3 eq_refl) as (s4&Hr4&[Hb4 E4]).
  exists s4. split; [|split; [by rewrite E4|]].
  - unfold recover_from_log. rewrite (bind_Ret _ _ _ _ _ Hr1).
    rewrite (bind_Ret install_trans _ s1 tt s2).
    + rewrite bind_modl. exact Hr4.
    + unfold install_trans. rewrite bind_getl, Fn, Nat2Z.id. exact Hr2.
  - change (bc s3) with (bc s2) in *.
    assert (Est : lg_start s3 = start).
    { change (lg_start s3) with (lg_start s2). rewrite E2. exact Fst. }
    rewrite Est in *.
    assert (Hvs : view (bc s2) start = d start).
    { rewrite (bs_view _ _ _ Hb2), apply_writes_other; [by apply Hv1|].
      rewrite install_writes_fst. intros (k&Hk&Ek).
      destruct (ge_apart _ _ _ _ _ Hg k Hk); destruct (ge_n _ _ _ _ _ Hg); simpl in Ek; lia. }
    assert (Ew : writes (bc s4) = install_writes d bl start N 0 ++ [(start, header 0 bl (d start))]).
    { rewrite (bs_writes _ _ _ Hb4), (bs_writes _ _ _ Hb2), (bs_writes _ _ _ Hb1), Hvs.
      change (writes (bc s)) with (writes (binit d size pid)).
      by destruct (binit_env d size pid) as (_&_&->). }
    split; [done|]. intros x.
    rewrite (bs_disk _ _ _ Hb4), Ew, apply_writes_app, Hvs.
    apply apply_writes_ext. rewrite (bs_disk _ _ _ Hb2). apply apply_writes_ext.
    rewrite (bs_disk _ _ _ Hb1). change (disk (bc s) x = d x). simpl.
    by destruct (binit_env d size pid) as (_&->&_).
Qed.

(** ** Commit *)

Lemma log_writes_lookup v bl start n : forall tail k,
  (k < n)%nat -> log_writes v bl start n tail !! k =
    Some (start + Z.of_nat (tail + k) + 1, v (nth (tail + k) bl 0)).
Proof.
  induction n as [|n IH]; intros tail k Hk; [lia|]. cbn [log_writes].
  destruct k as [|k]; [by rewrite Nat.add_0_r|]. cbn. rewrite IH by lia. by rewrite Nat.add_succ_r.
Qed.

Lemma length_log_writes v bl start n tail : length (log_writes v bl start n tail) = n.
Proof. revert tail. induction n as [|n IH]; intros tail; cbn; [done|]. by rewrite IH. Qed.

Lemma log_writes_fst v bl start n tail x :
  x ∈ (log_writes v bl start n tail).*1 ->
  exists k, (tail <= k < tail + n)%nat /\ x = start + Z.of_nat k + 1.
Proof.
  intros (w&->&(k&Hk)%list_elem_of_lookup)%list_elem_of_fmap.
  pose proof (lookup_lt_Some _ _ _ Hk) as Hlt. rewrite length_log_writes in Hlt.
  rewrite log_writes_lookup in Hk by done. injection Hk as <-. exists (tail + k)%nat.
  split; [lia|done].
Qed.

Lemma log_writes_nodup v bl start n tail : NoDup (log_writes v bl start n tail).*1.
Proof.
  revert tail. induction n as [|n IH]; intros tail; cbn; [constructor|].
  apply NoDup_cons. split; [|apply IH]. intros (k&Hk&E)%log_writes_fst. lia.
Qed.

(** A transaction ready to commit: [N] logged blocks, exactly the dirty ones, no
    buffer held, and a disk whose log header is clear. *)
Record ready (s : log) (N : nat) : Prop := {
  rd_geo : geometry (disksize (bc s)) (lg_start s) (lg_size s) N (lh_block s);
  rd_n : lh_n s = Z.of_nat N;
  rd_room : Z.of_nat N < NBUF;
  rd_inv : binv (bc s);
  rd_quiet : quiet (bc s);
  rd_dev : lg_dev s = ROOTDEV;
  rd_dirty x : dirtyb (bc s) x <-> exists k, (k < N)%nat /\ x = nth k (lh_block s) 0;
  rd_clear : i32 (get32 (disk (bc s) (lg_start s)) 0) = 0;
  rd_len : length (disk (bc s) (lg_start s)) = Z.to_nat BSIZE;
}.

Lemma ready_area s N : ready s N -> area_ok s N.
Proof.
  intros [R1 R2 R3 R4 R5 R6 R7 R8 R9]. apply (geometry_area s (disksize (bc s))); try done.
  exists ((fun k => nth k (lh_block s) 0) <$> seq 0 N). split.
  - rewrite length_fmap, length_seq. lia.
  - intros x (k&Hk&->)%R7. apply (list_elem_of_fmap_2 (fun k => nth k (lh_block s) 0)), elem_of_seq. lia.
Qed.

Lemma clean_view s x : binv s -> quiet s -> ~ dirtyb s x -> view s x = disk s x.
Proof.
  intros Hs Hq Hd. destruct (holds_dec s Hs x) as [[i Hi]|Hno]; [|by apply view_uncached].
  rewrite (view_holds s Hs x i Hi). apply (bi_clean _ Hs); [done|apply Hq|].
  destruct (dirty s i) eqn:E; [|done]. destruct Hd. by exists i.
Qed.

(** The home block of log block [x]. *)
Definition home_of (bl : list Z) (start x : Z) : Z := nth (Z.to_nat (x - start - 1)) bl 0.

Definition commit_writes (d v : Z -> block) (bl : list Z) (start : Z) (N : nat) : list (Z * block) :=
  log_writes v bl start N 0 ++
  [(start, header N bl (d start))] ++
  install_writes (fun x => v (home_of bl start x)) bl start N 0 ++
  [(start, header 0 bl (header N bl (d start)))].

Section commit.
Context (s : log) (N : nat).
Hypothesis Hrd : ready s N.
Hypothesis HN : (0 < N)%nat.
Local Abbreviation bl := (lh_block s).
Local Abbreviation start := (lg_start s).
Local Abbreviation d0 := (disk (bc s)).
Local Abbreviation v := (view (bc s)).

Lemma home_not_start k : (k < N)%nat -> nth k bl 0 <> start.
Proof.
  intros Hk. destruct (rd_geo _ _ Hrd) as [G1 G2 [G3 G3'] _ G5 _]. destruct (G5 k Hk); lia.
Qed.

Lemma start_view : v start = d0 start.
Proof.
  apply clean_view; [apply Hrd..|]. intros (k&Hk&E)%(rd_dirty _ _ Hrd).
  by apply (home_not_start k Hk).
Qed.

Lemma commit_run :
  exists s', commit s = Ret tt s' /\ lh_n s' = 0 /\ outstanding s' = outstanding s /\
    bstep (bc s) (bc s') (commit_writes d0 v bl start N).
Proof using Hrd HN.
  pose proof (ready_area _ _ Hrd) as Ha.
  destruct (write_log_loop_spec N N s 0 Ha) as (s1&Hr1&H1); [lia| |].
  { intros k Hk. apply (rd_dirty _ _ Hrd). eauto. }
  pose proof (area_step _ _ _ _ H1 Ha) as Ha1. destruct H1 as [Hb1 E1].
  assert (F1 : lh_block s1 = bl /\ lg_start s1 = start /\ lh_n s1 = Z.of_nat N).
  { rewrite E1. split_and!; [done|done|apply Hrd]. }
  destruct F1 as (F1a&F1b&F1c).
  destruct (write_head_spec s1 N N Ha1 F1c) as (s2&Hr2&H2).
  pose proof (area_step _ _ _ _ H2 Ha1) as Ha2. destruct H2 as [Hb2 E2].
  assert (Hvs : view (bc s1) start = d0 start).
  { rewrite (bs_view _ _ _ Hb1), apply_writes_other; [apply start_view|].
    intros (k&Hk&E)%log_writes_fst. lia. }
  rewrite F1a, F1b, Hvs in Hb2.
  assert (F2 : lh_block s2 = bl /\ lg_start s2 = start /\ lh_n s2 = Z.of_nat N) by (by rewrite E2).
  destruct F2 as (F2a&F2b&F2c).
  destruct (install_loop_spec N N s2 0 Ha2) as (s3&Hr3&H3); [lia| |].
  { left. intros k Hk. rewrite F2a. apply (bs_dirty _ _ _ Hb2). split.
    - apply (bs_dirty _ _ _ Hb1). split; [apply (rd_dirty _ _ Hrd); exists k; split; [lia|done]|].
      intros (j&Hj&E)%log_writes_fst. destruct (rd_geo _ _ Hrd) as [G1 G2 [G3 G3'] _ G5 _].
      destruct (G5 k); lia.
    - cbn. rewrite list_elem_of_singleton. apply home_not_start. lia. }
  pose proof (area_step _ _ _ _ H3 Ha2) as Ha3. destruct H3 as [Hb3 E3].
  assert (Eiw : install_writes (view (bc s2)) (lh_block s2) (lg_start s2) N 0 =
    install_writes (fun x => v (home_of bl start x)) bl start N 0).
  { rewrite F2a, F2b. apply install_writes_ext. intros k Hk. split; [done|].
    rewrite (bs_view _ _ _ Hb2), apply_writes_other.
    2: { cbn. rewrite list_elem_of_singleton. lia. }
    rewrite (bs_view _ _ _ Hb1).
    assert (Hlk := log_writes_lookup v bl start N 0 k ltac:(lia)). cbn [Nat.add] in Hlk.
    rewrite (apply_writes_in _ _ k _ _ (log_writes_nodup _ _ _ _ _) Hlk).
    unfold home_of. do 2 f_equal. lia. }
  rewrite Eiw in Hb3.
  set (s4 := set_lh 0 (lh_block s3) s3).
  assert (Ha4 : area_ok s4 0).
  { destruct Ha3 as [A1 A2 A3 A4 A5 A6 A7 A8]. split; [done..| |lia|lia|lia].
    intros k Hk. apply A5. lia. }
  destruct (write_head_spec s4 0 0 Ha4 eq_refl) as (s5&Hr5&[Hb5 E5]).
  assert (F4 : lg_start s4 = start /\ lh_block s4 = bl).
  { change (lg_start s4) with (lg_start s3). change (lh_block s4) with (lh_block s3).
    by rewrite E3. }
  destruct F4 as [F4a F4b]. change (bc s4) with (bc s3) in Hb5. rewrite F4a, F4b in Hb5.
  assert (Hvs3 : view (bc s3) start = header N bl (d0 start)).
  { rewrite (bs_view _ _ _ Hb3), apply_writes_other.
    - rewrite (bs_view _ _ _ Hb2). cbn. unfold upd_disk. by rewrite decide_True.
    - rewrite install_writes_fst. intros (k&Hk&E). by apply (home_not_start k Hk). }
  rewrite Hvs3 in Hb5.
  exists s5. split; [|split; [by rewrite E5|split]].
  - unfold commit. rewrite bind_getl, (rd_n _ _ Hrd).
    rewrite (proj2 (Z.ltb_lt 0 (Z.of_nat N))) by lia.
    rewrite (bind_Ret write_log _ s tt s1).
    2: { unfold write_log. rewrite bind_getl, (rd_n _ _ Hrd), Nat2Z.id. exact Hr1. }
    rewrite (bind_Ret _ _ _ _ _ Hr2).
    rewrite (bind_Ret install_trans _ s2 tt s3).
    2: { unfold install_trans. rewrite bind_getl, F2c, Nat2Z.id. exact Hr3. }
    rewrite bind_modl. exact Hr5.
  - rewrite E5. change (outstanding s3 = outstanding s). rewrite E3.
    change (outstanding s2 = outstanding s). rewrite E2.
    change (outstanding s1 = outstanding s). by rewrite E1.
  - unfold commit_writes. eapply bstep_trans; [exact Hb1|]. eapply bstep_trans; [exact Hb2|].
    eapply bstep_trans; [exact Hb3|exact Hb5].
Qed.
(** Blocks outside the log area. *)
Definition outside (x : Z) : Prop := x < start \/ start + lg_size s <= x.

Lemma outside_start x : outside x -> x <> start /\ forall k, (k < N)%nat -> x <> start + Z.of_nat k + 1.
Proof using Hrd HN.
  destruct (rd_geo _ _ Hrd) as [G1 G2 [G3 G3'] _ _ _]. unfold outside.
  intros Hx. split; [lia|]. intros k Hk. lia.
Qed.

Local Abbreviation reboot d := (boot d (disksize (bc s)) start (lg_size s) 1).

(** Recovery from a disk with a clear log header changes no file system block. *)
Lemma recover_clear d :
  i32 (get32 (d start) 0) = 0 -> length (d start) = Z.to_nat BSIZE ->
  exists r, recover_from_log (reboot d) = Ret tt r /\ lh_n r = 0 /\
    i32 (get32 (disk (bc r) start) 0) = 0 /\ (forall x, x <> start -> disk (bc r) x = d x).
Proof using Hrd HN.
  intros Hd Hl. destruct (recover_run d (disksize (bc s)) start (lg_size s) 1 0 bl)
    as (r&Hrun&Hn&Hw&Hdk).
  - destruct (rd_geo _ _ Hrd) as [G1 G2 [G3 G3'] _ _ _]. split; [done..| |lia|lia|lia].
    unfold LOGSIZE, MAXOPBLOCKS. simpl. lia.
  - split; [done|lia].
  - exists r. split; [done|]. split; [done|]. split.
    + rewrite Hdk, Hw. cbn. unfold upd_disk. rewrite decide_True by done. cbn [snd].
      apply (header_spec 0 bl (d start)); [done|lia|lia].
    + intros x Hx. rewrite Hdk, Hw. cbn. unfold upd_disk. by rewrite decide_False.
Qed.

(** Recovery from a disk whose log holds the transaction installs all of it. *)
Lemma recover_committed d :
  committed d start N bl -> length (d start) = Z.to_nat BSIZE ->
  (forall k, (k < N)%nat -> d (start + Z.of_nat k + 1) = v (nth k bl 0)) ->
  (forall x, outside x -> (forall k, (k < N)%nat -> x <> nth k bl 0) -> d x = d0 x) ->
  exists r, recover_from_log (reboot d) = Ret tt r /\ lh_n r = 0 /\
    i32 (get32 (disk (bc r) start) 0) = 0 /\ (forall x, outside x -> disk (bc r) x = v x).
Proof using Hrd HN.
  intros Hc Hl HL Hx. destruct (recover_run d (disksize (bc s)) start (lg_size s) 1 N bl
    (rd_geo _ _ Hrd) Hc) as (r&Hrun&Hn&Hw&Hdk).
  exists r. split; [done|]. split; [done|]. split.
  - rewrite Hdk, Hw, apply_writes_app. cbn. unfold upd_disk. rewrite decide_True by done.
    cbn [snd]. apply (header_spec 0 bl (d start)); [done|lia|lia].
  - intros x Ho. destruct (outside_start x Ho) as [Hxs _].
    rewrite Hdk, Hw, apply_writes_app, apply_writes_other.
    2: { cbn. by rewrite list_elem_of_singleton. }
    destruct (decide (x ∈ (install_writes d bl start N 0).*1)) as [Hin|Hin].
    + apply install_writes_fst in Hin as (k&Hk&->). cbn [Nat.add].
      rewrite (apply_writes_in _ _ k _ _ (install_writes_nodup _ _ _ _ (ge_nodup _ _ _ _ _ (rd_geo _ _ Hrd)))
        (install_writes_lookup _ _ _ _ 0 k Hk)). by apply HL.
    + rewrite apply_writes_other by done.
      assert (Hnh : forall k, (k < N)%nat -> x <> nth k bl 0).
      { intros k Hk ->. apply Hin. apply install_writes_fst. by exists k. }
      rewrite Hx by done. symmetry. apply clean_view; [apply Hrd..|].
      intros (k&Hk&->)%(rd_dirty _ _ Hrd). by apply (Hnh k).
Qed.

(** The disk after the header and [j] of the installs. *)
Lemma committed_prefix j :
  (j <= N)%nat ->
  let d := apply_writes (log_writes v bl start N 0 ++ [(start, header N bl (d0 start))] ++
    take j (install_writes (fun x => v (home_of bl start x)) bl start N 0)) d0 in
  committed d start N bl /\ length (d start) = Z.to_nat BSIZE /\
  (forall k, (k < N)%nat -> d (start + Z.of_nat k + 1) = v (nth k bl 0)) /\
  (forall x, outside x -> (forall k, (k < N)%nat -> x <> nth k bl 0) -> d x = d0 x).
Proof using Hrd HN.
  intros Hj d. set (iw := take j _) in d.
  assert (Hiw : forall x, x ∈ iw.*1 -> exists k, (k < N)%nat /\ x = nth k bl 0).
  { intros x (w&->&Hw)%list_elem_of_fmap. unfold iw in Hw. apply elem_of_take in Hw as (i&Hi&_).
    eapply (install_writes_fst _ bl start N 0), list_elem_of_fmap_2, list_elem_of_lookup_2, Hi. }
  assert (Hds : d start = header N bl (d0 start)).
  { unfold d. rewrite !apply_writes_app, apply_writes_other.
    - cbn. unfold upd_disk. by rewrite decide_True.
    - intros (k&Hk&E)%Hiw. by apply (home_not_start k Hk). }
  destruct (header_spec N bl (d0 start)) as (E1&E2&E3).
  { exact (rd_len _ _ Hrd). }
  { destruct (ge_n _ _ _ _ _ (rd_geo _ _ Hrd)). lia. }
  { intros k Hk. by apply (ge_home _ _ _ _ _ (rd_geo _ _ Hrd)). }
  split; [by unfold committed; rewrite Hds|]. split; [by rewrite Hds|]. split.
  - intros k Hk. unfold d. rewrite !apply_writes_app, apply_writes_other.
    2: { intros (i&Hi&E)%Hiw. destruct (rd_geo _ _ Hrd) as [G1 G2 [G3 G3'] _ G5 _].
         destruct (G5 i Hi); lia. }
    rewrite apply_writes_other by (cbn; rewrite list_elem_of_singleton; lia).
    assert (Hlk := log_writes_lookup v bl start N 0 k Hk). cbn [Nat.add] in Hlk.
    by rewrite (apply_writes_in _ _ k _ _ (log_writes_nodup _ _ _ _ _) Hlk).
  - intros x Ho Hx. destruct (outside_start x Ho) as [Hxs HxL].
    unfold d. rewrite !apply_writes_app, apply_writes_other.
    2: { intros (i&Hi&E)%Hiw. by apply (Hx i). }
    rewrite apply_writes_other by (cbn; by rewrite list_elem_of_singleton).
    apply apply_writes_other. intros (k&Hk&E)%log_writes_fst. apply (HxL k); [lia|done].
Qed.

(** The disk after all of the commit's writes. *)
Lemma commit_disk x :
  outside x -> apply_writes (commit_writes d0 v bl start N) d0 x = v x.
Proof using Hrd HN.
  intros Ho. destruct (outside_start x Ho) as [Hxs HxL].
  destruct (committed_prefix N) as (_&_&_&Hrest); [lia|].
  rewrite take_ge in Hrest by (rewrite length_install_writes; lia).
  unfold commit_writes. rewrite !app_assoc, apply_writes_app, <- !app_assoc.
  rewrite apply_writes_other by (cbn; by rewrite list_elem_of_singleton).
  destruct (decide (x ∈ (install_writes (fun y => v (home_of bl start y)) bl start N 0).*1))
    as [Hx|Hx].
  - apply install_writes_fst in Hx as (k&Hk&->). cbn [Nat.add].
    rewrite !apply_writes_app.
    rewrite (apply_writes_in _ _ k _ _ (install_writes_nodup _ _ _ _ (ge_nodup _ _ _ _ _ (rd_geo _ _ Hrd)))
        (install_writes_lookup _ _ _ _ 0 k Hk)).
    unfold home_of. do 2 f_equal. lia.
  - assert (Hnh : forall k, (k < N)%nat -> x <> nth k bl 0).
    { intros k Hk ->. apply Hx, install_writes_fst. by exists k. }
    rewrite Hrest by done. symmetry. apply clean_view; [apply Hrd..|].
    intros (k&Hk&->)%(rd_dirty _ _ Hrd). by apply (Hnh k).
Qed.

Lemma commit_header :
  let d := apply_writes (commit_writes d0 v bl start N) d0 in
  i32 (get32 (d start) 0) = 0 /\ length (d start) = Z.to_nat BSIZE.
Proof using Hrd HN.
  intros d. assert (E : d start = header 0 bl (header N bl (d0 start))).
  { unfold d, commit_writes. rewrite !app_assoc, apply_writes_app. cbn. unfold upd_disk.
    by rewrite decide_True. }
  rewrite E. destruct (header_spec N bl (d0 start)) as (E1&_&_).
  { exact (rd_len _ _ Hrd). }
  { destruct (ge_n _ _ _ _ _ (rd_geo _ _ Hrd)). lia. }
  { intros k Hk. by apply (ge_home _ _ _ _ _ (rd_geo _ _ Hrd)). }
  destruct (header_spec 0 bl (header N bl (d0 start))) as (E4&E5&_); [done|lia|lia|].
  by split.
Qed.

End commit.

(** ** Logging a block *)

(** Inside a transaction: the logged blocks are the dirty ones, once each. *)
Record intx (s : log) (N : nat) : Prop := {
  tx_inv : binv (bc s);
  tx_n : lh_n s = Z.of_nat N;
  tx_len : (N < length (lh_block s))%nat;
  tx_dirty x : dirtyb (bc s) x <-> exists k, (k < N)%nat /\ x = nth k (lh_block s) 0;
  tx_nodup j k : (j < N)%nat -> (k < N)%nat -> nth j (lh_block s) 0 = nth k (lh_block s) 0 -> j = k;
}.

Lemma absorb_spec n bl b :
  (n <= length bl)%nat ->
  (absorb n bl b <= n)%nat /\
  ((absorb n bl b < n)%nat -> nth (absorb n bl b) bl 0 = b) /\
  (forall k, (k < absorb n bl b)%nat -> nth k bl 0 <> b).
Proof.
  revert bl. induction n as [|n IH]; intros [|x bl] Hl; cbn [absorb length] in *; try lia.
  - split; [done|]. split; [lia|]. lia.
  - split; [done|]. split; [lia|]. lia.
  - destruct (Z.eqb_spec x b) as [->|Hne].
    + split; [lia|]. split; [done|]. lia.
    + destruct (IH bl) as (E1&E2&E3); [lia|]. split; [lia|]. split.
      * intros Hlt. apply E2. lia.
      * intros [|k] Hk; [done|]. apply E3. lia.
Qed.

Lemma nth_insert (bl : list Z) k x j :
  (k < length bl)%nat -> nth j (<[k := x]> bl) 0 = if decide (j = k) then x else nth j bl 0.
Proof.
  intros Hk. rewrite !nth_lookup. destruct (decide (j = k)) as [->|Hne].
  - by rewrite list_lookup_insert_eq.
  - by rewrite list_lookup_insert_ne.
Qed.

Lemma log_write_run s N b i :
  intx s N -> held (bc s) b i -> 1 <= outstanding s ->
  Z.of_nat N < LOGSIZE -> Z.of_nat N < lg_size s - 1 ->
  exists s' N', log_write i s = Ret tt s' /\ (N' <= S N)%nat /\ outstanding s' = outstanding s /\
    binv (bc s') /\ held (bc s') b i /\ dirty (bc s') i = true /\ lh_n s' = Z.of_nat N' /\
    length (lh_block s') = length (lh_block s) /\
    (forall x, view (bc s') x = view (bc s) x) /\ disk (bc s') = disk (bc s) /\
    writes (bc s') = writes (bc s) /\
    (forall x, dirtyb (bc s') x <-> exists k, (k < N')%nat /\ x = nth k (lh_block s') 0) /\
    (forall x, dirtyb (bc s') x <-> dirtyb (bc s) x \/ x = b) /\
    (forall j k, (j < N')%nat -> (k < N')%nat ->
       nth j (lh_block s') 0 = nth k (lh_block s') 0 -> j = k).
Proof.
  intros [T1 T2 T3 T4 T5] Hh Ho Hn1 Hn2.
  destruct (mark_spec (bc s) b i T1 Hh) as ([K1 O1 _]&H1&E1&F1&D1&W1&V1).
  set (c := upd_buf i _ (bc s)) in *.
  assert (Hbno : b_blockno (bufat (bc s) i) = b) by apply Hh.
  destruct (absorb_spec N (lh_block s) b) as (A1&A2&A3); [lia|].
  set (k := absorb N (lh_block s) b) in *.
  set (N' := if decide (k = N) then S N else N).
  set (bl := <[k := b]> (lh_block s)).
  assert (Hbl : forall j, nth j bl 0 = if decide (j = k) then b else nth j (lh_block s) 0).
  { intros j. apply nth_insert. lia. }
  assert (HkN : (k < N')%nat) by (unfold N'; destruct (decide (k = N)); lia).
  assert (Hmem : forall x, (exists j, (j < N')%nat /\ x = nth j bl 0) <->
    (exists j, (j < N)%nat /\ x = nth j (lh_block s) 0) \/ x = b).
  { intros x. split.
    - intros (j&Hj&->). rewrite Hbl. destruct (decide (j = k)) as [->|Hne]; [by right|].
      left. exists j. split; [|done]. unfold N' in Hj. destruct (decide (k = N)); lia.
    - intros [(j&Hj&->)| ->].
      + destruct (decide (j = k)) as [->|Hne].
        * exists k. split; [done|]. rewrite Hbl, decide_True by done. by apply A2.
        * exists j. split; [unfold N'; destruct (decide (k = N)); lia|].
          by rewrite Hbl, decide_False.
      + exists k. split; [done|]. by rewrite Hbl, decide_True. }
  assert (Hdb : forall x, dirtyb c x <-> dirtyb (bc s) x \/ x = b).
  { intros x. destruct (decide (x = b)) as [->|Hne].
    - split; [by right|]. intros _. exists i. split; [apply H1|done].
    - rewrite (only_dirtyb (bc s) b i c x O1 (proj1 Hh) (proj1 H1) Hne). naive_solver. }
  exists (set_bc c (set_lh (Z.of_nat N') bl s)), N'. split.
  - unfold log_write. rewrite T2, (proj2 (Z.leb_gt _ _) Hn1), (proj2 (Z.leb_gt _ _) Hn2).
    cbn [orb]. rewrite (proj2 (Z.ltb_ge _ _) Ho), Nat2Z.id, Hbno. fold k. rewrite bind_modl.
    unfold lift, zoom, modify. f_equal. unfold set_bc, set_lh, N'. cbn. f_equal.
    destruct (Z.eqb_spec (Z.of_nat k) (Z.of_nat N)), (decide (k = N)); lia.
  - split; [unfold N'; destruct (decide (k = N)); lia|]. split; [done|]. split; [done|].
    split; [done|]. split; [done|]. split; [done|]. split; [apply length_insert|].
    split; [done|]. split; [done|]. split; [done|]. cbn [bc set_bc set_lh lh_block].
    split; [intros x; rewrite Hmem, Hdb, T4; done|]. split; [done|].
    intros j1 j2 Hj1 Hj2. rewrite !Hbl.
    assert (Hlt : forall j, (j < N')%nat -> j <> k -> (j < N)%nat /\ nth j (lh_block s) 0 <> b).
    { intros j Hj Hjk.
      assert (j < N)%nat by (unfold N' in Hj; destruct (decide (k = N)); lia). split; [done|].
      destruct (decide (k = N)) as [Hk|Hk]; [apply A3; lia|].
      intros E. apply Hjk. apply T5; [done|lia|]. rewrite A2 by lia. done. }
    destruct (decide (j1 = k)) as [->|Hn1'], (decide (j2 = k)) as [->|Hn2']; [done| | |].
    + intros E. by destruct (Hlt j2 Hj2 Hn2').
    + intros E. by destruct (Hlt j1 Hj1 Hn1').
    + apply T5; by apply Hlt.
Qed.

(** ** Space reservation *)

(** Routines that touch the cache and the disk only. *)
Definition keeps {A} (m : kern log A) : Prop :=
  forall s a s', m s = Ret a s' -> s' = set_bc (bc s') s.

Lemma keeps_bind {A B} (m : kern log A) (f : A -> kern log B) :
  keeps m -> (forall a, keeps (f a)) -> keeps (m ≫= f).
Proof.
  intros Hm Hf s b s2 (a&s1&H1&H2)%bind_inv. apply Hm in H1. apply Hf in H2.
  rewrite H2, H1. done.
Qed.

Lemma keeps_lift {A} (m : kern bcache A) : keeps (lift m).
Proof.
  intros s a s'. unfold lift, zoom. destruct (m (bc s)); try done. by intros [= <- <-].
Qed.

Lemma keeps_gets {A} (g : log -> A) : keeps (gets g).
Proof. intros s a s' [= <- <-]. by destruct s. Qed.

Lemma keeps_ret {A} (a : A) : keeps (mret a).
Proof. intros s a' s' [= <- <-]. by destruct s. Qed.

Create HintDb logkeeps.
#[local] Hint Resolve keeps_bind keeps_lift keeps_gets keeps_ret : logkeeps.

Ltac keeps_tac := repeat (apply keeps_bind; [by auto with logkeeps|intros ?]); auto with logkeeps.

Lemma keeps_write_head : keeps write_head.
Proof. unfold write_head, set_data_of, data_of. keeps_tac. Qed.

Lemma keeps_install n : forall t, keeps (install_loop n t).
Proof.
  induction n as [|n IH]; intros t; cbn [install_loop]; [apply keeps_ret|].
  unfold set_data_of, data_of. keeps_tac.
Qed.

Lemma keeps_write_log n : forall t, keeps (write_log_loop n t).
Proof.
  induction n as [|n IH]; intros t; cbn [write_log_loop]; [apply keeps_ret|].
  unfold set_data_of, data_of. keeps_tac.
Qed.

(** A returning [commit] leaves an empty log. *)
Lemma commit_empties s s' :
  commit s = Ret tt s' -> lh_n s' <= 0 /\ outstanding s' = outstanding s /\
    lg_size s' = lg_size s /\ committing s' = committing s /\ (0 <= lh_n s -> lh_n s' = 0).
Proof.
  unfold commit. rewrite bind_getl. destruct (Z.ltb_spec 0 (lh_n s)) as [Hn|Hn].
  - intros ([]&s1&H1&H)%bind_inv. apply bind_inv in H as ([]&s2&H2&H).
    apply bind_inv in H as ([]&s3&H3&H). rewrite bind_modl in H.
    unfold write_log in H1. rewrite bind_getl in H1. apply keeps_write_log in H1.
    apply keeps_write_head in H2. unfold install_trans in H3. rewrite bind_getl in H3.
    apply keeps_install in H3. apply keeps_write_head in H.
    rewrite H. cbn [set_bc set_lh lh_n outstanding lg_size committing]. rewrite H3.
    cbn [set_bc outstanding lg_size committing]. rewrite H2.
    cbn [set_bc outstanding lg_size committing]. rewrite H1. done.
  - intros [= <-]. split; [lia|]. split; [done|]. split; [done|]. split; [done|]. lia.
Qed.

(** File system calls in progress, with the number of blocks each has logged. *)
Inductive opstep : log * list Z -> log * list Z -> Prop :=
| op_begin s u s' : begin_op s = Ret tt s' -> opstep (s, u) (s', 0 :: u)
| op_log s u1 k u2 i s' :
    k < MAXOPBLOCKS -> log_write i s = Ret tt s' ->
    opstep (s, u1 ++ k :: u2) (s', u1 ++ k + 1 :: u2)
| op_end s u1 k u2 s' : end_op s = Ret tt s' -> opstep (s, u1 ++ k :: u2) (s', u1 ++ u2).

(** Blocks the calls in progress may still log. *)
Definition reserved (u : list Z) : Z := foldr (fun k r => MAXOPBLOCKS - k + r) 0 u.

Lemma reserved_app u1 u2 : reserved (u1 ++ u2) = reserved u1 + reserved u2.
Proof.
  induction u1 as [|k u1 IH]; [done|].
  change (MAXOPBLOCKS - k + reserved (u1 ++ u2) = MAXOPBLOCKS - k + reserved u1 + reserved u2).
  lia.
Qed.

Lemma reserved_cons k u : reserved (k :: u) = MAXOPBLOCKS - k + reserved u.
Proof. done. Qed.

Record reserve_ok (size : Z) (st : log * list Z) : Prop := {
  rs_out : outstanding st.1 = Z.of_nat (length st.2);
  rs_quiet : committing st.1 = false;
  rs_size : lg_size st.1 = size;
  rs_used : Forall (fun k => 0 <= k <= MAXOPBLOCKS) st.2;
  rs_fit : 0 <= lh_n st.1 /\ lh_n st.1 + reserved st.2 <= LOGSIZE;
}.

Lemma reserved_bounds u :
  Forall (fun k => 0 <= k <= MAXOPBLOCKS) u ->
  0 <= reserved u <= MAXOPBLOCKS * Z.of_nat (length u).
Proof.
  induction 1 as [|k u Hk Hu IH]; [cbn; lia|].
  rewrite reserved_cons. cbn [length].
  unfold MAXOPBLOCKS in *. lia.
Qed.

Lemma log_write_fields i s s' :
  log_write i s = Ret tt s' -> outstanding s' = outstanding s /\ committing s' = committing s /\
    lg_size s' = lg_size s /\ lh_n s <= lh_n s' <= lh_n s + 1.
Proof.
  unfold log_write. destruct (_ || _); [done|]. destruct (_ <? _); [done|].
  rewrite bind_modl. unfold lift, zoom, modify. intros [= <-]. cbn.
  split; [done|]. split; [done|]. split; [done|]. destruct (_ =? _); lia.
Qed.

Lemma reserve_step size st st' : reserve_ok size st -> opstep st st' -> reserve_ok size st'.
Proof.
  intros Hr Hst. destruct Hst as [s u s' H|s u1 k u2 i s' Hk H|s u1 k u2 s' H];
    destruct Hr as [R1 R2 R3 R4 R5]; cbn [fst snd] in *.
  - unfold begin_op in H. rewrite R2 in H.
    destruct (Z.ltb_spec LOGSIZE (lh_n s + (outstanding s + 1) * MAXOPBLOCKS)); [done|].
    injection H as <-. pose proof (reserved_bounds u R4).
    split; cbn [fst snd set_ops outstanding committing lg_size lh_n length];
      rewrite ?R1, ?R3; try done; try lia.
    + constructor; [unfold MAXOPBLOCKS; lia|done].
    + rewrite reserved_cons. unfold MAXOPBLOCKS in *. lia.
  - destruct (log_write_fields _ _ _ H) as (E1&E2&E3&E4).
    rewrite reserved_app, reserved_cons in R5. apply Forall_app in R4 as [R4 R4'].
    apply Forall_cons in R4' as [Rk R4']. rewrite length_app in R1. cbn [length] in R1.
    split; cbn [fst snd]; rewrite ?E1, ?E2, ?E3, ?reserved_app; try done.
    + by rewrite length_app.
    + apply Forall_app. split; [done|]. apply Forall_cons. split; [unfold MAXOPBLOCKS in *; lia|done].
    + rewrite reserved_cons. lia.
  - rewrite reserved_app, reserved_cons in R5. apply Forall_app in R4 as [R4 R4'].
    apply Forall_cons in R4' as [Rk R4']. rewrite length_app in R1. cbn [length] in R1.
    assert (Hu : Forall (fun k => 0 <= k <= MAXOPBLOCKS) (u1 ++ u2)) by by apply Forall_app.
    pose proof (reserved_bounds _ Hu) as Hb. rewrite reserved_app in Hb.
    unfold end_op in H. cbn [set_ops committing outstanding] in H. rewrite R2 in H.
    destruct (Z.eqb_spec (outstanding s - 1) 0) as [E|E].
    + rewrite bind_modl in H. apply bind_inv in H as ([]&s1&H1&H). injection H as <-.
      apply commit_empties in H1 as (C1&C2&C3&C4&C5). cbn in C1, C2, C3, C4, C5.
      assert (length (u1 ++ u2) = 0%nat) as El by (rewrite length_app; lia).
      apply nil_length_inv in El. rewrite El. split; cbn; try done; try lia.
    + injection H as <-. split; cbn [fst snd set_ops outstanding committing lg_size lh_n]; try done.
      * rewrite length_app. lia.
      * rewrite reserved_app. unfold MAXOPBLOCKS in *. lia.
Qed.

(** ** Theorems *)

(** C1: Crash safety of the log.  A commit of [N] logged blocks returns, after
    which the disk holds the transaction; and if the machine stops after any
    number [k] of the block writes the commit performs, booting from the disk as
    it is then and recovering gives, outside the log area, exactly the old disk
    (when [k <= N]: the header was not yet written) or exactly the disk with the
    whole transaction (when [N < k]), with a clear log header. *)
Theorem crash_atomic s N :
  ready s N -> (0 < N)%nat ->
  exists s' ws, commit s = Ret tt s' /\ lh_n s' = 0 /\
    writes (bc s') = writes (bc s) ++ ws /\ (forall x, ~ dirtyb (bc s') x) /\
    (forall x, outside s x -> disk (bc s') x = view (bc s) x) /\
    forall k, (k <= length ws)%nat ->
      exists r, recover_from_log (boot (apply_writes (take k ws) (disk (bc s)))
          (disksize (bc s)) (lg_start s) (lg_size s) 1) = Ret tt r /\ lh_n r = 0 /\
        i32 (get32 (disk (bc r) (lg_start s)) 0) = 0 /\
        forall x, outside s x ->
          disk (bc r) x = if decide (k <= N)%nat then disk (bc s) x else view (bc s) x.
Proof.
  intros Hrd HN. destruct (commit_run s N Hrd HN) as (s'&Hrun&Hn&_&Hb).
  exists s', (commit_writes (disk (bc s)) (view (bc s)) (lh_block s) (lg_start s) N).
  split; [done|]. split; [done|]. split; [apply Hb|]. split.
  { intros x (Hx&Hnx)%(bs_dirty _ _ _ Hb). apply (rd_dirty _ _ Hrd) in Hx as (k&Hk&->).
    apply Hnx. unfold commit_writes. rewrite !fmap_app, !elem_of_app. right; right; left.
    apply install_writes_fst. by exists k. }
  split.
  { intros x Ho. rewrite (bs_disk _ _ _ Hb). apply (commit_disk s N Hrd HN x Ho). }
  unfold commit_writes. set (lw := log_writes _ _ _ _ _).
  set (iw := install_writes _ _ _ _ _).
  assert (Hlw : length lw = N) by apply length_log_writes.
  assert (Hiw : length iw = N) by apply length_install_writes.
  intros k Hk. rewrite !length_app in Hk. cbn [length] in Hk.
  destruct (decide (k <= N)%nat) as [HkN|HkN].
  - rewrite take_app_le by lia.
    assert (Hout : forall x, (forall j, (j < N)%nat -> x <> lg_start s + Z.of_nat j + 1) ->
      apply_writes (take k lw) (disk (bc s)) x = disk (bc s) x).
    { intros x Hx. apply apply_writes_other. intros (w&->&Hw)%list_elem_of_fmap.
      apply elem_of_take in Hw as (i&Hi&_).
      assert (Hin : w.1 ∈ lw.*1) by by eapply list_elem_of_fmap_2, list_elem_of_lookup_2.
      apply log_writes_fst in Hin as (j&Hj&E). apply (Hx j); [lia|done]. }
    destruct (recover_clear s N Hrd HN (apply_writes (take k lw) (disk (bc s)))) as (r&Hr&Hrn&Hrc&Hrx).
    + rewrite Hout by lia. apply Hrd.
    + rewrite Hout by lia. exact (rd_len _ _ Hrd).
    + exists r. split; [done|]. split; [done|]. split; [done|]. intros x Ho.
      destruct (outside_start s N Hrd HN x Ho) as [Hxs HxL]. rewrite Hrx by done. by apply Hout.
  - destruct (decide (k <= 2 * N + 1)%nat) as [Hk2|Hk2].
    + replace (take k (lw ++ _)) with (lw ++ [(lg_start s, header N (lh_block s) (disk (bc s) (lg_start s)))]
        ++ take (k - N - 1) iw).
      2: { rewrite take_app_ge by lia. rewrite Hlw. rewrite take_app_ge by (simpl; lia).
           cbn [length]. rewrite take_app_le by lia. done. }
      destruct (committed_prefix s N Hrd HN (k - N - 1)) as (P1&P2&P3&P4); [lia|].
      destruct (recover_committed s N Hrd HN _ P1 P2 P3 P4) as (r&?&?&?&?). by exists r.
    + rewrite take_ge by (rewrite !length_app; cbn [length]; lia).
      destruct (recover_clear s N Hrd HN (apply_writes (commit_writes (disk (bc s)) (view (bc s))
        (lh_block s) (lg_start s) N) (disk (bc s)))) as (r&Hr&Hrn&Hrc&Hrx).
      * by apply commit_header.
      * by apply commit_header.
      * exists r. split; [done|]. split; [done|]. split; [done|]. intros x Ho.
        destruct (outside_start s N Hrd HN x Ho) as [Hxs _]. rewrite Hrx by done.
        by apply commit_disk.
Qed.

(** Installs repeated from a partly installed disk. *)
Lemma install_again d size start lsize N bl k :
  geometry size start lsize N bl ->
  let d' := apply_writes (take k (install_writes d bl start N 0)) d in
  (forall j, d' (start + Z.of_nat j) = d (start + Z.of_nat j) \/ lsize <= Z.of_nat j) /\
  install_writes d' bl start N 0 = install_writes d bl start N 0 /\
  forall x, apply_writes (install_writes d bl start N 0) d' x =
            apply_writes (install_writes d bl start N 0) d x.
Proof.
  intros Hg d'. set (iw := install_writes d bl start N 0) in *.
  assert (Hsub : forall x, x ∉ iw.*1 -> d' x = d x).
  { intros x Hx. apply apply_writes_other. intros (w&->&Hw)%list_elem_of_fmap. apply Hx.
    apply elem_of_take in Hw as (i&Hi&_).
    by eapply list_elem_of_fmap_2, list_elem_of_lookup_2. }
  assert (Hlog : forall j, Z.of_nat j < lsize -> d' (start + Z.of_nat j) = d (start + Z.of_nat j)).
  { intros j Hj. apply Hsub. intros (i&Hi&E)%install_writes_fst.
    destruct (ge_apart _ _ _ _ _ Hg i Hi); cbn in E; lia. }
  split; [|split].
  - intros j. destruct (Z.lt_ge_cases (Z.of_nat j) lsize); [left|right]; auto.
  - apply install_writes_ext. intros j Hj. split; [done|].
    replace (start + Z.of_nat j + 1) with (start + Z.of_nat (S j)) by lia. apply Hlog.
    destruct (ge_n _ _ _ _ _ Hg). lia.
  - intros x. destruct (decide (x ∈ iw.*1)) as [Hx|Hx].
    + apply install_writes_fst in Hx as (i&Hi&->). cbn [Nat.add].
      assert (Hin : forall e, apply_writes iw e (nth i bl 0) = d (start + Z.of_nat i + 1)).
      { intros e. apply (apply_writes_in _ _ i).
        - apply install_writes_nodup, (ge_nodup _ _ _ _ _ Hg).
        - apply (install_writes_lookup _ _ _ _ 0 i Hi). }
      by rewrite !Hin.
    + rewrite !apply_writes_other by done. by apply Hsub.
Qed.

(** C13: Recovery may itself be interrupted: on a disk whose log holds a committed
    transaction, recovery returns, and if the machine stops after any number of
    the block writes recovery performs, recovering again from the disk as it is
    then returns and gives the same file system blocks. *)
Theorem recovery_restartable d size start lsize pid N bl :
  geometry size start lsize N bl -> committed d start N bl -> length (d start) = Z.to_nat BSIZE ->
  exists r, recover_from_log (boot d size start lsize pid) = Ret tt r /\
    forall k, (k <= length (writes (bc r)))%nat ->
      exists r', recover_from_log
          (boot (apply_writes (take k (writes (bc r))) d) size start lsize pid) = Ret tt r' /\
        forall x, x < start \/ start + lsize <= x -> disk (bc r') x = disk (bc r) x.
Proof.
  intros Hg Hc Hl. destruct (recover_run d size start lsize pid N bl Hg Hc) as (r&Hr&_&Hw&Hd).
  exists r. split; [done|]. destruct (ge_n _ _ _ _ _ Hg) as [_ Hn].
  intros k Hk. rewrite Hw, length_app, length_install_writes in Hk. cbn [length] in Hk.
  destruct (decide (k <= N)%nat) as [HkN|HkN].
  - rewrite Hw, take_app_le by (rewrite length_install_writes; lia).
    destruct (install_again d size start lsize N bl k Hg) as (I1&I2&I3).
    set (d' := apply_writes (take k _) d) in *.
    assert (Es : d' start = d start).
    { destruct (I1 0%nat) as [E|E]; [|lia]. by rewrite Z.add_0_r in E. }
    destruct (recover_run d' size start lsize pid N bl Hg) as (r'&Hr'&_&Hw'&Hd').
    { unfold committed. by rewrite Es. }
    exists r'. split; [done|]. intros x Hx. rewrite Hd', Hd, Hw, Hw', I2, !apply_writes_app.
    rewrite !(apply_writes_other [_]) by (cbn; rewrite list_elem_of_singleton; lia). apply I3.
  - rewrite take_ge by (rewrite Hw, length_app, length_install_writes; cbn [length]; lia).
    destruct (recover_run (apply_writes (writes (bc r)) d) size start lsize pid 0 bl)
      as (r'&Hr'&_&Hw'&Hd').
    + destruct Hg as [G1 G2 G3 _ _ _]. split; [done|done| |lia|lia|lia].
      unfold LOGSIZE, MAXOPBLOCKS in *. simpl. lia.
    + split; [|lia]. rewrite Hw, apply_writes_app. cbn. unfold upd_disk. rewrite decide_True by done.
      cbn [snd]. apply (header_spec 0 bl (d start)); [done|lia|lia].
    + exists r'. split; [done|]. intros x Hx. rewrite Hd', Hw'. cbn [install_writes app].
      rewrite apply_writes_other by (cbn; rewrite list_elem_of_singleton; lia). by rewrite Hd.
Qed.

(** [log_write] of a held buffer, within the size limits and inside a
    transaction, returns; it does not touch the disk or what readers see, adds
    the block to the set of logged blocks (writing a block twice uses one log
    slot), keeps that set equal to the dirty blocks, and pins the buffer. *)
Theorem log_write_logs s N b i :
  intx s N -> held (bc s) b i -> 1 <= outstanding s ->
  Z.of_nat N < LOGSIZE -> Z.of_nat N < lg_size s - 1 ->
  exists s' N', log_write i s = Ret tt s' /\ lh_n s' = Z.of_nat N' /\
    disk (bc s') = disk (bc s) /\ writes (bc s') = writes (bc s) /\
    (forall x, view (bc s') x = view (bc s) x) /\ binv (bc s') /\ dirty (bc s') i = true /\
    (forall x, dirtyb (bc s') x <-> dirtyb (bc s) x \/ x = b) /\
    (forall x, dirtyb (bc s') x <-> exists k, (k < N')%nat /\ x = nth k (lh_block s') 0) /\
    (forall j k, (j < N')%nat -> (k < N')%nat ->
       nth j (lh_block s') 0 = nth k (lh_block s') 0 -> j = k).
Proof.
  intros Hs Hb Ho H1 H2.
  destruct (log_write_run s N b i Hs Hb Ho H1 H2) as (s'&N'&R&_&_&R1&_&R2&R3&_&R4&R5&R6&R7&R8&R9).
  exists s', N'. repeat (split; [assumption|]). assumption.
Qed.

(** C32: Log space reservation.  On a log area larger than [LOGSIZE] blocks, in
    every interleaving of file system calls that begin, log at most
    [MAXOPBLOCKS] blocks each, and end, a call within its allowance never makes
    [log_write] panic: the admission test of [begin_op] is enough. *)
Theorem reservation_safe s0 s u1 k u2 i :
  outstanding s0 = 0 -> committing s0 = false -> lh_n s0 = 0 -> LOGSIZE < lg_size s0 ->
  rtc opstep (s0, []) (s, u1 ++ k :: u2) -> k < MAXOPBLOCKS ->
  exists s', log_write i s = Ret tt s'.
Proof.
  intros H1 H2 H3 H4 Hr Hk.
  assert (Hok : reserve_ok (lg_size s0) (s, u1 ++ k :: u2)).
  { refine (rtc_preserves opstep (reserve_ok (lg_size s0)) _ _ (reserve_step _) _ Hr).
    split; cbn; [done..|constructor|]. rewrite H3. unfold LOGSIZE, MAXOPBLOCKS. lia. }
  destruct Hok as [R1 R2 R3 R4 R5]. cbn [fst snd] in *.
  apply Forall_app in R4 as [R4 R4']. apply Forall_cons in R4' as [Rk R4'].
  pose proof (reserved_bounds _ R4). pose proof (reserved_bounds _ R4').
  rewrite reserved_app, reserved_cons in R5. rewrite length_app in R1. cbn [length] in R1.
  unfold log_write. rewrite (proj2 (Z.leb_gt _ _)) by lia. rewrite (proj2 (Z.leb_gt _ _)) by lia.
  cbn [orb]. rewrite (proj2 (Z.ltb_ge _ _)) by lia. rewrite bind_modl.
  unfold lift, zoom, modify. eauto.
Qed.

(** ** The limit on a file system made by mkfs *)

(** One scheduled action of a file system call. *)
Inductive fsact := Begin | Logs (i : nat).

(** Runs actions of three calls; block [i] is logged by call [i mod 3]. *)
Fixpoint run_acts (l : list fsact) (s : log) (u : list Z) : option (log * list Z) :=
  match l with
  | [] => Some (s, u)
  | Begin :: l => match begin_op s with Ret _ s' => run_acts l s' (0 :: u) | _ => None end
  | Logs i :: l =>
      match u !! (i mod 3)%nat, log_write i s with
      | Some k, Ret _ s' =>
          if k <? MAXOPBLOCKS then run_acts l s' (<[(i mod 3)%nat := k + 1]> u) else None
      | _, _ => None
      end
  end.

Lemma run_acts_steps l : forall s u st, run_acts l s u = Some st -> rtc opstep (s, u) st.
Proof.
  induction l as [|[|i] l IH]; intros s u st; cbn [run_acts].
  - intros [= <-]. done.
  - destruct (begin_op s) as [[] s'| | |] eqn:E; try done. intros H.
    eapply rtc_l; [by apply op_begin|by apply IH].
  - destruct (u !! _) as [k|] eqn:Eu; [|done].
    destruct (log_write i s) as [[] s'| | |] eqn:E; try done.
    destruct (Z.ltb_spec k MAXOPBLOCKS); [|done]. intros H1%IH.
    eapply rtc_l; [|exact H1].
    rewrite <- (take_drop_middle u _ k Eu) at 1. rewrite insert_take_drop by by eapply lookup_lt_Some.
    by apply (op_log _ _ _ _ i).
Qed.

(** A cache whose buffers hold 30 distinct blocks. *)
Definition full_cache : bcache :=
  Bcache ((fun i => Buf B_VALID ROOTDEV (100 + Z.of_nat i) None 0 []) <$> seq 0 30) (seq 0 30)
    (fun _ => []) 1000 [] 1.

(** With the log area of a file system made by mkfs, [LOGSIZE] blocks, the
    admission test is not enough: three admitted calls, each within its
    allowance, reach a state where the next [log_write] panics. *)
Theorem reservation_tight :
  let s0 := Log full_cache 2 LOGSIZE 0 false ROOTDEV 0 (replicate (Z.to_nat LOGSIZE) 0) in
  exists s u1 k u2 i, rtc opstep (s0, []) (s, u1 ++ k :: u2) /\ k < MAXOPBLOCKS /\
    log_write i s = Panic "too big a transaction".
Proof.
  intros s0.
  destruct (run_acts ([Begin; Begin; Begin] ++ (Logs <$> seq 0 29)) s0 []) as [[s u]|] eqn:E;
    [|vm_compute in E; discriminate].
  assert (Eu : u = [10; 10] ++ 9 :: []).
  { vm_compute in E. by injection E as _ <-. }
  apply run_acts_steps in E as Hr. exists s, [10; 10], 9, [], 29%nat.
  rewrite <- Eu. split; [done|]. split; [done|]. vm_compute in E. injection E as <- _. done.
Qed.

(** ** Instances of the theorems *)

(** Block 50 cached with new contents [[1; ...]]; the disk holds zeroes. *)
Definition wit_cache (flags : Z) (lk : option Z) (rc : Z) : bcache :=
  Bcache (Buf flags ROOTDEV 50 lk rc (replicate 512 1) :: replicate 29 buf0) (seq 0 30)
    (fun _ => replicate 512 0) 1000 [] 1.

Definition wit_log (flags : Z) (lk : option Z) (rc n : Z) : log :=
  Log (wit_cache flags lk rc) 2 30 1 false ROOTDEV n (50 :: replicate 29 0).

Lemma wit_bufat flags lk rc i : bufat (wit_cache flags lk rc) (S i) = buf0.
Proof.
  unfold bufat. cbn [bufs wit_cache nth]. rewrite nth_lookup.
  destruct (replicate 29 buf0 !! i) eqn:E; [|done]. by apply lookup_replicate in E as [-> _].
Qed.

Lemma wit_holds flags lk rc b i : holds (wit_cache flags lk rc) b i <-> b = 50 /\ i = 0%nat.
Proof.
  split.
  - intros (Hl&Hd&Hb). destruct i as [|i]; [by split|]. by rewrite wit_bufat in Hd.
  - intros [-> ->]. split; [cbn; lia|done].
Qed.

Lemma wit_inv flags lk rc :
  has flags B_VALID = true -> rc = (match lk with Some _ => 1 | None => 0 end) ->
  (lk = None -> has flags B_DIRTY = true) -> binv (wit_cache flags lk rc).
Proof.
  intros Hf Hrc Hd.
  assert (Hlk : locked (wit_cache flags lk rc) 0 = match lk with Some _ => true | None => false end).
  { by destruct lk. }
  split; [done|done|..].
  - intros b i j [_ ->]%wit_holds [_ ->]%wit_holds. done.
  - by intros b i [_ ->]%wit_holds.
  - intros b i [_ ->]%wit_holds. rewrite Hlk. destruct lk; [done|]. intros _.
    unfold dirty. cbn. rewrite Hd; done.
  - intros [|i] Hi; [rewrite Hlk, Hrc; by destruct lk|]. unfold locked. by rewrite wit_bufat.
  - intros [|i] Hi; [done|]. unfold locked, dirty. by rewrite wit_bufat.
  - intros b i [-> ->]%wit_holds. cbn. lia.
Qed.

Lemma wit_dirty flags lk rc x :
  dirtyb (wit_cache flags lk rc) x <-> has flags B_DIRTY = true /\ x = 50.
Proof.
  unfold dirtyb. setoid_rewrite wit_holds. split.
  - by intros (i&[-> ->]&H).
  - intros [H ->]. by exists 0%nat.
Qed.

Lemma wit_geometry : geometry 1000 2 30 1 (50 :: replicate 29 0).
Proof.
  split; [lia|lia|unfold LOGSIZE, MAXOPBLOCKS; lia|..].
  - intros [|k] Hk; [cbn; lia|lia].
  - intros [|k] Hk; [cbn; lia|lia].
  - lia.
Qed.

Lemma wit_ready : ready (wit_log 6 None 0 1) 1.
Proof.
  split; [exact wit_geometry|done|unfold NBUF, MAXOPBLOCKS; lia|by apply wit_inv| |done| |done|done].
  - intros [|i]; [done|]. unfold locked. cbn [bc wit_log]. by rewrite wit_bufat.
  - intros x. cbn [bc wit_log]. rewrite wit_dirty. split.
    + intros [_ ->]. exists 0%nat. split; [lia|done].
    + intros (k&Hk&->). by replace k with 0%nat by lia.
Qed.

Lemma crash_atomic_witness :
  exists s', commit (wit_log 6 None 0 1) = Ret tt s' /\ disk (bc s') 50 = replicate 512 1.
Proof.
  destruct (crash_atomic _ _ wit_ready ltac:(lia)) as (s'&ws&H1&_&_&_&H2&_).
  exists s'. split; [exact H1|]. rewrite H2; [reflexivity|]. right. cbn. lia.
Defined.

Lemma recovery_restartable_witness :
  exists r, recover_from_log (boot (fun b => if b =? 2 then header 1 [50] (replicate 512 0)
    else replicate 512 b) 1000 2 30 1) = Ret tt r.
Proof.
  destruct (recovery_restartable (fun b => if b =? 2 then header 1 [50] (replicate 512 0)
    else replicate 512 b) 1000 2 30 1 1 [50]) as (r&Hr&_).
  - split; [lia|lia|unfold LOGSIZE, MAXOPBLOCKS; lia|..].
    + intros [|k] Hk; [cbn; lia|lia].
    + intros [|k] Hk; [cbn; lia|lia].
    + lia.
  - split; [reflexivity|]. intros [|k] Hk; [reflexivity|lia].
  - reflexivity.
  - exists r. exact Hr.
Defined.

Lemma log_write_logs_witness :
  exists s' N', log_write 0 (wit_log 2 (Some 1) 1 0) = Ret tt s' /\ lh_n s' = Z.of_nat N'.
Proof.
  destruct (log_write_logs (wit_log 2 (Some 1) 1 0) 0 50 0) as (s'&N'&H1&H2&_).
  - split; [by apply wit_inv|done|cbn; lia| |lia].
    intros x. cbn [bc wit_log]. rewrite wit_dirty. split; [by intros [? _]|]. intros (k&Hk&_). lia.
  - split; [by apply wit_holds|done].
  - reflexivity || (cbn; lia).
  - reflexivity.
  - cbn. lia.
  - exists s', N'. split; [exact H1|exact H2].
Defined.

Lemma reservation_safe_witness :
  let s0 := Log full_cache 2 31 0 false ROOTDEV 0 (replicate (Z.to_nat LOGSIZE) 0) in
  exists s1 s', begin_op s0 = Ret tt s1 /\ log_write 4 s1 = Ret tt s'.
Proof.
  intros s0. destruct (begin_op s0) as [[] s1| | |] eqn:E; try (vm_compute in E; discriminate).
  exists s1. destruct (reservation_safe s0 s1 [] 0 [] 4) as (s'&H); try reflexivity.
  - apply rtc_once. by apply op_begin.
  - exists s'. split; [done|exact H].
Defined.
