(* ===== verification/Pipe.v ===== *)
(** Pipes (pipe.c): the ring buffer with its wrapping counters, the read and
    write loops cut at the points where they sleep, [pipealloc]'s
    initialisation and [pipeclose]; any number of readers and writers on one
    pipe as a step relation.  The theorems: bytes come out in the order they
    went in, across wrap-around of the 32-bit counters and every interleaving;
    no wakeup is lost; the functional behaviour of one read and one write. *)

From S2P Require Import Prelude.

Definition PIPESIZE : Z := 512.

Record pipe := Pipe {
  data : list Z;
  nread : Z;
  nwrite : Z;
  readopen : bool;
  writeopen : bool;
}.

(** Sleep channels: the addresses of the two counters. *)
Inductive chan := c_nread | c_nwrite.

#[global] Instance chan_eq_dec : EqDecision chan.
Proof. solve_decision. Defined.

(** How a critical section ends: the call returns [v], or it sleeps on a
    channel.  Either way the loop counter is [i] and the channels [wk] have been
    woken. *)
Inductive section_end :=
| Returns (v i : Z) (wk : list chan)
| Sleeps (c : chan) (i : Z) (wk : list chan).

(** State of a fresh pipe; the page from the allocator holds [junk]. *)
Definition pipe_init (junk : list Z) : pipe := Pipe junk 0 0 true true.

Definition put_byte (b : Z) (p : pipe) : pipe :=
  Pipe (<[Z.to_nat (nwrite p mod PIPESIZE) := b]> (data p)) (nread p) (u32 (nwrite p + 1))
    (readopen p) (writeopen p).

Definition take_byte (p : pipe) : Z * pipe :=
  (nth (Z.to_nat (nread p mod PIPESIZE)) (data p) 0,
   Pipe (data p) (u32 (nread p + 1)) (nwrite p) (readopen p) (writeopen p)).

Definition is_full (p : pipe) : bool := nwrite p =? u32 (nread p + PIPESIZE).
Definition is_empty (p : pipe) : bool := nread p =? nwrite p.

(** The loop of [pipewrite] from byte [i], [m] bytes to go. *)
Fixpoint write_loop (killed : bool) (addr : list Z) (n : Z) (m : nat) (i : Z) (p : pipe)
  : section_end * pipe :=
  match m with
  | O => (Returns n i [c_nread], p)
  | S m =>
      if is_full p then
        if negb (readopen p) || killed then (Returns (-1) i [], p)
        else (Sleeps c_nwrite i [c_nread], p)
      else write_loop killed addr n m (i + 1) (put_byte (nth (Z.to_nat i) addr 0) p)
  end.

(** [pipewrite] from its entry ([i = 0]) or from a wakeup with [i] bytes done. *)
Definition pipewrite (killed : bool) (addr : list Z) (n i : Z) (p : pipe) : section_end * pipe :=
  write_loop killed addr n (Z.to_nat (n - i)) i p.

(** The copy loop of [piperead]: the bytes copied to [addr]. *)
Fixpoint read_loop (m : nat) (p : pipe) : list Z * pipe :=
  match m with
  | O => ([], p)
  | S m =>
      if is_empty p then ([], p)
      else let (b, p) := take_byte p in let (l, p) := read_loop m p in (b :: l, p)
  end.

(** [piperead] from its entry or from a wakeup; the bytes stored at [addr]. *)
Definition piperead (killed : bool) (n : Z) (p : pipe) : section_end * list Z * pipe :=
  if is_empty p && writeopen p then
    if killed then (Returns (-1) 0 [], [], p) else (Sleeps c_nread 0 [], [], p)
  else
    let (l, p) := read_loop (Z.to_nat n) p in
    (Returns (Z.of_nat (length l)) (Z.of_nat (length l)) [c_nwrite], l, p).

(** [pipeclose]: the pipe, the channel woken, and whether the page is freed. *)
Definition pipeclose (writable : bool) (p : pipe) : pipe * chan * bool :=
  let (p', c) :=
    if writable then (Pipe (data p) (nread p) (nwrite p) (readopen p) false, c_nread)
    else (Pipe (data p) (nread p) (nwrite p) false (writeopen p), c_nwrite) in
  (p', c, negb (readopen p') && negb (writeopen p')).

(** ** The buffer as a queue *)

(** Number of bytes in the pipe, and the bytes themselves, oldest first. *)
Definition fill (p : pipe) : Z := u32 (nwrite p - nread p).
Definition queue (p : pipe) : list Z :=
  (fun k => nth (Z.to_nat (u32 (nread p + Z.of_nat k) mod PIPESIZE)) (data p) 0)
    <$> seq 0 (Z.to_nat (fill p)).

Record pipe_ok (p : pipe) : Prop := {
  po_len : length (data p) = Z.to_nat PIPESIZE;
  po_nread : is_u32 (nread p);
  po_nwrite : is_u32 (nwrite p);
  po_fill : fill p <= PIPESIZE;
}.

(** Word arithmetic of the counters. *)
Ltac word := unfold fill, u32, is_u32, PIPESIZE in *; Z.div_mod_to_equations; lia.

Lemma mod_word x : u32 x mod PIPESIZE = x mod PIPESIZE.
Proof. unfold u32, PIPESIZE. change (2 ^ 32) with (512 * 2 ^ 23). 
  rewrite Z.rem_mul_r by lia. Z.div_mod_to_equations; lia. Qed.

Lemma is_full_fill p : pipe_ok p -> is_full p = (fill p =? PIPESIZE).
Proof.
  intros [_ H1 H2 H3]. unfold is_full.
  destruct (Z.eqb_spec (nwrite p) (u32 (nread p + PIPESIZE))), (Z.eqb_spec (fill p) PIPESIZE);
    try done; word.
Qed.

Lemma is_empty_fill p : pipe_ok p -> is_empty p = (fill p =? 0).
Proof.
  intros [_ H1 H2 H3]. unfold is_empty.
  destruct (Z.eqb_spec (nread p) (nwrite p)), (Z.eqb_spec (fill p) 0); try done; word.
Qed.

Lemma fill_range p : pipe_ok p -> 0 <= fill p <= PIPESIZE.
Proof. intros [_ H1 H2 H3]. split; [apply u32_range|done]. Qed.

Lemma length_queue p : length (queue p) = Z.to_nat (fill p).
Proof. unfold queue. by rewrite length_fmap, length_seq. Qed.

Lemma queue_lookup p k :
  pipe_ok p -> (k < Z.to_nat (fill p))%nat ->
  queue p !! k = Some (nth (Z.to_nat ((nread p + Z.of_nat k) mod PIPESIZE)) (data p) 0).
Proof.
  intros _ Hk. unfold queue. rewrite list_lookup_fmap, lookup_seq_lt by done. cbn.
  by rewrite mod_word.
Qed.

Lemma put_byte_ok b p : pipe_ok p -> fill p < PIPESIZE -> pipe_ok (put_byte b p).
Proof.
  intros [H0 H1 H2 H3] Hf. split; [cbn; by rewrite length_insert|done|apply u32_range|].
  change (u32 (u32 (nwrite p + 1) - nread p) <= PIPESIZE). word.
Qed.

Lemma put_byte_fill b p : pipe_ok p -> fill p < PIPESIZE -> fill (put_byte b p) = fill p + 1.
Proof.
  intros [_ H1 H2 H3] Hf. change (u32 (u32 (nwrite p + 1) - nread p) = fill p + 1). word.
Qed.

(** Appending: slots of the queue are distinct, the new one is free. *)
Lemma put_byte_queue b p :
  pipe_ok p -> fill p < PIPESIZE -> queue (put_byte b p) = queue p ++ [b].
Proof.
  intros Hp Hf. pose proof (fill_range p Hp) as Hr.
  pose proof (put_byte_ok b p Hp Hf) as Hp'. pose proof (put_byte_fill b p Hp Hf) as Hf'.
  apply list_eq_same_length with (S (Z.to_nat (fill p))).
  { rewrite length_app, length_queue. cbn. lia. }
  { rewrite length_queue, Hf'. lia. }
  intros k x y Hk. rewrite queue_lookup by (done || lia). cbn [nread put_byte data].
  pose proof Hp as [H0 H1 H2 H3].
  rewrite nth_lookup. destruct (decide (k = Z.to_nat (fill p))) as [->|Hne].
  - rewrite lookup_app_r by (rewrite length_queue; lia).
    rewrite length_queue, Nat.sub_diag. intros [= <-] [= <-].
    replace ((nread p + Z.of_nat (Z.to_nat (fill p))) mod PIPESIZE) with (nwrite p mod PIPESIZE).
    { rewrite list_lookup_insert_eq; [done|]. rewrite H0. unfold PIPESIZE.
      pose proof (Z.mod_pos_bound (nwrite p) 512). lia. }
    rewrite Z2Nat.id by lia. word.
  - rewrite lookup_app_l by (rewrite length_queue; lia).
    rewrite queue_lookup by (done || lia). rewrite nth_lookup.
    rewrite list_lookup_insert_ne; [congruence|]. unfold PIPESIZE, fill in *. 
    intros E. apply Z2Nat.inj in E; [|apply Z.mod_pos_bound; lia..].
    assert (0 <= Z.of_nat k < fill p) by (unfold fill; lia). word.
Qed.

Lemma take_byte_ok p : pipe_ok p -> 0 < fill p -> pipe_ok (take_byte p).2.
Proof.
  intros [H0 H1 H2 H3] Hf. split; [done|apply u32_range|done|].
  change (u32 (nwrite p - u32 (nread p + 1)) <= PIPESIZE). word.
Qed.

Lemma take_byte_fill p : pipe_ok p -> 0 < fill p -> fill (take_byte p).2 = fill p - 1.
Proof.
  intros [_ H1 H2 H3] Hf. change (u32 (nwrite p - u32 (nread p + 1)) = fill p - 1). word.
Qed.

Lemma take_byte_queue p :
  pipe_ok p -> 0 < fill p -> queue p = (take_byte p).1 :: queue (take_byte p).2.
Proof.
  intros Hp Hf. pose proof (take_byte_ok p Hp Hf) as Hp'.
  pose proof (take_byte_fill p Hp Hf) as Hf'.
  apply list_eq_same_length with (Z.to_nat (fill p)).
  { cbn [length]. rewrite length_queue, Hf'. lia. }
  { by rewrite length_queue. }
  intros [|k] x y Hk; rewrite queue_lookup by (done || lia).
  - intros [= <-] [= <-]. cbn [fst take_byte]. by rewrite Z.add_0_r.
  - change (((take_byte p).1 :: queue (take_byte p).2) !! S k) with (queue (take_byte p).2 !! k).
    rewrite queue_lookup by (done || lia). cbn [take_byte snd nread data].
    rewrite <- (mod_word (u32 (nread p + 1) + Z.of_nat k)).
    replace (u32 (u32 (nread p + 1) + Z.of_nat k)) with (u32 (nread p + Z.of_nat (S k))).
    { rewrite mod_word. congruence. }
    unfold u32. rewrite Zplus_mod_idemp_l. f_equal. lia.
Qed.

(** Bytes [i .. j-1] of a user buffer. *)
Definition slice (addr : list Z) (i j : Z) : list Z :=
  (fun k => nth (Z.to_nat i + k) addr 0) <$> seq 0 (Z.to_nat (j - i)).

Lemma slice_nil addr i : slice addr i i = [].
Proof. unfold slice. by rewrite Z.sub_diag. Qed.

Lemma slice_cons addr i j :
  0 <= i < j -> slice addr i j = nth (Z.to_nat i) addr 0 :: slice addr (i + 1) j.
Proof.
  intros Hi. unfold slice. replace (Z.to_nat (j - i)) with (S (Z.to_nat (j - (i + 1)))) by lia.
  cbn [seq fmap list_fmap]. f_equal; [by rewrite Nat.add_0_r|].
  rewrite <- fmap_S_seq, <- list_fmap_compose. apply list_fmap_ext. intros k x _. cbn.
  f_equal. lia.
Qed.

(** [pipewrite] fills the pipe as far as there is room and stops there. *)
Lemma write_loop_spec killed addr n m : forall i p,
  pipe_ok p -> 0 <= i -> n = i + Z.of_nat m ->
  let j := Z.min n (i + (PIPESIZE - fill p)) in
  exists p', write_loop killed addr n m i p =
      (if decide (j = n) then Returns n n [c_nread]
       else if negb (readopen p) || killed then Returns (-1) j []
       else Sleeps c_nwrite j [c_nread], p') /\
    pipe_ok p' /\ queue p' = queue p ++ slice addr i j /\ fill p' = fill p + (j - i) /\
    readopen p' = readopen p /\ writeopen p' = writeopen p.
Proof.
  induction m as [|m IH]; intros i p Hp Hi Hn j; pose proof (fill_range p Hp) as Hr;
    cbn [write_loop].
  - assert (j = n) as -> by lia. exists p. rewrite decide_True by done.
    replace i with n by lia. rewrite slice_nil, app_nil_r. do 5 (split; [done || lia|]). done.
  - rewrite is_full_fill by done. destruct (Z.eqb_spec (fill p) PIPESIZE) as [Ef|Ef].
    + assert (j = i) as -> by lia. exists p. rewrite decide_False by lia.
      rewrite slice_nil, app_nil_r. split; [by destruct (_ || _)|].
      do 4 (split; [done || lia|]). done.
    + set (b := nth (Z.to_nat i) addr 0).
      pose proof (put_byte_fill b p Hp ltac:(lia)) as Hf.
      destruct (IH (i + 1) (put_byte b p)) as (p'&E&H1&H2&H3&H4&H5);
        [by apply put_byte_ok; [|lia]|lia|lia|].
      rewrite Hf in *. replace (Z.min n (i + 1 + (PIPESIZE - (fill p + 1)))) with j in * by lia.
      exists p'. split; [exact E|]. split; [done|]. rewrite H2, put_byte_queue by (done || lia).
      rewrite (slice_cons addr i j) by lia. rewrite <- app_assoc. split; [done|].
      split; [lia|done].
Qed.

Lemma read_loop_spec m : forall p,
  pipe_ok p ->
  let k := Nat.min m (Z.to_nat (fill p)) in
  exists p', read_loop m p = (take k (queue p), p') /\ pipe_ok p' /\
    queue p' = drop k (queue p) /\ fill p' = fill p - Z.of_nat k /\
    readopen p' = readopen p /\ writeopen p' = writeopen p.
Proof.
  induction m as [|m IH]; intros p Hp k; pose proof (fill_range p Hp) as Hr; cbn [read_loop].
  - exists p. do 3 (split; [done|]). split; [lia|done].
  - rewrite is_empty_fill by done. destruct (Z.eqb_spec (fill p) 0) as [Ef|Ef].
    + assert (k = 0%nat) as -> by lia. exists p. do 3 (split; [done|]). split; [lia|done].
    + pose proof (take_byte_fill p Hp ltac:(lia)) as Hf.
      pose proof (take_byte_queue p Hp ltac:(lia)) as Hq.
      destruct (take_byte p) as [b p1] eqn:Et. cbn [fst snd] in *.
      destruct (IH p1) as (p'&E&H1&H2&H3&H4&H5).
      { replace p1 with (take_byte p).2 by by rewrite Et. apply take_byte_ok; [done|lia]. }
      assert (k = S (Nat.min m (Z.to_nat (fill p1)))) as -> by lia.
      exists p'. rewrite E, Hq. split; [done|]. split; [done|]. split; [exact H2|]. split; [lia|].
      unfold take_byte in Et. by injection Et as _ <-.
Qed.

(** ** Any number of processes on one pipe *)

Inductive activity :=
| Idle
| Writing (addr : list Z) (n i : Z) (asleep : bool)
| Reading (n : Z) (asleep : bool).

Record thread := Thread { act : activity; killed : bool }.

(** [sent] and [received] record every byte stored in and taken from the pipe. *)
Record system := System {
  pp : pipe;
  threads : list thread;
  sent : list Z;
  received : list Z;
}.

Definition wakeup (c : chan) (t : thread) : thread :=
  match act t, c with
  | Writing addr n i true, c_nwrite => Thread (Writing addr n i false) (killed t)
  | Reading n true, c_nread => Thread (Reading n false) (killed t)
  | _, _ => t
  end.

Definition wakeups (wk : list chan) (ts : list thread) : list thread :=
  foldl (fun ts c => wakeup c <$> ts) ts wk.

Definition awaken (a : activity) : activity :=
  match a with
  | Idle => Idle
  | Writing addr n i _ => Writing addr n i false
  | Reading n _ => Reading n false
  end.

Definition is_writing (t : thread) : bool := match act t with Writing _ _ _ _ => true | _ => false end.
Definition is_reading (t : thread) : bool := match act t with Reading _ _ => true | _ => false end.

(** What a thread does after a section of [pipewrite] or [piperead]. *)
Definition after_write (addr : list Z) (n : Z) (e : section_end) : activity :=
  match e with Returns _ _ _ => Idle | Sleeps _ i _ => Writing addr n i true end.
Definition after_read (n : Z) (e : section_end) : activity :=
  match e with Returns _ _ _ => Idle | Sleeps _ _ _ => Reading n true end.
Definition counter (e : section_end) : Z :=
  match e with Returns _ i _ => i | Sleeps _ i _ => i end.
Definition woken (e : section_end) : list chan :=
  match e with Returns _ _ wk => wk | Sleeps _ _ wk => wk end.

(** The pipe's lock makes each section one step.  A process inside a call holds
    a reference to its end, so that end is open when it enters, and [pipeclose]
    runs on an end nobody is using.  [kill] wakes its victim. *)
Inductive pstep : system -> system -> Prop :=
| enter_write p ts sd rv j k addr n :
    ts !! j = Some (Thread Idle k) -> writeopen p = true -> 0 <= n ->
    pstep (System p ts sd rv) (System p (<[j := Thread (Writing addr n 0 false) k]> ts) sd rv)
| enter_read p ts sd rv j k n :
    ts !! j = Some (Thread Idle k) -> readopen p = true -> 0 <= n ->
    pstep (System p ts sd rv) (System p (<[j := Thread (Reading n false) k]> ts) sd rv)
| run_write p ts sd rv j k addr n i e p' :
    ts !! j = Some (Thread (Writing addr n i false) k) ->
    pipewrite k addr n i p = (e, p') ->
    pstep (System p ts sd rv)
      (System p' (<[j := Thread (after_write addr n e) k]> (wakeups (woken e) ts))
         (sd ++ slice addr i (counter e)) rv)
| run_read p ts sd rv j k n e l p' :
    ts !! j = Some (Thread (Reading n false) k) ->
    piperead k n p = (e, l, p') ->
    pstep (System p ts sd rv)
      (System p' (<[j := Thread (after_read n e) k]> (wakeups (woken e) ts)) sd (rv ++ l))
| close_end p ts sd rv w p' c fr :
    (forall t, t ∈ ts -> (if (w : bool) then is_writing t else is_reading t) = false) ->
    pipeclose w p = (p', c, fr) ->
    pstep (System p ts sd rv) (System p' (wakeups [c] ts) sd rv)
| kill_thread p ts sd rv j a k :
    ts !! j = Some (Thread a k) ->
    pstep (System p ts sd rv) (System p (<[j := Thread (awaken a) true]> ts) sd rv).

(** ** Invariant *)

(** What a process inside a call relies on; [K]: some process was killed. *)
Definition thread_ok (p : pipe) (K : Prop) (t : thread) : Prop :=
  match act t with
  | Idle => True
  | Writing _ n i asleep =>
      0 <= i <= n /\ writeopen p = true /\
      (asleep = true -> killed t = false /\ fill p = PIPESIZE /\ readopen p = true)
  | Reading n asleep =>
      0 <= n /\ readopen p = true /\
      (asleep = true -> killed t = false /\ writeopen p = true /\ (fill p = 0 \/ K))
  end.

Definition some_killed (ts : list thread) : Prop := exists t, t ∈ ts /\ killed t = true.

Record sys_ok (s : system) : Prop := {
  so_pipe : pipe_ok (pp s);
  so_fifo : sent s = received s ++ queue (pp s);
  so_threads : Forall (thread_ok (pp s) (some_killed (threads s))) (threads s);
}.

Lemma wakeup_killed c t : killed (wakeup c t) = killed t.
Proof. unfold wakeup. by destruct (act t) as [|? ? ? []|? []], c. Qed.

Lemma wakeups_killed wk : forall ts, some_killed ts -> some_killed (wakeups wk ts).
Proof.
  induction wk as [|c wk IH]; intros ts Hk; [done|]. apply IH. destruct Hk as (t&Ht&Hk).
  exists (wakeup c t). split; [by apply list_elem_of_fmap_2|]. by rewrite wakeup_killed.
Qed.

Lemma insert_killed ts j t t' :
  ts !! j = Some t -> (killed t = true -> killed t' = true) ->
  some_killed ts -> some_killed (<[j := t']> ts).
Proof.
  intros Hj Ht (u&Hu&Hk). apply list_elem_of_lookup in Hu as [m Hm].
  destruct (decide (m = j)) as [->|Hne].
  - exists t'. simplify_eq. split; [|by apply Ht].
    eapply list_elem_of_lookup_2. apply list_lookup_insert_eq. by eapply lookup_lt_Some.
  - exists u. split; [|done]. eapply list_elem_of_lookup_2. by rewrite list_lookup_insert_ne.
Qed.

Lemma thread_ok_weaken p K K' t : (K -> K') -> thread_ok p K t -> thread_ok p K' t.
Proof. unfold thread_ok. destruct (act t); naive_solver. Qed.

(** After waking [c], nobody sleeps on [c]. *)
Lemma wakeup_ok p p' K t c :
  writeopen p' = writeopen p -> readopen p' = readopen p ->
  (c = c_nread -> fill p = PIPESIZE -> fill p' = PIPESIZE) ->
  (c = c_nwrite -> fill p = 0 -> fill p' = 0) ->
  thread_ok p K t -> thread_ok p' K (wakeup c t).
Proof.
  intros Hw Hr H1 H2. unfold thread_ok, wakeup. rewrite Hw, Hr.
  destruct t as [[|addr n i []|n []] k], c; cbn; naive_solver.
Qed.

(** Replacing a thread and waking others. *)
Lemma step_threads p p' ts ts' j t t' :
  ts !! j = Some t -> (killed t = true -> killed t' = true) ->
  (some_killed ts -> some_killed ts') -> 
  (forall K, Forall (thread_ok p K) ts -> (some_killed ts -> K) -> 
     Forall (thread_ok p' K) ts') ->
  length ts' = length ts -> killed <$> ts' = killed <$> ts ->
  (forall K, thread_ok p' K t') ->
  Forall (thread_ok p (some_killed ts)) ts ->
  Forall (thread_ok p' (some_killed (<[j := t']> ts'))) (<[j := t']> ts').
Proof.
  intros Hj Hk Hks Hts Hl Hkk Ht' HF.
  assert (Hsk : some_killed ts -> some_killed (<[j := t']> ts')).
  { intros Hs%Hks. destruct (lookup_lt_is_Some_2 ts' j) as [u Hu].
    { rewrite Hl. by eapply lookup_lt_Some. }
    eapply insert_killed; [exact Hu| |done]. intros Hku. apply Hk.
    apply (f_equal (lookup j)) in Hkk. rewrite !list_lookup_fmap, Hu, Hj in Hkk.
    cbn in Hkk. congruence. }
  apply Forall_insert; [|done]. apply Hts; [|done].
  eapply Forall_impl; [exact HF|]. intros u. by apply thread_ok_weaken.
Qed.

Lemma wakeups_shape wk : forall ts,
  length (wakeups wk ts) = length ts /\ killed <$> wakeups wk ts = killed <$> ts.
Proof.
  induction wk as [|c wk IH]; intros ts; [done|]. cbn.
  destruct (IH (wakeup c <$> ts)) as [H1 H2]. unfold wakeups in *. rewrite H1, H2, length_fmap.
  split; [done|]. rewrite <- list_fmap_compose. apply list_fmap_ext. intros k t _. apply wakeup_killed.
Qed.

Lemma elem_ok {p K ts j t} : Forall (thread_ok p K) ts -> ts !! j = Some t -> thread_ok p K t.
Proof. intros HF Hj. rewrite Forall_lookup in HF. by eapply HF. Qed.

(** A section that woke [c]: readers are safe if [c] is theirs or nothing was
    added, writers if [c] is theirs or nothing was taken. *)
Lemma woke_threads p p' ts j t t' c :
  ts !! j = Some t -> killed t' = killed t ->
  writeopen p' = writeopen p -> readopen p' = readopen p ->
  (c = c_nread -> fill p = PIPESIZE -> fill p' = PIPESIZE) ->
  (c = c_nwrite -> fill p = 0 -> fill p' = 0) ->
  (forall K, thread_ok p' K t') ->
  Forall (thread_ok p (some_killed ts)) ts ->
  Forall (thread_ok p' (some_killed (<[j := t']> (wakeups [c] ts)))) (<[j := t']> (wakeups [c] ts)).
Proof.
  intros Hj Hk Hw Hr H1 H2 Ht' HF. destruct (wakeups_shape [c] ts) as [S1 S2].
  apply (step_threads p p' ts _ j t t'); try done.
  - by rewrite Hk.
  - apply wakeups_killed.
  - intros K HK _. cbn. apply Forall_fmap. eapply Forall_impl; [exact HK|]. intros u. cbn.
    by apply wakeup_ok.
Qed.

(** A section that woke nobody and left the pipe as it was. *)
Lemma quiet_threads p ts j t t' :
  ts !! j = Some t -> (killed t = true -> killed t' = true) ->
  (forall K, thread_ok p K t') ->
  Forall (thread_ok p (some_killed ts)) ts ->
  Forall (thread_ok p (some_killed (<[j := t']> ts))) (<[j := t']> ts).
Proof. intros Hj Hk Ht' HF. by apply (step_threads p p ts ts j t t'). Qed.

(** A failed write wakes nobody. *)
Lemma failed_threads p p' ts j t t' :
  ts !! j = Some t -> killed t' = killed t ->
  writeopen p' = writeopen p -> readopen p' = readopen p ->
  (fill p = PIPESIZE -> fill p' = PIPESIZE) -> readopen p = false \/ killed t = true ->
  (forall K, thread_ok p' K t') ->
  Forall (thread_ok p (some_killed ts)) ts ->
  Forall (thread_ok p' (some_killed (<[j := t']> ts))) (<[j := t']> ts).
Proof.
  intros Hj Hk Hw Hr H1 H2 Ht' HF. apply (step_threads p p' ts ts j t t'); try done.
  - by rewrite Hk.
  - intros K HK HsK. eapply Forall_impl; [exact HK|]. intros u. unfold thread_ok. rewrite Hw, Hr.
    assert (Hor : readopen p = false \/ K).
    { destruct H2 as [?|Hkt]; [by left|]. right. apply HsK. exists t.
      split; [by eapply list_elem_of_lookup_2|done]. }
    clear - H1 Hor. destruct (act u) as [|? ? ? []|? []]; [done|..].
    1,2: intros (A1&A2&A3); split; [done|]; split; [done|]; intros E; destruct (A3 E) as (?&?&?); auto.
    all: intros (A1&A2&A3); split; [done|]; split; [done|]; intros E; destruct (A3 E) as (?&?&?).
    all: destruct Hor; [congruence|auto].
Qed.

Lemma pstep_ok s s' : sys_ok s -> pstep s s' -> sys_ok s'.
Proof.
  intros Hs Hst. destruct Hst as [p ts sd rv j k addr n Hj Hw Hn|p ts sd rv j k n Hj Hr Hn
    |p ts sd rv j k addr n i e p' Hj Hrun|p ts sd rv j k n e l p' Hj Hrun
    |p ts sd rv w p' c fr Hu Hc|p ts sd rv j a k Hj];
    destruct Hs as [Hp Hq HF]; cbn [pp sent received threads] in *.
  - split; cbn; try done. apply (quiet_threads p ts j _ _ Hj); [done| |done].
    intros K. cbn. split; [lia|]. by split.
  - split; cbn; try done. by apply (quiet_threads p ts j _ _ Hj).
  - destruct (elem_ok HF Hj) as (Hi&Hwo&_). cbn in Hi, Hwo.
    destruct (write_loop_spec k addr n (Z.to_nat (n - i)) i p Hp) as (p1&E&H1&H2&H3&H4&H5); [lia|lia|].
    unfold pipewrite in Hrun. rewrite E in Hrun. injection Hrun as <- <-.
    pose proof (fill_range p Hp). set (m := Z.min n _) in *.
    destruct (decide (m = n)) as [Em|Em]; [|destruct (negb (readopen p) || k) eqn:Ef].
    + split; cbn [pp sent received threads counter woken after_write].
      * done.
      * by rewrite Hq, H2, Em, app_assoc.
      * apply (woke_threads p _ ts j _ _ _ Hj); try done. lia.
    + split; cbn [pp sent received threads counter woken after_write].
      * done.
      * by rewrite Hq, H2, app_assoc.
      * apply (failed_threads p _ ts j _ _ Hj); try done; [lia|].
        apply orb_true_iff in Ef as [Ef| ->]; [left; by destruct (readopen p)|by right].
    + apply orb_false_iff in Ef as [Ef1 ->]. split; cbn [pp sent received threads counter woken after_write].
      * done.
      * by rewrite Hq, H2, app_assoc.
      * apply (woke_threads p _ ts j _ _ _ Hj); try done; [lia|].
        intros K. cbn. rewrite H4, H5. destruct (readopen p); [|done]. split; [lia|]. split; [done|].
        intros _. split; [done|]. split; [lia|done].
  - destruct (elem_ok HF Hj) as (Hn&Hro&_). cbn in Hn, Hro. unfold piperead in Hrun.
    rewrite is_empty_fill in Hrun by done.
    destruct (Z.eqb_spec (fill p) 0) as [Ef|Ef], (writeopen p) eqn:Ew; cbn [andb] in Hrun.
    1: { destruct k; injection Hrun as <- <- <-; (split; cbn [pp sent received threads woken after_read];
           [done|by rewrite app_nil_r|]);
           (apply (quiet_threads p ts j _ _ Hj); [done| |done]); [done|].
         intros K. cbn. split; [done|]. split; [done|]. intros _. split; [done|]. split; [done|by left]. }
    all: destruct (read_loop_spec (Z.to_nat n) p Hp) as (p1&E&H1&H2&H3&H4&H5);
      rewrite E in Hrun; injection Hrun as <- <- <-;
      (split; cbn [pp sent received threads woken after_read];
        [done|rewrite Hq, H2, <- app_assoc, take_drop; done|]);
      apply (woke_threads p _ ts j _ _ _ Hj); try done; congruence || (intros _; lia).
  - unfold pipeclose in Hc. destruct w; injection Hc as <- <- _; (split; cbn [pp sent received threads];
      [destruct Hp; by split|done|]); cbn; apply Forall_fmap.
    all: rewrite Forall_forall in HF |- *; intros t Ht; specialize (HF t Ht); specialize (Hu t Ht); cbn.
    all: apply (thread_ok_weaken _ (some_killed ts)); [intros Hk; exact (wakeups_killed [_] ts Hk)|].
    all: unfold thread_ok, wakeup, is_writing, is_reading in *;
      destruct t as [[|addr n i []|n []] k]; cbn in *; naive_solver.
  - split; cbn; try done. apply (quiet_threads p ts j _ _ Hj); try done.
    intros K. pose proof (elem_ok HF Hj) as H. unfold thread_ok in *. cbn in *.
    destruct a as [|? ? ? ?|? ?]; cbn in *; naive_solver.
Qed.

(** A new pipe with idle processes. *)
Definition start (junk : list Z) (np : nat) : system :=
  System (pipe_init junk) (replicate np (Thread Idle false)) [] [].

Lemma start_ok junk np : length junk = Z.to_nat PIPESIZE -> sys_ok (start junk np).
Proof.
  intros Hl. split; cbn; [split; done|done|]. by apply Forall_replicate.
Qed.

Lemma reachable_ok junk np s :
  length junk = Z.to_nat PIPESIZE -> rtc pstep (start junk np) s -> sys_ok s.
Proof. intros Hl Hr. by refine (rtc_preserves _ _ _ _ pstep_ok (start_ok _ _ Hl) Hr). Qed.

(** ** Theorems *)

(** C14: First in, first out.  In every interleaving of any number of reads,
    writes, kills and closes on a new pipe, the bytes stored by the writers are
    exactly the bytes delivered to the readers followed by the bytes still in
    the pipe, in order, and the pipe holds at most [PIPESIZE] bytes. *)
Theorem pipe_fifo junk np s :
  length junk = Z.to_nat PIPESIZE -> rtc pstep (start junk np) s ->
  sent s = received s ++ queue (pp s) /\ Z.of_nat (length (queue (pp s))) <= PIPESIZE.
Proof.
  intros Hl Hr. destruct (reachable_ok _ _ _ Hl Hr) as [H1 H2 _]. split; [done|].
  rewrite length_queue. pose proof (fill_range _ H1). lia.
Qed.


(** One section of [pipewrite] stores as many of its bytes as there is room
    for, in order, after the bytes already there; it returns [n] if all are
    stored, and otherwise fails when nobody can read or it was killed, else
    sleeps to continue at the next byte.  The counters may wrap. *)
Theorem pipewrite_stores killed addr n i p :
  pipe_ok p -> 0 <= i <= n ->
  let j := Z.min n (i + (PIPESIZE - fill p)) in
  exists p', pipewrite killed addr n i p =
      (if decide (j = n) then Returns n n [c_nread]
       else if negb (readopen p) || killed then Returns (-1) j []
       else Sleeps c_nwrite j [c_nread], p') /\
    pipe_ok p' /\ queue p' = queue p ++ slice addr i j.
Proof.
  intros Hp Hi j. destruct (write_loop_spec killed addr n (Z.to_nat (n - i)) i p Hp)
    as (p'&E&H1&H2&_); [lia|lia|]. by exists p'.
Qed.

(** One section of [piperead] on a pipe with bytes, or with its write end
    closed, returns the oldest [min n fill] bytes and removes exactly them; on
    an empty open pipe it sleeps, or fails when killed, and changes nothing. *)
Theorem piperead_takes killed n p :
  pipe_ok p ->
  let k := Nat.min (Z.to_nat n) (Z.to_nat (fill p)) in
  if is_empty p && writeopen p then
    piperead killed n p = (if killed then Returns (-1) 0 [] else Sleeps c_nread 0 [], [], p)
  else exists p', piperead killed n p =
      (Returns (Z.of_nat k) (Z.of_nat k) [c_nwrite], take k (queue p), p') /\
    pipe_ok p' /\ queue p' = drop k (queue p).
Proof.
  intros Hp k. unfold piperead. destruct (is_empty p && writeopen p); [by destruct killed|].
  destruct (read_loop_spec (Z.to_nat n) p Hp) as (p'&E&H1&H2&_). rewrite E. exists p'.
  rewrite length_take, length_queue. split; [|done]. fold k. by rewrite Nat.min_l by lia.
Qed.

(** ** A wakeup lost to a kill *)

(** A killed writer that fills an empty pipe returns without waking the
    reader, which stays asleep on a full pipe. *)
Theorem killed_writer_leaves_reader_asleep :
  exists s, rtc pstep (start (replicate 512 0) 2) s /\
    Thread (Reading 1 true) false ∈ threads s /\ length (queue (pp s)) = 512%nat /\
    threads s !! 1%nat = Some (Thread Idle true).
Proof.
  eexists. split.
  { eapply rtc_l; [apply (enter_read _ _ _ _ 0 false 1); [reflexivity..|lia]|].
    eapply rtc_l; [eapply (run_read _ _ _ _ 0); [reflexivity|vm_compute; reflexivity]|].
    eapply rtc_l; [apply (enter_write _ _ _ _ 1 false (replicate 600 7) 600); [reflexivity..|lia]|].
    eapply rtc_l; [eapply (kill_thread _ _ _ _ 1); reflexivity|].
    eapply rtc_l; [eapply (run_write _ _ _ _ 1); [reflexivity|vm_compute; reflexivity]|].
    apply rtc_refl. }
  split; [cbn; left|]. split; reflexivity.
Qed.

(** ** Instances of the theorems *)

(** A pipe whose write counter is about to wrap. *)
Definition wrap_pipe : pipe := Pipe (replicate 512 5) (2 ^ 32 - 2) (2 ^ 32 - 1) true true.

Lemma wrap_pipe_ok : pipe_ok wrap_pipe.
Proof. split; vm_compute; (reflexivity || (split; [discriminate|reflexivity]) || discriminate). Qed.

Definition hello : list Z := [104; 101; 108; 108; 111].

Lemma hello_run :
  rtc pstep (start (replicate 512 0) 1)
    (System (put_byte 111 (put_byte 108 (put_byte 108 (put_byte 101 (put_byte 104
       (pipe_init (replicate 512 0))))))) [Thread Idle false] hello []).
Proof.
  eapply rtc_l; [apply (enter_write _ _ _ _ 0 false hello 5); [reflexivity..|lia]|].
  eapply rtc_l; [eapply (run_write _ _ _ _ 0); [reflexivity|reflexivity]|]. apply rtc_refl.
Qed.

Lemma pipe_fifo_witness :
  exists s, rtc pstep (start (replicate 512 0) 1) s /\ sent s = hello /\
    hello = received s ++ queue (pp s).
Proof.
  eexists. split; [exact hello_run|]. split; [reflexivity|].
  destruct (pipe_fifo (replicate 512 0) 1 _ eq_refl hello_run) as [H _]. exact H.
Defined.

Lemma asleep_run :
  rtc pstep (start (replicate 512 0) 1)
    (System (pipe_init (replicate 512 0)) [Thread (Reading 1 true) false] [] []).
Proof.
  eapply rtc_l; [apply (enter_read _ _ _ _ 0 false 1); [reflexivity..|lia]|].
  eapply rtc_l; [eapply (run_read _ _ _ _ 0); reflexivity|]. apply rtc_refl.
Qed.


Lemma pipewrite_stores_witness :
  exists p', pipewrite false hello 5 0 wrap_pipe = (Returns 5 5 [c_nread], p') /\
    queue p' = 5 :: hello.
Proof.
  destruct (pipewrite_stores false hello 5 0 wrap_pipe wrap_pipe_ok ltac:(lia)) as (p'&H1&_&H2).
  exists p'. split; [exact H1|exact H2].
Defined.

Lemma piperead_takes_witness :
  exists p', piperead false 9 wrap_pipe = (Returns 1 1 [c_nwrite], [5], p') /\ queue p' = [].
Proof.
  destruct (piperead_takes false 9 wrap_pipe wrap_pipe_ok) as (p'&H1&_&H2).
  exists p'. split; [exact H1|exact H2].
Defined.
