(* ===== verification/CString.v ===== *)
(** C strings: the routines of string.c and ulib.c on NUL-terminated strings,
    and [itoa] of fs.c with [atoi] of ulib.c.  A string is the list of its
    bytes; reading past the list gives the terminating NUL.  The theorems: what
    bounded comparison and the copies preserve, and the decimal round trip with
    the number of bytes it needs. *)

From S2P Require Import Prelude.

(** [*s] and [s + 1]. *)
Definition deref (s : list Z) : Z := match s with [] => 0 | c :: _ => c end.

(** The string at [s]: the bytes before the first NUL. *)
Fixpoint cstr (s : list Z) : list Z :=
  match s with [] => [] | c :: s => if c =? 0 then [] else c :: cstr s end.

(** ** string.c *)

Fixpoint strncmp (p q : list Z) (n : nat) : Z :=
  match n with
  | O => 0
  | S n =>
      if negb (deref p =? 0) && (deref p =? deref q) then strncmp (tail p) (tail q) n
      else u8 (deref p) - u8 (deref q)
  end.

(** The [n] bytes stored at the destination. *)
Fixpoint strncpy (t : list Z) (n : nat) : list Z :=
  match n with
  | O => []
  | S n => if deref t =? 0 then 0 :: replicate n 0 else deref t :: strncpy (tail t) n
  end.

(** The bytes stored at the destination by the copy loop with [n] still to
    decrement, and the final NUL. *)
Fixpoint safestrcpy_loop (t : list Z) (n : nat) : list Z :=
  match n with
  | O | S O => [0]
  | S n => if deref t =? 0 then [0; 0] else deref t :: safestrcpy_loop (tail t) n
  end.
Definition safestrcpy (t : list Z) (n : Z) : list Z :=
  if n <=? 0 then [] else safestrcpy_loop t (Z.to_nat n).

Fixpoint strlen_from (s : list Z) (n : Z) : Z :=
  match s with [] => n | c :: s => if c =? 0 then n else strlen_from s (n + 1) end.
Definition strlen (s : list Z) : Z := strlen_from s 0.

(** ** ulib.c *)

(** The bytes stored at the destination, with the NUL. *)
Fixpoint strcpy (t : list Z) : list Z :=
  match t with [] => [0] | c :: t => if c =? 0 then [0] else c :: strcpy t end.

Fixpoint strcmp (p q : list Z) : Z :=
  match p with
  | [] => 0 - u8 (deref q)
  | c :: p' => if negb (c =? 0) && (c =? deref q) then strcmp p' (tail q) else u8 c - u8 (deref q)
  end.

(** The suffix at the character found; [None] is the null pointer. *)
Fixpoint strchr (s : list Z) (c : Z) : option (list Z) :=
  match s with
  | [] => None
  | x :: s' => if x =? 0 then None else if x =? c then Some s else strchr s' c
  end.

Fixpoint atoi_from (s : list Z) (n : Z) : Z :=
  match s with
  | [] => n
  | c :: s => if (48 <=? c) && (c <=? 57) then atoi_from s (i32 (n * 10 + c - 48)) else n
  end.
Definition atoi (s : list Z) : Z := atoi_from s 0.

(** [gets]: [inp] is what [read] returns one byte at a time until it returns
    less than 1; the result is the bytes stored with the final NUL, and the
    rest of the input. *)
Fixpoint gets_loop (inp : list Z) (m : nat) : list Z * list Z :=
  match m, inp with
  | O, _ | _, [] => ([0], inp)
  | S m, c :: inp =>
      if (c =? 10) || (c =? 13) then ([c; 0], inp)
      else let (l, r) := gets_loop inp m in (c :: l, r)
  end.
Definition ulib_gets (inp : list Z) (max : Z) : list Z * list Z := gets_loop inp (Z.to_nat (max - 1)).

(** ** itoa of fs.c *)

(** The destination buffer, from [b] on. *)
Definition cbuf : Type := nat -> Z.
Definition store_at (p : nat) (c : Z) (b : cbuf) : cbuf := fun k => if decide (k = p) then c else b k.

(** [do { ++p; shifter = shifter/10; } while(shifter)]. *)
Fixpoint itoa_end (fuel : nat) (shifter : Z) (p : nat) : option nat :=
  match fuel with
  | O => None
  | S fuel =>
      let shifter := Z.quot shifter 10 in
      if shifter =? 0 then Some (S p) else itoa_end fuel shifter (S p)
  end.

(** [do { *--p = digit[i%10]; i = i/10; } while(i)]. *)
Fixpoint itoa_digits (fuel : nat) (i : Z) (p : nat) (b : cbuf) : option cbuf :=
  match fuel, p with
  | O, _ | _, O => None
  | S fuel, S p =>
      let r := Z.rem i 10 in
      if r <? 0 then None (* digit[] read out of bounds *)
      else
        let b := store_at p (48 + r) b in
        let i := Z.quot i 10 in
        if i =? 0 then Some b else itoa_digits fuel i p b
  end.

(** A 32-bit integer has at most ten digits. *)
Definition itoa (i : Z) (b : cbuf) : option cbuf :=
  let '(i, p, b) := if i <? 0 then (i32 (- i), 1%nat, store_at 0 45 b) else (i, O, b) in
  e ← itoa_end 11 i p;
  itoa_digits 11 i e (store_at e 0 b).

(** The path of a process's swap file in [char path[14]]: the bytes of
    ["/.swap"] and the number. *)
Definition swap_prefix : list Z := [47; 46; 115; 119; 97; 112].
Definition swap_path (pid : Z) (b : cbuf) : option cbuf :=
  let b := foldr (fun kc b => store_at kc.1 kc.2 b) b (imap pair swap_prefix) in
  b' ← itoa pid (fun k => b (6 + k)%nat);
  Some (fun k => if decide (k < 6)%nat then b k else b' (k - 6)%nat).

(** ** Comparison *)

Definition bytes (s : list Z) : Prop := Forall is_u8 s.

Lemma bytes_deref s : bytes s -> is_u8 (deref s).
Proof. destruct 1; cbn; [unfold is_u8; lia|done]. Qed.

Lemma bytes_tail s : bytes s -> bytes (tail s).
Proof. destruct 1; [constructor|done]. Qed.

Lemma cstr_deref s : cstr s = if deref s =? 0 then [] else deref s :: cstr (tail s).
Proof. by destruct s. Qed.

Lemma strncmp_zero n : forall p q, bytes p -> bytes q ->
  strncmp p q n = 0 <-> take n (cstr p) = take n (cstr q).
Proof.
  induction n as [|n IH]; intros p q Hp Hq; [done|]. cbn [strncmp].
  rewrite (cstr_deref p), (cstr_deref q).
  pose proof (bytes_deref p Hp) as Hp0. pose proof (bytes_deref q Hq) as Hq0.
  destruct (Z.eqb_spec (deref p) 0) as [Ep|Ep]; cbn [negb andb].
  - rewrite Ep, u8_id, u8_id by (done || unfold is_u8; lia).
    destruct (Z.eqb_spec (deref q) 0) as [Eq|Eq]; [rewrite Eq; done|]. split; [lia|done].
  - destruct (Z.eqb_spec (deref p) (deref q)) as [E|E].
    + rewrite <- E, (proj2 (Z.eqb_neq _ _) Ep). cbn [take].
      rewrite IH by by apply bytes_tail. split; [by intros ->|by intros [= ->]].
    + rewrite !u8_id by done. split; [lia|].
      destruct (Z.eqb_spec (deref q) 0); [done|]. by intros [= ? ?].
Qed.

Lemma length_strncpy n : forall t, length (strncpy t n) = n.
Proof.
  induction n as [|n IH]; intros t; [done|]. cbn. destruct (_ =? _); cbn; [|by rewrite IH].
  by rewrite length_replicate.
Qed.

Lemma cstr_strncpy n : forall t, cstr (strncpy t n) = take n (cstr t).
Proof.
  induction n as [|n IH]; intros t; [done|]. cbn [strncpy]. rewrite (cstr_deref t).
  destruct (Z.eqb_spec (deref t) 0) as [E|E]; [done|].
  cbn [cstr take]. rewrite (proj2 (Z.eqb_neq _ _) E). by rewrite IH.
Qed.

Lemma cstr_no_nul s : Forall (fun c => c <> 0) (cstr s).
Proof.
  induction s as [|c s IH]; cbn; [constructor|]. destruct (Z.eqb_spec c 0); [constructor|].
  by constructor.
Qed.

Lemma cstr_id s : Forall (fun c => c <> 0) s -> cstr s = s.
Proof.
  induction 1 as [|c s Hc Hs IH]; [done|]. cbn. by rewrite (proj2 (Z.eqb_neq _ _) Hc), IH.
Qed.

Lemma bytes_strncpy n : forall t, bytes t -> bytes (strncpy t n).
Proof.
  induction n as [|n IH]; intros t Ht; [constructor|]. cbn.
  destruct (_ =? _).
  - constructor; [unfold is_u8; lia|]. apply Forall_replicate. unfold is_u8. lia.
  - constructor; [by apply bytes_deref|]. by apply IH, bytes_tail.
Qed.

Lemma safestrcpy_loop_cstr n : forall t,
  cstr (safestrcpy_loop t n) = take (n - 1) (cstr t) /\
  (exists k, (k <= Nat.max 1 n)%nat /\ length (safestrcpy_loop t n) = k) /\
  0 ∈ safestrcpy_loop t n.
Proof.
  induction n as [|n IH]; intros t.
  { split; [done|]. split; [by exists 1%nat|left]. }
  destruct n as [|n].
  { split; [done|]. split; [by exists 1%nat|left]. }
  change (safestrcpy_loop t (S (S n))) with
    (if deref t =? 0 then [0; 0] else deref t :: safestrcpy_loop (tail t) (S n)).
  rewrite (cstr_deref t). destruct (Z.eqb_spec (deref t) 0) as [E|E].
  { split; [done|]. split; [exists 2%nat; split; [lia|done]|left]. }
  destruct (IH (tail t)) as (H1&(k&Hk&Hl)&H3). split; [|split].
  - cbn [cstr]. rewrite (proj2 (Z.eqb_neq _ _) E), H1. cbn [Nat.sub take]. by rewrite Nat.sub_0_r.
  - exists (S k). split; [lia|]. cbn [length]. by rewrite Hl.
  - by right.
Qed.

Lemma strlen_from_spec s : forall n, strlen_from s n = n + Z.of_nat (length (cstr s)).
Proof.
  induction s as [|c s IH]; intros n; cbn [strlen_from cstr]; [cbn; lia|].
  destruct (Z.eqb_spec c 0); [cbn; lia|]. rewrite IH. cbn [length]. lia.
Qed.

(** ** Decimal *)

(** Number of decimal digits, and the digits, most significant first. *)
Fixpoint digits (fuel : nat) (i : Z) : list Z :=
  match fuel with
  | O => []
  | S fuel => if i <? 10 then [48 + i] else digits fuel (i / 10) ++ [48 + i mod 10]
  end.
Definition decimal (i : Z) : list Z := digits 11 i.

Lemma digits_step fuel i :
  0 <= i -> digits (S fuel) i = if i / 10 =? 0 then [48 + i mod 10] else digits fuel (i / 10) ++ [48 + i mod 10].
Proof.
  intros Hi. cbn [digits]. destruct (Z.ltb_spec i 10), (Z.eqb_spec (i / 10) 0); try done.
  - by rewrite Z.mod_small by lia.
  - pose proof (Z.div_small i 10 ltac:(lia)). lia.
  - pose proof (Z.div_str_pos i 10 ltac:(lia)). lia.
Qed.

Lemma div10_lt fuel i :
  0 <= i < 10 ^ Z.of_nat (S fuel) -> 0 <= i / 10 < 10 ^ Z.of_nat fuel.
Proof.
  intros Hi. rewrite Nat2Z.inj_succ, Z.pow_succ_r in Hi by lia. split.
  - apply Z.div_pos; lia.
  - apply Z.div_lt_upper_bound; lia.
Qed.

Lemma itoa_end_spec fuel : forall i p,
  0 <= i < 10 ^ Z.of_nat fuel -> (0 < fuel)%nat ->
  itoa_end fuel i p = Some (p + length (digits fuel i))%nat.
Proof.
  induction fuel as [|fuel IH]; intros i p Hi Hf; [lia|].
  cbn [itoa_end]. rewrite Z.quot_div_nonneg, digits_step by lia.
  destruct (Z.eqb_spec (i / 10) 0) as [E|E]; [cbn; f_equal; lia|].
  assert (Hlt : 0 <= i / 10 < 10 ^ Z.of_nat fuel) by by apply div10_lt.
  rewrite IH; [|done|].
  - rewrite length_app. cbn. f_equal. lia.
  - destruct fuel; [|lia]. cbn in Hlt. lia.
Qed.

Lemma itoa_digits_spec fuel : forall i p b,
  0 <= i < 10 ^ Z.of_nat fuel -> (0 < fuel)%nat -> (length (digits fuel i) <= p)%nat ->
  exists b', itoa_digits fuel i p b = Some b' /\
    (forall k, (k < length (digits fuel i))%nat ->
       b' (p - length (digits fuel i) + k)%nat = nth k (digits fuel i) 0) /\
    (forall k, (k < p - length (digits fuel i))%nat \/ (p <= k)%nat -> b' k = b k).
Proof.
  induction fuel as [|fuel IH]; intros i p b Hi Hf; [lia|]. rewrite digits_step by lia.
  destruct p as [|p].
  { destruct (_ =? _); [|rewrite length_app]; cbn; lia. }
  cbn [itoa_digits]. rewrite Z.rem_mod_nonneg, Z.quot_div_nonneg by lia.
  pose proof (Z.mod_pos_bound i 10 ltac:(lia)) as Hm.
  rewrite (proj2 (Z.ltb_ge _ _)) by lia.
  set (b1 := store_at p (48 + i mod 10) b).
  destruct (Z.eqb_spec (i / 10) 0) as [E|E]; cbn [length]; intros Hp.
  - exists b1. split; [done|]. split.
    + intros k Hk. replace k with 0%nat by lia. unfold b1, store_at.
      rewrite decide_True by lia. done.
    + intros k Hk. unfold b1, store_at. by rewrite decide_False by lia.
  - assert (Hlt : 0 <= i / 10 < 10 ^ Z.of_nat fuel) by by apply div10_lt.
    rewrite length_app in *. cbn [length] in *. set (l := digits fuel (i / 10)) in *.
    destruct (IH (i / 10) p b1 Hlt) as (b'&E'&H1&H2); [destruct fuel; [cbn in Hlt|]; lia|unfold l in *; lia|].
    fold l in H1, H2. exists b'. split; [done|]. split.
    + intros k Hk. destruct (decide (k < length l)%nat) as [Hkl|Hkl].
      * rewrite app_nth1 by done. rewrite <- H1 by done. f_equal. lia.
      * assert (k = length l) as -> by lia. rewrite app_nth2, Nat.sub_diag by lia. cbn.
        replace (S p - (length l + 1) + length l)%nat with p by lia.
        rewrite H2 by lia. unfold b1, store_at. by rewrite decide_True.
    + intros k Hk. rewrite H2 by lia. unfold b1, store_at. by rewrite decide_False by lia.
Qed.

(** [itoa] of a non-negative integer stores exactly its decimal digits and NUL. *)
Lemma itoa_spec i b :
  0 <= i < 2 ^ 31 ->
  exists b', itoa i b = Some b' /\
    (forall k, (k < length (decimal i))%nat -> b' k = nth k (decimal i) 0) /\
    b' (length (decimal i)) = 0 /\ (forall k, (length (decimal i) < k)%nat -> b' k = b k).
Proof.
  intros Hi. unfold itoa, decimal. rewrite (proj2 (Z.ltb_ge _ _)) by lia.
  rewrite itoa_end_spec by lia. cbn [mbind option_bind Nat.add].
  set (l := digits 11 i).
  destruct (itoa_digits_spec 11 i (length l) (store_at (length l) 0 b)) as (b'&E&H1&H2);
    [lia|lia|done|].
  exists b'. fold l in H1. rewrite Nat.sub_diag in *. split; [done|]. split; [done|].
  unfold store_at in H2. split.
  - rewrite H2 by lia. by rewrite decide_True.
  - intros k Hk. rewrite H2 by lia. by rewrite decide_False by lia.
Qed.

Lemma atoi_from_app l : forall n r,
  Forall (fun c => 48 <= c <= 57) l ->
  atoi_from (l ++ r) n = atoi_from r (atoi_from l n).
Proof.
  induction l as [|c l IH]; intros n r Hl; [done|]. apply Forall_cons in Hl as [Hc Hl]. cbn.
  rewrite (proj2 (Z.leb_le _ _)), (proj2 (Z.leb_le _ _)) by lia. cbn. by apply IH.
Qed.

Lemma digits_chars fuel : forall i, 0 <= i -> Forall (fun c => 48 <= c <= 57) (digits fuel i).
Proof.
  induction fuel as [|fuel IH]; intros i Hi; [constructor|]. rewrite digits_step by done.
  pose proof (Z.mod_pos_bound i 10 ltac:(lia)).
  destruct (_ =? _); [repeat constructor; lia|]. apply Forall_app. split.
  - apply IH. apply Z.div_pos; lia.
  - repeat constructor; lia.
Qed.

Lemma atoi_digits fuel : forall i,
  0 <= i < 10 ^ Z.of_nat fuel -> i < 2 ^ 31 -> (0 < fuel)%nat -> atoi (digits fuel i) = i.
Proof.
  unfold atoi. induction fuel as [|fuel IH]; intros i Hi Hi' Hf; [lia|]. rewrite digits_step by lia.
  pose proof (Z.mod_pos_bound i 10 ltac:(lia)) as Hm. pose proof (Z.div_mod i 10 ltac:(lia)) as Hdm.
  assert (Hone : forall n, 0 <= n -> n * 10 + i mod 10 < 2 ^ 31 ->
    atoi_from [48 + i mod 10] n = n * 10 + i mod 10).
  { intros n Hn Hn'. cbn [atoi_from]. rewrite (proj2 (Z.leb_le _ _)), (proj2 (Z.leb_le _ _)) by lia.
    cbn [andb]. replace (n * 10 + (48 + i mod 10) - 48) with (n * 10 + i mod 10) by lia.
    apply i32_id. lia. }
  destruct (Z.eqb_spec (i / 10) 0) as [E|E]; [rewrite Hone by lia; lia|].
  assert (Hlt : 0 <= i / 10 < 10 ^ Z.of_nat fuel) by by apply div10_lt.
  rewrite atoi_from_app by (apply digits_chars; lia).
  rewrite IH; [rewrite Hone by lia; lia|done|lia|].
  destruct fuel; [cbn in Hlt; lia|lia].
Qed.

(** [d] digits are enough below [10 ^ d]. *)
Lemma digits_length fuel : forall i (d : nat),
  0 <= i < 10 ^ Z.of_nat fuel -> (0 < d <= fuel)%nat ->
  (length (digits fuel i) <= d)%nat <-> i < 10 ^ Z.of_nat d.
Proof.
  induction fuel as [|fuel IH]; intros i d Hi Hd; [lia|]. rewrite digits_step by lia.
  pose proof (Z.mod_pos_bound i 10 ltac:(lia)) as Hm. pose proof (Z.div_mod i 10 ltac:(lia)) as Hdm.
  destruct d as [|d]; [lia|]. rewrite Nat2Z.inj_succ, Z.pow_succ_r by lia.
  assert (Hp : 0 < 10 ^ Z.of_nat d) by (apply Z.pow_pos_nonneg; lia).
  destruct (Z.eqb_spec (i / 10) 0) as [E|E]; [cbn; lia|].
  rewrite length_app. cbn [length].
  assert (Hlt : 0 <= i / 10 < 10 ^ Z.of_nat fuel) by by apply div10_lt.
  destruct d as [|d].
  - split; [|change (10 ^ Z.of_nat 0) with 1; lia].
    destruct fuel as [|fuel]; [cbn in Hlt; lia|]. rewrite digits_step by lia.
    destruct (_ =? _); rewrite ?length_app; cbn; lia.
  - rewrite <- (Nat.add_1_r (S d)), <- Nat.add_le_mono_r, IH by lia. 
    set (q := 10 ^ Z.of_nat (S d)) in *. lia.
Qed.

Lemma swap_path_spec pid b :
  0 <= pid < 2 ^ 31 ->
  exists b', swap_path pid b = Some b' /\
    (forall k, (k < 6)%nat -> b' k = nth k swap_prefix 0) /\
    (forall k, (k < length (decimal pid))%nat -> b' (6 + k)%nat = nth k (decimal pid) 0) /\
    b' (6 + length (decimal pid))%nat = 0 /\
    (forall k, (6 + length (decimal pid) < k)%nat -> b' k = b k).
Proof.
  intros Hp. unfold swap_path. set (b0 := foldr _ _ _).
  assert (Hb0 : forall k, b0 k = if decide (k < 6)%nat then nth k swap_prefix 0 else b k).
  { intros k. unfold b0. cbn. unfold store_at. cbn.
    do 6 (destruct k as [|k]; [done|]). by rewrite decide_False by lia. }
  destruct (itoa_spec pid (fun k => b0 (6 + k)%nat) Hp) as (b'&E&H1&H2&H3).
  rewrite E. cbn [mbind option_bind]. eexists. split; [done|]. cbn beta.
  split; [|split; [|split]].
  - intros k Hk. rewrite decide_True by done. by rewrite Hb0, decide_True.
  - intros k Hk. rewrite decide_False by lia. replace (6 + k - 6)%nat with k by lia. by apply H1.
  - rewrite decide_False by lia. by replace (6 + length (decimal pid) - 6)%nat with (length (decimal pid)) by lia.
  - intros k Hk. rewrite decide_False by lia. rewrite H3 by lia.
    replace (6 + (k - 6))%nat with k by lia. by rewrite Hb0, decide_False by lia.
Qed.

(** ** Theorems *)

(** Decimal round trip.  [itoa] of a non-negative integer stores a
    NUL-terminated string of at most ten digits, touches nothing after it, and
    [atoi] reads the integer back. *)
Theorem itoa_atoi i b :
  0 <= i < 2 ^ 31 ->
  exists b' l, itoa i b = Some b' /\ (length l <= 10)%nat /\
    (forall k, (k < length l)%nat -> b' k = nth k l 0) /\ b' (length l) = 0 /\
    (forall k, (length l < k)%nat -> b' k = b k) /\ atoi l = i.
Proof.
  intros Hi. destruct (itoa_spec i b Hi) as (b'&E&H1&H2&H3). exists b', (decimal i).
  split; [done|]. split; [apply digits_length; lia|]. do 3 (split; [done|]).
  apply atoi_digits; lia.
Qed.

(** The swap file path is built in [char path[14]], and [itoa] stays inside
    that buffer exactly for process ids below ten million. *)
Theorem swap_path_fits pid :
  0 <= pid < 2 ^ 31 ->
  (forall b, exists b', swap_path pid b = Some b' /\ forall k, (14 <= k)%nat -> b' k = b k) <->
  pid < 10 ^ 7.
Proof.
  intros Hp. split.
  - intros Hfit. apply (digits_length 11 pid 7); [lia|lia|]. apply Nat.nlt_ge. intros Hl.
    destruct (Hfit (fun _ => 1)) as (b'&E&Hb).
    destruct (swap_path_spec pid (fun _ => 1) Hp) as (b1&E1&_&_&H1&_).
    rewrite E in E1. injection E1 as <-. fold (decimal pid) in Hl.
    rewrite Hb in H1 by lia. done.
  - intros Hlt b. destruct (swap_path_spec pid b Hp) as (b'&E&_&_&_&H). exists b'.
    split; [done|]. intros k Hk. apply H.
    assert (length (digits 11 pid) <= 7)%nat by (apply digits_length; lia).
    unfold decimal. lia.
Qed.

(** Bounded names.  [strncmp] of two byte strings with bound [n] is zero
    exactly when their first [n] characters agree, and a name stored with
    [strncpy] takes [n] bytes and compares equal to the original. *)
Theorem bounded_names p q n :
  bytes p -> bytes q ->
  (strncmp p q n = 0 <-> take n (cstr p) = take n (cstr q)) /\
  length (strncpy p n) = n /\ strncmp p (strncpy p n) n = 0.
Proof.
  intros Hp Hq. split; [by apply strncmp_zero|]. split; [apply length_strncpy|].
  apply strncmp_zero; [done|by apply bytes_strncpy|]. rewrite cstr_strncpy.
  by rewrite take_take, Nat.min_id.
Qed.

(** [safestrcpy] into a buffer of [n > 0] bytes stores at most [n] bytes,
    always with a terminating NUL, and the copy is the first [n-1] characters. *)
Theorem safestrcpy_terminates t n :
  0 < n ->
  Z.of_nat (length (safestrcpy t n)) <= n /\ 0 ∈ safestrcpy t n /\
  cstr (safestrcpy t n) = take (Z.to_nat n - 1) (cstr t).
Proof.
  intros Hn. unfold safestrcpy. rewrite (proj2 (Z.leb_gt _ _)) by done.
  destruct (safestrcpy_loop_cstr (Z.to_nat n) t) as (H1&(k&Hk&Hl)&H3).
  split; [lia|]. by split.
Qed.

(** ** Instances of the theorems *)

Lemma itoa_atoi_witness : exists b' l, itoa 2147483647 (fun _ => 7) = Some b' /\ atoi l = 2147483647.
Proof.
  destruct (itoa_atoi 2147483647 (fun _ => 7) ltac:(lia)) as (b'&l&H1&_&_&_&_&H2).
  exists b', l. split; [exact H1|exact H2].
Defined.

Lemma swap_path_fits_witness :
  ~ (forall b, exists b', swap_path 10000000 b = Some b' /\ forall k, (14 <= k)%nat -> b' k = b k).
Proof.
  intros Hn. pose proof (proj1 (swap_path_fits 10000000 ltac:(lia)) Hn). lia.
Defined.

Lemma bounded_names_witness : strncmp [97; 98; 99] [97; 98; 100] 2 = 0.
Proof.
  destruct (bounded_names [97; 98; 99] [97; 98; 100] 2) as (H&_).
  - repeat constructor; unfold is_u8; lia.
  - repeat constructor; unfold is_u8; lia.
  - apply H. reflexivity.
Defined.

Lemma safestrcpy_terminates_witness : cstr (safestrcpy [97; 98; 99] 3) = [97; 98].
Proof. apply (safestrcpy_terminates [97; 98; 99] 3). lia. Defined.
