(* ===== verification/Fs.v ===== *)
(** The file system (fs.c): block allocator, inodes, inode contents,
    directories and path names.

    fs.c works on buffers of the logged buffer cache.  Its idioms
    [bp = bread(dev, b); ... bp->data ...; brelse(bp)] and
    [bp = bread(dev, b); ... bp->data[...] = ...; log_write(bp); brelse(bp)]
    read and update the contents every reader sees (Bio, LogCorrect); the model
    below states them as [readb] and [logb] on those contents.  The inode cache
    with its reference counts and sleep-locks is explicit. *)

From S2P Require Import Prelude Bio CString.

(** ** fs.h, stat.h *)

Definition ROOTINO : Z := 1.
Definition NDIRECT : Z := 12.
Definition NINDIRECT : Z := BSIZE / 4.
Definition MAXFILE : Z := NDIRECT + NINDIRECT.
Definition NINODE : Z := 50.
Definition NDEV : Z := 10.
Definition DIRSIZ : Z := 14.
Definition T_DIR : Z := 1.
Definition T_FILE : Z := 2.
Definition T_DEV : Z := 3.

Record superblock := Superblock {
  sb_size : Z;
  sb_nblocks : Z;
  sb_ninodes : Z;
  sb_nlog : Z;
  sb_logstart : Z;
  sb_inodestart : Z;
  sb_bmapstart : Z;
}.

(** On-disk inode: 64 bytes. *)
Record dinode := Dinode {
  d_type : Z;
  d_major : Z;
  d_minor : Z;
  d_nlink : Z;
  d_size : Z;
  d_addrs : list Z;
}.

Definition IPB : Z := BSIZE / 64.
Definition IBLOCK (i : Z) (sb : superblock) : Z := u32 (i / IPB + sb_inodestart sb).
Definition BPB : Z := BSIZE * 8.
Definition BBLOCK (b : Z) (sb : superblock) : Z := u32 (b / BPB + sb_bmapstart sb).

(** In-memory inode. *)
Record inode := Inode {
  i_dev : Z;
  i_inum : Z;
  i_ref : Z;
  i_lock : option Z;
  i_valid : bool;
  i_di : dinode;          (* copy of disk inode *)
}.

(** Directory entry: 16 bytes. *)
Record dirent := Dirent { de_inum : Z; de_name : list Z }.

(** ** State *)

Record fs := Fs {
  fsdisk : Z -> block;       (* contents seen through the buffer cache *)
  fssize : Z;                (* size of the disk *)
  sb : superblock;
  icache : list inode;
  cwd : nat;                 (* myproc()->cwd *)
  fspid : Z;                 (* myproc()->pid *)
}.

Definition set_disk (d : Z -> block) (s : fs) : fs :=
  Fs d (fssize s) (sb s) (icache s) (cwd s) (fspid s).
Definition set_icache (c : list inode) (s : fs) : fs :=
  Fs (fsdisk s) (fssize s) (sb s) c (cwd s) (fspid s).

Definition dinode0 : dinode := Dinode 0 0 0 0 0 (replicate 13 0).
Definition inode0 : inode := Inode 0 0 0 None false dinode0.
Definition inodeat (s : fs) (ip : nat) : inode := nth ip (icache s) inode0.
Definition upd_inode (ip : nat) (f : inode -> inode) (s : fs) : fs :=
  set_icache (<[ip := f (inodeat s ip)]> (icache s)) s.

Definition set_ref (r : Z) (i : inode) : inode :=
  Inode (i_dev i) (i_inum i) r (i_lock i) (i_valid i) (i_di i).
Definition set_ilock (l : option Z) (i : inode) : inode :=
  Inode (i_dev i) (i_inum i) (i_ref i) l (i_valid i) (i_di i).
Definition set_di (v : bool) (d : dinode) (i : inode) : inode :=
  Inode (i_dev i) (i_inum i) (i_ref i) (i_lock i) v d.
Definition set_type (t : Z) (d : dinode) : dinode :=
  Dinode t (d_major d) (d_minor d) (d_nlink d) (d_size d) (d_addrs d).
Definition set_nlink (n : Z) (d : dinode) : dinode :=
  Dinode (d_type d) (d_major d) (d_minor d) n (d_size d) (d_addrs d).
Definition set_size (n : Z) (d : dinode) : dinode :=
  Dinode (d_type d) (d_major d) (d_minor d) (d_nlink d) n (d_addrs d).
Definition set_addr (k : nat) (a : Z) (d : dinode) : dinode :=
  Dinode (d_type d) (d_major d) (d_minor d) (d_nlink d) (d_size d) (<[k := a]> (d_addrs d)).

(** [ip->field], and updates of the cached inode. *)
Definition geti (ip : nat) : kern fs inode := gets (fun s => inodeat s ip).
Definition modi (ip : nat) (f : inode -> inode) : kern fs unit := modify (upd_inode ip f).
Definition modd (ip : nat) (f : dinode -> dinode) : kern fs unit :=
  modi ip (fun i => set_di (i_valid i) (f (i_di i)) i).

(** [bread(dev, b)->data], and [log_write] of changed contents. *)
Definition readb (dev b : Z) : kern fs block := fun s =>
  if negb (dev =? ROOTDEV) then Panic "iderw: request not for disk 1"
  else if fssize s <=? b then Panic "iderw: block out of range"
  else Ret (fsdisk s b) s.
Definition logb (b : Z) (d : block) : kern fs unit :=
  modify (fun s => set_disk (fun x => if decide (x = b) then d else fsdisk s x) s).

(** 16-bit fields. *)
Definition get16 (d : block) (o : nat) : Z := nth o d 0 + 2 ^ 8 * nth (o + 1) d 0.
Definition half_bytes (v : Z) : list Z := [v mod 2 ^ 8; v / 2 ^ 8 mod 2 ^ 8].

(** The [struct dinode] at byte [o] of a block. *)
Definition get_dinode (d : block) (o : nat) : dinode :=
  Dinode (i16 (get16 d o)) (i16 (get16 d (o + 2))) (i16 (get16 d (o + 4))) (i16 (get16 d (o + 6)))
    (get32 d (o + 8)) ((fun k => get32 d (o + 12 + 4 * k)) <$> seq 0 13).
Definition dinode_bytes (x : dinode) : list Z :=
  half_bytes (d_type x) ++ half_bytes (d_major x) ++ half_bytes (d_minor x) ++
  half_bytes (d_nlink x) ++ word_bytes (d_size x) ++ mjoin (word_bytes <$> d_addrs x).
Definition put_dinode (d : block) (o : nat) (x : dinode) : block := put_at d o (dinode_bytes x).

(** Byte offset of inode [inum] in its block. *)
Definition ioff (inum : Z) : nat := Z.to_nat (inum mod IPB * 64).

(** ** Super block *)

Definition get_superblock (d : block) : superblock :=
  Superblock (get32 d 0) (get32 d 4) (get32 d 8) (get32 d 12) (get32 d 16) (get32 d 20) (get32 d 24).

Definition readsb (dev : Z) : kern fs superblock :=
  d ← readb dev 1; mret (get_superblock d).

(** ** Blocks *)

Definition bzero (dev bno : Z) : kern fs unit :=
  d ← readb dev bno;
  logb bno (replicate (Z.to_nat BSIZE) 0).

(** Is bit [bi] of a bitmap block set? *)
Definition bit_set (d : block) (bi : Z) : bool :=
  negb (Z.land (nth (Z.to_nat (bi / 8)) d 0) (Z.shiftl 1 (bi mod 8)) =? 0).
Definition upd_byte (d : list Z) (k : Z) (f : Z -> Z) : list Z :=
  <[Z.to_nat k := f (nth (Z.to_nat k) d 0)]> d.

(** The inner loop of [balloc]: the first clear bit from [bi]. *)
Fixpoint find_clear (n : nat) (d : block) (size b bi : Z) : option Z :=
  match n with
  | O => None
  | S n =>
      if b + bi <? size then
        if bit_set d bi then find_clear n d size b (bi + 1) else Some bi
      else None
  end.

Fixpoint balloc_loop (fuel : nat) (dev b : Z) : kern fs Z :=
  match fuel with
  | O => fun _ => Fuel
  | S fuel =>
      sp ← gets sb;
      if b <? sb_size sp then
        d ← readb dev (BBLOCK b sp);
        match find_clear (Z.to_nat BPB) d (sb_size sp) b 0 with
        | Some bi =>
            logb (BBLOCK b sp) (upd_byte d (bi / 8) (fun x => Z.lor x (Z.shiftl 1 (bi mod 8)))) ;;
            bzero dev (b + bi) ;;
            mret (b + bi)
        | None => balloc_loop fuel dev (b + BPB)
        end
      else panic "balloc: out of blocks"
  end.

(** One iteration per bitmap block and one to leave the loop. *)
Definition balloc (dev : Z) : kern fs Z :=
  sp ← gets sb;
  balloc_loop (Z.to_nat (sb_size sp / BPB + 2)) dev 0.

Definition bfree (dev b : Z) : kern fs unit :=
  sp ← gets sb;
  d ← readb dev (BBLOCK b sp);
  let bi := b mod BPB in
  if negb (bit_set d bi) then panic "freeing free block"
  else logb (BBLOCK b sp)
         (upd_byte d (bi / 8) (fun x => Z.land x (Z.lnot (Z.shiftl 1 (bi mod 8))))).

(** ** Inodes *)

Definition iinit (dev : Z) : kern fs unit :=
  modify (fun s => set_icache (set_ilock None <$> icache s) s) ;;
  sp ← readsb dev;
  modify (fun s => Fs (fsdisk s) (fssize s) sp (icache s) (cwd s) (fspid s)).

(** The loop of [iget]: the cached entry, or else the first free one. *)
Fixpoint iget_scan (dev inum : Z) (l : list inode) (k : nat) (empty : option nat)
  : nat + option nat :=
  match l with
  | [] => inr empty
  | ip :: l =>
      if (0 <? i_ref ip) && (i_dev ip =? dev) && (i_inum ip =? inum) then inl k
      else iget_scan dev inum l (S k)
             (match empty with
              | None => if i_ref ip =? 0 then Some k else None
              | Some e => Some e
              end)
  end.

Definition iget (dev inum : Z) : kern fs nat := fun s =>
  match iget_scan dev inum (icache s) 0 None with
  | inl ip => (modi ip (fun i => set_ref (i32 (i_ref i + 1)) i) ;; mret ip) s
  | inr None => Panic "iget: no inodes"
  | inr (Some ip) =>
      (modi ip (fun i => Inode dev inum 1 (i_lock i) false (i_di i)) ;; mret ip) s
  end.

Definition idup (ip : nat) : kern fs nat :=
  modi ip (fun i => set_ref (i32 (i_ref i + 1)) i) ;; mret ip.

Fixpoint ialloc_loop (fuel : nat) (dev ty inum : Z) : kern fs nat :=
  match fuel with
  | O => fun _ => Fuel
  | S fuel =>
      sp ← gets sb;
      if inum <? sb_ninodes sp then
        d ← readb dev (IBLOCK inum sp);
        if d_type (get_dinode d (ioff inum)) =? 0 then
          logb (IBLOCK inum sp) (put_dinode d (ioff inum) (set_type ty dinode0)) ;;
          iget dev inum
        else ialloc_loop fuel dev ty (inum + 1)
      else panic "ialloc: no inodes"
  end.

(** One iteration per inode and one to leave the loop. *)
Definition ialloc (dev ty : Z) : kern fs nat :=
  sp ← gets sb;
  ialloc_loop (Z.to_nat (sb_ninodes sp + 1)) dev ty 1.

Definition iupdate (ip : nat) : kern fs unit :=
  i ← geti ip;
  sp ← gets sb;
  d ← readb (i_dev i) (IBLOCK (i_inum i) sp);
  logb (IBLOCK (i_inum i) sp) (put_dinode d (ioff (i_inum i)) (i_di i)).

Definition iacquire (ip : nat) : kern fs unit := fun s =>
  match i_lock (inodeat s ip) with
  | Some _ => Sleep (Z.of_nat ip) s
  | None => modi ip (set_ilock (Some (fspid s))) s
  end.
Definition irelease (ip : nat) : kern fs unit := modi ip (set_ilock None).
Definition iholding (s : fs) (ip : nat) : bool := bool_decide (i_lock (inodeat s ip) = Some (fspid s)).

Definition ilock (ip : nat) : kern fs unit :=
  i ← geti ip;
  if i_ref i <? 1 then panic "ilock" else
  iacquire ip ;;
  i ← geti ip;
  if negb (i_valid i) then
    sp ← gets sb;
    d ← readb (i_dev i) (IBLOCK (i_inum i) sp);
    let di := get_dinode d (ioff (i_inum i)) in
    modi ip (set_di true di) ;;
    if d_type di =? 0 then panic "ilock: no type" else mret tt
  else mret tt.

Definition iunlock (ip : nat) : kern fs unit := fun s =>
  if negb (iholding s ip) || (i_ref (inodeat s ip) <? 1) then Panic "iunlock"
  else irelease ip s.

(** ** Inode content *)

Definition addr_of (k : nat) (i : inode) : Z := nth k (d_addrs (i_di i)) 0.

(** The disk block of block [bn] of the file, allocated if absent. *)
Definition bmap (ip : nat) (bn : Z) : kern fs Z :=
  if bn <? NDIRECT then
    i ← geti ip;
    let addr := addr_of (Z.to_nat bn) i in
    if addr =? 0 then
      addr ← balloc (i_dev i);
      modd ip (set_addr (Z.to_nat bn) addr) ;;
      mret addr
    else mret addr
  else
    let bn := bn - NDIRECT in
    if bn <? NINDIRECT then
      i ← geti ip;
      addr ← (let addr := addr_of (Z.to_nat NDIRECT) i in
              if addr =? 0 then
                addr ← balloc (i_dev i);
                modd ip (set_addr (Z.to_nat NDIRECT) addr) ;;
                mret addr
              else mret addr);
      a ← readb (i_dev i) addr;
      let ind := addr in
      let addr := get32 a (Z.to_nat (4 * bn)) in
      if addr =? 0 then
        addr ← balloc (i_dev i);
        logb ind (put32 a (Z.to_nat (4 * bn)) addr) ;;
        mret addr
      else mret addr
    else panic "bmap: out of range".

(** Free the direct blocks [k ..]. *)
Fixpoint trunc_direct (n k : nat) (ip : nat) : kern fs unit :=
  match n with
  | O => mret tt
  | S n =>
      i ← geti ip;
      (if negb (addr_of k i =? 0) then
         bfree (i_dev i) (addr_of k i) ;; modd ip (set_addr k 0)
       else mret tt) ;;
      trunc_direct n (S k) ip
  end.

(** Free the blocks listed in the indirect block [a], from entry [j]. *)
Fixpoint trunc_indirect (n j : nat) (dev : Z) (a : block) : kern fs unit :=
  match n with
  | O => mret tt
  | S n =>
      (if negb (get32 a (4 * j) =? 0) then bfree dev (get32 a (4 * j)) else mret tt) ;;
      trunc_indirect n (S j) dev a
  end.

(** Free every block of the file. *)
Definition trunc_blocks (ip : nat) : kern fs unit :=
  trunc_direct (Z.to_nat NDIRECT) 0 ip ;;
  i ← geti ip;
  let addr := addr_of (Z.to_nat NDIRECT) i in
  if negb (addr =? 0) then
    a ← readb (i_dev i) addr;
    trunc_indirect (Z.to_nat NINDIRECT) 0 (i_dev i) a ;;
    bfree (i_dev i) addr ;;
    modd ip (set_addr (Z.to_nat NDIRECT) 0)
  else mret tt.

Definition itrunc (ip : nat) : kern fs unit :=
  trunc_blocks ip ;;
  modd ip (set_size 0) ;;
  iupdate ip.

Definition iput (ip : nat) : kern fs unit :=
  iacquire ip ;;
  i ← geti ip;
  (if i_valid i && (d_nlink (i_di i) =? 0) && (i_ref i =? 1) then
     itrunc ip ;;
     modd ip (set_type 0) ;;
     iupdate ip ;;
     modi ip (fun i => set_di false (i_di i) i)
   else mret tt) ;;
  irelease ip ;;
  modi ip (fun i => set_ref (i32 (i_ref i - 1)) i).

Definition iunlockput (ip : nat) : kern fs unit := iunlock ip ;; iput ip.

(** [struct stat]. *)
Record stat := Stat { st_type : Z; st_dev : Z; st_ino : Z; st_nlink : Z; st_size : Z }.

Definition stati (ip : nat) : kern fs stat :=
  i ← geti ip;
  mret (Stat (d_type (i_di i)) (i_dev i) (i_inum i) (d_nlink (i_di i)) (d_size (i_di i))).

(** Device drivers: the table [devsw].  A read gives its result and the bytes
    stored at the destination. *)
Class Devsw := {
  dev_read : Z -> option (nat -> Z -> kern fs (Z * list Z));
  dev_write : Z -> option (nat -> list Z -> Z -> kern fs Z);
}.

(** The copy loop of [readi]: the bytes stored at [dst]. *)
Fixpoint readi_loop (fuel : nat) (ip : nat) (tot off n : Z) : kern fs (list Z) :=
  if tot <? n then
    match fuel with
    | O => fun _ => Fuel
    | S fuel =>
        i ← geti ip;
        b ← bmap ip (off / BSIZE);
        d ← readb (i_dev i) b;
        let m := Z.min (n - tot) (BSIZE - off mod BSIZE) in
        l ← readi_loop fuel ip (tot + m) (off + m) n;
        mret (take (Z.to_nat m) (drop (Z.to_nat (off mod BSIZE)) d) ++ l)
    end
  else mret [].

Fixpoint writei_loop (fuel : nat) (ip : nat) (src : list Z) (tot off n : Z) : kern fs Z :=
  if tot <? n then
    match fuel with
    | O => fun _ => Fuel
    | S fuel =>
        i ← geti ip;
        b ← bmap ip (off / BSIZE);
        d ← readb (i_dev i) b;
        let m := Z.min (n - tot) (BSIZE - off mod BSIZE) in
        logb b (put_at d (Z.to_nat (off mod BSIZE)) (take (Z.to_nat m) (drop (Z.to_nat tot) src))) ;;
        writei_loop fuel ip src (tot + m) (off + m) n
    end
  else mret off.

(** Each iteration but the first and last copies a whole block. *)
Definition io_fuel (n : Z) : nat := Z.to_nat (n / BSIZE + 2).

Section content.
Context `{Devsw}.

(** The return value and the bytes stored at [dst]. *)
Definition readi (ip : nat) (off n : Z) : kern fs (Z * list Z) :=
  i ← geti ip;
  let di := i_di i in
  if d_type di =? T_DEV then
    if (d_major di <? 0) || (NDEV <=? d_major di) then mret (-1, [])
    else match dev_read (d_major di) with
         | None => mret (-1, [])
         | Some rd => rd ip n
         end
  else if (d_size di <? off) || (u32 (off + n) <? off) then mret (-1, [])
  else
    let n := if d_size di <? u32 (off + n) then u32 (d_size di - off) else n in
    l ← readi_loop (io_fuel n) ip 0 off n;
    mret (i32 n, l).

Definition writei (ip : nat) (src : list Z) (off n : Z) : kern fs Z :=
  i ← geti ip;
  let di := i_di i in
  if d_type di =? T_DEV then
    if (d_major di <? 0) || (NDEV <=? d_major di) then mret (-1)
    else match dev_write (d_major di) with
         | None => mret (-1)
         | Some wr => wr ip src n
         end
  else if (d_size di <? off) || (u32 (off + n) <? off) then mret (-1)
  else if MAXFILE * BSIZE <? u32 (off + n) then mret (-1)
  else
    off ← writei_loop (io_fuel n) ip src 0 off n;
    i ← geti ip;
    (if (0 <? n) && (d_size (i_di i) <? off) then
       modd ip (set_size off) ;; iupdate ip
     else mret tt) ;;
    mret (i32 n).

(** ** Directories *)

Definition namecmp (s t : list Z) : Z := strncmp s t (Z.to_nat DIRSIZ).

Definition dirent_size : Z := 16.
Definition get_dirent (l : list Z) : dirent := Dirent (get16 l 0) (take (Z.to_nat DIRSIZ) (drop 2 l)).
Definition dirent_bytes (e : dirent) : list Z := half_bytes (de_inum e) ++ de_name e.

(** Entry at byte [off] of directory [dp]. *)
Definition read_dirent (dp : nat) (off : Z) (msg : string) : kern fs dirent :=
  rl ← readi dp off dirent_size;
  if negb (rl.1 =? dirent_size) then panic msg else mret (get_dirent rl.2).

(** The loop of [dirlookup]: the entry's inode and offset. *)
Fixpoint dirlookup_loop (fuel : nat) (dp : nat) (name : list Z) (off : Z)
  : kern fs (option (nat * Z)) :=
  match fuel with
  | O => fun _ => Fuel
  | S fuel =>
      i ← geti dp;
      if off <? d_size (i_di i) then
        de ← read_dirent dp off "dirlookup read";
        if de_inum de =? 0 then dirlookup_loop fuel dp name (off + dirent_size)
        else if namecmp name (de_name de) =? 0 then
          ip ← iget (i_dev i) (de_inum de);
          mret (Some (ip, off))
        else dirlookup_loop fuel dp name (off + dirent_size)
      else mret None
  end.

(** One iteration per directory entry and one to leave the loop. *)
Definition dir_fuel (size : Z) : nat := Z.to_nat (size / dirent_size + 2).

Definition dirlookup (dp : nat) (name : list Z) : kern fs (option (nat * Z)) :=
  i ← geti dp;
  if negb (d_type (i_di i) =? T_DIR) then panic "dirlookup not DIR"
  else dirlookup_loop (dir_fuel (d_size (i_di i))) dp name 0.

(** The search of [dirlink] for an unused entry: its offset, or the size. *)
Fixpoint empty_dirent (fuel : nat) (dp : nat) (off : Z) : kern fs Z :=
  match fuel with
  | O => fun _ => Fuel
  | S fuel =>
      i ← geti dp;
      if off <? d_size (i_di i) then
        de ← read_dirent dp off "dirlink read";
        if de_inum de =? 0 then mret off else empty_dirent fuel dp (off + dirent_size)
      else mret off
  end.

Definition dirlink (dp : nat) (name : list Z) (inum : Z) : kern fs Z :=
  r ← dirlookup dp name;
  match r with
  | Some (ip, _) => iput ip ;; mret (-1)
  | None =>
      i ← geti dp;
      off ← empty_dirent (dir_fuel (d_size (i_di i))) dp 0;
      let de := Dirent (u16 inum) (strncpy name (Z.to_nat DIRSIZ)) in
      r ← writei dp (dirent_bytes de) off dirent_size;
      if negb (r =? dirent_size) then panic "dirlink" else mret 0
  end.

(** ** Paths *)

Definition slash : Z := 47.

(** Move [path] past slashes. *)
Fixpoint skip_slashes (path : list Z) : list Z :=
  match path with
  | c :: path' => if c =? slash then skip_slashes path' else path
  | [] => []
  end.

(** Move [path] past an element: the element and the rest. *)
Fixpoint path_elem (path : list Z) : list Z * list Z :=
  match path with
  | c :: path' =>
      if negb (c =? slash) && negb (c =? 0) then
        let (e, r) := path_elem path' in (c :: e, r)
      else ([], path)
  | [] => ([], [])
  end.

(** [skipelem]: the rest of the path and the new contents of [name]; [None] is
    the null pointer. *)
Definition skipelem (path name : list Z) : option (list Z * list Z) :=
  let path := skip_slashes path in
  if deref path =? 0 then None
  else
    let (s, path) := path_elem path in
    let len := Z.of_nat (length s) in
    let name :=
      if DIRSIZ <=? len then put_at name 0 (take (Z.to_nat DIRSIZ) s)
      else put_at name 0 (s ++ [0]) in
    Some (skip_slashes path, name).

(** The loop of [namex]; every iteration removes at least one character. *)
Fixpoint namex_loop (fuel : nat) (path : list Z) (parent : bool) (name : list Z) (ip : nat)
  : kern fs (option nat * list Z) :=
  match skipelem path name with
  | None => if parent then iput ip ;; mret (None, name) else mret (Some ip, name)
  | Some (path, name) =>
      match fuel with
      | O => fun _ => Fuel
      | S fuel =>
          ilock ip ;;
          i ← geti ip;
          if negb (d_type (i_di i) =? T_DIR) then iunlockput ip ;; mret (None, name)
          else if parent && (deref path =? 0) then iunlock ip ;; mret (Some ip, name)
          else
            next ← dirlookup ip name;
            match next with
            | None => iunlockput ip ;; mret (None, name)
            | Some (next, _) => iunlockput ip ;; namex_loop fuel path parent name next
            end
      end
  end.

Definition namex (path : list Z) (parent : bool) (name : list Z) : kern fs (option nat * list Z) :=
  ip ← (if deref path =? slash then iget ROOTDEV ROOTINO
        else c ← gets cwd; idup c);
  namex_loop (length path) path parent name ip.

(** [name] starts as an uninitialised buffer on the caller's stack. *)
Definition namei (path : list Z) : kern fs (option nat) :=
  r ← namex path false (replicate (Z.to_nat DIRSIZ) 0); mret r.1.

Definition nameiparent (path name : list Z) : kern fs (option nat * list Z) :=
  namex path true name.

End content.
