(* ===== verification/FsBlocks.v ===== *)
(** The block allocator of fs.c: which blocks are in use according to the
    bitmap, that [balloc] takes the lowest free block, zeroed, and marks exactly
    it, and that [bfree] releases exactly its argument. *)

From S2P Require Import Prelude Bio CString Fs.

(** ** Running the code *)

Definition upd (d : Z -> block) (b : Z) (v : block) : Z -> block :=
  fun x => if decide (x = b) then v else d x.

Lemma upd_eq d b v : upd d b v b = v.
Proof. unfold upd. by rewrite decide_True. Qed.
Lemma upd_ne d b v x : x <> b -> upd d b v x = d x.
Proof. intros. unfold upd. by rewrite decide_False. Qed.

Lemma bind_readb {B} b (k : block -> kern fs B) s :
  b < fssize s -> (readb ROOTDEV b ≫= k) s = k (fsdisk s b) s.
Proof.
  intros Hb. unfold mbind, kern_bind, readb. rewrite Z.eqb_refl. cbn [negb].
  by rewrite (proj2 (Z.leb_gt _ _)).
Qed.
Lemma bind_logb {B} b v (k : unit -> kern fs B) s :
  (logb b v ≫= k) s = k tt (set_disk (upd (fsdisk s) b v) s).
Proof. reflexivity. Qed.
Lemma run_logb b v s : logb b v s = Ret tt (set_disk (upd (fsdisk s) b v) s).
Proof. reflexivity. Qed.

Lemma run_geti {B} ip (k : inode -> kern fs B) s : (geti ip ≫= k) s = k (inodeat s ip) s.
Proof. reflexivity. Qed.

Lemma bind_modi {B} ip f (k : unit -> kern fs B) s : (modi ip f ≫= k) s = k tt (upd_inode ip f s).
Proof. reflexivity. Qed.

(** ** Bits of a bitmap block *)

Lemma bit_set_testbit d bi :
  0 <= bi -> bit_set d bi = Z.testbit (nth (Z.to_nat (bi / 8)) d 0) (bi mod 8).
Proof.
  intros Hbi. unfold bit_set. pose proof (Z.mod_pos_bound bi 8 ltac:(lia)).
  rewrite Z.shiftl_1_l. change (negb (?x =? 0)) with (has (nth (Z.to_nat (bi / 8)) d 0) (2 ^ (bi mod 8))).
  apply has_pow2. lia.
Qed.

Lemma nth_upd_byte d k f j :
  0 <= k -> (Z.to_nat k < length d)%nat ->
  nth j (upd_byte d k f) 0 = if decide (j = Z.to_nat k) then f (nth (Z.to_nat k) d 0) else nth j d 0.
Proof.
  intros Hk Hl. unfold upd_byte. rewrite !nth_lookup.
  destruct (decide (j = Z.to_nat k)) as [->|Hne].
  - by rewrite list_lookup_insert_eq.
  - by rewrite list_lookup_insert_ne.
Qed.

Lemma length_upd_byte d k f : length (upd_byte d k f) = length d.
Proof. apply length_insert. Qed.

(** Setting or clearing bit [bi]. *)
Lemma bit_upd (v : bool) d bi j (f : Z -> Z) :
  0 <= bi -> (Z.to_nat (bi / 8) < length d)%nat -> 0 <= j ->
  (forall x, f x = if v then Z.lor x (Z.shiftl 1 (bi mod 8))
                   else Z.land x (Z.lnot (Z.shiftl 1 (bi mod 8)))) ->
  bit_set (upd_byte d (bi / 8) f) j = if decide (j = bi) then v else bit_set d j.
Proof.
  intros Hbi Hl Hj Hf. rewrite !bit_set_testbit by done.
  pose proof (Z.mod_pos_bound bi 8 ltac:(lia)). pose proof (Z.mod_pos_bound j 8 ltac:(lia)).
  pose proof (Z.div_mod bi 8 ltac:(lia)). pose proof (Z.div_mod j 8 ltac:(lia)).
  assert (0 <= bi / 8) by (apply Z.div_pos; lia). assert (0 <= j / 8) by (apply Z.div_pos; lia).
  rewrite nth_upd_byte by done.
  assert (Hb : Z.testbit (Z.shiftl 1 (bi mod 8)) (j mod 8) = bool_decide (bi mod 8 = j mod 8)).
  { rewrite Z.shiftl_1_l, Z.pow2_bits_eqb by lia.
    destruct (Z.eqb_spec (bi mod 8) (j mod 8)); [by rewrite bool_decide_true|by rewrite bool_decide_false]. }
  destruct (decide (Z.to_nat (j / 8) = Z.to_nat (bi / 8))) as [E|E].
  - assert (Ed : j / 8 = bi / 8) by lia. rewrite Hf. destruct v.
    + rewrite Z.lor_spec, Hb, Ed. destruct (decide (j = bi)) as [->|Hne].
      * rewrite bool_decide_true by done. apply orb_true_r.
      * rewrite bool_decide_false by lia. apply orb_false_r.
    + rewrite Z.land_spec, Z.lnot_spec, Hb, Ed by lia. destruct (decide (j = bi)) as [->|Hne].
      * rewrite bool_decide_true by done. apply andb_false_r.
      * rewrite bool_decide_false by lia. apply andb_true_r.
  - rewrite decide_False; [done|]. intros ->. done.
Qed.

Lemma find_clear_Some n : forall d size b bi k,
  find_clear n d size b bi = Some k ->
  bi <= k < bi + Z.of_nat n /\ b + k < size /\ bit_set d k = false /\
  forall j, bi <= j < k -> bit_set d j = true.
Proof.
  induction n as [|n IH]; intros d size b bi k; [done|]. cbn [find_clear].
  destruct (Z.ltb_spec (b + bi) size); [|done]. destruct (bit_set d bi) eqn:E.
  - intros (H1&H2&H3&H4)%IH. split; [lia|]. split; [done|]. split; [done|].
    intros j Hj. destruct (decide (j = bi)) as [->|]; [done|]. apply H4. lia.
  - intros [= <-]. split; [lia|]. split; [done|]. split; [done|]. lia.
Qed.

Lemma find_clear_None n : forall d size b bi,
  find_clear n d size b bi = None ->
  forall j, bi <= j < bi + Z.of_nat n -> b + j < size -> bit_set d j = true.
Proof.
  induction n as [|n IH]; intros d size b bi; [lia|]. cbn [find_clear].
  destruct (Z.ltb_spec (b + bi) size); [|intros _ j Hj; lia].
  destruct (bit_set d bi) eqn:E; [|done]. intros HN j Hj Hs.
  destruct (decide (j = bi)) as [->|]; [done|]. apply (IH _ _ _ _ HN); lia.
Qed.

(** ** Layout of the disk *)

(** First data block. *)
Definition datastart (sp : superblock) : Z := sb_bmapstart sp + sb_size sp / BPB + 1.

Record layout (sp : superblock) (size : Z) : Prop := {
  ly_inode : 1 < sb_inodestart sp;
  ly_ninodes : 0 < sb_ninodes sp;
  ly_bmap : sb_inodestart sp + sb_ninodes sp / IPB + 1 <= sb_bmapstart sp;
  ly_data : datastart sp <= sb_size sp;
  ly_size : sb_size sp <= size;
  ly_small : 0 < sb_size sp < 2 ^ 31;
}.

Lemma datastart_pos sp size : layout sp size -> sb_bmapstart sp < datastart sp /\ 0 < sb_bmapstart sp.
Proof.
  intros [L1 L2 L3 L4 L5 L6]. unfold datastart.
  assert (0 <= sb_ninodes sp / IPB) by (apply Z.div_pos; [lia|reflexivity]).
  assert (0 <= sb_size sp / BPB) by (apply Z.div_pos; [lia|reflexivity]). lia.
Qed.

Definition blocks_ok (d : Z -> block) : Prop := forall b, length (d b) = Z.to_nat BSIZE.

(** Block [b] is marked in use. *)
Definition used (sp : superblock) (d : Z -> block) (b : Z) : bool :=
  bit_set (d (BBLOCK b sp)) (b mod BPB).

(** Blocks of the inode and bitmap areas are marked in use. *)
Definition reserved_used (sp : superblock) (d : Z -> block) : Prop :=
  forall b, 0 <= b < datastart sp -> used sp d b = true.

(** A bitmap block. *)
Definition is_bmap (sp : superblock) (x : Z) : Prop := sb_bmapstart sp <= x < datastart sp.

Lemma BBLOCK_eq sp size b :
  layout sp size -> 0 <= b < sb_size sp -> BBLOCK b sp = b / BPB + sb_bmapstart sp.
Proof.
  intros [L1 L2 L3 L4 L5 L6] Hb. unfold BBLOCK. apply u32_id. unfold is_u32.
  assert (0 <= b / BPB <= sb_size sp / BPB).
  { split; [apply Z.div_pos; unfold BPB, BSIZE; lia|apply Z.div_le_mono; unfold BPB, BSIZE; lia]. }
  assert (0 <= sb_ninodes sp / IPB) by (apply Z.div_pos; [lia|reflexivity]).
  unfold datastart in *. lia.
Qed.

Lemma BBLOCK_bmap sp size b : layout sp size -> 0 <= b < sb_size sp -> is_bmap sp (BBLOCK b sp).
Proof.
  intros L Hb. rewrite (BBLOCK_eq sp size) by done. unfold is_bmap, datastart.
  assert (0 <= b / BPB <= sb_size sp / BPB); [|lia].
  split; [apply Z.div_pos; unfold BPB, BSIZE; lia|apply Z.div_le_mono; unfold BPB, BSIZE; lia].
Qed.

Lemma BBLOCK_inj sp size b c :
  layout sp size -> 0 <= b < sb_size sp -> 0 <= c < sb_size sp ->
  BBLOCK b sp = BBLOCK c sp -> b mod BPB = c mod BPB -> b = c.
Proof.
  intros L Hb Hc. rewrite !(BBLOCK_eq sp size) by done. intros E1 E2.
  rewrite (Z.div_mod b BPB), (Z.div_mod c BPB) by (unfold BPB, BSIZE; lia).
  replace (b / BPB) with (c / BPB) by lia. by rewrite E2.
Qed.

(** Setting the mark of block [b] to [v]. *)
Lemma used_mark sp size d b (v : bool) f x :
  layout sp size -> blocks_ok d -> 0 <= b < sb_size sp -> 0 <= x < sb_size sp ->
  (forall y, f y = if v then Z.lor y (Z.shiftl 1 (b mod BPB mod 8))
                   else Z.land y (Z.lnot (Z.shiftl 1 (b mod BPB mod 8)))) ->
  used sp (upd d (BBLOCK b sp) (upd_byte (d (BBLOCK b sp)) (b mod BPB / 8) f)) x =
    if decide (x = b) then v else used sp d x.
Proof.
  intros L Hd Hb Hx Hf. unfold used.
  pose proof (Z.mod_pos_bound b BPB ltac:(unfold BPB, BSIZE; lia)) as Hbm.
  pose proof (Z.mod_pos_bound x BPB ltac:(unfold BPB, BSIZE; lia)) as Hxm.
  destruct (decide (BBLOCK x sp = BBLOCK b sp)) as [E|E].
  - rewrite E, upd_eq, (bit_upd v); [|lia| |lia|done].
    + destruct (decide (x mod BPB = b mod BPB)) as [Em|Em].
      * rewrite decide_True; [done|]. by apply (BBLOCK_inj sp size).
      * rewrite decide_False; [done|]. by intros ->.
    + rewrite Hd. unfold BPB, BSIZE in *.
      assert (0 <= b mod (512 * 8) / 8 < 512); [|lia].
      split; [apply Z.div_pos; lia|apply Z.div_lt_upper_bound; lia].
  - rewrite upd_ne by done. rewrite decide_False; [done|]. by intros ->.
Qed.

(** ** Allocation *)

(** [d'] is [d] with block [b], free before, allocated and zeroed. *)
Record allocated (sp : superblock) (d : Z -> block) (b : Z) (d' : Z -> block) : Prop := {
  al_range : datastart sp <= b < sb_size sp;
  al_free : used sp d b = false;
  al_used x : 0 <= x < sb_size sp -> used sp d' x = if decide (x = b) then true else used sp d x;
  al_zero : d' b = replicate (Z.to_nat BSIZE) 0;
  al_frame x : x <> b -> ~ is_bmap sp x -> d' x = d x;
  al_blocks : blocks_ok d';
}.

Lemma blocks_upd d b v : blocks_ok d -> length v = Z.to_nat BSIZE -> blocks_ok (upd d b v).
Proof. intros Hd Hv x. unfold upd. by destruct (decide _). Qed.

Lemma balloc_mark sp size d b :
  layout sp size -> blocks_ok d -> reserved_used sp d -> 0 <= b < sb_size sp -> used sp d b = false ->
  allocated sp d b
    (upd (upd d (BBLOCK b sp) (upd_byte (d (BBLOCK b sp)) (b mod BPB / 8)
           (fun x => Z.lor x (Z.shiftl 1 (b mod BPB mod 8))))) b (replicate (Z.to_nat BSIZE) 0)).
Proof.
  intros L Hd Hr Hb Hu.
  assert (Hds : datastart sp <= b).
  { apply Z.nlt_ge. intros Hlt. rewrite Hr in Hu by lia. done. }
  assert (HB : forall x, 0 <= x < sb_size sp -> BBLOCK x sp <> b).
  { intros x Hx E. pose proof (BBLOCK_bmap sp size x L Hx) as [_ H]. lia. }
  split; [lia|done| |apply upd_eq| |].
  - intros x Hx. rewrite <- (used_mark sp size d b true _ x L Hd Hb Hx (fun _ => eq_refl)).
    unfold used. by rewrite (upd_ne _ b) by (by apply HB).
  - intros x Hx Hnb. rewrite !upd_ne; [done| |done]. intros ->. apply Hnb. by apply (BBLOCK_bmap sp size).
  - apply blocks_upd; [|by rewrite length_replicate]. apply blocks_upd; [done|].
    by rewrite length_upd_byte.
Qed.

Lemma mod_BPB_add t bi : 0 <= bi < BPB -> (t * BPB + bi) mod BPB = bi.
Proof. intros. rewrite Z.add_comm, Z_mod_plus_full. by apply Z.mod_small. Qed.

Lemma div_BPB_add t bi : 0 <= bi < BPB -> (t * BPB + bi) / BPB = t.
Proof. intros. rewrite Z.div_add_l by (unfold BPB, BSIZE; lia). rewrite Z.div_small by done. lia. Qed.

(** The loop over the bitmap blocks, from block [t]. *)
Lemma balloc_loop_spec fuel : forall t s,
  layout (sb s) (fssize s) -> blocks_ok (fsdisk s) -> reserved_used (sb s) (fsdisk s) -> 0 <= t ->
  (sb_size (sb s) / BPB + 2 - t <= Z.of_nat fuel)%Z -> (0 < fuel)%nat ->
  (forall x, 0 <= x < t * BPB -> x < sb_size (sb s) -> used (sb s) (fsdisk s) x = true) ->
  (exists b d', balloc_loop fuel ROOTDEV (t * BPB) s = Ret b (set_disk d' s) /\
     allocated (sb s) (fsdisk s) b d' /\
     forall x, 0 <= x < b -> used (sb s) (fsdisk s) x = true) \/
  (balloc_loop fuel ROOTDEV (t * BPB) s = Panic "balloc: out of blocks" /\
   forall x, 0 <= x < sb_size (sb s) -> used (sb s) (fsdisk s) x = true).
Proof.
  induction fuel as [|fuel IH]; intros t s L Hd Hr Ht Hf Hf0 Hlow; [lia|].
  cbn [balloc_loop]. rewrite bind_gets. set (sp := sb s) in *. set (d := fsdisk s) in *.
  assert (HBP : 0 < BPB) by (unfold BPB, BSIZE; lia).
  destruct (Z.ltb_spec (t * BPB) (sb_size sp)) as [Hlt|Hge].
  2: { right. split; [done|]. intros x Hx. apply Hlow; lia. }
  assert (Hin : 0 <= t * BPB < sb_size sp) by nia.
  pose proof (BBLOCK_bmap sp _ _ L Hin) as Hbm. 
  pose proof (ly_size _ _ L) as Lsz. pose proof (ly_data _ _ L) as Lda.
  rewrite bind_readb by (destruct Hbm; lia). fold d.
  assert (HBB : forall bi, 0 <= bi < BPB -> t * BPB + bi < sb_size sp ->
    BBLOCK (t * BPB + bi) sp = BBLOCK (t * BPB) sp).
  { intros bi Hbi Hs. rewrite !(BBLOCK_eq sp (fssize s)) by (done || lia).
    rewrite div_BPB_add by done. rewrite <- (Z.add_0_r (t * BPB)), div_BPB_add by lia. done. }
  destruct (find_clear _ _ _ _ _) as [bi|] eqn:E.
  - apply find_clear_Some in E as (E1&E2&E3&E4). rewrite Z2Nat.id in E1 by lia.
    assert (Hbi : 0 <= bi < BPB) by lia. set (b := t * BPB + bi) in *.
    assert (Hmod : b mod BPB = bi) by by apply mod_BPB_add.
    assert (Hu : used sp d b = false).
    { unfold used. rewrite Hmod. unfold b. by rewrite HBB. }
    pose proof (balloc_mark sp (fssize s) d b L Hd Hr ltac:(lia) Hu) as Hal.
    rewrite Hmod in Hal. unfold b in Hal at 2 3. rewrite HBB in Hal by done. fold b in Hal.
    left. exists b. eexists. split; [|split; [exact Hal|]].
    + rewrite bind_logb. unfold bzero. rewrite bind_bind, bind_readb by (cbn [fssize set_disk]; lia).
      reflexivity.
    + intros x Hx. destruct (Z.lt_ge_cases x (t * BPB)); [apply Hlow; lia|].
      unfold used. replace x with (t * BPB + (x - t * BPB)) by lia.
      rewrite mod_BPB_add by lia. rewrite HBB by lia. apply E4. lia.
  - replace (t * BPB + BPB) with ((t + 1) * BPB) by lia.
    pose proof (find_clear_None _ _ _ _ _ E) as HN. rewrite Z2Nat.id in HN by lia.
    apply IH; try done; [lia|fold sp; lia| |].
    + assert (t <= sb_size sp / BPB); [|lia]. apply Z.div_le_lower_bound; lia.
    + intros x Hx Hxs. fold sp in Hxs. fold sp d. destruct (Z.lt_ge_cases x (t * BPB)); [apply Hlow; lia|].
      unfold used. replace x with (t * BPB + (x - t * BPB)) by lia.
      rewrite mod_BPB_add by lia. rewrite HBB by lia. apply HN; lia.
Qed.

(** What the file system needs of the disk. *)
Record fs_ok (s : fs) : Prop := {
  fk_layout : layout (sb s) (fssize s);
  fk_blocks : blocks_ok (fsdisk s);
  fk_reserved : reserved_used (sb s) (fsdisk s);
}.

Lemma balloc_spec s :
  fs_ok s ->
  (exists b d', balloc ROOTDEV s = Ret b (set_disk d' s) /\
     allocated (sb s) (fsdisk s) b d' /\
     forall x, 0 <= x < b -> used (sb s) (fsdisk s) x = true) \/
  (balloc ROOTDEV s = Panic "balloc: out of blocks" /\
   forall x, 0 <= x < sb_size (sb s) -> used (sb s) (fsdisk s) x = true).
Proof.
  intros [L Hd Hr]. unfold balloc. rewrite bind_gets.
  assert (0 <= sb_size (sb s) / BPB) by (apply Z.div_pos; [destruct L; lia|reflexivity]).
  apply (balloc_loop_spec _ 0); try done; lia.
Qed.

Lemma allocated_ok s b d' : fs_ok s -> allocated (sb s) (fsdisk s) b d' -> fs_ok (set_disk d' s).
Proof.
  intros [L Hd Hr] [A1 A2 A3 A4 A5 A6]. split; [done|done|]. intros x Hx. cbn in Hx |- *.
  rewrite A3 by (destruct L; lia). destruct (decide (x = b)); [done|]. by apply Hr.
Qed.

(** ** Release *)

(** [d'] is [d] with block [b], in use before, marked free. *)
Record freed (sp : superblock) (d : Z -> block) (b : Z) (d' : Z -> block) : Prop := {
  fr_used x : 0 <= x < sb_size sp -> used sp d' x = if decide (x = b) then false else used sp d x;
  fr_frame x : ~ is_bmap sp x -> d' x = d x;
  fr_blocks : blocks_ok d';
}.

Lemma bfree_spec s b :
  fs_ok s -> 0 <= b < sb_size (sb s) -> used (sb s) (fsdisk s) b = true ->
  exists d', bfree ROOTDEV b s = Ret tt (set_disk d' s) /\ freed (sb s) (fsdisk s) b d'.
Proof.
  intros [L Hd Hr] Hb Hu. pose proof (BBLOCK_bmap _ _ _ L Hb) as Hbm. destruct Hbm as [Hb1 Hb2].
  unfold bfree. rewrite bind_gets, bind_readb by (destruct L; lia). cbn zeta.
  unfold used in Hu. rewrite Hu. cbn [negb]. eexists. split; [apply run_logb|]. split.
  - intros x Hx. by apply (used_mark _ (fssize s) _ b false).
  - intros x Hx. apply upd_ne. intros ->. apply Hx. by split.
  - apply blocks_upd; [done|]. by rewrite length_upd_byte.
Qed.

Lemma freed_ok s b d' :
  fs_ok s -> datastart (sb s) <= b -> freed (sb s) (fsdisk s) b d' -> fs_ok (set_disk d' s).
Proof.
  intros [L Hd Hr] Hb [F1 F2 F3]. split; [done|done|]. intros x Hx. cbn in Hx |- *.
  rewrite F1 by (destruct L; lia). rewrite decide_False by lia. by apply Hr.
Qed.

(** ** Theorems *)

(** [balloc] on a well-formed disk returns the lowest block not in use,
    which is a data block; it marks exactly that block in use, zeroes it, and
    changes no other block outside the bitmap.  It panics exactly when every
    block is in use. *)
Theorem balloc_lowest s :
  fs_ok s ->
  match balloc ROOTDEV s with
  | Ret b s' =>
      exists d', s' = set_disk d' s /\ allocated (sb s) (fsdisk s) b d' /\ fs_ok s' /\
        forall x, 0 <= x < b -> used (sb s) (fsdisk s) x = true
  | Panic _ => forall x, 0 <= x < sb_size (sb s) -> used (sb s) (fsdisk s) x = true
  | _ => False
  end.
Proof.
  intros Hs. destruct (balloc_spec s Hs) as [(b&d'&E&Hal&Hlow)|[E Hall]]; rewrite E; [|done].
  exists d'. split; [done|]. split; [done|]. split; [by apply (allocated_ok s b)|done].
Qed.

(** [balloc] then [bfree] of the block it returned restores every mark of the
    bitmap: no block is leaked or freed twice. *)
Theorem balloc_bfree s b s1 :
  fs_ok s -> balloc ROOTDEV s = Ret b s1 ->
  exists s2, bfree ROOTDEV b s1 = Ret tt s2 /\ fs_ok s2 /\
    (forall x, 0 <= x < sb_size (sb s) -> used (sb s) (fsdisk s2) x = used (sb s) (fsdisk s) x) /\
    (forall x, x <> b -> ~ is_bmap (sb s) x -> fsdisk s2 x = fsdisk s x).
Proof.
  intros Hs Hrun. destruct (balloc_spec s Hs) as [(b'&d'&E&Hal&_)|[E _]]; [|congruence].
  rewrite Hrun in E. injection E as <- ->. pose proof (allocated_ok _ _ _ Hs Hal) as Hs1.
  destruct Hal as [A1 A2 A3 A4 A5 A6].
  assert (Hb : 0 <= b < sb_size (sb s)).
  { pose proof (datastart_pos _ _ (fk_layout _ Hs)). lia. }
  destruct (bfree_spec _ b Hs1 Hb) as (d2&E2&HF).
  { cbn. rewrite A3 by done. by rewrite decide_True. }
  exists (set_disk d2 (set_disk d' s)). split; [done|]. split; [by apply (freed_ok _ b); [|cbn; lia|]|].
  destruct HF as [F1 F2 F3]. cbn in F1, F2. cbn. split.
  - intros x Hx. rewrite F1, A3 by done. by destruct (decide (x = b)) as [->|].
  - intros x Hx Hn. rewrite F2 by done. by apply A5.
Qed.

(** ** Instances of the theorems *)

(** A disk of 100 blocks: inodes in blocks 2 and 3, the bitmap in block 4. *)
Definition small_sb : superblock := Superblock 100 95 8 0 2 2 4.
Definition small_disk (b : Z) : block :=
  if b =? 4 then 31 :: replicate 511 0 else replicate 512 0.
Definition small_fs : fs := Fs small_disk 100 small_sb (replicate 50 inode0) 0 1.

Lemma small_layout : layout small_sb 100.
Proof. split; vm_compute; done. Qed.

Lemma small_fs_ok : fs_ok small_fs.
Proof.
  split; [exact small_layout| |].
  - intros b. cbn. unfold small_disk. by destruct (b =? 4).
  - intros b Hb. change (0 <= b < 5) in Hb. cbn [sb small_fs fsdisk].
    assert (b = 0 \/ b = 1 \/ b = 2 \/ b = 3 \/ b = 4) as Hc by lia.
    destruct Hc as [->|[->|[->|[->| ->]]]]; vm_compute; reflexivity.
Qed.

Lemma balloc_lowest_witness :
  exists s', balloc ROOTDEV small_fs = Ret 5 s' /\ fs_ok s'.
Proof.
  pose proof (balloc_lowest small_fs small_fs_ok) as H.
  destruct (balloc ROOTDEV small_fs) as [b s'| | |] eqn:E; try (vm_compute in E; discriminate).
  assert (Eb : b = 5) by (vm_compute in E; injection E; intros; subst; reflexivity).
  exists s'. destruct H as (d'&_&_&H&_). split; [by rewrite Eb|exact H].
Defined.

Lemma balloc_bfree_witness :
  exists s1 s2, balloc ROOTDEV small_fs = Ret 5 s1 /\ bfree ROOTDEV 5 s1 = Ret tt s2 /\ fs_ok s2.
Proof.
  destruct (balloc ROOTDEV small_fs) as [b s1| | |] eqn:E; try (vm_compute in E; discriminate).
  assert (Eb : b = 5) by (vm_compute in E; injection E; intros; subst; reflexivity). subst b.
  destruct (balloc_bfree small_fs 5 s1 small_fs_ok E) as (s2&H1&H2&_).
  exists s1, s2. split; [done|]. split; [exact H1|exact H2].
Defined.
