(* ===== verification/FsFiles.v ===== *)
(** Contents of files: [bmap], [readi], [writei] and [itrunc] of fs.c against a
    file as a sequence of bytes.  A file's blocks are data blocks in use, each
    for one position of one file; reading gives the bytes of the file, writing
    replaces exactly the bytes given and may add blocks that were free, and no
    other file changes. *)

From S2P Require Import Prelude Bio CString Fs FsBlocks.

(** ** State with one file in focus *)

(** [s] with disk [d] and the cached copy of inode [ip] replaced by [di]. *)
Definition file_state (s : fs) (ip : nat) (d : Z -> block) (di : dinode) : fs :=
  set_disk d (upd_inode ip (fun i => set_di (i_valid i) di i) s).

Section focus.
Context (s : fs) (ip : nat).
Hypothesis Hip : (ip < length (icache s))%nat.

Lemma state_inode d di : inodeat (file_state s ip d di) ip = set_di (i_valid (inodeat s ip)) di (inodeat s ip).
Proof using Hip.
  unfold inodeat at 1. cbn. rewrite nth_lookup, list_lookup_insert_eq by done. done.
Qed.

Lemma state_id : file_state s ip (fsdisk s) (i_di (inodeat s ip)) = s.
Proof using Hip.
  unfold file_state, upd_inode, set_icache, set_disk. destruct s as [d sz sp ic c p]. cbn in *. f_equal.
  apply list_insert_id. unfold inodeat. cbn. rewrite (lookup_total_lt inode0) by done.
  by destruct (nth ip ic inode0).
Qed.

Lemma run_modd d di f :
  modd ip f (file_state s ip d di) = Ret tt (file_state s ip d (f di)).
Proof using Hip.
  unfold modd, modi, modify. f_equal.
  unfold upd_inode at 1. rewrite state_inode. cbn [set_di i_valid i_di i_dev i_inum i_ref i_lock].
  unfold file_state, upd_inode, set_icache, set_disk. cbn. f_equal. apply list_insert_insert_eq.
Qed.

Lemma bind_modd {B} d di f (k : unit -> kern fs B) :
  (modd ip f ≫= k) (file_state s ip d di) = k tt (file_state s ip d (f di)).
Proof using Hip. by rewrite (bind_Ret _ _ _ _ _ (run_modd d di f)). Qed.

Lemma bind_geti {B} d di (k : inode -> kern fs B) :
  (geti ip ≫= k) (file_state s ip d di) =
    k (set_di (i_valid (inodeat s ip)) di (inodeat s ip)) (file_state s ip d di).
Proof using Hip. unfold geti. rewrite bind_gets. by rewrite state_inode. Qed.

End focus.

(** ** Blocks of a file *)

Definition indirect (di : dinode) : Z := nth 12 (d_addrs di) 0.

(** The disk block of block [k] of the file; 0 if there is none. *)
Definition fblock (d : Z -> block) (di : dinode) (k : Z) : Z :=
  if k <? NDIRECT then nth (Z.to_nat k) (d_addrs di) 0
  else if indirect di =? 0 then 0
  else get32 (d (indirect di)) (Z.to_nat (4 * (k - NDIRECT))).

Definition owns (d : Z -> block) (di : dinode) (b : Z) : Prop :=
  b <> 0 /\ (b = indirect di \/ exists k, 0 <= k < MAXFILE /\ b = fblock d di k).

Record blocks_wf (sp : superblock) (d : Z -> block) (di : dinode) : Prop := {
  bw_len : length (d_addrs di) = 13%nat;
  bw_owns b : owns d di b -> datastart sp <= b < sb_size sp /\ used sp d b = true;
  bw_inj j k : 0 <= j < MAXFILE -> 0 <= k < MAXFILE -> fblock d di j <> 0 ->
    fblock d di j = fblock d di k -> j = k;
  bw_ind k : 0 <= k < MAXFILE -> fblock d di k <> 0 -> fblock d di k <> indirect di;
}.

(** Byte [x] of the file. *)
Definition fbyte (d : Z -> block) (di : dinode) (x : Z) : Z :=
  nth (Z.to_nat (x mod BSIZE)) (d (fblock d di (x / BSIZE))) 0.

Definition same_meta (di di' : dinode) : Prop :=
  d_type di' = d_type di /\ d_major di' = d_major di /\ d_minor di' = d_minor di /\
  d_nlink di' = d_nlink di /\ d_size di' = d_size di.

(** The file [di] on [d] became [di'] on [d']: blocks may have been added, the
    bytes [W] written, and nothing else changed. *)
Record extends (sp : superblock) (W : Z -> option Z) (d : Z -> block) (di : dinode)
    (d' : Z -> block) (di' : dinode) : Prop := {
  ex_wf : blocks_wf sp d' di';
  ex_blocks : blocks_ok d';
  ex_meta : same_meta di di';
  ex_keep k : 0 <= k < MAXFILE -> fblock d di k <> 0 -> fblock d' di' k = fblock d di k;
  ex_byte x : 0 <= x < MAXFILE * BSIZE -> fblock d di (x / BSIZE) <> 0 \/ is_Some (W x) ->
    fbyte d' di' x = default (fbyte d di x) (W x);
  ex_frame x : used sp d x = true -> 0 <= x < sb_size sp -> ~ owns d di x -> ~ is_bmap sp x -> d' x = d x;
  ex_mono x : owns d di x -> owns d' di' x;
  ex_own x : owns d' di' x -> owns d di x \/ used sp d x = false;
  ex_used x : 0 <= x < sb_size sp -> used sp d' x = true <-> used sp d x = true \/ owns d' di' x;
}.

Lemma same_meta_trans a b c : same_meta a b -> same_meta b c -> same_meta a c.
Proof. unfold same_meta. intuition congruence. Qed.

Lemma div_block x : 0 <= x < MAXFILE * BSIZE -> 0 <= x / BSIZE < MAXFILE.
Proof.
  intros Hx. split; [apply Z.div_pos; [lia|reflexivity]|].
  apply Z.div_lt_upper_bound; [reflexivity|lia].
Qed.

(** Later writes win. *)
Definition over (W2 W1 : Z -> option Z) (x : Z) : option Z :=
  match W2 x with Some c => Some c | None => W1 x end.

Lemma extends_trans sp W1 W2 d di d1 di1 d2 di2 :
  0 < datastart sp -> (forall x, is_Some (W1 x) -> fblock d1 di1 (x / BSIZE) <> 0) ->
  extends sp W1 d di d1 di1 -> extends sp W2 d1 di1 d2 di2 ->
  extends sp (over W2 W1) d di d2 di2.
Proof.
  intros Hds HW [A1 A2 A3 A4 A5 A6 A6' A7 A8] [B1 B2 B3 B4 B5 B6 B6' B7 B8]. split; [done|done|..].
  - by eapply same_meta_trans.
  - intros k Hk Hnz. rewrite B4; [by apply A4|done|]. by rewrite A4.
  - intros x Hx Hc. unfold over in *. destruct (W2 x) as [c|] eqn:E.
    + by rewrite B5, E by (done || right; by rewrite E).
    + assert (Hnz : fblock d1 di1 (x / BSIZE) <> 0).
      { destruct Hc as [Hc|Hc]; [|by apply HW]. rewrite A4; [done|by apply div_block|done]. }
      rewrite B5 by auto. rewrite E. cbn. by apply A5.
  - intros x Hu Hx Ho Hb. rewrite B6; [by apply A6| |done| |done].
    + apply A8; [done|by left].
    + intros [?|?]%A7; congruence.
  - auto.
  - intros x Hx. destruct (bw_owns _ _ _ B1 x Hx) as [Hr _]. apply B7 in Hx as [Hx|Hx]; [by apply A7|].
    right. destruct (used sp d x) eqn:E; [|done].
    assert (used sp d1 x = true) by (apply A8; [lia|by left]). congruence.
  - intros x Hx. rewrite B8, A8 by done. naive_solver.
Qed.

Lemma extends_refl sp d di : blocks_wf sp d di -> blocks_ok d -> extends sp (fun _ => None) d di d di.
Proof.
  intros Hw Hb. split; [done|done|done|done|done|done|done|by left|].
  intros x Hx. split; [by left|]. intros [?|Ho]; [done|]. by apply (bw_owns _ _ _ Hw).
Qed.

Lemma extends_weaken sp W W' d di d' di' :
  (forall x, 0 <= x < MAXFILE * BSIZE -> W' x = W x) ->
  extends sp W d di d' di' -> extends sp W' d di d' di'.
Proof.
  intros HW [A1 A2 A3 A4 A5 A6 A6' A7 A8]. split; try done.
  intros x Hx. rewrite (HW x Hx). by apply A5.
Qed.

(** ** Adding a block *)

(** The direct or indirect entry for block [k] set to a fresh block. *)
Record plugged (d : Z -> block) (di : dinode) (k a : Z) (d' : Z -> block) (di' : dinode) : Prop := {
  pl_meta : same_meta di di';
  pl_len : length (d_addrs di') = length (d_addrs di);
  pl_new : fblock d' di' k = a;
  pl_other j : 0 <= j < MAXFILE -> j <> k -> fblock d' di' j = fblock d di j;
  pl_ind : indirect di' = indirect di;
}.

Lemma plug_extends sp size d di k a d1 d' di' :
  layout sp size -> blocks_ok d -> blocks_wf sp d di -> 0 <= k < MAXFILE -> fblock d di k = 0 ->
  allocated sp d a d1 -> plugged d di k a d' di' -> blocks_ok d' ->
  (forall x, x = 0 \/ x <> indirect di -> d' x = d1 x) ->
  (forall x, 0 <= x < sb_size sp -> used sp d' x = used sp d1 x) ->
  extends sp (fun _ => None) d di d' di'.
Proof.
  intros L Hbk Hw Hk H0 [A1 A2 A3 A4 A5 A6] [P1 P2 P3 P4 P5] Hbk' Hd' Hu'.
  destruct (datastart_pos _ _ L) as [HL1 HL2].
  assert (Hno : ~ owns d di a).
  { intros Ho. destruct (bw_owns _ _ _ Hw a Ho) as [_ Hu]. congruence. }
  assert (Hown : forall x, owns d' di' x <-> owns d di x \/ x = a).
  { intros x. split.
    - intros (Hnz&[->|(j&Hj&->)]).
      + left. split; [done|]. left. by rewrite P5.
      + destruct (decide (j = k)) as [->|Hne]; [by right; rewrite P3|]. left.
        split; [done|]. right. exists j. split; [done|]. by apply P4.
    - intros [(Hnz&[->|(j&Hj&->)])| ->].
      + split; [done|]. left. by rewrite P5.
      + split; [done|]. right. exists j. split; [done|]. symmetry. apply P4; [done|]. by intros ->.
      + split; [lia|]. right. by exists k. }
  assert (Hnb : forall x, owns d di x -> ~ is_bmap sp x).
  { intros x Ho [_ Hx]. destruct (bw_owns _ _ _ Hw x Ho). lia. }
  assert (Hnew : forall j, 0 <= j < MAXFILE -> fblock d di j <> 0 -> fblock d di j <> a).
  { intros j Hj Hnz E. apply Hno. rewrite <- E. split; [done|]. right. by exists j. }
  assert (Hui : forall x, 0 <= x < sb_size sp -> used sp d' x = true <-> used sp d x = true \/ x = a).
  { intros x Hx. rewrite Hu', A3 by done. destruct (decide (x = a)); naive_solver. }
  split; [split| | | | | | | |].
  - by rewrite P2; apply Hw.
  - intros b Hb%Hown. destruct Hb as [Hb| ->].
    + destruct (bw_owns _ _ _ Hw b Hb) as [Hr Hu]. split; [done|]. apply Hui; [lia|by left].
    + split; [done|]. apply Hui; [lia|by right].
  - intros j l Hj Hl Hnz E. destruct (decide (j = k)) as [->|Hjk], (decide (l = k)) as [->|Hlk]; [done|..].
    + rewrite P3, P4 in E by done. destruct (decide (fblock d di l = 0)) as [Hz|Hz]; [lia|].
      by destruct (Hnew l Hl Hz).
    + rewrite P3, P4 in E by done. rewrite P4 in Hnz by done. by destruct (Hnew j Hj Hnz).
    + rewrite !P4 in * by done. by apply (bw_inj _ _ _ Hw).
  - intros j Hj Hnz. rewrite P5. destruct (decide (j = k)) as [->|Hjk].
    + rewrite P3. intros E. apply Hno. split; [lia|by left].
    + rewrite P4 in * by done. by apply (bw_ind _ _ _ Hw).
  - done.
  - done.
  - intros j Hj Hnz. apply P4; [done|]. by intros ->.
  - intros x Hx [Hnz|[? ?]]; [|done]. cbn. pose proof (div_block x Hx) as Hxb. unfold fbyte.
    rewrite P4 by (done || intros E; rewrite E in Hnz; done). rewrite Hd'.
    + rewrite A5; [done|by apply Hnew|]. apply Hnb. split; [done|]. right. by exists (x / BSIZE).
    + right. by apply (bw_ind _ _ _ Hw).
  - intros x Hu Hx Ho Hb. rewrite Hd', A5; [done| |done|].
    + intros ->. congruence.
    + destruct (decide (x = 0)) as [->|Hx0]; [by left|]. right. intros ->. apply Ho.
      split; [done|by left].
  - intros x Hx. apply Hown. by left.
  - intros x [?| ->]%Hown; [by left|by right].
  - intros x Hx. rewrite Hui, Hown by done. split; [naive_solver|].
    intros [?|[Ho|?]]; [by left| |by right]. left. by apply (bw_owns _ _ _ Hw).
Qed.

Lemma get32_zero n o : get32 (replicate n 0) o = 0.
Proof.
  assert (Hz : forall k, nth k (replicate n 0) 0 = 0).
  { intros k. rewrite nth_lookup. destruct (replicate n 0 !! k) eqn:E; [|done].
    by apply lookup_replicate in E as [-> _]. }
  unfold get32. by rewrite !Hz.
Qed.

Lemma set_addr_nth k a di j :
  (k < length (d_addrs di))%nat ->
  nth j (d_addrs (set_addr k a di)) 0 = if decide (j = k) then a else nth j (d_addrs di) 0.
Proof.
  intros Hk. cbn. rewrite !nth_lookup. destruct (decide (j = k)) as [->|Hne].
  - by rewrite list_lookup_insert_eq.
  - by rewrite list_lookup_insert_ne.
Qed.

Lemma set_addr_meta k a di : same_meta di (set_addr k a di).
Proof. done. Qed.

(** A new, empty indirect block. *)
Lemma indirect_extends sp size d di a d1 :
  layout sp size -> blocks_wf sp d di -> indirect di = 0 -> allocated sp d a d1 ->
  extends sp (fun _ => None) d di d1 (set_addr 12 a di) /\ indirect (set_addr 12 a di) = a.
Proof.
  intros L Hw H0 [A1 A2 A3 A4 A5 A6]. destruct (datastart_pos _ _ L) as [HL1 HL2].
  pose proof (bw_len _ _ _ Hw) as Hlen.
  assert (Hi : indirect (set_addr 12 a di) = a).
  { unfold indirect. rewrite set_addr_nth by lia. done. }
  assert (Hfb : forall k, 0 <= k < MAXFILE -> fblock d1 (set_addr 12 a di) k = fblock d di k).
  { intros k Hk. unfold fblock. rewrite H0, Hi. change (0 =? 0) with true.
    destruct (Z.ltb_spec k NDIRECT) as [Hlt|Hge].
    - unfold NDIRECT in Hlt. rewrite set_addr_nth by lia. by rewrite decide_False by lia.
    - rewrite (proj2 (Z.eqb_neq a 0)) by lia. by rewrite A4, get32_zero. }
  assert (Hno : ~ owns d di a).
  { intros Ho. destruct (bw_owns _ _ _ Hw a Ho) as [_ Hu]. congruence. }
  assert (Hown : forall x, owns d1 (set_addr 12 a di) x <-> owns d di x \/ x = a).
  { intros x. unfold owns. rewrite Hi, H0. split.
    - intros (Hnz&[->|(j&Hj&->)]); [by right|]. left. split; [done|]. right. exists j.
      split; [done|by apply Hfb].
    - intros [(Hnz&[->|(j&Hj&->)])| ->]; [done| |split; [lia|by left]].
      split; [done|]. right. exists j. split; [done|]. by rewrite Hfb. }
  assert (Hui : forall x, 0 <= x < sb_size sp -> used sp d1 x = true <-> used sp d x = true \/ x = a).
  { intros x Hx. rewrite A3 by done. destruct (decide (x = a)); naive_solver. }
  assert (Hfa : forall k, 0 <= k < MAXFILE -> fblock d di k <> 0 -> fblock d di k <> a).
  { intros k Hk Hnz E. apply Hno. rewrite <- E. split; [done|]. right. by exists k. }
  split; [|done]. split; [split| | | | | | | |].
  - cbn. by rewrite length_insert.
  - intros b Hb%Hown. destruct Hb as [Hb| ->].
    + destruct (bw_owns _ _ _ Hw b Hb) as [Hr Hu]. split; [done|]. apply Hui; [lia|by left].
    + split; [done|]. apply Hui; [lia|by right].
  - intros j l Hj Hl. rewrite !Hfb by done. by apply (bw_inj _ _ _ Hw).
  - intros j Hj. rewrite Hfb, Hi by done. by apply Hfa.
  - done.
  - done.
  - intros k Hk _. by apply Hfb.
  - intros x Hx [Hnz|[? ?]]; [|done]. cbn. pose proof (div_block x Hx) as Hxb. unfold fbyte.
    rewrite Hfb by done. rewrite A5; [done|by apply Hfa|].
    intros [_ Hb]. destruct (bw_owns _ _ _ Hw (fblock d di (x / BSIZE))); [|lia].
    split; [done|]. right. by exists (x / BSIZE).
  - intros x Hu Hx Ho Hb. apply A5; [|done]. intros ->. congruence.
  - intros x Hx. apply Hown. by left.
  - intros x [?| ->]%Hown; [by left|by right].
  - intros x Hx. rewrite Hui, Hown by done. split; [naive_solver|].
    intros [?|[Ho|?]]; [by left| |by right]. left. by apply (bw_owns _ _ _ Hw).
Qed.

(** ** bmap *)

Lemma bmap_hit s ip d di bn :
  (ip < length (icache s))%nat -> i_dev (inodeat s ip) = ROOTDEV -> sb_size (sb s) <= fssize s ->
  blocks_wf (sb s) d di -> 0 <= bn < MAXFILE -> fblock d di bn <> 0 ->
  bmap ip bn (file_state s ip d di) = Ret (fblock d di bn) (file_state s ip d di).
Proof.
  intros Hip Hdev Hsz Hw Hbn Hnz. unfold bmap, fblock in *.
  destruct (Z.ltb_spec bn NDIRECT) as [Hlt|Hge].
  - rewrite bind_geti by done. unfold addr_of. cbn [i_di set_di].
    by rewrite (proj2 (Z.eqb_neq _ _) Hnz).
  - rewrite (proj2 (Z.ltb_lt _ _)) by (unfold MAXFILE in *; lia).
    rewrite bind_geti by done. unfold addr_of. cbn [i_di set_di i_dev].
    destruct (Z.eqb_spec (indirect di) 0) as [|Hi]; [done|].
    change (nth (Z.to_nat NDIRECT) (d_addrs di) 0) with (indirect di).
    rewrite (proj2 (Z.eqb_neq _ _) Hi), bind_mret, Hdev.
    rewrite bind_readb.
    + cbn [fsdisk file_state set_disk]. by rewrite (proj2 (Z.eqb_neq _ _) Hnz).
    + cbn. destruct (bw_owns _ _ _ Hw (indirect di)); [split; [done|by left]|lia].
Qed.

Lemma state_ok s ip d di :
  layout (sb s) (fssize s) -> blocks_ok d -> reserved_used (sb s) d -> fs_ok (file_state s ip d di).
Proof. by split. Qed.

Lemma extends_reserved sp size W d di d' di' :
  layout sp size -> extends sp W d di d' di' -> reserved_used sp d -> reserved_used sp d'.
Proof.
  intros L He Hr x Hx. apply (ex_used _ _ _ _ _ _ He); [destruct L; lia|]. left. by apply Hr.
Qed.

(** Plugging a direct block. *)
Lemma plug_direct d di k a d1 :
  length (d_addrs di) = 13%nat -> 0 <= k < NDIRECT ->
  (indirect di <> 0 -> d1 (indirect di) = d (indirect di)) ->
  plugged d di k a d1 (set_addr (Z.to_nat k) a di).
Proof.
  intros Hl Hk Hd. unfold NDIRECT in *.
  assert (Hi : indirect (set_addr (Z.to_nat k) a di) = indirect di).
  { unfold indirect. rewrite set_addr_nth by lia. by rewrite decide_False by lia. }
  split; [done|cbn; by rewrite length_insert| | |done].
  - unfold fblock, NDIRECT. rewrite (proj2 (Z.ltb_lt _ _)) by lia. rewrite set_addr_nth by lia.
    by rewrite decide_True.
  - intros j Hj Hne. unfold fblock, NDIRECT. rewrite Hi. destruct (Z.ltb_spec j 12).
    + rewrite set_addr_nth by lia. by rewrite decide_False by lia.
    + destruct (Z.eqb_spec (indirect di) 0); [done|]. by rewrite Hd.
Qed.

(** Plugging a block through the indirect block. *)
Lemma plug_indirect d di k a d1 :
  NDIRECT <= k < MAXFILE -> indirect di <> 0 -> is_u32 a ->
  length (d (indirect di)) = Z.to_nat BSIZE ->
  plugged d di k a
    (upd d1 (indirect di) (put32 (d (indirect di)) (Z.to_nat (4 * (k - NDIRECT))) a)) di.
Proof.
  intros Hk Hi Ha Hl. change (Z.to_nat BSIZE) with 512%nat in Hl.
  assert (Hoff : forall j, NDIRECT <= j < MAXFILE -> (Z.to_nat (4 * (j - NDIRECT)) + 4 <= 512)%nat).
  { intros j Hj. change MAXFILE with 140 in *. unfold NDIRECT in *. lia. }
  split; [done|done| | |done].
  - unfold fblock. rewrite (proj2 (Z.ltb_ge _ _)), (proj2 (Z.eqb_neq _ _) Hi) by lia.
    rewrite upd_eq, get32_put32_eq by (rewrite Hl; by apply Hoff). by apply u32_id.
  - intros j Hj Hne. unfold fblock. destruct (Z.ltb_spec j NDIRECT); [done|].
    rewrite (proj2 (Z.eqb_neq _ _) Hi). rewrite upd_eq.
    apply get32_put32_ne; [rewrite Hl; by apply Hoff|]. unfold NDIRECT in *. lia.
Qed.

(** What the operations on file [ip] need. *)
Record file_env (s : fs) (ip : nat) : Prop := {
  fe_ip : (ip < length (icache s))%nat;
  fe_dev : i_dev (inodeat s ip) = ROOTDEV;
  fe_layout : layout (sb s) (fssize s);
}.

Record disk_ok (sp : superblock) (d : Z -> block) (di : dinode) : Prop := {
  dk_blocks : blocks_ok d;
  dk_reserved : reserved_used sp d;
  dk_wf : blocks_wf sp d di;
}.

Lemma extends_ok sp size W d di d' di' :
  layout sp size -> disk_ok sp d di -> extends sp W d di d' di' -> disk_ok sp d' di'.
Proof.
  intros L [H1 H2 H3] He. split; [apply He| |apply He]. by eapply extends_reserved.
Qed.

(** One allocation for file [ip]. *)
Lemma balloc_state s ip d di :
  file_env s ip -> disk_ok (sb s) d di ->
  (exists a d1, balloc ROOTDEV (file_state s ip d di) = Ret a (file_state s ip d1 di) /\
     allocated (sb s) d a d1) \/
  balloc ROOTDEV (file_state s ip d di) = Panic "balloc: out of blocks".
Proof.
  intros [E1 E2 E3] [D1 D2 D3].
  destruct (balloc_spec (file_state s ip d di)) as [(a&d1&H&Hal&_)|[H _]];
    [by apply state_ok| |by right].
  left. exists a, d1. split; [exact H|exact Hal].
Qed.

Lemma bmap_direct s ip d di bn :
  file_env s ip -> disk_ok (sb s) d di -> 0 <= bn < NDIRECT -> fblock d di bn = 0 ->
  (exists a d' di', bmap ip bn (file_state s ip d di) = Ret a (file_state s ip d' di') /\
     extends (sb s) (fun _ => None) d di d' di' /\ fblock d' di' bn = a /\ a <> 0) \/
  bmap ip bn (file_state s ip d di) = Panic "balloc: out of blocks".
Proof.
  intros He Hd Hbn Hz. pose proof He as [Hip Hdev L]. pose proof Hd as [D1 D2 D3].
  destruct (datastart_pos _ _ L) as [HL1 HL2].
  unfold bmap. rewrite (proj2 (Z.ltb_lt _ _)) by lia. rewrite bind_geti by done.
  assert (Ea : nth (Z.to_nat bn) (d_addrs di) 0 = 0).
  { unfold fblock in Hz. by rewrite (proj2 (Z.ltb_lt _ _)) in Hz by lia. }
  unfold addr_of. cbn [i_di set_di i_dev]. rewrite Ea, Hdev. change (0 =? 0) with true. cbn [negb].
  destruct (balloc_state s ip d di He Hd) as [(a&d1&H&Hal)|H].
  - left. exists a, d1, (set_addr (Z.to_nat bn) a di).
    assert (Hpl : plugged d di bn a d1 (set_addr (Z.to_nat bn) a di)).
    { apply plug_direct; [apply D3|done|]. intros Hi.
      assert (Ho : owns d di (indirect di)) by (split; [done|by left]).
      destruct (bw_owns _ _ _ D3 _ Ho) as [Hr Hu]. apply (al_frame _ _ _ _ Hal).
      - intros E. pose proof (al_free _ _ _ _ Hal). congruence.
      - intros [_ ?]. lia. }
    split; [|split; [|split]].
    + rewrite (bind_Ret _ _ _ _ _ H), bind_modd by done. done.
    + apply (plug_extends _ (fssize s) d di bn a d1); try done.
      * unfold MAXFILE, NINDIRECT. change (BSIZE / 4) with 128. lia.
      * apply Hal.
    + apply Hpl.
    + destruct (al_range _ _ _ _ Hal). lia.
  - right. unfold mbind, kern_bind. by rewrite H.
Qed.

(** Through an indirect block that is there. *)
Lemma bmap_entry s ip d di bn :
  file_env s ip -> disk_ok (sb s) d di -> NDIRECT <= bn < MAXFILE ->
  indirect di <> 0 -> fblock d di bn = 0 ->
  let k := readb ROOTDEV (indirect di) ≫= (fun a =>
    let addr := get32 a (Z.to_nat (4 * (bn - NDIRECT))) in
    if addr =? 0 then
      addr ← balloc ROOTDEV;
      logb (indirect di) (put32 a (Z.to_nat (4 * (bn - NDIRECT))) addr) ;; mret addr
    else mret addr) in
  (exists a d', k (file_state s ip d di) = Ret a (file_state s ip d' di) /\
     extends (sb s) (fun _ => None) d di d' di /\ fblock d' di bn = a /\ a <> 0) \/
  k (file_state s ip d di) = Panic "balloc: out of blocks".
Proof.
  intros He Hd Hbn Hi Hz k. pose proof He as [Hip Hdev L]. pose proof Hd as [D1 D2 D3].
  destruct (datastart_pos _ _ L) as [HL1 HL2]. unfold k.
  assert (Ho : owns d di (indirect di)) by (split; [done|by left]).
  destruct (bw_owns _ _ _ D3 _ Ho) as [Hr Hu].
  rewrite bind_readb by (cbn; destruct L; lia). cbn [fsdisk file_state set_disk] in *.
  assert (Ea : get32 (d (indirect di)) (Z.to_nat (4 * (bn - NDIRECT))) = 0).
  { unfold fblock in Hz. rewrite (proj2 (Z.ltb_ge _ _)) in Hz by lia.
    by rewrite (proj2 (Z.eqb_neq _ _) Hi) in Hz. }
  cbn zeta. rewrite Ea. change (0 =? 0) with true. cbn [negb].
  destruct (balloc_state s ip d di He Hd) as [(a&d1&H&Hal)|H].
  - left. exists a. pose proof (al_range _ _ _ _ Hal) as Ha.
    assert (Hai : a <> indirect di).
    { intros E. pose proof (al_free _ _ _ _ Hal). congruence. }
    set (d' := upd d1 (indirect di) (put32 (d (indirect di)) (Z.to_nat (4 * (bn - NDIRECT))) a)).
    assert (Hpl : plugged d di bn a d' di).
    { apply plug_indirect; [done|done| |apply D1]. unfold is_u32. destruct L; lia. }
    exists d'. split; [|split; [|split]].
    + rewrite (bind_Ret _ _ _ _ _ H), bind_logb. reflexivity.
    + apply (plug_extends _ (fssize s) d di bn a d1); try done.
      * unfold NDIRECT in *. lia.
      * apply blocks_upd; [apply Hal|]. rewrite length_put32; [apply D1|].
        rewrite D1. change MAXFILE with 140 in *. change (Z.to_nat BSIZE) with 512%nat. unfold NDIRECT in *. lia.
      * intros x Hx. apply upd_ne. destruct Hx; lia.
      * intros x Hx. unfold used, d'. rewrite upd_ne; [done|]. intros E.
        destruct (BBLOCK_bmap _ _ _ L Hx). lia.
    + apply Hpl.
    + lia.
  - right. unfold mbind, kern_bind in *. by rewrite H.
Qed.

(** [bmap] maps every block position: the block already there, or a new one. *)
Lemma bmap_spec s ip d di bn :
  file_env s ip -> disk_ok (sb s) d di -> 0 <= bn < MAXFILE ->
  (exists a d' di', bmap ip bn (file_state s ip d di) = Ret a (file_state s ip d' di') /\
     extends (sb s) (fun _ => None) d di d' di' /\ fblock d' di' bn = a /\ a <> 0 /\
     (fblock d di bn <> 0 -> d' = d /\ di' = di)) \/
  bmap ip bn (file_state s ip d di) = Panic "balloc: out of blocks".
Proof.
  intros He Hd Hbn. pose proof He as [Hip Hdev L]. pose proof Hd as [D1 D2 D3].
  destruct (decide (fblock d di bn = 0)) as [Hz|Hnz].
  2: { left. exists (fblock d di bn), d, di. split; [|by auto using extends_refl].
       apply bmap_hit; try done. apply L. }
  destruct (Z.lt_ge_cases bn NDIRECT) as [Hlt|Hge].
  { destruct (bmap_direct s ip d di bn He Hd ltac:(lia) Hz) as [(a&d'&di'&H1&H2&H3&H4)|H];
      [left|by right]. exists a, d', di'. by split_and!. }
  unfold bmap. rewrite (proj2 (Z.ltb_ge _ _)) by lia.
  rewrite (proj2 (Z.ltb_lt _ _)) by (unfold MAXFILE in *; lia).
  rewrite bind_geti by done. unfold addr_of. cbn [i_di set_di i_dev]. rewrite Hdev.
  change (nth (Z.to_nat NDIRECT) (d_addrs di) 0) with (indirect di).
  destruct (Z.eqb_spec (indirect di) 0) as [Hi|Hi].
  - rewrite bind_bind. destruct (balloc_state s ip d di He Hd) as [(a&d1&H&Hal)|H].
    2: { right. unfold mbind at 1, kern_bind at 1. by rewrite H. }
    destruct (indirect_extends _ _ _ _ _ _ L D3 Hi Hal) as [Hex Hia].
    change (Z.to_nat NDIRECT) with 12%nat in *.
    set (di1 := set_addr 12 a di) in *. pose proof (extends_ok _ _ _ _ _ _ _ L Hd Hex) as Hd1.
    assert (Ha0 : a <> 0).
    { destruct (al_range _ _ _ _ Hal), (datastart_pos _ _ L). lia. }
    assert (Hz1 : fblock d1 di1 bn = 0).
    { destruct (decide (fblock d1 di1 bn = 0)) as [|Hnz]; [done|].
      unfold fblock in Hnz. rewrite (proj2 (Z.ltb_ge _ _)), Hia, (proj2 (Z.eqb_neq _ _) Ha0) in Hnz by lia.
      rewrite (al_zero _ _ _ _ Hal), get32_zero in Hnz. done. }
    rewrite (bind_Ret _ _ _ _ _ H), bind_bind, bind_modd, bind_mret by done. fold di1.
    destruct (bmap_entry s ip d1 di1 bn He Hd1) as [(a2&d'&H1&H2&H3&H4)|H1];
      [lia|by rewrite Hia|done| |].
    + left. exists a2, d', di1. rewrite Hia in H1. split; [exact H1|].
      split; [|by split_and!]. apply (extends_weaken _ (over (fun _ => None) (fun _ => None))); [done|].
      eapply extends_trans; [| |exact Hex|exact H2]; [destruct (datastart_pos _ _ L); lia|].
      by intros x [? ?].
    + right. rewrite Hia in H1. exact H1.
  - rewrite bind_mret.
    destruct (bmap_entry s ip d di bn He Hd) as [(a2&d'&H1&H2&H3&H4)|H1]; [lia|done|done| |].
    + left. exists a2, d', di. by split_and!.
    + by right.
Qed.
