(* ===== verification/FsIO.v ===== *)
(** [readi] and [writei] of fs.c against a file as a sequence of bytes, and
    [itrunc]. *)

From S2P Require Import Prelude Bio CString Fs FsBlocks FsFiles.

(** Bytes [off .. off+n-1] of the file. *)
Definition fbytes (d : Z -> block) (di : dinode) (off n : Z) : list Z :=
  (fun k => fbyte d di (off + Z.of_nat k)) <$> seq 0 (Z.to_nat n).

(** Every block below the size is there. *)
Definition no_holes (d : Z -> block) (di : dinode) : Prop :=
  0 <= d_size di <= MAXFILE * BSIZE /\
  forall k, 0 <= k -> k * BSIZE < d_size di -> fblock d di k <> 0.

Lemma length_fbytes d di off n : length (fbytes d di off n) = Z.to_nat n.
Proof. unfold fbytes. by rewrite length_fmap, length_seq. Qed.

Lemma fbytes_app d di off m n :
  0 <= m -> 0 <= n -> fbytes d di off (m + n) = fbytes d di off m ++ fbytes d di (off + m) n.
Proof.
  intros Hm Hn. unfold fbytes. rewrite Z2Nat.inj_add, seq_app, fmap_app by done. f_equal.
  rewrite <- (Nat.add_0_r (0 + Z.to_nat m)). rewrite <- fmap_add_seq, <- list_fmap_compose.
  apply list_fmap_ext. intros k x _. cbn. f_equal. lia.
Qed.

(** Position arithmetic within blocks. *)
Lemma div_mod_step off m :
  0 <= off -> 0 <= m <= BSIZE - off mod BSIZE -> 0 <= off mod BSIZE < BSIZE /\
  (forall k, 0 <= k < m -> (off + k) / BSIZE = off / BSIZE /\ (off + k) mod BSIZE = off mod BSIZE + k) /\
  (m = BSIZE - off mod BSIZE -> (off + m) mod BSIZE = 0).
Proof.
  intros Hoff Hm. assert (HB : 0 < BSIZE) by reflexivity.
  pose proof (Z.mod_pos_bound off BSIZE HB) as Hb. pose proof (Z.div_mod off BSIZE ltac:(lia)) as Hd.
  split; [done|]. split.
  - intros k Hk. split.
    + symmetry. apply (Z.div_unique _ _ _ (off mod BSIZE + k)); lia.
    + symmetry. apply (Z.mod_unique _ _ (off / BSIZE)); lia.
  - intros ->. symmetry. apply (Z.mod_unique _ _ (off / BSIZE + 1)); lia.
Qed.

Lemma block_slice (l : list Z) o m :
  (o + m <= length l)%nat -> take m (drop o l) = (fun k => nth (o + k) l 0) <$> seq 0 m.
Proof.
  intros Hl. apply list_eq_same_length with m.
  - by rewrite length_fmap, length_seq.
  - rewrite length_take, length_drop. lia.
  - intros k x y Hk. rewrite lookup_take_lt, lookup_drop, list_lookup_fmap, lookup_seq_lt by done.
    cbn. rewrite nth_lookup. intros ->. by intros [= <-].
Qed.

(** Part of a block is part of the file. *)
Lemma slice_fbytes d di off m :
  blocks_ok d -> 0 <= off -> 0 <= m <= BSIZE - off mod BSIZE ->
  take (Z.to_nat m) (drop (Z.to_nat (off mod BSIZE)) (d (fblock d di (off / BSIZE)))) = fbytes d di off m.
Proof.
  intros Hd Hoff Hm. destruct (div_mod_step off m Hoff Hm) as (Hb&Hk&_).
  rewrite block_slice by (rewrite Hd; lia). unfold fbytes. apply list_fmap_ext.
  intros i k Hi. apply lookup_seq in Hi as [-> Hlt]. cbn. unfold fbyte.
  destruct (Hk (Z.of_nat i)) as [-> ->]; [lia|]. f_equal. lia.
Qed.

Definition enough (off tot n : Z) (fuel : nat) : Prop :=
  tot < n -> off mod BSIZE + (n - tot) <= BSIZE * Z.of_nat fuel.

Lemma enough_step off tot n fuel :
  0 <= off -> tot < n ->
  enough off tot n (S fuel) ->
  let m := Z.min (n - tot) (BSIZE - off mod BSIZE) in
  enough (off + m) (tot + m) n fuel /\ 0 < m.
Proof.
  intros Hoff Hlt He m. pose proof (Z.mod_pos_bound off BSIZE ltac:(reflexivity)) as Hb.
  assert (Hm : 0 < m) by lia. split; [|done]. intros Hlt'. specialize (He Hlt).
  destruct (div_mod_step off m Hoff ltac:(lia)) as (_&_&Hz). rewrite Hz by lia.
  unfold BSIZE in *. lia.
Qed.

Lemma enough_start off n : 0 <= n -> enough off 0 n (io_fuel n).
Proof.
  intros Hn Hlt. unfold io_fuel. pose proof (Z.mod_pos_bound off BSIZE ltac:(reflexivity)) as Hb.
  pose proof (Z.mod_pos_bound n BSIZE ltac:(reflexivity)). pose proof (Z.div_mod n BSIZE ltac:(done)).
  assert (0 <= n / BSIZE) by (apply Z.div_pos; [lia|reflexivity]).
  rewrite Z2Nat.id by lia. unfold BSIZE in *. lia.
Qed.

(** ** Reading *)

Lemma readi_loop_spec s ip d di n : forall fuel tot off,
  file_env s ip -> disk_ok (sb s) d di -> no_holes d di ->
  0 <= off -> 0 <= tot <= n -> off + (n - tot) <= d_size di -> enough off tot n fuel ->
  readi_loop fuel ip tot off n (file_state s ip d di) =
    Ret (fbytes d di off (n - tot)) (file_state s ip d di).
Proof.
  induction fuel as [|fuel IH]; intros tot off He Hd Hh Hoff Htot Hsz Hen;
    cbn [readi_loop]; destruct (Z.ltb_spec tot n) as [Hlt|Hge];
    try (replace (n - tot) with 0 by lia; reflexivity).
  - specialize (Hen Hlt). pose proof (Z.mod_pos_bound off BSIZE ltac:(reflexivity)). lia.
  - destruct (enough_step off tot n fuel Hoff Hlt Hen) as [Hen' Hm].
    set (m := Z.min (n - tot) (BSIZE - off mod BSIZE)) in *.
    pose proof He as [Hip Hdev L]. pose proof Hd as [D1 D2 D3]. destruct Hh as [Hs Hh].
    assert (Hb : 0 <= off / BSIZE < MAXFILE) by (apply div_block; lia).
    assert (Hnz : fblock d di (off / BSIZE) <> 0).
    { apply Hh; [lia|]. pose proof (Z.mul_div_le off BSIZE ltac:(reflexivity)). lia. }
    rewrite bind_geti by done. cbn [i_dev set_di]. rewrite Hdev.
    rewrite (bind_Ret _ _ _ _ _ (bmap_hit s ip d di _ Hip Hdev (ly_size _ _ L) D3 Hb Hnz)).
    rewrite bind_readb.
    2: { cbn. destruct (bw_owns _ _ _ D3 (fblock d di (off / BSIZE))); [|destruct L; lia].
         split; [done|]. right. by exists (off / BSIZE). }
    cbn [fsdisk file_state set_disk]. fold m.
    rewrite (bind_Ret _ _ _ _ _ (IH (tot + m) (off + m) He Hd (conj Hs Hh) ltac:(lia) ltac:(lia) ltac:(lia) Hen')).
    rewrite slice_fbytes by (done || lia).
    replace (n - tot) with (m + (n - (tot + m))) by lia.
    by rewrite fbytes_app by lia.
Qed.

Section devices.
Context `{Devsw}.

Lemma readi_spec s ip off n :
  file_env s ip -> disk_ok (sb s) (fsdisk s) (i_di (inodeat s ip)) ->
  no_holes (fsdisk s) (i_di (inodeat s ip)) -> d_type (i_di (inodeat s ip)) <> T_DEV ->
  is_u32 off -> is_u32 n ->
  let di := i_di (inodeat s ip) in
  let m := Z.min n (d_size di - off) in
  readi ip off n s =
    if (d_size di <? off) || (2 ^ 32 <=? off + n) then Ret (-1, []) s
    else Ret (m, fbytes (fsdisk s) di off m) s.
Proof.
  intros He Hd Hh Ht Hoff Hn di m. pose proof He as [Hip Hdev L]. pose proof Hh as [Hs _].
  change (MAXFILE * BSIZE) with 71680 in Hs. fold di in Hs.
  unfold readi, geti. rewrite bind_gets. fold di. fold di in Ht. rewrite (proj2 (Z.eqb_neq _ _) Ht).
  destruct (Z.ltb_spec (d_size di) off) as [H1|H1]; [done|]. cbn [orb].
  assert (Ew : (u32 (off + n) <? off) = (2 ^ 32 <=? off + n)).
  { unfold is_u32, u32 in *. destruct (Z.leb_spec (2 ^ 32) (off + n)).
    - apply Z.ltb_lt. Z.div_mod_to_equations; lia.
    - apply Z.ltb_ge. rewrite Z.mod_small; lia. }
  rewrite Ew. destruct (Z.leb_spec (2 ^ 32) (off + n)) as [H2|H2]; [done|].
  assert (Ewd : u32 (off + n) = off + n) by (apply u32_id; unfold is_u32 in *; lia).
  rewrite Ewd.
  assert (Em : (if d_size di <? off + n then u32 (d_size di - off) else n) = m).
  { destruct (Z.ltb_spec (d_size di) (off + n)); [|lia].
    rewrite u32_id; [lia|]. unfold is_u32 in *. lia. }
  rewrite Em. unfold is_u32 in *.
  assert (E : readi_loop (io_fuel m) ip 0 off m s = Ret (fbytes (fsdisk s) di off (m - 0)) s).
  { rewrite <- (state_id s ip Hip) at 1. rewrite readi_loop_spec; try done.
    - by rewrite state_id.
    - lia.
    - lia.
    - fold di. lia.
    - apply enough_start. lia. }
  rewrite (bind_Ret _ _ _ _ _ E), Z.sub_0_r, i32_id by lia. done.
Qed.

End devices.
