(* ===== verification/FsInode.v ===== *)
(** On-disk inodes: the 64-byte encoding of [struct dinode] inverts, inode slots
    are disjoint, and [iupdate] stores exactly the cached inode. *)

From S2P Require Import Prelude Bio CString Fs FsBlocks FsFiles FsIO.

(** ** Fields in byte sequences *)

Lemma nth_app_at (l1 l2 : list Z) k : nth (length l1 + k) (l1 ++ l2) 0 = nth k l2 0.
Proof. rewrite app_nth2 by lia. f_equal. lia. Qed.

Lemma get32_app_r l1 l2 k : get32 (l1 ++ l2) (length l1 + k) = get32 l2 k.
Proof. unfold get32. rewrite <- !Nat.add_assoc. by rewrite !nth_app_at. Qed.

Lemma get32_app_l l1 l2 k : (k + 4 <= length l1)%nat -> get32 (l1 ++ l2) k = get32 l1 k.
Proof. intros Hk. unfold get32. by rewrite !app_nth1 by lia. Qed.

Lemma get16_app_r l1 l2 k : get16 (l1 ++ l2) (length l1 + k) = get16 l2 k.
Proof. unfold get16. rewrite <- !Nat.add_assoc. by rewrite !nth_app_at. Qed.

Lemma get16_app_l l1 l2 k : (k + 2 <= length l1)%nat -> get16 (l1 ++ l2) k = get16 l1 k.
Proof. intros Hk. unfold get16. by rewrite !app_nth1 by lia. Qed.

Lemma get32_word v : get32 (word_bytes v) 0 = u32 v.
Proof.
  pose proof (get32_put32_eq (replicate 4 0) 0 v ltac:(cbn; lia)) as E.
  unfold put32, put_at in E. cbn [take drop app replicate length Nat.add] in E.
  by rewrite app_nil_r in E.
Qed.

Lemma get16_half v : get16 (half_bytes v) 0 = u16 v.
Proof.
  unfold get16, half_bytes, u16. cbn [nth Nat.add].
  change (2 ^ 16) with (2 ^ 8 * 2 ^ 8). rewrite Z.rem_mul_r by lia. lia.
Qed.

Lemma get32_words l : forall k, (k < length l)%nat ->
  get32 (mjoin (word_bytes <$> l)) (4 * k) = u32 (nth k l 0).
Proof.
  induction l as [|v l IH]; intros k Hk; [cbn in Hk; lia|].
  change (mjoin (word_bytes <$> v :: l)) with (word_bytes v ++ mjoin (word_bytes <$> l)).
  destruct k as [|k].
  - rewrite get32_app_l by (cbn; lia). apply get32_word.
  - replace (4 * S k)%nat with (length (word_bytes v) + 4 * k)%nat by (cbn; lia).
    rewrite get32_app_r. apply IH. cbn in Hk. lia.
Qed.

Lemma length_words l : length (mjoin (word_bytes <$> l)) = (4 * length l)%nat.
Proof.
  induction l as [|v l IH]; [done|].
  change (mjoin (word_bytes <$> v :: l)) with (word_bytes v ++ mjoin (word_bytes <$> l)).
  rewrite length_app, IH. cbn. lia.
Qed.

Definition is_i16 (x : Z) : Prop := - 2 ^ 15 <= x < 2 ^ 15.

Lemma i16_u16 x : is_i16 x -> i16 (u16 x) = x.
Proof.
  unfold is_i16, i16, u16. intros Hx. rewrite Zmod_mod.
  destruct (Z.ltb_spec (x mod 2 ^ 16) (2 ^ 15)); Z.div_mod_to_equations; lia.
Qed.

(** ** Inodes *)

(** The fields fit their C types. *)
Record dinode_ok (di : dinode) : Prop := {
  do_type : is_i16 (d_type di);
  do_major : is_i16 (d_major di);
  do_minor : is_i16 (d_minor di);
  do_nlink : is_i16 (d_nlink di);
  do_size : is_u32 (d_size di);
  do_len : length (d_addrs di) = 13%nat;
  do_addrs : Forall is_u32 (d_addrs di);
}.

Lemma length_dinode_bytes di : length (d_addrs di) = 13%nat -> length (dinode_bytes di) = 64%nat.
Proof. intros Hl. unfold dinode_bytes. rewrite !length_app, length_words, Hl. done. Qed.

Lemma dinode_decode di : dinode_ok di -> get_dinode (dinode_bytes di) 0 = di.
Proof.
  intros [H1 H2 H3 H4 H5 H6 H7]. unfold dinode_bytes.
  set (a := half_bytes (d_type di)). set (b := half_bytes (d_major di)).
  set (c := half_bytes (d_minor di)). set (e := half_bytes (d_nlink di)).
  set (f := word_bytes (d_size di)). set (g := mjoin (word_bytes <$> d_addrs di)).
  assert (E0 : get16 (a ++ b ++ c ++ e ++ f ++ g) 0 = u16 (d_type di)).
  { rewrite get16_app_l by (cbn; lia). apply get16_half. }
  assert (E1 : get16 (a ++ b ++ c ++ e ++ f ++ g) 2 = u16 (d_major di)).
  { change 2%nat with (length a + 0)%nat. rewrite get16_app_r, get16_app_l by (cbn; lia). apply get16_half. }
  assert (E2 : get16 (a ++ b ++ c ++ e ++ f ++ g) 4 = u16 (d_minor di)).
  { change 4%nat with (length a + (length b + 0))%nat. rewrite !get16_app_r, get16_app_l by (cbn; lia).
    apply get16_half. }
  assert (E3 : get16 (a ++ b ++ c ++ e ++ f ++ g) 6 = u16 (d_nlink di)).
  { change 6%nat with (length a + (length b + (length c + 0)))%nat.
    rewrite !get16_app_r, get16_app_l by (cbn; lia). apply get16_half. }
  assert (E4 : get32 (a ++ b ++ c ++ e ++ f ++ g) 8 = u32 (d_size di)).
  { change 8%nat with (length a + (length b + (length c + (length e + 0))))%nat.
    rewrite !get32_app_r, get32_app_l by (cbn; lia). apply get32_word. }
  assert (E5 : (fun k => get32 (a ++ b ++ c ++ e ++ f ++ g) (12 + 4 * k)) <$> seq 0 13 = d_addrs di).
  { apply list_eq_same_length with 13%nat; [done|done|]. intros k x y Hk.
    rewrite list_lookup_fmap, lookup_seq_lt by done. cbn [fmap option_fmap option_map].
    change (12 + 4 * (0 + k))%nat with (length a + (length b + (length c + (length e + (length f + 4 * k)))))%nat.
    rewrite !get32_app_r. unfold g. rewrite get32_words by lia. intros [= <-] Hy.
    rewrite nth_lookup, Hy. cbn. apply u32_id. rewrite Forall_lookup in H7. by eapply H7. }
  change (Dinode (i16 (get16 (a ++ b ++ c ++ e ++ f ++ g) 0)) (i16 (get16 (a ++ b ++ c ++ e ++ f ++ g) 2))
    (i16 (get16 (a ++ b ++ c ++ e ++ f ++ g) 4)) (i16 (get16 (a ++ b ++ c ++ e ++ f ++ g) 6))
    (get32 (a ++ b ++ c ++ e ++ f ++ g) 8)
    ((fun k => get32 (a ++ b ++ c ++ e ++ f ++ g) (12 + 4 * k)) <$> seq 0 13) = di).
  rewrite E0, E1, E2, E3, E4, E5, !i16_u16, u32_id by done. by destruct di.
Qed.

Lemma get_dinode_put d o di :
  dinode_ok di -> (o + 64 <= length d)%nat -> get_dinode (put_dinode d o di) o = di.
Proof.
  intros Hdi Ho. pose proof (length_dinode_bytes di (do_len _ Hdi)) as Hl.
  assert (Hin : forall k, (k < 64)%nat -> nth (o + k) (put_dinode d o di) 0 = nth k (dinode_bytes di) 0).
  { intros k Hk. unfold put_dinode. rewrite put_at_in by lia. f_equal. lia. }
  rewrite <- (dinode_decode di Hdi) at 2. unfold get_dinode, get16, get32.
  rewrite <- !Nat.add_assoc, !Hin by lia. 
  rewrite <- (Nat.add_0_r o) at 1. rewrite Hin by lia. f_equal. 
  apply list_fmap_ext. intros i k [-> Hlt]%lookup_seq. rewrite <- !Nat.add_assoc, !Hin by lia. done.
Qed.

Lemma get_dinode_put_ne d o o' di :
  length (d_addrs di) = 13%nat -> (o + 64 <= length d)%nat -> (o' + 64 <= o \/ o + 64 <= o')%nat ->
  get_dinode (put_dinode d o di) o' = get_dinode d o'.
Proof.
  intros Hdi Ho Hd. pose proof (length_dinode_bytes di Hdi) as Hl.
  assert (Hout : forall k, (k < 64)%nat -> nth (o' + k) (put_dinode d o di) 0 = nth (o' + k) d 0).
  { intros k Hk. unfold put_dinode. rewrite put_at_out by lia. done. }
  unfold get_dinode, get16, get32. rewrite <- !Nat.add_assoc, !Hout by lia.
  rewrite <- (Nat.add_0_r o'), Hout, Nat.add_0_r by lia. f_equal.
  apply list_fmap_ext. intros i k [-> Hlt]%lookup_seq. rewrite <- !Nat.add_assoc, !Hout by lia. done.
Qed.

(** Inode [inum] on disk. *)
Definition dinode_at (sp : superblock) (d : Z -> block) (inum : Z) : dinode :=
  get_dinode (d (IBLOCK inum sp)) (ioff inum).

Lemma IBLOCK_range sp size inum :
  layout sp size -> 0 <= inum < sb_ninodes sp ->
  IBLOCK inum sp = inum / IPB + sb_inodestart sp /\ 0 < IBLOCK inum sp < sb_bmapstart sp.
Proof.
  intros [L1 L2 L3 L4 L5 L6] Hi.
  assert (0 <= inum / IPB <= sb_ninodes sp / IPB).
  { split; [apply Z.div_pos; [lia|reflexivity]|apply Z.div_le_mono; [reflexivity|lia]]. }
  assert (0 <= sb_size sp / BPB) by (apply Z.div_pos; [lia|reflexivity]).
  unfold datastart in L4. assert (E : IBLOCK inum sp = inum / IPB + sb_inodestart sp); [|lia].
  unfold IBLOCK. apply u32_id. unfold is_u32. lia.
Qed.

Lemma ioff_range inum : (ioff inum + 64 <= Z.to_nat BSIZE)%nat.
Proof.
  unfold ioff. pose proof (Z.mod_pos_bound inum IPB ltac:(reflexivity)) as Hm.
  change IPB with 8 in *. change (Z.to_nat BSIZE) with 512%nat. lia.
Qed.

Lemma inode_apart sp size i j :
  layout sp size -> 0 <= i < sb_ninodes sp -> 0 <= j < sb_ninodes sp -> i <> j ->
  IBLOCK i sp = IBLOCK j sp -> (ioff j + 64 <= ioff i \/ ioff i + 64 <= ioff j)%nat.
Proof.
  intros L Hi Hj Hne E. destruct (IBLOCK_range _ _ _ L Hi) as [Ei _].
  destruct (IBLOCK_range _ _ _ L Hj) as [Ej _]. rewrite Ei, Ej in E. unfold ioff.
  pose proof (Z.mod_pos_bound i IPB ltac:(reflexivity)). pose proof (Z.mod_pos_bound j IPB ltac:(reflexivity)).
  pose proof (Z.div_mod i IPB ltac:(done)). pose proof (Z.div_mod j IPB ltac:(done)).
  assert (i mod IPB <> j mod IPB) by (intros Em; apply Hne; lia). lia.
Qed.

(** Only inode [inum] changed on disk, to [di]. *)
Record inode_stored (sp : superblock) (d : Z -> block) (inum : Z) (di : dinode) (d' : Z -> block) : Prop := {
  is_at : dinode_at sp d' inum = di;
  is_other j : 0 <= j < sb_ninodes sp -> j <> inum -> dinode_at sp d' j = dinode_at sp d j;
  is_frame x : x <> IBLOCK inum sp -> d' x = d x;
  is_blocks : blocks_ok d';
}.

(** Writing inode [inum] in its block. *)
Lemma put_inode_stored sp size d inum di :
  layout sp size -> blocks_ok d -> dinode_ok di -> 0 <= inum < sb_ninodes sp ->
  inode_stored sp d inum di (upd d (IBLOCK inum sp) (put_dinode (d (IBLOCK inum sp)) (ioff inum) di)).
Proof.
  intros L Hb Hdi Hn.
  assert (Hlen : (ioff inum + 64 <= length (d (IBLOCK inum sp)))%nat) by (rewrite Hb; apply ioff_range).
  split.
  - unfold dinode_at. rewrite upd_eq. by apply get_dinode_put.
  - intros j Hj Hne. unfold dinode_at. destruct (decide (IBLOCK j sp = IBLOCK inum sp)) as [E|E].
    + rewrite E, upd_eq. apply get_dinode_put_ne; [apply Hdi|done|].
      eapply (inode_apart sp); try done; auto.
    + by rewrite upd_ne.
  - intros x Hx. by apply upd_ne.
  - apply blocks_upd; [done|]. unfold put_dinode. rewrite length_put_at; [apply Hb|].
    by rewrite (length_dinode_bytes _ (do_len _ Hdi)).
Qed.

Lemma iupdate_spec s ip d di :
  file_env s ip -> blocks_ok d -> dinode_ok di ->
  0 <= i_inum (inodeat s ip) < sb_ninodes (sb s) ->
  exists d', iupdate ip (file_state s ip d di) = Ret tt (file_state s ip d' di) /\
    inode_stored (sb s) d (i_inum (inodeat s ip)) di d'.
Proof.
  intros [Hip Hdev L] Hb Hdi Hn. set (inum := i_inum (inodeat s ip)) in *.
  destruct (IBLOCK_range _ _ _ L Hn) as [_ Hr].
  unfold iupdate. rewrite bind_geti, bind_gets by done. cbn [i_dev i_inum i_di set_di]. fold inum.
  rewrite Hdev. cbn [sb file_state set_disk upd_inode set_icache].
  rewrite bind_readb by (cbn; destruct (datastart_pos _ _ L), L; lia).
  exists (upd d (IBLOCK inum (sb s)) (put_dinode (d (IBLOCK inum (sb s))) (ioff inum) di)).
  split; [reflexivity|]. by eapply put_inode_stored.
Qed.

(** A file is made of blocks that are not inode blocks. *)
Lemma stored_used sp size d inum di d' x :
  layout sp size -> 0 <= inum < sb_ninodes sp -> inode_stored sp d inum di d' ->
  0 <= x < sb_size sp -> used sp d' x = used sp d x.
Proof.
  intros L Hi Hs Hx. unfold used. rewrite (is_frame _ _ _ _ _ Hs); [done|].
  destruct (IBLOCK_range _ _ _ L Hi) as [_ Hr]. destruct (BBLOCK_bmap _ _ _ L Hx). lia.
Qed.

Lemma stored_fblock sp size d inum di d' dj k :
  layout sp size -> 0 <= inum < sb_ninodes sp -> inode_stored sp d inum di d' ->
  blocks_wf sp d dj -> fblock d' dj k = fblock d dj k.
Proof.
  intros L Hi Hs Hw. unfold fblock. destruct (k <? NDIRECT); [done|].
  destruct (Z.eqb_spec (indirect dj) 0) as [|Hnz]; [done|]. rewrite (is_frame _ _ _ _ _ Hs); [done|].
  destruct (IBLOCK_range _ _ _ L Hi) as [_ Hr]. destruct (bw_owns _ _ _ Hw (indirect dj)) as [? _].
  - split; [done|by left].
  - destruct (datastart_pos _ _ L). lia.
Qed.

Lemma stored_owns sp size d inum di d' dj x :
  layout sp size -> 0 <= inum < sb_ninodes sp -> inode_stored sp d inum di d' ->
  blocks_wf sp d dj -> owns d' dj x <-> owns d dj x.
Proof.
  intros L Hi Hs Hw. unfold owns.
  setoid_rewrite (fun k => stored_fblock sp size d inum di d' dj k L Hi Hs Hw). done.
Qed.

Lemma stored_wf sp size d inum di d' dj :
  layout sp size -> 0 <= inum < sb_ninodes sp -> inode_stored sp d inum di d' ->
  blocks_wf sp d dj -> blocks_wf sp d' dj.
Proof.
  intros L Hi Hs Hw. pose proof Hw as [W1 W2 W3 W4]. split; [done| | |].
  - intros b Hb%(stored_owns sp size _ _ _ _ _ _ L Hi Hs Hw). destruct (W2 b Hb) as [Hr Hu].
    split; [done|]. rewrite (stored_used sp size _ _ _ _ _ L Hi Hs); [done|].
    destruct (datastart_pos _ _ L). lia.
  - intros j k Hj Hk. rewrite !(stored_fblock sp size _ _ _ _ _ _ L Hi Hs Hw). by apply W3.
  - intros k Hk. rewrite (stored_fblock sp size _ _ _ _ _ _ L Hi Hs Hw). by apply W4.
Qed.

Lemma stored_fbyte sp size d inum di d' dj x :
  layout sp size -> 0 <= inum < sb_ninodes sp -> inode_stored sp d inum di d' ->
  blocks_wf sp d dj -> 0 <= x < MAXFILE * BSIZE -> fblock d dj (x / BSIZE) <> 0 ->
  fbyte d' dj x = fbyte d dj x.
Proof.
  intros L Hi Hs Hw Hx Hnz. unfold fbyte. rewrite (stored_fblock sp size _ _ _ _ _ _ L Hi Hs Hw).
  rewrite (is_frame _ _ _ _ _ Hs); [done|].
  destruct (IBLOCK_range _ _ _ L Hi) as [_ Hr].
  destruct (bw_owns _ _ _ Hw (fblock d dj (x / BSIZE))) as [? _].
  - split; [done|]. right. exists (x / BSIZE). split; [by apply div_block|done].
  - destruct (datastart_pos _ _ L). lia.
Qed.
