(* ===== verification/FsWrite.v ===== *)
(** [writei] of fs.c: it replaces exactly the bytes it is given, extends the
    file without holes, keeps the on-disk inode equal to the cached one, and
    leaves every other file alone; with [readi] it round-trips. *)

From S2P Require Import Prelude Bio CString Fs FsBlocks FsFiles FsIO FsInode.

(** Writing the bytes [bs] at [off]. *)
Definition wrote (off : Z) (bs : list Z) (x : Z) : option Z :=
  if decide (off <= x < off + Z.of_nat (length bs)) then Some (nth (Z.to_nat (x - off)) bs 0) else None.

Lemma wrote_app off bs1 bs2 x :
  over (wrote (off + Z.of_nat (length bs1)) bs2) (wrote off bs1) x = wrote off (bs1 ++ bs2) x.
Proof.
  unfold over, wrote. rewrite length_app, Nat2Z.inj_add.
  destruct (decide (off + Z.of_nat (length bs1) <= x < _)) as [H2|H2].
  - rewrite decide_True by lia. rewrite app_nth2 by lia. do 2 f_equal. lia.
  - destruct (decide (off <= x < off + Z.of_nat (length bs1))) as [H1|H1].
    + rewrite decide_True by lia. by rewrite app_nth1 by lia.
    + by rewrite decide_False by lia.
Qed.

Lemma wrote_nil off x : wrote off [] x = None.
Proof. unfold wrote. rewrite decide_False; [done|]. cbn. lia. Qed.

Lemma wrote_Some off bs x : is_Some (wrote off bs x) <-> off <= x < off + Z.of_nat (length bs).
Proof. unfold wrote. destruct (decide _) as [Hd|Hd]; split; try done; by intros [? ?]. Qed.

(** Overwriting part of one block of the file. *)
Lemma write_extends sp size d di off bs :
  layout sp size -> disk_ok sp d di -> 0 <= off < MAXFILE * BSIZE ->
  Z.of_nat (length bs) <= BSIZE - off mod BSIZE ->
  let a := fblock d di (off / BSIZE) in
  a <> 0 ->
  extends sp (wrote off bs) d di (upd d a (put_at (d a) (Z.to_nat (off mod BSIZE)) bs)) di.
Proof.
  intros L [D1 D2 D3] Hoff Hl a Ha.
  pose proof (div_block off Hoff) as Hk0. set (k0 := off / BSIZE) in *.
  assert (Hbl : 0 <= Z.of_nat (length bs)) by lia.
  destruct (div_mod_step off (Z.of_nat (length bs)) ltac:(lia) ltac:(lia)) as (Hm&Hpos&_).
  assert (Hlen : (Z.to_nat (off mod BSIZE) + length bs <= length (d a))%nat) by (rewrite D1; lia).
  set (d' := upd d a _).
  assert (Hoa : owns d di a) by (split; [done|]; right; by exists k0).
  destruct (bw_owns _ _ _ D3 a Hoa) as [Har Hau]. destruct (datastart_pos _ _ L) as [HL1 HL2].
  assert (Hfb : forall k, 0 <= k < MAXFILE -> fblock d' di k = fblock d di k).
  { intros k Hk. unfold fblock. destruct (k <? NDIRECT); [done|].
    destruct (Z.eqb_spec (indirect di) 0); [done|]. unfold d'. rewrite upd_ne; [done|].
    intros E. by apply (bw_ind _ _ _ D3 k0 Hk0 Ha). }
  assert (Hus : forall x, 0 <= x < sb_size sp -> used sp d' x = used sp d x).
  { intros x Hx. unfold used, d'. rewrite upd_ne; [done|]. destruct (BBLOCK_bmap _ _ _ L Hx). lia. }
  assert (Hown : forall x, owns d' di x <-> owns d di x).
  { intros x. unfold owns. split; intros (Hnz&[?|(k&Hk&E)]); (split; [done|]); auto;
      right; exists k; (split; [done|]); by rewrite E, Hfb. }
  split; [split| | | | | | | |].
  - apply D3.
  - intros b Hb%Hown. destruct (bw_owns _ _ _ D3 b Hb) as [? ?]. split; [done|]. rewrite Hus; [done|lia].
  - intros j k Hj Hk. rewrite !Hfb by done. by apply D3.
  - intros k Hk. rewrite Hfb by done. by apply D3.
  - apply blocks_upd; [done|]. by rewrite length_put_at.
  - done.
  - intros k Hk _. by apply Hfb.
  - intros x Hx _. pose proof (div_block x Hx) as Hxb. unfold fbyte. rewrite Hfb by done.
    pose proof (Z.mod_pos_bound x BSIZE ltac:(reflexivity)) as Hxm.
    pose proof (Z.div_mod x BSIZE ltac:(done)) as Hxd. pose proof (Z.div_mod off BSIZE ltac:(done)) as Hod.
    destruct (decide (x / BSIZE = k0)) as [E|E].
    + rewrite E in Hxd |- *. fold a. unfold d'. rewrite upd_eq. fold k0 in Hod. unfold wrote.
      destruct (decide (off <= x < off + Z.of_nat (length bs))) as [Hin|Hout]; cbn [default from_option id].
      * rewrite put_at_in by lia. f_equal. lia.
      * rewrite put_at_out by lia. done.
    + unfold wrote. rewrite decide_False.
      * cbn. unfold d'. destruct (decide (fblock d di (x / BSIZE) = a)) as [Ef|Ef]; [|by rewrite upd_ne].
        destruct E. symmetry. apply (bw_inj _ _ _ D3); [done|done|done|]. by rewrite Ef.
      * intros Hin. apply E. destruct (Hpos (x - off) ltac:(lia)) as [Ep _].
        by replace (off + (x - off)) with x in Ep by lia.
  - intros x Hu Hx Ho Hb. unfold d'. apply upd_ne. by intros ->.
  - intros x. by rewrite Hown.
  - intros x Hx%Hown. by left.
  - intros x Hx. rewrite Hown, Hus by done. split; [by left|]. intros [?|Ho]; [done|].
    by apply (bw_owns _ _ _ D3).
Qed.

(** The loop of [writei]; the inode changes only if a block was missing. *)
Lemma writei_loop_spec s ip src n : forall fuel tot off d di,
  file_env s ip -> disk_ok (sb s) d di -> 0 <= off -> 0 <= tot <= n ->
  off + (n - tot) <= MAXFILE * BSIZE -> n <= Z.of_nat (length src) -> enough off tot n fuel ->
  (exists d' di', writei_loop fuel ip src tot off n (file_state s ip d di) =
      Ret (off + (n - tot)) (file_state s ip d' di') /\
    extends (sb s) (wrote off (take (Z.to_nat (n - tot)) (drop (Z.to_nat tot) src))) d di d' di' /\
    (forall x, off <= x < off + (n - tot) -> fblock d' di' (x / BSIZE) <> 0) /\
    (di' = di \/ exists x, off <= x < off + (n - tot) /\ fblock d di (x / BSIZE) = 0)) \/
  writei_loop fuel ip src tot off n (file_state s ip d di) = Panic "balloc: out of blocks".
Proof.
  induction fuel as [|fuel IH]; intros tot off d di He Hd Hoff Htot Hmax Hsrc Hen;
    cbn [writei_loop]; destruct (Z.ltb_spec tot n) as [Hlt|Hge].
  1: { specialize (Hen Hlt). pose proof (Z.mod_pos_bound off BSIZE ltac:(reflexivity)). lia. }
  1,3: left; exists d, di; replace (n - tot) with 0 by lia; rewrite Z.add_0_r;
    (split; [done|]); (split; [|split; [lia|by left]]);
    apply (extends_weaken _ (fun _ => None)); [intros x _; apply wrote_nil|];
    destruct Hd; by apply extends_refl.
  destruct (enough_step off tot n fuel Hoff Hlt Hen) as [Hen' Hm].
  set (m := Z.min (n - tot) (BSIZE - off mod BSIZE)) in *.
  pose proof He as [Hip Hdev L]. destruct (datastart_pos _ _ L) as [HL1 HL2].
  assert (Hoff' : 0 <= off < MAXFILE * BSIZE) by lia.
  pose proof (div_block off Hoff') as Hb. pose proof (div_mod_step off m Hoff ltac:(lia)) as (Hmo&Hpos&_).
  rewrite bind_geti by done. cbn [i_dev set_di]. rewrite Hdev.
  destruct (bmap_spec s ip d di (off / BSIZE) He Hd Hb) as [(a&d1&di1&H1&H2&H3&H4&H5)|H1].
  2: { right. unfold mbind, kern_bind. by rewrite H1. }
  pose proof (extends_ok _ _ _ _ _ _ _ L Hd H2) as Hd1.
  rewrite (bind_Ret _ _ _ _ _ H1), bind_readb.
  2: { cbn. destruct (bw_owns _ _ _ (dk_wf _ _ _ Hd1) a) as [? _]; [|destruct L; lia].
       split; [done|]. right. by exists (off / BSIZE). }
  cbn [fsdisk file_state set_disk]. fold m. rewrite bind_logb.
  set (bs := take (Z.to_nat m) (drop (Z.to_nat tot) src)).
  assert (Hbs : length bs = Z.to_nat m) by (unfold bs; rewrite length_take, length_drop; lia).
  set (d2 := upd d1 a (put_at (d1 a) (Z.to_nat (off mod BSIZE)) bs)).
  assert (Hw : extends (sb s) (wrote off bs) d1 di1 d2 di1).
  { unfold d2. rewrite <- H3. eapply write_extends; try done; [lia|by rewrite H3]. }
  assert (Hex : extends (sb s) (wrote off bs) d di d2 di1).
  { apply (extends_weaken _ (over (wrote off bs) (fun _ => None))).
    - intros x _. unfold over. by destruct (wrote off bs x).
    - eapply extends_trans; [lia|by intros x [? ?]|exact H2|exact Hw]. }
  pose proof (extends_ok _ _ _ _ _ _ _ L Hd Hex) as Hd2.
  change (set_disk (upd _ a _) _) with (file_state s ip d2 di1).
  assert (Hkeep : forall x, off <= x < off + m -> fblock d2 di1 (x / BSIZE) <> 0).
  { intros x Hx. destruct (Hpos (x - off) ltac:(lia)) as [Ep _].
    replace (off + (x - off)) with x in Ep by lia. rewrite Ep.
    rewrite (ex_keep _ _ _ _ _ _ Hw) by (done || by rewrite H3). by rewrite H3. }
  destruct (IH (tot + m) (off + m) d2 di1 He Hd2) as [(d'&di'&E1&E2&E3&E4)|E1];
    [lia|lia|lia|lia|done| |by right].
  left. exists d', di'. replace (off + m + (n - (tot + m))) with (off + (n - tot)) in * by lia.
  split; [exact E1|]. split; [|split].
  - apply (extends_weaken _ (over (wrote (off + Z.of_nat (length bs))
      (take (Z.to_nat (n - (tot + m))) (drop (Z.to_nat (tot + m)) src))) (wrote off bs))).
    + intros x _. rewrite wrote_app. f_equal. unfold bs.
      replace (Z.to_nat (n - tot)) with (Z.to_nat m + Z.to_nat (n - (tot + m)))%nat by lia.
      rewrite <- take_take_drop, drop_drop. do 3 f_equal. lia.
    + rewrite Hbs, Z2Nat.id by lia.
      eapply extends_trans; [lia| |exact Hex|exact E2].
      intros x Hx%wrote_Some. apply Hkeep. lia.
  - intros x Hx. destruct (Z.lt_ge_cases x (off + m)); [|apply E3; lia].
    rewrite (ex_keep _ _ _ _ _ _ E2); [apply Hkeep; lia|apply div_block; lia|apply Hkeep; lia].
  - destruct (decide (fblock d di (off / BSIZE) = 0)) as [Hz|Hz].
    { right. exists off. split; [lia|done]. }
    destruct (H5 Hz) as [-> ->]. destruct E4 as [->|(x&Hx&Hxz)]; [by left|]. right. exists x.
    split; [lia|]. destruct (decide (fblock d di (x / BSIZE) = 0)) as [|Hnz]; [done|].
    rewrite (ex_keep _ _ _ _ _ _ Hex) in Hxz; [done|apply div_block; lia|done].
Qed.

(** ** Files *)

(** Inode [ip], cached and valid, is a file with contents. *)
Record file_ok (s : fs) (ip : nat) : Prop := {
  fo_env : file_env s ip;
  fo_disk : disk_ok (sb s) (fsdisk s) (i_di (inodeat s ip));
  fo_holes : no_holes (fsdisk s) (i_di (inodeat s ip));
  fo_di : dinode_ok (i_di (inodeat s ip));
  fo_inum : 0 <= i_inum (inodeat s ip) < sb_ninodes (sb s);
  fo_synced : dinode_at (sb s) (fsdisk s) (i_inum (inodeat s ip)) = i_di (inodeat s ip);
  fo_type : d_type (i_di (inodeat s ip)) <> T_DEV;
}.

Definition fsize (s : fs) (ip : nat) : Z := d_size (i_di (inodeat s ip)).

(** The bytes of the file. *)
Definition content (s : fs) (ip : nat) : list Z :=
  fbytes (fsdisk s) (i_di (inodeat s ip)) 0 (fsize s ip).

(** [dj] is another file, sharing no block with [di]. *)
Record apart (sp : superblock) (d : Z -> block) (di dj : dinode) : Prop := {
  ap_wf : blocks_wf sp d dj;
  ap_holes : no_holes d dj;
  ap_own b : owns d dj b -> ~ owns d di b;
}.

Lemma wf_addrs sp size d di :
  layout sp size -> blocks_wf sp d di -> Forall is_u32 (d_addrs di).
Proof.
  intros L Hw. apply Forall_lookup. intros k a Hk. pose proof (lookup_lt_Some _ _ _ Hk) as Hlt.
  rewrite (bw_len _ _ _ Hw) in Hlt. destruct (decide (a = 0)) as [->|Hnz]; [unfold is_u32; lia|].
  assert (Ho : owns d di a).
  { split; [done|]. destruct (decide (k = 12%nat)) as [->|Hne].
    - left. unfold indirect. by rewrite nth_lookup, Hk.
    - right. exists (Z.of_nat k). split; [change MAXFILE with 140; lia|]. unfold fblock, NDIRECT.
      rewrite (proj2 (Z.ltb_lt _ _)) by lia. by rewrite Nat2Z.id, nth_lookup, Hk. }
  destruct (bw_owns _ _ _ Hw a Ho) as [Hr _]. destruct (datastart_pos _ _ L), L. unfold is_u32. lia.
Qed.

(** Another file after this one was extended. *)
Lemma extends_apart sp size W d di d' di' dj :
  layout sp size -> extends sp W d di d' di' -> apart sp d di dj ->
  apart sp d' di' dj /\ (forall b, owns d' dj b <-> owns d dj b) /\
  forall x, 0 <= x < d_size dj -> fbyte d' dj x = fbyte d dj x.
Proof.
  intros L He [P1 P2 P3]. destruct (datastart_pos _ _ L) as [HL1 HL2].
  assert (Hsame : forall b, owns d dj b -> d' b = d b).
  { intros b Hb. destruct (bw_owns _ _ _ P1 b Hb) as [Hr Hu].
    apply (ex_frame _ _ _ _ _ _ He); [done|lia|by apply P3|]. intros [_ ?]. lia. }
  assert (Hfb : forall k, fblock d' dj k = fblock d dj k).
  { intros k. unfold fblock. destruct (k <? NDIRECT); [done|].
    destruct (Z.eqb_spec (indirect dj) 0) as [|Hnz]; [done|]. rewrite Hsame; [done|].
    split; [done|by left]. }
  assert (Hown : forall b, owns d' dj b <-> owns d dj b).
  { intros b. unfold owns. by setoid_rewrite Hfb. }
  split; [split|split; [exact Hown|]].
  - split; [apply P1| | |].
    + intros b Hb%Hown. destruct (bw_owns _ _ _ P1 b Hb) as [Hr Hu]. split; [done|].
      apply (ex_used _ _ _ _ _ _ He); [lia|by left].
    + intros j k Hj Hk. rewrite !Hfb. by apply P1.
    + intros k Hk. rewrite Hfb. by apply P1.
  - destruct P2 as [H1 H2]. split; [done|]. intros k Hk Hs. rewrite Hfb. by apply H2.
  - intros b Hb%Hown Ho. destruct (ex_own _ _ _ _ _ _ He b Ho) as [Hd|Hd]; [by apply (P3 b)|].
    destruct (bw_owns _ _ _ P1 b Hb) as [_ Hu]. congruence.
  - intros x Hx. unfold fbyte. rewrite Hfb. rewrite Hsame; [done|]. destruct P2 as [H1 H2].
    split; [apply H2|].
    + apply Z.div_pos; [lia|reflexivity].
    + pose proof (Z.mul_div_le x BSIZE ltac:(reflexivity)). lia.
    + right. exists (x / BSIZE). split; [apply div_block; lia|done].
Qed.

(** Another file after an inode was stored. *)
Lemma stored_apart sp size d inum dx d' di dj :
  layout sp size -> 0 <= inum < sb_ninodes sp -> inode_stored sp d inum dx d' ->
  blocks_wf sp d di -> apart sp d di dj ->
  apart sp d' di dj /\ (forall b, owns d' dj b <-> owns d dj b) /\
  forall x, 0 <= x < d_size dj -> fbyte d' dj x = fbyte d dj x.
Proof.
  intros L Hi Hs Hw [P1 P2 P3]. destruct P2 as [H1 H2]. split; [split|split].
  - by eapply stored_wf.
  - split; [done|]. intros k Hk Hsz. rewrite (stored_fblock sp size _ _ _ _ _ _ L Hi Hs P1). by apply H2.
  - intros b. rewrite (stored_owns sp size _ _ _ _ _ _ L Hi Hs P1).
    rewrite (stored_owns sp size _ _ _ _ _ _ L Hi Hs Hw). apply P3.
  - intros b. by apply (stored_owns sp size _ _ _ _ _ _ L Hi Hs).
  - intros x Hx. apply (stored_fbyte sp size d inum dx); try done; [lia|]. apply H2.
    + apply Z.div_pos; [lia|reflexivity].
    + pose proof (Z.mul_div_le x BSIZE ltac:(reflexivity)). lia.
Qed.

Lemma fbytes_lookup d di off n k :
  (k < Z.to_nat n)%nat -> fbytes d di off n !! k = Some (fbyte d di (off + Z.of_nat k)).
Proof. intros Hk. unfold fbytes. by rewrite list_lookup_fmap, lookup_seq_lt. Qed.

Lemma fbytes_ext d di d' di' off n :
  (forall x, off <= x < off + n -> fbyte d' di' x = fbyte d di x) -> fbytes d' di' off n = fbytes d di off n.
Proof. intros Hx. unfold fbytes. apply list_fmap_ext. intros i k [-> Hk]%lookup_seq. apply Hx. lia. Qed.

(** The file after writing [bs] at [off]. *)
Lemma splice_fbytes d di d' di' size size' off bs :
  0 <= off <= size -> size' = Z.max size (off + Z.of_nat (length bs)) ->
  (forall x, 0 <= x < size' -> fbyte d' di' x = default (fbyte d di x) (wrote off bs x)) ->
  fbytes d' di' 0 size' = take (Z.to_nat off) (fbytes d di 0 size) ++ bs ++
    drop (Z.to_nat off + length bs) (fbytes d di 0 size).
Proof.
  intros Hoff Hsz Hx.
  assert (Hlo : length (take (Z.to_nat off) (fbytes d di 0 size)) = Z.to_nat off).
  { rewrite length_take, length_fbytes. lia. }
  apply list_eq_same_length with (Z.to_nat size').
  - rewrite !length_app, length_drop, Hlo, length_fbytes. lia.
  - apply length_fbytes.
  - intros k a b Hk. rewrite fbytes_lookup by done. rewrite Z.add_0_l, Hx by lia. intros [= <-].
    unfold wrote. destruct (decide (off <= Z.of_nat k < off + Z.of_nat (length bs))) as [Hin|Hout].
    + rewrite lookup_app_r by lia. rewrite Hlo, lookup_app_l by lia.
      cbn. rewrite nth_lookup. intros E. replace (Z.to_nat (Z.of_nat k - off)) with (k - Z.to_nat off)%nat by lia.
      by rewrite E.
    + cbn. destruct (decide (k < Z.to_nat off)%nat).
      * rewrite lookup_app_l by lia. rewrite lookup_take_lt, fbytes_lookup by lia. by intros [= <-].
      * rewrite lookup_app_r by lia. rewrite Hlo, lookup_app_r by lia.
        rewrite lookup_drop, fbytes_lookup by lia. intros [= <-]. f_equal. lia.
Qed.

Lemma extends_inode sp size W d di d' di' j :
  layout sp size -> reserved_used sp d -> blocks_wf sp d di -> extends sp W d di d' di' ->
  0 <= j < sb_ninodes sp -> dinode_at sp d' j = dinode_at sp d j.
Proof.
  intros L Hr Hw He Hj. destruct (IBLOCK_range _ _ _ L Hj) as [_ Hb].
  destruct (datastart_pos _ _ L) as [HL1 HL2]. unfold dinode_at.
  rewrite (ex_frame _ _ _ _ _ _ He); [done| | | |].
  - apply Hr. lia.
  - destruct L. lia.
  - intros Ho. destruct (bw_owns _ _ _ Hw _ Ho). lia.
  - intros [? ?]. lia.
Qed.

Lemma wf_size sp d n di : blocks_wf sp d di -> blocks_wf sp d (set_size n di).
Proof. intros [H1 H2 H3 H4]. by split. Qed.

(** Rebuilding [file_ok] for a new disk and inode of the same file. *)
Lemma file_ok_state s ip d di :
  file_env s ip -> disk_ok (sb s) d di -> no_holes d di -> dinode_ok di ->
  0 <= i_inum (inodeat s ip) < sb_ninodes (sb s) ->
  dinode_at (sb s) d (i_inum (inodeat s ip)) = di -> d_type di <> T_DEV ->
  file_ok (file_state s ip d di) ip.
Proof.
  intros [E1 E2 E3] H2 H3 H4 H5 H6 H7.
  split; rewrite ?state_inode by done; cbn [i_di set_di i_inum fsdisk sb file_state set_disk upd_inode set_icache];
    try done.
  split; [cbn; by rewrite length_insert| |done]. by rewrite state_inode.
Qed.

(** Grown, the file has no holes. *)
Lemma grown_holes d di d' di' sp W off n :
  no_holes d di -> extends sp W d di d' di' -> 0 <= off <= d_size di -> 0 <= n ->
  off + n <= MAXFILE * BSIZE ->
  (forall x, off <= x < off + n -> fblock d' di' (x / BSIZE) <> 0) ->
  no_holes d' (set_size (Z.max (d_size di) (off + n)) di').
Proof.
  intros [Hs Hh] He Hoff Hn Hmax Hw. split; [cbn; lia|]. intros k Hk Hlt. cbn in Hlt.
  assert (HB : 0 < BSIZE) by reflexivity.
  change (fblock d' (set_size _ di') k) with (fblock d' di' k).
  destruct (Z.lt_ge_cases (k * BSIZE) (d_size di)) as [Hlt2|Hge].
  - rewrite (ex_keep _ _ _ _ _ _ He); [by apply Hh| |by apply Hh].
    split; [done|]. apply (Z.mul_lt_mono_pos_r BSIZE); lia.
  - replace k with (k * BSIZE / BSIZE) by (apply Z.div_mul; lia). apply Hw. lia.
Qed.

Section devices.
Context `{Devsw}.

(** What [writei] promises: the file spliced, everything else unchanged. *)
Record written (s : fs) (ip : nat) (off : Z) (bs : list Z) (s' : fs) : Prop := {
  wr_ok : file_ok s' ip;
  wr_size : fsize s' ip = Z.max (fsize s ip) (off + Z.of_nat (length bs));
  wr_content : content s' ip = take (Z.to_nat off) (content s ip) ++ bs ++
    drop (Z.to_nat off + length bs) (content s ip);
  wr_apart dj : apart (sb s) (fsdisk s) (i_di (inodeat s ip)) dj ->
    apart (sb s) (fsdisk s') (i_di (inodeat s' ip)) dj /\
    (forall b, owns (fsdisk s') dj b <-> owns (fsdisk s) dj b) /\
    fbytes (fsdisk s') dj 0 (d_size dj) = fbytes (fsdisk s) dj 0 (d_size dj);
  wr_inodes j : 0 <= j < sb_ninodes (sb s) -> j <> i_inum (inodeat s ip) ->
    dinode_at (sb s) (fsdisk s') j = dinode_at (sb s) (fsdisk s) j;
  wr_state : exists d di, s' = file_state s ip d di;
  wr_meta : d_type (i_di (inodeat s' ip)) = d_type (i_di (inodeat s ip)) /\
    d_nlink (i_di (inodeat s' ip)) = d_nlink (i_di (inodeat s ip));
}.

(** Writing within the file. *)
Lemma written_within s ip off bs d' di' :
  file_ok s ip -> 0 <= off -> off + Z.of_nat (length bs) <= fsize s ip ->
  extends (sb s) (wrote off bs) (fsdisk s) (i_di (inodeat s ip)) d' di' ->
  di' = i_di (inodeat s ip) ->
  written s ip off bs (file_state s ip d' di').
Proof.
  intros Hf Hoff Hsz He ->. pose proof Hf as [F1 F2 F3 F4 F5 F6 F7]. pose proof F1 as [Hip Hdev L].
  unfold fsize in *. set (di := i_di (inodeat s ip)) in *.
  assert (Hx : forall x, 0 <= x < d_size di -> fblock (fsdisk s) di (x / BSIZE) <> 0).
  { intros x Hx. destruct F3 as [_ Hh]. apply Hh.
    - apply Z.div_pos; [lia|reflexivity].
    - pose proof (Z.mul_div_le x BSIZE ltac:(reflexivity)). lia. }
  assert (Hin : forall j, 0 <= j < sb_ninodes (sb s) ->
    dinode_at (sb s) d' j = dinode_at (sb s) (fsdisk s) j).
  { intros j Hj. eapply extends_inode; [exact L|apply F2|apply F2|exact He|done]. }
  split; unfold content, fsize; rewrite ?state_inode by done;
    cbn [i_di set_di fsdisk file_state set_disk].
  - apply file_ok_state; try done.
    + by eapply extends_ok.
    + destruct F3 as [H1 H2]. split; [done|]. intros k Hk Hlt.
      rewrite (ex_keep _ _ _ _ _ _ He); [by apply H2| |by apply H2]. 
      split; [done|]. apply (Z.mul_lt_mono_pos_r BSIZE); [reflexivity|lia].
    + rewrite Hin by done. exact F6.
  - fold di. lia.
  - fold di. apply splice_fbytes; [lia|lia|]. intros x Hxs. apply (ex_byte _ _ _ _ _ _ He).
    + destruct F3 as [? _]. lia.
    + left. by apply Hx.
  - intros dj Hdj. destruct (extends_apart _ _ _ _ _ _ _ dj L He Hdj) as (Hap & Hown & Hby). split; [exact Hap|]. split; [exact Hown|].
    apply fbytes_ext. intros x Hxx. apply Hby. lia.
  - intros j Hj _. by apply Hin.
  - eauto.
  - done.
Qed.

Lemma dinode_ok_extend sp size W d di d' di' n :
  layout sp size -> extends sp W d di d' di' -> dinode_ok di -> is_u32 n -> dinode_ok (set_size n di').
Proof.
  intros L He [O1 O2 O3 O4 O5 O6 O7] Hn. destruct (ex_meta _ _ _ _ _ _ He) as (M1&M2&M3&M4&M5).
  split; cbn; rewrite ?M1, ?M2, ?M3, ?M4; try done.
  - apply (ex_wf _ _ _ _ _ _ He).
  - eapply wf_addrs; [exact L|apply He].
Qed.

(** Writing past the end. *)
Lemma written_grown s ip off bs d' di' d2 :
  file_ok s ip -> 0 <= off <= fsize s ip -> fsize s ip < off + Z.of_nat (length bs) ->
  off + Z.of_nat (length bs) <= MAXFILE * BSIZE ->
  extends (sb s) (wrote off bs) (fsdisk s) (i_di (inodeat s ip)) d' di' ->
  (forall x, off <= x < off + Z.of_nat (length bs) -> fblock d' di' (x / BSIZE) <> 0) ->
  let di2 := set_size (off + Z.of_nat (length bs)) di' in
  inode_stored (sb s) d' (i_inum (inodeat s ip)) di2 d2 ->
  written s ip off bs (file_state s ip d2 di2).
Proof.
  intros Hf Hoff Hsz Hmax He Hnz di2 Hst. pose proof Hf as [F1 F2 F3 F4 F5 F6 F7]. pose proof F1 as [Hip Hdev L].
  unfold fsize in *. set (di := i_di (inodeat s ip)) in *. set (n := Z.of_nat (length bs)) in *.
  assert (Hh : no_holes d' di2).
  { unfold di2. rewrite <- (Z.max_r (d_size di) (off + n)) by lia.
    eapply grown_holes; try done; lia. }
  pose proof (extends_ok _ _ _ _ _ _ _ L F2 He) as [D1 D2 D3].
  assert (Hwf2 : blocks_wf (sb s) d2 di2).
  { eapply stored_wf; [exact L|exact F5|exact Hst|]. by apply wf_size. }
  assert (Hfb : forall k, fblock d2 di2 k = fblock d' di2 k).
  { intros k. eapply stored_fblock; [exact L|exact F5|exact Hst|]. by apply wf_size. }
  assert (Hby : forall x, 0 <= x < off + n -> fbyte d2 di2 x = default (fbyte (fsdisk s) di x) (wrote off bs x)).
  { intros x Hx. assert (Hbx : 0 <= x / BSIZE /\ x / BSIZE * BSIZE <= x).
    { split; [apply Z.div_pos; [lia|reflexivity]|]. pose proof (Z.mul_div_le x BSIZE ltac:(reflexivity)). lia. }
    rewrite (stored_fbyte (sb s) (fssize s) d' (i_inum (inodeat s ip)) di2 d2 di2 x L F5 Hst).
    - change (fbyte d' di2 x) with (fbyte d' di' x). apply (ex_byte _ _ _ _ _ _ He); [lia|].
      destruct (Z.lt_ge_cases x off).
      + left. destruct F3 as [_ F3]. apply F3; lia.
      + right. apply wrote_Some. fold n. lia.
    - by apply wf_size.
    - lia.
    - destruct Hh as [_ Hh]. apply Hh; [lia|]. cbn. lia. }
  split; unfold content, fsize; rewrite ?state_inode by done;
    cbn [i_di set_di fsdisk file_state set_disk].
  - apply file_ok_state; try done.
    + split; [apply Hst| |done]. intros x Hx. rewrite (stored_used _ (fssize s) _ _ _ _ _ L F5 Hst).
      * by apply D2.
      * destruct L. lia.
    + destruct Hh as [H1 H2]. split; [done|]. intros k Hk Hlt. rewrite Hfb. by apply H2.
    + eapply dinode_ok_extend; try done. unfold is_u32. change (MAXFILE * BSIZE) with 71680 in *. lia.
    + apply Hst.
    + destruct (ex_meta _ _ _ _ _ _ He) as (M1&_). cbn. by rewrite M1.
  - fold di. cbn. lia.
  - fold di. cbn [d_size di2 set_size]. unfold n in *. apply splice_fbytes; [lia|lia|]. done.
  - intros dj Hdj. destruct (extends_apart _ _ _ _ _ _ _ dj L He Hdj) as (Hap & Hown & Hb1).
    assert (Hap' : apart (sb s) d' di2 dj) by (destruct Hap; by split).
    destruct (stored_apart _ _ _ _ _ _ _ _ L F5 Hst (wf_size _ _ _ _ D3) Hap') as (Hap2 & Hown2 & Hb2).
    split; [exact Hap2|]. split; [intros b; by rewrite Hown2|]. apply fbytes_ext. intros x Hx. rewrite Hb2 by lia. apply Hb1. lia.
  - intros j Hj Hne. rewrite (is_other _ _ _ _ _ Hst) by done.
    eapply extends_inode; [exact L|apply F2|apply F2|exact He|done].
  - eauto.
  - destruct (ex_meta _ _ _ _ _ _ He) as (M1&_&_&M4&_). done.
Qed.

Lemma writei_spec s ip src off n :
  file_ok s ip -> 0 <= off <= fsize s ip -> 0 <= n <= Z.of_nat (length src) ->
  off + n <= MAXFILE * BSIZE ->
  (exists s', writei ip src off n s = Ret n s' /\ written s ip off (take (Z.to_nat n) src) s') \/
  writei ip src off n s = Panic "balloc: out of blocks".
Proof.
  intros Hf Hoff Hn Hmax. pose proof Hf as [F1 F2 F3 F4 F5 F6 F7]. pose proof F1 as [Hip Hdev L].
  unfold fsize in *. change (MAXFILE * BSIZE) with 71680 in Hmax.
  set (di := i_di (inodeat s ip)) in *. set (bs := take (Z.to_nat n) src).
  assert (Hbs : Z.of_nat (length bs) = n) by (unfold bs; rewrite length_take; lia).
  unfold writei. rewrite run_geti. fold di. rewrite (proj2 (Z.eqb_neq _ _) F7).
  assert (Ew : u32 (off + n) = off + n) by (apply u32_id; unfold is_u32; lia). rewrite Ew.
  rewrite (proj2 (Z.ltb_ge (d_size di) off)), (proj2 (Z.ltb_ge (off + n) off)) by lia. cbn [orb].
  rewrite (proj2 (Z.ltb_ge (MAXFILE * BSIZE) (off + n))) by (change (MAXFILE * BSIZE) with 71680; lia).
  destruct (writei_loop_spec s ip src n (io_fuel n) 0 off (fsdisk s) di F1 F2)
    as [(d'&di'&E1&E2&E3&E4)|E1]; [lia|lia|change (MAXFILE * BSIZE) with 71680; lia|lia|by apply enough_start; lia| |].
  2: { right. unfold di in E1. rewrite state_id in E1 by done. unfold mbind at 1, kern_bind at 1. by rewrite E1. }
  rewrite Z.sub_0_r in *. change (Z.to_nat 0) with 0%nat in E2. rewrite drop_0 in E2. fold bs in E2.
  unfold di in E1. rewrite state_id in E1 by done. fold di in E1.
  left. rewrite (bind_Ret _ _ _ _ _ E1), bind_geti by done. cbn [i_di set_di].
  destruct (ex_meta _ _ _ _ _ _ E2) as (_&_&_&_&M5). rewrite M5, i32_id by lia.
  destruct (Z.lt_ge_cases (d_size di) (off + n)) as [Hg|Hg].
  - rewrite (proj2 (Z.ltb_lt 0 n)), (proj2 (Z.ltb_lt _ _) Hg) by lia. cbn [andb].
    rewrite !bind_bind, bind_modd by done.
    destruct (iupdate_spec s ip d' (set_size (off + n) di') F1) as (d2&E5&Hst).
    + apply E2.
    + eapply dinode_ok_extend; try done. unfold is_u32. lia.
    + done.
    + rewrite (bind_Ret _ _ _ _ _ E5). exists (file_state s ip d2 (set_size (off + n) di')).
      split; [reflexivity|]. rewrite <- Hbs in *. apply (written_grown s ip off bs d' di'); try done.
  - rewrite (proj2 (Z.ltb_ge _ _) Hg), andb_false_r, bind_mret.
    exists (file_state s ip d' di'). split; [reflexivity|]. apply written_within; try done; [lia|unfold fsize; fold di; lia|].
    destruct E4 as [->|(x&Hx&Hxz)]; [done|]. destruct F3 as [_ F3]. destruct (F3 (x / BSIZE)); [| |done].
    + apply Z.div_pos; [lia|reflexivity].
    + pose proof (Z.mul_div_le x BSIZE ltac:(reflexivity)). fold di. lia.
Qed.

End devices.

(** ** Theorems *)

Section theorems.
Context `{Devsw}.

Lemma readi_content s ip off n :
  file_ok s ip -> is_u32 off -> is_u32 n ->
  readi ip off n s =
    if (fsize s ip <? off) || (2 ^ 32 <=? off + n) then Ret (-1, []) s
    else let m := Z.min n (fsize s ip - off) in
      Ret (m, take (Z.to_nat m) (drop (Z.to_nat off) (content s ip))) s.
Proof.
  intros Hf Hoff Hn. pose proof Hf as [F1 F2 F3 F4 F5 F6 F7].
  rewrite (readi_spec s ip off n F1 F2 F3 F7 Hoff Hn). unfold fsize.
  destruct (Z.ltb_spec (d_size (i_di (inodeat s ip))) off) as [H1|H1]; [done|]. cbn [orb].
  destruct (2 ^ 32 <=? off + n); [done|]. cbn zeta. do 2 f_equal. unfold content, fsize.
  set (di := i_di (inodeat s ip)) in *. set (m := Z.min n (d_size di - off)).
  unfold is_u32 in *. destruct F3 as [F3 _].
  assert (E : fbytes (fsdisk s) di 0 (d_size di) = fbytes (fsdisk s) di 0 (off + (m + (d_size di - off - m))))
    by (f_equal; lia).
  rewrite E, !fbytes_app by lia.
  rewrite drop_app_length' by (rewrite length_fbytes; lia).
  rewrite take_app_length' by (rewrite length_fbytes; lia). by rewrite Z.add_0_l.
Qed.

(** C10: [readi] of a file returns exactly the bytes of the file from [off], as
    many as asked for and present, and changes nothing; it fails, also without
    changing anything, when [off] is past the end or [off + n] overflows. *)
Theorem readi_reads s ip off n :
  file_ok s ip -> is_u32 off -> is_u32 n ->
  readi ip off n s =
    if (fsize s ip <? off) || (2 ^ 32 <=? off + n) then Ret (-1, []) s
    else let m := Z.min n (fsize s ip - off) in
      Ret (m, take (Z.to_nat m) (drop (Z.to_nat off) (content s ip))) s.
Proof. apply readi_content. Qed.


Lemma writei_refused s ip src off n :
  file_ok s ip -> is_u32 off -> is_u32 n ->
  fsize s ip < off \/ 2 ^ 32 <= off + n \/ MAXFILE * BSIZE < off + n ->
  writei ip src off n s = Ret (-1) s.
Proof.
  intros Hf Hoff Hn Hc. pose proof (fo_type _ _ Hf) as Ht. unfold writei, is_u32, fsize in *.
  rewrite run_geti, (proj2 (Z.eqb_neq _ _) Ht).
  destruct (Z.ltb_spec (d_size (i_di (inodeat s ip))) off) as [H1|H1]; [done|]. cbn [orb].
  change (MAXFILE * BSIZE) with 71680 in *.
  destruct (Z.lt_ge_cases (off + n) (2 ^ 32)) as [H2|H2].
  - rewrite u32_id by (unfold is_u32; lia). rewrite (proj2 (Z.ltb_ge (off + n) off)) by lia.
    by rewrite (proj2 (Z.ltb_lt 71680 (off + n))) by lia.
  - rewrite (proj2 (Z.ltb_lt (u32 (off + n)) off)); [done|]. unfold u32. Z.div_mod_to_equations; lia.
Qed.

(** [writei] fails and changes nothing when [off] is past the end of the
    file, when [off + n] overflows, or when the file would exceed [MAXFILE]
    blocks. *)
Theorem writei_refuses s ip src off n :
  file_ok s ip -> is_u32 off -> is_u32 n ->
  fsize s ip < off \/ 2 ^ 32 <= off + n \/ MAXFILE * BSIZE < off + n ->
  writei ip src off n s = Ret (-1) s.
Proof. apply writei_refused. Qed.

(** What [writei] wrote, [readi] reads back. *)
Theorem writei_readi s ip src off n s' :
  file_ok s ip -> 0 <= off <= fsize s ip -> 0 < n <= Z.of_nat (length src) ->
  off + n <= MAXFILE * BSIZE -> writei ip src off n s = Ret n s' ->
  readi ip off n s' = Ret (n, take (Z.to_nat n) src) s'.
Proof.
  intros Hf Hoff Hn Hmax Hw. change (MAXFILE * BSIZE) with 71680 in Hmax.
  destruct (writei_spec s ip src off n Hf Hoff ltac:(lia) ltac:(change (MAXFILE * BSIZE) with 71680; lia)) as [(s1&E&Hwr)|E]; [|congruence].
  rewrite Hw in E. injection E as <-. destruct Hwr as [W1 W2 W3 _ _ _ _].
  set (bs := take (Z.to_nat n) src) in *.
  assert (Hbs : length bs = Z.to_nat n) by (unfold bs; rewrite length_take; lia).
  pose proof W1 as [F1 F2 F3 F4 F5 F6 F7].
  rewrite (readi_spec s' ip off n F1 F2 F3 F7) by (unfold is_u32; lia).
  unfold fsize in W2 at 1. rewrite W2.
  rewrite (proj2 (Z.ltb_ge _ off)), (proj2 (Z.leb_gt _ (off + n))) by lia. cbn [orb].
  replace (Z.min n _) with n by lia. do 2 f_equal.
  assert (Hlen : (Z.to_nat off <= length (content s ip))%nat).
  { unfold content. rewrite length_fbytes. lia. }
  assert (E : fbytes (fsdisk s') (i_di (inodeat s' ip)) off n =
    take (Z.to_nat n) (drop (Z.to_nat off) (content s' ip))).
  { unfold content, fsize. rewrite W2.
    replace (Z.max (fsize s ip) (off + Z.of_nat (length bs))) with
      (off + (n + (Z.max (fsize s ip) (off + n) - off - n))) by lia.
    rewrite !fbytes_app by lia. rewrite drop_app_length' by (rewrite length_fbytes; lia).
    rewrite take_app_length' by (rewrite length_fbytes; lia). by rewrite Z.add_0_l. }
  rewrite E, W3. rewrite drop_app_length' by (rewrite length_take; lia).
  by rewrite take_app_length' by lia.
Qed.

End theorems.

(** ** Instances of the theorems *)

(** A disk with one file, inode 1: three bytes in block 5. *)
Definition wit_di : dinode := Dinode T_FILE 0 0 1 3 (5 :: replicate 12 0).
Definition wit_disk (b : Z) : block :=
  if b =? 2 then put_dinode (replicate 512 0) 64 wit_di
  else if b =? 4 then 63 :: replicate 511 0
  else if b =? 5 then [104; 105; 33] ++ replicate 509 0
  else replicate 512 0.
Definition wit_fs : fs :=
  Fs wit_disk 100 small_sb (Inode ROOTDEV 1 1 None true wit_di :: replicate 49 inode0) 0 1.
#[local] Instance no_devices : Devsw := {| dev_read _ := None; dev_write _ := None |}.

Lemma wit_fblock d k : 0 <= k -> fblock d wit_di k = if k =? 0 then 5 else 0.
Proof.
  intros Hk. unfold fblock, NDIRECT. destruct (Z.ltb_spec k 12) as [Hlt|Hge].
  - assert (E : k = Z.of_nat (Z.to_nat k)) by lia. rewrite E, Nat2Z.id.
    set (n := Z.to_nat k) in *. do 13 (destruct n as [|n]; [reflexivity|]). lia.
  - change (indirect wit_di) with 0. change (0 =? 0) with true. by destruct (Z.eqb_spec k 0); [lia|].
Qed.

Lemma wit_owns d b : owns d wit_di b <-> b = 5.
Proof.
  unfold owns. change (indirect wit_di) with 0. split.
  - intros [Hb [?|(k&Hk&E)]]; [done|]. rewrite wit_fblock in E by lia. destruct (Z.eqb_spec k 0); lia.
  - intros ->. split; [done|]. right. exists 0. split; [change MAXFILE with 140; lia|].
    by rewrite wit_fblock.
Qed.

Lemma wit_wf : blocks_wf small_sb wit_disk wit_di.
Proof.
  split; [reflexivity| | |].
  - intros b ->%wit_owns. split; [vm_compute; done|vm_compute; reflexivity].
  - intros j k Hj Hk. rewrite !wit_fblock by lia. destruct (Z.eqb_spec j 0), (Z.eqb_spec k 0); lia.
  - intros k Hk. rewrite wit_fblock by lia. change (indirect wit_di) with 0. done.
Qed.

Lemma wit_blocks : blocks_ok wit_disk.
Proof.
  intros b. unfold wit_disk. destruct (b =? 2); [reflexivity|]. destruct (b =? 4); [reflexivity|].
  by destruct (b =? 5).
Qed.

Lemma wit_file_ok : file_ok wit_fs 0.
Proof.
  split; cbn [wit_fs sb fsdisk].
  - split; [cbn; lia|reflexivity|exact small_layout].
  - split; [exact wit_blocks| |exact wit_wf]. intros b Hb. change (0 <= b < 5) in Hb.
    assert (b = 0 \/ b = 1 \/ b = 2 \/ b = 3 \/ b = 4) as Hc by lia.
    destruct Hc as [->|[->|[->|[->| ->]]]]; vm_compute; reflexivity.
  - split; [vm_compute; done|]. intros k Hk Hlt. rewrite wit_fblock by done.
    change (k * 512 < 3) in Hlt. destruct (Z.eqb_spec k 0); lia.
  - split; [vm_compute; done..|].
    apply Forall_cons. split; [vm_compute; done|]. apply (Forall_replicate is_u32 12 0). vm_compute; done.
  - vm_compute; done.
  - vm_compute; reflexivity.
  - discriminate.
Qed.

Lemma readi_reads_witness : readi 0 1 10 wit_fs = Ret (2, [105; 33]) wit_fs.
Proof.
  rewrite (readi_reads wit_fs 0 1 10 wit_file_ok); [reflexivity|vm_compute; done..].
Defined.


Lemma writei_refuses_witness : writei 0 [97] 4 1 wit_fs = Ret (-1) wit_fs.
Proof.
  apply (writei_refuses wit_fs 0 [97] 4 1 wit_file_ok); [vm_compute; done..|].
  left. reflexivity.
Defined.

Lemma writei_readi_witness :
  exists s', writei 0 [97; 98] 2 2 wit_fs = Ret 2 s' /\ readi 0 2 2 s' = Ret (2, [97; 98]) s'.
Proof.
  destruct (writei 0 [97; 98] 2 2 wit_fs) as [r s'| | |] eqn:E; try (vm_compute in E; discriminate).
  assert (Er : r = 2) by (vm_compute in E; injection E; intros; subst; reflexivity). subst r.
  exists s'. split; [done|].
  apply (writei_readi wit_fs 0 [97; 98] 2 2 s' wit_file_ok); [vm_compute; done|cbn; lia|vm_compute; done|exact E].
Defined.
