(* ===== verification/FsTrunc.v ===== *)
(** [itrunc] of fs.c: it frees exactly the blocks of the file, each once. *)

From S2P Require Import Prelude Bio CString Fs FsBlocks FsFiles FsIO FsInode FsWrite.

(** The blocks in [l] that are there. *)
Definition nz (l : list Z) : list Z := filter (fun b => b <> 0) l.

(** [d'] is [d] with the blocks [l] marked free. *)
Record freed_all (sp : superblock) (l : list Z) (d d' : Z -> block) : Prop := {
  fa_used x : 0 <= x < sb_size sp -> used sp d' x = if decide (x ∈ l) then false else used sp d x;
  fa_frame x : ~ is_bmap sp x -> d' x = d x;
  fa_blocks : blocks_ok d';
}.

Lemma freed_nil sp d : blocks_ok d -> freed_all sp [] d d.
Proof. intros Hb. split; [|done|done]. intros x _. by rewrite decide_False by set_solver. Qed.

Lemma freed_cons sp b l d d1 d2 :
  freed sp d b d1 -> freed_all sp l d1 d2 -> freed_all sp (b :: l) d d2.
Proof.
  intros [F1 F2 F3] [G1 G2 G3]. split; [| |done].
  - intros x Hx. rewrite G1, F1 by done.
    destruct (decide (x ∈ l)), (decide (x = b)), (decide (x ∈ b :: l)); set_solver.
  - intros x Hx. rewrite G2 by done. by apply F2.
Qed.

Lemma freed_app sp l1 l2 d d1 d2 :
  freed_all sp l1 d d1 -> freed_all sp l2 d1 d2 -> freed_all sp (l1 ++ l2) d d2.
Proof.
  intros [F1 F2 F3] [G1 G2 G3]. split; [| |done].
  - intros x Hx. rewrite G1, F1 by done.
    destruct (decide (x ∈ l1)), (decide (x ∈ l2)), (decide (x ∈ l1 ++ l2)); set_solver.
  - intros x Hx. rewrite G2 by done. by apply F2.
Qed.

(** Blocks that may be freed: data blocks in use, each once. *)
Record freeable (sp : superblock) (d : Z -> block) (l : list Z) : Prop := {
  fb_nodup : NoDup l;
  fb_used b : b ∈ l -> datastart sp <= b < sb_size sp /\ used sp d b = true;
}.

Lemma freeable_rest sp size b l d d1 :
  layout sp size -> freeable sp d (b :: l) -> freed sp d b d1 -> freeable sp d1 l.
Proof.
  intros L [N U] [F1 F2 F3]. apply NoDup_cons in N as [Nb N]. split; [done|].
  intros x Hx. destruct (U x) as [Hr Hu]; [by right|]. split; [done|]. 
  destruct (datastart_pos _ _ L). rewrite F1 by lia. rewrite decide_False; [done|]. by intros ->.
Qed.

Lemma freeable_app sp size l1 l2 d d1 :
  layout sp size -> freeable sp d (l1 ++ l2) -> freed_all sp l1 d d1 ->
  freeable sp d l1 /\ freeable sp d1 l2.
Proof.
  intros L [N U] [F1 F2 F3]. apply NoDup_app in N as (N1&N12&N2). split; split; try done.
  - intros x Hx. apply U. set_solver.
  - intros x Hx. destruct (U x) as [Hr Hu]; [set_solver|]. split; [done|].
    destruct (datastart_pos _ _ L). rewrite F1 by lia. rewrite decide_False; [done|].
    intros Hx1. by apply (N12 x).
Qed.

Lemma freeable_l sp d l1 l2 : freeable sp d (l1 ++ l2) -> freeable sp d l1.
Proof.
  intros [N U]. apply NoDup_app in N as (N&_&_). split; [done|]. intros b Hb. apply U, elem_of_app. by left.
Qed.

Section trunc.
Context (s : fs) (ip : nat).
Hypothesis He : file_env s ip.

Lemma bfree_state d di b :
  blocks_ok d -> reserved_used (sb s) d -> datastart (sb s) <= b < sb_size (sb s) ->
  used (sb s) d b = true ->
  exists d1, bfree ROOTDEV b (file_state s ip d di) = Ret tt (file_state s ip d1 di) /\
    freed (sb s) d b d1 /\ blocks_ok d1 /\ reserved_used (sb s) d1.
Proof.
  intros Hb Hr Hrng Hu. pose proof He as [Hip Hdev L].
  assert (Hok : fs_ok (file_state s ip d di)) by by apply state_ok.
  destruct (datastart_pos _ _ L). 
  destruct (bfree_spec (file_state s ip d di) b Hok) as (d1&E&Hf); [cbn; lia|done|].
  exists d1. split; [exact E|]. split; [exact Hf|].
  destruct (freed_ok _ b d1 Hok) as [_ H1 H2]; [cbn; lia|done|]. by split.
Qed.

Definition set_addrs (l : list Z) (di : dinode) : dinode :=
  Dinode (d_type di) (d_major di) (d_minor di) (d_nlink di) (d_size di) l.

Lemma set_addrs_id di : set_addrs (d_addrs di) di = di.
Proof. by destruct di. Qed.

(** Positions [k .. k+n-1] cleared. *)
Definition zap (k n : nat) (l : list Z) : list Z := take k l ++ replicate n 0 ++ drop (k + n) l.

Lemma zap_step k n l : (k < length l)%nat -> zap (S k) n (<[k := 0]> l) = zap k (S n) l.
Proof.
  intros Hk. unfold zap. rewrite (take_S_r _ _ 0) by by rewrite list_lookup_insert_eq.
  rewrite take_insert_ge by lia. rewrite drop_insert_lt by lia.
  rewrite <- app_assoc. cbn. do 3 f_equal. f_equal. lia.
Qed.

Lemma zap_zero k n l : l !! k = Some 0 -> zap (S k) n l = zap k (S n) l.
Proof.
  intros Hk. rewrite <- (list_insert_id l k 0 Hk) at 1. apply zap_step. by eapply lookup_lt_Some.
Qed.

Lemma trunc_direct_spec n : forall k d di,
  (k + n <= 12)%nat -> length (d_addrs di) = 13%nat -> blocks_ok d -> reserved_used (sb s) d ->
  freeable (sb s) d (nz (take n (drop k (d_addrs di)))) ->
  exists d', trunc_direct n k ip (file_state s ip d di) =
      Ret tt (file_state s ip d' (set_addrs (zap k n (d_addrs di)) di)) /\
    freed_all (sb s) (nz (take n (drop k (d_addrs di)))) d d' /\ reserved_used (sb s) d'.
Proof using He.
  pose proof He as [Hip Hdev L].
  induction n as [|n IH]; intros k d di Hk Hl Hb Hr Hfr.
  - exists d. split; [|split; [by apply freed_nil|done]]. cbn [trunc_direct].
    unfold zap. rewrite Nat.add_0_r. cbn [replicate app]. rewrite take_drop, set_addrs_id. done.
  - cbn [trunc_direct]. rewrite bind_geti by done. unfold addr_of. cbn [i_di set_di i_dev]. rewrite Hdev.
    destruct (lookup_lt_is_Some_2 (d_addrs di) k ltac:(lia)) as [b Hkb].
    rewrite nth_lookup, Hkb. cbn [default from_option id].
    rewrite (drop_S _ b) in * by done. cbn [take] in *.
    assert (Hnz : nz (b :: take n (drop (S k) (d_addrs di))) =
      if decide (b = 0) then nz (take n (drop (S k) (d_addrs di)))
      else b :: nz (take n (drop (S k) (d_addrs di)))).
    { unfold nz. rewrite filter_cons. destruct (decide (b <> 0)), (decide (b = 0)); done. }
    rewrite Hnz in *. destruct (Z.eqb_spec b 0) as [->|Hb0]; cbn [negb].
    + rewrite decide_True in * by done. rewrite bind_mret.
      destruct (IH (S k) d di) as (d'&E&HF&Hr'); [lia|done..|].
      exists d'. rewrite E, zap_zero by done. by split.
    + rewrite decide_False in * by done. set (l := nz (take n (drop (S k) (d_addrs di)))) in *.
      destruct (fb_used _ _ _ Hfr b) as [Hrng Hu]; [by left|].
      destruct (bfree_state d di b Hb Hr Hrng Hu) as (d1&E1&F1&B1&R1).
      rewrite !bind_bind, (bind_Ret _ _ _ _ _ E1), bind_modd by done.
      assert (Hd2 : drop (S k) (d_addrs (set_addr k 0 di)) = drop (S k) (d_addrs di)).
      { cbn. by rewrite drop_insert_lt by lia. }
      destruct (IH (S k) d1 (set_addr k 0 di)) as (d'&E&HF&Hr'); try done.
      { lia. }
      { cbn. by rewrite length_insert. }
      { rewrite Hd2. fold l. by eapply freeable_rest. }
      rewrite Hd2 in HF. fold l in HF. exists d'. rewrite E. split; [|split; [by eapply freed_cons|done]].
      cbn [d_addrs set_addr]. rewrite zap_step by lia. done.
Qed.

Lemma trunc_indirect_spec n : forall j a d di,
  blocks_ok d -> reserved_used (sb s) d ->
  let l := (fun j => get32 a (4 * j)) <$> seq j n in
  freeable (sb s) d (nz l) ->
  exists d', trunc_indirect n j ROOTDEV a (file_state s ip d di) = Ret tt (file_state s ip d' di) /\
    freed_all (sb s) (nz l) d d' /\ reserved_used (sb s) d'.
Proof using He.
  pose proof He as [Hip Hdev L].
  induction n as [|n IH]; intros j a d di Hb Hr l Hfr; unfold l in *.
  - exists d. split; [done|]. split; [exact (freed_nil _ _ Hb)|done].
  - cbn [trunc_indirect]. clear l. change (seq j (S n)) with (j :: seq (S j) n) in *.
    rewrite fmap_cons in *.
    set (l' := (fun j => get32 a (4 * j)) <$> seq (S j) n) in *. set (b := get32 a (4 * j)) in *.
    assert (Hnz : nz (b :: l') = if decide (b = 0) then nz l' else b :: nz l').
    { unfold nz. rewrite filter_cons. destruct (decide (b <> 0)), (decide (b = 0)); done. }
    rewrite Hnz in *. destruct (Z.eqb_spec b 0) as [Eb|Hb0]; cbn [negb].
    + rewrite decide_True in * by done. rewrite bind_mret. by apply IH.
    + rewrite decide_False in * by done. destruct (fb_used _ _ _ Hfr b) as [Hrng Hu]; [by left|].
      destruct (bfree_state d di b Hb Hr Hrng Hu) as (d1&E1&F1&B1&R1).
      rewrite (bind_Ret _ _ _ _ _ E1).
      destruct (IH (S j) a d1 di B1 R1) as (d'&E&HF&Hr'); [by eapply freeable_rest|].
      exists d'. split; [exact E|]. split; [by eapply freed_cons|done].
Qed.

End trunc.

(** ** The blocks of a file as a list *)

Definition entries (d : Z -> block) (di : dinode) : list Z :=
  if indirect di =? 0 then [] else (fun j => get32 (d (indirect di)) (4 * j)) <$> seq 0 128.

Definition all_blocks (d : Z -> block) (di : dinode) : list Z :=
  nz (take 12 (d_addrs di)) ++ nz (entries d di) ++ nz [indirect di].

(** Positions of the file in order. *)
Lemma fblock_list sp d di :
  blocks_wf sp d di -> indirect di <> 0 ->
  take 12 (d_addrs di) ++ entries d di = (fun k => fblock d di (Z.of_nat k)) <$> seq 0 140.
Proof.
  intros Hw Hi. pose proof (bw_len _ _ _ Hw) as Hl. unfold entries. rewrite (proj2 (Z.eqb_neq _ _) Hi).
  change 140%nat with (12 + 128)%nat. rewrite seq_app, fmap_app. f_equal.
  - apply list_eq_same_length with 12%nat; [done|rewrite length_take; lia|].
    intros k x y Hk. rewrite lookup_take_lt, list_lookup_fmap, lookup_seq_lt by done. cbn.
    intros Hx [= <-]. unfold fblock, NDIRECT. rewrite (proj2 (Z.ltb_lt _ _)) by lia.
    rewrite Nat2Z.id, nth_lookup, Hx. done.
  - rewrite <- (Nat.add_0_r (0 + 12)), <- fmap_add_seq, <- list_fmap_compose.
    apply list_fmap_ext. intros i k [-> Hk]%lookup_seq. cbn. unfold fblock, NDIRECT.
    rewrite (proj2 (Z.ltb_ge _ _)) by lia. rewrite (proj2 (Z.eqb_neq _ _) Hi). f_equal. lia.
Qed.

Lemma nz_app l1 l2 : nz (l1 ++ l2) = nz l1 ++ nz l2.
Proof. apply filter_app. Qed.

Lemma elem_nz l x : x ∈ nz l <-> x <> 0 /\ x ∈ l.
Proof. unfold nz. by rewrite list_elem_of_filter. Qed.

(** Without an indirect block only direct positions are there. *)
Lemma fblock_direct d di k :
  indirect di = 0 -> 0 <= k -> fblock d di k = if k <? 12 then nth (Z.to_nat k) (take 12 (d_addrs di)) 0 else 0.
Proof.
  intros Hi Hk. unfold fblock, NDIRECT. rewrite Hi. change (0 =? 0) with true.
  destruct (Z.ltb_spec k 12); [|done]. rewrite !nth_lookup, lookup_take_lt by lia. done.
Qed.

Lemma elem_all_blocks sp d di x : blocks_wf sp d di -> x ∈ all_blocks d di <-> owns d di x.
Proof.
  intros Hw. pose proof (bw_len _ _ _ Hw) as Hl. unfold all_blocks, owns.
  rewrite app_assoc, <- nz_app, elem_of_app, !elem_nz, list_elem_of_singleton.
  destruct (decide (indirect di = 0)) as [Hi|Hi].
  - unfold entries. rewrite Hi. change (0 =? 0) with true. rewrite app_nil_r. split.
    + intros [[Hx Hin]|[? ?]]; [|done]. split; [done|]. right.
      apply list_elem_of_lookup in Hin as [k Hk]. pose proof (lookup_lt_Some _ _ _ Hk) as Hlt.
      rewrite length_take in Hlt. exists (Z.of_nat k). split; [change MAXFILE with 140; lia|].
      rewrite fblock_direct by lia. rewrite (proj2 (Z.ltb_lt _ _)) by lia.
      by rewrite Nat2Z.id, nth_lookup, Hk.
    + intros [Hx [?|(k&Hk&E)]]; [done|]. left. split; [done|]. rewrite fblock_direct in E by lia.
      destruct (Z.ltb_spec k 12); [|done]. rewrite E, nth_lookup.
      destruct (take 12 (d_addrs di) !! Z.to_nat k) eqn:Ek; [|by rewrite nth_lookup, Ek in E].
      by eapply list_elem_of_lookup_2.
  - rewrite (fblock_list sp d di Hw Hi), list_elem_of_fmap. split.
    + intros [[Hx (k&->&Hk)]|[Hx ->]]; [|by auto]. split; [done|]. right. apply elem_of_seq in Hk.
      exists (Z.of_nat k). split; [change MAXFILE with 140; lia|done].
    + intros [Hx [->|(k&Hk&->)]]; [by right|]. left. split; [done|]. exists (Z.to_nat k).
      change MAXFILE with 140 in Hk. rewrite Z2Nat.id by lia. split; [done|]. apply elem_of_seq. lia.
Qed.

(** A list of positions with injective non-zero entries has no duplicates. *)
Lemma nz_nodup (g : nat -> Z) n :
  (forall j k, (j < n)%nat -> (k < n)%nat -> g j <> 0 -> g j = g k -> j = k) -> NoDup (nz (g <$> seq 0 n)).
Proof.
  induction n as [|n IH]; intros Hg; [constructor|]. rewrite seq_S, fmap_app, nz_app. apply NoDup_app.
  split; [apply IH; intros j k Hj Hk; apply Hg; lia|]. split.
  - intros x (Hx&(j&->&Hj%elem_of_seq)%list_elem_of_fmap)%elem_nz (_&Hin)%elem_nz.
    apply list_elem_of_singleton in Hin. apply Hg in Hin; lia.
  - unfold nz. cbn. destruct (decide (g n <> 0)); [apply NoDup_singleton|constructor].
Qed.

Lemma all_blocks_freeable sp d di : blocks_wf sp d di -> freeable sp d (all_blocks d di).
Proof.
  intros Hw. split; [|intros b Hb; by apply (bw_owns _ _ _ Hw), (elem_all_blocks sp)].
  unfold all_blocks. rewrite app_assoc, <- nz_app.
  destruct (decide (indirect di = 0)) as [Hi|Hi].
  - unfold entries, nz at 2. rewrite Hi. change (0 =? 0) with true. cbn [filter list_filter].
    rewrite decide_False by (intros Hn; by apply Hn). rewrite !app_nil_r.
    replace (take 12 (d_addrs di)) with ((fun k => fblock d di (Z.of_nat k)) <$> seq 0 12).
    { apply nz_nodup. intros j k Hj Hk Hnz E. apply Nat2Z.inj. apply (bw_inj _ _ _ Hw); try done;
        change MAXFILE with 140; lia. }
    pose proof (bw_len _ _ _ Hw) as Hl. apply list_eq_same_length with 12%nat; [rewrite length_take; lia|done|].
    intros k x y Hk. rewrite list_lookup_fmap, lookup_seq_lt by done. cbn. intros [= <-] Hy.
    rewrite fblock_direct by lia. rewrite (proj2 (Z.ltb_lt _ _)) by lia.
    by rewrite Nat2Z.id, nth_lookup, Hy.
  - rewrite (fblock_list sp d di Hw Hi). apply NoDup_app. split; [|split].
    + apply nz_nodup. intros j k Hj Hk Hnz E. apply Nat2Z.inj. apply (bw_inj _ _ _ Hw); try done;
        change MAXFILE with 140; lia.
    + intros x (Hx&(k&->&Hk%elem_of_seq)%list_elem_of_fmap)%elem_nz (_&Hin)%elem_nz.
      apply list_elem_of_singleton in Hin. apply (bw_ind _ _ _ Hw (Z.of_nat k)) in Hin; [done| |done].
      change MAXFILE with 140; lia.
    + unfold nz. cbn. destruct (decide (indirect di <> 0)); [apply NoDup_singleton|constructor].
Qed.

(** ** itrunc *)

Lemma freed_reserved sp size l d d' :
  layout sp size -> freeable sp d l -> freed_all sp l d d' -> reserved_used sp d -> reserved_used sp d'.
Proof.
  intros L [_ U] [F1 _ _] Hr x Hx. rewrite F1 by (destruct L; lia).
  rewrite decide_False; [by apply Hr|]. intros Hin. destruct (U x Hin). lia.
Qed.

Lemma zap_all l : length l = 13%nat -> <[12%nat := 0]> (zap 0 12 l) = replicate 13 0.
Proof.
  intros Hl. do 13 (destruct l as [|? l]; [done|]). by destruct l.
Qed.

Lemma zap_indirect l : length l = 13%nat -> nth 12 (zap 0 12 l) 0 = nth 12 l 0.
Proof.
  intros Hl. do 13 (destruct l as [|? l]; [done|]). by destruct l.
Qed.

Lemma zap_no_indirect l : length l = 13%nat -> nth 12 l 0 = 0 -> zap 0 12 l = replicate 13 0.
Proof.
  intros Hl. do 13 (destruct l as [|? l]; [done|]). destruct l; [|done]. cbn. by intros ->.
Qed.

(** The inode of an emptied file. *)
Definition emptied (di : dinode) : dinode := set_size 0 (set_addrs (replicate 13 0) di).

Lemma emptied_ok di : dinode_ok di -> dinode_ok (emptied di).
Proof.
  intros [O1 O2 O3 O4 O5 O6 O7]. split; [exact O1|exact O2|exact O3|exact O4| |reflexivity|].
  - change (is_u32 0). unfold is_u32. lia.
  - apply (Forall_replicate is_u32 13 0). unfold is_u32. lia.
Qed.

(** Freeing the blocks, before the inode is written back. *)
Lemma itrunc_blocks s ip d di :
  file_env s ip -> disk_ok (sb s) d di ->
  exists d', trunc_blocks ip (file_state s ip d di) =
    Ret tt (file_state s ip d' (set_addrs (replicate 13 0) di)) /\
  freed_all (sb s) (all_blocks d di) d d'.
Proof.
  intros He [D1 D2 D3]. pose proof He as [Hip Hdev L]. pose proof (bw_len _ _ _ D3) as Hl.
  pose proof (all_blocks_freeable _ _ _ D3) as Hfr. unfold all_blocks in *. unfold trunc_blocks.
  assert (E12 : Z.to_nat NDIRECT = 12%nat) by reflexivity.
  assert (E128 : Z.to_nat NINDIRECT = 128%nat) by reflexivity. rewrite E12, E128. clear E12 E128.
  pose proof (freeable_l _ _ _ _ Hfr) as Hfr1.
  destruct (trunc_direct_spec s ip He 12 0 d di) as (d1&E1&F1&R1); [lia|done..|]. rewrite drop_0 in F1.
  destruct (freeable_app _ _ _ _ _ _ L Hfr F1) as [_ Hfr2].
  rewrite (bind_Ret _ _ _ _ _ E1), bind_geti by done. unfold addr_of. cbn [i_di set_di i_dev set_addrs d_addrs].
  rewrite Hdev, zap_indirect by done. fold (indirect di).
  destruct (Z.eqb_spec (indirect di) 0) as [Hi|Hi]; cbn [negb].
  - exists d1. split.
    + rewrite zap_no_indirect by done. reflexivity.
    + unfold entries. rewrite Hi. change (0 =? 0) with true. cbn. by rewrite app_nil_r.
  - assert (Hoi : owns d di (indirect di)) by (split; [done|by left]).
    destruct (bw_owns _ _ _ D3 _ Hoi) as [Hri Hui]. destruct (datastart_pos _ _ L) as [HL1 HL2].
    assert (Hnb : ~ is_bmap (sb s) (indirect di)) by (intros [? ?]; lia).
    rewrite bind_readb by (cbn; destruct L; lia). cbn [fsdisk file_state set_disk].
    rewrite (fa_frame _ _ _ _ F1 _ Hnb).
    assert (Een : entries d di = (fun j => get32 (d (indirect di)) (4 * j)) <$> seq 0 128).
    { unfold entries. by rewrite (proj2 (Z.eqb_neq _ _) Hi). }
    rewrite Een in *.
    pose proof (freeable_l _ _ _ _ Hfr2) as Hfr3.
    destruct (trunc_indirect_spec s ip He 128 0 (d (indirect di)) d1 (set_addrs (zap 0 12 (d_addrs di)) di))
      as (d2&E2&F2&R2); [apply F1|done|done|].
    destruct (freeable_app _ _ _ _ _ _ L Hfr2 F2) as [_ Hfr4].
    rewrite (bind_Ret _ _ _ _ _ E2).
    assert (Enz : nz [indirect di] = [indirect di]).
    { unfold nz. rewrite filter_cons. by rewrite decide_True. }
    rewrite Enz in *. destruct (fb_used _ _ _ Hfr4 (indirect di)) as [_ Hu4]; [by left|].
    destruct (bfree_state s ip He d2 (set_addrs (zap 0 12 (d_addrs di)) di) (indirect di))
      as (d3&E3&F3&B3&R3); [apply F2|done|done|done|].
    rewrite (bind_Ret _ _ _ _ _ E3), run_modd by done. exists d3. split.
    + unfold set_addr. cbn [d_addrs set_addrs]. rewrite zap_all by done. reflexivity.
    + eapply freed_app; [exact F1|]. eapply freed_app; [exact F2|]. eapply freed_cons; [exact F3|].
      by apply freed_nil.
Qed.

(** What [itrunc] promises. *)
Record truncated (s : fs) (ip : nat) (s' : fs) : Prop := {
  tr_inode : inodeat s' ip = set_di (i_valid (inodeat s ip)) (emptied (i_di (inodeat s ip))) (inodeat s ip);
  tr_synced : dinode_at (sb s) (fsdisk s') (i_inum (inodeat s ip)) = emptied (i_di (inodeat s ip));
  tr_used x : 0 <= x < sb_size (sb s) ->
    used (sb s) (fsdisk s') x = true <->
    used (sb s) (fsdisk s) x = true /\ ~ owns (fsdisk s) (i_di (inodeat s ip)) x;
  tr_frame x : datastart (sb s) <= x -> fsdisk s' x = fsdisk s x;
  tr_apart dj : apart (sb s) (fsdisk s) (i_di (inodeat s ip)) dj ->
    blocks_wf (sb s) (fsdisk s') dj /\
    fbytes (fsdisk s') dj 0 (d_size dj) = fbytes (fsdisk s) dj 0 (d_size dj);
  tr_inodes j : 0 <= j < sb_ninodes (sb s) -> j <> i_inum (inodeat s ip) ->
    dinode_at (sb s) (fsdisk s') j = dinode_at (sb s) (fsdisk s) j;
  tr_ok : fs_ok s';
}.

(** Another file keeps its blocks when only bitmap and inode blocks change and
    its marks stay. *)
Lemma kept_wf sp size d d' dj :
  layout sp size -> blocks_wf sp d dj -> no_holes d dj ->
  (forall x, datastart sp <= x -> d' x = d x) ->
  (forall x, owns d dj x -> used sp d' x = true) ->
  blocks_wf sp d' dj /\ fbytes d' dj 0 (d_size dj) = fbytes d dj 0 (d_size dj).
Proof.
  intros L Hw Hh Hd Hu. destruct Hw as [W1 W2 W3 W4].
  assert (Hfb : forall k, fblock d' dj k = fblock d dj k).
  { intros k. unfold fblock. destruct (k <? NDIRECT); [done|].
    destruct (Z.eqb_spec (indirect dj) 0) as [|Hnz]; [done|]. rewrite Hd; [done|].
    apply (W2 (indirect dj)). split; [done|by left]. }
  assert (Hown : forall b, owns d' dj b <-> owns d dj b).
  { intros b. unfold owns. by setoid_rewrite Hfb. }
  split; [split; [done| | |]|].
  - intros b Hb%Hown. destruct (W2 b Hb) as [Hr _]. split; [done|by apply Hu].
  - intros j k Hj Hk. rewrite !Hfb. by apply W3.
  - intros k Hk. rewrite Hfb. by apply W4.
  - apply fbytes_ext. intros x Hx. unfold fbyte. rewrite Hfb, Hd; [done|]. apply W2.
    destruct Hh as [H1 H2]. split.
    + apply H2; [apply Z.div_pos; [lia|reflexivity]|].
      pose proof (Z.mul_div_le x BSIZE ltac:(reflexivity)). lia.
    + right. exists (x / BSIZE). split; [apply div_block; lia|done].
Qed.

Lemma itrunc_spec s ip :
  file_env s ip -> disk_ok (sb s) (fsdisk s) (i_di (inodeat s ip)) -> dinode_ok (i_di (inodeat s ip)) ->
  0 <= i_inum (inodeat s ip) < sb_ninodes (sb s) ->
  exists s', itrunc ip s = Ret tt s' /\ truncated s ip s' /\
    exists d', s' = file_state s ip d' (emptied (i_di (inodeat s ip))).
Proof.
  intros He Hd Hdi Hn. pose proof He as [Hip Hdev L]. pose proof Hd as [D1 D2 D3].
  set (di := i_di (inodeat s ip)) in *. set (inum := i_inum (inodeat s ip)) in *.
  destruct (datastart_pos _ _ L) as [HL1 HL2]. destruct (IBLOCK_range _ _ _ L Hn) as [_ Hib].
  pose proof (all_blocks_freeable _ _ _ D3) as Hfr.
  destruct (itrunc_blocks s ip (fsdisk s) di He Hd) as (d1&E1&F1).
  unfold di in E1 at 1. rewrite state_id in E1 by done.
  pose proof (freed_reserved _ _ _ _ _ L Hfr F1 D2) as R1.
  destruct (iupdate_spec s ip d1 (emptied di) He (fa_blocks _ _ _ _ F1) (emptied_ok _ Hdi) Hn) as (d2&E2&Hst).
  exists (file_state s ip d2 (emptied di)).
  assert (Hus : forall x, 0 <= x < sb_size (sb s) ->
    used (sb s) d2 x = true <-> used (sb s) (fsdisk s) x = true /\ ~ owns (fsdisk s) di x).
  { intros x Hx. rewrite (stored_used _ (fssize s) _ _ _ _ _ L Hn Hst) by done.
    rewrite (fa_used _ _ _ _ F1) by done. rewrite <- (elem_all_blocks _ _ _ x D3).
    destruct (decide (x ∈ all_blocks (fsdisk s) di)); naive_solver. }
  assert (Hfrm : forall x, datastart (sb s) <= x -> d2 x = fsdisk s x).
  { intros x Hx. rewrite (is_frame _ _ _ _ _ Hst) by (fold inum; lia). apply (fa_frame _ _ _ _ F1).
    intros [_ ?]. lia. }
  split; [|split].
  - unfold itrunc. rewrite (bind_Ret _ _ _ _ _ E1), bind_modd by done. exact E2.
  - split; cbn [fsdisk file_state set_disk].
    + by apply state_inode.
    + apply Hst.
    + done.
    + done.
    + intros dj [P1 P2 P3]. apply (kept_wf _ (fssize s)); try done.
      intros x Hx. destruct (bw_owns _ _ _ P1 x Hx) as [Hr Hu]. apply Hus; [lia|]. split; [done|].
      by apply P3.
    + intros j Hj Hne. rewrite (is_other _ _ _ _ _ Hst) by done. unfold dinode_at.
      rewrite (fa_frame _ _ _ _ F1); [done|]. destruct (IBLOCK_range _ _ _ L Hj). intros [? ?]. lia.
    + apply state_ok; [done|apply Hst|]. intros x Hx. rewrite (stored_used _ (fssize s) _ _ _ _ _ L Hn Hst).
      * by apply R1.
      * destruct L. lia.
  - eauto.
Qed.

(** ** Theorems *)

(** C18: [itrunc] of a well-formed file returns; the file is empty, in memory and
    on disk, exactly the blocks of the file are marked free (each freed once),
    and all other files and inodes are unchanged. *)
Theorem itrunc_frees s ip :
  file_env s ip -> disk_ok (sb s) (fsdisk s) (i_di (inodeat s ip)) -> dinode_ok (i_di (inodeat s ip)) ->
  0 <= i_inum (inodeat s ip) < sb_ninodes (sb s) ->
  exists s', itrunc ip s = Ret tt s' /\ truncated s ip s'.
Proof.
  intros H1 H2 H3 H4. destruct (itrunc_spec s ip H1 H2 H3 H4) as (s'&E&Ht&_). by exists s'.
Qed.

Lemma inodeat_upd s ip f j :
  (ip < length (icache s))%nat ->
  inodeat (upd_inode ip f s) j = if decide (j = ip) then f (inodeat s ip) else inodeat s j.
Proof.
  intros Hip. unfold upd_inode, set_icache. unfold inodeat at 1 4. cbn [icache].
  rewrite !nth_lookup. destruct (decide (j = ip)) as [->|Hne].
  - by rewrite list_lookup_insert_eq.
  - by rewrite list_lookup_insert_ne.
Qed.

Lemma length_upd ip f s : length (icache (upd_inode ip f s)) = length (icache s).
Proof. apply length_insert. Qed.

Lemma length_state s ip d di : length (icache (file_state s ip d di)) = length (icache s).
Proof. apply length_insert. Qed.

Lemma upd_upd ip f g s :
  (ip < length (icache s))%nat -> upd_inode ip g (upd_inode ip f s) = upd_inode ip (fun i => g (f i)) s.
Proof.
  intros Hip. unfold upd_inode at 1. rewrite inodeat_upd, decide_True by done.
  unfold upd_inode, set_icache. cbn. f_equal. apply list_insert_insert_eq.
Qed.

(** The last reference to an unlinked file. *)
Definition last_reference (i : inode) : bool := i_valid i && (d_nlink (i_di i) =? 0) && (i_ref i =? 1).

(** Dropping the last reference to a file with no links frees it: its blocks
    are free again, the on-disk inode is type 0 and the cache entry unused; in
    every other case [iput] only decrements the reference count. *)
Theorem iput_last_reference s ip :
  file_env s ip -> i_lock (inodeat s ip) = None ->
  disk_ok (sb s) (fsdisk s) (i_di (inodeat s ip)) -> dinode_ok (i_di (inodeat s ip)) ->
  0 <= i_inum (inodeat s ip) < sb_ninodes (sb s) -> 1 <= i_ref (inodeat s ip) < 2 ^ 31 ->
  if last_reference (inodeat s ip) then
    exists s', iput ip s = Ret tt s' /\ i_ref (inodeat s' ip) = 0 /\ i_valid (inodeat s' ip) = false /\
      d_type (dinode_at (sb s) (fsdisk s') (i_inum (inodeat s ip))) = 0 /\
      forall x, 0 <= x < sb_size (sb s) ->
        used (sb s) (fsdisk s') x = true <->
        used (sb s) (fsdisk s) x = true /\ ~ owns (fsdisk s) (i_di (inodeat s ip)) x
  else iput ip s = Ret tt (upd_inode ip (fun i => set_ref (i_ref i - 1) i) s).
Proof.
  intros He Hlk Hd Hdi Hn Href. pose proof He as [Hip Hdev L].
  unfold last_reference, iput, iacquire.
  set (s1 := upd_inode ip (set_ilock (Some (fspid s))) s).
  assert (E0 : (fun s0 => match i_lock (inodeat s0 ip) with
      | Some _ => Sleep (Z.of_nat ip) s0
      | None => modi ip (set_ilock (Some (fspid s0))) s0 end) s = Ret tt s1) by by rewrite Hlk.
  rewrite (bind_Ret _ _ _ _ _ E0), run_geti.
  assert (E1 : inodeat s1 ip = set_ilock (Some (fspid s)) (inodeat s ip)).
  { unfold s1. by rewrite inodeat_upd, decide_True. }
  rewrite E1. cbn [i_valid i_di i_ref set_ilock].
  assert (Hip1 : (ip < length (icache s1))%nat) by (cbn; by rewrite length_insert).
  destruct (i_valid (inodeat s ip) && (d_nlink (i_di (inodeat s ip)) =? 0) && (i_ref (inodeat s ip) =? 1)) eqn:Ec.
  - apply andb_true_iff in Ec as [_ Er%Z.eqb_eq].
    assert (He1 : file_env s1 ip) by (split; [done|by rewrite E1|done]).
    destruct (itrunc_spec s1 ip He1) as (s2&E2&Ht&d2&Es2); [by rewrite E1..|].
    rewrite E1 in Es2. cbn [i_di i_inum set_ilock] in Es2.
    set (di2 := emptied (i_di (inodeat s ip))) in *.
    rewrite !bind_bind, (bind_Ret _ _ _ _ _ E2), Es2, bind_bind, bind_modd by done.
    destruct (iupdate_spec s1 ip d2 (set_type 0 di2) He1) as (d3&E3&Hst).
    { pose proof (fk_blocks _ (tr_ok _ _ _ Ht)) as Hb. by rewrite Es2 in Hb. }
    { pose proof (emptied_ok _ Hdi) as [O1 O2 O3 O4 O5 O6 O7]. by split. }
    { by rewrite E1. }
    rewrite bind_bind, (bind_Ret _ _ _ _ _ E3). rewrite E1 in Hst. cbn [i_inum set_ilock] in Hst.
    change (sb s1) with (sb s) in Hst.
    unfold irelease. rewrite !bind_modi.
    eexists. split; [reflexivity|].
    rewrite !inodeat_upd by (rewrite ?length_upd, ?length_state; done). rewrite !decide_True by done.
    rewrite state_inode by done. rewrite E1.
    cbn [fsdisk set_disk upd_inode set_icache file_state i_ref i_valid set_ref set_ilock set_di].
    split; [by rewrite Er|]. split; [done|]. split; [by rewrite (is_at _ _ _ _ _ Hst)|].
    intros x Hx. rewrite (stored_used _ (fssize s) _ _ _ _ _ L Hn Hst) by done.
    pose proof (tr_used _ _ _ Ht x Hx) as Hu. rewrite Es2, E1 in Hu. exact Hu.
  - rewrite bind_mret. unfold irelease, modi. rewrite bind_modify. unfold modify. f_equal.
    unfold s1. rewrite !upd_upd by (cbn; rewrite ?length_insert; done).
    unfold upd_inode. f_equal. f_equal. unfold set_ref, set_ilock. cbn. f_equal.
    + apply i32_id. lia.
    + by rewrite Hlk.
Qed.

(** ** Instances of the theorems *)

Lemma itrunc_frees_witness :
  exists s', itrunc 0 wit_fs = Ret tt s' /\ used small_sb (fsdisk s') 5 = false.
Proof.
  pose proof wit_file_ok as [F1 F2 F3 F4 F5 F6 F7].
  destruct (itrunc_frees wit_fs 0 F1 F2 F4 F5) as (s'&E&Ht). exists s'. split; [exact E|].
  destruct (used small_sb (fsdisk s') 5) eqn:Eu; [|done].
  apply (tr_used _ _ _ Ht 5) in Eu as [_ Hn]; [|vm_compute; done]. destruct Hn. by apply wit_owns.
Defined.

(** The same file, unlinked. *)
Definition gone_fs : fs :=
  Fs wit_disk 100 small_sb (Inode ROOTDEV 1 1 None true (set_nlink 0 wit_di) :: replicate 49 inode0) 0 1.

Lemma iput_last_reference_witness :
  exists s', iput 0 gone_fs = Ret tt s' /\ i_ref (inodeat s' 0) = 0 /\
    d_type (dinode_at small_sb (fsdisk s') 1) = 0.
Proof.
  pose proof wit_file_ok as [[F1 F1' F1''] [F2 F2' F2''] F3 F4 F5 F6 F7].
  destruct (iput_last_reference gone_fs 0) as (s'&E&H1&_&H2&_).
  - split; [exact F1|reflexivity|exact F1''].
  - reflexivity.
  - split; [exact F2|exact F2'|]. destruct F2'' as [W1 W2 W3 W4].
    split; [exact W1|exact W2|exact W3|exact W4].
  - destruct F4 as [O1 O2 O3 O4 O5 O6 O7]. split; assumption.
  - exact F5.
  - vm_compute. done.
  - exists s'. split; [exact E|]. split; [exact H1|exact H2].
Defined.
