(* ===== verification/Grep.v ===== *)
(** The user program grep (grep.c): its regular expression matcher against the
    language of the pattern, and its line-buffering loop against the lines of
    the input, for every way [read] may cut the input into pieces. *)

From S2P Require Import Prelude CString.

Definition caret : Z := 94.
Definition dot : Z := 46.
Definition star : Z := 42.
Definition dollar : Z := 36.
Definition newline : Z := 10.

(** ** The matcher *)

Definition at_end (s : list Z) : bool := deref s =? 0.

(** [matchstar(c, re, text)], with [matchhere(re, .)] as [mh]. *)
Fixpoint matchstar (mh : list Z -> bool) (c : Z) (text : list Z) : bool :=
  mh text ||
  match text with
  | [] => false
  | t :: text' =>
      negb (t =? 0) && ((t =? c) || (c =? dot)) && matchstar mh c text'
  end.

Fixpoint matchhere (re : list Z) (text : list Z) : bool :=
  match re with
  | [] => true
  | c :: re1 =>
      if c =? 0 then true
      else
        match re1 with
        | [] =>
            if c =? dollar then at_end text
            else negb (at_end text) && ((c =? dot) || (c =? deref text))
        | s :: re2 =>
            if s =? star then matchstar (matchhere re2) c text
            else if (c =? dollar) && (s =? 0) then at_end text
            else if negb (at_end text) && ((c =? dot) || (c =? deref text))
            then matchhere re1 (tail text)
            else false
        end
  end.

(** The loop of [match]. *)
Fixpoint match_from (re text : list Z) : bool :=
  matchhere re text ||
  match text with
  | [] => false
  | t :: text' => negb (t =? 0) && match_from re text'
  end.

Definition match_ (re text : list Z) : bool :=
  if deref re =? caret then matchhere (tail re) text else match_from re text.

(** ** The loop over the input *)

(** The lines in [buf]: [acc] is the line read so far.  The output, and the
    bytes from [p] on when no newline is left. *)
Fixpoint grep_lines (pattern acc s : list Z) : list Z * list Z :=
  match s with
  | [] => ([], acc)
  | c :: s' =>
      if c =? 0 then ([], acc ++ s)
      else if c =? newline then
        let (out, rest) := grep_lines pattern [] s' in
        ((if match_ pattern acc then acc ++ [newline] else []) ++ out, rest)
      else grep_lines pattern (acc ++ [c]) s'
  end.

Definition GREPBUF : nat := 1024.

(** [grep]: the [k]-th [read] returns at most [k]-th of [sched] plus one bytes;
    [carry] is what is in [buf] before it. *)
Fixpoint grep_loop (pattern : list Z) (sched : list nat) (input carry : list Z) : list Z :=
  match sched with
  | [] => []
  | k :: sched =>
      let n := Nat.min (S k) (Nat.min (GREPBUF - length carry - 1) (length input)) in
      match n with
      | O => []
      | _ =>
          let buf := carry ++ take n input in
          let (out, rest) := grep_lines pattern [] buf in
          let carry := if (length rest =? length buf)%nat then [] else rest in
          out ++ grep_loop pattern sched (drop n input) carry
      end
  end.

Definition grep (pattern : list Z) (sched : list nat) (input : list Z) : list Z :=
  grep_loop pattern sched input [].

(** ** The language of a pattern *)

(** Character [t] is matched by pattern character [c]. *)
Definition char_ok (c t : Z) : Prop := c = dot \/ c = t.

(** [here re text]: a prefix of [text] is matched by [re]. *)
Inductive here : list Z -> list Z -> Prop :=
| here_nil text : here [] text
| here_star c re text1 text2 :
    Forall (char_ok c) text1 -> here re text2 -> here (c :: star :: re) (text1 ++ text2)
| here_end : here [dollar] []
| here_char c re t text :
    hd_error re <> Some star -> ~ (c = dollar /\ re = []) ->
    char_ok c t -> here re text -> here (c :: re) (t :: text).

Definition plain (s : list Z) : Prop := Forall (fun c => c <> 0) s.

Create HintDb grep.
#[local] Hint Constructors here : grep.

Lemma char_okb c t : ((c =? dot) || (c =? t)) = true <-> char_ok c t.
Proof. unfold char_ok. rewrite orb_true_iff, !Z.eqb_eq. done. Qed.

Lemma matchstar_spec (mh : list Z -> bool) c text :
  plain text ->
  matchstar mh c text = true <->
  exists t1 t2, text = t1 ++ t2 /\ Forall (char_ok c) t1 /\ mh t2 = true.
Proof.
  induction 1 as [|t text Ht Hp IH]; cbn [matchstar].
  - rewrite orb_false_r. split.
    + intros H. by exists [], [].
    + intros (t1&t2&E&_&H). symmetry in E. by apply app_eq_nil in E as [-> ->].
  - rewrite (proj2 (Z.eqb_neq _ _) Ht). cbn [negb andb].
    rewrite orb_true_iff, andb_true_iff, IH.
    assert (Ec : ((t =? c) || (c =? dot)) = true <-> char_ok c t).
    { unfold char_ok. rewrite orb_true_iff, !Z.eqb_eq. naive_solver. }
    split.
    + intros [H|[Hc (t1&t2&->&HF&H)]]; [by exists [], (t :: text)|].
      exists (t :: t1), t2. split; [done|]. split; [|done]. constructor; [by apply Ec|done].
    + intros ([|x t1]&t2&E&HF&H); cbn in E.
      * left. by rewrite E.
      * injection E as <- ->. apply Forall_cons in HF as [Hx HF]. right. split; [by apply Ec|eauto].
Qed.

Lemma at_end_nil text : plain text -> at_end text = true <-> text = [].
Proof.
  unfold at_end. destruct 1 as [|t text Ht Hp]; [done|]. cbn. rewrite Z.eqb_eq. done.
Qed.

(** One ordinary pattern character. *)
Lemma step_char c re text :
  plain text -> hd_error re <> Some star -> ~ (c = dollar /\ re = []) ->
  here (c :: re) text <->
  (negb (at_end text) && ((c =? dot) || (c =? deref text))) = true /\ here re (tail text).
Proof.
  intros Hp Hs Hd. split.
  - inversion 1; subst; [by destruct Hs|by destruct Hd|].
    apply Forall_cons in Hp as [Ht _]. unfold at_end. cbn [deref tail].
    rewrite (proj2 (Z.eqb_neq _ _) Ht). split; [|done]. by apply char_okb.
  - intros [[Hn Hc%char_okb]%andb_true_iff Hh]. destruct text as [|t text]; [done|].
    cbn in *. by apply here_char.
Qed.

Lemma matchhere_spec n : forall re text,
  (length re <= n)%nat -> plain re -> plain text -> matchhere re text = true <-> here re text.
Proof.
  induction n as [|n IH]; intros [|c re1] text Hl Hre Htx; cbn in Hl; try lia.
  1,2: split; [intros _; constructor|done].
  apply Forall_cons in Hre as [Hc Hre]. cbn [matchhere]. rewrite (proj2 (Z.eqb_neq _ _) Hc).
  destruct re1 as [|s re2].
  - destruct (Z.eqb_spec c dollar) as [->|Hd].
    + rewrite at_end_nil by done. split; [intros ->; constructor|]. inversion 1; subst; [done|].
      tauto.
    + rewrite step_char by (done || naive_solver). split; [intros H; split; [done|constructor]|by intros [? _]].
  - apply Forall_cons in Hre as [Hs Hre].
    destruct (Z.eqb_spec s star) as [->|Hst].
    + rewrite matchstar_spec by done. split.
      * intros (t1&t2&->&HF&H). constructor; [done|]. apply IH; [cbn in Hl; lia|done| |done].
        by apply Forall_app in Htx as [_ ?].
      * inversion 1; subst; [|done]. exists text1, text2. split; [done|]. split; [done|].
        apply IH; [cbn in Hl; lia|done| |done]. by apply Forall_app in Htx as [_ ?].
    + rewrite (proj2 (Z.eqb_neq _ _) Hs), andb_false_r.
      rewrite step_char; [|done|cbn; congruence|naive_solver].
      destruct (negb (at_end text) && _) eqn:E; [|split; [done|by intros [? _]]].
      rewrite IH; [tauto|cbn in *; lia|by constructor|]. by destruct Htx.
Qed.

Lemma match_from_spec re text :
  plain re -> plain text ->
  match_from re text = true <-> exists t1 t2, text = t1 ++ t2 /\ here re t2.
Proof.
  intros Hre. induction 1 as [|t text Ht Hp IH]; cbn [match_from].
  - rewrite orb_false_r, (matchhere_spec (length re)) by (done || constructor). split.
    + intros H. by exists [], [].
    + intros (t1&t2&E&H). symmetry in E. by apply app_eq_nil in E as [-> ->].
  - rewrite (proj2 (Z.eqb_neq _ _) Ht). cbn [negb andb].
    rewrite orb_true_iff, IH, (matchhere_spec (length re)) by (done || by constructor). split.
    + intros [H|(t1&t2&->&H)]; [by exists [], (t :: text)|by exists (t :: t1), t2].
    + intros ([|x t1]&t2&E&H); cbn in E; [left; by rewrite E|]. injection E as <- ->. right. eauto.
Qed.

(** ** Lines *)

(** The complete lines of the input and the incomplete last one. *)
Fixpoint split_lines (acc s : list Z) : list (list Z) * list Z :=
  match s with
  | [] => ([], acc)
  | c :: s' =>
      if c =? newline then let (ls, r) := split_lines [] s' in (acc :: ls, r)
      else split_lines (acc ++ [c]) s'
  end.

(** The lines that match, with their newlines. *)
Definition print_matches (pattern : list Z) (ls : list (list Z)) : list Z :=
  mjoin ((fun l => if match_ pattern l then l ++ [newline] else []) <$> ls).

Lemma grep_lines_spec pattern s : forall acc,
  plain s -> grep_lines pattern acc s =
    (print_matches pattern (split_lines acc s).1, (split_lines acc s).2).
Proof.
  induction s as [|c s IH]; intros acc Hp; [done|]. apply Forall_cons in Hp as [Hc Hp].
  cbn [grep_lines split_lines]. rewrite (proj2 (Z.eqb_neq _ _) Hc).
  destruct (Z.eqb_spec c newline) as [->|Hn]; [|by apply IH].
  rewrite IH by done. by destruct (split_lines [] s).
Qed.

Lemma split_lines_app s1 : forall acc s2,
  split_lines acc (s1 ++ s2) =
    let '(ls, r) := split_lines acc s1 in
    let '(ls2, r2) := split_lines r s2 in (ls ++ ls2, r2).
Proof.
  induction s1 as [|c s1 IH]; intros acc s2; cbn [app split_lines].
  - by destruct (split_lines acc s2).
  - destruct (c =? newline); [|apply IH]. rewrite IH.
    destruct (split_lines [] s1) as [ls r]. by destruct (split_lines r s2).
Qed.

(** The remainder is shorter exactly when there was a newline. *)
Lemma split_lines_rest s : forall acc,
  split_lines acc s = ([], acc ++ s) \/
  (length (split_lines acc s).2 < length acc + length s)%nat /\ (split_lines acc s).1 <> [].
Proof.
  induction s as [|c s IH]; intros acc; cbn [split_lines].
  - left. by rewrite app_nil_r.
  - destruct (c =? newline).
    + right. destruct (IH []) as [E|[Hl _]].
      * rewrite E. cbn. split; [lia|done].
      * destruct (split_lines [] s) as [ls r]. cbn in *. split; [lia|done].
    + destruct (IH (acc ++ [c])) as [E|[Hl Hn]].
      * left. rewrite E. by rewrite <- app_assoc.
      * right. rewrite length_app in Hl. cbn in *. split; [lia|done].
Qed.

Lemma split_lines_no_newline s : forall acc,
  newline ∉ s -> split_lines acc s = ([], acc ++ s).
Proof.
  induction s as [|c s IH]; intros acc Hn; cbn [split_lines]; [by rewrite app_nil_r|].
  apply not_elem_of_cons in Hn as [Hc Hn]. rewrite (proj2 (Z.eqb_neq _ _)) by done.
  rewrite IH by done. by rewrite <- app_assoc.
Qed.

Lemma rest_no_newline s : forall acc, newline ∉ acc -> newline ∉ (split_lines acc s).2.
Proof.
  induction s as [|c s IH]; intros acc Ha; cbn [split_lines]; [done|].
  destruct (Z.eqb_spec c newline).
  - specialize (IH []). destruct (split_lines [] s). cbn in *. apply IH, not_elem_of_nil.
  - apply IH. rewrite not_elem_of_app, list_elem_of_singleton. done.
Qed.

(** Every buffer [grep] looks at contains a newline. *)
Fixpoint lines_fit (sched : list nat) (input carry : list Z) : bool :=
  match sched with
  | [] => match input with [] => true | _ => false end
  | k :: sched =>
      let n := Nat.min (S k) (Nat.min (GREPBUF - length carry - 1) (length input)) in
      match n with
      | O => match input with [] => true | _ => false end
      | _ =>
          let buf := carry ++ take n input in
          bool_decide (newline ∈ buf) && lines_fit sched (drop n input) (split_lines [] buf).2
      end
  end.

Lemma grep_loop_spec pattern sched : forall input carry,
  plain input -> plain carry -> newline ∉ carry -> lines_fit sched input carry = true ->
  grep_loop pattern sched input carry =
    print_matches pattern (split_lines [] (carry ++ input)).1.
Proof.
  assert (Hdone : forall carry, newline ∉ carry -> [] = print_matches pattern (split_lines [] (carry ++ [])).1).
  { intros carry Hc. by rewrite app_nil_r, split_lines_no_newline. }
  induction sched as [|k sched IH]; intros input carry Hi Hc Hn Hf; cbn [grep_loop lines_fit] in *.
  { destruct input; [by apply Hdone|done]. }
  set (n := Nat.min (S k) _) in *. destruct n as [|n'] eqn:En.
  { destruct input; [by apply Hdone|done]. }
  rewrite <- En in *. clear n' En. set (buf := carry ++ take n input) in *.
  apply andb_true_iff in Hf as [Hnl%bool_decide_eq_true Hf].
  assert (Hb : plain buf).
  { apply Forall_app. split; [done|]. by apply Forall_take. }
  rewrite grep_lines_spec by done.
  assert (Es : split_lines [] (carry ++ input) =
    let '(ls, r) := split_lines [] buf in
    let '(ls2, r2) := split_lines r (drop n input) in (ls ++ ls2, r2)).
  { rewrite <- split_lines_app. unfold buf. by rewrite <- app_assoc, take_drop. }
  destruct (split_lines_rest buf []) as [E|[Hl _]].
  { destruct (rest_no_newline buf [] (not_elem_of_nil _)). by rewrite E. }
  pose proof (rest_no_newline buf [] (not_elem_of_nil _)) as Hrn.
  assert (Hrp : plain (split_lines [] buf).2).
  { clear -Hb. assert (Hg : forall s acc, plain s -> plain acc -> plain (split_lines acc s).2).
    { induction s as [|c s IH]; intros acc Hs Ha; cbn; [done|]. apply Forall_cons in Hs as [Hc Hs].
      destruct (c =? newline).
      - specialize (IH [] Hs). destruct (split_lines [] s). apply IH. constructor.
      - apply IH; [done|]. apply Forall_app. split; [done|]. by constructor. }
    apply Hg; [done|constructor]. }
  rewrite Es. destruct (split_lines [] buf) as [ls r]. cbn [fst snd length Nat.add] in *.
  rewrite (proj2 (Nat.eqb_neq _ _)) by lia.
  rewrite IH; [|by apply Forall_drop|done|done|done].
  rewrite split_lines_app, split_lines_no_newline by done. cbn [app].
  destruct (split_lines r (drop n input)) as [ls2 r2]. cbn [fst].
  unfold print_matches. by rewrite fmap_app, join_app.
Qed.

(** ** Theorems *)

(** C17: The matcher decides the language of the pattern: [match] accepts exactly
    the texts some part of which (the beginning, after [^]) is matched by the
    pattern with [.], [*] and [$]. *)
Theorem match_correct re text :
  plain re -> plain text ->
  match_ re text = true <->
  if deref re =? caret then here (tail re) text
  else exists t1 t2, text = t1 ++ t2 /\ here re t2.
Proof.
  intros Hre Htx. unfold match_. destruct (deref re =? caret).
  - apply (matchhere_spec (length (tail re))); [done| |done]. by destruct Hre; [constructor|].
  - by apply match_from_spec.
Qed.

(** However [read] cuts the input, as long as every buffer grep looks at has a
    newline, it prints exactly the complete lines of the input that match, in
    order. *)
Theorem grep_prints_matches pattern sched input :
  plain input -> lines_fit sched input [] = true ->
  grep pattern sched input = print_matches pattern (split_lines [] input).1.
Proof.
  intros Hi Hf. unfold grep.
  rewrite grep_loop_spec by (done || constructor || apply not_elem_of_nil). done.
Qed.

(** A piece of input without a newline is thrown away: a matching line read
    in two pieces is not printed. *)
Theorem grep_loses_partial_line :
  exists pattern sched input, plain input /\
    grep pattern sched input = [] /\ print_matches pattern (split_lines [] input).1 = input /\ input <> [].
Proof.
  exists [97], [0%nat; 1%nat; 0%nat], [97; 98; newline].
  split; [repeat constructor; done|]. split; [vm_compute; reflexivity|]. split; [vm_compute; reflexivity|done].
Qed.

(** ** Instances of the theorems *)

Lemma match_correct_witness : match_ [98; star; 99] [97; 99; 100] = true.
Proof.
  apply (match_correct [98; star; 99] [97; 99; 100]).
  - repeat constructor; done.
  - repeat constructor; done.
  - cbn. exists [97], [99; 100]. split; [reflexivity|].
    apply (here_star 98 [99] [] [99; 100]); [constructor|].
    apply here_char; [done|by intros [? _]|by right|constructor].
Defined.

Lemma grep_prints_matches_witness :
  grep [97] [2%nat; 9%nat] [97; newline; 98; newline; 99; 97; newline] = [97; newline; 99; 97; newline].
Proof.
  rewrite (grep_prints_matches [97] [2%nat; 9%nat] [97; newline; 98; newline; 99; 97; newline]).
  - reflexivity.
  - repeat constructor; done.
  - vm_compute. reflexivity.
Defined.
