(* ===== verification/Shell.v ===== *)
(** The shell (sh.c): tokens, the recursive-descent parser, the termination of
    argument strings in place, and the system calls a command makes.

    A [char*] into the command line is the suffix of the line it points to, up
    to [es]; [*s] at [es] is the terminating NUL.  The parser moves its pointer
    [*ps] as the state of the kernel monad, and panics with sh.c's messages. *)

From S2P Require Import Prelude CString.

(** ** Commands *)

Definition MAXARGS : Z := 10.
Definition O_RDONLY : Z := 0x000.
Definition O_WRONLY : Z := 0x001.
Definition O_RDWR : Z := 0x002.
Definition O_CREATE : Z := 0x200.

Section cmds.
Context {W : Type}.

Inductive cmd :=
| Exec (argv : list W)
| Redir (c : cmd) (file : W) (mode fd : Z)
| Pipe (left right : cmd)
| List (left right : cmd)
| Back (c : cmd).

End cmds.
Arguments cmd : clear implicits.

Fixpoint cmd_map {V W} (f : V -> W) (c : cmd V) : cmd W :=
  match c with
  | Exec argv => Exec (f <$> argv)
  | Redir c file mode fd => Redir (cmd_map f c) (f file) mode fd
  | Pipe l r => Pipe (cmd_map f l) (cmd_map f r)
  | List l r => List (cmd_map f l) (cmd_map f r)
  | Back c => Back (cmd_map f c)
  end.

(** A counted string: where it starts and where it ends. *)
Record word := Word { w_q : list Z; w_eq : list Z }.
Definition text (w : word) : list Z := take (length (w_q w) - length (w_eq w)) (w_q w).

(** A redirection before it is wrapped around a command. *)
Record redir := Redirection { r_file : word; r_mode : Z; r_fd : Z }.
Definition redircmd (c : cmd word) (r : redir) : cmd word := Redir c (r_file r) (r_mode r) (r_fd r).

(** ** Tokens *)

Definition whitespace : list Z := [32; 9; 13; 10; 11].
Definition symbols : list Z := [60; 124; 62; 38; 59; 40; 41].

Definition in_set (l : list Z) (c : Z) : bool := bool_decide (is_Some (strchr l c)).

Fixpoint skip_ws (s : list Z) : list Z :=
  match s with
  | [] => []
  | c :: s' => if in_set whitespace c then skip_ws s' else s
  end.

Fixpoint scan_word (s : list Z) : list Z :=
  match s with
  | [] => []
  | c :: s' => if negb (in_set whitespace c) && negb (in_set symbols c) then scan_word s' else s
  end.

(** The token's code, and the text [q .. eq] it covers. *)
Definition gettoken : kern (list Z) (Z * word) := fun s =>
  let q := skip_ws s in
  let c := deref q in
  let '(ret, eq) :=
    if c =? 0 then (c, q)
    else if in_set [124; 40; 41; 59; 38; 60] c then (c, tail q)
    else if c =? 62 then
      if deref (tail q) =? 62 then (43, tail (tail q)) else (c, tail q)
    else (97, scan_word q) in
  Ret (ret, Word q eq) (skip_ws eq).

Definition peek (toks : list Z) : kern (list Z) bool := fun s =>
  let s := skip_ws s in
  Ret (negb (deref s =? 0) && in_set toks (deref s)) s.

(** ** Parser *)

(** [parseredirs]: the redirections, in order. *)
Fixpoint parseredirs_loop (fuel : nat) (acc : list redir) : kern (list Z) (list redir) :=
  match fuel with
  | O => fun _ => Fuel
  | S fuel =>
      b ← peek [60; 62];
      if b : bool then
        tok ← gettoken;
        t ← gettoken;
        if negb (t.1 =? 97) then panic "missing file for redirection"
        else
          let r :=
            if tok.1 =? 60 then Redirection t.2 O_RDONLY 0
            else if tok.1 =? 62 then Redirection t.2 (Z.lor O_WRONLY O_CREATE) 1
            else Redirection t.2 (Z.lor O_WRONLY O_CREATE) 1 in
          parseredirs_loop fuel (acc ++ [r])
      else mret acc
  end.

(** Every iteration consumes a character. *)
Definition parseredirs (acc : list redir) : kern (list Z) (list redir) := fun s =>
  parseredirs_loop (S (length s)) acc s.

(** The argument loop of [parseexec].  The [execcmd] is filled in while [ret]
    already points to redirections around it: the arguments so far and the
    redirections so far determine [ret]. *)
Fixpoint parseargs (fuel : nat) (argv : list word) (rs : list redir)
  : kern (list Z) (list word * list redir) :=
  match fuel with
  | O => fun _ => Fuel
  | S fuel =>
      stop ← peek [124; 41; 38; 59];
      if stop : bool then mret (argv, rs)
      else
        t ← gettoken;
        if t.1 =? 0 then mret (argv, rs)
        else if negb (t.1 =? 97) then panic "syntax"
        else
          let argv := argv ++ [t.2] in
          if MAXARGS <=? Z.of_nat (length argv) then panic "too many args"
          else
            rs ← parseredirs rs;
            parseargs fuel argv rs
  end.

Definition parseargs_all (rs : list redir) : kern (list Z) (list word * list redir) := fun s =>
  parseargs (S (length s)) [] rs s.

(** The loop of [parseline] over [&]. *)
Fixpoint parsebacks (fuel : nat) (c : cmd word) : kern (list Z) (cmd word) :=
  match fuel with
  | O => fun _ => Fuel
  | S fuel =>
      b ← peek [38];
      if b : bool then gettoken ;; parsebacks fuel (Back c) else mret c
  end.

Definition parsebacks_all (c : cmd word) : kern (list Z) (cmd word) := fun s =>
  parsebacks (S (length s)) c s.

Fixpoint parseline (n : nat) : kern (list Z) (cmd word) :=
  match n with
  | O => fun _ => Fuel
  | S n =>
      c ← parsepipe n;
      c ← parsebacks_all c;
      b ← peek [59];
      if b : bool then gettoken ;; r ← parseline n; mret (List c r)
      else mret c
  end
with parsepipe (n : nat) : kern (list Z) (cmd word) :=
  match n with
  | O => fun _ => Fuel
  | S n =>
      c ← parseexec n;
      b ← peek [124];
      if b : bool then gettoken ;; r ← parsepipe n; mret (Pipe c r)
      else mret c
  end
with parseexec (n : nat) : kern (list Z) (cmd word) :=
  match n with
  | O => fun _ => Fuel
  | S n =>
      b ← peek [40];
      if b : bool then parseblock n
      else
        rs ← parseredirs [];
        ar ← parseargs_all rs;
        mret (foldl redircmd (Exec ar.1) ar.2)
  end
with parseblock (n : nat) : kern (list Z) (cmd word) :=
  match n with
  | O => fun _ => Fuel
  | S n =>
      b ← peek [40];
      if negb b then panic "parseblock"
      else
        gettoken ;;
        c ← parseline n;
        b ← peek [41];
        if negb b then panic "syntax - missing )"
        else
          gettoken ;;
          rs ← parseredirs [];
          mret (foldl redircmd c rs)
  end.

(** Nesting: each of the four routines calls the next, and every cycle consumes
    a character. *)
Definition parse_fuel (s : list Z) : nat := 4 * length s + 4.

(** [parsecmd] without the final [nulterminate]. *)
Definition parse (s : list Z) : kern (list Z) (cmd word) :=
  c ← parseline (parse_fuel s);
  peek [] ;;
  rest ← gets id;
  match rest with [] => mret c | _ => panic "syntax" end.

(** ** nulterminate *)

(** Store NUL at [*w.eq] in the buffer holding the line of length [len]. *)
Definition cut (len : nat) (w : word) (buf : list Z) : list Z := <[(len - length (w_eq w))%nat := 0]> buf.

Fixpoint nulterminate (len : nat) (c : cmd word) (buf : list Z) : list Z :=
  match c with
  | Exec argv => foldl (fun buf w => cut len w buf) buf argv
  | Redir c file _ _ => cut len file (nulterminate len c buf)
  | Pipe l r => nulterminate len r (nulterminate len l buf)
  | List l r => nulterminate len r (nulterminate len l buf)
  | Back c => nulterminate len c buf
  end.

(** [parsecmd]: the command and the buffer after [nulterminate]. *)
Definition parsecmd (s : list Z) : kern (list Z) (cmd word * list Z) :=
  c ← parse s;
  mret (c, nulterminate (length s) c (s ++ [0])).
