(* ===== verification/ShellCorrect.v ===== *)
(** Correctness of the shell's parser: it terminates on every line, its words
    are pieces of the line that [nulterminate] turns into exactly those strings,
    and it reads back every command it can express from its printed form. *)

From S2P Require Import Prelude CString Shell.

(** ** Outcomes *)

(** [m] from [s] returns with [Q], or reports a syntax error; it does not run
    out of fuel. *)
Definition ok {A} (m : kern (list Z) A) (s : list Z) (Q : A -> list Z -> Prop) : Prop :=
  match m s with Ret a s' => Q a s' | Panic _ => True | Sleep _ _ | Fuel => False end.

Lemma ok_bind {A B} (m : kern (list Z) A) (f : A -> kern (list Z) B) s Q :
  ok m s (fun a s' => ok (f a) s' Q) -> ok (m ≫= f) s Q.
Proof. unfold ok, mbind, kern_bind. by destruct (m s). Qed.

Lemma ok_mono {A} (m : kern (list Z) A) s (Q Q' : A -> list Z -> Prop) :
  (forall a s', Q a s' -> Q' a s') -> ok m s Q -> ok m s Q'.
Proof. unfold ok. destruct (m s); auto. Qed.

Lemma ok_ret {A} (a : A) s (Q : A -> list Z -> Prop) : Q a s -> ok (mret a) s Q.
Proof. done. Qed.

Lemma ok_panic {A} msg s (Q : A -> list Z -> Prop) : ok (panic msg) s Q.
Proof. done. Qed.

Create HintDb shell.
#[export] Hint Resolve ok_ret ok_panic : shell.

(** ** Characters *)

Definition wordchar (c : Z) : bool := negb (in_set whitespace c) && negb (in_set symbols c).

Definition nonnul (s : list Z) : Prop := Forall (fun c => c <> 0) s.

Lemma in_set_spec l c : Forall (fun x => x <> 0) l -> in_set l c = true <-> c ∈ l.
Proof.
  intros Hl. unfold in_set. rewrite bool_decide_eq_true. induction Hl as [|x l Hx Hl IH]; cbn.
  - split; [by intros [? ?]|by intros ?%elem_of_nil].
  - rewrite (proj2 (Z.eqb_neq _ _) Hx), elem_of_cons. destruct (Z.eqb_spec x c) as [->|Hne].
    + split; [by left|]. eauto.
    + rewrite IH. naive_solver.
Qed.

Lemma skip_ws_suffix s : skip_ws s `suffix_of` s.
Proof.
  induction s as [|c s IH]; cbn; [done|]. destruct (in_set whitespace c); [|done].
  by apply suffix_cons_r.
Qed.

Lemma scan_word_suffix s : scan_word s `suffix_of` s.
Proof.
  induction s as [|c s IH]; cbn; [done|]. destruct (_ && _); [|done]. by apply suffix_cons_r.
Qed.

Lemma skip_ws_head s : skip_ws s = [] \/ in_set whitespace (deref (skip_ws s)) = false.
Proof.
  induction s as [|c s IH]; cbn; [by left|]. destruct (in_set whitespace c) eqn:E; [done|]. by right.
Qed.

Lemma suffix_len (s1 s2 : list Z) : s1 `suffix_of` s2 -> (length s1 <= length s2)%nat.
Proof. apply suffix_length. Qed.

Lemma tail_suffix (s : list Z) : tail s `suffix_of` s.
Proof. destruct s; [done|]. by apply suffix_cons_r. Qed.

#[export] Hint Resolve skip_ws_suffix scan_word_suffix tail_suffix suffix_len : shell.

Lemma nonnul_suffix s1 s2 : s1 `suffix_of` s2 -> nonnul s2 -> nonnul s1.
Proof. intros [p ->] H. by apply Forall_app in H as [_ ?]. Qed.

Lemma deref_nonnul s : nonnul s -> deref s = 0 <-> s = [].
Proof. destruct 1; cbn; naive_solver. Qed.

(** ** Words *)

(** [w] is a maximal run of word characters of the line [s0]. *)
Record word_ok (s0 : list Z) (w : word) : Prop := {
  wo_q : w_q w `suffix_of` s0;
  wo_text : w_q w = text w ++ w_eq w;
  wo_chars : Forall (fun c => wordchar c = true) (text w);
  wo_ne : text w <> [];
  wo_max : w_eq w = [] \/ wordchar (deref (w_eq w)) = false;
}.

Fixpoint words {W} (c : cmd W) : list W :=
  match c with
  | Exec argv => argv
  | Redir c file _ _ => words c ++ [file]
  | Pipe l r | List l r => words l ++ words r
  | Back c => words c
  end.

Lemma scan_word_spec s :
  exists mid, s = mid ++ scan_word s /\ Forall (fun c => wordchar c = true) mid /\
    (scan_word s = [] \/ wordchar (deref (scan_word s)) = false) /\
    (wordchar (deref s) = true -> s <> [] -> mid <> []).
Proof.
  induction s as [|c s IH]; cbn [scan_word].
  - exists []. split; [done|]. split; [constructor|]. split; [by left|done].
  - fold (wordchar c). destruct (wordchar c) eqn:E.
    + destruct IH as (mid&E1&E2&E3&_). exists (c :: mid). split; [by rewrite E1 at 1|].
      split; [by constructor|]. by split.
    + exists []. split; [done|]. split; [constructor|]. split; [by right|]. cbn. congruence.
Qed.

Lemma text_app mid eq : text (Word (mid ++ eq) eq) = mid.
Proof.
  unfold text. cbn. rewrite length_app. replace (length mid + length eq - length eq)%nat with (length mid) by lia.
  apply take_app_length.
Qed.

(** A token: the state moves to a suffix, strictly unless at the end; a word
    token is a word of the line. *)
Lemma gettoken_ok s0 s :
  s `suffix_of` s0 -> nonnul s0 ->
  ok gettoken s (fun t s' => s' `suffix_of` s /\
    (t.1 <> 0 -> (length s' < length s)%nat) /\ (t.1 = 0 -> skip_ws s = []) /\
    (t.1 = 97 -> word_ok s0 t.2)).
Proof.
  intros Hs Hn. unfold ok, gettoken. set (q := skip_ws s).
  assert (Hq : q `suffix_of` s) by apply skip_ws_suffix.
  assert (Hq0 : q `suffix_of` s0) by by transitivity s.
  pose proof (nonnul_suffix _ _ Hq0 Hn) as Hnq.
  destruct (skip_ws_head s) as [E|Hw].
  { fold q in E. rewrite E. cbn. split; [apply suffix_nil|]. split; [done|]. by split. }
  fold q in Hw. destruct (Z.eqb_spec (deref q) 0) as [Ez|Ez].
  { assert (q = []) as -> by by apply deref_nonnul. cbn. split; [apply suffix_nil|]. by split. }
  assert (Hqne : q <> []) by by intros ->.
  assert (Htl : (length (tail q) < length s)%nat).
  { apply suffix_len in Hq. destruct q; [done|]. cbn in *. lia. }
  assert (Hsk : forall r, r `suffix_of` q -> skip_ws r `suffix_of` s).
  { intros r Hr. transitivity r; [apply skip_ws_suffix|]. by transitivity q. }
  assert (Hsl : forall r, (length r < length s)%nat -> (length (skip_ws r) < length s)%nat).
  { intros r Hr. pose proof (suffix_len _ _ (skip_ws_suffix r)). lia. }
  destruct (in_set [124; 40; 41; 59; 38; 60] (deref q)) eqn:E1.
  { cbn [fst snd]. split; [apply Hsk, tail_suffix|]. split; [intros _; by apply Hsl|]. split; [done|].
    intros Ec. rewrite Ec in E1. done. }
  destruct (Z.eqb_spec (deref q) 62) as [E2|E2].
  { destruct (deref (tail q) =? 62); cbn [fst snd].
    - split; [apply Hsk; transitivity (tail q); apply tail_suffix|].
      split; [|by split]. intros _. apply Hsl. pose proof (suffix_len _ _ (tail_suffix (tail q))). lia.
    - split; [apply Hsk, tail_suffix|]. split; [intros _; by apply Hsl|]. split; [done|]. rewrite E2. done. }
  cbn [fst snd]. destruct (scan_word_spec q) as (mid&Em&Hm&Hx&Hne).
  assert (Hwc : wordchar (deref q) = true).
  { unfold wordchar. rewrite Hw. cbn. apply negb_true_iff. destruct (in_set symbols (deref q)) eqn:E3; [|done].
    apply in_set_spec in E3; [|repeat constructor; done].
    assert (in_set [124; 40; 41; 59; 38; 60] (deref q) = true); [|congruence].
    unfold symbols in E3. rewrite !elem_of_cons in E3.
    destruct E3 as [E|[E|[E|[E|[E|[E|[E|E]]]]]]]; try (rewrite E; reflexivity); [done|].
    by apply elem_of_nil in E. }
  specialize (Hne Hwc Hqne). split; [apply Hsk, scan_word_suffix|]. split; [|split; [done|]].
  - intros _. apply Hsl. apply (f_equal length) in Em. rewrite length_app in Em.
    apply suffix_len in Hq. destruct mid; [done|]. cbn in Em. lia.
  - intros _. assert (Ht : text (Word q (scan_word q)) = mid).
    { rewrite Em at 1. apply text_app. }
    split; cbn [w_q w_eq]; rewrite ?Ht; done.
Qed.

Lemma peek_ok toks s :
  ok (peek toks) s (fun b s' => s' = skip_ws s /\ s' `suffix_of` s /\ (b = true -> s' <> [])).
Proof.
  unfold ok, peek. split; [done|]. split; [apply skip_ws_suffix|].
  intros Hb E. by rewrite E in Hb.
Qed.

(** ** Every line is parsed or rejected *)

Definition redir_ok (s0 : list Z) (r : redir) : Prop := word_ok s0 (r_file r).

Lemma skip_ws_twice s : skip_ws (skip_ws s) = skip_ws s.
Proof.
  destruct (skip_ws_head s) as [E|Hh]; [by rewrite E|]. destruct (skip_ws s); [done|]. cbn in *. by rewrite Hh.
Qed.

Section total.
Context (s0 : list Z).
Hypothesis Hn : nonnul s0.

(** The state is a suffix of the line and does not grow. *)
Definition within (s s' : list Z) : Prop := s' `suffix_of` s0 /\ (length s' <= length s)%nat.

Lemma token_ok s :
  s `suffix_of` s0 ->
  ok gettoken s (fun t s' => within s s' /\ (t.1 <> 0 -> (length s' < length s)%nat) /\
    (t.1 = 0 -> skip_ws s = []) /\ (t.1 = 97 -> word_ok s0 t.2)).
Proof using Hn.
  intros Hs. eapply ok_mono; [|by apply gettoken_ok]. intros t s' (H1&H2&H3&H4). split; [|done].
  split; [by transitivity s|by apply suffix_len].
Qed.

Lemma look_ok toks s :
  s `suffix_of` s0 ->
  ok (peek toks) s (fun b s' => within s s' /\ skip_ws s' = s' /\ (b = true -> s' <> [])).
Proof.
  intros Hs. eapply ok_mono; [|apply peek_ok]. intros b s' (->&H2&H3).
  split; [split; [by transitivity s|by apply suffix_len]|]. split; [apply skip_ws_twice|done].
Qed.

(** After a successful [peek] the next token consumes a character. *)
Lemma next_ok s :
  s `suffix_of` s0 -> skip_ws s = s -> s <> [] ->
  ok gettoken s (fun t s' => within s s' /\ (length s' < length s)%nat).
Proof using Hn.
  intros Hs Hsk Hne. eapply ok_mono; [|by apply token_ok]. intros t s' (H1&H2&H3&_). split; [done|].
  apply H2. intros E. apply Hne. rewrite <- Hsk. by apply H3.
Qed.

Lemma parseredirs_loop_ok fuel : forall acc s,
  s `suffix_of` s0 -> (length s < fuel)%nat -> Forall (redir_ok s0) acc ->
  ok (parseredirs_loop fuel acc) s (fun rs s' => within s s' /\ Forall (redir_ok s0) rs).
Proof using Hn.
  induction fuel as [|fuel IH]; intros acc s Hs Hf Hacc; [lia|]. cbn [parseredirs_loop].
  apply ok_bind. eapply ok_mono; [|by apply look_ok]. intros b s1 ([Hs1 Hl1]&Hsk&Hb).
  destruct b; [|by apply ok_ret]. specialize (Hb eq_refl).
  apply ok_bind. eapply ok_mono; [|by apply next_ok]. intros t s2 ([Hs2 _]&Hl2).
  apply ok_bind. eapply ok_mono; [|by apply token_ok]. intros t2 s3 ([Hs3 Hl3]&_&_&Hw).
  destruct (Z.eqb_spec t2.1 97) as [E97|]; cbn [negb]; [|by apply ok_panic]. specialize (Hw E97).
  eapply ok_mono; [|apply IH; [done|lia|]].
  - intros rs s' [[H1 H2] H3]. split; [split; [done|lia]|done].
  - apply Forall_app. split; [done|]. apply Forall_singleton. unfold redir_ok.
    by destruct (t.1 =? 60), (t.1 =? 62).
Qed.

Lemma parseredirs_ok acc s :
  s `suffix_of` s0 -> Forall (redir_ok s0) acc ->
  ok (parseredirs acc) s (fun rs s' => within s s' /\ Forall (redir_ok s0) rs).
Proof using Hn. intros Hs Ha. apply parseredirs_loop_ok; [done|lia|done]. Qed.

Lemma parseargs_ok fuel : forall argv rs s,
  s `suffix_of` s0 -> (length s < fuel)%nat -> Forall (word_ok s0) argv -> Forall (redir_ok s0) rs ->
  ok (parseargs fuel argv rs) s (fun ar s' =>
    within s s' /\ Forall (word_ok s0) ar.1 /\ Forall (redir_ok s0) ar.2).
Proof using Hn.
  induction fuel as [|fuel IH]; intros argv rs s Hs Hf Ha Hr; [lia|]. cbn [parseargs].
  apply ok_bind. eapply ok_mono; [|by apply look_ok]. intros b s1 ([Hs1 Hl1]&_&_).
  destruct b; [by apply ok_ret|].
  apply ok_bind. eapply ok_mono; [|by apply token_ok]. intros t s2 ([Hs2 Hl2]&Hlt&_&Hw).
  destruct (Z.eqb_spec t.1 0) as [Ez|Ez]; [apply ok_ret; split; [split; [done|lia]|done]|].
  destruct (Z.eqb_spec t.1 97) as [E97|]; cbn [negb]; [|by apply ok_panic].
  specialize (Hw E97). specialize (Hlt Ez).
  destruct (_ <=? _); [by apply ok_panic|].
  apply ok_bind. eapply ok_mono; [|by apply parseredirs_ok]. intros rs' s3 ([Hs3 Hl3]&Hr').
  eapply ok_mono; [|apply IH; [done|lia| |done]].
  - intros ar s' ([H1 H2]&H3). split; [split; [done|lia]|done].
  - apply Forall_app. split; [done|]. by apply Forall_singleton.
Qed.

Lemma parsebacks_ok fuel : forall c s,
  s `suffix_of` s0 -> (length s < fuel)%nat -> Forall (word_ok s0) (words c) ->
  ok (parsebacks fuel c) s (fun c' s' => within s s' /\ Forall (word_ok s0) (words c')).
Proof using Hn.
  induction fuel as [|fuel IH]; intros c s Hs Hf Hc; [lia|]. cbn [parsebacks].
  apply ok_bind. eapply ok_mono; [|by apply look_ok]. intros b s1 ([Hs1 Hl1]&Hsk&Hb).
  destruct b; [|by apply ok_ret]. specialize (Hb eq_refl).
  apply ok_bind. eapply ok_mono; [|by apply next_ok]. intros t s2 ([Hs2 _]&Hl2).
  eapply ok_mono; [|by apply IH; [|lia|]]. intros c' s' ([H1 H2]&H3). split; [split; [done|lia]|done].
Qed.

Lemma wrap_words rs : forall c,
  Forall (redir_ok s0) rs -> Forall (word_ok s0) (words c) -> Forall (word_ok s0) (words (foldl redircmd c rs)).
Proof.
  induction rs as [|r rs IH]; intros c Hr Hc; [done|]. apply Forall_cons in Hr as [Hr Hrs]. cbn [foldl].
  apply IH; [done|]. cbn. apply Forall_app. split; [done|]. by apply Forall_singleton.
Qed.

(** What each routine promises with enough fuel for its place in the cycle. *)
Definition parses (m : kern (list Z) (cmd word)) (s : list Z) : Prop :=
  ok m s (fun c s' => within s s' /\ Forall (word_ok s0) (words c)).

Lemma parse_all n :
  (forall s, s `suffix_of` s0 -> (4 * length s + 4 <= n)%nat -> parses (parseline n) s) /\
  (forall s, s `suffix_of` s0 -> (4 * length s + 3 <= n)%nat -> parses (parsepipe n) s) /\
  (forall s, s `suffix_of` s0 -> (4 * length s + 2 <= n)%nat -> parses (parseexec n) s) /\
  (forall s, s `suffix_of` s0 -> (4 * length s + 1 <= n)%nat -> parses (parseblock n) s).
Proof using Hn.
  induction n as [|n (IHl&IHp&IHe&IHb)]; [split_and!; intros; lia|]. split_and!; intros s Hs Hf; unfold parses.
  - cbn [parseline]. apply ok_bind. eapply ok_mono; [|by apply IHp; [|lia]]. intros c s1 ([Hs1 Hl1]&Hc).
    apply ok_bind. eapply ok_mono; [|by apply parsebacks_ok; [|lia|]]. intros c2 s2 ([Hs2 Hl2]&Hc2).
    apply ok_bind. eapply ok_mono; [|by apply look_ok]. intros b s3 ([Hs3 Hl3]&Hsk&Hb).
    destruct b; [|apply ok_ret; split; [split; [done|lia]|done]]. specialize (Hb eq_refl).
    apply ok_bind. eapply ok_mono; [|by apply next_ok]. intros t s4 ([Hs4 _]&Hl4).
    apply ok_bind. eapply ok_mono; [|by apply IHl; [|lia]]. intros r s5 ([Hs5 Hl5]&Hr).
    apply ok_ret. split; [split; [done|lia]|]. cbn. by apply Forall_app.
  - cbn [parsepipe]. apply ok_bind. eapply ok_mono; [|by apply IHe; [|lia]]. intros c s1 ([Hs1 Hl1]&Hc).
    apply ok_bind. eapply ok_mono; [|by apply look_ok]. intros b s3 ([Hs3 Hl3]&Hsk&Hb).
    destruct b; [|apply ok_ret; split; [split; [done|lia]|done]]. specialize (Hb eq_refl).
    apply ok_bind. eapply ok_mono; [|by apply next_ok]. intros t s4 ([Hs4 _]&Hl4).
    apply ok_bind. eapply ok_mono; [|by apply IHp; [|lia]]. intros r s5 ([Hs5 Hl5]&Hr).
    apply ok_ret. split; [split; [done|lia]|]. cbn. by apply Forall_app.
  - cbn [parseexec]. apply ok_bind. eapply ok_mono; [|by apply look_ok]. intros b s1 ([Hs1 Hl1]&_&_).
    destruct b.
    { eapply ok_mono; [|by apply IHb; [|lia]]. intros c s' ([H1 H2]&H3). split; [split; [done|lia]|done]. }
    apply ok_bind. eapply ok_mono; [|by apply parseredirs_ok]. intros rs s2 ([Hs2 Hl2]&Hr).
    apply ok_bind. eapply ok_mono; [|by apply parseargs_ok; [|lia| |]]. intros ar s3 ([Hs3 Hl3]&Ha&Hr').
    apply ok_ret. split; [split; [done|lia]|]. by apply wrap_words.
  - cbn [parseblock]. apply ok_bind. eapply ok_mono; [|by apply look_ok]. intros b s1 ([Hs1 Hl1]&Hsk&Hb).
    destruct b; cbn [negb]; [|by apply ok_panic]. specialize (Hb eq_refl).
    apply ok_bind. eapply ok_mono; [|by apply next_ok]. intros t s2 ([Hs2 _]&Hl2).
    apply ok_bind. eapply ok_mono; [|by apply IHl; [|lia]]. intros c s3 ([Hs3 Hl3]&Hc).
    apply ok_bind. eapply ok_mono; [|by apply look_ok]. intros b s4 ([Hs4 Hl4]&Hsk4&Hb4).
    destruct b; cbn [negb]; [|by apply ok_panic]. specialize (Hb4 eq_refl).
    apply ok_bind. eapply ok_mono; [|by apply next_ok]. intros t5 s5 ([Hs5 _]&Hl5).
    apply ok_bind. eapply ok_mono; [|by apply parseredirs_ok]. intros rs s6 ([Hs6 Hl6]&Hr).
    apply ok_ret. split; [split; [done|lia]|]. by apply wrap_words.
Qed.

Lemma parse_ok : ok (parse s0) s0 (fun c s' => s' = [] /\ Forall (word_ok s0) (words c)).
Proof using Hn.
  unfold parse. apply ok_bind.
  eapply ok_mono; [|by apply (parse_all (parse_fuel s0)); [|unfold parse_fuel; lia]].
  intros c s1 ([Hs1 Hl1]&Hc). apply ok_bind. eapply ok_mono; [|by apply look_ok].
  intros b s2 _. unfold ok, gets, mbind, kern_bind, id. by destruct s2.
Qed.

End total.

(** ** nulterminate *)

Lemma nulterminate_words len c : forall buf, nulterminate len c buf = foldl (fun b w => cut len w b) buf (words c).
Proof.
  induction c as [argv|c IH file mode fd|l IHl r IHr|l IHl r IHr|c IH]; intros buf; cbn; rewrite ?foldl_app; try done.
  - by rewrite IH.
  - by rewrite IHl, IHr.
  - by rewrite IHl, IHr.
Qed.

(** A byte after the cuts: NUL where a word ends, the old byte elsewhere. *)
Lemma cuts_lookup len ws : forall buf i, (i < length buf)%nat ->
  foldl (fun b w => cut len w b) buf ws !! i =
    if decide (Exists (fun w => i = len - length (w_eq w))%nat ws) then Some 0 else buf !! i.
Proof.
  induction ws as [|w ws IH]; intros buf i Hi; cbn [foldl].
  { rewrite decide_False; [done|]. by intros ?%Exists_nil. }
  rewrite IH by (unfold cut; by rewrite length_insert). unfold cut.
  destruct (decide (i = len - length (w_eq w))%nat) as [->|Hne].
  - rewrite list_lookup_insert_eq by done.
    rewrite (decide_True (P := Exists _ (w :: ws))) by by apply Exists_cons_hd. by destruct (decide _).
  - rewrite list_lookup_insert_ne by done. apply decide_ext. rewrite Exists_cons. naive_solver.
Qed.

Lemma drop_suffix (s1 s2 : list Z) : s1 `suffix_of` s2 -> drop (length s2 - length s1) s2 = s1.
Proof.
  intros [p ->]. rewrite length_app, Nat.add_sub. apply drop_app_length.
Qed.

Lemma suffix_lookup (s1 s2 : list Z) i :
  s1 `suffix_of` s2 -> (i < length s1)%nat -> s2 !! (length s2 - length s1 + i)%nat = s1 !! i.
Proof. intros Hs Hi. by rewrite <- lookup_drop, drop_suffix. Qed.

Lemma cstr_run t : forall buf p,
  nonnul t -> (forall i, (i < length t)%nat -> buf !! (p + i)%nat = t !! i) -> buf !! (p + length t)%nat = Some 0 ->
  cstr (drop p buf) = t.
Proof.
  induction t as [|c t IH]; intros buf p Ht Hi Hz.
  - cbn in Hz. rewrite Nat.add_0_r in Hz. by rewrite (drop_S _ _ _ Hz).
  - apply Forall_cons in Ht as [Hc Ht]. pose proof (Hi 0%nat ltac:(cbn; lia)) as H0. rewrite Nat.add_0_r in H0.
    rewrite (drop_S _ _ _ H0). cbn [cstr]. rewrite (proj2 (Z.eqb_neq _ _) Hc). f_equal. apply IH; [done| |].
    + intros i Hlt. specialize (Hi (S i) ltac:(cbn; lia)). by rewrite Nat.add_succ_r in Hi.
    + cbn in Hz. by rewrite Nat.add_succ_r in Hz.
Qed.

(** A cut never falls inside a word. *)
Lemma cut_outside s0 w w' i :
  word_ok s0 w -> word_ok s0 w' -> (i < length (text w))%nat ->
  (length s0 - length (w_q w) + i)%nat <> (length s0 - length (w_eq w'))%nat.
Proof.
  intros Hw Hw' Hi E. destruct Hw as [Hq Ht Hc _ _]. destruct Hw' as [Hq' Ht' _ _ Hm'].
  assert (Hx : w_eq w' `suffix_of` s0) by (transitivity (w_q w'); [rewrite Ht'; by apply suffix_app_r|done]).
  assert (Hl : (i < length (w_q w))%nat) by (rewrite Ht, length_app; lia).
  pose proof (suffix_len _ _ Hq). pose proof (suffix_len _ _ Hx).
  destruct Hm' as [Ee|Hm']; [rewrite Ee in E; cbn in E; lia|].
  assert (Hne : (0 < length (w_eq w'))%nat).
  { destruct (w_eq w') eqn:Ex; cbn; [|lia]. cbn in E. lia. }
  pose proof (suffix_lookup _ _ _ Hq Hl) as H1. pose proof (suffix_lookup _ _ _ Hx Hne) as H2.
  rewrite Nat.add_0_r, <- E, H1, Ht, lookup_app_l in H2 by done.
  destruct (lookup_lt_is_Some_2 _ _ Hi) as [c Hci]. rewrite Hci in H2.
  assert (wordchar c = true) by by eapply (Forall_lookup_1 _ _ _ _ Hc).
  destruct (w_eq w'); [done|]. cbn in *. congruence.
Qed.

Lemma cuts_words s0 ws w :
  nonnul s0 -> Forall (word_ok s0) ws -> w ∈ ws ->
  cstr (drop (length s0 - length (w_q w)) (foldl (fun b w => cut (length s0) w b) (s0 ++ [0]) ws)) = text w.
Proof.
  intros Hn Hws Hin. pose proof (proj1 (Forall_forall _ _) Hws w Hin) as Hw. destruct (Hw) as [Hq Ht Hc Hne Hm].
  pose proof (suffix_len _ _ Hq) as Hlq. assert (Hlen : length (w_q w) = (length (text w) + length (w_eq w))%nat)
    by (by rewrite Ht at 1; rewrite length_app).
  apply cstr_run.
  - apply (nonnul_suffix _ _ Hq) in Hn. rewrite Ht in Hn. by apply Forall_app in Hn as [? _].
  - intros i Hi. rewrite cuts_lookup by (rewrite length_app; cbn; lia). rewrite decide_False.
    + rewrite lookup_app_l by lia. rewrite suffix_lookup by (done || lia). rewrite Ht at 1. by apply lookup_app_l.
    + rewrite Exists_exists. intros (w'&Hin'&E). revert E.
      apply cut_outside; [done| |done]. by apply (proj1 (Forall_forall _ _) Hws).
  - rewrite cuts_lookup by (rewrite length_app; cbn; lia). rewrite decide_True; [done|].
    apply Exists_exists. exists w. split; [done|]. lia.
Qed.

(** C19: Every command line without NUL bytes is parsed or rejected with a syntax
    error; the parser does not loop and does not stop part way.  Of a parsed
    command, each argument and each file name is a maximal run of word
    characters of the line, and after [nulterminate] the pointer kept for it
    reads as exactly that C string: no word's terminator cuts another word. *)
Theorem parsecmd_words s :
  nonnul s ->
  (exists msg, parsecmd s s = Panic msg) \/
  (exists c buf, parsecmd s s = Ret (c, buf) [] /\
     Forall (word_ok s) (words c) /\
     Forall (fun w => cstr (drop (length s - length (w_q w)) buf) = text w) (words c)).
Proof.
  intros Hn. pose proof (parse_ok s Hn) as Hp. unfold ok in Hp.
  unfold parsecmd, mbind, kern_bind. destruct (parse s s) as [c s'|msg|? ?|] eqn:E; [|by eauto|done|done].
  destruct Hp as [-> Hw]. right. eexists c, _. split; [reflexivity|]. split; [done|].
  rewrite nulterminate_words. apply Forall_forall. intros w Hin. by apply cuts_words.
Qed.

(** ** Printing commands *)

(** A command in the shell's syntax.  [lvl] is the routine that will read it
    back: 0 for [parseline], 1 for its [&] loop, 2 for [parsepipe], 3 for
    [parseexec]; anything that level cannot read is put in parentheses. *)
Definition paren (b : bool) (s : list Z) : list Z := if b then [40] ++ s ++ [41] else s.

Fixpoint show (lvl : nat) (c : cmd (list Z)) : list Z :=
  match c with
  | Exec argv => foldr (fun w s => w ++ 32 :: s) [] argv
  | Redir c file _ fd => show 3 c ++ [if fd =? 0 then 60 else 62] ++ file ++ [32]
  | Pipe l r => paren (2 <? lvl)%nat (show 3 l ++ [124] ++ show 2 r)
  | List l r => paren (0 <? lvl)%nat (show 1 l ++ [59] ++ show 0 r)
  | Back c => paren (1 <? lvl)%nat (show 1 c ++ [38])
  end.

Definition plain (w : list Z) : bool := negb (bool_decide (w = [])) && forallb (fun c => wordchar c && negb (c =? 0)) w.

(** The commands the parser can build: words of word characters, fewer than
    MAXARGS arguments, and the two kinds of redirection. *)
Fixpoint expressible (c : cmd (list Z)) : bool :=
  match c with
  | Exec argv => forallb plain argv && (Z.of_nat (length argv) <? MAXARGS)
  | Redir c file mode fd =>
      expressible c && plain file &&
      ((mode =? O_RDONLY) && (fd =? 0) || (mode =? Z.lor O_WRONLY O_CREATE) && (fd =? 1))
  | Pipe l r | List l r => expressible l && expressible r
  | Back c => expressible c
  end.

(** *** Reading back single tokens *)

(** [s] is at its end or at one of [set]. *)
Definition follows (set : list Z) (s : list Z) : Prop := s = [] \/ exists x r, s = x :: r /\ x ∈ set.

Lemma follows_weaken set set' s : set ⊆ set' -> follows set s -> follows set' s.
Proof. intros Hs [->|(x&r&->&Hx)]; [by left|right]. exists x, r. split; [done|]. by apply Hs. Qed.

(** [s] starts with a word. *)
Definition at_word (s : list Z) : Prop := exists c r, s = c :: r /\ wordchar c = true /\ c <> 0.

Lemma at_word_clean s : at_word s -> skip_ws s = s.
Proof.
  intros (c&r&->&Hc&_). cbn. unfold wordchar in Hc. by destruct (in_set whitespace c).
Qed.

Lemma peek_clean toks s :
  skip_ws s = s -> peek toks s = Ret (negb (deref s =? 0) && in_set toks (deref s)) s.
Proof. intros E. unfold peek. by rewrite E. Qed.

Lemma peek_word toks s : at_word s -> toks ⊆ symbols -> nonnul toks -> peek toks s = Ret false s.
Proof.
  intros Hs Ht Hn. rewrite peek_clean by by apply at_word_clean. destruct Hs as (c&r&->&Hc&Hz). cbn [deref].
  f_equal. apply andb_false_iff. right. apply not_true_iff_false. intros E. apply in_set_spec in E; [|done].
  apply Ht in E. apply in_set_spec in E; [|repeat constructor; done]. unfold wordchar in Hc. rewrite E in Hc.
  by rewrite andb_false_r in Hc.
Qed.

(** Peeking at the end of a printed piece. *)
Lemma peek_follows toks set s :
  follows set s -> Forall (fun x => x <> 0 /\ in_set whitespace x = false /\ in_set toks x = false) set ->
  peek toks s = Ret false s.
Proof.
  intros [->|(x&r&->&Hx)] Hset; [done|]. rewrite Forall_forall in Hset. destruct (Hset x Hx) as (Hz&Hw&Ht).
  unfold peek. cbn [skip_ws]. rewrite Hw. cbn [deref]. rewrite Ht. by rewrite andb_false_r.
Qed.

Ltac peek_off := erewrite peek_follows; [|eassumption|repeat constructor; done].

Lemma plain_spec w :
  plain w = true -> exists c r, w = c :: r /\ Forall (fun c => wordchar c = true /\ c <> 0) (c :: r).
Proof.
  unfold plain. intros [Hn Hf]%andb_true_iff. destruct w as [|c r]; [done|]. exists c, r. split; [done|].
  rewrite forallb_forall in Hf. apply Forall_forall. intros x Hx.
  specialize (Hf x ltac:(by apply list_elem_of_In)). apply andb_true_iff in Hf as [H1 H2]. split; [done|].
  intros ->. done.
Qed.

Lemma plain_at_word w s : plain w = true -> at_word (w ++ s).
Proof.
  intros (c&r&->&H)%plain_spec. apply Forall_cons in H as [[H1 H2] _]. by exists c, (r ++ s).
Qed.

Lemma scan_plain w s : Forall (fun c => wordchar c = true /\ c <> 0) w -> scan_word (w ++ 32 :: s) = 32 :: s.
Proof.
  induction 1 as [|c w [Hc Hz] Hw IH]; [done|]. cbn. fold (wordchar c). by rewrite Hc.
Qed.

Lemma gettoken_word w s :
  plain w = true ->
  exists q, gettoken (w ++ 32 :: s) = Ret (97, q) (skip_ws s) /\ text q = w.
Proof.
  intros Hp. exists (Word (w ++ 32 :: s) (32 :: s)). split; [|apply text_app].
  pose proof (plain_at_word w (32 :: s) Hp) as Ha. apply plain_spec in Hp as (c&r&->&H).
  unfold gettoken. rewrite at_word_clean by done. rewrite scan_plain by done.
  destruct Ha as (c'&r'&E&Hc&Hz). cbn in E. injection E as <- <-. cbn [app deref].
  rewrite (proj2 (Z.eqb_neq _ _) Hz). unfold wordchar in Hc. apply andb_true_iff in Hc as [_ Hc].
  apply negb_true_iff in Hc.
  assert (Hout : forall l, l ⊆ symbols -> nonnul l -> in_set l c = false).
  { intros l Hl Hn. apply not_true_iff_false. intros E. apply in_set_spec in E; [|done]. apply Hl in E.
    apply in_set_spec in E; [congruence|repeat constructor; done]. }
  rewrite Hout; [|by (intros ?; unfold symbols; rewrite !elem_of_cons; naive_solver)|repeat constructor; done].
  destruct (Z.eqb_spec c 62) as [->|]; [|done].
  specialize (Hout [62] ltac:(intros ?; unfold symbols; rewrite !elem_of_cons; naive_solver) ltac:(by constructor)).
  done.
Qed.

(** *** Redirections *)

Definition rtext (r : redir) : list Z * Z * Z := (text (r_file r), r_mode r, r_fd r).

Definition rshow (r : list Z * Z * Z) : list Z := [if r.2 =? 0 then 60 else 62] ++ r.1.1 ++ [32].
Definition rok (r : list Z * Z * Z) : bool :=
  plain r.1.1 && ((r.1.2 =? O_RDONLY) && (r.2 =? 0) || (r.1.2 =? Z.lor O_WRONLY O_CREATE) && (r.2 =? 1)).
Definition rshows (rs : list (list Z * Z * Z)) : list Z := foldr (fun r s => rshow r ++ s) [] rs.

Definition F3 : list Z := [124; 38; 59; 41].

Lemma follows_clean s : follows (60 :: 62 :: F3) s -> skip_ws s = s.
Proof.
  intros [->|(x&r&->&Hx)]; [done|]. unfold F3 in Hx. rewrite !elem_of_cons in Hx.
  destruct Hx as [->|[->|[->|[->|[->|[->|Hx]]]]]]; try done. by apply elem_of_nil in Hx.
Qed.

Lemma F3_clean s : follows F3 s -> skip_ws s = s.
Proof. intros H. apply follows_clean. eapply follows_weaken; [|done]. intros x Hx. by do 2 right. Qed.

Lemma rshows_clean rs s : follows F3 s -> skip_ws (rshows rs ++ s) = rshows rs ++ s.
Proof.
  intros Hs. destruct rs as [|r rs]; cbn; [by apply F3_clean|]. by destruct (r.2 =? 0).
Qed.

Lemma rshow_tokens r s :
  rok r = true ->
  exists t q, gettoken (rshow r ++ s) = Ret t (r.1.1 ++ 32 :: s) /\
    gettoken (r.1.1 ++ 32 :: s) = Ret (97, q) (skip_ws s) /\
    rtext (if t.1 =? 60 then Redirection q O_RDONLY 0
           else if t.1 =? 62 then Redirection q (Z.lor O_WRONLY O_CREATE) 1
           else Redirection q (Z.lor O_WRONLY O_CREATE) 1) = r.
Proof.
  destruct r as [[f m] d]. unfold rok, rshow, rtext. cbn [fst snd]. intros [Hp Hm]%andb_true_iff.
  destruct (gettoken_word f s Hp) as (q&Hq&Et). pose proof (plain_at_word f (32 :: s) Hp) as Ha.
  pose proof (at_word_clean _ Ha) as Hc. apply orb_true_iff in Hm.
  destruct Hm as [[Hm Hd]%andb_true_iff|[Hm Hd]%andb_true_iff]; apply Z.eqb_eq in Hm, Hd; subst m d; cbn [Z.eqb].
  - exists (60, Word (60 :: f ++ 32 :: s) (f ++ 32 :: s)), q. split; [|split; [done|by cbn; rewrite Et]].
    unfold gettoken. cbn -[O_RDONLY]. rewrite <- app_assoc. cbn. by rewrite Hc.
  - exists (62, Word (62 :: f ++ 32 :: s) (f ++ 32 :: s)), q. split; [|split; [done|by cbn; rewrite Et]].
    unfold gettoken. cbn. rewrite <- app_assoc. cbn. destruct (Z.eqb_spec (deref (f ++ 32 :: s)) 62) as [E|]; [|by rewrite Hc].
    destruct Ha as (c&r&Ec&Hw&_). rewrite Ec in E. cbn in E. by subst c.
Qed.

Lemma parseredirs_show rs : forall fuel acc s,
  forallb rok rs = true -> follows F3 s -> (length (rshows rs ++ s) < fuel)%nat ->
  exists rs', parseredirs_loop fuel acc (rshows rs ++ s) = Ret (acc ++ rs') s /\ rtext <$> rs' = rs.
Proof.
  induction rs as [|r rs IH]; intros [|fuel] acc s Hr Hs Hf; try (cbn in Hf; lia); cbn [parseredirs_loop];
    unfold mbind at 1, kern_bind at 1.
  - exists []. cbn [rshows foldr app]. peek_off. by rewrite app_nil_r.
  - cbn [forallb] in Hr. apply andb_true_iff in Hr as [Hr Hrs]. cbn [rshows foldr] in *. fold (rshows rs) in *.
    rewrite <- app_assoc in *. destruct (rshow_tokens r (rshows rs ++ s) Hr) as (t&q&E1&E2&E3).
    replace (peek [60; 62] _) with (Ret true (rshow r ++ rshows rs ++ s))
      by (unfold rshow; by destruct (r.2 =? 0)).
    unfold mbind, kern_bind. rewrite E1, E2. cbn [fst snd]. rewrite rshows_clean by done.
    rewrite length_app in Hf.
    assert (Hf' : (length (rshows rs ++ s) < fuel)%nat) by (unfold rshow in Hf; cbn in Hf; lia).
    match type of E3 with rtext ?x = _ => destruct (IH fuel (acc ++ [x]) s Hrs Hs Hf') as (rs'&Ers&Et); exists (x :: rs') end.
    split; [etransitivity; [exact Ers|by rewrite <- app_assoc]|]. cbn [fmap list_fmap]. by rewrite Et, E3.
Qed.

Lemma parseredirs_none acc s : at_word s -> parseredirs acc s = Ret acc s.
Proof.
  intros Hs. unfold parseredirs. cbn [parseredirs_loop]. unfold mbind, kern_bind. rewrite peek_word; [done|done| |].
  - intros ?. unfold symbols. rewrite !elem_of_cons. naive_solver.
  - repeat constructor; done.
Qed.

(** *** Arguments *)

Definition wshows (argv : list (list Z)) : list Z := foldr (fun w s => w ++ 32 :: s) [] argv.

Lemma args_stop fuel argv rs s : follows F3 s -> parseargs (S fuel) argv rs s = Ret (argv, rs) s.
Proof.
  intros [->|(x&r&->&Hx)]; [done|]. unfold F3 in Hx. rewrite !elem_of_cons in Hx.
  destruct Hx as [->|[->|[->|[->|Hx]]]]; try done. by apply elem_of_nil in Hx.
Qed.

Lemma wshows_at_word w argv s : plain w = true -> at_word (wshows (w :: argv) ++ s).
Proof. intros Hw. cbn. rewrite <- app_assoc. by apply plain_at_word. Qed.

Lemma wshows_length w argv : length (wshows (w :: argv)) = (length w + S (length (wshows argv)))%nat.
Proof. cbn. by rewrite length_app. Qed.

(** The arguments, with the redirections after them. *)
Lemma parseargs_show argv : forall w fuel acc rs s,
  forallb plain (w :: argv) = true -> (Z.of_nat (length acc + length (w :: argv)) < MAXARGS) ->
  forallb rok rs = true -> follows F3 s -> (length (wshows (w :: argv) ++ rshows rs ++ s) < fuel)%nat ->
  exists argv' rs', parseargs fuel acc [] (wshows (w :: argv) ++ rshows rs ++ s) = Ret (acc ++ argv', rs') s /\
    text <$> argv' = w :: argv /\ rtext <$> rs' = rs.
Proof.
  induction argv as [|w2 argv IH]; intros w [|fuel] acc rs s Hp Hl Hr Hs Hf; try lia;
    cbn [forallb] in Hp; apply andb_true_iff in Hp as [Hw Hp]; cbn [parseargs]; unfold mbind at 1, kern_bind at 1;
    rewrite peek_word by (by apply wshows_at_word || (intros ?; unfold symbols; rewrite !elem_of_cons; naive_solver)
      || (repeat constructor; done)); unfold mbind at 1, kern_bind at 1; cbn [wshows foldr];
    rewrite <- app_assoc; cbn [app]; edestruct (gettoken_word w) as (q&Eq&Et); [done| |done|]; rewrite Eq; cbn [fst snd].
  - rewrite rshows_clean by done. cbn [negb Z.eqb Pos.eqb].
    rewrite length_app. cbn [length] in Hl |- *. rewrite (proj2 (Z.leb_gt _ _)) by lia.
    unfold mbind, kern_bind, parseredirs.
    destruct (parseredirs_show rs (S (length (rshows rs ++ s))) [] s Hr Hs ltac:(lia)) as (rs'&E&Er).
    rewrite E. cbn [app]. rewrite length_app, wshows_length in Hf. destruct fuel; [lia|].
    rewrite args_stop by done. exists [q], rs'. split; [done|]. cbn. by rewrite Et.
  - assert (Ha : at_word (wshows (w2 :: argv) ++ rshows rs ++ s)).
    { cbn [forallb] in Hp. apply wshows_at_word. by apply andb_true_iff in Hp as [? _]. }
    fold (wshows (w2 :: argv)). rewrite at_word_clean by done. cbn [negb Z.eqb Pos.eqb].
    rewrite length_app. cbn [length] in Hl |- *. rewrite (proj2 (Z.leb_gt _ _)) by lia.
    unfold mbind, kern_bind. rewrite parseredirs_none by done.
    destruct (IH w2 fuel (acc ++ [q]) rs s) as (argv'&rs'&E&Ea&Er); [done| |done|done| |].
    + rewrite length_app. cbn [length]. lia.
    + rewrite length_app, wshows_length in Hf. rewrite length_app. lia.
    + exists (q :: argv'), rs'. split; [etransitivity; [exact E|by rewrite <- app_assoc]|]. cbn [fmap list_fmap]. by rewrite Ea, Et.
Qed.

(** *** Commands *)

(** A command is redirections around one that is not a redirection. *)
Fixpoint unredir (c : cmd (list Z)) : cmd (list Z) * list (list Z * Z * Z) :=
  match c with
  | Redir c f m d => ((unredir c).1, (unredir c).2 ++ [(f, m, d)])
  | c => (c, [])
  end.

Definition rwrap (c : cmd (list Z)) (r : list Z * Z * Z) : cmd (list Z) := Redir c r.1.1 r.1.2 r.2.

Lemma rshows_app rs1 rs2 : rshows (rs1 ++ rs2) = rshows rs1 ++ rshows rs2.
Proof. unfold rshows. induction rs1 as [|r rs1 IH]; cbn [foldr app]; [done|]. by rewrite IH, app_assoc. Qed.

Lemma unredir_spec c : expressible c = true ->
  let (b, rs) := unredir c in
  foldl rwrap b rs = c /\ show 3 c = show 3 b ++ rshows rs /\ expressible b = true /\ forallb rok rs = true /\
  (forall c' f m d, b <> Redir c' f m d).
Proof.
  induction c as [argv|c IH f m d|l _ r _|l _ r _|c _]; intros He; cbn [unredir];
    try (split_and!; [done|by rewrite app_nil_r|done|done|done]).
  cbn [expressible] in He. apply andb_true_iff in He as [[Hc Hf]%andb_true_iff Hm].
  specialize (IH Hc). destruct (unredir c) as [b rs]. destruct IH as (E1&E2&E3&E4&E5). cbn [fst snd]. split_and!.
  - by rewrite foldl_app, E1.
  - cbn [show]. rewrite E2, rshows_app, <- !app_assoc. f_equal. cbn. by rewrite app_nil_r.
  - done.
  - rewrite forallb_app, E4. cbn. unfold rok. cbn [fst snd]. by rewrite Hf, Hm.
  - done.
Qed.

Lemma map_wrap rs : forall c, cmd_map text (foldl redircmd c rs) = foldl rwrap (cmd_map text c) (rtext <$> rs).
Proof. induction rs as [|r rs IH]; intros c; [done|]. cbn [foldl fmap list_fmap]. by rewrite IH. Qed.

(** And backgroundings around one that is not. *)
Fixpoint unback (c : cmd (list Z)) : cmd (list Z) * nat :=
  match c with Back c => ((unback c).1, S (unback c).2) | c => (c, O) end.

Lemma unback_spec c : expressible c = true ->
  let (b, k) := unback c in
  Nat.iter k Back b = c /\ show 1 c = show 2 b ++ replicate k 38 /\ expressible b = true.
Proof.
  induction c as [argv|c IH f m d|l _ r _|l _ r _|c IH]; intros He; cbn [unback];
    try (split_and!; [done|by rewrite app_nil_r|done]).
  specialize (IH He). destruct (unback c) as [b k]. destruct IH as (E1&E3&E4). cbn [fst snd].
  assert (E : show 1 (Back c) = show 2 b ++ replicate (S k) 38).
  { cbn [show Nat.ltb Nat.leb paren]. rewrite E3, <- app_assoc. f_equal. by rewrite replicate_S_end. }
  split_and!; [by rewrite Nat.iter_succ, E1|done|done].
Qed.

Lemma parsebacks_show k : forall fuel c s,
  follows [59; 41] s -> (length (replicate k 38%Z ++ s) < fuel)%nat ->
  parsebacks fuel c (replicate k 38 ++ s) = Ret (Nat.iter k Back c) s.
Proof.
  induction k as [|k IH]; intros [|fuel] c s Hs Hf; try (cbn in Hf; lia);
    cbn [parsebacks replicate app]; unfold mbind at 1, kern_bind at 1.
  - by peek_off.
  - change (peek [38] (38 :: replicate k 38 ++ s)) with (Ret true (38 :: replicate k 38 ++ s)).
    cbn [replicate app length] in Hf. unfold mbind, kern_bind.
    change (gettoken (38 :: replicate k 38 ++ s)) with
      (Ret (38, Word (38 :: replicate k 38 ++ s) (replicate k 38 ++ s)) (skip_ws (replicate k 38 ++ s))).
    assert (skip_ws (replicate k 38 ++ s) = replicate k 38 ++ s) as ->.
    { destruct k; [|done]. apply F3_clean. eapply follows_weaken; [|done].
      intros ?. unfold F3. rewrite !elem_of_cons. naive_solver. }
    rewrite IH by (done || lia). by rewrite Nat.iter_succ_r.
Qed.

(** What reading [show lvl c] back means. *)
Definition reads (m : kern (list Z) (cmd word)) (str : list Z) (c : cmd (list Z)) (s : list Z) : Prop :=
  exists c', m (str ++ s) = Ret c' s /\ cmd_map text c' = c.

Lemma map_backs k : forall c, cmd_map text (Nat.iter k Back c) = Nat.iter k Back (cmd_map text c).
Proof. induction k as [|k IH]; intros c; [done|]. rewrite !Nat.iter_succ. cbn [cmd_map]. by rewrite IH. Qed.

(** Printed commands start with a token or are empty. *)
Lemma show_clean c : forall lvl s, expressible c = true -> follows (60 :: 62 :: F3) s ->
  skip_ws (show lvl c ++ s) = show lvl c ++ s.
Proof.
  induction c as [argv|c IH f m d|l IHl r IHr|l IHl r IHr|c IH]; intros lvl s He Hs; cbn [show expressible] in *.
  - destruct argv as [|w argv]; [by apply follows_clean|]. apply at_word_clean.
    apply andb_true_iff in He as [[Hw _]%andb_true_iff _]. cbn [foldr]. rewrite <- app_assoc. by apply plain_at_word.
  - apply andb_true_iff in He as [[Hc _]%andb_true_iff _]. rewrite <- app_assoc. apply IH; [done|].
    right. eexists _, _. split; [reflexivity|]. rewrite !elem_of_cons. destruct (d =? 0); auto.
  - apply andb_true_iff in He as [Hl Hr]. unfold paren. destruct (2 <? lvl)%nat; [done|]. rewrite <- app_assoc.
    apply IHl; [done|]. right. eexists _, _. split; [reflexivity|]. unfold F3. rewrite !elem_of_cons. auto.
  - apply andb_true_iff in He as [Hl Hr]. unfold paren. destruct (0 <? lvl)%nat; [done|]. rewrite <- app_assoc.
    apply IHl; [done|]. right. eexists _, _. split; [reflexivity|]. unfold F3. rewrite !elem_of_cons. auto 10.
  - unfold paren. destruct (1 <? lvl)%nat; [done|]. rewrite <- app_assoc.
    apply IH; [done|]. right. eexists _, _. split; [reflexivity|]. unfold F3. rewrite !elem_of_cons. auto 10.
Qed.

(** A simple command with its redirections. *)
Lemma parseexec_simple n argv rs s :
  expressible (Exec argv) = true -> forallb rok rs = true -> follows F3 s ->
  reads (parseexec (S n)) (wshows argv ++ rshows rs) (foldl rwrap (Exec argv) rs) s.
Proof.
  intros He Hr Hs. unfold reads. cbn [parseexec expressible] in *. apply andb_true_iff in He as [Hp Hl].
  apply Z.ltb_lt in Hl. unfold mbind at 1, kern_bind at 1. rewrite <- app_assoc. destruct argv as [|w argv].
  - cbn [wshows foldr app].
    replace (peek [40] (rshows rs ++ s)) with (Ret false (rshows rs ++ s)).
    2: { destruct rs as [|r rs]; [cbn [rshows foldr app]; by peek_off|]. cbn. by destruct (r.2 =? 0). }
    unfold mbind, kern_bind. unfold parseredirs.
    destruct (parseredirs_show rs (S (length (rshows rs ++ s))) [] s Hr Hs ltac:(lia)) as (rs'&E&Er).
    rewrite E. cbn [app]. unfold parseargs_all. rewrite args_stop by done.
    eexists. split; [reflexivity|]. cbn [fst snd]. by rewrite map_wrap, Er.
  - pose proof (wshows_at_word w argv (rshows rs ++ s) ltac:(by apply andb_true_iff in Hp as [? _])) as Ha.
    rewrite peek_word; [|done|intros ?; unfold symbols; rewrite !elem_of_cons; naive_solver|by repeat constructor].
    unfold mbind, kern_bind. rewrite parseredirs_none by done. unfold parseargs_all.
    destruct (parseargs_show argv w (S (length (wshows (w :: argv) ++ rshows rs ++ s))) [] rs s)
      as (argv'&rs'&E&Ea&Er); [done|cbn [length app]; cbn [length] in Hl; lia|done|done|lia|].
    rewrite E. eexists. split; [reflexivity|]. cbn [fst snd app]. rewrite map_wrap, Er. cbn [cmd_map]. by rewrite Ea.
Qed.

Ltac subset := let x := fresh in intros x; unfold F3, symbols; rewrite !elem_of_cons; naive_solver.

(** [x] is in front of the next piece. *)
Lemma follows_head x s set : x ∈ set -> follows set (x :: s).
Proof. intros Hx. right. eauto. Qed.

Ltac head := apply follows_head; unfold F3; rewrite !elem_of_cons; auto 10.

Definition reads_line (n : nat) : Prop := forall c s,
  expressible c = true -> follows [41] s -> (4 * length (show 0 c ++ s) + 4 <= n)%nat ->
  reads (parseline n) (show 0 c) c s.

Definition reads_pipe (n : nat) : Prop := forall c s,
  expressible c = true -> follows [38; 59; 41] s -> (4 * length (show 2 c ++ s) + 3 <= n)%nat ->
  reads (parsepipe n) (show 2 c) c s.

Definition reads_exec (n : nat) : Prop := forall c s,
  expressible c = true -> follows F3 s -> (4 * length (show 3 c ++ s) + 2 <= n)%nat ->
  reads (parseexec n) (show 3 c) c s.

Definition reads_block (n : nat) : Prop := forall c rs s,
  expressible c = true -> forallb rok rs = true -> follows F3 s ->
  (4 * length ([40%Z] ++ show 0 c ++ [41%Z] ++ rshows rs ++ s) + 1 <= n)%nat ->
  reads (parseblock n) ([40] ++ show 0 c ++ [41] ++ rshows rs) (foldl rwrap c rs) s.

Lemma list_or_not c : (exists l r, c = List l r) \/ show 0 c = show 1 c.
Proof. destruct c; eauto. Qed.

Lemma pipe_or_not c : (exists l r, c = Pipe l r) \/ show 2 c = show 3 c.
Proof. destruct c; eauto. Qed.

Lemma exec_or_not c :
  (forall c' f m d, c <> Redir c' f m d) ->
  (exists argv, c = Exec argv) \/ show 3 c = [40] ++ show 0 c ++ [41].
Proof. destruct c; intros H; eauto. by destruct (H c file mode fd). Qed.

(** A separator in front of the next piece is read as a token. *)
Lemma separator x str s c lvl :
  x ∈ [124; 59; 40] -> str = x :: show lvl c ++ s -> expressible c = true -> follows F3 s ->
  exists w, gettoken str = Ret (x, w) (show lvl c ++ s).
Proof.
  intros Hx -> He Hs. exists (Word (x :: show lvl c ++ s) (show lvl c ++ s)).
  assert (Hc : skip_ws (show lvl c ++ s) = show lvl c ++ s).
  { apply show_clean; [done|]. eapply follows_weaken; [|done]. subset. }
  transitivity (Ret (x, Word (x :: show lvl c ++ s) (show lvl c ++ s)) (skip_ws (show lvl c ++ s))); [|by rewrite Hc].
  rewrite !elem_of_cons in Hx. destruct Hx as [->|[->|[->|Hx]]]; [reflexivity..|]. by apply elem_of_nil in Hx.
Qed.

Lemma backs_step n c s :
  reads_pipe n -> expressible c = true -> follows [59; 41] s -> (4 * length (show 1 c ++ s) + 4 <= S n)%nat ->
  reads (parsepipe n ≫= parsebacks_all) (show 1 c) c s.
Proof.
  intros IHp He Hs Hf. pose proof (unback_spec c He) as Hu. destruct (unback c) as [b k].
  destruct Hu as (E1&E2&E3). unfold reads. rewrite E2, <- app_assoc in *.
  destruct (IHp b (replicate k 38 ++ s) E3) as (b'&Eb&Hb'); [|lia|].
  - destruct k; [|cbn; head]. eapply follows_weaken; [|done]. subset.
  - unfold mbind, kern_bind. rewrite Eb. unfold parsebacks_all. rewrite parsebacks_show by (done || lia).
    eexists. split; [done|]. by rewrite map_backs, Hb', E1.
Qed.

Lemma line_step n : reads_pipe n -> reads_line n -> reads_line (S n).
Proof.
  intros IHp IHl c s He Hs Hf. unfold reads.
  assert (Hbind : forall str, parseline (S n) str =
    ((parsepipe n ≫= parsebacks_all) ≫= fun c => b ← peek [59];
      if b : bool then gettoken ;; r ← parseline n; mret (List c r) else mret c) str).
  { intros str. cbn [parseline]. unfold mbind, kern_bind. by destruct (parsepipe n str). }
  rewrite Hbind. clear Hbind. unfold mbind at 1, kern_bind at 1.
  destruct (list_or_not c) as [(l&r&->)|E0].
  - cbn [show Nat.ltb Nat.leb paren expressible] in *. apply andb_true_iff in He as [Hl Hr].
    rewrite <- !app_assoc in *. cbn [app] in *.
    destruct (backs_step n l (59 :: show 0 r ++ s)) as (l'&El&Hl'); [done|done|head|lia|].
    rewrite El. unfold mbind, kern_bind.
    change (peek [59] (59 :: show 0 r ++ s)) with (Ret true (59 :: show 0 r ++ s)).
    destruct (separator 59 (59 :: show 0 r ++ s) s r 0) as (w&Ew); [rewrite !elem_of_cons; auto|done|done| |].
    { eapply follows_weaken; [|done]. subset. }
    rewrite Ew. destruct (IHl r s) as (r'&Er&Hr'); [done|done|rewrite length_app in Hf; cbn [length] in Hf; lia|].
    rewrite Er. eexists. split; [reflexivity|]. cbn [cmd_map]. by rewrite Hl', Hr'.
  - rewrite E0 in *. destruct (backs_step n c s) as (c'&Ec&Hc'); [done|done|eapply follows_weaken; [|done]; subset|done|].
    rewrite Ec. unfold mbind, kern_bind. peek_off. eauto.
Qed.

Lemma pipe_step n : reads_exec n -> reads_pipe n -> reads_pipe (S n).
Proof.
  intros IHe IHp c s He Hs Hf. unfold reads. cbn [parsepipe]. unfold mbind at 1, kern_bind at 1.
  destruct (pipe_or_not c) as [(l&r&->)|E0].
  - cbn [show Nat.ltb Nat.leb paren expressible] in *. apply andb_true_iff in He as [Hl Hr].
    rewrite <- !app_assoc in *. cbn [app] in *.
    destruct (IHe l (124 :: show 2 r ++ s)) as (l'&El&Hl'); [done|head|lia|].
    rewrite El. unfold mbind, kern_bind.
    change (peek [124] (124 :: show 2 r ++ s)) with (Ret true (124 :: show 2 r ++ s)).
    destruct (separator 124 (124 :: show 2 r ++ s) s r 2) as (w&Ew); [rewrite !elem_of_cons; auto|done|done| |].
    { eapply follows_weaken; [|done]. subset. }
    rewrite Ew. destruct (IHp r s) as (r'&Er&Hr'); [done|done|rewrite length_app in Hf; cbn [length] in Hf; lia|].
    rewrite Er. eexists. split; [reflexivity|]. cbn [cmd_map]. by rewrite Hl', Hr'.
  - rewrite E0 in *. destruct (IHe c s) as (c'&Ec&Hc'); [done|eapply follows_weaken; [|done]; subset|lia|].
    rewrite Ec. unfold mbind, kern_bind. peek_off. eauto.
Qed.

Lemma exec_step n : reads_block n -> reads_exec (S n).
Proof.
  intros IHb c s He Hs Hf. pose proof (unredir_spec c He) as Hu. destruct (unredir c) as [b rs].
  destruct Hu as (E1&E2&E3&E4&E5). rewrite E2 in *. destruct (exec_or_not b E5) as [[argv ->]|Eb].
  - rewrite <- E1. by apply parseexec_simple.
  - rewrite Eb in *. rewrite <- E1. rewrite <- !app_assoc in *. destruct (IHb b rs s) as (c'&Ec&Hc'); [done|done|done|lia|].
    unfold reads. cbn [parseexec]. unfold mbind, kern_bind.
    exists c'. rewrite <- !app_assoc in *. cbn [app] in *. split; [|done]. exact Ec.
Qed.

Lemma block_step n : reads_line n -> reads_block (S n).
Proof.
  intros IHl c rs s He Hr Hs Hf. unfold reads. cbn [parseblock]. unfold mbind at 1, kern_bind at 1.
  rewrite <- !app_assoc in *. cbn [app] in *. set (s1 := 41 :: rshows rs ++ s) in *.
  change (peek [40] (40 :: show 0 c ++ s1)) with (Ret true (40 :: show 0 c ++ s1)). cbn [negb].
  destruct (separator 40 (40 :: show 0 c ++ s1) s1 c 0) as (w&Ew); [rewrite !elem_of_cons; auto|done|done|unfold s1; head|].
  unfold mbind, kern_bind. rewrite Ew.
  destruct (IHl c s1) as (c'&Ec&Hc'); [done|unfold s1; head|cbn [length] in Hf; lia|]. rewrite Ec.
  change (peek [41] s1) with (Ret true s1). cbn [negb].
  change (gettoken s1) with (Ret (41, Word s1 (rshows rs ++ s)) (skip_ws (rshows rs ++ s))).
  cbv beta iota. rewrite rshows_clean by done. unfold parseredirs.
  destruct (parseredirs_show rs (S (length (rshows rs ++ s))) [] s Hr Hs ltac:(lia)) as (rs'&E&Er).
  rewrite E. eexists. split; [reflexivity|]. cbn [app]. by rewrite map_wrap, Er, Hc'.
Qed.

Lemma reads_all n : reads_line n /\ reads_pipe n /\ reads_exec n /\ reads_block n.
Proof.
  induction n as [|n (IHl&IHp&IHe&IHb)].
  - split_and!; intros ?; intros; lia.
  - split_and!; eauto using line_step, pipe_step, exec_step, block_step.
Qed.

(** C9: The parser reads back every command it can build.  A command whose words
    are made of word characters, with fewer than MAXARGS arguments and the
    parser's redirection modes, printed with the least parentheses, parses to
    a command with the same shape and the same words: [|] binds tighter than
    [&], [&] than [;], and redirections attach to the command they follow. *)
Theorem parse_show c :
  expressible c = true ->
  exists c', parse (show 0 c) (show 0 c) = Ret c' [] /\ cmd_map text c' = c.
Proof.
  intros He. destruct (reads_all (parse_fuel (show 0 c))) as (Hl&_).
  destruct (Hl c [] He) as (c'&Ec&Hc'); [by left|rewrite app_nil_r; unfold parse_fuel; lia|].
  rewrite app_nil_r in Ec. unfold parse, mbind, kern_bind. rewrite Ec. eauto.
Qed.

(** Witnesses: the line [cat <a|b&] and the command it came from. *)
Definition demo_line : list Z := [99; 97; 116; 32; 60; 97; 124; 98; 38].
Definition demo_cmd : cmd (list Z) := Back (Pipe (Redir (Exec [[99; 97; 116]]) [97] O_RDONLY 0) (Exec [[98]])).

Lemma parsecmd_words_witness :
  nonnul demo_line /\
  ((exists msg, parsecmd demo_line demo_line = Panic msg) \/
   (exists c buf, parsecmd demo_line demo_line = Ret (c, buf) [] /\
     Forall (word_ok demo_line) (words c) /\
     Forall (fun w => cstr (drop (length demo_line - length (w_q w)) buf) = text w) (words c))).
Proof.
  assert (H : nonnul demo_line) by by repeat constructor. split; [exact H|]. exact (parsecmd_words demo_line H).
Defined.

Lemma parse_show_witness :
  exists c', parse (show 0 demo_cmd) (show 0 demo_cmd) = Ret c' [] /\ cmd_map text c' = demo_cmd.
Proof. apply (parse_show demo_cmd). reflexivity. Defined.
