(* ===== verification/ShellRun.v ===== *)
(** Running commands: [runcmd], [getcmd] and [main] of sh.c.

    The shell acts by system calls on its descriptor table.  A run of a process
    is the tree of what it does: the children it forks, the waits, the messages
    it prints, and the program it becomes, with the descriptors that program
    gets.  The kernel's part is explicit where the shell depends on it: a new
    descriptor is the lowest free one ([fdalloc]), [fork] copies the table.
    Which files open, which programs exist and whether [fork] and [pipe] succeed
    are parameters. *)

From S2P Require Import Prelude CString Shell.

(** What a descriptor refers to: a file the shell opened, an end of its [n]th
    pipe, or something it was started with. *)
Inductive handle :=
| Opened (file : list Z) (mode : Z)
| ReadEnd (n : nat)
| WriteEnd (n : nat)
| Given (k : nat).

#[global] Instance handle_eq_dec : EqDecision handle.
Proof. solve_decision. Defined.

(** ** Descriptor tables *)

Abbreviation fds := (list (option handle)).

(** The lowest free descriptor. *)
Fixpoint lowest (t : fds) : option nat :=
  match t with
  | [] => None
  | None :: _ => Some O
  | Some _ :: t => S <$> lowest t
  end.

Definition fd_new (h : handle) (t : fds) : option (nat * fds) :=
  k ← lowest t; Some (k, <[k := Some h]> t).

Definition fd_close (k : nat) (t : fds) : fds := <[k := None]> t.

Definition fd_dup (k : nat) (t : fds) : fds :=
  match t !! k with
  | Some (Some h) => match fd_new h t with Some (_, t) => t | None => t end
  | _ => t
  end.

(** [pipe(p)]: [p[0]], [p[1]] and the new table. *)
Definition fd_pipe (n : nat) (t : fds) : option (nat * nat * fds) :=
  '(a, t) ← fd_new (ReadEnd n) t;
  '(b, t) ← fd_new (WriteEnd n) t;
  Some (a, b, t).

(** ** Runs *)

Inductive proc :=
| Exit
| Program (argv : list (list Z)) (t : fds)
| Print (fd : Z) (msg : list Z) (p : proc)
| Fork (child : proc) (p : proc)
| Wait (p : proc)
| Chdir (dir : list Z) (p : proc).

(** The bytes of a string constant. *)
Fixpoint lit (s : string) : list Z :=
  match s with
  | EmptyString => []
  | String a s => Z.of_N (Ascii.N_of_ascii a) :: lit s
  end.

Definition newline : list Z := [10].

Section run.
Context (openable : list Z -> Z -> bool) (runnable : list (list Z) -> bool).
Context (forks pipes : nat -> bool).

(** [panic(s)] of sh.c. *)
Definition sh_panic (msg : string) : proc := Print 2 (lit msg ++ newline) Exit.

(** [fork1() == 0] with the child's run: the [n]th fork. *)
Definition fork1 (n : nat) (child rest : proc) : proc :=
  if forks n then Fork child rest else sh_panic "fork".

(** [runcmd]; [n] numbers the forks and pipes made so far, by this process and
    the children it has started. *)
Fixpoint runcmd (c : cmd (list Z)) (t : fds) (n : nat) : proc * nat :=
  match c with
  | Exec [] => (Exit, n)
  | Exec (a :: argv) =>
      if runnable (a :: argv) then (Program (a :: argv) t, n)
      else (Print 2 (lit "exec " ++ a ++ lit " failed" ++ newline) Exit, n)
  | Redir c file mode fd =>
      let t := fd_close (Z.to_nat fd) t in
      match (if openable file mode then fd_new (Opened file mode) t else None) with
      | None => (Print 2 (lit "open " ++ file ++ lit " failed" ++ newline) Exit, n)
      | Some (_, t) => runcmd c t n
      end
  | List l r =>
      let (pl, n1) := runcmd l t (S n) in
      let (pr, n2) := runcmd r t n1 in
      (fork1 n pl (Wait pr), n2)
  | Pipe l r =>
      match (if pipes n then fd_pipe n t else None) with
      | None => (sh_panic "pipe", n)
      | Some (p0, p1, t) =>
          let tl := fd_close p1 (fd_close p0 (fd_dup p1 (fd_close 1 t))) in
          let tr := fd_close p1 (fd_close p0 (fd_dup p0 (fd_close 0 t))) in
          let (pl, n1) := runcmd l tl (S n) in
          let (pr, n2) := runcmd r tr (S n1) in
          (fork1 n pl (fork1 n1 pr (Wait (Wait Exit))), n2)
      end
  | Back c =>
      let (p, n1) := runcmd c t (S n) in
      (fork1 n p Exit, n1)
  end.

(** ** main *)

(** [while((fd = open("console", O_RDWR)) >= 0) if(fd >= 3){ close(fd); break; }]. *)
Fixpoint open_console (fuel : nat) (t : fds) : fds :=
  match fuel with
  | O => t
  | S fuel =>
      match (if openable (lit "console") O_RDWR then fd_new (Opened (lit "console") O_RDWR) t else None) with
      | None => t
      | Some (fd, t) => if (3 <=? fd)%nat then fd_close fd t else open_console fuel t
      end
  end.

(** [getcmd] on the input that is left: the line and the rest, or end of file. *)
Definition getcmd (inp : list Z) : option (list Z * list Z) :=
  let (buf, rest) := ulib_gets inp 100 in
  if deref buf =? 0 then None else Some (cstr buf, rest).

(** [runcmd(parsecmd(buf))] in the child. *)
Definition run_line (line : list Z) (t : fds) (n : nat) : proc * nat :=
  match parsecmd line line with
  | Ret (c, _) _ => runcmd (cmd_map text c) t n
  | Panic msg => (sh_panic msg, n)
  | _ => (Exit, n)
  end.

Context (enterable : list Z -> bool).

(** The loop of [main]; every iteration consumes at least one byte of input. *)
Fixpoint main_loop (fuel : nat) (inp : list Z) (t : fds) (n : nat) : proc :=
  match fuel with
  | O => Exit
  | S fuel =>
      Print 2 (lit "$ ")
        match getcmd inp with
        | None => Exit
        | Some (buf, rest) =>
            if (deref buf =? 99) && (deref (drop 1 buf) =? 100) && (deref (drop 2 buf) =? 32) then
              let dir := drop 3 (removelast buf) in
              Chdir dir
                (if enterable dir then main_loop fuel rest t n
                 else Print 2 (lit "cannot cd " ++ dir ++ newline) (main_loop fuel rest t n))
            else
              let (p, n1) := run_line buf t (S n) in
              fork1 n p (Wait (main_loop fuel rest t n1))
        end
  end.

Definition main (inp : list Z) (t : fds) : proc := main_loop (S (length inp)) inp (open_console 16 t) 0.

End run.

(** ** What a command means

    The programs a command starts, each with its descriptors: redirections and
    pipes replace descriptors 0 and 1 for their part of the command and nothing
    else. *)

Section plumb.
Context (openable : list Z -> Z -> bool) (runnable : list (list Z) -> bool).

Fixpoint plumb (c : cmd (list Z)) (t : fds) (n : nat) : list (list (list Z) * fds) * nat :=
  match c with
  | Exec [] => ([], n)
  | Exec argv => (if runnable argv then [(argv, t)] else [], n)
  | Redir c file mode fd =>
      if openable file mode then plumb c (<[Z.to_nat fd := Some (Opened file mode)]> t) n else ([], n)
  | List l r =>
      let (a, n1) := plumb l t (S n) in
      let (b, n2) := plumb r t n1 in
      (a ++ b, n2)
  | Pipe l r =>
      let (a, n1) := plumb l (<[1%nat := Some (WriteEnd n)]> t) (S n) in
      let (b, n2) := plumb r (<[0%nat := Some (ReadEnd n)]> t) (S n1) in
      (a ++ b, n2)
  | Back c => plumb c t (S n)
  end.

(** The processes left running in the background by the shell process itself. *)
Fixpoint background (c : cmd (list Z)) : nat :=
  match c with
  | Exec _ => 0
  | Redir c file mode _ => if openable file mode then background c else 0
  | List _ r => background r
  | Pipe _ _ => 0
  | Back _ => 1
  end.

End plumb.

(** The programs of a run, and the forks and waits of the process itself. *)
Fixpoint programs (p : proc) : list (list (list Z) * fds) :=
  match p with
  | Exit => []
  | Program argv t => [(argv, t)]
  | Print _ _ p | Wait p | Chdir _ p => programs p
  | Fork c p => programs c ++ programs p
  end.

Fixpoint own_forks (p : proc) : nat :=
  match p with
  | Exit | Program _ _ => 0
  | Print _ _ p | Wait p | Chdir _ p => own_forks p
  | Fork _ p => S (own_forks p)
  end.

Fixpoint own_waits (p : proc) : nat :=
  match p with
  | Exit | Program _ _ => 0
  | Print _ _ p | Fork _ p | Chdir _ p => own_waits p
  | Wait p => S (own_waits p)
  end.

(** Standard input, output and error are open. *)
Definition std_open (t : fds) : Prop := forall k, (k < 3)%nat -> exists h, t !! k = Some (Some h).

(** Two descriptors are free. *)
Definition spare (t : fds) : Prop := exists a b, a <> b /\ t !! a = Some None /\ t !! b = Some None.

(** Redirections of the grammar: [<] is to 0, [>] and [>>] to 1. *)
Fixpoint redirs_ok (c : cmd (list Z)) : Prop :=
  match c with
  | Exec _ => True
  | Redir c _ _ fd => (fd = 0 \/ fd = 1) /\ redirs_ok c
  | List l r | Pipe l r => redirs_ok l /\ redirs_ok r
  | Back c => redirs_ok c
  end.

Lemma lowest_is t k : t !! k = Some None -> (forall j, (j < k)%nat -> exists h, t !! j = Some (Some h)) -> lowest t = Some k.
Proof.
  revert k. induction t as [|[h|] t IH]; intros k Hk Hj; [done| |].
  - destruct k as [|k]; [done|]. cbn [lowest]. rewrite (IH k); [done|done|]. intros j Hjk. apply (Hj (S j)). lia.
  - destruct k as [|k]; [done|]. destruct (Hj 0%nat ltac:(lia)) as [h E]. done.
Qed.

Lemma lowest_free t : (exists k, t !! k = Some None) -> exists k, lowest t = Some k /\ t !! k = Some None.
Proof.
  induction t as [|[h|] t IH]; intros (k & Hk); [done| |by exists 0%nat].
  destruct k as [|k]; [done|]. destruct IH as (j & E & Hj); [by exists k|]. exists (S j). cbn [lowest]. by rewrite E.
Qed.

Lemma std_insert t k h : std_open t -> (k < length t)%nat -> std_open (<[k := Some h]> t).
Proof.
  intros Hs Hk j Hj. destruct (decide (j = k)) as [->|Hne]; [rewrite list_lookup_insert_eq by done; eauto|].
  rewrite list_lookup_insert_ne by done. by apply Hs.
Qed.

Lemma spare_insert t k h : std_open t -> spare t -> (k < 3)%nat -> spare (<[k := Some h]> t).
Proof.
  intros Hs (a & b & Hab & Ha & Hb) Hk. exists a, b. split; [done|].
  assert (Hne : forall j, t !! j = Some None -> k <> j) by (intros j Hj ->; destruct (Hs j Hk); congruence).
  by rewrite !list_lookup_insert_ne by auto.
Qed.

Lemma std_length t k : std_open t -> (k < 3)%nat -> (k < length t)%nat.
Proof. intros Hs Hk. destruct (Hs k Hk) as [h E]. by apply lookup_lt_Some in E. Qed.

(** Closing a standard descriptor and opening again gives the same number. *)
Lemma reopen t k h : std_open t -> (k < 3)%nat -> fd_new h (fd_close k t) = Some (k, <[k := Some h]> t).
Proof.
  intros Hs Hk. unfold fd_new, fd_close. pose proof (std_length t k Hs Hk) as Hl.
  rewrite (lowest_is _ k); [cbn; by rewrite list_insert_insert_eq|by apply list_lookup_insert_eq|].
  intros j Hj. rewrite list_lookup_insert_ne by lia. apply Hs. lia.
Qed.

Lemma pipe_free n t : std_open t -> spare t ->
  exists a b, fd_pipe n t = Some (a, b, <[b := Some (WriteEnd n)]> (<[a := Some (ReadEnd n)]> t)) /\
    (3 <= a)%nat /\ (3 <= b)%nat /\ a <> b /\ t !! a = Some None /\ t !! b = Some None.
Proof.
  intros Hs (x & y & Hxy & Hx & Hy).
  assert (Hge : forall j, t !! j = Some None -> (3 <= j)%nat).
  { intros j Hj. destruct (decide (3 <= j)%nat); [done|]. destruct (Hs j ltac:(lia)). congruence. }
  destruct (lowest_free t ltac:(by exists x)) as (a & Ea & Ha). unfold fd_pipe, fd_new. rewrite Ea. cbn [mbind option_bind].
  destruct (lowest_free (<[a := Some (ReadEnd n)]> t)) as (b & Eb & Hb).
  { destruct (decide (a = x)) as [->|Hne].
    - exists y. by rewrite list_lookup_insert_ne.
    - exists x. by rewrite list_lookup_insert_ne. }
  rewrite Eb. cbn. exists a, b. split; [done|].
  assert (a <> b).
  { intros ->. rewrite list_lookup_insert_eq in Hb; [done|]. by apply lookup_lt_Some in Ha. }
  rewrite list_lookup_insert_ne in Hb by done. auto 10.
Qed.

(** The child's table: one standard descriptor is the pipe's end, the rest is as before. *)
Lemma pipe_end n t a b k e h : std_open t -> (k < 3)%nat -> (3 <= a)%nat -> (3 <= b)%nat -> a <> b ->
  t !! a = Some None -> t !! b = Some None -> e = a /\ h = ReadEnd n \/ e = b /\ h = WriteEnd n ->
  fd_close b (fd_close a (fd_dup e (fd_close k (<[b := Some (WriteEnd n)]> (<[a := Some (ReadEnd n)]> t))))) = <[k := Some h]> t.
Proof.
  intros Hs Hk Ha3 Hb3 Hab Ha Hb He. set (t1 := <[b := _]> (<[a := _]> t)).
  pose proof (lookup_lt_Some _ _ _ Ha) as La. pose proof (lookup_lt_Some _ _ _ Hb) as Lb.
  assert (Hs1 : std_open t1).
  { unfold t1. apply std_insert; [by apply std_insert|]. by rewrite length_insert. }
  assert (Ek : fd_close k t1 !! e = Some (Some h)).
  { unfold fd_close, t1. destruct He as [[-> ->]|[-> ->]].
    - rewrite !list_lookup_insert_ne by lia. by apply list_lookup_insert_eq.
    - rewrite list_lookup_insert_ne by lia. apply list_lookup_insert_eq. by rewrite length_insert. }
  unfold fd_dup. rewrite Ek, reopen by done. unfold fd_close, t1.
  apply list_eq. intros j. rewrite !list_lookup_insert. rewrite !length_insert.
  pose proof (std_length t k Hs Hk). repeat case_decide; naive_solver lia.
Qed.

Section refine.
Context (openable : list Z -> Z -> bool) (runnable : list (list Z) -> bool).
Context (forks pipes : nat -> bool) (enterable : list Z -> bool).
Hypothesis Hforks : forall n, forks n = true.
Hypothesis Hpipes : forall n, pipes n = true.

Local Abbreviation run := (runcmd openable runnable forks pipes).
Local Abbreviation mean := (plumb openable runnable).

Lemma fork1_ok n c p : fork1 forks n c p = Fork c p.
Proof using Hforks. unfold fork1. by rewrite Hforks. Qed.

Lemma runcmd_plumb c : forall t n, redirs_ok c -> std_open t -> spare t ->
  programs (run c t n).1 = (mean c t n).1 /\ (run c t n).2 = (mean c t n).2 /\
  own_forks (run c t n).1 = (own_waits (run c t n).1 + background openable c)%nat.
Proof using Hforks Hpipes.
  induction c as [argv|c IH file mode fd|l IHl r IHr|l IHl r IHr|c IH]; intros t n Hr Hs Hf; cbn [runcmd plumb background].
  - destruct argv as [|a argv]; [done|]. destruct (runnable (a :: argv)); done.
  - destruct Hr as [Hfd Hr]. destruct (openable file mode); [|done].
    assert (Hk : (Z.to_nat fd < 3)%nat) by lia. rewrite reopen by done.
    apply IH; [done|apply std_insert; [done|by apply std_length]|by apply spare_insert].
  - destruct Hr as [H1 H2]. rewrite Hpipes. destruct (pipe_free n t Hs Hf) as (a & b & -> & Ha3 & Hb3 & Hab & Ha & Hb).
    rewrite (pipe_end n t a b 1 b (WriteEnd n)), (pipe_end n t a b 0 a (ReadEnd n)) by (auto with lia).
    destruct (IHl (<[1%nat := Some (WriteEnd n)]> t) (S n) H1) as (L1 & L2 & _);
      [apply std_insert; [done|by apply std_length; [|lia]]|apply spare_insert; [done..|lia]|].
    destruct (run l _ _) as [pl n1], (mean l _ _) as [al m1]. cbn in L1, L2. subst.
    destruct (IHr (<[0%nat := Some (ReadEnd n)]> t) (S m1) H2) as (R1 & R2 & _);
      [apply std_insert; [done|by apply std_length; [|lia]]|apply spare_insert; [done..|lia]|].
    destruct (run r _ _) as [pr n2], (mean r _ _) as [ar m2]. cbn in R1, R2. subst.
    cbn [fst snd]. rewrite !fork1_ok. cbn. by rewrite app_nil_r.
  - destruct Hr as [H1 H2]. destruct (IHl t (S n) H1 Hs Hf) as (L1 & L2 & _).
    destruct (run l _ _) as [pl n1], (mean l _ _) as [al m1]. cbn in L1, L2. subst.
    destruct (IHr t m1 H2 Hs Hf) as (R1 & R2 & R3). destruct (run r _ _) as [pr n2], (mean r _ _) as [ar m2]. cbn in R1, R2, R3. subst.
    cbn [fst snd]. rewrite fork1_ok. cbn. by rewrite R3.
  - destruct (IH t (S n) Hr Hs Hf) as (L1 & L2 & _). destruct (run c _ _) as [p n1], (mean c _ _) as [a m1]. cbn in L1, L2. subst.
    cbn [fst snd]. rewrite fork1_ok. cbn. by rewrite app_nil_r.
Qed.

(** ** The parser only redirects descriptors 0 and 1 *)

Definition std_redir (r : redir) : Prop := r_fd r = 0 \/ r_fd r = 1.

Fixpoint std_redirs (c : cmd word) : Prop :=
  match c with
  | Exec _ => True
  | Redir c _ _ fd => (fd = 0 \/ fd = 1) /\ std_redirs c
  | List l r | Pipe l r => std_redirs l /\ std_redirs r
  | Back c => std_redirs c
  end.

Lemma redirs_map c : std_redirs c -> redirs_ok (cmd_map text c).
Proof. induction c; cbn; naive_solver. Qed.

Lemma wrap_redirs rs : forall c, Forall std_redir rs -> std_redirs c -> std_redirs (foldl redircmd c rs).
Proof.
  induction rs as [|r rs IH]; intros c Hr Hc; [done|]. apply Forall_cons in Hr as [Hr Hrs]. cbn [foldl]. by apply IH.
Qed.

Lemma parseredirs_std fuel : forall acc s rs s', Forall std_redir acc -> parseredirs_loop fuel acc s = Ret rs s' -> Forall std_redir rs.
Proof.
  induction fuel as [|fuel IH]; intros acc s rs s' Ha E; [done|]. cbn [parseredirs_loop] in E.
  apply bind_inv in E as (b & s1 & _ & E). destruct b; [|apply ret_inv in E as [<- _]; done].
  apply bind_inv in E as (tok & s2 & _ & E). apply bind_inv in E as (t & s3 & _ & E).
  destruct (negb (t.1 =? 97)); [done|]. eapply IH; [|exact E]. apply Forall_app. split; [done|].
  apply Forall_singleton. unfold std_redir. repeat case_match; cbn; auto.
Qed.

Lemma parseargs_std fuel : forall argv rs s ar s', Forall std_redir rs -> parseargs fuel argv rs s = Ret ar s' -> Forall std_redir ar.2.
Proof.
  induction fuel as [|fuel IH]; intros argv rs s ar s' Ha E; [done|]. cbn [parseargs] in E.
  apply bind_inv in E as (b & s1 & _ & E). destruct b; [apply ret_inv in E as [<- _]; done|].
  apply bind_inv in E as (t & s2 & _ & E). destruct (t.1 =? 0); [apply ret_inv in E as [<- _]; done|].
  destruct (negb (t.1 =? 97)); [done|]. cbv zeta in E. destruct (MAXARGS <=? _); [done|].
  apply bind_inv in E as (rs' & s3 & E3 & E). eapply IH; [|exact E]. by eapply parseredirs_std.
Qed.

Lemma parsebacks_std fuel : forall c s c' s', std_redirs c -> parsebacks fuel c s = Ret c' s' -> std_redirs c'.
Proof.
  induction fuel as [|fuel IH]; intros c s c' s' Hc E; [done|]. cbn [parsebacks] in E.
  apply bind_inv in E as (b & s1 & _ & E). destruct b; [|apply ret_inv in E as [<- _]; done].
  apply bind_inv in E as (t & s2 & _ & E). by eapply IH; [|exact E].
Qed.

Lemma parse_std_all n :
  (forall s c s', parseline n s = Ret c s' -> std_redirs c) /\
  (forall s c s', parsepipe n s = Ret c s' -> std_redirs c) /\
  (forall s c s', parseexec n s = Ret c s' -> std_redirs c) /\
  (forall s c s', parseblock n s = Ret c s' -> std_redirs c).
Proof.
  induction n as [|n (IHl&IHp&IHe&IHb)]; [split_and!; intros; done|]. split_and!; intros s c s' E.
  - cbn [parseline] in E. apply bind_inv in E as (c1 & s1 & E1 & E). apply bind_inv in E as (c2 & s2 & E2 & E).
    apply IHp in E1. eapply parsebacks_std in E2; [|done]. apply bind_inv in E as (b & s3 & _ & E).
    destruct b; [|apply ret_inv in E as [<- _]; done]. apply bind_inv in E as (t & s4 & _ & E).
    apply bind_inv in E as (r & s5 & E5 & E). apply ret_inv in E as [<- _]. split; [done|by eapply IHl].
  - cbn [parsepipe] in E. apply bind_inv in E as (c1 & s1 & E1 & E). apply IHe in E1. apply bind_inv in E as (b & s3 & _ & E).
    destruct b; [|apply ret_inv in E as [<- _]; done]. apply bind_inv in E as (t & s4 & _ & E).
    apply bind_inv in E as (r & s5 & E5 & E). apply ret_inv in E as [<- _]. split; [done|by eapply IHp].
  - cbn [parseexec] in E. apply bind_inv in E as (b & s1 & _ & E). destruct b; [by eapply IHb|].
    apply bind_inv in E as (rs & s2 & E2 & E). apply bind_inv in E as (ar & s3 & E3 & E). apply ret_inv in E as [<- _].
    apply wrap_redirs; [|done]. eapply parseargs_std; [|exact E3]. by eapply parseredirs_std; [|exact E2].
  - cbn [parseblock] in E. apply bind_inv in E as (b & s1 & _ & E). destruct b; [|done]. cbn [negb] in E.
    apply bind_inv in E as (t & s2 & _ & E). apply bind_inv in E as (c1 & s3 & E3 & E). apply bind_inv in E as (b & s4 & _ & E).
    destruct b; [|done]. cbn [negb] in E. apply bind_inv in E as (t5 & s5 & _ & E). apply bind_inv in E as (rs & s6 & E6 & E).
    apply ret_inv in E as [<- _]. apply wrap_redirs; [|by eapply IHl]. by eapply parseredirs_std; [|exact E6].
Qed.

Lemma parsecmd_std s c buf s' : parsecmd s s = Ret (c, buf) s' -> std_redirs c.
Proof.
  unfold parsecmd, parse. intros E. apply bind_inv in E as (c1 & s1 & E1 & E). apply ret_inv in E as [[= <- _] _].
  apply bind_inv in E1 as (c2 & s2 & E2 & E). apply bind_inv in E as (b & s3 & _ & E). apply bind_inv in E as (r & s4 & _ & E).
  destruct r; [|done]. apply ret_inv in E as [<- _].
  exact (proj1 (parse_std_all _) _ _ _ E2).
Qed.

(** ** A session *)

(** The lines the shell reads from its input. *)
Inductive reads : list Z -> list (list Z) -> Prop :=
| reads_eof inp : getcmd inp = None -> reads inp []
| reads_line inp l rest ls : getcmd inp = Some (l, rest) -> reads rest ls -> reads inp (l :: ls).

Definition is_cd (l : list Z) : bool := (deref l =? 99) && (deref (drop 1 l) =? 100) && (deref (drop 2 l) =? 32).

(** The programs of a session: those of its commands, in order. *)
Fixpoint session (ls : list (list Z)) (t : fds) (n : nat) : list (list (list Z) * fds) :=
  match ls with
  | [] => []
  | l :: ls =>
      if is_cd l then session ls t n
      else
        match parsecmd l l with
        | Ret (c, _) _ => let (a, n1) := mean (cmd_map text c) t (S n) in a ++ session ls t n1
        | _ => session ls t (S n)
        end
  end.

Lemma gets_le inp : forall m, (length (gets_loop inp m).2 <= length inp)%nat.
Proof.
  induction inp as [|c inp IH]; intros [|m]; cbn; [done..|]. destruct (_ || _); [cbn; lia|].
  specialize (IH m). destruct (gets_loop inp m). cbn in *. lia.
Qed.

Lemma getcmd_shorter inp l rest : getcmd inp = Some (l, rest) -> (length rest < length inp)%nat.
Proof.
  unfold getcmd, ulib_gets. change (Z.to_nat (100 - 1)) with 99%nat. destruct inp as [|c inp]; [done|].
  cbn [gets_loop]. pose proof (gets_le inp 98) as Hle. destruct (_ || _).
  - destruct (deref [c; 0] =? 0); [done|]. intros [= _ <-]. cbn. lia.
  - destruct (gets_loop inp 98) as [l1 r1]. destruct (deref (c :: l1) =? 0); [done|]. intros [= _ <-]. cbn in *. lia.
Qed.

Local Abbreviation loop := (main_loop openable runnable forks pipes enterable).

Lemma run_line_plumb l t n : std_open t -> spare t ->
  programs (run_line openable runnable forks pipes l t n).1 =
    match parsecmd l l with Ret (c, _) _ => (mean (cmd_map text c) t n).1 | _ => [] end /\
  (run_line openable runnable forks pipes l t n).2 =
    match parsecmd l l with Ret (c, _) _ => (mean (cmd_map text c) t n).2 | _ => n end.
Proof using Hforks Hpipes.
  intros Hs Hf. unfold run_line. destruct (parsecmd l l) as [[c buf] s'|msg|? ?|] eqn:E; [|done..].
  destruct (runcmd_plumb (cmd_map text c) t n) as (H1 & H2 & _); [by eapply redirs_map, parsecmd_std|done|done|done].
Qed.

Lemma main_loop_session fuel : forall inp t n, (length inp < fuel)%nat -> std_open t -> spare t ->
  exists ls, reads inp ls /\ programs (loop fuel inp t n) = session ls t n /\
    own_forks (loop fuel inp t n) = own_waits (loop fuel inp t n).
Proof using Hforks Hpipes.
  induction fuel as [|fuel IH]; intros inp t n Hf Hs Hsp; [lia|]. cbn [main_loop programs own_forks own_waits].
  destruct (getcmd inp) as [[l rest]|] eqn:E; [|exists []; split; [by constructor|done]].
  pose proof (getcmd_shorter _ _ _ E) as Hlt. destruct (is_cd l) eqn:Ec.
  - destruct (IH rest t n ltac:(lia) Hs Hsp) as (ls & H1 & H2 & H3). exists (l :: ls). split; [by econstructor|].
    cbn [session]. rewrite Ec. unfold is_cd in Ec. rewrite Ec.
    cbn [programs own_forks own_waits]. destruct (enterable _); cbn [programs own_forks own_waits]; done.
  - destruct (run_line_plumb l t (S n) Hs Hsp) as (R1 & R2).
    destruct (run_line _ _ _ _ l t (S n)) as [p n1] eqn:Er. cbn [fst snd] in R1, R2.
    destruct (IH rest t n1 ltac:(lia) Hs Hsp) as (ls & H1 & H2 & H3). exists (l :: ls). split; [by econstructor|].
    cbn [session]. rewrite Ec. unfold is_cd in Ec. rewrite Ec, fork1_ok.
    cbn [programs own_forks own_waits]. rewrite H2, H3, R1. split; [|done].
    destruct (parsecmd l l) as [[c buf] s'|msg|? ?|]; [|by subst..]. destruct (mean _ t (S n)) as [a m]. cbn in *. by subst.
Qed.

Lemma open_console_same t : openable (lit "console") O_RDWR = true -> std_open t -> spare t -> open_console openable 16 t = t.
Proof.
  intros Ho Hs (x & y & _ & Hx & _). unfold open_console. rewrite Ho. unfold fd_new.
  destruct (lowest_free t ltac:(by exists x)) as (a & -> & Ha). cbn [mbind option_bind].
  assert (3 <= a)%nat as Ha3.
  { destruct (decide (3 <= a)%nat); [done|]. destruct (Hs a ltac:(lia)). congruence. }
  rewrite (proj2 (Nat.leb_le _ _) Ha3). unfold fd_close. rewrite list_insert_insert_eq. by apply list_insert_id.
Qed.


End refine.

(** ** Witness: [cd d], then a pipeline with a redirection, then a list *)

Definition demo_table : fds := [Some (Given 0); Some (Given 1); Some (Given 2)] ++ replicate 13 None.
Definition demo_input : list Z := lit "cd d" ++ newline ++ lit "a x | b > f" ++ newline ++ lit "c ; e" ++ newline.

