(* ===== verification/Spinlock.v ===== *)
(** Spin locks (spinlock.c): the interrupt nesting count of each processor,
    [acquire] and [release], and mutual exclusion under every interleaving of
    the processors' memory operations.

    A lock is named by its address.  [acquire] and [release] are composed of
    the pieces between their accesses to the lock word, so that the step
    relation at the end interleaves exactly the pieces the functions run. *)

From S2P Require Import Prelude.

(** ** State *)

Record cpu := Cpu { ncli : Z; intena : bool; eflags_IF : bool; cproc : option nat }.

Record spinlock := Spin { locked : bool; lk_cpu : option nat }.

Record locking := Locking { cpus : list cpu; locks : Z -> spinlock }.

#[global] Instance cpu_inhabited : Inhabited cpu := populate (Cpu 0 false false None).

Definition set_cpu (c : nat) (f : cpu -> cpu) : kern locking unit :=
  modify (fun s => Locking (alter f c (cpus s)) (locks s)).
Definition set_lock (lk : Z) (f : spinlock -> spinlock) : kern locking unit :=
  modify (fun s => Locking (cpus s) (fun a => if a =? lk then f (locks s lk) else locks s a)).

Definition cpuat (c : nat) (s : locking) : cpu := cpus s !!! c.

(** ** Interrupts *)

Section on_cpu.
Context (c : nat).

Definition readeflags : kern locking bool := gets (fun s => eflags_IF (cpuat c s)).
Definition cli : kern locking unit := set_cpu c (fun x => Cpu (ncli x) (intena x) false (cproc x)).
Definition sti : kern locking unit := set_cpu c (fun x => Cpu (ncli x) (intena x) true (cproc x)).

(** The processor executing the code is [c]; its entry of the table. *)
Definition mycpu : kern locking cpu :=
  b ← readeflags;
  if b : bool then panic "mycpu called with interrupts enabled"
  else gets (cpuat c).

Definition pushcli : kern locking unit :=
  eflags ← readeflags;
  cli ;;
  x ← mycpu;
  (if ncli x =? 0 then set_cpu c (fun x => Cpu (ncli x) eflags (eflags_IF x) (cproc x)) else mret ()) ;;
  set_cpu c (fun x => Cpu (ncli x + 1) (intena x) (eflags_IF x) (cproc x)).

Definition popcli : kern locking unit :=
  eflags ← readeflags;
  if eflags : bool then panic "popcli - interruptible"
  else
    set_cpu c (fun x => Cpu (ncli x - 1) (intena x) (eflags_IF x) (cproc x)) ;;
    x ← mycpu;
    if ncli x <? 0 then panic "popcli"
    else if (ncli x =? 0) && intena x then sti else mret ().

Definition myproc : kern locking (option nat) :=
  pushcli ;;
  x ← mycpu;
  popcli ;;
  mret (cproc x).

(** ** Locks *)

Definition holding (lk : Z) : kern locking bool :=
  pushcli ;;
  mycpu ;;
  r ← gets (fun s => locked (locks s lk) && bool_decide (lk_cpu (locks s lk) = Some c));
  popcli ;;
  mret r.

Definition initlock (lk : Z) : kern locking unit := set_lock lk (fun _ => Spin false None).

(** [acquire]: up to the spin loop, one [xchg], and the debugging record. *)
Definition acquire_enter (lk : Z) : kern locking unit :=
  pushcli ;;
  h ← holding lk;
  if h : bool then panic "acquire" else mret ().

Definition acquire_xchg (lk : Z) : kern locking bool :=
  old ← gets (fun s => locked (locks s lk));
  set_lock lk (fun l => Spin true (lk_cpu l)) ;;
  mret old.

Definition acquire_mark (lk : Z) : kern locking unit :=
  mycpu ;;
  set_lock lk (fun l => Spin (locked l) (Some c)).

(** On a lock another processor holds the loop spins: this run does not return. *)
Definition acquire (lk : Z) : kern locking unit :=
  acquire_enter lk ;;
  old ← acquire_xchg lk;
  if old : bool then (fun _ => Fuel) : kern locking unit else acquire_mark lk.

Definition release_enter (lk : Z) : kern locking unit :=
  h ← holding lk;
  if negb h then panic "release"
  else set_lock lk (fun l => Spin (locked l) None).

Definition release_store (lk : Z) : kern locking unit :=
  set_lock lk (fun l => Spin false (lk_cpu l)) ;;
  popcli.

Definition release (lk : Z) : kern locking unit :=
  release_enter lk ;;
  release_store lk.

End on_cpu.

(** ** Interleavings

    What each processor is in the middle of, and the locks it holds. *)

Inductive phase := Spinning (lk : Z) | Marking (lk : Z) | Clearing (lk : Z).

Record thread := Thread { doing : option phase; held : list Z }.

Record world := World { mach : locking; thr : nat -> thread }.

Definition set_thr (t : nat -> thread) (c : nat) (x : thread) : nat -> thread :=
  fun d => if decide (d = c) then x else t d.

Inductive lstep : world -> world -> Prop :=
| step_enter c lk m t m' h :
    (c < length (cpus m))%nat -> t c = Thread None h -> lk ∉ h ->
    acquire_enter c lk m = Ret tt m' ->
    lstep (World m t) (World m' (set_thr t c (Thread (Some (Spinning lk)) h)))
| step_spin c lk m t m' h :
    t c = Thread (Some (Spinning lk)) h -> acquire_xchg lk m = Ret true m' ->
    lstep (World m t) (World m' t)
| step_got c lk m t m' h :
    t c = Thread (Some (Spinning lk)) h -> acquire_xchg lk m = Ret false m' ->
    lstep (World m t) (World m' (set_thr t c (Thread (Some (Marking lk)) h)))
| step_mark c lk m t m' h :
    t c = Thread (Some (Marking lk)) h -> acquire_mark c lk m = Ret tt m' ->
    lstep (World m t) (World m' (set_thr t c (Thread None (lk :: h))))
| step_release c lk m t m' h1 h2 :
    t c = Thread None (h1 ++ lk :: h2) -> release_enter c lk m = Ret tt m' ->
    lstep (World m t) (World m' (set_thr t c (Thread (Some (Clearing lk)) (h1 ++ h2))))
| step_store c lk m t m' h :
    t c = Thread (Some (Clearing lk)) h -> release_store c lk m = Ret tt m' ->
    lstep (World m t) (World m' (set_thr t c (Thread None h))).

(** ** Runs *)

Definition with_cpu (c : nat) (x : cpu) (s : locking) : locking := Locking (<[c := x]> (cpus s)) (locks s).

Lemma cpuat_with c x s : (c < length (cpus s))%nat -> cpuat c (with_cpu c x s) = x.
Proof. intros H. unfold cpuat, with_cpu. cbn. by apply list_lookup_total_insert_eq. Qed.

Lemma with_with c x y s : with_cpu c x (with_cpu c y s) = with_cpu c x s.
Proof. unfold with_cpu. cbn. by rewrite list_insert_insert_eq. Qed.

Lemma with_self c s : (c < length (cpus s))%nat -> with_cpu c (cpuat c s) s = s.
Proof.
  intros H. destruct s as [cs ls]. unfold with_cpu, cpuat. cbn in *. f_equal. apply list_insert_id.
  by apply list_lookup_lookup_total_lt.
Qed.

Lemma length_with c x s : length (cpus (with_cpu c x s)) = length (cpus s).
Proof. unfold with_cpu. cbn. apply length_insert. Qed.

Lemma run_set_cpu c f s : (c < length (cpus s))%nat -> set_cpu c f s = Ret tt (with_cpu c (f (cpuat c s)) s).
Proof.
  intros H. unfold set_cpu, modify, with_cpu, cpuat. do 2 f_equal. apply list_eq. intros i.
  destruct (decide (i = c)) as [->|Hne].
  - rewrite list_lookup_alter_eq, list_lookup_insert_eq by done. by rewrite (list_lookup_lookup_total_lt _ _ H).
  - by rewrite list_lookup_alter_ne, list_lookup_insert_ne.
Qed.

Lemma bind_set_cpu {B} c f (k : unit -> kern locking B) s :
  (c < length (cpus s))%nat -> (set_cpu c f ≫= k) s = k tt (with_cpu c (f (cpuat c s)) s).
Proof. intros H. by rewrite (bind_Ret _ _ _ _ _ (run_set_cpu c f s H)). Qed.

(** [pushcli] and [popcli] on the processor's entry. *)
Definition pushed (x : cpu) : cpu :=
  Cpu (ncli x + 1) (if ncli x =? 0 then eflags_IF x else intena x) false (cproc x).
Definition popped (x : cpu) : cpu :=
  Cpu (ncli x - 1) (intena x) ((ncli x =? 1) && intena x) (cproc x).

Ltac cpu_run :=
  repeat (rewrite ?bind_bind, ?bind_gets, ?bind_mret ||
          (rewrite bind_set_cpu by (rewrite ?length_with; assumption)) ||
          (rewrite run_set_cpu by (rewrite ?length_with; assumption)) ||
          (rewrite cpuat_with by (rewrite ?length_with; assumption)) ||
          rewrite with_with; cbn [ncli intena eflags_IF cproc]).

Lemma pushcli_run c s : (c < length (cpus s))%nat -> pushcli c s = Ret tt (with_cpu c (pushed (cpuat c s)) s).
Proof.
  intros Hc. unfold pushcli, mycpu, readeflags, cli. cpu_run. unfold pushed.
  destruct (ncli (cpuat c s) =? 0); by cpu_run.
Qed.

Lemma popcli_run c s :
  (c < length (cpus s))%nat -> eflags_IF (cpuat c s) = false -> 1 <= ncli (cpuat c s) ->
  popcli c s = Ret tt (with_cpu c (popped (cpuat c s)) s).
Proof.
  intros Hc Hif Hn. unfold popcli, mycpu, readeflags, sti. cpu_run. rewrite Hif. cpu_run. rewrite Hif. cpu_run.
  rewrite (proj2 (Z.ltb_ge _ _)) by lia. unfold popped.
  replace (ncli (cpuat c s) =? 1) with (ncli (cpuat c s) - 1 =? 0) by (destruct (Z.eqb_spec (ncli (cpuat c s)) 1); lia).
  destruct (_ && _) eqn:E; [by cpu_run|done].
Qed.

Lemma pop_push x : eflags_IF x = false -> 1 <= ncli x -> popped (pushed x) = x.
Proof.
  intros Hif Hn. destruct x as [n i e p]. unfold popped, pushed. cbn in *. subst e.
  rewrite (proj2 (Z.eqb_neq n 0)) by lia. rewrite (proj2 (Z.eqb_neq (n + 1) 1)) by lia. cbn. f_equal. lia.
Qed.

(** With interrupts off, [holding] only looks. *)
Lemma holding_run c lk s :
  (c < length (cpus s))%nat -> eflags_IF (cpuat c s) = false -> 1 <= ncli (cpuat c s) ->
  holding c lk s = Ret (locked (locks s lk) && bool_decide (lk_cpu (locks s lk) = Some c)) s.
Proof.
  intros Hc Hif Hn. unfold holding. rewrite (bind_Ret _ _ _ _ _ (pushcli_run c s Hc)).
  unfold mycpu, readeflags. cpu_run. cbn [pushed eflags_IF]. cpu_run.
  erewrite bind_Ret; [|apply popcli_run; rewrite ?length_with, ?cpuat_with by done; cbn; [done..|lia]].
  rewrite cpuat_with by done. rewrite with_with, pop_push by done. by rewrite with_self.
Qed.

Lemma acquire_enter_run c lk s :
  (c < length (cpus s))%nat -> 0 <= ncli (cpuat c s) ->
  locked (locks s lk) && bool_decide (lk_cpu (locks s lk) = Some c) = false ->
  acquire_enter c lk s = Ret tt (with_cpu c (pushed (cpuat c s)) s).
Proof.
  intros Hc Hn Hh. unfold acquire_enter. rewrite (bind_Ret _ _ _ _ _ (pushcli_run c s Hc)).
  erewrite bind_Ret; [|apply holding_run; rewrite ?length_with, ?cpuat_with by done; cbn; [done..|lia]].
  cbn [with_cpu locks]. by rewrite Hh.
Qed.

Definition with_lock (lk : Z) (l : spinlock) (s : locking) : locking :=
  Locking (cpus s) (fun a => if a =? lk then l else locks s a).

Lemma set_lock_run lk f s : set_lock lk f s = Ret tt (with_lock lk (f (locks s lk)) s).
Proof. done. Qed.

Lemma with_lock_at lk l s lk' : locks (with_lock lk l s) lk' = if lk' =? lk then l else locks s lk'.
Proof. done. Qed.

Lemma release_enter_run c lk s :
  (c < length (cpus s))%nat -> eflags_IF (cpuat c s) = false -> 1 <= ncli (cpuat c s) ->
  locks s lk = Spin true (Some c) -> release_enter c lk s = Ret tt (with_lock lk (Spin true None) s).
Proof.
  intros Hc Hif Hn Hl. unfold release_enter. erewrite bind_Ret by by apply holding_run.
  rewrite Hl. cbn. rewrite bool_decide_eq_true_2 by done. cbn. rewrite set_lock_run. by rewrite Hl.
Qed.

(** ** The invariant *)

Definition depth (t : thread) : Z := Z.of_nat (length (held t)) + (if doing t is Some _ then 1 else 0).

(** Interrupts are on exactly at depth 0. *)
Definition cpu_ok (x : cpu) (n : Z) : Prop :=
  ncli x = n /\ eflags_IF x = (n =? 0) /\ (0 < n -> intena x = true).

Definition busy (t : thread) (lk : Z) : Prop := doing t = Some (Marking lk) \/ doing t = Some (Clearing lk).
Definition owns (t : thread) (lk : Z) : Prop := lk ∈ held t \/ busy t lk.

Record lock_inv (w : world) : Prop := {
  li_cpu : forall c, (c < length (cpus (mach w)))%nat -> cpu_ok (cpuat c (mach w)) (depth (thr w c));
  li_out : forall c, (length (cpus (mach w)) <= c)%nat -> thr w c = Thread None [];
  li_nodup : forall c, NoDup (held (thr w c));
  li_held : forall c lk, lk ∈ held (thr w c) <-> lk_cpu (locks (mach w) lk) = Some c;
  li_locked : forall lk, locked (locks (mach w) lk) = true <-> exists c, owns (thr w c) lk;
  li_one : forall c c' lk, owns (thr w c) lk -> owns (thr w c') lk -> c = c';
  li_busy : forall c lk, busy (thr w c) lk -> lk ∉ held (thr w c);
}.

Lemma set_thr_eq t c x : set_thr t c x c = x.
Proof. unfold set_thr. by rewrite decide_True. Qed.

Lemma set_thr_ne t c x d : d <> c -> set_thr t c x d = t d.
Proof. intros H. unfold set_thr. by rewrite decide_False. Qed.

Lemma depth_nonneg t : 0 <= depth t.
Proof. unfold depth. destruct (doing t); lia. Qed.

Lemma cpu_ok_push x n : 0 <= n -> cpu_ok x n -> cpu_ok (pushed x) (n + 1).
Proof.
  intros Hn (H1&H2&H3). unfold cpu_ok, pushed. cbn. subst n. split; [done|].
  split; [symmetry; apply Z.eqb_neq; lia|]. intros _. destruct (Z.eqb_spec (ncli x) 0) as [E|]; [done|].
  apply H3. lia.
Qed.

Lemma cpu_ok_pop x n : 0 <= n -> cpu_ok x (n + 1) -> cpu_ok (popped x) n.
Proof.
  intros Hn (H1&H2&H3). unfold cpu_ok, popped. cbn. rewrite H1. split; [lia|]. rewrite H3 by lia.
  split; [|done]. destruct (Z.eqb_spec (n + 1) 1), (Z.eqb_spec n 0); done || lia.
Qed.

(** A processor in the middle of something exists. *)
Lemma doing_lt w c : lock_inv w -> thr w c <> Thread None [] -> (c < length (cpus (mach w)))%nat.
Proof. intros Hi Hne. destruct (decide (c < length (cpus (mach w)))%nat) as [|Hge]; [done|]. destruct Hne. apply (li_out _ Hi). lia. Qed.

(** One processor moves, touching one lock. *)
Lemma inv_update m t c lk x y l :
  lock_inv (World m t) -> (c < length (cpus m))%nat ->
  cpu_ok y (depth x) -> NoDup (held x) ->
  (forall lk', lk' <> lk -> (lk' ∈ held x <-> lk' ∈ held (t c)) /\ (busy x lk' <-> busy (t c) lk')) ->
  (forall d, d <> c -> owns x lk -> ~ owns (t d) lk) ->
  (lk ∈ held x <-> lk_cpu l = Some c) ->
  (forall d, d <> c -> lk ∈ held (t d) <-> lk_cpu l = Some d) ->
  (locked l = true <-> owns x lk \/ exists d, d <> c /\ owns (t d) lk) ->
  (busy x lk -> lk ∉ held x) ->
  lock_inv (World (with_lock lk l (with_cpu c y m)) (set_thr t c x)).
Proof.
  intros Hi Hc Hy Hnd Hoth Hone Hh Hho Hlk Hb.
  assert (Hown : forall lk', lk' <> lk -> owns x lk' <-> owns (t c) lk').
  { intros lk' Hne. destruct (Hoth lk' Hne) as [E1 E2]. unfold owns. by rewrite E1, E2. }
  destruct Hi as [Icpu Iout Ind Iheld Ilk Ione Ib]. cbn [mach thr] in *. split; cbn [mach thr with_lock cpus locks].
  - intros d Hd. cbn [with_cpu cpus] in Hd. rewrite length_insert in Hd. unfold cpuat. cbn [with_lock with_cpu cpus].
    destruct (decide (d = c)) as [->|Hne].
    + by rewrite set_thr_eq, list_lookup_total_insert_eq by done.
    + rewrite set_thr_ne, list_lookup_total_insert_ne by done. by apply Icpu.
  - intros d Hd. cbn [with_cpu cpus] in Hd. rewrite length_insert in Hd. rewrite set_thr_ne by lia. by apply Iout.
  - intros d. destruct (decide (d = c)) as [->|Hne]; [by rewrite set_thr_eq|by rewrite set_thr_ne].
  - intros d lk'. destruct (Z.eqb_spec lk' lk) as [->|Hl], (decide (d = c)) as [->|Hne];
      rewrite ?set_thr_eq, ?set_thr_ne by done; [done|by apply Hho| |by apply Iheld].
    by rewrite (proj1 (Hoth lk' Hl)), Iheld.
  - intros lk'. destruct (Z.eqb_spec lk' lk) as [->|Hl].
    + rewrite Hlk. split.
      * intros [Ho|(d&Hd&Ho)]; [exists c; by rewrite set_thr_eq|exists d; by rewrite set_thr_ne].
      * intros (d&Ho). destruct (decide (d = c)) as [->|Hd]; [rewrite set_thr_eq in Ho; by left|].
        rewrite set_thr_ne in Ho by done. right. by exists d.
    + cbn [with_cpu locks]. rewrite Ilk. split; intros (d&Ho); exists d;
        (destruct (decide (d = c)) as [->|Hd]; [rewrite set_thr_eq in *|rewrite set_thr_ne in * by done; done]);
        by apply (Hown lk' Hl).
  - intros d d' lk' Ho Ho'. destruct (decide (d = c)) as [->|Hd], (decide (d' = c)) as [->|Hd']; [done| | |];
      rewrite ?set_thr_eq, ?set_thr_ne in Ho by done; rewrite ?set_thr_eq, ?set_thr_ne in Ho' by done.
    + destruct (decide (lk' = lk)) as [->|Hl]; [by destruct (Hone d' Hd' Ho)|].
      apply (Ione c d' lk'); [by apply Hown|done].
    + destruct (decide (lk' = lk)) as [->|Hl]; [by destruct (Hone d Hd Ho')|].
      apply (Ione d c lk'); [done|by apply Hown].
    + by apply (Ione d d' lk').
  - intros d lk'. destruct (decide (d = c)) as [->|Hd]; [|by rewrite set_thr_ne by done; apply Ib].
    rewrite set_thr_eq. destruct (decide (lk' = lk)) as [->|Hl]; [done|].
    destruct (Hoth lk' Hl) as [E1 E2]. rewrite E1, E2. apply Ib.
Qed.

(** A lock is owned by a processor that holds it, and by no other. *)
Lemma owner_unique w c d lk : lock_inv w -> d <> c -> owns (thr w c) lk -> ~ owns (thr w d) lk.
Proof. intros Hi Hne Ho Ho'. apply Hne. by eapply (li_one _ Hi). Qed.

Lemma lock_inv_ext m m' t :
  cpus m = cpus m' -> (forall lk, locks m lk = locks m' lk) -> lock_inv (World m t) -> lock_inv (World m' t).
Proof.
  destruct m as [cs ls], m' as [cs' ls']. cbn. intros -> El [Icpu Iout Ind Iheld Ilk Ione Ib]. cbn [mach thr] in *.
  split; cbn [mach thr]; [done..| | |done|done]; intros; cbn; rewrite <- El; eauto.
Qed.

Lemma with_lock_same lk s lk' : locks (with_lock lk (locks s lk) s) lk' = locks s lk'.
Proof. cbn. by destruct (Z.eqb_spec lk' lk) as [->|]. Qed.

Lemma doing_depth p h : depth (Thread (Some p) h) = depth (Thread None h) + 1.
Proof. unfold depth. cbn. lia. Qed.

(** What the invariant says of the processor that moves. *)
Lemma cpu_at m t c x : lock_inv (World m t) -> t c = x -> x <> Thread None [] ->
  (c < length (cpus m))%nat /\ cpu_ok (cpuat c m) (depth x).
Proof.
  intros Hi <- Hne. assert (Hc : (c < length (cpus m))%nat) by by apply (doing_lt _ _ Hi).
  split; [done|]. by apply (li_cpu _ Hi).
Qed.

Lemma off_at x n : cpu_ok x n -> 0 < n -> eflags_IF x = false /\ 1 <= ncli x.
Proof. intros (H1&H2&_) Hn. rewrite H2. split; [apply Z.eqb_neq; lia|lia]. Qed.

Lemma free_elsewhere w c lk :
  lock_inv w -> locked (locks (mach w) lk) = false -> ~ owns (thr w c) lk.
Proof. intros Hi Hl Ho. assert (locked (locks (mach w) lk) = true); [|congruence]. apply (li_locked _ Hi). eauto. Qed.

Lemma not_held w c lk : lock_inv w -> lk ∉ held (thr w c) -> lk_cpu (locks (mach w) lk) <> Some c.
Proof. intros Hi Hn E. apply Hn. by apply (li_held _ Hi). Qed.

(** [acquire] up to the loop. *)
Lemma enter_inv m t c lk h :
  lock_inv (World m t) -> (c < length (cpus m))%nat -> t c = Thread None h -> lk ∉ h ->
  acquire_enter c lk m = Ret tt (with_cpu c (pushed (cpuat c m)) m) /\
  lock_inv (World (with_cpu c (pushed (cpuat c m)) m) (set_thr t c (Thread (Some (Spinning lk)) h))).
Proof.
  intros Hi Hc Ht Hlk. pose proof (li_cpu _ Hi c Hc) as Hok. cbn [mach thr] in Hok. rewrite Ht in Hok.
  pose proof (depth_nonneg (Thread None h)) as Hd. split.
  - apply acquire_enter_run; [done| |].
    + destruct Hok as [-> _]. done.
    + apply andb_false_iff. right. apply bool_decide_eq_false_2. apply (not_held _ _ _ Hi). cbn. by rewrite Ht.
  - eapply lock_inv_ext; [| |eapply (inv_update m t c lk _ (pushed (cpuat c m)) (locks m lk) Hi Hc)].
    + done.
    + intros lk'. cbn. by destruct (Z.eqb_spec lk' lk) as [->|].
    + rewrite doing_depth. by apply cpu_ok_push.
    + pose proof (li_nodup _ Hi c) as Hnd. cbn in Hnd. by rewrite Ht in Hnd.
    + intros lk' _. rewrite Ht. split; [done|]. unfold busy. cbn. naive_solver.
    + intros d Hne Ho. destruct Ho as [Ho|[Ho|Ho]]; done.
    + rewrite <- (li_held _ Hi c lk). cbn [thr mach held]. by rewrite Ht.
    + intros d Hne. apply (li_held _ Hi).
    + rewrite (li_locked _ Hi lk). cbn [thr]. split.
      * intros (d&Ho). right. exists d. split; [|done]. intros ->. rewrite Ht in Ho. by destruct Ho as [Ho|[Ho|Ho]].
      * intros [[Ho|[Ho|Ho]]|(d&_&Ho)]; [done..|]. eauto.
    + intros _. done.
Qed.

Lemma spin_inv m t lk m' : lock_inv (World m t) -> acquire_xchg lk m = Ret true m' -> lock_inv (World m' t).
Proof.
  intros Hi E. unfold acquire_xchg in E. cbn in E. injection E as El <-.
  eapply lock_inv_ext; [| |exact Hi]; [done|]. intros lk'. cbn. destruct (Z.eqb_spec lk' lk) as [->|]; [|done].
  destruct (locks m lk) as [b o]. cbn in *. by rewrite El.
Qed.

(** The lock was free and is now being taken. *)
Lemma got_inv m t c lk h m' :
  lock_inv (World m t) -> t c = Thread (Some (Spinning lk)) h -> acquire_xchg lk m = Ret false m' ->
  lock_inv (World m' (set_thr t c (Thread (Some (Marking lk)) h))).
Proof.
  intros Hi Ht E. unfold acquire_xchg in E. cbn in E. injection E as El <-.
  destruct (cpu_at m t c _ Hi Ht) as [Hc Hok]; [done|].
  assert (Hno : forall d, ~ owns (t d) lk) by (intros d; by apply (free_elsewhere _ d lk Hi)).
  eapply lock_inv_ext; [| |eapply (inv_update m t c lk _ (cpuat c m) (Spin true (lk_cpu (locks m lk))) Hi Hc)].
  - cbn. fold (with_cpu c (cpuat c m) m). by rewrite <- (with_self c m Hc) at 3.
  - intros lk'. done.
  - by rewrite doing_depth in *.
  - pose proof (li_nodup _ Hi c) as Hnd. cbn in Hnd. by rewrite Ht in Hnd.
  - intros lk' Hne. rewrite Ht. split; [done|]. unfold busy. cbn. naive_solver.
  - intros d Hne _. apply Hno.
  - cbn [lk_cpu held]. rewrite <- (li_held _ Hi c lk). cbn [thr mach held]. by rewrite Ht.
  - intros d Hne. apply (li_held _ Hi).
  - split; [intros _; left; right; by left|done].
  - intros _ Hin. apply (Hno c). left. by rewrite Ht.
Qed.

Lemma mark_inv m t c lk h :
  lock_inv (World m t) -> t c = Thread (Some (Marking lk)) h ->
  exists m', acquire_mark c lk m = Ret tt m' /\ lock_inv (World m' (set_thr t c (Thread None (lk :: h)))).
Proof.
  intros Hi Ht. destruct (cpu_at m t c _ Hi Ht) as [Hc Hok]; [done|].
  assert (Ho : owns (t c) lk) by (rewrite Ht; right; by left).
  assert (Hl : locked (locks m lk) = true) by (apply (li_locked _ Hi); eauto).
  assert (Hno : forall d, d <> c -> ~ owns (t d) lk) by (intros d Hd; by apply (owner_unique _ c d lk Hi)).
  assert (Hb : lk ∉ h).
  { pose proof (li_busy _ Hi c lk) as Hb. cbn in Hb. rewrite Ht in Hb. apply Hb. by left. }
  destruct (off_at _ _ Hok) as [Hif _]; [rewrite doing_depth; pose proof (depth_nonneg (Thread None h)); lia|].
  eexists. split.
  { unfold acquire_mark, mycpu, readeflags. rewrite !bind_bind, bind_gets, Hif, bind_gets. apply set_lock_run. }
  eapply lock_inv_ext; [| |eapply (inv_update m t c lk _ (cpuat c m) (Spin (locked (locks m lk)) (Some c)) Hi Hc)].
  - cbn. fold (with_cpu c (cpuat c m) m). by rewrite <- (with_self c m Hc) at 3.
  - done.
  - replace (depth _) with (depth (Thread (Some (Marking lk)) h)); [done|]. unfold depth. cbn. lia.
  - cbn. constructor; [done|]. pose proof (li_nodup _ Hi c) as Hnd. cbn in Hnd. by rewrite Ht in Hnd.
  - intros lk' Hne. rewrite Ht. cbn. rewrite elem_of_cons. split; [naive_solver|]. unfold busy. cbn. naive_solver.
  - intros d Hne _. by apply Hno.
  - cbn. rewrite elem_of_cons. naive_solver.
  - intros d Hne. cbn. split; [|by intros [=->]]. intros Hin. destruct (Hno d Hne). by left.
  - cbn. rewrite Hl. split; [intros _; left; left; cbn; apply elem_of_cons; by left|done].
  - by intros [?|?].
Qed.

Lemma held_locked w c lk : lock_inv w -> lk ∈ held (thr w c) -> locks (mach w) lk = Spin true (Some c).
Proof.
  intros Hi Hin. pose proof (proj1 (li_held _ Hi c lk) Hin) as E. 
  assert (El : locked (locks (mach w) lk) = true) by (apply (li_locked _ Hi); exists c; by left).
  destruct (locks (mach w) lk). cbn in *. by subst.
Qed.

Lemma release_inv m t c lk h1 h2 :
  lock_inv (World m t) -> t c = Thread None (h1 ++ lk :: h2) ->
  exists m', release_enter c lk m = Ret tt m' /\
    lock_inv (World m' (set_thr t c (Thread (Some (Clearing lk)) (h1 ++ h2)))).
Proof.
  intros Hi Ht. assert (Hin : lk ∈ held (t c)) by (rewrite Ht; cbn; rewrite elem_of_app, elem_of_cons; auto).
  destruct (cpu_at m t c _ Hi Ht) as [Hc Hok]; [by destruct h1|].
  assert (Hd : depth (Thread None (h1 ++ lk :: h2)) = depth (Thread (Some (Clearing lk)) (h1 ++ h2))).
  { unfold depth. cbn. rewrite !length_app. cbn. lia. }
  rewrite Hd in Hok. destruct (off_at _ _ Hok) as [Hif Hn]; [rewrite doing_depth; pose proof (depth_nonneg (Thread None (h1 ++ h2))); lia|].
  pose proof (held_locked _ c lk Hi Hin) as Hl. cbn in Hl.
  assert (Hno : forall d, d <> c -> ~ owns (t d) lk) by (intros d Hd'; apply (owner_unique _ c d lk Hi); [done|by left]).
  pose proof (li_nodup _ Hi c) as Hnd. cbn in Hnd. rewrite Ht in Hnd. cbn in Hnd.
  rewrite <- Permutation_middle in Hnd. apply NoDup_cons in Hnd as [Hout Hnd].
  eexists. split; [by apply release_enter_run|].
  eapply lock_inv_ext; [| |eapply (inv_update m t c lk _ (cpuat c m) (Spin true None) Hi Hc)].
  - cbn. fold (with_cpu c (cpuat c m) m). by rewrite <- (with_self c m Hc) at 3.
  - done.
  - done.
  - done.
  - intros lk' Hne. rewrite Ht. cbn. rewrite !elem_of_app, elem_of_cons. split; [naive_solver|]. unfold busy. cbn. naive_solver.
  - intros d Hne _. by apply Hno.
  - cbn. naive_solver.
  - intros d Hne. cbn. split; [|done]. intros Hin'. destruct (Hno d Hne). by left.
  - cbn. split; [intros _; left; right; by right|done].
  - done.
Qed.

Lemma store_inv m t c lk h :
  lock_inv (World m t) -> t c = Thread (Some (Clearing lk)) h ->
  exists m', release_store c lk m = Ret tt m' /\ lock_inv (World m' (set_thr t c (Thread None h))).
Proof.
  intros Hi Ht. destruct (cpu_at m t c _ Hi Ht) as [Hc Hok]; [done|]. rewrite doing_depth in Hok.
  pose proof (depth_nonneg (Thread None h)) as Hd0. destruct (off_at _ _ Hok) as [Hif Hn]; [lia|].
  assert (Ho : owns (t c) lk) by (rewrite Ht; right; by right).
  assert (Hno : forall d, d <> c -> ~ owns (t d) lk) by (intros d Hd'; by apply (owner_unique _ c d lk Hi)).
  assert (Hb : lk ∉ h).
  { pose proof (li_busy _ Hi c lk) as Hb. cbn in Hb. rewrite Ht in Hb. apply Hb. by right. }
  eexists. split.
  { unfold release_store. rewrite (bind_Ret _ _ _ _ _ (set_lock_run _ _ _)). by apply popcli_run. }
  eapply lock_inv_ext; [| |eapply (inv_update m t c lk _ (popped (cpuat c m)) (Spin false (lk_cpu (locks m lk))) Hi Hc)].
  - done.
  - done.
  - by apply cpu_ok_pop.
  - pose proof (li_nodup _ Hi c) as Hnd. cbn in Hnd. by rewrite Ht in Hnd.
  - intros lk' Hne. rewrite Ht. split; [done|]. unfold busy. cbn. naive_solver.
  - intros d Hne [Hin|[Hin|Hin]]; done.
  - cbn [lk_cpu held]. rewrite <- (li_held _ Hi c lk). cbn [thr held]. by rewrite Ht.
  - intros d Hne. apply (li_held _ Hi).
  - cbn. split; [done|]. intros [[Hin|[Hin|Hin]]|(d&Hne&Hod)]; [done..|]. by destruct (Hno d Hne).
  - by intros [?|?].
Qed.

Lemma lstep_inv w w' : lock_inv w -> lstep w w' -> lock_inv w'.
Proof.
  intros Hi Hs. destruct Hs as [c lk m t m' h Hc Ht Hlk E|c lk m t m' h Ht E|c lk m t m' h Ht E
    |c lk m t m' h Ht E|c lk m t m' h1 h2 Ht E|c lk m t m' h Ht E].
  - destruct (enter_inv m t c lk h Hi Hc Ht Hlk) as [E' H]. rewrite E in E'. by injection E' as ->.
  - by eapply spin_inv.
  - by eapply got_inv.
  - destruct (mark_inv m t c lk h Hi Ht) as (m2&E'&H). rewrite E in E'. by injection E' as ->.
  - destruct (release_inv m t c lk h1 h2 Hi Ht) as (m2&E'&H). rewrite E in E'. by injection E' as ->.
  - destruct (store_inv m t c lk h Hi Ht) as (m2&E'&H). rewrite E in E'. by injection E' as ->.
Qed.

(** [n] processors running with interrupts enabled, every lock initialised. *)
Definition start (n : nat) : world :=
  World (Locking (replicate n (Cpu 0 false true None)) (fun _ => Spin false None)) (fun _ => Thread None []).

Lemma start_inv n : lock_inv (start n).
Proof.
  split; cbn.
  - intros c Hc. rewrite length_replicate in Hc. unfold cpuat. cbn. by rewrite lookup_total_replicate_2.
  - done.
  - intros _. constructor.
  - intros c lk. split; [by intros ?%elem_of_nil|done].
  - intros lk. split; [done|]. intros (c&[H|[H|H]]); [by apply elem_of_nil in H|done..].
  - intros c c' lk [H|[H|H]]; [by apply elem_of_nil in H|done..].
  - intros c lk _. apply not_elem_of_nil.
Qed.

(** What a processor can do next, whatever the others are doing: each piece of
    [acquire] and [release] returns. *)
Definition can_move (c : nat) (w : world) : Prop :=
  match thr w c with
  | Thread None h =>
      (forall lk, lk ∉ h -> exists m', acquire_enter c lk (mach w) = Ret tt m') /\
      (forall lk, lk ∈ h -> exists m', release_enter c lk (mach w) = Ret tt m')
  | Thread (Some (Spinning lk)) _ => exists b m', acquire_xchg lk (mach w) = Ret b m'
  | Thread (Some (Marking lk)) _ => exists m', acquire_mark c lk (mach w) = Ret tt m'
  | Thread (Some (Clearing lk)) _ => exists m', release_store c lk (mach w) = Ret tt m'
  end.

(** C8: Spin locks exclude.  However the processors interleave inside [acquire] and
    [release], no two of them hold a lock at the same time, [holding] answers
    exactly whether the processor holds it, interrupts are enabled on a
    processor exactly when it neither holds nor is taking or releasing a lock,
    and no piece of either function panics as long as a processor does not
    acquire a lock it holds or release one it does not. *)
Theorem spinlock_safe n w :
  rtc lstep (start n) w ->
  (forall c c' lk, owns (thr w c) lk -> owns (thr w c') lk -> c = c') /\
  (forall c lk, (c < length (cpus (mach w)))%nat -> 0 < ncli (cpuat c (mach w)) ->
     holding c lk (mach w) = Ret (bool_decide (lk ∈ held (thr w c))) (mach w)) /\
  (forall c, (c < length (cpus (mach w)))%nat -> eflags_IF (cpuat c (mach w)) = true <-> thr w c = Thread None []) /\
  (forall c, (c < length (cpus (mach w)))%nat -> can_move c w).
Proof.
  intros Hr. assert (Hi : lock_inv w) by (eapply (rtc_preserves lstep lock_inv); eauto using lstep_inv, start_inv).
  split_and!.
  - apply (li_one _ Hi).
  - intros c lk Hc Hn. destruct (li_cpu _ Hi c Hc) as (H1&H2&H3). rewrite holding_run; [|done| |lia].
    2: { rewrite H2, <- H1. apply Z.eqb_neq. lia. }
    f_equal. apply eq_true_iff_eq. rewrite andb_true_iff, !bool_decide_eq_true, (li_held _ Hi). split; [by intros []|].
    intros E. split; [|done]. apply (li_locked _ Hi). exists c. left. by apply (li_held _ Hi).
  - intros c Hc. destruct (li_cpu _ Hi c Hc) as (_&H2&_). rewrite H2, Z.eqb_eq. unfold depth.
    destruct (thr w c) as [[p|] [|l h]]; cbn; split; (done || lia).
  - intros c Hc. unfold can_move. destruct w as [m t]. cbn [mach thr] in *.
    destruct (t c) as [[[lk|lk|lk]|] h] eqn:Ht.
    + unfold acquire_xchg. cbn. eauto.
    + destruct (mark_inv m t c lk h Hi Ht) as (m2&E&_). eauto.
    + destruct (store_inv m t c lk h Hi Ht) as (m2&E&_). eauto.
    + split; intros lk Hlk; [destruct (enter_inv m t c lk h Hi Hc Ht Hlk); eauto|].
      apply list_elem_of_split in Hlk as (h1&h2&->). destruct (release_inv m t c lk h1 h2 Hi Ht) as (m2&E&_). eauto.
Qed.

(** Witness: processor 0 holds lock 8 while processor 1 spins on it. *)
Definition after (w : world) (f : kern locking unit) (c : nat) (x : thread) : world :=
  match f (mach w) with Ret _ m => World m (set_thr (thr w) c x) | _ => w end.

Definition contended : world :=
  let w1 := after (start 2) (acquire_enter 0 8) 0 (Thread (Some (Spinning 8)) []) in
  let w2 := after w1 (acquire_xchg 8 ;; mret ()) 0 (Thread (Some (Marking 8)) []) in
  let w3 := after w2 (acquire_mark 0 8) 0 (Thread None [8]) in
  after w3 (acquire_enter 1 8) 1 (Thread (Some (Spinning 8)) []).

Lemma spinlock_safe_witness :
  rtc lstep (start 2) contended /\
  eflags_IF (cpuat 0 (mach contended)) = false /\
  (forall c c' lk, owns (thr contended c) lk -> owns (thr contended c') lk -> c = c').
Proof.
  assert (H : rtc lstep (start 2) contended).
  { eapply rtc_l; [apply (step_enter 0 8); cbn; [lia|reflexivity|apply not_elem_of_nil|reflexivity]|].
    eapply rtc_l; [eapply (step_got 0 8); reflexivity|].
    eapply rtc_l; [eapply (step_mark 0 8); reflexivity|].
    eapply rtc_l; [eapply (step_enter 1 8); cbn; [lia|reflexivity|apply not_elem_of_nil|reflexivity]|].
    apply rtc_refl. }
  split; [exact H|]. split; [reflexivity|]. exact (proj1 (spinlock_safe 2 contended H)).
Defined.
