(* ===== verification/Sleeplock.v ===== *)
(** Sleeping locks (sleeplock.c).

    The spin lock [lk->lk] makes each section of [acquiresleep], [releasesleep]
    and [holdingsleep] atomic; [sleep] gives it up and the process to run
    together (Proc.v).  Any number of processes use one lock; a sleeping process
    may also be woken by [kill], and then tries again. *)

From S2P Require Import Prelude.

(** ** The lock *)

Record sleeplock := Sleeplock { locked : bool; lk_pid : Z }.

Definition initsleeplock : sleeplock := Sleeplock false 0.

(** One turn of [acquiresleep] by process [pid], from its entry or from a wakeup:
    [None] is [sleep(lk, &lk->lk)]. *)
Definition acquiresleep (pid : Z) (lk : sleeplock) : option sleeplock :=
  if locked lk then None else Some (Sleeplock true pid).

(** The lock, and [wakeup(lk)]. *)
Definition releasesleep (lk : sleeplock) : sleeplock := Sleeplock false 0.

Definition holdingsleep (pid : Z) (lk : sleeplock) : bool := locked lk && (lk_pid lk =? pid).

(** ** Processes on one lock *)

Inductive lock_state :=
| Away                 (* not using the lock *)
| Asleep               (* in sleep(lk, &lk->lk) *)
| Awake                (* woken, about to test lk->locked again *)
| Holding.

#[global] Instance lock_state_eq_dec : EqDecision lock_state.
Proof. solve_decision. Defined.

Record system := System { lock : sleeplock; proc_at : Z -> lock_state }.

Definition set_proc (pid : Z) (v : lock_state) (f : Z -> lock_state) : Z -> lock_state :=
  fun q => if decide (q = pid) then v else f q.

Definition wake_all (f : Z -> lock_state) : Z -> lock_state :=
  fun q => match f q with Asleep => Awake | v => v end.

(** Process ids are positive. *)
Inductive step : system -> system -> Prop :=
| step_take pid lk lk' f :
    0 < pid -> f pid = Away \/ f pid = Awake -> acquiresleep pid lk = Some lk' ->
    step (System lk f) (System lk' (set_proc pid Holding f))
| step_sleep pid lk f :
    0 < pid -> f pid = Away \/ f pid = Awake -> acquiresleep pid lk = None ->
    step (System lk f) (System lk (set_proc pid Asleep f))
| step_release pid lk f :
    f pid = Holding ->
    step (System lk f) (System (releasesleep lk) (wake_all (set_proc pid Away f)))
| step_kill pid lk f :
    f pid = Asleep ->
    step (System lk f) (System lk (set_proc pid Awake f)).

Definition start : system := System initsleeplock (fun _ => Away).

(** ** Invariant *)

Record lock_inv (s : system) : Prop := {
  li_holder pid : proc_at s pid = Holding <-> holdingsleep pid (lock s) = true /\ 0 < pid;
  li_pid : locked (lock s) = true -> 0 < lk_pid (lock s);
  li_sleep pid : proc_at s pid = Asleep -> locked (lock s) = true;
}.

Lemma set_proc_eq pid v f : set_proc pid v f pid = v.
Proof. unfold set_proc. by rewrite decide_True. Qed.

Lemma set_proc_ne pid v f q : q <> pid -> set_proc pid v f q = f q.
Proof. intros Hq. unfold set_proc. by rewrite decide_False. Qed.

Lemma wake_all_holding f q : wake_all f q = Holding <-> f q = Holding.
Proof. unfold wake_all. by destruct (f q). Qed.

Lemma wake_all_asleep f q : wake_all f q <> Asleep.
Proof. unfold wake_all. by destruct (f q). Qed.

Lemma initial_inv : lock_inv start.
Proof. split; cbn; [intros pid; split; [done|by intros [? _]]|done|done]. Qed.

(** A step that leaves the lock and the holder alone. *)
Lemma set_proc_inv lk f pid v : lock_inv (System lk f) -> f pid <> Holding -> v <> Holding ->
  (v = Asleep -> locked lk = true) -> lock_inv (System lk (set_proc pid v f)).
Proof.
  intros [H1 H2 H3] Hn Hv Hs. cbn in *. split; cbn; [|done|].
  - intros q. rewrite <- H1. destruct (decide (q = pid)) as [->|Hne]; [by rewrite set_proc_eq|by rewrite set_proc_ne].
  - intros q. destruct (decide (q = pid)) as [->|Hne]; [rewrite set_proc_eq; auto|rewrite set_proc_ne; eauto].
Qed.

Lemma sleep_step_inv s s' : step s s' -> lock_inv s -> lock_inv s'.
Proof.
  intros Hst Hs. destruct Hst as [pid lk lk' f Hp Hf E|pid lk f Hp Hf E|pid lk f Hf|pid lk f Hf].
  - unfold acquiresleep in E. destruct (locked lk) eqn:El; [done|]. injection E as <-. destruct Hs as [H1 H2 H3]. cbn in *.
    split; cbn; [|done|done]. intros q. unfold holdingsleep. cbn. destruct (decide (q = pid)) as [->|Hne].
    + rewrite set_proc_eq, Z.eqb_refl. done.
    + rewrite set_proc_ne, H1 by done. unfold holdingsleep. rewrite El, (proj2 (Z.eqb_neq pid q)) by done. done.
  - unfold acquiresleep in E. destruct (locked lk) eqn:El; [|done].
    apply set_proc_inv; [done|intros E'; destruct Hf; congruence|done|done].
  - destruct Hs as [H1 H2 H3]. cbn in *. apply H1 in Hf as Hh. unfold holdingsleep in Hh.
    destruct Hh as [[El Ep%Z.eqb_eq]%andb_true_iff Hpos]. split; cbn; [|done|].
    + intros q. rewrite wake_all_holding. unfold holdingsleep. cbn. split; [|by intros [? _]].
      destruct (decide (q = pid)) as [->|Hne]; [by rewrite set_proc_eq|]. rewrite set_proc_ne by done.
      intros [[_ E%Z.eqb_eq]%andb_true_iff _]%H1. congruence.
    + intros q Hq. by apply wake_all_asleep in Hq.
  - apply set_proc_inv; [done|congruence|done|done].
Qed.

(** C23: In every state any number of processes can reach on a sleep lock: at most
    one holds it, and the lock names exactly that process, so [holdingsleep] is
    true for the holder alone; a process sleeps only while the lock is taken, so
    no wakeup is lost; and when the lock is free every process that waits for it
    can take it with its next step. *)
Theorem sleeplock_safe s : rtc step start s ->
  (forall p q, proc_at s p = Holding -> proc_at s q = Holding -> p = q) /\
  (forall p, 0 < p -> holdingsleep p (lock s) = true <-> proc_at s p = Holding) /\
  (forall p, proc_at s p = Asleep -> exists q, proc_at s q = Holding) /\
  (forall p, 0 < p -> locked (lock s) = false -> proc_at s p = Away \/ proc_at s p = Awake ->
     exists s', step s s' /\ proc_at s' p = Holding).
Proof.
  intros Hr. assert (Hs : lock_inv s) by (eapply rtc_preserves; [|exact initial_inv|exact Hr]; eauto using sleep_step_inv).
  destruct Hs as [H1 H2 H3]. split; [|split; [|split]].
  - intros p q [Hp _]%H1 [Hq _]%H1. unfold holdingsleep in *. apply andb_true_iff in Hp as [_ ?%Z.eqb_eq], Hq as [_ ?%Z.eqb_eq]. congruence.
  - intros p Hp. rewrite H1. tauto.
  - intros p Hl%H3. exists (lk_pid (lock s)). apply H1. unfold holdingsleep. rewrite Hl, Z.eqb_refl. auto.
  - intros p Hp Hl Hst. destruct s as [lk f]. cbn in *. exists (System (Sleeplock true p) (set_proc p Holding f)).
    split; [|apply set_proc_eq]. constructor; [done|done|]. unfold acquiresleep. by rewrite Hl.
Qed.

(** Process 1 takes the lock, 2 goes to sleep, 1 releases it: 2 is awake. *)
Definition handover : system :=
  System initsleeplock (wake_all (set_proc 1 Away (set_proc 2 Asleep (set_proc 1 Holding (fun _ => Away))))).

Lemma handover_reached : rtc step start handover.
Proof.
  eapply rtc_l; [apply (step_take 1 _ (Sleeplock true 1)); [lia|by left|done]|].
  eapply rtc_l; [apply (step_sleep 2); [lia|by left|done]|].
  eapply rtc_l; [apply (step_release 1); done|]. apply rtc_refl.
Qed.

Lemma sleeplock_safe_witness : proc_at handover 2 = Awake /\ exists s', step handover s' /\ proc_at s' 2 = Holding.
Proof.
  split; [done|]. destruct (sleeplock_safe handover handover_reached) as (_ & _ & _ & Hp).
  apply (Hp 2); [lia|done|by right].
Defined.
