(* ===== verification/Proc.v ===== *)
(** Processes (proc.c): the process table, creation, exit and collection of
    processes, sleep and wakeup, and the per-processor scheduler.

    A function that gives up the processor is cut at [swtch]: [sched_out] is
    [sched] up to the switch, [sched_in] what follows it.  The memory, swap and
    file routines it calls act on the rest of the kernel; they are an
    interface, [Services], on a state [R] of their own. *)

From S2P Require Import Prelude CString Spinlock.

(** ** Data *)

Definition NPROC : nat := 64.
Definition NOFILE : nat := 16.
Definition KSTACKSIZE : Z := 4096.

Inductive procstate := UNUSED | EMBRYO | SLEEPING | RUNNABLE | RUNNING | ZOMBIE.

#[global] Instance procstate_eq_dec : EqDecision procstate.
Proof. solve_decision. Defined.

(** What a process sleeps on: a process slot in [wait], another kernel object
    elsewhere. *)
Inductive channel := CNone | CProc (p : nat) | CAddr (a : Z).

#[global] Instance channel_eq_dec : EqDecision channel.
Proof. solve_decision. Defined.

Record trapframe := Trapframe {
  edi : Z; esi : Z; ebp : Z; oesp : Z; ebx : Z; edx : Z; ecx : Z; eax : Z;
  gs : Z; fs : Z; es : Z; ds : Z; trapno : Z; err : Z; eip : Z; cs : Z; eflags : Z; esp : Z; ss : Z }.

Definition sizeof_trapframe : Z := 76.

Definition set_eax (v : Z) (t : trapframe) : trapframe :=
  Trapframe (edi t) (esi t) (ebp t) (oesp t) (ebx t) (edx t) (ecx t) v (gs t) (fs t) (es t) (ds t)
    (trapno t) (err t) (eip t) (cs t) (eflags t) (esp t) (ss t).

Record context := Context { c_edi : Z; c_esi : Z; c_ebx : Z; c_ebp : Z; c_eip : Z }.
Definition sizeof_context : Z := 20.

(** The frames at the top of a kernel stack: where they are and what they hold. *)
Record kframes := Kframes { tf : Z; tfv : trapframe; retv : Z; ctx : Z; ctxv : context }.

Record pcb := Pcb {
  sz : Z; pgdir : Z; kstack : Z; state : procstate; pid : Z; parent : option nat; frames : kframes;
  chan : channel; killed : bool; ofile : list Z; cwd : Z; name : list Z }.

Definition zero_tf : trapframe := Trapframe 0 0 0 0 0 0 0 0 0 0 0 0 0 0 0 0 0 0 0.
Definition zero_frames : kframes := Kframes 0 zero_tf 0 0 (Context 0 0 0 0 0).
Definition zero_pcb : pcb := Pcb 0 0 0 UNUSED 0 None zero_frames CNone false (replicate NOFILE 0) 0 (replicate 16 0).

#[global] Instance pcb_inhabited : Inhabited pcb := populate zero_pcb.

Definition set_sz v (p : pcb) := Pcb v (pgdir p) (kstack p) (state p) (pid p) (parent p) (frames p) (chan p) (killed p) (ofile p) (cwd p) (name p).
Definition set_pgdir v (p : pcb) := Pcb (sz p) v (kstack p) (state p) (pid p) (parent p) (frames p) (chan p) (killed p) (ofile p) (cwd p) (name p).
Definition set_kstack v (p : pcb) := Pcb (sz p) (pgdir p) v (state p) (pid p) (parent p) (frames p) (chan p) (killed p) (ofile p) (cwd p) (name p).
Definition set_state v (p : pcb) := Pcb (sz p) (pgdir p) (kstack p) v (pid p) (parent p) (frames p) (chan p) (killed p) (ofile p) (cwd p) (name p).
Definition set_pid v (p : pcb) := Pcb (sz p) (pgdir p) (kstack p) (state p) v (parent p) (frames p) (chan p) (killed p) (ofile p) (cwd p) (name p).
Definition set_parent v (p : pcb) := Pcb (sz p) (pgdir p) (kstack p) (state p) (pid p) v (frames p) (chan p) (killed p) (ofile p) (cwd p) (name p).
Definition set_frames v (p : pcb) := Pcb (sz p) (pgdir p) (kstack p) (state p) (pid p) (parent p) v (chan p) (killed p) (ofile p) (cwd p) (name p).
Definition set_chan v (p : pcb) := Pcb (sz p) (pgdir p) (kstack p) (state p) (pid p) (parent p) (frames p) v (killed p) (ofile p) (cwd p) (name p).
Definition set_killed v (p : pcb) := Pcb (sz p) (pgdir p) (kstack p) (state p) (pid p) (parent p) (frames p) (chan p) v (ofile p) (cwd p) (name p).
Definition set_ofile v (p : pcb) := Pcb (sz p) (pgdir p) (kstack p) (state p) (pid p) (parent p) (frames p) (chan p) (killed p) v (cwd p) (name p).
Definition set_cwd v (p : pcb) := Pcb (sz p) (pgdir p) (kstack p) (state p) (pid p) (parent p) (frames p) (chan p) (killed p) (ofile p) v (name p).
Definition set_name v (p : pcb) := Pcb (sz p) (pgdir p) (kstack p) (state p) (pid p) (parent p) (frames p) (chan p) (killed p) (ofile p) (cwd p) v.

(** ** The rest of the kernel *)

(** What processes need from memory management, the swap area and the file
    system.  A page or page directory is its address, 0 on failure; [np] and
    [p] are slots of the process table. *)
Class Services (R : Type) := {
  kalloc : kern R Z;
  kfree : Z -> kern R unit;
  setupkvm : kern R Z;
  inituvm : Z -> kern R unit;
  copyuvm : Z -> Z -> kern R Z;
  allocuvm : Z -> Z -> Z -> kern R Z;
  deallocuvm : Z -> Z -> Z -> kern R Z;
  freevm : Z -> kern R unit;
  switchuvm : nat -> kern R unit;
  switchkvm : kern R unit;
  initSwap : nat -> nat -> kern R Z;
  destroySwap : nat -> kern R Z;
  filedup : Z -> kern R Z;
  fileclose : Z -> kern R unit;
  idup : Z -> kern R Z;
  iput : Z -> kern R unit;
  namei_root : kern R Z;
  begin_op : kern R unit;
  end_op : kern R unit;
  iinit : kern R unit;
  initlog : kern R unit;
  trapret : Z;
  forkret_addr : Z;
}.

Record sys (R : Type) := Sys {
  lks : locking; procs : list pcb; nextpid : Z; initproc : nat; first : bool; res : R }.
Arguments Sys {R}.
Arguments lks {R}.
Arguments procs {R}.
Arguments nextpid {R}.
Arguments initproc {R}.
Arguments first {R}.
Arguments res {R}.

(** The address of [ptable.lock]. *)
Definition ptable_lock : Z := 1.

Section proc.
Context {R : Type} {SV : Services R}.

Definition lk {A} (m : kern locking A) : kern (sys R) A :=
  zoom lks (fun l s => Sys l (procs s) (nextpid s) (initproc s) (first s) (res s)) m.
Definition sv {A} (m : kern R A) : kern (sys R) A :=
  zoom res (fun r s => Sys (lks s) (procs s) (nextpid s) (initproc s) (first s) r) m.
Definition set_procs (f : list pcb -> list pcb) : kern (sys R) unit :=
  modify (fun s => Sys (lks s) (f (procs s)) (nextpid s) (initproc s) (first s) (res s)).
Definition setp (i : nat) (f : pcb -> pcb) : kern (sys R) unit := set_procs (alter f i).
Definition getp (i : nat) : kern (sys R) pcb := gets (fun s => procs s !!! i).
Definition set_nextpid (v : Z) : kern (sys R) unit :=
  modify (fun s => Sys (lks s) (procs s) v (initproc s) (first s) (res s)).
Definition set_initproc (v : nat) : kern (sys R) unit :=
  modify (fun s => Sys (lks s) (procs s) (nextpid s) v (first s) (res s)).
Definition set_first (v : bool) : kern (sys R) unit :=
  modify (fun s => Sys (lks s) (procs s) (nextpid s) (initproc s) v (res s)).

(** The code runs on processor [c]. *)
Context (c : nat).

Definition take_ptable : kern (sys R) unit := lk (acquire c ptable_lock).
Definition drop_ptable : kern (sys R) unit := lk (release c ptable_lock).

(** ** allocproc *)

Fixpoint find_state (st : procstate) (t : list pcb) (i : nat) : option nat :=
  match t with
  | [] => None
  | p :: t => if decide (state p = st) then Some i else find_state st t (S i)
  end.

(** The part under the lock. *)
Definition allocproc_slot : kern (sys R) (option nat) :=
  take_ptable ;;
  t ← gets procs;
  match find_state UNUSED t 0 with
  | None => drop_ptable ;; mret None
  | Some i =>
      n ← gets nextpid;
      setp i (fun p => set_pid n (set_state EMBRYO p)) ;;
      set_nextpid (i32 (n + 1)) ;;
      drop_ptable ;;
      mret (Some i)
  end.

(** The kernel stack, with room for the trap frame and a context that starts in
    [forkret] and returns to [trapret]. *)
Definition allocproc_stack (i : nat) : kern (sys R) bool :=
  k ← sv kalloc;
  setp i (set_kstack k) ;;
  if k =? 0 then setp i (set_state UNUSED) ;; mret false
  else
    let tf := u32 (k + KSTACKSIZE - sizeof_trapframe) in
    let ctx := u32 (tf - 4 - sizeof_context) in
    setp i (fun p => set_frames (Kframes tf (tfv (frames p)) trapret ctx (Context 0 0 0 0 forkret_addr)) p) ;;
    mret true.

Definition allocproc : kern (sys R) (option nat) :=
  r ← allocproc_slot;
  match r with
  | None => mret None
  | Some i => b ← allocproc_stack i; mret (if b : bool then Some i else None)
  end.

Definition make_runnable (i : nat) : kern (sys R) unit :=
  take_ptable ;;
  setp i (set_state RUNNABLE) ;;
  drop_ptable.

(** ** userinit *)

Definition SEG_UCODE : Z := 3.
Definition SEG_UDATA : Z := 4.
Definition DPL_USER : Z := 3.
Definition FL_IF : Z := 0x200.
Definition PGSIZE : Z := 4096.

Definition init_tf : trapframe :=
  let ds := Z.lor (Z.shiftl SEG_UDATA 3) DPL_USER in
  Trapframe 0 0 0 0 0 0 0 0 0 0 ds ds 0 0 0 (Z.lor (Z.shiftl SEG_UCODE 3) DPL_USER) FL_IF PGSIZE ds.

Definition initcode : list Z := [105; 110; 105; 116; 99; 111; 100; 101].

(** Copy [t] into the 16 bytes of [p->name]. *)
Definition name_of (t : list Z) (old : list Z) : list Z :=
  let w := safestrcpy t 16 in w ++ drop (length w) old.

(** [allocproc] does not fail on the empty table at boot. *)
Definition userinit : kern (sys R) unit :=
  r ← allocproc;
  match r with
  | None => panic "page fault"
  | Some i =>
      set_initproc i ;;
      pg ← sv setupkvm;
      setp i (set_pgdir pg) ;;
      if pg =? 0 then panic "userinit: out of memory?"
      else
        sv (inituvm pg) ;;
        setp i (set_sz PGSIZE) ;;
        setp i (fun p => let f := frames p in set_frames (Kframes (tf f) init_tf (retv f) (ctx f) (ctxv f)) p) ;;
        setp i (fun p => set_name (name_of initcode (name p)) p) ;;
        ip ← sv namei_root;
        setp i (set_cwd ip) ;;
        make_runnable i
  end.

(** ** growproc *)

Definition growproc (n : Z) (slot : nat) : kern (sys R) Z :=
  q ← getp slot;
  sz ← (if 0 <? n then sv (allocuvm (pgdir q) (sz q) (u32 (sz q + n)))
        else if n <? 0 then sv (deallocuvm (pgdir q) (sz q) (u32 (sz q + n)))
        else mret (sz q));
  if negb (n =? 0) && (sz =? 0) then mret (-1)
  else
    setp slot (set_sz sz) ;;
    sv (switchuvm slot) ;;
    mret 0.

(** ** fork *)

(** Duplicate the open files of [fs] into [to], slot by slot. *)
Fixpoint dup_files (fs to : list Z) : kern (sys R) (list Z) :=
  match fs, to with
  | f :: fs, t :: to =>
      g ← (if f =? 0 then mret t else sv (filedup f));
      rest ← dup_files fs to;
      mret (g :: rest)
  | _, _ => mret to
  end.

(** Undo [allocproc] for a process that cannot be completed. *)
Definition fork_undo (np : nat) : kern (sys R) unit :=
  q ← getp np;
  sv (kfree (kstack q)) ;;
  setp np (set_kstack 0) ;;
  setp np (set_state UNUSED).

(** Everything between [allocproc] and the last critical section. *)
Definition fork_setup (p np : nat) : kern (sys R) bool :=
  cur ← getp p;
  pg ← sv (copyuvm (pgdir cur) (sz cur));
  setp np (set_pgdir pg) ;;
  if pg =? 0 then fork_undo np ;; mret false
  else
    setp np (set_sz (sz cur)) ;;
    setp np (set_parent (Some p)) ;;
    setp np (fun q => let f := frames q in
      set_frames (Kframes (tf f) (set_eax 0 (tfv (frames cur))) (retv f) (ctx f) (ctxv f)) q) ;;
    r ← sv (initSwap p np);
    if r <? 0 then fork_undo np ;; mret false
    else
      old ← getp np;
      fs ← dup_files (ofile cur) (ofile old);
      setp np (set_ofile fs) ;;
      ip ← sv (idup (cwd cur));
      setp np (set_cwd ip) ;;
      setp np (fun q => set_name (name_of (name cur) (name q)) q) ;;
      mret true.

Definition fork (p : nat) : kern (sys R) Z :=
  r ← allocproc;
  match r with
  | None => mret (-1)
  | Some np =>
      b ← fork_setup p np;
      if b : bool then
        q ← getp np;
        make_runnable np ;;
        mret (pid q)
      else mret (-1)
  end.

(** ** wakeup, kill *)

Definition wake (ch : channel) (p : pcb) : pcb :=
  if decide (state p = SLEEPING /\ chan p = ch) then set_state RUNNABLE p else p.

Definition wakeup1 (ch : channel) : kern (sys R) unit := set_procs (fmap (wake ch)).

Definition wakeup (ch : channel) : kern (sys R) unit :=
  take_ptable ;;
  wakeup1 ch ;;
  drop_ptable.

Fixpoint find_pid (n : Z) (t : list pcb) (i : nat) : option nat :=
  match t with
  | [] => None
  | p :: t => if pid p =? n then Some i else find_pid n t (S i)
  end.

Definition kill_pcb (p : pcb) : pcb :=
  let p := set_killed true p in
  if decide (state p = SLEEPING) then set_state RUNNABLE p else p.

Definition kill (n : Z) : kern (sys R) Z :=
  take_ptable ;;
  t ← gets procs;
  match find_pid n t 0 with
  | Some i => setp i kill_pcb ;; drop_ptable ;; mret 0
  | None => drop_ptable ;; mret (-1)
  end.

(** ** sched *)

(** [sched] of process [p] up to [swtch]; [intena] stays on its stack.  The
    scheduler gets control and forgets the process. *)
Definition sched_out (p : nat) : kern (sys R) bool :=
  h ← lk (holding c ptable_lock);
  if negb h then panic "sched ptable.lock"
  else
    x ← lk (mycpu c);
    if negb (ncli x =? 1) then panic "sched locks"
    else
      q ← getp p;
      if decide (state q = RUNNING) then panic "sched running"
      else
        fl ← lk (readeflags c);
        if fl : bool then panic "sched interruptible"
        else
          lk (set_cpu c (fun x => Cpu (ncli x) (intena x) (eflags_IF x) None)) ;;
          sv switchkvm ;;
          mret (intena x).

Definition sched_in (ie : bool) : kern (sys R) unit :=
  lk (mycpu c) ;;
  lk (set_cpu c (fun x => Cpu (ncli x) ie (eflags_IF x) (cproc x))).

(** ** exit *)

Fixpoint close_files (fs : list Z) : kern (sys R) (list Z) :=
  match fs with
  | [] => mret []
  | f :: fs =>
      g ← (if f =? 0 then mret f else sv (fileclose f) ;; mret 0);
      rest ← close_files fs;
      mret (g :: rest)
  end.

(** The part before the lock. *)
Definition exit_files (p : nat) : kern (sys R) unit :=
  i ← gets initproc;
  if decide (p = i) then panic "init exiting"
  else
    q ← getp p;
    fs ← close_files (ofile q);
    setp p (set_ofile fs) ;;
    sv begin_op ;;
    sv (iput (cwd q)) ;;
    sv end_op ;;
    setp p (set_cwd 0) ;;
    r ← sv (destroySwap p);
    assert_panic (r =? 0) "destroySwap(curproc)==0".

Definition parent_chan (o : option nat) : channel := match o with Some q => CProc q | None => CNone end.

(** Pass the children among slots [js] to init. *)
Fixpoint reparent (p : nat) (js : list nat) : kern (sys R) unit :=
  match js with
  | [] => mret ()
  | i :: js =>
      q ← getp i;
      init ← gets initproc;
      (if decide (parent q = Some p) then
         setp i (set_parent (Some init)) ;;
         (if decide (state q = ZOMBIE) then wakeup1 (CProc init) else mret ())
       else mret ()) ;;
      reparent p js
  end.

Definition exit_locked (p : nat) : kern (sys R) bool :=
  take_ptable ;;
  q ← getp p;
  wakeup1 (parent_chan (parent q)) ;;
  reparent p (seq 0 NPROC) ;;
  setp p (set_state ZOMBIE) ;;
  sched_out p.

Definition exit (p : nat) : kern (sys R) bool := exit_files p ;; exit_locked p.

(** ** sleep *)

(** [sleep] up to the switch, and after it. *)
Definition sleep_out (p : nat) (ch : channel) (l : Z) : kern (sys R) bool :=
  (if l =? ptable_lock then mret () else take_ptable ;; lk (release c l)) ;;
  setp p (set_chan ch) ;;
  setp p (set_state SLEEPING) ;;
  sched_out p.

Definition sleep_in (p : nat) (l : Z) (ie : bool) : kern (sys R) unit :=
  sched_in ie ;;
  setp p (set_chan CNone) ;;
  if l =? ptable_lock then mret () else drop_ptable ;; lk (acquire c l).

(** ** wait *)

(** [wait] returns a value or goes to sleep. *)
Inductive waited := Returned (v : Z) | Asleep (ie : bool).

(** Collect the zombie in slot [i]. *)
Definition reap (i : nat) : kern (sys R) Z :=
  q ← getp i;
  sv (kfree (kstack q)) ;;
  setp i (set_kstack 0) ;;
  sv (freevm (pgdir q)) ;;
  setp i (fun q => set_state UNUSED (set_killed false (set_name (<[O := 0]> (name q)) (set_parent None (set_pid 0 q))))) ;;
  drop_ptable ;;
  mret (pid q).

(** The scan over slots [js]. *)
Fixpoint wait_scan (p : nat) (js : list nat) (havekids : bool) : kern (sys R) waited :=
  match js with
  | [] =>
      q ← getp p;
      if negb havekids || killed q then drop_ptable ;; mret (Returned (-1))
      else ie ← sleep_out p (CProc p) ptable_lock; mret (Asleep ie)
  | i :: js =>
      q ← getp i;
      if decide (parent q = Some p) then
        if decide (state q = ZOMBIE) then n ← reap i; mret (Returned n)
        else wait_scan p js true
      else wait_scan p js havekids
  end.

Definition wait (p : nat) : kern (sys R) waited :=
  take_ptable ;;
  wait_scan p (seq 0 NPROC) false.

(** Woken up in [wait]: look again. *)
Definition wait_again (p : nat) (ie : bool) : kern (sys R) waited :=
  sleep_in p ptable_lock ie ;;
  wait_scan p (seq 0 NPROC) false.

(** ** yield, forkret *)

Definition yield_out (p : nat) : kern (sys R) bool :=
  take_ptable ;;
  setp p (set_state RUNNABLE) ;;
  sched_out p.

Definition yield_in (ie : bool) : kern (sys R) unit :=
  sched_in ie ;;
  drop_ptable.

Definition forkret : kern (sys R) unit :=
  drop_ptable ;;
  f ← gets first;
  if f : bool then set_first false ;; sv iinit ;; sv initlog else mret ().

(** ** scheduler *)

(** The scheduler on this processor at the top of its loop, and from slot [i] on
    with the lock held: it runs a process or finishes the round. *)
Definition scheduler_enter : kern (sys R) unit :=
  lk (sti c) ;;
  take_ptable.

Definition scheduler_scan (i : nat) : kern (sys R) (option nat) :=
  t ← gets procs;
  match find_state RUNNABLE (drop i t) i with
  | None => drop_ptable ;; mret None
  | Some j =>
      lk (set_cpu c (fun x => Cpu (ncli x) (intena x) (eflags_IF x) (Some j))) ;;
      sv (switchuvm j) ;;
      setp j (set_state RUNNING) ;;
      mret (Some j)
  end.

End proc.
