(* ===== verification/ProcSteps.v ===== *)
(** Processes and processors interleaved: which steps each processor can take,
    and the invariant every reachable state satisfies. *)

From S2P Require Import Prelude Spinlock Proc.

(** ** What processors and processes are doing *)

(** A processor is in the scheduler without the lock, in its scan with the lock,
    has just switched to a process (which holds the lock), or runs a process. *)
Inductive mode := Idle | Scan (i : nat) | Resume (p : nat) | Run (p : nat).

(** Where the kernel thread of a process is: in user code or kernel code outside
    proc.c, inside [fork] or [exit], or switched out in [wait], [sleep],
    [yield] or before its first run. *)
Inductive pc :=
| Kernel
| Forking (np : nat)
| Forked (np : nat)
| Exiting
| InWait (ie : bool)
| InSleep (l : Z) (ie : bool)
| InYield (ie : bool)
| Fresh
| Dead.

Definition locked_mode (m : mode) : bool := match m with Scan _ | Resume _ => true | _ => false end.
Definition mproc (m : mode) : option nat := match m with Run p | Resume p => Some p | _ => None end.
Definition forks (k : pc) : option nat := match k with Forking np | Forked np => Some np | _ => None end.

(** Switched out, and able to continue. *)
Definition parked (k : pc) : Prop :=
  match k with InWait _ | InYield _ | Fresh => True | InSleep l _ => l <> ptable_lock | _ => False end.

(** ** The invariant of the table

    [st], [par] and [ch] are the states, parents and channels of the slots. *)
Section table.
Context (n : nat) (init : nat).

Definition running_code (s : procstate) : Prop := s = SLEEPING \/ s = RUNNABLE \/ s = RUNNING.

Record pinv (st : nat -> procstate) (par : nat -> option nat) (ch : nat -> channel)
  (md : nat -> mode) (pcs : nat -> pc) : Prop := {
  pi_run : forall p, st p = RUNNING <-> exists c, (c < n)%nat /\ mproc (md c) = Some p;
  pi_one : forall c c' p, (c < n)%nat -> (c' < n)%nat -> mproc (md c) = Some p -> mproc (md c') = Some p -> c = c';
  pi_sleep : forall p, st p = SLEEPING ->
    (exists ie, pcs p = InWait ie /\ ch p = CProc p) \/
    (exists l ie a, pcs p = InSleep l ie /\ l <> ptable_lock /\ ch p = CAddr a);
  pi_ready : forall p, st p = RUNNABLE -> parked (pcs p);
  pi_resume : forall c p, (c < n)%nat -> md c = Resume p -> parked (pcs p);
  pi_code : forall c p, (c < n)%nat -> md c = Run p -> ~ parked (pcs p);
  pi_fork : forall p np, st p = RUNNING -> forks (pcs p) = Some np -> st np = EMBRYO;
  pi_fork1 : forall p p' np, st p = RUNNING -> st p' = RUNNING ->
    forks (pcs p) = Some np -> forks (pcs p') = Some np -> p = p';
  pi_wait : forall p q ie, st p = SLEEPING -> pcs p = InWait ie -> par q = Some p -> st q <> ZOMBIE;
  pi_par : forall p q, par q = Some p -> running_code (st p);
  pi_init : running_code (st init);
  pi_orphan : par init = None;
  pi_self : forall p, par p <> Some p;
}.

Definition upd {A} (f : nat -> A) (i : nat) (v : A) : nat -> A := fun j => if decide (j = i) then v else f j.

Lemma fupd_eq {A} (f : nat -> A) i v : upd f i v i = v.
Proof. unfold upd. by rewrite decide_True. Qed.
Lemma fupd_ne {A} (f : nat -> A) i v j : j <> i -> upd f i v j = f j.
Proof. intros H. unfold upd. by rewrite decide_False. Qed.

Lemma upd_cases {A} (f : nat -> A) i v j : (j = i /\ upd f i v j = v) \/ (j <> i /\ upd f i v j = f j).
Proof. destruct (decide (j = i)) as [->|H]; [left; by rewrite fupd_eq|right; by rewrite fupd_ne]. Qed.

(** Case analysis on the entries of updated tables. *)
Ltac at_upd :=
  repeat (progress rewrite ?fupd_eq in * ||
    match goal with
    | H : context [upd ?f ?i ?v ?j] |- _ =>
        (rewrite (fupd_ne f i v j) in * by done) ||
        (let E := fresh in destruct (upd_cases f i v j) as [[-> E]|[? E]]; rewrite E in *; clear E)
    | |- context [upd ?f ?i ?v ?j] =>
        (rewrite (fupd_ne f i v j) in * by done) ||
        (let E := fresh in destruct (upd_cases f i v j) as [[-> E]|[? E]]; rewrite E in *; clear E)
    end).

Context (st : nat -> procstate) (par : nat -> option nat) (ch : nat -> channel) (md : nat -> mode) (pcs : nat -> pc).
Hypothesis Hi : pinv st par ch md pcs.

Lemma at_mode c p : (c < n)%nat -> mproc (md c) = Some p -> st p = RUNNING.
Proof using Hi. intros Hc Hm. apply (pi_run _ _ _ _ _ Hi). eauto. Qed.

(** The processor that moves was on the only mode with this process. *)
Lemma other_mode c d p : (c < n)%nat -> (d < n)%nat -> d <> c -> mproc (md c) = Some p -> mproc (md d) <> Some p.
Proof using Hi. intros Hc Hd Hne Hm Hm'. apply Hne. by eapply (pi_one _ _ _ _ _ Hi). Qed.

(** Only the lock mode of a processor changes. *)
Lemma pinv_mode c m :
  (c < n)%nat -> mproc m = mproc (md c) ->
  (forall p, m = Resume p -> parked (pcs p)) -> (forall p, m = Run p -> ~ parked (pcs p)) ->
  pinv st par ch (upd md c m) pcs.
Proof using Hi.
  intros Hc Hm Hr Hk. destruct Hi as [H1 H2 H3 H4 H5 H6 H7 H8 H9 H10 H11 H12 H13]. split; try done.
  - intros p. rewrite H1. split; intros (d&Hd&E); exists d; (split; [done|]); at_upd; congruence.
  - intros d d' p Hd Hd' E E'. apply (H2 d d' p Hd Hd'); at_upd; congruence.
  - intros d p Hd E. at_upd; eauto.
  - intros d p Hd E. at_upd; eauto.
Qed.

(** The scheduler switches to a runnable process. *)
Lemma pinv_pick c j :
  (c < n)%nat -> mproc (md c) = None -> st j = RUNNABLE ->
  pinv (upd st j RUNNING) par ch (upd md c (Resume j)) pcs.
Proof using Hi.
  intros Hc Hm Hj. destruct Hi as [H1 H2 H3 H4 H5 H6 H7 H8 H9 H10 H11 H12 H13].
  assert (Hnj : forall d, (d < n)%nat -> mproc (md d) <> Some j).
  { intros d Hd E. assert (st j = RUNNING) by (apply H1; eauto). congruence. }
  assert (Hnf : forks (pcs j) = None). { specialize (H4 j Hj). by destruct (pcs j). }
  split.
  - intros p. destruct (upd_cases st j RUNNING p) as [[-> E]|[Hp E]]; rewrite E.
    + split; [|done]. intros _. exists c. split; [done|]. by rewrite fupd_eq.
    + rewrite H1. split; intros (d&Hd&Ed); exists d; (split; [done|]); at_upd; cbn in *; congruence.
  - intros d d' p Hd Hd' E E'. at_upd; cbn in *; simplify_eq; try done; try (exfalso; eapply Hnj; [|eassumption]; assumption); eauto.
  - intros p E. at_upd; [done|]. eauto.
  - intros p E. at_upd; [done|]. eauto.
  - intros d p Hd E. at_upd; [simplify_eq; eauto|eauto].
  - intros d p Hd E. at_upd; [done|eauto].
  - intros p np Ep Ef. at_upd; try congruence; eauto. specialize (H7 _ _ Ep Ef). congruence.
  - intros p p' np Ep Ep' Ef Ef'. at_upd; try congruence; eauto.
  - intros p q ie Ep Ew Eq. at_upd; try done; eauto.
  - intros p q Eq. at_upd; [by right; right|]. eauto.
  - at_upd; [by right; right|done].
  - done.
  - done.
Qed.

(** A process gives up its processor in [yield], [sleep] or [wait]. *)
Lemma pinv_out c p i s k cc :
  (c < n)%nat -> mproc (md c) = Some p ->
  (s = RUNNABLE /\ parked k \/
   s = SLEEPING /\ ((exists ie, k = InWait ie /\ cc = CProc p /\ forall q, par q = Some p -> st q <> ZOMBIE) \/
                   (exists l ie a, k = InSleep l ie /\ l <> ptable_lock /\ cc = CAddr a))) ->
  pinv (upd st p s) par (upd ch p cc) (upd md c (Scan i)) (upd pcs p k).
Proof using Hi.
  intros Hc Hm Hs. pose proof (at_mode c p Hc Hm) as Hp. pose proof (fun d => other_mode c d p Hc) as Hoth.
  destruct Hi as [H1 H2 H3 H4 H5 H6 H7 H8 H9 H10 H11 H12 H13].
  assert (Hsr : s <> RUNNING /\ s <> EMBRYO /\ s <> ZOMBIE /\ running_code s).
  { unfold running_code. destruct Hs as [[-> _]|[-> _]]; split_and!; try done; auto. }
  destruct Hsr as (Hs1&Hs2&Hs3&Hs4). split.
  - intros q. destruct (upd_cases st p s q) as [[-> E]|[Hq E]]; rewrite E.
    + split; [done|]. intros (d&Hd&Ed). at_upd; [done|]. by destruct (Hoth d Hd).
    + rewrite H1. split; intros (d&Hd&Ed); exists d; (split; [done|]); at_upd; cbn in *; congruence.
  - intros d d' q Hd Hd' E E'. at_upd; cbn in *; try done; eauto.
  - intros q E. at_upd; [|eauto]. destruct Hs as [[-> _]|[_ Hs]]; [done|]. destruct Hs as [(ie&->&->&_)|Hs]; eauto.
  - intros q E. at_upd; [|eauto]. destruct Hs as [[_ Hs]|[-> _]]; done.
  - intros d q Hd E. at_upd; try done; eauto. exfalso. apply (Hoth d Hd); [done..|]. by rewrite E.
  - intros d q Hd E. at_upd; try done; eauto. exfalso. apply (Hoth d Hd); [done..|]. by rewrite E.
  - intros q np Eq Ef. at_upd; try done; eauto. specialize (H7 _ _ Eq Ef). congruence.
  - intros q q' np Eq Eq' Ef Ef'. at_upd; try done; eauto.
  - intros q r ie Eq Ew Er. at_upd; try done; eauto.
    destruct Hs as [[-> _]|[_ [(ie'&_&_&Hz)|(l&ie'&a&->&_)]]]; [done|by apply Hz|done].
  - intros q r Er. at_upd; eauto.
  - at_upd; eauto.
  - done.
  - done.
Qed.

(** Sleeping processes are made runnable. *)
Lemma pinv_wake st' :
  (forall q, st' q = st q \/ (st q = SLEEPING /\ st' q = RUNNABLE)) -> pinv st' par ch md pcs.
Proof using Hi.
  intros Hw. destruct Hi as [H1 H2 H3 H4 H5 H6 H7 H8 H9 H10 H11 H12 H13].
  assert (Hr : forall q s, s <> RUNNABLE -> st' q = s -> st q = s).
  { intros q s Hs E. destruct (Hw q) as [E'|[_ E']]; congruence. }
  assert (Hk : forall q s, s <> SLEEPING -> st q = s -> st' q = s).
  { intros q s Hs E. destruct (Hw q) as [E'|[E' _]]; congruence. }
  assert (Hcode : forall q, running_code (st q) -> running_code (st' q)).
  { intros q Hq. destruct (Hw q) as [->|[_ ->]]; [done|by right; left]. }
  split; try done; eauto.
  - intros p. rewrite <- H1. split; [by apply Hr|by apply Hk].
  - intros p E. destruct (Hw p) as [E'|[E' _]]; [apply H4; congruence|].
    destruct (H3 p E') as [(ie&->&_)|(l&ie&a&->&Hl&_)]; done.
  - intros p q ie E Ew Eq Ez. apply (H9 p q ie); [by apply Hr|done|done|by apply Hr].
Qed.

(** The running process [p] continues in code outside the lock, not in [fork]. *)
Lemma pinv_continue c p k cc :
  (c < n)%nat -> mproc (md c) = Some p -> ~ parked k -> forks k = None ->
  pinv st par (upd ch p cc) (upd md c (Run p)) (upd pcs p k).
Proof using Hi.
  intros Hc Hm Hk Hf. pose proof (at_mode c p Hc Hm) as Hp. pose proof (fun d => other_mode c d p Hc) as Hoth.
  destruct Hi as [H1 H2 H3 H4 H5 H6 H7 H8 H9 H10 H11 H12 H13]. split; try done.
  - intros q. rewrite H1. split; intros (d&Hd&Ed); exists d; (split; [done|]); at_upd; cbn in *; congruence.
  - intros d d' q Hd Hd' E E'. apply (H2 d d' q Hd Hd'); at_upd; cbn in *; congruence.
  - intros q E. at_upd; [congruence|]. eauto.
  - intros q E. at_upd; [congruence|]. eauto.
  - intros d q Hd E. at_upd; try done; eauto. exfalso. apply (Hoth d Hd); [done..|]. by rewrite E.
  - intros d q Hd E. at_upd; simplify_eq; at_upd; try done; eauto.
  - intros q np Eq Ef. at_upd; [congruence|eauto].
  - intros q q' np Eq Eq' Ef Ef'. at_upd; try congruence; eauto.
  - intros q r ie Eq Ew Er. at_upd; [congruence|eauto].
Qed.

(** [fork] takes a slot. *)
Lemma pinv_alloc c p np :
  (c < n)%nat -> md c = Run p -> forks (pcs p) = None -> st np = UNUSED ->
  pinv (upd st np EMBRYO) par ch md (upd pcs p (Forking np)).
Proof using Hi.
  intros Hc Hm Hf Hnp. assert (Hmp : mproc (md c) = Some p) by by rewrite Hm.
  pose proof (at_mode c p Hc Hmp) as Hp. pose proof (fun d => other_mode c d p Hc) as Hoth.
  destruct Hi as [H1 H2 H3 H4 H5 H6 H7 H8 H9 H10 H11 H12 H13].
  assert (Hnc : ~ running_code (st np)) by (rewrite Hnp; by intros [?|[?|?]]).
  assert (p <> np) by congruence. split; try done.
  - intros q. rewrite <- H1. at_upd; [|done]. rewrite Hnp. done.
  - intros q E. at_upd; try done; try congruence. eauto.
  - intros q E. at_upd; try done; try congruence. eauto.
  - intros d q Hd E. at_upd; [|eauto]. exfalso. destruct (decide (d = c)) as [->|Hne]; [congruence|].
    apply (Hoth d Hd); [done..|]. by rewrite E.
  - intros d q Hd E. at_upd; [by intros []|eauto].
  - intros q m Eq Ef. at_upd; cbn in *; simplify_eq; try done; at_upd; try done; eauto.
  - intros q q' m Eq Eq' Ef Ef'. at_upd; cbn in *; simplify_eq; try done; eauto.
    + specialize (H7 _ _ Eq Ef). congruence.
    + specialize (H7 _ _ Eq' Ef'). congruence.
  - intros q r ie Eq Ew Er. at_upd; try done; try congruence; eauto.
  - intros q r Er. at_upd; [|eauto]. destruct Hnc. eauto.
  - at_upd; [|eauto]. by destruct Hnc.
Qed.

(** [fork] fills the slot in, or gives it back. *)
Lemma pinv_setup c p np s k par' :
  (c < n)%nat -> md c = Run p -> forks (pcs p) = Some np ->
  (s = EMBRYO /\ k = Forked np \/ s = UNUSED /\ k = Kernel) ->
  (forall q, q <> np -> par' q = par q) -> (par' np = par np \/ par' np = Some p) ->
  pinv (upd st np s) par' ch md (upd pcs p k).
Proof using Hi.
  intros Hc Hm Hf Hk Hpar Hpar'. assert (Hmp : mproc (md c) = Some p) by by rewrite Hm.
  pose proof (at_mode c p Hc Hmp) as Hp. pose proof (fun d => other_mode c d p Hc) as Hoth.
  destruct Hi as [H1 H2 H3 H4 H5 H6 H7 H8 H9 H10 H11 H12 H13]. pose proof (H7 p np Hp Hf) as Hnp.
  assert (Hnc : ~ running_code (st np)) by (rewrite Hnp; by intros [?|[?|?]]).
  assert (Hne : p <> np) by congruence.
  assert (Hs : s <> RUNNING /\ s <> SLEEPING /\ s <> RUNNABLE /\ s <> ZOMBIE) by (destruct Hk as [[-> _]|[-> _]]; done).
  destruct Hs as (Hs1&Hs2&Hs3&Hs4).
  assert (Hpk : ~ parked k) by (destruct Hk as [[_ ->]|[_ ->]]; by intros []).
  assert (Hany : forall q r, par' q = Some r -> par q = Some r \/ (q = np /\ r = p)).
  { intros q r E. destruct (decide (q = np)) as [->|Hq]; [|left; by rewrite <- Hpar].
    destruct Hpar' as [E'|E']; [left; congruence|right; split; [done|congruence]]. }
  assert (Hfk : forall q, q <> p -> st q = RUNNING -> forks (pcs q) <> Some np).
  { intros q Hq Eq Ef. apply Hq. by eapply (H8 q p np). }
  assert (Hkf : forall m, forks k = Some m -> m = np /\ s = EMBRYO).
  { intros m. destruct Hk as [[-> ->]|[_ ->]]; cbn; [by intros [=->]|done]. }
  assert (Hrun : forall q, upd st np s q = RUNNING -> st q = RUNNING) by (intros q E; at_upd; done).
  split; try done.
  - intros q. rewrite <- H1. at_upd; [|done]. rewrite Hnp. done.
  - intros q E. at_upd; try done; try congruence. eauto.
  - intros q E. at_upd; try done; try congruence. eauto.
  - intros d q Hd E. at_upd; [|eauto]. exfalso. destruct (decide (d = c)) as [->|Hd']; [congruence|].
    apply (Hoth d Hd); [done..|]. by rewrite E.
  - intros d q Hd E. at_upd; [done|eauto].
  - intros q m Eq Ef. apply Hrun in Eq. destruct (decide (q = p)) as [->|Hq].
    + rewrite fupd_eq in Ef. apply Hkf in Ef as [-> ->]. by rewrite fupd_eq.
    + rewrite fupd_ne in Ef by done. rewrite fupd_ne; [eauto|]. intros ->. by apply (Hfk q).
  - intros q q' m Eq%Hrun Eq'%Hrun Ef Ef'.
    destruct (decide (q = p)) as [->|Hq], (decide (q' = p)) as [->|Hq']; [done| | |];
      rewrite ?fupd_eq, ?fupd_ne in Ef by done; rewrite ?fupd_eq, ?fupd_ne in Ef' by done.
    + apply Hkf in Ef as [-> _]. by destruct (Hfk q').
    + apply Hkf in Ef' as [-> _]. by destruct (Hfk q).
    + eauto.
  - intros q r ie Eq Ew Er. at_upd; try done; try congruence.
    destruct (Hany _ _ Er) as [Er'|[-> ->]]; [eauto|congruence].
  - intros q r Er. destruct (Hany _ _ Er) as [Er'|[-> ->]]; at_upd; try done; eauto.
    + destruct Hnc. eauto.
    + rewrite Hp. by right; right.
  - at_upd; [|eauto]. by destruct Hnc.
  - destruct (par' init) as [r|] eqn:E; [|done]. destruct (Hany _ _ E) as [E'|[-> ->]]; [congruence|].
    by destruct Hnc.
  - intros q E. destruct (Hany _ _ E) as [E'|[-> ->]]; [by apply (H13 q)|done].
Qed.

(** The new process may run. *)
Lemma pinv_finish c p np :
  (c < n)%nat -> md c = Run p -> forks (pcs p) = Some np ->
  pinv (upd st np RUNNABLE) par ch md (upd (upd pcs p Kernel) np Fresh).
Proof using Hi.
  intros Hc Hm Hf. assert (Hmp : mproc (md c) = Some p) by by rewrite Hm.
  pose proof (at_mode c p Hc Hmp) as Hp. pose proof (fun d => other_mode c d p Hc) as Hoth.
  destruct Hi as [H1 H2 H3 H4 H5 H6 H7 H8 H9 H10 H11 H12 H13]. pose proof (H7 p np Hp Hf) as Hnp.
  assert (Hnc : ~ running_code (st np)) by (rewrite Hnp; by intros [?|[?|?]]).
  assert (Hne : p <> np) by congruence.
  assert (Hno : forall d, (d < n)%nat -> mproc (md d) <> Some np).
  { intros d Hd E. assert (st np = RUNNING) by (apply H1; eauto). congruence. }
  split; try done.
  - intros q. rewrite <- H1. at_upd; [|done]. rewrite Hnp. done.
  - intros q E. at_upd; try done; try congruence. eauto.
  - intros q E. at_upd; try done; try congruence. eauto.
  - intros d q Hd E. at_upd; try done; eauto. exfalso. destruct (decide (d = c)) as [->|Hd']; [congruence|].
    apply (Hoth d Hd); [done..|]. by rewrite E.
  - intros d q Hd E. at_upd; try (by intros []); eauto. exfalso. apply (Hno d Hd). by rewrite E.
  - intros q m Eq Ef. at_upd; cbn in *; simplify_eq; try done; eauto.
    exfalso. assert (q = p) by by eapply (H8 q p np). done.
  - intros q q' m Eq Eq' Ef Ef'. at_upd; cbn in *; simplify_eq; try done; eauto.
  - intros q r ie Eq Ew Er. at_upd; try done; try congruence; eauto.
  - intros q r Er. at_upd; [by right; left|eauto].
  - at_upd; [by right; left|eauto].
Qed.

(** [wait] collects a zombie. *)
Lemma pinv_reap i : st i = ZOMBIE -> pinv (upd st i UNUSED) (upd par i None) ch md pcs.
Proof using Hi.
  intros Hz. destruct Hi as [H1 H2 H3 H4 H5 H6 H7 H8 H9 H10 H11 H12 H13].
  assert (Hnc : ~ running_code (st i)) by (rewrite Hz; by intros [?|[?|?]]). split; try done.
  - intros q. rewrite <- H1. at_upd; [|done]. by rewrite Hz.
  - intros q E. at_upd; [done|eauto].
  - intros q E. at_upd; [done|eauto].
  - intros q m E Ef. at_upd; try done; eauto. specialize (H7 _ _ E Ef). congruence.
  - intros q q' m E E' Ef Ef'. at_upd; try done; eauto.
  - intros q r ie E Ew Er. at_upd; try done; eauto.
  - intros q r Er. at_upd; try done; eauto. destruct Hnc. eauto.
  - at_upd; [by destruct Hnc|done].
  - at_upd; done.
  - intros q. at_upd; done.
Qed.

(** [exit]: the parent is woken if it waits, the children pass to init, which is
    woken if it waits and gets a zombie. *)
Lemma pinv_exit c p i st' par' :
  (c < n)%nat -> md c = Run p -> forks (pcs p) = None -> p <> init ->
  st' p = ZOMBIE ->
  (forall q, q <> p -> st' q = st q \/ (st q = SLEEPING /\ st' q = RUNNABLE)) ->
  (forall r, par p = Some r -> st r = SLEEPING -> ch r = CProc r -> st' r = RUNNABLE) ->
  (forall q, par q = Some p -> st q = ZOMBIE -> st init = SLEEPING -> ch init = CProc init -> st' init = RUNNABLE) ->
  (forall q, par' q = if decide (par q = Some p) then Some init else par q) ->
  pinv st' par' ch (upd md c (Scan i)) (upd pcs p Dead).
Proof using Hi.
  intros Hc Hm Hf Hpi Hz Hst Hwp Hwi Hpar. assert (Hmp : mproc (md c) = Some p) by by rewrite Hm.
  pose proof (at_mode c p Hc Hmp) as Hp. pose proof (fun d => other_mode c d p Hc) as Hoth.
  destruct Hi as [H1 H2 H3 H4 H5 H6 H7 H8 H9 H10 H11 H12 H13].
  assert (Hback : forall q s, s <> RUNNABLE -> s <> ZOMBIE -> st' q = s -> q <> p /\ st q = s).
  { intros q s Hs Hs' E. destruct (decide (q = p)) as [->|Hq]; [congruence|].
    destruct (Hst q Hq) as [E'|[_ E']]; [split; congruence|congruence]. }
  assert (Hcode : forall q, q <> p -> running_code (st q) -> running_code (st' q)).
  { intros q Hq H. destruct (Hst q Hq) as [->|[_ ->]]; [done|by right; left]. }
  assert (Hkeep : forall q s, q <> p -> s <> SLEEPING -> st q = s -> st' q = s).
  { intros q s Hq Hs E. destruct (Hst q Hq) as [E'|[E' _]]; congruence. }
  split.
  - intros q. split.
    + intros E. apply Hback in E as [Hq E]; [|done..]. apply H1 in E as (d&Hd&Ed). exists d. split; [done|].
      at_upd; [|done]. rewrite Hm in Ed. by injection Ed as ->.
    + intros (d&Hd&Ed). at_upd; [done|]. apply Hkeep; [|done|apply H1; eauto]. intros ->. by apply (Hoth d Hd).
  - intros d d' q Hd Hd' E E'. at_upd; try done; eauto.
  - intros q E. apply Hback in E as [Hq E]; [|done..]. rewrite fupd_ne by done. eauto.
  - intros q E. destruct (decide (q = p)) as [->|Hq]; [congruence|]. rewrite fupd_ne by done.
    destruct (Hst q Hq) as [E'|[E' _]]; [apply H4; congruence|].
    destruct (H3 q E') as [(ie&->&_)|(l&ie&a&->&Hl&_)]; done.
  - intros d q Hd E. at_upd; try done; eauto. exfalso. apply (Hoth d Hd); [done..|]. by rewrite E.
  - intros d q Hd E. at_upd; try done; eauto.
  - intros q m E Ef. apply Hback in E as [Hq E]; [|done..]. rewrite fupd_ne in Ef by done.
    pose proof (H7 q m E Ef) as Hm'. apply Hkeep; [congruence|done|done].
  - intros q q' m E E' Ef Ef'. apply Hback in E as [Hq E]; [|done..]. apply Hback in E' as [Hq' E']; [|done..].
    rewrite fupd_ne in Ef, Ef' by done. eauto.
  - intros r q ie E Ew Eq Eqz.
    destruct (Hback r SLEEPING) as [Hr Er]; [done..|]. rewrite fupd_ne in Ew by done.
    assert (Hcr : ch r = CProc r).
    { destruct (H3 r Er) as [(ie'&_&Ec)|(l&ie'&a&Ei&_)]; [done|congruence]. }
    rewrite Hpar in Eq. destruct (decide (q = p)) as [->|Hq].
    + rewrite decide_False in Eq by apply H13. specialize (Hwp r Eq Er Hcr). congruence.
    + assert (Hqz : st q = ZOMBIE) by (destruct (Hst q Hq) as [E'|[_ E']]; congruence).
      destruct (decide (par q = Some p)) as [Epq|Epq]; [injection Eq as <-|by apply (H9 r q ie)].
      specialize (Hwi q Epq Hqz Er Hcr). congruence.
  - intros r q Eq. rewrite Hpar in Eq. destruct (decide (par q = Some p)) as [Epq|Epq]; [injection Eq as <-; by apply Hcode|].
    apply Hcode; [congruence|eauto].
  - by apply Hcode.
  - rewrite Hpar, H12. by rewrite decide_False.
  - intros q E. rewrite Hpar in E. destruct (decide (par q = Some p)) as [Epq|Epq]; [congruence|by apply (H13 q)].
Qed.

End table.
