(* ===== verification/ProcCorrect.v ===== *)
(** Correctness of the process table: in every interleaving of the processors
    the table stays consistent, no parent sleeps on a zombie, every process has
    a live parent, and the switching code does not panic. *)

From S2P Require Import Prelude CString Spinlock Proc ProcSteps.

(** ** Locks *)

Definition lock_set (l l' : locking) (k : Z) (v : spinlock) : Prop :=
  forall a, locks l' a = if a =? k then v else locks l a.

Lemma acquire_eff c k l l' :
  (c < length (cpus l))%nat -> 0 <= ncli (cpuat c l) -> acquire c k l = Ret tt l' ->
  locked (locks l k) = false /\ cpus l' = cpus (with_cpu c (pushed (cpuat c l)) l) /\
  lock_set l l' k (Spin true (Some c)).
Proof.
  intros Hc Hn E. unfold acquire in E.
  destruct (locked (locks l k) && bool_decide (lk_cpu (locks l k) = Some c)) eqn:Hh.
  - exfalso. unfold acquire_enter in E. rewrite bind_bind in E.
    erewrite bind_Ret in E by by apply pushcli_run. rewrite bind_bind in E.
    erewrite bind_Ret in E by (apply holding_run; rewrite ?length_with, ?cpuat_with by done; cbn; [done..|lia]).
    cbn [with_cpu locks] in E. by rewrite Hh in E.
  - erewrite bind_Ret in E by by apply acquire_enter_run. unfold acquire_xchg in E.
    rewrite !bind_bind, bind_gets in E. cbn [with_cpu locks] in E. unfold set_lock in E.
    rewrite bind_bind, bind_modify, bind_mret in E. destruct (locked (locks l k)); [done|]. split; [done|].
    unfold acquire_mark, mycpu, readeflags in E. rewrite !bind_bind, bind_gets in E.
    replace (eflags_IF _) with false in E by (unfold cpuat at 1; cbn; by rewrite list_lookup_total_insert_eq by done).
    rewrite bind_gets in E. injection E as <-. split; [done|]. intros a. cbn. rewrite Z.eqb_refl. by destruct (a =? k).
Qed.

Lemma release_eff c k l l' :
  (c < length (cpus l))%nat -> eflags_IF (cpuat c l) = false -> 1 <= ncli (cpuat c l) ->
  release c k l = Ret tt l' ->
  cpus l' = cpus (with_cpu c (popped (cpuat c l)) l) /\ lock_set l l' k (Spin false None).
Proof.
  intros Hc Hif Hn E. unfold release, release_enter in E. rewrite bind_bind in E.
  erewrite bind_Ret in E by by apply holding_run. destruct (_ && _); cbn [negb] in E; [|done].
  rewrite (bind_Ret _ _ _ _ _ (set_lock_run _ _ _)) in E. unfold release_store in E.
  rewrite (bind_Ret _ _ _ _ _ (set_lock_run _ _ _)) in E.
  rewrite popcli_run in E by done. injection E as <-. split; [done|]. intros a. cbn. rewrite Z.eqb_refl. cbn. by destruct (a =? k).
Qed.

Lemma release_ok c k l :
  (c < length (cpus l))%nat -> eflags_IF (cpuat c l) = false -> 1 <= ncli (cpuat c l) ->
  locks l k = Spin true (Some c) -> exists l', release c k l = Ret tt l'.
Proof.
  intros Hc Hif Hn Hl. unfold release. erewrite bind_Ret by by apply release_enter_run.
  unfold release_store. rewrite (bind_Ret _ _ _ _ _ (set_lock_run _ _ _)). rewrite popcli_run by done. eauto.
Qed.

Lemma acquire_ok c k l :
  (c < length (cpus l))%nat -> 0 <= ncli (cpuat c l) -> locks l k = Spin false None ->
  exists l', acquire c k l = Ret tt l'.
Proof.
  intros Hc Hn Hl. unfold acquire. erewrite bind_Ret by (apply acquire_enter_run; rewrite ?Hl; done).
  unfold acquire_xchg. rewrite !bind_bind, bind_gets. cbn [with_cpu locks]. rewrite Hl. unfold set_lock.
  rewrite bind_bind, bind_modify, bind_mret. cbn [locked]. unfold acquire_mark, mycpu, readeflags.
  rewrite !bind_bind, bind_gets. replace (eflags_IF _) with false by (unfold cpuat at 1; cbn; by rewrite list_lookup_total_insert_eq by done).
  rewrite bind_gets. eexists. reflexivity.
Qed.

(** ** The lock and the processors *)

Definition cpu_flag (a : bool) (x : cpu) : Prop := if a then ncli x = 1 /\ eflags_IF x = false else ncli x = 0.

(** Processor [c] goes from outside ([false]) or inside ([true]) the critical
    section of the table lock to outside or inside it, with [pr] as its process. *)
Record moves (c : nat) (a b : bool) (pr : option nat) (l l' : locking) : Prop := {
  mv_cpus : exists y, cpus l' = <[c := y]> (cpus l) /\ cproc y = pr /\ cpu_flag b y;
  mv_lock : locks l' ptable_lock = if b then Spin true (Some c) else Spin false None;
  mv_other : forall k, k <> ptable_lock -> locks l' k = locks l k;
  mv_free : a = false -> locked (locks l ptable_lock) = false;
}.

Record linv (n : nat) (l : locking) (md : nat -> mode) : Prop := {
  lv_len : length (cpus l) = n;
  lv_cpu : forall c, (c < n)%nat -> cproc (cpuat c l) = mproc (md c) /\ cpu_flag (locked_mode (md c)) (cpuat c l);
  lv_in : forall c, (c < n)%nat -> locked_mode (md c) = true -> locks l ptable_lock = Spin true (Some c);
  lv_out : (forall c, (c < n)%nat -> locked_mode (md c) = false) -> locks l ptable_lock = Spin false None;
  lv_other : forall k, k <> ptable_lock -> locks l k = Spin false None;
}.

Lemma linv_moves n l l' md c m :
  linv n l md -> (c < n)%nat -> moves c (locked_mode (md c)) (locked_mode m) (mproc m) l l' ->
  linv n l' (upd md c m).
Proof.
  intros [Hlen Hcpu Hin Hout Hoth] Hc [(y&Ey&Epr&Hy) Hlk Hk Hfree].
  assert (Hno : forall d, (d < n)%nat -> d <> c -> locked_mode (md d) = false).
  { intros d Hd Hne. apply not_true_iff_false. intros E. pose proof (Hin d Hd E) as Hd'.
    destruct (locked_mode (md c)) eqn:Ec; [rewrite (Hin c Hc Ec) in Hd'; congruence|].
    specialize (Hfree eq_refl). by rewrite Hd' in Hfree. }
  split.
  - by rewrite Ey, length_insert.
  - intros d Hd. unfold cpuat. rewrite Ey. destruct (upd_cases md c m d) as [[-> E]|[Hne E]]; rewrite E.
    + rewrite list_lookup_total_insert_eq by lia. done.
    + rewrite list_lookup_total_insert_ne by done. by apply Hcpu.
  - intros d Hd E. destruct (upd_cases md c m d) as [[-> E']|[Hne E']]; rewrite E' in E.
    + by rewrite Hlk, E.
    + by rewrite (Hno d Hd Hne) in E.
  - intros Hall. specialize (Hall c Hc). rewrite fupd_eq in Hall. by rewrite Hlk, Hall.
  - intros k Hne. rewrite Hk by done. by apply Hoth.
Qed.

Lemma moves_at c a b pr l l' :
  (c < length (cpus l))%nat -> moves c a b pr l l' ->
  (c < length (cpus l'))%nat /\ cproc (cpuat c l') = pr /\ cpu_flag b (cpuat c l') /\
  locks l' ptable_lock = (if b then Spin true (Some c) else Spin false None).
Proof.
  intros Hc [(y&Ey&Epr&Hy) Hlk _ _]. unfold cpuat. rewrite Ey, length_insert.
  rewrite list_lookup_total_insert_eq by done. done.
Qed.

Lemma moves_trans c a b d pr pr' l1 l2 l3 :
  moves c a b pr l1 l2 -> moves c b d pr' l2 l3 -> moves c a d pr' l1 l3.
Proof.
  intros [(y&Ey&_) _ Ho1 Hf1] [(z&Ez&Hz) Hl2 Ho2 _]. split; [|done| |done].
  - exists z. split; [|done]. by rewrite Ez, Ey, list_insert_insert_eq.
  - intros k Hk. by rewrite Ho2, Ho1.
Qed.

Lemma take_moves c l l' :
  (c < length (cpus l))%nat -> cpu_flag false (cpuat c l) -> acquire c ptable_lock l = Ret tt l' ->
  moves c false true (cproc (cpuat c l)) l l'.
Proof.
  intros Hc Hf E. cbn in Hf. destruct (acquire_eff c ptable_lock l l' Hc ltac:(lia) E) as (H1&H2&H3). split.
  - exists (pushed (cpuat c l)). split; [done|]. split; [done|]. cbn. split; [lia|done].
  - by rewrite H3, Z.eqb_refl.
  - intros k Hk. rewrite H3. by rewrite (proj2 (Z.eqb_neq _ _) Hk).
  - done.
Qed.

Lemma drop_moves c l l' :
  (c < length (cpus l))%nat -> cpu_flag true (cpuat c l) -> release c ptable_lock l = Ret tt l' ->
  moves c true false (cproc (cpuat c l)) l l'.
Proof.
  intros Hc [Hn Hif] E. destruct (release_eff c ptable_lock l l' Hc Hif ltac:(lia) E) as (H2&H3). split.
  - exists (popped (cpuat c l)). split; [done|]. split; [done|]. cbn. lia.
  - by rewrite H3, Z.eqb_refl.
  - intros k Hk. rewrite H3. by rewrite (proj2 (Z.eqb_neq _ _) Hk).
  - done.
Qed.

Lemma set_moves c f l :
  (c < length (cpus l))%nat -> cpu_flag true (f (cpuat c l)) -> locks l ptable_lock = Spin true (Some c) ->
  moves c true true (cproc (f (cpuat c l))) l (with_cpu c (f (cpuat c l)) l).
Proof. intros Hc Hf Hl. split; [|done|done|done]. by eexists. Qed.

(** ** Effects of the operations *)

Section runs.
Context {R : Type}.

Lemma lk_inv {A} (m : kern locking A) (s : sys R) a s' :
  lk m s = Ret a s' -> exists l, m (lks s) = Ret a l /\ s' = Sys l (procs s) (nextpid s) (initproc s) (first s) (res s).
Proof. unfold lk, zoom. destruct (m (lks s)); [|done..]. intros [=<- <-]. eauto. Qed.

Lemma sv_inv {A} (m : kern R A) (s : sys R) a s' :
  sv m s = Ret a s' -> exists r, s' = Sys (lks s) (procs s) (nextpid s) (initproc s) (first s) r.
Proof. unfold sv, zoom. destruct (m (res s)); [|done..]. intros [=<- <-]. eauto. Qed.

Definition with_lks (l : locking) (s : sys R) : sys R := Sys l (procs s) (nextpid s) (initproc s) (first s) (res s).

End runs.

Ltac kret H := first [injection H as <- <- | injection H as <-].

(** Open up a run of kernel code into the runs of its calls. *)
Ltac kinv :=
  repeat match goal with
  | H : (_ ≫= _) _ = Ret _ _ |- _ =>
      let a := fresh "a" in let t := fresh "t" in let H1 := fresh "R" in let H2 := fresh "R" in
      apply bind_inv in H as (a & t & H1 & H2)
  | u : unit |- _ => destruct u
  | H : mret _ _ = Ret _ _ |- _ => kret H
  | H : gets _ _ = Ret _ _ |- _ => kret H
  | H : modify _ _ = Ret _ _ |- _ => kret H
  | H : getp _ _ = Ret _ _ |- _ => kret H
  | H : setp _ _ _ = Ret _ _ |- _ => kret H
  | H : set_procs _ _ = Ret _ _ |- _ => kret H
  | H : set_nextpid _ _ = Ret _ _ |- _ => kret H
  | H : panic _ _ = Ret _ _ |- _ => discriminate H
  | H : lk _ _ = Ret _ _ |- _ =>
      let l := fresh "l" in apply lk_inv in H as (l & H & ->)
  | H : sv _ _ = Ret _ _ |- _ =>
      let r := fresh "r" in apply sv_inv in H as (r & ->)
  end; cbn [with_lks lks procs nextpid initproc first res] in *.

Section effects.
Context {R : Type} {SV : Services R}.

Definition inside (c : nat) (s : sys R) : Prop :=
  (c < length (cpus (lks s)))%nat /\ cpu_flag true (cpuat c (lks s)) /\ locks (lks s) ptable_lock = Spin true (Some c).
Definition outside (c : nat) (s : sys R) : Prop :=
  (c < length (cpus (lks s)))%nat /\ cpu_flag false (cpuat c (lks s)).

Lemma moves_inside c a pr (s s' : sys R) :
  (c < length (cpus (lks s)))%nat -> moves c a true pr (lks s) (lks s') -> inside c s'.
Proof. intros Hc Hm. destruct (moves_at _ _ _ _ _ _ Hc Hm) as (H1&H2&H3&H4). split; [done|by split]. Qed.

(** The processes, the next id and init are as before. *)
Definition frame (s s' : sys R) : Prop := nextpid s' = nextpid s /\ initproc s' = initproc s.

Lemma take_eff c (s s' : sys R) :
  outside c s -> take_ptable c s = Ret tt s' ->
  moves c false true (cproc (cpuat c (lks s))) (lks s) (lks s') /\ procs s' = procs s /\ frame s s'.
Proof.
  intros [Hc Hf] E. unfold take_ptable in E. kinv. split; [by apply take_moves|]. by split.
Qed.

Lemma drop_eff c (s s' : sys R) :
  inside c s -> drop_ptable c s = Ret tt s' ->
  moves c true false (cproc (cpuat c (lks s))) (lks s) (lks s') /\ procs s' = procs s /\ frame s s'.
Proof.
  intros (Hc&Hf&Hl) E. unfold drop_ptable in E. kinv. split; [by apply drop_moves|]. by split.
Qed.

Lemma lk_run {A B} (m : kern locking A) (k : A -> kern (sys R) B) s a l :
  m (lks s) = Ret a l -> (lk m ≫= k) s = k a (with_lks l s).
Proof. intros E. apply bind_Ret. by apply zoom_Ret. Qed.

Lemma with_lks_self (s : sys R) : with_lks (lks s) s = s.
Proof. by destruct s. Qed.

Lemma mycpu_off c l : eflags_IF (cpuat c l) = false -> mycpu c l = Ret (cpuat c l) l.
Proof. intros H. unfold mycpu, readeflags. by rewrite bind_gets, H. Qed.

(** [sched] inside the critical section only checks that the process is no
    longer running. *)
Lemma sched_out_run c p (s : sys R) :
  inside c s ->
  sched_out c p s =
    if decide (state (procs s !!! p) = RUNNING) then Panic "sched running"
    else
      let x := cpuat c (lks s) in
      (sv switchkvm ;; mret (intena x)) (with_lks (with_cpu c (Cpu (ncli x) (intena x) (eflags_IF x) None) (lks s)) s).
Proof.
  intros (Hc&[Hn Hif]&Hl). unfold sched_out.
  erewrite lk_run by (apply holding_run; [done..|lia]). rewrite Hl, with_lks_self. cbn [locked lk_cpu].
  rewrite bool_decide_eq_true_2 by done. cbn [andb negb].
  erewrite lk_run by by apply mycpu_off. rewrite with_lks_self, Hn. cbn [negb Z.eqb Pos.eqb].
  unfold getp. rewrite bind_gets. destruct (decide _); [done|].
  erewrite lk_run by reflexivity. rewrite with_lks_self, Hif.
  erewrite lk_run; [|by apply run_set_cpu]. cbv beta. by rewrite Hn, Hif.
Qed.

Lemma sched_out_eff c p (s s' : sys R) ie :
  inside c s -> sched_out c p s = Ret ie s' ->
  moves c true true None (lks s) (lks s') /\ procs s' = procs s /\ frame s s' /\
  state (procs s !!! p) <> RUNNING.
Proof.
  intros Hin E. rewrite sched_out_run in E by done. destruct (decide _) as [|Hst]; [done|].
  cbv zeta in E. kinv. destruct Hin as (Hc&Hf&Hl). split; [|by repeat split].
  by apply (set_moves c (fun x => Cpu (ncli x) (intena x) (eflags_IF x) None)).
Qed.

Lemma sched_in_run c ie (s : sys R) :
  inside c s -> sched_in c ie s =
    let x := cpuat c (lks s) in Ret tt (with_lks (with_cpu c (Cpu (ncli x) ie (eflags_IF x) (cproc x)) (lks s)) s).
Proof.
  intros (Hc&[Hn Hif]&Hl). unfold sched_in. erewrite lk_run by by apply mycpu_off. rewrite with_lks_self.
  apply zoom_Ret. by apply run_set_cpu.
Qed.

Lemma sched_in_eff c ie (s s' : sys R) :
  inside c s -> sched_in c ie s = Ret tt s' ->
  moves c true true (cproc (cpuat c (lks s))) (lks s) (lks s') /\ procs s' = procs s /\ frame s s'.
Proof.
  intros Hin E. rewrite sched_in_run in E by done. injection E as <-. destruct Hin as (Hc&Hf&Hl). split; [|by split].
  by apply (set_moves c (fun x => Cpu (ncli x) ie (eflags_IF x) (cproc x))).
Qed.

Lemma moves_pre c b pr l y l' :
  moves c false b pr (with_cpu c y l) l' -> moves c false b pr l l'.
Proof.
  intros [(z&Ez&Hz) Hl Ho Hf]. split; [|done|done|done]. exists z. split; [|done].
  rewrite Ez. cbn. by rewrite list_insert_insert_eq.
Qed.

(** *** The scheduler *)

Lemma find_state_spec sst t : forall i j,
  find_state sst t i = Some j -> (i <= j < i + length t)%nat /\ exists p, t !! (j - i)%nat = Some p /\ state p = sst.
Proof.
  induction t as [|p t IH]; intros i j E; cbn in E; [done|]. destruct (decide (state p = sst)) as [Es|].
  - injection E as <-. cbn. split; [lia|]. exists p. by rewrite Nat.sub_diag.
  - apply IH in E as (Hj&q&Eq&Es). cbn. split; [lia|]. exists q.
    replace (j - i)%nat with (S (j - S i)) by lia. done.
Qed.

Lemma scheduler_enter_eff c (s s' : sys R) :
  outside c s -> scheduler_enter c s = Ret tt s' ->
  moves c false true (cproc (cpuat c (lks s))) (lks s) (lks s') /\ procs s' = procs s /\ frame s s'.
Proof.
  intros [Hc Hf] E. unfold scheduler_enter, sti in E. erewrite lk_run in E; [|by apply run_set_cpu].
  cbv beta in E. apply take_eff in E as (Hm&Hp&Hfr).
  - cbn [with_lks lks] in Hm. rewrite cpuat_with in Hm by done. split; [|done]. by eapply moves_pre.
  - unfold outside. cbn [with_lks lks]. rewrite cpuat_with by done. by rewrite length_with.
Qed.

Lemma scheduler_scan_eff c i (s s' : sys R) r :
  inside c s -> scheduler_scan c i s = Ret r s' -> frame s s' /\
  match r with
  | None => moves c true false (cproc (cpuat c (lks s))) (lks s) (lks s') /\ procs s' = procs s
  | Some j =>
      moves c true true (Some j) (lks s) (lks s') /\ (j < length (procs s))%nat /\
      state (procs s !!! j) = RUNNABLE /\ procs s' = alter (set_state RUNNING) j (procs s)
  end.
Proof.
  intros Hin E. unfold scheduler_scan in E. rewrite bind_gets in E.
  destruct (find_state RUNNABLE (drop i (procs s)) i) as [j|] eqn:Ej.
  - apply find_state_spec in Ej as (Hj&p&Ep&Es). rewrite lookup_drop in Ep.
    replace (i + (j - i))%nat with j in Ep by lia.
    erewrite lk_run in E; [|apply run_set_cpu; apply Hin]. cbv beta in E. kinv.
    destruct Hin as (Hc&Hf&Hl). split; [by split|].
    split; [by apply (set_moves c (fun x => Cpu (ncli x) (intena x) (eflags_IF x) (Some j)))|].
    split; [by eapply lookup_lt_Some|]. split; [|done]. by rewrite (list_lookup_total_correct _ _ _ Ep).
  - kinv. destruct (drop_eff _ _ _ Hin R0) as (Hm&Hp&Hfr). done.
Qed.

Lemma forkret_eff c (s s' : sys R) :
  inside c s -> forkret c s = Ret tt s' ->
  moves c true false (cproc (cpuat c (lks s))) (lks s) (lks s') /\ procs s' = procs s /\ frame s s'.
Proof.
  intros Hin E. unfold forkret in E. apply bind_inv in E as ([]&t&E1&E). apply drop_eff in E1 as (Hm&Hp&Hfr); [|done].
  rewrite bind_gets in E. destruct (first t).
  - unfold set_first in E. kinv. done.
  - kinv. done.
Qed.

(** *** yield and sleep *)

Lemma yield_out_eff c p (s s' : sys R) ie :
  outside c s -> yield_out c p s = Ret ie s' ->
  moves c false true None (lks s) (lks s') /\ procs s' = alter (set_state RUNNABLE) p (procs s) /\ frame s s'.
Proof.
  intros Ho E. unfold yield_out in E. apply bind_inv in E as ([]&t&E1&E). apply take_eff in E1 as (Hm&Hp&Hfr); [|done].
  apply bind_inv in E as ([]&t2&E2&E). kinv. apply sched_out_eff in E as (Hm2&Hp2&Hfr2&_).
  - cbn [lks procs] in *. split; [by eapply moves_trans|]. rewrite Hp2, Hp. split; [done|].
    unfold frame in *. cbn [nextpid initproc] in *. naive_solver congruence.
  - eapply moves_inside; [apply Ho|]. done.
Qed.

Lemma yield_in_eff c ie (s s' : sys R) :
  inside c s -> yield_in c ie s = Ret tt s' ->
  moves c true false (cproc (cpuat c (lks s))) (lks s) (lks s') /\ procs s' = procs s /\ frame s s'.
Proof.
  intros Hin E. unfold yield_in in E. apply bind_inv in E as ([]&t&E1&E). apply sched_in_eff in E1 as (Hm&Hp&Hfr); [|done].
  apply drop_eff in E as (Hm2&Hp2&Hfr2).
  - destruct (moves_at _ _ _ _ _ _ (proj1 Hin) Hm) as (_&E&_). rewrite E in Hm2.
    split; [by eapply moves_trans|]. rewrite Hp2, Hp. split; [done|]. unfold frame in *. naive_solver congruence.
  - eapply moves_inside; [apply Hin|]. done.
Qed.

(** Taking [l], then the table lock, and releasing [l]. *)
Lemma switch_locks c l x y z w :
  l <> ptable_lock -> (c < length (cpus x))%nat -> cpu_flag false (cpuat c x) -> locks x l = Spin false None ->
  acquire c l x = Ret tt y -> acquire c ptable_lock y = Ret tt z -> release c l z = Ret tt w ->
  moves c false true (cproc (cpuat c x)) x w.
Proof.
  intros Hl Hc Hf Hfree E1 E2 E3. cbn in Hf.
  destruct (acquire_eff c l x y Hc ltac:(lia) E1) as (_&Ey&Ly).
  assert (Hcy : (c < length (cpus y))%nat) by by rewrite Ey, length_with.
  assert (Ay : cpuat c y = pushed (cpuat c x)) by (unfold cpuat at 1; rewrite Ey; by apply cpuat_with).
  destruct (acquire_eff c ptable_lock y z Hcy) as (Lf&Ez&Lz); [rewrite Ay; cbn; lia|done|].
  assert (Hcz : (c < length (cpus z))%nat) by by rewrite Ez, length_with.
  assert (Az : cpuat c z = pushed (pushed (cpuat c x))) by (unfold cpuat at 1; rewrite Ez, <- Ay; by apply cpuat_with).
  destruct (release_eff c l z w Hcz) as (Ew&Lw); [by rewrite Az|rewrite Az; cbn; lia|done|].
  assert (Hpl : (ptable_lock =? l) = false) by (apply Z.eqb_neq; done).
  split.
  - exists (popped (cpuat c z)). split; [|split].
    + rewrite Ew. cbn. rewrite Ez. cbn. rewrite Ey. cbn. by rewrite !list_insert_insert_eq.
    + by rewrite Az.
    + rewrite Az. cbn. rewrite Hf. done.
  - rewrite Lw, Hpl, Lz. done.
  - intros k Hk. rewrite Lw, Lz, Ly, (proj2 (Z.eqb_neq _ _) Hk).
    destruct (Z.eqb_spec k l) as [->|]; [done|done].
  - intros _. by rewrite Ly, Hpl in Lf.
Qed.

Lemma sleep_out_eff c p ch l (s s' : sys R) ie :
  outside c s -> l <> ptable_lock -> locks (lks s) l = Spin false None ->
  (lk (acquire c l) ;; sleep_out c p ch l) s = Ret ie s' ->
  moves c false true None (lks s) (lks s') /\
  procs s' = alter (set_state SLEEPING) p (alter (set_chan ch) p (procs s)) /\ frame s s'.
Proof.
  intros [Hc Hf] Hl Hfree E. unfold sleep_out in E. rewrite (proj2 (Z.eqb_neq _ _) Hl) in E.
  unfold take_ptable in E. apply bind_inv in E as ([]&t1&E1&E). apply bind_inv in E as ([]&t3&E2&E).
  apply bind_inv in E2 as ([]&t2&E2&E3). apply bind_inv in E as ([]&t4&E4&E). apply bind_inv in E as ([]&t5&E5&E). kinv.
  pose proof (switch_locks _ _ _ _ _ _ Hl Hc Hf Hfree E1 E2 E3) as Hm.
  apply sched_out_eff in E as (Hm2&Hp2&Hfr2&_).
  - cbn [lks procs] in *. split; [by eapply moves_trans|]. by split.
  - destruct (moves_at _ _ _ _ _ _ Hc Hm) as (H1&H2&H3&H4). done.
Qed.

Lemma sleep_in_eff c p l ie (s s' : sys R) :
  inside c s -> l <> ptable_lock -> locks (lks s) l = Spin false None ->
  (sleep_in c p l ie ;; lk (release c l)) s = Ret tt s' ->
  moves c true false (cproc (cpuat c (lks s))) (lks s) (lks s') /\
  procs s' = alter (set_chan CNone) p (procs s) /\ frame s s'.
Proof.
  intros Hin Hl Hfree E. unfold sleep_in in E. rewrite (proj2 (Z.eqb_neq _ _) Hl) in E.
  apply bind_inv in E as ([]&t&E&E5). apply bind_inv in E as ([]&t1&E1&E). apply bind_inv in E as ([]&t2&E2&E).
  apply bind_inv in E as ([]&t3&E3&E4). apply sched_in_eff in E1 as (M1&P1&F1); [|done]. kinv.
  apply drop_eff in E3 as (M3&P3&F3); [|by eapply moves_inside; [apply Hin|exact M1]]. cbn [lks procs] in *.
  pose proof (moves_at _ _ _ _ _ _ (proj1 Hin) M1) as (C1&A1&_).
  pose proof (moves_at _ _ _ _ _ _ C1 M3) as (C3&A3&G3&L3). cbn in G3.
  assert (Hm : moves c true false (cproc (cpuat c (lks s))) (lks s) (lks t3)).
  { rewrite A1 in M3. by eapply moves_trans. }
  assert (Hf3 : locks (lks t3) l = Spin false None) by by rewrite (mv_other _ _ _ _ _ _ Hm).
  destruct (acquire_eff c l (lks t3) l1 C3 ltac:(lia) E4) as (_&E6&L6).
  assert (C6 : (c < length (cpus l1))%nat) by by rewrite E6, length_with.
  assert (A6 : cpuat c l1 = pushed (cpuat c (lks t3))) by (unfold cpuat at 1; rewrite E6; by apply cpuat_with).
  destruct (release_eff c l l1 l0 C6) as (E7&L7); [by rewrite A6|rewrite A6; cbn; lia|done|].
  split.
  - destruct Hm as [(y&Ey&_) _ Ho Hfr]. split; [| | |done].
    + exists (popped (pushed (cpuat c (lks t3)))). split; [|split].
      * rewrite E7. cbn. rewrite A6, E6. cbn. rewrite Ey. by rewrite !list_insert_insert_eq.
      * cbn. congruence.
      * cbn. lia.
    + rewrite L7, L6. rewrite (proj2 (Z.eqb_neq ptable_lock l)) by done. done.
    + intros k Hk. rewrite L7, L6. destruct (Z.eqb_spec k l) as [->|]; [done|]. by apply Ho.
  - rewrite P3, P1. split; [done|]. unfold frame in *. cbn [nextpid initproc] in *. naive_solver congruence.
Qed.

(** *** Short critical sections *)

Lemma section_eff {A} c (m : kern (sys R) A) (s s' : sys R) a :
  outside c s ->
  (forall t t' a, m t = Ret a t' -> lks t' = lks t /\ frame t t') ->
  (take_ptable c ;; x ← m; drop_ptable c ;; mret x) s = Ret a s' ->
  exists t t', procs t = procs s /\ frame s t /\ m t = Ret a t' /\ procs s' = procs t' /\
    moves c false false (cproc (cpuat c (lks s))) (lks s) (lks s') /\ frame s s'.
Proof.
  intros Ho Hm E. apply bind_inv in E as ([]&t&E1&E). apply take_eff in E1 as (M1&P1&F1); [|done].
  apply bind_inv in E as (a'&t'&E2&E). apply bind_inv in E as ([]&t3&E3&E). kinv.
  destruct (Hm _ _ _ E2) as [L2 F2]. rewrite <- L2 in M1.
  pose proof (moves_at _ _ _ _ _ _ (proj1 Ho) M1) as (_&A1&_).
  apply drop_eff in E3 as (M3&P3&F3); [|by eapply moves_inside; [apply Ho|exact M1]]. rewrite A1 in M3.
  exists t, t'. split; [done|]. split; [done|]. split; [done|]. split; [done|].
  split; [by eapply moves_trans|]. unfold frame in *. naive_solver congruence.
Qed.

Lemma wakeup_eff c chn (s s' : sys R) :
  outside c s -> wakeup c chn s = Ret tt s' ->
  moves c false false (cproc (cpuat c (lks s))) (lks s) (lks s') /\ procs s' = wake chn <$> procs s /\ frame s s'.
Proof.
  intros Ho E. destruct (section_eff c (wakeup1 chn) s s' tt Ho) as (t&t'&P1&F1&E1&P2&M&F2).
  - intros x x' [] Ex. unfold wakeup1 in Ex. kinv. done.
  - unfold wakeup in E. apply bind_inv in E as ([]&t&E1&E). rewrite (bind_Ret _ _ _ _ _ E1).
    apply bind_inv in E as ([]&t2&E2&E). rewrite (bind_Ret _ _ _ _ _ E2), (bind_Ret _ _ _ _ _ E). done.
  - unfold wakeup1 in E1. kinv. split; [done|]. by rewrite P2, P1.
Qed.

Lemma make_runnable_eff c i (s s' : sys R) :
  outside c s -> make_runnable c i s = Ret tt s' ->
  moves c false false (cproc (cpuat c (lks s))) (lks s) (lks s') /\
  procs s' = alter (set_state RUNNABLE) i (procs s) /\ frame s s'.
Proof.
  intros Ho E. destruct (section_eff c (setp i (set_state RUNNABLE)) s s' tt Ho) as (t&t'&P1&F1&E1&P2&M&F2).
  - intros x x' [] Ex. kinv. done.
  - unfold make_runnable in E. apply bind_inv in E as ([]&t&E1&E). rewrite (bind_Ret _ _ _ _ _ E1).
    apply bind_inv in E as ([]&t2&E2&E). rewrite (bind_Ret _ _ _ _ _ E2), (bind_Ret _ _ _ _ _ E). done.
  - kinv. split; [done|]. by rewrite P2, P1.
Qed.

Lemma kill_eff c n (s s' : sys R) v :
  outside c s -> kill c n s = Ret v s' ->
  moves c false false (cproc (cpuat c (lks s))) (lks s) (lks s') /\ frame s s' /\
  (procs s' = procs s \/ exists i, procs s' = alter kill_pcb i (procs s)).
Proof.
  intros Ho E.
  destruct (section_eff c (t ← gets procs; match find_pid n t 0 with Some i => setp i kill_pcb ;; mret 0 | None => mret (-1) end) s s' v Ho)
    as (t&t'&P1&F1&E1&P2&M&F2).
  - intros x x' a Ex. rewrite bind_gets in Ex. destruct (find_pid n (procs x) 0); kinv; done.
  - unfold kill in E. apply bind_inv in E as ([]&t&E1&E). rewrite (bind_Ret _ _ _ _ _ E1).
    rewrite !bind_gets in E. rewrite !bind_bind, bind_gets. destruct (find_pid n (procs t) 0) as [i|]; cbv beta iota in *.
    + rewrite bind_bind. apply bind_inv in E as ([]&t2&E2&E). rewrite (bind_Ret _ _ _ _ _ E2). by rewrite bind_mret.
    + by rewrite bind_mret.
  - split; [done|]. split; [done|]. rewrite bind_gets in E1. rewrite P2, <- P1.
    destruct (find_pid n (procs t) 0) as [i|]; kinv; eauto.
Qed.

Lemma allocproc_slot_eff c (s s' : sys R) r :
  outside c s -> allocproc_slot c s = Ret r s' ->
  moves c false false (cproc (cpuat c (lks s))) (lks s) (lks s') /\ initproc s' = initproc s /\
  match r with
  | None => procs s' = procs s /\ nextpid s' = nextpid s
  | Some i =>
      find_state UNUSED (procs s) 0 = Some i /\
      (i < length (procs s))%nat /\ state (procs s !!! i) = UNUSED /\
      procs s' = alter (fun p => set_pid (nextpid s) (set_state EMBRYO p)) i (procs s) /\
      nextpid s' = i32 (nextpid s + 1)
  end.
Proof.
  intros Ho E. unfold allocproc_slot in E. apply bind_inv in E as ([]&t&E1&E).
  apply take_eff in E1 as (M1&P1&F1&F1'); [|done]. rewrite bind_gets in E.
  pose proof (moves_inside _ _ _ _ _ (proj1 Ho) M1) as Hin.
  pose proof (moves_at _ _ _ _ _ _ (proj1 Ho) M1) as (_&A1&_).
  destruct (find_state UNUSED (procs t) 0) as [i|] eqn:Ei.
  - pose proof Ei as Ef. apply find_state_spec in Ei as (Hi&p&Ep&Es). rewrite Nat.sub_0_r in Ep.
    apply bind_inv in E as (n&t1&E2&E). apply bind_inv in E as ([]&t2&E3&E). apply bind_inv in E as ([]&t3&E4&E).
    apply bind_inv in E as ([]&t4&E5&E). kinv.
    apply drop_eff in E5 as (M5&P5&F5&F5'); [|done]. cbn [lks procs nextpid initproc] in *. rewrite A1 in M5.
    split; [by eapply moves_trans|]. split; [congruence|]. rewrite <- P1.
    split; [done|]. split; [lia|]. split; [by rewrite (list_lookup_total_correct _ _ _ Ep)|]. split; [by rewrite P5, F1|congruence].
  - apply bind_inv in E as ([]&t4&E5&E). kinv.
    apply drop_eff in E5 as (M5&P5&F5&F5'); [|done]. rewrite A1 in M5.
    split; [by eapply moves_trans|]. split; [congruence|]. split; congruence.
Qed.

(** *** fork *)

Definition with_res (r : R) (s : sys R) : sys R := Sys (lks s) (procs s) (nextpid s) (initproc s) (first s) r.

Lemma with_res_self (s : sys R) : s = with_res (res s) s.
Proof. by destruct s. Qed.

Lemma dup_files_eff fs : forall to (s s' : sys R) a, dup_files fs to s = Ret a s' -> exists r, s' = with_res r s.
Proof.
  induction fs as [|f fs IH]; intros to s s' a E; cbn [dup_files] in E.
  - destruct to; kinv; eexists; apply with_res_self.
  - destruct to as [|t to]; [kinv; eexists; apply with_res_self|]. destruct (f =? 0); kinv;
      match goal with H : dup_files _ _ _ = _ |- _ => apply IH in H as (r'&->) end; by eexists.
Qed.

(** What [fork] does to the new slot between its critical sections. *)
Definition fork_body (p np : nat) : kern (sys R) bool :=
  b ← allocproc_stack np;
  if b : bool then fork_setup p np else mret false.

Definition fills (p : nat) (b : bool) (F : pcb -> pcb) : Prop :=
  forall q, chan (F q) = chan q /\ pid (F q) = pid q /\ killed (F q) = killed q /\
    if b then state (F q) = state q /\ parent (F q) = Some p
    else state (F q) = UNUSED /\ (parent (F q) = parent q \/ parent (F q) = Some p).

Lemma fork_body_eff p np (s s' : sys R) b :
  fork_body p np s = Ret b s' ->
  lks s' = lks s /\ frame s s' /\ exists F, procs s' = alter F np (procs s) /\ fills p b F.
Proof.
  intros E. unfold fork_body, allocproc_stack in E. kinv.
  destruct (_ =? 0); kinv.
  { split; [done|]. split; [done|]. eexists. rewrite !list_alter_alter_eq. split; [reflexivity|]. intros q. cbn. split_and!; auto. }
  unfold fork_setup in *. kinv. destruct (_ =? 0) in *.
  { unfold fork_undo in *. kinv. split; [done|]. split; [done|]. eexists. rewrite !list_alter_alter_eq.
    split; [reflexivity|]. intros q. cbn. split_and!; auto. }
  kinv. destruct (_ <? 0) in *.
  { unfold fork_undo in *. kinv. split; [done|]. split; [done|]. eexists. rewrite !list_alter_alter_eq.
    split; [reflexivity|]. intros q. cbn. split_and!; auto. }
  kinv. match goal with H : dup_files _ _ _ = _ |- _ => apply dup_files_eff in H as (r'&->) end.
  kinv. cbn [with_res lks procs nextpid initproc]. split; [done|]. split; [done|]. eexists. rewrite !list_alter_alter_eq.
  split; [reflexivity|]. intros q. cbn. split_and!; auto.
Qed.

(** *** exit *)

Lemma wakeup1_run chn (s : sys R) :
  wakeup1 chn s = Ret tt (Sys (lks s) (wake chn <$> procs s) (nextpid s) (initproc s) (first s) (res s)).
Proof. done. Qed.

(** A slot after its parent is replaced and some channels are woken. *)
Record passed (p init : nat) (js : list nat) (t t' : list pcb) : Prop := {
  pa_len : length t' = length t;
  pa_st : forall q, state (t' !!! q) = state (t !!! q) \/ (state (t !!! q) = SLEEPING /\ state (t' !!! q) = RUNNABLE);
  pa_par : forall q, parent (t' !!! q) =
    if decide (q ∈ js /\ parent (t !!! q) = Some p) then Some init else parent (t !!! q);
  pa_chan : forall q, chan (t' !!! q) = chan (t !!! q);
  pa_pid : forall q, pid (t' !!! q) = pid (t !!! q);
  pa_wake : forall q, q ∈ js -> parent (t !!! q) = Some p -> state (t !!! q) = ZOMBIE ->
    state (t !!! init) = SLEEPING -> chan (t !!! init) = CProc init -> state (t' !!! init) = RUNNABLE;
}.

Lemma wake_cases chn q : state (wake chn q) = state q \/ (state q = SLEEPING /\ state (wake chn q) = RUNNABLE).
Proof. unfold wake. destruct (decide _) as [[-> _]|]; [by right|by left]. Qed.

Lemma wake_keeps chn q : parent (wake chn q) = parent q /\ chan (wake chn q) = chan q /\ pid (wake chn q) = pid q.
Proof. unfold wake. by destruct (decide _). Qed.

Lemma fmap_total chn (t : list pcb) q : (wake chn <$> t) !!! q = wake chn (t !!! q).
Proof.
  rewrite !list_lookup_total_alt, list_lookup_fmap. by destruct (t !! q).
Qed.

Lemma alter_total (f : pcb -> pcb) i (t : list pcb) q :
  (i < length t)%nat -> alter f i t !!! q = if decide (q = i) then f (t !!! i) else t !!! q.
Proof.
  intros Hi. rewrite !list_lookup_total_alt. destruct (decide (q = i)) as [->|Hne].
  - rewrite list_lookup_alter_eq. by destruct (lookup_lt_is_Some_2 _ _ Hi) as [x ->].
  - by rewrite list_lookup_alter_ne.
Qed.

Lemma passed_nil p init t : passed p init [] t t.
Proof.
  split; [done| | |done|done|].
  - by left.
  - intros q. rewrite decide_False; [done|]. intros [?%elem_of_nil _]. done.
  - intros q ?%elem_of_nil. done.
Qed.

(** One more slot: its parent is replaced; init is woken for a zombie. *)
Lemma passed_cons p init i js t t1 t' :
  (i < length t)%nat -> i ∉ js -> p <> init ->
  t1 = (if decide (parent (t !!! i) = Some p) then
          let u := alter (set_parent (Some init)) i t in
          if decide (state (t !!! i) = ZOMBIE) then wake (CProc init) <$> u else u
        else t) ->
  passed p init js t1 t' -> passed p init (i :: js) t t'.
Proof.
  intros Hi Hnin Hpi Et [Hlen Hst Hpar Hch Hpid Hw].
  assert (H1 : length t1 = length t /\ (forall q, state (t1 !!! q) = state (t !!! q) \/ (state (t !!! q) = SLEEPING /\ state (t1 !!! q) = RUNNABLE)) /\
    (forall q, parent (t1 !!! q) = if decide (q = i /\ parent (t !!! q) = Some p) then Some init else parent (t !!! q)) /\
    (forall q, chan (t1 !!! q) = chan (t !!! q)) /\ (forall q, pid (t1 !!! q) = pid (t !!! q)) /\
    (parent (t !!! i) = Some p -> state (t !!! i) = ZOMBIE -> state (t !!! init) = SLEEPING -> chan (t !!! init) = CProc init ->
      state (t1 !!! init) = RUNNABLE)).
  { rewrite Et. clear Et Hlen Hst Hpar Hch Hpid Hw. cbv zeta. destruct (decide (parent (t !!! i) = Some p)) as [Ep|Ep].
    - assert (Hu : forall q, state (alter (set_parent (Some init)) i t !!! q) = state (t !!! q) /\
        chan (alter (set_parent (Some init)) i t !!! q) = chan (t !!! q) /\ pid (alter (set_parent (Some init)) i t !!! q) = pid (t !!! q) /\
        parent (alter (set_parent (Some init)) i t !!! q) = if decide (q = i /\ parent (t !!! q) = Some p) then Some init else parent (t !!! q)).
      { intros q. rewrite alter_total by done. destruct (decide (q = i)) as [->|Hq]; cbn.
        - by rewrite decide_True.
        - rewrite decide_False by naive_solver. done. }
      destruct (decide (state (t !!! i) = ZOMBIE)) as [Ez|Ez].
      + pose proof (fun q => wake_keeps (CProc init) (alter (set_parent (Some init)) i t !!! q)) as Hk.
        split; [by rewrite length_fmap, length_alter|].
        split; [intros q; rewrite fmap_total; destruct (Hu q) as (<-&_); apply wake_cases|].
        split; [intros q; rewrite fmap_total; destruct (Hk q) as (->&_); apply Hu|].
        split; [intros q; rewrite fmap_total; destruct (Hk q) as (_&->&_); apply Hu|].
        split; [intros q; rewrite fmap_total; destruct (Hk q) as (_&_&->); apply Hu|].
        intros _ _ Es Ec. rewrite fmap_total. unfold wake. destruct (Hu init) as (E1&E2&_).
        rewrite decide_True; [done|]. by rewrite E1, E2.
      + split; [by rewrite length_alter|]. split; [intros q; left; apply Hu|].
        split; [intros q; apply Hu|]. split; [intros q; apply Hu|]. split; [intros q; apply Hu|done].
    - split; [done|]. split_and!; try done; [by left|]. intros q. destruct (decide (q = i /\ _)) as [[-> E]|]; [congruence|done]. }
  destruct H1 as (L1&S1&P1&C1&I1&W1). split.
  - congruence.
  - intros q. destruct (Hst q) as [->|[E E']]; [apply S1|]. right. destruct (S1 q) as [F|[F F']]; split; congruence.
  - intros q. rewrite Hpar, P1. destruct (decide (q = i)) as [->|Hq].
    + rewrite (decide_False (P := i ∈ js /\ _)) by naive_solver.
      apply decide_ext. rewrite elem_of_cons. naive_solver.
    + rewrite (decide_False (P := q = i /\ _)) by naive_solver. apply decide_ext. rewrite elem_of_cons. naive_solver.
  - intros q. by rewrite Hch, C1.
  - intros q. by rewrite Hpid, I1.
  - intros q Hq Ep Ez Es Ec. destruct (decide (q = i)) as [->|Hne].
    + specialize (W1 Ep Ez Es Ec). destruct (Hst init) as [->|[_ ->]]; done.
    + destruct (S1 init) as [F|[_ F]]; [|destruct (Hst init) as [->|[_ ->]]; done].
      apply (Hw q); [by apply elem_of_cons in Hq as [|]| | | |].
      * rewrite P1, decide_False; [done|naive_solver].
      * destruct (S1 q) as [->|[G _]]; [done|congruence].
      * congruence.
      * by rewrite C1.
Qed.

Lemma sys_eta (s : sys R) : s = Sys (lks s) (procs s) (nextpid s) (initproc s) (first s) (res s).
Proof. by destruct s. Qed.

Lemma reparent_eff p js : forall (s s' : sys R),
  Forall (fun i => (i < length (procs s))%nat) js -> NoDup js -> p <> initproc s ->
  reparent p js s = Ret tt s' ->
  exists t, s' = Sys (lks s) t (nextpid s) (initproc s) (first s) (res s) /\ passed p (initproc s) js (procs s) t.
Proof.
  induction js as [|i js IH]; intros s s' Hjs Hnd Hpi E; cbn [reparent] in E.
  - kinv. eexists. split; [apply sys_eta|]. apply passed_nil.
  - apply Forall_cons in Hjs as [Hi Hjs]. apply NoDup_cons in Hnd as [Hnin Hnd].
    unfold getp in E. rewrite !bind_gets in E. apply bind_inv in E as ([]&t&E1&E).
    assert (Ht : t = Sys (lks s) (if decide (parent (procs s !!! i) = Some p) then
          let u := alter (set_parent (Some (initproc s))) i (procs s) in
          if decide (state (procs s !!! i) = ZOMBIE) then wake (CProc (initproc s)) <$> u else u
        else procs s) (nextpid s) (initproc s) (first s) (res s)).
    { destruct (decide (parent (procs s !!! i) = Some p)); [|kinv; apply sys_eta].
      destruct (decide (state (procs s !!! i) = ZOMBIE)); unfold wakeup1 in *; kinv; done. }
    apply IH in E as (t'&->&Hp); [| |done|by rewrite Ht].
    + subst t. cbn [procs lks nextpid initproc first res] in *. eexists. split; [reflexivity|].
      by eapply passed_cons.
    + eapply Forall_impl; [exact Hjs|]. cbv beta. intros j Hj. subst t. cbn [procs].
      destruct (decide _); [|done]. destruct (decide _); rewrite ?length_fmap, ?length_alter; done.
Qed.

(** The table after [exit] of [p], seen from each slot. *)
Lemma exit_locked_eff c p (s s' : sys R) ie :
  outside c s -> length (procs s) = NPROC -> (p < NPROC)%nat -> p <> initproc s ->
  exit_locked c p s = Ret ie s' ->
  moves c false true None (lks s) (lks s') /\ frame s s' /\
  exists t, passed p (initproc s) (seq 0 NPROC) (wake (parent_chan (parent (procs s !!! p))) <$> procs s) t /\
    procs s' = alter (set_state ZOMBIE) p t.
Proof.
  intros Ho Hlen Hp Hpi E. unfold exit_locked in E.
  apply bind_inv in E as ([]&t&E1&E). apply take_eff in E1 as (M1&P1&F1&F1'); [|done].
  unfold getp in E. rewrite bind_gets in E. rewrite (bind_Ret _ _ _ _ _ (wakeup1_run _ _)) in E.
  apply bind_inv in E as ([]&t2&E2&E). apply reparent_eff in E2 as (u&->&Hu);
    [| |apply NoDup_seq|cbn; congruence].
  2: { apply Forall_forall. intros i Hi. apply elem_of_seq in Hi. cbn. rewrite length_fmap, P1, Hlen. lia. }
  apply bind_inv in E as ([]&t3&E3&E). kinv.
  apply sched_out_eff in E as (M4&P4&[F4 F4']&_); [|by eapply moves_inside; [apply Ho|exact M1]].
  cbn [lks procs nextpid initproc] in *. split; [by eapply moves_trans|]. split; [split; congruence|].
  exists u. rewrite P1, F1' in Hu. by split.
Qed.

(** *** wait *)

Definition reaped (q : pcb) : pcb :=
  set_state UNUSED (set_killed false (set_name (<[O := 0]> (name q)) (set_parent None (set_pid 0 (set_kstack 0 q))))).

Lemma reap_eff c i (s s' : sys R) n :
  inside c s -> (i < length (procs s))%nat -> reap c i s = Ret n s' ->
  moves c true false (cproc (cpuat c (lks s))) (lks s) (lks s') /\ frame s s' /\
  n = pid (procs s !!! i) /\ procs s' = alter reaped i (procs s).
Proof.
  intros Hin Hi E. unfold reap in E.
  apply bind_inv in E as (q&t1&E1&E). apply bind_inv in E as ([]&t2&E2&E). apply bind_inv in E as ([]&t3&E3&E).
  apply bind_inv in E as ([]&t4&E4&E). apply bind_inv in E as ([]&t5&E5&E). apply bind_inv in E as ([]&t6&E6&E). kinv.
  apply drop_eff in E6 as (M&P&F); [|done]. cbn [lks procs nextpid initproc] in *. split; [done|]. split; [done|].
  split; [done|]. rewrite P, list_alter_alter_eq. done.
Qed.

(** The children of [p] among the slots [js]. *)
Definition child_in (t : list pcb) (p : nat) (js : list nat) (i : nat) : Prop := i ∈ js /\ parent (t !!! i) = Some p.

Definition no_zombie (t : list pcb) (p : nat) (js : list nat) : Prop :=
  forall i, child_in t p js i -> state (t !!! i) <> ZOMBIE.

(** What a scan that has or has not seen a child before does. *)
Definition wait_result (c : nat) (p : nat) (js : list nat) (hk : bool) (s : sys R) (r : waited) (s' : sys R) : Prop :=
  match r with
  | Asleep _ =>
      moves c true true None (lks s) (lks s') /\ killed (procs s !!! p) = false /\
      (hk = true \/ exists i, child_in (procs s) p js i) /\ no_zombie (procs s) p js /\
      procs s' = alter (set_state SLEEPING) p (alter (set_chan (CProc p)) p (procs s))
  | Returned v =>
      moves c true false (cproc (cpuat c (lks s))) (lks s) (lks s') /\
      ((v = -1 /\ procs s' = procs s /\ no_zombie (procs s) p js /\
        (killed (procs s !!! p) = true \/ (hk = false /\ forall i, ~ child_in (procs s) p js i))) \/
       (exists js1 i js2, js = js1 ++ i :: js2 /\ no_zombie (procs s) p js1 /\
          parent (procs s !!! i) = Some p /\ state (procs s !!! i) = ZOMBIE /\
          v = pid (procs s !!! i) /\ procs s' = alter reaped i (procs s)))
  end.

(** A slot that is not a zombie child does not stop the scan. *)
Lemma wait_more c p i js hk hk' (s s' : sys R) r :
  (parent (procs s !!! i) = Some p -> state (procs s !!! i) <> ZOMBIE) ->
  (hk' = true <-> hk = true \/ parent (procs s !!! i) = Some p) ->
  wait_result c p js hk' s r s' -> wait_result c p (i :: js) hk s r s'.
Proof.
  intros Hz Hk. assert (Hno : forall js', no_zombie (procs s) p js' -> no_zombie (procs s) p (i :: js')).
  { intros js' H j [Hj Hp]. apply elem_of_cons in Hj as [->|Hj]; [by apply Hz|]. apply H. by split. }
  destruct r as [v|ie]; cbn.
  - intros (M&W). split; [done|]. destruct W as [(Ev&P&Hn&Hc)|(js1&j&js2&->&Hn&Hp&Hs&Ev&P)]; [left|right].
    + split; [done|]. split; [done|]. split; [by apply Hno|]. destruct Hc as [Hc|[Hh Hc]]; [by left|right].
      assert (Hni : hk = false /\ parent (procs s !!! i) <> Some p).
      { split; [apply not_true_iff_false|]; intros E; assert (hk' = true) by (apply Hk; auto); congruence. }
      split; [apply Hni|]. intros j [Hj Hpj]. apply elem_of_cons in Hj as [->|Hj]; [by apply Hni|]. by apply (Hc j).
    + exists (i :: js1), j, js2. split; [done|]. split; [by apply Hno|]. done.
  - intros (M&Kl&Hh&Hn&P). split; [done|]. split; [done|]. split; [|split; [by apply Hno|done]].
    destruct Hh as [Hh|(j&Hj&Hpj)]; [apply Hk in Hh as [Hh|Hh]; [by left|]|]; right.
    + exists i. split; [apply elem_of_cons; by left|done].
    + exists j. split; [apply elem_of_cons; by right|done].
Qed.

Lemma wait_scan_eff c p js : forall hk (s s' : sys R) r,
  inside c s -> Forall (fun i => (i < length (procs s))%nat) js ->
  wait_scan c p js hk s = Ret r s' -> frame s s' /\ wait_result c p js hk s r s'.
Proof.
  induction js as [|i js IH]; intros hk s s' r Hin Hjs E; cbn [wait_scan] in E; unfold getp in E; rewrite bind_gets in E.
  - assert (Hno : no_zombie (procs s) p []) by (intros i [?%elem_of_nil _]; done).
    destruct (negb hk || killed (procs s !!! p)) eqn:Ek.
    + apply bind_inv in E as ([]&t&E1&E). kinv. apply drop_eff in E1 as (M&P&F); [|done]. split; [done|].
      split; [done|]. left. split; [done|]. split; [done|]. split; [done|]. destruct (killed _); [by left|right].
      rewrite orb_false_r in Ek. apply negb_true_iff in Ek. split; [done|]. intros i [?%elem_of_nil _]. done.
    + apply orb_false_iff in Ek as [Eh Ek]. apply negb_false_iff in Eh. unfold sleep_out in E.
      rewrite Z.eqb_refl in E. apply bind_inv in E as (ie&t&E1&E). rewrite bind_mret in E1.
      apply bind_inv in E1 as ([]&t1&E1&E2). apply bind_inv in E2 as ([]&t2&E2&E3). kinv.
      apply sched_out_eff in E3 as (M&P&F&_); [|done]. cbn [lks procs nextpid initproc] in *.
      split; [done|]. split; [done|]. split; [done|]. split; [by left|]. by split.
  - apply Forall_cons in Hjs as [Hi Hjs]. destruct (decide (parent (procs s !!! i) = Some p)) as [Ep|Ep].
    + destruct (decide (state (procs s !!! i) = ZOMBIE)) as [Ez|Ez].
      * apply bind_inv in E as (n&t&E1&E). kinv. apply reap_eff in E1 as (M&F&Ev&P); [|done|done].
        split; [done|]. split; [done|]. right. exists [], i, js. split; [done|].
        split; [intros j [?%elem_of_nil _]; done|]. done.
      * apply IH in E as (F&W); [|done|done]. split; [done|]. apply (wait_more c p i js hk true); [done| |done].
        split; auto.
    + apply IH in E as (F&W); [|done|done]. split; [done|]. apply (wait_more c p i js hk hk); [done| |done].
      split; [auto|by intros [?|?]].
Qed.

End effects.
