(* ===== verification/ProcSafe.v ===== *)
(** Every interleaving of the processors: the step relation of the kernel's
    process switching and the theorems about the states it reaches. *)

From S2P Require Import Prelude CString Spinlock Proc ProcSteps ProcCorrect.

Section world.
Context {R : Type} {SV : Services R} (n : nat).

(** The kernel, what each of [n] processors and each process is doing, and how
    many processes were ever created. *)
Record kworld := KW { ks : sys R; md : nat -> mode; pcs : nat -> pc; born : Z }.

(** An update of the fields of a process that the scheduler does not look at. *)
Definition private (f : pcb -> pcb) : Prop :=
  forall q, state (f q) = state q /\ pid (f q) = pid q /\ parent (f q) = parent q /\ chan (f q) = chan q.

Inductive kstep : kworld -> kworld -> Prop :=
(* the scheduler: top of the loop, a process to run, end of the round *)
| k_enter c s m k b s' :
    (c < n)%nat -> m c = Idle -> scheduler_enter c s = Ret tt s' ->
    kstep (KW s m k b) (KW s' (upd m c (Scan 0)) k b)
| k_pick c i j s m k b s' :
    (c < n)%nat -> m c = Scan i -> scheduler_scan c i s = Ret (Some j) s' ->
    kstep (KW s m k b) (KW s' (upd m c (Resume j)) k b)
| k_round c i s m k b s' :
    (c < n)%nat -> m c = Scan i -> scheduler_scan c i s = Ret None s' ->
    kstep (KW s m k b) (KW s' (upd m c Idle) k b)
(* a process that was switched to continues *)
| k_forkret c p s m k b s' :
    (c < n)%nat -> m c = Resume p -> k p = Fresh -> forkret c s = Ret tt s' ->
    kstep (KW s m k b) (KW s' (upd m c (Run p)) (upd k p Kernel) b)
| k_yield_in c p ie s m k b s' :
    (c < n)%nat -> m c = Resume p -> k p = InYield ie -> yield_in c ie s = Ret tt s' ->
    kstep (KW s m k b) (KW s' (upd m c (Run p)) (upd k p Kernel) b)
| k_sleep_in c p l ie s m k b s' :
    (c < n)%nat -> m c = Resume p -> k p = InSleep l ie ->
    (sleep_in c p l ie ;; lk (release c l)) s = Ret tt s' ->
    kstep (KW s m k b) (KW s' (upd m c (Run p)) (upd k p Kernel) b)
| k_wait_again c p ie v s m k b s' :
    (c < n)%nat -> m c = Resume p -> k p = InWait ie -> wait_again c p ie s = Ret (Returned v) s' ->
    kstep (KW s m k b) (KW s' (upd m c (Run p)) (upd k p Kernel) b)
| k_wait_on c p ie ie' s m k b s' :
    (c < n)%nat -> m c = Resume p -> k p = InWait ie -> wait_again c p ie s = Ret (Asleep ie') s' ->
    kstep (KW s m k b) (KW s' (upd m c (Scan (S p))) (upd k p (InWait ie')) b)
(* a running process gives up the processor *)
| k_yield c p ie s m k b s' :
    (c < n)%nat -> m c = Run p -> k p = Kernel -> yield_out c p s = Ret ie s' ->
    kstep (KW s m k b) (KW s' (upd m c (Scan (S p))) (upd k p (InYield ie)) b)
| k_sleep c p a l ie s m k b s' :
    (c < n)%nat -> m c = Run p -> k p = Kernel -> l <> ptable_lock ->
    (lk (acquire c l) ;; sleep_out c p (CAddr a) l) s = Ret ie s' ->
    kstep (KW s m k b) (KW s' (upd m c (Scan (S p))) (upd k p (InSleep l ie)) b)
| k_wait_sleep c p ie s m k b s' :
    (c < n)%nat -> m c = Run p -> k p = Kernel -> wait c p s = Ret (Asleep ie) s' ->
    kstep (KW s m k b) (KW s' (upd m c (Scan (S p))) (upd k p (InWait ie)) b)
| k_exit c p ie s m k b s' :
    (c < n)%nat -> m c = Run p -> k p = Exiting -> exit_locked c p s = Ret ie s' ->
    kstep (KW s m k b) (KW s' (upd m c (Scan (S p))) (upd k p Dead) b)
(* a running process calls into proc.c and returns *)
| k_wait c p v s m k b s' :
    (c < n)%nat -> m c = Run p -> k p = Kernel -> wait c p s = Ret (Returned v) s' ->
    kstep (KW s m k b) (KW s' (upd m c (Run p)) (upd k p Kernel) b)
| k_kill c p v pid s m k b s' :
    (c < n)%nat -> m c = Run p -> kill c pid s = Ret v s' ->
    kstep (KW s m k b) (KW s' (upd m c (Run p)) k b)
| k_wakeup c a s m k b s' :
    (c < n)%nat -> locked_mode (m c) = false -> wakeup c (CAddr a) s = Ret tt s' ->
    kstep (KW s m k b) (KW s' (upd m c (m c)) k b)
| k_fork c p np s m k b s' :
    (c < n)%nat -> m c = Run p -> k p = Kernel -> allocproc_slot c s = Ret (Some np) s' ->
    kstep (KW s m k b) (KW s' (upd m c (Run p)) (upd k p (Forking np)) (b + 1))
| k_fork_full c p s m k b s' :
    (c < n)%nat -> m c = Run p -> k p = Kernel -> allocproc_slot c s = Ret None s' ->
    kstep (KW s m k b) (KW s' (upd m c (Run p)) k b)
| k_fork_body c p np r s m k b s' :
    (c < n)%nat -> m c = Run p -> k p = Forking np -> fork_body p np s = Ret r s' ->
    kstep (KW s m k b) (KW s' m (upd k p (if r : bool then Forked np else Kernel)) b)
| k_fork_done c p np s m k b s' :
    (c < n)%nat -> m c = Run p -> k p = Forked np -> make_runnable c np s = Ret tt s' ->
    kstep (KW s m k b) (KW s' (upd m c (Run p)) (upd (upd k p Kernel) np Fresh) b)
| k_exiting c p s m k b s' :
    (c < n)%nat -> m c = Run p -> k p = Kernel -> exit_files p s = Ret tt s' ->
    kstep (KW s m k b) (KW s' m (upd k p Exiting) b)
(* everything else: other kernel state, the process's own fields, interrupts *)
| k_own c p f r s m k b :
    (c < n)%nat -> m c = Run p -> private f ->
    kstep (KW s m k b)
          (KW (Sys (lks s) (alter f p (procs s)) (nextpid s) (initproc s) (first s) r) m k b)
| k_irq c e s m k b :
    (c < n)%nat -> locked_mode (m c) = false ->
    kstep (KW s m k b)
          (KW (with_lks (with_cpu c (let x := cpuat c (lks s) in Cpu (ncli x) (intena x) e (cproc x)) (lks s)) s) m k b).

(** ** The invariant *)

Definition stf (s : sys R) (q : nat) : procstate := state (procs s !!! q).
Definition parf (s : sys R) (q : nat) : option nat := parent (procs s !!! q).
Definition chf (s : sys R) (q : nat) : channel := chan (procs s !!! q).

(** Process ids of the processes that exist differ, until the counter wraps. *)
Definition pid_inv (s : sys R) (b : Z) : Prop :=
  0 <= b -> b < 2 ^ 31 - 1 -> nextpid s = b + 1 /\
  (forall q, stf s q <> UNUSED -> 0 < pid (procs s !!! q) <= b) /\
  (forall q q', stf s q <> UNUSED -> stf s q' <> UNUSED ->
     pid (procs s !!! q) = pid (procs s !!! q') -> q = q').

Record winv (w : kworld) : Prop := {
  wi_lock : linv n (lks (ks w)) (md w);
  wi_tab : pinv n (initproc (ks w)) (stf (ks w)) (parf (ks w)) (chf (ks w)) (md w) (pcs w);
  wi_len : length (procs (ks w)) = NPROC;
  wi_pid : pid_inv (ks w) (born w);
  wi_born : 0 <= born w;
  wi_exit : forall p, pcs w p = Exiting -> p <> initproc (ks w);
}.

Lemma pinv_ext init st par ch st' par' ch' m m' k :
  (forall q, st' q = st q) -> (forall q, par' q = par q) -> (forall q, ch' q = ch q) -> (forall c, m' c = m c) ->
  pinv n init st par ch m k -> pinv n init st' par' ch' m' k.
Proof.
  intros E1 E2 E3 E4 [H1 H2 H3 H4 H5 H6 H7 H8 H9 H10 H11 H12 H13]. split.
  - intros p. rewrite E1, H1. by setoid_rewrite E4.
  - intros c c' p. rewrite !E4. apply H2.
  - intros p. rewrite E1, E3. apply H3.
  - intros p. rewrite E1. apply H4.
  - intros c p. rewrite E4. apply H5.
  - intros c p. rewrite E4. apply H6.
  - intros p np. rewrite !E1. apply H7.
  - intros p p' np. rewrite !E1. apply H8.
  - intros p q ie. rewrite !E1, E2. apply H9.
  - intros p q. rewrite E1, E2. apply H10.
  - rewrite E1. apply H11.
  - by rewrite E2.
  - intros p. rewrite E2. apply H13.
Qed.

Lemma upd_same {A} (f : nat -> A) i v j : f i = v -> upd f i v j = f j.
Proof. intros <-. by destruct (upd_cases f i (f i) j) as [[-> ->]|[_ ->]]. Qed.

Lemma linv_ext l m m' : (forall c, m' c = m c) -> linv n l m -> linv n l m'.
Proof.
  intros E [H1 H2 H3 H4 H5]. split; [done| | | |done].
  - intros c. rewrite E. apply H2.
  - intros c. rewrite E. apply H3.
  - setoid_rewrite E. apply H4.
Qed.

(** ** Each step keeps it *)

Lemma at_inside w c : winv w -> (c < n)%nat -> locked_mode (md w c) = true ->
  inside c (ks w) /\ cproc (cpuat c (lks (ks w))) = mproc (md w c).
Proof.
  intros Hi Hc Hm. destruct (lv_cpu _ _ _ (wi_lock _ Hi) c Hc) as [Hp Hf]. rewrite Hm in Hf.
  split; [|done]. split; [by rewrite (lv_len _ _ _ (wi_lock _ Hi))|]. split; [done|]. by apply (lv_in _ _ _ (wi_lock _ Hi)).
Qed.

Lemma at_outside w c : winv w -> (c < n)%nat -> locked_mode (md w c) = false ->
  outside c (ks w) /\ cproc (cpuat c (lks (ks w))) = mproc (md w c).
Proof.
  intros Hi Hc Hm. destruct (lv_cpu _ _ _ (wi_lock _ Hi) c Hc) as [Hp Hf]. rewrite Hm in Hf.
  split; [|done]. split; [by rewrite (lv_len _ _ _ (wi_lock _ Hi))|done].
Qed.

Lemma live_lt s p : length (procs s) = NPROC -> stf s p <> UNUSED -> (p < NPROC)%nat.
Proof.
  intros Hl Hs. destruct (decide (p < NPROC)%nat) as [|Hge]; [done|]. destruct Hs. unfold stf.
  rewrite list_lookup_total_alt, lookup_ge_None_2 by lia. done.
Qed.

(** No process appears and ids stay. *)
Lemma pid_keep (s s' : sys R) b :
  nextpid s' = nextpid s ->
  (forall q, stf s' q <> UNUSED -> stf s q <> UNUSED /\ pid (procs s' !!! q) = pid (procs s !!! q)) ->
  pid_inv s b -> pid_inv s' b.
Proof.
  intros En Hq Hp Hb Hb'. destruct (Hp Hb Hb') as (H1&H2&H3). split; [congruence|]. split.
  - intros q Hs. destruct (Hq q Hs) as [Hs' ->]. by apply H2.
  - intros q q' Hs Hs'. destruct (Hq q Hs) as [Ha ->], (Hq q' Hs') as [Hb'' ->]. by apply H3.
Qed.

(** The common shape of a step: the lock moves, the table goes from one
    description to another. *)
Lemma winv_step s m k b s' c md' k' st par ch :
  winv (KW s m k b) -> (c < n)%nat ->
  moves c (locked_mode (m c)) (locked_mode md') (mproc md') (lks s) (lks s') ->
  frame s s' -> length (procs s') = length (procs s) ->
  (forall q, stf s' q = st q) -> (forall q, parf s' q = par q) -> (forall q, chf s' q = ch q) ->
  (forall q, stf s' q <> UNUSED -> stf s q <> UNUSED /\ pid (procs s' !!! q) = pid (procs s !!! q)) ->
  pinv n (initproc s) st par ch (upd m c md') k' ->
  (forall p, k' p = Exiting -> k p = Exiting) ->
  winv (KW s' (upd m c md') k' b).
Proof.
  intros Hi Hc Hm [Fn Fi] Hl E1 E2 E3 Hq Hp Hk. destruct Hi as [I1 I2 I3 I4 I5 I6]. cbn [ks md pcs born] in *.
  split; cbn [ks md pcs born].
  - by apply (linv_moves n (lks s)).
  - rewrite Fi. eapply pinv_ext; [done..|]. done.
  - congruence.
  - by eapply pid_keep.
  - done.
  - intros p Ep. rewrite Fi. by apply I6, Hk.
Qed.

(** Reading a table in which one slot was changed. *)
Lemma alter_views (s s' : sys R) f i :
  (i < length (procs s))%nat -> procs s' = alter f i (procs s) ->
  length (procs s') = length (procs s) /\
  (forall q, stf s' q = upd (stf s) i (state (f (procs s !!! i))) q) /\
  (forall q, parf s' q = upd (parf s) i (parent (f (procs s !!! i))) q) /\
  (forall q, chf s' q = upd (chf s) i (chan (f (procs s !!! i))) q) /\
  (forall q, pid (procs s' !!! q) = if decide (q = i) then pid (f (procs s !!! i)) else pid (procs s !!! q)).
Proof.
  intros Hi E. rewrite E. split; [apply length_alter|]. unfold stf, parf, chf. rewrite E.
  split_and!; intros q; rewrite alter_total by done; unfold upd; by destruct (decide (q = i)).
Qed.

(** The lock moves and the table is as it was. *)
Lemma winv_same s m k b s' c md' k' :
  winv (KW s m k b) -> (c < n)%nat ->
  moves c (locked_mode (m c)) (locked_mode md') (mproc md') (lks s) (lks s') ->
  frame s s' -> procs s' = procs s ->
  pinv n (initproc s) (stf s) (parf s) (chf s) (upd m c md') k' ->
  (forall p, k' p = Exiting -> k p = Exiting) ->
  winv (KW s' (upd m c md') k' b).
Proof.
  intros Hi Hc Hm Hf Hp Hpi Hk. apply (winv_step s m k b s' c md' k' (stf s) (parf s) (chf s)); try done.
  - by rewrite Hp.
  - intros q. unfold stf. by rewrite Hp.
  - intros q. unfold parf. by rewrite Hp.
  - intros q. unfold chf. by rewrite Hp.
  - intros q. unfold stf. by rewrite Hp.
Qed.

(** One slot changes, keeping its id and its existence. *)
Lemma winv_alter s m k b s' c md' k' f i st par ch :
  winv (KW s m k b) -> (c < n)%nat ->
  moves c (locked_mode (m c)) (locked_mode md') (mproc md') (lks s) (lks s') ->
  frame s s' -> (i < length (procs s))%nat -> procs s' = alter f i (procs s) ->
  (forall q, upd (stf s) i (state (f (procs s !!! i))) q = st q) ->
  (forall q, upd (parf s) i (parent (f (procs s !!! i))) q = par q) ->
  (forall q, upd (chf s) i (chan (f (procs s !!! i))) q = ch q) ->
  (state (f (procs s !!! i)) <> UNUSED -> stf s i <> UNUSED /\ pid (f (procs s !!! i)) = pid (procs s !!! i)) ->
  pinv n (initproc s) st par ch (upd m c md') k' ->
  (forall p, k' p = Exiting -> k p = Exiting) ->
  winv (KW s' (upd m c md') k' b).
Proof.
  intros Hi Hc Hm Hf Hlt Ep E1 E2 E3 Hid Hp Hk. destruct (alter_views s s' f i Hlt Ep) as (V1&V2&V3&V4&V5).
  apply (winv_step s m k b s' c md' k' st par ch); try done.
  - intros q. by rewrite V2, E1.
  - intros q. by rewrite V3, E2.
  - intros q. by rewrite V4, E3.
  - intros q. rewrite V2, V5. unfold upd. destruct (decide (q = i)) as [->|]; [done|by split].
Qed.

Lemma upd_Exiting (k : nat -> pc) p x : x <> Exiting -> forall q, upd k p x q = Exiting -> k q = Exiting.
Proof. intros Hx q. destruct (upd_cases k p x q) as [[-> ->]|[_ ->]]; done. Qed.

Lemma enter_ok c s m k b s' :
  winv (KW s m k b) -> (c < n)%nat -> m c = Idle -> scheduler_enter c s = Ret tt s' ->
  winv (KW s' (upd m c (Scan 0)) k b).
Proof.
  intros Hi Hc Hm E. destruct (at_outside _ c Hi Hc) as [Ho Hp]; [by cbn; rewrite Hm|]. cbn [ks md] in *.
  apply scheduler_enter_eff in E as (M&P&F); [|done]. rewrite Hp, Hm in M.
  apply (winv_same s m k b); [done|done|by rewrite Hm|done|done| |done].
  apply (pinv_mode n _ _ _ _ _ _ (wi_tab _ Hi)); [done|by cbn; rewrite Hm|done|done].
Qed.

Lemma round_ok c i s m k b s' :
  winv (KW s m k b) -> (c < n)%nat -> m c = Scan i -> scheduler_scan c i s = Ret None s' ->
  winv (KW s' (upd m c Idle) k b).
Proof.
  intros Hi Hc Hm E. destruct (at_inside _ c Hi Hc) as [Ho Hp]; [by cbn; rewrite Hm|]. cbn [ks md] in *.
  apply scheduler_scan_eff in E as (F&M&P); [|done]. rewrite Hp, Hm in M.
  apply (winv_same s m k b); [done|done|by rewrite Hm|done|done| |done].
  apply (pinv_mode n _ _ _ _ _ _ (wi_tab _ Hi)); [done|by cbn; rewrite Hm|done|done].
Qed.

Lemma pick_ok c i j s m k b s' :
  winv (KW s m k b) -> (c < n)%nat -> m c = Scan i -> scheduler_scan c i s = Ret (Some j) s' ->
  winv (KW s' (upd m c (Resume j)) k b).
Proof.
  intros Hi Hc Hm E. destruct (at_inside _ c Hi Hc) as [Ho Hp]; [by cbn; rewrite Hm|]. cbn [ks md] in *.
  apply scheduler_scan_eff in E as (F&M&Hlt&Hj&P); [|done].
  eapply (winv_alter s m k b s' c _ _ _ j);
    [done|done|by rewrite Hm|done|done|done|done|by intros q; apply upd_same|by intros q; apply upd_same| | |done].
  - cbn. intros _. split; [|done]. unfold stf. by rewrite Hj.
  - apply (pinv_pick n _ _ _ _ _ _ (wi_tab _ Hi)); [done|by cbn; rewrite Hm|done].
Qed.

Lemma running_at s m k b c p :
  winv (KW s m k b) -> (c < n)%nat -> mproc (m c) = Some p -> stf s p = RUNNING /\ (p < length (procs s))%nat.
Proof.
  intros Hi Hc Hm. pose proof (at_mode n _ _ _ _ _ _ (wi_tab _ Hi) c p Hc Hm) as Hp. cbn [ks] in Hp.
  split; [done|]. pose proof (wi_len _ Hi) as Hl. cbn [ks] in Hl. rewrite Hl. apply (live_lt s); [done|]. by rewrite Hp.
Qed.

(** A process that was switched to leaves the critical section. *)
Lemma continue_ok c p s m k b s' cc :
  winv (KW s m k b) -> (c < n)%nat -> mproc (m c) = Some p ->
  moves c (locked_mode (m c)) false (Some p) (lks s) (lks s') -> frame s s' ->
  (procs s' = procs s \/ procs s' = alter (set_chan cc) p (procs s)) ->
  winv (KW s' (upd m c (Run p)) (upd k p Kernel) b).
Proof.
  intros Hi Hc Hm M F P. destruct (running_at s m k b c p Hi Hc Hm) as [Hp Hlt].
  destruct P as [P|P].
  - apply (winv_same s m k b); [done..| |by apply upd_Exiting].
    eapply pinv_ext; [done|done| |done|apply (pinv_continue n _ _ _ _ _ _ (wi_tab _ Hi) c p Kernel (chf s p)); done || (by intros [])].
    intros q. symmetry. by apply upd_same.
  - eapply (winv_alter s m k b s' c _ _ _ p);
      [done..|by intros q; apply upd_same|by intros q; apply upd_same|done| | |by apply upd_Exiting].
    + intros _. split; [|done]. by rewrite Hp.
    + apply (pinv_continue n _ _ _ _ _ _ (wi_tab _ Hi) c p Kernel cc); done || (by intros []).
Qed.

(** A process gives up the processor. *)
Lemma out_ok c p s m k b s' f i st0 cc kk :
  winv (KW s m k b) -> (c < n)%nat -> mproc (m c) = Some p ->
  moves c (locked_mode (m c)) true None (lks s) (lks s') -> frame s s' ->
  procs s' = alter f p (procs s) ->
  (forall q, state (f q) = st0 /\ parent (f q) = parent q /\ pid (f q) = pid q) -> chan (f (procs s !!! p)) = cc ->
  (st0 = RUNNABLE /\ parked kk \/
   st0 = SLEEPING /\ ((exists ie, kk = InWait ie /\ cc = CProc p /\ forall q, parf s q = Some p -> stf s q <> ZOMBIE) \/
                    (exists l ie a, kk = InSleep l ie /\ l <> ptable_lock /\ cc = CAddr a))) ->
  winv (KW s' (upd m c (Scan i)) (upd k p kk) b).
Proof.
  intros Hi Hc Hm M F P Hf Hcc Hcase. destruct (running_at s m k b c p Hi Hc Hm) as [Hp Hlt].
  destruct (Hf (procs s !!! p)) as (F1&F2&F3).
  apply (winv_alter s m k b s' c (Scan i) (upd k p kk) f p (upd (stf s) p st0) (parf s) (upd (chf s) p cc));
    [done..| | | | | |].
  - intros q. by rewrite F1.
  - intros q. rewrite F2. by apply upd_same.
  - intros q. by rewrite Hcc.
  - intros _. split; [by rewrite Hp|done].
  - by apply (pinv_out n _ _ _ _ _ _ (wi_tab _ Hi)).
  - apply upd_Exiting. destruct Hcase as [[_ Hk]|[_ [(ie&->&_)|(l&ie&a&->&_)]]]; [by intros ->|done|done].
Qed.

Lemma yield_ok c p ie s m k b s' :
  winv (KW s m k b) -> (c < n)%nat -> m c = Run p -> yield_out c p s = Ret ie s' ->
  winv (KW s' (upd m c (Scan (S p))) (upd k p (InYield ie)) b).
Proof.
  intros Hi Hc Hm E. destruct (at_outside _ c Hi Hc) as [Ho _]; [by cbn; rewrite Hm|]. cbn [ks] in Ho.
  apply yield_out_eff in E as (M&P&F); [|done].
  eapply (out_ok c p s m k b s' _ _ RUNNABLE); [done|done|by rewrite Hm|by rewrite Hm|done|exact P|done|reflexivity|by left].
Qed.

Lemma sleep_ok c p a l ie s m k b s' :
  winv (KW s m k b) -> (c < n)%nat -> m c = Run p -> l <> ptable_lock ->
  (lk (acquire c l) ;; sleep_out c p (CAddr a) l) s = Ret ie s' ->
  winv (KW s' (upd m c (Scan (S p))) (upd k p (InSleep l ie)) b).
Proof.
  intros Hi Hc Hm Hl E. destruct (at_outside _ c Hi Hc) as [Ho _]; [by cbn; rewrite Hm|]. cbn [ks] in Ho.
  apply sleep_out_eff in E as (M&P&F); [|done|done|by apply (lv_other _ _ _ (wi_lock _ Hi))].
  rewrite list_alter_alter_eq in P.
  eapply (out_ok c p s m k b s' _ _ SLEEPING); [done|done|by rewrite Hm|by rewrite Hm|done|exact P|done|reflexivity|].
  right. split; [done|]. right. eauto 10.
Qed.

(** The slots a scan covers are all slots. *)
Lemma all_slots (s : sys R) q : length (procs s) = NPROC -> parf s q <> None -> q ∈ seq 0 NPROC.
Proof.
  intros Hl Hq. apply elem_of_seq. destruct (decide (q < NPROC)%nat) as [|Hge]; [lia|]. destruct Hq.
  unfold parf. rewrite list_lookup_total_alt, lookup_ge_None_2 by lia. done.
Qed.

Lemma scan_range (s : sys R) : length (procs s) = NPROC -> Forall (fun i => (i < length (procs s))%nat) (seq 0 NPROC).
Proof. intros Hl. apply Forall_forall. intros i Hi. apply elem_of_seq in Hi. lia. Qed.

Lemma no_zombie_all (s : sys R) p q :
  length (procs s) = NPROC -> no_zombie (procs s) p (seq 0 NPROC) -> parf s q = Some p -> stf s q <> ZOMBIE.
Proof. intros Hl Hn Hq. apply Hn. split; [|done]. apply (all_slots s); [done|]. by rewrite Hq. Qed.

Lemma cpu_lt s m k b c : winv (KW s m k b) -> (c < n)%nat -> (c < length (cpus (lks s)))%nat.
Proof. intros Hi Hc. pose proof (lv_len _ _ _ (wi_lock _ Hi)) as Hl. cbn [ks] in Hl. lia. Qed.

(** The result of a scan that began inside the critical section. *)
Lemma scanned_ok c p s m k b s' r :
  winv (KW s m k b) -> (c < n)%nat -> mproc (m c) = Some p ->
  forall a s0, moves c (locked_mode (m c)) true (Some p) (lks s) (lks s0) -> frame s s0 ->
  (procs s0 = procs s \/ procs s0 = alter (set_chan a) p (procs s)) ->
  frame s0 s' -> wait_result c p (seq 0 NPROC) false s0 r s' ->
  match r with
  | Returned _ => winv (KW s' (upd m c (Run p)) (upd k p Kernel) b)
  | Asleep ie => winv (KW s' (upd m c (Scan (S p))) (upd k p (InWait ie)) b)
  end.
Proof.
  intros Hi Hc Hm a s0 M0 F0 P0 F1 W. destruct (running_at s m k b c p Hi Hc Hm) as [Hp Hlt].
  pose proof (wi_len _ Hi) as Hlen. cbn [ks] in Hlen.
  pose proof (cpu_lt s m k b c Hi Hc) as Hc0.
  pose proof (moves_at _ _ _ _ _ _ Hc0 M0) as (_&A0&_).
  assert (Hl0 : length (procs s0) = NPROC) by (destruct P0 as [->| ->]; rewrite ?length_alter; done).
  assert (Hv : exists cc, forall q, stf s0 q = stf s q /\ parf s0 q = parf s q /\ chf s0 q = upd (chf s) p cc q /\
    pid (procs s0 !!! q) = pid (procs s !!! q)).
  { destruct P0 as [P0|P0]; [exists (chf s p)|exists a]; intros q; unfold stf, parf, chf; rewrite P0.
    - split_and!; try done. symmetry. by apply (upd_same (chf s)).
    - rewrite alter_total by done. unfold upd. by destruct (decide (q = p)) as [->|]. }
  destruct Hv as (cc&Hv). assert (F : frame s s') by (unfold frame in *; naive_solver congruence).
  destruct r as [v|ie]; cbn [wait_result] in W.
  - destruct W as (M1&W). rewrite A0 in M1. pose proof (moves_trans _ _ _ _ _ _ _ _ _ M0 M1) as M.
    destruct W as [(_&P1&_)|(js1&i&js2&Ejs&_&Hpar&Hz&_&P1)].
    + eapply (continue_ok c p s m k b s' a); [done..|]. destruct P0; [left|right]; congruence.
    + assert (Hi0 : (i < length (procs s0))%nat).
      { assert (Hin : i ∈ seq 0 NPROC) by (rewrite Ejs, elem_of_app, elem_of_cons; auto). apply elem_of_seq in Hin. lia. }
      destruct (alter_views s0 s' reaped i Hi0 P1) as (V1&V2&V3&V4&V5).
      assert (Hzi : stf s i = ZOMBIE) by (destruct (Hv i) as (<-&_); done).
      eapply (winv_step s m k b s' c (Run p) _ (upd (stf s) i UNUSED) (upd (parf s) i None) (upd (chf s) p cc));
        [done..|congruence| | | | | |by apply upd_Exiting].
      * intros q. rewrite V2. cbn. unfold upd. destruct (decide (q = i)); [done|apply Hv].
      * intros q. rewrite V3. cbn. unfold upd. destruct (decide (q = i)); [done|apply Hv].
      * intros q. rewrite V4. cbn. destruct (Hv q) as (_&_&E&_). destruct (Hv i) as (_&_&Ei&_). unfold upd in *.
        destruct (decide (q = i)) as [->|]; done.
      * intros q. rewrite V2, V5. cbn. destruct (Hv q) as (E&_&_&Ei). unfold upd. rewrite <- E, Ei. by destruct (decide (q = i)).
      * apply pinv_reap; [|done]. apply (pinv_continue n _ _ _ _ _ _ (wi_tab _ Hi) c p Kernel cc); done || (by intros []).
  - destruct W as (M1&_&_&Hn&P1). pose proof (moves_trans _ _ _ _ _ _ _ _ _ M0 M1) as M.
    assert (P : procs s' = alter (set_state SLEEPING ∘ set_chan (CProc p)) p (procs s)).
    { rewrite P1. destruct P0 as [->| ->]; rewrite !list_alter_alter_eq; done. }
    eapply (out_ok c p s m k b s' _ _ SLEEPING); [done|done|done|done|done|exact P|done|reflexivity|].
    right. split; [done|]. left. exists ie. split; [done|]. split; [done|]. intros q Hq.
    destruct (Hv q) as (<-&E&_). apply (no_zombie_all s0 p q Hl0 Hn). by rewrite E.
Qed.

Lemma wait_ok c p s m k b s' r :
  winv (KW s m k b) -> (c < n)%nat -> m c = Run p -> wait c p s = Ret r s' ->
  match r with
  | Returned _ => winv (KW s' (upd m c (Run p)) (upd k p Kernel) b)
  | Asleep ie => winv (KW s' (upd m c (Scan (S p))) (upd k p (InWait ie)) b)
  end.
Proof.
  intros Hi Hc Hm E. destruct (at_outside _ c Hi Hc) as [Ho Hp]; [by cbn; rewrite Hm|]. cbn [ks md] in *. rewrite Hm in Hp.
  unfold wait in E. apply bind_inv in E as ([]&t&E1&E). apply take_eff in E1 as (M&P&F); [|done]. rewrite Hp in M.
  apply wait_scan_eff in E as (F2&W); [|by eapply moves_inside; [apply Ho|exact M]|].
  - apply (scanned_ok c p s m k b s' r Hi Hc ltac:(by rewrite Hm) CNone t); try done; [by rewrite Hm|by left].
  - apply scan_range. rewrite P. apply (wi_len _ Hi).
Qed.

Lemma wait_again_ok c p ie0 s m k b s' r :
  winv (KW s m k b) -> (c < n)%nat -> m c = Resume p -> wait_again c p ie0 s = Ret r s' ->
  match r with
  | Returned _ => winv (KW s' (upd m c (Run p)) (upd k p Kernel) b)
  | Asleep ie => winv (KW s' (upd m c (Scan (S p))) (upd k p (InWait ie)) b)
  end.
Proof.
  intros Hi Hc Hm E. destruct (at_inside _ c Hi Hc) as [Ho Hp]; [by cbn; rewrite Hm|]. cbn [ks md] in *. rewrite Hm in Hp.
  unfold wait_again, sleep_in in E. apply bind_inv in E as ([]&t&E1&E). rewrite Z.eqb_refl in E1.
  apply bind_inv in E1 as ([]&t1&E1&E2). apply sched_in_eff in E1 as (M&P&F); [|done]. rewrite Hp in M.
  apply bind_inv in E2 as ([]&t2&E2&E3). injection E2 as <-. injection E3 as <-.
  assert (M' : moves c true true (Some p) (lks s) (lks (Sys (lks t1) (alter (set_chan CNone) p (procs t1)) (nextpid t1) (initproc t1) (first t1) (res t1)))) by done.
  apply wait_scan_eff in E as (F2&W); [|by eapply moves_inside; [apply Ho|exact M']|].
  - eapply (scanned_ok c p s m k b s' r Hi Hc ltac:(by rewrite Hm) CNone); [rewrite Hm; exact M'|done| |done|exact W].
    right. cbn. by rewrite P.
  - apply scan_range. cbn [procs]. rewrite length_alter, P. apply (wi_len _ Hi).
Qed.

(** Only sleeping processes change, to runnable. *)
Lemma woken_ok c s m k b s' :
  winv (KW s m k b) -> (c < n)%nat -> locked_mode (m c) = false ->
  moves c false false (mproc (m c)) (lks s) (lks s') -> frame s s' -> length (procs s') = length (procs s) ->
  (forall q, (stf s' q = stf s q \/ (stf s q = SLEEPING /\ stf s' q = RUNNABLE)) /\ parf s' q = parf s q /\
     chf s' q = chf s q /\ pid (procs s' !!! q) = pid (procs s !!! q)) ->
  winv (KW s' (upd m c (m c)) k b).
Proof.
  intros Hi Hc Hm M F Hl Hq. apply (winv_step s m k b s' c (m c) k (stf s') (parf s) (chf s)); try done.
  - by rewrite Hm.
  - intros q. apply Hq.
  - intros q. apply Hq.
  - intros q Hs. destruct (Hq q) as ([E|[E _]]&_&_&E'); split; congruence.
  - eapply (pinv_ext _ (stf s') (parf s) (chf s)); [done|done|done|by intros d; apply upd_same|].
    apply (pinv_wake n _ _ _ _ _ _ (wi_tab _ Hi)). intros q. apply Hq.
Qed.

Lemma wakeup_safe c a s m k b s' :
  winv (KW s m k b) -> (c < n)%nat -> locked_mode (m c) = false -> wakeup c (CAddr a) s = Ret tt s' ->
  winv (KW s' (upd m c (m c)) k b).
Proof.
  intros Hi Hc Hm E. destruct (at_outside _ c Hi Hc) as [Ho Hp]; [done|]. cbn [ks md] in *.
  apply wakeup_eff in E as (M&P&F); [|done]. rewrite Hp in M.
  eapply (woken_ok c s m k b s'); try done; [by rewrite P, length_fmap|].
  intros q. unfold stf, parf, chf. rewrite P, fmap_total.
  destruct (wake_keeps (CAddr a) (procs s !!! q)) as (->&->&->). split; [apply wake_cases|done].
Qed.

Lemma kill_pcb_cases q : (state (kill_pcb q) = state q \/ (state q = SLEEPING /\ state (kill_pcb q) = RUNNABLE)) /\
  parent (kill_pcb q) = parent q /\ chan (kill_pcb q) = chan q /\ pid (kill_pcb q) = pid q.
Proof. unfold kill_pcb. cbn. destruct (decide (state q = SLEEPING)); split; auto. Qed.

Lemma kill_ok c p v x s m k b s' :
  winv (KW s m k b) -> (c < n)%nat -> m c = Run p -> kill c x s = Ret v s' ->
  winv (KW s' (upd m c (Run p)) k b).
Proof.
  intros Hi Hc Hm E. destruct (at_outside _ c Hi Hc) as [Ho Hp]; [by cbn; rewrite Hm|]. cbn [ks md] in *.
  apply kill_eff in E as (M&F&P); [|done]. rewrite Hp in M. rewrite <- Hm.
  eapply (woken_ok c s m k b s'); try done; [by rewrite Hm|by destruct P as [->|[i ->]]; rewrite ?length_alter|].
  intros q. unfold stf, parf, chf. destruct P as [->|[i ->]]; [split; auto|].
  destruct (decide (i < length (procs s))%nat) as [Hlt|Hge].
  - rewrite alter_total by done. destruct (decide (q = i)) as [->|]; [apply kill_pcb_cases|split; auto].
  - replace (alter kill_pcb i (procs s)) with (procs s); [split; auto|]. symmetry. apply list_eq. intros j.
    destruct (decide (j = i)) as [->|Hne]; [|by rewrite list_lookup_alter_ne].
    rewrite list_lookup_alter_eq, lookup_ge_None_2 by lia. done.
Qed.

Lemma fork_full_ok c p s m k b s' :
  winv (KW s m k b) -> (c < n)%nat -> m c = Run p -> allocproc_slot c s = Ret None s' ->
  winv (KW s' (upd m c (Run p)) k b).
Proof.
  intros Hi Hc Hm E. destruct (at_outside _ c Hi Hc) as [Ho Hp]; [by cbn; rewrite Hm|]. cbn [ks md] in *.
  apply allocproc_slot_eff in E as (M&Fi&P&Fn); [|done]. rewrite Hp, Hm in M.
  apply (winv_same s m k b); [done|done|by rewrite Hm|done|done| |done].
  eapply pinv_ext; [done..|by intros d; apply upd_same|]. apply (wi_tab _ Hi).
Qed.

Lemma fork_ok c p np s m k b s' :
  winv (KW s m k b) -> (c < n)%nat -> m c = Run p -> k p = Kernel -> allocproc_slot c s = Ret (Some np) s' ->
  winv (KW s' (upd m c (Run p)) (upd k p (Forking np)) (b + 1)).
Proof.
  intros Hi Hc Hm Hk E. destruct (at_outside _ c Hi Hc) as [Ho Hp]; [by cbn; rewrite Hm|]. cbn [ks md] in *.
  apply allocproc_slot_eff in E as (M&Fi&_&Hlt&Hu&P&Fn); [|done]. rewrite Hp, Hm in M.
  destruct (alter_views s s' _ np Hlt P) as (V1&V2&V3&V4&V5). cbn in V2, V3, V4, V5.
  destruct Hi as [I1 I2 I3 I4 I5 I6]. cbn [ks md pcs born] in *. split; cbn [ks md pcs born].
  - apply (linv_moves n (lks s)); [done|done|by rewrite Hm].
  - rewrite Fi. eapply (pinv_ext _ (upd (stf s) np EMBRYO) (parf s) (chf s)).
    + done.
    + intros q. rewrite V3. by apply upd_same.
    + intros q. rewrite V4. by apply upd_same.
    + by intros d; apply upd_same.
    + apply (pinv_alloc n _ _ _ _ _ _ I2 c p np); [done|done|by rewrite Hk|done].
  - congruence.
  - intros Hb Hb'. destruct (I4 I5 ltac:(lia)) as (N1&N2&N3). rewrite Fn, N1.
    replace (i32 (b + 1 + 1)) with (b + 1 + 1) by (symmetry; apply i32_id; lia). split; [done|].
    assert (Hother : forall q, q <> np -> stf s' q <> UNUSED -> stf s q <> UNUSED).
    { intros q Hq. rewrite V2. by rewrite fupd_ne. }
    split.
    + intros q Hs. rewrite V5. destruct (decide (q = np)) as [->|Hq]; [lia|].
      specialize (N2 q (Hother q Hq Hs)). lia.
    + intros q q' Hs Hs'. rewrite !V5. destruct (decide (q = np)) as [->|Hq], (decide (q' = np)) as [->|Hq']; [done| | |].
      * specialize (N2 q' (Hother q' Hq' Hs')). lia.
      * specialize (N2 q (Hother q Hq Hs)). lia.
      * apply N3; by apply Hother.
  - lia.
  - intros q Eq. rewrite Fi. apply I6. revert Eq. by apply upd_Exiting.
Qed.

(** A step that does not touch the locks. *)
Lemma winv_quiet s m k b s' k' st par ch :
  winv (KW s m k b) -> lks s' = lks s -> frame s s' -> length (procs s') = length (procs s) ->
  (forall q, stf s' q = st q) -> (forall q, parf s' q = par q) -> (forall q, chf s' q = ch q) ->
  (forall q, stf s' q <> UNUSED -> stf s q <> UNUSED /\ pid (procs s' !!! q) = pid (procs s !!! q)) ->
  pinv n (initproc s) st par ch m k' ->
  (forall p, k' p = Exiting -> p <> initproc s) ->
  winv (KW s' m k' b).
Proof.
  intros Hi Hl [Fn Fi] Hlen E1 E2 E3 Hq Hp Hk. destruct Hi as [I1 I2 I3 I4 I5 I6]. cbn [ks md pcs born] in *.
  split; cbn [ks md pcs born].
  - by rewrite Hl.
  - rewrite Fi. by eapply pinv_ext.
  - congruence.
  - by eapply pid_keep.
  - done.
  - intros p Ep. rewrite Fi. by apply Hk.
Qed.

Lemma fork_body_ok c p np r s m k b s' :
  winv (KW s m k b) -> (c < n)%nat -> m c = Run p -> k p = Forking np -> fork_body p np s = Ret r s' ->
  winv (KW s' m (upd k p (if r : bool then Forked np else Kernel)) b).
Proof.
  intros Hi Hc Hm Hk E. apply fork_body_eff in E as (Hl&F&f&P&Hf).
  destruct (running_at s m k b c p Hi Hc) as [Hp Hlt]; [by rewrite Hm|].
  assert (Hnp : stf s np = EMBRYO) by (apply (pi_fork _ _ _ _ _ _ _ (wi_tab _ Hi) p np); [done|by cbn; rewrite Hk]).
  assert (Hltn : (np < length (procs s))%nat).
  { pose proof (wi_len _ Hi) as Hl'. cbn [ks] in Hl'. rewrite Hl'. apply (live_lt s); [done|]. by rewrite Hnp. }
  destruct (alter_views s s' f np Hltn P) as (V1&V2&V3&V4&V5). destruct (Hf (procs s !!! np)) as (G1&G2&_&G3).
  eapply (winv_quiet s m k b s' _ (upd (stf s) np (if r then EMBRYO else UNUSED)) (parf s') (chf s)); try done.
  - intros q. rewrite V2. destruct r; destruct G3 as [-> _]; [|done]. unfold upd. destruct (decide (q = np)); [|done]. exact Hnp.
  - intros q. rewrite V4, G1. by apply upd_same.
  - intros q. rewrite V2, V5, G2. unfold upd. destruct (decide (q = np)) as [->|]; [|by split]. rewrite Hnp. by split.
  - apply (pinv_setup n _ _ _ _ _ _ (wi_tab _ Hi) c p np).
    + done.
    + done.
    + by cbn; rewrite Hk.
    + destruct r; [left|right]; done.
    + intros q Hq. rewrite V3. by apply fupd_ne.
    + rewrite V3, fupd_eq. destruct r; destruct G3 as [_ G3]; [by right|]. destruct G3 as [->|G3]; [by left|by right].
  - intros q Eq. apply (wi_exit _ Hi). revert Eq. apply upd_Exiting. by destruct r.
Qed.

Lemma fork_done_ok c p np s m k b s' :
  winv (KW s m k b) -> (c < n)%nat -> m c = Run p -> k p = Forked np -> make_runnable c np s = Ret tt s' ->
  winv (KW s' (upd m c (Run p)) (upd (upd k p Kernel) np Fresh) b).
Proof.
  intros Hi Hc Hm Hk E. destruct (at_outside _ c Hi Hc) as [Ho Hp]; [by cbn; rewrite Hm|]. cbn [ks md] in *.
  apply make_runnable_eff in E as (M&P&F); [|done]. rewrite Hp, Hm in M.
  destruct (running_at s m k b c p Hi Hc) as [Hr _]; [by rewrite Hm|].
  assert (Hnp : stf s np = EMBRYO) by (apply (pi_fork _ _ _ _ _ _ _ (wi_tab _ Hi) p np); [done|by cbn; rewrite Hk]).
  assert (Hltn : (np < length (procs s))%nat).
  { pose proof (wi_len _ Hi) as Hl'. cbn [ks] in Hl'. rewrite Hl'. apply (live_lt s); [done|]. by rewrite Hnp. }
  apply (winv_alter s m k b s' c (Run p) _ (set_state RUNNABLE) np (upd (stf s) np RUNNABLE) (parf s) (chf s));
    [done|done|by rewrite Hm|done|done|done|done|by intros q; apply upd_same|by intros q; apply upd_same| | |].
  - intros _. rewrite Hnp. by split.
  - eapply pinv_ext; [done..|by intros d; apply upd_same|].
    apply (pinv_finish n _ _ _ _ _ _ (wi_tab _ Hi) c p np); [done|done|by cbn; rewrite Hk].
  - intros q Eq. apply upd_Exiting in Eq; [|done]. revert Eq. by apply upd_Exiting.
Qed.

Lemma exit_ok c p ie s m k b s' :
  winv (KW s m k b) -> (c < n)%nat -> m c = Run p -> k p = Exiting -> exit_locked c p s = Ret ie s' ->
  winv (KW s' (upd m c (Scan (S p))) (upd k p Dead) b).
Proof.
  intros Hi Hc Hm Hk E. destruct (at_outside _ c Hi Hc) as [Ho Hp]; [by cbn; rewrite Hm|]. cbn [ks md] in *.
  destruct (running_at s m k b c p Hi Hc) as [Hr Hlt]; [by rewrite Hm|].
  pose proof (wi_len _ Hi) as Hlen. cbn [ks] in Hlen. pose proof (wi_exit _ Hi p Hk) as Hpi. cbn [ks] in Hpi.
  apply exit_locked_eff in E as (M&F&t&[L S P C I W]&Ep); [|done|done|by rewrite <- Hlen|done].
  set (pcn := parent_chan (parent (procs s !!! p))) in *.
  assert (Hlt' : (p < length t)%nat) by by rewrite L, length_fmap.
  assert (Hat : forall q, procs s' !!! q = if decide (q = p) then set_state ZOMBIE (t !!! p) else t !!! q).
  { intros q. rewrite Ep. by apply alter_total. }
  assert (Hk1 : forall q, parent (t !!! q) = if decide (parf s q = Some p) then Some (initproc s) else parf s q).
  { intros q. rewrite P, fmap_total. rewrite (proj1 (wake_keeps _ _)). apply decide_ext. split; [by intros []|].
    intros Hq. split; [|done]. apply (all_slots s); [done|]. by rewrite Hq. }
  assert (Hk2 : forall q, chan (t !!! q) = chf s q /\ pid (t !!! q) = pid (procs s !!! q)).
  { intros q. rewrite C, I, fmap_total. by destruct (wake_keeps pcn (procs s !!! q)) as (_&->&->). }
  assert (Hk3 : forall q, state (t !!! q) = stf s q \/ (stf s q = SLEEPING /\ state (t !!! q) = RUNNABLE)).
  { intros q. pose proof (S q) as Sq. rewrite fmap_total in Sq.
    pose proof (wake_cases pcn (procs s !!! q)) as Wq. unfold stf.
    destruct Sq as [->|[E1 E2]]; [done|]. destruct Wq as [E3|[E3 E4]]; [|congruence]. right. split; congruence. }
  assert (Hother : forall q, q <> p -> stf s' q = state (t !!! q)) by (intros q Hq; unfold stf; rewrite Hat; by rewrite decide_False).
  apply (winv_step s m k b s' c (Scan (Datatypes.S p)) (upd k p Dead) (stf s') (parf s') (chf s)); try done.
  - by rewrite Hm.
  - rewrite Ep, length_alter, L. by rewrite length_fmap.
  - intros q. unfold chf at 1. rewrite Hat. destruct (decide (q = p)) as [->|]; [apply Hk2|apply Hk2].
  - intros q. unfold stf. rewrite Hat. destruct (decide (q = p)) as [->|Hq]; cbn.
    + intros _. fold (stf s p). rewrite Hr. split; [done|apply Hk2].
    + intros Hs. split; [|apply Hk2]. destruct (Hk3 q) as [E'|[E' _]]; unfold stf in *; congruence.
  - apply (pinv_exit n _ _ _ _ _ _ (wi_tab _ Hi) c p); [done|done|by cbn; rewrite Hk|done| | | | |].
    + unfold stf. rewrite Hat. by rewrite decide_True.
    + intros q Hq. rewrite Hother by done. apply Hk3.
    + intros r Er Es Ec. cbn [ks] in *. assert (Hrp : r <> p) by congruence. rewrite Hother by done.
      destruct (S r) as [->|[_ ->]]; [|done]. rewrite fmap_total. unfold wake, parf in *. unfold pcn. rewrite Er. cbn [parent_chan].
      by rewrite decide_True.
    + intros q Eq Ez Es Ec. cbn [ks] in *. rewrite Hother by done. 
      assert (Hqp : q <> p) by congruence.
      destruct (Hk3 (initproc s)) as [E'|[_ E']]; [|done]. apply (W q).
      * apply (all_slots s); [done|]. by rewrite Eq.
      * rewrite fmap_total. by rewrite (proj1 (wake_keeps _ _)).
      * rewrite fmap_total. destruct (wake_cases pcn (procs s !!! q)) as [->|[E1 _]]; [done|].
        unfold stf in Ez. congruence.
      * rewrite fmap_total. destruct (S (initproc s)) as [E1|[E1 _]]; rewrite fmap_total in E1; [|done].
        unfold stf in *. congruence.
      * rewrite fmap_total. by rewrite (proj1 (proj2 (wake_keeps _ _))).
    + intros q. unfold parf at 1. rewrite Hat. destruct (decide (q = p)) as [->|]; [cbn|]; apply Hk1.
  - by apply upd_Exiting.
Qed.

Lemma own_ok c p f s s' m k b :
  winv (KW s m k b) -> (c < n)%nat -> m c = Run p -> private f ->
  lks s' = lks s -> frame s s' -> procs s' = alter f p (procs s) ->
  winv (KW s' m k b).
Proof.
  intros Hi Hc Hm Hf Hl F P. destruct (running_at s m k b c p Hi Hc) as [Hr Hlt]; [by rewrite Hm|].
  destruct (alter_views s s' f p Hlt P) as (V1&V2&V3&V4&V5). destruct (Hf (procs s !!! p)) as (G1&G2&G3&G4).
  eapply (winv_quiet s m k b s' k (stf s) (parf s) (chf s)); try done.
  - intros q. rewrite V2, G1. by apply upd_same.
  - intros q. rewrite V3, G3. by apply upd_same.
  - intros q. rewrite V4, G4. by apply upd_same.
  - intros q. rewrite V2, V5, G1, G2. rewrite (upd_same (stf s)) by done. destruct (decide (q = p)) as [->|]; by split.
  - apply (wi_tab _ Hi).
  - apply (wi_exit _ Hi).
Qed.

Lemma close_files_eff fs : forall (s s' : sys R) a, close_files fs s = Ret a s' -> exists r, s' = with_res r s.
Proof.
  induction fs as [|f fs IH]; intros s s' a E; cbn [close_files] in E.
  - injection E as _ <-. eexists. apply with_res_self.
  - apply bind_inv in E as (g&t&E1&E). apply bind_inv in E as (rest&t'&E2&E). injection E as _ <-.
    assert (Ht : exists r, t = with_res r s).
    { destruct (f =? 0); [injection E1 as _ <-; eexists; apply with_res_self|].
      apply bind_inv in E1 as ([]&t1&E1&E3). apply sv_inv in E1 as (r&->). injection E3 as _ <-. by eexists. }
    destruct Ht as [r ->]. apply IH in E2 as [r' ->]. by eexists.
Qed.

Lemma exit_files_eff p (s s' : sys R) :
  exit_files p s = Ret tt s' ->
  p <> initproc s /\ lks s' = lks s /\ frame s s' /\ exists f, private f /\ procs s' = alter f p (procs s).
Proof.
  intros E. unfold exit_files in E. rewrite bind_gets in E. destruct (decide (p = initproc s)) as [|Hp]; [done|].
  split; [done|]. unfold getp in E. rewrite bind_gets in E. apply bind_inv in E as (fs&t&E1&E).
  apply close_files_eff in E1 as [r1 ->]. apply bind_inv in E as ([]&t1&E1&E). injection E1 as <-.
  apply bind_inv in E as ([]&t2&E1&E). apply sv_inv in E1 as (r2&->).
  apply bind_inv in E as ([]&t3&E1&E). apply sv_inv in E1 as (r3&->).
  apply bind_inv in E as ([]&t4&E1&E). apply sv_inv in E1 as (r4&->).
  apply bind_inv in E as ([]&t5&E1&E). injection E1 as <-.
  apply bind_inv in E as (r&t6&E1&E). apply sv_inv in E1 as (r5&->). unfold assert_panic in E.
  destruct (r =? 0); [|done]. injection E as <-. cbn. split; [done|]. split; [done|].
  exists (set_cwd 0 ∘ set_ofile fs). rewrite list_alter_alter_eq. split; [|done]. by intros q.
Qed.

Lemma exiting_ok c p s m k b s' :
  winv (KW s m k b) -> (c < n)%nat -> m c = Run p -> k p = Kernel -> exit_files p s = Ret tt s' ->
  winv (KW s' m (upd k p Exiting) b).
Proof.
  intros Hi Hc Hm Hk E. apply exit_files_eff in E as (Hpi&Hl&F&f&Hf&P).
  pose proof (own_ok c p f s s' m k b Hi Hc Hm Hf Hl F P) as Hi'.
  destruct Hi' as [I1 I2 I3 I4 I5 I6]. split; try done.
  - cbn [ks md pcs] in *. eapply pinv_ext; [| | | |apply (pinv_continue n _ _ _ _ _ _ I2 c p Exiting (chf s' p))];
      try done; try (by rewrite Hm); try (by intros []).
    + intros q. symmetry. by apply upd_same.
    + intros d. symmetry. by apply upd_same.
  - cbn [ks pcs] in *. intros q. destruct F as [_ ->]. destruct (upd_cases k p Exiting q) as [[-> ->]|[_ ->]]; [done|].
    destruct Hi. cbn in *. auto.
Qed.

Lemma irq_ok c e s m k b :
  winv (KW s m k b) -> (c < n)%nat -> locked_mode (m c) = false ->
  winv (KW (with_lks (with_cpu c (let x := cpuat c (lks s) in Cpu (ncli x) (intena x) e (cproc x)) (lks s)) s) m k b).
Proof.
  intros Hi Hc Hm. pose proof (cpu_lt s m k b c Hi Hc) as Hlt. destruct Hi as [[L1 L2 L3 L4 L5] I2 I3 I4 I5 I6].
  cbn [ks md pcs born] in *. split; try done. cbn [ks md lks with_lks]. split; try done.
  - by rewrite length_with.
  - intros d Hd. destruct (decide (d = c)) as [->|Hne].
    + rewrite cpuat_with by done. cbn. destruct (L2 c Hc) as [E1 E2]. rewrite Hm in *. done.
    + unfold cpuat. cbn. rewrite list_lookup_total_insert_ne by done. by apply L2.
Qed.

Lemma kstep_ok w w' : winv w -> kstep w w' -> winv w'.
Proof.
  intros Hi Hs. destruct Hs.
  - by eapply enter_ok.
  - by eapply pick_ok.
  - by eapply round_ok.
  - destruct (at_inside _ c Hi) as [Hin Hp]; [done|by cbn; rewrite H0|]. cbn [ks md] in *. rewrite H0 in Hp.
    apply forkret_eff in H2 as (M&P&F); [|done]. rewrite Hp in M.
    apply (continue_ok c p s m k b s' CNone); [done|done|by rewrite H0|by rewrite H0|done|by left].
  - destruct (at_inside _ c Hi) as [Hin Hp]; [done|by cbn; rewrite H0|]. cbn [ks md] in *. rewrite H0 in Hp.
    apply yield_in_eff in H2 as (M&P&F); [|done]. rewrite Hp in M.
    apply (continue_ok c p s m k b s' CNone); [done|done|by rewrite H0|by rewrite H0|done|by left].
  - destruct (at_inside _ c Hi) as [Hin Hp]; [done|by cbn; rewrite H0|]. cbn [ks md] in *. rewrite H0 in Hp.
    pose proof (pi_resume _ _ _ _ _ _ _ (wi_tab _ Hi) c p H) as Hk. cbn in Hk. rewrite H0, H1 in Hk. specialize (Hk eq_refl).
    apply sleep_in_eff in H2 as (M&P&F); [|done|done|by apply (lv_other _ _ _ (wi_lock _ Hi))]. rewrite Hp in M.
    apply (continue_ok c p s m k b s' CNone); [done|done|by rewrite H0|by rewrite H0|done|by right].
  - by eapply (wait_again_ok c p ie s m k b s' (Returned v)).
  - by eapply (wait_again_ok c p ie s m k b s' (Asleep ie')).
  - by eapply yield_ok.
  - by eapply sleep_ok.
  - by eapply (wait_ok c p s m k b s' (Asleep ie)).
  - by eapply exit_ok.
  - by eapply (wait_ok c p s m k b s' (Returned v)).
  - by eapply kill_ok.
  - by eapply wakeup_safe.
  - by eapply fork_ok.
  - by eapply fork_full_ok.
  - by eapply fork_body_ok.
  - by eapply fork_done_ok.
  - by eapply exiting_ok.
  - by eapply own_ok.
  - by eapply irq_ok.
Qed.

(** ** Boot *)

(** The kernel when main calls [userinit] on the boot processor. *)
Definition boot (r : R) : sys R :=
  Sys (Locking (replicate n (Cpu 0 false false None)) (fun _ => Spin false None))
      (replicate NPROC zero_pcb) 1 0 true r.

(** The world after [userinit]: init is ready for its first run. *)
Definition booted (s : sys R) : kworld := KW s (fun _ => Idle) (upd (fun _ => Dead) 0%nat Fresh) 1.

Lemma replicate_total i : replicate NPROC zero_pcb !!! i = zero_pcb.
Proof.
  rewrite list_lookup_total_alt. destruct (replicate NPROC zero_pcb !! i) eqn:E; [|done].
  by apply lookup_replicate in E as [-> _].
Qed.

(** [userinit] makes slot 0 runnable and nothing else. *)
Lemma userinit_eff c r s :
  (c < n)%nat -> userinit c (boot r) = Ret tt s ->
  moves c false false None (lks (boot r)) (lks s) /\ nextpid s = 2 /\ initproc s = 0%nat /\
  exists f, procs s = alter f 0%nat (replicate NPROC zero_pcb) /\
    (forall q, state (f q) = RUNNABLE /\ pid (f q) = 1 /\ parent (f q) = parent q /\ chan (f q) = chan q).
Proof.
  intros Hc E.
  assert (Ho : outside c (boot r)).
  { unfold outside, boot, cpuat. cbn. rewrite length_replicate, lookup_total_replicate_2 by done. done. }
  assert (A : cproc (cpuat c (lks (boot r))) = None) by (unfold cpuat; cbn; by rewrite lookup_total_replicate_2).
  unfold userinit, allocproc in E. rewrite bind_bind in E. apply bind_inv in E as (x&t&E1&E).
  apply allocproc_slot_eff in E1 as (M1&Fi1&W1); [|done]. rewrite A in M1.
  destruct x as [i|]; [|by kinv]. destruct W1 as (Ef&Hlt&Hu&P1&Fn1). injection Ef as <-.
  rewrite bind_bind in E. apply bind_inv in E as (bk&t2&E2&E). unfold allocproc_stack in E2. kinv.
  match goal with H : context [set_state UNUSED] |- _ => destruct (_ =? 0) in H; kinv end.
  cbv iota in *. unfold set_initproc in *. kinv.
  match goal with H : context [panic] |- _ => destruct (_ =? 0) in H; [done|] end. kinv.
  pose proof (moves_at _ _ _ _ _ _ (proj1 Ho) M1) as (C1&A1&G1&_).
  match goal with H : make_runnable _ _ _ = _ |- _ => apply make_runnable_eff in H as (M2&P2&Fn2&Fi2); [|done] end.
  cbn [lks procs nextpid initproc] in *. rewrite A1 in M2. split; [by eapply moves_trans|].
  split; [by rewrite Fn2, Fn1|]. split; [done|]. rewrite P2, P1, !list_alter_alter_eq.
  eexists. split; [reflexivity|]. intros q. done.
Qed.

Lemma boot_ok c r s : (c < n)%nat -> userinit c (boot r) = Ret tt s -> winv (booted s).
Proof.
  intros Hc E. apply userinit_eff in E as (M&Fn&Fi&f&P&Hf); [|done].
  assert (Hat : forall q, procs s !!! q = if decide (q = 0%nat) then f zero_pcb else zero_pcb).
  { intros q. rewrite P, alter_total, !replicate_total by (rewrite length_replicate; unfold NPROC; lia). done. }
  destruct (Hf zero_pcb) as (F1&F2&F3&F4).
  assert (Hst : forall q, stf s q = if decide (q = 0%nat) then RUNNABLE else UNUSED).
  { intros q. unfold stf. rewrite Hat. by destruct (decide (q = 0%nat)). }
  assert (Hpar : forall q, parf s q = None) by (intros q; unfold parf; rewrite Hat; by destruct (decide (q = 0%nat))).
  split; cbn [booted ks md pcs born].
  - eapply (linv_ext _ (upd (fun _ => Idle) c Idle)); [intros d; symmetry; by apply upd_same|].
    apply (linv_moves n (lks (boot r))); [|done|done].
    split; cbn; [apply length_replicate| |done|done|done].
    intros d Hd. unfold cpuat. cbn. by rewrite lookup_total_replicate_2.
  - split.
    + intros p. rewrite Hst. destruct (decide (p = 0%nat)); split; try done; by intros (d&_&?).
    + done.
    + intros p. rewrite Hst. by destruct (decide (p = 0%nat)).
    + intros p. rewrite Hst. destruct (decide (p = 0%nat)) as [->|]; [|done]. by rewrite fupd_eq.
    + done.
    + done.
    + intros p np. rewrite Hst. by destruct (decide (p = 0%nat)).
    + intros p p' np. rewrite Hst. by destruct (decide (p = 0%nat)).
    + intros p q ie. rewrite Hst. by destruct (decide (p = 0%nat)).
    + intros p q. by rewrite Hpar.
    + rewrite Fi, Hst. by right; left.
    + apply Hpar.
    + intros p. by rewrite Hpar.
  - rewrite P, length_alter. apply length_replicate.
  - intros _ _. split; [done|]. split; intros q; rewrite Hst, Hat; destruct (decide (q = 0%nat)) as [->|]; try done.
    + rewrite F2. lia.
    + intros q' _. rewrite Hst. by destruct (decide (q' = 0%nat)) as [->|].
  - lia.
  - intros p. unfold upd. by destruct (decide (p = 0%nat)).
Qed.

(** ** What the invariant gives *)

(** The states of the kernel after [userinit] ran on processor [c]. *)
Definition reachable (c : nat) (r : R) (w : kworld) : Prop :=
  (c < n)%nat /\ exists s, userinit c (boot r) = Ret tt s /\ rtc kstep (booted s) w.

Lemma reachable_inv c r w : reachable c r w -> winv w.
Proof.
  intros (Hc&s&E&Hr). eapply (rtc_preserves kstep winv); [apply kstep_ok|by eapply boot_ok|done].
Qed.

(** A process exists and is not a zombie. *)
Definition alive (s : sys R) (p : nat) : Prop := running_code (stf s p).

(** C2: The process table stays consistent in every interleaving: a process is
    RUNNING exactly when some processor runs it, and then only one does; the
    parent of every process is a process that has not exited; init never goes
    away; and as long as fewer than 2^31 - 1 processes were created, no two
    processes have the same id. *)
Theorem process_table_safe c r w :
  reachable c r w ->
  let s := ks w in
  (forall p, stf s p = RUNNING <-> exists d, (d < n)%nat /\ cproc (cpuat d (lks s)) = Some p) /\
  (forall d d' p, (d < n)%nat -> (d' < n)%nat ->
     cproc (cpuat d (lks s)) = Some p -> cproc (cpuat d' (lks s)) = Some p -> d = d') /\
  (forall p q, parf s q = Some p -> alive s p) /\
  alive s (initproc s) /\
  (born w < 2 ^ 31 - 1 -> forall q q', stf s q <> UNUSED -> stf s q' <> UNUSED ->
     pid (procs s !!! q) = pid (procs s !!! q') -> q = q').
Proof.
  intros Hr. cbv zeta. apply reachable_inv in Hr as [I1 I2 I3 I4 I5 I6].
  assert (Hcp : forall d, (d < n)%nat -> cproc (cpuat d (lks (ks w))) = mproc (md w d)) by (intros d Hd; by apply I1).
  split_and!.
  - intros p. rewrite (pi_run _ _ _ _ _ _ _ I2 p). split; intros (d&Hd&E); exists d; (split; [done|]); rewrite <- E;
      [|symmetry]; by apply Hcp.
  - intros d d' p Hd Hd'. rewrite !Hcp by done. by apply (pi_one _ _ _ _ _ _ _ I2).
  - apply (pi_par _ _ _ _ _ _ _ I2).
  - apply (pi_init _ _ _ _ _ _ _ I2).
  - intros Hb. by apply (I4 I5 Hb).
Qed.

(** C6: No parent sleeps while it has something to collect: a process asleep in
    [wait] has no zombie child, so the wakeup of [exit] and of the reparenting
    to init is never lost, however [wait], [exit] and [kill] interleave. *)
Theorem no_lost_zombie c r w p q :
  reachable c r w -> stf (ks w) p = SLEEPING -> chf (ks w) p = CProc p -> parf (ks w) q = Some p ->
  stf (ks w) q <> ZOMBIE.
Proof.
  intros Hr Hs Hc Hq. apply reachable_inv in Hr as [I1 I2 I3 I4 I5 I6].
  destruct (pi_sleep _ _ _ _ _ _ _ I2 p Hs) as [(ie&Hk&_)|(l&ie&a&_&_&E)]; [|congruence].
  by eapply (pi_wait _ _ _ _ _ _ _ I2 p q ie).
Qed.

(** The routines that load page tables return. *)
Definition switches_return : Prop :=
  (forall j r, exists r', switchuvm j r = Ret tt r') /\ (forall r, exists r', switchkvm r = Ret tt r').

Lemma take_ok c (s : sys R) :
  outside c s -> locks (lks s) ptable_lock = Spin false None -> exists s', take_ptable c s = Ret tt s'.
Proof.
  intros [Hc Hf] Hl. destruct (acquire_ok c ptable_lock (lks s) Hc) as [l E]; [cbn in Hf; lia|done|].
  exists (with_lks l s). by apply zoom_Ret.
Qed.

Lemma drop_ok c (s : sys R) : inside c s -> exists s', drop_ptable c s = Ret tt s'.
Proof.
  intros (Hc&[Hn Hif]&Hl). destruct (release_ok c ptable_lock (lks s) Hc Hif) as [l E]; [lia|done|].
  exists (with_lks l s). by apply zoom_Ret.
Qed.

Lemma sched_out_ok c p (s : sys R) :
  switches_return -> inside c s -> state (procs s !!! p) <> RUNNING -> exists ie s', sched_out c p s = Ret ie s'.
Proof.
  intros [_ Hk] Hin Hs. rewrite sched_out_run by done. rewrite decide_False by done. cbv zeta.
  unfold sv. edestruct (Hk (res s)) as [r' E]. erewrite bind_Ret by (apply zoom_Ret; exact E). by eexists _, _.
Qed.

Lemma reparent_ok p js : forall s : sys R,
  exists s', reparent p js s = Ret tt s' /\ lks s' = lks s /\ length (procs s') = length (procs s).
Proof.
  induction js as [|i js IH]; intros s; cbn [reparent]; [by eexists|]. unfold getp. rewrite !bind_gets.
  destruct (decide _); [|apply IH].
  destruct (decide _); (edestruct IH as (s'&E&El&En); exists s'; split; [exact E|split; [exact El|]]);
    rewrite En; cbn [procs]; by rewrite ?length_fmap, length_alter.
Qed.


(** ** wait *)

(** What [wait] of [p] may do to the table. *)
Definition wait_spec (t : list pcb) (p : nat) (r : waited) (t' : list pcb) : Prop :=
  match r with
  | Returned v =>
      (v = -1 /\ t' = t /\ (forall i, parent (t !!! i) = Some p -> state (t !!! i) <> ZOMBIE) /\
       (killed (t !!! p) = true \/ forall i, parent (t !!! i) <> Some p)) \/
      (exists i, parent (t !!! i) = Some p /\ state (t !!! i) = ZOMBIE /\
         (forall j, (j < i)%nat -> parent (t !!! j) = Some p -> state (t !!! j) <> ZOMBIE) /\
         v = pid (t !!! i) /\ t' = alter reaped i t)
  | Asleep _ =>
      (forall i, parent (t !!! i) = Some p -> state (t !!! i) <> ZOMBIE) /\
      (exists i, parent (t !!! i) = Some p) /\ killed (t !!! p) = false /\
      t' = alter (set_state SLEEPING) p (alter (set_chan (CProc p)) p t)
  end.

Lemma seq_split a len js1 i js2 : seq a len = js1 ++ i :: js2 -> js1 = seq a (i - a) /\ (a <= i)%nat.
Proof.
  revert a len. induction js1 as [|j js1 IH]; intros a [|len] E; cbn in E; try done; injection E as E1 E.
  - subst. by rewrite Nat.sub_diag.
  - destruct (IH (S a) len E) as [E' Hle]. subst j. split; [|lia]. replace (i - a)%nat with (S (i - S a)) by lia.
    cbn. by rewrite <- E'.
Qed.

Definition frees_return : Prop :=
  (forall k r, exists r', kfree k r = Ret tt r') /\ (forall k r, exists r', freevm k r = Ret tt r').

Lemma wait_scan_ok c p js : forall hk (s : sys R),
  switches_return -> frees_return -> inside c s -> (p < length (procs s))%nat ->
  exists r s', wait_scan c p js hk s = Ret r s'.
Proof.
  induction js as [|i js IH]; intros hk s Hsw Hfr Hin Hp; cbn [wait_scan]; unfold getp; rewrite bind_gets.
  - destruct (_ || _).
    + destruct (drop_ok c s Hin) as [s' E]. rewrite (bind_Ret _ _ _ _ _ E). by eexists _, _.
    + unfold sleep_out. rewrite Z.eqb_refl, !bind_bind, bind_mret.
      destruct (sched_out_ok c p (Sys (lks s) (alter (set_state SLEEPING) p (alter (set_chan (CProc p)) p (procs s)))
        (nextpid s) (initproc s) (first s) (res s))) as (ie&s'&E); [done|done| |].
      { cbn [procs]. rewrite list_alter_alter_eq, alter_total by done. by rewrite decide_True. }
      exists (Asleep ie), s'. unfold setp, set_procs. repeat (rewrite bind_bind || rewrite bind_modify).
      erewrite bind_Ret; [|exact E]. done.
  - destruct (decide _); [|by apply IH]. destruct (decide _); [|by apply IH].
    destruct Hfr as [Hk Hv]. unfold reap, getp. rewrite !bind_bind, bind_gets. unfold sv.
    edestruct Hk as [r1 E1]. erewrite bind_bind, bind_Ret by (apply zoom_Ret; exact E1).
    unfold setp, set_procs. rewrite !bind_bind, bind_modify, bind_bind.
    edestruct Hv as [r2 E2]. erewrite bind_Ret by (apply zoom_Ret; exact E2). rewrite bind_bind, bind_modify, bind_bind.
    edestruct (drop_ok c) as [s3 E3]; [|rewrite (bind_Ret _ _ _ _ _ E3)]; [exact Hin|]. by eexists _, _.
Qed.

(** [wait] collects the zombie child in the lowest slot and returns its id,
    freeing exactly that slot; it returns -1 exactly when there is no zombie
    child and the process was killed or has no child at all; otherwise it goes
    to sleep on its own slot.  It always does one of the three. *)
Theorem wait_collects c p (s : sys R) :
  outside c s -> locks (lks s) ptable_lock = Spin false None -> length (procs s) = NPROC -> (p < NPROC)%nat ->
  switches_return -> frees_return ->
  exists r s', wait c p s = Ret r s' /\ wait_spec (procs s) p r (procs s').
Proof.
  intros Ho Hl Hlen Hp Hsw Hfr. unfold wait. destruct (take_ok c s Ho Hl) as [t Et]. rewrite (bind_Ret _ _ _ _ _ Et).
  apply take_eff in Et as (M&P&F); [|done]. pose proof (moves_inside _ _ _ _ _ (proj1 Ho) M) as Hin.
  destruct (wait_scan_ok c p (seq 0 NPROC) false t Hsw Hfr Hin) as (r&s'&E); [by rewrite P, Hlen|].
  exists r, s'. split; [done|]. apply wait_scan_eff in E as (_&W); [|done|apply scan_range; by rewrite P].
  assert (Hall : forall js i, (forall j, (j < i)%nat -> j ∈ js) -> no_zombie (procs t) p js ->
    forall j, (j < i)%nat -> parent (procs s !!! j) = Some p -> state (procs s !!! j) <> ZOMBIE).
  { intros js i Hjs Hn j Hj Hpj. rewrite <- P. apply Hn. rewrite P. split; [by apply Hjs|done]. }
  assert (Hno : no_zombie (procs t) p (seq 0 NPROC) -> forall j, parent (procs s !!! j) = Some p -> state (procs s !!! j) <> ZOMBIE).
  { intros Hn j Hj. apply (no_zombie_all s p j Hlen); [by rewrite <- P|done]. }
  destruct r as [v|ie]; cbn [wait_result wait_spec] in *.
  - destruct W as (_&[(Ev&P1&Hn&Hc)|(js1&i&js2&Ejs&Hn&Hpar&Hz&Ev&P1)]); [left|right].
    + split; [done|]. split; [congruence|]. split; [by apply Hno|]. rewrite P in Hc. destruct Hc as [Hc|[_ Hc]]; [by left|right].
      intros i Hi. apply (Hc i). split; [|done]. apply (all_slots s); [done|]. unfold parf. by rewrite Hi.
    + exists i. rewrite P in *. split; [done|]. split; [done|]. split; [|by split].
      apply seq_split in Ejs as [-> _]. apply (Hall (seq 0 (i - 0)) i); [|done].
      intros j Hj. apply elem_of_seq. lia.
  - destruct W as (_&Hk&Hc&Hn&P1). rewrite P in *. split; [by apply Hno|]. split; [|done].
    destruct Hc as [|(i&_&Hi)]; [done|]. by exists i.
Qed.

End world.

(** ** A concrete kernel

    One processor and services that always succeed, except that setting up the
    swap area of a new process fails when the state is [false]. *)

#[local] Instance demo_services : Services bool := {
  kalloc := mret 4096;
  kfree := fun _ => mret ();
  setupkvm := mret 8192;
  inituvm := fun _ => mret ();
  copyuvm := fun _ _ => mret 12288;
  allocuvm := fun _ _ n => mret n;
  deallocuvm := fun _ _ n => mret n;
  freevm := fun _ => mret ();
  switchuvm := fun _ => mret ();
  switchkvm := mret ();
  initSwap := fun _ _ ok => Ret (if ok : bool then 0 else -1) ok;
  destroySwap := fun _ => mret 0;
  filedup := fun f => mret f;
  fileclose := fun _ => mret ();
  idup := fun ip => mret ip;
  iput := fun _ => mret ();
  namei_root := mret 77;
  begin_op := mret ();
  end_op := mret ();
  iinit := mret ();
  initlog := mret ();
  trapret := 100;
  forkret_addr := 200;
}.

Definition ran {A} (m : kern (sys bool) A) (s : sys bool) : sys bool :=
  match m s with Ret _ s' => s' | _ => s end.

(** Boot, and run init until it has forked a child and waits for it. *)
Definition d0 : sys bool := ran (userinit 0) (boot 1 true).
Definition d1 := ran (scheduler_enter 0) d0.
Definition d2 := ran (scheduler_scan 0 0) d1.
Definition d3 := ran (forkret 0) d2.
Definition d4 := ran (allocproc_slot 0) d3.
Definition d5 := ran (fork_body 0 1) d4.
Definition d6 := ran (make_runnable 0 1) d5.
Definition d7 := ran (wait 0 0) d6.

Definition m0 : nat -> mode := fun _ => Idle.
Definition m1 := upd m0 0%nat (Scan 0).
Definition m2 := upd m1 0%nat (Resume 0).
Definition m3 := upd m2 0%nat (Run 0).
Definition m4 := upd m3 0%nat (Run 0).
Definition m6 := upd m4 0%nat (Run 0).
Definition m7 := upd m6 0%nat (Scan 1).
Definition k0 : nat -> pc := upd (fun _ => Dead) 0%nat Fresh.
Definition k3 := upd k0 0%nat Kernel.
Definition k4 := upd k3 0%nat (Forking 1).
Definition k5 := upd k4 0%nat (Forked 1).
Definition k6 := upd (upd k5 0%nat Kernel) 1%nat Fresh.
Definition k7 := upd k6 0%nat (InWait true).

Definition asleep : kworld := KW d7 m7 k7 2.

Ltac computed := vm_compute; reflexivity.

Lemma asleep_reachable : reachable 1 0 true asleep.
Proof.
  split; [lia|]. exists d0. split; [computed|].
  eapply rtc_l; [apply (k_enter 1 0 d0 m0 k0 1 d1); [lia|reflexivity|computed]|].
  eapply rtc_l; [apply (k_pick 1 0 0 0 d1 m1 k0 1 d2); [lia|reflexivity|computed]|].
  eapply rtc_l; [apply (k_forkret 1 0 0 d2 m2 k0 1 d3); [lia|reflexivity|reflexivity|computed]|].
  eapply rtc_l; [apply (k_fork 1 0 0 1 d3 m3 k3 1 d4); [lia|reflexivity|reflexivity|computed]|].
  eapply rtc_l; [apply (k_fork_body 1 0 0 1 true d4 m4 k4 2 d5); [lia|reflexivity|reflexivity|computed]|].
  eapply rtc_l; [apply (k_fork_done 1 0 0 1 d5 m4 k5 2 d6); [lia|reflexivity|reflexivity|computed]|].
  eapply rtc_l; [apply (k_wait_sleep 1 0 0 true d6 m6 k6 2 d7); [lia|reflexivity|reflexivity|computed]|].
  apply rtc_refl.
Qed.

Lemma process_table_safe_witness :
  reachable 1 0 true asleep /\ stf (ks asleep) 1 = RUNNABLE /\ alive (ks asleep) (initproc (ks asleep)).
Proof.
  split; [exact asleep_reachable|]. split; [computed|].
  exact (proj1 (proj2 (proj2 (proj2 (process_table_safe 1 0 true asleep asleep_reachable))))).
Defined.

Lemma no_lost_zombie_witness : stf (ks asleep) 0 = SLEEPING /\ stf (ks asleep) 1 <> ZOMBIE.
Proof.
  assert (H : stf (ks asleep) 0 = SLEEPING) by computed. split; [exact H|].
  apply (no_lost_zombie 1 0 true asleep 0 1 asleep_reachable H); computed.
Defined.

Lemma demo_switches : switches_return.
Proof. split; intros; by eexists. Qed.


Lemma demo_frees : frees_return.
Proof. split; intros; by eexists. Qed.

Lemma wait_collects_witness :
  exists r s', wait 0 0 d6 = Ret r s' /\ wait_spec (procs d6) 0 r (procs s').
Proof.
  apply (wait_collects 0 0 d6); [|computed|computed|unfold NPROC; lia|exact demo_switches|exact demo_frees].
  split; [vm_compute; lia|computed].
Defined.

(** ** Failures

    [e3] is init running on a kernel whose swap area cannot be set up. *)
Definition e0 : sys bool := ran (userinit 0) (boot 1 false).
Definition e3 := ran (forkret 0) (ran (scheduler_scan 0 0) (ran (scheduler_enter 0) e0)).

(** A failed [fork] can hang a later [wait].  When the swap area of the child
    cannot be set up, [fork] returns -1 and frees the slot but leaves the
    parent field set; a [wait] of the parent then counts the free slot as a
    child and goes to sleep, although no other process exists. *)
Theorem failed_fork_hangs_wait :
  exists s s' ie, fork 0 0 e3 = Ret (-1) s /\ (forall q, q <> 0%nat -> state (procs s !!! q) = UNUSED) /\
    wait 0 0 s = Ret (Asleep ie) s'.
Proof.
  exists (ran (fork 0 0) e3), (ran (wait 0 0) (ran (fork 0 0) e3)), true. split; [computed|]. split; [|computed].
  assert (Hall : Forall (fun q => state q = UNUSED) (tail (procs (ran (fork 0 0) e3)))).
  { apply (bool_decide_unpack _). computed. }
  intros [|q] Hq; [done|]. destruct (procs (ran (fork 0 0) e3)) as [|x t] eqn:E; [done|]. cbn [tail] in Hall.
  change ((x :: t) !!! S q) with (t !!! q). rewrite list_lookup_total_alt. destruct (t !! q) as [y|] eqn:Ey; [|done]. by eapply (Forall_lookup_1 _ _ _ _ Hall).
Qed.

(** [kill(0)] succeeds and strikes a process that does not exist yet: id 0 is
    the id of free slots, [kill] marks one of them, and the next process created
    in it starts out killed. *)
Theorem kill_zero_kills_next_child :
  exists s s' , kill 0 0 d3 = Ret 0 s /\ fork 0 0 s = Ret 2 s' /\ killed (procs s' !!! 1%nat) = true.
Proof. eexists (ran (kill 0 0) d3), (ran (fork 0 0) (ran (kill 0 0) d3)). split_and!; computed. Qed.
