(* ===== verification/Syscall.v ===== *)
(** System call arguments and dispatch (syscall.c).

    The kernel reads arguments from the user stack of the calling process and
    checks every pointer against the size of its memory. *)

From S2P Require Import Prelude Memory CString.

(** What system calls see of the calling process: its memory, its size, the
    saved stack pointer and %eax, and its id. *)
Record uproc := Uproc { u_mem : Z -> Z; u_sz : Z; u_esp : Z; u_eax : Z; u_pid : Z }.

Definition set_mem (m : Z -> Z) (u : uproc) : uproc := Uproc m (u_sz u) (u_esp u) (u_eax u) (u_pid u).
Definition set_eax (v : Z) (u : uproc) : uproc := Uproc (u_mem u) (u_sz u) (u_esp u) v (u_pid u).

(** The little-endian word at [addr]. *)
Definition word_at (m : Z -> Z) (addr : Z) : Z :=
  m addr + 2 ^ 8 * m (addr + 1) + 2 ^ 16 * m (addr + 2) + 2 ^ 24 * m (addr + 3).

(** [None] is the return value -1. *)
Definition fetchint (u : uproc) (addr : Z) : option Z :=
  if (u_sz u <=? addr) || (u_sz u <? u32 (addr + 4)) then None
  else Some (i32 (word_at (u_mem u) addr)).

(** The scan for the terminating NUL below [ep]: the string. *)
Fixpoint fetchstr_loop (n : nat) (m : Z -> Z) (s : Z) : option (list Z) :=
  match n with
  | O => None
  | S n =>
      if m s =? 0 then Some []
      else match fetchstr_loop n m (s + 1) with Some l => Some (m s :: l) | None => None end
  end.

(** The string at [addr]; the return value is its length. *)
Definition fetchstr (u : uproc) (addr : Z) : option (list Z) :=
  if u_sz u <=? addr then None
  else fetchstr_loop (Z.to_nat (u_sz u - addr)) (u_mem u) addr.

Definition argint (u : uproc) (n : Z) : option Z := fetchint u (u32 (u_esp u + 4 + 4 * n)).

Definition argptr (u : uproc) (n size : Z) : option Z :=
  i ← argint u n;
  if (size <? 0) || (u_sz u <=? u32 i) || (u_sz u <? u32 (u32 i + size)) then None
  else Some (u32 i).

Definition argstr (u : uproc) (n : Z) : option (list Z) :=
  addr ← argint u n;
  fetchstr u (u32 addr).

(** ** Dispatch *)

Inductive sysname :=
| sys_fork | sys_exit | sys_wait | sys_pipe | sys_read | sys_kill | sys_exec | sys_fstat | sys_chdir
| sys_dup | sys_getpid | sys_sbrk | sys_sleep | sys_uptime | sys_open | sys_write | sys_mknod
| sys_unlink | sys_link | sys_mkdir | sys_close.

(** The table [syscalls], indexed by call number. *)
Definition syscalls : list (option sysname) :=
  [None; Some sys_fork; Some sys_exit; Some sys_wait; Some sys_pipe; Some sys_read; Some sys_kill; Some sys_exec;
   Some sys_fstat; Some sys_chdir; Some sys_dup; Some sys_getpid; Some sys_sbrk; Some sys_sleep; Some sys_uptime;
   Some sys_open; Some sys_write; Some sys_mknod; Some sys_unlink; Some sys_link; Some sys_mkdir; Some sys_close].

Section dispatch.
Context {S : Type} (getu : S -> uproc) (setu : uproc -> S -> S) (run : sysname -> kern S Z).

Definition syscall : kern S unit :=
  u ← gets getu;
  let num := i32 (u_eax u) in
  if (0 <? num) && (num <? Z.of_nat (length syscalls)) then
    match syscalls !! Z.to_nat num with
    | Some (Some f) =>
        v ← run f;
        modify (fun s => setu (set_eax (u32 v) (getu s)) s)
    | _ => modify (fun s => setu (set_eax (u32 (-1)) (getu s)) s)
    end
  else modify (fun s => setu (set_eax (u32 (-1)) (getu s)) s).

End dispatch.

(** ** Every access stays inside the process *)

(** The size of user memory is below the kernel. *)
Definition usize_ok (u : uproc) : Prop := 0 <= u_sz u < 2 ^ 31.

Lemma fetchint_in u addr v :
  usize_ok u -> is_u32 addr -> fetchint u addr = Some v -> addr + 4 <= u_sz u /\ v = i32 (word_at (u_mem u) addr).
Proof.
  unfold usize_ok, is_u32. intros Hu Ha. unfold fetchint. destruct (Z.leb_spec (u_sz u) addr); [done|]. cbn [orb].
  destruct (Z.ltb_spec (u_sz u) (u32 (addr + 4))) as [|Hlt]; [done|]. intros [=<-].
  rewrite u32_id in Hlt by (unfold is_u32; lia). done.
Qed.

Lemma fetchstr_loop_spec n m : forall s l,
  fetchstr_loop n m s = Some l ->
  (length l < n)%nat /\ m (s + Z.of_nat (length l)) = 0 /\
  (forall i c, l !! i = Some c -> c = m (s + Z.of_nat i) /\ c <> 0).
Proof.
  induction n as [|n IH]; intros s l E; cbn in E; [done|]. destruct (Z.eqb_spec (m s) 0) as [Ez|Ez].
  - injection E as <-. cbn. split; [lia|]. split; [by rewrite Z.add_0_r|done].
  - destruct (fetchstr_loop n m (s + 1)) as [l'|] eqn:El; [|done]. injection E as <-. apply IH in El as (H1&H2&H3).
    cbn. split; [lia|]. split; [by rewrite <- H2; f_equal; lia|]. intros [|i] c Hc; cbn in Hc.
    + injection Hc as <-. by rewrite Z.add_0_r.
    + destruct (H3 i c Hc) as [-> Hn]. split; [f_equal; lia|done].
Qed.

(** And finds a string that is there. *)
Lemma fetchstr_loop_find m l : forall n s,
  (length l < n)%nat -> m (s + Z.of_nat (length l)) = 0 ->
  (forall i c, l !! i = Some c -> c = m (s + Z.of_nat i) /\ c <> 0) -> fetchstr_loop n m s = Some l.
Proof.
  induction l as [|c l IH]; intros [|n] s Hn Hz Hl; cbn in *; try lia.
  - rewrite Z.add_0_r in Hz. by rewrite Hz.
  - destruct (Hl 0%nat c eq_refl) as [-> Hc]. cbn in *. rewrite Z.add_0_r in *.
    rewrite (proj2 (Z.eqb_neq _ _) Hc). rewrite (IH n (s + 1)); [done|lia| |].
    + rewrite <- Hz. f_equal. lia.
    + intros i d Hd. destruct (Hl (S i) d Hd) as [-> Hn']. split; [f_equal; lia|done].
Qed.

(** C39: Pointer arguments are checked without overflow: a pointer is accepted
    exactly when the argument word and all [size] bytes it points to lie below
    the size of the process, for every 32-bit pointer and size the user passes. *)
Theorem argptr_bounds u n size :
  usize_ok u -> is_u32 (u_esp u) -> 0 <= n < 32 -> - 2 ^ 31 <= size < 2 ^ 31 ->
  forall p, argptr u n size = Some p <->
    (let a := u32 (u_esp u + 4 + 4 * n) in
     a + 4 <= u_sz u /\ p = u32 (i32 (word_at (u_mem u) a)) /\ 0 <= size /\ p < u_sz u /\ p + size <= u_sz u).
Proof.
  intros Hu Hesp Hn Hsize p. unfold argptr, argint. cbv zeta. set (a := u32 (u_esp u + 4 + 4 * n)).
  assert (Ha : is_u32 a) by apply u32_range. unfold usize_ok in Hu.
  destruct (fetchint u a) as [v|] eqn:E; cbn [mbind option_bind].
  - apply fetchint_in in E as [Hle ->]; [|done|done]. remember (u32 (i32 (word_at (u_mem u) a))) as i eqn:Ei.
    assert (Hi : is_u32 i) by (subst i; apply u32_range). unfold is_u32 in Hi.
    destruct (Z.ltb_spec size 0); cbn [orb]; [split; [done|lia]|].
    destruct (Z.leb_spec (u_sz u) i); cbn [orb]; [split; [done|lia]|].
    assert (Hs : u32 (i + size) = i + size) by (apply u32_id; unfold is_u32; lia). rewrite Hs.
    destruct (Z.ltb_spec (u_sz u) (i + size)); [split; [done|lia]|].
    split; [intros [=<-]; split_and!; done || lia|]. by intros (_&->&_).
  - split; [done|]. intros (Hle&_). exfalso. unfold fetchint in E. unfold is_u32 in Ha.
    rewrite (proj2 (Z.leb_gt _ _)) in E by lia. rewrite u32_id in E by (unfold is_u32; lia).
    rewrite (proj2 (Z.ltb_ge _ _)) in E by lia. done.
Qed.

(** String arguments are accepted exactly when they end inside the process: the
    result is the bytes up to the first NUL, which lies below the size of the
    process. *)
Theorem fetchstr_bounds u addr l :
  usize_ok u -> is_u32 addr ->
  fetchstr u addr = Some l <->
    (addr + Z.of_nat (length l) < u_sz u /\ u_mem u (addr + Z.of_nat (length l)) = 0 /\
     forall i c, l !! i = Some c -> c = u_mem u (addr + Z.of_nat i) /\ c <> 0).
Proof.
  unfold usize_ok, is_u32. intros Hu Ha. unfold fetchstr. destruct (Z.leb_spec (u_sz u) addr) as [Hge|Hlt].
  - split; [done|]. intros (?&_). lia.
  - split.
    + intros E. apply fetchstr_loop_spec in E as (H1&H2&H3). split; [lia|done].
    + intros (H1&H2&H3). apply fetchstr_loop_find; [lia|done|done].
Qed.

(** Witnesses: a process of 64 bytes with its stack pointer at 32. *)
Definition demo_u : uproc :=
  Uproc (fun a => if a =? 36 then 8 else if a =? 8 then 104 else if a =? 9 then 105 else 0) 64 32 0 1.

Lemma argptr_bounds_witness : argptr demo_u 0 16 = Some 8 /\ 8 + 16 <= u_sz demo_u.
Proof.
  assert (E : argptr demo_u 0 16 = Some 8) by reflexivity. split; [exact E|].
  apply (argptr_bounds demo_u 0 16); [unfold usize_ok; cbn; lia|unfold is_u32; cbn; lia|lia|lia|exact E].
Defined.

Lemma fetchstr_bounds_witness : fetchstr demo_u 8 = Some [104; 105] /\ 8 + 2 < u_sz demo_u.
Proof.
  assert (E : fetchstr demo_u 8 = Some [104; 105]) by reflexivity. split; [exact E|].
  apply (fetchstr_bounds demo_u 8 [104; 105]); [unfold usize_ok; cbn; lia|unfold is_u32; lia|exact E].
Defined.
