(* ===== verification/File.v ===== *)
(** Open files (file.c, pipealloc of pipe.c) and the file system calls
    (sysfile.c).

    The state is the file system of Fs.v, the system-wide table of open files,
    the descriptor tables of all processes, the calling process, and the number
    of file system operations in progress ([begin_op] without its [end_op]).
    Pipes are behind an interface; Pipe.v models them. *)

From S2P Require Import Prelude Bio CString Fs Syscall.

(** ** Data *)

Definition NFILE : nat := 100.
Definition NOFILE : nat := 16.

Inductive ftype := FD_NONE | FD_PIPE | FD_INODE.

#[global] Instance ftype_eq_dec : EqDecision ftype.
Proof. solve_decision. Defined.

Record file := File {
  f_type : ftype; f_ref : Z; f_readable : bool; f_writable : bool; f_pipe : Z; f_ip : nat; f_off : Z }.

Definition file0 : file := File FD_NONE 0 false false 0 0 0.
#[global] Instance file_inhabited : Inhabited file := populate file0.

Definition set_fref v (f : file) := File (f_type f) v (f_readable f) (f_writable f) (f_pipe f) (f_ip f) (f_off f).
Definition set_ftype v (f : file) := File v (f_ref f) (f_readable f) (f_writable f) (f_pipe f) (f_ip f) (f_off f).
Definition set_off v (f : file) := File (f_type f) (f_ref f) (f_readable f) (f_writable f) (f_pipe f) (f_ip f) v.

(** Pipes by address: a new one (0 when memory is out), and pipe.c. *)
Class Pipes (P : Type) := {
  pipe_new : kern P Z;
  pipeclose : Z -> bool -> kern P unit;
  piperead : Z -> Z -> kern P (Z * list Z);
  pipewrite : Z -> list Z -> Z -> kern P Z;
}.

Record kfs (P : Type) := Kfs {
  kfs_fs : fs; ftable : list file; ofiles : list (list (option nat)); cur : nat; up : uproc; ops : Z; pipes : P }.
Arguments Kfs {P}.
Arguments kfs_fs {P}.
Arguments ftable {P}.
Arguments ofiles {P}.
Arguments cur {P}.
Arguments up {P}.
Arguments ops {P}.
Arguments pipes {P}.

Section file.
Context {P : Type} `{Pipes P} `{Devsw}.

Definition fsop {A} (m : kern fs A) : kern (kfs P) A :=
  zoom kfs_fs (fun x s => Kfs x (ftable s) (ofiles s) (cur s) (up s) (ops s) (pipes s)) m.
Definition pipeop {A} (m : kern P A) : kern (kfs P) A :=
  zoom pipes (fun x s => Kfs (kfs_fs s) (ftable s) (ofiles s) (cur s) (up s) (ops s) x) m.
Definition set_ftable (f : list file -> list file) : kern (kfs P) unit :=
  modify (fun s => Kfs (kfs_fs s) (f (ftable s)) (ofiles s) (cur s) (up s) (ops s) (pipes s)).
Definition setf (i : nat) (g : file -> file) : kern (kfs P) unit := set_ftable (alter g i).
Definition getf (i : nat) : kern (kfs P) file := gets (fun s => ftable s !!! i).
Definition add_ops (n : Z) : kern (kfs P) unit :=
  modify (fun s => Kfs (kfs_fs s) (ftable s) (ofiles s) (cur s) (up s) (ops s + n) (pipes s)).
Definition begin_op : kern (kfs P) unit := add_ops 1.
Definition end_op : kern (kfs P) unit := add_ops (-1).

(** [myproc()->ofile]. *)
Definition ofile (s : kfs P) : list (option nat) := ofiles s !!! cur s.
Definition set_fd (fd : nat) (v : option nat) : kern (kfs P) unit :=
  modify (fun s => Kfs (kfs_fs s) (ftable s) (alter (insert fd v) (cur s) (ofiles s)) (cur s) (up s) (ops s) (pipes s)).
Definition set_umem (m : Z -> Z) : kern (kfs P) unit :=
  modify (fun s => Kfs (kfs_fs s) (ftable s) (ofiles s) (cur s) (set_mem m (up s)) (ops s) (pipes s)).

(** ** file.c *)

Fixpoint find_file (l : list file) (i : nat) : option nat :=
  match l with
  | [] => None
  | f :: l => if f_ref f =? 0 then Some i else find_file l (S i)
  end.

Definition filealloc : kern (kfs P) (option nat) :=
  l ← gets ftable;
  match find_file l 0 with
  | Some i => setf i (set_fref 1) ;; mret (Some i)
  | None => mret None
  end.

Definition filedup (i : nat) : kern (kfs P) nat :=
  f ← getf i;
  if f_ref f <? 1 then panic "filedup"
  else setf i (set_fref (i32 (f_ref f + 1))) ;; mret i.

Definition fileclose (i : nat) : kern (kfs P) unit :=
  f ← getf i;
  if f_ref f <? 1 then panic "fileclose"
  else if 0 <? f_ref f - 1 then setf i (set_fref (f_ref f - 1))
  else
    setf i (fun f => set_ftype FD_NONE (set_fref 0 f)) ;;
    match f_type f with
    | FD_PIPE => pipeop (pipeclose (f_pipe f) (f_writable f))
    | FD_INODE => begin_op ;; fsop (iput (f_ip f)) ;; end_op
    | FD_NONE => mret ()
    end.

Definition filestat (i : nat) : kern (kfs P) (option stat) :=
  f ← getf i;
  match f_type f with
  | FD_INODE =>
      fsop (ilock (f_ip f)) ;;
      st ← fsop (stati (f_ip f));
      fsop (iunlock (f_ip f)) ;;
      mret (Some st)
  | _ => mret None
  end.

(** The return value and the bytes stored at [addr]. *)
Definition fileread (i : nat) (n : Z) : kern (kfs P) (Z * list Z) :=
  f ← getf i;
  if negb (f_readable f) then mret (-1, [])
  else
    match f_type f with
    | FD_PIPE => pipeop (piperead (f_pipe f) n)
    | FD_INODE =>
        fsop (ilock (f_ip f)) ;;
        f ← getf i;
        rl ← fsop (readi (f_ip f) (f_off f) n);
        (if 0 <? rl.1 then setf i (set_off (u32 (f_off f + rl.1))) else mret ()) ;;
        fsop (iunlock (f_ip f)) ;;
        mret rl
    | FD_NONE => panic "fileread"
    end.

(** A few blocks at a time. *)
Definition write_max : Z := (MAXOPBLOCKS - 1 - 1 - 2) / 2 * 512.

Fixpoint filewrite_loop (fuel : nat) (i : nat) (addr : list Z) (n k : Z) : kern (kfs P) Z :=
  match fuel with
  | O => fun _ => Fuel
  | S fuel =>
      if k <? n then
        let n1 := Z.min (n - k) write_max in
        begin_op ;;
        f ← getf i;
        fsop (ilock (f_ip f)) ;;
        f ← getf i;
        r ← fsop (writei (f_ip f) (drop (Z.to_nat k) addr) (f_off f) n1);
        (if 0 <? r then setf i (set_off (u32 (f_off f + r))) else mret ()) ;;
        fsop (iunlock (f_ip f)) ;;
        end_op ;;
        if r <? 0 then mret k
        else if negb (r =? n1) then panic "short filewrite"
        else filewrite_loop fuel i addr n (k + r)
      else mret k
  end.

(** Every iteration but the last writes [write_max] bytes. *)
Definition filewrite (i : nat) (addr : list Z) (n : Z) : kern (kfs P) Z :=
  f ← getf i;
  if negb (f_writable f) then mret (-1)
  else
    match f_type f with
    | FD_PIPE => pipeop (pipewrite (f_pipe f) addr n)
    | FD_INODE =>
        k ← filewrite_loop (Z.to_nat (n / write_max + 2)) i addr n 0;
        mret (if k =? n then n else -1)
    | FD_NONE => panic "filewrite"
    end.

(** ** pipealloc *)

Definition pipe_end (pi : Z) (w : bool) (f : file) : file :=
  File FD_PIPE (f_ref f) (negb w) w pi (f_ip f) (f_off f).

Definition pipealloc : kern (kfs P) (option (nat * nat)) :=
  f0 ← filealloc;
  match f0 with
  | None => mret None
  | Some f0 =>
      f1 ← filealloc;
      match f1 with
      | None => fileclose f0 ;; mret None
      | Some f1 =>
          p ← pipeop pipe_new;
          if p =? 0 then fileclose f0 ;; fileclose f1 ;; mret None
          else
            setf f0 (pipe_end p false) ;;
            setf f1 (pipe_end p true) ;;
            mret (Some (f0, f1))
      end
  end.

(** ** sysfile.c: descriptors *)

Definition argfd (n : Z) : kern (kfs P) (option (nat * nat)) :=
  s ← gets id;
  mret (match argint (up s) n with
        | None => None
        | Some fd =>
            if (fd <? 0) || (Z.of_nat NOFILE <=? fd) then None
            else match ofile s !!! Z.to_nat fd with
                 | None => None
                 | Some f => Some (Z.to_nat fd, f)
                 end
        end).

Fixpoint find_fd (l : list (option nat)) (fd : nat) : option nat :=
  match l with
  | [] => None
  | None :: _ => Some fd
  | Some _ :: l => find_fd l (S fd)
  end.

Definition fdalloc (f : nat) : kern (kfs P) (option nat) :=
  l ← gets ofile;
  match find_fd l 0 with
  | Some fd => set_fd fd (Some f) ;; mret (Some fd)
  | None => mret None
  end.

Definition sys_dup : kern (kfs P) Z :=
  a ← argfd 0;
  match a with
  | None => mret (-1)
  | Some (_, f) =>
      fd ← fdalloc f;
      match fd with
      | None => mret (-1)
      | Some fd => filedup f ;; mret (Z.of_nat fd)
      end
  end.

(** The buffer argument of a read or write. *)
Definition io_args : kern (kfs P) (option (nat * Z * Z)) :=
  a ← argfd 0;
  u ← gets up;
  mret (match a, argint u 2 with
        | Some (_, f), Some n => match argptr u 1 n with Some p => Some (f, p, n) | None => None end
        | _, _ => None
        end).

Definition store_bytes (p : Z) (l : list Z) : kern (kfs P) unit :=
  s ← gets id;
  set_umem (fun a => match l !! Z.to_nat (a - p) with
                     | Some b => if p <=? a then b else u_mem (up s) a
                     | None => u_mem (up s) a
                     end).

Definition sys_read : kern (kfs P) Z :=
  a ← io_args;
  match a with
  | None => mret (-1)
  | Some (f, p, n) => rl ← fileread f n; store_bytes p rl.2 ;; mret rl.1
  end.

Definition sys_write : kern (kfs P) Z :=
  a ← io_args;
  match a with
  | None => mret (-1)
  | Some (f, p, n) =>
      s ← gets id;
      filewrite f ((fun i => u_mem (up s) (p + Z.of_nat i)) <$> seq 0 (Z.to_nat n)) n
  end.

Definition sys_close : kern (kfs P) Z :=
  a ← argfd 0;
  match a with
  | None => mret (-1)
  | Some (fd, f) => set_fd fd None ;; fileclose f ;; mret 0
  end.

(** Store a [struct stat] field by field; its padding stays as it was. *)
Definition store_stat (p : Z) (st : stat) : kern (kfs P) unit :=
  store_bytes p (half_bytes (st_type st)) ;;
  store_bytes (p + 4) (Bio.word_bytes (u32 (st_dev st))) ;;
  store_bytes (p + 8) (Bio.word_bytes (st_ino st)) ;;
  store_bytes (p + 12) (half_bytes (st_nlink st)) ;;
  store_bytes (p + 16) (Bio.word_bytes (st_size st)).

Definition sys_fstat : kern (kfs P) Z :=
  a ← argfd 0;
  u ← gets up;
  match a, argptr u 1 20 with
  | Some (_, f), Some p =>
      r ← filestat f;
      match r with
      | Some st => store_stat p st ;; mret 0
      | None => mret (-1)
      end
  | _, _ => mret (-1)
  end.

Definition sys_pipe : kern (kfs P) Z :=
  u ← gets up;
  match argptr u 0 8 with
  | None => mret (-1)
  | Some p =>
      r ← pipealloc;
      match r with
      | None => mret (-1)
      | Some (rf, wf) =>
          fd0 ← fdalloc rf;
          match fd0 with
          | None => fileclose rf ;; fileclose wf ;; mret (-1)
          | Some fd0 =>
              fd1 ← fdalloc wf;
              match fd1 with
              | None => set_fd fd0 None ;; fileclose rf ;; fileclose wf ;; mret (-1)
              | Some fd1 =>
                  store_bytes p (Bio.word_bytes (Z.of_nat fd0) ++ Bio.word_bytes (Z.of_nat fd1)) ;;
                  mret 0
              end
          end
      end
  end.

(** ** Descriptors across fork and exit (the loops of proc.c) *)

Definition set_child_fd (c fd : nat) (v : option nat) : kern (kfs P) unit :=
  modify (fun s => Kfs (kfs_fs s) (ftable s) (alter (insert fd v) c (ofiles s)) (cur s) (up s) (ops s) (pipes s)).

(** [fork]: the [n] descriptors from [i] are shared with the child [c]. *)
Fixpoint fork_fds (n i : nat) (c : nat) : kern (kfs P) unit :=
  match n with
  | O => mret ()
  | S n =>
      l ← gets ofile;
      match l !!! i with
      | Some f => f ← filedup f; set_child_fd c i (Some f)
      | None => mret ()
      end ;;
      fork_fds n (S i) c
  end.

(** [exit]: the [n] descriptors from [fd] are closed. *)
Fixpoint exit_fds (n fd : nat) : kern (kfs P) unit :=
  match n with
  | O => mret ()
  | S n =>
      l ← gets ofile;
      match l !!! fd with
      | Some f => fileclose f ;; set_fd fd None
      | None => mret ()
      end ;;
      exit_fds n (S fd)
  end.

End file.
