(* ===== verification/Sysfile.v ===== *)
(** The system calls on path names (sysfile.c): link, unlink, open, mkdir,
    mknod, chdir, and the arguments of exec. *)

From S2P Require Import Prelude CString Fs Syscall File Shell.

Definition dot : list Z := [46].
Definition dotdot : list Z := [46; 46].

Section sysfile.
Context {P : Type} `{Pipes P} `{Devsw}.

(** [name] is an uninitialised buffer on the caller's stack. *)
Context (junk : list Z).

(** Change the number of links of [ip] and write the inode. *)
Definition add_nlink (ip : nat) (n : Z) : kern fs unit :=
  modd ip (fun d => set_nlink (i16 (u16 (d_nlink d + n))) d) ;; iupdate ip.

(** ** link *)

(** The failure exit, [bad]. *)
Definition link_bad (ip : nat) : kern (kfs P) Z :=
  fsop (ilock ip) ;;
  fsop (add_nlink ip (-1)) ;;
  fsop (iunlockput ip) ;;
  end_op ;;
  mret (-1).

Definition sys_link : kern (kfs P) Z :=
  u ← gets up;
  match argstr u 0, argstr u 1 with
  | Some old, Some new =>
      begin_op ;;
      r ← fsop (namei old);
      match r with
      | None => end_op ;; mret (-1)
      | Some ip =>
          fsop (ilock ip) ;;
          i ← fsop (geti ip);
          if d_type (i_di i) =? T_DIR then fsop (iunlockput ip) ;; end_op ;; mret (-1)
          else
            fsop (add_nlink ip 1) ;;
            fsop (iunlock ip) ;;
            rn ← fsop (nameiparent new junk);
            match rn.1 with
            | None => link_bad ip
            | Some dp =>
                fsop (ilock dp) ;;
                d ← fsop (geti dp);
                i ← fsop (geti ip);
                l ← (if negb (i_dev d =? i_dev i) then mret (-1) else fsop (dirlink dp rn.2 (i_inum i)));
                if l <? 0 then fsop (iunlockput dp) ;; link_bad ip
                else
                  fsop (iunlockput dp) ;;
                  fsop (iput ip) ;;
                  end_op ;;
                  mret 0
            end
      end
  | _, _ => mret (-1)
  end.

(** ** unlink *)

Fixpoint isdirempty_loop (fuel : nat) (dp : nat) (off : Z) : kern fs bool :=
  match fuel with
  | O => fun _ => Fuel
  | S fuel =>
      i ← geti dp;
      if off <? d_size (i_di i) then
        de ← read_dirent dp off "isdirempty: readi";
        if negb (de_inum de =? 0) then mret false else isdirempty_loop fuel dp (off + dirent_size)
      else mret true
  end.

Definition isdirempty (dp : nat) : kern fs bool :=
  i ← geti dp;
  isdirempty_loop (dir_fuel (d_size (i_di i))) dp (2 * dirent_size).

(** The operation of [sys_unlink] on its path; [removeSwapFile] repeats it. *)
Definition unlink_path (path : list Z) : kern (kfs P) Z :=
  begin_op ;;
  rn ← fsop (nameiparent path junk);
  match rn.1 with
  | None => end_op ;; mret (-1)
  | Some dp =>
      let bad : kern (kfs P) Z := fsop (iunlockput dp) ;; end_op ;; mret (-1) in
      fsop (ilock dp) ;;
      if (namecmp rn.2 dot =? 0) || (namecmp rn.2 dotdot =? 0) then bad
      else
        r ← fsop (dirlookup dp rn.2);
        match r with
        | None => bad
        | Some (ip, off) =>
            fsop (ilock ip) ;;
            i ← fsop (geti ip);
            if d_nlink (i_di i) <? 1 then panic "unlink: nlink < 1"
            else
              full ← (if d_type (i_di i) =? T_DIR then e ← fsop (isdirempty ip); mret (negb e) else mret false);
              if full : bool then fsop (iunlockput ip) ;; bad
              else
                w ← fsop (writei dp (replicate 16 0) off dirent_size);
                if negb (w =? dirent_size) then panic "unlink: writei"
                else
                  (if d_type (i_di i) =? T_DIR then fsop (add_nlink dp (-1)) else mret ()) ;;
                  fsop (iunlockput dp) ;;
                  fsop (add_nlink ip (-1)) ;;
                  fsop (iunlockput ip) ;;
                  end_op ;;
                  mret 0
        end
  end.

Definition sys_unlink : kern (kfs P) Z :=
  u ← gets up;
  match argstr u 0 with
  | None => mret (-1)
  | Some path => unlink_path path
  end.

(** ** create, open *)

(** The inode is returned locked; [None] is the null pointer. *)
Definition create (path : list Z) (type major minor : Z) : kern fs (option nat) :=
  rn ← nameiparent path junk;
  match rn.1 with
  | None => mret None
  | Some dp =>
      ilock dp ;;
      r ← dirlookup dp rn.2;
      match r with
      | Some (ip, _) =>
          iunlockput dp ;;
          ilock ip ;;
          i ← geti ip;
          if (type =? T_FILE) && (d_type (i_di i) =? T_FILE) then mret (Some ip)
          else iunlockput ip ;; mret None
      | None =>
          d ← geti dp;
          ip ← ialloc (i_dev d) type;
          ilock ip ;;
          modd ip (fun d => Dinode (d_type d) major minor 1 (d_size d) (d_addrs d)) ;;
          iupdate ip ;;
          i ← geti ip;
          (if type =? T_DIR then
             add_nlink dp 1 ;;
             a ← dirlink ip dot (i_inum i);
             if a <? 0 then panic "create dots"
             else
               b ← dirlink ip dotdot (i_inum d);
               if b <? 0 then panic "create dots" else mret ()
           else mret ()) ;;
          a ← dirlink dp rn.2 (i_inum i);
          if a <? 0 then panic "create: dirlink"
          else iunlockput dp ;; mret (Some ip)
      end
  end.

(** The inode [sys_open] opens, locked. *)
Definition open_inode (path : list Z) (omode : Z) : kern fs (option nat) :=
  if negb (Z.land omode O_CREATE =? 0) then create path T_FILE 0 0
  else
    r ← namei path;
    match r with
    | None => mret None
    | Some ip =>
        ilock ip ;;
        i ← geti ip;
        if (d_type (i_di i) =? T_DIR) && negb (omode =? O_RDONLY) then iunlockput ip ;; mret None
        else mret (Some ip)
    end.

Definition open_file (ip : nat) (omode : Z) (f : file) : file :=
  File FD_INODE (f_ref f) (Z.land omode O_WRONLY =? 0)
    (negb (Z.land omode O_WRONLY =? 0) || negb (Z.land omode O_RDWR =? 0)) (f_pipe f) ip 0.

Definition sys_open : kern (kfs P) Z :=
  u ← gets up;
  match argstr u 0, argint u 1 with
  | Some path, Some omode =>
      begin_op ;;
      r ← fsop (open_inode path omode);
      match r with
      | None => end_op ;; mret (-1)
      | Some ip =>
          let bad : kern (kfs P) Z := fsop (iunlockput ip) ;; end_op ;; mret (-1) in
          f ← filealloc;
          match f with
          | None => bad
          | Some f =>
              fd ← fdalloc f;
              match fd with
              | None => fileclose f ;; bad
              | Some fd =>
                  fsop (iunlock ip) ;;
                  end_op ;;
                  setf f (open_file ip omode) ;;
                  mret (Z.of_nat fd)
              end
          end
      end
  | _, _ => mret (-1)
  end.

(** ** mkdir, mknod, chdir *)

(** The common end of mkdir and mknod. *)
Definition made (r : option nat) : kern (kfs P) Z :=
  match r with
  | None => end_op ;; mret (-1)
  | Some ip => fsop (iunlockput ip) ;; end_op ;; mret 0
  end.

Definition sys_mkdir : kern (kfs P) Z :=
  begin_op ;;
  u ← gets up;
  r ← match argstr u 0 with
      | None => mret None
      | Some path => fsop (create path T_DIR 0 0)
      end;
  made r.

Definition sys_mknod : kern (kfs P) Z :=
  begin_op ;;
  u ← gets up;
  r ← match argstr u 0, argint u 1, argint u 2 with
      | Some path, Some major, Some minor => fsop (create path T_DEV (i16 (u16 major)) (i16 (u16 minor)))
      | _, _, _ => mret None
      end;
  made r.

Definition set_cwd (ip : nat) : kern fs unit :=
  modify (fun s => Fs (fsdisk s) (fssize s) (sb s) (icache s) ip (fspid s)).

Definition sys_chdir : kern (kfs P) Z :=
  begin_op ;;
  u ← gets up;
  r ← match argstr u 0 with None => mret None | Some path => fsop (namei path) end;
  match r with
  | None => end_op ;; mret (-1)
  | Some ip =>
      fsop (ilock ip) ;;
      i ← fsop (geti ip);
      if negb (d_type (i_di i) =? T_DIR) then fsop (iunlockput ip) ;; end_op ;; mret (-1)
      else
        fsop (iunlock ip) ;;
        old ← fsop (gets cwd);
        fsop (iput old) ;;
        end_op ;;
        fsop (set_cwd ip) ;;
        mret 0
  end.

(** ** exec's arguments *)

Definition MAXARG : nat := 32.

(** The strings of the argument vector at [uargv], from entry [i]; [None] is
    the return value -1. *)
Fixpoint exec_args (n : nat) (u : uproc) (uargv i : Z) : option (list (list Z)) :=
  match n with
  | O => None
  | S n =>
      uarg ← fetchint u (u32 (uargv + 4 * i));
      if uarg =? 0 then Some []
      else
        a ← fetchstr u (u32 uarg);
        rest ← exec_args n u uargv (i + 1);
        Some (a :: rest)
  end.

(** The path and arguments passed to [exec]. *)
Definition sys_exec_args (u : uproc) : option (list Z * list (list Z)) :=
  path ← argstr u 0;
  uargv ← argint u 1;
  argv ← exec_args MAXARG u (u32 uargv) 0;
  Some (path, argv).

End sysfile.
