(* ===== verification/FileRefs.v ===== *)
(** The reference counts of open files: after any sequence of system calls,
    forks and exits each open file's count is the number of descriptors that
    refer to it. *)

From S2P Require Import Prelude CString Fs Syscall File Sysfile.

(** ** Counting descriptors *)

Definition is_fd (f : nat) (v : option nat) : Z := if decide (v = Some f) then 1 else 0.

Fixpoint occ (f : nat) (row : list (option nat)) : Z :=
  match row with [] => 0 | v :: row => is_fd f v + occ f row end.

Fixpoint occs (f : nat) (rows : list (list (option nat))) : Z :=
  match rows with [] => 0 | row :: rows => occ f row + occs f rows end.

Lemma is_fd_range f v : 0 <= is_fd f v <= 1.
Proof. unfold is_fd. destruct (decide _); lia. Qed.

Lemma is_fd_None f : is_fd f None = 0.
Proof. done. Qed.

Lemma is_fd_Some f g : is_fd f (Some g) = if decide (f = g) then 1 else 0.
Proof.
  unfold is_fd. destruct (decide (f = g)) as [->|]; [by rewrite decide_True|]. rewrite decide_False; [done|]. congruence.
Qed.

Lemma occ_range f row : 0 <= occ f row <= Z.of_nat (length row).
Proof. induction row as [|v row IH]; cbn; [lia|]. pose proof (is_fd_range f v). lia. Qed.

Lemma occ_insert f row : forall fd old v,
  row !! fd = Some old -> occ f (<[fd := v]> row) = occ f row - is_fd f old + is_fd f v.
Proof.
  induction row as [|x row IH]; intros [|fd] old v E; try done.
  - injection E as ->. cbn. lia.
  - change (<[S fd := v]> (x :: row)) with (x :: <[fd := v]> row). cbn [occ]. rewrite (IH fd old v E). lia.
Qed.

Lemma occ_elem f row fd : row !! fd = Some (Some f) -> 1 <= occ f row.
Proof.
  revert fd. induction row as [|x row IH]; intros [|fd] E; cbn in *; try done.
  - injection E as ->. unfold is_fd. rewrite decide_True by done. pose proof (occ_range f row). lia.
  - pose proof (is_fd_range f x). specialize (IH fd E). lia.
Qed.

Lemma occs_range f rows w :
  Forall (fun row => length row = w) rows -> 0 <= occs f rows <= Z.of_nat (length rows * w).
Proof.
  induction 1 as [|row rows Hr Hrs IH]; cbn; [lia|]. pose proof (occ_range f row). lia.
Qed.

Lemma occs_alter f g rows : forall c row,
  rows !! c = Some row -> occs f (alter g c rows) = occs f rows - occ f row + occ f (g row).
Proof.
  induction rows as [|r rows IH]; intros [|c] row E; try done.
  - injection E as ->. cbn. lia.
  - change (alter g (S c) (r :: rows)) with (r :: alter g c rows). cbn [occs]. rewrite (IH c row E). lia.
Qed.

Lemma occs_row f rows c row w :
  Forall (fun row => length row = w) rows -> rows !! c = Some row -> occ f row <= occs f rows.
Proof.
  intros Hw. revert c. induction Hw as [|r rows Hr Hrs IH]; intros [|c] E; cbn in *; try done.
  - injection E as ->. pose proof (occs_range f rows w Hrs). lia.
  - specialize (IH c E). pose proof (occ_range f r). lia.
Qed.

Lemma list_alter_out {A} (g : A -> A) l : forall i, (length l <= i)%nat -> alter g i l = l.
Proof.
  induction l as [|x l IH]; intros [|i] Hi; cbn in Hi; try done; [lia|].
  change (alter g (S i) (x :: l)) with (x :: alter g i l). f_equal. apply IH. lia.
Qed.

Section refs.
Context {P : Type} `{Pipes P} `{Devsw} (junk : list Z).

(** References held by the kernel itself: the swap files of processes. *)
Context (extra : nat -> Z).

(** The table counts every reference. [b] are references a call in progress
    holds besides, [n] the file system operations in progress. *)
Record counted_with (b : nat -> Z) (n : Z) (s : kfs P) : Prop := {
  cw_len : length (ftable s) = NFILE;
  cw_rows : Forall (fun row => length row = NOFILE) (ofiles s);
  cw_cur : (cur s < length (ofiles s))%nat;
  cw_procs : (length (ofiles s) <= 64)%nat;
  cw_valid : forall c row fd f, ofiles s !! c = Some row -> row !! fd = Some (Some f) -> (f < NFILE)%nat;
  cw_extra : forall f, 0 <= extra f < 2 ^ 20;
  cw_ref : forall f, (f < NFILE)%nat -> f_ref (ftable s !!! f) = occs f (ofiles s) + extra f + b f;
  cw_free : forall f, (f < NFILE)%nat -> f_ref (ftable s !!! f) = 0 -> f_type (ftable s !!! f) = FD_NONE;
  cw_ops : ops s = n;
}.

(** The bonus changes by [n] at [f]. *)
Definition badd (b : nat -> Z) (f : nat) (n : Z) : nat -> Z := fun g => b g + if decide (g = f) then n else 0.

Lemma badd_eq b f n : badd b f n f = b f + n.
Proof. unfold badd. by rewrite decide_True. Qed.

(** A run from [Pre] that returns ends in [Post]. *)
Definition hoare {A} (Pre : kfs P -> Prop) (m : kern (kfs P) A) (Post : A -> kfs P -> Prop) : Prop :=
  forall s a s', Pre s -> m s = Ret a s' -> Post a s'.

Lemma hoare_bind {A B} Pre (m : kern (kfs P) A) Mid (k : A -> kern (kfs P) B) Post :
  hoare Pre m Mid -> (forall a, hoare (Mid a) (k a) Post) -> hoare Pre (m ≫= k) Post.
Proof. intros Hm Hk s b s' Hs E. apply bind_inv in E as (a&t&E1&E2). by eapply Hk, E2; eapply Hm, E1. Qed.

Lemma hoare_pre {A} (Pre Pre' : kfs P -> Prop) (m : kern (kfs P) A) Post :
  hoare Pre m Post -> (forall s, Pre' s -> Pre s) -> hoare Pre' m Post.
Proof. intros Hm Hp s a s' Hs. apply Hm. auto. Qed.

Lemma hoare_ret {A} (a : A) (Post : A -> kfs P -> Prop) : hoare (Post a) (mret a) Post.
Proof. intros s b s' Hs E. by injection E as <- <-. Qed.

Lemma hoare_gets {A B} (g : kfs P -> A) Pre (k : A -> kern (kfs P) B) Post :
  (forall a, hoare (fun s => Pre s /\ a = g s) (k a) Post) -> hoare Pre (gets g ≫= k) Post.
Proof. intros Hk s b s' Hs E. rewrite bind_gets in E. by apply (Hk (g s) s b s'). Qed.

(** [m] does not touch the tables. *)
Lemma hoare_quiet {A} (m : kern (kfs P) A) b n n' d :
  n' = n + d ->
  (forall s a s', m s = Ret a s' ->
     ftable s' = ftable s /\ ofiles s' = ofiles s /\ cur s' = cur s /\ ops s' = ops s + d) ->
  hoare (counted_with b n) m (fun _ => counted_with b n').
Proof.
  intros -> Hm s a s' [] E. destruct (Hm _ _ _ E) as (E1&E2&E3&E4). split; rewrite ?E1, ?E2, ?E3, ?E4; try done. lia.
Qed.

Lemma fsop_ok {A} (m : kern fs A) b n : hoare (counted_with b n) (fsop m) (fun _ => counted_with b n).
Proof.
  apply (hoare_quiet _ _ _ _ 0); [lia|]. intros s a s' E. unfold fsop, zoom in E.
  destruct (m (kfs_fs s)); [|done..]. injection E as <- <-. cbn. repeat split; lia.
Qed.

Lemma pipeop_ok {A} (m : kern P A) b n : hoare (counted_with b n) (pipeop m) (fun _ => counted_with b n).
Proof.
  apply (hoare_quiet _ _ _ _ 0); [lia|]. intros s a s' E. unfold pipeop, zoom in E.
  destruct (m (pipes s)); [|done..]. injection E as <- <-. cbn. repeat split; lia.
Qed.

Lemma begin_op_ok b n : hoare (counted_with b n) begin_op (fun _ => counted_with b (n + 1)).
Proof. apply (hoare_quiet _ _ _ _ 1); [lia|]. intros s a s' E. by injection E as <- <-. Qed.

Lemma end_op_ok b n : hoare (counted_with b n) end_op (fun _ => counted_with b (n - 1)).
Proof. apply (hoare_quiet _ _ _ _ (-1)); [lia|]. intros s a s' E. by injection E as <- <-. Qed.

Lemma store_bytes_ok p l b n : hoare (counted_with b n) (store_bytes p l) (fun _ => counted_with b n).
Proof.
  apply (hoare_quiet _ _ _ _ 0); [lia|]. intros s a s' E. unfold store_bytes in E. rewrite bind_gets in E.
  injection E as <- <-. cbn. repeat split; lia.
Qed.

(** ** The table *)

Lemma setf_run i g (s : kfs P) :
  setf i g s = Ret tt (Kfs (kfs_fs s) (alter g i (ftable s)) (ofiles s) (cur s) (up s) (ops s) (pipes s)).
Proof. done. Qed.

Lemma alter_file g i (l : list file) j :
  (i < length l)%nat -> alter g i l !!! j = if decide (j = i) then g (l !!! i) else l !!! j.
Proof.
  intros Hi. rewrite !list_lookup_total_alt. destruct (decide (j = i)) as [->|Hne].
  - rewrite list_lookup_alter_eq. by destruct (lookup_lt_is_Some_2 _ _ Hi) as [x ->].
  - by rewrite list_lookup_alter_ne.
Qed.

(** Changing one entry moves its count. *)
Lemma setf_counted b n s i g d :
  counted_with b n s -> (i < NFILE)%nat -> f_ref (g (ftable s !!! i)) = f_ref (ftable s !!! i) + d ->
  (f_ref (g (ftable s !!! i)) = 0 -> f_type (g (ftable s !!! i)) = FD_NONE) ->
  counted_with (badd b i d) n (Kfs (kfs_fs s) (alter g i (ftable s)) (ofiles s) (cur s) (up s) (ops s) (pipes s)).
Proof.
  intros Hs Hi Hg Hf. pose proof (alter_file g i (ftable s)) as Ha. rewrite (cw_len _ _ _ Hs) in Ha.
  destruct Hs as [H1 H2 H3 H4 H5 H6 H7 H8 H9]. split; cbn [ftable ofiles cur ops]; try done.
  - by rewrite length_alter.
  - intros f Hf'. rewrite Ha by done. unfold badd. destruct (decide (f = i)) as [->|].
    + rewrite Hg, H7 by done. lia.
    + rewrite H7 by done. lia.
  - intros f Hf'. rewrite Ha by done. destruct (decide (f = i)) as [->|]; auto.
Qed.

Lemma counted_ext b b' n s : (forall f, b f = b' f) -> counted_with b n s -> counted_with b' n s.
Proof. intros E []. split; try done. intros f Hf. by rewrite <- E; auto. Qed.

(** Two changes that cancel. *)
Lemma counted_cancel b i d d' n s : d + d' = 0 -> counted_with (badd (badd b i d) i d') n s -> counted_with b n s.
Proof. intros E. apply counted_ext. intros f. unfold badd. destruct (decide (f = i)); lia. Qed.

Lemma find_file_spec l : forall i j, find_file l i = Some j ->
  (i <= j < i + length l)%nat /\ f_ref (l !!! (j - i)%nat) = 0.
Proof.
  induction l as [|f l IH]; intros i j E; cbn in E; [done|]. destruct (Z.eqb_spec (f_ref f) 0) as [Ez|].
  - injection E as <-. cbn. split; [lia|]. by rewrite Nat.sub_diag.
  - apply IH in E as [Hj Er]. cbn. split; [lia|]. replace (j - i)%nat with (S (j - S i)) by lia. done.
Qed.

Lemma filealloc_ok b n :
  hoare (counted_with b n) filealloc (fun r s =>
    match r with Some i => (i < NFILE)%nat /\ counted_with (badd b i 1) n s | None => counted_with b n s end).
Proof.
  intros s r s' Hs E. unfold filealloc in E. rewrite bind_gets in E.
  destruct (find_file (ftable s) 0) as [i|] eqn:Ef; [|by injection E as <- <-].
  apply find_file_spec in Ef as [Hi Hr]. rewrite Nat.sub_0_r in Hr. rewrite (cw_len _ _ _ Hs) in Hi.
  rewrite (bind_Ret _ _ _ _ _ (setf_run _ _ _)) in E. injection E as <- <-. split; [lia|].
  apply setf_counted; [done|lia|cbn; lia|done].
Qed.

Lemma filedup_ok b n i :
  (i < NFILE)%nat -> b i < 2 ^ 20 ->
  hoare (counted_with b n) (filedup i) (fun _ => counted_with (badd b i 1) n).
Proof.
  intros Hi Hb s r s' Hs E. unfold filedup, getf in E. rewrite bind_gets in E.
  destruct (Z.ltb_spec (f_ref (ftable s !!! i)) 1) as [|Hr]; [done|].
  rewrite (bind_Ret _ _ _ _ _ (setf_run _ _ _)) in E. injection E as <- <-.
  pose proof (cw_ref _ _ _ Hs i Hi) as Er. pose proof (occs_range i _ _ (cw_rows _ _ _ Hs)).
  pose proof (cw_extra _ _ _ Hs i). pose proof (cw_procs _ _ _ Hs). unfold NOFILE in *.
  apply setf_counted; [done|done|cbn; rewrite i32_id by lia; done|cbn; rewrite i32_id by lia; lia].
Qed.

Lemma fileclose_ok b n i :
  (i < NFILE)%nat -> hoare (counted_with b n) (fileclose i) (fun _ => counted_with (badd b i (-1)) n).
Proof.
  intros Hi s r s' Hs E. unfold fileclose, getf in E. rewrite bind_gets in E.
  destruct (Z.ltb_spec (f_ref (ftable s !!! i)) 1) as [|Hr]; [done|].
  destruct (Z.ltb_spec 0 (f_ref (ftable s !!! i) - 1)) as [Hlt|Hge].
  - rewrite setf_run in E. injection E as <- <-. apply setf_counted; [done|done|cbn; lia|cbn; lia].
  - rewrite (bind_Ret _ _ _ _ _ (setf_run _ _ _)) in E.
    assert (Hc : counted_with (badd b i (-1)) n (Kfs (kfs_fs s) (alter (fun f => set_ftype FD_NONE (set_fref 0 f)) i (ftable s))
      (ofiles s) (cur s) (up s) (ops s) (pipes s))) by (apply setf_counted; [done|done|cbn; lia|done]).
    destruct (f_type (ftable s !!! i)).
    + by injection E as <- <-.
    + by eapply pipeop_ok, E.
    + apply bind_inv in E as (?&t1&E1&E). apply bind_inv in E as (?&t2&E2&E). apply (begin_op_ok _ _ _ _ _ Hc) in E1.
      apply (fsop_ok _ _ _ _ _ _ E1) in E2. apply (end_op_ok _ _ _ _ _ E2) in E. by rewrite Z.add_simpl_r in E.
Qed.

(** ** Descriptors *)

Lemma row_at b n s : counted_with b n s -> ofiles s !! cur s = Some (ofile s) /\ length (ofile s) = NOFILE.
Proof.
  intros Hs. unfold ofile. destruct (lookup_lt_is_Some_2 _ _ (cw_cur _ _ _ Hs)) as [row E].
  rewrite (list_lookup_total_correct _ _ _ E). split; [done|]. by eapply (Forall_lookup_1 _ _ _ _ (cw_rows _ _ _ Hs)).
Qed.

(** Storing a descriptor moves references between the bonus and the rows. *)
Lemma set_row_ok b n s c row fd old v :
  counted_with b n s -> ofiles s !! c = Some row -> row !! fd = Some old -> (forall f, v = Some f -> (f < NFILE)%nat) ->
  counted_with (fun f => b f + is_fd f old - is_fd f v) n
    (Kfs (kfs_fs s) (ftable s) (alter (insert fd v) c (ofiles s)) (cur s) (up s) (ops s) (pipes s)).
Proof.
  intros Hs Er Ho Hv. destruct Hs as [H1 H2 H3 H4 H5 H6 H7 H8 H9].
  split; cbn [ftable ofiles cur ops]; rewrite ?length_alter; try done.
  - apply Forall_alter; [done|]. intros r _ Hw. by rewrite length_insert.
  - intros c' r fd' f Ec Ef. destruct (decide (c' = c)) as [->|]; [|rewrite list_lookup_alter_ne in Ec by done; by eapply H5].
    rewrite list_lookup_alter_eq, Er in Ec. injection Ec as <-. destruct (decide (fd' = fd)) as [->|].
    + rewrite list_lookup_insert_eq in Ef by (by eapply lookup_lt_Some). injection Ef as ->. by apply Hv.
    + rewrite list_lookup_insert_ne in Ef by done. by eapply H5.
  - intros f Hf. rewrite (occs_alter f _ _ _ _ Er), (occ_insert f _ _ _ v Ho), H7 by done. lia.
Qed.

Lemma set_fd_ok b n s fd old v :
  counted_with b n s -> ofile s !! fd = Some old -> (forall f, v = Some f -> (f < NFILE)%nat) ->
  counted_with (fun f => b f + is_fd f old - is_fd f v) n
    (Kfs (kfs_fs s) (ftable s) (alter (insert fd v) (cur s) (ofiles s)) (cur s) (up s) (ops s) (pipes s)).
Proof. intros Hs Ho. destruct (row_at _ _ _ Hs) as [Er _]. by apply (set_row_ok b n s (cur s) (ofile s) fd old v). Qed.

Lemma find_fd_spec l : forall i j, find_fd l i = Some j -> (i <= j)%nat /\ l !! (j - i)%nat = Some None.
Proof.
  induction l as [|[f|] l IH]; intros i j E; cbn in E; [done| |].
  - apply IH in E as [Hj Er]. split; [lia|]. by replace (j - i)%nat with (S (j - S i)) by lia.
  - injection E as <-. split; [lia|]. by rewrite Nat.sub_diag.
Qed.

Definition holds (fd f : nat) (s : kfs P) : Prop := ofile s !! fd = Some (Some f).

Lemma fdalloc_ok b n f :
  (f < NFILE)%nat ->
  hoare (counted_with b n) (fdalloc f) (fun r s =>
    match r with Some fd => counted_with (badd b f (-1)) n s /\ holds fd f s | None => counted_with b n s end).
Proof.
  intros Hf s r s' Hs E. unfold fdalloc in E. rewrite bind_gets in E.
  destruct (find_fd (ofile s) 0) as [fd|] eqn:Ef; [|by injection E as <- <-].
  apply find_fd_spec in Ef as [_ Er]. rewrite Nat.sub_0_r in Er. injection E as <- <-. split.
  - eapply counted_ext, (set_fd_ok b n s fd None (Some f)); [|done|done|by intros ? [= <-]].
    intros g. cbn beta. rewrite is_fd_None, is_fd_Some. unfold badd. destruct (decide _); lia.
  - destruct (row_at _ _ _ Hs) as [Ec Hl]. unfold holds, ofile. cbn [ofiles cur].
    rewrite (list_lookup_total_correct (alter _ _ _) _ (<[fd:=Some f]> (ofile s))).
    + apply list_lookup_insert_eq. by eapply lookup_lt_Some.
    + by rewrite list_lookup_alter_eq, Ec.
Qed.

Lemma clear_fd_ok b n fd f :
  hoare (fun s => counted_with b n s /\ holds fd f s) (set_fd fd None) (fun _ => counted_with (badd b f 1) n).
Proof.
  intros s r s' [Hs Ho] E. injection E as <- <-.
  eapply counted_ext, (set_fd_ok b n s fd (Some f) None); [|done|done|done].
  intros g. cbn beta. rewrite is_fd_None, is_fd_Some. unfold badd. destruct (decide _); lia.
Qed.

Lemma argfd_ok b n k :
  hoare (counted_with b n) (argfd k) (fun r s => counted_with b n s /\
    match r with Some (fd, f) => (f < NFILE)%nat /\ holds fd f s | None => True end).
Proof.
  intros s r s' Hs E. unfold argfd in E. rewrite bind_gets in E. injection E as <- <-. split; [done|].
  cbn [id]. destruct (argint (up s) k) as [fd|]; [|done]. destruct (_ || _) eqn:Eb; [done|]. destruct (row_at _ _ _ Hs) as [Er Hl].
  destruct (lookup_lt_is_Some_2 (ofile s) (Z.to_nat fd)) as [v Ev]; [rewrite Hl; lia|].
  rewrite (list_lookup_total_correct _ _ _ Ev). destruct v as [f|]; [|done]. split; [|done]. by eapply (cw_valid _ _ _ Hs).
Qed.

Lemma gets_ok {A} (g : kfs P -> A) b n : hoare (counted_with b n) (gets g) (fun _ => counted_with b n).
Proof. intros s r s' Hs E. by injection E as <- <-. Qed.

Lemma mret_ok {A} (a : A) b n : hoare (counted_with b n) (mret a) (fun _ => counted_with b n).
Proof. intros s r s' Hs E. by injection E as <- <-. Qed.

End refs.

Create HintDb refs.
#[export] Hint Resolve fsop_ok pipeop_ok begin_op_ok end_op_ok store_bytes_ok gets_ok mret_ok : refs.

(** One step of a call from a counted state: the step's lemma gives the
    state after it. *)
Ltac call_step := match goal with
  | E : panic _ _ = Ret _ _ |- _ => discriminate E
  | E : mret _ _ = Ret _ _ |- _ => injection E as <- <-
  | E : ((if ?b then _ else _) ≫= _) _ = Ret _ _ |- _ => destruct b
  | E : ((match ?x with _ => _ end) ≫= _) _ = Ret _ _ |- _ => destruct x
  | E : ((_ ≫= _) ≫= _) _ = Ret _ _ |- _ => rewrite bind_bind in E
  | Hs : counted_with _ _ _ ?s, E : (?m ≫= _) ?s = Ret _ _ |- _ =>
      let a := fresh "a" in let t := fresh "t" in let E1 := fresh "E1" in let Ht := fresh "Hs" in
      apply bind_inv in E as (a & t & E1 & E);
      eassert (Ht : hoare _ m _) by eauto with refs nocore; specialize (Ht _ _ _ Hs E1);
      clear Hs E1; cbn beta in Ht
  | E : (if ?b then _ else _) _ = Ret _ _ |- _ => destruct b
  | E : (match ?x with _ => _ end) _ = Ret _ _ |- _ => destruct x
  | Hs : counted_with _ _ _ ?s, E : ?m ?s = Ret _ _ |- _ =>
      let Ht := fresh "Hs" in
      eassert (Ht : hoare _ m _) by eauto with refs nocore; specialize (Ht _ _ _ Hs E);
      clear Hs E; cbn beta in Ht
  end.

Ltac counted_done := match goal with
  | Hs : counted_with _ ?b ?n ?s |- counted_with _ ?b ?n' ?s => replace n' with n by lia; exact Hs
  end.

Ltac call := repeat call_step; counted_done.

Section calls.
Context {P : Type} `{Pipes P} `{Devsw} (junk : list Z) (extra : nat -> Z).
Local Abbreviation cw := (counted_with (P := P) extra).

(** ** Calls that leave the tables alone *)

Lemma link_bad_ok ip b n : hoare (cw b n) (link_bad ip) (fun _ => cw b (n - 1)).
Proof. intros s r s' Hs E. unfold link_bad in E. call. Qed.
#[local] Hint Resolve link_bad_ok : refs.

Lemma sys_link_ok b n : hoare (cw b n) (sys_link junk) (fun _ => cw b n).
Proof. intros s r s' Hs E. unfold sys_link in E. call. Qed.

Lemma sys_unlink_ok b n : hoare (cw b n) (sys_unlink junk) (fun _ => cw b n).
Proof. intros s r s' Hs E. unfold sys_unlink, unlink_path in E. call. Qed.

Lemma made_ok r b n : hoare (cw b n) (made r) (fun _ => cw b (n - 1)).
Proof. intros s a s' Hs E. unfold made in E. call. Qed.
#[local] Hint Resolve made_ok : refs.

Lemma sys_mkdir_ok b n : hoare (cw b n) (sys_mkdir junk) (fun _ => cw b n).
Proof. intros s r s' Hs E. unfold sys_mkdir in E. call. Qed.

Lemma sys_mknod_ok b n : hoare (cw b n) (sys_mknod junk) (fun _ => cw b n).
Proof. intros s r s' Hs E. unfold sys_mknod in E. call. Qed.

Lemma sys_chdir_ok b n : hoare (cw b n) sys_chdir (fun _ => cw b n).
Proof. intros s r s' Hs E. unfold sys_chdir in E. call. Qed.

(** ** Reading and writing: only offsets change *)

Lemma set_off_ok i v b n : hoare (cw b n) (setf i (set_off v)) (fun _ => cw b n).
Proof.
  intros s r s' Hs E. rewrite setf_run in E. injection E as <- <-. destruct (decide (i < NFILE)%nat) as [Hi|Hi].
  - eapply counted_ext, (setf_counted _ b n s i _ 0); [|done|done|cbn; lia|apply (cw_free _ _ _ _ Hs i Hi)].
    intros f. unfold badd. destruct (decide _); lia.
  - rewrite list_alter_out; [by destruct s|]. rewrite (cw_len _ _ _ _ Hs). lia.
Qed.
#[local] Hint Resolve set_off_ok : refs.

Lemma getf_ok i b n : hoare (cw b n) (getf i) (fun _ => cw b n).
Proof. apply gets_ok. Qed.
#[local] Hint Resolve getf_ok : refs.

Lemma fileread_ok i k b n : hoare (cw b n) (fileread i k) (fun _ => cw b n).
Proof. intros s r s' Hs E. unfold fileread in E. call. Qed.
#[local] Hint Resolve fileread_ok : refs.

Lemma filewrite_loop_ok i addr l fuel : forall k b n, hoare (cw b n) (filewrite_loop fuel i addr l k) (fun _ => cw b n).
Proof.
  induction fuel as [|fuel IH]; intros k b n s r s' Hs E; [done|]. cbn [filewrite_loop] in E. cbv zeta in E. call.
Qed.
#[local] Hint Resolve filewrite_loop_ok : refs.

Lemma filewrite_ok i addr l b n : hoare (cw b n) (filewrite i addr l) (fun _ => cw b n).
Proof. intros s r s' Hs E. unfold filewrite in E. call. Qed.
#[local] Hint Resolve filewrite_ok : refs.

Lemma filestat_ok i b n : hoare (cw b n) (filestat i) (fun _ => cw b n).
Proof. intros s r s' Hs E. unfold filestat in E. call. Qed.

Lemma argfd_keeps k b n : hoare (cw b n) (argfd k) (fun _ => cw b n).
Proof. intros s r s' Hs E. by apply (argfd_ok _ _ _ _ _ _ _ Hs E). Qed.
#[local] Hint Resolve filestat_ok argfd_keeps : refs.

Lemma io_args_ok b n : hoare (cw b n) io_args (fun _ => cw b n).
Proof. intros s r s' Hs E. unfold io_args in E. call. Qed.
#[local] Hint Resolve io_args_ok : refs.

Lemma sys_read_ok b n : hoare (cw b n) sys_read (fun _ => cw b n).
Proof. intros s r s' Hs E. unfold sys_read in E. call. Qed.

Lemma sys_write_ok b n : hoare (cw b n) sys_write (fun _ => cw b n).
Proof. intros s r s' Hs E. unfold sys_write in E. call. Qed.

Lemma sys_fstat_ok b n : hoare (cw b n) sys_fstat (fun _ => cw b n).
Proof. intros s r s' Hs E. unfold sys_fstat, store_stat in E. call. Qed.

(** ** Calls that open, duplicate and close descriptors *)

Lemma sys_dup_ok b n : (forall f, b f < 2 ^ 20) -> hoare (cw b n) sys_dup (fun _ => cw b n).
Proof.
  intros Hb s r s' Hs E. unfold sys_dup in E. apply bind_inv in E as (a&t&E1&E).
  apply (argfd_ok _ _ _ _ _ _ _ Hs) in E1 as [Ht Ha]. destruct a as [[fd f]|]; [|call]. destruct Ha as [Hf _].
  apply bind_inv in E as (r2&t2&E1&E). apply (fdalloc_ok _ _ _ _ Hf _ _ _ Ht) in E1. destruct r2 as [fd2|]; [|call].
  destruct E1 as [E1 _]. apply bind_inv in E as (r3&t3&E3&E). injection E as <- <-.
  assert (Hd : badd b f (-1) f < 2 ^ 20) by (rewrite badd_eq; specialize (Hb f); lia).
  apply (filedup_ok _ _ _ _ Hf Hd _ _ _ E1) in E3. by eapply counted_cancel, E3.
Qed.

Lemma sys_close_ok b n : hoare (cw b n) sys_close (fun _ => cw b n).
Proof.
  intros s r s' Hs E. unfold sys_close in E. apply bind_inv in E as (a&t&E1&E).
  apply (argfd_ok _ _ _ _ _ _ _ Hs) in E1 as [Ht Ha]. destruct a as [[fd f]|]; [|call]. destruct Ha as [Hf Hh].
  apply bind_inv in E as (r2&t2&E2&E). apply (clear_fd_ok _ _ _ _ _ _ _ _ (conj Ht Hh)) in E2.
  apply bind_inv in E as (r3&t3&E3&E). injection E as <- <-. apply (fileclose_ok _ _ _ _ Hf _ _ _ E2) in E3.
  by eapply counted_cancel, E3.
Qed.

(** [g] keeps the reference count of an entry that is in use. *)
Lemma setf_keep_ok i g b n :
  (i < NFILE)%nat -> (forall f, f_ref (g f) = f_ref f) ->
  hoare (fun s => cw b n s /\ f_ref (ftable s !!! i) <> 0) (setf i g) (fun _ => cw b n).
Proof.
  intros Hi Hg s r s' [Hs Hr] E. rewrite setf_run in E. injection E as <- <-.
  eapply counted_ext, (setf_counted _ b n s i _ 0); [|done|done|rewrite Hg; lia|rewrite Hg; lia].
  intros f. unfold badd. destruct (decide _); lia.
Qed.

Lemma in_use b n s fd f : cw b n s -> holds fd f s -> 0 <= b f -> f_ref (ftable s !!! f) <> 0.
Proof.
  intros Hs Hh Hb. destruct (row_at _ _ _ _ Hs) as [Er _]. pose proof (cw_valid _ _ _ _ Hs _ _ _ _ Er Hh) as Hf.
  rewrite (cw_ref _ _ _ _ Hs f Hf). pose proof (occ_elem _ _ _ Hh). pose proof (occs_row f _ _ _ _ (cw_rows _ _ _ _ Hs) Er).
  pose proof (cw_extra _ _ _ _ Hs f). lia.
Qed.

Lemma fsop_tables {A} (m : kern fs A) (s : kfs P) a s' : fsop m s = Ret a s' -> ftable s' = ftable s.
Proof. intros E. unfold fsop, zoom in E. destruct (m (kfs_fs s)); [|done..]. by injection E as <- <-. Qed.

Lemma sys_open_ok b n : (forall f, 0 <= b f) -> hoare (cw b n) (sys_open junk) (fun _ => cw b n).
Proof.
  intros Hb s r s' Hs E. unfold sys_open in E. call_step. destruct (argstr _ 0) as [path|]; [|call].
  destruct (argint _ 1) as [omode|]; [|call]. do 2 call_step. destruct a1 as [ip|]; [|call].
  apply bind_inv in E as (fo&t3&E1&E). apply (filealloc_ok _ _ _ _ _ _ Hs0) in E1. destruct fo as [f|]; [|call].
  destruct E1 as [Hf Hc]. apply bind_inv in E as (fdo&t4&E1&E). apply (fdalloc_ok _ _ _ _ Hf _ _ _ Hc) in E1.
  destruct fdo as [fd|].
  - destruct E1 as [Hc' Hh]. apply counted_cancel in Hc'; [|lia]. pose proof (in_use _ _ _ _ _ Hc' Hh (Hb f)) as Hr.
    apply bind_inv in E as (?&t5&E1&E). rewrite <- (fsop_tables _ _ _ _ E1) in Hr. apply (fsop_ok _ _ _ _ _ _ _ Hc') in E1.
    apply bind_inv in E as (?&t6&E2&E). pose proof (end_op_ok _ _ _ _ _ _ E1 E2) as Hc6. injection E2 as <- <-.
    apply bind_inv in E as (?&t7&E2&E). injection E as <- <-.
    eapply setf_keep_ok in E2; [|done|done|by split]. counted_done.
  - apply bind_inv in E as (?&t5&E2&E). apply (fileclose_ok _ _ _ _ Hf _ _ _ E1) in E2. apply counted_cancel in E2; [|lia]. call.
Qed.

(** ** Pipes *)

Lemma held b n s f : cw b n s -> (f < NFILE)%nat -> 1 <= b f -> f_ref (ftable s !!! f) <> 0.
Proof.
  intros Hs Hf Hb. rewrite (cw_ref _ _ _ _ Hs f Hf). pose proof (occs_range f _ _ (cw_rows _ _ _ _ Hs)).
  pose proof (cw_extra _ _ _ _ Hs f). lia.
Qed.

Lemma badd_ge b f n g : 0 <= n -> b g <= badd b f n g.
Proof. intros Hn. unfold badd. destruct (decide _); lia. Qed.

Lemma pipealloc_ok b n :
  (forall f, 0 <= b f) ->
  hoare (cw b n) pipealloc (fun r s =>
    match r with
    | Some (f0, f1) => (f0 < NFILE)%nat /\ (f1 < NFILE)%nat /\ cw (badd (badd b f0 1) f1 1) n s
    | None => cw b n s
    end).
Proof.
  intros Hb s r s' Hs E. unfold pipealloc in E. apply bind_inv in E as (o0&t0&E0&E). apply (filealloc_ok _ _ _ _ _ _ Hs) in E0.
  destruct o0 as [f0|]; [|by injection E as <- <-]. destruct E0 as [Hf0 H0'].
  apply bind_inv in E as (o1&t1&E1&E). apply (filealloc_ok _ _ _ _ _ _ H0') in E1. destruct o1 as [f1|].
  - destruct E1 as [Hf1 H1]. apply bind_inv in E as (p&t2&E2&E). apply (pipeop_ok _ _ _ _ _ _ _ H1) in E2. destruct (p =? 0).
    + apply bind_inv in E as (?&t3&E3&E). apply (fileclose_ok _ _ _ _ Hf0 _ _ _ E2) in E3.
      apply bind_inv in E as (?&t4&E4&E). apply (fileclose_ok _ _ _ _ Hf1 _ _ _ E3) in E4. injection E as <- <-.
      eapply counted_ext, E4. intros f. unfold badd. repeat destruct (decide _); lia.
    + pose proof (Hb f0). pose proof (Hb f1). pose proof (badd_ge b f0 1 f1). pose proof (badd_ge (badd b f0 1) f1 1 f0).
      rewrite badd_eq in *. apply bind_inv in E as (?&t3&E3&E).
      eapply setf_keep_ok in E3; [|done|done|split; [exact E2|by apply (held _ _ _ _ E2); lia]].
      apply bind_inv in E as (?&t4&E4&E).
      eapply setf_keep_ok in E4; [|done|done|split; [exact E3|apply (held _ _ _ _ E3); [done|rewrite badd_eq; lia]]].
      by injection E as <- <-.
  - apply bind_inv in E as (?&t2&E2&E). apply (fileclose_ok _ _ _ _ Hf0 _ _ _ E1) in E2. injection E as <- <-.
    by eapply counted_cancel, E2.
Qed.

Lemma fdalloc_none f (s s' : kfs P) : fdalloc f s = Ret None s' -> s' = s.
Proof.
  intros E. unfold fdalloc in E. rewrite bind_gets in E. destruct (find_fd _ _); [|by injection E as <-].
  apply bind_inv in E as (?&?&?&E). by injection E.
Qed.

Lemma close_two b n f g : (f < NFILE)%nat -> (g < NFILE)%nat ->
  hoare (cw (badd (badd b f 1) g 1) n) (fileclose f ;; fileclose g ;; mret (-1)) (fun _ => cw b n).
Proof.
  intros Hf Hg s r s' Hs E. apply bind_inv in E as (?&t1&E1&E). apply (fileclose_ok _ _ _ _ Hf _ _ _ Hs) in E1.
  apply bind_inv in E as (?&t2&E2&E). apply (fileclose_ok _ _ _ _ Hg _ _ _ E1) in E2. injection E as <- <-.
  eapply counted_ext, E2. intros h. unfold badd. repeat destruct (decide _); lia.
Qed.

Lemma sys_pipe_ok b n : (forall f, 0 <= b f) -> hoare (cw b n) sys_pipe (fun _ => cw b n).
Proof.
  intros Hb s r s' Hs E. unfold sys_pipe in E. call_step. destruct (argptr _ 0 8) as [p|]; [|call].
  apply bind_inv in E as (o&t1&E1&E). apply (pipealloc_ok _ _ Hb _ _ _ Hs0) in E1. destruct o as [[f g]|]; [|call].
  destruct E1 as (Hf&Hg&E1). apply bind_inv in E as (o&t2&E2&E). apply (fdalloc_ok _ _ _ _ Hf _ _ _ E1) in E2.
  destruct o as [fd0|]; [|by eapply close_two, E]. destruct E2 as [E2 Hh].
  apply bind_inv in E as (o&t3&E3&E). destruct o as [fd1|].
  - apply (fdalloc_ok _ _ _ _ Hg _ _ _ E2) in E3 as [E3 _]. apply bind_inv in E as (?&t4&E4&E). injection E as <- <-.
    apply (store_bytes_ok _ _ _ _ _ _ _ _ E3) in E4. eapply counted_ext, E4.
    intros h. unfold badd. repeat destruct (decide _); lia.
  - apply fdalloc_none in E3 as ->. apply bind_inv in E as (?&t4&E4&E).
    apply (clear_fd_ok _ _ _ _ _ _ _ _ (conj E2 Hh)) in E4. eapply close_two, E; [done..|].
    eapply counted_ext, E4. intros h. unfold badd. repeat destruct (decide _); lia.
Qed.

(** ** fork and exit *)

Lemma fileclose_rows f (s : kfs P) r s' : fileclose f s = Ret r s' -> ofiles s' = ofiles s /\ cur s' = cur s.
Proof.
  intros E. unfold fileclose, getf in E. rewrite bind_gets in E. destruct (_ <? 1); [done|].
  destruct (0 <? _); [by injection E as <- <-|]. rewrite (bind_Ret _ _ _ _ _ (setf_run _ _ _)) in E.
  destruct (f_type _); [by injection E as <- <-| |].
  - unfold pipeop, zoom in E. destruct (pipeclose _ _ _); [|done..]. by injection E as <- <-.
  - apply bind_inv in E as (?&t1&E1&E). injection E1 as <- <-. apply bind_inv in E as (?&t2&E2&E). injection E as <- <-.
    unfold fsop, zoom in E2. destruct (iput _ _); [|done..]. by injection E2 as <- <-.
Qed.

Lemma row_entry b n s fd : cw b n s -> (fd < NOFILE)%nat ->
  ofile s !! fd = Some (ofile s !!! fd) /\ (forall f, ofile s !!! fd = Some f -> (f < NFILE)%nat).
Proof.
  intros Hs Hfd. destruct (row_at _ _ _ _ Hs) as [Er Hl].
  destruct (lookup_lt_is_Some_2 (ofile s) fd) as [v Ev]; [by rewrite Hl|].
  rewrite (list_lookup_total_correct _ _ _ Ev). split; [done|]. intros f ->. by eapply (cw_valid _ _ _ _ Hs).
Qed.

Lemma exit_fds_ok b n k : forall fd, (fd + k <= NOFILE)%nat -> hoare (cw b n) (exit_fds k fd) (fun _ => cw b n).
Proof.
  induction k as [|k IH]; intros fd Hk s r s' Hs E; [by injection E as <- <-|]. cbn [exit_fds] in E.
  rewrite bind_gets in E. destruct (row_entry _ _ _ fd Hs) as [Ev Hv]; [lia|]. destruct (ofile s !!! fd) as [f|].
  - apply bind_inv in E as (?&t2&E1&E). apply bind_inv in E1 as (?&t1&E1&E2). pose proof (fileclose_rows _ _ _ _ E1) as [Ho Hc].
    apply (fileclose_ok _ _ _ _ (Hv f eq_refl) _ _ _ Hs) in E1.
    assert (Hh : holds fd f t1) by (unfold holds, ofile; by rewrite Ho, Hc).
    apply (clear_fd_ok _ _ _ _ _ _ _ _ (conj E1 Hh)) in E2. apply counted_cancel in E2; [|lia].
    by eapply (IH (S fd)), E; [lia|].
  - rewrite bind_mret in E. by eapply (IH (S fd)), E; [lia|].
Qed.

(** The child's descriptors from [i] on are closed. *)
Definition child_free (c i : nat) (s : kfs P) : Prop :=
  c <> cur s /\ exists row, ofiles s !! c = Some row /\ forall j, (i <= j < NOFILE)%nat -> row !! j = Some None.

Lemma filedup_rows f (s : kfs P) r s' : filedup f s = Ret r s' -> r = f /\ ofiles s' = ofiles s /\ cur s' = cur s.
Proof.
  intros E. unfold filedup, getf in E. rewrite bind_gets in E. destruct (_ <? 1); [done|]. by injection E as <- <-.
Qed.

Lemma fork_fds_ok b n c k : (forall f, b f < 2 ^ 20) -> forall i, (i + k = NOFILE)%nat ->
  hoare (fun s => cw b n s /\ child_free c i s) (fork_fds k i c) (fun _ => cw b n).
Proof.
  intros Hb. induction k as [|k IH]; intros i Hk s r s' [Hs Hc] E; [by injection E as <- <-|]. cbn [fork_fds] in E.
  rewrite bind_gets in E. destruct (row_entry _ _ _ i Hs) as [Ev Hv]; [lia|]. destruct Hc as (Hne&row&Er&Hrow).
  destruct (ofile s !!! i) as [f|].
  - specialize (Hv f eq_refl). apply bind_inv in E as (?&t2&E1&E). apply bind_inv in E1 as (f'&t1&E1&E2).
    pose proof (filedup_rows _ _ _ _ E1) as (->&Ho&Hcur). apply (filedup_ok _ _ _ _ Hv (Hb f) _ _ _ Hs) in E1.
    injection E2 as <- <-. rewrite <- Ho in Er.
    pose proof (set_row_ok _ _ _ _ c row i None (Some f) E1 Er (Hrow i ltac:(lia)) ltac:(by intros ? [= <-])) as Ht.
    eapply (IH (S i)), E; [lia|]. split.
    + eapply counted_ext, Ht. intros g. cbn beta. rewrite is_fd_None, is_fd_Some. unfold badd. destruct (decide _); lia.
    + split; [cbn; congruence|]. exists (<[i := Some f]> row). cbn. rewrite list_lookup_alter_eq, Er. split; [done|].
      intros j Hj. rewrite list_lookup_insert_ne by lia. apply Hrow. lia.
  - rewrite bind_mret in E. eapply (IH (S i)), E; [lia|]. split; [done|]. split; [done|]. exists row. split; [done|].
    intros j Hj. apply Hrow. lia.
Qed.

(** ** Runs *)

Definition calls : list (kern (kfs P) Z) :=
  [sys_dup; sys_read; sys_write; sys_close; sys_fstat; sys_link junk; sys_unlink junk; sys_open junk;
   sys_mkdir junk; sys_mknod junk; sys_chdir; sys_pipe].

(** A system call returns, a process forks into the free slot [c] or exits, or
    another process runs. *)
Inductive fstep : kfs P -> kfs P -> Prop :=
| step_call m r s s' : m ∈ calls -> m s = Ret r s' -> fstep s s'
| step_fork c s s' :
    c <> cur s -> ofiles s !! c = Some (replicate NOFILE None) -> fork_fds NOFILE 0 c s = Ret tt s' -> fstep s s'
| step_exit s s' : exit_fds NOFILE 0 s = Ret tt s' -> fstep s s'
| step_switch c u s :
    (c < length (ofiles s))%nat ->
    fstep s (Kfs (kfs_fs s) (ftable s) (ofiles s) c u (ops s) (pipes s)).

Lemma calls_ok m n : m ∈ calls -> hoare (cw (fun _ => 0) n) m (fun _ => cw (fun _ => 0) n).
Proof.
  unfold calls. rewrite !elem_of_cons, elem_of_nil.
  intros [->|[->|[->|[->|[->|[->|[->|[->|[->|[->|[->|[->|[]]]]]]]]]]]]];
    auto using sys_read_ok, sys_write_ok, sys_close_ok, sys_fstat_ok, sys_link_ok, sys_unlink_ok, sys_mkdir_ok, sys_mknod_ok, sys_chdir_ok.
  - by apply sys_dup_ok.
  - by apply sys_open_ok.
  - by apply sys_pipe_ok.
Qed.

Lemma fstep_ok n s s' : cw (fun _ => 0) n s -> fstep s s' -> cw (fun _ => 0) n s'.
Proof.
  intros Hs Hstep. revert Hs. destruct Hstep as [m r t t' Hm E|c t t' Hne Er E|t t' E|c u t Hc]; intros Hs.
  - by eapply calls_ok, E.
  - apply (fork_fds_ok (fun _ => 0) n c NOFILE) with (i := 0%nat) in E; [done|by intros|done|]. split; [done|]. split; [done|].
    eexists. split; [done|]. intros j Hj. apply lookup_replicate_2. apply Hj.
  - by eapply (exit_fds_ok _ n _ 0), E.
  - destruct Hs. by split.
Qed.

(** The counts are exact and no call is inside the log. *)
Definition refs_exact (s : kfs P) : Prop :=
  length (ftable s) = NFILE /\ (cur s < length (ofiles s))%nat /\ (length (ofiles s) <= 64)%nat /\ ops s = 0 /\
  Forall (fun row => length row = NOFILE /\ Forall (fun v => forall f, v = Some f -> (f < NFILE)%nat) row) (ofiles s) /\
  forall f, 0 <= extra f < 2 ^ 20 /\ ((f < NFILE)%nat ->
    f_ref (ftable s !!! f) = occs f (ofiles s) + extra f /\
    (f_ref (ftable s !!! f) = 0 -> f_type (ftable s !!! f) = FD_NONE)).

Lemma refs_exact_cw s : refs_exact s <-> cw (fun _ => 0) 0 s.
Proof.
  split.
  - intros (H1&H2&H3&H4&H5&H6). split; try done.
    + eapply Forall_impl; [exact H5|]. by intros ? [].
    + intros c row fd f Er Ef. eapply Forall_lookup_1 in H5 as [_ H5]; [|exact Er]. by eapply Forall_lookup_1 in H5; eauto.
    + intros f. apply H6.
    + intros f Hf. rewrite (proj1 (proj2 (H6 f) Hf)). lia.
    + intros f Hf. apply (H6 f), Hf.
  - intros [H1 H2 H3 H4 H5 H6 H7 H8 H9]. repeat (split; [done|]). split.
    + apply Forall_lookup_2. intros c row Er. split; [by eapply Forall_lookup_1 in H2|].
      apply Forall_lookup_2. intros fd v Ev f ->. by eapply H5.
    + intros f. split; [done|]. intros Hf. rewrite H7 by done. split; [lia|]. rewrite <- H7 by done. by apply H8.
Qed.

End calls.

(** ** An instance: pipe(), fork() and the parent's exit() *)

(** Pipes numbered from 1. *)
#[local] Instance demo_pipes : Pipes Z := {|
  pipe_new := fun k => Ret (k + 1) (k + 1);
  pipeclose _ _ := mret tt;
  piperead _ _ := mret (0, []);
  pipewrite _ _ _ := mret 0 |}.
#[local] Instance demo_devsw : Devsw := {| dev_read _ := None; dev_write _ := None |}.

Definition ran {A} (m : kern (kfs Z) A) (s : kfs Z) : kfs Z :=
  match m s with Ret _ s' => s' | _ => s end.

Definition demo_fs : fs := Fs (fun _ => []) 0 (Superblock 0 0 0 0 0 0 0) [] 0 1.
Definition demo0 : kfs Z :=
  Kfs demo_fs (replicate NFILE file0) (replicate 64 (replicate NOFILE None)) 0 demo_u 0 0.
Definition demo1 : kfs Z := ran sys_pipe demo0.
Definition demo2 : kfs Z := ran (fork_fds NOFILE 0 1) demo1.
Definition demo3 : kfs Z := ran (exit_fds NOFILE 0) demo2.

Lemma occs_closed f k m : occs f (replicate k (replicate m None)) = 0.
Proof.
  assert (Hm : occ f (replicate m None) = 0).
  { induction m as [|m IH]; [done|]. cbn [replicate occ]. by rewrite is_fd_None, IH. }
  induction k as [|k IH]; [done|]. cbn [replicate occs]. by rewrite Hm, IH.
Qed.

Lemma demo0_exact : refs_exact (fun _ => 0) demo0.
Proof.
  split; [done|]. split; [cbn; lia|]. split; [cbn; lia|]. split; [done|]. split.
  - apply Forall_replicate. split; [done|]. by apply Forall_replicate.
  - intros f. split; [lia|]. intros Hf. cbn [ftable demo0 ofiles].
    rewrite (list_lookup_total_correct _ _ file0) by (by apply lookup_replicate_2). split; [|done].
    by rewrite occs_closed.
Qed.

