(* ===== verification/Umalloc.v ===== *)
(** The user-level memory allocator (umalloc.c): Kernighan and Ritchie's
    circular list of free blocks, kept in address order.

    The state is the memory of the process, the variable [freep], and the end of
    the process image, which the system call [sbrk] moves.  Pointers are
    addresses; [p + n] on headers is [padd p n].  The loops take fuel; the
    theorems show that twice the number of free blocks is enough. *)

From Stdlib Require Import Sorted.
From S2P Require Import Prelude Memory.

(** ** The program *)

Record uheap := Uheap { hm : mem; freep : Z; brk : Z }.

Definition set_hm m (s : uheap) : uheap := Uheap m (freep s) (brk s).
Definition set_freep p (s : uheap) : uheap := Uheap (hm s) p (brk s).
Definition set_brk b (s : uheap) : uheap := Uheap (hm s) (freep s) b.

(** A header is two words: [ptr] and [size], in units of headers. *)
Definition ptr (m : mem) (p : Z) : Z := ld32 m p.
Definition size (m : mem) (p : Z) : Z := ld32 m (p + 4).
Definition ptr_at (p : Z) : kern uheap Z := gets (fun s => ptr (hm s) p).
Definition size_at (p : Z) : kern uheap Z := gets (fun s => size (hm s) p).
Definition set_ptr (p v : Z) : kern uheap unit := modify (fun s => set_hm (st32 (hm s) p v) s).
Definition set_size (p v : Z) : kern uheap unit := modify (fun s => set_hm (st32 (hm s) (p + 4) v) s).
Definition padd (p n : Z) : Z := u32 (p + 8 * n).

Section umalloc.

(** The static header [base], and whether the kernel grants [sbrk] by [n] at
    size [sz]. *)
Context (base : Z) (grant : Z -> Z -> bool).

Definition sbrk (n : Z) : kern uheap Z := fun s =>
  if grant (brk s) (i32 n) then Ret (brk s) (set_brk (u32 (brk s + i32 n)) s) else Ret (u32 (-1)) s.

Fixpoint free_loop (fuel : nat) (p bp : Z) : kern uheap Z :=
  match fuel with
  | O => fun _ => Fuel
  | S fuel =>
      nx ← ptr_at p;
      if (p <? bp) && (bp <? nx) then mret p
      else if (nx <=? p) && ((p <? bp) || (bp <? nx)) then mret p
      else free_loop fuel nx bp
  end.

(** Join [bp] to the block after it, and to the block [p] before it. *)
Definition free_right (p bp : Z) : kern uheap unit :=
  n ← size_at bp;
  nx ← ptr_at p;
  if padd bp n =? nx then
    nx ← ptr_at p;
    m ← size_at nx;
    set_size bp (n + m) ;;
    nx ← ptr_at p;
    nnx ← ptr_at nx;
    set_ptr bp nnx
  else nx ← ptr_at p; set_ptr bp nx.

Definition free_left (p bp : Z) : kern uheap unit :=
  pn ← size_at p;
  if padd p pn =? bp then
    n ← size_at bp;
    set_size p (pn + n) ;;
    nx ← ptr_at bp;
    set_ptr p nx
  else set_ptr p bp.

Definition free (fuel : nat) (ap : Z) : kern uheap unit :=
  let bp := padd ap (-1) in
  f ← gets freep;
  p ← free_loop fuel f bp;
  free_right p bp ;;
  free_left p bp ;;
  modify (set_freep p).

Definition morecore (fuel : nat) (nu : Z) : kern uheap Z :=
  let nu := if nu <? 4096 then 4096 else nu in
  p ← sbrk (u32 (nu * 8));
  if p =? u32 (-1) then mret 0
  else
    set_size p nu ;;
    free fuel (padd p 1) ;;
    gets freep.

(** The null pointer is 0. *)
Fixpoint malloc_loop (fuel : nat) (nunits prevp p : Z) : kern uheap Z :=
  match fuel with
  | O => fun _ => Fuel
  | S fuel' =>
      n ← size_at p;
      if nunits <=? n then
        p ← (if n =? nunits then nx ← ptr_at p; set_ptr prevp nx ;; mret p
             else
               set_size p (n - nunits) ;;
               n ← size_at p;
               let p := padd p n in
               set_size p nunits ;; mret p);
        modify (set_freep prevp) ;;
        mret (padd p 1)
      else
        f ← gets freep;
        if p =? f then
          p ← morecore fuel nunits;
          if p =? 0 then mret 0
          else nx ← ptr_at p; malloc_loop fuel' nunits p nx
        else nx ← ptr_at p; malloc_loop fuel' nunits p nx
  end.

Definition units (nbytes : Z) : Z := u32 (u32 (nbytes + 8 - 1) / 8 + 1).

Definition malloc (fuel : nat) (nbytes : Z) : kern uheap Z :=
  let nunits := units nbytes in
  f ← gets freep;
  prevp ← (if f =? 0 then set_ptr base base ;; modify (set_freep base) ;; set_size base 0 ;; mret base
           else mret f);
  p ← ptr_at prevp;
  malloc_loop fuel nunits prevp p.

(** ** Chains of headers *)

Abbreviation block := (Z * Z)%type.

(** The address after the chain [F], which ends at [e]. *)
Definition nxt (F : list block) (e : Z) : Z := match F with [] => e | b :: _ => b.1 end.

Fixpoint chain (m : mem) (F : list block) (e : Z) : Prop :=
  match F with
  | [] => True
  | b :: F => ptr m b.1 = nxt F e /\ size m b.1 = b.2 /\ chain m F e
  end.

Lemma nxt_app F1 F2 e : nxt (F1 ++ F2) e = nxt F1 (nxt F2 e).
Proof. by destruct F1. Qed.

Lemma chain_app m F1 F2 e : chain m (F1 ++ F2) e <-> chain m F1 (nxt F2 e) /\ chain m F2 e.
Proof.
  induction F1 as [|b F1 IH]; cbn [app chain]; [tauto|]. rewrite IH, nxt_app. tauto.
Qed.

(** The bytes of a header at [a] and the word at [x] are apart. *)
Definition off_header (x a : Z) : Prop := x + 4 <= a \/ a + 8 <= x.

Lemma chain_frame m F e x v :
  (forall b, b ∈ F -> off_header x b.1) -> chain m F e -> chain (st32 m x v) F e.
Proof.
  induction F as [|b F IH]; cbn [chain]; [done|]. intros Ha (H1&H2&H3).
  pose proof (Ha b ltac:(left)) as Hb. unfold off_header in Hb. unfold ptr, size in *.
  rewrite !ld32_st32_ne by lia. split; [done|]. split; [done|]. apply IH; [|done]. intros c Hc. apply Ha. by right.
Qed.

(** A ring of headers. *)
Definition ring (m : mem) (W : list block) : Prop := chain m W (nxt W 0).

Lemma ring_rotate m X Y : ring m (X ++ Y) -> ring m (Y ++ X).
Proof.
  unfold ring. rewrite !chain_app, !nxt_app. destruct X as [|x X], Y as [|y Y]; cbn [nxt]; tauto.
Qed.


(** ** The heap *)

(** [y] lies above [x], not adjacent to it. *)
Definition gap (x y : block) : Prop := x.1 + 8 * x.2 < y.1 /\ x.1 + 8 <= y.1.

Definition apart (x y : block) : Prop := x.1 + 8 * x.2 <= y.1 \/ y.1 + 8 * y.2 <= x.1.

Fixpoint disjoint_blocks (L : list block) : Prop :=
  match L with [] => True | b :: L => Forall (apart b) L /\ disjoint_blocks L end.

#[local] Instance apart_sym : Symmetric apart.
Proof. intros x y []; [by right|by left]. Qed.

#[global] Instance disjoint_blocks_proper : Proper ((≡ₚ) ==> iff) disjoint_blocks.
Proof.
  intros L L' HL. induction HL as [|b L L' HL IH|b c L|L1 L2 L3 _ IH1 _ IH2]; cbn [disjoint_blocks].
  - done.
  - by rewrite IH, HL.
  - rewrite !Forall_cons. assert (apart b c <-> apart c b) by (split; apply apart_sym). tauto.
  - by rewrite IH1.
Qed.

(** The free blocks [F], above [base], and the blocks [A] in use. *)
Record heap_ok (s : uheap) (F A : list block) : Prop := {
  ho_ring : ring (hm s) ((base, 0) :: F);
  ho_sorted : StronglySorted gap ((base, 0) :: F);
  ho_disjoint : disjoint_blocks (F ++ A);
  ho_inside : Forall (fun b => base + 8 <= b.1 /\ 1 <= b.2 /\ b.1 + 8 * b.2 <= brk s) (F ++ A);
  ho_sizes : Forall (fun b => size (hm s) b.1 = b.2) A;
  ho_freep : freep s ∈ base :: F.*1;
  ho_range : 0 < base /\ base + 8 <= brk s < 2 ^ 31;
}.

(** Memory outside the headers of [H] is unchanged. *)
Definition only_headers (H : list Z) (m m' : mem) : Prop :=
  forall x, (forall a, a ∈ H -> x < a \/ a + 8 <= x) -> m' x = m x.

Lemma only_headers_refl H m : only_headers H m m.
Proof. by intros x. Qed.

Lemma only_headers_trans H m1 m2 m3 : only_headers H m1 m2 -> only_headers H m2 m3 -> only_headers H m1 m3.
Proof. intros H1 H2 x Hx. by rewrite H2, H1. Qed.

Lemma only_headers_weaken H H' m m' : H ⊆ H' -> only_headers H m m' -> only_headers H' m m'.
Proof. intros HH Hm x Hx. apply Hm. auto. Qed.

Lemma only_headers_st H m a x v : a ∈ H -> x = a \/ x = a + 4 -> only_headers H m (st32 m x v).
Proof. intros Ha Hx y Hy. specialize (Hy a Ha). apply st32_other. lia. Qed.

Lemma sizes_frame H m m' A :
  only_headers H m m' -> (forall a b, a ∈ H -> b ∈ A -> a + 8 <= b.1 \/ b.1 + 8 <= a) ->
  Forall (fun b => size m b.1 = b.2) A -> Forall (fun b => size m' b.1 = b.2) A.
Proof.
  intros Hm Ha HA. rewrite Forall_forall in *. intros b Hb. rewrite <- (HA b Hb). apply ld32_ext.
  intros x Hx. apply Hm. intros a HaH. specialize (Ha a b HaH Hb). lia.
Qed.

(** ** Sorted lists *)

Lemma sorted_app X Y :
  StronglySorted gap (X ++ Y) <->
  StronglySorted gap X /\ StronglySorted gap Y /\ (forall x y, x ∈ X -> y ∈ Y -> gap x y).
Proof.
  induction X as [|x X IH]; cbn [app].
  - split; [|tauto]. intros HY. split; [constructor|]. split; [done|]. intros x y Hx. by apply elem_of_nil in Hx.
  - split.
    + intros HS. inversion_clear HS as [|? ? HS' HF]. apply IH in HS' as (H1&H2&H3). rewrite Forall_app, !Forall_forall in HF.
      destruct HF as [F1 F2]. split; [constructor; [done|by apply Forall_forall]|]. split; [done|].
      intros a y [->|Ha]%elem_of_cons Hy; auto.
    + intros (H1&H2&H3). inversion_clear H1 as [|? ? HS' HF]. constructor.
      * apply IH. split; [done|]. split; [done|]. intros a y Ha Hy. apply H3; [by right|done].
      * rewrite Forall_app. split; [done|]. apply Forall_forall. intros y Hy. apply H3; [by left|done].
Qed.

(** The predecessor of address [b] in a sorted ring. *)
Lemma split_at (F : list block) b :
  StronglySorted gap F -> (forall x, x ∈ F -> x.1 <> b) ->
  exists F1 F2, F = F1 ++ F2 /\ (forall x, x ∈ F1 -> x.1 < b) /\ (forall x, x ∈ F2 -> b < x.1).
Proof.
  induction F as [|x F IH]; intros HS Hb.
  - exists [], []. split; [done|]. by split; intros x Hx; apply elem_of_nil in Hx.
  - inversion_clear HS as [|? ? HS' HF]. destruct (decide (x.1 < b)) as [Hlt|Hge].
    + destruct IH as (F1&F2&->&H1&H2); [done|intros y Hy; apply Hb; by right|].
      exists (x :: F1), F2. split; [done|]. split; [|done]. intros y [->|Hy]%elem_of_cons; auto.
    + exists [], (x :: F). split; [done|]. split; [intros y Hy; by apply elem_of_nil in Hy|].
      intros y [->|Hy]%elem_of_cons.
      * specialize (Hb x ltac:(left)). lia.
      * rewrite Forall_forall in HF. specialize (HF y Hy). unfold gap in HF. lia.
Qed.

(** ** The search of [free] *)

Lemma bind_ptr {B} q (k : Z -> kern uheap B) s : (ptr_at q ≫= k) s = k (ptr (hm s) q) s.
Proof. done. Qed.

Lemma bind_size {B} q (k : Z -> kern uheap B) s : (size_at q ≫= k) s = k (size (hm s) q) s.
Proof. done. Qed.

(** Walking up to [p], the last header below [bp]. *)
Lemma walk_up s p np Y bp fuel V :
  chain (hm s) (V ++ (p, np) :: Y) base -> StronglySorted gap (V ++ (p, np) :: Y) ->
  base <= p < bp -> (forall y, y ∈ Y -> bp < y.1) ->
  free_loop (length V + S fuel) (nxt V p) bp s = Ret p s.
Proof.
  intros Hc HS Hp HY. induction V as [|v V IH]; cbn [app length Nat.add free_loop nxt]; rewrite bind_ptr.
  - destruct Hc as [E _]. cbn [fst] in E. rewrite E. destruct Y as [|y Y]; cbn [nxt].
    + rewrite (proj2 (Z.ltb_lt _ _)), (proj2 (Z.ltb_ge _ _)), (proj2 (Z.leb_le _ _)) by lia. done.
    + specialize (HY y ltac:(left)). rewrite (proj2 (Z.ltb_lt _ _)), (proj2 (Z.ltb_lt _ _)) by lia. done.
  - destruct Hc as (-> & _ & Hc). inversion_clear HS as [|? ? HS' HF]. rewrite nxt_app. cbn [nxt fst].
    assert (Hn : v.1 < nxt V p <= p).
    { rewrite Forall_app, Forall_cons in HF. destruct HF as (F1&F2&_). unfold gap in *. cbn in *.
      destruct V as [|w V]; cbn [nxt]; [lia|]. apply sorted_app in HS' as (_&_&G). specialize (G w (p, np) ltac:(left) ltac:(left)).
      apply Forall_cons in F1 as [F1 _]. unfold gap in *. cbn in *. lia. }
    rewrite (proj2 (Z.ltb_ge bp _)) by lia. rewrite andb_false_r. rewrite (proj2 (Z.leb_gt _ _)) by lia. cbn [andb].
    by apply IH.
Qed.

(** Walking over the headers above [bp] to [base]. *)
Lemma walk_wrap s bp fuel U :
  chain (hm s) U base -> StronglySorted gap U -> base < bp -> (forall y, y ∈ U -> bp < y.1) ->
  free_loop (length U + fuel) (nxt U base) bp s = free_loop fuel base bp s.
Proof.
  intros Hc HS Hb HU. induction U as [|u U IH]; [done|]. cbn [length Nat.add free_loop nxt]. rewrite bind_ptr.
  destruct Hc as (-> & _ & Hc). inversion_clear HS as [|? ? HS' HF]. pose proof (HU u ltac:(left)) as Hu.
  rewrite (proj2 (Z.ltb_ge u.1 bp)) by lia. cbn [andb orb].
  assert (E : (nxt U base <=? u.1) && (bp <? nxt U base) = false).
  { apply andb_false_iff. destruct U as [|w U]; cbn [nxt].
    - right. apply Z.ltb_ge. lia.
    - left. apply Z.leb_gt. apply Forall_cons in HF as [G _]. unfold gap in G. lia. }
  rewrite E. apply IH; [done|done|]. intros y Hy. apply HU. by right.
Qed.

Lemma free_loop_finds s F X p np Y bp fuel :
  ring (hm s) ((base, 0) :: F) -> StronglySorted gap ((base, 0) :: F) -> freep s ∈ base :: F.*1 ->
  (base, 0) :: F = X ++ (p, np) :: Y -> p < bp -> (forall y, y ∈ Y -> bp < y.1) ->
  (2 * length F + 2 <= fuel)%nat -> free_loop fuel (freep s) bp s = Ret p s.
Proof.
  intros Hr HS Hf E Hp HY Hfuel. assert (Hb : base <= p).
  { destruct X as [|x X]; injection E as E1 E2; [lia|]. inversion_clear HS as [|? ? _ HF]. rewrite E2, Forall_app, Forall_cons in HF.
    destruct HF as (_&G&_). unfold gap in G. cbn in G. lia. }
  unfold ring in Hr. cbn [nxt] in Hr. change (base :: F.*1) with (((base, 0) :: F).*1) in Hf.
  assert (Hlen : S (length F) = (length X + S (length Y))%nat).
  { apply (f_equal length) in E. by rewrite length_app in E. }
  assert (Hup : forall fuel', (S (length F) < fuel')%nat -> free_loop fuel' base bp s = Ret p s).
  { intros fuel' Hf'. replace fuel' with (length X + S (fuel' - S (length X)))%nat by lia.
    replace base with (nxt X p) at 1 by (destruct X; by injection E as <- _).
    apply (walk_up s p np Y); [by rewrite <- E|by rewrite <- E|done|done]. }
  rewrite E in Hf, Hr, HS. rewrite fmap_app, fmap_cons, elem_of_app, elem_of_cons in Hf.
  assert (Hlow : forall V W, X = V ++ W -> freep s = nxt W p -> free_loop fuel (freep s) bp s = Ret p s).
  { intros V W -> ->. rewrite length_app in Hlen. replace fuel with (length W + S (fuel - S (length W)))%nat by lia.
    rewrite <- app_assoc in Hr, HS. apply chain_app in Hr as [_ Hr]. apply sorted_app in HS as (_&HS&_).
    by apply (walk_up s p np Y). }
  destruct Hf as [(x&Ef&(V&W&->)%list_elem_of_split)%list_elem_of_fmap|[Ef|(y&Ef&(V&W&->)%list_elem_of_split)%list_elem_of_fmap]].
  - by apply (Hlow V (x :: W)).
  - apply (Hlow X []); [by rewrite app_nil_r|done].
  - rewrite length_app in Hlen. cbn in Hlen. replace fuel with (length (y :: W) + (fuel - S (length W)))%nat by (cbn; lia).
    rewrite app_comm_cons, app_assoc in Hr, HS. apply chain_app in Hr as [_ Hr]. apply sorted_app in HS as (_&HS&_).
    rewrite Ef. change y.1 with (nxt (y :: W) base). rewrite walk_wrap; [|done|done|lia|].
    + apply Hup. lia.
    + intros z Hz. apply HY. apply elem_of_app. by right.
Qed.

(** ** Coalescing *)

(** The block at [b] put in front of [Y], and behind [x]. *)
Definition join_right (b n : Z) (Y : list block) : list block :=
  match Y with
  | y :: Y' => if b + 8 * n =? y.1 then (b, n + y.2) :: Y' else (b, n) :: Y
  | [] => [(b, n)]
  end.

Definition join_left (x : block) (R : list block) : list block :=
  match R with
  | r :: R' => if x.1 + 8 * x.2 =? r.1 then (x.1, x.2 + r.2) :: R' else x :: R
  | [] => [x]
  end.

Lemma set_ptr_run q v s : set_ptr q v s = Ret tt (set_hm (st32 (hm s) q v) s).
Proof. done. Qed.

Lemma set_size_run q v s : set_size q v s = Ret tt (set_hm (st32 (hm s) (q + 4) v) s).
Proof. done. Qed.

Lemma bind_set_size {B} q v (k : unit -> kern uheap B) s :
  (set_size q v ≫= k) s = k tt (set_hm (st32 (hm s) (q + 4) v) s).
Proof. done. Qed.

Lemma bind_set_ptr {B} q v (k : unit -> kern uheap B) s :
  (set_ptr q v ≫= k) s = k tt (set_hm (st32 (hm s) q v) s).
Proof. done. Qed.

(** Blocks below the top of user memory. *)
Definition in_range (b : block) : Prop := base <= b.1 /\ 0 <= b.2 /\ b.1 + 8 * b.2 < 2 ^ 31.

Lemma padd_range b : 0 < base -> in_range b -> padd b.1 b.2 = b.1 + 8 * b.2.
Proof. unfold in_range, padd. intros. apply u32_id. unfold is_u32. lia. Qed.

(** A header stored at [q]. *)
Lemma header_stored m q v n : is_u32 v -> is_u32 n ->
  let m' := st32 (st32 m (q + 4) n) q v in ptr m' q = v /\ size m' q = n.
Proof.
  intros Hv Hn m'. unfold m', ptr, size. rewrite ld32_st32_eq, u32_id by done. rewrite ld32_st32_ne by lia.
  by rewrite ld32_st32_eq, u32_id.
Qed.

Lemma ptr_stored m q v : is_u32 v -> let m' := st32 m q v in ptr m' q = v /\ size m' q = size m q.
Proof.
  intros Hv m'. unfold m', ptr, size. rewrite ld32_st32_eq, u32_id by done. by rewrite ld32_st32_ne by lia.
Qed.

Lemma chain_ext m m' F e :
  (forall b x, b ∈ F -> b.1 <= x < b.1 + 8 -> m' x = m x) -> chain m F e -> chain m' F e.
Proof.
  intros Hm. induction F as [|b F IH]; cbn [chain]; [done|]. intros (H1&H2&H3). unfold ptr, size in *.
  rewrite (ld32_ext m' m), (ld32_ext m' m (b.1 + 4)) by (intros; apply (Hm b); [left|lia]).
  split; [done|]. split; [done|]. apply IH; [|done]. intros c x Hc. apply Hm. by right.
Qed.

Lemma chain_only m m' F e H :
  only_headers H m m' -> (forall a b, a ∈ H -> b ∈ F -> a + 8 <= b.1 \/ b.1 + 8 <= a) -> chain m F e -> chain m' F e.
Proof.
  intros Hm Ha. apply chain_ext. intros b x Hb Hx. apply Hm. intros a HaH. specialize (Ha a b HaH Hb). lia.
Qed.

Lemma only_headers_2 q m v w : only_headers [q] m (st32 (st32 m (q + 4) v) q w).
Proof.
  apply (only_headers_trans _ _ (st32 m (q + 4) v)); apply (only_headers_st _ _ q); set_solver.
Qed.

Lemma free_right_run s p np Y b n :
  0 < base -> chain (hm s) ((p, np) :: Y) base -> size (hm s) b = n -> in_range (b, n) -> base < b -> p + 8 <= b ->
  Forall (fun y => in_range y /\ b + 8 <= y.1) Y ->
  exists m1, free_right p b s = Ret tt (set_hm m1 s) /\ only_headers [b] (hm s) m1 /\ chain m1 (join_right b n Y) base.
Proof.
  intros H0 (Hp&_&HY) Hn Hb Hbase Hpb Hall. unfold free_right. rewrite bind_size, bind_ptr, Hn.
  pose proof (padd_range (b, n) H0 Hb) as Epad. cbn [fst snd] in *. rewrite Epad, Hp.
  assert (Hfar : forall Y', Y' ⊆ Y -> forall a c, a ∈ [b] -> c ∈ Y' -> a + 8 <= c.1 \/ c.1 + 8 <= a).
  { intros Y' Hsub a c ->%list_elem_of_singleton Hc. rewrite Forall_forall in Hall. destruct (Hall c) as [_ ?]; [by apply Hsub|lia]. }
  destruct Y as [|y Y]; cbn [nxt join_right].
  - destruct (Z.eqb_spec (b + 8 * n) base) as [E|_]; [unfold in_range in Hb; cbn in Hb; lia|]. rewrite bind_ptr, Hp.
    eexists. split; [reflexivity|]. destruct (ptr_stored (hm s) b base) as [E1 E2]; [unfold is_u32, in_range in *; cbn in *; lia|].
    split; [by apply (only_headers_st _ _ b); [left|left]|]. cbn. by rewrite E1, E2, Hn.
  - apply Forall_cons in Hall as [[Hy Hby] Hall]. destruct HY as (Hy1&Hy2&HY). unfold in_range in *. cbn [fst snd] in *.
    destruct (Z.eqb_spec (b + 8 * n) y.1) as [E|E].
    + rewrite bind_ptr, Hp. cbn [nxt]. rewrite bind_size, Hy2, bind_set_size. cbn [hm set_hm]. rewrite bind_ptr.
      unfold ptr at 1. cbn [hm set_hm]. rewrite ld32_st32_ne by lia. change (ld32 (hm s) p) with (ptr (hm s) p). rewrite Hp.
      cbn [nxt]. rewrite bind_ptr. unfold ptr at 1. cbn [hm set_hm]. rewrite ld32_st32_ne by lia.
      change (ld32 (hm s) y.1) with (ptr (hm s) y.1). rewrite Hy1, set_ptr_run. eexists. split; [reflexivity|]. cbn [hm set_hm].
      split; [by apply only_headers_2|]. cbn [chain fst snd].
      assert (Hnx : is_u32 (nxt Y base)).
      { unfold is_u32. destruct Y as [|z Y]; cbn [nxt]; [lia|]. apply Forall_cons in Hall as [? _]. lia. }
      destruct (header_stored (hm s) b (nxt Y base) (n + y.2)) as [E1 E2]; [done|unfold is_u32; lia|]. split; [done|]. split; [done|].
      eapply chain_only; [by apply only_headers_2| |exact HY]. apply Hfar. set_solver.
    + rewrite bind_ptr, Hp, set_ptr_run. eexists. split; [reflexivity|]. cbn [hm set_hm nxt].
      destruct (ptr_stored (hm s) b y.1) as [E1 E2]; [unfold is_u32; lia|].
      split; [by apply (only_headers_st _ _ b); [left|left]|]. cbn [chain fst snd nxt]. rewrite E1, E2. split; [done|]. split; [done|].
      change (chain (st32 (hm s) b y.1) (y :: Y) base).
      eapply (chain_only (hm s) _ (y :: Y)); [by apply (only_headers_st _ _ b); [left|left]|by apply Hfar|done].
Qed.

Lemma free_left_run s x b n R :
  0 < base -> size (hm s) x.1 = x.2 -> in_range x -> in_range (b, n) -> x.1 + 8 <= b ->
  chain (hm s) ((b, n) :: R) base -> (forall y, y ∈ R -> in_range y /\ b + 8 <= y.1) -> x.1 + 8 * x.2 <= b ->
  exists m2, free_left x.1 b s = Ret tt (set_hm m2 s) /\ only_headers [x.1] (hm s) m2 /\
    chain m2 (join_left x ((b, n) :: R)) base.
Proof.
  intros H0 Hx Hxr Hb Hxb (Hb1&Hb2&HR) Hfar Hle. unfold free_left. rewrite bind_size, Hx, (padd_range x H0 Hxr).
  cbn [join_left fst snd] in *. unfold in_range in *. cbn [fst snd] in *.
  assert (Hfar' : forall a c, a ∈ [x.1] -> c ∈ R -> a + 8 <= c.1 \/ c.1 + 8 <= a).
  { intros a c ->%list_elem_of_singleton Hc. destruct (Hfar c Hc) as [_ ?]. lia. }
  destruct (Z.eqb_spec (x.1 + 8 * x.2) b) as [E|E].
  - rewrite bind_size, Hb2, bind_set_size, bind_ptr. unfold ptr at 1. cbn [hm set_hm]. rewrite ld32_st32_ne by lia.
    change (ld32 (hm s) b) with (ptr (hm s) b). rewrite Hb1, set_ptr_run. eexists. split; [reflexivity|]. cbn [hm set_hm].
    split; [by apply only_headers_2|]. cbn [chain fst snd].
    assert (Hnx : is_u32 (nxt R base)).
    { unfold is_u32. destruct R as [|z R]; cbn [nxt]; [lia|]. destruct (Hfar z ltac:(left)). lia. }
    destruct (header_stored (hm s) x.1 (nxt R base) (x.2 + n)) as [E1 E2]; [done|unfold is_u32; lia|]. split; [done|]. split; [done|].
    eapply chain_only; [by apply only_headers_2|exact Hfar'|exact HR].
  - rewrite set_ptr_run. eexists. split; [reflexivity|]. cbn [hm set_hm].
    destruct (ptr_stored (hm s) x.1 b) as [E1 E2]; [unfold is_u32; lia|].
    assert (Ho : only_headers [x.1] (hm s) (st32 (hm s) x.1 b)) by (apply (only_headers_st _ _ x.1); [left|by left]).
    split; [done|]. cbn [chain nxt fst snd]. rewrite E1, E2. split; [done|]. split; [done|].
    change (chain (st32 (hm s) x.1 b) ((b, n) :: R) base). eapply chain_only; [exact Ho| |by split; [|split]].
    intros a c Ha [->|Hc]%elem_of_cons; [|by apply Hfar']. apply list_elem_of_singleton in Ha as ->. cbn. lia.
Qed.

(** ** The joined list *)

Fixpoint total (L : list block) : Z := match L with [] => 0 | b :: L => b.2 + total L end.

Lemma total_app L L' : total (L ++ L') = total L + total L'.
Proof. induction L as [|b L IH]; cbn; [done|]. rewrite IH. lia. Qed.

#[global] Instance total_proper : Proper ((≡ₚ) ==> (=)) total.
Proof. intros L L' HL. induction HL; cbn in *; lia. Qed.

Lemma disjoint_merge a n k Z :
  0 <= n -> 0 <= k -> Forall (fun z => 1 <= z.2) Z ->
  disjoint_blocks ((a, n) :: (a + 8 * n, k) :: Z) -> disjoint_blocks ((a, n + k) :: Z).
Proof.
  intros Hn Hk HZ. cbn. rewrite Forall_cons, !Forall_forall in *. intros ((_&H1)&H2&H3). split; [|done].
  intros z Hz. specialize (H1 z Hz). specialize (H2 z Hz). specialize (HZ z Hz). unfold apart in *. cbn in *. lia.
Qed.

(** Joining keeps a property of the blocks that is closed under merging
    adjacent ones. *)
Record joins (L L' : list block) : Prop := {
  j_total : total L' = total L;
  j_sorted : StronglySorted gap L';
  j_disjoint : forall Z, Forall (fun z => 1 <= z.2) (L ++ Z) -> disjoint_blocks (L ++ Z) -> disjoint_blocks (L' ++ Z);
  j_inside : forall lo hi, Forall (fun b => lo <= b.1 /\ 1 <= b.2 /\ b.1 + 8 * b.2 <= hi) L ->
    Forall (fun b => lo <= b.1 /\ 1 <= b.2 /\ b.1 + 8 * b.2 <= hi) L';
}.

Lemma join_right_joins b n Y :
  0 <= n -> StronglySorted gap Y -> Forall (fun y => 0 <= y.2 /\ b + 8 * n <= y.1 /\ b + 8 <= y.1) Y ->
  joins ((b, n) :: Y) (join_right b n Y).
Proof.
  intros Hn HS HY. destruct Y as [|y Y]; cbn [join_right].
  - split; [done| |done|done]. constructor; [constructor|done].
  - inversion_clear HS as [|? ? HS' HF]. apply Forall_cons in HY as [Hy HY]. destruct y as [a k]. cbn [fst snd] in *.
    destruct (Z.eqb_spec (b + 8 * n) a) as [<-|Hne].
    + split.
      * cbn. lia.
      * constructor; [done|]. eapply Forall_impl; [exact HF|]. intros z. unfold gap. cbn. lia.
      * intros Z HZ. cbn [app] in *. rewrite !Forall_cons in HZ. apply disjoint_merge; [lia|lia|apply HZ].
      * intros lo hi. rewrite !Forall_cons. cbn. intuition lia.
    + split; [done| |done|done]. constructor; [by constructor|]. constructor.
      * unfold gap. cbn. lia.
      * rewrite Forall_forall in HF, HY |- *. intros z Hz. specialize (HF z Hz). specialize (HY z Hz). unfold gap in *. cbn in *. lia.
Qed.

Lemma join_right_shape b n Y : 0 <= n -> Forall (fun y => 0 <= y.2) Y ->
  exists n' R, join_right b n Y = (b, n') :: R /\ R ⊆ Y /\ n <= n'.
Proof.
  intros Hn HY. destruct Y as [|y Y]; cbn [join_right]; [by exists n, []|]. apply Forall_cons in HY as [Hy HY].
  destruct (_ =? _); [exists (n + y.2), Y|exists n, (y :: Y)]; (split; [done|]); (split; [set_solver|lia]).
Qed.

Lemma join_left_joins x b n R :
  0 <= x.2 -> 0 <= n -> x.1 + 8 * x.2 <= b -> x.1 + 8 <= b -> StronglySorted gap ((b, n) :: R) ->
  joins (x :: (b, n) :: R) (join_left x ((b, n) :: R)).
Proof.
  intros Hx Hn H1 H2 HS. cbn [join_left fst snd]. inversion_clear HS as [|? ? HS' HF]. destruct x as [a k]. cbn [fst snd] in *.
  destruct (Z.eqb_spec (a + 8 * k) b) as [<-|Hne].
  - split.
    + cbn. lia.
    + constructor; [done|]. eapply Forall_impl; [exact HF|]. intros z. unfold gap. cbn. lia.
    + intros Z HZ. cbn [app] in *. rewrite !Forall_cons in HZ. apply disjoint_merge; [lia|lia|apply HZ].
    + intros lo hi. rewrite !Forall_cons. cbn. intuition lia.
  - split; [done| |done|done]. constructor; [by constructor|]. constructor.
    + unfold gap. cbn. lia.
    + eapply Forall_impl; [exact HF|]. intros z. unfold gap. cbn. lia.
Qed.

Lemma join_left_first x R e : nxt (join_left x R) e = x.1.
Proof. destruct R as [|r R]; cbn; [done|]. by destruct (_ =? _). Qed.

(** ** free *)

(** Where the block [b] in use lies among the free ones. *)
Record placed (F : list block) (b : block) (X : list block) (x : block) (Y : list block) : Prop := {
  pl_split : (base, 0) :: F = X ++ x :: Y;
  pl_before : x.1 + 8 <= b.1 /\ x.1 + 8 * x.2 <= b.1;
  pl_after : Forall (fun y => b.1 + 8 * b.2 <= y.1 /\ b.1 + 8 <= y.1) Y;
}.

Lemma heap_apart s F A b : heap_ok s F (b :: A) -> Forall (apart b) F /\ base + 8 <= b.1 /\ 1 <= b.2 /\ b.1 + 8 * b.2 <= brk s.
Proof.
  intros Hs. pose proof (ho_disjoint _ _ _ Hs) as Hd. rewrite <- Permutation_middle in Hd. cbn in Hd. destruct Hd as [Hd _].
  pose proof (ho_inside _ _ _ Hs) as Hi. rewrite Forall_app, Forall_cons in *. tauto.
Qed.

Lemma heap_place s F A b : heap_ok s F (b :: A) -> exists X x Y, placed F b X x Y.
Proof.
  intros Hs. destruct (heap_apart _ _ _ _ Hs) as (Ha&Hb1&Hb2&Hb3). pose proof (ho_inside _ _ _ Hs) as Hi. pose proof (ho_sorted _ _ _ Hs) as HS.
  assert (Hcase : forall y, y ∈ (base, 0) :: F -> y = (base, 0) \/ apart b y /\ 1 <= y.2).
  { intros y [->|Hy]%elem_of_cons; [by left|right]. apply Forall_app in Hi as [Hi _].
    rewrite Forall_forall in Ha, Hi. split; [by apply Ha|]. by apply Hi. }
  destruct (split_at ((base, 0) :: F) b.1 HS) as (L1&L2&E&H1&H2).
  { intros y Hy. destruct (Hcase y Hy) as [->|[Hap Hy2]]; cbn; [lia|]. unfold apart in Hap. lia. }
  destruct (exists_last (l := L1)) as (X&x&->).
  { intros ->. cbn in E. rewrite <- E in H2. specialize (H2 (base, 0) ltac:(left)). cbn in H2. lia. }
  exists X, x, L2. split.
  - by rewrite E, <- app_assoc.
  - specialize (H1 x ltac:(set_solver)). destruct (Hcase x) as [->|[Hap Hx2]]; [rewrite E; set_solver|cbn in *; lia|].
    unfold apart in Hap. lia.
  - apply Forall_forall. intros y Hy. specialize (H2 y Hy). destruct (Hcase y) as [->|[Hap Hy2]]; [rewrite E; set_solver|cbn in *; lia|].
    unfold apart in Hap. lia.
Qed.

(** Every header of the ring is in range. *)
Lemma ring_in_range s F A x : heap_ok s F A -> x ∈ (base, 0) :: F -> in_range x.
Proof.
  intros Hs Hx. pose proof (ho_range _ _ _ Hs). pose proof (ho_inside _ _ _ Hs) as Hi. rewrite Forall_app, !Forall_forall in Hi.
  unfold in_range. apply elem_of_cons in Hx as [->|Hx]; cbn; [lia|]. destruct Hi as [Hi _]. specialize (Hi x Hx). lia.
Qed.

Lemma placed_joins s F A b X x Y : heap_ok s F (b :: A) -> placed F b X x Y ->
  StronglySorted gap (x :: Y) /\ joins (b :: Y) (join_right b.1 b.2 Y) /\
  Forall (fun y => b.1 <= y.1 /\ 1 <= y.2 /\ y.1 + 8 * y.2 <= brk s) (join_right b.1 b.2 Y).
Proof.
  intros Hs [E Hx HY]. destruct (heap_apart _ _ _ _ Hs) as (_&Hb1&Hb2&Hb3). pose proof (ho_sorted _ _ _ Hs) as HS.
  rewrite E in HS. apply sorted_app in HS as (_&HS&_). split; [done|]. inversion_clear HS as [|? ? HSY _].
  assert (HYi : Forall (fun y => b.1 <= y.1 /\ 1 <= y.2 /\ y.1 + 8 * y.2 <= brk s) (b :: Y)).
  { constructor; [lia|]. pose proof (ho_inside _ _ _ Hs) as Hi. apply Forall_app in Hi as [Hi _]. rewrite Forall_forall in *.
    intros y Hy. specialize (HY y Hy). assert (Hin : y ∈ (base, 0) :: F) by (rewrite E; set_solver).
    apply elem_of_cons in Hin as [->|Hin]; [cbn in *; lia|]. specialize (Hi y Hin). lia. }
  assert (Hj : joins (b :: Y) (join_right b.1 b.2 Y)).
  { destruct b as [b n]. apply join_right_joins; [cbn in *; lia|done|]. apply Forall_cons in HYi as [_ HYi].
    rewrite Forall_forall in *. intros y Hy. specialize (HY y Hy). specialize (HYi y Hy). lia. }
  split; [done|]. by apply (j_inside _ _ Hj).
Qed.

(** The memory after [free]: [b] joined into the ring behind [x]. *)
Lemma free_run s F A b X x Y :
  heap_ok s F (b :: A) -> placed F b X x Y ->
  exists m, (forall fuel, (2 * length F + 2 <= fuel)%nat -> free fuel (b.1 + 8) s = Ret tt (set_freep x.1 (set_hm m s))) /\
    only_headers [b.1; x.1] (hm s) m /\
    chain m (X ++ join_left x (join_right b.1 b.2 Y)) base.
Proof.
  intros Hs Hp. pose proof Hp as [E Hx HY]. destruct (heap_apart _ _ _ _ Hs) as (_&Hb1&Hb2&Hb3). pose proof (ho_range _ _ _ Hs) as Hr.
  pose proof (ho_ring _ _ _ Hs) as Hring. pose proof (ho_sorted _ _ _ Hs) as HS.
  assert (HR : forall y, y ∈ X ++ x :: Y -> in_range y) by (rewrite <- E; intros y; by eapply ring_in_range).
  destruct x as [p np]. cbn [fst snd] in *.
  pose proof (fun fuel => free_loop_finds s F X p np Y b.1 fuel Hring HS (ho_freep _ _ _ Hs) E ltac:(lia)
    ltac:(rewrite Forall_forall in HY; intros y Hy; specialize (HY y Hy); lia)) as Hfind.
  unfold ring in Hring. cbn [nxt fst] in Hring. rewrite E in Hring, HS. apply chain_app in Hring as [HcX HcY].
  cbn [nxt fst] in HcX. apply sorted_app in HS as (_&_&HSX).
  assert (HYr : Forall (fun y => in_range y /\ b.1 + 8 <= y.1) Y).
  { rewrite Forall_forall in *. intros y Hy. split; [apply HR; set_solver|by apply HY]. }
  destruct (free_right_run s p np Y b.1 b.2) as (m1&Hrun1&Ho1&Hc1); try done; [lia| |unfold in_range; cbn; lia|lia|lia|].
  { pose proof (ho_sizes _ _ _ Hs) as Hsz. by apply Forall_cons in Hsz as [? _]. }
  destruct (join_right_shape b.1 b.2 Y) as (n'&R&Ej&HRY&Hn'); [lia| |].
  { eapply Forall_impl; [exact HYr|]. unfold in_range. tauto. }
  assert (Hn'r : in_range (b.1, n')).
  { destruct (placed_joins _ _ _ _ _ _ _ Hs Hp) as (_&_&Hin). rewrite Ej in Hin. apply Forall_cons in Hin as [Hin _].
    unfold in_range. cbn in *. lia. }
  rewrite Ej in Hc1.
  destruct (free_left_run (set_hm m1 s) (p, np) b.1 n' R) as (m2&Hrun2&Ho2&Hc2); try done; cbn [hm set_hm fst snd] in *; try lia.
  { destruct HcY as (_&Esz&_). cbn [fst snd] in Esz. rewrite <- Esz. apply ld32_ext. intros y Hy. apply Ho1. intros a ->%list_elem_of_singleton. lia. }
  { apply HR. set_solver. }
  { intros y Hy. rewrite Forall_forall in HYr. apply HYr. set_solver. }
  exists m2. split; [|split].
  { intros fuel Hfuel. unfold free. replace (padd (b.1 + 8) (-1)) with b.1 by (unfold padd; rewrite u32_id; [lia|unfold is_u32; lia]).
    rewrite bind_gets, (bind_Ret _ _ _ _ _ (Hfind fuel Hfuel)), (bind_Ret _ _ _ _ _ Hrun1). by rewrite (bind_Ret _ _ _ _ _ Hrun2). }
  { eapply only_headers_trans; (eapply only_headers_weaken; [|done]); set_solver. }
  rewrite Ej. apply chain_app. rewrite join_left_first. split; [|done].
  eapply chain_only; [exact Ho2| |eapply chain_only; [exact Ho1| |exact HcX]].
  - intros a c ->%list_elem_of_singleton Hc. specialize (HSX c (p, np) Hc ltac:(left)). unfold gap in HSX. cbn in *. lia.
  - intros a c ->%list_elem_of_singleton Hc. specialize (HSX c (p, np) Hc ltac:(left)). unfold gap in HSX. cbn in *. lia.
Qed.

(** The free blocks after [b] is joined behind [x]. *)
Definition freed (X : list block) (x b : block) (Y : list block) : list block :=
  tail (X ++ join_left x (join_right b.1 b.2 Y)).

Lemma freed_base b Y : base + 8 <= b.1 -> join_left (base, 0) (join_right b.1 b.2 Y) = (base, 0) :: join_right b.1 b.2 Y.
Proof.
  intros Hb. destruct (join_right _ _ _) as [|r R] eqn:Ej; [done|]. cbn [join_left fst snd].
  assert (Er : r.1 = b.1) by (destruct Y; cbn in Ej; [|destruct (_ =? _)]; by injection Ej as <- _).
  by rewrite (proj2 (Z.eqb_neq _ _)) by lia.
Qed.

Lemma freed_ring s F A b X x Y : heap_ok s F (b :: A) -> placed F b X x Y ->
  (base, 0) :: freed X x b Y = X ++ join_left x (join_right b.1 b.2 Y).
Proof.
  intros Hs [E Hx HY]. unfold freed. destruct X as [|x0 X]; injection E as <- E; [|done]. cbn [app fst] in *.
  rewrite freed_base; [done|lia].
Qed.

Definition blocks_ok (hi : Z) (L : list block) : Prop :=
  disjoint_blocks L /\ Forall (fun b => base + 8 <= b.1 /\ 1 <= b.2 /\ b.1 + 8 * b.2 <= hi) L.

#[local] Instance blocks_ok_proper hi : Proper ((≡ₚ) ==> iff) (blocks_ok hi).
Proof. intros L L' HL. unfold blocks_ok. by rewrite HL. Qed.

Lemma joins_ok hi L L' Z : joins L L' -> blocks_ok hi (L ++ Z) -> blocks_ok hi (L' ++ Z).
Proof.
  intros [_ _ D I] [Hd Hi]. split.
  - apply D; [|done]. eapply Forall_impl; [exact Hi|]. by intros ? (?&?&?).
  - apply Forall_app in Hi as [H1 H2]. apply Forall_app. split; [by apply I|done].
Qed.

(** [x] joins the blocks behind it. *)
Lemma placed_left s F A b X x Y : heap_ok s F (b :: A) -> placed F b X x Y ->
  joins (x :: join_right b.1 b.2 Y) (join_left x (join_right b.1 b.2 Y)).
Proof.
  intros Hs Hp. destruct (placed_joins _ _ _ _ _ _ _ Hs Hp) as (HS&Hj&Hin). pose proof Hp as [E Hx HY].
  assert (Hxr : in_range x) by (eapply ring_in_range; [exact Hs|rewrite E; set_solver]).
  destruct (join_right_shape b.1 b.2 Y) as (n'&R&Ej&HRY&Hn').
  { destruct (heap_apart _ _ _ _ Hs) as (_&_&?&_). lia. }
  { apply Forall_forall. intros y Hy. assert (in_range y) as (_&?&_) by (eapply ring_in_range; [exact Hs|rewrite E; set_solver]). done. }
  pose proof (j_sorted _ _ Hj) as HSj. rewrite Ej in *. apply Forall_cons in Hin as [Hin _]. unfold in_range in Hxr. cbn in Hin.
  apply join_left_joins; [lia..|done].
Qed.

Lemma freed_blocks s F A b X x Y : heap_ok s F (b :: A) -> placed F b X x Y ->
  blocks_ok (brk s) (freed X x b Y ++ A) /\ total (freed X x b Y) = b.2 + total F /\
  StronglySorted gap ((base, 0) :: freed X x b Y).
Proof.
  intros Hs Hp. pose proof (placed_left _ _ _ _ _ _ _ Hs Hp) as Hl. pose proof (freed_ring _ _ _ _ _ _ _ Hs Hp) as Er.
  destruct (placed_joins _ _ _ _ _ _ _ Hs Hp) as (HS&Hj&_). pose proof Hp as [E Hx HY].
  assert (H0 : blocks_ok (brk s) (b :: F ++ A)).
  { change (b :: F ++ A) with ([b] ++ F ++ A). rewrite (Permutation_app_comm [b] (F ++ A)), <- app_assoc.
    rewrite (Permutation_app_comm A [b]). by split; [apply (ho_disjoint _ _ _ Hs)|apply (ho_inside _ _ _ Hs)]. }
  set (J := join_right b.1 b.2 Y) in *. split; [|split].
  - unfold freed. fold J. destruct X as [|x0 X]; injection E as E1 E2.
    + subst x. cbn [app]. unfold J. rewrite freed_base by (cbn in Hx; lia). fold J. cbn [tail].
      apply (joins_ok _ _ _ _ Hj). by rewrite E2 in H0.
    + cbn [app tail]. rewrite <- app_assoc, (Permutation_app_swap_app X). apply (joins_ok _ _ _ _ Hl). cbn [app].
      rewrite Permutation_middle. apply (joins_ok _ _ _ _ Hj). revert H0. rewrite E2. apply blocks_ok_proper.
      cbn [app]. constructor. by rewrite <- !app_assoc, (Permutation_app_swap_app X), <- Permutation_middle.
  - assert (HT : total ((base, 0) :: freed X x b Y) = b.2 + total ((base, 0) :: F)); [|cbn in HT; lia].
    rewrite Er, E, !total_app, (j_total _ _ Hl). pose proof (j_total _ _ Hj) as Ht. fold J in Ht |- *. cbn in *. lia.
  - rewrite Er. pose proof (ho_sorted _ _ _ Hs) as HS0. rewrite E in HS0. apply sorted_app in HS0 as (HX&_&HXx). apply sorted_app.
    split; [done|]. pose proof (j_sorted _ _ Hl) as Hls. split; [done|]. intros c y Hc Hy. specialize (HXx c x Hc ltac:(left)).
    assert (x.1 <= y.1); [|unfold gap in *; lia]. pose proof (join_left_first x J 0) as Hn.
    destruct (join_left x J) as [|z Z]; [by apply elem_of_nil in Hy|]. cbn in Hn. inversion_clear Hls as [|? ? _ HF].
    apply elem_of_cons in Hy as [->|Hy]; [lia|]. rewrite Forall_forall in HF. specialize (HF y Hy). unfold gap in HF. lia.
Qed.

Lemma freed_freep s F A b X x Y : heap_ok s F (b :: A) -> placed F b X x Y -> x.1 ∈ base :: (freed X x b Y).*1.
Proof.
  intros Hs Hp. change (base :: (freed X x b Y).*1) with (((base, 0) :: freed X x b Y).*1).
  rewrite (freed_ring _ _ _ _ _ _ _ Hs Hp), fmap_app. apply elem_of_app. right.
  pose proof (join_left_first x (join_right b.1 b.2 Y) 0) as Hn.
  destruct (join_left _ _) as [|z Z] eqn:Ez; cbn in Hn; [|rewrite <- Hn; left].
  destruct (join_right b.1 b.2 Y); cbn in Ez; [done|]. by destruct (_ =? _).
Qed.

Lemma disjoint_in L1 L2 x y : disjoint_blocks (L1 ++ L2) -> x ∈ L1 -> y ∈ L2 -> apart x y.
Proof.
  induction L1 as [|z L1 IH]; [by intros _ ?%elem_of_nil|]. cbn. rewrite Forall_app, !Forall_forall. intros ((_&H1)&H2) [->|Hx]%elem_of_cons Hy; auto.
Qed.

(** The headers of free blocks are outside the blocks in use. *)
Lemma header_apart s F A a c : heap_ok s F A -> a ∈ base :: F.*1 -> c ∈ A -> a + 8 <= c.1 \/ c.1 + 8 * c.2 <= a.
Proof.
  intros Hs Ha Hc. pose proof (ho_inside _ _ _ Hs) as Hi. rewrite Forall_app, !Forall_forall in Hi. destruct Hi as [Hi1 Hi2].
  apply elem_of_cons in Ha as [->|(y&->&Hy)%list_elem_of_fmap]; [left; by apply Hi2|].
  pose proof (disjoint_in _ _ _ _ (ho_disjoint _ _ _ Hs) Hy Hc) as Hap. specialize (Hi1 y Hy). unfold apart in Hap. lia.
Qed.

Lemma freed_big s F A b X x Y : heap_ok s F (b :: A) -> placed F b X x Y -> exists y, y ∈ freed X x b Y /\ b.2 <= y.2.
Proof.
  intros Hs Hp. pose proof Hp as [E Hx HY].
  assert (Hxr : in_range x) by (eapply ring_in_range; [exact Hs|rewrite E; set_solver]).
  destruct (join_right_shape b.1 b.2 Y) as (n'&R&Ej&HRY&Hn').
  { destruct (heap_apart _ _ _ _ Hs) as (_&_&?&_). lia. }
  { apply Forall_forall. intros y Hy. assert (in_range y) as (_&?&_) by (eapply ring_in_range; [exact Hs|rewrite E; set_solver]). done. }
  unfold freed. destruct X as [|x0 X]; injection E as E1 E2.
  - subst x. rewrite freed_base by (cbn in Hx; lia). rewrite Ej. exists (b.1, n'). split; [by left|done].
  - rewrite Ej. cbn [app tail join_left fst snd]. destruct (_ =? _).
    + exists (x.1, x.2 + n'). split; [set_solver|]. unfold in_range in Hxr. cbn. lia.
    + exists (b.1, n'). split; [set_solver|done].
Qed.

Lemma freed_length F b X x Y : (base, 0) :: F = X ++ x :: Y -> (length (freed X x b Y) <= S (length F))%nat.
Proof.
  intros E. assert (HJ : (length (join_right b.1 b.2 Y) <= S (length Y))%nat).
  { destruct Y as [|y Y]; cbn; [done|]. destruct (_ =? _); cbn; lia. }
  assert (HL : (length (join_left x (join_right b.1 b.2 Y)) <= S (length (join_right b.1 b.2 Y)))%nat).
  { destruct (join_right b.1 b.2 Y) as [|r R]; cbn; [done|]. destruct (_ =? _); cbn; lia. }
  apply (f_equal length) in E. rewrite length_app in E. unfold freed.
  assert (Ht : forall l : list block, length (tail l) = pred (length l)) by (by intros []).
  rewrite Ht, length_app. cbn in E. lia.
Qed.

(** [free] gives the block back: the heap is well formed with the block free,
    and only headers of free blocks were written. *)
Lemma free_ok s F A b :
  heap_ok s F (b :: A) ->
  exists s' F', (forall fuel, (2 * length F + 2 <= fuel)%nat -> free fuel (b.1 + 8) s = Ret tt s') /\ heap_ok s' F' A /\ brk s' = brk s /\
    total F' = b.2 + total F /\ (exists y, y ∈ F' /\ b.2 <= y.2) /\
    (length F' <= S (length F))%nat /\ only_headers (base :: b.1 :: F.*1) (hm s) (hm s').
Proof.
  intros Hs. destruct (heap_place _ _ _ _ Hs) as (X&x&Y&Hp). destruct (free_run _ _ _ _ _ _ _ Hs Hp) as (m&Hrun&Ho&Hc).
  destruct (freed_blocks _ _ _ _ _ _ _ Hs Hp) as ([Hd Hi]&Ht&HS). pose proof Hp as [E _ _].
  assert (Hxin : x.1 ∈ base :: F.*1).
  { change (base :: F.*1) with (((base, 0) :: F).*1). rewrite E, fmap_app. set_solver. }
  exists (set_freep x.1 (set_hm m s)), (freed X x b Y). split; [done|]. split; [|split; [done|split; [done|split; [|split]]]].
  - split; cbn [hm freep brk set_freep set_hm]; try done.
    + unfold ring. cbn [nxt fst]. by rewrite (freed_ring _ _ _ _ _ _ _ Hs Hp).
    + pose proof (ho_sizes _ _ _ Hs) as Hsz. apply Forall_cons in Hsz as [_ Hsz]. eapply sizes_frame; [exact Ho| |exact Hsz].
      intros a c Ha HcA. pose proof (ho_disjoint _ _ _ Hs) as Hd0. pose proof (ho_inside _ _ _ Hs) as Hi0.
      rewrite Forall_app, !Forall_cons, !Forall_forall in Hi0. destruct Hi0 as (_&Hb&HA). specialize (HA c HcA).
      apply elem_of_cons in Ha as [->| ->%list_elem_of_singleton].
      * change (b :: A) with ([b] ++ A) in Hd0. rewrite app_assoc in Hd0.
        pose proof (disjoint_in _ _ b c Hd0 ltac:(set_solver) HcA) as Hap. unfold apart in Hap. lia.
      * pose proof (header_apart _ _ _ x.1 c Hs Hxin ltac:(by right)). lia.
    + by eapply freed_freep.
    + apply (ho_range _ _ _ Hs).
  - by eapply freed_big.
  - by apply freed_length.
  - eapply only_headers_weaken; [|exact Ho]. set_solver.
Qed.

(** ** malloc: taking a block *)

(** What an allocation leaves: a heap with the block [b] of [n] units in use, and
    only headers of free blocks, or the new block's, written. *)
Definition taken (s : uheap) (F A : list block) (n r : Z) (s' : uheap) : Prop :=
  exists F' b, r = b.1 + 8 /\ b.2 = n /\ heap_ok s' F' (b :: A) /\ brk s' = brk s /\ total F' + n = total F /\
    only_headers (base :: b.1 :: F.*1) (hm s) (hm s') /\ exists c, c ∈ F /\ n <= c.2.

Lemma ring_sizes s F A x : heap_ok s F A -> x ∈ (base, 0) :: F -> size (hm s) x.1 = x.2.
Proof.
  intros Hs (X&Y&E)%list_elem_of_split. pose proof (ho_ring _ _ _ Hs) as Hr. unfold ring in Hr. rewrite E in Hr at 1.
  apply chain_app in Hr as [_ Hr]. by destruct Hr as (_&?&_).
Qed.

Lemma ring_next s F A X x Y : heap_ok s F A -> (base, 0) :: F = X ++ x :: Y -> ptr (hm s) x.1 = nxt Y base.
Proof.
  intros Hs E. pose proof (ho_ring _ _ _ Hs) as Hr. unfold ring in Hr. rewrite E in Hr at 1.
  apply chain_app in Hr as [_ Hr]. by destruct Hr as (?&_&_).
Qed.

(** The ring without one of its blocks, or with another one in its place. *)
Lemma ring_split F X q b Y : (base, 0) :: F = X ++ q :: b :: Y ->
  (base, 0) :: tail (X ++ q :: Y) = X ++ q :: Y /\ F ≡ₚ b :: tail (X ++ q :: Y).
Proof.
  intros E. destruct X as [|x0 X]; injection E as E1 E2; subst; [done|]. split; [done|]. cbn [app tail].
  rewrite Permutation_middle. by rewrite (Permutation_swap q b).
Qed.

Lemma sorted_replace X q b b' Y : StronglySorted gap (X ++ q :: b :: Y) -> b'.1 = b.1 -> b'.2 <= b.2 ->
  StronglySorted gap (X ++ q :: b' :: Y).
Proof.
  intros HS E1 E2. apply sorted_app in HS as (H1&H2&H3). inversion_clear H2 as [|? ? H4 H5]. inversion_clear H4 as [|? ? H6 H7].
  apply Forall_cons in H5 as [H5 H8]. apply sorted_app. split; [done|]. split.
  - constructor; [constructor; [done|]|constructor; [|done]].
    + eapply Forall_impl; [exact H7|]. intros z. unfold gap. rewrite E1. lia.
    + unfold gap in *. by rewrite E1.
  - intros x y Hx [->|[->|Hy]%elem_of_cons]%elem_of_cons; [apply H3; set_solver| |apply H3; set_solver].
    specialize (H3 x b Hx ltac:(set_solver)). unfold gap in *. by rewrite E1.
Qed.

Lemma sorted_remove X q b Y : StronglySorted gap (X ++ q :: b :: Y) -> StronglySorted gap (X ++ q :: Y).
Proof.
  intros HS. apply sorted_app in HS as (H1&H2&H3). inversion_clear H2 as [|? ? H4 H5]. inversion_clear H4 as [|? ? H6 H7].
  apply Forall_cons in H5 as [H5 H8]. apply sorted_app. split; [done|]. split; [by constructor|].
  intros x y Hx Hy. apply H3; set_solver.
Qed.

(** Neighbours in a sorted ring are apart. *)
Lemma sorted_apart X x Y y : StronglySorted gap (X ++ x :: Y) -> y ∈ X ++ Y -> x.1 + 8 <= y.1 \/ y.1 + 8 <= x.1.
Proof.
  intros HS Hy. apply sorted_app in HS as (_&H2&H3). inversion_clear H2 as [|? ? _ H5]. rewrite Forall_forall in H5.
  apply elem_of_app in Hy as [Hy|Hy].
  - specialize (H3 y x Hy ltac:(left)). unfold gap in H3. lia.
  - specialize (H5 y Hy). unfold gap in H5. lia.
Qed.

(** The found block fits exactly: it leaves the ring. *)
Lemma take_exact s X q b Y F A :
  heap_ok s F A -> (base, 0) :: F = X ++ q :: b :: Y ->
  taken s F A b.2 (b.1 + 8) (set_freep q.1 (set_hm (st32 (hm s) q.1 (nxt Y base)) s)).
Proof.
  intros Hs E. destruct (ring_split _ _ _ _ _ E) as [ER EP]. set (F' := tail (X ++ q :: Y)) in *.
  pose proof (ho_ring _ _ _ Hs) as Hr. unfold ring in Hr. rewrite E in Hr at 1. cbn [nxt fst] in Hr.
  pose proof (ho_sorted _ _ _ Hs) as HS. rewrite E in HS.
  assert (Hq : q.1 ∈ base :: F.*1).
  { change (base :: F.*1) with (((base, 0) :: F).*1). rewrite E, fmap_app. set_solver. }
  assert (Ho : only_headers [q.1] (hm s) (st32 (hm s) q.1 (nxt Y base))) by (apply (only_headers_st _ _ q.1); [left|by left]).
  assert (Hnx : is_u32 (nxt Y base)).
  { assert (Hin : forall y, y ∈ X ++ q :: b :: Y -> in_range y) by (rewrite <- E; intros y; by eapply ring_in_range).
    pose proof (ho_range _ _ _ Hs). unfold is_u32. destruct Y as [|y Y]; cbn [nxt]; [lia|].
    assert (in_range y) as (?&?&?) by (apply Hin; set_solver). lia. }
  destruct (ptr_stored (hm s) q.1 (nxt Y base) Hnx) as [Ep Es].
  exists F', b. split; [done|]. split; [done|]. split; [|split; [done|split]].
  - split; cbn [hm freep brk set_freep set_hm].
    + unfold ring. cbn [nxt fst]. rewrite ER. apply chain_app in Hr as [HX (Hq1&Hq2&Hb1&Hb2&HY)]. apply chain_app.
      split; [|split; [done|split; [by rewrite Es|]]].
      * eapply chain_only; [exact Ho| |exact HX]. intros a c ->%list_elem_of_singleton Hc. by apply (sorted_apart X q (b :: Y) c HS); set_solver.
      * eapply chain_only; [exact Ho| |exact HY]. intros a c ->%list_elem_of_singleton Hc. by apply (sorted_apart X q (b :: Y) c HS); set_solver.
    + rewrite ER. by eapply sorted_remove.
    + rewrite <- Permutation_middle. change (b :: F' ++ A) with ((b :: F') ++ A). rewrite <- EP. apply (ho_disjoint _ _ _ Hs).
    + rewrite <- Permutation_middle. change (b :: F' ++ A) with ((b :: F') ++ A). rewrite <- EP. apply (ho_inside _ _ _ Hs).
    + eapply sizes_frame; [exact Ho| |constructor; [by apply (ring_sizes _ _ _ _ Hs); rewrite E; set_solver|apply (ho_sizes _ _ _ Hs)]].
      intros a c ->%list_elem_of_singleton [->|Hc]%elem_of_cons; [by apply (sorted_apart X q (b :: Y) b HS); set_solver|].
      pose proof (header_apart _ _ _ q.1 c Hs Hq Hc) as Hap. pose proof (ho_inside _ _ _ Hs) as Hi.
      rewrite Forall_app, !Forall_forall in Hi. destruct Hi as [_ Hi]. specialize (Hi c Hc). lia.
    + change (base :: F'.*1) with (((base, 0) :: F').*1). rewrite ER, fmap_app. set_solver.
    + apply (ho_range _ _ _ Hs).
  - rewrite EP. cbn. lia.
  - split; [eapply only_headers_weaken; [|exact Ho]; set_solver|]. exists b. split; [rewrite EP; left|done].
Qed.

Lemma disjoint_split a n k Z :
  0 <= k <= n -> disjoint_blocks ((a, n) :: Z) -> disjoint_blocks ((a, n - k) :: (a + 8 * (n - k), k) :: Z).
Proof.
  intros Hk. cbn. rewrite !Forall_cons, !Forall_forall. intros [H1 H2]. split; [split|split; [|done]].
  - left. cbn. lia.
  - intros z Hz. specialize (H1 z Hz). unfold apart in *. cbn in *. lia.
  - intros z Hz. specialize (H1 z Hz). unfold apart in *. cbn in *. lia.
Qed.

(** The block [(a, n)] of a ring, cut down to [n - k] units. *)
Lemma split_blocks s X q a n Y F A k :
  heap_ok s F A -> (base, 0) :: F = X ++ q :: (a, n) :: Y -> 1 <= k < n ->
  exists F', (base, 0) :: F' = X ++ q :: (a, n - k) :: Y /\ StronglySorted gap ((base, 0) :: F') /\ total F' + k = total F /\
    blocks_ok (brk s) (F' ++ (a + 8 * (n - k), k) :: A).
Proof.
  intros Hs E Hk. set (F' := tail (X ++ q :: (a, n - k) :: Y)).
  assert (ER' : (base, 0) :: F' = X ++ q :: (a, n - k) :: Y) by (unfold F'; destruct X; by injection E as <- _).
  destruct (ring_split _ _ _ _ _ E) as [_ EP]. destruct (ring_split _ _ _ _ _ ER') as [_ EP'].
  set (G := tail (X ++ q :: Y)) in *. exists F'. split; [done|]. split; [|split].
  - rewrite ER'. pose proof (ho_sorted _ _ _ Hs) as HS. rewrite E in HS. apply (sorted_replace X q (a, n)); [exact HS|done|cbn; lia].
  - rewrite EP, EP'. cbn. lia.
  - rewrite <- Permutation_middle, EP'. cbn [app]. rewrite Permutation_swap.
    assert (H0 : blocks_ok (brk s) ((a, n) :: G ++ A)).
    { change ((a, n) :: G ++ A) with (((a, n) :: G) ++ A). rewrite <- EP. by split; [apply (ho_disjoint _ _ _ Hs)|apply (ho_inside _ _ _ Hs)]. }
    destruct H0 as [Hd Hi]. split; [by apply disjoint_split; [lia|]|]. rewrite !Forall_cons in *. cbn in *. intuition lia.
Qed.

(** Headers inside a block are off the rest of the ring. *)
Lemma inside_off X q b Y x c :
  StronglySorted gap (X ++ q :: b :: Y) -> b.1 <= x -> x + 8 <= b.1 + 8 * b.2 -> c ∈ X ++ q :: Y ->
  x + 8 <= c.1 \/ c.1 + 8 <= x.
Proof.
  intros HS H1 H2 Hc. pose proof (sorted_app (X ++ [q]) (b :: Y)) as Hsa. rewrite <- app_assoc in Hsa. apply Hsa in HS as (_&H3&H4).
  inversion_clear H3 as [|? ? _ H5]. rewrite Forall_forall in H5. assert (Hc' : c ∈ X ++ [q] \/ c ∈ Y) by set_solver.
  destruct Hc' as [Hc'|Hc'].
  - specialize (H4 c b Hc' ltac:(left)). unfold gap in H4. lia.
  - specialize (H5 c Hc'). unfold gap in H5. lia.
Qed.

(** The found block is larger: its tail is taken. *)
Lemma take_split s X q a n Y F A k :
  heap_ok s F A -> (base, 0) :: F = X ++ q :: (a, n) :: Y -> 1 <= k < n ->
  let p := a + 8 * (n - k) in
  taken s F A k (p + 8) (set_freep q.1 (set_hm (st32 (st32 (hm s) (a + 4) (n - k)) (p + 4) k) s)).
Proof.
  intros Hs E Hk p. destruct (split_blocks _ _ _ _ _ _ _ _ _ Hs E Hk) as (F'&ER&HS'&Ht&Hd&Hi). fold p in Hd, Hi.
  set (m2 := st32 (st32 (hm s) (a + 4) (n - k)) (p + 4) k).
  pose proof (ho_ring _ _ _ Hs) as Hr. unfold ring in Hr. rewrite E in Hr at 1. cbn [nxt fst] in Hr.
  pose proof (ho_sorted _ _ _ Hs) as HS. rewrite E in HS. pose proof (ho_range _ _ _ Hs) as Hrg.
  assert (HbF : (a, n) ∈ F) by (destruct (ring_split _ _ _ _ _ E) as [_ ->]; left).
  assert (Hb : base + 8 <= a /\ a + 8 * n <= brk s).
  { pose proof (ho_inside _ _ _ Hs) as Hi0. rewrite Forall_app, !Forall_forall in Hi0. destruct Hi0 as [Hi0 _].
    destruct (Hi0 _ HbF) as (?&?&?). done. }
  assert (Ho : only_headers [a; p] (hm s) m2).
  { eapply only_headers_trans; [apply (only_headers_st _ _ a)|apply (only_headers_st _ _ p)]; set_solver. }
  assert (Hsz : size m2 a = n - k /\ size m2 p = k /\ ptr m2 a = ptr (hm s) a).
  { unfold m2, size, ptr, p. rewrite ld32_st32_ne, !ld32_st32_eq, !u32_id, !ld32_st32_ne by (unfold is_u32; lia). done. }
  destruct Hsz as (Hs1&Hs2&Hp1).
  assert (Hoff : forall x c, x ∈ [a; p] -> c ∈ X ++ q :: Y -> x + 8 <= c.1 \/ c.1 + 8 <= x).
  { intros x c Hx Hc. assert (a <= x /\ x + 8 <= a + 8 * n) as [? ?]; [|by eapply inside_off].
    unfold p in Hx. apply elem_of_cons in Hx as [->| ->%list_elem_of_singleton]; lia. }
  exists F', (p, k). split; [done|]. split; [done|]. split; [|split; [done|split; [done|]]].
  - split; cbn [hm freep brk set_freep set_hm]; try done.
    + unfold ring. cbn [nxt fst]. rewrite ER. apply chain_app in Hr as [HX (Hq1&Hq2&Ha1&Ha2&HY)].
      change (X ++ q :: (a, n - k) :: Y) with (X ++ [q] ++ (a, n - k) :: Y). rewrite app_assoc. apply chain_app. split.
      * eapply chain_only; [exact Ho| |]; [intros x c Hx Hc; apply Hoff; [done|set_solver]|]. apply chain_app. by split; [|split].
      * cbn [chain fst snd]. split; [by rewrite Hp1|]. split; [done|]. eapply chain_only; [exact Ho| |exact HY]. intros x c Hx Hc. apply Hoff; [done|set_solver].
    + constructor; [done|]. eapply sizes_frame; [exact Ho| |apply (ho_sizes _ _ _ Hs)]. intros x c Hx Hc.
      pose proof (disjoint_in _ _ _ _ (ho_disjoint _ _ _ Hs) HbF Hc) as Hap. pose proof (ho_inside _ _ _ Hs) as Hi0.
      rewrite Forall_app, !Forall_forall in Hi0. destruct Hi0 as [_ Hi0]. specialize (Hi0 c Hc). unfold apart in Hap. cbn in Hap.
      unfold p in Hx. apply elem_of_cons in Hx as [->| ->%list_elem_of_singleton]; lia.
    + change (base :: F'.*1) with (((base, 0) :: F').*1). rewrite ER, fmap_app. set_solver.
  - split; [|exists (a, n); split; [done|cbn; lia]].
    eapply only_headers_weaken; [|exact Ho]. assert (a ∈ F.*1) by (apply list_elem_of_fmap; by exists (a, n)). set_solver.
Qed.

(** ** malloc: the search *)

Lemma loop_found s F A X q b Y k fuel :
  heap_ok s F A -> (base, 0) :: F = X ++ q :: b :: Y -> 1 <= k <= b.2 ->
  exists r s', malloc_loop (S fuel) k q.1 b.1 s = Ret r s' /\ taken s F A k r s'.
Proof.
  intros Hs E Hk. pose proof (ring_in_range s F A b Hs ltac:(rewrite E; set_solver)) as Hb. pose proof (ho_range _ _ _ Hs) as Hr.
  cbn [malloc_loop]. rewrite bind_size, (ring_sizes s F A b Hs) by (rewrite E; set_solver).
  rewrite (proj2 (Z.leb_le _ _)) by lia. unfold in_range in Hb. destruct (Z.eqb_spec b.2 k) as [Ek|Hne].
  - rewrite bind_bind, bind_ptr, (ring_next s F A (X ++ [q]) b Y Hs) by (by rewrite <- app_assoc).
    eexists _, _. split; [reflexivity|]. cbn [hm set_hm]. unfold padd. rewrite u32_id by (unfold is_u32; lia).
    rewrite <- Ek. by apply (take_exact s X q b Y).
  - rewrite bind_bind, bind_set_size, bind_bind, bind_size. cbn [hm set_hm].
    assert (Es : size (st32 (hm s) (b.1 + 4) (b.2 - k)) b.1 = b.2 - k).
    { unfold size. rewrite ld32_st32_eq. apply u32_id. unfold is_u32. lia. }
    rewrite Es. assert (Ep : padd b.1 (b.2 - k) = b.1 + 8 * (b.2 - k)) by (unfold padd; apply u32_id; unfold is_u32; lia).
    rewrite Ep. eexists _, _. split; [reflexivity|]. cbn [hm set_hm]. unfold padd. rewrite u32_id by (unfold is_u32; lia).
    rewrite (Z.mul_1_r 8). destruct b as [a n]. apply (take_split s X q a n Y); [done|done|cbn in *; lia].
Qed.

(** Stepping over blocks that are too small and not [freep]. *)
Definition passed (s : uheap) (k : Z) (Z : list block) : Prop := forall z, z ∈ Z -> z.2 < k /\ z.1 <> freep s.

Lemma loop_passes s F A k fuel Z2 Z1 : forall X q,
  heap_ok s F A -> (base, 0) :: F = X ++ q :: Z1 ++ Z2 -> passed s k Z1 ->
  exists X' q', X ++ q :: Z1 = X' ++ [q'] /\
    malloc_loop (length Z1 + fuel) k q.1 (nxt (Z1 ++ Z2) base) s = malloc_loop fuel k q'.1 (nxt Z2 base) s.
Proof.
  induction Z1 as [|z Z1 IH]; intros X q Hs E HZ; [by exists X, q|].
  destruct (HZ z ltac:(left)) as [Hz1 Hz2]. destruct (IH (X ++ [q]) z Hs) as (X'&q'&E'&Hrun).
  - by rewrite <- app_assoc.
  - intros y Hy. apply HZ. by right.
  - exists X', q'. split; [by rewrite <- E', <- app_assoc|]. rewrite <- Hrun. cbn [length Nat.add malloc_loop app nxt].
    rewrite bind_size, (ring_sizes s F A z Hs) by (rewrite E; set_solver). rewrite (proj2 (Z.leb_gt _ _)) by lia.
    rewrite bind_gets, (proj2 (Z.eqb_neq _ _)) by done. rewrite bind_ptr.
    by rewrite (ring_next s F A (X ++ [q]) z (Z1 ++ Z2) Hs) by (by rewrite <- app_assoc).
Qed.

(** At the end of the list the search goes on from [base]. *)
Lemma loop_wraps s F A q k fuel :
  heap_ok s F A -> 1 <= k -> base <> freep s ->
  malloc_loop (S fuel) k q base s = malloc_loop fuel k base (nxt F base) s.
Proof.
  intros Hs Hk Hf. pose proof (ring_sizes s F A (base, 0) Hs ltac:(left)) as E1.
  pose proof (ring_next s F A [] (base, 0) F Hs eq_refl) as E2. cbn [fst snd] in E1, E2.
  cbn [malloc_loop]. rewrite bind_size, E1, (proj2 (Z.leb_gt _ _)) by lia.
  by rewrite bind_gets, (proj2 (Z.eqb_neq _ _)), bind_ptr, E2.
Qed.

(** The first block that is large enough. *)
Lemma first_fit k (Z : list block) :
  (forall z, z ∈ Z -> z.2 < k) \/ exists Z1 b Z2, Z = Z1 ++ b :: Z2 /\ k <= b.2 /\ (forall z, z ∈ Z1 -> z.2 < k).
Proof.
  induction Z as [|z Z IH]; [left; intros z Hz; by apply elem_of_nil in Hz|]. destruct (decide (k <= z.2)) as [Hz|Hz].
  - right. exists [], z, Z. split; [done|]. split; [done|]. intros y Hy. by apply elem_of_nil in Hy.
  - destruct IH as [IH|(Z1&b&Z2&->&Hb&H1)].
    + left. intros y [->|Hy]%elem_of_cons; [lia|by apply IH].
    + right. exists (z :: Z1), b, Z2. split; [done|]. split; [done|]. intros y [->|Hy]%elem_of_cons; [lia|by apply H1].
Qed.

(** [freep] in the ring, and every other header differs from it. *)
Lemma freep_place s F A : heap_ok s F A ->
  exists X f Y, (base, 0) :: F = X ++ f :: Y /\ f.1 = freep s /\ (forall y, y ∈ X ++ Y -> y.1 <> freep s).
Proof.
  intros Hs. pose proof (ho_freep _ _ _ Hs) as Hf. change (base :: F.*1) with (((base, 0) :: F).*1) in Hf.
  apply list_elem_of_fmap in Hf as (f&Ef&(X&Y&E)%list_elem_of_split). exists X, f, Y. split; [done|]. split; [done|].
  intros y Hy. pose proof (ho_sorted _ _ _ Hs) as HS. rewrite E in HS. pose proof (sorted_apart _ _ _ _ HS Hy). lia.
Qed.

(** The search from [freep]: it takes a block if one is large enough, or comes
    back to [freep]. *)
Definition searched (s : uheap) (F A : list block) (k : Z) (fuel : nat) (o : outcome uheap Z) : Prop :=
  (exists r s', o = Ret r s' /\ taken s F A k r s') \/
  ((forall b, b ∈ F -> b.2 < k) /\ exists fuel' q, (fuel <= length F + S (S fuel'))%nat /\ o = malloc_loop (S fuel') k q (freep s) s).

(** The part of the ring after [q]. *)
Lemma search_from s F A k X q Z1 Z2 fuel :
  heap_ok s F A -> 1 <= k -> (base, 0) :: F = X ++ q :: Z1 ++ Z2 -> (forall z, z ∈ Z1 -> z.1 <> freep s) ->
  (length Z1 < fuel)%nat ->
  (exists r s', malloc_loop fuel k q.1 (nxt (Z1 ++ Z2) base) s = Ret r s' /\ taken s F A k r s') \/
  ((forall z, z ∈ Z1 -> z.2 < k) /\ exists q',
     malloc_loop fuel k q.1 (nxt (Z1 ++ Z2) base) s = malloc_loop (fuel - length Z1) k q'.1 (nxt Z2 base) s /\
     exists X', (base, 0) :: F = X' ++ q' :: Z2).
Proof.
  intros Hs Hk E HZ Hfuel. destruct (first_fit k Z1) as [Hall|(W1&b&W2&->&Hb&H1)].
  - right. split; [done|]. destruct (loop_passes s F A k (fuel - length Z1) Z2 Z1 X q Hs E) as (X'&q'&E'&Hrun).
    { intros z Hz. split; [by apply Hall|by apply HZ]. }
    exists q'. replace (length Z1 + (fuel - length Z1))%nat with fuel in Hrun by lia. split; [done|]. exists X'.
    rewrite E. change (q :: Z1 ++ Z2) with ((q :: Z1) ++ Z2). by rewrite app_assoc, E', <- app_assoc.
  - left. rewrite length_app in Hfuel. cbn in Hfuel. rewrite <- app_assoc in E |- *. cbn [app] in E |- *.
    destruct (loop_passes s F A k (S (fuel - S (length W1))) (b :: W2 ++ Z2) W1 X q Hs E) as (X'&q'&E'&Hrun).
    { intros z Hz. split; [by apply H1|]. apply HZ. set_solver. }
    replace (length W1 + S (fuel - S (length W1)))%nat with fuel in Hrun by lia.
    rewrite Hrun. cbn [nxt].
    apply (loop_found s F A X' q' b (W2 ++ Z2)); [done| |lia].
    rewrite E. change (q :: W1 ++ b :: W2 ++ Z2) with ((q :: W1) ++ b :: W2 ++ Z2). by rewrite app_assoc, E', <- app_assoc.
Qed.

Lemma search s F A k fuel : heap_ok s F A -> 1 <= k -> (length F + 2 <= fuel)%nat ->
  searched s F A k fuel (malloc_loop fuel k (freep s) (ptr (hm s) (freep s)) s).
Proof.
  intros Hs Hk Hfuel. destruct (freep_place s F A Hs) as (X&f&Y&E&Ef&Hne). rewrite <- Ef, (ring_next s F A X f Y Hs E).
  assert (Hlen : S (length F) = (length X + S (length Y))%nat) by (apply (f_equal length) in E; by rewrite length_app in E).
  destruct (search_from s F A k X f Y [] fuel Hs Hk) as [?|(HY&q'&Hrun&_)]; rewrite ?app_nil_r in *; try done; try lia.
  { intros z Hz. apply Hne. set_solver. }
  { by left. }
  rewrite Hrun. cbn [nxt]. destruct X as [|x0 X]; injection E as E1 E2.
  - subst. right. split; [done|]. cbn in Hlen. exists (fuel - length Y - 1)%nat, q'.1. split; [lia|]. rewrite <- Ef. cbn [fst].
    f_equal. lia.
  - replace (fuel - length Y)%nat with (S (fuel - length Y - 1)) by (cbn in Hlen; lia).
    rewrite (loop_wraps s F A) by (try done; apply (Hne (base, 0)); subst; set_solver). change base with ((base, 0).1) at 1.
    replace (nxt F base) with (nxt (X ++ f :: Y) base) by (by rewrite E2). cbn in Hlen.
    destruct (search_from s F A k [] (base, 0) X (f :: Y) (fuel - length Y - 1) Hs Hk) as [?|(HX&q2&Hrun2&X2&E3)]; try done; try lia.
    { by rewrite E2. }
    { intros z Hz. apply Hne. set_solver. }
    { by left. }
    rewrite Hrun2. cbn [nxt]. replace (fuel - length Y - 1 - length X)%nat with (S (fuel - length Y - length X - 2)) by lia.
    destruct (decide (k <= f.2)) as [Hkf|Hkf].
    + left. apply (loop_found s F A X2 q2 f Y); [done|done|lia].
    + right. split; [rewrite E2; intros b [Hb|[->|Hb]%elem_of_cons]%elem_of_app; [by apply HX|lia|by apply HY]|].
      exists (fuel - length Y - length X - 2)%nat, q2.1. rewrite Ef. split; [lia|done].
Qed.

(** ** malloc *)

(** The blocks in use keep all their bytes. *)
Definition keeps (A : list block) (m m' : mem) : Prop :=
  forall c x, c ∈ A -> c.1 <= x < c.1 + 8 * c.2 -> m' x = m x.

Lemma keeps_trans A m1 m2 m3 : keeps A m1 m2 -> keeps A m2 m3 -> keeps A m1 m3.
Proof. intros H1 H2 c x Hc Hx. rewrite (H2 c x), (H1 c x); done. Qed.

Lemma headers_keep s F A H m' :
  heap_ok s F A -> only_headers H (hm s) m' -> (forall a, a ∈ H -> a ∈ base :: F.*1 \/ forall c, c ∈ A -> a + 8 <= c.1 \/ c.1 + 8 * c.2 <= a) ->
  keeps A (hm s) m'.
Proof.
  intros Hs Ho Ha c x Hc Hx. apply Ho. intros a HaH. destruct (Ha a HaH) as [Hin|Hap].
  - pose proof (header_apart _ _ _ _ _ Hs Hin Hc). lia.
  - specialize (Hap c Hc). lia.
Qed.

Section grants.
Context (grant_ok : forall sz n, grant sz n = true -> 0 < n -> sz + n < 2 ^ 31).

(** The new memory, before it is freed into the ring. *)
Lemma grown_ok s F A nu :
  heap_ok s F A -> 1 <= nu -> brk s + 8 * nu < 2 ^ 31 ->
  heap_ok (Uheap (st32 (hm s) (brk s + 4) nu) (freep s) (brk s + 8 * nu)) F ((brk s, nu) :: A).
Proof.
  intros Hs Hnu Hb. destruct Hs as [H1 H2 H3 H4 H5 H6 H7].
  assert (Ho : only_headers [brk s] (hm s) (st32 (hm s) (brk s + 4) nu)) by (apply (only_headers_st _ _ (brk s)); [left|by right]).
  assert (Hin : forall c, c ∈ F ++ A -> base + 8 <= c.1 /\ 1 <= c.2 /\ c.1 + 8 * c.2 <= brk s) by (by apply Forall_forall).
  split; cbn [hm freep brk]; try done.
  - unfold ring in *. eapply chain_only; [exact Ho| |exact H1]. intros a c ->%list_elem_of_singleton [->|Hc]%elem_of_cons; cbn; [lia|].
    destruct (Hin c) as (?&?&?); [set_solver|lia].
  - rewrite <- Permutation_middle. cbn. split; [|done]. apply Forall_forall. intros c Hc. right. cbn. by apply Hin.
  - rewrite <- Permutation_middle. constructor; [cbn; lia|]. eapply Forall_impl; [exact H4|]. cbn. lia.
  - constructor.
    + cbn. unfold size. rewrite ld32_st32_eq. apply u32_id. unfold is_u32. lia.
    + eapply sizes_frame; [exact Ho| |exact H5]. intros a c ->%list_elem_of_singleton Hc. destruct (Hin c) as (?&?&?); [set_solver|lia].
  - lia.
Qed.

Lemma sbrk_run s n : 0 < n < 2 ^ 31 -> 0 <= brk s ->
  sbrk n s = if grant (brk s) n then Ret (brk s) (set_brk (brk s + n) s) else Ret (u32 (-1)) s.
Proof.
  intros Hn Hb. unfold sbrk. rewrite (i32_id n) by lia. destruct (grant (brk s) n) eqn:Eg; [|done].
  pose proof (grant_ok _ _ Eg ltac:(lia)). by rewrite u32_id by (unfold is_u32; lia).
Qed.

Lemma morecore_ok s F A k fuel :
  heap_ok s F A -> 1 <= k -> 8 * k < 2 ^ 31 -> (2 * length F + 2 <= fuel)%nat ->
  let nu := Z.max 4096 k in
  if grant (brk s) (8 * nu) then
    exists s' F', morecore fuel k s = Ret (freep s') s' /\ freep s' <> 0 /\ heap_ok s' F' A /\ brk s' = brk s + 8 * nu /\
      total F' = nu + total F /\ (exists y, y ∈ F' /\ k <= y.2) /\ (length F' <= S (length F))%nat /\ keeps A (hm s) (hm s')
  else morecore fuel k s = Ret 0 s.
Proof.
  intros Hs Hk Hk8 Hfuel nu. unfold morecore. replace (if k <? 4096 then 4096 else k) with nu by (unfold nu; zcases; lia).
  pose proof (ho_range _ _ _ Hs) as Hr. rewrite (u32_id (nu * 8)), (Z.mul_comm nu 8) by (unfold is_u32; lia).
  destruct (grant (brk s) (8 * nu)) eqn:Eg.
  - pose proof (grant_ok _ _ Eg ltac:(lia)) as Hb. pose proof (grown_ok s F A nu Hs ltac:(lia) Hb) as Hg.
    destruct (free_ok _ _ _ (brk s, nu) Hg) as (s'&F'&Hrun&Hs'&Hb'&Ht&(y&Hy&Hk')&Hl&Ho). specialize (Hrun fuel Hfuel). cbn [fst snd hm brk] in *.
    exists s', F'. split.
    { erewrite bind_Ret; [|rewrite sbrk_run, Eg by lia; reflexivity].
      change (u32 (-1)) with 4294967295. rewrite (proj2 (Z.eqb_neq _ _)) by lia. rewrite bind_set_size. unfold set_hm, set_brk. cbn [hm freep brk].
      unfold padd. rewrite u32_id, Z.mul_1_r by (unfold is_u32; lia). by rewrite (bind_Ret _ _ _ _ _ Hrun). }
    pose proof (ho_freep _ _ _ Hs') as Hf. split.
    { apply elem_of_cons in Hf as [->|(z&->&Hz)%list_elem_of_fmap]; [lia|]. pose proof (ho_inside _ _ _ Hs') as Hi.
      rewrite Forall_app, !Forall_forall in Hi. destruct Hi as [Hi _]. specialize (Hi z Hz). lia. }
    split; [done|]. split; [done|]. split; [done|]. split; [exists y; split; [done|lia]|]. split; [done|].
    assert (Hnew : forall c, c ∈ A -> brk s + 8 <= c.1 \/ c.1 + 8 * c.2 <= brk s).
    { intros c Hc. pose proof (ho_inside _ _ _ Hs) as Hi. rewrite Forall_app, !Forall_forall in Hi. destruct Hi as [_ Hi]. right. by apply Hi. }
    intros c x Hc Hx. specialize (Hnew c Hc). rewrite Ho; [cbn; apply st32_other; lia|].
    intros a Ha. assert (Ha' : a = brk s \/ a ∈ base :: F.*1) by set_solver. destruct Ha' as [->|Ha']; [lia|].
    pose proof (header_apart _ _ _ _ _ Hs Ha' Hc). lia.
  - erewrite bind_Ret; [|rewrite sbrk_run, Eg by lia; reflexivity]. by rewrite Z.eqb_refl.
Qed.

Lemma taken_keeps s F A k r s' : heap_ok s F A -> taken s F A k r s' -> keeps A (hm s) (hm s').
Proof.
  intros Hs (F'&b&_&_&Hs'&_&_&Ho&_). eapply headers_keep; [exact Hs|exact Ho|].
  intros a [->|[->|Ha]%elem_of_cons]%elem_of_cons; [left; left| |left; by right].
  right. intros c Hc. pose proof (ho_disjoint _ _ _ Hs') as Hd. change (b :: A) with ([b] ++ A) in Hd. rewrite app_assoc in Hd.
  pose proof (disjoint_in _ _ b c Hd ltac:(set_solver) Hc) as Hap. destruct (heap_apart _ _ _ _ Hs') as (_&_&Hb&_). unfold apart in Hap. lia.
Qed.

(** A free block of [k] units, or memory the kernel grants. *)
Definition available (s : uheap) (F : list block) (k : Z) : Prop :=
  Exists (fun b => k <= b.2) F \/ grant (brk s) (8 * Z.max 4096 k) = true.

#[local] Instance available_dec s F k : Decision (available s F k).
Proof. unfold available. apply _. Defined.

(** The result of an allocation of [k] units. *)
Definition allocated (s : uheap) (F A : list block) (k r : Z) (s' : uheap) : Prop :=
  exists F' b, r = b.1 + 8 /\ b.2 = k /\ heap_ok s' F' (b :: A) /\ keeps A (hm s) (hm s') /\
    8 * (total F' + k - total F) = brk s' - brk s.

Lemma taken_allocated s F A k r s' : heap_ok s F A -> taken s F A k r s' -> allocated s F A k r s'.
Proof.
  intros Hs Ht. pose proof (taken_keeps _ _ _ _ _ _ Hs Ht) as Hk. destruct Ht as (F'&b&Hr&Hb&Hs'&Hbrk&Htot&_).
  exists F', b. repeat (split; [done|]). lia.
Qed.

Lemma loop_ok s F A k fuel :
  heap_ok s F A -> 1 <= k -> 8 * k < 2 ^ 31 -> (3 * length F + 8 <= fuel)%nat ->
  exists r s', malloc_loop fuel k (freep s) (ptr (hm s) (freep s)) s = Ret r s' /\
    (available s F k -> allocated s F A k r s') /\ (~ available s F k -> r = 0 /\ s' = s).
Proof.
  intros Hs Hk Hk8 Hfuel. destruct (search s F A k fuel Hs Hk) as [(r&s'&Hrun&Ht)|(Hall&fuel'&q&Hf&Hrun)]; [lia| |].
  - exists r, s'. split; [done|]. split; [by intros _; apply taken_allocated|]. intros Hn. destruct Hn. left. apply Exists_exists.
    by destruct Ht as (F'&b&_&_&_&_&_&_&?).
  - rewrite Hrun. cbn [malloc_loop]. assert (Hsz : size (hm s) (freep s) < k).
    { pose proof (ho_freep _ _ _ Hs) as Hfp. apply elem_of_cons in Hfp as [->|(z&->&Hz)%list_elem_of_fmap].
      - pose proof (ring_sizes s F A (base, 0) Hs ltac:(left)) as E. cbn in E. lia.
      - rewrite (ring_sizes s F A z Hs) by (by right). by apply Hall. }
    rewrite bind_size, (proj2 (Z.leb_gt _ _)) by done. rewrite bind_gets, Z.eqb_refl.
    pose proof (morecore_ok s F A k (S fuel') Hs Hk Hk8 ltac:(lia)) as Hm. cbn zeta in Hm.
    destruct (grant (brk s) (8 * Z.max 4096 k)) eqn:Eg.
    + destruct Hm as (s1&F1&Hm&Hf1&Hs1&Hb1&Ht1&Hy&Hl1&Hk1). rewrite (bind_Ret _ _ _ _ _ Hm), (proj2 (Z.eqb_neq _ _)) by done.
      rewrite bind_ptr. destruct (search s1 F1 A k fuel' Hs1 Hk) as [(r&s'&Hrun1&Ht)|(Hno&_)]; [lia| |].
      * exists r, s'. split; [done|]. split; [|intros Hn; destruct Hn; by right]. intros _.
        destruct (taken_allocated _ _ _ _ _ _ Hs1 Ht) as (F'&b&R1&R2&R3&R4&R5). exists F', b.
        split; [done|]. split; [done|]. split; [done|]. split; [by eapply keeps_trans|]. lia.
      * destruct Hy as (y&Hy&Hyk). specialize (Hno y Hy). lia.
    + rewrite (bind_Ret _ _ _ _ _ Hm). exists 0, s. split; [done|]. split; [|done].
      intros [(b&Hb&Hkb)%Exists_exists|?]; [specialize (Hall b Hb); lia|congruence].
Qed.

(** Before the first call [freep] is null. *)
Definition fresh (s : uheap) : Prop := freep s = 0 /\ 0 < base /\ base + 8 <= brk s < 2 ^ 31.

Definition heap_state (s : uheap) (F A : list block) : Prop := heap_ok s F A \/ fresh s /\ F = [] /\ A = [].

Lemma fresh_ok s : fresh s -> heap_ok (Uheap (st32 (st32 (hm s) base base) (base + 4) 0) base (brk s)) [] [].
Proof.
  intros (_&H1&H2). split; cbn [hm freep brk]; try done.
  - unfold ring. cbn [chain nxt fst snd]. unfold ptr, size. rewrite ld32_st32_ne, !ld32_st32_eq, !u32_id by (unfold is_u32; lia). done.
  - repeat constructor.
  - left.
Qed.

Lemma units_eq n : 0 <= n < 2 ^ 31 - 16 -> units n = (n + 7) / 8 + 1.
Proof.
  intros Hn. unfold units. rewrite (u32_id (n + 8 - 1)) by (unfold is_u32; lia). replace (n + 8 - 1) with (n + 7) by lia.
  apply u32_id. unfold is_u32. pose proof (Z.div_le_upper_bound (n + 7) 8 (2 ^ 31)). pose proof (Z.div_pos (n + 7) 8). lia.
Qed.

Lemma malloc_ok s F A n fuel :
  heap_state s F A -> 0 <= n < 2 ^ 31 - 16 -> (3 * length F + 8 <= fuel)%nat ->
  exists r s', malloc fuel n s = Ret r s' /\
    (available s F (units n) -> n <= 8 * (units n - 1) /\ allocated s F A (units n) r s') /\
    (~ available s F (units n) -> r = 0 /\ heap_ok s' F A /\ keeps A (hm s) (hm s') /\ brk s' = brk s).
Proof.
  intros Hs Hn Hfuel. pose proof (units_eq n Hn) as Eu. pose proof (Z.div_mod (n + 7) 8 ltac:(lia)) as Hd.
  pose proof (Z.mod_pos_bound (n + 7) 8 ltac:(lia)) as Hm. unfold malloc. rewrite bind_gets. destruct Hs as [Hs|(Hf&->&->)].
  - assert (Hf0 : freep s <> 0).
    { pose proof (ho_freep _ _ _ Hs) as Hf. pose proof (ho_range _ _ _ Hs). pose proof (ho_inside _ _ _ Hs) as Hi.
      apply elem_of_cons in Hf as [->|(z&->&Hz)%list_elem_of_fmap]; [lia|]. rewrite Forall_app, !Forall_forall in Hi. destruct Hi as [Hi _].
      specialize (Hi z Hz). lia. }
    rewrite (proj2 (Z.eqb_neq _ _)) by done. rewrite bind_mret, bind_ptr.
    destruct (loop_ok s F A (units n) fuel Hs) as (r&s'&Hrun&H1&H2); [lia..|done|]. exists r, s'. split; [done|].
    split; [intros Ha; split; [lia|by apply H1]|]. intros Ha. destruct (H2 Ha) as [-> ->]. split; [done|]. split; [exact Hs|]. by split; [intros c x|].
  - pose proof (fresh_ok s Hf) as Hs0. set (s0 := Uheap _ _ _) in Hs0. rewrite (proj2 (Z.eqb_eq _ _)) by apply Hf.
    rewrite bind_bind, bind_set_ptr, bind_bind, bind_modify, bind_bind, bind_set_size, bind_mret, bind_ptr.
    change (set_hm _ _) with s0. destruct (loop_ok s0 [] [] (units n) fuel Hs0) as (r&s'&Hrun&H1&H2); [lia..|done|].
    exists r, s'. split; [exact Hrun|]. split.
    + intros Ha. split; [lia|]. destruct (H1 Ha) as (F'&b&R1&R2&R3&R4&R5). exists F', b. repeat (split; [done|]).
      split; [|exact R5]. intros c x Hc. by apply elem_of_nil in Hc.
    + intros Ha. destruct (H2 Ha) as [-> ->]. split; [done|]. split; [done|]. split; [|done]. intros c x Hc. by apply elem_of_nil in Hc.
Qed.

(** ** A program using the allocator *)

(** The loops return with enough fuel. *)
Definition returns {A} (m : nat -> kern uheap A) (s : uheap) (a : A) (s' : uheap) : Prop :=
  exists N, forall fuel, (N <= fuel)%nat -> m fuel s = Ret a s'.

(** The blocks in use, and what the program last stored in them. *)
Record program := Program { heap : uheap; live : list block; stored : Z -> Z }.

Definition payload (b : block) (x : Z) : Prop := b.1 + 8 <= x < b.1 + 8 * b.2.

Definition set_stored (b : block) (m g : Z -> Z) : Z -> Z :=
  fun x => if decide (payload b x) then m x else g x.

(** The program allocates, frees what it allocated, and writes into its blocks. *)
Inductive ustep : program -> program -> Prop :=
| u_malloc n r s s' A g :
    0 <= n < 2 ^ 31 - 16 -> returns (fun fuel => malloc fuel n) s r s' -> r <> 0 ->
    ustep (Program s A g) (Program s' ((r - 8, units n) :: A) (set_stored (r - 8, units n) (hm s') g))
| u_fail n s s' A g :
    0 <= n < 2 ^ 31 - 16 -> returns (fun fuel => malloc fuel n) s 0 s' -> ustep (Program s A g) (Program s' A g)
| u_free b s s' A1 A2 g :
    returns (fun fuel => free fuel (b.1 + 8)) s tt s' -> ustep (Program s (A1 ++ b :: A2) g) (Program s' (A1 ++ A2) g)
| u_write b x v s A g :
    b ∈ A -> payload b x ->
    ustep (Program s A g) (Program (set_hm (st8 (hm s) x v) s) A (fun y => if y =? x then u8 v else g y)).

Definition program_ok (p : program) : Prop :=
  (exists F, heap_state (heap p) F (live p)) /\
  forall b x, b ∈ live p -> payload b x -> hm (heap p) x = stored p x.

Lemma heap_ok_perm s F A A' : A ≡ₚ A' -> heap_ok s F A -> heap_ok s F A'.
Proof. intros E [H1 H2 H3 H4 H5 H6 H7]. split; try done; by rewrite <- E. Qed.

Lemma block_nonnull s F A b : heap_ok s F (b :: A) -> b.1 + 8 <> 0.
Proof. intros Hs. destruct (heap_apart _ _ _ _ Hs) as (_&?&_). pose proof (ho_range _ _ _ Hs). lia. Qed.

Lemma malloc_step s F A n r s' :
  heap_state s F A -> 0 <= n < 2 ^ 31 - 16 -> returns (fun fuel => malloc fuel n) s r s' ->
  exists F', keeps A (hm s) (hm s') /\
    ((r = 0 /\ heap_ok s' F' A) \/ (r <> 0 /\ heap_ok s' F' ((r - 8, units n) :: A))).
Proof.
  intros HF Hn [N HN]. set (fuel := max N (3 * length F + 8)%nat).
  destruct (malloc_ok s F A n fuel HF Hn ltac:(lia)) as (r0&s0&Hrun&Hyes&Hno). rewrite HN in Hrun by lia. injection Hrun as <- <-.
  destruct (decide (available s F (units n))) as [Ha|Ha].
  - destruct (Hyes Ha) as [_ (F'&b&->&Hb&Hs'&Hk&_)]. exists F'. split; [done|]. right. split; [by eapply block_nonnull|].
    destruct b as [a k]. cbn in *. subst k. by replace (a + 8 - 8) with a by lia.
  - destruct (Hno Ha) as (->&Hs'&Hk&_). exists F. split; [done|]. by left.
Qed.

Lemma free_step s F A b s' : heap_state s F (b :: A) -> returns (fun fuel => free fuel (b.1 + 8)) s tt s' ->
  exists F', heap_ok s' F' A /\ keeps A (hm s) (hm s').
Proof.
  intros [Hs|(_&_&?)] [N HN]; [|done].
  destruct (free_ok s F A b Hs) as (s0&F'&Hrun&Hs'&_&_&_&_&Ho). specialize (Hrun (max N (2 * length F + 2)) ltac:(lia)). rewrite HN in Hrun by lia.
  injection Hrun as <-. exists F'. split; [done|]. intros c x Hc Hx. apply Ho. intros a Ha.
  assert (Ha' : a = b.1 \/ a ∈ base :: F.*1) by set_solver. destruct Ha' as [->|Ha'].
  - pose proof (ho_disjoint _ _ _ Hs) as Hd. change (b :: A) with ([b] ++ A) in Hd. rewrite app_assoc in Hd.
    pose proof (disjoint_in _ _ b c Hd ltac:(set_solver) Hc) as Hap. destruct (heap_apart _ _ _ _ Hs) as (_&_&Hb&_). unfold apart in Hap. lia.
  - pose proof (header_apart _ _ _ _ c Hs Ha' ltac:(by right)). lia.
Qed.

Lemma in_use_apart s F A b c : heap_ok s F (b :: A) -> c ∈ A -> apart b c.
Proof.
  intros Hs Hc. pose proof (ho_disjoint _ _ _ Hs) as Hd. change (b :: A) with ([b] ++ A) in Hd. rewrite app_assoc in Hd.
  by apply (disjoint_in _ _ b c Hd); [set_solver|].
Qed.

(** Writing in a block touches no header. *)
Lemma write_ok s F A b x v : heap_ok s F A -> b ∈ A -> payload b x -> heap_ok (set_hm (st8 (hm s) x v) s) F A.
Proof.
  intros Hs Hb Hx. unfold payload in Hx. assert (Hst : forall y, y <> x -> st8 (hm s) x v y = hm s y).
  { intros y Hy. unfold st8. by rewrite (proj2 (Z.eqb_neq _ _)). }
  pose proof (ho_inside _ _ _ Hs) as Hi. rewrite Forall_app, !Forall_forall in Hi. destruct Hi as [HiF HiA].
  destruct Hs as [H1 H2 H3 H4 H5 H6 H7]. pose proof (Build_heap_ok _ _ _ H1 H2 H3 H4 H5 H6 H7) as Hs.
  split; cbn [hm freep brk set_hm]; try done.
  - unfold ring in *. eapply chain_ext; [|exact H1]. intros c y Hc Hy. apply Hst.
    assert (Hin : c.1 ∈ base :: F.*1) by (change (base :: F.*1) with (((base, 0) :: F).*1); by apply list_elem_of_fmap_2).
    pose proof (header_apart _ _ _ _ _ Hs Hin Hb). lia.
  - rewrite Forall_forall in *. intros c Hc. rewrite <- (H5 c Hc). apply ld32_ext. intros y Hy. apply Hst.
    destruct (HiA c Hc) as (?&?&?). destruct (decide (c = b)) as [->|Hne]; [lia|].
    apply elem_of_Permutation in Hb as [A' EA]. pose proof (in_use_apart s F A' b c) as Hap.
    specialize (Hap (heap_ok_perm _ _ _ _ EA Hs)). rewrite EA in Hc. apply elem_of_cons in Hc as [->|Hc]; [done|].
    specialize (Hap Hc). unfold apart in Hap. lia.
Qed.

Lemma ustep_ok p p' : program_ok p -> ustep p p' -> program_ok p'.
Proof.
  intros [[F HF] Hg] Hstep. destruct Hstep as [n r s s' A g Hn Hr Hr0|n s s' A g Hn Hr|b s s' A1 A2 g Hr|b x v s A g Hb Hx]; cbn in *.
  - destruct (malloc_step s F A n r s' HF Hn Hr) as (F'&Hk&[[? _]|[_ Hs']]); [done|]. split; [by exists F'; left|].
    cbn. intros c x Hc Hx. unfold set_stored. destruct (decide _) as [|Hout]; [done|].
    apply elem_of_cons in Hc as [->|Hc]; [done|]. rewrite (Hk c x Hc) by (unfold payload in Hx; lia). by apply (Hg c).
  - destruct (malloc_step s F A n 0 s' HF Hn Hr) as (F'&Hk&[[_ Hs']|[? _]]); [|done]. split; [by exists F'; left|].
    cbn. intros c x Hc Hx. rewrite (Hk c x Hc) by (unfold payload in Hx; lia). by apply (Hg c).
  - assert (HF' : heap_state s F (b :: A1 ++ A2)).
    { destruct HF as [HF|(_&_&?)]; [left|by destruct A1]. eapply heap_ok_perm; [|exact HF]. by rewrite Permutation_middle. }
    destruct (free_step _ _ _ _ _ HF' Hr) as (F'&Hs'&Hk). split; [by exists F'; left|]. cbn. intros c x Hc Hx.
    rewrite (Hk c x Hc) by (unfold payload in Hx; lia). apply (Hg c); [set_solver|done].
  - destruct HF as [HF|(_&_&->)]; [|by apply elem_of_nil in Hb]. split; [exists F; left; by eapply write_ok|].
    cbn. intros c y Hc Hy. unfold st8. destruct (Z.eqb_spec y x); [done|]. by apply (Hg c).
Qed.


(** [malloc] allocates whenever a free block is large enough or the kernel
    grants more memory: the result points behind the header of a block that
    holds the bytes asked for, disjoint from every block in use and inside the
    process image, and no block in use lost a byte.  Otherwise it returns null
    and the heap is as it was.  It always returns. *)
Theorem malloc_allocates s F A n fuel :
  heap_state s F A -> 0 <= n < 2 ^ 31 - 16 -> (3 * length F + 8 <= fuel)%nat ->
  exists r s', malloc fuel n s = Ret r s' /\
    (available s F (units n) -> n <= 8 * (units n - 1) /\ allocated s F A (units n) r s') /\
    (~ available s F (units n) -> r = 0 /\ heap_ok s' F A /\ keeps A (hm s) (hm s') /\ brk s' = brk s).
Proof. apply malloc_ok. Qed.
End grants.
End umalloc.

(** A request within seven bytes of 2^32 wraps: it gets a block of one unit,
    which has no room at all. *)
Theorem huge_request_one_unit n : 2 ^ 32 - 7 <= n < 2 ^ 32 -> units n = 1.
Proof.
  intros Hn. unfold units. replace (u32 (n + 8 - 1)) with (n + 7 - 2 ^ 32) by (unfold u32; Z.div_mod_to_equations; lia).
  rewrite Z.div_small by lia. done.
Qed.

(** ** An instance: two allocations, the first one freed *)

Definition demo_grant (sz n : Z) : bool := sz + n <? 2 ^ 31.
Definition demo_heap : uheap := Uheap (fun _ => 0) 0 0x3000.
Definition demo_after {A} (m : kern uheap A) (s : uheap) : uheap := match m s with Ret _ s' => s' | _ => s end.
Definition demo_heap1 : uheap := demo_after (malloc 0x1000 demo_grant 20 10) demo_heap.
Definition demo_heap2 : uheap := demo_after (malloc 0x1000 demo_grant 20 100) demo_heap1.
Definition demo_heap3 : uheap := demo_after (free 20 0xaff0) demo_heap2.

Lemma demo_grant_ok sz n : demo_grant sz n = true -> 0 < n -> sz + n < 2 ^ 31.
Proof. unfold demo_grant. lia. Qed.

Lemma demo_fresh : fresh 0x1000 demo_heap.
Proof. unfold fresh. cbn. lia. Qed.

Ltac enough_fuel := exists 20%nat; intros fuel Hf; do 20 (destruct fuel as [|fuel]; [lia|]); vm_compute; reflexivity.

Lemma demo_run1 : returns (fun fuel => malloc 0x1000 demo_grant fuel 10) demo_heap 0xaff0 demo_heap1.
Proof. enough_fuel. Qed.

Lemma demo_run2 : returns (fun fuel => malloc 0x1000 demo_grant fuel 100) demo_heap1 0xaf80 demo_heap2.
Proof. enough_fuel. Qed.

Lemma demo_run3 : returns (fun fuel => free fuel 0xaff0) demo_heap2 tt demo_heap3.
Proof. enough_fuel. Qed.


Lemma malloc_allocates_witness :
  exists r s', malloc 0x1000 demo_grant 20 10 demo_heap = Ret r s' /\ r <> 0.
Proof.
  destruct (malloc_allocates 0x1000 demo_grant demo_grant_ok demo_heap [] [] 10 20) as (r&s'&Hrun&Hyes&_).
  - right. split; [apply demo_fresh|]. split; reflexivity.
  - lia.
  - cbn. lia.
  - exists r, s'. split; [exact Hrun|]. destruct Hyes as [_ (F'&b&->&_&Hs'&_)]; [right; reflexivity|].
    exact (block_nonnull 0x1000 demo_grant s' F' [] b Hs').
Defined.
