(* ===== verification/Printf.v ===== *)
(** Formatted output: printf.c for user programs and the kernel's cprintf
    (console.c).

    The arguments are the words on the caller's stack from the first one on, and
    [str] gives the string at an address.  The output is the list of characters
    passed to [putc] or [consputc]. *)

From S2P Require Import Prelude CString.

Definition digits_upper : list Z := [48; 49; 50; 51; 52; 53; 54; 55; 56; 57; 65; 66; 67; 68; 69; 70].
Definition digits_lower : list Z := [48; 49; 50; 51; 52; 53; 54; 55; 56; 57; 97; 98; 99; 100; 101; 102].

(** The do loop: [buf] from index 0.  32 digits are enough for any base. *)
Fixpoint conv (digits : list Z) (fuel : nat) (base x : Z) : list Z :=
  match fuel with
  | O => []
  | S fuel =>
      nth (Z.to_nat (x mod base)) digits 0 :: (if x / base =? 0 then [] else conv digits fuel base (x / base))
  end.

(** [buf] is printed from the back. *)
Definition number (digits : list Z) (xx base : Z) (sgn : bool) : list Z :=
  let neg := sgn && (xx <? 0) in
  let x := if neg then u32 (- xx) else u32 xx in
  reverse (conv digits 32 base x ++ (if neg then [45] else [])).

(** [printint] of printf.c and of console.c. *)
Definition printint (xx base : Z) (sgn : bool) : list Z := number digits_upper xx base sgn.
Definition cons_printint (xx base : Z) (sign : bool) : list Z := number digits_lower xx base sign.

Definition null_text : list Z := [40; 110; 117; 108; 108; 41].

Section printf.
Context (str : Z -> list Z).

Definition string_arg (a : Z) : list Z := if a =? 0 then null_text else str a.

(** [printf] from a format position with [state], the next argument first. *)
Fixpoint printf_loop (fmt : list Z) (state : bool) (ap : nat -> Z) : list Z :=
  match fmt with
  | [] => []
  | c :: fmt =>
      if negb state then
        if c =? 37 then printf_loop fmt true ap else c :: printf_loop fmt false ap
      else
        let next := fun i => ap (S i) in
        if c =? 100 then printint (i32 (ap O)) 10 true ++ printf_loop fmt false next
        else if (c =? 120) || (c =? 112) then printint (i32 (ap O)) 16 false ++ printf_loop fmt false next
        else if c =? 115 then string_arg (ap O) ++ printf_loop fmt false next
        else if c =? 99 then u8 (ap O) :: printf_loop fmt false next
        else if c =? 37 then c :: printf_loop fmt false ap
        else 37 :: c :: printf_loop fmt false ap
  end.

Definition printf (fmt : list Z) (ap : nat -> Z) : list Z := printf_loop fmt false ap.

(** [cprintf]: a directive and its conversion character in one step. *)
Fixpoint cprintf (fmt : list Z) (argp : nat -> Z) : list Z :=
  match fmt with
  | [] => []
  | c :: fmt =>
      if negb (c =? 37) then c :: cprintf fmt argp
      else
        match fmt with
        | [] => []
        | c :: fmt =>
            let next := fun i => argp (S i) in
            if c =? 100 then cons_printint (i32 (argp O)) 10 true ++ cprintf fmt next
            else if (c =? 120) || (c =? 112) then cons_printint (i32 (argp O)) 16 false ++ cprintf fmt next
            else if c =? 115 then string_arg (argp O) ++ cprintf fmt next
            else if c =? 37 then 37 :: cprintf fmt argp
            else 37 :: c :: cprintf fmt argp
        end
  end.

(** ** The two agree *)

(** No [%c] directive. *)
Fixpoint no_char (fmt : list Z) : bool :=
  match fmt with
  | [] => true
  | c :: fmt =>
      if negb (c =? 37) then no_char fmt
      else match fmt with [] => true | c :: fmt => negb (c =? 99) && no_char fmt end
  end.

(** Hexadecimal digits in lower case. *)
Definition lower (c : Z) : Z := if (65 <=? c) && (c <=? 70) then c + 32 else c.


Lemma conv_lower fuel base x : lower <$> conv digits_upper fuel base x = lower <$> conv digits_lower fuel base x.
Proof.
  revert x. induction fuel as [|fuel IH]; intros x; [done|]. cbn [conv fmap list_fmap]. f_equal.
  - generalize (Z.to_nat (x mod base)). intros n. do 16 (destruct n as [|n]; [done|]). cbn. by destruct n.
  - destruct (_ =? _); [done|]. apply IH.
Qed.

Lemma number_lower xx base sgn : lower <$> printint xx base sgn = lower <$> cons_printint xx base sgn.
Proof.
  unfold printint, cons_printint, number. rewrite !fmap_reverse, !fmap_app. by rewrite conv_lower.
Qed.

Lemma printf_agrees n : forall fmt ap, (length fmt <= n)%nat -> no_char fmt = true ->
  lower <$> printf fmt ap = lower <$> cprintf fmt ap.
Proof.
  unfold printf. induction n as [|n IH]; intros fmt ap Hn Hc; [by destruct fmt; [|cbn in Hn; lia]|].
  destruct fmt as [|c fmt]; [done|]. cbn [printf_loop cprintf no_char negb length] in *. destruct (c =? 37); cbn [negb] in *.
  - destruct fmt as [|d fmt]; [done|]. cbn [printf_loop negb length] in *. apply andb_true_iff in Hc as [Hd Hc].
    assert (IH' : forall ap, lower <$> printf_loop fmt false ap = lower <$> cprintf fmt ap) by (intros; apply IH; [lia|done]).
    destruct (d =? 100); [by rewrite !fmap_app, number_lower, IH'|].
    destruct (_ || _); [by rewrite !fmap_app, number_lower, IH'|].
    destruct (d =? 115); [by rewrite !fmap_app, IH'|]. destruct (d =? 99); [done|].
    destruct (Z.eqb_spec d 37) as [->|]; by rewrite !fmap_cons, IH'.
  - rewrite !fmap_cons. f_equal. apply IH; [lia|done].
Qed.

(** The user's [printf] and the kernel's [cprintf] print the same text for the
    same format and arguments, up to the case of hexadecimal digits, on every
    format without [%c], the one directive [cprintf] does not have. *)
Theorem printf_cprintf fmt ap : no_char fmt = true -> lower <$> printf fmt ap = lower <$> cprintf fmt ap.
Proof. by apply (printf_agrees (length fmt)). Qed.
End printf.

(** ** Numbers *)

Definition digit_val (c : Z) : Z := if c <=? 57 then c - 48 else if c <=? 70 then c - 55 else c - 87.
Definition value (base : Z) (l : list Z) : Z := foldl (fun v c => v * base + digit_val c) 0 l.

Definition is_digits (digits : list Z) : Prop := digits = digits_upper \/ digits = digits_lower.

Lemma digit_at digits d : is_digits digits -> 0 <= d < 16 ->
  digit_val (nth (Z.to_nat d) digits 0) = d /\ (nth (Z.to_nat d) digits 0 = 48 -> d = 0).
Proof.
  intros Hd Hr. assert (Hn : (Z.to_nat d < 16)%nat) by lia. rewrite <- (Z2Nat.id d) by lia. rewrite !Nat2Z.id.
  revert Hn. generalize (Z.to_nat d). intros n Hn. do 16 (destruct n as [|n]; [destruct Hd as [-> | ->]; (split; [done|vm_compute; congruence])|]). lia.
Qed.

Lemma value_snoc base l c : value base (l ++ [c]) = value base l * base + digit_val c.
Proof. unfold value. by rewrite foldl_app. Qed.

(** The digits of [x], most significant first: its value, its length, and no
    leading zero. *)
Lemma conv_spec digits base fuel : is_digits digits -> 2 <= base <= 16 -> forall x k, 0 <= x < base ^ Z.of_nat fuel ->
  0 <= x < base ^ Z.of_nat (S k) -> (S k <= fuel)%nat ->
  let ds := reverse (conv digits fuel base x) in
  value base ds = x /\ (1 <= length ds <= S k)%nat /\ (hd 0 ds = 48 -> x = 0).
Proof.
  intros Hd Hb. induction fuel as [|fuel IH]; intros x k Hx Hk Hf; [lia|].
  cbn [conv]. rewrite reverse_cons. pose proof (Z.mod_pos_bound x base ltac:(lia)) as Hm. pose proof (Z.div_mod x base ltac:(lia)) as Hdm.
  destruct (digit_at digits (x mod base) Hd ltac:(lia)) as [Hv Hz].
  rewrite value_snoc, Hv, length_app. cbn [length]. destruct (Z.eqb_spec (x / base) 0) as [E|E].
  - rewrite reverse_nil. cbn [app length hd]. split; [unfold value; cbn; lia|]. split; [lia|]. intros E48. specialize (Hz E48). lia.
  - assert (Hq : 0 < x / base) by (pose proof (Z.div_pos x base ltac:(lia) ltac:(lia)); lia).
    destruct k as [|k].
    { change (Z.of_nat 1) with 1 in Hk. rewrite Z.pow_1_r in Hk. rewrite Z.div_small in Hq by lia. lia. }
    destruct (IH (x / base) k) as (H1&H2&H3); [| |lia|].
    + split; [lia|]. apply Z.div_lt_upper_bound; [lia|]. rewrite Nat2Z.inj_succ, Z.pow_succ_r in Hx by lia. lia.
    + split; [lia|]. apply Z.div_lt_upper_bound; [lia|]. rewrite (Nat2Z.inj_succ (S k)), Z.pow_succ_r in Hk by lia. lia.
    + rewrite H1. split; [lia|]. split; [lia|]. destruct (reverse (conv _ _ _ _)) as [|d ds] eqn:Er; [cbn in H2; lia|].
      cbn [app hd] in *. intros E48. specialize (H3 E48). lia.
Qed.

(** [printint] prints the number it is given: an optional sign and digits, at
    most ten of them and without leading zeros, whose value is the number's
    magnitude, also for the smallest integer; with the sign they fit the
    16-byte buffer.  Hexadecimal prints the 32-bit pattern. *)
Theorem printint_value xx (hex sgn : bool) :
  - 2 ^ 31 <= xx < 2 ^ 31 ->
  let base := if hex then 16 else 10 in
  let neg := sgn && (xx <? 0) in
  let x := if neg then - xx else u32 xx in
  exists ds, printint xx base sgn = (if neg then [45] else []) ++ ds /\
    value base ds = x /\ (1 <= length ds <= 10)%nat /\ (hd 0 ds = 48 -> x = 0).
Proof.
  intros Hx base neg x. unfold printint, number. fold neg. rewrite reverse_app.
  assert (Ex : (if neg then u32 (- xx) else u32 xx) = x /\ 0 <= x < 2 ^ 32).
  { unfold x. destruct neg eqn:En; [|split; [done|apply u32_range]]. unfold neg in En. apply andb_true_iff in En as [_ En].
    apply Z.ltb_lt in En. rewrite u32_id by (unfold is_u32; lia). lia. }
  destruct Ex as [-> Hr]. exists (reverse (conv digits_upper 32 base x)). split; [by destruct neg|].
  apply (conv_spec digits_upper base 32); [by left|by unfold base; destruct hex| | |lia].
  - split; [lia|]. eapply Z.lt_le_trans; [apply Hr|]. apply Z.leb_le. unfold base. destruct hex; vm_compute; reflexivity.
  - split; [lia|]. eapply Z.lt_le_trans; [apply Hr|]. apply Z.leb_le. unfold base. destruct hex; vm_compute; reflexivity.
Qed.

Lemma printint_value_witness :
  exists ds, printint (- 2 ^ 31) 10 true = 45 :: ds /\ value 10 ds = 2 ^ 31.
Proof.
  destruct (printint_value (- 2 ^ 31) false true) as (ds&E&V&_); [lia|]. exists ds. split; [exact E|exact V].
Defined.

Lemma printf_cprintf_witness :
  lower <$> printf (fun _ => [104; 105]) [37; 120; 58; 37; 115] (fun i => if decide (i = O) then 2748 else 4096) = [97; 98; 99; 58; 104; 105].
Proof.
  etransitivity; [apply (printf_cprintf (fun _ => [104; 105]) [37; 120; 58; 37; 115]); reflexivity|]. vm_compute. reflexivity.
Defined.
