(* ===== verification/Console.v ===== *)
(** The console (console.c): the screen, the line discipline of the input
    buffer, and the keyboard decoder that feeds it (kbd.c).

    [cons.lock] makes each operation atomic.  Interrupts are modelled by the
    values [getc] returns before its first negative one; a reader that sleeps
    returns [Waits] with what it has read so far. *)

From S2P Require Import Prelude.

(** ** The screen *)

Definition BACKSPACE : Z := 256.

(** The CGA memory, the cursor, and the bytes sent to the serial port. *)
Record screen := Screen { crt : Z -> Z; cursor : Z; serial : list Z; panicked : bool }.

Definition set_cell (p v : Z) (s : screen) : screen :=
  Screen (fun x => if x =? p then v else crt s x) (cursor s) (serial s) (panicked s).
Definition set_cursor (p : Z) (s : screen) : screen := Screen (crt s) p (serial s) (panicked s).
(** The byte on the line, which is what [uartputc] of uart.c adds to it. *)
Definition uartputc (c : Z) (s : screen) : screen := Screen (crt s) (cursor s) (serial s ++ [u8 c]) (panicked s).

(** Move up by a line and clear from the new cursor on. *)
Definition scroll (pos : Z) (s : screen) : screen :=
  let moved := fun x => if (0 <=? x) && (x <? 23 * 80) then crt s (x + 80) else crt s x in
  Screen (fun x => if (pos <=? x) && (x <? 24 * 80) then 0 else moved x) (cursor s) (serial s) (panicked s).

(** The first step of [cgaputc]: the character and the new position. *)
Definition cga_char (c pos : Z) (s : screen) : Z * screen :=
  if c =? 10 then (pos + (80 - Z.rem pos 80), s)
  else if c =? BACKSPACE then (if 0 <? pos then pos - 1 else pos, s)
  else (pos + 1, set_cell pos (Z.lor (Z.land c 0xff) 0x0700) s).

Definition cgaputc (c : Z) : kern screen unit := fun s =>
  let '(pos, s) := cga_char c (cursor s) s in
  if (pos <? 0) || (25 * 80 <? pos) then Panic "pos under/overflow"
  else
    let '(pos, s) := if 24 <=? Z.quot pos 80 then (pos - 80, scroll (pos - 80) s) else (pos, s) in
    Ret tt (set_cell pos (Z.lor 32 0x0700) (set_cursor pos s)).

(** After a panic the processor stops here. *)
Definition consputc (c : Z) : kern screen unit := fun s =>
  if panicked s then Fuel
  else
    let s := if c =? BACKSPACE then uartputc 8 (uartputc 32 (uartputc 8 s)) else uartputc c s in
    cgaputc c s.

Fixpoint consputs (cs : list Z) : kern screen unit :=
  match cs with
  | [] => mret tt
  | c :: cs => consputc c ;; consputs cs
  end.

(** ** Input *)

Definition INPUT_BUF : Z := 128.
Definition ctrl (x : Z) : Z := x - 64.

(** [woken] counts the calls of wakeup(&input.r). *)
Record console := Console { buf : list Z; ir : Z; iw : Z; ie : Z; woken : nat; scr : screen }.

Definition bufat (s : console) (i : Z) : Z := nth (Z.to_nat (i mod INPUT_BUF)) (buf s) 0.
Definition set_ie e (s : console) : console := Console (buf s) (ir s) (iw s) e (woken s) (scr s).
Definition set_ir r (s : console) : console := Console (buf s) r (iw s) (ie s) (woken s) (scr s).
Definition put_ie c (s : console) : console :=
  Console (<[Z.to_nat (ie s mod INPUT_BUF) := u8 c]> (buf s)) (ir s) (iw s) (u32 (ie s + 1)) (woken s) (scr s).
Definition commit_line (s : console) : console := Console (buf s) (ir s) (ie s) (ie s) (S (woken s)) (scr s).
Definition echo (c : Z) : kern console unit :=
  zoom scr (fun x s => Console (buf s) (ir s) (iw s) (ie s) (woken s) x) (consputc c).

(** Kill line: at most [INPUT_BUF] characters. *)
Fixpoint kill_line (fuel : nat) : kern console unit :=
  match fuel with
  | O => fun _ => Fuel
  | S fuel =>
      s ← gets id;
      if negb (ie s =? iw s) && negb (bufat s (u32 (ie s - 1)) =? 10) then
        modify (set_ie (u32 (ie s - 1))) ;;
        echo BACKSPACE ;;
        kill_line fuel
      else mret tt
  end.

(** One character; the result says whether it asks for the process listing. *)
Definition input_char (c : Z) : kern console bool :=
  if (c =? ctrl 79) || (c =? ctrl 80) then mret true
  else if c =? ctrl 85 then kill_line 129 ;; mret false
  else if (c =? ctrl 72) || (c =? 127) then
    s ← gets id;
    if negb (ie s =? iw s) then modify (set_ie (u32 (ie s - 1))) ;; echo BACKSPACE ;; mret false
    else mret false
  else
    s ← gets id;
    if negb (c =? 0) && (u32 (ie s - ir s) <? INPUT_BUF) then
      let c := if c =? 13 then 10 else c in
      modify (put_ie c) ;;
      echo c ;;
      s ← gets id;
      if (c =? 10) || (c =? ctrl 68) || (ie s =? u32 (ir s + INPUT_BUF)) then modify commit_line ;; mret false
      else mret false
    else mret false.

(** The result is [doprocdump]. *)
Fixpoint consoleintr (cs : list Z) : kern console bool :=
  match cs with
  | [] => mret false
  | c :: cs => d ← input_char c; d' ← consoleintr cs; mret (d || d')
  end.

(** ** Reading *)

Inductive reading := Returned (v : Z) (bytes : list Z) | Waits (n : Z) (bytes : list Z).

(** The loop with [n] bytes to go of [target], [bytes] stored so far.  Each turn
    but the last reads a character. *)
Fixpoint read_loop (fuel : nat) (killed : bool) (target n : Z) (bytes : list Z) : kern console reading :=
  match fuel with
  | O => fun _ => Fuel
  | S fuel =>
      if 0 <? n then
        s ← gets id;
        if ir s =? iw s then
          if killed then mret (Returned (-1) bytes) else mret (Waits n bytes)
        else
          let c := bufat s (ir s) in
          modify (set_ir (u32 (ir s + 1))) ;;
          if c =? ctrl 68 then
            (if n <? target then modify (set_ir (ir s)) else mret tt) ;;
            mret (Returned (target - n) bytes)
          else
            let bytes := bytes ++ [c] in
            let n := n - 1 in
            if c =? 10 then mret (Returned (target - n) bytes) else read_loop fuel killed target n bytes
      else mret (Returned (target - n) bytes)
  end.

(** [consoleread] up to its return or its next sleep. *)
Definition consoleread (killed : bool) (target n : Z) (bytes : list Z) : kern console reading :=
  read_loop (Z.to_nat n + 1) killed target n bytes.

Definition consolewrite (bs : list Z) : kern screen Z :=
  consputs (u8 <$> bs) ;; mret (Z.of_nat (length bs)).

(** ** The screen never overflows *)

Definition screen_ok (s : screen) : Prop := 0 <= cursor s < 25 * 80 /\ panicked s = false.

Lemma cgaputc_ok c s : screen_ok s -> exists s', cgaputc c s = Ret tt s' /\ screen_ok s' /\ serial s' = serial s.
Proof.
  intros [Hc Hp]. unfold cgaputc. destruct (cga_char c (cursor s) s) as [pos s1] eqn:E.
  assert (H1 : 0 <= pos <= 25 * 80 /\ panicked s1 = false /\ serial s1 = serial s).
  { unfold cga_char in E. destruct (c =? 10); [|destruct (c =? BACKSPACE)]; injection E as <- <-.
    - rewrite Z.rem_mod_nonneg by lia. pose proof (Z.mod_pos_bound (cursor s) 80). pose proof (Z.div_mod (cursor s) 80). split; [lia|done].
    - destruct (Z.ltb_spec 0 (cursor s)); (split; [lia|done]).
    - cbn. split; [lia|done]. }
  destruct H1 as (H1&H2&H3). replace ((pos <? 0) || (25 * 80 <? pos)) with false by (symmetry; apply orb_false_iff; lia).
  rewrite Z.quot_div_nonneg by lia. destruct (Z.leb_spec 24 (pos / 80)) as [Hs|Hs]; (eexists; split; [reflexivity|]).
  - unfold screen_ok. cbn. split; [|done]. split; [|done]. pose proof (Z.div_mod pos 80). pose proof (Z.mod_pos_bound pos 80). lia.
  - unfold screen_ok. cbn. split; [|done]. split; [|done]. pose proof (Z.div_mod pos 80). pose proof (Z.mod_pos_bound pos 80). lia.
Qed.

Lemma consputc_ok c s : screen_ok s -> exists s', consputc c s = Ret tt s' /\ screen_ok s'.
Proof.
  intros Hs. unfold consputc. rewrite (proj2 Hs).
  assert (Hu : screen_ok (if c =? BACKSPACE then uartputc 8 (uartputc 32 (uartputc 8 s)) else uartputc c s)).
  { destruct (c =? BACKSPACE); apply Hs. }
  destruct (cgaputc_ok c _ Hu) as (s'&E&Hs'&_). by exists s'.
Qed.

(** ** The abstract terminal *)

(** Lines the reader may take, and the line being edited. *)
Record tty := Tty { ready : list Z; line : list Z }.

Definition pending (t : tty) : nat := length (ready t) + length (line t).

Definition tty_key (t : tty) (c : Z) : tty :=
  if (c =? ctrl 79) || (c =? ctrl 80) then t
  else if c =? ctrl 85 then Tty (ready t) []
  else if (c =? ctrl 72) || (c =? 127) then Tty (ready t) (removelast (line t))
  else if (c =? 0) || (128 <=? pending t)%nat then t
  else
    let c := if c =? 13 then 10 else c in
    let l := line t ++ [c] in
    if (c =? 10) || (c =? ctrl 68) || (pending t =? 127)%nat then Tty (ready t ++ l) [] else Tty (ready t) l.

Fixpoint tty_read (killed : bool) (target n : Z) (bytes : list Z) (l : list Z) : reading * list Z :=
  if n <=? 0 then (Returned (target - n) bytes, l)
  else
    match l with
    | [] => (if killed then Returned (-1) bytes else Waits n bytes, [])
    | c :: l' =>
        if c =? ctrl 68 then (Returned (target - n) bytes, if n <? target then l else l')
        else if c =? 10 then (Returned (target - (n - 1)) (bytes ++ [c]), l')
        else tty_read killed target (n - 1) (bytes ++ [c]) l'
    end.

(** ** Representation *)

(** The [l] bytes of the ring from index [r]. *)
Definition ring_holds (b : list Z) (r : Z) (l : list Z) : Prop :=
  forall k c, l !! k = Some c -> nth (Z.to_nat ((r + Z.of_nat k) mod INPUT_BUF)) b 0 = c.

Record tty_rel (s : console) (t : tty) : Prop := {
  tr_len : length (buf s) = Z.to_nat INPUT_BUF;
  tr_r : is_u32 (ir s);
  tr_w : iw s = u32 (ir s + Z.of_nat (length (ready t)));
  tr_e : ie s = u32 (ir s + Z.of_nat (pending t));
  tr_room : (pending t <= 128)%nat;
  tr_bytes : ring_holds (buf s) (ir s) (ready t ++ line t);
  tr_line : Forall (fun c => c <> 10) (line t);
  tr_screen : screen_ok (scr s);
}.

Lemma mod_u32_buf x : u32 x mod INPUT_BUF = x mod INPUT_BUF.
Proof. unfold u32, INPUT_BUF. apply Z.mod_mod_divide. by exists (2 ^ 25). Qed.

Lemma u32_same a i j : is_u32 a -> 0 <= i < 2 ^ 32 -> 0 <= j < 2 ^ 32 -> (u32 (a + i) =? u32 (a + j)) = (i =? j).
Proof.
  intros Ha Hi Hj. destruct (Z.eqb_spec i j) as [->|Hne]; [by apply Z.eqb_eq|]. apply Z.eqb_neq.
  unfold u32, is_u32 in *. intros E. Z.div_mod_to_equations. lia.
Qed.

Lemma u32_diff a i : is_u32 a -> 0 <= i < 2 ^ 32 -> u32 (u32 (a + i) - a) = i.
Proof. intros Ha Hi. unfold u32, is_u32 in *. Z.div_mod_to_equations. lia. Qed.

Lemma u32_pred a i : is_u32 a -> 0 < i < 2 ^ 32 -> u32 (u32 (a + i) - 1) = u32 (a + (i - 1)).
Proof. intros Ha Hi. unfold u32, is_u32 in *. Z.div_mod_to_equations. lia. Qed.

Lemma u32_succ a i : u32 (u32 (a + i) + 1) = u32 (a + (i + 1)).
Proof. unfold u32. rewrite Zplus_mod_idemp_l. f_equal. lia. Qed.

Definition set_scr x (s : console) : console := Console (buf s) (ir s) (iw s) (ie s) (woken s) x.

Lemma echo_run c s : screen_ok (scr s) -> exists x, echo c s = Ret tt (set_scr x s) /\ screen_ok x.
Proof.
  intros Hs. destruct (consputc_ok c (scr s) Hs) as (x&E&Hx). exists x. split; [|done]. unfold echo, zoom. by rewrite E.
Qed.

Lemma rel_scr s t x : tty_rel s t -> screen_ok x -> tty_rel (set_scr x s) t.
Proof. intros []. by split. Qed.

(** The edited line is empty exactly when the indices meet. *)
Lemma rel_empty s t : tty_rel s t -> (ie s =? iw s) = (length (line t) =? 0)%nat.
Proof.
  intros [_ Hr Hw He Hp _ _ _]. rewrite Hw, He, u32_same by (try done; unfold pending in *; lia). unfold pending.
  destruct (Nat.eqb_spec (length (line t)) 0); [apply Z.eqb_eq|apply Z.eqb_neq]; lia.
Qed.

Lemma rel_last s r l c : tty_rel s (Tty r (l ++ [c])) -> bufat s (u32 (ie s - 1)) = c.
Proof.
  intros [_ Hr _ He Hp Hb _ _]. unfold pending in *. cbn in *. rewrite length_app in *. cbn in *.
  unfold bufat. rewrite He, u32_pred, mod_u32_buf by (try done; lia).
  replace (ir s + (Z.of_nat (length r + (length l + 1)) - 1)) with (ir s + Z.of_nat (length r + length l)) by lia.
  apply Hb. rewrite lookup_app_r by lia. rewrite lookup_app_r by lia. by replace (_ - _ - _)%nat with 0%nat by lia.
Qed.

Lemma rel_pop s r l c : tty_rel s (Tty r (l ++ [c])) -> tty_rel (set_ie (u32 (ie s - 1)) s) (Tty r l).
Proof.
  intros [H1 H2 H3 H4 H5 H6 H7 H8]. unfold pending in *. cbn in *. rewrite length_app in *. cbn in *.
  split; unfold pending; cbn; try done.
  - rewrite H4, u32_pred by (try done; lia). f_equal. lia.
  - lia.
  - intros k d Hk. apply H6. rewrite app_assoc. by apply lookup_app_l_Some.
  - by apply Forall_app in H7 as [? _].
Qed.

Lemma kill_line_run r : forall l fuel s, tty_rel s (Tty r l) -> (length l < fuel)%nat ->
  exists s', kill_line fuel s = Ret tt s' /\ tty_rel s' (Tty r []) /\ woken s' = woken s.
Proof.
  induction l as [|c l IH] using rev_ind; intros fuel s Hs Hf; (destruct fuel as [|fuel]; [lia|]); cbn [kill_line]; rewrite bind_gets; cbn [id].
  - rewrite (rel_empty _ _ Hs). by exists s.
  - rewrite (rel_empty _ _ Hs). cbn [line]. rewrite length_app in *. cbn [length] in *.
    replace (length l + 1 =? 0)%nat with false by (symmetry; apply Nat.eqb_neq; lia).
    rewrite (rel_last _ _ _ _ Hs). pose proof (tr_line _ _ Hs) as Hl. cbn in Hl. apply Forall_app in Hl as [_ Hc].
    apply Forall_cons in Hc as [Hc _]. rewrite (proj2 (Z.eqb_neq _ _)) by done. cbn [negb andb].
    pose proof (rel_pop _ _ _ _ Hs) as Hp. rewrite bind_modify.
    destruct (echo_run BACKSPACE _ (tr_screen _ _ Hp)) as (x&E&Hx). rewrite (bind_Ret _ _ _ _ _ E).
    destruct (IH fuel _ (rel_scr _ _ _ Hp Hx)) as (s'&E'&Hs'&Hw); [lia|]. by exists s'.
Qed.

(** A character stored behind the line. *)
Lemma push_bytes s t c : tty_rel s t -> (pending t < 128)%nat -> is_u8 c ->
  ring_holds (buf (put_ie c s)) (ir s) (ready t ++ line t ++ [c]) /\
  ie (put_ie c s) = u32 (ir s + Z.of_nat (S (pending t))) /\ length (buf (put_ie c s)) = Z.to_nat INPUT_BUF.
Proof.
  intros [H1 H2 H3 H4 H5 H6 H7 H8] Hp Hc. unfold put_ie. cbn [buf ie]. split; [|split].
  - assert (Ei : ie s mod INPUT_BUF = (ir s + Z.of_nat (pending t)) mod INPUT_BUF) by (rewrite H4; apply mod_u32_buf).
    rewrite app_assoc. intros k d Hk. rewrite Ei. apply lookup_snoc_Some in Hk as [[Hlt Hk]|[-> ->]].
    + rewrite length_app in Hlt. rewrite <- (H6 k d Hk), !nth_lookup. rewrite list_lookup_insert_ne; [done|].
      unfold pending, INPUT_BUF in *. intros E. apply Z2Nat.inj in E; [|apply Z.mod_pos_bound; lia..].
      Z.div_mod_to_equations. lia.
    + rewrite nth_lookup. unfold pending. rewrite length_app.
      rewrite list_lookup_insert_eq by (rewrite H1; apply Z2Nat.inj_lt; unfold INPUT_BUF; try lia; apply Z.mod_pos_bound; lia).
      cbn. by apply u8_id.
  - rewrite H4, u32_succ. f_equal. lia.
  - by rewrite length_insert.
Qed.

(** A character goes into the line, or ends it. *)
Lemma rel_push s t c : tty_rel s t -> (pending t < 128)%nat -> is_u8 c -> c <> 10 ->
  tty_rel (put_ie c s) (Tty (ready t) (line t ++ [c])).
Proof.
  intros Hs Hp Hc Hn. destruct (push_bytes s t c Hs Hp Hc) as (Hb&He&Hl). destruct Hs as [H1 H2 H3 H4 H5 H6 H7 H8].
  unfold pending in *. split; unfold pending; cbn [ready line] in *; try done.
  - rewrite length_app. cbn [length]. rewrite He. change (ir (put_ie c s)) with (ir s). f_equal. lia.
  - rewrite length_app. cbn. lia.
  - apply Forall_app. by split; [|constructor].
Qed.

Lemma rel_commit s t c x : tty_rel s t -> (pending t < 128)%nat -> is_u8 c -> screen_ok x ->
  tty_rel (commit_line (set_scr x (put_ie c s))) (Tty (ready t ++ line t ++ [c]) []).
Proof.
  intros Hs Hp Hc Hx. destruct (push_bytes s t c Hs Hp Hc) as (Hb&He&Hl). destruct Hs as [H1 H2 H3 H4 H5 H6 H7 H8].
  assert (El : length (ready t ++ line t ++ [c]) = S (pending t)) by (rewrite !length_app; cbn; unfold pending; lia).
  split; unfold pending; cbn [ready line ir iw ie scr commit_line set_scr length]; rewrite ?Nat.add_0_r, ?El, ?app_nil_r; try done.
Qed.

Lemma input_char_refines s t c : tty_rel s t -> is_u8 c ->
  exists d s', input_char c s = Ret d s' /\ tty_rel s' (tty_key t c) /\
    woken s' = if decide (ready (tty_key t c) = ready t) then woken s else S (woken s).
Proof.
  intros Hs Hc. unfold input_char, tty_key. destruct ((c =? ctrl 79) || (c =? ctrl 80)).
  { exists true, s. split; [done|]. split; [done|]. by rewrite decide_True. }
  destruct (c =? ctrl 85).
  { destruct t as [r l]. destruct (kill_line_run r l 129 s Hs) as (s'&E&Hs'&Hw).
    { pose proof (tr_room _ _ Hs) as Hr. unfold pending in Hr. cbn in Hr. lia. }
    exists false, s'. rewrite (bind_Ret _ _ _ _ _ E). split; [done|]. split; [done|]. by rewrite decide_True. }
  destruct ((c =? ctrl 72) || (c =? 127)).
  { rewrite bind_gets. cbn [id]. rewrite (rel_empty _ _ Hs). destruct t as [r l]. cbn [line ready].
    destruct l as [|d l _] using rev_ind; cbn [length].
    - exists false, s. split; [done|]. split; [done|]. by rewrite decide_True.
    - rewrite length_app, removelast_last. replace (length l + length [d] =? 0)%nat with false by (symmetry; apply Nat.eqb_neq; cbn; lia).
      cbn [negb]. pose proof (rel_pop _ _ _ _ Hs) as Hp. rewrite bind_modify.
      destruct (echo_run BACKSPACE _ (tr_screen _ _ Hp)) as (x&E&Hx). rewrite (bind_Ret _ _ _ _ _ E).
      exists false. eexists. split; [reflexivity|]. split; [by apply rel_scr|]. by rewrite decide_True. }
  rewrite bind_gets. cbn [id]. pose proof (tr_room _ _ Hs) as Hroom.
  rewrite (tr_e _ _ Hs), u32_diff by (try apply (tr_r _ _ Hs); lia).
  destruct (Z.eqb_spec c 0) as [->|Hc0]; cbn [negb andb orb].
  { exists false, s. split; [done|]. split; [done|]. by rewrite decide_True. }
  destruct (Nat.leb_spec 128 (pending t)) as [Hfull|Hfree].
  { rewrite (proj2 (Z.ltb_ge _ _)) by (unfold INPUT_BUF; lia). exists false, s. split; [done|]. split; [done|]. by rewrite decide_True. }
  rewrite (proj2 (Z.ltb_lt _ _)) by (unfold INPUT_BUF; lia). set (d := if c =? 13 then 10 else c).
  assert (Hd : is_u8 d) by (unfold d; destruct (c =? 13); [unfold is_u8; lia|done]). rewrite bind_modify.
  destruct (echo_run d (put_ie d s)) as (x&E&Hx); [apply (tr_screen _ _ Hs)|]. rewrite (bind_Ret _ _ _ _ _ E), bind_gets. cbn [id].
  destruct (push_bytes s t d Hs Hfree Hd) as (_&He&_).
  replace (ie (set_scr x (put_ie d s)) =? u32 (ir (set_scr x (put_ie d s)) + INPUT_BUF)) with (pending t =? 127)%nat.
  2: { change (ie (set_scr x (put_ie d s))) with (ie (put_ie d s)). rewrite He. change (ir (set_scr x (put_ie d s))) with (ir s).
       rewrite u32_same by (try apply (tr_r _ _ Hs); unfold INPUT_BUF; lia). unfold INPUT_BUF.
       destruct (Nat.eqb_spec (pending t) 127); symmetry; [apply Z.eqb_eq|apply Z.eqb_neq]; lia. }
  destruct (_ || _) eqn:Ed; exists false; (eexists; split; [reflexivity|]).
  - split; [by apply rel_commit|]. cbn [ready]. rewrite decide_False; [done|]. intros El. apply (f_equal length) in El.
    rewrite !length_app in El. cbn in El. lia.
  - split; [|by rewrite decide_True]. apply orb_false_iff in Ed as [Ed _]. apply orb_false_iff in Ed as [Ed%Z.eqb_neq _].
    apply rel_scr; [|done]. by apply rel_push.
Qed.

(** ** Reading *)

Lemma rel_take s c r l : tty_rel s (Tty (c :: r) l) -> bufat s (ir s) = c /\ tty_rel (set_ir (u32 (ir s + 1)) s) (Tty r l).
Proof.
  intros [H1 H2 H3 H4 H5 H6 H7 H8]. unfold pending in *. cbn [ready line length] in *. split.
  - unfold bufat. pose proof (H6 0%nat c eq_refl) as H0. by rewrite Z.add_0_r in H0.
  - split; unfold pending; cbn [ready line ir iw ie buf scr set_ir]; try done.
    + apply u32_range.
    + rewrite H3. unfold u32. rewrite Zplus_mod_idemp_l. f_equal. lia.
    + rewrite H4. unfold u32. rewrite Zplus_mod_idemp_l. f_equal. lia.
    + lia.
    + intros k d Hk. rewrite <- (H6 (S k) d Hk). f_equal. f_equal. rewrite <- (mod_u32_buf (u32 (ir s + 1) + Z.of_nat k)).
      unfold u32. rewrite Zplus_mod_idemp_l. fold (u32 (ir s + 1 + Z.of_nat k)). rewrite mod_u32_buf. f_equal. lia.
Qed.

Lemma rel_back s c r l : tty_rel s (Tty (c :: r) l) -> set_ir (ir s) (set_ir (u32 (ir s + 1)) s) = s.
Proof. intros _. by destruct s. Qed.

Lemma read_refines killed target l : forall r fuel n bytes s,
  tty_rel s (Tty r l) -> (Z.to_nat n < fuel)%nat ->
  exists s', read_loop fuel killed target n bytes s = Ret (tty_read killed target n bytes r).1 s' /\
    tty_rel s' (Tty (tty_read killed target n bytes r).2 l).
Proof.
  intros r. induction r as [|c r IH]; intros fuel n bytes s Hs Hf; (destruct fuel as [|fuel]; [lia|]); cbn [read_loop tty_read].
  - destruct (Z.ltb_spec 0 n) as [Hn|Hn]; [|rewrite (proj2 (Z.leb_le _ _)) by lia; by exists s].
    rewrite (proj2 (Z.leb_gt _ _)), bind_gets by lia. cbn [id]. rewrite (tr_w _ _ Hs). cbn [ready length].
    rewrite Z.add_0_r, u32_id, Z.eqb_refl by apply (tr_r _ _ Hs). exists s. destruct killed; done.
  - destruct (Z.ltb_spec 0 n) as [Hn|Hn]; [|rewrite (proj2 (Z.leb_le _ _)) by lia; by exists s].
    rewrite (proj2 (Z.leb_gt _ _)), bind_gets by lia. cbn [id].
    assert (Hne : (ir s =? iw s) = false).
    { rewrite (tr_w _ _ Hs). pose proof (tr_r _ _ Hs) as Hr. rewrite <- (u32_id (ir s) Hr) at 1. rewrite <- (Z.add_0_r (ir s)) at 1.
      pose proof (tr_room _ _ Hs) as Hroom. unfold pending in Hroom. cbn [ready line length] in *.
      rewrite u32_same by (try done; lia). apply Z.eqb_neq. lia. }
    rewrite Hne. destruct (rel_take _ _ _ _ Hs) as [-> Ht]. rewrite bind_modify. destruct (c =? ctrl 68).
    + destruct (n <? target).
      * rewrite bind_modify. eexists. split; [reflexivity|]. by rewrite (rel_back _ _ _ _ Hs).
      * rewrite bind_mret. eexists. split; [reflexivity|]. done.
    + destruct (c =? 10); [eexists; split; [reflexivity|]; done|]. apply IH; [done|lia].
Qed.

(** ** Theorems *)

Lemma key_grows t c : exists l, ready (tty_key t c) = ready t ++ l.
Proof.
  unfold tty_key. repeat case_match; cbn [ready]; try (exists []; by rewrite app_nil_r).
  all: by eexists.
Qed.

Lemma consoleintr_refines cs : forall s t, tty_rel s t -> Forall is_u8 cs ->
  exists d s', consoleintr cs s = Ret d s' /\ tty_rel s' (foldl tty_key t cs) /\
    exists l, ready (foldl tty_key t cs) = ready t ++ l /\ (woken s <= woken s')%nat /\ (l <> [] -> (woken s < woken s')%nat).
Proof.
  induction cs as [|c cs IH]; intros s t Hs Hcs; cbn [consoleintr foldl].
  - exists false, s. split; [done|]. split; [done|]. exists []. by rewrite app_nil_r.
  - apply Forall_cons in Hcs as [Hc Hcs]. destruct (input_char_refines s t c Hs Hc) as (d&s1&E1&Hs1&Hw1).
    destruct (IH s1 _ Hs1 Hcs) as (d'&s2&E2&Hs2&l&El&Hw2&Hw3). rewrite (bind_Ret _ _ _ _ _ E1), (bind_Ret _ _ _ _ _ E2).
    exists (d || d'), s2. split; [done|]. split; [done|]. destruct (key_grows t c) as [l0 El0]. exists (l0 ++ l).
    rewrite El, El0, app_assoc. split; [done|]. rewrite El0 in Hw1. destruct (decide (ready t ++ l0 = ready t)) as [E0|E0].
    + assert (l0 = []) as -> by (apply (f_equal length) in E0; rewrite length_app in E0; destruct l0; [done|cbn in E0; lia]).
      cbn. rewrite <- Hw1. by split.
    + split; [lia|]. intros _. lia.
Qed.

(** C37: The circular buffer with its three wrapping indices implements the line
    discipline on plain lists: from related states any batch of characters from
    the keyboard or the serial port leaves related states, and wakes the reader
    whenever it makes new bytes readable; and a read returns, waits, or reports
    end of file exactly as the abstract terminal does, consuming the same
    bytes.  Echoing never overflows the screen. *)
Theorem console_refines_tty s t :
  tty_rel s t ->
  (forall cs, Forall is_u8 cs -> exists d s', consoleintr cs s = Ret d s' /\ tty_rel s' (foldl tty_key t cs) /\
     (ready (foldl tty_key t cs) <> ready t -> (woken s < woken s')%nat)) /\
  (forall killed target n bytes, exists s',
     consoleread killed target n bytes s = Ret (tty_read killed target n bytes (ready t)).1 s' /\
     tty_rel s' (Tty (tty_read killed target n bytes (ready t)).2 (line t))).
Proof.
  intros Hs. split.
  - intros cs Hcs. destruct (consoleintr_refines cs s t Hs Hcs) as (d&s'&E&Hs'&l&El&_&Hw). exists d, s'. split; [done|]. split; [done|].
    rewrite El. intros Hne. apply Hw. intros ->. by rewrite app_nil_r in Hne.
  - intros killed target n bytes. destruct t as [r l]. apply read_refines; [done|lia].
Qed.

(** ** A line typed is a line read *)

(** A character without a special meaning. *)
Definition plain (c : Z) : Prop := 0 < c < 256 /\ c <> 4 /\ c <> 8 /\ c <> 10 /\ c <> 13 /\ c <> 15 /\ c <> 16 /\ c <> 21 /\ c <> 127.

Lemma plain_key t c : plain c -> (pending t < 127)%nat -> tty_key t c = Tty (ready t) (line t ++ [c]).
Proof.
  intros Hc Hp. unfold tty_key, ctrl, plain in *. repeat rewrite (proj2 (Z.eqb_neq c _)) by lia. cbn [orb].
  rewrite (proj2 (Nat.leb_gt _ _)) by lia. repeat rewrite (proj2 (Z.eqb_neq c _)) by lia. cbn [orb].
  by rewrite (proj2 (Nat.eqb_neq _ _)) by lia.
Qed.

Lemma plain_keys l : forall t, Forall plain l -> (pending t + length l < 128)%nat ->
  foldl tty_key t l = Tty (ready t) (line t ++ l).
Proof.
  induction l as [|c l IH]; intros t Hl Hp; cbn [foldl length] in *; [rewrite app_nil_r; by destruct t|].
  apply Forall_cons in Hl as [Hc Hl]. rewrite plain_key by (try done; lia). rewrite IH.
  - cbn [ready line]. by rewrite <- app_assoc.
  - done.
  - unfold pending in *. cbn [ready line]. rewrite length_app. cbn. lia.
Qed.

Lemma plain_read killed target l r : forall n bytes, Forall plain l -> Z.of_nat (length l) < n ->
  tty_read killed target n bytes (l ++ 10 :: r) = (Returned (target - (n - Z.of_nat (length l) - 1)) (bytes ++ l ++ [10]), r).
Proof.
  induction l as [|c l IH]; intros n bytes Hl Hn; cbn [app tty_read length] in *; rewrite (proj2 (Z.leb_gt _ _)) by lia.
  - cbn. do 3 f_equal. lia.
  - apply Forall_cons in Hl as [Hc Hl]. unfold plain in Hc. unfold ctrl. repeat rewrite (proj2 (Z.eqb_neq c _)) by lia.
    rewrite IH by (try done; lia). rewrite <- app_assoc. cbn [app]. do 3 f_equal. lia.
Qed.

Lemma enter_key t : (pending t < 128)%nat -> tty_key t 13 = Tty (ready t ++ line t ++ [10]) [].
Proof. intros Hp. unfold tty_key. by rewrite (proj2 (Nat.leb_gt 128 _)) by lia. Qed.

(** What is typed is read: ordinary characters and Enter, typed at an idle
    console whatever the position of the ring, give a reader with a large enough
    buffer exactly the characters and a newline, and leave the console idle. *)
Theorem typed_line_is_read s l n :
  tty_rel s (Tty [] []) -> Forall plain l -> (length l < 127)%nat -> Z.of_nat (length l) < n ->
  exists d s1 s2, consoleintr (l ++ [13]) s = Ret d s1 /\
    consoleread false n n [] s1 = Ret (Returned (Z.of_nat (length l) + 1) (l ++ [10])) s2 /\ tty_rel s2 (Tty [] []).
Proof.
  intros Hs Hl Hlen Hn. destruct (consoleintr_refines (l ++ [13]) s _ Hs) as (d&s1&E1&Hs1&_).
  { apply Forall_app. split; [|by repeat constructor]. eapply Forall_impl; [exact Hl|]. unfold plain, is_u8. lia. }
  rewrite foldl_app, (plain_keys l) in Hs1 by (try done; unfold pending; cbn [ready line length]; lia). cbn [foldl ready line app] in Hs1.
  rewrite enter_key in Hs1 by (unfold pending; cbn [ready line length]; lia). cbn [ready line app] in Hs1.
  destruct (read_refines false n [] (l ++ [10]) (Z.to_nat n + 1) n [] s1 Hs1 ltac:(lia)) as (s2&E2&Hs2).
  rewrite (plain_read false n l []) in E2, Hs2 by done. cbn [fst snd app] in *.
  exists d, s1, s2. split; [done|]. split; [|done]. unfold consoleread. rewrite E2. do 2 f_equal. lia.
Qed.

(** ** Instances *)

(** A console whose indices are about to wrap. *)
Definition demo_console : console :=
  Console (replicate 128 0) (2 ^ 32 - 2) (2 ^ 32 - 2) (2 ^ 32 - 2) 0 (Screen (fun _ => 0) 1919 [] false).

Lemma demo_console_rel : tty_rel demo_console (Tty [] []).
Proof.
  split; try done.
  - unfold pending. cbn. lia.
Qed.

Lemma console_refines_tty_witness :
  exists d s', consoleintr [104; 105; 8; 13] demo_console = Ret d s' /\ tty_rel s' (Tty [104; 10] []).
Proof.
  destruct (console_refines_tty demo_console _ demo_console_rel) as [Hi _].
  destruct (Hi [104; 105; 8; 13]) as (d&s'&E&Hs'&_); [repeat (apply Forall_cons; split; [unfold is_u8; lia|]); by apply Forall_nil|]. exists d, s'. split; [exact E|exact Hs'].
Defined.

Lemma typed_line_is_read_witness :
  exists d s1 s2, consoleintr [104; 105; 13] demo_console = Ret d s1 /\
    consoleread false 100 100 [] s1 = Ret (Returned 3 [104; 105; 10]) s2.
Proof.
  destruct (typed_line_is_read demo_console [104; 105] 100 demo_console_rel) as (d&s1&s2&E1&E2&_).
  - repeat (apply Forall_cons; split; [unfold plain; lia|]). by apply Forall_nil.
  - cbn. lia.
  - cbn. lia.
  - exists d, s1, s2. split; [exact E1|exact E2].
Defined.
