(* ===== verification/Kbd.v ===== *)
(** The keyboard decoder (kbd.c, kbd.h): scan codes to characters, with the
    state of the modifier keys. *)

From S2P Require Import Prelude Console.

Definition SHIFT : Z := 1.
Definition CTL : Z := 2.
Definition ALT : Z := 4.
Definition CAPSLOCK : Z := 8.
Definition NUMLOCK : Z := 16.
Definition SCROLLLOCK : Z := 32.
Definition E0ESC : Z := 64.

Definition shiftcode (d : Z) : Z :=
  if (d =? 0x1D) || (d =? 0x9D) then CTL
  else if (d =? 0x2A) || (d =? 0x36) then SHIFT
  else if (d =? 0x38) || (d =? 0xB8) then ALT else 0.

Definition togglecode (d : Z) : Z :=
  if d =? 0x3A then CAPSLOCK else if d =? 0x45 then NUMLOCK else if d =? 0x46 then SCROLLLOCK else 0.

(** The keys behind an escape; the first two differ between the maps. *)
Definition keypad (enter div d : Z) : Z :=
  if d =? 0x9C then enter else if d =? 0xB5 then div
  else if d =? 0xC8 then 0xE2 else if d =? 0xD0 then 0xE3
  else if d =? 0xC9 then 0xE6 else if d =? 0xD1 then 0xE7
  else if d =? 0xCB then 0xE4 else if d =? 0xCD then 0xE5
  else if d =? 0x97 then 0xE0 else if d =? 0xCF then 0xE1
  else if d =? 0xD2 then 0xE8 else if d =? 0xD3 then 0xE9 else 0.

Definition code_map (t : list Z) (enter div d : Z) : Z :=
  match t !! Z.to_nat d with Some c => c | None => keypad enter div d end.

Definition normalmap : Z -> Z := code_map
  [0; 27; 49; 50; 51; 52; 53; 54; 55; 56; 57; 48; 45; 61; 8; 9;
   113; 119; 101; 114; 116; 121; 117; 105; 111; 112; 91; 93; 10; 0; 97; 115;
   100; 102; 103; 104; 106; 107; 108; 59; 39; 96; 0; 92; 122; 120; 99; 118;
   98; 110; 109; 44; 46; 47; 0; 42; 0; 32; 0; 0; 0; 0; 0; 0;
   0; 0; 0; 0; 0; 0; 0; 55; 56; 57; 45; 52; 53; 54; 43; 49;
   50; 51; 48; 46; 0; 0; 0; 0] 10 47.

Definition shiftmap : Z -> Z := code_map
  [0; 27; 33; 64; 35; 36; 37; 94; 38; 42; 40; 41; 95; 43; 8; 9;
   81; 87; 69; 82; 84; 89; 85; 73; 79; 80; 123; 125; 10; 0; 65; 83;
   68; 70; 71; 72; 74; 75; 76; 58; 34; 126; 0; 124; 90; 88; 67; 86;
   66; 78; 77; 60; 62; 63; 0; 42; 0; 32; 0; 0; 0; 0; 0; 0;
   0; 0; 0; 0; 0; 0; 0; 55; 56; 57; 45; 52; 53; 54; 43; 49;
   50; 51; 48; 46; 0; 0; 0; 0] 10 47.

(** [C('/')] is stored in an unsigned char. *)
Definition ctlmap : Z -> Z := code_map
  [0; 0; 0; 0; 0; 0; 0; 0; 0; 0; 0; 0; 0; 0; 0; 0;
   17; 23; 5; 18; 20; 25; 21; 9; 15; 16; 0; 0; 13; 0; 1; 19;
   4; 6; 7; 8; 10; 11; 12; 0; 0; 0; 0; 28; 26; 24; 3; 22;
   2; 14; 13; 0; 0; u8 (47 - 64); 0; 0] 13 (u8 (47 - 64)).

Definition charcode (m : Z) : Z -> Z := if m =? 0 then normalmap else if m =? 1 then shiftmap else ctlmap.

(** [kbdgetc] on the byte in the data port, if the status port announces one:
    the character and the new modifier state. *)
Definition kbdgetc (shift : Z) (port : option Z) : Z * Z :=
  match port with
  | None => (-1, shift)
  | Some data =>
      if data =? 0xE0 then (0, Z.lor shift E0ESC)
      else if negb (Z.land data 0x80 =? 0) then
        let data := if negb (Z.land shift E0ESC =? 0) then data else Z.land data 0x7F in
        (0, Z.ldiff shift (Z.lor (shiftcode data) E0ESC))
      else
        let '(data, shift) :=
          if negb (Z.land shift E0ESC =? 0) then (Z.lor data 0x80, Z.ldiff shift E0ESC) else (data, shift) in
        let shift := Z.lor shift (shiftcode data) in
        let shift := Z.lxor shift (togglecode data) in
        let c := charcode (Z.land shift (Z.lor CTL SHIFT)) data in
        let c :=
          if negb (Z.land shift CAPSLOCK =? 0) then
            if (97 <=? c) && (c <=? 122) then c - 32 else if (65 <=? c) && (c <=? 90) then c + 32 else c
          else c in
        (c, shift)
  end.

(** The characters of a burst of scan codes, as [consoleintr] asks for them. *)
Fixpoint kbd_burst (shift : Z) (bytes : list Z) : list Z * Z :=
  match bytes with
  | [] => ([], shift)
  | b :: bytes =>
      let '(c, shift) := kbdgetc shift (Some b) in
      let '(cs, shift) := kbd_burst shift bytes in
      (c :: cs, shift)
  end.

Definition kbdintr (shift : Z) (bytes : list Z) : kern console Z :=
  consoleintr (kbd_burst shift bytes).1 ;; mret (kbd_burst shift bytes).2.

(** ** Letters *)

Definition pressed (shift m : Z) : bool := negb (Z.land shift m =? 0).

(** What a letter key means under the modifiers. *)
Definition letter (shift c : Z) : Z :=
  if pressed shift CTL then c - 96
  else if xorb (pressed shift SHIFT) (pressed shift CAPSLOCK) then c - 32 else c.

Definition is_letter (c : Z) : bool := (97 <=? c) && (c <=? 122).

(** Every letter key, in every modifier state (no escape pending): the character
    is the letter, its capital, or its control character, and the modifiers stay
    as they were. *)
Definition letter_ok (shift d : Z) : bool :=
  let c := normalmap d in
  if is_letter c && negb (pressed shift E0ESC) then
    bool_decide (kbdgetc shift (Some d) = (letter shift c, shift))
  else true.

Lemma letters_check :
  forallb (fun s => forallb (letter_ok (Z.of_nat s)) (Z.of_nat <$> seq 0 128)) (seq 0 128) = true.
Proof. vm_compute. reflexivity. Qed.

Theorem kbd_letters shift d :
  0 <= shift < 128 -> 0 <= d < 128 -> pressed shift E0ESC = false -> is_letter (normalmap d) = true ->
  kbdgetc shift (Some d) = (letter shift (normalmap d), shift).
Proof.
  intros Hs Hd He Hl. pose proof letters_check as Hc. rewrite forallb_forall in Hc.
  specialize (Hc (Z.to_nat shift)). rewrite in_seq in Hc. specialize (Hc ltac:(lia)). rewrite forallb_forall in Hc.
  specialize (Hc d). rewrite Z2Nat.id in Hc by lia. unfold letter_ok in Hc. rewrite Hl, He in Hc. cbn [negb andb] in Hc.
  apply bool_decide_eq_true in Hc; [done|]. apply list_elem_of_In, list_elem_of_fmap. exists (Z.to_nat d).
  split; [lia|]. apply elem_of_seq. lia.
Qed.

(** ** Types *)

(** The modifier state is a set of the seven flags. *)
Definition shift_ok (shift : Z) : Prop := 0 <= shift < 128.

Definition typed_ok (shift d : Z) : bool :=
  let '(c, shift') := kbdgetc shift (Some d) in (0 <=? c) && (c <? 256) && (0 <=? shift') && (shift' <? 128).

Lemma typed_check :
  forallb (fun s => forallb (typed_ok (Z.of_nat s)) (Z.of_nat <$> seq 0 256)) (seq 0 128) = true.
Proof. vm_compute. reflexivity. Qed.

Lemma kbdgetc_typed shift d : shift_ok shift -> is_u8 d ->
  is_u8 (kbdgetc shift (Some d)).1 /\ shift_ok (kbdgetc shift (Some d)).2.
Proof.
  intros Hs Hd. pose proof typed_check as Hc. rewrite forallb_forall in Hc. unfold shift_ok, is_u8 in *.
  specialize (Hc (Z.to_nat shift)). rewrite in_seq in Hc. specialize (Hc ltac:(lia)). rewrite forallb_forall in Hc.
  specialize (Hc d). rewrite Z2Nat.id in Hc by lia. unfold typed_ok in Hc. destruct (kbdgetc shift (Some d)) as [c shift'].
  cbn. assert (Hin : In d (Z.of_nat <$> seq 0 256)).
  { apply list_elem_of_In, list_elem_of_fmap. exists (Z.to_nat d). split; [lia|]. apply elem_of_seq. lia. }
  specialize (Hc Hin). rewrite !andb_true_iff, !Z.leb_le, !Z.ltb_lt in Hc. lia.
Qed.

Lemma kbd_burst_typed bytes : forall shift, shift_ok shift -> Forall is_u8 bytes ->
  Forall is_u8 (kbd_burst shift bytes).1 /\ shift_ok (kbd_burst shift bytes).2.
Proof.
  induction bytes as [|b bytes IH]; intros shift Hs Hb; [by split; [constructor|]|].
  apply Forall_cons in Hb as [Hb0 Hb]. destruct (kbdgetc_typed shift b Hs Hb0) as [Hc Hs']. cbn [kbd_burst].
  destruct (kbdgetc shift (Some b)) as [c shift']. cbn in Hc, Hs'. destruct (IH shift' Hs' Hb) as [Hcs Hs2].
  destruct (kbd_burst shift' bytes) as [cs shift2]. cbn in *. by split; [constructor|].
Qed.


