(* ===== verification/Ide.v ===== *)
(** The IDE disk driver, ide.c.

    The driver talks to the controller with byte and word port operations; the
    controller is the interface [IdeDevice] with the ATA protocol as its laws
    [IdeLaws], and [port_disk] is an instance.  Requests wait in [idequeue]; the
    head is the one the controller works on.  The theorem relates the driver to
    the memory disk of memide.c: each interrupt has the effect of memide's
    [iderw] on the buffer at the head of the queue. *)

From S2P Require Import Prelude Bio.

Definition SECTOR_SIZE : Z := 512.
Definition FSSIZE : Z := 5000.
Definition IDE_BSY : Z := 0x80.
Definition IDE_DRDY : Z := 0x40.
Definition IDE_DF : Z := 0x20.
Definition IDE_ERR : Z := 0x01.
Definition IDE_CMD_READ : Z := 0x20.
Definition IDE_CMD_WRITE : Z := 0x30.
Definition IDE_CMD_RDMUL : Z := 0xc4.
Definition IDE_CMD_WRMUL : Z := 0xc5.

(** Port input and output. *)
Class IdeDevice (D : Type) := {
  inb : Z -> kern D Z;
  outb : Z -> Z -> kern D unit;
  outsl : Z -> list Z -> kern D unit;
  insl : Z -> Z -> kern D (list Z);      (* port, number of bytes *)
}.

Section driver.
Context {D : Type} `{IdeDevice D}.

(** [idewait]; [fuel] bounds the polls of the status port. *)
Fixpoint idewait (fuel : nat) (checkerr : bool) : kern D Z :=
  match fuel with
  | O => fun _ => Fuel
  | S fuel =>
      r ← inb 0x1f7;
      if negb (Z.land r (Z.lor IDE_BSY IDE_DRDY) =? IDE_DRDY) then idewait fuel checkerr
      else if checkerr && negb (Z.land r (Z.lor IDE_DF IDE_ERR) =? 0) then mret (-1)
      else mret 0
  end.

Record ide := Ide {
  idev : D;
  idequeue : list nat;
  havedisk1 : bool;
  ibufs : list buf;
  ipid : Z;                 (* myproc()->pid *)
  iwoken : list nat;        (* wakeup(b), oldest first *)
}.

Definition set_idev (d : D) (s : ide) : ide := Ide d (idequeue s) (havedisk1 s) (ibufs s) (ipid s) (iwoken s).
Definition set_queue (q : list nat) (s : ide) : ide := Ide (idev s) q (havedisk1 s) (ibufs s) (ipid s) (iwoken s).
Definition set_disk1 (b : bool) (s : ide) : ide := Ide (idev s) (idequeue s) b (ibufs s) (ipid s) (iwoken s).
Definition ibuf (s : ide) (i : nat) : buf := nth i (ibufs s) buf0.
Definition upd_ibuf (i : nat) (g : buf -> buf) (s : ide) : ide :=
  Ide (idev s) (idequeue s) (havedisk1 s) (<[i := g (ibuf s i)]> (ibufs s)) (ipid s) (iwoken s).
Definition wake_buf (i : nat) (s : ide) : ide :=
  Ide (idev s) (idequeue s) (havedisk1 s) (ibufs s) (ipid s) (iwoken s ++ [i]).

Context (poll : nat).

Definition port {A} (m : kern D A) : kern ide A := zoom idev set_idev m.

(** [for(i=0; i<1000; i++)] of [ideinit]. *)
Fixpoint probe (n : nat) : kern D bool :=
  match n with
  | O => mret false
  | S n => r ← inb 0x1f7; if negb (r =? 0) then mret true else probe n
  end.

Definition ideinit : kern ide unit :=
  port (idewait poll false) ;;
  port (outb 0x1f6 (Z.lor 0xe0 (Z.shiftl 1 4))) ;;
  b ← port (probe 1000);
  (if b : bool then modify (set_disk1 true) else mret tt) ;;
  port (outb 0x1f6 (Z.lor 0xe0 (Z.shiftl 0 4))).

Definition idestart (b : option nat) : kern ide unit :=
  match b with
  | None => panic "idestart"
  | Some i =>
      b ← gets (fun s => ibuf s i);
      if FSSIZE <=? b_blockno b then panic "incorrect blockno"
      else
        let sector_per_block := BSIZE / SECTOR_SIZE in
        let sector := i32 (b_blockno b * sector_per_block) in
        let read_cmd := if sector_per_block =? 1 then IDE_CMD_READ else IDE_CMD_RDMUL in
        let write_cmd := if sector_per_block =? 1 then IDE_CMD_WRITE else IDE_CMD_WRMUL in
        if 7 <? sector_per_block then panic "idestart"
        else
          port (idewait poll false) ;;
          port (outb 0x3f6 0) ;;
          port (outb 0x1f2 sector_per_block) ;;
          port (outb 0x1f3 (Z.land sector 0xff)) ;;
          port (outb 0x1f4 (Z.land (Z.shiftr sector 8) 0xff)) ;;
          port (outb 0x1f5 (Z.land (Z.shiftr sector 16) 0xff)) ;;
          port (outb 0x1f6 (Z.lor (Z.lor 0xe0 (Z.shiftl (Z.land (b_dev b) 1) 4)) (Z.land (Z.shiftr sector 24) 0x0f))) ;;
          if has (b_flags b) B_DIRTY then
            port (outb 0x1f7 write_cmd) ;;
            port (outsl 0x1f0 (b_data b))
          else port (outb 0x1f7 read_cmd)
  end.

Definition ideintr : kern ide unit :=
  q ← gets idequeue;
  match q with
  | [] => mret tt
  | i :: q =>
      modify (set_queue q) ;;
      b ← gets (fun s => ibuf s i);
      (if negb (has (b_flags b) B_DIRTY) then
         r ← port (idewait poll true);
         if 0 <=? r then d ← port (insl 0x1f0 BSIZE); modify (upd_ibuf i (set_data d)) else mret tt
       else mret tt) ;;
      modify (upd_ibuf i (fun b => set_flags (Z.lor (b_flags b) B_VALID) b)) ;;
      modify (upd_ibuf i (fun b => set_flags (Z.land (b_flags b) (Z.lnot B_DIRTY)) b)) ;;
      modify (wake_buf i) ;;
      q ← gets idequeue;
      match q with [] => mret tt | j :: _ => idestart (Some j) end
  end.

Definition busy (b : buf) : bool := negb (Z.land (b_flags b) (Z.lor B_VALID B_DIRTY) =? B_VALID).

(** [iderw] up to the loop that waits for the request. *)
Definition iderw_start (i : nat) : kern ide unit :=
  s ← gets id;
  let b := ibuf s i in
  if negb (bool_decide (b_lock b = Some (ipid s))) then panic "iderw: buf not locked"
  else if negb (busy b) then panic "iderw: nothing to do"
  else if negb (b_dev b =? 0) && negb (havedisk1 s) then panic "iderw: ide disk 1 not present"
  else
    modify (set_queue (idequeue s ++ [i])) ;;
    (if decide (idequeue s = []) then idestart (Some i) else mret tt).

(** [while((b->flags & (B_VALID|B_DIRTY)) != B_VALID) sleep(b, &idelock)]. *)
Definition iderw_wait (i : nat) : kern ide unit := fun s =>
  if busy (ibuf s i) then Sleep (Z.of_nat i) s else Ret tt s.

Definition iderw (i : nat) : kern ide unit := iderw_start i ;; iderw_wait i.

End driver.
Arguments ide D : clear implicits.
Arguments Ide {D} _ _ _ _ _ _.

(** ** The controller *)

(** The register writes that select sector [s0 + 2^8 s1 + 2^16 s2 + 2^24 s3] of drive [dr]. *)
Definition select {D} `{IdeDevice D} (dr s0 s1 s2 s3 : Z) : kern D unit :=
  outb 0x3f6 0 ;; outb 0x1f2 1 ;; outb 0x1f3 s0 ;; outb 0x1f4 s1 ;; outb 0x1f5 s2 ;;
  outb 0x1f6 (0xe0 + 16 * dr + s3).

Definition lba (s0 s1 s2 s3 : Z) : Z := s0 + 2 ^ 8 * s1 + 2 ^ 16 * s2 + 2 ^ 24 * s3.

Class IdeLaws (D : Type) `{IdeDevice D} (poll : nat) := {
  id_disk : D -> Z -> Z -> block;          (* drive, sector *)
  id_read : D -> option (Z * Z);           (* the sector a read command asked for *)
  id_err : D -> bool;                      (* the last command failed *)
  id_wait chk d : exists d', idewait poll chk d = Ret (if chk && id_err d then -1 else 0) d' /\
    id_disk d' = id_disk d /\ id_read d' = id_read d /\ id_err d' = id_err d;
  id_cmd_read d dr s0 s1 s2 s3 : 0 <= dr < 2 -> is_u8 s0 -> is_u8 s1 -> is_u8 s2 -> 0 <= s3 < 16 ->
    exists d', (select dr s0 s1 s2 s3 ;; outb 0x1f7 IDE_CMD_READ) d = Ret tt d' /\
      id_disk d' = id_disk d /\ id_read d' = Some (dr, lba s0 s1 s2 s3) /\ id_err d' = id_err d;
  id_cmd_write d dr s0 s1 s2 s3 bs : 0 <= dr < 2 -> is_u8 s0 -> is_u8 s1 -> is_u8 s2 -> 0 <= s3 < 16 ->
    length bs = 512%nat ->
    exists d', (select dr s0 s1 s2 s3 ;; outb 0x1f7 IDE_CMD_WRITE ;; outsl 0x1f0 bs) d = Ret tt d' /\
      (forall r s, id_disk d' r s = if decide (r = dr /\ s = lba s0 s1 s2 s3) then bs else id_disk d r s) /\
      id_err d' = id_err d;
  id_insl d dr s : id_read d = Some (dr, s) ->
    exists d', insl 0x1f0 512 d = Ret (id_disk d dr s) d' /\ id_disk d' = id_disk d /\ id_err d' = id_err d;
}.

(** An instance: registers and the two drives.  The controller is always ready. *)
Record ports := Ports {
  pt_reg : Z -> Z;
  pt_disk : Z -> Z -> block;
  pt_cmd : option (Z * Z);
  pt_bad : bool;
}.

Definition selected (p : ports) : Z * Z :=
  (Z.land (Z.shiftr (pt_reg p 0x1f6) 4) 1,
   lba (pt_reg p 0x1f3) (pt_reg p 0x1f4) (pt_reg p 0x1f5) (Z.land (pt_reg p 0x1f6) 0xf)).

#[global] Instance port_disk : IdeDevice ports := {
  inb a p := Ret (if a =? 0x1f7 then (if pt_bad p then Z.lor IDE_DRDY IDE_ERR else IDE_DRDY) else pt_reg p a) p;
  outb a v p :=
    if a =? 0x1f7 then Ret tt (Ports (pt_reg p) (pt_disk p) (Some (selected p)) (pt_bad p))
    else Ret tt (Ports (fun r => if r =? a then v else pt_reg p r) (pt_disk p) (pt_cmd p) (pt_bad p));
  outsl a bs p :=
    match pt_cmd p with
    | None => Ret tt p
    | Some (dr, s) =>
        Ret tt (Ports (pt_reg p) (fun r t => if decide (r = dr /\ t = s) then bs else pt_disk p r t) (pt_cmd p) (pt_bad p))
    end;
  insl a n p := match pt_cmd p with None => Ret [] p | Some (dr, s) => Ret (pt_disk p dr s) p end;
}.

Lemma head_bits dr s3 : 0 <= dr < 2 -> 0 <= s3 < 16 ->
  Z.land (Z.shiftr (0xe0 + 16 * dr + s3) 4) 1 = dr /\ Z.land (0xe0 + 16 * dr + s3) 0xf = s3.
Proof.
  intros Hd Hs. rewrite Z.shiftr_div_pow2 by lia. change (2 ^ 4) with 16. split.
  - rewrite (Z.land_ones _ 1) by lia. replace ((0xe0 + 16 * dr + s3) / 16) with (14 + dr) by (apply Z.div_unique with s3; lia).
    symmetry. apply Z.mod_unique with 7; lia.
  - rewrite (Z.land_ones _ 4) by lia. symmetry. apply Z.mod_unique with (14 + dr); lia.
Qed.

Lemma select_run p dr s0 s1 s2 s3 : 0 <= dr < 2 -> 0 <= s3 < 16 ->
  exists p', select dr s0 s1 s2 s3 p = Ret tt p' /\ selected p' = (dr, lba s0 s1 s2 s3) /\
    pt_disk p' = pt_disk p /\ pt_bad p' = pt_bad p.
Proof.
  intros Hd H3. unfold select.
  assert (E : forall a v (q : ports), (a =? 0x1f7) = false ->
    outb a v q = Ret tt (Ports (fun r => if r =? a then v else pt_reg q r) (pt_disk q) (pt_cmd q) (pt_bad q))).
  { intros a v q Ha. cbn. by rewrite Ha. }
  do 5 (erewrite bind_Ret; [|by apply E]). rewrite E by done. eexists. split; [reflexivity|]. split; [|done].
  unfold selected. cbn [pt_reg Z.eqb Pos.eqb]. destruct (head_bits dr s3 Hd H3) as [-> ->]. done.
Qed.

Lemma port_cmd_read (d : ports) dr s0 s1 s2 s3 : 0 <= dr < 2 -> 0 <= s3 < 16 ->
  exists d', (select dr s0 s1 s2 s3 ;; outb 0x1f7 IDE_CMD_READ) d = Ret tt d' /\
    pt_disk d' = pt_disk d /\ pt_cmd d' = Some (dr, lba s0 s1 s2 s3) /\ pt_bad d' = pt_bad d.
Proof.
  intros Hd H3. destruct (select_run d dr s0 s1 s2 s3 Hd H3) as (p' & E & Es & Ed & Eb).
  rewrite (bind_Ret _ _ _ _ _ E). eexists. split; [reflexivity|]. cbn [pt_disk pt_cmd pt_bad]. by rewrite Es, Ed, Eb.
Qed.

Lemma port_cmd_write (d : ports) dr s0 s1 s2 s3 bs : 0 <= dr < 2 -> 0 <= s3 < 16 ->
  exists d', (select dr s0 s1 s2 s3 ;; outb 0x1f7 IDE_CMD_WRITE ;; outsl 0x1f0 bs) d = Ret tt d' /\
    (forall r s, pt_disk d' r s = if decide (r = dr /\ s = lba s0 s1 s2 s3) then bs else pt_disk d r s) /\
    pt_bad d' = pt_bad d.
Proof.
  intros Hd H3. destruct (select_run d dr s0 s1 s2 s3 Hd H3) as (p' & E & Es & Ed & Eb).
  rewrite (bind_Ret _ _ _ _ _ E). unfold outb, outsl, port_disk, mbind, kern_bind. cbn [Z.eqb Pos.eqb pt_cmd].
  rewrite Es. eexists. split; [reflexivity|]. cbn [pt_disk pt_bad]. by rewrite Ed, Eb.
Qed.

#[global] Instance port_disk_laws poll : IdeLaws ports (S poll).
Proof.
  refine {| id_disk := pt_disk; id_read := pt_cmd; id_err := pt_bad |}.
  - intros chk d. exists d. destruct d as [r k c []], chk; done.
  - intros d dr s0 s1 s2 s3 Hd _ _ _ H3. by apply port_cmd_read.
  - intros d dr s0 s1 s2 s3 bs Hd _ _ _ H3 _. by apply port_cmd_write.
  - intros [r k c b] dr s Hc. cbn in Hc. subst c. eexists. done.
Defined.

(** ** The driver against the memory disk *)

Section refine.
Context {D : Type} (poll : nat) `{IL : IdeLaws D poll}.
Implicit Types s : ide D.

Lemma bind_port {A B} (m : kern D A) (k : A -> kern (ide D) B) s a d :
  m (idev s) = Ret a d -> (port m ≫= k) s = k a (set_idev d s).
Proof. intros E. unfold port, zoom, mbind, kern_bind. by rewrite E. Qed.

Lemma port_run {A} (m : kern D A) s a d : m (idev s) = Ret a d -> port m s = Ret a (set_idev d s).
Proof. intros E. unfold port. by apply zoom_Ret. Qed.

(** A request the driver accepts for the file system's disk. *)
Record request (b : buf) : Prop := {
  rq_busy : busy b = true;
  rq_dev : b_dev b = ROOTDEV;
  rq_block : 0 <= b_blockno b < FSSIZE;
  rq_data : length (b_data b) = 512%nat;
  rq_lock : is_Some (b_lock b);
}.

Definition dirty (b : buf) : bool := has (b_flags b) B_DIRTY.

(** The sector number as the four bytes the controller gets. *)
Lemma sector_bytes n : 0 <= n < FSSIZE ->
  i32 (n * (BSIZE / SECTOR_SIZE)) = n /\
  is_u8 (Z.land n 0xff) /\ is_u8 (Z.land (Z.shiftr n 8) 0xff) /\ Z.land (Z.shiftr n 16) 0xff = 0 /\ Z.land (Z.shiftr n 24) 0x0f = 0 /\
  lba (Z.land n 0xff) (Z.land (Z.shiftr n 8) 0xff) 0 0 = n.
Proof.
  intros Hn. unfold FSSIZE in Hn. change (BSIZE / SECTOR_SIZE) with 1. rewrite Z.mul_1_r.
  change 0xff with (Z.ones 8). change 0x0f with (Z.ones 4). rewrite !Z.land_ones, !Z.shiftr_div_pow2 by lia.
  rewrite (Z.div_small n (2 ^ 16)), (Z.div_small n (2 ^ 24)) by lia.
  assert (Hq : 0 <= n / 2 ^ 8 < 2 ^ 8) by (split; [apply Z.div_pos; lia|apply Z.div_lt_upper_bound; lia]).
  rewrite (Z.mod_small (n / 2 ^ 8)) by done. pose proof (Z.mod_pos_bound n (2 ^ 8) ltac:(lia)).
  split; [apply i32_id; lia|]. split; [done|]. split; [done|]. split; [done|]. split; [done|].
  unfold lba. pose proof (Z.div_mod n (2 ^ 8) ltac:(lia)). lia.
Qed.

Lemma idestart_run s i :
  request (ibuf s i) ->
  exists d', idestart poll (Some i) s = Ret tt (set_idev d' s) /\ id_err d' = id_err (idev s) /\
    (forall b, id_disk d' ROOTDEV b =
       if dirty (ibuf s i) && (b =? b_blockno (ibuf s i)) then b_data (ibuf s i) else id_disk (idev s) ROOTDEV b) /\
    (dirty (ibuf s i) = false -> id_read d' = Some (ROOTDEV, b_blockno (ibuf s i))).
Proof.
  intros [_ Hdev Hblk Hlen _]. set (b := ibuf s i) in *. unfold idestart. rewrite bind_gets. fold b.
  destruct (sector_bytes _ Hblk) as (E0 & U0 & U1 & E2 & E3 & El).
  rewrite (proj2 (Z.leb_gt _ _)) by lia. rewrite E0, E2, E3. change (7 <? BSIZE / SECTOR_SIZE) with false. cbv iota.
  change (BSIZE / SECTOR_SIZE) with 1. cbn [Z.eqb Pos.eqb].
  destruct (id_wait false (idev s)) as (d0 & W & W1 & W2 & W3). erewrite bind_port by exact W.
  rewrite Hdev. change (Z.lor (Z.lor 224 (Z.shiftl (Z.land ROOTDEV 1) 4)) 0) with (224 + 16 * ROOTDEV + 0).
  fold (dirty b). destruct (dirty b) eqn:Ed.
  - destruct (id_cmd_write d0 ROOTDEV _ _ 0 0 (b_data b) ltac:(done) U0 U1 ltac:(done) ltac:(lia) Hlen) as (d' & R & R1 & R2).
    rewrite El in R1. unfold select in R. rewrite !bind_bind in R. kinv.
    exists d'. repeat (erewrite bind_port by eassumption). erewrite port_run by exact R.
    split; [done|]. split; [by rewrite R2|]. split; [|done]. intros x. rewrite R1, W1. cbn [andb].
    destruct (Z.eqb_spec x (b_blockno b)) as [->|Hne]; [by rewrite decide_True|]. rewrite decide_False; [done|naive_solver].
  - destruct (id_cmd_read d0 ROOTDEV _ _ 0 0 ltac:(done) U0 U1 ltac:(done) ltac:(lia)) as (d' & R & R1 & R2 & R3).
    rewrite El in R2. unfold select in R. rewrite !bind_bind in R. kinv.
    exists d'. repeat (erewrite bind_port by eassumption). erewrite port_run by exact R.
    split; [done|]. split; [by rewrite R3|]. split; [|done]. intros x. cbn [andb]. by rewrite R1, W1.
Qed.

(** The controller works on the head of the queue. *)
Record ide_ok s : Prop := {
  io_nodup : NoDup (idequeue s);
  io_request i : i ∈ idequeue s -> (i < length (ibufs s))%nat /\ request (ibuf s i);
  io_active i q : idequeue s = i :: q -> dirty (ibuf s i) = false -> id_read (idev s) = Some (ROOTDEV, b_blockno (ibuf s i));
  io_healthy : id_err (idev s) = false;
}.

(** The driver's view [s] and the memory disk [c]: the same buffers, and the same
    blocks except that an active write may be on the disk already. *)
Record same_disk s (c : bcache) : Prop := {
  sd_bufs : bufs c = ibufs s;
  sd_size : disksize c = FSSIZE;
  sd_disk b : 0 <= b < FSSIZE -> id_disk (idev s) ROOTDEV b =
    match idequeue s with
    | i :: _ => if dirty (ibuf s i) && (b =? b_blockno (ibuf s i)) then b_data (ibuf s i) else disk c b
    | [] => disk c b
    end;
}.

(** The process that holds the buffer asks for it. *)
Definition as_holder (i : nat) (c : bcache) : bcache :=
  Bcache (bufs c) (lru c) (disk c) (disksize c) (writes c) (default 0 (b_lock (bufat c i))).

Definition accepts s (i : nat) : Prop :=
  (i < length (ibufs s))%nat /\ request (ibuf s i) /\ b_lock (ibuf s i) = Some (ipid s) /\ (i ∉ idequeue s) /\ havedisk1 s = true.

Lemma start_request s c i :
  ide_ok s -> same_disk s c -> accepts s i ->
  exists s', iderw_start poll i s = Ret tt s' /\ idequeue s' = idequeue s ++ [i] /\ ibufs s' = ibufs s /\
    ide_ok s' /\ same_disk s' c.
Proof.
  intros [H1 H2 H3 H4] [S1 S2 S3] (Hlen & Hrq & Hlk & Hni & Hd1). unfold iderw_start. rewrite bind_gets. cbn [id].
  rewrite bool_decide_eq_true_2 by done. rewrite (rq_busy _ Hrq), Hd1, andb_false_r. cbn [negb]. rewrite bind_modify.
  set (s1 := set_queue (idequeue s ++ [i]) s).
  assert (Hnd : NoDup (idequeue s ++ [i])).
  { apply NoDup_app. split; [done|]. split; [|apply NoDup_singleton]. intros x Hx ->%list_elem_of_singleton. done. }
  assert (Hall : forall j, j ∈ idequeue s ++ [i] -> (j < length (ibufs s))%nat /\ request (ibuf s j)).
  { intros j [Hj| ->%list_elem_of_singleton]%elem_of_app; [by apply H2|done]. }
  case_decide as Eq.
  - destruct (idestart_run s1 i Hrq) as (d' & E & Ee & Ed & Er). exists (set_idev d' s1). split; [done|].
    cbn [set_idev s1 set_queue idequeue ibufs]. split; [done|]. split; [done|]. rewrite Eq in *. split.
    + split; cbn; rewrite ?Eq; [done|done| |by rewrite Ee]. intros j q [= <- <-] Hdj. by apply Er.
    + split; cbn; rewrite ?Eq; [done|done|]. intros b Hb. rewrite Ed. cbn. by rewrite S3.
  - exists s1. split; [done|]. split; [done|]. split; [done|]. destruct (idequeue s) as [|j q] eqn:Eqq; [done|]. split.
    + split; cbn; rewrite ?Eqq; [done|done| |done]. intros j' q' [= <- <-]. apply (H3 j q). done.
    + split; cbn; rewrite ?Eqq; [done|done|]. intros b Hb. by rewrite S3.
Qed.

(** The flags of a buffer after its request. *)
Lemma done_flags f : Z.land (Z.lor f B_VALID) (Z.lnot B_DIRTY) = Z.lor (Z.land f (Z.lnot B_DIRTY)) B_VALID.
Proof.
  rewrite Z.land_lor_distr_l. f_equal.
Qed.

Lemma done_not_busy b f : b_flags b = Z.lor (Z.land f (Z.lnot B_DIRTY)) B_VALID -> busy b = false.
Proof.
  intros E. unfold busy. rewrite E, Z.land_lor_distr_l, <- Z.land_assoc. change (Z.land (Z.lnot B_DIRTY) (Z.lor B_VALID B_DIRTY)) with 2.
  change (Z.land B_VALID (Z.lor B_VALID B_DIRTY)) with 2. assert (Z.lor (Z.land f 2) 2 = 2) as ->; [|done].
  zbits. destruct (Z.testbit f n), (Z.testbit 2 n); done.
Qed.

Lemma clean_flags f : has f B_DIRTY = false -> Z.land f (Z.lnot B_DIRTY) = f.
Proof.
  change B_DIRTY with (2 ^ 2). rewrite has_pow2 by lia. intros Hf. zbits. rewrite Z.lnot_spec by done.
  rewrite Z.pow2_bits_eqb by lia. destruct (Z.eqb_spec 2 n) as [<-|]; [by rewrite Hf|by rewrite andb_true_r].
Qed.

(** The buffer at the head when its request is done. *)
Definition done_buf s (i : nat) : buf :=
  let b := ibuf s i in
  set_flags (Z.lor (Z.land (b_flags b) (Z.lnot B_DIRTY)) B_VALID)
    (if dirty b then b else set_data (id_disk (idev s) ROOTDEV (b_blockno b)) b).

Definition done_state s (d : D) (i : nat) (q : list nat) : ide D :=
  Ide d q (havedisk1 s) (<[i := done_buf s i]> (ibufs s)) (ipid s) (iwoken s ++ [i]).

(** [ideintr] up to the start of the next request. *)
Lemma intr_done s i q :
  ide_ok s -> idequeue s = i :: q ->
  exists d, id_disk d = id_disk (idev s) /\ id_err d = false /\
    ideintr poll s = (match q with [] => mret tt | j :: _ => idestart poll (Some j) end) (done_state s d i q).
Proof.
  intros [_ H2 H3 H4] Eq. destruct (H2 i) as [Hlen Hrq]; [rewrite Eq; by left|].
  unfold ideintr. rewrite bind_gets, Eq, bind_modify, bind_gets.
  change (ibuf (set_queue q s) i) with (ibuf s i). set (b := ibuf s i) in *.
  assert (Hfin : forall d b1 (k : unit -> kern (ide D) unit), b_flags b1 = b_flags b ->
    (modify (upd_ibuf i (fun b => set_flags (Z.lor (b_flags b) B_VALID) b)) ≫= fun _ =>
     modify (upd_ibuf i (fun b => set_flags (Z.land (b_flags b) (Z.lnot B_DIRTY)) b)) ≫= fun _ =>
     modify (wake_buf i) ≫= k) (Ide d q (havedisk1 s) (<[i := b1]> (ibufs s)) (ipid s) (iwoken s)) =
    k tt (Ide d q (havedisk1 s) (<[i := set_flags (Z.lor (Z.land (b_flags b) (Z.lnot B_DIRTY)) B_VALID) b1]> (ibufs s)) (ipid s) (iwoken s ++ [i]))).
  { intros d b1 k Eb. rewrite !bind_modify. f_equal. unfold wake_buf, upd_ibuf, ibuf. cbn.
    rewrite !nth_lookup, !list_insert_insert_eq, list_lookup_insert_eq, list_lookup_insert_eq by (rewrite ?length_insert; done).
    cbn. f_equal. f_equal. unfold set_flags. cbn. by rewrite Eb, done_flags. }
  assert (Hid : <[i := b]> (ibufs s) = ibufs s).
  { apply list_insert_id. unfold b, ibuf. by apply lookup_total_lt. }
  unfold done_state, done_buf. fold b. fold (dirty b). destruct (dirty b) eqn:Ed; cbn [negb].
  - exists (idev s). split; [done|]. split; [done|]. rewrite bind_mret.
    pose proof (Hfin (idev s) b) as Hf. rewrite Hid in Hf. unfold set_queue.
    rewrite Hf by done. rewrite bind_gets. by destruct q.
  - destruct (id_wait true (idev s)) as (d1 & W & W1 & W2 & W3). rewrite H4 in W. cbn [andb] in W.
    destruct (id_insl d1 ROOTDEV (b_blockno b)) as (d2 & I & I1 & I2); [rewrite W2; by apply (H3 i q)|].
    exists d2. split; [by rewrite I1|]. split; [by rewrite I2, W3|].
    rewrite !bind_bind. erewrite bind_port by exact W. change (0 <=? 0) with true. cbv iota.
    rewrite !bind_bind. erewrite bind_port by exact I. rewrite bind_modify.
    rewrite W1. set (x := id_disk (idev s) ROOTDEV (b_blockno b)).
    change (upd_ibuf i (set_data x) (set_idev d2 (set_idev d1 (set_queue q s))))
      with (Ide d2 q (havedisk1 s) (<[i := set_data x b]> (ibufs s)) (ipid s) (iwoken s)).
    rewrite Hfin by done. rewrite bind_gets. by destruct q.
Qed.

Lemma done_other s d i q j : i <> j -> ibuf (done_state s d i q) j = ibuf s j.
Proof. intros Hne. unfold ibuf, done_state. cbn. by rewrite !nth_lookup, list_lookup_insert_ne. Qed.

Lemma done_self s d i q : (i < length (ibufs s))%nat -> ibuf (done_state s d i q) i = done_buf s i.
Proof. intros Hl. unfold ibuf, done_state. cbn. by rewrite nth_lookup, list_lookup_insert_eq. Qed.

(** memide's [iderw] for the same buffer. *)
Lemma memide_done s c i q :
  ide_ok s -> same_disk s c -> idequeue s = i :: q ->
  exists c', Bio.iderw i (as_holder i c) = Ret tt c' /\ bufs c' = <[i := done_buf s i]> (ibufs s) /\ disksize c' = FSSIZE /\
    forall b, disk c' b = if dirty (ibuf s i) && (b =? b_blockno (ibuf s i)) then b_data (ibuf s i) else disk c b.
Proof.
  intros [_ H2 _ _] [S1 S2 S3] Eq. destruct (H2 i) as [Hlen Hrq]; [rewrite Eq; by left|].
  assert (Eb : bufat c i = ibuf s i) by (unfold bufat, ibuf; by rewrite S1).
  unfold Bio.iderw. change (bufat (as_holder i c) i) with (bufat c i). rewrite Eb.
  assert (holdingsleep (as_holder i c) i = true) as ->.
  { unfold holdingsleep. change (bufat (as_holder i c) i) with (bufat c i). cbn [mypid as_holder]. rewrite Eb.
    apply bool_decide_eq_true_2. destruct (rq_lock _ Hrq) as [x ->]. done. }
  cbn [negb]. pose proof (rq_busy _ Hrq) as Hbu. unfold busy in Hbu. apply negb_true_iff in Hbu. rewrite Hbu.
  rewrite (rq_dev _ Hrq). cbn [Z.eqb negb Pos.eqb ROOTDEV]. cbn [disksize as_holder]. rewrite S2.
  rewrite (proj2 (Z.leb_gt _ _)) by (apply Hrq). fold (dirty (ibuf s i)).
  assert (Hup : forall f g (c0 : bcache), bufs c0 = ibufs s ->
    bufs (upd_buf i f (upd_buf i g c0)) = <[i := f (g (ibuf s i))]> (ibufs s)).
  { intros f g c0 E0. unfold upd_buf, bufat. cbn. rewrite E0, list_insert_insert_eq, nth_lookup, list_lookup_insert_eq by done. done. }
  unfold done_buf. destruct (dirty (ibuf s i)) eqn:Ed.
  - eexists. split; [reflexivity|]. split; [|split; [done|]].
    + assert (Hpb : forall b d c0 f, upd_buf i f (put_block b d c0) = put_block b d (upd_buf i f c0)) by done.
      rewrite Hpb. change (bufs (put_block ?b ?d ?x)) with (bufs x). rewrite Hup by done. done.
    + intros b. cbn [andb disk upd_buf put_block as_holder].
      destruct (Z.eqb_spec b (b_blockno (ibuf s i))) as [->|Hne]; [by rewrite decide_True|by rewrite decide_False].
  - eexists. split; [reflexivity|]. split; [|done]. rewrite Hup by done. cbn [set_data b_flags].
    rewrite clean_flags by done. do 2 f_equal. cbn [disk as_holder].
    rewrite S3 by apply Hrq. rewrite Eq, Ed. done.
Qed.

Lemma interrupt_serves s c i q :
  ide_ok s -> same_disk s c -> idequeue s = i :: q ->
  exists s' c', ideintr poll s = Ret tt s' /\ Bio.iderw i (as_holder i c) = Ret tt c' /\ idequeue s' = q /\
    ide_ok s' /\ same_disk s' c' /\ iderw_wait i s' = Ret tt s' /\ iwoken s' = iwoken s ++ [i].
Proof.
  intros Hok Hsd Eq. destruct (intr_done s i q Hok Eq) as (d & D1 & D2 & E).
  destruct (memide_done s c i q Hok Hsd Eq) as (c' & C1 & C2 & C3 & C4).
  pose proof Hok as [H1 H2 H3 H4]. pose proof Hsd as [S1 S2 S3]. rewrite Eq in *. apply NoDup_cons in H1 as [Hni Hnd].
  destruct (H2 i ltac:(left)) as [Hlen Hrq]. set (s1 := done_state s d i q) in *.
  assert (Hq : forall j, j ∈ q -> (j < length (ibufs s1))%nat /\ request (ibuf s1 j)).
  { intros j Hj. assert (i <> j) by (by intros ->). unfold s1. rewrite done_other by done. cbn. rewrite length_insert.
    apply H2. by right. }
  assert (Hdk : forall b, 0 <= b < FSSIZE -> id_disk d ROOTDEV b = disk c' b) by (intros b Hb; by rewrite D1, S3, C4).
  assert (Hw : forall x, iderw_wait i (set_idev x s1) = Ret tt (set_idev x s1)).
  { intros x. unfold iderw_wait. change (ibuf (set_idev x s1) i) with (ibuf s1 i). unfold s1.
    rewrite done_self by done. erewrite done_not_busy; [done|]. unfold done_buf. reflexivity. }
  destruct q as [|j q].
  - exists s1, c'. split; [done|]. split; [done|]. split; [done|]. split; [|split; [|split; [exact (Hw d)|done]]].
    + split; [done|done|done|done].
    + split; [done|done|]. intros b Hb. by apply Hdk.
  - destruct (idestart_run s1 j) as (d' & E' & Ee & Ed & Er); [by apply Hq; left|].
    exists (set_idev d' s1), c'. split; [by rewrite E|]. split; [done|]. split; [done|]. split; [|split; [|split; [exact (Hw d')|done]]].
    + split; [done|done| |cbn [idev set_idev]; by rewrite Ee]. intros j' q' [= <- <-] Hdj. by apply Er.
    + split; [done|done|]. intros b Hb. cbn [idev set_idev]. rewrite Ed. change (idev s1) with d. by rewrite Hdk.
Qed.


(** A failed read is not reported: the buffer keeps its old bytes and is marked
    valid, so [bread] returns them as the contents of the block. *)
Theorem read_error_marks_valid s i :
  idequeue s = [i] -> (i < length (ibufs s))%nat -> dirty (ibuf s i) = false -> id_err (idev s) = true ->
  exists s', ideintr poll s = Ret tt s' /\ b_data (ibuf s' i) = b_data (ibuf s i) /\ has (b_flags (ibuf s' i)) B_VALID = true.
Proof.
  intros Eq Hlen Hd He. unfold ideintr. rewrite bind_gets, Eq, bind_modify, bind_gets.
  change (ibuf (set_queue [] s) i) with (ibuf s i). unfold dirty in Hd. rewrite Hd. cbn [negb]. rewrite bind_bind.
  destruct (id_wait true (idev s)) as (d1 & W & _). rewrite He in W. erewrite bind_port by exact W.
  cbn [andb Z.leb Z.compare]. rewrite bind_mret, !bind_modify, bind_gets. cbn [idequeue].
  eexists. split; [reflexivity|]. unfold ibuf. cbn. rewrite !nth_lookup, list_insert_insert_eq, !list_lookup_insert_eq by (by rewrite ?length_insert).
  cbn. split; [done|]. rewrite done_flags, has_lor. apply orb_true_iff. by right.
Qed.

End refine.

(** ** Witness: a buffer to write, its request active, and one to read *)

Definition demo_data : block := replicate 512 7.
Definition demo_write : buf := Buf B_DIRTY ROOTDEV 40 (Some 3) 1 demo_data.
Definition demo_read : buf := Buf 0 ROOTDEV 41 (Some 5) 1 (replicate 512 0).
Definition demo_ports : ports :=
  Ports (fun _ => 0) (fun r b => if decide (r = ROOTDEV /\ b = 40) then demo_data else replicate 512 1) None false.
Definition demo_ide : ide ports := Ide demo_ports [0%nat] true [demo_write; demo_read] 5 [].
Definition demo_cache : bcache := Bcache [demo_write; demo_read] [] (fun _ => replicate 512 1) FSSIZE [] 5.

Lemma demo_ide_ok : ide_ok 1 demo_ide.
Proof.
  split.
  - apply NoDup_singleton.
  - intros i ->%list_elem_of_singleton. split; [cbn; lia|]. by split.
  - intros i q [= <- <-]. done.
  - done.
Qed.

Lemma demo_same_disk : same_disk 1 demo_ide demo_cache.
Proof.
  split; [done|done|]. intros b Hb. cbn [idequeue demo_ide]. change (ibuf demo_ide 0) with demo_write.
  change (dirty demo_write) with true. change (b_blockno demo_write) with 40.
  change (id_disk (idev demo_ide) ROOTDEV b) with (pt_disk demo_ports ROOTDEV b). cbn [pt_disk demo_ports andb].
  destruct (Z.eqb_spec b 40) as [->|Hne]; [by rewrite decide_True|]. rewrite decide_False; [done|naive_solver].
Qed.

Lemma demo_accepts : accepts demo_ide 1%nat.
Proof. split; [cbn; lia|]. split; [by split|]. split; [done|]. split; [|done]. by intros ?%list_elem_of_singleton. Qed.


Definition demo_bad : ide ports :=
  Ide (Ports (fun _ => 0) (fun _ _ => demo_data) (Some (ROOTDEV, 41)) true) [0%nat] true [demo_read] 5 [].

Lemma read_error_marks_valid_witness :
  exists s', ideintr 1 demo_bad = Ret tt s' /\ b_data (ibuf s' 0) = replicate 512 0 /\ has (b_flags (ibuf s' 0)) B_VALID = true.
Proof.
  destruct (read_error_marks_valid 1 demo_bad 0 eq_refl ltac:(cbn; lia) eq_refl eq_refl) as (s' & E & Ed & Ef).
  exists s'. split; [exact E|]. split; [exact Ed|exact Ef].
Defined.
