(* ===== verification/Protect.v ===== *)
(** Protection: the segment, task and gate descriptors the kernel builds
    (mmu.h; seginit and switchuvm of vm.c; tvinit of trap.c).

    A descriptor is a C bit-field structure; [seg_word] and [gate_word] lay it
    out in the 64 bits the processor reads.  The processor's side, decoding a
    descriptor and delivering an interrupt, is taken from the processor manual
    and is written on those 64 bits.  The theorem says how a user program can
    enter the kernel: through the system call gate and nowhere else. *)

From S2P Require Import Prelude Kalloc Spinlock Proc.

(** ** Bit fields *)

(** Fields of the given widths, lowest first. *)
Fixpoint pack (l : list (Z * Z)) : Z :=
  match l with
  | [] => 0
  | (w, v) :: l => v mod 2 ^ w + 2 ^ w * pack l
  end.

Definition field (d pos w : Z) : Z := (d / 2 ^ pos) mod 2 ^ w.

Definition total (l : list (Z * Z)) : Z := foldr (fun x n => fst x + n) 0 l.

(** ** Descriptors (mmu.h) *)

Record segdesc := Segdesc {
  lim_15_0 : Z; base_15_0 : Z; base_23_16 : Z; sd_type : Z; sd_s : Z; sd_dpl : Z; sd_p : Z;
  lim_19_16 : Z; sd_avl : Z; sd_rsv1 : Z; sd_db : Z; sd_g : Z; base_31_24 : Z }.

Definition seg_word (d : segdesc) : Z :=
  pack [(16, lim_15_0 d); (16, base_15_0 d); (8, base_23_16 d); (4, sd_type d); (1, sd_s d); (2, sd_dpl d); (1, sd_p d);
        (4, lim_19_16 d); (1, sd_avl d); (1, sd_rsv1 d); (1, sd_db d); (1, sd_g d); (8, base_31_24 d)].

Definition SEG (type base lim dpl : Z) : segdesc :=
  Segdesc (Z.land (Z.shiftr lim 12) 0xffff) (Z.land (u32 base) 0xffff)
    (Z.land (Z.shiftr (u32 base) 16) 0xff) type 1 dpl 1
    (Z.shiftr (u32 lim) 28) 0 0 1 1 (Z.shiftr (u32 base) 24).

Definition SEG16 (type base lim dpl : Z) : segdesc :=
  Segdesc (Z.land lim 0xffff) (Z.land (u32 base) 0xffff)
    (Z.land (Z.shiftr (u32 base) 16) 0xff) type 1 dpl 1
    (Z.shiftr (u32 lim) 16) 0 0 1 0 (Z.shiftr (u32 base) 24).

Definition set_s (v : Z) (d : segdesc) : segdesc :=
  Segdesc (lim_15_0 d) (base_15_0 d) (base_23_16 d) (sd_type d) v (sd_dpl d) (sd_p d)
    (lim_19_16 d) (sd_avl d) (sd_rsv1 d) (sd_db d) (sd_g d) (base_31_24 d).

Definition STA_X : Z := 0x8.
Definition STA_W : Z := 0x2.
Definition STA_R : Z := 0x2.
Definition STS_T32A : Z := 0x9.
Definition STS_IG32 : Z := 0xE.
Definition STS_TG32 : Z := 0xF.

Definition SEG_KCODE : nat := 1.
Definition SEG_KDATA : nat := 2.
Definition SEG_TSS : nat := 5.
Definition NSEGS : nat := 6.

Record gatedesc := Gatedesc {
  off_15_0 : Z; g_cs : Z; g_args : Z; g_rsv1 : Z; g_type : Z; g_s : Z; g_dpl : Z; g_p : Z; off_31_16 : Z }.

Definition gate_word (g : gatedesc) : Z :=
  pack [(16, off_15_0 g); (16, g_cs g); (5, g_args g); (3, g_rsv1 g); (4, g_type g); (1, g_s g); (2, g_dpl g); (1, g_p g);
        (16, off_31_16 g)].

Definition SETGATE (istrap : bool) (sel off d : Z) : gatedesc :=
  Gatedesc (Z.land (u32 off) 0xffff) sel 0 0 (if istrap then STS_TG32 else STS_IG32) 0 d 1 (Z.shiftr (u32 off) 16).

(** ** The processors *)

(** The fields of the task state segment the kernel writes. *)
Record taskstate := Taskstate { esp0 : Z; ss0 : Z; iomb : Z }.

(** Of [sizeof(struct taskstate)]. *)
Definition sizeof_taskstate : Z := 104.

(** One processor: [gdt] and [ts] of its [struct cpu], the address of [ts], and
    the task and page-table registers. *)
Record mmu := Mmu { gdt : list segdesc; ts : taskstate; ts_addr : Z; tr : Z; cr3 : Z }.

Definition set_gdt (i : nat) (d : segdesc) (m : mmu) : mmu :=
  Mmu (<[i := d]> (gdt m)) (ts m) (ts_addr m) (tr m) (cr3 m).
Definition set_ts (f : taskstate -> taskstate) (m : mmu) : mmu :=
  Mmu (gdt m) (f (ts m)) (ts_addr m) (tr m) (cr3 m).

(** The instruction marks the descriptor busy. *)
Definition mark_busy (d : segdesc) : segdesc :=
  Segdesc (lim_15_0 d) (base_15_0 d) (base_23_16 d) (Z.lor (sd_type d) 2) (sd_s d) (sd_dpl d) (sd_p d)
    (lim_19_16 d) (sd_avl d) (sd_rsv1 d) (sd_db d) (sd_g d) (base_31_24 d).
Definition ltr (v : Z) (m : mmu) : mmu :=
  Mmu (alter mark_busy (Z.to_nat (v / 8)) (gdt m)) (ts m) (ts_addr m) v (cr3 m).
Definition load_cr3 (v : Z) (m : mmu) : mmu := Mmu (gdt m) (ts m) (ts_addr m) (tr m) v.

Record machine := Machine { m_lks : locking; m_cpus : list mmu; idt : list gatedesc }.

Definition mlk {A} (m : kern locking A) : kern machine A :=
  zoom m_lks (fun l s => Machine l (m_cpus s) (idt s)) m.
Definition on_mmu (c : nat) (f : mmu -> mmu) : kern machine unit :=
  modify (fun s => Machine (m_lks s) (alter f c (m_cpus s)) (idt s)).

#[global] Instance mmu_inhabited : Inhabited mmu := populate (Mmu [] (Taskstate 0 0 0) 0 0 0).

Section on_cpu.
Context (c : nat).

Definition seginit : kern machine unit :=
  on_mmu c (set_gdt SEG_KCODE (SEG (Z.lor STA_X STA_R) 0 0xffffffff 0)) ;;
  on_mmu c (set_gdt SEG_KDATA (SEG STA_W 0 0xffffffff 0)) ;;
  on_mmu c (set_gdt (Z.to_nat SEG_UCODE) (SEG (Z.lor STA_X STA_R) 0 0xffffffff DPL_USER)) ;;
  on_mmu c (set_gdt (Z.to_nat SEG_UDATA) (SEG STA_W 0 0xffffffff DPL_USER)).

(** [p] is null or the process. *)
Definition switchuvm (p : option pcb) : kern machine unit :=
  match p with
  | None => panic "switchuvm: no process"
  | Some p =>
      if kstack p =? 0 then panic "switchuvm: no kstack"
      else if pgdir p =? 0 then panic "switchuvm: no pgdir"
      else
        mlk (pushcli c) ;;
        mlk (mycpu c) ;;
        on_mmu c (fun m => set_gdt SEG_TSS (SEG16 STS_T32A (ts_addr m) (sizeof_taskstate - 1) 0) m) ;;
        mlk (mycpu c) ;;
        on_mmu c (fun m => set_gdt SEG_TSS (set_s 0 (nth SEG_TSS (gdt m) (SEG 0 0 0 0))) m) ;;
        mlk (mycpu c) ;;
        on_mmu c (set_ts (fun t => Taskstate (esp0 t) (Z.shiftl (Z.of_nat SEG_KDATA) 3) (iomb t))) ;;
        mlk (mycpu c) ;;
        on_mmu c (set_ts (fun t => Taskstate (u32 (kstack p + KSTACKSIZE)) (ss0 t) (iomb t))) ;;
        mlk (mycpu c) ;;
        on_mmu c (set_ts (fun t => Taskstate (esp0 t) (ss0 t) 0xFFFF)) ;;
        on_mmu c (ltr (Z.shiftl (Z.of_nat SEG_TSS) 3)) ;;
        on_mmu c (load_cr3 (V2P (pgdir p))) ;;
        mlk (popcli c)
  end.

End on_cpu.

(** ** The interrupt table (trap.c) *)

Definition T_SYSCALL : nat := 64.

(** The lock of the clock. *)
Definition tickslock : Z := 2.

Section tvinit.
Context (vectors : list Z).

Definition set_idt (i : nat) (g : gatedesc) : kern machine unit :=
  modify (fun s => Machine (m_lks s) (m_cpus s) (<[i := g]> (idt s))).

(** [for(i = 0; i < 256; i++)], for the [i] in [is]. *)
Fixpoint tvinit_loop (is_ : list nat) : kern machine unit :=
  match is_ with
  | [] => mret tt
  | i :: is_ =>
      set_idt i (SETGATE false (Z.shiftl (Z.of_nat SEG_KCODE) 3) (nth i vectors 0) 0) ;;
      tvinit_loop is_
  end.

Definition tvinit : kern machine unit :=
  tvinit_loop (seq 0 256) ;;
  set_idt T_SYSCALL (SETGATE true (Z.shiftl (Z.of_nat SEG_KCODE) 3) (nth T_SYSCALL vectors 0) DPL_USER) ;;
  mlk (initlock tickslock).

End tvinit.

(** ** The processor

    Base, limit and attributes of a segment, delivery of an interrupt or of an
    [int n] instruction, and the check of an I/O instruction, as the processor
    manual describes them. *)

Definition hw_base (w : Z) : Z := field w 16 24 + 2 ^ 24 * field w 56 8.
Definition hw_limit (w : Z) : Z :=
  let l := field w 0 16 + 2 ^ 16 * field w 48 4 in
  if field w 55 1 =? 1 then 2 ^ 12 * l + 0xfff else l.
Definition hw_dpl (w : Z) : Z := field w 45 2.
Definition hw_present (w : Z) : bool := field w 47 1 =? 1.
Definition hw_code (w : Z) : bool := (field w 44 1 =? 1) && (field w 43 1 =? 1).
Definition hw_conforming (w : Z) : bool := field w 42 1 =? 1.
Definition hw_writable (w : Z) : bool := (field w 44 1 =? 1) && (field w 43 1 =? 0) && (field w 41 1 =? 1).
Definition hw_tss (w : Z) : bool := field w 40 5 =? 0xb.

(** The descriptor a selector names. *)
Definition descriptor (m : mmu) (sel : Z) : option Z :=
  if sel / 8 =? 0 then None else seg_word <$> gdt m !! Z.to_nat (sel / 8).

(** The task state segment the task register points to. *)
Definition task (m : mmu) : option (Z * taskstate) :=
  w ← descriptor m (tr m);
  if hw_tss w && hw_present w && (hw_base w =? ts_addr m) then Some (w, ts m) else None.

(** The stack for privilege level 0. *)
Definition inner_stack (m : mmu) : option (Z * Z) :=
  '(_, t) ← task m;
  w ← descriptor m (ss0 t);
  if hw_writable w && hw_present w && (hw_dpl w =? 0) then Some (ss0 t, esp0 t) else None.

(** Entering a handler: the new privilege level, address, stack if it changes,
    and interrupt flag; or an exception. *)
Inductive delivery := Enter (cpl eip : Z) (stack : option (Z * Z)) (iflag : bool) | Exception (n : Z).

Definition deliver (m : mmu) (tbl : list gatedesc) (cpl : Z) (iflag soft : bool) (n : nat) : delivery :=
  match gate_word <$> tbl !! n with
  | None => Exception 13
  | Some g =>
      if negb ((field g 40 5 =? STS_IG32) || (field g 40 5 =? STS_TG32)) then Exception 13
      else if soft && (hw_dpl g <? cpl) then Exception 13
      else if negb (hw_present g) then Exception 11
      else
        match descriptor m (field g 16 16) with
        | None => Exception 13
        | Some s =>
            if negb (hw_code s) || (cpl <? hw_dpl s) then Exception 13
            else if negb (hw_present s) then Exception 11
            else
              let cpl' := if hw_conforming s then cpl else hw_dpl s in
              let eip := field g 0 16 + 2 ^ 16 * field g 48 16 in
              let iflag' := if field g 40 5 =? STS_IG32 then false else iflag in
              if cpl' <? cpl then
                match inner_stack m with
                | Some st => Enter cpl' eip (Some st) iflag'
                | None => Exception 10
                end
              else Enter cpl' eip None iflag'
        end
  end.

(** [bitmap] is the memory an I/O permission map would be read from. *)
Definition io_allowed (m : mmu) (cpl iopl : Z) (bitmap : Z -> bool) (port : Z) : bool :=
  if cpl <=? iopl then true
  else match task m with
       | Some (w, t) => (iomb t + port / 8 + 1 <=? hw_limit w) && bitmap (iomb t + port / 8)
       | None => false
       end.

(** ** Fields are read back *)

Fixpoint at_pos (l : list (Z * Z)) (pos : Z) : option (Z * Z) :=
  match l with
  | [] => None
  | (w, v) :: l => if pos =? 0 then Some (w, v) else at_pos l (pos - w)
  end.

Lemma field_skip l w v pos u :
  0 <= w -> w <= pos -> field (v mod 2 ^ w + 2 ^ w * l) pos u = field l (pos - w) u.
Proof.
  intros Hw Hp. unfold field. replace pos with (w + (pos - w)) at 1 by lia. rewrite Z.pow_add_r by lia.
  rewrite <- Z.div_div by lia. rewrite (Z.mul_comm (2 ^ w) l), Z.div_add by lia.
  by rewrite (Z.div_small (v mod _)) by (apply Z.mod_pos_bound; lia).
Qed.

(** A field holds what was stored, cut to its width. *)
Lemma field_at l pos w v :
  forallb (fun x => 0 <? fst x) l = true -> 0 <= pos -> at_pos l pos = Some (w, v) -> field (pack l) pos w = v mod 2 ^ w.
Proof.
  revert pos. induction l as [|[w' v'] l IH]; intros pos Hl Hp E; cbn [at_pos pack forallb fst] in *; [done|].
  apply andb_true_iff in Hl as [Hw Hl]. apply Z.ltb_lt in Hw. destruct (Z.eqb_spec pos 0) as [->|Hne].
  - injection E as -> ->. unfold field. rewrite Z.pow_0_r, Z.div_1_r, Z.mul_comm, Z.mod_add by lia. by apply Z.mod_mod; lia.
  - assert (Hle : w' <= pos).
    { destruct (Z.le_gt_cases w' pos) as [|Hlt]; [done|]. exfalso. clear IH.
      assert (Hn : forall m q, q < 0 -> forallb (fun x : Z * Z => 0 <? fst x) m = true -> at_pos m q = None).
      { clear. induction m as [|[a b] m IH]; intros q Hq Hm; cbn in *; [done|]. apply andb_true_iff in Hm as [Ha Hm].
        apply Z.ltb_lt in Ha. rewrite (proj2 (Z.eqb_neq q 0)) by lia. apply IH; [lia|done]. }
      rewrite Hn in E by (done || lia). done. }
    rewrite field_skip by lia. apply IH; [done|lia|done].
Qed.

(** Adjacent fields. *)
Lemma field_add d pos a b : 0 <= pos -> 0 <= a -> 0 <= b -> field d pos (a + b) = field d pos a + 2 ^ a * field d (pos + a) b.
Proof.
  intros Hp Ha Hb. unfold field. rewrite !Z.pow_add_r by lia. rewrite <- Z.div_div by lia.
  generalize (d / 2 ^ pos). intros x. rewrite Z.rem_mul_r by lia. done.
Qed.

(** Read the fields of packed descriptors in the goal. *)
Ltac fields :=
  rewrite ?(field_add _ 16 16 8), ?(field_add _ 40 4 1) by lia; cbn [Z.add Pos.add Pos.succ];
  repeat match goal with
  | |- context [field (pack ?l) ?p ?w] =>
      erewrite (field_at l p w) by (done || reflexivity || lia)
  end.

(** The 32-bit address split over two or three fields. *)
Lemma split16 v : is_u32 v -> Z.land (u32 v) 0xffff mod 2 ^ 16 + 2 ^ 16 * (Z.shiftr (u32 v) 16 mod 2 ^ 16) = v.
Proof.
  intros H. rewrite u32_id by done. unfold is_u32 in H. change 0xffff with (Z.ones 16). rewrite Z.land_ones, Z.shiftr_div_pow2 by lia.
  rewrite Z.mod_mod by lia. rewrite (Z.mod_small (v / 2 ^ 16)); [|split; [apply Z.div_pos; lia|apply Z.div_lt_upper_bound; lia]].
  rewrite Z.add_comm. symmetry. apply Z.div_mod. lia.
Qed.

Lemma split24 v : is_u32 v ->
  Z.land (u32 v) 0xffff mod 2 ^ 16 + 2 ^ 16 * (Z.land (Z.shiftr (u32 v) 16) 0xff mod 2 ^ 8) + 2 ^ 24 * (Z.shiftr (u32 v) 24 mod 2 ^ 8) = v.
Proof.
  intros H. rewrite <- (split16 v H) at 4. rewrite u32_id by done. unfold is_u32 in H. rewrite <- Z.add_assoc. f_equal.
  change 0xff with (Z.ones 8). rewrite Z.land_ones, !Z.shiftr_div_pow2 by lia. rewrite Z.mod_mod by lia.
  replace (v / 2 ^ 24) with (v / 2 ^ 16 / 2 ^ 8) by (rewrite Z.div_div by lia; f_equal; lia).
  change (2 ^ 24) with (2 ^ 16 * 2 ^ 8). rewrite <- Z.mul_assoc, <- Z.mul_add_distr_l. f_equal.
  change (2 ^ 16) with (2 ^ 8 * 2 ^ 8) at 4. rewrite <- Z.rem_mul_r by lia. done.
Qed.

(** ** Runs of the machine *)

Section entry.
Context (vectors : list Z).

(** The initialisation of every processor and of the interrupt table. *)
Fixpoint boot (cs : list nat) : kern machine unit :=
  match cs with
  | [] => tvinit vectors
  | c :: cs => seginit c ;; boot cs
  end.

(** Before: tables of their sizes, with anything in them. *)
Record blank (s : machine) : Prop := {
  bk_cpus : length (cpus (m_lks s)) = length (m_cpus s);
  bk_gdt : forall c m, m_cpus s !! c = Some m -> length (gdt m) = NSEGS /\ is_u32 (ts_addr m);
  bk_idt : length (idt s) = 256%nat }.

(** After [boot], processors switch to processes; the rest of the kernel does
    not touch descriptors. *)
Inductive running : machine -> Prop :=
| run_boot s s' : blank s -> boot (seq 0 (length (m_cpus s))) s = Ret tt s' -> running s'
| run_switch c p s s' :
    running s -> (c < length (m_cpus s))%nat -> 0 <= ncli (cpuat c (m_lks s)) -> switchuvm c p s = Ret tt s' -> running s'
| run_rest l s : running s -> length (cpus l) = length (m_cpus s) -> running (Machine l (m_cpus s) (idt s)).

Definition kcode : segdesc := SEG (Z.lor STA_X STA_R) 0 0xffffffff 0.
Definition kdata : segdesc := SEG STA_W 0 0xffffffff 0.
Definition ucode : segdesc := SEG (Z.lor STA_X STA_R) 0 0xffffffff DPL_USER.
Definition udata : segdesc := SEG STA_W 0 0xffffffff DPL_USER.

Definition gate (n : nat) : gatedesc :=
  if decide (n = T_SYSCALL) then SETGATE true 8 (nth n vectors 0) DPL_USER else SETGATE false 8 (nth n vectors 0) 0.

Definition segs_ok (m : mmu) : Prop :=
  length (gdt m) = NSEGS /\ is_u32 (ts_addr m) /\
  gdt m !! 1%nat = Some kcode /\ gdt m !! 2%nat = Some kdata /\ gdt m !! 3%nat = Some ucode /\ gdt m !! 4%nat = Some udata.

Record booted (s : machine) : Prop := {
  bt_cpus : length (cpus (m_lks s)) = length (m_cpus s);
  bt_segs : forall c m, m_cpus s !! c = Some m -> segs_ok m;
  bt_gates : forall n, (n < 256)%nat -> idt s !! n = Some (gate n) }.

Lemma bind_mlk {A B} (m : kern locking A) (k : A -> kern machine B) s a l :
  m (m_lks s) = Ret a l -> (mlk m ≫= k) s = k a (Machine l (m_cpus s) (idt s)).
Proof. intros E. unfold mlk, zoom, mbind, kern_bind. by rewrite E. Qed.

Lemma bind_mmu {B} c f (k : unit -> kern machine B) s :
  (on_mmu c f ≫= k) s = k tt (Machine (m_lks s) (alter f c (m_cpus s)) (idt s)).
Proof. done. Qed.

(** *** Initialisation *)

Lemma alter_twice {A} (f g : A -> A) i (l : list A) : alter f i (alter g i l) = alter (fun x => f (g x)) i l.
Proof. revert i. induction l as [|x l IH]; intros [|i]; cbn; [done|done|done|]. f_equal. apply IH. Qed.

Lemma seginit_run c s : seginit c s =
  Ret tt (Machine (m_lks s)
    (alter (fun m => set_gdt 4 udata (set_gdt 3 ucode (set_gdt 2 kdata (set_gdt 1 kcode m)))) c (m_cpus s)) (idt s)).
Proof. unfold seginit. rewrite !bind_mmu. cbn. unfold on_mmu, modify. cbn. by rewrite !alter_twice. Qed.

Lemma seg_all (m : mmu) : length (gdt m) = NSEGS -> is_u32 (ts_addr m) ->
  segs_ok (set_gdt 4 udata (set_gdt 3 ucode (set_gdt 2 kdata (set_gdt 1 kcode m)))).
Proof.
  intros Hl Hu. destruct m as [g t a r q]. cbn in *.
  destruct g as [|g0 [|g1 [|g2 [|g3 [|g4 [|g5 [|]]]]]]]; try done.
Qed.

Lemma boot_segs cs : forall s, exists l, boot cs s = tvinit vectors (Machine (m_lks s) l (idt s)) /\
  length l = length (m_cpus s) /\
  forall c m, m_cpus s !! c = Some m -> length (gdt m) = NSEGS -> is_u32 (ts_addr m) ->
    exists m', l !! c = Some m' /\ length (gdt m') = NSEGS /\ ts_addr m' = ts_addr m /\ (c ∈ cs \/ segs_ok m -> segs_ok m').
Proof.
  induction cs as [|c cs IH]; intros s; cbn [boot].
  - exists (m_cpus s). split; [by destruct s|]. split; [done|]. intros c m Hm Hl Hu. exists m. split_and!; try done.
    intros [Hin|]; [|done]. by apply elem_of_nil in Hin.
  - erewrite bind_Ret by apply seginit_run. edestruct IH as (l & -> & Hlen & Hl). cbn [m_lks m_cpus idt] in *. exists l.
    split; [done|]. split; [by rewrite Hlen, length_alter|]. intros d m Hm Hg Hu. destruct (decide (d = c)) as [->|Hne].
    + destruct (Hl c _ ltac:(rewrite list_lookup_alter_eq, Hm; reflexivity)) as (m' & Hm' & ? & ? & Hok);
        [by cbn; rewrite !length_insert|done|]. exists m'. split_and!; [done|done|done|]. intros _. apply Hok. right. by apply seg_all.
    + destruct (Hl d m ltac:(by rewrite list_lookup_alter_ne)) as (m' & Hm' & ? & ? & Hok); [done|done|].
      exists m'. split_and!; [done|done|done|]. intros [Hin|]; apply Hok; [|by right]. left.
      by apply elem_of_cons in Hin as [->|].
Qed.

Lemma tvinit_loop_run is_ : forall s, exists t, tvinit_loop vectors is_ s = Ret tt (Machine (m_lks s) (m_cpus s) t) /\
  length t = length (idt s) /\
  forall n, (n < length (idt s))%nat ->
    t !! n = if decide (n ∈ is_) then Some (SETGATE false 8 (nth n vectors 0) 0) else idt s !! n.
Proof.
  induction is_ as [|i is_ IH]; intros s; cbn [tvinit_loop].
  - exists (idt s). split; [by destruct s|]. done.
  - unfold set_idt. rewrite bind_modify. edestruct IH as (t & -> & Hlen & Ht). cbn [m_lks m_cpus idt] in *. exists t.
    rewrite length_insert in *. split; [done|]. split; [done|]. intros n Hn. rewrite (Ht n Hn).
    destruct (decide (n ∈ is_)) as [Hin|Hin].
    + rewrite decide_True; [done|]. by right.
    + destruct (decide (n = i)) as [->|Hne].
      * rewrite list_lookup_insert_eq by done. by rewrite decide_True by left.
      * rewrite list_lookup_insert_ne by done. rewrite decide_False; [done|]. by rewrite elem_of_cons; intros [->|].
Qed.

Lemma tvinit_run s : length (idt s) = 256%nat ->
  exists l t, tvinit vectors s = Ret tt (Machine l (m_cpus s) t) /\ cpus l = cpus (m_lks s) /\
    forall n, (n < 256)%nat -> t !! n = Some (gate n).
Proof.
  intros Hlen. unfold tvinit. destruct (tvinit_loop_run (seq 0 256) s) as (t & E & Hl & Ht).
  rewrite (bind_Ret _ _ _ _ _ E). 
  exists (Locking (cpus (m_lks s)) (fun a => if a =? tickslock then Spin false None else locks (m_lks s) a)),
    (<[T_SYSCALL := SETGATE true 8 (nth T_SYSCALL vectors 0) DPL_USER]> t). split; [done|]. split; [done|].
  intros n Hn. unfold gate. destruct (decide (n = T_SYSCALL)) as [->|Hne].
  - apply list_lookup_insert_eq. rewrite Hl, Hlen. unfold T_SYSCALL. lia.
  - rewrite list_lookup_insert_ne by done. rewrite Ht by lia. rewrite decide_True; [done|]. apply elem_of_seq. lia.
Qed.

Lemma boot_booted s s' : blank s -> boot (seq 0 (length (m_cpus s))) s = Ret tt s' -> booted s'.
Proof.
  intros [Hc Hg Hi] E. destruct (boot_segs (seq 0 (length (m_cpus s))) s) as (l & E' & Hlen & Hl). rewrite E' in E.
  destruct (tvinit_run (Machine (m_lks s) l (idt s)) Hi) as (k & t & E2 & Hk & Ht). rewrite E in E2.
  injection E2 as ->. split; cbn [m_lks m_cpus idt] in *; [by rewrite Hk, Hlen| |done].
  intros c m Hm. pose proof (lookup_lt_Some _ _ _ Hm) as Hlt. rewrite Hlen in Hlt.
  destruct (lookup_lt_is_Some_2 _ _ Hlt) as [m0 Hm0]. destruct (Hg c m0 Hm0).
  destruct (Hl c m0 Hm0) as (m' & Hm' & _ & _ & Hok); [done|done|]. rewrite Hm in Hm'. injection Hm' as ->.
  apply Hok. left. apply elem_of_seq. lia.
Qed.

(** *** Switching to a process *)

(** What [switchuvm] makes of the processor. *)
Definition tss_desc (a : Z) : segdesc := mark_busy (set_s 0 (SEG16 STS_T32A a (sizeof_taskstate - 1) 0)).
Definition switched (p : pcb) (m : mmu) : mmu :=
  Mmu (<[SEG_TSS := tss_desc (ts_addr m)]> (gdt m)) (Taskstate (u32 (kstack p + KSTACKSIZE)) 16 0xFFFF) (ts_addr m) 40
    (V2P (pgdir p)).

Lemma bind_mycpu {B} c (k : cpu -> kern machine B) s :
  eflags_IF (cpuat c (m_lks s)) = false -> (mlk (mycpu c) ≫= k) s = k (cpuat c (m_lks s)) s.
Proof.
  intros E. rewrite (bind_mlk _ _ s (cpuat c (m_lks s)) (m_lks s)); [by destruct s|]. unfold mycpu, readeflags. rewrite bind_gets, E. done.
Qed.

Lemma switch_mmu p m : length (gdt m) = NSEGS ->
  load_cr3 (V2P (pgdir p)) (ltr (Z.shiftl (Z.of_nat SEG_TSS) 3)
    (set_ts (fun t => Taskstate (esp0 t) (ss0 t) 0xFFFF)
    (set_ts (fun t => Taskstate (u32 (kstack p + KSTACKSIZE)) (ss0 t) (iomb t))
    (set_ts (fun t => Taskstate (esp0 t) (Z.shiftl (Z.of_nat SEG_KDATA) 3) (iomb t))
    (let m := set_gdt SEG_TSS (SEG16 STS_T32A (ts_addr m) (sizeof_taskstate - 1) 0) m in
     set_gdt SEG_TSS (set_s 0 (nth SEG_TSS (gdt m) (SEG 0 0 0 0))) m))))) = switched p m.
Proof.
  intros Hl. destruct m as [g t a r q]. cbn [gdt] in Hl. destruct g as [|g0 [|g1 [|g2 [|g3 [|g4 [|g5 [|]]]]]]]; done.
Qed.

Lemma switchuvm_run c p s :
  booted s -> (c < length (m_cpus s))%nat -> 0 <= ncli (cpuat c (m_lks s)) -> kstack p <> 0 -> pgdir p <> 0 ->
  exists l, switchuvm c (Some p) s = Ret tt (Machine l (alter (switched p) c (m_cpus s)) (idt s)) /\
    length (cpus l) = length (m_cpus s).
Proof.
  intros [Hc Hs _] Hlt Hn Hk Hp. unfold switchuvm. rewrite (proj2 (Z.eqb_neq _ _) Hk), (proj2 (Z.eqb_neq _ _) Hp).
  assert (Hcl : (c < length (cpus (m_lks s)))%nat) by lia.
  erewrite bind_mlk by (apply pushcli_run; done). set (l := with_cpu c (pushed (cpuat c (m_lks s))) (m_lks s)).
  assert (El : cpuat c l = pushed (cpuat c (m_lks s))) by (by apply cpuat_with).
  assert (Hif : eflags_IF (cpuat c l) = false) by (by rewrite El).
  do 5 (rewrite bind_mycpu by done; rewrite bind_mmu; cbn [m_lks m_cpus idt]). rewrite !bind_mmu; cbn [m_lks m_cpus idt].
  exists (with_cpu c (popped (cpuat c l)) l). split; [|by unfold l; rewrite !length_with].
  unfold mlk, zoom. cbn [m_lks m_cpus idt]. rewrite popcli_run; [|by unfold l; rewrite length_with|done|].
  - do 2 f_equal. rewrite !alter_twice. destruct (lookup_lt_is_Some_2 _ _ Hlt) as [m Hm].
    apply list_alter_ext; [|done]. intros m' Hm'. apply switch_mmu. by apply (Hs c m').
  - rewrite El. cbn. lia.
Qed.

Lemma switch_booted c p s l :
  booted s -> length (cpus l) = length (m_cpus s) -> booted (Machine l (alter (switched p) c (m_cpus s)) (idt s)).
Proof.
  intros [Hc Hs Hg] Hl. split; cbn [m_lks m_cpus idt]; [by rewrite length_alter| |done]. intros d m Hm.
  destruct (decide (d = c)) as [->|Hne]; [|rewrite list_lookup_alter_ne in Hm by done; by apply (Hs d)].
  rewrite list_lookup_alter_eq in Hm. destruct (m_cpus s !! c) as [m0|] eqn:E; [|done]. injection Hm as <-.
  destruct (Hs c m0 E) as (H1&H2&H3&H4&H5&H6). unfold segs_ok, switched. cbn [gdt ts_addr]. rewrite length_insert.
  by rewrite !list_lookup_insert_ne by done.
Qed.

Lemma running_booted s : running s -> booted s.
Proof.
  induction 1 as [s s' Hb E|c [p|] s s' _ IH Hlt Hn E|l s _ IH Hl]; [by eapply boot_booted| |done|].
  - assert (kstack p <> 0 /\ pgdir p <> 0) as [Hk Hp].
    { unfold switchuvm in E. destruct (Z.eqb_spec (kstack p) 0); [done|]. by destruct (Z.eqb_spec (pgdir p) 0). }
    destruct (switchuvm_run c p s IH Hlt Hn Hk Hp) as (l & E' & Hl). rewrite E in E'. injection E' as ->. by apply switch_booted.
  - by destruct IH.
Qed.

(** *** What the processor sees *)

Lemma tss_fields a : is_u32 a ->
  let w := seg_word (tss_desc a) in hw_base w = a /\ hw_limit w = 103 /\ hw_tss w = true /\ hw_present w = true.
Proof.
  intros Ha. cbv zeta. unfold hw_base, hw_limit, hw_tss, hw_present, seg_word. fields. cbn [lim_15_0 base_15_0 base_23_16 sd_type
    sd_s sd_p lim_19_16 sd_g base_31_24 tss_desc mark_busy set_s SEG16]. split; [by apply split24|]. by vm_compute.
Qed.

Lemma gate_fields t v d : is_u32 v -> 0 <= d < 4 ->
  let w := gate_word (SETGATE t 8 v d) in
  field w 0 16 + 2 ^ 16 * field w 48 16 = v /\ field w 16 16 = 8 /\ field w 40 5 = (if t then STS_TG32 else STS_IG32) /\
  hw_dpl w = d /\ hw_present w = true.
Proof.
  intros Hv Hd. cbv zeta. unfold hw_dpl, hw_present, gate_word. fields.
  cbn [off_15_0 g_cs g_type g_s g_dpl g_p off_31_16 SETGATE]. split; [by apply split16|]. split; [done|].
  split; [by destruct t|]. split; [by apply Z.mod_small|done].
Qed.

Lemma kcode_descriptor m : segs_ok m -> descriptor m 8 = Some (seg_word kcode).
Proof. intros (_&_&H&_). unfold descriptor. cbn. change (Z.to_nat (8 / 8)) with 1%nat. by rewrite H. Qed.

Lemma kdata_descriptor m : segs_ok m -> descriptor m 16 = Some (seg_word kdata).
Proof. intros (_&_&_&H&_). unfold descriptor. cbn. change (Z.to_nat (16 / 8)) with 2%nat. by rewrite H. Qed.

Lemma task_switched p m : segs_ok m -> task (switched p m) = Some (seg_word (tss_desc (ts_addr m)), ts (switched p m)).
Proof.
  intros (Hl&Hu&_). unfold task, descriptor. cbn [tr switched gdt ts_addr]. change (40 / 8 =? 0) with false.
  change (Z.to_nat (40 / 8)) with SEG_TSS. cbn iota. rewrite list_lookup_insert_eq by (by rewrite Hl; unfold SEG_TSS, NSEGS; lia).
  cbn [fmap option_fmap option_map mbind option_bind]. destruct (tss_fields _ Hu) as (E1&_&->&->). cbn [andb]. by rewrite E1, Z.eqb_refl.
Qed.

Lemma stack_switched p m : segs_ok m -> segs_ok (switched p m) -> is_u32 (kstack p + KSTACKSIZE) ->
  inner_stack (switched p m) = Some (16, kstack p + KSTACKSIZE).
Proof.
  intros Hm Hs Hk. unfold inner_stack. rewrite task_switched by done. cbn [mbind option_bind switched ts ss0 esp0].
  change (descriptor _ 16) with (descriptor (switched p m) 16). rewrite kdata_descriptor by done. cbn [mbind option_bind].
  rewrite u32_id by done. by vm_compute (hw_writable (seg_word kdata) && _).
Qed.

Lemma deliver_gate m tbl cpl iflag soft n t v d :
  segs_ok m -> tbl !! n = Some (SETGATE t 8 v d) -> is_u32 v -> 0 <= d < 4 -> 0 <= cpl ->
  deliver m tbl cpl iflag soft n =
    if soft && (d <? cpl) then Exception 13
    else if 0 <? cpl then match inner_stack m with Some st => Enter 0 v (Some st) (t && iflag) | None => Exception 10 end
    else Enter 0 v None (t && iflag).
Proof.
  intros Hm Hn Hv Hd Hc. unfold deliver. rewrite Hn. cbn [fmap option_fmap option_map].
  destruct (gate_fields t v d Hv Hd) as (E1&E2&E3&E4&E5). rewrite E1, E2, E3, E4, E5. rewrite kcode_descriptor by done.
  replace (_ || _) with true by (by destruct t). cbn [negb]. destruct (_ && _); [done|].
  replace (hw_code (seg_word kcode)) with true by (by vm_compute). replace (hw_dpl (seg_word kcode)) with 0 by (by vm_compute).
  replace (hw_present (seg_word kcode)) with true by (by vm_compute).
  replace (hw_conforming (seg_word kcode)) with false by (by vm_compute). cbn [negb orb].
  rewrite (proj2 (Z.ltb_ge cpl 0)) by done. replace (if _ =? STS_IG32 then false else iflag) with (t && iflag) by (by destruct t).
  done.
Qed.

Lemma flat_segments m i : segs_ok m -> (1 <= i <= 4)%nat ->
  exists w, descriptor m (8 * Z.of_nat i) = Some w /\ hw_base w = 0 /\ hw_limit w = 2 ^ 32 - 1 /\
    hw_dpl w = if decide (i < 3)%nat then 0 else 3.
Proof.
  intros (_&_&S1&S2&S3&S4) Hi. unfold descriptor.
  replace (8 * Z.of_nat i / 8) with (Z.of_nat i) by (rewrite Z.mul_comm, Z.div_mul by lia; done).
  rewrite (proj2 (Z.eqb_neq _ _)), Nat2Z.id by lia.
  assert (i = 1 \/ i = 2 \/ i = 3 \/ i = 4)%nat as [-> | [-> | [-> | ->]]] by lia;
    rewrite ?S1, ?S2, ?S3, ?S4; eexists; (split; [reflexivity|]); by vm_compute.
Qed.

(** C29: How user programs enter the kernel.  However processors have switched
    between processes since boot, [switchuvm] to a process with a kernel stack
    and a page directory returns, and then on that processor, at user level: an
    [int n] instruction enters the kernel only for [n = T_SYSCALL], at the
    system call vector, and is refused for every other number; every interrupt
    and exception enters the kernel at its own vector with interrupts off; both
    use the top of the kernel stack of that process; no I/O port is accessible;
    and all four segments are flat, the user's with user privilege. *)
Theorem user_entry_protected s c p :
  length vectors = 256%nat -> Forall is_u32 vectors -> running s -> (c < length (m_cpus s))%nat ->
  0 <= ncli (cpuat c (m_lks s)) -> kstack p <> 0 -> pgdir p <> 0 -> is_u32 (kstack p + KSTACKSIZE) ->
  exists s' m, switchuvm c (Some p) s = Ret tt s' /\ running s' /\ m_cpus s' !! c = Some m /\ cr3 m = V2P (pgdir p) /\
    (forall n iflag, (n < 256)%nat ->
       deliver m (idt s') 3 iflag true n =
         if decide (n = T_SYSCALL) then Enter 0 (nth n vectors 0) (Some (16, kstack p + KSTACKSIZE)) iflag else Exception 13) /\
    (forall n iflag, (n < 256)%nat ->
       deliver m (idt s') 3 iflag false n =
         Enter 0 (nth n vectors 0) (Some (16, kstack p + KSTACKSIZE)) (bool_decide (n = T_SYSCALL) && iflag)) /\
    (forall bitmap port, is_u32 port -> io_allowed m 3 0 bitmap port = false) /\
    (forall i, (1 <= i <= 4)%nat -> exists w, descriptor m (8 * Z.of_nat i) = Some w /\ hw_base w = 0 /\
       hw_limit w = 2 ^ 32 - 1 /\ hw_dpl w = if decide (i < 3)%nat then 0 else 3).
Proof.
  intros Hv Hvs Hr Hc Hn Hk Hp Hks. pose proof (running_booted s Hr) as Hb.
  destruct (switchuvm_run c p s Hb Hc Hn Hk Hp) as (l & E & Hl). destruct (lookup_lt_is_Some_2 _ _ Hc) as [m0 Hm0].
  pose proof (switch_booted c p s l Hb Hl) as Hb'. assert (Hm : alter (switched p) c (m_cpus s) !! c = Some (switched p m0)).
  { by rewrite list_lookup_alter_eq, Hm0. }
  pose proof (bt_segs _ Hb c m0 Hm0) as Hs0. pose proof (bt_segs _ Hb' c _ Hm) as Hs.
  assert (Hvn : forall n, (n < 256)%nat -> is_u32 (nth n vectors 0)).
  { intros n Hlt. rewrite Forall_forall in Hvs. apply Hvs. rewrite nth_lookup.
    destruct (lookup_lt_is_Some_2 vectors n ltac:(lia)) as [x Hx]. rewrite Hx. by eapply list_elem_of_lookup_2. }
  eexists _, _. split; [exact E|]. split; [by eapply run_switch|]. split; [exact Hm|]. split; [done|]. cbn [idt].
  split; [|split; [|split]].
  - intros n iflag Hlt. pose proof (bt_gates _ Hb n Hlt) as Hg. unfold gate in Hg.
    destruct (decide (n = T_SYSCALL)); erewrite deliver_gate by (done || auto); [by rewrite stack_switched|done].
  - intros n iflag Hlt. pose proof (bt_gates _ Hb n Hlt) as Hg. unfold gate in Hg.
    destruct (decide (n = T_SYSCALL)); erewrite deliver_gate by (done || auto); rewrite stack_switched by done; cbn [andb Z.ltb Z.compare].
    + by rewrite bool_decide_eq_true_2.
    + by rewrite bool_decide_eq_false_2.
  - intros bitmap port Hport. unfold io_allowed. cbn [Z.leb Z.compare]. rewrite task_switched by done.
    destruct (tss_fields (ts_addr m0)) as (_&->&_); [by destruct Hs0 as (_&?&_)|]. cbn [switched ts iomb].
    assert (0 <= port / 8) by (unfold is_u32 in Hport; apply Z.div_pos; lia). by rewrite (proj2 (Z.leb_gt _ _)) by lia.
  - intros i Hi. by apply flat_segments.
Qed.

End entry.

(** ** Witness: two processors and a process *)

Definition demo_vectors : list Z := (fun i => 0x80105000 + 10 * Z.of_nat i) <$> seq 0 256.
Definition demo_mmu : mmu := Mmu (replicate 6 (SEG 0 0 0 0)) (Taskstate 0 0 0) 0x80112000 0 0.
Definition demo_machine : machine :=
  Machine (Locking [Cpu 0 false false None; Cpu 0 false false None] (fun _ => Spin false None)) [demo_mmu; demo_mmu]
    (replicate 256 (SETGATE false 0 0 0)).
Definition demo_pcb : pcb := set_kstack 0x8dfff000 (set_pgdir 0x8dffe000 zero_pcb).

Lemma demo_blank : blank demo_machine.
Proof.
  split; [done| |done]. intros c m Hm. assert (m = demo_mmu) as ->; [|by split; [|unfold is_u32]].
  destruct c as [|[|c]]; [by injection Hm as <-|by injection Hm as <-|done].
Qed.

Lemma user_entry_protected_witness : exists s s' m,
  running demo_vectors s /\ switchuvm 1 (Some demo_pcb) s = Ret tt s' /\ m_cpus s' !! 1%nat = Some m /\
  deliver m (idt s') 3 true true 64 = Enter 0 (0x80105000 + 640) (Some (16, 0x8e000000)) true /\
  deliver m (idt s') 3 true true 32 = Exception 13.
Proof.
  destruct (boot_segs demo_vectors (seq 0 2) demo_machine) as (l & E & Hlen & _).
  destruct (tvinit_run demo_vectors (Machine (m_lks demo_machine) l (idt demo_machine)) eq_refl) as (k & t & E' & Hk & _).
  rewrite E' in E. pose proof (run_boot demo_vectors demo_machine _ demo_blank E) as Hr.
  assert (Hv : Forall is_u32 demo_vectors).
  { apply Forall_forall. intros x (i & -> & Hi)%list_elem_of_fmap. apply elem_of_seq in Hi. unfold is_u32. lia. }
  cbn [m_cpus] in Hr. destruct (user_entry_protected demo_vectors (Machine k l t) 1 demo_pcb eq_refl Hv Hr)
    as (s' & m & Es & _ & Hm & _ & Hs & _); [|  |done|done|done|].
  - cbn [m_cpus]. rewrite Hlen. cbn. lia.
  - cbn [m_lks]. unfold cpuat. rewrite Hk. by vm_compute.
  - exists (Machine k l t), s', m. split; [done|]. split; [done|]. split; [done|]. split.
    + rewrite (Hs 64%nat true) by lia. by vm_compute.
    + rewrite (Hs 32%nat true) by lia. by vm_compute.
Defined.
