(* ===== verification/Trap.v ===== *)
(** Traps and the clock: trap.c and sysproc.c.

    [trap] is the one entry from user programs, devices and exceptions.  The
    handlers it calls are the interface [Handlers] on a state that shows what
    [trap] itself reads: the current process, the processor number, the clock
    and the process table.  The second part is the clock: [sys_sleep] against
    the ticks the timer interrupt counts. *)

From S2P Require Import Prelude CString Syscall Spinlock Proc.

(** ** Trap numbers (traps.h) *)

Definition T_DIVIDE : Z := 0.
Definition T_DEBUG : Z := 1.
Definition T_NMI : Z := 2.
Definition T_BRKPT : Z := 3.
Definition T_OFLOW : Z := 4.
Definition T_BOUND : Z := 5.
Definition T_ILLOP : Z := 6.
Definition T_DEVICE : Z := 7.
Definition T_DBLFLT : Z := 8.
Definition T_TSS : Z := 10.
Definition T_SEGNP : Z := 11.
Definition T_STACK : Z := 12.
Definition T_GPFLT : Z := 13.
Definition T_PGFLT : Z := 14.
Definition T_FPERR : Z := 16.
Definition T_ALIGN : Z := 17.
Definition T_MCHK : Z := 18.
Definition T_SIMDERR : Z := 19.
Definition T_SYSCALL : Z := 64.
Definition T_DEFAULT : Z := 500.
Definition T_IRQ0 : Z := 32.
Definition IRQ_TIMER : Z := 0.
Definition IRQ_KBD : Z := 1.
Definition IRQ_COM1 : Z := 4.
Definition IRQ_IDE : Z := 14.
Definition IRQ_SPURIOUS : Z := 31.

(** The [switch] of [getTrapName]. *)
Definition trap_names : list (Z * string) :=
  [(T_DIVIDE, "T_DIVIDE"); (T_DEBUG, "T_DEBUG"); (T_NMI, "T_NMI"); (T_BRKPT, "T_BRKPT"); (T_OFLOW, "T_OFLOW");
   (T_BOUND, "T_BOUND"); (T_ILLOP, "T_ILLOP"); (T_DEVICE, "T_DEVICE"); (T_DBLFLT, "T_DBLFLT"); (T_TSS, "T_TSS");
   (T_SEGNP, "T_SEGNP"); (T_STACK, "T_STACK"); (T_GPFLT, "T_GPFLT"); (T_PGFLT, "T_PGFLT"); (T_FPERR, "T_FPERR");
   (T_ALIGN, "T_ALIGN"); (T_MCHK, "T_MCHK"); (T_SIMDERR, "T_SIMDERR"); (T_SYSCALL, "T_SYSCALL");
   (T_DEFAULT, "T_DEFAULT"); (T_IRQ0, "T_IRQ0"); (IRQ_SPURIOUS, "IRQ_SPURIOUS")]%string.

Definition getTrapName (trapno : Z) : string :=
  match List.find (fun x => fst x =? trapno) trap_names with Some (_, n) => n | None => "T_UNKNOWN" end.

(** ** State *)

(** [t_rest] is the state of the handlers. *)
Record tstate (R : Type) := TState {
  t_cpu : Z; t_cur : option nat; t_procs : list pcb; t_ticks : Z; t_cr2 : Z; t_rest : R }.
Arguments TState {R}.
Arguments t_cpu {R}.
Arguments t_cur {R}.
Arguments t_procs {R}.
Arguments t_ticks {R}.
Arguments t_cr2 {R}.
Arguments t_rest {R}.

(** Arguments of [cprintf]; formats are written without their newline. *)
Inductive parg := PInt (v : Z) | PStr (s : list Z).

(** The handlers.  [exit] and [yield] run for the current process. *)
Class Handlers (R : Type) := {
  h_syscall : kern (tstate R) unit;
  h_exit : kern (tstate R) unit;
  h_yield : kern (tstate R) unit;
  h_nfu : option nat -> kern (tstate R) unit;
  h_ideintr : kern (tstate R) unit;
  h_kbdintr : kern (tstate R) unit;
  h_uartintr : kern (tstate R) unit;
  h_lapiceoi : kern (tstate R) unit;
  h_cprintf : string -> list parg -> kern (tstate R) unit;
  h_recoverPageFault : Z -> kern (tstate R) Z;
}.

(** The address [&ticks]. *)
Definition ticks_chan : channel := CAddr 3.

Section trap.
Context {R : Type} {HD : Handlers R}.

Definition set_tprocs (f : list pcb -> list pcb) : kern (tstate R) unit :=
  modify (fun s => TState (t_cpu s) (t_cur s) (f (t_procs s)) (t_ticks s) (t_cr2 s) (t_rest s)).
Definition set_ticks (v : Z) : kern (tstate R) unit :=
  modify (fun s => TState (t_cpu s) (t_cur s) (t_procs s) v (t_cr2 s) (t_rest s)).

(** [myproc()]: null, or the process. *)
Definition current (s : tstate R) : option pcb := i ← t_cur s; t_procs s !! i.

(** [if(myproc()->killed) exit()] of a system call; there is a process. *)
Definition exit_if_killed : kern (tstate R) unit :=
  p ← gets current;
  match p with
  | None => panic "myproc() is null"
  | Some p => if killed p then h_exit else mret tt
  end.

Definition set_current (f : pcb -> pcb) : kern (tstate R) unit :=
  i ← gets t_cur;
  match i with None => panic "myproc() is null" | Some i => set_tprocs (alter f i) end.

(** [ticks++; wakeup(&ticks)] under [tickslock]. *)
Definition tick : kern (tstate R) unit :=
  t ← gets t_ticks;
  set_ticks (u32 (t + 1)) ;;
  set_tprocs (fmap (wake ticks_chan)).

(** The timer: [NFU_SWAP] is the paging policy the kernel is built with. *)
Definition timer (NFU_SWAP : bool) : kern (tstate R) unit :=
  (if NFU_SWAP then i ← gets t_cur; h_nfu i else mret tt) ;;
  c ← gets t_cpu;
  (if c =? 0 then tick else mret tt) ;;
  h_lapiceoi.

(** The [default] case. *)
Definition unexpected (v : trapframe) : kern (tstate R) unit :=
  s ← gets id;
  match current s with
  | Some p =>
      if Z.land (cs v) 3 =? 0 then
        h_cprintf "unexpected trap %d from cpu %d eip %x (cr2=0x%x)"
          [PInt (trapno v); PInt (t_cpu s); PInt (eip v); PInt (t_cr2 s)] ;;
        panic "trap"
      else
        h_cprintf "pid %d %s: trap %d err %d on cpu %d eip 0x%x addr 0x%x--kill proc"
          [PInt (pid p); PStr (name p); PInt (trapno v); PInt (err v); PInt (t_cpu s); PInt (eip v); PInt (t_cr2 s)] ;;
        set_current (set_killed true)
  | None =>
      h_cprintf "unexpected trap %d from cpu %d eip %x (cr2=0x%x)"
        [PInt (trapno v); PInt (t_cpu s); PInt (eip v); PInt (t_cr2 s)] ;;
      panic "trap"
  end.

Definition dispatch (NFU_SWAP : bool) (v : trapframe) : kern (tstate R) unit :=
  let n := trapno v in
  if n =? T_IRQ0 + IRQ_TIMER then timer NFU_SWAP
  else if n =? T_IRQ0 + IRQ_IDE then h_ideintr ;; h_lapiceoi
  else if n =? T_IRQ0 + IRQ_IDE + 1 then mret tt
  else if n =? T_IRQ0 + IRQ_KBD then h_kbdintr ;; h_lapiceoi
  else if n =? T_IRQ0 + IRQ_COM1 then h_uartintr ;; h_lapiceoi
  else if (n =? T_IRQ0 + 7) || (n =? T_IRQ0 + IRQ_SPURIOUS) then
    c ← gets t_cpu;
    h_cprintf "cpu%d: spurious interrupt at %x:%x" [PInt c; PInt (cs v); PInt (eip v)] ;;
    h_lapiceoi
  else if n =? T_PGFLT then
    va ← gets t_cr2;
    r ← h_recoverPageFault va;
    if r =? 0 then mret tt else unexpected v
  else unexpected v.

(** [if(myproc() && myproc()->killed && (tf->cs&3) == DPL_USER) exit()]. *)
Definition exit_killed_user (v : trapframe) : kern (tstate R) unit :=
  p ← gets current;
  match p with
  | Some p => if killed p && (Z.land (cs v) 3 =? DPL_USER) then h_exit else mret tt
  | None => mret tt
  end.

(** [tf] is the address of the trap frame and [v] its contents. *)
Definition trap (NFU_SWAP : bool) (tf : Z) (v : trapframe) : kern (tstate R) unit :=
  if trapno v =? T_SYSCALL then
    exit_if_killed ;;
    set_current (fun p => set_frames (Kframes tf v (retv (frames p)) (ctx (frames p)) (ctxv (frames p))) p) ;;
    h_syscall ;;
    exit_if_killed
  else
    dispatch NFU_SWAP v ;;
    exit_killed_user v ;;
    (p ← gets current;
     match p with
     | Some p =>
         if bool_decide (state p = RUNNING) && (trapno v =? T_IRQ0 + IRQ_TIMER) then h_yield else mret tt
     | None => mret tt
     end) ;;
    exit_killed_user v.

End trap.

(** ** What the handlers promise *)

(** The same process is current and the table has its size; everything else may
    have changed, also by other processors. *)
Definition same_cur {R} (s s' : tstate R) : Prop := t_cur s' = t_cur s /\ length (t_procs s') = length (t_procs s).

Definition returns {R A} (m : kern (tstate R) A) : Prop := forall s, exists a s', m s = Ret a s' /\ same_cur s s'.

(** [exit] does not return; a system call may not return either; the other
    handlers come back to the process that was interrupted. *)
Class HandlerLaws (R : Type) {HD : Handlers R} := {
  hl_exit s a s' : h_exit s <> Ret a s';
  hl_syscall s a s' : h_syscall s = Ret a s' -> same_cur s s';
  hl_yield : returns h_yield;
  hl_nfu p : returns (h_nfu p);
  hl_ideintr : returns h_ideintr;
  hl_kbdintr : returns h_kbdintr;
  hl_uartintr : returns h_uartintr;
  hl_lapiceoi : returns h_lapiceoi;
  hl_cprintf f l : returns (h_cprintf f l);
  hl_fault va : returns (h_recoverPageFault va);
}.

Create HintDb handlers.
#[global] Hint Resolve hl_yield hl_nfu hl_ideintr hl_kbdintr hl_uartintr hl_lapiceoi hl_cprintf hl_fault : handlers.

Section outcomes.
Context {R : Type} {HD : Handlers R} {HL : HandlerLaws R}.

Lemma same_refl (s : tstate R) : same_cur s s.
Proof. done. Qed.

Lemma same_trans (s t u : tstate R) : same_cur s t -> same_cur t u -> same_cur s u.
Proof. intros [E1 E2] [F1 F2]. split; congruence. Qed.

Lemma returns_ret {A} (a : A) : returns (mret a : kern (tstate R) A).
Proof. intros s. by exists a, s. Qed.

Lemma returns_gets {A} (f : tstate R -> A) : returns (gets f).
Proof. intros s. by exists (f s), s. Qed.

Lemma returns_bind {A B} (m : kern (tstate R) A) (k : A -> kern (tstate R) B) :
  returns m -> (forall a, returns (k a)) -> returns (m ≫= k).
Proof.
  intros Hm Hk s. destruct (Hm s) as (a & s1 & E1 & S1). destruct (Hk a s1) as (b & s2 & E2 & S2).
  exists b, s2. rewrite (bind_Ret _ _ _ _ _ E1). split; [done|]. by eapply same_trans.
Qed.

Lemma returns_tprocs f : (forall l, length (f l) = length l) -> returns (set_tprocs f : kern (tstate R) unit).
Proof. intros Hf s. eexists tt, _. split; [reflexivity|]. split; [done|apply Hf]. Qed.

Lemma returns_ticks t : returns (set_ticks t : kern (tstate R) unit).
Proof. intros s. by eexists tt, _. Qed.

#[local] Hint Resolve returns_ret returns_gets returns_bind returns_ticks : handlers.

Lemma returns_timer b : returns (timer b).
Proof.
  unfold timer. apply returns_bind; [destruct b; eauto with handlers|]. intros _. apply returns_bind; [eauto with handlers|].
  intros c. apply returns_bind; [|eauto with handlers]. destruct (c =? 0); [|eauto with handlers].
  unfold tick. apply returns_bind; [eauto with handlers|]. intros t. apply returns_bind; [eauto with handlers|]. intros _.
  apply returns_tprocs. intros l. apply length_fmap.
Qed.

(** The interrupts the kernel expects. *)
Definition device (n : Z) : bool :=
  bool_decide (n ∈ [T_IRQ0 + IRQ_TIMER; T_IRQ0 + IRQ_IDE; T_IRQ0 + IRQ_IDE + 1; T_IRQ0 + IRQ_KBD; T_IRQ0 + IRQ_COM1;
                    T_IRQ0 + 7; T_IRQ0 + IRQ_SPURIOUS]).

(** A trap that is handled: a device, or a page fault that paging resolves. *)
Definition expected (v : trapframe) (s : tstate R) : bool :=
  device (trapno v) ||
  ((trapno v =? T_PGFLT) && match h_recoverPageFault (t_cr2 s) s with Ret r _ => r =? 0 | _ => false end).

Lemma dispatch_device b v : device (trapno v) = true -> returns (dispatch b v).
Proof.
  unfold device, dispatch. intros H. apply bool_decide_eq_true in H.
  rewrite !elem_of_cons, elem_of_nil in H. destruct (Z.eqb_spec (trapno v) (T_IRQ0 + IRQ_TIMER)); [apply returns_timer|].
  destruct (Z.eqb_spec (trapno v) (T_IRQ0 + IRQ_IDE)); [eauto with handlers|].
  destruct (Z.eqb_spec (trapno v) (T_IRQ0 + IRQ_IDE + 1)); [eauto with handlers|].
  destruct (Z.eqb_spec (trapno v) (T_IRQ0 + IRQ_KBD)); [eauto with handlers|].
  destruct (Z.eqb_spec (trapno v) (T_IRQ0 + IRQ_COM1)); [eauto with handlers|].
  destruct (_ || _) eqn:E; [eauto with handlers|]. apply orb_false_iff in E as [E1%Z.eqb_neq E2%Z.eqb_neq]. tauto.
Qed.

Lemma dispatch_other b v : device (trapno v) = false ->
  dispatch b v =
    if trapno v =? T_PGFLT then
      va ← gets t_cr2; r ← h_recoverPageFault va; if r =? 0 then mret tt else unexpected v
    else unexpected v.
Proof.
  unfold device, dispatch. intros H. apply bool_decide_eq_false in H. rewrite !elem_of_cons, elem_of_nil in H.
  repeat (rewrite (proj2 (Z.eqb_neq (trapno v) _)) by tauto). done.
Qed.

Lemma dispatch_expected b v s : expected v s = true -> exists s', dispatch b v s = Ret tt s' /\ same_cur s s'.
Proof.
  unfold expected. intros H. destruct (device (trapno v)) eqn:Hd.
  - destruct (dispatch_device b v Hd s) as ([] & s' & E & S). eauto.
  - rewrite dispatch_other by done. cbn [orb] in H. apply andb_true_iff in H as [-> H]. rewrite bind_gets.
    destruct (hl_fault (t_cr2 s) s) as (r & s' & E & S). rewrite E in H. rewrite (bind_Ret _ _ _ _ _ E), H. eauto.
Qed.

(** Otherwise the handler gets to [unexpected]. *)
Lemma dispatch_unexpected b v s : expected v s = false -> exists s', dispatch b v s = unexpected v s' /\ same_cur s s'.
Proof.
  unfold expected. intros [Hd H]%orb_false_iff. rewrite dispatch_other by done. destruct (_ =? T_PGFLT); [|by exists s].
  rewrite bind_gets. destruct (hl_fault (t_cr2 s) s) as (r & s' & E & S). rewrite E in H. cbn [andb] in H.
  rewrite (bind_Ret _ _ _ _ _ E), H. eauto.
Qed.

Lemma current_same (s s' : tstate R) p : same_cur s s' -> current s = Some p -> exists q, current s' = Some q.
Proof.
  unfold current. intros [-> Hl] H. destruct (t_cur s) as [i|]; [|done]. cbn in *. apply lookup_lt_Some in H.
  apply lookup_lt_is_Some_2. by rewrite Hl.
Qed.

(** What follows a call that does not return is not reached. *)
Lemma bind_never {A B} (m : kern (tstate R) A) (k k' : A -> kern (tstate R) B) s :
  (forall a s', m s <> Ret a s') -> (m ≫= k) s = (m ≫= k') s.
Proof. intros H. unfold mbind, kern_bind. destruct (m s) eqn:E; [by destruct (H a s0)|done|done|done]. Qed.

Lemma bind_unit {A} (m : kern (tstate R) A) s : (m ≫= mret) s = m s.
Proof. unfold mbind, kern_bind. by destruct (m s). Qed.

Lemma bind_exit (k : unit -> kern (tstate R) unit) s : (h_exit ≫= k) s = h_exit s.
Proof. rewrite <- (bind_unit h_exit s). apply bind_never. intros a s' E. by apply hl_exit in E. Qed.

Lemma unexpected_kernel v (s : tstate R) : Z.land (cs v) 3 = 0 -> unexpected v s = Panic "trap".
Proof.
  intros Hc. unfold unexpected. rewrite bind_gets, Hc. unfold id. destruct (current s) as [p|]; cbn [Z.eqb];
    match goal with |- (h_cprintf ?f ?l ≫= _) _ = _ => destruct (hl_cprintf f l s) as ([] & s' & E & _) end;
    by rewrite (bind_Ret _ _ _ _ _ E).
Qed.

Lemma unexpected_user v s p : Z.land (cs v) 3 = DPL_USER -> current s = Some p ->
  exists s' q, unexpected v s = Ret tt s' /\ same_cur s s' /\ current s' = Some q /\ killed q = true.
Proof.
  intros Hu Hp. unfold unexpected. rewrite bind_gets, Hu. unfold id. rewrite Hp. cbn [DPL_USER Z.eqb].
  match goal with |- context [h_cprintf ?f ?l] => destruct (hl_cprintf f l s) as ([] & s1 & E & S1) end.
  rewrite (bind_Ret _ _ _ _ _ E). destruct (current_same _ _ _ S1 Hp) as [q Hq]. unfold set_current. rewrite bind_gets.
  unfold current in Hq. destruct (t_cur s1) as [i|] eqn:Ei; [|done]. cbn in Hq. eexists _, (set_killed true q). split; [reflexivity|].
  split; [|split; [|done]].
  - eapply same_trans; [exact S1|]. split; [done|]. cbn. apply length_alter.
  - unfold current. cbn. rewrite Ei. cbn. by rewrite list_lookup_alter_eq, Hq.
Qed.

(** [exit], called for the current process because it is killed. *)
Definition exits (s : tstate R) (o : outcome (tstate R) unit) : Prop :=
  exists s' q, o = h_exit s' /\ same_cur s s' /\ current s' = Some q /\ killed q = true.

(** Back to the current process, which is not killed. *)
Definition resumes (s : tstate R) (o : outcome (tstate R) unit) : Prop :=
  exists s' q, o = Ret tt s' /\ same_cur s s' /\ current s' = Some q /\ killed q = false.

Lemma exits_same s s1 o : same_cur s s1 -> exits s1 o -> exits s o.
Proof. intros H (s' & q & E & S & ?). exists s', q. split; [done|]. split; [by eapply same_trans|done]. Qed.

Lemma resumes_same s s1 o : same_cur s s1 -> resumes s1 o -> resumes s o.
Proof. intros H (s' & q & E & S & ?). exists s', q. split; [done|]. split; [by eapply same_trans|done]. Qed.

(** The check before returning to user mode. *)
Lemma exit_killed_user_cases v s p (k : unit -> kern (tstate R) unit) :
  Z.land (cs v) 3 = DPL_USER -> current s = Some p ->
  (killed p = true /\ exits s ((exit_killed_user v ≫= k) s)) \/ (killed p = false /\ (exit_killed_user v ≫= k) s = k tt s).
Proof.
  intros Hu Hp. unfold exit_killed_user. rewrite bind_bind, bind_gets, Hp, Hu, Z.eqb_refl. destruct (killed p) eqn:Ek; cbn [andb].
  - left. split; [done|]. rewrite bind_exit. by exists s, p.
  - by right.
Qed.

(** After the dispatch in user mode. *)
Definition epilogue (v : trapframe) : kern (tstate R) unit :=
  exit_killed_user v ;;
  (p ← gets current;
   match p with
   | Some p =>
       if bool_decide (state p = RUNNING) && (trapno v =? T_IRQ0 + IRQ_TIMER) then h_yield else mret tt
   | None => mret tt
   end) ;;
  exit_killed_user v.

Lemma user_epilogue v s p : Z.land (cs v) 3 = DPL_USER -> current s = Some p ->
  exits s (epilogue v s) \/ (killed p = false /\ resumes s (epilogue v s)).
Proof.
  intros Hu Hp. unfold epilogue. destruct (exit_killed_user_cases v s p (fun _ => (p ← gets current; match p with
     | Some p => if bool_decide (state p = RUNNING) && (trapno v =? T_IRQ0 + IRQ_TIMER) then h_yield else mret tt
     | None => mret tt end) ;; exit_killed_user v) Hu Hp) as [[_ H]|[Hk ->]]; [by left|].
  rewrite bind_bind, bind_gets, Hp.
  assert (exists s1, same_cur s s1 /\ ((if bool_decide (state p = RUNNING) && (trapno v =? T_IRQ0 + IRQ_TIMER) then h_yield else mret tt)
     ;; exit_killed_user v) s = exit_killed_user v s1) as (s1 & S1 & ->).
  { destruct (_ && _); [|by exists s]. destruct (hl_yield s) as ([] & s1 & E & S). exists s1. by rewrite (bind_Ret _ _ _ _ _ E). }
  destruct (current_same _ _ _ S1 Hp) as [q Hq].
  destruct (exit_killed_user_cases v s1 q mret Hu Hq) as [[_ H]|[Hk1 H]]; rewrite bind_unit in H.
  - left. by eapply exits_same.
  - right. split; [done|]. eapply resumes_same; [done|]. by exists s1, q.
Qed.

Lemma kernel_epilogue v s : Z.land (cs v) 3 = 0 -> exists s', epilogue v s = Ret tt s' /\ same_cur s s'.
Proof.
  intros Hc. assert (Hk : returns (exit_killed_user v)).
  { intros t. exists tt, t. unfold exit_killed_user. rewrite bind_gets, Hc. destruct (current t) as [q|]; [|done].
    by rewrite andb_false_r. }
  assert (returns (epilogue v)) as H.
  { unfold epilogue. apply returns_bind; [done|]. intros _. apply returns_bind; [|done]. apply returns_bind; [apply returns_gets|].
    intros [q|]; [|apply returns_ret]. destruct (_ && _); [apply hl_yield|apply returns_ret]. }
  destruct (H s) as ([] & s' & E & S). eauto.
Qed.

Lemma bind_exit_if_killed (k : unit -> kern (tstate R) unit) s p :
  current s = Some p -> (exit_if_killed ≫= k) s = if killed p then h_exit s else k tt s.
Proof.
  intros Hp. unfold exit_if_killed. rewrite bind_bind, bind_gets, Hp. destruct (killed p); [apply bind_exit|done].
Qed.

Lemma bind_set_current f (k : unit -> kern (tstate R) unit) s p : current s = Some p ->
  exists s', same_cur s s' /\ (set_current f ≫= k) s = k tt s'.
Proof.
  unfold current. intros Hp. unfold set_current. rewrite bind_bind, bind_gets. destruct (t_cur s) as [i|] eqn:Ei; [|done].
  unfold set_tprocs. rewrite bind_modify. eexists. split; [|reflexivity]. split; [done|apply length_alter].
Qed.

Lemma syscall_outcome b tf v s p :
  trapno v = T_SYSCALL -> current s = Some p ->
  exits s (trap b tf v s) \/ resumes s (trap b tf v s) \/
  exists s', same_cur s s' /\ trap b tf v s = h_syscall s' /\ forall a t, h_syscall s' <> Ret a t.
Proof.
  intros Hn Hp. unfold trap. rewrite Hn, Z.eqb_refl. rewrite (bind_exit_if_killed _ s p Hp).
  destruct (killed p) eqn:Hk; [left; by exists s, p|].
  match goal with |- context [set_current ?f ≫= ?k] => destruct (bind_set_current f k s p Hp) as (s1 & S1 & ->) end.
  destruct (h_syscall s1) as [[] s2|m|ch s2|] eqn:E.
  2-4: right; right; exists s1; split; [done|]; split; [|by rewrite E]; unfold mbind, kern_bind; by rewrite E.
  rewrite (bind_Ret _ _ _ _ _ E). pose proof (same_trans _ _ _ S1 (hl_syscall _ _ _ E)) as S2.
  destruct (current_same s s2 p S2 Hp) as [q Hq]. rewrite <- (bind_unit exit_if_killed), (bind_exit_if_killed _ s2 q Hq).
  destruct (killed q) eqn:Hkq; [left|right; left]; by exists s2, q.
Qed.


End outcomes.

(** Witness: a process that is killed while it has given up the processor on a
    clock tick exits instead of returning to user mode. *)
#[export] Instance demo_handlers : Handlers unit := {
  h_syscall s := Ret tt s;
  h_exit s := Sleep 0 s;
  h_yield s := Ret tt (TState (t_cpu s) (t_cur s) (set_killed true <$> t_procs s) (t_ticks s) (t_cr2 s) tt);
  h_nfu _ s := Ret tt s;
  h_ideintr s := Ret tt s;
  h_kbdintr s := Ret tt s;
  h_uartintr s := Ret tt s;
  h_lapiceoi s := Ret tt s;
  h_cprintf _ _ s := Ret tt s;
  h_recoverPageFault _ s := Ret (-1) s;
}.

#[export] Instance demo_laws : HandlerLaws unit.
Proof.
  split; try done; try (intros; intros s; by exists tt, s).
  - intros s a s' [= <- <-]. done.
  - intros s. eexists tt, _. split; [reflexivity|]. split; [done|]. cbn. apply length_fmap.
  - intros va s. by exists (-1), s.
Qed.

Definition demo_frame (n : Z) : trapframe := Trapframe 0 0 0 0 0 0 0 0 0 0 0 0 n 0 0 0x1b 0 0 0.
Definition demo_tstate : tstate unit := TState 0 (Some 0%nat) [set_state RUNNING zero_pcb] 0 0 tt.


(** ** The clock *)

(** A call of [sys_sleep] in progress: its locals. *)
Record sleeping := Sleeping_ { sl_n : Z; sl_ticks0 : Z }.

Section clock.
Context {R : Type}.

(** The loop of [sys_sleep], from a test of its condition to the return or to
    [sleep]: process [i] holds [tickslock] in between. *)
Definition sleep_loop (i : nat) (n ticks0 : Z) : kern (tstate R) (option Z) :=
  t ← gets t_ticks;
  if u32 (t - ticks0) <? u32 n then
    l ← gets t_procs;
    if killed (l !!! i) then mret (Some (-1))
    else
      set_tprocs (alter (fun p => set_state SLEEPING (set_chan ticks_chan p)) i) ;;
      mret None
  else mret (Some 0).

(** [None]: asleep, with the locals of the call. *)
Definition sys_sleep (i : nat) (u : uproc) : kern (tstate R) (option Z * sleeping) :=
  match argint u 0 with
  | None => mret (Some (-1), Sleeping_ 0 0)
  | Some n =>
      ticks0 ← gets t_ticks;
      r ← sleep_loop i n ticks0;
      mret (r, Sleeping_ n ticks0)
  end.

Definition sys_uptime : kern (tstate R) Z := t ← gets t_ticks; mret (i32 t).

End clock.

(** *** Other calls of sysproc.c *)

Section sysproc.
Context {R : Type} {SV : Services R} (c p : nat).

Definition sys_fork : kern (sys R) Z := fork c p.
Definition sys_exit : kern (sys R) bool := exit c p.
Definition sys_wait : kern (sys R) waited := wait c p.

Definition sys_kill (u : uproc) : kern (sys R) Z :=
  match argint u 0 with None => mret (-1) | Some pid => kill c pid end.

Definition sys_getpid : kern (sys R) Z := q ← getp p; mret (pid q).

Definition sys_sbrk (u : uproc) : kern (sys R) Z :=
  match argint u 0 with
  | None => mret (-1)
  | Some n =>
      q ← getp p;
      let addr := i32 (sz q) in
      r ← growproc n p;
      if r <? 0 then mret (-1) else mret addr
  end.

End sysproc.

(** ** Sleeping is exact *)

Section sleep_exact.
Context {R : Type}.

(** A finished call: its argument, the ticks since boot when it started and when
    it returned, the value returned, and whether the process was killed. *)
Record finished := Finished { fin_n : Z; fin_start : Z; fin_at : Z; fin_r : Z; fin_killed : bool }.

(** [w_total] counts the ticks since boot without wrapping around; [w_calls] are
    the calls of [sys_sleep] in progress, each with the count at its start. *)
Record clock := Clock { w_st : tstate R; w_total : Z; w_calls : nat -> option (sleeping * Z); w_done : list finished }.

Definition set_call (f : nat -> option (sleeping * Z)) (i : nat) (x : option (sleeping * Z)) : nat -> option (sleeping * Z) :=
  fun j => if decide (j = i) then x else f j.

Definition proc_in (s : tstate R) (i : nat) (st : procstate) : Prop := exists p, t_procs s !! i = Some p /\ state p = st.

(** The end of a test of the loop by process [i], in [s']. *)
Definition after_test (w : clock) (i : nat) (fr : sleeping) (start : Z) (r : option Z) (s' : tstate R) : clock :=
  match r with
  | None => Clock s' (w_total w) (set_call (w_calls w) i (Some (fr, start))) (w_done w)
  | Some v => Clock s' (w_total w) (set_call (w_calls w) i None)
                (Finished (sl_n fr) start (w_total w) v (killed (t_procs s' !!! i)) :: w_done w)
  end.

Definition with_procs (f : list pcb -> list pcb) (w : clock) : clock :=
  let s := w_st w in
  Clock (TState (t_cpu s) (t_cur s) (f (t_procs s)) (t_ticks s) (t_cr2 s) (t_rest s)) (w_total w) (w_calls w) (w_done w).

Inductive cstep : clock -> clock -> Prop :=
| c_tick w s' : tick (w_st w) = Ret tt s' -> cstep w (Clock s' (w_total w + 1) (w_calls w) (w_done w))
| c_call w i u n r fr s' :
    proc_in (w_st w) i RUNNING -> w_calls w i = None -> argint u 0 = Some n ->
    sys_sleep i u (w_st w) = Ret (r, fr) s' -> cstep w (after_test w i fr (w_total w) r s')
| c_again w i fr start r s' :
    proc_in (w_st w) i RUNNING -> w_calls w i = Some (fr, start) ->
    sleep_loop i (sl_n fr) (sl_ticks0 fr) (w_st w) = Ret r s' -> cstep w (after_test w i fr start r s')
| c_run w i : proc_in (w_st w) i RUNNABLE -> cstep w (with_procs (alter (set_state RUNNING) i) w)
| c_yield w i : proc_in (w_st w) i RUNNING -> cstep w (with_procs (alter (set_state RUNNABLE) i) w)
| c_block w i ch :
    proc_in (w_st w) i RUNNING -> w_calls w i = None ->
    cstep w (with_procs (alter (fun p => set_state SLEEPING (set_chan ch p)) i) w)
| c_wakeup w ch : cstep w (with_procs (fmap (wake ch)) w)
| c_kill w i : cstep w (with_procs (alter kill_pcb i) w).

(** A process asleep in [sys_sleep] waits for the clock, and its time has not come. *)
Definition asleep_ok (w : clock) (fr : sleeping) (start : Z) (p : pcb) : Prop :=
  state p = SLEEPING -> chan p = ticks_chan /\ killed p = false /\ u32 (w_total w - start) < u32 (sl_n fr).

Definition fin_ok (e : finished) : Prop :=
  (fin_r e = 0 /\ u32 (fin_n e) <= fin_at e - fin_start e) \/ (fin_r e = -1 /\ fin_killed e = true).

Record clock_ok (w : clock) : Prop := {
  ck_ticks : t_ticks (w_st w) = u32 (w_total w);
  ck_calls : forall i fr start, w_calls w i = Some (fr, start) ->
    sl_ticks0 fr = u32 start /\ start <= w_total w /\ exists p, t_procs (w_st w) !! i = Some p /\ asleep_ok w fr start p;
  ck_done : forall e, e ∈ w_done w -> fin_ok e }.

Lemma elapsed a b : u32 (u32 a - u32 b) = u32 (a - b).
Proof. unfold u32. by rewrite <- Zminus_mod. Qed.

(** A change of the process table that wakes or leaves asleep. *)
Lemma with_procs_ok f w :
  clock_ok w ->
  (forall i p, t_procs (w_st w) !! i = Some p -> exists q, f (t_procs (w_st w)) !! i = Some q /\
     (state q = SLEEPING -> is_Some (w_calls w i) -> q = p)) ->
  clock_ok (with_procs f w).
Proof.
  intros [Ht Hc Hd] Hf. split; cbn [with_procs w_st t_ticks w_total w_calls w_done t_procs] in *; [done| |done].
  intros i fr start Hi. destruct (Hc i fr start Hi) as (H1 & H2 & p & Hp & Ha). split; [done|]. split; [done|].
  destruct (Hf i p Hp) as (q & Hq & Hs). exists q. split; [done|]. intros Hsl.
  assert (q = p) as -> by exact (Hs Hsl (mk_is_Some _ _ Hi)). exact (Ha Hsl).
Qed.

Lemma alter_ok f i w :
  clock_ok w ->
  (forall p, t_procs (w_st w) !! i = Some p -> state (f p) = SLEEPING -> w_calls w i = None) -> clock_ok (with_procs (alter f i) w).
Proof.
  intros Hok Hf. apply with_procs_ok; [done|]. intros j p Hp. destruct (decide (j = i)) as [->|Hne].
  - exists (f p). rewrite list_lookup_alter_eq, Hp. split; [done|]. intros Hs. rewrite (Hf p Hp Hs). by intros [].
  - exists p. by rewrite list_lookup_alter_ne.
Qed.

(** One test of the loop. *)
Lemma sleep_loop_cases i n ticks0 (s : tstate R) p :
  t_procs s !! i = Some p ->
  (u32 (t_ticks s - ticks0) < u32 n /\ killed p = true /\ sleep_loop i n ticks0 s = Ret (Some (-1)) s) \/
  (u32 (t_ticks s - ticks0) < u32 n /\ killed p = false /\
     exists s', sleep_loop i n ticks0 s = Ret None s' /\ t_ticks s' = t_ticks s /\
       t_procs s' = alter (fun p => set_state SLEEPING (set_chan ticks_chan p)) i (t_procs s)) \/
  (u32 n <= u32 (t_ticks s - ticks0) /\ sleep_loop i n ticks0 s = Ret (Some 0) s).
Proof.
  intros Hp. unfold sleep_loop. rewrite bind_gets. destruct (Z.ltb_spec (u32 (t_ticks s - ticks0)) (u32 n)) as [Hlt|Hge].
  - rewrite bind_gets. rewrite (list_lookup_total_correct _ _ _ Hp). destruct (killed p) eqn:Hk; [by left|].
    right; left. split; [done|]. split; [done|]. unfold set_tprocs. rewrite bind_modify. eexists. split; [reflexivity|]. done.
  - by right; right.
Qed.

Lemma test_ok w i fr start r s' :
  clock_ok w -> proc_in (w_st w) i RUNNING -> sl_ticks0 fr = u32 start -> start <= w_total w ->
  sleep_loop i (sl_n fr) (sl_ticks0 fr) (w_st w) = Ret r s' -> clock_ok (after_test w i fr start r s').
Proof.
  intros [Ht Hc Hd] (p & Hp & Hr) H0 Hst E.
  assert (He : u32 (t_ticks (w_st w) - sl_ticks0 fr) = u32 (w_total w - start)) by (rewrite Ht, H0; apply elapsed).
  assert (Hother : forall v, clock_ok (after_test w i fr start (Some v) (w_st w)) <->
     fin_ok (Finished (sl_n fr) start (w_total w) v (killed p))).
  { intros v. unfold after_test. rewrite (list_lookup_total_correct _ _ _ Hp). split; [intros [_ _ H]; apply H; by left|].
    intros Hf. split; cbn [w_st w_total w_calls w_done] in *; [done| |by intros e [->|He']%elem_of_cons; auto].
    intros j fr' st'. unfold set_call. destruct (decide (j = i)); [done|]. apply Hc. }
  destruct (sleep_loop_cases i (sl_n fr) (sl_ticks0 fr) (w_st w) p Hp) as [(Hlt & Hk & E')|[(Hlt & Hk & s1 & E' & Et & Ep)|(Hge & E')]];
    rewrite E in E'; injection E' as -> ->.
  - apply Hother. right. by rewrite Hk.
  - split; cbn [after_test w_st w_total w_calls w_done]; [by rewrite Et| |done]. rewrite Ep. unfold set_call.
    intros j fr' st'. destruct (decide (j = i)) as [->|Hne].
    + intros [= <- <-]. split; [done|]. split; [done|]. rewrite list_lookup_alter_eq, Hp. eexists. split; [reflexivity|].
      intros _. cbn. split; [done|]. split; [done|]. by rewrite <- He.
    + rewrite list_lookup_alter_ne by done. apply Hc.
  - apply Hother. left. split; [done|]. rewrite He in Hge. cbn. unfold u32 in *.
    pose proof (Z.mod_le (w_total w - start) (2 ^ 32)). lia.
Qed.

Lemma cstep_ok w w' : clock_ok w -> cstep w w' -> clock_ok w'.
Proof.
  intros Hok Hs. destruct Hs as [w s' E|w i u n r fr s' Hp Hn Hu E|w i fr start r s' Hp Hi E|w i (p&Hp&Hr)|w i (p&Hp&Hr)|w i ch (p&Hp&Hr) Hn|w ch|w i].
  - unfold tick in E. rewrite bind_gets in E. unfold set_ticks, set_tprocs in E. rewrite bind_modify in E. injection E as <-.
    destruct Hok as [Ht Hc Hd]. split; cbn [w_st t_ticks w_total w_calls w_done t_procs] in *; [| |done].
    + rewrite Ht. unfold u32. by rewrite Zplus_mod_idemp_l.
    + intros i fr start Hi. destruct (Hc i fr start Hi) as (H1 & H2 & p & Hp & Ha). split; [done|]. split; [lia|].
      exists (wake ticks_chan p). rewrite list_lookup_fmap, Hp. split; [done|]. unfold asleep_ok, wake in *.
      destruct (decide _) as [[? ?]|Hno]; [done|]. intros Hsl. exfalso. apply Hno. split; [done|]. by apply Ha.
  - unfold sys_sleep in E. rewrite Hu in E. rewrite bind_gets in E. apply bind_inv in E as (r' & s1 & E1 & E2).
    apply ret_inv in E2 as [[= -> <-] ->]. apply test_ok; [done|done|apply Hok|done|done].
  - destruct (ck_calls w Hok i fr start Hi) as (H1 & H2 & _). by apply test_ok.
  - apply alter_ok; [done|]. intros q _ Hq. done.
  - apply alter_ok; [done|]. intros q _ Hq. done.
  - apply alter_ok; [done|]. done.
  - apply with_procs_ok; [done|]. intros j q Hq. exists (wake ch q). rewrite list_lookup_fmap, Hq. split; [done|].
    unfold wake. by destruct (decide _).
  - apply alter_ok; [done|]. intros q _. unfold kill_pcb. cbn. by destruct (decide _).
Qed.

(** A clock with no call of [sys_sleep] in progress, the counter showing the ticks since boot. *)
Definition fresh (w : clock) : Prop :=
  t_ticks (w_st w) = u32 (w_total w) /\ (forall i, w_calls w i = None) /\ w_done w = [].

Lemma reachable_clock w w' : fresh w -> rtc cstep w w' -> clock_ok w'.
Proof.
  intros (H1 & H2 & H3) Hr. refine (rtc_preserves cstep clock_ok w w' cstep_ok _ Hr).
  split; [done|intros i fr start E; by rewrite H2 in E|]. rewrite H3. by intros e He%elem_of_nil.
Qed.


End sleep_exact.

(** Witness: [sleep(2)] just before the counter wraps around; after one tick the
    process is woken and sleeps again, after the second it returns. *)
Definition demo_call : uproc := Uproc (fun a => if a =? 4 then 2 else 0) 100 0 0 1.
Definition demo_clock : clock :=
  Clock (TState 0 None [set_state RUNNING zero_pcb] (2 ^ 32 - 1) 0 tt) (2 ^ 32 - 1) (fun _ => None) [].

Lemma demo_sleep : exists w, rtc cstep demo_clock w /\ w_total w = 2 ^ 32 + 1 /\ t_ticks (w_st w) = 1 /\
  w_calls w 0%nat = Some (Sleeping_ 2 (2 ^ 32 - 1), 2 ^ 32 - 1) /\
  exists p, t_procs (w_st w) !! 0%nat = Some p /\ state p = RUNNABLE.
Proof.
  eexists. split.
  - eapply rtc_l; [eapply (c_call demo_clock 0%nat demo_call 2); [by eexists|done|done|vm_compute; reflexivity]|].
    eapply rtc_l; [eapply c_tick; vm_compute; reflexivity|].
    eapply rtc_l; [eapply (c_run _ 0%nat); by eexists|].
    eapply rtc_l; [eapply (c_again _ 0%nat); [by eexists|vm_compute; reflexivity|vm_compute; reflexivity]|].
    eapply rtc_l; [eapply c_tick; vm_compute; reflexivity|]. apply rtc_refl.
  - split; [by vm_compute|]. split; [by vm_compute|]. split; [by vm_compute|].
    eexists. split; [vm_compute; reflexivity|done].
Qed.

