(* ===== verification/FsDir.v ===== *)
(** Directories: [dirlookup] and [dirlink] of fs.c.

    A directory is a file of 16-byte entries.  Abstractly it is a partial map
    from names, cut to [DIRSIZ] bytes, to inode numbers: [dirlookup] looks a name
    up in the map and [dirlink] adds one binding. *)

From S2P Require Import Prelude Bio CString Fs FsBlocks FsFiles FsIO FsInode FsWrite.

(** ** Entries *)

(** The [n] entries stored in [l]. *)
Fixpoint dirents (n : nat) (l : list Z) : list dirent :=
  match n with
  | O => []
  | S n => get_dirent (take 16 l) :: dirents n (drop 16 l)
  end.

Lemma length_dirents n : forall l, length (dirents n l) = n.
Proof. induction n as [|n IH]; intros l; cbn [dirents length]; [done|]. by rewrite IH. Qed.

Lemma dirents_lookup n : forall l k, (k < n)%nat -> dirents n l !! k = Some (get_dirent (take 16 (drop (16 * k) l))).
Proof.
  induction n as [|n IH]; intros l [|k] Hk; cbn [dirents]; [lia|lia|done|].
  rewrite lookup_cons, IH by lia. rewrite drop_drop. do 4 f_equal. lia.
Qed.

(** Names are compared up to [DIRSIZ] bytes. *)
Definition key (name : list Z) : list Z := take (Z.to_nat DIRSIZ) (cstr name).

Lemma namecmp_key a b : bytes a -> bytes b -> namecmp a b = 0 <-> key a = key b.
Proof. intros Ha Hb. by apply strncmp_zero. Qed.

(** The first entry in use with the name. *)
Definition matches (k : list Z) (e : dirent) : Prop := de_inum e <> 0 /\ key (de_name e) = k.

#[global] Instance matches_dec k e : Decision (matches k e).
Proof. unfold matches. apply _. Defined.

Fixpoint dlookup (k : list Z) (es : list dirent) : option Z :=
  match es with
  | [] => None
  | e :: es => if decide (matches k e) then Some (de_inum e) else dlookup k es
  end.

(** The index of the first unused entry. *)
Fixpoint unused (es : list dirent) : nat :=
  match es with
  | [] => O
  | e :: es => if de_inum e =? 0 then O else S (unused es)
  end.

Lemma unused_le es : (unused es <= length es)%nat.
Proof. induction es as [|e es IH]; cbn; [lia|]. destruct (de_inum e =? 0); lia. Qed.

(** [e] in the place of the first unused entry, or at the end. *)
Fixpoint add_entry (e : dirent) (es : list dirent) : list dirent :=
  match es with
  | [] => [e]
  | e' :: es => if de_inum e' =? 0 then e :: es else e' :: add_entry e es
  end.

Lemma dlookup_add e es k : de_inum e <> 0 -> dlookup (key (de_name e)) es = None ->
  dlookup k (add_entry e es) = if decide (k = key (de_name e)) then Some (de_inum e) else dlookup k es.
Proof.
  intros He. induction es as [|e' es IH]; cbn [dlookup add_entry]; intros Hn.
  - destruct (decide (k = key (de_name e))) as [->|Hne]; [by rewrite decide_True|]. rewrite decide_False; [done|]. intros [_ E]. congruence.
  - destruct (decide (matches (key (de_name e)) e')) as [|Hm]; [done|]. destruct (Z.eqb_spec (de_inum e') 0) as [Hz|Hz]; cbn [dlookup].
    + rewrite (decide_False (P := matches k e')) by (by intros [? _]). destruct (decide (k = key (de_name e))) as [->|Hne].
      * by rewrite decide_True.
      * rewrite decide_False; [done|]. intros [_ E]. congruence.
    + rewrite IH by done. destruct (decide (matches k e')) as [[_ E]|]; [|done]. rewrite decide_False; [done|]. intros ->. by apply Hm.
Qed.

Lemma add_entry_lookup e es k : add_entry e es !! k = if decide (k = unused es) then Some e else es !! k.
Proof.
  revert k. induction es as [|e' es IH]; intros k; cbn [add_entry unused]; [by destruct k|].
  destruct (de_inum e' =? 0); [by destruct k|]. destruct k as [|k]; [done|]. rewrite !lookup_cons, IH.
  destruct (decide (k = unused es)), (decide (S k = S (unused es))); done || lia.
Qed.

Lemma length_add_entry e es : length (add_entry e es) = Nat.max (length es) (S (unused es)).
Proof.
  induction es as [|e' es IH]; cbn [add_entry unused length]; [done|]. destruct (de_inum e' =? 0); cbn [length]; [lia|]. rewrite IH. lia.
Qed.

Lemma get_dirent_bytes e : 0 <= de_inum e < 2 ^ 16 -> length (de_name e) = 14%nat -> get_dirent (dirent_bytes e) = e.
Proof.
  intros Hi Hl. unfold get_dirent, dirent_bytes. rewrite get16_app_l, get16_half by (cbn; lia).
  change (drop 2 (half_bytes (de_inum e) ++ de_name e)) with (de_name e). rewrite take_ge by (rewrite Hl; done).
  unfold u16. rewrite Z.mod_small by lia. by destruct e.
Qed.

(** Writing entry [k]. *)
Lemma dirents_splice l bs k n :
  length l = (16 * n)%nat -> length bs = 16%nat -> (k <= n)%nat ->
  forall j, dirents (Nat.max n (S k)) (take (16 * k) l ++ bs ++ drop (16 * k + 16) l) !! j =
    if decide (j = k) then Some (get_dirent bs) else dirents n l !! j.
Proof.
  intros Hl Hbs Hk j. assert (Ht : length (take (16 * k) l) = (16 * k)%nat) by (rewrite length_take; lia).
  destruct (decide (j < Nat.max n (S k))%nat) as [Hj|Hj].
  2: { rewrite !lookup_ge_None_2 by (rewrite length_dirents; lia). by rewrite decide_False by lia. }
  rewrite dirents_lookup by done. destruct (decide (j = k)) as [->|Hne].
  - rewrite drop_app_length' by done. by rewrite take_app_length'.
  - rewrite dirents_lookup by lia. do 2 f_equal. destruct (decide (j < k)%nat) as [Hlt|Hge].
    + rewrite drop_app_le by lia. rewrite take_app_le by (rewrite length_drop; lia).
      apply list_eq_same_length with 16%nat; [rewrite length_take, length_drop; lia..|]. intros x a b Hx.
      rewrite !lookup_take_lt, !lookup_drop, lookup_take_lt by lia. congruence.
    + rewrite drop_app_ge by lia. rewrite Ht, drop_app_ge by lia. rewrite drop_drop. do 2 f_equal. lia.
Qed.

(** ** Directories on disk *)

Record dir_ok (s : fs) (dp : nat) : Prop := {
  dd_file : file_ok s dp;
  dd_type : d_type (i_di (inodeat s dp)) = T_DIR;
  dd_size : fsize s dp mod 16 = 0;
  dd_bytes : bytes (content s dp);
}.

Definition nents (s : fs) (dp : nat) : nat := Z.to_nat (fsize s dp / 16).
Definition dents (s : fs) (dp : nat) : list dirent := dirents (nents s dp) (content s dp).

Lemma length_dents s dp : length (dents s dp) = nents s dp.
Proof. apply length_dirents. Qed.

Section devices.
Context `{Devsw}.
Context (s : fs) (dp : nat).
Hypothesis Hdir : dir_ok s dp.

Lemma dir_size : fsize s dp = 16 * Z.of_nat (nents s dp) /\ fsize s dp <= MAXFILE * BSIZE /\ length (content s dp) = (16 * nents s dp)%nat.
Proof using Hdir.
  pose proof (fo_holes _ _ (dd_file _ _ Hdir)) as [Hs _]. pose proof (dd_size _ _ Hdir) as Hm. unfold nents.
  fold (fsize s dp) in Hs. pose proof (Z.div_mod (fsize s dp) 16 ltac:(done)). assert (0 <= fsize s dp / 16) by (apply Z.div_pos; lia).
  split; [lia|]. split; [lia|]. unfold content. rewrite length_fbytes. lia.
Qed.

Lemma read_dirent_spec k e msg : dents s dp !! k = Some e -> read_dirent dp (16 * Z.of_nat k) msg s = Ret e s.
Proof using Hdir.
  intros Hk. destruct dir_size as (Hsz & Hmax & Hlen). change (MAXFILE * BSIZE) with 71680 in Hmax.
  assert (Hlt : (k < nents s dp)%nat) by (apply lookup_lt_Some in Hk; by rewrite length_dents in Hk).
  unfold dents in Hk. rewrite dirents_lookup in Hk by done. injection Hk as <-. unfold read_dirent, dirent_size.
  rewrite (bind_Ret _ _ s (16, take 16 (drop (16 * k) (content s dp))) s); [done|].
  rewrite (readi_content s dp (16 * Z.of_nat k) 16 (dd_file _ _ Hdir)) by (unfold is_u32; lia).
  rewrite (proj2 (Z.ltb_ge _ _)), (proj2 (Z.leb_gt _ _)) by lia. cbn [orb]. rewrite Z.min_l by lia. do 5 f_equal. lia.
Qed.

Lemma entry_bytes k e : dents s dp !! k = Some e -> bytes (de_name e).
Proof using Hdir.
  intros Hk. assert (Hlt : (k < nents s dp)%nat) by (apply lookup_lt_Some in Hk; by rewrite length_dents in Hk).
  unfold dents in Hk. rewrite dirents_lookup in Hk by done. injection Hk as <-. cbn. unfold bytes.
  apply Forall_take, Forall_drop, Forall_take, Forall_drop. apply Hdir.
Qed.

(** From entry [k] on. *)
Lemma dirlookup_loop_spec name fuel : forall k, bytes name -> (k <= nents s dp)%nat -> (nents s dp - k < fuel)%nat ->
  match dlookup (key name) (drop k (dents s dp)) with
  | None => dirlookup_loop fuel dp name (16 * Z.of_nat k) s = Ret None s
  | Some i => exists off, dirlookup_loop fuel dp name (16 * Z.of_nat k) s =
      (ip ← iget (i_dev (inodeat s dp)) i; mret (Some (ip, off))) s
  end.
Proof using Hdir.
  destruct dir_size as (Hsz & _ & _). unfold fsize in Hsz.
  induction fuel as [|fuel IH]; intros k Hname Hk Hf; [lia|]. cbn [dirlookup_loop]. rewrite run_geti, Hsz.
  destruct (decide (k = nents s dp)) as [->|Hne].
  - rewrite drop_ge by (rewrite length_dents; lia). cbn [dlookup]. by rewrite (proj2 (Z.ltb_ge _ _)) by lia.
  - rewrite (proj2 (Z.ltb_lt _ _)) by lia.
    destruct (lookup_lt_is_Some_2 (dents s dp) k) as [e He]; [rewrite length_dents; lia|].
    rewrite (drop_S _ _ _ He). rewrite (bind_Ret _ _ _ _ _ (read_dirent_spec k e _ He)). cbn [dlookup].
    specialize (IH (S k) Hname ltac:(lia) ltac:(lia)). replace (16 * Z.of_nat (S k)) with (16 * Z.of_nat k + dirent_size) in IH by (unfold dirent_size; lia).
    destruct (Z.eqb_spec (de_inum e) 0) as [Hz|Hz]; [by rewrite decide_False by (by intros [? _])|].
    pose proof (namecmp_key name (de_name e) Hname (entry_bytes k e He)) as Hc.
    destruct (Z.eqb_spec (namecmp name (de_name e)) 0) as [E|E].
    + rewrite decide_True by (split; [done|symmetry; by apply Hc]). by exists (16 * Z.of_nat k).
    + rewrite decide_False; [done|]. intros [_ E']. by apply E, Hc.
Qed.

Lemma dirlookup_spec name : bytes name ->
  match dlookup (key name) (dents s dp) with
  | None => dirlookup dp name s = Ret None s
  | Some i => exists off, dirlookup dp name s = (ip ← iget (i_dev (inodeat s dp)) i; mret (Some (ip, off))) s
  end.
Proof using Hdir.
  intros Hname. pose proof (dirlookup_loop_spec name (dir_fuel (d_size (i_di (inodeat s dp)))) 0 Hname ltac:(lia)) as Hs.
  unfold dirlookup. rewrite run_geti, (dd_type _ _ Hdir). cbn [negb Z.eqb Pos.eqb]. rewrite drop_0 in Hs. apply Hs.
  destruct dir_size as (Hsz & _ & _). unfold fsize in Hsz. unfold dir_fuel, dirent_size. rewrite Hsz.
  replace (16 * Z.of_nat (nents s dp) / 16) with (Z.of_nat (nents s dp)) by (rewrite Z.mul_comm, Z.div_mul by lia; done). lia.
Qed.

(** The search for an unused entry. *)
Lemma empty_dirent_spec fuel : forall k, (k <= nents s dp)%nat -> (nents s dp - k < fuel)%nat ->
  empty_dirent fuel dp (16 * Z.of_nat k) s = Ret (16 * Z.of_nat (k + unused (drop k (dents s dp)))) s.
Proof using Hdir.
  destruct dir_size as (Hsz & _ & _). unfold fsize in Hsz.
  induction fuel as [|fuel IH]; intros k Hk Hf; [lia|]. cbn [empty_dirent]. rewrite run_geti, Hsz.
  destruct (decide (k = nents s dp)) as [->|Hne].
  - rewrite drop_ge by (rewrite length_dents; lia). cbn [unused]. rewrite (proj2 (Z.ltb_ge _ _)) by lia.
    by rewrite Nat.add_0_r.
  - rewrite (proj2 (Z.ltb_lt _ _)) by lia.
    destruct (lookup_lt_is_Some_2 (dents s dp) k) as [e He]; [rewrite length_dents; lia|].
    rewrite (drop_S _ _ _ He). rewrite (bind_Ret _ _ _ _ _ (read_dirent_spec k e _ He)). cbn [unused].
    destruct (de_inum e =? 0); [by rewrite Nat.add_0_r|].
    specialize (IH (S k) ltac:(lia) ltac:(lia)). replace (16 * Z.of_nat (S k)) with (16 * Z.of_nat k + dirent_size) in IH by (unfold dirent_size; lia).
    rewrite IH. do 3 f_equal. lia.
Qed.

End devices.

(** ** Linking *)

Section link.
Context `{Devsw}.

Lemma bytes_half v : bytes (half_bytes v).
Proof. repeat constructor; apply Z.mod_pos_bound; lia. Qed.

(** [s'] is [s] with one more entry in directory [dp]. *)
Lemma written_dir s dp k e s' :
  dir_ok s dp -> k = unused (dents s dp) -> 0 <= de_inum e < 2 ^ 16 -> length (de_name e) = 14%nat -> bytes (de_name e) ->
  written s dp (16 * Z.of_nat k) (dirent_bytes e) s' ->
  dir_ok s' dp /\ dents s' dp = add_entry e (dents s dp).
Proof.
  intros Hd Hk Hi Hl Hb [W1 W2 W3 _ _ _ [W4 _]]. destruct (dir_size s dp Hd) as (Hsz & Hmax & Hlen).
  assert (Hbl : length (dirent_bytes e) = 16%nat) by (unfold dirent_bytes; rewrite length_app, Hl; done).
  pose proof (unused_le (dents s dp)) as Hle. rewrite length_dents in Hle. rewrite Hbl in W2, W3.
  replace (Z.to_nat (16 * Z.of_nat k)) with (16 * k)%nat in W3 by lia.
  assert (Hn : nents s' dp = Nat.max (nents s dp) (S k)).
  { unfold nents at 1. rewrite W2, Hsz. replace (Z.max _ _) with (Z.of_nat (Nat.max (nents s dp) (S k)) * 16) by lia.
    rewrite Z.div_mul by lia. apply Nat2Z.id. }
  split.
  - split; [done|rewrite W4; exact (dd_type _ _ Hd)| |].
    + rewrite W2, Hsz. replace (Z.max _ _) with (Z.of_nat (Nat.max (nents s dp) (S k)) * 16) by lia. apply Z.mod_mul. lia.
    + rewrite W3. unfold bytes. rewrite !Forall_app. split; [apply Forall_take, (dd_bytes _ _ Hd)|]. split; [|apply Forall_drop, (dd_bytes _ _ Hd)].
      unfold dirent_bytes. apply Forall_app. split; [apply bytes_half|done].
  - apply list_eq. intros j. rewrite add_entry_lookup, <- Hk. unfold dents. rewrite Hn, W3.
    rewrite dirents_splice by (done || lia). by rewrite get_dirent_bytes by done.
Qed.

Lemma dirlink_spec s dp name inum :
  dir_ok s dp -> bytes name -> 0 <= inum < 2 ^ 16 -> dlookup (key name) (dents s dp) = None ->
  16 * (Z.of_nat (unused (dents s dp)) + 1) <= MAXFILE * BSIZE ->
  let e := Dirent inum (strncpy name (Z.to_nat DIRSIZ)) in
  (exists s', dirlink dp name inum s = Ret 0 s' /\ written s dp (16 * Z.of_nat (unused (dents s dp))) (dirent_bytes e) s' /\
     dir_ok s' dp /\ dents s' dp = add_entry e (dents s dp)) \/
  dirlink dp name inum s = Panic "balloc: out of blocks".
Proof.
  intros Hd Hname Hi Hno Hroom e. unfold dirlink. pose proof (dirlookup_spec s dp Hd name Hname) as Hlk. rewrite Hno in Hlk.
  rewrite (bind_Ret _ _ _ _ _ Hlk), run_geti. destruct (dir_size s dp Hd) as (Hsz & Hmax & Hlen).
  pose proof (empty_dirent_spec s dp Hd (dir_fuel (d_size (i_di (inodeat s dp)))) 0 ltac:(lia)) as He. rewrite drop_0 in He.
  change (16 * Z.of_nat 0) with 0 in He. rewrite Nat.add_0_l in He.
  rewrite (bind_Ret _ _ _ _ _ (He ltac:(unfold fsize in Hsz; unfold dir_fuel, dirent_size; rewrite Hsz;
    replace (16 * Z.of_nat (nents s dp) / 16) with (Z.of_nat (nents s dp)) by (rewrite Z.mul_comm, Z.div_mul by lia; done); lia))).
  unfold u16. rewrite Z.mod_small by lia. fold e. set (k := unused (dents s dp)) in *.
  pose proof (unused_le (dents s dp)) as Hle. rewrite length_dents in Hle. fold k in Hle.
  assert (Hn : length (de_name e) = 14%nat) by apply length_strncpy.
  assert (Hbl : length (dirent_bytes e) = 16%nat) by (unfold dirent_bytes; rewrite length_app, Hn; done).
  destruct (writei_spec s dp (dirent_bytes e) (16 * Z.of_nat k) 16 (dd_file _ _ Hd)) as [(s' & E & Hw)|E]; [lia|lia|lia| |].
  - left. exists s'. rewrite (bind_Ret _ _ _ _ _ E). rewrite take_ge in Hw by lia. split; [done|]. split; [done|].
    apply (written_dir s dp k e s'); try done. by apply bytes_strncpy.
  - right. unfold mbind, kern_bind, dirent_size. by rewrite E.
Qed.

End link.

Section theorems.
Context `{Devsw}.

(** C11: Directories are maps from names to inode numbers.  In a well-formed directory
    [dirlookup] gets the inode the map gives for the name, cut to [DIRSIZ]
    bytes, or returns none; [dirlink] of a name that is not in the map adds
    exactly that binding, keeps the directory well formed and leaves all other
    files and inodes alone, unless the disk is full; of a name that is in the
    map it is refused. *)
Theorem directory_map s dp name inum :
  dir_ok s dp -> bytes name -> 0 < inum < 2 ^ 16 -> 16 * (Z.of_nat (unused (dents s dp)) + 1) <= MAXFILE * BSIZE ->
  match dlookup (key name) (dents s dp) with
  | Some i =>
      (exists off, dirlookup dp name s = (ip ← iget (i_dev (inodeat s dp)) i; mret (Some (ip, off))) s) /\
      dirlink dp name inum s = (ip ← iget (i_dev (inodeat s dp)) i; iput ip ;; mret (-1)) s
  | None =>
      dirlookup dp name s = Ret None s /\
      ((exists s', dirlink dp name inum s = Ret 0 s' /\ dir_ok s' dp /\
          (forall k, dlookup k (dents s' dp) = if decide (k = key name) then Some inum else dlookup k (dents s dp)) /\
          (forall dj, apart (sb s) (fsdisk s) (i_di (inodeat s dp)) dj ->
             fbytes (fsdisk s') dj 0 (d_size dj) = fbytes (fsdisk s) dj 0 (d_size dj)) /\
          (forall j, 0 <= j < sb_ninodes (sb s) -> j <> i_inum (inodeat s dp) ->
             dinode_at (sb s) (fsdisk s') j = dinode_at (sb s) (fsdisk s) j)) \/
       dirlink dp name inum s = Panic "balloc: out of blocks")
  end.
Proof.
  intros Hd Hname Hi Hroom. pose proof (dirlookup_spec s dp Hd name Hname) as Hlk.
  destruct (dlookup (key name) (dents s dp)) as [i|] eqn:Ek.
  - destruct Hlk as [off Hlk]. split; [by exists off|]. unfold dirlink, mbind, kern_bind in *. rewrite Hlk.
    by destruct (iget (i_dev (inodeat s dp)) i s).
  - split; [done|]. set (e := Dirent inum (strncpy name (Z.to_nat DIRSIZ))).
    assert (Hke : key (de_name e) = key name) by (unfold key; cbn; rewrite cstr_strncpy, take_take; f_equal; lia).
    destruct (dirlink_spec s dp name inum Hd Hname ltac:(lia) Ek Hroom) as [(s' & E & Hw & Hd' & He)|E]; [left|by right].
    fold e in He. exists s'. split; [done|]. split; [done|]. split; [|split].
    + intros k. rewrite He, dlookup_add; [by rewrite Hke|cbn; lia|by rewrite Hke].
    + intros dj Hdj. by destruct (wr_apart _ _ _ _ _ Hw dj Hdj) as (_ & _ & ?).
    + intros j Hj Hne. by apply (wr_inodes _ _ _ _ _ Hw).
Qed.

End theorems.

(** ** Witness: a directory with an entry [a] and an unused one *)

Definition dir_di : dinode := Dinode T_DIR 0 0 1 32 (d_addrs wit_di).
Definition dir_data : list Z := dirent_bytes (Dirent 7 (strncpy [97] 14)) ++ dirent_bytes (Dirent 0 (replicate 14 0)).
Definition dir_disk (b : Z) : block :=
  if b =? 2 then put_dinode (replicate 512 0) 64 dir_di
  else if b =? 4 then 63 :: replicate 511 0
  else if b =? 5 then dir_data ++ replicate 480 0
  else replicate 512 0.
Definition dir_fs : fs := Fs dir_disk 100 small_sb (Inode ROOTDEV 1 1 None true dir_di :: replicate 49 inode0) 0 1.

Lemma dir_wf : blocks_wf small_sb dir_disk dir_di.
Proof.
  split; [reflexivity| | |].
  - intros b Hb. change (owns dir_disk wit_di b) in Hb. apply wit_owns in Hb as ->. split; [vm_compute; done|vm_compute; reflexivity].
  - intros j k Hj Hk. change dir_di with (Dinode T_DIR 0 0 1 32 (d_addrs wit_di)).
    change (fblock dir_disk wit_di j <> 0 -> fblock dir_disk wit_di j = fblock dir_disk wit_di k -> j = k).
    rewrite !wit_fblock by lia. destruct (Z.eqb_spec j 0), (Z.eqb_spec k 0); lia.
  - intros k Hk. change (fblock dir_disk wit_di k <> 0 -> fblock dir_disk wit_di k <> 0). done.
Qed.

Lemma dir_fs_ok : dir_ok dir_fs 0.
Proof.
  split; [|reflexivity|reflexivity|].
  - split; cbn [dir_fs sb fsdisk].
    + split; [cbn; lia|reflexivity|exact small_layout].
    + split; [| |exact dir_wf].
      * intros b. unfold dir_disk. destruct (b =? 2); [reflexivity|]. destruct (b =? 4); [reflexivity|]. by destruct (b =? 5).
      * intros b Hb. change (0 <= b < 5) in Hb. assert (b = 0 \/ b = 1 \/ b = 2 \/ b = 3 \/ b = 4) as Hc by lia.
        destruct Hc as [->|[->|[->|[->| ->]]]]; vm_compute; reflexivity.
    + split; [vm_compute; done|]. intros k Hk Hlt. change (fblock dir_disk wit_di k <> 0). rewrite wit_fblock by done.
      change (k * 512 < 32) in Hlt. destruct (Z.eqb_spec k 0); lia.
    + split; [vm_compute; done..|].
      apply Forall_cons. split; [vm_compute; done|]. apply (Forall_replicate is_u32 12 0). vm_compute; done.
    + vm_compute; done.
    + vm_compute; reflexivity.
    + discriminate.
  - change (bytes dir_data). unfold bytes. repeat (apply Forall_cons; split; [vm_compute; done|]). apply Forall_nil. done.
Qed.

Lemma directory_map_witness :
  dlookup (key [97]) (dents dir_fs 0) = Some 7 /\
  (exists s', @dirlink {| dev_read _ := None; dev_write _ := None |} 0 [98] 9 dir_fs = Ret 0 s' /\
     dlookup (key [98]) (dents s' 0) = Some 9 /\ dlookup (key [97]) (dents s' 0) = Some 7).
Proof.
  split; [vm_compute; reflexivity|].
  pose proof (@directory_map {| dev_read _ := None; dev_write _ := None |} dir_fs 0 [98] 9 dir_fs_ok) as H.
  assert (En : dlookup (key [98]) (dents dir_fs 0) = None) by (vm_compute; reflexivity). rewrite En in H.
  destruct H as [_ [(s' & E & _ & Hm & _)|E]].
  - apply Forall_cons. split; [vm_compute; done|]. by apply Forall_nil.
  - lia.
  - vm_compute; done.
  - exists s'. split; [exact E|]. clear E. rewrite !Hm. by vm_compute.
  - vm_compute in E. discriminate.
Defined.
