(* ===== verification/FileIO.v ===== *)
(** Reading and writing an open file that is an inode: [fileread] and
    [filewrite] of file.c on an inode nobody has locked.  [filewrite] writes in
    pieces of [write_max] bytes; the pieces together are one write. *)

From S2P Require Import Prelude Bio CString Fs FsBlocks FsFiles FsIO FsInode FsWrite Syscall File.

(** ** Locking an idle inode *)

Record idle (s : fs) (ip : nat) : Prop := {
  idle_ref : 1 <= i_ref (inodeat s ip);
  idle_lock : i_lock (inodeat s ip) = None;
  idle_valid : i_valid (inodeat s ip) = true;
}.

Definition lock_fs (ip : nat) (s : fs) : fs := upd_inode ip (set_ilock (Some (fspid s))) s.

Section lock.
Context (s : fs) (ip : nat).
Hypothesis Hip : (ip < length (icache s))%nat.

Lemma lock_inode : inodeat (lock_fs ip s) ip = set_ilock (Some (fspid s)) (inodeat s ip).
Proof using Hip. unfold inodeat at 1. cbn. by rewrite nth_lookup, list_lookup_insert_eq. Qed.

Lemma ilock_idle : idle s ip -> ilock ip s = Ret tt (lock_fs ip s).
Proof using Hip.
  intros [H1 H2 H3]. unfold ilock. rewrite run_geti. rewrite (proj2 (Z.ltb_ge _ 1)) by lia.
  assert (E : iacquire ip s = Ret tt (lock_fs ip s)) by (unfold iacquire; by rewrite H2).
  rewrite (bind_Ret _ _ _ _ _ E), run_geti, lock_inode. cbn [i_valid set_ilock]. by rewrite H3.
Qed.

Lemma iunlock_idle d di : idle s ip ->
  iunlock ip (file_state (lock_fs ip s) ip d di) = Ret tt (file_state s ip d di).
Proof using Hip.
  intros [H1 H2 H3]. unfold iunlock, iholding.
  assert (Hl : (ip < length (icache (lock_fs ip s)))%nat) by (cbn; by rewrite length_insert).
  rewrite state_inode, lock_inode by done. cbn [i_lock i_ref set_di set_ilock].
  rewrite bool_decide_eq_true_2 by done. rewrite (proj2 (Z.ltb_ge _ 1)) by lia. cbn [negb orb].
  unfold irelease, modi, modify. f_equal. unfold upd_inode at 1. rewrite state_inode, lock_inode by done.
  unfold file_state, lock_fs, upd_inode, set_icache, set_disk. cbn. f_equal. rewrite !list_insert_insert_eq. f_equal.
  unfold set_di, set_ilock. cbn. by rewrite <- H2.
Qed.

Lemma iunlock_same : idle s ip -> iunlock ip (lock_fs ip s) = Ret tt s.
Proof using Hip.
  intros Hi. pose proof (iunlock_idle (fsdisk s) (i_di (inodeat s ip)) Hi) as E. rewrite state_id in E by done.
  rewrite <- E. f_equal. assert (Hl : (ip < length (icache (lock_fs ip s)))%nat) by (cbn; by rewrite length_insert).
  rewrite <- (state_id (lock_fs ip s) ip Hl) at 1. by rewrite lock_inode.
Qed.

Lemma lock_file_ok : file_ok s ip -> file_ok (lock_fs ip s) ip.
Proof using Hip.
  intros [[E1 E2 E3] F2 F3 F4 F5 F6 F7]. split; rewrite ?lock_inode; try done.
  split; [cbn; by rewrite length_insert|by rewrite lock_inode|done].
Qed.

Lemma lock_content : fsize (lock_fs ip s) ip = fsize s ip /\ content (lock_fs ip s) ip = content s ip.
Proof using Hip. unfold content, fsize. by rewrite lock_inode. Qed.

Lemma state_idle d di : idle s ip -> idle (file_state s ip d di) ip.
Proof using Hip. intros [H1 H2 H3]. by split; rewrite state_inode. Qed.

(** A write while holding the lock, seen from outside. *)
Lemma written_unlock off bs d di : file_ok s ip ->
  written (lock_fs ip s) ip off bs (file_state (lock_fs ip s) ip d di) -> written s ip off bs (file_state s ip d di).
Proof using Hip.
  intros Hf [W1 W2 W3 W4 W5 _ W7]. pose proof Hf as [F1 F2 F3 F4 F5 F6 F7].
  assert (Hl : (ip < length (icache (lock_fs ip s)))%nat) by (cbn; by rewrite length_insert).
  destruct lock_content as [C1 C2]. rewrite C1, C2 in *.
  assert (E : i_di (inodeat (file_state (lock_fs ip s) ip d di) ip) = di) by (by rewrite state_inode).
  assert (E' : i_di (inodeat (file_state s ip d di) ip) = di) by (by rewrite state_inode).
  assert (El : i_di (inodeat (lock_fs ip s) ip) = i_di (inodeat s ip)) by (by rewrite lock_inode).
  unfold content, fsize in *. rewrite E, El in *. rewrite lock_inode in *.
  split; unfold content, fsize; rewrite ?E'; try done.
  - destruct W1 as [[G1 G2 G3] G4 G5 G6 G7 G8 G9]. rewrite E in *. rewrite state_inode, lock_inode in * by done.
    by apply file_ok_state.
  - eauto.
Qed.

End lock.

(** ** Writes one after another *)

Lemma state_state s ip d di d' di' : (ip < length (icache s))%nat ->
  file_state (file_state s ip d di) ip d' di' = file_state s ip d' di'.
Proof.
  intros Hip. unfold file_state at 1, upd_inode. rewrite state_inode by done.
  unfold file_state, upd_inode, set_icache, set_disk. cbn. f_equal. apply list_insert_insert_eq.
Qed.

Lemma written_sb s ip off bs s' : written s ip off bs s' ->
  sb s' = sb s /\ fssize s' = fssize s /\ length (icache s') = length (icache s) /\ fspid s' = fspid s.
Proof. intros Hw. destruct (wr_state _ _ _ _ _ Hw) as (d & di & ->). cbn. by rewrite length_insert. Qed.

Lemma written_inode s ip off bs s' : (ip < length (icache s))%nat -> written s ip off bs s' ->
  i_inum (inodeat s' ip) = i_inum (inodeat s ip) /\ (idle s ip -> idle s' ip).
Proof.
  intros Hip Hw. destruct (wr_state _ _ _ _ _ Hw) as (d & di & ->). rewrite state_inode by done.
  split; [done|]. by apply state_idle.
Qed.

Lemma written_other s ip off bs s' jp : jp <> ip -> written s ip off bs s' -> inodeat s' jp = inodeat s jp.
Proof.
  intros Hne Hw. destruct (wr_state _ _ _ _ _ Hw) as (d & di & ->). unfold inodeat. cbn.
  rewrite !nth_lookup, list_lookup_insert_ne by done. done.
Qed.

Lemma length_content s ip : file_ok s ip -> Z.of_nat (length (content s ip)) = fsize s ip /\ 0 <= fsize s ip <= MAXFILE * BSIZE.
Proof.
  intros Hf. destruct (fo_holes _ _ Hf) as [Hs _]. unfold content, fsize in *. rewrite length_fbytes. lia.
Qed.

Lemma written_nil s ip off : file_ok s ip -> 0 <= off <= fsize s ip -> written s ip off [] s.
Proof.
  intros Hf Hoff. split; try done.
  - cbn. lia.
  - cbn [app length]. by rewrite Nat.add_0_r, take_drop.
  - exists (fsdisk s), (i_di (inodeat s ip)). rewrite state_id; [done|apply Hf].
Qed.

Lemma written_app s ip off a b s1 s2 :
  file_ok s ip -> 0 <= off <= fsize s ip -> written s ip off a s1 -> written s1 ip (off + Z.of_nat (length a)) b s2 ->
  written s ip off (a ++ b) s2.
Proof.
  intros Hf Hoff Ha Hb. pose proof (fe_ip _ _ (fo_env _ _ Hf)) as Hip. destruct (length_content _ _ Hf) as [Hlen _].
  destruct (written_sb _ _ _ _ _ Ha) as (Esb & _). destruct (written_inode _ _ _ _ _ Hip Ha) as [Ein _].
  pose proof Ha as [A1 A2 A3 A4 A5 A6 A7]. pose proof Hb as [B1 B2 B3 B4 B5 B6 B7]. rewrite Esb in *.
  split.
  - done.
  - rewrite B2, A2, length_app. lia.
  - rewrite B3, A3. rewrite (app_assoc (take _ _) a), take_app_length' by (rewrite length_app, length_take; lia).
    rewrite drop_app_ge by (rewrite length_app, length_take; lia). rewrite <- !app_assoc. do 3 f_equal.
    rewrite drop_drop. f_equal. rewrite !length_app, length_take. lia.
  - intros dj Hdj. destruct (A4 dj Hdj) as (P1 & P2 & P3). destruct (B4 dj P1) as (Q1 & Q2 & Q3).
    split; [done|]. split; [intros x; by rewrite Q2|congruence].
  - intros j Hj Hne. rewrite B5 by (by rewrite ?Ein). by apply A5.
  - destruct A6 as (d & di & ->), B6 as (d' & di' & ->). exists d', di'. by rewrite state_state.
  - destruct A7, B7. split; congruence.
Qed.

(** Other files are not touched. *)
Lemma written_file_ok s ip off bs s' jp :
  written s ip off bs s' -> jp <> ip -> file_ok s jp -> i_inum (inodeat s jp) <> i_inum (inodeat s ip) ->
  apart (sb s) (fsdisk s) (i_di (inodeat s ip)) (i_di (inodeat s jp)) ->
  file_ok s' jp /\ content s' jp = content s jp.
Proof.
  intros Hw Hne Hj Hin Hap. destruct (written_sb _ _ _ _ _ Hw) as (Esb & Esz & Elen & _).
  pose proof (written_other _ _ _ _ _ _ Hne Hw) as Ej. pose proof Hj as [[E1 E2 E3] F2 F3 F4 F5 F6 F7].
  pose proof (fo_disk _ _ (wr_ok _ _ _ _ _ Hw)) as [D1 D2 D3]. rewrite Esb in *.
  destruct (wr_apart _ _ _ _ _ Hw _ Hap) as ([P1 P2 P3] & _ & Hb). split.
  - split; rewrite ?Ej, ?Esb; try done.
    + split; [by rewrite Elen|by rewrite Ej|by rewrite Esb, Esz].
    + rewrite (wr_inodes _ _ _ _ _ Hw) by done. done.
  - unfold content, fsize. by rewrite Ej.
Qed.

Section file.
Context {P : Type} `{Pipes P} `{Devsw}.
Implicit Types s : kfs P.

(** A state with another file system and file [f] at another offset. *)
Definition at_off (s : kfs P) (f : nat) (x : fs) (off : Z) : kfs P :=
  Kfs x (<[f := set_off off (ftable s !!! f)]> (ftable s)) (ofiles s) (cur s) (up s) (ops s) (pipes s).

(** [f] is an open inode, idle and well formed. *)
Record inode_file (s : kfs P) (f : nat) : Prop := {
  if_f : (f < length (ftable s))%nat;
  if_type : f_type (ftable s !!! f) = FD_INODE;
  if_ok : file_ok (kfs_fs s) (f_ip (ftable s !!! f));
  if_idle : idle (kfs_fs s) (f_ip (ftable s !!! f));
}.

Lemma at_off_file s f x off : (f < length (ftable s))%nat ->
  ftable (at_off s f x off) !!! f = set_off off (ftable s !!! f).
Proof. intros Hf. cbn. by rewrite list_lookup_total_insert_eq. Qed.

Lemma at_off_at_off s f x off y off' : (f < length (ftable s))%nat ->
  at_off (at_off s f x off) f y off' = at_off s f y off'.
Proof.
  intros Hf. unfold at_off at 1. rewrite at_off_file by done. cbn. rewrite list_insert_insert_eq. done.
Qed.

Lemma same_off (l : list file) f : (f < length l)%nat -> <[f := set_off (f_off (l !!! f)) (l !!! f)]> l = l.
Proof.
  intros Hf. apply list_insert_id. rewrite list_lookup_lookup_total_lt by done. by destruct (l !!! f).
Qed.

Lemma at_off_id s f : (f < length (ftable s))%nat -> at_off s f (kfs_fs s) (f_off (ftable s !!! f)) = s.
Proof. intros Hf. unfold at_off. rewrite same_off by done. by destruct s. Qed.

Lemma run_setf_off s f off : (f < length (ftable s))%nat ->
  setf f (set_off off) s = Ret tt (at_off s f (kfs_fs s) off).
Proof.
  intros Hf. unfold setf, set_ftable, modify, at_off. do 2 f_equal. apply list_eq. intros i.
  destruct (decide (i = f)) as [->|Hne].
  - by rewrite list_lookup_alter_eq, list_lookup_insert_eq, list_lookup_lookup_total_lt by done.
  - by rewrite list_lookup_alter_ne, list_lookup_insert_ne by done.
Qed.

(** ** Pieces of a write *)

Definition with_fs (s : kfs P) (x : fs) : kfs P :=
  Kfs x (ftable s) (ofiles s) (cur s) (up s) (ops s) (pipes s).

Lemma bind_fsop {A B} (m : kern fs A) (k : A -> kern (kfs P) B) s a x :
  m (kfs_fs s) = Ret a x -> (fsop m ≫= k) s = k a (with_fs s x).
Proof. intros E. unfold mbind, kern_bind, fsop, zoom. by rewrite E. Qed.

Lemma bind_fsop_panic {A B} (m : kern fs A) (k : A -> kern (kfs P) B) s msg :
  m (kfs_fs s) = Panic msg -> (fsop m ≫= k) s = Panic msg.
Proof. intros E. unfold mbind, kern_bind, fsop, zoom. by rewrite E. Qed.

Lemma bind_getf {B} f (k : file -> kern (kfs P) B) s : (getf f ≫= k) s = k (ftable s !!! f) s.
Proof. reflexivity. Qed.

Lemma bind_ops {B} n (k : unit -> kern (kfs P) B) s :
  (add_ops n ≫= k) s = k tt (Kfs (kfs_fs s) (ftable s) (ofiles s) (cur s) (up s) (ops s + n) (pipes s)).
Proof. reflexivity. Qed.

Definition piece {B} (f : nat) (src : list Z) (n : Z) (K : Z -> kern (kfs P) B) : kern (kfs P) B :=
  begin_op ;;
  x ← getf f;
  fsop (ilock (f_ip x)) ;;
  x ← getf f;
  r ← fsop (writei (f_ip x) src (f_off x) n);
  (if 0 <? r then setf f (set_off (u32 (f_off x + r))) else mret ()) ;;
  fsop (iunlock (f_ip x)) ;;
  end_op ;;
  K r.

Lemma piece_ops {B} f src n (K : Z -> kern (kfs P) B) s :
  inode_file s f -> let ip := f_ip (ftable s !!! f) in let off := f_off (ftable s !!! f) in
  0 <= off <= fsize (kfs_fs s) ip -> 0 <= n <= Z.of_nat (length src) -> off + n <= MAXFILE * BSIZE ->
  (exists x, piece f src n K s = K n (at_off s f x (off + n)) /\
    written (kfs_fs s) ip off (take (Z.to_nat n) src) x) \/
  piece f src n K s = Panic "balloc: out of blocks".
Proof.
  intros [Hf Ht Hok Hidle] ip off Hoff Hn Hmax. fold ip in Hok, Hidle. pose proof (fe_ip _ _ (fo_env _ _ Hok)) as Hip.
  unfold piece, begin_op. rewrite bind_ops, bind_getf. cbn [ftable]. fold ip.
  rewrite (bind_fsop _ _ _ tt (lock_fs ip (kfs_fs s))) by (by apply ilock_idle). rewrite bind_getf. cbn [ftable with_fs].
  fold ip off. destruct (lock_content _ _ Hip) as [C1 C2].
  destruct (writei_spec (lock_fs ip (kfs_fs s)) ip src off n (lock_file_ok _ _ Hip Hok)) as [(x & E & Hw)|E];
    [by rewrite C1|done|done| |right; by apply bind_fsop_panic].
  left. rewrite (bind_fsop _ _ _ n x) by done. destruct (wr_state _ _ _ _ _ Hw) as (d & di & ->).
  exists (file_state (kfs_fs s) ip d di). split; [|by apply written_unlock].
  change (MAXFILE * BSIZE) with 71680 in Hmax. rewrite u32_id by (unfold is_u32; lia).
  destruct (Z.ltb_spec 0 n) as [Hpos|Hpos].
  - erewrite bind_Ret by (apply run_setf_off; exact Hf).
    rewrite (bind_fsop _ _ _ tt (file_state (kfs_fs s) ip d di)) by (by apply iunlock_idle).
    unfold end_op. rewrite bind_ops. unfold at_off, with_fs. cbn. do 2 f_equal. lia.
  - rewrite bind_mret. rewrite (bind_fsop _ _ _ tt (file_state (kfs_fs s) ip d di)) by (by apply iunlock_idle).
    unfold end_op. rewrite bind_ops. unfold at_off, with_fs. cbn [kfs_fs ftable ofiles cur up ops pipes].
    replace (off + n) with off by lia. unfold off. rewrite same_off by done. do 2 f_equal; lia.
Qed.

Lemma inode_file_written s f x off' :
  inode_file s f -> let ip := f_ip (ftable s !!! f) in
  forall off bs, written (kfs_fs s) ip off bs x -> inode_file (at_off s f x off') f.
Proof.
  intros [Hf Ht Hok Hidle] ip off bs Hw. split; rewrite ?at_off_file by done; cbn [set_off f_type f_ip kfs_fs at_off ftable].
  - by rewrite length_insert.
  - done.
  - apply (wr_ok _ _ _ _ _ Hw).
  - apply (written_inode _ _ _ _ _ (fe_ip _ _ (fo_env _ _ Hok)) Hw), Hidle.
Qed.

Lemma filewrite_loop_spec f src n fuel : forall k s,
  inode_file s f -> let ip := f_ip (ftable s !!! f) in let off := f_off (ftable s !!! f) in
  0 <= off <= fsize (kfs_fs s) ip -> 0 <= k <= n -> n = Z.of_nat (length src) -> off + (n - k) <= MAXFILE * BSIZE ->
  n - k <= write_max * (Z.of_nat fuel - 1) ->
  (exists x, filewrite_loop fuel f src n k s = Ret n (at_off s f x (off + (n - k))) /\
    written (kfs_fs s) ip off (drop (Z.to_nat k) src) x) \/
  filewrite_loop fuel f src n k s = Panic "balloc: out of blocks".
Proof.
  induction fuel as [|fuel IH]; intros k s Hs ip off Hoff Hk Hn Hmax Hfuel; change write_max with 1536 in *; [lia|].
  pose proof Hs as [Hf Ht Hok Hidle]. fold ip in Hok. cbn [filewrite_loop].
  destruct (Z.ltb_spec k n) as [Hlt|Hge].
  2: { left. exists (kfs_fs s). replace (off + (n - k)) with off by lia. unfold off at 1. rewrite at_off_id by done.
       replace k with n by lia. split; [done|]. rewrite drop_ge by lia. by apply written_nil. }
  change write_max with 1536. set (n1 := Z.min (n - k) 1536).
  destruct (piece_ops f (drop (Z.to_nat k) src) n1 (fun r =>
    if r <? 0 then mret k else if negb (r =? n1) then panic "short filewrite" else filewrite_loop fuel f src n (k + r)) s Hs)
    as [(x & E & Hw)|E]; fold ip off; [lia|rewrite length_drop; lia|lia| |by right].
  fold ip off in E, Hw. unfold piece in E. rewrite E. rewrite (proj2 (Z.ltb_ge n1 0)) by lia. rewrite Z.eqb_refl. cbn [negb].
  assert (Hlen : Z.of_nat (length (take (Z.to_nat n1) (drop (Z.to_nat k) src))) = n1) by (rewrite length_take, length_drop; lia).
  pose proof (inode_file_written s f x (off + n1) Hs off _ Hw) as Hs1.
  destruct (IH (k + n1) _ Hs1) as [(y & E' & Hw')|E']; rewrite ?at_off_file in * by done; cbn [set_off f_ip f_off kfs_fs at_off] in *;
    fold ip; [rewrite (wr_size _ _ _ _ _ Hw); lia|lia|done|lia|lia| |by right].
  left. exists y. fold ip in Hw'. rewrite at_off_at_off in E' by done. rewrite E'. split; [do 2 f_equal; lia|].
  rewrite <- (take_drop (Z.to_nat n1) (drop (Z.to_nat k) src)). rewrite drop_drop.
  replace (Z.to_nat k + Z.to_nat n1)%nat with (Z.to_nat (k + n1)) by lia.
  apply (written_app _ _ _ _ _ x); [done|done|done|by rewrite Hlen].
Qed.

Lemma filewrite_inode s f src :
  inode_file s f -> f_writable (ftable s !!! f) = true ->
  let ip := f_ip (ftable s !!! f) in let off := f_off (ftable s !!! f) in let n := Z.of_nat (length src) in
  0 <= off <= fsize (kfs_fs s) ip -> off + n <= MAXFILE * BSIZE ->
  (exists x, filewrite f src n s = Ret n (at_off s f x (off + n)) /\ written (kfs_fs s) ip off src x) \/
  filewrite f src n s = Panic "balloc: out of blocks".
Proof.
  intros Hs Hwr ip off n Hoff Hmax. pose proof Hs as [Hf Ht Hok Hidle]. unfold filewrite. rewrite bind_getf, Hwr, Ht. cbn [negb].
  assert (Hfuel : n - 0 <= write_max * (Z.of_nat (Z.to_nat (n / write_max + 2)) - 1)).
  { change write_max with 1536. pose proof (Z.div_mod n 1536 ltac:(done)). pose proof (Z.mod_pos_bound n 1536 ltac:(done)).
    assert (0 <= n / 1536) by (apply Z.div_pos; lia). lia. }
  destruct (filewrite_loop_spec f src n _ 0 s Hs Hoff ltac:(lia) eq_refl ltac:(lia) Hfuel) as [(x & E & Hw)|E].
  - left. exists x. rewrite (bind_Ret _ _ _ _ _ E), Z.eqb_refl, Z.sub_0_r. done.
  - right. unfold mbind, kern_bind. by rewrite E.
Qed.

(** A write past the end writes nothing. *)
Lemma filewrite_past s f src :
  inode_file s f -> f_writable (ftable s !!! f) = true -> src <> [] ->
  let ip := f_ip (ftable s !!! f) in let off := f_off (ftable s !!! f) in let n := Z.of_nat (length src) in
  fsize (kfs_fs s) ip < off -> is_u32 off -> n < 2 ^ 31 ->
  filewrite f src n s = Ret (-1) s.
Proof.
  intros [Hf Ht Hok Hidle] Hwr Hne ip off n Hoff Hu Hn. fold ip in Hok, Hidle. pose proof (fe_ip _ _ (fo_env _ _ Hok)) as Hip.
  assert (0 < n) by (unfold n; destruct src; [done|cbn; lia]).
  unfold filewrite. rewrite bind_getf, Hwr, Ht. cbn [negb].
  assert (exists m, Z.to_nat (n / write_max + 2) = S m) as [m ->].
  { assert (0 <= n / write_max) by (apply Z.div_pos; [lia|done]). exists (Z.to_nat (n / write_max + 1)). lia. }
  assert (E : filewrite_loop (S m) f src n 0 s = Ret 0 s).
  { cbn [filewrite_loop]. rewrite (proj2 (Z.ltb_lt 0 n)) by lia. unfold begin_op. rewrite bind_ops, bind_getf. cbn [ftable]. fold ip.
    rewrite (bind_fsop _ _ _ tt (lock_fs ip (kfs_fs s))) by (by apply ilock_idle). rewrite bind_getf. cbn [ftable with_fs]. fold ip off.
    destruct (lock_content _ _ Hip) as [C1 C2].
    rewrite (bind_fsop _ _ _ (-1) (lock_fs ip (kfs_fs s))).
    2: { apply writei_refused; [by apply lock_file_ok|done| |left; by rewrite C1]. unfold is_u32. change write_max with 1536. lia. }
    change (0 <? -1) with false. cbv iota. rewrite bind_mret.
    rewrite (bind_fsop _ _ _ tt (kfs_fs s)) by (by apply iunlock_same). unfold end_op. rewrite bind_ops. 
    change (-1 <? 0) with true. cbn iota. unfold mret, kern_ret. f_equal. destruct s. cbn. f_equal. lia. }
  rewrite (bind_Ret _ _ _ _ _ E). by rewrite (proj2 (Z.eqb_neq 0 n)) by lia.
Qed.

Lemma fileread_inode s f n :
  inode_file s f -> f_readable (ftable s !!! f) = true ->
  let ip := f_ip (ftable s !!! f) in let off := f_off (ftable s !!! f) in
  is_u32 off -> is_u32 n -> off + n < 2 ^ 32 ->
  fileread f n s =
    if fsize (kfs_fs s) ip <? off then Ret (-1, []) s
    else let m := Z.min n (fsize (kfs_fs s) ip - off) in
      Ret (m, take (Z.to_nat m) (drop (Z.to_nat off) (content (kfs_fs s) ip))) (at_off s f (kfs_fs s) (off + m)).
Proof.
  intros [Hf Ht Hok Hidle] Hrd ip off Hoff Hn Hlt. fold ip in Hok, Hidle. pose proof (fe_ip _ _ (fo_env _ _ Hok)) as Hip.
  unfold fileread. rewrite bind_getf, Hrd, Ht. cbn [negb]. fold ip.
  rewrite (bind_fsop _ _ _ tt (lock_fs ip (kfs_fs s))) by (by apply ilock_idle). rewrite bind_getf. cbn [ftable with_fs]. fold ip off.
  destruct (lock_content _ _ Hip) as [C1 C2].
  pose proof (readi_content _ ip off n (lock_file_ok _ _ Hip Hok) Hoff Hn) as E. rewrite C1, C2 in E.
  rewrite (proj2 (Z.leb_gt (2 ^ 32) (off + n))), orb_false_r in E by done. unfold is_u32 in *.
  destruct (Z.ltb_spec (fsize (kfs_fs s) ip) off) as [H1|H1]; cbn zeta in E.
  - erewrite bind_fsop by exact E. cbn [fst]. change (0 <? -1) with false. cbv iota. rewrite bind_mret.
    rewrite (bind_fsop _ _ _ tt (kfs_fs s)) by (by apply iunlock_same). unfold mret, kern_ret. f_equal. by destruct s.
  - cbn zeta. set (m := Z.min n (fsize (kfs_fs s) ip - off)) in *. erewrite bind_fsop by exact E. cbn [fst].
    destruct (length_content _ _ Hok) as [_ Hsz]. change (MAXFILE * BSIZE) with 71680 in Hsz. rewrite u32_id by (unfold is_u32; lia).
    destruct (Z.ltb_spec 0 m) as [Hpos|Hpos].
    + erewrite bind_Ret by (apply run_setf_off; exact Hf).
      rewrite (bind_fsop _ _ _ tt (kfs_fs s)) by (by apply iunlock_same). done.
    + rewrite bind_mret. rewrite (bind_fsop _ _ _ tt (kfs_fs s)) by (by apply iunlock_same).
      replace (off + m) with off by lia. unfold off. rewrite at_off_id by done. unfold mret, kern_ret. f_equal. by destruct s.
Qed.

End file.
