(* ===== verification/SwapFile.v ===== *)
(** The swap files: [createSwapFile], [removeSwapFile], [writeToSwapFile] and
    [readFromSwapFile] of fs.c, over the file system and the open file table.
    Swap.v uses swap files through an interface; here the files on the disk are
    shown to behave as that interface's reference store. *)

From S2P Require Import Prelude Bio CString Fs FsBlocks FsFiles FsIO FsInode FsWrite Syscall File Shell Sysfile FileIO Swap.

(** Accesses to swap files, and the reference store of Swap.v. *)
Inductive swap_op :=
| WriteAt (pid : Z) (bs : list Z) (off : Z)
| ReadAt (pid off n : Z).

Definition do_flat (op : swap_op) : kern (gmap Z (list Z)) (Z * list Z) :=
  match op with
  | WriteAt pid bs off => r ← Swap.writeToSwapFile pid bs off; mret (r, [])
  | ReadAt pid off n => Swap.readFromSwapFile pid off n
  end.

(** The file is open; a write is not empty, and inside the largest file or past
    the end of the file. *)
Definition op_ok (m : gmap Z (list Z)) (op : swap_op) : Prop :=
  match op with
  | WriteAt pid bs off => exists c, m !! pid = Some c /\ bs <> [] /\ is_u32 off /\ Z.of_nat (length bs) < 2 ^ 31 /\
      (off <= Z.of_nat (length c) -> off + Z.of_nat (length bs) <= MAXFILE_BYTES)
  | ReadAt pid off n => exists c, m !! pid = Some c /\ 0 <= off /\ 0 <= n /\ off + n < 2 ^ 32
  end.

Fixpoint legal (ops : list swap_op) (m : gmap Z (list Z)) : Prop :=
  match ops with
  | [] => True
  | op :: ops => op_ok m op /\ forall r m', do_flat op m = Ret r m' -> legal ops m'
  end.

Fixpoint run {S : Type} (do : swap_op -> kern S (Z * list Z)) (ops : list swap_op) : kern S (list (Z * list Z)) :=
  match ops with
  | [] => mret []
  | op :: ops => r ← do op; rs ← run do ops; mret (r :: rs)
  end.

(** ** Operations *)

Record sfs (P : Type) := Sfs {
  s_kfs : kfs P;
  swapFile : gmap Z nat;      (* p->swapFile, by p->pid; absent is null *)
}.
Arguments Sfs {P}.
Arguments s_kfs {P}.
Arguments swapFile {P}.

Section swapfile.
Context {P : Type} `{Pipes P} `{Devsw}.

(** The uninitialised buffers [name] and [path] on the stack. *)
Context (junk : list Z) (stack : cbuf).

Definition kop {A} (m : kern (kfs P) A) : kern (sfs P) A :=
  zoom s_kfs (fun k s => Sfs k (swapFile s)) m.

Definition set_swapFile (pid : Z) (f : nat) : kern (sfs P) unit :=
  modify (fun s => Sfs (s_kfs s) (<[pid := f]> (swapFile s))).

(** The path as [create] and [nameiparent] read it: up to its NUL, also where
    [itoa] wrote it past [path[14]]. *)
Definition swap_name (pid : Z) : kern (sfs P) (list Z) :=
  match swap_path pid stack with
  | Some b => mret (cstr (b <$> seq 0 18))
  | None => fun _ => Fuel                     (* undefined: digit[] out of bounds *)
  end.

Definition removeSwapFile (pid : Z) : kern (sfs P) Z :=
  path ← swap_name pid;
  fs ← gets swapFile;
  match fs !! pid with
  | None => mret (-1)
  | Some f => kop (fileclose f) ;; kop (unlink_path junk path)
  end.

Definition createSwapFile (pid : Z) : kern (sfs P) Z :=
  path ← swap_name pid;
  kop begin_op ;;
  r ← kop (fsop (create junk path T_FILE 0 0));
  match r with
  | None => panic "iunlock"                   (* iunlock(0) *)
  | Some ip =>
      kop (fsop (iunlock ip)) ;;
      f ← kop filealloc;
      match f with
      | None => panic "no slot for files on /store"
      | Some f =>
          set_swapFile pid f ;;
          kop (setf f (fun x => File FD_INODE (f_ref x) (negb (O_WRONLY =? 0)) (negb (O_RDWR =? 0)) (f_pipe x) ip 0)) ;;
          kop end_op ;;
          mret 0
      end
  end.

Definition writeToSwapFile (pid : Z) (buffer : list Z) (placeOnFile size : Z) : kern (sfs P) Z :=
  fs ← gets swapFile;
  match fs !! pid with
  | None => fun _ => Fuel                     (* undefined: null pointer *)
  | Some f => kop (setf f (set_off placeOnFile)) ;; kop (filewrite f buffer size)
  end.

Definition readFromSwapFile (pid : Z) (placeOnFile size : Z) : kern (sfs P) (Z * list Z) :=
  fs ← gets swapFile;
  match fs !! pid with
  | None => fun _ => Fuel                     (* undefined: null pointer *)
  | Some f => kop (setf f (set_off placeOnFile)) ;; kop (fileread f size)
  end.

(** ** The files behind a store *)

Implicit Types (s : sfs P) (m : gmap Z (list Z)) (pid : Z).

Definition sfile s pid : nat := swapFile s !!! pid.
Definition sip s pid : nat := f_ip (ftable (s_kfs s) !!! sfile s pid).

Record swap_open s pid (c : list Z) : Prop := {
  so_file : is_Some (swapFile s !! pid);
  so_inode : inode_file (s_kfs s) (sfile s pid);
  so_readable : f_readable (ftable (s_kfs s) !!! sfile s pid) = true;
  so_writable : f_writable (ftable (s_kfs s) !!! sfile s pid) = true;
  so_content : content (kfs_fs (s_kfs s)) (sip s pid) = c;
}.

(** The files of two processes: different open files, inodes and blocks. *)
Record swap_apart s (p q : Z) : Prop := {
  sa_file : sfile s p <> sfile s q;
  sa_ip : sip s p <> sip s q;
  sa_inum : i_inum (inodeat (kfs_fs (s_kfs s)) (sip s p)) <> i_inum (inodeat (kfs_fs (s_kfs s)) (sip s q));
  sa_blocks : apart (sb (kfs_fs (s_kfs s))) (fsdisk (kfs_fs (s_kfs s)))
    (i_di (inodeat (kfs_fs (s_kfs s)) (sip s p))) (i_di (inodeat (kfs_fs (s_kfs s)) (sip s q)));
}.

(** Every process of [m] has its swap file open, with the bytes [m] gives. *)
Record swap_rel s m : Prop := {
  sr_open pid c : m !! pid = Some c -> swap_open s pid c;
  sr_apart p q c d : m !! p = Some c -> m !! q = Some d -> p <> q -> swap_apart s p q;
}.

(** [pid]'s file after a write, at another offset. *)
Definition after s pid (x : fs) (off : Z) : sfs P := Sfs (at_off (s_kfs s) (sfile s pid) x off) (swapFile s).

Lemma after_file s pid x off g :
  (sfile s pid < length (ftable (s_kfs s)))%nat ->
  let f := ftable (s_kfs s) !!! g in let f' := ftable (s_kfs (after s pid x off)) !!! g in
  f_type f' = f_type f /\ f_ip f' = f_ip f /\ f_readable f' = f_readable f /\ f_writable f' = f_writable f.
Proof.
  intros Hf f f'. unfold f', after. cbn [s_kfs]. destruct (decide (g = sfile s pid)) as [E|Hne].
  - rewrite E, at_off_file by done. unfold f. by rewrite E.
  - cbn. by rewrite list_lookup_total_insert_ne by done.
Qed.

Lemma after_sip s pid x off q : (sfile s pid < length (ftable (s_kfs s)))%nat -> sip (after s pid x off) q = sip s q.
Proof. intros Hf. by destruct (after_file s pid x off (sfile s q) Hf) as (_ & E & _). Qed.

Section write.
Context (s : sfs P) (m : gmap Z (list Z)) (pid : Z) (c : list Z).
Context (off : Z) (bs : list Z) (x : fs) (off' : Z).
Hypothesis Hrel : swap_rel s m.
Hypothesis Hpid : m !! pid = Some c.
Hypothesis Hw : written (kfs_fs (s_kfs s)) (sip s pid) off bs x.

Let Hin : inode_file (s_kfs s) (sfile s pid) := so_inode _ _ _ (sr_open _ _ Hrel _ _ Hpid).
Let Hf := if_f _ _ Hin.
Let Hip := fe_ip _ _ (fo_env _ _ (if_ok _ _ Hin)).

Lemma after_open_self : swap_open (after s pid x off') pid (splice c (Z.to_nat off) bs).
Proof using Hrel Hpid Hw.
  pose proof (sr_open _ _ Hrel _ _ Hpid) as [O1 O2 O3 O4 O5].
  destruct (after_file s pid x off' (sfile s pid) Hf) as (E1 & E2 & E3 & E4).
  split; [done| |by etrans; [exact E3|]|by etrans; [exact E4|]|].
  - by apply (inode_file_written _ _ _ _ O2 off bs).
  - rewrite after_sip by done. cbn. rewrite (wr_content _ _ _ _ _ Hw). fold (sip s pid). by rewrite O5.
Qed.

Lemma after_open_other q d : m !! q = Some d -> q <> pid -> swap_open (after s pid x off') q d.
Proof using Hrel Hpid Hw.
  intros Hq Hne. pose proof (sr_open _ _ Hrel _ _ Hq) as [O1 O2 O3 O4 O5]. destruct O2 as [I1 I2 I3 I4].
  destruct (sr_apart _ _ Hrel pid q c d Hpid Hq) as [A1 A2 A3 A4]; [done|].
  destruct (written_file_ok _ _ _ _ _ (sip s q) Hw (not_eq_sym A2) I3 (not_eq_sym A3) A4) as [Hok Hc].
  destruct (after_file s pid x off' (sfile s q) Hf) as (E1 & E2 & E3 & E4).
  split; [done| |by etrans; [exact E3|]|by etrans; [exact E4|]|].
  - split; change (sfile (after s pid x off') q) with (sfile s q); rewrite ?E1, ?E2; fold (sip s q); try done.
    + cbn. by rewrite length_insert.
    + cbn. destruct I4 as [J1 J2 J3]. split; by rewrite (written_other _ _ _ _ _ _ (not_eq_sym A2) Hw).
  - rewrite after_sip by done. cbn. rewrite Hc. done.
Qed.

(** [f_ip] and the inodes after the write. *)
Lemma after_apart p q a b :
  m !! p = Some a -> m !! q = Some b -> p <> q -> swap_apart (after s pid x off') p q.
Proof using Hrel Hpid Hw.
  intros Hp Hq Hne. destruct (sr_apart _ _ Hrel p q a b Hp Hq Hne) as [A1 A2 A3 A4].
  destruct (written_sb _ _ _ _ _ Hw) as (Esb & _). destruct (written_inode _ _ _ _ _ Hip Hw) as [Ei _]. fold (sip s pid) in Ei.
  pose proof (wr_apart _ _ _ _ _ Hw) as Hap.
  split; rewrite ?after_sip by done; cbn [after s_kfs kfs_fs at_off]; [done|done| |].
  - destruct (decide (p = pid)) as [->|Hp'], (decide (q = pid)) as [->|Hq']; try done.
    + rewrite Ei, (written_other _ _ _ _ _ _ (not_eq_sym A2) Hw). done.
    + rewrite Ei, (written_other _ _ _ _ _ _ A2 Hw). done.
    + destruct (sr_apart _ _ Hrel pid p c a Hpid Hp) as [_ B2 _ _]; [done|].
      destruct (sr_apart _ _ Hrel pid q c b Hpid Hq) as [_ C2 _ _]; [done|].
      by rewrite (written_other _ _ _ _ _ _ (not_eq_sym B2) Hw), (written_other _ _ _ _ _ _ (not_eq_sym C2) Hw).
  - rewrite Esb. destruct (decide (p = pid)) as [->|Hp'].
    { rewrite (written_other _ _ _ _ _ _ (not_eq_sym A2) Hw). by destruct (Hap _ A4). }
    destruct (sr_apart _ _ Hrel pid p c a Hpid Hp) as [_ B2 _ B4]; [done|].
    rewrite (written_other _ _ _ _ _ _ (not_eq_sym B2) Hw).
    destruct (Hap _ B4) as (B5 & B6 & _). destruct (decide (q = pid)) as [->|Hq'].
    + pose proof (wr_ok _ _ _ _ _ Hw) as [_ F2 F3 _ _ _ _]. rewrite Esb in *.
      split; [apply F2|done|]. intros y Hy Hy'. by apply (ap_own _ _ _ _ B5 y).
    + destruct (sr_apart _ _ Hrel pid q c b Hpid Hq) as [_ C2 _ C4]; [done|].
      rewrite (written_other _ _ _ _ _ _ (not_eq_sym C2) Hw). destruct (Hap _ C4) as ([C5 C6 _] & C7 & _).
      split; [done|done|]. intros y. rewrite C7, B6. apply A4.
Qed.

Lemma after_rel : swap_rel (after s pid x off') (<[pid := splice c (Z.to_nat off) bs]> m).
Proof using Hrel Hpid Hw.
  assert (Hdom : forall q d, <[pid := splice c (Z.to_nat off) bs]> m !! q = Some d -> exists d', m !! q = Some d').
  { intros q d Hq. destruct (decide (q = pid)) as [->|Hne]; [eauto|]. rewrite lookup_insert_ne in Hq by done. eauto. }
  split.
  - intros q d Hq. destruct (decide (q = pid)) as [->|Hne].
    + rewrite lookup_insert_eq in Hq. injection Hq as <-. apply after_open_self.
    + rewrite lookup_insert_ne in Hq by done. by apply after_open_other.
  - intros p q a b (a' & Ha)%Hdom (b' & Hb)%Hdom. by apply (after_apart p q a' b').
Qed.

End write.

(** ** Runs *)

Definition do_file (op : swap_op) : kern (sfs P) (Z * list Z) :=
  match op with
  | WriteAt pid bs off => r ← writeToSwapFile pid bs off (Z.of_nat (length bs)); mret (r, [])
  | ReadAt pid off n => readFromSwapFile pid off n
  end.

Lemma run_kop_setf {B} s pid f off (k : unit -> kern (sfs P) B) : swapFile s !! pid = Some f ->
  (f < length (ftable (s_kfs s)))%nat ->
  (kop (setf f (set_off off)) ≫= k) s = k tt (after s pid (kfs_fs (s_kfs s)) off).
Proof.
  intros E Hf. unfold after, sfile. rewrite (lookup_total_correct _ _ _ E).
  apply bind_Ret. unfold kop. erewrite zoom_Ret by (by apply run_setf_off). done.
Qed.

Lemma bind_kop {A B} (x : kern (kfs P) A) (k : A -> kern (sfs P) B) s a t :
  x (s_kfs s) = Ret a t -> (kop x ≫= k) s = k a (Sfs t (swapFile s)).
Proof. intros E. unfold mbind, kern_bind, kop, zoom. by rewrite E. Qed.

(** Setting the offset leaves the file open. *)
Lemma after_set_off s m pid c off : swap_rel s m -> m !! pid = Some c -> 
  swap_rel (after s pid (kfs_fs (s_kfs s)) off) m.
Proof.
  intros Hr Hp. pose proof (sr_open _ _ Hr _ _ Hp) as [_ O2 _ _ O5].
  assert (E : m = <[pid := splice c (Z.to_nat 0) []]> m) by (rewrite insert_id; [done|]; rewrite Hp; reflexivity).
  rewrite E. apply after_rel; [done|done|]. apply written_nil; [apply O2|].
  destruct (length_content _ _ (if_ok _ _ O2)) as [_ Hb]. fold (sip s pid) in Hb. lia.
Qed.

Lemma after_after s pid x off y off' : (sfile s pid < length (ftable (s_kfs s)))%nat ->
  Sfs (at_off (s_kfs (after s pid x off)) (sfile s pid) y off') (swapFile s) = after s pid y off'.
Proof. intros Hf. unfold after at 1. cbn [s_kfs]. by rewrite at_off_at_off. Qed.

Lemma write_op_refines s m pid bs off : swap_rel s m -> op_ok m (WriteAt pid bs off) ->
  (exists r s' m', do_flat (WriteAt pid bs off) m = Ret r m' /\ do_file (WriteAt pid bs off) s = Ret r s' /\ swap_rel s' m') \/
  do_file (WriteAt pid bs off) s = Panic "balloc: out of blocks".
Proof.
  intros Hr (c & Hp & Hne & Hoff & Hlen & Hmax). pose proof (sr_open _ _ Hr _ _ Hp) as [[f Ef] O2 O3 O4 O5].
  assert (Es : sfile s pid = f) by (by apply lookup_total_correct). pose proof (if_f _ _ O2) as Hf. pose proof Hf as Hff. rewrite Es in Hff.
  destruct (length_content _ _ (if_ok _ _ O2)) as [Hl Hb]. fold (sip s pid) in Hl, Hb. rewrite O5 in Hl.
  set (s1 := after s pid (kfs_fs (s_kfs s)) off).
  pose proof (sr_open _ _ (after_set_off s m pid c off Hr Hp) _ _ Hp) as [_ Q2 _ Q4 Q5]. fold s1 in Q2, Q4, Q5.
  assert (Eo : f_off (ftable (s_kfs s1) !!! f) = off) by (unfold s1, after; cbn [s_kfs]; by rewrite Es, at_off_file by done).
  assert (Ei : f_ip (ftable (s_kfs s1) !!! f) = sip s pid) by (rewrite <- Es; apply after_sip; done).
  change (sfile s1 pid) with (sfile s pid) in Q2, Q4. rewrite Es in Q2, Q4.
  cbn [do_file do_flat]. unfold writeToSwapFile. rewrite bind_bind, bind_gets, Ef, bind_bind, (run_kop_setf s pid f off _ Ef Hff).
  fold s1. cbn [Swap.writeToSwapFile flat_store]. unfold mbind at 1, kern_bind at 1. rewrite Hp.
  destruct (Z.lt_ge_cases (Z.of_nat (length c)) off) as [Hh|Hh].
  - left. exists (-1, []), s1, m. rewrite (proj2 (Z.ltb_lt _ _) Hh). cbn [orb]. split; [done|]. split; [|by apply (after_set_off s m pid c)].
    erewrite bind_kop by (apply filewrite_past; [done|done|done|rewrite Eo, Ei; cbn; lia|rewrite Eo; done|done]).
    done.
  - specialize (Hmax ltac:(lia)). rewrite (proj2 (Z.ltb_ge (Z.of_nat (length c)) off)) by lia.
    rewrite (proj2 (Z.ltb_ge MAXFILE_BYTES _)) by lia. cbn [orb].
    destruct (filewrite_inode (s_kfs s1) f bs Q2 Q4) as [(x & E & Hw)|E]; rewrite ?Eo, ?Ei in *.
    + change (kfs_fs (s_kfs s1)) with (kfs_fs (s_kfs s)). unfold is_u32 in Hoff. lia.
    + exact Hmax.
    + left. exists (Z.of_nat (length bs), []), (after s pid x (off + Z.of_nat (length bs))), (<[pid := splice c (Z.to_nat off) bs]> m).
      split; [done|]. split; [|by apply after_rel].
      erewrite bind_kop by exact E. rewrite <- Es. change (swapFile s1) with (swapFile s). unfold s1. by rewrite after_after.
    + right. unfold mbind, kern_bind, kop, zoom. by rewrite E.
Qed.

Lemma read_op_refines s m pid off n : swap_rel s m -> op_ok m (ReadAt pid off n) ->
  exists r s' m', do_flat (ReadAt pid off n) m = Ret r m' /\ do_file (ReadAt pid off n) s = Ret r s' /\ swap_rel s' m'.
Proof.
  intros Hr (c & Hp & Hoff & Hn & Hlt). pose proof (sr_open _ _ Hr _ _ Hp) as [[f Ef] O2 O3 O4 O5].
  assert (Es : sfile s pid = f) by (by apply lookup_total_correct). pose proof (if_f _ _ O2) as Hf. pose proof Hf as Hff. rewrite Es in Hff.
  destruct (length_content _ _ (if_ok _ _ O2)) as [Hl Hb]. fold (sip s pid) in Hl, Hb. rewrite O5 in Hl.
  set (s1 := after s pid (kfs_fs (s_kfs s)) off).
  pose proof (sr_open _ _ (after_set_off s m pid c off Hr Hp) _ _ Hp) as [_ Q2 Q3 _ Q5]. fold s1 in Q2, Q3, Q5.
  assert (Eo : f_off (ftable (s_kfs s1) !!! f) = off) by (unfold s1, after; cbn [s_kfs]; by rewrite Es, at_off_file by done).
  assert (Ei : f_ip (ftable (s_kfs s1) !!! f) = sip s pid) by (rewrite <- Es; apply after_sip; done).
  change (sfile s1 pid) with (sfile s pid) in Q2, Q3. rewrite Es in Q2, Q3.
  cbn [do_file do_flat]. unfold readFromSwapFile. rewrite bind_gets, Ef, (run_kop_setf s pid f off _ Ef Hff).
  fold s1. cbn [Swap.readFromSwapFile flat_store]. rewrite Hp.
  pose proof (fileread_inode (s_kfs s1) f n Q2 Q3) as E. cbn zeta in E. rewrite Eo, Ei in E. unfold is_u32 in E.
  specialize (E ltac:(lia) ltac:(lia) Hlt). change (kfs_fs (s_kfs s1)) with (kfs_fs (s_kfs s)) in E. rewrite O5 in E. rewrite <- Hl in E.
  destruct (Z.ltb_spec (Z.of_nat (length c)) off) as [Hh|Hh].
  - exists (-1, []), s1, m. split; [done|]. split; [|by apply (after_set_off s m pid c)].
    unfold kop. by erewrite zoom_Ret by exact E.
  - set (k := Z.min n (Z.of_nat (length c) - off)) in E.
    assert (Ek : take (Z.to_nat n) (drop (Z.to_nat off) c) = take (Z.to_nat k) (drop (Z.to_nat off) c)).
    { unfold k. destruct (Z.min_spec n (Z.of_nat (length c) - off)) as [[_ ->]|[? ->]]; [done|].
      rewrite !take_ge; [done|rewrite length_drop; lia..]. }
    eexists _, (after s pid (kfs_fs (s_kfs s)) (off + k)), m. split; [reflexivity|]. split; [|by apply (after_set_off s m pid c)].
    unfold kop. erewrite zoom_Ret by exact E. rewrite <- Es. change (swapFile s1) with (swapFile s). unfold s1. rewrite after_after by done.
    do 2 f_equal; [|by rewrite Ek]. rewrite Ek, length_take, length_drop. lia.
Qed.

(** C12: Swap.v's reference store is what the swap files on the disk implement:
    along any sequence of reads and writes of open swap files (a write inside
    the largest file, or past the end of the file), every call returns what the
    store returns and the files keep holding the store's bytes, unless the disk
    has no free block left.  Holes are refused, and no write reaches another
    process's file. *)
Theorem swap_files_refine ops s m :
  swap_rel s m -> legal ops m ->
  (exists rs s' m', run do_flat ops m = Ret rs m' /\ run do_file ops s = Ret rs s' /\ swap_rel s' m') \/
  run do_file ops s = Panic "balloc: out of blocks".
Proof.
  revert s m. induction ops as [|op ops IH]; intros s m Hr Hl; [left; by exists [], s, m|].
  destruct Hl as [Hop Hl]. cbn [run].
  assert (Hstep : (exists r s' m', do_flat op m = Ret r m' /\ do_file op s = Ret r s' /\ swap_rel s' m') \/
    do_file op s = Panic "balloc: out of blocks").
  { destruct op as [pid bs off|pid off n]; [by apply write_op_refines|left; by apply read_op_refines]. }
  destruct Hstep as [(r & s' & m' & E1 & E2 & Hr')|E]; [|right; unfold mbind, kern_bind; by rewrite E].
  destruct (IH s' m' Hr' (Hl r m' E1)) as [(rs & s2 & m2 & F1 & F2 & Hr2)|F].
  - left. exists (r :: rs), s2, m2. rewrite (bind_Ret _ _ _ _ _ E1), (bind_Ret _ _ _ _ _ E2).
    by rewrite (bind_Ret _ _ _ _ _ F1), (bind_Ret _ _ _ _ _ F2).
  - right. rewrite (bind_Ret _ _ _ _ _ E2). unfold mbind, kern_bind. by rewrite F.
Qed.

End swapfile.

(** ** An instance of the theorem *)

#[local] Existing Instance no_devices.
#[local] Instance no_pipes : Pipes unit := {|
  pipe_new := mret 0; pipeclose _ _ := mret (); piperead _ _ := mret (-1, []); pipewrite _ _ _ := mret (-1) |}.

Definition wit_sfs : sfs unit :=
  Sfs (Kfs wit_fs (File FD_INODE 1 true true 0 0 0 :: replicate 99 file0) [] 0 (Uproc (fun _ => 0) 0 0 0 3) 0 tt) {[3 := 0%nat]}.
Definition wit_store : gmap Z (list Z) := {[3 := [104; 105; 33]]}.

Lemma wit_swap_rel : swap_rel wit_sfs wit_store.
Proof.
  assert (Hp : forall pid c, wit_store !! pid = Some c -> pid = 3 /\ c = [104; 105; 33]).
  { intros pid c Hc. unfold wit_store in Hc. apply lookup_singleton_Some in Hc as [<- <-]. done. }
  split.
  - intros pid c [-> ->]%Hp. split; [by exists 0%nat| |done|done|vm_compute; reflexivity].
    split; [vm_compute; lia|done|exact wit_file_ok|]. by split.
  - intros p q c d [-> _]%Hp [-> _]%Hp. done.
Qed.

Lemma swap_files_refine_witness :
  exists s', run do_file [WriteAt 3 [97; 98] 2; ReadAt 3 1 3; WriteAt 3 [1] 10] wit_sfs =
    Ret [(2, []); (3, [105; 97; 98]); (-1, [])] s' /\ swap_rel s' (<[3 := [104; 105; 97; 98]]> wit_store).
Proof.
  destruct (swap_files_refine [WriteAt 3 [97; 98] 2; ReadAt 3 1 3; WriteAt 3 [1] 10] wit_sfs wit_store wit_swap_rel)
    as [(rs & s' & m' & E1 & E2 & Hr)|E].
  - split; [exists [104; 105; 33]; by vm_compute|]. intros r m' E. vm_compute in E. injection E as <- <-.
    split; [exists [104; 105; 97; 98]; by vm_compute|]. intros r m' E. vm_compute in E. injection E as <- <-.
    split; [exists [104; 105; 97; 98]; by vm_compute|]. done.
  - vm_compute in E1. injection E1 as <- <-. exists s'. split; [exact E2|exact Hr].
  - vm_compute in E. discriminate.
Defined.
