(* ===== verification/Exec.v ===== *)
(** Running a program: [exec] (exec.c) and [loaduvm] (vm.c).

    The state joins the paging machine of Swap.v, the file system of Fs.v and the
    fields of the process that [exec] replaces.  The swap file is behind the
    interface of Swap.v; SwapFile.v shows that writing it leaves other files as
    they are.  The theorems say what the new program finds in memory: the bytes
    of its file, and on its stack the arguments of [main]. *)

From S2P Require Import Prelude Memory Bio Kalloc Vm Space Swap Uvm CString Fs FsBlocks FsFiles FsIO FsInode FsWrite Syscall Sysfile.

(** ** elf.h *)

Definition ELF_MAGIC : Z := 0x464C457F.
Definition ELF_PROG_LOAD : Z := 1.

Record elfhdr := Elfhdr { e_magic : Z; e_entry : Z; e_phoff : Z; e_phnum : Z }.
Record proghdr := Proghdr { ph_type : Z; ph_off : Z; ph_vaddr : Z; ph_paddr : Z; ph_filesz : Z; ph_memsz : Z }.

Definition elfhdr_size : Z := 52.
Definition proghdr_size : Z := 32.

Definition get_elfhdr (d : list Z) : elfhdr := Elfhdr (get32 d 0) (get32 d 24) (get32 d 28) (get16 d 44).
Definition get_proghdr (d : list Z) : proghdr :=
  Proghdr (get32 d 0) (get32 d 4) (get32 d 8) (get32 d 12) (get32 d 16) (get32 d 20).

(** ** copyout from bytes that are not in kernel memory

    The strings of [argv] are in the caller's user memory and [ustack] is on the
    kernel stack, so their bytes are given. *)

Fixpoint copyout_bytes_loop (fuel : nat) (pgdir va : Z) (bs : list Z) : kern kmem Z :=
  let len := Z.of_nat (length bs) in
  if len <=? 0 then mret 0
  else
    match fuel with
    | O => fun _ => Fuel
    | S fuel =>
        let va0 := PGROUNDDOWN va in
        pa0 ← uva2ka pgdir va0;
        if pa0 =? 0 then mret (-1)
        else
          let n := PGSIZE - (va - va0) in
          let n := if len <? n then len else n in
          modify (with_mem (fun m => put_bytes m (pa0 + (va - va0)) (take (Z.to_nat n) bs))) ;;
          copyout_bytes_loop fuel pgdir (u32 (va0 + PGSIZE)) (drop (Z.to_nat n) bs)
    end.

Definition copyout_bytes (pgdir va : Z) (bs : list Z) : kern kmem Z :=
  copyout_bytes_loop (length bs) pgdir va bs.

(** ** The user stack *)

(** [for(argc = 0; argv[argc]; argc++)]: the pointers of [ustack[3+argc]] on and
    the stack pointer; [None] is [goto bad]. *)
Fixpoint push_args (argv : list (list Z)) (pgdir argc sp : Z) : kern kmem (option (list Z * Z)) :=
  match argv with
  | [] => mret (Some ([], sp))
  | a :: argv =>
      if Z.of_nat MAXARG <=? argc then mret None
      else
        let sp := Z.land (u32 (sp - (strlen a + 1))) (Z.lnot 3) in
        r ← copyout_bytes pgdir sp (cstr a ++ [0]);
        if r <? 0 then mret None
        else
          t ← push_args argv pgdir (argc + 1) sp;
          mret (match t with Some (l, sp') => Some (sp :: l, sp') | None => None end)
  end.

Definition words (l : list Z) : list Z := mjoin (word_bytes <$> l).

(** The argument strings and [ustack]; the new stack pointer. *)
Definition setup_stack (pgdir sz : Z) (argv : list (list Z)) : kern kmem (option Z) :=
  t ← push_args argv pgdir 0 sz;
  match t with
  | None => mret None
  | Some (ptrs, sp) =>
      let argc := Z.of_nat (length ptrs) in
      let ustack := [0xffffffff; argc; u32 (sp - (argc + 1) * 4)] ++ ptrs ++ [0] in
      let sp := u32 (sp - (3 + argc + 1) * 4) in
      r ← copyout_bytes pgdir sp (words ustack);
      mret (if r <? 0 then None else Some sp)
  end.

(** ** exec *)

(** What follows the last ['/'] of the path. *)
Fixpoint last_from (s last : list Z) : list Z :=
  match s with
  | [] => last
  | c :: s => if c =? 0 then last else last_from s (if c =? slash then s else last)
  end.
Definition program_name (path : list Z) : list Z := safestrcpy (last_from path path) 16.

Record xstate (F : Type) := Xstate {
  x_m : machine F;
  x_fs : fs;
  x_ops : Z;                  (* begin_op without its end_op *)
  x_sz : Z;                   (* curproc->sz *)
  x_eip : Z;                  (* curproc->tf->eip *)
  x_esp : Z;                  (* curproc->tf->esp *)
  x_name : list Z;            (* curproc->name *)
}.
Arguments Xstate {F}.
Arguments x_m {F}.
Arguments x_fs {F}.
Arguments x_ops {F}.
Arguments x_sz {F}.
Arguments x_eip {F}.
Arguments x_esp {F}.
Arguments x_name {F}.

Definition set_pgdir (v : Z) (p : proc) : proc :=
  Proc (p_pid p) v (p_parent p) (VPA_Swap p) (VPA_Memory p) (size_mem p) (q_head p) (q_tail p).

Section exec.
Context {F : Type} `{SwapStore F} `{Devsw}.
Context (kend data : Z) (pol : policy).

Local Abbreviation X := (kern (xstate F)).

Definition mop {A} (m : kern (machine F) A) : X A :=
  zoom x_m (fun v s => Xstate v (x_fs s) (x_ops s) (x_sz s) (x_eip s) (x_esp s) (x_name s)) m.
Definition fop {A} (m : kern fs A) : X A :=
  zoom x_fs (fun v s => Xstate (x_m s) v (x_ops s) (x_sz s) (x_eip s) (x_esp s) (x_name s)) m.
Definition kmop {A} (m : kern kmem A) : X A := mop (lift_km m).
Definition add_op (n : Z) : X unit :=
  modify (fun s => Xstate (x_m s) (x_fs s) (x_ops s + n) (x_sz s) (x_eip s) (x_esp s) (x_name s)).

(** [for(i = 0; i < sz; i += PGSIZE)]. *)
Fixpoint loaduvm_loop (fuel : nat) (ip : nat) (pgdir addr offset sz i : Z) : X Z :=
  match fuel with
  | O => fun _ => Fuel
  | S fuel =>
      if i <? sz then
        pte ← kmop (walkpgdir pgdir (u32 (addr + i)) false);
        if pte =? 0 then panic "loaduvm: address should exist"
        else
          e ← kmop (load32 pte);
          let pa := PTE_ADDR e in
          let n := if sz - i <? PGSIZE then sz - i else PGSIZE in
          r ← fop (readi ip (u32 (offset + i)) n);
          kmop (modify (with_mem (fun m => put_bytes m (P2V pa) r.2))) ;;
          if negb (r.1 =? n) then mret (-1)
          else loaduvm_loop fuel ip pgdir addr offset sz (u32 (i + PGSIZE))
      else mret 0
  end.

Definition loaduvm (pgdir addr : Z) (ip : nat) (offset sz : Z) : X Z :=
  if negb (addr mod PGSIZE =? 0) then panic "loaduvm: addr must be page aligned"
  else loaduvm_loop (Z.to_nat (sz / PGSIZE) + 2) ip pgdir addr offset sz 0.

(** The [n] program headers from [off]; [None] is [goto bad]. *)
Fixpoint load_segments (n : nat) (ip : nat) (pgdir off sz : Z) : X (option Z) :=
  match n with
  | O => mret (Some sz)
  | S n =>
      r ← fop (readi ip (u32 off) proghdr_size);
      if negb (r.1 =? proghdr_size) then mret None
      else
        let ph := get_proghdr r.2 in
        if negb (ph_type ph =? ELF_PROG_LOAD) then load_segments n ip pgdir (i32 (off + proghdr_size)) sz
        else if ph_memsz ph <? ph_filesz ph then mret None
        else if u32 (ph_vaddr ph + ph_memsz ph) <? ph_vaddr ph then mret None
        else
          sz ← mop (allocuvm kend pol pgdir sz (u32 (ph_vaddr ph + ph_memsz ph)));
          if sz =? 0 then mret None
          else if negb (ph_vaddr ph mod PGSIZE =? 0) then mret None
          else
            r ← loaduvm pgdir (ph_vaddr ph) ip (ph_off ph) (ph_filesz ph);
            if r <? 0 then mret None
            else load_segments n ip pgdir (i32 (off + proghdr_size)) sz
  end.

(** The swap file of the new image. *)
Definition renew_swap : X unit :=
  me ← mop (gets curproc);
  pr ← mop (getp me);
  if p_pid pr =? 1 then
    r ← mop (initFreshSwap pol me);
    mop (assert_panic (r =? 0) "initFreshSwap(curproc) == 0")
  else
    r ← mop (restoreSwap me);
    mop (assert_panic (r =? 0) "restoreSwap(curproc) == 0") ;;
    r ← mop (destroySwap me);
    mop (assert_panic (r =? 0) "destroySwap(curproc) == 0") ;;
    r ← mop (initFreshSwap pol me);
    mop (assert_panic (r =? 0) "initFreshSwap(curproc) == 0").

(** [bad:] *)
Definition exec_bad (pgdir : Z) (ip : option nat) : X Z :=
  (if pgdir =? 0 then mret () else mop (freevm kend pol pgdir)) ;;
  match ip with
  | Some ip => fop (iunlockput ip) ;; add_op (-1) ;; mret (-1)
  | None => mret (-1)
  end.

(** Commit to the user image; [switchuvm] loads the page table. *)
Definition commit_image (pgdir sz entry sp : Z) (name : list Z) : X unit :=
  me ← mop (gets curproc);
  pr ← mop (getp me);
  mop (setp me (set_pgdir pgdir)) ;;
  modify (fun s => Xstate (x_m s) (x_fs s) (x_ops s) sz entry sp name) ;;
  mop (lcr3 (V2P pgdir)) ;;
  mop (freevm kend pol (p_pgdir pr)).

Definition exec (path : list Z) (argv : list (list Z)) : X Z :=
  add_op 1 ;;
  r ← fop (namei path);
  match r with
  | None => add_op (-1) ;; mret (-1)
  | Some ip =>
      fop (ilock ip) ;;
      r ← fop (readi ip 0 elfhdr_size);
      let elf := get_elfhdr r.2 in
      if negb (r.1 =? elfhdr_size) then exec_bad 0 (Some ip)
      else if negb (e_magic elf =? ELF_MAGIC) then exec_bad 0 (Some ip)
      else
        pgdir ← mop (setupkvm kend data pol);
        if pgdir =? 0 then exec_bad 0 (Some ip)
        else
          renew_swap ;;
          t ← load_segments (Z.to_nat (e_phnum elf)) ip pgdir (i32 (e_phoff elf)) PGSIZE;
          match t with
          | None => exec_bad pgdir (Some ip)
          | Some sz =>
              fop (iunlockput ip) ;;
              add_op (-1) ;;
              let sz := PGROUNDUP sz in
              sz ← mop (allocuvm kend pol pgdir sz (u32 (sz + 2 * PGSIZE)));
              if sz =? 0 then exec_bad pgdir None
              else
                kmop (clearpteu pgdir (sz - 2 * PGSIZE)) ;;
                t ← kmop (setup_stack pgdir sz argv);
                match t with
                | None => exec_bad pgdir None
                | Some sp =>
                    commit_image pgdir sz (e_entry elf) sp (program_name path) ;;
                    mret 0
                end
          end
  end.

End exec.

(** ** The stack of the new program *)

(** The two pages [exec] adds below [sz]: the stack, in frame [kp], and under it
    the page user code cannot touch. *)
Record stack_pages (kend : Z) (m : mem) (pgdir sz kp : Z) : Prop := {
  sk_pt : pt_wf kend m pgdir [];
  sk_sz : sz mod 4096 = 0 /\ 8192 <= sz <= KERNBASE;
  sk_stack : let e := pte_of m pgdir (sz - 4096) in
    has e PTE_P = true /\ has e PTE_U = true /\ P2V (PTE_ADDR e) = kp;
  sk_guard : let e := pte_of m pgdir (sz - 8192) in has e PTE_P = true /\ has e PTE_U = false;
  sk_kp : KERNBASE <= kp /\ kp mod 4096 = 0;
  sk_dir : kp <> pgdir;
  sk_tables d : 0 <= d < 1024 -> present_pde m pgdir d = true -> kp <> table_of m pgdir d;
}.

(** Where the strings go: the pointers, and the lowest one. *)
Definition down (sp : Z) (a : list Z) : Z := (sp - (strlen a + 1)) / 4 * 4.
Fixpoint place (sp : Z) (argv : list (list Z)) : list Z :=
  match argv with [] => [] | a :: argv => down sp a :: place (down sp a) argv end.
Fixpoint lowest (sp : Z) (argv : list (list Z)) : Z :=
  match argv with [] => sp | a :: argv => lowest (down sp a) argv end.

Lemma length_place argv : forall sp, length (place sp argv) = length argv.
Proof. induction argv as [|a argv IH]; intros sp; cbn; [done|]. by rewrite IH. Qed.

Lemma strlen_nonneg a : 0 <= strlen a.
Proof. unfold strlen. rewrite strlen_from_spec. lia. Qed.

Lemma length_string a : Z.of_nat (length (cstr a ++ [0])) = strlen a + 1.
Proof. rewrite length_app. unfold strlen. rewrite strlen_from_spec. cbn. lia. Qed.

Lemma down_le sp a : down sp a + (strlen a + 1) <= sp.
Proof. unfold down. pose proof (Z.mul_div_le (sp - (strlen a + 1)) 4 ltac:(lia)). lia. Qed.

Lemma lowest_le argv : forall sp, lowest sp argv <= sp.
Proof.
  induction argv as [|a argv IH]; intros sp; cbn; [lia|]. specialize (IH (down sp a)).
  pose proof (down_le sp a). pose proof (strlen_nonneg a). lia.
Qed.

Lemma Forall2_both {A B} (R Q : A -> B -> Prop) l k :
  Forall2 R l k -> Forall2 Q l k -> Forall2 (fun a b => R a b /\ Q a b) l k.
Proof. induction 1; inversion 1; subst; constructor; auto. Qed.

(** Each string lies between the ones after it and the ones before it. *)
Lemma place_range argv : forall sp,
  Forall2 (fun a q => lowest sp argv <= q /\ q + (strlen a + 1) <= sp /\ q mod 4 = 0) argv (place sp argv).
Proof.
  induction argv as [|a argv IH]; intros sp; cbn [place lowest]; constructor.
  - split; [apply lowest_le|]. split; [apply down_le|]. unfold down. apply Z.mod_mul. lia.
  - eapply Forall2_impl; [apply IH|]. intros b q (H1 & H2 & H3). pose proof (down_le sp a). pose proof (strlen_nonneg a). lia.
Qed.

Lemma land_down sp a : 0 <= sp - (strlen a + 1) < 2 ^ 32 -> Z.land (u32 (sp - (strlen a + 1))) (Z.lnot 3) = down sp a.
Proof.
  intros Hs. rewrite u32_id by (unfold is_u32; lia). unfold down. rewrite <- Z.ldiff_land.
  change 3 with (Z.ones 2). rewrite Z.ldiff_ones_r by lia. rewrite Z.shiftr_div_pow2, Z.shiftl_mul_pow2 by lia. done.
Qed.

Section stack.
Context (kend pgdir sz kp : Z).

(** The kernel address of a user address of the stack page. *)
Definition ka (va : Z) : Z := kp + (va - (sz - 4096)).

Lemma pgrounddown_page b va : b mod 4096 = 0 -> 0 <= b <= KERNBASE -> b <= va < b + 4096 -> PGROUNDDOWN va = b.
Proof using Type.
  intros Hm Hr Hv. rewrite PGROUNDDOWN_spec by (unfold is_u32, KERNBASE in *; lia).
  assert (E : va / 4096 = b / 4096).
  { symmetry. apply Z.div_unique with (va - b); [lia|]. pose proof (Z.div_mod b 4096). lia. }
  rewrite E. pose proof (Z.div_mod b 4096). lia.
Qed.

Lemma copyout_stack k va bs : stack_pages kend (km_mem k) pgdir sz kp -> bs <> [] ->
  sz - 4096 <= va -> va + Z.of_nat (length bs) <= sz ->
  copyout_bytes pgdir va bs k = Ret 0 (with_mem (fun m => put_bytes m (ka va) bs) k).
Proof using Type.
  intros [Hpt [Hsz Hr] (H1 & H2 & H3) _ [Hk _] _ _] Hne Hva Hend. unfold copyout_bytes.
  assert (Hlen : 0 < Z.of_nat (length bs)) by (destruct bs; [done|cbn; lia]).
  destruct (length bs) as [|n] eqn:En; [lia|]. cbn [copyout_bytes_loop]. rewrite En, (proj2 (Z.leb_gt _ 0)) by lia.
  rewrite (pgrounddown_page (sz - 4096) va) by (unfold KERNBASE in *; Z.div_mod_to_equations; lia).
  rewrite (bind_Ret _ _ _ _ _ (uva2ka_spec kend k pgdir [] (sz - 4096) Hpt (present_of_P _ _ _ H1))).
  cbn zeta. rewrite H1, H2, H3. cbn [andb]. rewrite (proj2 (Z.eqb_neq kp 0)) by (unfold KERNBASE in *; lia).
  assert (E : (if Z.of_nat (S n) <? PGSIZE - (va - (sz - 4096)) then Z.of_nat (S n) else PGSIZE - (va - (sz - 4096))) = Z.of_nat (length bs)).
  { rewrite En. unfold PGSIZE. destruct (Z.ltb_spec (Z.of_nat (S n)) (4096 - (va - (sz - 4096)))); lia. }
  rewrite E, bind_modify, Nat2Z.id, take_ge, drop_ge by lia. by destruct n.
Qed.

Lemma copyout_guard k va bs : stack_pages kend (km_mem k) pgdir sz kp -> bs <> [] ->
  sz - 8192 <= va < sz - 4096 -> copyout_bytes pgdir va bs k = Ret (-1) k.
Proof using Type.
  intros [Hpt [Hsz Hr] _ (H1 & H2) _ _ _] Hne Hva. unfold copyout_bytes.
  assert (Hlen : 0 < Z.of_nat (length bs)) by (destruct bs; [done|cbn; lia]).
  destruct (length bs) as [|n] eqn:En; [lia|]. cbn [copyout_bytes_loop]. rewrite En, (proj2 (Z.leb_gt _ 0)) by lia.
  rewrite (pgrounddown_page (sz - 8192) va) by (unfold KERNBASE in *; Z.div_mod_to_equations; lia).
  rewrite (bind_Ret _ _ _ _ _ (uva2ka_spec kend k pgdir [] (sz - 8192) Hpt (present_of_P _ _ _ H1))).
  cbn zeta. by rewrite H1, H2.
Qed.

(** Writing in the stack's frame does not touch the page tables. *)
Lemma stack_pages_put m m' : stack_pages kend m pgdir sz kp ->
  (forall x, ~ kp <= x < kp + 4096 -> m' x = m x) -> stack_pages kend m' pgdir sz kp /\ forall va, pte_of m' pgdir va = pte_of m pgdir va.
Proof using Type.
  intros [Hpt Hsz Hst Hg Hk Hd Ht] Hm.
  assert (Hfar : forall p, p mod 4096 = 0 -> kp <> p -> forall x, same_page x p -> ~ kp <= x < kp + 4096).
  { intros p Hp Hne x. unfold same_page, PGSIZE. destruct Hk as [_ Hk]. Z.div_mod_to_equations; lia. }
  assert (Hs : pt_same m m' pgdir).
  { split.
    - intros x Hx. apply Hm, (Hfar pgdir); [apply (pt_dir _ _ _ _ Hpt)|done|done].
    - intros i x Hi Hp Hx. destruct (pt_tab _ _ _ _ Hpt i Hi Hp) as (Hok & _ & _).
      apply Hm, (Hfar (table_of m pgdir i)); [apply Hok|by apply Ht|done]. }
  assert (Hpte : forall va, pte_of m' pgdir va = pte_of m pgdir va) by (intros va; by apply pt_same_pte_of).
  split; [|done]. split; cbn zeta; rewrite ?Hpte; try done.
  - eapply pt_same_wf; [exact Hs|done|exact Hpt].
  - intros d Hr. unfold present_pde, table_of. rewrite (pt_same_pde m m') by done. by apply Ht.
Qed.

Definition string_at (m : mem) (a : list Z) (p : Z) : Prop :=
  bytes_at m (ka p) (length (cstr a ++ [0])) = cstr a ++ [0].

Lemma push_args_fits argv : forall k sp argc,
  stack_pages kend (km_mem k) pgdir sz kp -> sp <= sz -> sz - 4096 <= lowest sp argv ->
  argc + Z.of_nat (length argv) <= 32 ->
  exists k', push_args argv pgdir argc sp k = Ret (Some (place sp argv, lowest sp argv)) k' /\
    stack_pages kend (km_mem k') pgdir sz kp /\
    (forall x, ~ ka (lowest sp argv) <= x < ka sp -> km_mem k' x = km_mem k x) /\
    Forall2 (string_at (km_mem k')) argv (place sp argv).
Proof using Type.
  induction argv as [|a argv IH]; intros k sp argc Hk Hsp Hlow Hargc; [by exists k|].
  cbn [push_args place lowest length] in *. change (Z.of_nat MAXARG) with 32. rewrite (proj2 (Z.leb_gt 32 argc)) by lia.
  pose proof (sk_sz _ _ _ _ _ Hk) as [_ Hr]. unfold KERNBASE in Hr.
  pose proof (lowest_le argv (down sp a)) as Hl. pose proof (down_le sp a) as Hd. pose proof (strlen_nonneg a) as Hn.
  rewrite land_down by (cbn; lia). set (sp1 := down sp a) in *. pose proof (length_string a) as Hs.
  assert (Hnil : cstr a ++ [0] <> []) by (by destruct (cstr a)).
  rewrite (bind_Ret _ _ _ _ _ (copyout_stack k sp1 _ Hk Hnil ltac:(lia) ltac:(lia))). change (0 <? 0) with false. cbv iota.
  set (k1 := with_mem _ k).
  assert (Hout : forall x, ~ ka sp1 <= x < ka sp -> km_mem k1 x = km_mem k x).
  { intros x Hx. unfold k1. cbn. apply put_bytes_out. unfold ka in *. lia. }
  destruct (stack_pages_put (km_mem k) (km_mem k1) Hk) as [Hk1 _].
  { intros x Hx. apply Hout. unfold ka in *. lia. }
  destruct (IH k1 sp1 (argc + 1) Hk1) as (k' & E & Hk' & Hout' & Hst); [lia|lia|lia|].
  exists k'. rewrite (bind_Ret _ _ _ _ _ E). split; [done|]. split; [done|]. split.
  - intros x Hx. rewrite Hout', Hout by (unfold ka in *; lia). done.
  - constructor; [|done]. unfold string_at. rewrite <- (bytes_at_put (km_mem k) (ka sp1) (cstr a ++ [0])) at 2.
    apply bytes_at_ext. intros i Hi. unfold k1 in Hout'. cbn [km_mem with_mem] in Hout'. apply Hout'. unfold ka. lia.
Qed.

Lemma push_args_overflow argv : forall k sp argc,
  stack_pages kend (km_mem k) pgdir sz kp -> sp mod 4 = 0 -> sz - 4096 <= sp <= sz -> lowest sp argv < sz - 4096 ->
  Forall (fun a => strlen a < 4096) argv -> argc + Z.of_nat (length argv) <= 32 ->
  exists k', push_args argv pgdir argc sp k = Ret None k'.
Proof using Type.
  induction argv as [|a argv IH]; intros k sp argc Hk Hm Hsp Hlow Hlen Hargc; cbn [lowest] in *; [lia|].
  cbn [push_args length] in *. change (Z.of_nat MAXARG) with 32. rewrite (proj2 (Z.leb_gt 32 argc)) by lia.
  apply Forall_cons in Hlen as [Ha Hlen]. pose proof (sk_sz _ _ _ _ _ Hk) as [Hz Hr]. unfold KERNBASE in Hr.
  pose proof (down_le sp a) as Hd. pose proof (strlen_nonneg a) as Hn.
  rewrite land_down by (cbn; lia).
  assert (Hmod : down sp a mod 4 = 0) by (unfold down; apply Z.mod_mul; lia).
  assert (Hge : sz - 8192 <= down sp a) by (unfold down; Z.div_mod_to_equations; lia).
  set (sp1 := down sp a) in *. pose proof (length_string a) as Hs.
  assert (Hnil : cstr a ++ [0] <> []) by (by destruct (cstr a)).
  destruct (Z.lt_ge_cases sp1 (sz - 4096)) as [Hg|Hg].
  { rewrite (bind_Ret _ _ _ _ _ (copyout_guard k sp1 _ Hk Hnil ltac:(lia))). by exists k. }
  rewrite (bind_Ret _ _ _ _ _ (copyout_stack k sp1 _ Hk Hnil ltac:(lia) ltac:(lia))). change (0 <? 0) with false. cbv iota.
  destruct (stack_pages_put (km_mem k) (put_bytes (km_mem k) (ka sp1) (cstr a ++ [0])) Hk) as [Hk1 _].
  { intros x Hx. apply put_bytes_out. unfold ka in *. lia. }
  edestruct (IH (with_mem (fun m => put_bytes m (ka sp1) (cstr a ++ [0])) k) sp1 (argc + 1)) as (k' & E); [done|done|lia|done|done|lia|].
  exists k'. by rewrite (bind_Ret _ _ _ _ _ E).
Qed.

(** The bytes user code reads at [va]. *)
Definition ubytes (m : mem) (va : Z) (n : nat) : list (option Z) :=
  (fun i => m <$> user_ka m pgdir (va + Z.of_nat i)) <$> seq 0 n.

Lemma ubytes_stack m va n : stack_pages kend m pgdir sz kp -> sz - 4096 <= va -> va + Z.of_nat n <= sz ->
  ubytes m va n = Some <$> bytes_at m (ka va) n.
Proof using Type.
  intros [_ [Hz Hr] (H1 & H2 & H3) _ _ _ _] Hva Hn. unfold ubytes, bytes_at. rewrite <- list_fmap_compose.
  apply list_fmap_ext. intros i x [-> Hi]%lookup_seq. cbn [plus compose]. unfold KERNBASE in Hr.
  unfold user_ka. rewrite (pte_of_page m pgdir (va + Z.of_nat i) (sz - 4096)).
  - rewrite H1, H2, H3. cbn [andb fmap option_fmap option_map]. do 2 f_equal. unfold ka. Z.div_mod_to_equations; lia.
  - unfold is_u32. lia.
  - unfold is_u32. lia.
  - Z.div_mod_to_equations; lia.
Qed.

Lemma words_cons w l : words (w :: l) <> [].
Proof using Type. done. Qed.

(** The frame of [main]: a return address, [argc], [argv] and the pointers. *)
Definition frame (sp : Z) (argv : list (list Z)) : list Z :=
  [0xffffffff; Z.of_nat (length argv); sp + 12] ++ place sz argv ++ [0].

Definition frame_sp (argv : list (list Z)) : Z := lowest sz argv - 4 * (Z.of_nat (length argv) + 4).

Lemma setup_stack_run k argv : stack_pages kend (km_mem k) pgdir sz kp ->
  (length argv <= 32)%nat -> sz - 4096 <= frame_sp argv ->
  exists k', setup_stack pgdir sz argv k = Ret (Some (frame_sp argv)) k' /\
    stack_pages kend (km_mem k') pgdir sz kp /\
    bytes_at (km_mem k') (ka (frame_sp argv)) (4 * (length argv + 4)) = words (frame (frame_sp argv) argv) /\
    Forall2 (string_at (km_mem k')) argv (place sz argv) /\
    (forall x, ~ ka (frame_sp argv) <= x < kp + 4096 -> km_mem k' x = km_mem k x).
Proof using Type.
  intros Hk Hlen Hfit. unfold frame_sp in *. set (low := lowest sz argv) in *. set (argc := Z.of_nat (length argv)) in *.
  pose proof (sk_sz _ _ _ _ _ Hk) as [Hz Hr]. unfold KERNBASE in Hr. pose proof (lowest_le argv sz) as Hl. fold low in Hl.
  destruct (push_args_fits argv k sz 0 Hk) as (k1 & E & Hk1 & Hout & Hst); [lia|fold low; lia|lia|]. fold low in E, Hout.
  unfold setup_stack. rewrite (bind_Ret _ _ _ _ _ E). cbv iota. rewrite length_place. fold argc.
  rewrite !u32_id by (unfold is_u32; lia). replace (low - (3 + argc + 1) * 4) with (low - 4 * (argc + 4)) by lia.
  set (sp := low - 4 * (argc + 4)) in *.
  assert (Eu : [0xffffffff; argc; low - (argc + 1) * 4] ++ place sz argv ++ [0] = frame sp argv).
  { unfold frame. replace (low - (argc + 1) * 4) with (sp + 12) by (unfold sp; lia). done. }
  rewrite Eu. assert (Hw : length (words (frame sp argv)) = (4 * (length argv + 4))%nat).
  { unfold words. rewrite length_words. unfold frame. rewrite !length_app, length_place. cbn [length]. lia. }
  assert (Hnil : words (frame sp argv) <> []) by (intros E0; rewrite E0 in Hw; cbn in Hw; lia).
  rewrite (bind_Ret _ _ _ _ _ (copyout_stack k1 sp _ Hk1 Hnil ltac:(lia) ltac:(rewrite Hw; lia))).
  change (0 <? 0) with false. cbv iota. eexists. split; [reflexivity|]. cbn [km_mem with_mem].
  assert (Hput : forall x, ~ ka sp <= x < ka low -> put_bytes (km_mem k1) (ka sp) (words (frame sp argv)) x = km_mem k1 x).
  { intros x Hx. apply put_bytes_out. rewrite Hw. unfold ka in *. lia. }
  destruct (stack_pages_put (km_mem k1) (put_bytes (km_mem k1) (ka sp) (words (frame sp argv))) Hk1) as [Hk2 _].
  { intros x Hx. apply Hput. unfold ka in *. lia. }
  split; [done|]. split; [by rewrite <- Hw, bytes_at_put|]. split.
  - eapply Forall2_impl; [apply (Forall2_both _ _ _ _ Hst (place_range argv sz))|].
    intros a q (Hs & H1 & _). fold low in H1. unfold string_at in *. rewrite <- Hs at 2.
    apply bytes_at_ext. intros i Hi. apply Hput. unfold ka. lia.
  - intros x Hx. rewrite Hput, Hout by (unfold ka in *; lia). done.
Qed.


End stack.

(** ** Loading a segment *)

(** The [sz] user bytes at the page boundary [addr] are the kernel bytes
    [f 0 .. f (sz-1)], distinct and outside the page tables. *)
Record mapped_range (m : mem) (pgdir addr sz : Z) (f : Z -> Z) : Prop := {
  mr_addr : addr mod 4096 = 0 /\ 0 <= addr /\ 0 <= sz /\ addr + sz <= KERNBASE;
  mr_map i : 0 <= i < sz -> user_ka m pgdir (addr + i) = Some (f i);
  mr_inj i j : 0 <= i < sz -> 0 <= j < sz -> f i = f j -> i = j;
  mr_tables i : 0 <= i < sz -> ~ same_page (f i) pgdir /\
    forall d, 0 <= d < 1024 -> present_pde m pgdir d = true -> ~ same_page (f i) (table_of m pgdir d);
  mr_phys i : 0 <= i < sz -> KERNBASE <= f i;
}.

Lemma mapped_user m pgdir addr sz f : mapped_range m pgdir addr sz f -> user_range m pgdir addr (- sz) sz f.
Proof.
  intros [Ha Hm Hi Ht Hp]. unfold KERNBASE in *. split; try done; [lia|].
  intros i j H1 H2. pose proof (Hp i H1). lia.
Qed.

Section load.
Context {F : Type} `{SwapStore F} `{Devsw}.
Context (kend pgdir addr offset sz : Z) (ip : nat) (f : Z -> Z) (s0 : xstate F).

Let m0 := km_mem (km (x_m s0)).
Let file := content (x_fs s0) ip.

Hypothesis Hpt : pt_wf kend m0 pgdir [].
Hypothesis Hmap : mapped_range m0 pgdir addr sz f.
Hypothesis Hfile : file_ok (x_fs s0) ip.
Hypothesis Hsize : 0 <= offset /\ offset + sz <= fsize (x_fs s0) ip.

Definition with_kmem (m : mem) (s : xstate F) : xstate F :=
  Xstate (set_km (with_mem (fun _ => m) (km (x_m s))) (x_m s)) (x_fs s) (x_ops s) (x_sz s) (x_eip s) (x_esp s) (x_name s).

(** The first [i] bytes are in place. *)
Record loaded (i : Z) (m : mem) : Prop := {
  ld_pt : pt_same m0 m pgdir;
  ld_bytes j : 0 <= j < sz -> j < i -> m (f j) = file !!! Z.to_nat (offset + j);
  ld_rest x : (forall j, 0 <= j < sz -> j < i -> x <> f j) -> m x = m0 x;
}.

(** The bytes of one page are next to each other. *)
Lemma load_chunk i k : i mod 4096 = 0 -> 0 <= i -> 0 <= k < 4096 -> i + k < sz -> f (i + k) = f i + k.
Proof using Hmap.
  intros Hi H1 Hk Hlt. pose proof (mr_addr _ _ _ _ _ Hmap) as (Ha & Ha1 & Ha2 & Ha3).
  pose proof (user_range_rest m0 m0 _ _ _ _ _ i (mapped_user _ _ _ _ _ Hmap) ltac:(lia) ltac:(done)) as Hr.
  pose proof (user_range_chunk _ _ _ _ _ _ k Hr ltac:(lia)) as E. cbn in E. rewrite Z.add_0_r in E. apply E.
  Z.div_mod_to_equations; lia.
Qed.

Lemma loaded_page i m : i mod 4096 = 0 -> 0 <= i < sz -> loaded i m ->
  let n := Z.min (sz - i) 4096 in
  loaded (i + 4096) (put_bytes m (f i) (take (Z.to_nat n) (drop (Z.to_nat (offset + i)) file))).
Proof using Hmap Hfile Hsize.
  intros Hi Hr [L1 L2 L3] n. assert (Hn : n = Z.min (sz - i) 4096) by done. clearbody n. set (bs := take _ _).
  assert (Hlen : Z.of_nat (length bs) = n).
  { unfold bs. rewrite length_take, length_drop. unfold file, content. rewrite length_fbytes. unfold fsize in *. lia. }
  assert (Hin : forall j, i <= j < i + n -> put_bytes m (f i) bs (f j) = file !!! Z.to_nat (offset + j)).
  { intros j Hj. replace j with (i + (j - i)) at 1 by lia. rewrite load_chunk by lia.
    rewrite put_bytes_in by lia. replace (Z.to_nat (f i + (j - i) - f i)) with (Z.to_nat (j - i)) by lia.
    assert (Hk : bs !! Z.to_nat (j - i) = file !! Z.to_nat (offset + j)).
    { unfold bs. rewrite lookup_take_lt, lookup_drop by lia. f_equal. lia. }
    rewrite nth_lookup, Hk, list_lookup_lookup_total_lt; [done|]. unfold file, content. rewrite length_fbytes. lia. }
  assert (Hout : forall x, (forall j, i <= j < i + n -> x <> f j) -> put_bytes m (f i) bs x = m x).
  { intros x Hx. apply put_bytes_out. rewrite Hlen. destruct (Z.lt_ge_cases x (f i)); [by left|].
    destruct (Z.lt_ge_cases x (f i + n)); [|lia]. exfalso. apply (Hx (i + (x - f i))); [lia|]. rewrite load_chunk by lia. lia. }
  assert (Hpage : forall x p, (forall j, 0 <= j < sz -> ~ same_page (f j) p) -> same_page x p -> put_bytes m (f i) bs x = m x).
  { intros x p Hp Hx. apply Hout. intros j Hj ->. apply (Hp j); [lia|done]. }
  split.
  - destruct L1 as [P1 P2]. split.
    + intros x Hx. rewrite (Hpage x pgdir), P1; [done|done| |done]. intros j Hj. by apply (mr_tables _ _ _ _ _ Hmap).
    + intros d x Hd Hp Hx. rewrite (Hpage x (table_of m0 pgdir d)), (P2 d x); [done|done|done|done| |done].
      intros j Hj. by apply (mr_tables _ _ _ _ _ Hmap).
  - intros j Hj Hlt. destruct (Z.lt_ge_cases j i).
    + rewrite Hout by (intros k Hk E; apply (mr_inj _ _ _ _ _ Hmap) in E; lia). by apply L2.
    + apply Hin. lia.
  - intros x Hx. rewrite Hout by (intros j Hj; apply Hx; lia). apply L3. intros j Hj Hlt. apply Hx; lia.
Qed.

Lemma bind_kmop {A B} (x : kern kmem A) (k : A -> kern (xstate F) B) m a m' :
  x (with_mem (fun _ => m) (km (x_m s0))) = Ret a (with_mem (fun _ => m') (km (x_m s0))) ->
  (kmop x ≫= k) (with_kmem m s0) = k a (with_kmem m' s0).
Proof using Type. intros E. unfold mbind, kern_bind, kmop, mop, lift_km, zoom. cbn. rewrite E. done. Qed.

Lemma loaduvm_loop_spec fuel : forall i m, i mod 4096 = 0 -> 0 <= i -> loaded i m -> sz - i <= 4096 * (Z.of_nat fuel - 1) ->
  (0 < fuel)%nat ->
  exists m', loaduvm_loop fuel ip pgdir addr offset sz i (with_kmem m s0) = Ret 0 (with_kmem m' s0) /\ loaded sz m'.
Proof using Hpt Hmap Hfile Hsize.
  induction fuel as [|fuel IH]; intros i m Hi Hi0 Hl Hfuel Hpos; cbn [loaduvm_loop]; [lia|].
  pose proof (mr_addr _ _ _ _ _ Hmap) as (Ha & Ha1 & Ha2 & Ha3). unfold KERNBASE in Ha3.
  destruct (Z.ltb_spec i sz) as [Hlt|Hge].
  2: { exists m. split; [done|]. destruct Hl as [L1 L2 L3]. split; [done| |].
       - intros j Hj _. apply L2; lia.
       - intros x Hx. apply L3. intros j Hj _. apply Hx; lia. }
  rewrite (u32_id (addr + i)) by (unfold is_u32; lia).
  pose proof (mr_map _ _ _ _ _ Hmap i ltac:(lia)) as Hka. unfold user_ka in Hka.
  destruct (has _ PTE_P && _) eqn:Eb in Hka; [|done]. apply andb_true_iff in Eb as [Hp _].
  assert (Hmod : (addr + i) mod 4096 = 0) by (Z.div_mod_to_equations; lia). rewrite Hmod, Z.add_0_r in Hka. injection Hka as Hka.
  rewrite <- (pt_same_pte_of m0 m pgdir _ (ld_pt _ _ Hl)) in Hka, Hp.
  pose proof (pt_same_wf kend m0 m pgdir [] [] (ld_pt _ _ Hl) ltac:(done) Hpt) as Hpt'.
  pose proof (present_of_P _ _ _ Hp) as Hpde.
  rewrite (bind_kmop _ _ m (pte_addr m pgdir (addr + i)) m) by (by apply walkpgdir_present).
  rewrite (pte_addr_nonzero kend m pgdir []) by done.
  rewrite (bind_kmop _ _ m (pte_of m pgdir (addr + i)) m) by (unfold pte_of; by rewrite Hpde).
  rewrite Hka. set (n := if sz - i <? PGSIZE then sz - i else PGSIZE).
  assert (Hn : n = Z.min (sz - i) 4096) by (unfold n, PGSIZE; destruct (Z.ltb_spec (sz - i) 4096); lia). clearbody n.
  destruct (fo_holes _ _ Hfile) as [Hsz _]. fold (fsize (x_fs s0) ip) in Hsz. change (MAXFILE * BSIZE) with 71680 in Hsz.
  assert (Er : readi ip (u32 (offset + i)) n (x_fs s0) = Ret (n, take (Z.to_nat n) (drop (Z.to_nat (offset + i)) file)) (x_fs s0)).
  { rewrite u32_id by (unfold is_u32; lia). rewrite readi_content by (done || unfold is_u32; lia).
    rewrite (proj2 (Z.ltb_ge _ (offset + i))), (proj2 (Z.leb_gt (2 ^ 32) _)) by lia. cbn [orb].
    replace (Z.min n _) with n by lia. done. }
  assert (Ef : forall B (K : _ -> kern (xstate F) B),
    (fop (readi ip (u32 (offset + i)) n) ≫= K) (with_kmem m s0) = K (n, take (Z.to_nat n) (drop (Z.to_nat (offset + i)) file)) (with_kmem m s0)).
  { intros B K. unfold mbind, kern_bind, fop, zoom. cbn. by rewrite Er. }
  rewrite Ef. cbn [fst snd].
  rewrite (bind_kmop _ _ m tt (put_bytes m (f i) (take (Z.to_nat n) (drop (Z.to_nat (offset + i)) file)))) by done.
  rewrite Z.eqb_refl. cbn [negb]. rewrite (u32_id (i + PGSIZE)) by (unfold is_u32, PGSIZE; lia).
  apply IH; [unfold PGSIZE; Z.div_mod_to_equations; lia|unfold PGSIZE; lia|rewrite Hn; by apply loaded_page|unfold PGSIZE; lia|lia].
Qed.

(** [loaduvm] of a segment that lies inside its file, at a page boundary and into
    mapped pages, returns 0: user code finds at [addr + i] byte [offset + i] of
    the file, for the [sz] bytes of the segment.  The mappings are unchanged and
    no other byte of memory is written. *)
Theorem loaduvm_loads :
  exists m', loaduvm pgdir addr ip offset sz s0 = Ret 0 (with_kmem m' s0) /\
    (forall i, 0 <= i < sz -> user_ka m' pgdir (addr + i) = Some (f i) /\ m' (f i) = file !!! Z.to_nat (offset + i)) /\
    (forall x, (forall i, 0 <= i < sz -> x <> f i) -> m' x = m0 x).
Proof using Hpt Hmap Hfile Hsize.
  pose proof (mr_addr _ _ _ _ _ Hmap) as (Ha & Ha1 & Ha2 & Ha3).
  unfold loaduvm. change PGSIZE with 4096. rewrite Ha. cbn [Z.eqb negb].
  assert (E0 : with_kmem m0 s0 = s0) by (unfold with_kmem, m0; by destruct s0 as [[[] ? ? ? ?] ? ? ? ? ? ?]).
  destruct (loaduvm_loop_spec (Z.to_nat (sz / 4096) + 2) 0 m0) as (m' & E & [L1 L2 L3]); [done|lia| | |lia|].
  - split; [done|lia|done].
  - pose proof (Z.div_mod sz 4096 ltac:(lia)). pose proof (Z.mod_pos_bound sz 4096 ltac:(lia)).
    assert (0 <= sz / 4096) by (apply Z.div_pos; lia). lia.
  - rewrite E0 in E. exists m'. split; [exact E|]. split; [|intros x Hx; apply L3; auto].
    intros i Hi. split; [|apply L2; lia]. unfold user_ka. rewrite (pt_same_pte_of m0 m' pgdir _ L1). by apply (mr_map _ _ _ _ _ Hmap).
Qed.

End load.

(** ** Instances of the theorems *)

(** A directory with one table: page 1 is the guard, page 2 the stack. *)
Definition stack_mem : mem :=
  st32 (st32 (st32 (fun _ => 0) 0x80300000 0x301007) 0x80301004 0x401003) 0x80301008 0x400007.

Lemma stack_mem_pde i : 0 <= i < 1024 -> present_pde stack_mem 0x80300000 i = true -> i = 0.
Proof.
  intros Hi. unfold present_pde. destruct (decide (i = 0)); [done|].
  unfold stack_mem. rewrite !ld32_st32_ne by lia. done.
Qed.

Lemma stack_mem_pages : stack_pages wit_end stack_mem 0x80300000 0x3000 0x80400000.
Proof.
  split.
  - split.
    + unfold page_ok, wit_end, KERNBASE, PHYSTOP. split_and!; [done|lia..].
    + set_solver.
    + intros i Hi ->%stack_mem_pde; [|done]. change (table_of stack_mem 0x80300000 0) with 0x80301000.
      split_and!; [|done|set_solver]. unfold page_ok, wit_end, KERNBASE, PHYSTOP. split_and!; [done|lia..].
    + intros i j Hi Hj ->%stack_mem_pde ->%stack_mem_pde; done.
  - split; [done|]. unfold KERNBASE. lia.
  - vm_compute. done.
  - vm_compute. done.
  - split; [unfold KERNBASE; lia|done].
  - done.
  - intros d Hd ->%stack_mem_pde; [|done]. done.
Qed.


(** The three bytes of the file of [wit_fs], loaded at page 1. *)
#[local] Existing Instance no_devices.

Definition load_state : xstate (gmap Z (list Z)) :=
  Xstate (Machine (Kmem wit_m3 true 0 0) ∅ (fun _ => Proc 2 0 None [] [] 0 0 0) 0 0) wit_fs 1 0 0 0 [].

Lemma loaduvm_loads_witness :
  exists m', loaduvm 0x80300000 0x1000 0 0 3 load_state = Ret 0 (with_kmem m' load_state) /\ m' 0x80400002 = 33.
Proof.
  destruct (loaduvm_loads wit_end 0x80300000 0x1000 0 3 0 (fun i => 0x80400000 + i) load_state wit_m3_wf) as (m' & E & Hb & _).
  - split.
    + unfold KERNBASE. split; [done|lia].
    + intros i Hi. assert (i = 0 \/ i = 1 \/ i = 2) as [->|[->| ->]] by lia; vm_compute; reflexivity.
    + intros i j Hi Hj. lia.
    + intros i Hi. split; [unfold same_page, PGSIZE; lia|].
      intros d Hd Hp. apply wit_m3_pde in Hp as ->; [|done].
      change (table_of (km_mem (km (x_m load_state))) 0x80300000 0) with 0x80301000. unfold same_page, PGSIZE. lia.
    + intros i Hi. unfold KERNBASE. lia.
  - exact wit_file_ok.
  - split; [lia|]. vm_compute. done.
  - exists m'. split; [exact E|]. exact (proj2 (Hb 2 ltac:(lia))).
Defined.
