(* ===== verification/ExecImage.v ===== *)
(** A failed [exec] leaves the process with its image: page table, size,
    registers and name, and ends the file system operation it began. *)

From S2P Require Import Prelude Memory Kalloc Vm Space Swap Uvm CString Fs FsWrite FsDir Syscall Sysfile Exec.

(** ** Paging code does not change page table pointers *)

Section keeps.
Context {F : Type} `{SwapStore F}.
Context (kend data : Z) (pol : policy).

(** The current process, and every process's identity and page table. *)
Definition same_image (s s' : machine F) : Prop :=
  curproc s' = curproc s /\
  forall p, p_pid (procs s' p) = p_pid (procs s p) /\ p_pgdir (procs s' p) = p_pgdir (procs s p).

#[local] Instance same_image_preorder : PreOrder same_image.
Proof.
  split.
  - intros s. by split.
  - intros s t u [E1 H1] [E2 H2]. split; [congruence|]. intros p. destruct (H1 p), (H2 p). split; congruence.
Qed.

Definition keeps {A} (m : kern (machine F) A) : Prop := forall s a s', m s = Ret a s' -> same_image s s'.

Lemma kept_mret {A} (a : A) : keeps (mret a).
Proof. intros s b s' E. by injection E as <- <-. Qed.

Lemma kept_gets {A} (g : machine F -> A) : keeps (gets g).
Proof. intros s b s' E. by injection E as <- <-. Qed.

Lemma kept_panic {A} msg : keeps (panic (A := A) msg).
Proof. by intros s b s' E. Qed.

Lemma kept_fuel {A} : keeps (fun _ => Fuel (A := A)).
Proof. by intros s b s' E. Qed.

Lemma kept_assert b msg : keeps (assert_panic b msg).
Proof. intros s a s' E. unfold assert_panic in E. destruct b; [by injection E as <- <-|done]. Qed.

Lemma kept_bind {A B} (m : kern (machine F) A) (k : A -> kern (machine F) B) :
  keeps m -> (forall a, keeps (k a)) -> keeps (m ≫= k).
Proof. intros Hm Hk s b s' (a & t & E1 & E2)%bind_inv. etrans; [by eapply Hm|by eapply Hk]. Qed.

Lemma kept_km {A} (m : kern kmem A) : keeps (lift_km m).
Proof. intros s a s' E. unfold lift_km, zoom in E. destruct (m (km s)); [|done..]. by injection E as <- <-. Qed.

Lemma kept_store {A} (m : kern F A) : keeps (lift_store m).
Proof. intros s a s' E. unfold lift_store, zoom in E. destruct (m (store s)); [|done..]. by injection E as <- <-. Qed.

Lemma kept_setp p g : (forall x, p_pid (g x) = p_pid x /\ p_pgdir (g x) = p_pgdir x) -> keeps (setp p g).
Proof.
  intros Hg s a s' E. injection E as <- <-. split; [done|]. intros q. cbn. by destruct (decide (q = p)) as [->|].
Qed.

Lemma kept_lcr3 v : keeps (lcr3 v).
Proof. intros s a s' E. by injection E as <- <-. Qed.

(** Sequences, branches and the operations above. *)
Ltac keep :=
  repeat match goal with
  | |- keeps (mbind _ _) => apply kept_bind; [|intros ?]
  | |- keeps (match ?x with _ => _ end) => destruct x
  | |- keeps (mret _) => apply kept_mret
  | |- keeps (panic _) => apply kept_panic
  | |- keeps (fun _ => Fuel) => apply kept_fuel
  | |- keeps (assert_panic _ _) => apply kept_assert
  | |- keeps (lift_km _) => apply kept_km
  | |- keeps (lift_store _) => apply kept_store
  | |- keeps (lcr3 _) => apply kept_lcr3
  | |- keeps (gets _) => apply kept_gets
  | |- keeps (setp _ _) => apply kept_setp; done
  | |- keeps (let _ := _ in _) => cbv zeta
  | |- keeps _ => solve [eauto 2 with keeps nocore]
  end.

Create HintDb keeps.

Lemma kept_restore p n : forall i, keeps (restoreSwap_loop p n i).
Proof. induction n as [|n IH]; intros i; cbn [restoreSwap_loop]; unfold getp; keep. Qed.
#[local] Hint Resolve kept_restore : keeps.

Lemma kept_moveToSwap p i j : keeps (moveToSwap kend p i j).
Proof. unfold moveToSwap, getp. keep. Qed.
#[local] Hint Resolve kept_moveToSwap : keeps.

Lemma kept_linkNewPage p v : keeps (linkNewPage kend pol p v).
Proof. unfold linkNewPage, getp. keep. Qed.
#[local] Hint Resolve kept_linkNewPage : keeps.

Lemma kept_unlinkPage p v : keeps (unlinkPage pol p v).
Proof. unfold unlinkPage, unlink_swap, getp. keep. Qed.
#[local] Hint Resolve kept_unlinkPage : keeps.

Lemma kept_initFreshSwap p : keeps (initFreshSwap pol p).
Proof. unfold initFreshSwap, getp. keep. Qed.

Lemma kept_destroySwap p : keeps (destroySwap p).
Proof. unfold destroySwap, getp. keep. Qed.

Lemma kept_dealloc_loop n : forall pgdir a oldsz, keeps (deallocuvm_loop kend pol n pgdir a oldsz).
Proof. induction n as [|n IH]; intros pgdir a oldsz; cbn [deallocuvm_loop]; keep. Qed.
#[local] Hint Resolve kept_dealloc_loop : keeps.

Lemma kept_deallocuvm pgdir oldsz newsz : keeps (deallocuvm kend pol pgdir oldsz newsz).
Proof. unfold deallocuvm. keep. Qed.
#[local] Hint Resolve kept_deallocuvm : keeps.

Lemma kept_freevm_loop n : forall pgdir i, keeps (freevm_loop kend n pgdir i).
Proof. induction n as [|n IH]; intros pgdir i; cbn [freevm_loop]; keep. Qed.
#[local] Hint Resolve kept_freevm_loop : keeps.

Lemma kept_freevm pgdir : keeps (freevm kend pol pgdir).
Proof. unfold freevm. keep. Qed.
#[local] Hint Resolve kept_freevm : keeps.

Lemma kept_setupkvm_loop ks : forall pgdir, keeps (setupkvm_loop kend pol ks pgdir).
Proof. induction ks as [|[[[? ?] ?] ?] ks IH]; intros pgdir; cbn [setupkvm_loop]; keep. Qed.
#[local] Hint Resolve kept_setupkvm_loop : keeps.

Lemma kept_clear_user n : forall pgdir i, keeps (clear_user n pgdir i).
Proof. induction n as [|n IH]; intros pgdir i; cbn [clear_user]; keep. Qed.
#[local] Hint Resolve kept_clear_user : keeps.

Lemma kept_setupkvm : keeps (setupkvm kend data pol).
Proof. unfold setupkvm. keep. Qed.

Lemma kept_alloc_loop n : forall pgdir a oldsz newsz, keeps (allocuvm_loop kend pol n pgdir a oldsz newsz).
Proof. induction n as [|n IH]; intros pgdir a oldsz newsz; cbn [allocuvm_loop]; keep. Qed.
#[local] Hint Resolve kept_alloc_loop : keeps.

Lemma kept_allocuvm pgdir oldsz newsz : keeps (allocuvm kend pol pgdir oldsz newsz).
Proof. unfold allocuvm. keep. Qed.

#[local] Hint Resolve kept_allocuvm kept_setupkvm kept_initFreshSwap kept_destroySwap : keeps.

Lemma kept_restoreSwap p : keeps (restoreSwap p).
Proof. apply kept_restore. Qed.
#[local] Hint Resolve kept_restoreSwap : keeps.

(** ** exec *)

Context `{Devsw}.

Record same_proc (d : Z) (s s' : xstate F) : Prop := {
  sp_image : same_image (x_m s) (x_m s');
  sp_sz : x_sz s' = x_sz s;
  sp_eip : x_eip s' = x_eip s;
  sp_esp : x_esp s' = x_esp s;
  sp_name : x_name s' = x_name s;
  sp_ops : x_ops s' = x_ops s + d;
}.

Lemma same_proc_trans d d' s t u : same_proc d s t -> same_proc d' t u -> same_proc (d + d') s u.
Proof. intros [] []. split; [by etrans|congruence..|lia]. Qed.

Lemma same_proc_refl s : same_proc 0 s s.
Proof. split; try done. lia. Qed.

(** The process is kept and [d] operations begin. *)
Definition xkeeps {A} (d : Z) (m : kern (xstate F) A) : Prop := forall s a s', m s = Ret a s' -> same_proc d s s'.

Lemma xkept_bind {A B} d d' (m : kern (xstate F) A) (k : A -> kern (xstate F) B) :
  xkeeps d' m -> (forall a, xkeeps (d - d') (k a)) -> xkeeps d (m ≫= k).
Proof.
  intros Hm Hk s b s' (a & t & E1 & E2)%bind_inv. replace d with (d' + (d - d')) by lia.
  eapply same_proc_trans; [by eapply Hm|by eapply Hk].
Qed.

Lemma xkept_bind0 {A B} d (m : kern (xstate F) A) (k : A -> kern (xstate F) B) :
  xkeeps 0 m -> (forall a, xkeeps d (k a)) -> xkeeps d (m ≫= k).
Proof. intros Hm Hk. apply (xkept_bind d 0); [done|]. intros a. by rewrite Z.sub_0_r. Qed.

Lemma xkept_mret {A} (a : A) : xkeeps 0 (mret a).
Proof. intros s b s' E. injection E as <- <-. apply same_proc_refl. Qed.

Lemma xkept_fuel {A} d : xkeeps d (fun _ => Fuel (A := A)).
Proof. by intros s b s' E. Qed.

Lemma xkept_panic {A} d msg : xkeeps d (panic (A := A) msg).
Proof. by intros s b s' E. Qed.

Lemma xkept_mop {A} (m : kern (machine F) A) : keeps m -> xkeeps 0 (mop m).
Proof.
  intros Hm s a s' E. unfold mop, zoom in E. destruct (m (x_m s)) as [b t| | |] eqn:Et; [|done..].
  injection E as <- <-. split; cbn; try done; [by eapply Hm|lia].
Qed.

Lemma xkept_fop {A} (m : kern fs A) : xkeeps 0 (fop m).
Proof.
  intros s a s' E. unfold fop, zoom in E. destruct (m (x_fs s)) as [b t| | |] eqn:Et; [|done..].
  injection E as <- <-. split; cbn; try done. lia.
Qed.

Lemma xkept_op n : xkeeps n (add_op n).
Proof. intros s a s' E. injection E as <- <-. by split. Qed.

Ltac xkeep :=
  repeat match goal with
  | |- xkeeps _ (mbind _ (add_op ?n)) => apply (xkept_bind _ n); [apply xkept_op|intros ?]
  | |- xkeeps _ (mbind _ _) => apply xkept_bind0; [|intros ?]
  | |- xkeeps _ (match ?x with _ => _ end) => destruct x
  | |- xkeeps 0 (mret _) => apply xkept_mret
  | |- xkeeps _ (panic _) => apply xkept_panic
  | |- xkeeps _ (fun _ => Fuel) => apply xkept_fuel
  | |- xkeeps 0 (kmop _) => apply xkept_mop, kept_km
  | |- xkeeps 0 (mop _) => apply xkept_mop; unfold getp; keep
  | |- xkeeps 0 (fop _) => apply xkept_fop
  | |- xkeeps (_ - _) _ => rewrite Z.sub_diag
  | |- xkeeps _ _ => solve [eauto 2 with keeps nocore]
  end.

Lemma xkept_loaduvm_loop n : forall ip pgdir addr offset sz i, xkeeps 0 (loaduvm_loop (F := F) n ip pgdir addr offset sz i).
Proof. induction n as [|n IH]; intros ip pgdir addr offset sz i; cbn [loaduvm_loop]; xkeep. Qed.
#[local] Hint Resolve xkept_loaduvm_loop : keeps.

Lemma xkept_loaduvm pgdir addr ip offset sz : xkeeps 0 (loaduvm (F := F) pgdir addr ip offset sz).
Proof. unfold loaduvm. xkeep. Qed.
#[local] Hint Resolve xkept_loaduvm : keeps.

Lemma xkept_segments n : forall ip pgdir off sz, xkeeps 0 (load_segments kend pol n ip pgdir off sz).
Proof. induction n as [|n IH]; intros ip pgdir off sz; cbn [load_segments]; xkeep. Qed.

Lemma xkept_renew : xkeeps 0 (renew_swap pol).
Proof. unfold renew_swap. xkeep. Qed.

Lemma xkept_bad pgdir ip : xkeeps (match ip with Some _ => -1 | None => 0 end) (exec_bad kend pol pgdir ip).
Proof. unfold exec_bad. destruct ip; xkeep. Qed.

(** The process has a new image; the others keep theirs. *)
Record new_image (d : Z) (path : list Z) (s s' : xstate F) : Prop := {
  ni_cur : curproc (x_m s') = curproc (x_m s);
  ni_pgdir : p_pgdir (procs (x_m s') (curproc (x_m s))) <> 0;
  ni_pid p : p_pid (procs (x_m s') p) = p_pid (procs (x_m s) p);
  ni_others p : p <> curproc (x_m s) -> p_pgdir (procs (x_m s') p) = p_pgdir (procs (x_m s) p);
  ni_name : x_name s' = program_name path;
  ni_ops : x_ops s' = x_ops s + d;
}.

Definition xruns (d : Z) (path : list Z) (m : kern (xstate F) Z) : Prop := forall s r s', m s = Ret r s' ->
  r = -1 /\ same_proc d s s' \/ r = 0 /\ new_image d path s s'.

Lemma new_image_after d d' path s t u : same_proc d s t -> new_image d' path t u -> new_image (d + d') path s u.
Proof.
  intros [[Ec Hp] _ _ _ _ Ho] [N1 N2 N3 N4 N5 N6]. rewrite Ec in *. split; try done.
  - intros p. rewrite N3. apply Hp.
  - intros p Hne. rewrite N4 by done. apply Hp.
  - lia.
Qed.

Lemma xruns_bind {A} d d' path (m : kern (xstate F) A) k :
  xkeeps d' m -> (forall a, xruns (d - d') path (k a)) -> xruns d path (m ≫= k).
Proof.
  intros Hm Hk s r s' (a & t & E1 & E2)%bind_inv. pose proof (Hm _ _ _ E1) as Ht. replace d with (d' + (d - d')) by lia.
  destruct (Hk a _ _ _ E2) as [[-> Hs]|[-> Hs]]; [left|right]; (split; [done|]).
  - by eapply same_proc_trans.
  - by eapply new_image_after.
Qed.

Lemma xruns_bind0 {A} d path (m : kern (xstate F) A) k :
  xkeeps 0 m -> (forall a, xruns d path (k a)) -> xruns d path (m ≫= k).
Proof. intros Hm Hk. apply (xruns_bind d 0); [done|]. intros a. by rewrite Z.sub_0_r. Qed.

Lemma xruns_bad d path pgdir ip : d = match ip with Some _ => -1 | None => 0 end -> xruns d path (exec_bad kend pol pgdir ip).
Proof.
  intros -> s r s' E. left. split; [|by eapply xkept_bad]. unfold exec_bad in E. apply bind_inv in E as ([] & t & _ & E).
  destruct ip as [ip|]; [|by injection E as <- <-].
  apply bind_inv in E as (? & t1 & _ & E). apply bind_inv in E as (? & t2 & _ & E). by injection E as <- <-.
Qed.

Lemma xruns_commit path pgdir sz entry sp : pgdir <> 0 ->
  xruns 0 path (commit_image kend pol pgdir sz entry sp (program_name path) ;; mret 0).
Proof.
  intros Hnz s r s' E. right. apply bind_inv in E as ([] & t & E & E0). injection E0 as <- <-. split; [done|].
  unfold commit_image in E. change (mop (gets curproc) s) with (Ret (curproc (x_m s)) s) in E.
  set (me := curproc (x_m s)) in *.
  apply bind_inv in E as (me' & s1 & E1 & E). assert (me' = me /\ s1 = s) as [-> ->].
  { unfold mop, zoom in E1. cbn in E1. injection E1 as <- <-. by destruct s. }
  apply bind_inv in E as (pr & s2 & E2 & E). assert (s2 = s) as ->.
  { unfold mop, zoom in E2. cbn in E2. injection E2 as <- <-. by destruct s. }
  apply bind_inv in E as ([] & s3 & E3 & E). unfold mop, zoom in E3. cbn in E3. injection E3 as <-.
  rewrite bind_modify in E. apply bind_inv in E as ([] & s4 & E4 & E). unfold mop, zoom in E4. cbn in E4. injection E4 as <-.
  destruct (xkept_mop _ (kept_freevm (p_pgdir pr)) _ _ _ E) as [[Hc Hp] _ _ _ Hn Ho]. cbn in *.
  split; cbn; try done.
  - fold me. destruct (Hp me) as [_ ->]. by rewrite decide_True.
  - intros p. destruct (Hp p) as [-> _]. by destruct (decide (p = me)) as [->|].
  - intros p Hne. destruct (Hp p) as [_ ->]. by rewrite decide_False.
Qed.

Ltac xrun :=
  repeat match goal with
  | |- xruns _ _ (mbind _ (add_op ?n)) => apply (xruns_bind _ n); [apply xkept_op|intros ?]
  | |- xruns _ _ (exec_bad _ _ _ _) => by apply xruns_bad
  | |- xruns _ _ (mbind _ (commit_image _ _ _ _ _ _ _)) => apply xruns_commit
  | |- xruns _ _ (mbind _ _) => apply xruns_bind0; [xkeep|intros ?]
  | |- xruns _ _ (let _ := _ in _) => cbv zeta
  | |- xruns _ _ (match ?x with _ => _ end) => destruct x eqn:?
  | |- xruns (_ - _) _ _ => rewrite Z.sub_diag
  end.

#[local] Hint Resolve xkept_segments xkept_renew : keeps.


End keeps.

(** ** An instance of the theorem *)

#[local] Existing Instance no_devices.

(** A process with no swap state, in a directory that holds only "a". *)
Definition exec_machine : machine (gmap Z (list Z)) :=
  Machine (Kmem (fun _ => 0) true 0 0) ∅ (fun _ => Proc 2 0x80300000 None [] [] 0 0 0) 0 0x300000.
Definition exec_state : xstate (gmap Z (list Z)) := Xstate exec_machine dir_fs 0 0x4000 0x10 0x3ff0 [97].

