(* ===== verification/Boot.v ===== *)
(** The boot loader, bootmain.c.

    It reads the kernel's ELF image from the disk, one sector at a time through
    the controller's ports, into physical memory.  The controller is the
    interface of Ide.v with the part of the ATA protocol the loader uses as its
    laws.  The theorem: every segment of the image is where its program header
    says, followed by its zeroes, and the loader jumps to the entry point. *)

From S2P Require Import Prelude Memory Bio Ide Exec.

Definition SECTSIZE : Z := 512.

(** ** bootmain.c *)

Record boot (D : Type) := Boot { b_mem : mem; b_disk : D }.
Arguments Boot {D}.
Arguments b_mem {D}.
Arguments b_disk {D}.

Section boot.
Context {D : Type} `{IdeDevice D} (poll : nat).

Local Abbreviation M := (kern (boot D)).

Definition io {A} (m : kern D A) : M A := zoom b_disk (fun d s => Boot (b_mem s) d) m.
Definition set_bmem (g : mem -> mem) : M unit := modify (fun s => Boot (g (b_mem s)) (b_disk s)).

(** [poll] bounds the polls of the status port. *)
Fixpoint waitdisk (fuel : nat) : kern D unit :=
  match fuel with
  | O => fun _ => Fuel
  | S fuel => r ← inb 0x1F7; if negb (Z.land r 0xC0 =? 0x40) then waitdisk fuel else mret tt
  end.

(** The commands that ask for sector [offset]. *)
Definition ask_sector (offset : Z) : kern D unit :=
  outb 0x1F2 1 ;;
  outb 0x1F3 (u8 offset) ;;
  outb 0x1F4 (u8 (Z.shiftr offset 8)) ;;
  outb 0x1F5 (u8 (Z.shiftr offset 16)) ;;
  outb 0x1F6 (u8 (Z.lor (Z.shiftr offset 24) 0xE0)) ;;
  outb 0x1F7 0x20.

Definition readsect (dst offset : Z) : M unit :=
  io (waitdisk poll) ;;
  io (ask_sector offset) ;;
  io (waitdisk poll) ;;
  bs ← io (insl 0x1F0 SECTSIZE);
  set_bmem (fun m => put_bytes m dst bs).

Fixpoint readseg_loop (fuel : nat) (pa epa offset : Z) : M unit :=
  match fuel with
  | O => fun _ => Fuel
  | S fuel =>
      if pa <? epa then
        readsect pa offset ;;
        readseg_loop fuel (u32 (pa + SECTSIZE)) epa (u32 (offset + 1))
      else mret tt
  end.

Definition readseg (pa count offset : Z) : M unit :=
  let epa := u32 (pa + count) in
  let pa := u32 (pa - offset mod SECTSIZE) in
  let offset := offset / SECTSIZE + 1 in
  readseg_loop (Z.to_nat ((epa - pa) / SECTSIZE + 2)) pa epa offset.

(** [for(; ph < eph; ph++)]. *)
Fixpoint load_phs (fuel : nat) (ph eph : Z) : M unit :=
  match fuel with
  | O => fun _ => Fuel
  | S fuel =>
      if ph <? eph then
        h ← gets (fun s => get_proghdr (bytes_at (b_mem s) ph (Z.to_nat proghdr_size)));
        let pa := ph_paddr h in
        readseg pa (ph_filesz h) (ph_off h) ;;
        (if ph_filesz h <? ph_memsz h
         then set_bmem (fun m => fill_range m (u32 (pa + ph_filesz h)) 0 (ph_memsz h - ph_filesz h))
         else mret tt) ;;
        load_phs fuel (u32 (ph + proghdr_size)) eph
      else mret tt
  end.

Definition scratch : Z := 0x10000.
Definition boot_elf (s : boot D) : elfhdr := get_elfhdr (bytes_at (b_mem s) scratch (Z.to_nat elfhdr_size)).

(** The address it jumps to; [None] when the image is not an ELF file. *)
Definition bootmain : M (option Z) :=
  readseg scratch 4096 0 ;;
  elf ← gets boot_elf;
  if negb (e_magic elf =? ELF_MAGIC) then mret None
  else
    let ph := u32 (scratch + e_phoff elf) in
    let eph := u32 (ph + proghdr_size * e_phnum elf) in
    load_phs (Z.to_nat (e_phnum elf) + 1) ph eph ;;
    elf ← gets boot_elf;
    mret (Some (e_entry elf)).

End boot.

(** ** The controller *)

Class BootLaws (D : Type) `{IdeDevice D} (poll : nat) := {
  bl_sector : D -> Z -> list Z;            (* contents of drive 0 *)
  bl_asked : D -> option Z;                (* the sector asked for *)
  bl_len d n : length (bl_sector d n) = 512%nat;
  bl_wait d : exists d', waitdisk poll d = Ret tt d' /\ bl_sector d' = bl_sector d /\ bl_asked d' = bl_asked d;
  bl_ask d n : 0 <= n < 2 ^ 28 -> exists d', ask_sector n d = Ret tt d' /\ bl_sector d' = bl_sector d /\ bl_asked d' = Some n;
  bl_insl d n : bl_asked d = Some n -> exists d', insl 0x1F0 512 d = Ret (bl_sector d n) d' /\ bl_sector d' = bl_sector d;
}.

Section load.
Context {D : Type} (poll : nat) `{BL : BootLaws D poll}.

(** Byte [i] of the image, which starts at sector 1. *)
Definition image (d : D) (i : Z) : Z := nth (Z.to_nat (i mod 512)) (bl_sector d (1 + i / 512)) 0.

Lemma bind_io {A B} (x : kern D A) (k : A -> kern (boot D) B) m d a d' :
  x d = Ret a d' -> (io x ≫= k) (Boot m d) = k a (Boot m d').
Proof. intros E. unfold mbind, kern_bind, io, zoom. cbn. by rewrite E. Qed.

Lemma readsect_run m d dst n : 0 <= n < 2 ^ 28 ->
  exists d', readsect poll dst n (Boot m d) = Ret tt (Boot (put_bytes m dst (bl_sector d n)) d') /\ bl_sector d' = bl_sector d.
Proof.
  intros Hn. unfold readsect. destruct (bl_wait d) as (d1 & E1 & S1 & _). destruct (bl_ask d1 n Hn) as (d2 & E2 & S2 & A2).
  destruct (bl_wait d2) as (d3 & E3 & S3 & A3). rewrite A2 in A3. destruct (bl_insl d3 n A3) as (d4 & E4 & S4).
  exists d4. rewrite (bind_io _ _ _ _ _ _ E1), (bind_io _ _ _ _ _ _ E2), (bind_io _ _ _ _ _ _ E3), (bind_io _ _ _ _ _ _ E4).
  rewrite S4, S3, S2, S1. done.
Qed.

(** From sector boundary [p], which is to hold sector [n]. *)
Lemma readseg_loop_run fuel : forall m d p epa n,
  0 <= p -> epa + 512 <= 2 ^ 32 -> 1 <= n -> n + (epa - p) / 512 + 1 < 2 ^ 28 ->
  epa - p <= 512 * (Z.of_nat fuel - 1) -> (0 < fuel)%nat ->
  exists m' d', readseg_loop poll fuel p epa n (Boot m d) = Ret tt (Boot m' d') /\ bl_sector d' = bl_sector d /\
    (forall x, p <= x < epa -> m' x = image d (512 * (n - 1) + (x - p))) /\
    (forall x, x < p \/ epa + 511 <= x -> m' x = m x).
Proof.
  induction fuel as [|fuel IH]; intros m d p epa n Hp He Hn Hmax Hfuel Hpos; [lia|]. cbn [readseg_loop].
  destruct (Z.ltb_spec p epa) as [Hlt|Hge]; [|exists m, d; split_and!; [done|done|lia|done]].
  assert (Hq : (epa - (p + 512)) / 512 = (epa - p) / 512 - 1) by (Z.div_mod_to_equations; lia).
  assert (0 <= (epa - p) / 512) by (apply Z.div_pos; lia).
  destruct (readsect_run m d p n) as (d1 & E1 & S1); [lia|]. rewrite (bind_Ret _ _ _ _ _ E1).
  unfold SECTSIZE. rewrite !u32_id by (unfold is_u32; lia). set (m1 := put_bytes m p (bl_sector d n)).
  destruct (Nat.eq_dec fuel 0) as [->|Hf]; [lia|].
  assert (Hin : forall x, p <= x < p + 512 -> m1 x = image d (512 * (n - 1) + (x - p))).
  { intros x Hx. unfold m1. rewrite put_bytes_in by (rewrite bl_len; lia). unfold image. f_equal; [|f_equal].
    - f_equal. Z.div_mod_to_equations; lia.
    - Z.div_mod_to_equations; lia. }
  assert (Hout : forall x, x < p \/ p + 512 <= x -> m1 x = m x).
  { intros x Hx. unfold m1. apply put_bytes_out. rewrite bl_len. lia. }
  destruct (Z.lt_ge_cases (p + 512) epa) as [Hmore|Hlast].
  - destruct (IH m1 d1 (p + 512) epa (n + 1)) as (m' & d' & E & Sd & Hi & Ho); [lia|lia|lia|lia|lia|lia|].
    exists m', d'. split; [done|]. split; [congruence|]. split.
    + intros x Hx. destruct (Z.lt_ge_cases x (p + 512)); [rewrite Ho by lia; apply Hin; lia|].
      rewrite Hi by lia. unfold image. rewrite S1. replace (512 * (n + 1 - 1) + (x - (p + 512))) with (512 * (n - 1) + (x - p)) by lia. done.
    + intros x Hx. rewrite Ho by lia. apply Hout. lia.
  - destruct fuel as [|fuel]; [lia|]. cbn [readseg_loop]. rewrite (proj2 (Z.ltb_ge _ _)) by lia.
    exists m1, d1. split; [done|]. split; [done|]. split; [intros x Hx; apply Hin; lia|]. intros x Hx. apply Hout. lia.
Qed.

Lemma readseg_run m d pa count off : 0 <= off -> 0 <= count -> off mod 512 <= pa -> pa + count + 512 <= 2 ^ 32 -> off + count < 2 ^ 33 ->
  exists m' d', readseg poll pa count off (Boot m d) = Ret tt (Boot m' d') /\ bl_sector d' = bl_sector d /\
    (forall i, 0 <= i < count -> m' (pa + i) = image d (off + i)) /\
    (forall x, x < pa - off mod 512 \/ pa + count + 511 <= x -> m' x = m x).
Proof.
  intros Hoff Hc Hpa He Hmax. unfold readseg, SECTSIZE. pose proof (Z.mod_pos_bound off 512 ltac:(lia)) as Hm.
  rewrite !u32_id by (unfold is_u32; lia). set (p := pa - off mod 512).
  assert (0 <= off / 512) by (apply Z.div_pos; lia).
  destruct (readseg_loop_run (Z.to_nat ((pa + count - p) / 512 + 2)) m d p (pa + count) (off / 512 + 1)) as (m' & d' & E & Sd & Hi & Ho).
  - lia.
  - lia.
  - lia.
  - unfold p. Z.div_mod_to_equations; lia.
  - unfold p. Z.div_mod_to_equations; lia.
  - unfold p. Z.div_mod_to_equations; lia.
  - exists m', d'. split; [done|]. split; [done|]. split.
    + intros i Hr. rewrite Hi by lia. f_equal. unfold p. pose proof (Z.div_mod off 512). lia.
    + intros x Hx. apply Ho. lia.
Qed.

(** ** The image *)

Definition image_elf (d : D) : elfhdr := get_elfhdr (bytes_at (image d) 0 (Z.to_nat elfhdr_size)).

(** The [n] program headers from [off] of the image. *)
Fixpoint headers (d : D) (off : Z) (n : nat) : list proghdr :=
  match n with
  | O => []
  | S n => get_proghdr (bytes_at (image d) off (Z.to_nat proghdr_size)) :: headers d (off + proghdr_size) n
  end.

Definition seg_end (h : proghdr) : Z := ph_paddr h + Z.max (ph_filesz h) (ph_memsz h).

(** Segments in increasing order from [lo] on, each from the sector boundary its
    first byte is read at. *)
Fixpoint in_order (lo : Z) (hs : list proghdr) : Prop :=
  match hs with
  | [] => True
  | h :: hs =>
      (is_u32 (ph_off h) /\ is_u32 (ph_filesz h) /\ is_u32 (ph_memsz h)) /\
      lo <= ph_paddr h - ph_off h mod 512 /\ seg_end h + 512 <= 2 ^ 32 /\ in_order (seg_end h) hs
  end.

(** The segment's bytes, then zeroes. *)
Definition seg_loaded (d : D) (m : mem) (h : proghdr) : Prop :=
  (forall i, 0 <= i < ph_filesz h -> m (ph_paddr h + i) = image d (ph_off h + i)) /\
  (forall i, ph_filesz h <= i < ph_memsz h -> m (ph_paddr h + i) = 0).

Lemma image_same d d' : bl_sector d' = bl_sector d -> forall i, image d' i = image d i.
Proof. intros E i. unfold image. by rewrite E. Qed.

Lemma headers_same d d' n : bl_sector d' = bl_sector d -> forall off, headers d' off n = headers d off n.
Proof.
  intros E. induction n as [|n IH]; intros off; cbn [headers]; [done|]. rewrite IH. f_equal. f_equal.
  apply bytes_at_ext. intros i _. by apply image_same.
Qed.

Lemma seg_loaded_same d d' m h : bl_sector d' = bl_sector d -> seg_loaded d' m h -> seg_loaded d m h.
Proof. intros E [H1 H2]. split; [|done]. intros i Hi. rewrite H1 by done. by apply image_same. Qed.

Lemma in_order_start lo hs : in_order lo hs -> Forall (fun h => lo <= ph_paddr h - ph_off h mod 512) hs.
Proof.
  revert lo. induction hs as [|h hs IH]; intros lo; cbn [in_order]; [done|].
  intros ((U1 & U2 & U3) & Hlo & He & Hr). constructor; [done|]. eapply Forall_impl; [exact (IH _ Hr)|]. cbn. intros h' Hh'.
  unfold seg_end, is_u32 in *. pose proof (Z.mod_pos_bound (ph_off h) 512 ltac:(lia)). lia.
Qed.

(** One segment. *)
Definition load_ph (h : proghdr) : kern (boot D) unit :=
  readseg poll (ph_paddr h) (ph_filesz h) (ph_off h) ;;
  if ph_filesz h <? ph_memsz h
  then set_bmem (fun m => fill_range m (u32 (ph_paddr h + ph_filesz h)) 0 (ph_memsz h - ph_filesz h))
  else mret tt.

Lemma load_ph_run m d lo h hs : 0 <= lo -> in_order lo (h :: hs) ->
  exists m' d', load_ph h (Boot m d) = Ret tt (Boot m' d') /\ bl_sector d' = bl_sector d /\
    seg_loaded d m' h /\ (forall x, x < lo -> m' x = m x).
Proof.
  intros Hlo0 ((U1 & U2 & U3) & Hlo & He & _). unfold is_u32, seg_end in *. pose proof (Z.mod_pos_bound (ph_off h) 512 ltac:(lia)) as Hm.
  destruct (readseg_run m d (ph_paddr h) (ph_filesz h) (ph_off h)) as (m1 & d1 & E & Sd & Hi & Ho); [lia|lia|lia|lia|lia|].
  unfold load_ph. rewrite (bind_Ret _ _ _ _ _ E). destruct (Z.ltb_spec (ph_filesz h) (ph_memsz h)) as [Hlt|Hge].
  - rewrite u32_id by (unfold is_u32; lia). eexists _, d1. split; [reflexivity|]. split; [done|]. split; [split|].
    + intros i Hr. rewrite fill_out by lia. by apply Hi.
    + intros i Hr. rewrite fill_in by lia. done.
    + intros x Hx. rewrite fill_out by lia. apply Ho. lia.
  - exists m1, d1. split; [reflexivity|]. split; [done|]. split; [split; [exact Hi|intros i Hr; lia]|]. intros x Hx. apply Ho. lia.
Qed.

Lemma load_phs_run n : forall m d ph lo fuel,
  (n < fuel)%nat -> 0 <= ph -> ph + 32 * Z.of_nat n <= lo -> lo < 2 ^ 32 -> in_order lo (headers d (ph - scratch) n) ->
  (forall x, ph <= x < ph + 32 * Z.of_nat n -> m x = image d (x - scratch)) ->
  exists m' d', load_phs poll fuel ph (ph + 32 * Z.of_nat n) (Boot m d) = Ret tt (Boot m' d') /\ bl_sector d' = bl_sector d /\
    Forall (seg_loaded d m') (headers d (ph - scratch) n) /\ (forall x, x < lo -> m' x = m x).
Proof.
  induction n as [|n IH]; intros m d ph lo fuel Hf Hph Hlo Hmax Hord Hm; (destruct fuel as [|fuel]; [lia|]); cbn [load_phs].
  { rewrite (proj2 (Z.ltb_ge _ _)) by lia. by exists m, d. }
  rewrite (proj2 (Z.ltb_lt _ _)) by lia. rewrite bind_gets. cbn [b_mem].
  assert (Eh : bytes_at m ph (Z.to_nat proghdr_size) = bytes_at (image d) (ph - scratch) (Z.to_nat proghdr_size)).
  { apply bytes_at_ext. change (Z.of_nat (Z.to_nat proghdr_size)) with 32. intros i Hi. rewrite Hm by lia. f_equal. lia. }
  rewrite Eh. cbn [headers]. set (h := get_proghdr _). set (hs := headers d (ph - scratch + proghdr_size) n).
  cbn [headers] in Hord. fold h hs in Hord.
  destruct (load_ph_run m d lo h hs ltac:(lia) Hord) as (m1 & d1 & E1 & S1 & L1 & O1).
  assert (Ek : forall B (K : unit -> kern (boot D) B), (load_ph h ≫= K) (Boot m d) = K tt (Boot m1 d1)) by (intros B K; by apply bind_Ret).
  unfold load_ph in Ek. specialize (Ek unit (fun _ => load_phs poll fuel (u32 (ph + proghdr_size)) (ph + 32 * Z.of_nat (S n)))).
  rewrite bind_bind in Ek. cbv zeta. rewrite Ek. clear Ek. change proghdr_size with 32. rewrite u32_id by (unfold is_u32; lia).
  destruct Hord as ((U1 & U2 & U3) & Hl & He & Hord). unfold is_u32 in U1, U2, U3.
  pose proof (Z.mod_pos_bound (ph_off h) 512 ltac:(lia)) as Hmod.
  assert (Hle : lo <= seg_end h) by (unfold seg_end; lia).
  replace (ph + 32 * Z.of_nat (S n)) with (ph + 32 + 32 * Z.of_nat n) by lia.
  assert (Ehs : headers d1 (ph + 32 - scratch) n = hs).
  { unfold hs. rewrite (headers_same d d1) by done. f_equal. change proghdr_size with 32. lia. }
  destruct (IH m1 d1 (ph + 32) (seg_end h) fuel) as (m' & d' & E2 & S2 & L2 & O2); [lia|lia|lia|lia|by rewrite Ehs| |].
  { intros x Hx. rewrite O1, Hm by lia. symmetry. by apply image_same. }
  rewrite Ehs in L2. exists m', d'. split; [exact E2|]. split; [congruence|]. split; [|intros x Hx; rewrite O2, O1 by lia; done].
  constructor; [|eapply Forall_impl; [exact L2|]; intros h'; by apply seg_loaded_same].
  destruct L1 as [A1 A2]. unfold seg_end in O2. split; intros i Hi; rewrite O2 by lia; auto.
Qed.


End load.

(** ** An instance of the theorem *)

(** Registers, drive 0 and the sector asked for; the controller is always ready. *)
Record drive := Drive { dr_reg : Z -> Z; dr_sector : Z -> list Z; dr_asked : option Z }.

Definition dr_lba (p : drive) : Z := lba (dr_reg p 0x1F3) (dr_reg p 0x1F4) (dr_reg p 0x1F5) (Z.land (dr_reg p 0x1F6) 0xf).
Definition sector_of (l : list Z) : list Z := take 512 (l ++ replicate 512 0).

#[global] Instance drive_ports : IdeDevice drive := {
  inb a p := Ret (if a =? 0x1F7 then 0x40 else dr_reg p a) p;
  outb a v p :=
    if a =? 0x1F7 then Ret tt (Drive (dr_reg p) (dr_sector p) (Some (dr_lba p)))
    else Ret tt (Drive (fun r => if r =? a then v else dr_reg p r) (dr_sector p) (dr_asked p));
  outsl _ _ p := Ret tt p;
  insl _ _ p := Ret (match dr_asked p with Some n => sector_of (dr_sector p n) | None => [] end) p;
}.

Lemma lba_sector n : 0 <= n < 2 ^ 28 ->
  lba (u8 n) (u8 (Z.shiftr n 8)) (u8 (Z.shiftr n 16)) (Z.land (u8 (Z.lor (Z.shiftr n 24) 0xE0)) 0xf) = n.
Proof.
  intros Hn. rewrite !Z.shiftr_div_pow2 by lia. change 0xf with (Z.ones 4). unfold u8. rewrite Z.land_ones by lia.
  assert (H4 : 0 <= n / 2 ^ 24 < 16) by (Z.div_mod_to_equations; lia).
  assert (E : Z.lor (n / 2 ^ 24) 0xE0 mod 2 ^ 8 mod 2 ^ 4 = n / 2 ^ 24).
  { set (a := n / 2 ^ 24) in *. assert (Hc : a ∈ seqZ 0 16) by (apply elem_of_seqZ; lia).
    assert (Hall : Forall (fun a => Z.lor a 0xE0 mod 2 ^ 8 mod 2 ^ 4 = a) (seqZ 0 16)) by (vm_compute; repeat constructor).
    by apply (proj1 (Forall_forall _ _) Hall). }
  change (2 ^ 8) with 256 in *. rewrite E. unfold lba. Z.div_mod_to_equations; lia.
Qed.

#[global] Instance drive_laws poll : BootLaws drive (S poll).
Proof.
  refine {| bl_sector d n := sector_of (dr_sector d n); bl_asked := dr_asked |}.
  - intros d n. unfold sector_of. rewrite length_take, length_app, length_replicate. lia.
  - intros d. by exists d.
  - intros d n Hn. eexists. split; [reflexivity|]. split; [done|]. cbn [dr_asked].
    unfold dr_lba. cbn [dr_reg Z.eqb Pos.eqb]. by rewrite lba_sector.
  - intros d n E. exists d. cbn. by rewrite E.
Defined.

(** A kernel of one segment: 3 bytes at 0x100000 and 2 zeroes. *)
Definition tiny_header : list Z :=
  Exec.words [ELF_MAGIC; 0; 0; 0; 0; 0; 0x10000c; 52; 0; 0; 0] ++ [1; 0; 0; 0; 0; 0; 0; 0] ++
  Exec.words [1; 512; 0x80100000; 0x100000; 3; 5; 0; 0].
Definition tiny_disk : drive :=
  Drive (fun _ => 0) (fun n => if n =? 1 then tiny_header else if n =? 2 then [7; 8; 9; 10] else []) None.

Lemma tiny_headers : headers 1 tiny_disk 52 1 = [Proghdr 1 512 0x80100000 0x100000 3 5].
Proof. vm_compute. reflexivity. Qed.

Lemma tiny_elf : image_elf 1 tiny_disk = Elfhdr ELF_MAGIC 0x10000c 52 1.
Proof. vm_compute. reflexivity. Qed.

Lemma tiny_byte : image 1 tiny_disk (512 + 2) = 9.
Proof. vm_compute. reflexivity. Qed.

