(* ===== verification/Mp.v ===== *)
(** Finding the processors: mp.c and mp.h.

    The BIOS describes the machine in a floating pointer structure and a
    configuration table in physical memory, which the kernel reads at
    [KERNBASE].  [mpinit] records the processors and the I/O interrupt
    controller.  The theorems: the search finds the first structure with the
    right signature and checksum, and a table of known entries is read exactly. *)

From S2P Require Import Prelude Memory Kalloc Vm Fs Exec.

(** ** mp.h *)

Definition MPPROC : Z := 0x00.
Definition MPBUS : Z := 0x01.
Definition MPIOAPIC : Z := 0x02.
Definition MPIOINTR : Z := 0x03.
Definition MPLINTR : Z := 0x04.

Definition mp_size : Z := 16.
Definition mpconf_size : Z := 44.
Definition mpproc_size : Z := 20.
Definition mpioapic_size : Z := 8.

Definition NCPU : nat := 8.

(** Fields of the structures at [a]. *)
Definition ld16 (m : mem) (a : Z) : Z := m a + 256 * m (a + 1).
Definition mp_physaddr (m : mem) (mp : Z) : Z := ld32 m (mp + 4).
Definition mp_imcrp (m : mem) (mp : Z) : Z := m (mp + 12).
Definition conf_length (m : mem) (conf : Z) : Z := ld16 m (conf + 4).
Definition conf_version (m : mem) (conf : Z) : Z := m (conf + 6).
Definition conf_lapicaddr (m : mem) (conf : Z) : Z := ld32 m (conf + 36).

(** ** mp.c *)

Fixpoint sum_from (m : mem) (a : Z) (n : nat) (s : Z) : Z :=
  match n with O => s | S n => sum_from m (a + 1) n (s + m a) end.
Definition sum (m : mem) (a len : Z) : Z := u8 (sum_from m a (Z.to_nat len) 0).

Definition sig_mp : list Z := [95; 77; 80; 95].      (* _MP_ *)
Definition sig_conf : list Z := [80; 67; 77; 80].    (* PCMP *)

Definition is_mp (m : mem) (p : Z) : bool := bool_decide (bytes_at m p 4 = sig_mp) && (sum m p mp_size =? 0).

(** [for(p = addr; p < e; p += sizeof(struct mp))], [n] structures to go; 0 is the
    null pointer. *)
Fixpoint mpsearch_loop (m : mem) (n : nat) (p : Z) : Z :=
  match n with
  | O => 0
  | S n => if is_mp m p then p else mpsearch_loop m n (p + mp_size)
  end.
Definition mpsearch1 (m : mem) (a len : Z) : Z := mpsearch_loop m (Z.to_nat (len / mp_size)) (P2V a).

Definition mpsearch (m : mem) : Z :=
  let bda := P2V 0x400 in
  let p := Z.shiftl (Z.lor (Z.shiftl (m (bda + 0x0F)) 8) (m (bda + 0x0E))) 4 in
  let mp :=
    if negb (p =? 0) then mpsearch1 m p 1024
    else mpsearch1 m (u32 (Z.lor (Z.shiftl (m (bda + 0x14)) 8) (m (bda + 0x13)) * 1024 - 1024)) 1024 in
  if negb (mp =? 0) then mp else mpsearch1 m 0xF0000 0x10000.

(** The floating pointer structure and the table. *)
Definition mpconfig (m : mem) : option (Z * Z) :=
  let mp := mpsearch m in
  if (mp =? 0) || (mp_physaddr m mp =? 0) then None
  else
    let conf := P2V (mp_physaddr m mp) in
    if negb (bool_decide (bytes_at m conf 4 = sig_conf)) then None
    else if negb (conf_version m conf =? 1) && negb (conf_version m conf =? 4) then None
    else if negb (sum m conf (conf_length m conf) =? 0) then None
    else Some (mp, conf).

Record mpstate := Mpstate {
  mp_mem : mem;
  cpus : list Z;              (* cpus[i].apicid, i < ncpu *)
  ioapicid : Z;
  lapic : Z;
  ports_out : list (Z * Z);   (* outb *)
}.

(** The loop over the entries.  An entry of another type clears [ismp] and leaves
    the switch, not the loop: [p] stays where it is. *)
Fixpoint mpinit_loop (fuel : nat) (p e : Z) (ismp : bool) : kern mpstate bool :=
  match fuel with
  | O => fun _ => Fuel
  | S fuel =>
      if p <? e then
        m ← gets mp_mem;
        if m p =? MPPROC then
          modify (fun s => if (length (cpus s) <? NCPU)%nat
            then Mpstate (mp_mem s) (cpus s ++ [m (p + 1)]) (ioapicid s) (lapic s) (ports_out s) else s) ;;
          mpinit_loop fuel (p + mpproc_size) e ismp
        else if m p =? MPIOAPIC then
          modify (fun s => Mpstate (mp_mem s) (cpus s) (m (p + 1)) (lapic s) (ports_out s)) ;;
          mpinit_loop fuel (p + mpioapic_size) e ismp
        else if (m p =? MPBUS) || (m p =? MPIOINTR) || (m p =? MPLINTR) then
          mpinit_loop fuel (p + 8) e ismp
        else mpinit_loop fuel p e false
      else mret ismp
  end.

(** [imcr] is what [inb(0x23)] returns; every known entry has at least 8 bytes. *)
Definition mpinit (fuel : nat) (imcr : Z) : kern mpstate unit :=
  m ← gets mp_mem;
  match mpconfig m with
  | None => panic "Expect to run on an SMP"
  | Some (mp, conf) =>
      modify (fun s => Mpstate (mp_mem s) (cpus s) (ioapicid s) (conf_lapicaddr m conf) (ports_out s)) ;;
      ismp ← mpinit_loop fuel (conf + mpconf_size) (conf + conf_length m conf) true;
      if negb ismp then panic "Didn't find a suitable machine"
      else if negb (mp_imcrp m mp =? 0) then
        modify (fun s => Mpstate (mp_mem s) (cpus s) (ioapicid s) (lapic s)
          (ports_out s ++ [(0x22, 0x70); (0x23, Z.lor imcr 1)]))
      else mret tt
  end.

(** ** The table *)

Inductive mpentry :=
| EProc (apicid : Z) (rest : list Z)
| EIoapic (apicno : Z) (rest : list Z)
| EOther (type : Z) (rest : list Z).

Definition known (ty : Z) : Prop := ty = MPPROC \/ ty = MPIOAPIC \/ ty = MPBUS \/ ty = MPIOINTR \/ ty = MPLINTR.

Definition entry_ok (x : mpentry) : Prop :=
  match x with
  | EProc _ rest => length rest = 18%nat
  | EIoapic _ rest => length rest = 6%nat
  | EOther ty rest => (ty = MPBUS \/ ty = MPIOINTR \/ ty = MPLINTR) /\ length rest = 7%nat
  end.

Definition entry_bytes (x : mpentry) : list Z :=
  match x with
  | EProc a rest => MPPROC :: a :: rest
  | EIoapic a rest => MPIOAPIC :: a :: rest
  | EOther ty rest => ty :: rest
  end.

Definition table_bytes (es : list mpentry) : list Z := mjoin (entry_bytes <$> es).

(** What the entries say. *)
Definition proc_ids (es : list mpentry) : list Z := omap (fun x => match x with EProc a _ => Some a | _ => None end) es.
Definition ioapic_ids (es : list mpentry) : list Z := omap (fun x => match x with EIoapic a _ => Some a | _ => None end) es.

Definition read_table (es : list mpentry) (s : mpstate) : mpstate :=
  Mpstate (mp_mem s) (take NCPU (cpus s ++ proc_ids es)) (default (ioapicid s) (last (ioapic_ids es))) (lapic s) (ports_out s).

Lemma bytes_at_app m p l l' : bytes_at m p (length (l ++ l')) = l ++ l' ->
  bytes_at m p (length l) = l /\ bytes_at m (p + Z.of_nat (length l)) (length l') = l'.
Proof.
  intros E. rewrite length_app in E. unfold bytes_at in *. rewrite seq_app, fmap_app in E.
  apply app_inj_1 in E as [E1 E2]; [|by rewrite length_fmap, length_seq]. split; [done|].
  rewrite <- E2 at 2. apply list_eq. intros i. rewrite !list_lookup_fmap. destruct (decide (i < length l')%nat) as [Hi|Hi].
  - rewrite !lookup_seq_lt by done. cbn. do 2 f_equal. lia.
  - by rewrite !lookup_seq_ge by lia.
Qed.

Lemma bytes_at_nth m p l k b : bytes_at m p (length l) = l -> l !! k = Some b -> m (p + Z.of_nat k) = b.
Proof.
  intros E Hk. pose proof (lookup_lt_Some _ _ _ Hk) as Hlt. rewrite <- E in Hk. rewrite bytes_at_lookup in Hk by done. by injection Hk.
Qed.

Lemma last_cons_default {A} (d x : A) l : default d (last (x :: l)) = default x (last l).
Proof. rewrite last_cons. by destruct (last l). Qed.

(** One entry. *)
Lemma mpinit_entry fuel p e b s x es :
  entry_ok x -> bytes_at (mp_mem s) p (length (entry_bytes x)) = entry_bytes x -> p + Z.of_nat (length (entry_bytes x)) <= e ->
  (length (cpus s) <= NCPU)%nat ->
  exists s', mpinit_loop (S fuel) p e b s = mpinit_loop fuel (p + Z.of_nat (length (entry_bytes x))) e b s' /\
    mp_mem s' = mp_mem s /\ (length (cpus s') <= NCPU)%nat /\ read_table es s' = read_table (x :: es) s.
Proof.
  intros Hok Hb He Hc. cbn [mpinit_loop].
  assert (Hlt : p < e) by (destruct x; cbn in He; lia). rewrite (proj2 (Z.ltb_lt _ _) Hlt), bind_gets.
  assert (H0 : forall y, entry_bytes x !! 0%nat = Some y -> mp_mem s p = y).
  { intros y Hy. rewrite <- (bytes_at_nth _ _ _ 0 y Hb Hy). f_equal. lia. }
  assert (H1 : forall y, entry_bytes x !! 1%nat = Some y -> mp_mem s (p + 1) = y).
  { intros y Hy. by rewrite <- (bytes_at_nth _ _ _ 1 y Hb Hy). }
  destruct x as [a rest|a rest|ty rest]; cbn [entry_bytes entry_ok] in *.
  - rewrite (H0 MPPROC eq_refl). change (MPPROC =? MPPROC) with true. cbv iota. rewrite bind_modify. rewrite (H1 a eq_refl). cbn [length]. rewrite Hok.
    eexists. split; [reflexivity|]. destruct (Nat.ltb_spec (length (cpus s)) NCPU) as [Hl|Hl]; cbn [mp_mem cpus].
    + split; [done|]. split; [rewrite length_app; cbn; lia|]. unfold read_table. cbn. by rewrite <- app_assoc.
    + split; [done|]. split; [done|]. unfold read_table. cbn [proc_ids ioapic_ids omap list_omap]. f_equal.
      assert (El : length (cpus s) = NCPU) by lia. rewrite <- El, !take_app_length. done.
  - rewrite (H0 MPIOAPIC eq_refl). change (MPIOAPIC =? MPPROC) with false. change (MPIOAPIC =? MPIOAPIC) with true. cbv iota. rewrite bind_modify. rewrite (H1 a eq_refl). cbn [length]. rewrite Hok.
    eexists. split; [reflexivity|]. cbn [mp_mem cpus]. split; [done|]. split; [done|]. unfold read_table.
    cbn [mp_mem cpus ioapicid lapic ports_out proc_ids ioapic_ids omap list_omap]. by rewrite last_cons_default.
  - destruct Hok as [Ht Hr]. rewrite (H0 ty eq_refl). cbn [length]. rewrite Hr. exists s. split; [|done].
    destruct Ht as [->|[->| ->]]; reflexivity.
Qed.

(** Known entries are read one after another. *)
Lemma mpinit_entries es : forall fuel p e b s,
  Forall entry_ok es -> bytes_at (mp_mem s) p (length (table_bytes es)) = table_bytes es ->
  p + Z.of_nat (length (table_bytes es)) <= e -> (length (cpus s) <= NCPU)%nat ->
  mpinit_loop (length es + fuel) p e b s = mpinit_loop fuel (p + Z.of_nat (length (table_bytes es))) e b (read_table es s).
Proof.
  induction es as [|x es IH]; intros fuel p e b s Hok Hb He Hc.
  { cbn. rewrite Z.add_0_r. f_equal. unfold read_table. cbn. rewrite app_nil_r, take_ge by done. by destruct s. }
  apply Forall_cons in Hok as [Hx Hok]. change (table_bytes (x :: es)) with (entry_bytes x ++ table_bytes es) in *.
  apply bytes_at_app in Hb as [Hb1 Hb2]. rewrite length_app in *. cbn [length plus].
  destruct (mpinit_entry (length es + fuel) p e b s x es Hx Hb1 ltac:(lia) Hc) as (s' & E & Em & Hc' & Er).
  rewrite E, IH, Er; [f_equal; lia|done|by rewrite Em|lia|done].
Qed.

(** An entry of an unknown type is never passed. *)
Lemma mpinit_stuck fuel : forall p e b s, p < e -> ~ known (mp_mem s p) -> mpinit_loop fuel p e b s = Fuel.
Proof.
  induction fuel as [|fuel IH]; intros p e b s Hlt Hk; [done|]. cbn [mpinit_loop].
  rewrite (proj2 (Z.ltb_lt _ _) Hlt), bind_gets. unfold known in Hk.
  rewrite (proj2 (Z.eqb_neq _ MPPROC)), (proj2 (Z.eqb_neq _ MPIOAPIC)), (proj2 (Z.eqb_neq _ MPBUS)),
    (proj2 (Z.eqb_neq _ MPIOINTR)), (proj2 (Z.eqb_neq _ MPLINTR)) by tauto.
  by apply IH.
Qed.

(** C35: When the search has found a configuration table, [mpinit] records the local
    interrupt controller, the processors of the table in order, at most [NCPU] of
    them, and the last I/O interrupt controller, if every entry is of a known
    type.  If one is not, it loops forever instead of reporting an unsuitable
    machine. *)
Theorem mpinit_reads_table es tail mp conf imcr s :
  mpconfig (mp_mem s) = Some (mp, conf) -> cpus s = [] -> Forall entry_ok es ->
  let len := Z.of_nat (length (table_bytes es ++ tail)) in
  conf_length (mp_mem s) conf = mpconf_size + len ->
  bytes_at (mp_mem s) (conf + mpconf_size) (length (table_bytes es ++ tail)) = table_bytes es ++ tail ->
  match tail with
  | [] => exists out, mpinit (length es + 1) imcr s =
      Ret tt (Mpstate (mp_mem s) (take NCPU (proc_ids es)) (default (ioapicid s) (last (ioapic_ids es)))
                (conf_lapicaddr (mp_mem s) conf) (ports_out s ++ out)) /\
      (out <> [] <-> mp_imcrp (mp_mem s) mp <> 0)
  | ty :: _ => ~ known ty -> forall fuel, mpinit (length es + fuel) imcr s = Fuel
  end.
Proof.
  intros Hconf Hcpu Hok len Hlen Hb. unfold mpinit. set (s1 := Mpstate (mp_mem s) (cpus s) (ioapicid s) (conf_lapicaddr (mp_mem s) conf) (ports_out s)).
  assert (Hc : (length (cpus s1) <= NCPU)%nat) by (cbn; rewrite Hcpu; cbn; lia).
  apply bytes_at_app in Hb as [Hb1 Hb2]. unfold len in Hlen. rewrite length_app in Hlen.
  assert (Hrun : forall fuel, mpinit_loop (length es + fuel) (conf + mpconf_size) (conf + conf_length (mp_mem s) conf) true s1 =
    mpinit_loop fuel (conf + mpconf_size + Z.of_nat (length (table_bytes es))) (conf + conf_length (mp_mem s) conf) true (read_table es s1)).
  { intros fuel. apply mpinit_entries; [done|done|rewrite Hlen; lia|done]. }
  destruct tail as [|ty tail].
  - rewrite bind_gets, Hconf, bind_modify. fold s1.
    assert (E : mpinit_loop 1 (conf + mpconf_size + Z.of_nat (length (table_bytes es))) (conf + conf_length (mp_mem s) conf) true (read_table es s1) = Ret true (read_table es s1)).
    { cbn [mpinit_loop]. rewrite (proj2 (Z.ltb_ge _ _)); [done|]. rewrite Hlen. cbn [length]. lia. }
    rewrite (bind_Ret _ _ _ _ _ (eq_trans (Hrun 1%nat) E)). cbn [negb]. unfold read_table, s1. cbn [mp_mem cpus ioapicid lapic ports_out].
    rewrite Hcpu. cbn [app]. destruct (Z.eqb_spec (mp_imcrp (mp_mem s) mp) 0) as [Ez|Ez]; cbn [negb].
    + exists []. rewrite app_nil_r. split; [reflexivity|]. by split.
    + eexists. split; [reflexivity|]. by split.
  - intros Hk fuel. rewrite bind_gets, Hconf, bind_modify. fold s1. unfold mbind, kern_bind. rewrite Hrun.
    rewrite mpinit_stuck; [done|rewrite Hlen; cbn [length]; lia|].
    pose proof (bytes_at_nth _ _ _ 0 ty Hb2 eq_refl) as E. rewrite Z.add_0_r in E. cbn. by rewrite E.
Qed.

(** ** An instance of the theorem *)

(** A machine with one processor, number 5, and I/O controller 3. *)
Definition wit_entries : list mpentry := [EProc 5 (replicate 18 0); EIoapic 3 (replicate 6 0)].
Definition wit_mp : list Z := sig_mp ++ [0; 1; 15; 0; 1; 4; 16; 0; 128; 0; 0; 0].
Definition wit_conf : list Z :=
  sig_conf ++ [72; 0; 4; 156] ++ replicate 28 0 ++ [0; 0; 224; 254; 0; 0; 0; 0] ++ table_bytes wit_entries.
Definition wit_mpmem : mem := put_bytes (put_bytes (fun _ => 0) 0x800F0000 wit_mp) 0x800F0100 wit_conf.

Lemma mpinit_reads_table_witness :
  exists out, mpinit 3 0 (Mpstate wit_mpmem [] 0 0 []) = Ret tt (Mpstate wit_mpmem [5] 3 0xFEE00000 out).
Proof.
  destruct (mpinit_reads_table wit_entries [] 0x800F0000 0x800F0100 0 (Mpstate wit_mpmem [] 0 0 [])) as (out & E & _).
  - vm_compute. reflexivity.
  - reflexivity.
  - repeat constructor.
  - vm_compute. reflexivity.
  - vm_compute. reflexivity.
  - exists out. exact E.
Defined.
