(* ===== verification/Apic.v ===== *)
(** The interrupt controllers and the start of the other processors: lapic.c
    (without the clock, which is in Rtc), ioapic.c, picirq.c and [startothers] of
    main.c.

    The controllers are interfaces, [IoapicDevice] and [LapicDevice], whose laws
    state what the Intel manuals say of their registers; [ioapic_chip] and
    [lapic_chip] are instances.  The theorems: the redirection table sends
    exactly the enabled interrupts to the processors asked for, and the start-up
    sequence makes exactly the addressed processors run the entry code. *)

From S2P Require Import Prelude Trap.

Definition IRQ_ERROR : Z := 19.

(** ** ioapic.c *)

Definition REG_ID : Z := 0x00.
Definition REG_VER : Z := 0x01.
Definition REG_TABLE : Z := 0x10.
Definition INT_DISABLED : Z := 0x00010000.

(** The fields of [struct ioapic], as byte offsets. *)
Definition off_reg : Z := 0.
Definition off_data : Z := 16.

(** Loads and stores at the address [IOAPIC]. *)
Class IoapicDevice (D : Type) := {
  io_load : Z -> kern D Z;
  io_store : Z -> Z -> kern D unit;
}.

Section ioapic.
Context {D : Type} `{IoapicDevice D}.

Definition ioapicread (reg : Z) : kern D Z := io_store off_reg reg ;; io_load off_data.
Definition ioapicwrite (reg data : Z) : kern D unit := io_store off_reg reg ;; io_store off_data data.

(** [for(i = 0; i <= maxintr; i++)], [n] entries to go. *)
Fixpoint ioapic_mask (n : nat) (i : Z) : kern D unit :=
  match n with
  | O => mret tt
  | S n =>
      ioapicwrite (REG_TABLE + 2 * i) (Z.lor INT_DISABLED (T_IRQ0 + i)) ;;
      ioapicwrite (REG_TABLE + 2 * i + 1) 0 ;;
      ioapic_mask n (i + 1)
  end.

(** The result says whether the warning is printed: the controller is not the one
    the configuration table names. *)
Definition ioapicinit (ioapicid : Z) : kern D bool :=
  ver ← ioapicread REG_VER;
  let maxintr := Z.land (Z.shiftr ver 16) 0xFF in
  idr ← ioapicread REG_ID;
  let id := Z.shiftr idr 24 in
  ioapic_mask (Z.to_nat (maxintr + 1)) 0 ;;
  mret (negb (id =? ioapicid)).

Definition ioapicenable (irq cpunum : Z) : kern D unit :=
  ioapicwrite (REG_TABLE + 2 * irq) (T_IRQ0 + irq) ;;
  ioapicwrite (REG_TABLE + 2 * irq + 1) (u32 (Z.shiftl cpunum 24)).

(** The drivers enable their interrupts one after the other. *)
Fixpoint enable_all (reqs : list (Z * Z)) : kern D unit :=
  match reqs with
  | [] => mret tt
  | (irq, cpu) :: reqs => ioapicenable irq cpu ;; enable_all reqs
  end.
End ioapic.

(** What the data sheet says: a store to the first word selects a register, the
    data word is the selected register, and the version register, which holds the
    number of the last redirection entry, is read-only. *)
Class IoapicLaws (D : Type) `{IoapicDevice D} := {
  io_sel : D -> Z;
  io_reg : D -> Z -> Z;
  io_select v d : exists d', io_store off_reg v d = Ret tt d' /\ io_sel d' = v /\ io_reg d' = io_reg d;
  io_read d : exists d', io_load off_data d = Ret (io_reg d (io_sel d)) d' /\ io_sel d' = io_sel d /\ io_reg d' = io_reg d;
  io_write v d : is_u32 v ->
    REG_TABLE <= io_sel d <= REG_TABLE + 2 * Z.land (Z.shiftr (io_reg d REG_VER) 16) 0xFF + 1 ->
    exists d', io_store off_data v d = Ret tt d' /\ io_sel d' = io_sel d /\
      forall r, io_reg d' r = if r =? io_sel d then v else io_reg d r;
}.

(** ** lapic.c *)

Definition ID : Z := 0x0020 / 4.
Definition VER : Z := 0x0030 / 4.
Definition TPR : Z := 0x0080 / 4.
Definition EOI : Z := 0x00B0 / 4.
Definition SVR : Z := 0x00F0 / 4.
Definition ENABLE : Z := 0x00000100.
Definition ESR : Z := 0x0280 / 4.
Definition ICRLO : Z := 0x0300 / 4.
Definition INIT : Z := 0x00000500.
Definition STARTUP : Z := 0x00000600.
Definition DELIVS : Z := 0x00001000.
Definition ASSERT : Z := 0x00004000.
Definition LEVEL : Z := 0x00008000.
Definition BCAST : Z := 0x00080000.
Definition ICRHI : Z := 0x0310 / 4.
Definition TIMER : Z := 0x0320 / 4.
Definition X1 : Z := 0x0000000B.
Definition PERIODIC : Z := 0x00020000.
Definition PCINT : Z := 0x0340 / 4.
Definition LINT0 : Z := 0x0350 / 4.
Definition LINT1 : Z := 0x0360 / 4.
Definition ERROR : Z := 0x0370 / 4.
Definition MASKED : Z := 0x00010000.
Definition TICR : Z := 0x0380 / 4.
Definition TDCR : Z := 0x03E0 / 4.
Definition CMOS_PORT : Z := 0x70.

(** Loads and stores of the register array, of 16-bit words at a physical
    address, and port output. *)
Class LapicDevice (D : Type) := {
  lapic_load : Z -> kern D Z;
  lapic_store : Z -> Z -> kern D unit;
  word_store : Z -> Z -> kern D unit;
  lapic_outb : Z -> Z -> kern D unit;
}.

Section lapic.
Context {D : Type} `{LapicDevice D}.

Definition lapicw (index value : Z) : kern D unit :=
  lapic_store index value ;;
  _ ← lapic_load ID; mret tt.

(** [while(lapic[ICRLO] & DELIVS);] *)
Fixpoint delivered (fuel : nat) : kern D unit :=
  match fuel with
  | O => fun _ => Fuel
  | S fuel =>
      v ← lapic_load ICRLO;
      if negb (Z.land v DELIVS =? 0) then delivered fuel else mret tt
  end.

Definition lapicinit (fuel : nat) (lapic : Z) : kern D unit :=
  if lapic =? 0 then mret tt
  else
    lapicw SVR (Z.lor ENABLE (T_IRQ0 + IRQ_SPURIOUS)) ;;
    lapicw TDCR X1 ;;
    lapicw TIMER (Z.lor PERIODIC (T_IRQ0 + IRQ_TIMER)) ;;
    lapicw TICR 10000000 ;;
    lapicw LINT0 MASKED ;;
    lapicw LINT1 MASKED ;;
    ver ← lapic_load VER;
    (if Z.land (Z.shiftr ver 16) 0xFF >=? 4 then lapicw PCINT MASKED else mret tt) ;;
    lapicw ERROR (T_IRQ0 + IRQ_ERROR) ;;
    lapicw ESR 0 ;;
    lapicw ESR 0 ;;
    lapicw EOI 0 ;;
    lapicw ICRHI 0 ;;
    lapicw ICRLO (Z.lor (Z.lor BCAST INIT) LEVEL) ;;
    delivered fuel ;;
    lapicw TPR 0.

Definition lapicid (lapic : Z) : kern D Z :=
  if lapic =? 0 then mret 0 else v ← lapic_load ID; mret (Z.shiftr v 24).

Definition lapiceoi (lapic : Z) : kern D unit :=
  if negb (lapic =? 0) then lapicw EOI 0 else mret tt.

Fixpoint send_startup (n : nat) (apicid addr : Z) : kern D unit :=
  match n with
  | O => mret tt
  | S n =>
      lapicw ICRHI (u32 (Z.shiftl apicid 24)) ;;
      lapicw ICRLO (Z.lor STARTUP (Z.shiftr addr 12)) ;;
      send_startup n apicid addr
  end.

Definition lapicstartap (apicid addr : Z) : kern D unit :=
  lapic_outb CMOS_PORT 0xF ;;
  lapic_outb (CMOS_PORT + 1) 0x0A ;;
  let wrv := Z.lor (Z.shiftl 0x40 4) 0x67 in
  word_store wrv 0 ;;
  word_store (wrv + 2) (u16 (Z.shiftr addr 4)) ;;
  lapicw ICRHI (u32 (Z.shiftl apicid 24)) ;;
  lapicw ICRLO (Z.lor (Z.lor INIT LEVEL) ASSERT) ;;
  lapicw ICRLO (Z.lor INIT LEVEL) ;;
  send_startup 2 apicid addr.
End lapic.

(** ** picirq.c *)

Definition IO_PIC1 : Z := 0x20.
Definition IO_PIC2 : Z := 0xA0.
Definition picinit {D} `{LapicDevice D} : kern D unit :=
  lapic_outb (IO_PIC1 + 1) 0xFF ;; lapic_outb (IO_PIC2 + 1) 0xFF.

(** ** Interrupts between processors *)

(** A processor as the start-up protocol sees it: halted after an INIT, or
    executing, last started at [eip]. *)
Inductive apstate := WaitSipi | Running (eip : Z).

(** A command of the low word of the interrupt command register, received: INIT
    resets (its de-assert form only synchronises arbitration), and STARTUP is
    taken in the halted state alone, at the page its vector names. *)
Definition ipi (cmd : Z) (st : apstate) : apstate :=
  let mode := Z.land (Z.shiftr cmd 8) 7 in
  if mode =? 5 then if Z.testbit cmd 15 && negb (Z.testbit cmd 14) then st else WaitSipi
  else if mode =? 6 then match st with WaitSipi => Running (Z.shiftl (Z.land cmd 0xFF) 12) | _ => st end
  else st.

(** Its destination: the shorthand field (0 for the named processor, 2 for all). *)
Definition shorthand (cmd : Z) : Z := Z.land (Z.shiftr cmd 18) 3.
Definition addressed (dest cmd c : Z) : bool := (shorthand cmd =? 2) || (c =? dest).

Definition writable : list Z := [TPR; EOI; SVR; ESR; ICRHI; TIMER; PCINT; LINT0; LINT1; ERROR; TICR; TDCR].

(** What the processor manual says; a command is delivered within [settle] polls. *)
Class LapicLaws (D : Type) `{LapicDevice D} (settle : nat) := {
  la_reg : D -> Z -> Z;
  la_cpu : D -> Z -> apstate;
  la_busy : D -> nat;
  la_word : D -> Z -> Z;
  la_out : D -> list (Z * Z);
  la_load i d : i <> ICRLO -> exists d', lapic_load i d = Ret (la_reg d i) d' /\ (la_busy d' <= la_busy d)%nat /\
    la_reg d' = la_reg d /\ la_cpu d' = la_cpu d /\ la_word d' = la_word d /\ la_out d' = la_out d;
  la_poll d : exists v d', lapic_load ICRLO d = Ret v d' /\
    (Z.land v DELIVS =? 0) = (la_busy d =? 0)%nat /\ la_busy d' = pred (la_busy d) /\
    la_reg d' = la_reg d /\ la_cpu d' = la_cpu d /\ la_word d' = la_word d /\ la_out d' = la_out d;
  la_store i v d : i ∈ writable -> is_u32 v -> exists d', lapic_store i v d = Ret tt d' /\
    (i ∉ [EOI; ESR] -> la_reg d' i = v) /\ (forall j, j <> i -> la_reg d' j = la_reg d j) /\
    la_cpu d' = la_cpu d /\ la_word d' = la_word d /\ la_out d' = la_out d;
  la_send v d : is_u32 v -> shorthand v = 0 \/ shorthand v = 2 -> exists d', lapic_store ICRLO v d = Ret tt d' /\
    (la_busy d' <= settle)%nat /\ (forall j, j <> ICRLO -> la_reg d' j = la_reg d j) /\
    (forall c, la_cpu d' c =
      if addressed (Z.shiftr (la_reg d ICRHI) 24) v c then ipi v (la_cpu d c) else la_cpu d c) /\
    la_word d' = la_word d /\ la_out d' = la_out d;
  la_word_store a v d : is_u16 v -> exists d', word_store a v d = Ret tt d' /\
    (forall b, la_word d' b = if b =? a then v else la_word d b) /\
    la_reg d' = la_reg d /\ la_cpu d' = la_cpu d /\ la_out d' = la_out d;
  la_outb p v d : exists d', lapic_outb p v d = Ret tt d' /\ la_out d' = la_out d ++ [(p, v)] /\
    la_reg d' = la_reg d /\ la_cpu d' = la_cpu d /\ la_word d' = la_word d;
}.

(** ** The redirection table *)

Record redirection := Redirection {
  rd_masked : bool;
  rd_level : bool;
  rd_activelow : bool;
  rd_logical : bool;
  rd_vector : Z;
  rd_cpu : Z;
}.

Definition redirection_of (lo hi : Z) : redirection :=
  Redirection (Z.testbit lo 16) (Z.testbit lo 15) (Z.testbit lo 13) (Z.testbit lo 11) (Z.land lo 0xFF) (Z.shiftr hi 24).

(** The processor the last request for [irq] names. *)
Fixpoint route (reqs : list (Z * Z)) (irq : Z) : option Z :=
  match reqs with
  | [] => None
  | (i, cpu) :: reqs => match route reqs irq with Some c => Some c | None => if i =? irq then Some cpu else None end
  end.

(** The entry of [irq] when [o] is its route. *)
Definition routed (irq : Z) (o : option Z) : redirection :=
  Redirection (match o with None => true | _ => false end) false false false (T_IRQ0 + irq) (default 0 o).

Lemma shiftl_cpu cpu : 0 <= cpu < 256 -> is_u32 (Z.shiftl cpu 24) /\ Z.shiftr (Z.shiftl cpu 24) 24 = cpu.
Proof.
  intros Hc. split; [rewrite Z.shiftl_mul_pow2 by lia; unfold is_u32; lia|].
  rewrite Z.shiftr_shiftl_l by lia. apply Z.shiftl_0_r.
Qed.

(** A vector number and the mask bit, as the fields of an entry. *)
Lemma entry_fields v hi : 0 <= v < 256 ->
  redirection_of v hi = Redirection false false false false v (Z.shiftr hi 24) /\
  redirection_of (Z.lor INT_DISABLED v) hi = Redirection true false false false v (Z.shiftr hi 24).
Proof.
  intros Hv. assert (Hb : forall n, 8 <= n -> Z.testbit v n = false).
  { intros n Hn. apply Z.bits_above_log2; [lia|]. destruct (decide (v = 0)) as [->|]; [cbn; lia|].
    apply Z.lt_le_trans with 8; [apply Z.log2_lt_pow2; lia|lia]. }
  assert (Hm : Z.land v 0xFF = v).
  { change 0xFF with (Z.ones 8). rewrite Z.land_ones by lia. apply Z.mod_small. lia. }
  unfold redirection_of. rewrite !Z.lor_spec, Z.land_lor_distr_l, Hm, !Hb by lia. done.
Qed.

Section ioapic_correct.
Context {D : Type} `{IoapicLaws D}.

Definition maxintr (d : D) : Z := Z.land (Z.shiftr (io_reg d REG_VER) 16) 0xFF.
Definition entry (d : D) (irq : Z) : redirection :=
  redirection_of (io_reg d (REG_TABLE + 2 * irq)) (io_reg d (REG_TABLE + 2 * irq + 1)).

Lemma maxintr_range d : 0 <= maxintr d < 256.
Proof.
  unfold maxintr. change 0xFF with (Z.ones 8). rewrite Z.land_ones by lia. apply Z.mod_pos_bound. lia.
Qed.

Lemma ioapicread_reg r d : exists d', ioapicread r d = Ret (io_reg d r) d' /\ io_reg d' = io_reg d.
Proof.
  destruct (io_select r d) as (d1 & H1 & Hs & Hr). destruct (io_read d1) as (d2 & H2 & _ & Hr2).
  exists d2. unfold ioapicread. rewrite (bind_Ret _ _ _ _ _ H1), H2, Hs, Hr. split; [done|congruence].
Qed.

Lemma ioapicwrite_reg r v d : is_u32 v -> REG_TABLE <= r <= REG_TABLE + 2 * maxintr d + 1 ->
  exists d', ioapicwrite r v d = Ret tt d' /\ forall q, io_reg d' q = if q =? r then v else io_reg d q.
Proof.
  intros Hv Hr. destruct (io_select r d) as (d1 & H1 & Hs & Hreg).
  destruct (io_write v d1 Hv) as (d2 & H2 & _ & Hr2).
  { rewrite Hs, Hreg. exact Hr. }
  exists d2. unfold ioapicwrite. rewrite (bind_Ret _ _ _ _ _ H1). split; [done|].
  intros q. by rewrite Hr2, Hs, Hreg.
Qed.

(** Both words of one entry. *)
Lemma write_entry irq lo hi d : is_u32 lo -> is_u32 hi -> 0 <= irq <= maxintr d ->
  exists d', (ioapicwrite (REG_TABLE + 2 * irq) lo ;; ioapicwrite (REG_TABLE + 2 * irq + 1) hi) d = Ret tt d' /\
    maxintr d' = maxintr d /\ forall i, 0 <= i -> entry d' i = if i =? irq then redirection_of lo hi else entry d i.
Proof.
  intros Hlo Hhi Hi.
  destruct (ioapicwrite_reg (REG_TABLE + 2 * irq) lo d Hlo) as (d1 & H1 & R1); [unfold REG_TABLE; lia|].
  assert (Hm1 : maxintr d1 = maxintr d).
  { unfold maxintr. rewrite R1. destruct (Z.eqb_spec REG_VER (REG_TABLE + 2 * irq)); [unfold REG_VER, REG_TABLE in *; lia|done]. }
  destruct (ioapicwrite_reg (REG_TABLE + 2 * irq + 1) hi d1 Hhi) as (d2 & H2 & R2); [rewrite Hm1; unfold REG_TABLE; lia|].
  exists d2. rewrite (bind_Ret _ _ _ _ _ H1). split; [exact H2|]. split.
  - rewrite <-Hm1. unfold maxintr. rewrite R2.
    destruct (Z.eqb_spec REG_VER (REG_TABLE + 2 * irq + 1)); [unfold REG_VER, REG_TABLE in *; lia|done].
  - intros i Hi0. unfold entry. rewrite !R2, !R1.
    repeat match goal with |- context [?a =? ?b] => destruct (Z.eqb_spec a b); try lia end; done.
Qed.

Lemma ioapic_mask_entries n : forall i d, 0 <= i -> i + Z.of_nat n <= maxintr d + 1 -> maxintr d < 224 ->
  exists d', ioapic_mask n i d = Ret tt d' /\ maxintr d' = maxintr d /\
    forall j, 0 <= j -> entry d' j = if (i <=? j) && (j <? i + Z.of_nat n) then routed j None else entry d j.
Proof.
  induction n as [|n IH]; intros i d Hi Hn Hm.
  - exists d. split; [done|]. split; [done|]. intros j _. destruct (Z.leb_spec i j), (Z.ltb_spec j (i + Z.of_nat 0)); cbn [andb]; done || lia.
  - assert (Hv : 0 <= T_IRQ0 + i < 256) by (unfold T_IRQ0; lia).
    destruct (write_entry i (Z.lor INT_DISABLED (T_IRQ0 + i)) 0 d) as (d1 & H1 & Hm1 & R1); [| |lia|].
    { split; [apply Z.lor_nonneg; unfold INT_DISABLED; lia|]. apply Z.log2_lt_cancel. rewrite Z.log2_lor by (unfold INT_DISABLED; lia).
      apply Z.max_lub_lt; [vm_compute; done|]. apply Z.le_lt_trans with (Z.log2 255); [apply Z.log2_le_mono; lia|vm_compute; done]. }
    { unfold is_u32. lia. }
    destruct (IH (i + 1) d1) as (d2 & H2 & Hm2 & R2); [lia|lia|lia|].
    exists d2. split; [cbn [ioapic_mask]; rewrite <-bind_bind, (bind_Ret _ _ _ _ _ H1); exact H2|].
    split; [congruence|]. intros j Hj. rewrite R2, R1 by lia.
    destruct (Z.leb_spec (i + 1) j), (Z.ltb_spec j (i + 1 + Z.of_nat n)), (Z.leb_spec i j),
      (Z.ltb_spec j (i + Z.of_nat (S n))), (Z.eqb_spec j i); cbn [andb]; subst; try lia; try done.
    apply (entry_fields _ 0 Hv).
Qed.

Lemma ioapicenable_entry irq cpu d : 0 <= irq <= maxintr d -> irq < 224 -> 0 <= cpu < 256 ->
  exists d', ioapicenable irq cpu d = Ret tt d' /\ maxintr d' = maxintr d /\
    forall i, 0 <= i -> entry d' i = if i =? irq then routed irq (Some cpu) else entry d i.
Proof.
  intros Hi Hlt Hc. destruct (shiftl_cpu cpu Hc) as [Hu Hs]. unfold ioapicenable. rewrite (u32_id _ Hu).
  assert (Hv : 0 <= T_IRQ0 + irq < 256) by (unfold T_IRQ0; lia).
  destruct (write_entry irq (T_IRQ0 + irq) (Z.shiftl cpu 24) d) as (d' & H1 & Hm & R); [unfold is_u32; lia|done|done|].
  exists d'. split; [exact H1|]. split; [done|]. intros i Hi0. rewrite R by done.
  destruct (i =? irq); [|done]. rewrite (proj1 (entry_fields _ _ Hv)), Hs. done.
Qed.

Lemma enable_all_entries reqs : forall d,
  Forall (fun q => 0 <= q.1 <= maxintr d /\ q.1 < 224 /\ 0 <= q.2 < 256) reqs ->
  exists d', enable_all reqs d = Ret tt d' /\ maxintr d' = maxintr d /\
    forall i, 0 <= i -> entry d' i = match route reqs i with Some c => routed i (Some c) | None => entry d i end.
Proof.
  induction reqs as [|[irq cpu] reqs IH]; intros d Hq; [by exists d|].
  apply Forall_cons in Hq as [(Hi & Hlt & Hc) Hq].
  destruct (ioapicenable_entry irq cpu d Hi Hlt Hc) as (d1 & H1 & Hm1 & R1).
  destruct (IH d1) as (d2 & H2 & Hm2 & R2); [by rewrite Hm1|].
  exists d2. split; [cbn [enable_all]; by rewrite (bind_Ret _ _ _ _ _ H1)|]. split; [congruence|].
  intros i Hi0. rewrite R2, R1 by done. cbn [route]. destruct (route reqs i); [done|].
  rewrite (Z.eqb_sym irq). destruct (Z.eqb_spec i irq) as [->|]; done.
Qed.

(** C33: The controller after [ioapicinit] and the drivers' calls of [ioapicenable]:
    an interrupt is delivered exactly if a driver asked for it, edge-triggered and
    active high, with the vector [trap] dispatches on, to the processor the last
    request named; every other interrupt is masked. *)
Theorem ioapic_routing ioapicid reqs d : maxintr d < 224 ->
  Forall (fun q => 0 <= q.1 <= maxintr d /\ 0 <= q.2 < 256) reqs ->
  exists d', (warn ← ioapicinit ioapicid; enable_all reqs ;; mret warn) d
      = Ret (negb (Z.shiftr (io_reg d REG_ID) 24 =? ioapicid)) d' /\
    forall irq, 0 <= irq <= maxintr d -> entry d' irq = routed irq (route reqs irq).
Proof.
  intros Hm Hq. pose proof (maxintr_range d) as Hr.
  destruct (ioapicread_reg REG_VER d) as (d1 & H1 & R1). destruct (ioapicread_reg REG_ID d1) as (d2 & H2 & R2).
  assert (Hm2 : maxintr d2 = maxintr d) by (unfold maxintr; by rewrite R2, R1).
  destruct (ioapic_mask_entries (Z.to_nat (maxintr d + 1)) 0 d2) as (d3 & H3 & Hm3 & R3); [lia|lia|lia|].
  destruct (enable_all_entries reqs d3) as (d4 & H4 & Hm4 & R4).
  { eapply Forall_impl; [exact Hq|]. intros [i c] [? ?]; cbn in *. rewrite Hm3, Hm2. repeat split; lia. }
  exists d4. split.
  - unfold ioapicinit. rewrite !bind_bind, (bind_Ret _ _ _ _ _ H1), !bind_bind, (bind_Ret _ _ _ _ _ H2).
    rewrite !bind_bind. fold (maxintr d). rewrite (bind_Ret _ _ _ _ _ H3), bind_mret, (bind_Ret _ _ _ _ _ H4), R1. done.
  - intros irq Hirq. rewrite R4 by lia. destruct (route reqs irq); [done|]. rewrite R3 by lia.
    destruct (Z.leb_spec 0 irq), (Z.ltb_spec irq (0 + Z.of_nat (Z.to_nat (maxintr d + 1)))); cbn [andb]; [done|lia..].
Qed.
End ioapic_correct.

(** ** Starting a processor *)

Section lapic_correct.
Context {D : Type} {settle : nat} `{LapicLaws D settle}.

(** A write of a register other than the command register. *)
Record set_reg (i v : Z) (d d' : D) : Prop := {
  sr_value : i ∉ [EOI; ESR] -> la_reg d' i = v;
  sr_others : forall j, j <> i -> la_reg d' j = la_reg d j;
  sr_cpu : la_cpu d' = la_cpu d;
  sr_word : la_word d' = la_word d;
  sr_out : la_out d' = la_out d;
}.

(** A command sent. *)
Record sent (v : Z) (d d' : D) : Prop := {
  se_busy : (la_busy d' <= settle)%nat;
  se_others : forall j, j <> ICRLO -> la_reg d' j = la_reg d j;
  se_cpu c : la_cpu d' c = if addressed (Z.shiftr (la_reg d ICRHI) 24) v c then ipi v (la_cpu d c) else la_cpu d c;
  se_word : la_word d' = la_word d;
  se_out : la_out d' = la_out d;
}.

Lemma lapicw_reg i v d : i ∈ writable -> is_u32 v -> exists d', lapicw i v d = Ret tt d' /\ set_reg i v d d'.
Proof.
  intros Hi Hv. destruct (la_store i v d Hi Hv) as (d1 & H1 & Hval & Hoth & Hc & Hw & Ho).
  destruct (la_load ID d1) as (d2 & H2 & _ & R2 & C2 & W2 & O2); [done|].
  exists d2. unfold lapicw. rewrite (bind_Ret _ _ _ _ _ H1), (bind_Ret _ _ _ _ _ H2). split; [done|].
  split; intros; rewrite ?R2, ?C2, ?W2, ?O2; auto.
Qed.

Lemma lapicw_send v d : is_u32 v -> shorthand v = 0 \/ shorthand v = 2 ->
  exists d', lapicw ICRLO v d = Ret tt d' /\ sent v d d'.
Proof.
  intros Hv Hs. destruct (la_send v d Hv Hs) as (d1 & H1 & Hb & Hoth & Hc & Hw & Ho).
  destruct (la_load ID d1) as (d2 & H2 & Hb2 & R2 & C2 & W2 & O2); [done|].
  exists d2. unfold lapicw. rewrite (bind_Ret _ _ _ _ _ H1), (bind_Ret _ _ _ _ _ H2). split; [done|].
  split; intros; rewrite ?R2, ?C2, ?W2, ?O2; auto; lia.
Qed.

Lemma delivered_returns fuel : forall d, (la_busy d < fuel)%nat -> exists d', delivered fuel d = Ret tt d' /\
  la_reg d' = la_reg d /\ la_cpu d' = la_cpu d /\ la_word d' = la_word d /\ la_out d' = la_out d.
Proof.
  induction fuel as [|fuel IH]; intros d Hb; [lia|].
  destruct (la_poll d) as (v & d1 & H1 & Hv & Hb1 & R1 & C1 & W1 & O1).
  cbn [delivered]. rewrite (bind_Ret _ _ _ _ _ H1), Hv. destruct (Nat.eqb_spec (la_busy d) 0); cbn [negb]; [by exists d1|].
  destruct (IH d1) as (d2 & H2 & ? & ? & ? & ?); [lia|]. exists d2. split; [done|]. repeat split; congruence.
Qed.

(** What the boot sequence leaves in the local controller. *)
Record lapic_ready (d : D) : Prop := {
  lr_enabled : la_reg d SVR = Z.lor ENABLE (T_IRQ0 + IRQ_SPURIOUS);
  lr_timer : la_reg d TIMER = Z.lor PERIODIC (T_IRQ0 + IRQ_TIMER);
  lr_count : la_reg d TICR = 10000000;
  lr_divide : la_reg d TDCR = X1;
  lr_lint0 : la_reg d LINT0 = MASKED;
  lr_lint1 : la_reg d LINT1 = MASKED;
  lr_pcint : 4 <= Z.land (Z.shiftr (la_reg d VER) 16) 0xFF -> la_reg d PCINT = MASKED;
  lr_error : la_reg d ERROR = T_IRQ0 + IRQ_ERROR;
  lr_priority : la_reg d TPR = 0;
}.

(** The registers known to hold their values, and all but the registers as in [d0]. *)
Record wrote (l : list (Z * Z)) (d0 d : D) : Prop := {
  wo_regs : forall i v, (i, v) ∈ l -> la_reg d i = v;
  wo_ver : la_reg d VER = la_reg d0 VER;
  wo_cpu : forall c, la_cpu d c = la_cpu d0 c;
  wo_word : la_word d = la_word d0;
  wo_out : la_out d = la_out d0;
}.

Definition plain (i : Z) : bool := bool_decide (i ∈ writable) && negb (bool_decide (i ∈ [EOI; ESR])).
Definition fresh (i : Z) (l : list (Z * Z)) : bool := forallb (fun q => negb (q.1 =? i)) l.

Lemma fresh_neq i l j v : fresh i l = true -> (j, v) ∈ l -> j <> i.
Proof.
  intros Hf Hj ->. apply list_elem_of_In in Hj. pose proof (proj1 (forallb_forall _ _) Hf _ Hj) as Hn.
  cbn in Hn. by rewrite Z.eqb_refl in Hn.
Qed.

(** A further register, and a write of EOI or ESR. *)
Lemma wrote_reg i v l d0 d : plain i && fresh i l = true -> is_u32 v -> wrote l d0 d ->
  exists d', lapicw i v d = Ret tt d' /\ wrote ((i, v) :: l) d0 d'.
Proof.
  intros [[Hw He]%andb_prop Hf]%andb_prop Hv W. apply bool_decide_eq_true in Hw. apply negb_true_iff, bool_decide_eq_false in He.
  destruct (lapicw_reg i v d Hw Hv) as (d' & E & [Sv So Sc Sw Sp]). exists d'. split; [exact E|]. destruct W as [Wr Wv Wc Ww Wp].
  split; intros.
  - match goal with Hin : _ ∈ _ :: _ |- _ => apply elem_of_cons in Hin as [[= -> ->]|Hin]; [by apply Sv|] end.
    rewrite So by (eapply fresh_neq; done). by apply Wr.
  - rewrite So; [done|]. intros <-. revert Hw. by apply (bool_decide_eq_false_1 (VER ∈ writable)).
  - by rewrite Sc.
  - by rewrite Sw.
  - by rewrite Sp.
Qed.

Lemma wrote_ack i v l d0 d : bool_decide (i ∈ [EOI; ESR]) && fresh i l = true -> is_u32 v -> wrote l d0 d ->
  exists d', lapicw i v d = Ret tt d' /\ wrote l d0 d'.
Proof.
  intros [He%bool_decide_eq_true Hf]%andb_prop Hv W.
  assert (Hw : i ∈ writable) by (unfold writable; set_solver).
  destruct (lapicw_reg i v d Hw Hv) as (d' & E & [_ So Sc Sw Sp]). exists d'. split; [exact E|]. destruct W as [Wr Wv Wc Ww Wp].
  split; intros.
  - rewrite So by (eapply fresh_neq; done). by apply Wr.
  - rewrite So; [done|]. intros <-. revert He. by apply (bool_decide_eq_false_1 (VER ∈ [EOI; ESR])).
  - by rewrite Sc.
  - by rewrite Sw.
  - by rewrite Sp.
Qed.

(** The INIT de-assert of [lapicinit] changes no processor. *)
Lemma wrote_deassert fuel l d0 d : (settle < fuel)%nat -> fresh ICRLO l = true -> wrote l d0 d ->
  exists d', (lapicw ICRLO (Z.lor (Z.lor BCAST INIT) LEVEL) ;; delivered fuel) d = Ret tt d' /\ wrote l d0 d'.
Proof.
  intros Hfu Hf [Wr Wv Wc Ww Wp].
  destruct (lapicw_send (Z.lor (Z.lor BCAST INIT) LEVEL) d) as (d1 & E1 & [Sb So Sc Sw Sp]);
    [vm_compute; split; congruence|right; done|].
  destruct (delivered_returns fuel d1) as (d2 & E2 & R2 & C2 & W2 & O2); [lia|].
  exists d2. rewrite (bind_Ret _ _ _ _ _ E1). split; [exact E2|]. split; intros; rewrite ?R2, ?C2, ?W2, ?O2.
  - rewrite So by (eapply fresh_neq; done). by apply Wr.
  - by rewrite So.
  - rewrite Sc, <-Wc. by case_match.
  - by rewrite Sw.
  - by rewrite Sp.
Qed.

Lemma wrote_pcint l d0 d : fresh PCINT l = true -> wrote l d0 d -> exists d' l',
  (ver ← lapic_load VER; if Z.land (Z.shiftr ver 16) 0xFF >=? 4 then lapicw PCINT MASKED else mret tt) d = Ret tt d' /\
  l' = (if Z.land (Z.shiftr (la_reg d0 VER) 16) 0xFF >=? 4 then [(PCINT, MASKED)] else []) /\ wrote (l' ++ l) d0 d'.
Proof.
  intros Hf W. destruct (la_load VER d) as (d1 & E1 & _ & R1 & C1 & W1 & O1); [done|].
  assert (Wr1 : wrote l d0 d1) by (destruct W; split; intros; rewrite ?R1, ?C1, ?W1, ?O1; auto).
  rewrite (bind_Ret _ _ _ _ _ E1), (wo_ver _ _ _ W). case_match.
  - destruct (wrote_reg PCINT MASKED l d0 d1) as (d2 & E2 & S2); [by rewrite Hf|vm_compute; split; congruence|done|].
    by exists d2, [(PCINT, MASKED)].
  - by exists d1, [].
Qed.

(** One more call of [lapicw], with [lem] the lemma for its register. *)
Local Ltac next_write lem i v W := let E := fresh "E" in let dn := fresh "d" in let Wn := fresh "W" in
  edestruct (lem i v) as (dn & E & Wn); [| |exact W|rewrite (bind_Ret _ _ _ _ _ E); clear W E; rename Wn into W];
  [reflexivity|vm_compute; split; congruence|].

(** [lapicinit] returns, programs the controller as [lapic_ready] says, and
    disturbs no processor, no low memory and no port. *)
Lemma lapicinit_ready fuel lapic d : lapic <> 0 -> (settle < fuel)%nat ->
  exists d', lapicinit fuel lapic d = Ret tt d' /\ lapic_ready d' /\
    (forall c, la_cpu d' c = la_cpu d c) /\ la_word d' = la_word d /\ la_out d' = la_out d.
Proof.
  intros Hl Hf. unfold lapicinit. rewrite (proj2 (Z.eqb_neq _ _) Hl).
  assert (W : wrote [] d d) by (split; done || (intros; set_solver)).
  next_write wrote_reg SVR (Z.lor ENABLE (T_IRQ0 + IRQ_SPURIOUS)) W. next_write wrote_reg TDCR X1 W.
  next_write wrote_reg TIMER (Z.lor PERIODIC (T_IRQ0 + IRQ_TIMER)) W. next_write wrote_reg TICR 10000000 W.
  next_write wrote_reg LINT0 MASKED W. next_write wrote_reg LINT1 MASKED W. rewrite <-bind_bind.
  edestruct wrote_pcint as (dp & l & Ep & Hl' & Wp); [|exact W|rewrite (bind_Ret _ _ _ _ _ Ep); clear Ep]; [reflexivity|].
  rewrite Z.geb_leb in Hl'. destruct (Z.leb_spec 4 (Z.land (Z.shiftr (la_reg d VER) 16) 0xFF)) as [Hge|Hlt]; subst l; cbn [app] in Wp.
  all: next_write wrote_reg ERROR (T_IRQ0 + IRQ_ERROR) Wp; next_write wrote_ack ESR 0 Wp; next_write wrote_ack ESR 0 Wp;
    next_write wrote_ack EOI 0 Wp; next_write wrote_reg ICRHI 0 Wp; rewrite <-bind_bind;
    edestruct wrote_deassert as (dd & Ed & Wd); [exact Hf| |exact Wp|rewrite (bind_Ret _ _ _ _ _ Ed); clear Wp]; [reflexivity|];
    edestruct (wrote_reg TPR 0) as (df & Ef & [Fr Fv Fc Fw Fo]); [| |exact Wd|]; [reflexivity|vm_compute; split; congruence|];
    exists df; split; [exact Ef|]; split; [|split; [exact Fc|split; [exact Fw|exact Fo]]].
  all: split; try (intros; apply Fr; refine (bool_decide_eq_true_1 _ _); reflexivity). rewrite Fv. lia.
Qed.
(** The STARTUP command of a page below one megabyte. *)
Lemma startup_command k : 0 <= k < 256 ->
  let cmd := Z.lor STARTUP k in
  is_u32 cmd /\ shorthand cmd = 0 /\
  forall st, ipi cmd st = match st with WaitSipi => Running (Z.shiftl k 12) | _ => st end.
Proof.
  intros Hk cmd. assert (Hs : forall n, 8 <= n -> Z.shiftr cmd n = Z.shiftr STARTUP n).
  { intros n Hn. unfold cmd. rewrite Z.shiftr_lor, (Z.shiftr_eq_0 k n), Z.lor_0_r; [done|lia|].
    destruct (decide (k = 0)) as [->|]; [cbn; lia|]. apply Z.lt_le_trans with 8; [apply Z.log2_lt_pow2; lia|lia]. }
  assert (Hr : is_u32 cmd).
  { unfold cmd. split; [apply Z.lor_nonneg; unfold STARTUP; lia|]. apply Z.log2_lt_cancel. rewrite Z.log2_lor by (unfold STARTUP; lia).
    apply Z.max_lub_lt; [vm_compute; done|]. apply Z.le_lt_trans with (Z.log2 255); [apply Z.log2_le_mono; lia|vm_compute; done]. }
  split; [done|]. split; [unfold shorthand; by rewrite Hs by lia|].
  intros st. unfold ipi. rewrite Hs by lia. change (Z.land (Z.shiftr STARTUP 8) 7) with 6. cbn [Z.eqb Pos.eqb].
  unfold cmd. rewrite Z.land_lor_distr_l. change (Z.land STARTUP 0xFF) with 0. rewrite Z.lor_0_l.
  change 0xFF with (Z.ones 8). rewrite Z.land_ones, Z.mod_small by lia. done.
Qed.

(** A command to the processor [apicid]. *)
Lemma command_to apicid cmd d : 0 <= apicid < 256 -> is_u32 cmd -> shorthand cmd = 0 ->
  la_reg d ICRHI = Z.shiftl apicid 24 ->
  exists d', lapicw ICRLO cmd d = Ret tt d' /\ la_reg d' ICRHI = Z.shiftl apicid 24 /\
    (forall c, la_cpu d' c = if c =? apicid then ipi cmd (la_cpu d c) else la_cpu d c) /\
    la_word d' = la_word d /\ la_out d' = la_out d.
Proof.
  intros Ha Hc Hs Hi. destruct (lapicw_send cmd d Hc (or_introl Hs)) as (d' & E & [_ So Sc Sw Sp]).
  exists d'. split; [exact E|]. split; [by rewrite So|]. split; [|done].
  intros c. rewrite Sc, Hi, (proj2 (shiftl_cpu _ Ha)). unfold addressed. by rewrite Hs.
Qed.

Lemma select_ap apicid d : 0 <= apicid < 256 ->
  exists d', lapicw ICRHI (u32 (Z.shiftl apicid 24)) d = Ret tt d' /\ la_reg d' ICRHI = Z.shiftl apicid 24 /\
    la_cpu d' = la_cpu d /\ la_word d' = la_word d /\ la_out d' = la_out d.
Proof.
  intros Ha. destruct (shiftl_cpu _ Ha) as [Hu _]. rewrite (u32_id _ Hu).
  destruct (lapicw_reg ICRHI (Z.shiftl apicid 24) d) as (d' & E & [Sv _ Sc Sw Sp]);
    [by apply (bool_decide_eq_true_1 (ICRHI ∈ writable))|done|].
  exists d'. split; [exact E|]. split; [|done]. apply Sv. by apply (bool_decide_eq_false_1 (ICRHI ∈ [EOI; ESR])).
Qed.

Lemma send_startup_starts n apicid k : forall d, 0 <= apicid < 256 -> 0 <= k < 256 ->
  exists d', send_startup n apicid (4096 * k) d = Ret tt d' /\
    (forall c, la_cpu d' c = if (c =? apicid) && negb (n =? 0)%nat
       then match la_cpu d c with WaitSipi => Running (4096 * k) | st => st end else la_cpu d c) /\
    la_word d' = la_word d /\ la_out d' = la_out d.
Proof.
  induction n as [|n IH]; intros d Ha Hk; [exists d; split; [done|]; split; [|done]; intros c; by rewrite andb_false_r|].
  destruct (startup_command k Hk) as (Hu & Hs & Hi).
  assert (Hsh : Z.shiftr (4096 * k) 12 = k) by (rewrite Z.shiftr_div_pow2 by lia; rewrite Z.mul_comm; apply Z.div_mul; lia).
  destruct (select_ap apicid d Ha) as (d1 & E1 & R1 & C1 & W1 & O1).
  destruct (command_to apicid (Z.lor STARTUP k) d1 Ha Hu Hs R1) as (d2 & E2 & R2 & C2 & W2 & O2).
  destruct (IH d2 Ha Hk) as (d3 & E3 & C3 & W3 & O3). exists d3.
  split; [cbn [send_startup]; rewrite Hsh, (bind_Ret _ _ _ _ _ E1), (bind_Ret _ _ _ _ _ E2); exact E3|].
  split; [|split; congruence]. intros c. rewrite C3, C2, C1, Hi. rewrite Z.shiftl_mul_pow2, Z.mul_comm by lia.
  destruct (c =? apicid); cbn [andb]; [|done]. destruct (la_cpu d c); by case_match.
Qed.

(** [lapicstartap] makes the processor it names run at [addr], a page below one
    megabyte, whatever that processor was doing; no other processor is touched,
    and the warm reset vector points at the same code. *)
Theorem lapicstartap_starts apicid addr d : 0 <= apicid < 256 -> addr mod 4096 = 0 -> 0 <= addr < 2 ^ 20 ->
  exists d', lapicstartap apicid addr d = Ret tt d' /\
    (forall c, la_cpu d' c = if c =? apicid then Running addr else la_cpu d c) /\
    16 * la_word d' 0x469 + la_word d' 0x467 = addr /\
    (forall a, a <> 0x467 -> a <> 0x469 -> la_word d' a = la_word d a) /\
    la_out d' = la_out d ++ [(CMOS_PORT, 0xF); (CMOS_PORT + 1, 0x0A)].
Proof.
  intros Ha Hm Hr. assert (Hk : 0 <= addr / 4096 < 256) by (split; [apply Z.div_pos|apply Z.div_lt_upper_bound]; lia).
  assert (Hak : addr = 4096 * (addr / 4096)) by (pose proof (Z.div_mod addr 4096); lia).
  assert (H16 : is_u16 (Z.shiftr addr 4) /\ 16 * Z.shiftr addr 4 = addr).
  { rewrite Z.shiftr_div_pow2 by lia. change (2 ^ 4) with 16. unfold is_u16.
    assert (addr / 16 = 256 * (addr / 4096)) by (symmetry; apply (Z.div_unique_exact addr 16); lia). lia. }
  destruct H16 as [Hw16 H16].
  destruct (la_outb CMOS_PORT 0xF d) as (d1 & E1 & O1 & R1 & C1 & W1).
  destruct (la_outb (CMOS_PORT + 1) 0x0A d1) as (d2 & E2 & O2 & R2 & C2 & W2).
  destruct (la_word_store 0x467 0 d2) as (d3 & E3 & W3 & R3 & C3 & O3); [unfold is_u16; lia|].
  destruct (la_word_store 0x469 (Z.shiftr addr 4) d3 Hw16) as (d4 & E4 & W4 & R4 & C4 & O4).
  destruct (select_ap apicid d4 Ha) as (d5 & E5 & R5 & C5 & W5 & O5).
  destruct (command_to apicid (Z.lor (Z.lor INIT LEVEL) ASSERT) d5) as (d6 & E6 & R6 & C6 & W6 & O6);
    [done|vm_compute; split; congruence|done|done|].
  destruct (command_to apicid (Z.lor INIT LEVEL) d6) as (d7 & E7 & R7 & C7 & W7 & O7);
    [done|vm_compute; split; congruence|done|done|].
  destruct (send_startup_starts 2 apicid (addr / 4096) d7 Ha Hk) as (d8 & E8 & C8 & W8 & O8).
  exists d8. split; [|split; [|split; [|split]]].
  - unfold lapicstartap. change (Z.lor (Z.shiftl 0x40 4) 0x67) with 0x467. change (0x467 + 2) with 0x469. cbv zeta.
    rewrite (bind_Ret _ _ _ _ _ E1), (bind_Ret _ _ _ _ _ E2), (bind_Ret _ _ _ _ _ E3).
    unfold u16. rewrite Z.mod_small by exact Hw16. rewrite (bind_Ret _ _ _ _ _ E4), (bind_Ret _ _ _ _ _ E5), (bind_Ret _ _ _ _ _ E6), (bind_Ret _ _ _ _ _ E7).
    rewrite Hak at 1. exact E8.
  - intros c. rewrite C8, C7, C6, C5, C4, C3, C2, C1, <-Hak. destruct (c =? apicid); done.
  - rewrite W8, W7, W6, W5, !W4, !W3. cbn [Z.eqb Pos.eqb]. lia.
  - intros a Ha1 Ha2. rewrite W8, W7, W6, W5, W4, W3, W2, W1.
    by rewrite (proj2 (Z.eqb_neq _ _) Ha1), (proj2 (Z.eqb_neq _ _) Ha2).
  - rewrite O8, O7, O6, O5, O4, O3, O2, O1, <-app_assoc. done.
Qed.
End lapic_correct.

(** ** Instances *)

(** The register file and the index register. *)
Record ioapic_chip := IoapicChip { ch_sel : Z; ch_reg : Z -> Z }.

#[global] Instance ioapic_chip_device : IoapicDevice ioapic_chip := {
  io_load off d := Ret (if off =? off_data then ch_reg d (ch_sel d) else ch_sel d) d;
  io_store off v d := Ret tt (if off =? off_data
    then if REG_TABLE <=? ch_sel d then IoapicChip (ch_sel d) (fun r => if r =? ch_sel d then v else ch_reg d r) else d
    else IoapicChip v (ch_reg d));
}.

#[global] Instance ioapic_chip_laws : IoapicLaws ioapic_chip.
Proof.
  refine {| io_sel := ch_sel; io_reg := ch_reg |}.
  - intros v d. by eexists.
  - intros d. by exists d.
  - intros v d _ [Hs _]. eexists. split; [reflexivity|]. cbn. rewrite (proj2 (Z.leb_le _ _) Hs). done.
Defined.

(** The registers, the processors, the polls a delivery still takes, the low
    memory and the ports. *)
Record lapic_chip := LapicChip {
  lc_reg : Z -> Z;
  lc_cpu : Z -> apstate;
  lc_busy : nat;
  lc_word : Z -> Z;
  lc_out : list (Z * Z);
}.

#[global] Instance lapic_chip_device : LapicDevice lapic_chip := {
  lapic_load i d :=
    if i =? ICRLO
    then Ret (if (lc_busy d =? 0)%nat then 0 else DELIVS) (LapicChip (lc_reg d) (lc_cpu d) (pred (lc_busy d)) (lc_word d) (lc_out d))
    else Ret (lc_reg d i) d;
  lapic_store i v d := Ret tt (LapicChip (fun j => if j =? i then v else lc_reg d j)
    (if i =? ICRLO then fun c => if addressed (Z.shiftr (lc_reg d ICRHI) 24) v c then ipi v (lc_cpu d c) else lc_cpu d c else lc_cpu d)
    (if i =? ICRLO then 3%nat else lc_busy d) (lc_word d) (lc_out d));
  word_store a v d := Ret tt (LapicChip (lc_reg d) (lc_cpu d) (lc_busy d) (fun b => if b =? a then v else lc_word d b) (lc_out d));
  lapic_outb p v d := Ret tt (LapicChip (lc_reg d) (lc_cpu d) (lc_busy d) (lc_word d) (lc_out d ++ [(p, v)]));
}.

#[global] Instance lapic_chip_laws : LapicLaws lapic_chip 3.
Proof.
  refine {| la_reg := lc_reg; la_cpu := lc_cpu; la_busy := lc_busy; la_word := lc_word; la_out := lc_out |}.
  - intros i d Hi. exists d. cbn. rewrite (proj2 (Z.eqb_neq _ _) Hi). done.
  - intros d. do 2 eexists. split; [reflexivity|]. cbn. destruct (lc_busy d); done.
  - intros i v d Hi _. eexists. split; [reflexivity|]. cbn. rewrite Z.eqb_refl.
    assert (i <> ICRLO) as Hn by (intros ->; revert Hi; by apply (bool_decide_eq_false_1 (ICRLO ∈ writable))).
    rewrite (proj2 (Z.eqb_neq _ _) Hn). split; [done|]. split; [|done]. intros j Hj. by rewrite (proj2 (Z.eqb_neq _ _) Hj).
  - intros v d _ _. eexists. split; [reflexivity|]. cbn. split; [exact (le_n 3)|]. split; [|done].
    intros j Hj. by rewrite (proj2 (Z.eqb_neq _ _) Hj).
  - intros a v d _. by eexists.
  - intros p v d. by eexists.
Defined.

(** ** Witnesses *)

(** A controller of 24 entries; the console, the serial port and the disk. *)
Definition chip0 : ioapic_chip := IoapicChip 0 (fun r => if r =? REG_VER then Z.shiftl 23 16 else 0).

Lemma ioapic_routing_witness :
  exists d', (warn ← ioapicinit 0; enable_all [(IRQ_KBD, 0); (IRQ_COM1, 0); (IRQ_IDE, 1)] ;; mret warn) chip0 = Ret false d' /\
    forall irq, 0 <= irq <= 23 -> entry d' irq = routed irq (route [(IRQ_KBD, 0); (IRQ_COM1, 0); (IRQ_IDE, 1)] irq).
Proof.
  destruct (ioapic_routing 0 [(IRQ_KBD, 0); (IRQ_COM1, 0); (IRQ_IDE, 1)] chip0) as (d' & E & R).
  - vm_compute. reflexivity.
  - repeat constructor; vm_compute; congruence.
  - exists d'. split; [exact E|exact R].
Defined.

Lemma lapicstartap_starts_witness :
  exists d', lapicstartap 1 0x7000 (LapicChip (fun _ => 0) (fun _ => Running 0) 0 (fun _ => 0) []) = Ret tt d' /\
    lc_cpu d' 1 = Running 0x7000 /\ lc_cpu d' 0 = Running 0.
Proof.
  destruct (lapicstartap_starts (D := lapic_chip) 1 0x7000 (LapicChip (fun _ => 0) (fun _ => Running 0) 0 (fun _ => 0) []))
    as (d' & E & C & _); [lia|reflexivity|lia|].
  exists d'. split; [exact E|]. split; apply C.
Defined.
