(* ===== verification/Rtc.v ===== *)
(** The clock: [cmos_read], [fill_rtcdate] and [cmostime] of lapic.c, date.h.

    The real-time clock is a history: [clock n r] is register [r] at the time of
    the [n]-th read of the data port.  The registers may hold anything while the
    chip updates them; its data sheet promises that they are steady for a while
    after the update-in-progress flag reads clear.  The theorem: [cmostime]
    returns, with a date the clock showed during the call, in both encodings. *)

From S2P Require Import Prelude Apic.

Definition CMOS_RETURN : Z := 0x71.
Definition CMOS_STATA : Z := 0x0a.
Definition CMOS_STATB : Z := 0x0b.
Definition CMOS_UIP : Z := Z.shiftl 1 7.
Definition SECS : Z := 0x00.
Definition MINS : Z := 0x02.
Definition HOURS : Z := 0x04.
Definition DAY : Z := 0x07.
Definition MONTH : Z := 0x08.
Definition YEAR : Z := 0x09.

Record rtcdate := Rtcdate {
  second : Z;
  minute : Z;
  hour : Z;
  day : Z;
  month : Z;
  year : Z;
}.

#[global] Instance rtcdate_eq_dec : EqDecision rtcdate.
Proof. solve_decision. Defined.

(** The port pair: the selected register, and the number of reads so far. *)
Record rtc := RtcPorts { rtc_sel : Z; rtc_now : nat }.

Section clock.
Context (clock : nat -> Z -> Z).

Definition outb (port v : Z) : kern rtc unit :=
  modify (fun s => if port =? CMOS_PORT then RtcPorts v (rtc_now s) else s).
Definition inb (port : Z) : kern rtc Z :=
  fun s => Ret (u8 (clock (rtc_now s) (rtc_sel s))) (RtcPorts (rtc_sel s) (S (rtc_now s))).

Definition cmos_read (reg : Z) : kern rtc Z := outb CMOS_PORT reg ;; inb CMOS_RETURN.

Definition fill_rtcdate : kern rtc rtcdate :=
  second ← cmos_read SECS;
  minute ← cmos_read MINS;
  hour ← cmos_read HOURS;
  day ← cmos_read DAY;
  month ← cmos_read MONTH;
  year ← cmos_read YEAR;
  mret (Rtcdate second minute hour day month year).

(** [for(;;)]; [memcmp] compares the six words of the two structures. *)
Fixpoint cmos_stable (fuel : nat) : kern rtc rtcdate :=
  match fuel with
  | O => fun _ => Fuel
  | S fuel =>
      t1 ← fill_rtcdate;
      a ← cmos_read CMOS_STATA;
      if negb (Z.land a CMOS_UIP =? 0) then cmos_stable fuel
      else
        t2 ← fill_rtcdate;
        if bool_decide (t1 = t2) then mret t1 else cmos_stable fuel
  end.

Definition CONV (x : Z) : Z := Z.shiftr x 4 * 10 + Z.land x 0xf.

Definition convert (t : rtcdate) : rtcdate :=
  Rtcdate (CONV (second t)) (CONV (minute t)) (CONV (hour t)) (CONV (day t)) (CONV (month t)) (CONV (year t)).

Definition cmostime (fuel : nat) : kern rtc rtcdate :=
  sb ← cmos_read CMOS_STATB;
  let bcd := Z.land sb (Z.shiftl 1 2) =? 0 in
  t1 ← cmos_stable fuel;
  let t1 := if bcd then convert t1 else t1 in
  mret (Rtcdate (second t1) (minute t1) (hour t1) (day t1) (month t1) (year t1 + 2000)).

(** ** The chip *)

(** The six registers, and the flag, at one moment. *)
Definition shown (n : nat) : rtcdate :=
  Rtcdate (u8 (clock n SECS)) (u8 (clock n MINS)) (u8 (clock n HOURS)) (u8 (clock n DAY)) (u8 (clock n MONTH)) (u8 (clock n YEAR)).
Definition updating (n : nat) : bool := negb (Z.land (u8 (clock n CMOS_STATA)) CMOS_UIP =? 0).
End clock.

(** A two-digit number in binary-coded decimal, and a date in the encoding the
    chip is set to. *)
Definition bcd_of (x : Z) : Z := 16 * (x / 10) + x mod 10.
Definition encode (bcd : bool) (t : rtcdate) : rtcdate :=
  if bcd then Rtcdate (bcd_of (second t)) (bcd_of (minute t)) (bcd_of (hour t)) (bcd_of (day t)) (bcd_of (month t)) (bcd_of (year t))
  else t.

Definition two_digits (t : rtcdate) : Prop :=
  Forall (fun x => 0 <= x < 100) [second t; minute t; hour t; day t; month t; year t].

(** The data sheet: when the flag reads clear, the registers show the date and do
    not change for the next six reads. *)
Class RtcLaws (clock : nat -> Z -> Z) (bcd : bool) (cal : nat -> rtcdate) := {
  rtc_digits n : two_digits (cal n);
  rtc_steady n i : updating clock n = false -> (i <= 6)%nat -> shown clock (n + i) = encode bcd (cal n);
  rtc_mode n : (Z.land (u8 (clock n CMOS_STATB)) 4 =? 0) = bcd;
}.

(** ** The date *)

Lemma CONV_bcd x : 0 <= x < 100 -> CONV (bcd_of x) = x.
Proof.
  intros Hx. unfold CONV, bcd_of. change 0xf with (Z.ones 4).
  rewrite Z.shiftr_div_pow2, Z.land_ones by lia. change (2 ^ 4) with 16.
  pose proof (Z.mod_pos_bound x 10). pose proof (Z.div_mod x 10).
  rewrite <-(Z.div_unique (16 * (x / 10) + x mod 10) 16 (x / 10) (x mod 10)),
    <-(Z.mod_unique (16 * (x / 10) + x mod 10) 16 (x / 10) (x mod 10)) by lia. lia.
Qed.

Lemma convert_encode t : two_digits t -> convert (encode true t) = t.
Proof.
  intros Ht. unfold two_digits in Ht. rewrite !Forall_cons in Ht. destruct Ht as (?&?&?&?&?&?&_).
  unfold convert. cbn. rewrite !CONV_bcd by done. by destruct t.
Qed.

Section cmostime.
Context (clock : nat -> Z -> Z) (bcd : bool) (cal : nat -> rtcdate) `{!RtcLaws clock bcd cal}.

Lemma cmos_read_at r s : cmos_read clock r s = Ret (u8 (clock (rtc_now s) r)) (RtcPorts r (S (rtc_now s))).
Proof. reflexivity. Qed.

(** Registers that are steady are read as they are. *)
Lemma fill_at s : fill_rtcdate clock s =
  Ret (Rtcdate (second (shown clock (rtc_now s))) (minute (shown clock (rtc_now s + 1))) (hour (shown clock (rtc_now s + 2)))
         (day (shown clock (rtc_now s + 3))) (month (shown clock (rtc_now s + 4))) (year (shown clock (rtc_now s + 5))))
      (RtcPorts YEAR (rtc_now s + 6)).
Proof.
  unfold fill_rtcdate. rewrite !Nat.add_succ_r, Nat.add_0_r. reflexivity.
Qed.

Lemma fill_steady t s : (forall i, (i < 6)%nat -> shown clock (rtc_now s + i) = t) ->
  fill_rtcdate clock s = Ret t (RtcPorts YEAR (rtc_now s + 6)).
Proof.
  intros Ht. rewrite fill_at, <-(Nat.add_0_r (rtc_now s)) at 1. rewrite !Ht by lia. destruct t. reflexivity.
Qed.

(** The chip does nothing for [m] reads. *)
Definition quiet (n m : nat) : Prop :=
  forall i, (i < m)%nat -> updating clock (n + i) = false /\ shown clock (n + i) = shown clock n.

(** One turn of the loop from the [n]-th read: a date shown meanwhile, or again,
    but not if the chip is quiet. *)
Lemma cmos_turn fuel s : let n := rtc_now s in
  (~ quiet n 13 /\ exists s', cmos_stable clock (S fuel) s = cmos_stable clock fuel s' /\ (n < rtc_now s' <= n + 13)%nat) \/
  (updating clock (n + 6) = false /\
   cmos_stable clock (S fuel) s = Ret (encode bcd (cal (n + 6))) (RtcPorts YEAR (n + 13))).
Proof.
  intros n. cbn [cmos_stable].
  destruct (updating clock (n + 6)) eqn:Hu.
  { left. split; [intros Hq; destruct (Hq 6%nat); [lia|congruence]|].
    exists (RtcPorts CMOS_STATA (S (n + 6))). split; [|cbn; lia].
    rewrite (bind_Ret _ _ _ _ _ (fill_at s)), (bind_Ret _ _ _ _ _ (cmos_read_at _ _)). cbn [rtc_now].
    unfold updating in Hu. fold n. by rewrite Hu. }
  assert (F : fill_rtcdate clock (RtcPorts CMOS_STATA (S (n + 6))) = Ret (encode bcd (cal (n + 6))) (RtcPorts YEAR (n + 13))).
  { rewrite (fill_steady (encode bcd (cal (n + 6)))).
    - cbn [rtc_now]. do 2 f_equal. lia.
    - intros i Hi. cbn [rtc_now]. replace (S (n + 6) + i)%nat with (n + 6 + S i)%nat by lia. apply rtc_steady; [done|lia]. }
  rewrite (bind_Ret _ _ _ _ _ (fill_at s)), (bind_Ret _ _ _ _ _ (cmos_read_at _ _)). cbn [rtc_now]. fold n.
  pose proof Hu as Hu'. unfold updating in Hu'. rewrite Hu', (bind_Ret _ _ _ _ _ F).
  case_bool_decide as Ht.
  - right. split; [done|]. by rewrite Ht.
  - left. split; [|exists (RtcPorts YEAR (n + 13)); split; [reflexivity|cbn; lia]].
    intros Hq. apply Ht. rewrite <-(rtc_steady (n + 6) 0 Hu), Nat.add_0_r by lia.
    rewrite !(fun i Hi => proj2 (Hq i Hi)) by lia. by destruct (shown clock n).
Qed.

Lemma cmos_stable_returns N : forall fuel s, (rtc_now s <= N + 12)%nat -> (N - rtc_now s < fuel)%nat -> quiet N 26 ->
  exists k s', cmos_stable clock fuel s = Ret (encode bcd (cal k)) s' /\
    updating clock k = false /\ (rtc_now s <= k < rtc_now s')%nat.
Proof.
  induction fuel as [|fuel IH]; intros s Hs Hf Hq; [lia|].
  destruct (cmos_turn fuel s) as [[Hn (s' & E & Hs')]|[Hu E]].
  - destruct (decide (N <= rtc_now s)%nat) as [Hge|Hlt].
    { exfalso. apply Hn. intros i Hi. destruct (Hq (rtc_now s - N + i)%nat) as [H1 H2]; [lia|].
      destruct (Hq (rtc_now s - N)%nat) as [_ H3]; [lia|].
      replace (N + (rtc_now s - N + i))%nat with (rtc_now s + i)%nat in H1, H2 by lia.
      replace (N + (rtc_now s - N))%nat with (rtc_now s) in H3 by lia. split; [done|congruence]. }
    destruct (IH s') as (k & s2 & E2 & Hk & Hr); [lia|lia|done|].
    exists k, s2. rewrite E, E2. split; [done|]. split; [done|lia].
  - exists (rtc_now s + 6)%nat, (RtcPorts YEAR (rtc_now s + 13)). split; [exact E|]. split; [done|]. cbn. lia.
Qed.

(** C34: [cmostime] returns once the chip is quiet for two rounds of reads, with a date
    the clock showed during the call, the year counted from 0. *)
Theorem cmostime_reads N fuel s : (rtc_now s <= N)%nat -> (N - rtc_now s < fuel)%nat -> quiet N 26 ->
  exists k s', cmostime clock fuel s = Ret (Rtcdate (second (cal k)) (minute (cal k)) (hour (cal k)) (day (cal k))
      (month (cal k)) (2000 + year (cal k))) s' /\
    updating clock k = false /\ (rtc_now s < k < rtc_now s')%nat.
Proof.
  intros Hs Hf Hq. destruct (cmos_stable_returns N fuel (RtcPorts CMOS_STATB (S (rtc_now s)))) as (k & s' & E & Hu & Hr);
    [cbn; lia|cbn; lia|done|].
  exists k, s'. split; [|split; [done|cbn in Hr; lia]].
  unfold cmostime. rewrite (bind_Ret _ _ _ _ _ (cmos_read_at _ _)). change (Z.shiftl 1 2) with 4.
  rewrite rtc_mode, (bind_Ret _ _ _ _ _ E). unfold mret, kern_ret.
  replace (if bcd then convert (encode bcd (cal k)) else encode bcd (cal k)) with (cal k).
  - rewrite Z.add_comm. done.
  - destruct bcd; [by rewrite convert_encode by apply rtc_digits|done].
Qed.
End cmostime.

(** ** Witness *)

(** A clock that shows 31 December 2024 23:59:59, updates for reads 4 to 9 with the
    registers at zero, and then shows the new year. *)
Definition old_year : rtcdate := Rtcdate 59 59 23 31 12 24.
Definition new_year : rtcdate := Rtcdate 0 0 0 1 1 25.
Definition reg_of (t : rtcdate) (r : Z) : Z :=
  if r =? SECS then second t else if r =? MINS then minute t else if r =? HOURS then hour t
  else if r =? DAY then day t else if r =? MONTH then month t else year t.
Definition eve : nat -> Z -> Z := fun n r =>
  if r =? CMOS_STATA then if (n <? 10)%nat then CMOS_UIP else 0
  else if r =? CMOS_STATB then 2
  else if (n <? 4)%nat then reg_of (encode true old_year) r
  else if (n <? 10)%nat then 0
  else reg_of (encode true new_year) r.

#[global] Instance eve_laws : RtcLaws eve true (fun _ => new_year).
Proof.
  split.
  - intros _. repeat constructor; cbn; lia.
  - intros n i Hu Hi. destruct (Nat.ltb_spec n 10) as [Hlt|Hge].
    + exfalso. revert Hu. do 10 (destruct n as [|n]; [vm_compute; discriminate|]). lia.
    + unfold shown, eve. rewrite (proj2 (Nat.ltb_ge (n + i) 4)), (proj2 (Nat.ltb_ge (n + i) 10)) by lia. reflexivity.
  - intros n. unfold eve. reflexivity.
Defined.

Lemma cmostime_reads_witness : exists s', cmostime eve 20 (RtcPorts 0 0) = Ret (Rtcdate 0 0 0 1 1 2025) s'.
Proof.
  destruct (cmostime_reads eve true (fun _ => new_year) 10 20 (RtcPorts 0 0)) as (k & s' & E & _); [cbn; lia|cbn; lia| |by exists s'].
  intros i Hi. unfold updating, shown, eve.
  rewrite (proj2 (Nat.ltb_ge (10 + i) 4)), (proj2 (Nat.ltb_ge (10 + i) 10)) by lia. split; reflexivity.
Defined.
