(* ===== verification/Uart.v ===== *)
(** The serial port, uart.c.

    The 8250 is the interface [UartDevice] with its documented behaviour as the
    laws [UartLaws]; [port_8250] is an instance.  The theorem: [uartinit] sets the
    line up and announces the system, every byte written afterwards goes out once
    and in order, and the interrupt handler takes every byte that has come in. *)

From S2P Require Import Prelude Console Trap.

Definition COM1 : Z := 0x3f8.

Class UartDevice (D : Type) := {
  u_inb : Z -> kern D Z;
  u_outb : Z -> Z -> kern D unit;
}.

Section uart.
Context {D : Type} `{UartDevice D}.

Record serial_port := SerialPort {
  s_dev : D;
  uart : bool;                  (* is there a uart? *)
  enabled : list (Z * Z);       (* ioapicenable *)
}.

Definition set_dev (d : D) (s : serial_port) : serial_port := SerialPort d (uart s) (enabled s).
Definition port {A} (m : kern D A) : kern serial_port A := zoom s_dev set_dev m.

(** [for(i = 0; i < 128 && !(inb(COM1+5) & 0x20); i++)], [n] turns to go. *)
Fixpoint tx_wait (n : nat) : kern D unit :=
  match n with
  | O => mret tt
  | S n => v ← u_inb (COM1 + 5); if Z.land v 0x20 =? 0 then tx_wait n else mret tt
  end.

Definition uartputc (c : Z) : kern serial_port unit :=
  present ← gets uart;
  if negb present then mret tt
  else port (tx_wait 128) ;; port (u_outb (COM1 + 0) (u8 c)).

Fixpoint uartputs (cs : list Z) : kern serial_port unit :=
  match cs with [] => mret tt | c :: cs => uartputc c ;; uartputs cs end.

Definition banner : list Z := [120; 118; 54; 46; 46; 46; 10].     (* xv6... *)

Definition uartinit : kern serial_port unit :=
  port (u_outb (COM1 + 2) 0) ;;
  port (u_outb (COM1 + 3) 0x80) ;;
  port (u_outb (COM1 + 0) (115200 / 9600)) ;;
  port (u_outb (COM1 + 1) 0) ;;
  port (u_outb (COM1 + 3) 0x03) ;;
  port (u_outb (COM1 + 4) 0) ;;
  port (u_outb (COM1 + 1) 0x01) ;;
  v ← port (u_inb (COM1 + 5));
  if v =? 0xFF then mret tt
  else
    modify (fun s => SerialPort (s_dev s) true (enabled s)) ;;
    _ ← port (u_inb (COM1 + 2));
    _ ← port (u_inb (COM1 + 0));
    modify (fun s => SerialPort (s_dev s) (uart s) (enabled s ++ [(IRQ_COM1, 0)])) ;;
    uartputs banner.

Definition uartgetc : kern serial_port Z :=
  present ← gets uart;
  if negb present then mret (-1)
  else
    v ← port (u_inb (COM1 + 5));
    if Z.land v 0x01 =? 0 then mret (-1) else port (u_inb (COM1 + 0)).

(** The characters [consoleintr] takes: [getc] until it is negative. *)
Fixpoint drain (fuel : nat) : kern serial_port (list Z) :=
  match fuel with
  | O => fun _ => Fuel
  | S fuel => c ← uartgetc; if c <? 0 then mret [] else cs ← drain fuel; mret (c :: cs)
  end.

(** [uartintr]: the port's state, the console's, and whether to list processes. *)
Definition uartintr (fuel : nat) : kern (serial_port * console) bool :=
  cs ← zoom fst (fun p s => (p, s.2)) (drain fuel);
  zoom snd (fun c s => (s.1, c)) (consoleintr cs).
End uart.

Arguments serial_port : clear implicits.

(** The chip: what has gone out on the line, what has come in, the divisor and the
    line control register.  A status read shows whether the transmitter is free,
    which takes at most [ud_busy] polls, fewer than 128, and whether a byte waits.  The first two
    registers are the divisor while bit 7 of the line control register is set. *)
Class UartLaws (D : Type) `{UartDevice D} := {
  ud_line : D -> list Z;
  ud_in : D -> list Z;
  ud_busy : D -> nat;
  ud_div : D -> Z * Z;
  ud_lcr : D -> Z;
  ud_busy_bound d : (ud_busy d < 128)%nat;
  ud_in_bytes d : Forall is_u8 (ud_in d);
  ud_status d : exists v d', u_inb (COM1 + 5) d = Ret v d' /\ v <> 0xFF /\
    (Z.land v 0x20 =? 0) = negb (ud_busy d =? 0)%nat /\ (Z.land v 0x01 =? 0) = bool_decide (ud_in d = []) /\
    ud_busy d' = pred (ud_busy d) /\ ud_line d' = ud_line d /\ ud_in d' = ud_in d /\ ud_div d' = ud_div d /\ ud_lcr d' = ud_lcr d;
  ud_send v d : is_u8 v -> Z.testbit (ud_lcr d) 7 = false -> ud_busy d = 0%nat ->
    exists d', u_outb (COM1 + 0) v d = Ret tt d' /\
      ud_line d' = ud_line d ++ [v] /\ ud_in d' = ud_in d /\ ud_div d' = ud_div d /\ ud_lcr d' = ud_lcr d;
  ud_set_lcr v d : is_u8 v -> exists d', u_outb (COM1 + 3) v d = Ret tt d' /\
    ud_line d' = ud_line d /\ ud_in d' = ud_in d /\ ud_div d' = ud_div d /\ ud_lcr d' = v;
  ud_set_lo v d : is_u8 v -> Z.testbit (ud_lcr d) 7 = true -> exists d', u_outb (COM1 + 0) v d = Ret tt d' /\
    ud_line d' = ud_line d /\ ud_in d' = ud_in d /\ ud_div d' = (v, (ud_div d).2) /\ ud_lcr d' = ud_lcr d;
  ud_set_hi v d : is_u8 v -> Z.testbit (ud_lcr d) 7 = true -> exists d', u_outb (COM1 + 1) v d = Ret tt d' /\
    ud_line d' = ud_line d /\ ud_in d' = ud_in d /\ ud_div d' = ((ud_div d).1, v) /\ ud_lcr d' = ud_lcr d;
  ud_control r v d : is_u8 v -> r = 2 \/ r = 4 \/ (r = 1 /\ Z.testbit (ud_lcr d) 7 = false) ->
    exists d', u_outb (COM1 + r) v d = Ret tt d' /\
      ud_line d' = ud_line d /\ ud_in d' = ud_in d /\ ud_div d' = ud_div d /\ ud_lcr d' = ud_lcr d;
  ud_read_iir d : exists v d', u_inb (COM1 + 2) d = Ret v d' /\
    ud_line d' = ud_line d /\ ud_in d' = ud_in d /\ ud_div d' = ud_div d /\ ud_lcr d' = ud_lcr d;
  ud_receive d : Z.testbit (ud_lcr d) 7 = false -> exists v d', u_inb (COM1 + 0) d = Ret v d' /\
    (forall c cs, ud_in d = c :: cs -> v = c /\ ud_in d' = cs) /\ (ud_in d = [] -> ud_in d' = []) /\
    ud_line d' = ud_line d /\ ud_div d' = ud_div d /\ ud_lcr d' = ud_lcr d;
}.

(** ** Correctness *)

Section uart_correct.
Context {D : Type} `{UartLaws D}.

Lemma port_Ret {A} (m : kern D A) a d s : m (s_dev s) = Ret a d -> port m s = Ret a (set_dev d s).
Proof. apply zoom_Ret. Qed.

(** The line set up for 8 data bits, at divisor 12. *)
Definition line_ready (d : D) : Prop := ud_lcr d = 0x03 /\ ud_div d = (12, 0).

Lemma tx_wait_free n : forall d, (ud_busy d < n)%nat -> exists d', tx_wait n d = Ret tt d' /\ ud_busy d' = 0%nat /\
  ud_line d' = ud_line d /\ ud_in d' = ud_in d /\ ud_div d' = ud_div d /\ ud_lcr d' = ud_lcr d.
Proof.
  induction n as [|n IH]; intros d Hn; [lia|].
  destruct (ud_status d) as (v & d1 & E1 & _ & Hv & _ & B1 & L1 & I1 & V1 & C1).
  cbn [tx_wait]. rewrite (bind_Ret _ _ _ _ _ E1), Hv. destruct (Nat.eqb_spec (ud_busy d) 0) as [Hz|Hz]; cbn [negb].
  - exists d1. split; [done|]. repeat split; try done. lia.
  - destruct (IH d1) as (d2 & E2 & B2 & L2 & I2 & V2 & C2); [lia|]. exists d2. split; [done|]. repeat split; congruence.
Qed.

Lemma uartputc_sends c s : uart s = true -> line_ready (s_dev s) -> is_u8 c ->
  exists d, uartputc c s = Ret tt (set_dev d s) /\ ud_line d = ud_line (s_dev s) ++ [c] /\ ud_in d = ud_in (s_dev s) /\ line_ready d.
Proof.
  intros Hu [Hl Hd] Hc. destruct (tx_wait_free 128 (s_dev s) (ud_busy_bound _)) as (d1 & E1 & B1 & L1 & I1 & V1 & C1).
  destruct (ud_send c d1 Hc) as (d2 & E2 & L2 & I2 & V2 & C2); [by rewrite C1, Hl|done|].
  exists d2. split.
  - unfold uartputc. rewrite bind_gets, Hu. cbn [negb]. rewrite (bind_Ret _ _ _ _ _ (port_Ret _ _ _ _ E1)).
    unfold u8. rewrite Z.mod_small by exact Hc. rewrite (port_Ret _ tt d2); [by destruct s|exact E2].
  - rewrite L2, L1, I2, I1. split; [done|]. split; [done|]. split; congruence.
Qed.

Lemma uartputs_sends cs : forall s, uart s = true -> line_ready (s_dev s) -> Forall is_u8 cs ->
  exists d, uartputs cs s = Ret tt (set_dev d s) /\ ud_line d = ud_line (s_dev s) ++ cs /\ ud_in d = ud_in (s_dev s) /\ line_ready d.
Proof.
  induction cs as [|c cs IH]; intros s Hu Hr Hcs.
  - exists (s_dev s). rewrite app_nil_r. by destruct s.
  - apply Forall_cons in Hcs as [Hc Hcs]. destruct (uartputc_sends c s Hu Hr Hc) as (d1 & E1 & L1 & I1 & R1).
    destruct (IH (set_dev d1 s) Hu R1 Hcs) as (d2 & E2 & L2 & I2 & R2). exists d2.
    cbn [uartputs]. rewrite (bind_Ret _ _ _ _ _ E1), E2. cbn in L2, I2. rewrite L2, L1, <-app_assoc, I2, I1. by destruct s.
Qed.

(** The pending bytes, oldest first, and nothing left. *)
Lemma drain_takes cs : forall fuel s, uart s = true -> line_ready (s_dev s) -> ud_in (s_dev s) = cs -> (length cs < fuel)%nat ->
  exists d, drain fuel s = Ret cs (set_dev d s) /\ ud_in d = [] /\ ud_line d = ud_line (s_dev s) /\ line_ready d.
Proof.
  induction cs as [|c cs IH]; intros [|fuel] s Hu Hr Hin Hf; cbn [length] in Hf; try lia;
    destruct (ud_status (s_dev s)) as (v & d1 & E1 & _ & _ & Hv & _ & L1 & I1 & V1 & C1);
    cbn [drain]; unfold uartgetc; rewrite bind_bind, bind_gets, Hu; cbn [negb];
    rewrite bind_bind, (bind_Ret _ _ _ _ _ (port_Ret _ _ _ _ E1)), Hv, Hin; destruct Hr as [Hl Hd].
  - exists d1. rewrite bool_decide_eq_true_2 by done. split; [done|]. split; [congruence|]. split; [done|]. split; congruence.
  - rewrite bool_decide_eq_false_2 by done. cbv iota.
    destruct (ud_receive d1) as (w & d2 & E2 & Hw & _ & L2 & V2 & C2); [by rewrite C1, Hl|].
    destruct (Hw c cs) as [-> I2]; [congruence|].
    pose proof (ud_in_bytes (s_dev s)) as Hb. rewrite Hin in Hb. apply Forall_cons in Hb as [[Hc _] _].
    rewrite (bind_Ret _ _ _ _ _ (port_Ret _ _ d2 (set_dev d1 s) E2)), (proj2 (Z.ltb_ge c 0)) by done.
    destruct (IH fuel (set_dev d2 s)) as (d3 & E3 & I3 & L3 & R3); [done|split; cbn; congruence|done|lia|].
    exists d3. change (set_dev d2 (set_dev d1 s)) with (set_dev d2 s). rewrite (bind_Ret _ _ _ _ _ E3). split; [done|].
    split; [done|]. split; [cbn in L3; congruence|done].
Qed.
(** A step of [uartinit] on the chip. *)
Lemma port_step {A B} (m : kern D A) (k : A -> kern (serial_port D) B) a d s :
  m (s_dev s) = Ret a d -> (port m ≫= k) s = k a (set_dev d s).
Proof. intros E. apply bind_Ret. by apply port_Ret. Qed.

(** The seven writes that program the line. *)
Lemma program_line {B} (k : kern (serial_port D) B) s : exists d,
  (port (u_outb (COM1 + 2) 0) ;; port (u_outb (COM1 + 3) 0x80) ;; port (u_outb (COM1 + 0) (115200 / 9600)) ;;
   port (u_outb (COM1 + 1) 0) ;; port (u_outb (COM1 + 3) 0x03) ;; port (u_outb (COM1 + 4) 0) ;;
   port (u_outb (COM1 + 1) 0x01) ;; k) s = k (set_dev d s) /\
  ud_line d = ud_line (s_dev s) /\ ud_in d = ud_in (s_dev s) /\ line_ready d.
Proof.
  assert (Hb : forall v, bool_decide (0 <= v < 256) = true -> is_u8 v) by (intros v Hv; by apply bool_decide_eq_true in Hv).
  destruct (ud_control 2 0 (s_dev s)) as (d1 & E1 & L1 & I1 & V1 & C1); [by apply Hb|auto|].
  destruct (ud_set_lcr 0x80 d1) as (d2 & E2 & L2 & I2 & V2 & C2); [by apply Hb|].
  destruct (ud_set_lo (115200 / 9600) d2) as (d3 & E3 & L3 & I3 & V3 & C3); [by apply Hb|by rewrite C2|].
  destruct (ud_set_hi 0 d3) as (d4 & E4 & L4 & I4 & V4 & C4); [by apply Hb|by rewrite C3, C2|].
  destruct (ud_set_lcr 0x03 d4) as (d5 & E5 & L5 & I5 & V5 & C5); [by apply Hb|].
  destruct (ud_control 4 0 d5) as (d6 & E6 & L6 & I6 & V6 & C6); [by apply Hb|auto|].
  destruct (ud_control 1 0x01 d6) as (d7 & E7 & L7 & I7 & V7 & C7); [by apply Hb|right; right; by rewrite C6, C5|].
  exists d7. split.
  - rewrite (port_step _ _ _ _ s E1), (port_step _ _ _ d2 (set_dev d1 s) E2), (port_step _ _ _ d3 (set_dev d2 s) E3),
      (port_step _ _ _ d4 (set_dev d3 s) E4), (port_step _ _ _ d5 (set_dev d4 s) E5), (port_step _ _ _ d6 (set_dev d5 s) E6),
      (port_step _ _ _ d7 (set_dev d6 s) E7). reflexivity.
  - split; [congruence|]. split; [congruence|]. split; [congruence|]. rewrite V7, V6, V5, V4, V3. reflexivity.
Qed.

(** On a machine with the port: [uartinit] programs 8 data bits at divisor 12,
    which is 9600 baud, has the controller deliver the port's interrupt to
    processor 0, and drops what was received before, at most a byte; the line then
    carries the announcement and every byte written later, once and in order; and
    the interrupt handler hands every received byte to the console, in order. *)
Theorem uart_serial cs fuel s : Forall is_u8 cs -> (length (ud_in (s_dev s)) < fuel)%nat ->
  exists d s', (uartinit ;; uartputs cs) s = Ret tt (SerialPort d true (enabled s ++ [(IRQ_COM1, 0)])) /\
    line_ready d /\ ud_line d = ud_line (s_dev s) ++ banner ++ cs /\ ud_in d = tail (ud_in (s_dev s)) /\
    drain fuel (SerialPort d true (enabled s ++ [(IRQ_COM1, 0)])) = Ret (tail (ud_in (s_dev s))) s' /\
    ud_in (s_dev s') = [] /\ ud_line (s_dev s') = ud_line d.
Proof.
  intros Hcs Hf. unfold uartinit. destruct (program_line (v ← port (u_inb (COM1 + 5));
    if v =? 0xFF then mret tt
    else modify (fun s => SerialPort (s_dev s) true (enabled s)) ;; _ ← port (u_inb (COM1 + 2)); _ ← port (u_inb (COM1 + 0));
      modify (fun s => SerialPort (s_dev s) (uart s) (enabled s ++ [(IRQ_COM1, 0)])) ;; uartputs banner) s) as (d0 & E0 & L0 & I0 & [C0 V0]).
  destruct (ud_status d0) as (v & d1 & E1 & Hv & _ & _ & _ & L1 & I1 & V1 & C1).
  destruct (ud_read_iir d1) as (w & d2 & E2 & L2 & I2 & V2 & C2).
  destruct (ud_receive d2) as (x & d3 & E3 & Hx & Hx0 & L3 & V3 & C3); [by rewrite C2, C1, C0|].
  assert (R3 : line_ready d3) by (split; congruence).
  assert (I3 : ud_in d3 = tail (ud_in (s_dev s))).
  { rewrite <-I0, <-I1, <-I2. destruct (ud_in d2) as [|c l]; [by rewrite Hx0|]. by destruct (Hx c l). }
  set (s3 := SerialPort d3 true (enabled s ++ [(IRQ_COM1, 0)])).
  destruct (uartputs_sends banner s3 eq_refl R3) as (d4 & E4 & L4 & I4 & R4); [repeat constructor; vm_compute; congruence|].
  destruct (uartputs_sends cs (set_dev d4 s3) eq_refl R4 Hcs) as (d5 & E5 & L5 & I5 & R5).
  destruct (drain_takes (tail (ud_in (s_dev s))) fuel (set_dev d5 s3) eq_refl R5) as (d6 & E6 & I6 & L6 & R6).
  { cbn in I5, I4 |- *. congruence. }
  { destruct (ud_in (s_dev s)); cbn in *; lia. }
  exists d5, (set_dev d6 s3). subst s3. cbn in L4, L5, I4, I5, L6. split; [|split; [done|split; [|split; [congruence|]]]].
  - erewrite bind_Ret; [exact E5|]. rewrite E0, (port_step _ _ _ d1 (set_dev d0 s) E1), (proj2 (Z.eqb_neq _ _) Hv), bind_modify.
    rewrite (port_step _ _ _ d2 (SerialPort d1 true (enabled s)) E2), (port_step _ _ _ d3 (SerialPort d2 true (enabled s)) E3), bind_modify. exact E4.
  - rewrite L5, L4, <-app_assoc. by rewrite L3, L2, L1, L0.
  - split; [exact E6|]. cbn. split; [done|]. exact L6.
Qed.
End uart_correct.

(** ** Instance and witness *)

(** The chip is busy for a poll after a byte; bytes are kept at their width. *)
Record port_8250 := Port8250 { p_line : list Z; p_in : list Z; p_wait : bool; p_div : Z * Z; p_lcr : Z }.

Definition p_bytes (d : port_8250) : list Z := u8 <$> p_in d.

#[global] Instance port_8250_device : UartDevice port_8250 := {
  u_inb p d :=
    if p =? COM1 + 5 then
      Ret ((if p_wait d then 0 else 0x20) + match p_in d with [] => 0 | _ => 1 end) (Port8250 (p_line d) (p_in d) false (p_div d) (p_lcr d))
    else if (p =? COM1) && negb (Z.testbit (p_lcr d) 7) then
      Ret (hd 0 (p_bytes d)) (Port8250 (p_line d) (tail (p_in d)) (p_wait d) (p_div d) (p_lcr d))
    else Ret 0 d;
  u_outb p v d :=
    Ret tt (if p =? COM1 + 3 then Port8250 (p_line d) (p_in d) (p_wait d) (p_div d) v
      else if Z.testbit (p_lcr d) 7 then
        if p =? COM1 then Port8250 (p_line d) (p_in d) (p_wait d) (v, (p_div d).2) (p_lcr d)
        else if p =? COM1 + 1 then Port8250 (p_line d) (p_in d) (p_wait d) ((p_div d).1, v) (p_lcr d) else d
      else if p =? COM1 then Port8250 (p_line d ++ [v]) (p_in d) true (p_div d) (p_lcr d) else d);
}.

#[global] Instance port_8250_laws : UartLaws port_8250.
Proof.
  refine {| ud_line := p_line; ud_in := p_bytes; ud_busy d := (if p_wait d then 1 else 0)%nat; ud_div := p_div; ud_lcr := p_lcr |}.
  - intros d. destruct (p_wait d); lia.
  - intros d. apply Forall_fmap, Forall_true. intros x. cbn. apply Z.mod_pos_bound. lia.
  - intros d. do 2 eexists. split; [reflexivity|]. unfold p_bytes. destruct (p_wait d), (p_in d); done.
  - intros v d _ Hl _. eexists. split; [reflexivity|]. by rewrite Hl.
  - intros v d _. by eexists.
  - intros v d _ Hl. eexists. split; [reflexivity|]. by rewrite Hl.
  - intros v d _ Hl. eexists. split; [reflexivity|]. by rewrite Hl.
  - intros r v d _ Hr. eexists. split; [reflexivity|]. destruct Hr as [->|[->|[-> Hl]]]; [by destruct (Z.testbit (p_lcr d) 7)..|by rewrite Hl].
  - intros d. by do 2 eexists.
  - intros d Hl. exists (hd 0 (p_bytes d)), (Port8250 (p_line d) (tail (p_in d)) (p_wait d) (p_div d) (p_lcr d)).
    unfold u_inb, port_8250_device. rewrite Hl. split; [reflexivity|]. unfold p_bytes. cbn.
    split; [|split; [|done]]; destruct (p_in d); cbn; intros; by simplify_eq.
Defined.

Lemma uart_serial_witness : exists d s',
  (uartinit ;; uartputs [104; 105]) (SerialPort (Port8250 [] [1; 108; 115; 10] false (0, 0) 0) false []) =
    Ret tt (SerialPort d true [(IRQ_COM1, 0)]) /\
  p_line d = banner ++ [104; 105] /\ drain 5 (SerialPort d true [(IRQ_COM1, 0)]) = Ret [108; 115; 10] s'.
Proof.
  destruct (uart_serial [104; 105] 5 (SerialPort (Port8250 [] [1; 108; 115; 10] false (0, 0) 0) false []))
    as (d & s' & E & _ & L & _ & Dr & _).
  - repeat constructor; vm_compute; congruence.
  - cbn. lia.
  - exists d, s'. split; [exact E|]. split; [exact L|exact Dr].
Defined.
