(* ===== verification/Startup.v ===== *)
(** Starting the other processors: [startothers], [mpenter] and [mpmain] of
    main.c with the entry code of entryother.S.

    The boot processor and the processors it starts run at the same time and
    share the three words below the entry code, which name the stack, the C entry
    point and the page directory of the processor being started.  The steps are
    the accesses to this shared state; [lapicstartap] is its effect, proved in
    Apic.  The theorem: in every interleaving each processor takes its own stack. *)

From S2P Require Import Prelude Memory Kalloc.

Definition KSTACKSIZE : Z := 4096.

Section startothers.
(** The image of entryother.S the linker placed, the addresses of [mpenter] and
    [entrypgdir], and the boot processor's index in [cpus]. *)
Context (image : list Z) (mpenter entrypgdir : Z) (me : nat).

(** What a started processor has done: nothing yet at the entry code, loaded cr3,
    loaded esp, called the entry point, and reached the scheduler. *)
Inductive ap :=
| Off
| Entered
| Paged (cr3 : Z)
| Stacked (cr3 esp : Z)
| Called (cr3 esp eip : Z)
| Scheduling (cr3 esp eip : Z).

Record ap_cpu := Cpu { c_ap : ap; c_started : Z }.

(** The boot processor's position, with [c - cpus] and [stack]. *)
Inductive bpc :=
| BCopy
| BTest (i : nat)
| BAlloc (i : nat)
| BStack (i : nat) (stack : Z)
| BEntry (i : nat) (stack : Z)
| BPgdir (i : nat) (stack : Z)
| BStart (i : nat) (stack : Z)
| BWait (i : nat) (stack : Z)
| BDone.

Record startup := Startup {
  pages : list Z;           (* the free list of kalloc *)
  code : list Z;            (* at 0x7000 *)
  w4 : Z; w8 : Z; w12 : Z;  (* the words at code-4, code-8 and code-12 *)
  cpus : list ap_cpu;
  pc : bpc;
}.

Definition at_pc (p : bpc) (s : startup) : startup := Startup (pages s) (code s) (w4 s) (w8 s) (w12 s) (cpus s) p.
Definition set_cpu (i : nat) (c : ap_cpu) (s : startup) : startup :=
  Startup (pages s) (code s) (w4 s) (w8 s) (w12 s) (<[i := c]> (cpus s)) (pc s).

(** A step of [startothers]; [None] while it waits, and at its end. *)
Definition start_step (s : startup) : option startup :=
  match pc s with
  | BCopy => Some (Startup (pages s) image (w4 s) (w8 s) (w12 s) (cpus s) (BTest 0))
  | BTest i => Some (at_pc (if (i <? length (cpus s))%nat then if (i =? me)%nat then BTest (S i) else BAlloc i else BDone) s)
  | BAlloc i => Some (match pages s with
      | [] => at_pc (BStack i 0) s
      | p :: ps => Startup ps (code s) (w4 s) (w8 s) (w12 s) (cpus s) (BStack i p)
      end)
  | BStack i stack => Some (Startup (pages s) (code s) (stack + KSTACKSIZE) (w8 s) (w12 s) (cpus s) (BEntry i stack))
  | BEntry i stack => Some (Startup (pages s) (code s) (w4 s) mpenter (w12 s) (cpus s) (BPgdir i stack))
  | BPgdir i stack => Some (Startup (pages s) (code s) (w4 s) (w8 s) (V2P entrypgdir) (cpus s) (BStart i stack))
  | BStart i stack => c ← cpus s !! i; Some (at_pc (BWait i stack) (set_cpu i (Cpu Entered (c_started c)) s))
  | BWait i stack => c ← cpus s !! i; if c_started c =? 0 then None else Some (at_pc (BTest (S i)) s)
  | BDone => None
  end.

(** A step of the processor [i]. *)
Definition ap_step (i : nat) (s : startup) : option startup :=
  c ← cpus s !! i;
  match c_ap c with
  | Off | Scheduling _ _ _ => None
  | Entered => Some (set_cpu i (Cpu (Paged (w12 s)) (c_started c)) s)
  | Paged cr3 => Some (set_cpu i (Cpu (Stacked cr3 (w4 s)) (c_started c)) s)
  | Stacked cr3 esp => Some (set_cpu i (Cpu (Called cr3 esp (w8 s)) (c_started c)) s)
  | Called cr3 esp eip => Some (set_cpu i (Cpu (Scheduling cr3 esp eip) 1) s)
  end.

Inductive step : startup -> startup -> Prop :=
| step_boot s s' : start_step s = Some s' -> step s s'
| step_ap i s s' : ap_step i s = Some s' -> step s s'.

Definition booted (ncpu : nat) (free : list Z) : startup :=
  Startup free [] 0 0 0 (replicate ncpu (Cpu Off 0)) BCopy.

(** ** The invariant *)

(** A processor whose stack is the page [g], from its start to the scheduler. *)
Definition ap_ok (g : Z) (c : ap_cpu) : Prop :=
  match c_ap c with
  | Off => False
  | Entered => c_started c = 0
  | Paged cr3 => c_started c = 0 /\ cr3 = V2P entrypgdir
  | Stacked cr3 esp => c_started c = 0 /\ cr3 = V2P entrypgdir /\ esp = g + KSTACKSIZE
  | Called cr3 esp eip => c_started c = 0 /\ cr3 = V2P entrypgdir /\ esp = g + KSTACKSIZE /\ eip = mpenter
  | Scheduling cr3 esp eip => c_started c = 1 /\ cr3 = V2P entrypgdir /\ esp = g + KSTACKSIZE /\ eip = mpenter
  end.

Definition running (g : Z) (c : ap_cpu) : Prop := ap_ok g c /\ c_started c = 1.

(** The processors before [i] run on the pages given to them, those after it are
    off, and the [i]-th is being started with the page [cur]. *)
Definition cpus_ok (given : gmap nat Z) (i : nat) (cur : option Z) (cs : list ap_cpu) : Prop :=
  forall j c, cs !! j = Some c ->
    ((j < i)%nat -> (j = me /\ c = Cpu Off 0) \/ exists g, given !! j = Some g /\ running g c) /\
    (j = i -> match cur with Some p => ap_ok p c | None => c = Cpu Off 0 end) /\
    ((i < j)%nat -> c = Cpu Off 0).

(** The pages given and the pages free, of those free at first. *)
Record given_ok (free : list Z) (given : gmap nat Z) (ps : list Z) : Prop := {
  go_inj : forall j k g, given !! j = Some g -> given !! k = Some g -> j = k;
  go_free : forall j g, given !! j = Some g -> g ∈ free /\ g ∉ ps;
  go_nodup : NoDup ps;
  go_incl : forall p, p ∈ ps -> p ∈ free;
}.

(** The words below the entry code. *)
Definition words_set (n : nat) (p : Z) (s : startup) : Prop :=
  ((1 <= n)%nat -> w4 s = p + KSTACKSIZE) /\ ((2 <= n)%nat -> w8 s = mpenter) /\ ((3 <= n)%nat -> w12 s = V2P entrypgdir).

(** Between processors; while the [i]-th is prepared, [n] words stored; while it starts. *)
Definition between (i : nat) (given : gmap nat Z) (s : startup) : Prop :=
  cpus_ok given i None (cpus s) /\ (length (cpus s) <= i + length (pages s))%nat /\ forall j, is_Some (given !! j) -> (j < i)%nat.
Definition preparing (i : nat) (stack : Z) (n : nat) (started : bool) (given : gmap nat Z) (s : startup) : Prop :=
  cpus_ok given i (if started then Some stack else None) (cpus s) /\ (i < length (cpus s) <= S i + length (pages s))%nat /\
  (forall j, is_Some (given !! j) -> (j <= i)%nat) /\ given !! i = Some stack /\ words_set n stack s.

Definition pc_ok (given : gmap nat Z) (s : startup) : Prop :=
  match pc s with
  | BCopy => between 0 given s
  | BTest i => between i given s
  | BAlloc i => between i given s /\ i <> me /\ (i < length (cpus s))%nat
  | BStack i p => preparing i p 0 false given s
  | BEntry i p => preparing i p 1 false given s
  | BPgdir i p => preparing i p 2 false given s
  | BStart i p => preparing i p 3 false given s
  | BWait i p => preparing i p 3 true given s
  | BDone => exists i, (length (cpus s) <= i)%nat /\ between i given s
  end.

Definition inv (ncpu : nat) (free : list Z) (s : startup) : Prop :=
  exists given, given_ok free given (pages s) /\ pc_ok given s /\ length (cpus s) = ncpu /\ (pc s <> BCopy -> code s = image).

Lemma booted_inv ncpu free : NoDup free -> (ncpu <= length free)%nat -> inv ncpu free (booted ncpu free).
Proof.
  intros Hn Hl. exists ∅. split; [split; [done|done|done|done]|]. split; [|split; [apply length_replicate|done]].
  split; [|split; [cbn; rewrite length_replicate; lia|intros j [x Hx]; done]].
  intros j c Hj. apply lookup_replicate in Hj as [-> Hj]. repeat split; intros; lia || done.
Qed.

(** The words the entry code reads are set while a processor starts. *)
Lemma ap_ok_step i s c g : cpus s !! i = Some c -> words_set 3 g s -> ap_ok g c -> forall s', ap_step i s = Some s' ->
  exists c', s' = set_cpu i c' s /\ ap_ok g c'.
Proof.
  intros Hc (H4 & H8 & H12) Ha s' Hs. unfold ap_step in Hs. rewrite Hc in Hs. cbn in Hs. unfold ap_ok in Ha.
  destruct (c_ap c) eqn:Hp; simplify_eq; (eexists; split; [reflexivity|]); unfold ap_ok; cbn; rewrite ?H4, ?H8, ?H12 by lia;
    naive_solver.
Qed.

Lemma running_done g c : running g c -> exists cr3 esp eip, c_ap c = Scheduling cr3 esp eip.
Proof. intros [Ha Hs]. unfold ap_ok in Ha. destruct (c_ap c); try rewrite Hs in Ha; naive_solver. Qed.

(** Only the processor being started makes a step. *)
Lemma astep_current given i cur j s s' : cpus_ok given i cur (cpus s) -> ap_step j s = Some s' -> j = i /\ is_Some cur.
Proof.
  intros Hc Hs. unfold ap_step in Hs. destruct (cpus s !! j) as [c|] eqn:Hj; [|done]. cbn in Hs.
  destruct (Hc j c Hj) as (Hlt & Heq & Hgt). destruct (lt_eq_lt_dec j i) as [[Hl| ->]|Hg].
  - destruct (Hlt Hl) as [[_ ->]|(g & _ & Hr)]; [done|]. destruct (running_done _ _ Hr) as (?&?&?&E). by rewrite E in Hs.
  - destruct cur; [done|]. rewrite (Heq eq_refl) in Hs. done.
  - rewrite (Hgt Hg) in Hs. done.
Qed.

Lemma cpus_ok_start given i p cs c : cs !! i = Some c -> cpus_ok given i None cs ->
  cpus_ok given i (Some p) (<[i := Cpu Entered (c_started c)]> cs).
Proof.
  intros Hi Hc j c' Hj. destruct (decide (j = i)) as [->|Hn].
  - rewrite list_lookup_insert_eq in Hj by (by eapply lookup_lt_Some). injection Hj as <-.
    destruct (Hc i c Hi) as (_ & Hoff & _). rewrite (Hoff eq_refl). split; [lia|]. split; [|lia]. intros _. by unfold ap_ok.
  - rewrite list_lookup_insert_ne in Hj by done. destruct (Hc j c' Hj) as (H1 & _ & H3). repeat split; intros; auto; lia.
Qed.

Lemma cpus_ok_ap given i p cs c c' : cs !! i = Some c -> ap_ok p c' -> cpus_ok given i (Some p) cs ->
  cpus_ok given i (Some p) (<[i := c']> cs).
Proof.
  intros Hi Ha Hc j x Hj. destruct (decide (j = i)) as [->|Hn].
  - rewrite list_lookup_insert_eq in Hj by (by eapply lookup_lt_Some). injection Hj as <-. split; [lia|]. split; [done|lia].
  - rewrite list_lookup_insert_ne in Hj by done. by apply Hc.
Qed.

(** The started processor has reached [mpmain]: on to the next. *)
Lemma cpus_ok_next given i p cs c : cs !! i = Some c -> c_started c <> 0 -> given !! i = Some p ->
  cpus_ok given i (Some p) cs -> cpus_ok given (S i) None cs.
Proof.
  intros Hi Hs Hg Hc j x Hj. destruct (Hc j x Hj) as (H1 & H2 & H3). repeat split; intros Hl.
  - destruct (decide (j = i)) as [->|]; [|apply H1; lia]. right. exists p. split; [done|]. simplify_eq.
    specialize (H2 eq_refl). split; [done|]. unfold ap_ok in H2. destruct (c_ap c); naive_solver.
  - apply H3. lia.
  - apply H3. lia.
Qed.

Lemma cpus_ok_skip given cs : cpus_ok given me None cs -> cpus_ok given (S me) None cs.
Proof.
  intros Hc j x Hj. destruct (Hc j x Hj) as (H1 & H2 & H3). repeat split; intros Hl; try (apply H3; lia).
  destruct (decide (j = me)) as [->|]; [left; auto|apply H1; lia].
Qed.

(** A page handed out. *)
Lemma given_alloc free given i p ps : given_ok free given (p :: ps) -> (forall j, is_Some (given !! j) -> (j < i)%nat) ->
  given_ok free (<[i := p]> given) ps.
Proof.
  intros [Hi Hf Hn Hl] Hd. apply NoDup_cons in Hn as [Hp Hn]. split.
  - intros j k g Hj Hk. apply lookup_insert_Some in Hj as [[<- <-]|[_ Hj]], Hk as [[<- Hgp]|[_ Hk]]; [done|..].
    + destruct (Hf k p Hk) as [_ []]. left.
    + subst. destruct (Hf j g Hj) as [_ []]. left.
    + by eapply Hi.
  - intros j g Hj. destruct (decide (i = j)) as [<-|].
    + rewrite lookup_insert_eq in Hj. simplify_eq. split; [apply Hl; left|done].
    + rewrite lookup_insert_ne in Hj by done. destruct (Hf j g Hj) as [? Hn']. split; [done|]. intros Hx. apply Hn'. by right.
  - done.
  - intros q Hq. apply Hl. by right.
Qed.

Lemma cpus_ok_given given given' i cs : (forall j, (j < i)%nat -> given' !! j = given !! j) ->
  cpus_ok given i None cs -> cpus_ok given' i None cs.
Proof.
  intros Hg Hc j c Hj. destruct (Hc j c Hj) as (H1 & H2 & H3). split; [|done].
  intros Hl. rewrite Hg by done. auto.
Qed.

Lemma preparing_alloc free given i p ps s : given_ok free given (p :: ps) -> pages s = p :: ps -> between i given s -> (i < length (cpus s))%nat ->
  let s' := Startup ps (code s) (w4 s) (w8 s) (w12 s) (cpus s) (BStack i p) in
  given_ok free (<[i := p]> given) ps /\ preparing i p 0 false (<[i := p]> given) s'.
Proof.
  intros Hg Hp (Hc & Hl & Hd) Hi s'. split; [by apply given_alloc|]. rewrite Hp in Hl. cbn in Hl. split; [|split; [|split; [|split]]].
  - eapply cpus_ok_given; [|exact Hc]. intros j Hj. apply lookup_insert_ne. lia.
  - cbn. lia.
  - intros j Hj. destruct (decide (i = j)) as [->|]; [lia|]. rewrite lookup_insert_ne in Hj by done. apply Nat.lt_le_incl. auto.
  - apply lookup_insert_eq.
  - repeat split; lia.
Qed.

Lemma bstep_inv ncpu free s s' : inv ncpu free s -> start_step s = Some s' -> inv ncpu free s'.
Proof.
  intros (given & Hg & Hpc & Hlen & Hcode) Hs. unfold start_step, pc_ok in *.
  destruct (pc s) as [|i|i|i p|i p|i p|i p|i p|] eqn:Hp; [simplify_eq..| | |done].
  - exists given. by split; [|split].
  - exists given. split; [done|]. destruct (Nat.ltb_spec i (length (cpus s))) as [Hi|Hi].
    + destruct (Nat.eqb_spec i me) as [->|Hne]; (split; [|by split; [|intros _; apply Hcode]]); [|done].
      destruct Hpc as (Hc & Hl & Hd). split; [by apply cpus_ok_skip|]. split; [cbn; lia|]. intros j Hj. specialize (Hd j Hj). lia.
    + split; [|by split; [|intros _; apply Hcode]]. by exists i.
  - destruct Hpc as (Hb & Hne & Hi). destruct (pages s) as [|q ps] eqn:Hps; cbn.
    + destruct Hb as (_ & Hl & _). rewrite Hps in Hl. cbn in Hl. lia.
    + destruct (preparing_alloc free given i q ps s Hg Hps Hb Hi) as [Hg' Hpr]. exists (<[i := q]> given).
      by split; [|split; [|split; [|intros _; apply Hcode]]].
  - exists given. destruct Hpc as (Hc & Hl & Hd & Hgi & Hw). split; [done|].
    split; [|by split; [|intros _; apply Hcode]]. do 4 (split; [done|]). split; [|split]; cbn; intros; lia.
  - exists given. destruct Hpc as (Hc & Hl & Hd & Hgi & Hw & _). split; [done|].
    split; [|by split; [|intros _; apply Hcode]]. do 4 (split; [done|]). split; [|split]; cbn; intros; lia.
  - exists given. destruct Hpc as (Hc & Hl & Hd & Hgi & Hw & Hw8 & _). split; [done|].
    split; [|by split; [|intros _; apply Hcode]]. do 4 (split; [done|]). split; [|split]; cbn; intros; [apply Hw; lia|apply Hw8; lia|done].
  - exists given. destruct Hpc as (Hc & Hl & Hd & Hgi & Hw). destruct (cpus s !! i) as [c|] eqn:Hci; [|done]. cbn in Hs. simplify_eq.
    split; [done|]. split; [|split; [cbn; by rewrite length_insert|intros _; by apply Hcode]].
    split; [by apply cpus_ok_start|]. split; [cbn; by rewrite length_insert|done].
  - exists given. destruct Hpc as (Hc & Hl & Hd & Hgi & Hw). destruct (cpus s !! i) as [c|] eqn:Hci; [|done]. cbn in Hs.
    destruct (Z.eqb_spec (c_started c) 0) as [|Hst]; simplify_eq. split; [done|].
    split; [|by split; [|intros _; apply Hcode]]. split; [by eapply cpus_ok_next|]. split; [cbn; lia|].
    intros j Hj. specialize (Hd j Hj). lia.
Qed.
Lemma astep_inv ncpu free i s s' : inv ncpu free s -> ap_step i s = Some s' -> inv ncpu free s'.
Proof.
  intros (given & Hg & Hpc & Hlen & Hcode) Hs. unfold pc_ok in Hpc.
  assert (Hcur : forall k cur, cpus_ok given k cur (cpus s) -> i = k /\ is_Some cur) by (intros; by eapply astep_current).
  destruct (pc s) as [|k|k|k p|k p|k p|k p|k p|] eqn:Hp.
  8: { destruct Hpc as (Hc & Hl & Hd & Hgi & Hw). destruct (Hcur _ _ Hc) as [<- _].
    destruct (cpus s !! i) as [c|] eqn:Hci; [|unfold ap_step in Hs; by rewrite Hci in Hs].
    destruct (ap_ok_step i s c p Hci Hw (proj1 (proj2 (Hc i c Hci)) eq_refl) s' Hs) as (c' & -> & Ha).
    exists given. split; [done|]. cbn. rewrite length_insert. split; [|split; [done|intros _; by apply Hcode]]. unfold pc_ok. cbn. rewrite Hp.
    split; [by eapply cpus_ok_ap|]. split; [cbn; by rewrite length_insert|done]. }
  all: exfalso; unfold between, preparing in Hpc;
    match goal with
    | Hp' : pc _ = BDone |- _ => destruct Hpc as (k & _ & Hc & _)
    | Hp' : pc _ = BAlloc _ |- _ => destruct Hpc as ((Hc & _) & _)
    | |- _ => destruct Hpc as (Hc & _)
    end; destruct (Hcur _ _ Hc) as [_ []]; done.
Qed.

Lemma startup_step_inv ncpu free s s' : inv ncpu free s -> step s s' -> inv ncpu free s'.
Proof. intros Hi Hs. destruct Hs; [by eapply bstep_inv|by eapply astep_inv]. Qed.

(** ** Progress *)

Definition ap_left (c : ap_cpu) : nat :=
  match c_ap c with Off => 5 | Entered => 4 | Paged _ => 3 | Stacked _ _ => 2 | Called _ _ _ => 1 | Scheduling _ _ _ => 0 end.
Definition pc_left (n : nat) (p : bpc) : nat :=
  match p with
  | BCopy => 8 * n + 10
  | BTest i => 8 * (n - i) + 9
  | BAlloc i => 8 * (n - i) + 8
  | BStack i _ => 8 * (n - i) + 7
  | BEntry i _ => 8 * (n - i) + 6
  | BPgdir i _ => 8 * (n - i) + 5
  | BStart i _ => 8 * (n - i) + 4
  | BWait i _ => 8 * (n - i) + 3
  | BDone => 0
  end.
(** What is left to do: every step takes from it. *)
Definition left_to_do (s : startup) : nat := pc_left (length (cpus s)) (pc s) + sum_list (ap_left <$> cpus s).

Lemma sum_insert i c c' cs : cs !! i = Some c -> (ap_left c' < ap_left c)%nat ->
  (sum_list (ap_left <$> <[i := c']> cs) < sum_list (ap_left <$> cs))%nat.
Proof.
  revert i. induction cs as [|x cs IH]; intros [|i] Hi Hl; [done|done| |].
  - injection Hi as ->. change (<[0%nat := c']> (c :: cs)) with (c' :: cs). rewrite !fmap_cons. cbn [sum_list sum_list_with id]. lia.
  - specialize (IH i Hi Hl). change (<[S i := c']> (x :: cs)) with (x :: <[i := c']> cs). rewrite !fmap_cons.
    cbn [sum_list sum_list_with id]. lia.
Qed.

Lemma astep_left i s s' : ap_step i s = Some s' -> (left_to_do s' < left_to_do s)%nat.
Proof.
  unfold ap_step. destruct (cpus s !! i) as [c|] eqn:Hi; [|done]. cbn. unfold left_to_do.
  intros Hs. assert (exists c', s' = set_cpu i c' s /\ (ap_left c' < ap_left c)%nat) as (c' & -> & Hl).
  { unfold ap_left. destruct (c_ap c); simplify_eq; (eexists; split; [reflexivity|cbn; lia]). }
  cbn. rewrite length_insert. pose proof (sum_insert i c c' (cpus s) Hi Hl). lia.
Qed.

Lemma bstep_left ncpu free s s' : inv ncpu free s -> start_step s = Some s' -> (left_to_do s' < left_to_do s)%nat.
Proof.
  intros (given & _ & Hpc & _) Hs. unfold start_step, pc_ok, left_to_do in *.
  destruct (pc s) as [|i|i|i p|i p|i p|i p|i p|] eqn:Hp; simplify_eq; unfold at_pc, set_cpu; cbn [cpus pc pc_left]; try lia.
  - destruct (Nat.ltb_spec i (length (cpus s))); [|cbn [pc_left]; lia]. destruct (i =? me)%nat; cbn [pc_left]; lia.
  - destruct (pages s); cbn [cpus pc pc_left]; lia.
  - destruct Hpc as (Hc & _). destruct (cpus s !! i) as [c|] eqn:Hi; [|done]. cbn in Hs. simplify_eq. unfold at_pc, set_cpu; cbn [cpus pc pc_left].
    rewrite length_insert. pose proof (proj1 (proj2 (Hc i c Hi)) eq_refl) as Hoff.
    pose proof (sum_insert i c (Cpu Entered (c_started c)) (cpus s) Hi) as Hx. rewrite Hoff in Hx at 2. cbn [ap_left c_ap] in Hx. lia.
  - destruct (cpus s !! i) as [c|] eqn:Hi; [|done]. cbn in Hs. destruct (c_started c =? 0); simplify_eq. unfold at_pc; cbn [cpus pc pc_left].
    apply lookup_lt_Some in Hi. lia.
Qed.

(** While [startothers] has not returned, it or the processor it starts can move. *)
Lemma can_step ncpu free s : inv ncpu free s -> pc s <> BDone -> exists s', step s s'.
Proof.
  intros (given & _ & Hpc & _) Hd. destruct (start_step s) as [s'|] eqn:Hs; [exists s'; by constructor|].
  unfold start_step, pc_ok in *. destruct (pc s) as [|i|i|i p|i p|i p|i p|i p|] eqn:Hp; try done.
  - destruct Hpc as (_ & Hl & _). destruct (lookup_lt_is_Some_2 (cpus s) i) as [c Hi]; [lia|]. by rewrite Hi in Hs.
  - destruct Hpc as (Hc & Hl & _). destruct (lookup_lt_is_Some_2 (cpus s) i) as [c Hi]; [lia|]. rewrite Hi in Hs. cbn in Hs.
    destruct (Z.eqb_spec (c_started c) 0) as [Hst|]; [|done]. pose proof (proj1 (proj2 (Hc i c Hi)) eq_refl) as Ha.
    unfold ap_ok in Ha. destruct (c_ap c) eqn:Hap; try done; try lia;
      (eexists; apply (step_ap i); unfold ap_step; rewrite Hi; cbn; rewrite Hap; reflexivity).
Qed.

(** The processors that have been started, in a state of the invariant. *)
Lemma cpus_ok_all given i cur cs : cpus_ok given i cur cs -> (forall p, cur = Some p -> given !! i = Some p) ->
  forall j c, cs !! j = Some c -> c = Cpu Off 0 \/ exists g, given !! j = Some g /\ ap_ok g c.
Proof.
  intros Hc Hi j c Hj. destruct (Hc j c Hj) as (H1 & H2 & H3). destruct (lt_eq_lt_dec j i) as [[Hl| ->]|Hg].
  - destruct (H1 Hl) as [[_ ->]|(g & Hg & [Ha _])]; [by left|]. right. by exists g.
  - destruct cur as [p|]; [right; exists p; auto|left; auto].
  - left. auto.
Qed.

Lemma inv_cpus ncpu free s : inv ncpu free s -> exists given, given_ok free given (pages s) /\
  (forall j c, cpus s !! j = Some c -> c = Cpu Off 0 \/ exists g, given !! j = Some g /\ ap_ok g c) /\
  (pc s = BDone -> forall j c, cpus s !! j = Some c -> j <> me -> exists g, given !! j = Some g /\ running g c).
Proof.
  intros (given & Hg & Hpc & _). exists given. split; [done|]. unfold pc_ok, between, preparing in Hpc.
  destruct (pc s) as [|i|i|i p|i p|i p|i p|i p|] eqn:Hp.
  all: match goal with
    | Hp' : pc _ = BDone |- _ => destruct Hpc as (k & Hk & Hc & _)
    | Hp' : pc _ = BAlloc _ |- _ => destruct Hpc as ((Hc & _) & _)
    | Hp' : pc _ = BWait _ _ |- _ => destruct Hpc as (Hc & _ & _ & Hgi & _)
    | |- _ => destruct Hpc as (Hc & _)
    end; (split; [apply (cpus_ok_all _ _ _ _ Hc); intros; simplify_eq; done|]); try done.
  intros _ j c Hj Hne. destruct (Hc j c Hj) as (H1 & _). destruct H1 as [[? _]|]; [|done|done].
  apply lookup_lt_Some in Hj. lia.
Qed.

(** C24: However the boot processor and the others interleave: a started processor
    takes the kernel's page directory, enters [mpenter], and has a stack page that
    was free and that no other processor and no later allocation gets; the entry
    code is in place before the first start; [startothers] always goes on, for a
    bounded number of steps, and when it is done every other processor has
    reached the scheduler. *)
Theorem startothers_stacks ncpu free s : NoDup free -> (ncpu <= length free)%nat -> rtc step (booted ncpu free) s ->
  (exists given : gmap nat Z, given_ok free given (pages s) /\
    (forall j c, cpus s !! j = Some c -> c = Cpu Off 0 \/ exists g, given !! j = Some g /\ ap_ok g c) /\
    (pc s = BDone -> forall j c, cpus s !! j = Some c -> j <> me -> exists g, given !! j = Some g /\ running g c)) /\
  (pc s <> BCopy -> code s = image) /\
  (pc s <> BDone -> exists s', step s s') /\
  (forall s', step s s' -> (left_to_do s' < left_to_do s)%nat).
Proof.
  intros Hn Hl Hr. assert (Hi : inv ncpu free s).
  { eapply (rtc_preserves step (inv ncpu free)); [|by apply booted_inv|exact Hr]. intros a b. apply startup_step_inv. }
  split; [by eapply inv_cpus|]. split; [by destruct Hi as (_ & _ & _ & _ & ?)|]. split; [by eapply can_step|].
  intros s' Hs. destruct Hs; [by eapply bstep_left|by eapply astep_left].
Qed.
End startothers.

(** ** Witness *)

(** Three processors, of which the second boots; the first is started to the
    scheduler and the third is about to load its stack. *)
Definition demo_step (i : option nat) (o : option startup) : option startup :=
  s ← o; match i with None => start_step [1; 2; 3] 0x80103000 0x80109000 1 s | Some i => ap_step i s end.
Definition demo_schedule : list (option nat) :=
  replicate 7 None ++ replicate 4 (Some 0%nat) ++ replicate 8 None ++ [Some 2%nat; Some 2%nat].
Definition demo_run : option startup :=
  foldl (fun o i => demo_step i o) (Some (booted 3 [0x8000; 0x9000; 0xa000; 0xb000])) demo_schedule.

Lemma demo_reaches l : forall s s', foldl (fun o i => demo_step i o) (Some s) l = Some s' ->
  rtc (step [1; 2; 3] 0x80103000 0x80109000 1) s s'.
Proof.
  induction l as [|i l IH] using rev_ind; intros s s' Hs; [cbn in Hs; simplify_eq; constructor|].
  rewrite foldl_app in Hs. cbn in Hs. destruct (foldl _ (Some s) l) as [s1|] eqn:E; [|done].
  eapply rtc_r; [by apply IH|]. destruct i; [by eapply step_ap|by apply step_boot].
Qed.

Lemma demo_reached s : demo_run = Some s ->
  rtc (step [1; 2; 3] 0x80103000 0x80109000 1) (booted 3 [0x8000; 0x9000; 0xa000; 0xb000]) s.
Proof. apply demo_reaches. Qed.

Lemma startothers_stacks_witness : exists s, demo_run = Some s /\
  (exists given : gmap nat Z, given_ok [0x8000; 0x9000; 0xa000; 0xb000] given (pages s) /\
    (forall j c, cpus s !! j = Some c -> c = Cpu Off 0 \/ exists g, given !! j = Some g /\ ap_ok 0x80103000 0x80109000 g c)) /\
  c_ap <$> (cpus s !! 2%nat) = Some (Stacked 0x109000 0xa000).
Proof.
  destruct demo_run as [s|] eqn:E; [|by vm_compute in E]. exists s. split; [done|]. split.
  - destruct (startothers_stacks [1; 2; 3] 0x80103000 0x80109000 1 3 [0x8000; 0x9000; 0xa000; 0xb000] s) as ((given & Hg & Hc & _) & _).
    + apply (bool_decide_eq_true_1 (NoDup [0x8000; 0x9000; 0xa000; 0xb000])). vm_compute. reflexivity.
    + cbn. lia.
    + exact (demo_reached s E).
    + exists given. split; [exact Hg|exact Hc].
  - vm_compute in E. injection E as <-. reflexivity.
Defined.
