(* ===== verification/Programs.v ===== *)
(** The small user programs: cat.c, wc.c, echo.c, ls.c, rm.c, mkdir.c, ln.c and
    kill.c.

    A program runs on the system calls of user.h, the interface [Sys]; what it
    relies on are the laws [SysLaws], and [flat_fs] is an instance.  A result
    [false] means the program has called [exit].  The theorems: cat copies its
    files to the output, wc prints the numbers of lines, words and bytes, however
    [read] cuts the file into pieces, and [fmtname] pads the last name of a path. *)

From S2P Require Import Prelude CString Printf Fs.

Record ustat := Ustat { u_type : Z; u_ino : Z; u_size : Z }.

(** System calls; [sys_read] returns its result and the bytes it stored. *)
Class Sys (U : Type) := {
  sys_open : list Z -> Z -> kern U Z;
  sys_read : Z -> Z -> kern U (Z * list Z);
  sys_write : Z -> list Z -> kern U Z;
  sys_close : Z -> kern U Z;
  sys_fstat : Z -> kern U (Z * ustat);
  sys_unlink : list Z -> kern U Z;
  sys_mkdir : list Z -> kern U Z;
  sys_link : list Z -> list Z -> kern U Z;
  sys_kill : Z -> kern U Z;
}.

Definition text_of (s : string) : list Z := (fun c => Z.of_nat (Ascii.nat_of_ascii c)) <$> String.list_ascii_of_string s.

(** A text ended by a newline. *)
Definition line (s : string) : list Z := text_of s ++ [10].

Section programs.
Context {U : Type} `{Sys U}.

(** [printf] writes its text a character at a time. *)
Fixpoint put_text (fd : Z) (t : list Z) : kern U unit :=
  match t with [] => mret tt | c :: t => _ ← sys_write fd [c]; put_text fd t end.

(** [printf(fd, fmt, ...)] with the arguments [args]; the pointer to the [i]-th of
    the strings [strs] is [i + 1]. *)
Definition uprintf (fd : Z) (fmt : list Z) (strs : list (list Z)) (args : list Z) : kern U unit :=
  put_text fd (printf (fun a => nth (Z.to_nat (a - 1)) strs []) fmt (fun i => nth i args 0)).

(** ** cat.c *)

Fixpoint cat (fuel : nat) (fd : Z) : kern U bool :=
  match fuel with
  | O => fun _ => Fuel
  | S fuel =>
      '(n, buf) ← sys_read fd 512;
      if 0 <? n then
        r ← sys_write 1 buf;
        if negb (r =? n) then uprintf 1 (line "cat: write error") [] [] ;; mret false
        else cat fuel fd
      else if n <? 0 then uprintf 1 (line "cat: read error") [] [] ;; mret false
      else mret true
  end.

Fixpoint cat_files (fuel : nat) (argv : list (list Z)) : kern U bool :=
  match argv with
  | [] => mret true
  | a :: argv =>
      fd ← sys_open a 0;
      if fd <? 0 then uprintf 1 (line "cat: cannot open %s") [a] [1] ;; mret false
      else
        ok ← cat fuel fd;
        if negb ok then mret false
        else _ ← sys_close fd; cat_files fuel argv
  end.

(** [argv] without the program's name. *)
Definition cat_main (fuel : nat) (argv : list (list Z)) : kern U bool :=
  match argv with [] => cat fuel 0 | _ => cat_files fuel argv end.

(** ** wc.c *)

Record counts := Counts { c_l : Z; c_w : Z; c_c : Z; inword : bool }.

Definition blanks : list Z := [32; 13; 9; 10; 11].

(** The body of the loop over [buf]. *)
Definition wc_char (s : counts) (ch : Z) : counts :=
  let l := if ch =? 10 then i32 (c_l s + 1) else c_l s in
  match strchr blanks ch with
  | Some _ => Counts l (c_w s) (i32 (c_c s + 1)) false
  | None => if negb (inword s) then Counts l (i32 (c_w s + 1)) (i32 (c_c s + 1)) true else Counts l (c_w s) (i32 (c_c s + 1)) (inword s)
  end.

Fixpoint wc_loop (fuel : nat) (fd : Z) (name : list Z) (s : counts) : kern U bool :=
  match fuel with
  | O => fun _ => Fuel
  | S fuel =>
      '(n, buf) ← sys_read fd 512;
      if 0 <? n then wc_loop fuel fd name (foldl wc_char s buf)
      else if n <? 0 then uprintf 1 (line "wc: read error") [] [] ;; mret false
      else uprintf 1 (line "%d %d %d %s") [name] [c_l s; c_w s; c_c s; 1] ;; mret true
  end.

Definition wc (fuel : nat) (fd : Z) (name : list Z) : kern U bool := wc_loop fuel fd name (Counts 0 0 0 false).

Fixpoint wc_files (fuel : nat) (argv : list (list Z)) : kern U bool :=
  match argv with
  | [] => mret true
  | a :: argv =>
      fd ← sys_open a 0;
      if fd <? 0 then uprintf 1 (line "wc: cannot open %s") [a] [1] ;; mret false
      else
        ok ← wc fuel fd a;
        if negb ok then mret false
        else _ ← sys_close fd; wc_files fuel argv
  end.

Definition wc_main (fuel : nat) (argv : list (list Z)) : kern U bool :=
  match argv with [] => wc fuel 0 [] | _ => wc_files fuel argv end.

(** ** echo.c *)

Fixpoint echo_main (argv : list (list Z)) : kern U unit :=
  match argv with
  | [] => mret tt
  | a :: argv => uprintf 1 (text_of "%s%s") [a; match argv with [] => [10] | _ => [32] end] [1; 2] ;; echo_main argv
  end.

(** ** rm.c, mkdir.c, ln.c, kill.c *)

Fixpoint rm_files (argv : list (list Z)) : kern U unit :=
  match argv with
  | [] => mret tt
  | a :: argv =>
      r ← sys_unlink a;
      if r <? 0 then uprintf 2 (line "rm: %s failed to delete") [a] [1] else rm_files argv
  end.
Definition rm_main (argv : list (list Z)) : kern U unit :=
  match argv with [] => uprintf 2 (line "Usage: rm files...") [] [] | _ => rm_files argv end.

Fixpoint mkdir_files (argv : list (list Z)) : kern U unit :=
  match argv with
  | [] => mret tt
  | a :: argv =>
      r ← sys_mkdir a;
      if r <? 0 then uprintf 2 (line "mkdir: %s failed to create") [a] [1] else mkdir_files argv
  end.
Definition mkdir_main (argv : list (list Z)) : kern U unit :=
  match argv with [] => uprintf 2 (line "Usage: mkdir files...") [] [] | _ => mkdir_files argv end.

Definition ln_main (argv : list (list Z)) : kern U unit :=
  match argv with
  | [old; new] =>
      r ← sys_link old new;
      if r <? 0 then uprintf 2 (line "link %s %s: failed") [old; new] [1; 2] else mret tt
  | _ => uprintf 2 (line "Usage: ln old new") [] []
  end.

Fixpoint kill_all (argv : list (list Z)) : kern U unit :=
  match argv with [] => mret tt | a :: argv => _ ← sys_kill (atoi a); kill_all argv end.
Definition kill_main (argv : list (list Z)) : kern U unit :=
  match argv with [] => uprintf 2 (line "usage: kill pid...") [] [] | _ => kill_all argv end.
(** ** ls.c *)

(** The first loop of [fmtname]: [k] is [p - path + 1]; the result is the offset
    of [p] after the loop and its increment. *)
Fixpoint fmt_scan (path : list Z) (k : nat) : nat :=
  match k with
  | O => O
  | S k' => if nth k' path 0 =? 47 then k else fmt_scan path k'
  end.

(** A path is its characters; the byte after them is the NUL. *)
Definition fmtname (path : list Z) : list Z :=
  let p := drop (fmt_scan path (S (length path))) path in
  if Z.of_nat (length p) >=? DIRSIZ then p
  else p ++ replicate (Z.to_nat DIRSIZ - length p) 32.

(** [stat] of ulib.c. *)
Definition ustat_path (n : list Z) : kern U (Z * ustat) :=
  fd ← sys_open n 0;
  if fd <? 0 then mret (-1, Ustat 0 0 0)
  else
    r ← sys_fstat fd;
    _ ← sys_close fd;
    mret r.

Definition ls_entry (path : list Z) (st : ustat) : kern U unit :=
  uprintf 1 (line "%s %d %d %d") [fmtname path] [1; u_type st; u_ino st; u_size st].

(** [while(read(fd, &de, sizeof(de)) == sizeof(de))]; [buf] holds the path and a slash. *)
Fixpoint ls_dir (fuel : nat) (fd : Z) (buf : list Z) : kern U unit :=
  match fuel with
  | O => fun _ => Fuel
  | S fuel =>
      '(n, de) ← sys_read fd 16;
      if n =? 16 then
        let de := get_dirent de in
        if de_inum de =? 0 then ls_dir fuel fd buf
        else
          let path := buf ++ cstr (de_name de) in
          '(r, st) ← ustat_path path;
          (if r <? 0 then uprintf 1 (line "ls: cannot stat %s") [path] [1] else ls_entry path st) ;;
          ls_dir fuel fd buf
      else mret tt
  end.

Definition ls (fuel : nat) (path : list Z) : kern U unit :=
  fd ← sys_open path 0;
  if fd <? 0 then uprintf 2 (line "ls: cannot open %s") [path] [1]
  else
    '(r, st) ← sys_fstat fd;
    if r <? 0 then
      uprintf 2 (line "ls: cannot stat %s") [path] [1] ;; _ ← sys_close fd; mret tt
    else
      (if u_type st =? T_FILE then ls_entry path st
       else if u_type st =? T_DIR then
         if Z.of_nat (length path) + 1 + DIRSIZ + 1 >? 512 then uprintf 1 (line "ls: path too long") [] []
         else ls_dir fuel fd (path ++ [47])
       else mret tt) ;;
      _ ← sys_close fd; mret tt.

Fixpoint ls_all (fuel : nat) (argv : list (list Z)) : kern U unit :=
  match argv with [] => mret tt | a :: argv => ls fuel a ;; ls_all fuel argv end.
Definition ls_main (fuel : nat) (argv : list (list Z)) : kern U unit :=
  match argv with [] => ls fuel [46] | _ => ls_all fuel argv end.
End programs.

(** ** What the programs rely on *)

(** [us_pend u fd]: what is left to read; [us_out]: what has been written to
    descriptor 1; [us_file]: the contents of a file.  A read returns some of the
    bytes, at least one if any is left; the output is not one of the files. *)
Class SysLaws (U : Type) `{Sys U} := {
  us_pend : U -> Z -> option (list Z);
  us_out : U -> list Z;
  us_file : U -> list Z -> option (list Z);
  us_open u a bs : us_file u a = Some bs -> exists fd u', sys_open a 0 u = Ret fd u' /\ 0 <= fd /\
    us_pend u' fd = Some bs /\ us_out u' = us_out u /\ us_file u' = us_file u;
  us_read u fd bs : us_pend u fd = Some bs -> exists k u', sys_read fd 512 u = Ret (Z.of_nat k, take k bs) u' /\
    (k <= length bs)%nat /\ (bs <> [] -> (0 < k)%nat) /\
    us_pend u' fd = Some (drop k bs) /\ us_out u' = us_out u /\ us_file u' = us_file u;
  us_write u bs : exists u', sys_write 1 bs u = Ret (Z.of_nat (length bs)) u' /\
    us_out u' = us_out u ++ bs /\ us_pend u' = us_pend u /\ us_file u' = us_file u;
  us_close u fd : is_Some (us_pend u fd) -> exists u', sys_close fd u = Ret 0 u' /\
    us_out u' = us_out u /\ us_file u' = us_file u;
}.

(** ** Counting *)

Definition blank (c : Z) : bool := bool_decide (c ∈ blanks).

(** A word starts where a character that is not blank follows a blank or the start. *)
Definition words_from (prev : Z) (bs : list Z) : nat :=
  length (filter (fun p : Z * Z => blank p.1 && negb (blank p.2)) (zip (prev :: bs) bs)).
Definition count_words (bs : list Z) : nat := words_from 32 bs.
Definition count_lines (bs : list Z) : nat := length (filter (fun c => c = 10) bs).

Lemma strchr_blanks ch : match strchr blanks ch with Some _ => true | None => false end = blank ch.
Proof.
  unfold blank, blanks. cbn [strchr]. symmetry.
  repeat match goal with |- context [?a =? ch] => destruct (Z.eqb_spec a ch); [subst; by apply bool_decide_eq_true_2; set_solver|] end.
  cbn. apply bool_decide_eq_false_2. set_solver.
Qed.

Lemma word_starts_cons prev ch bs : words_from prev (ch :: bs) = ((if blank prev && negb (blank ch) then 1 else 0) + words_from ch bs)%nat.
Proof.
  unfold words_from. change (zip (prev :: ch :: bs) (ch :: bs)) with ((prev, ch) :: zip (ch :: bs) bs).
  rewrite filter_cons. cbn [fst snd]. destruct (blank prev && negb (blank ch)); by case_decide.
Qed.

Lemma lines_cons ch bs : count_lines (ch :: bs) = ((if (ch =? 10)%Z then 1 else 0) + count_lines bs)%nat.
Proof. unfold count_lines. rewrite filter_cons. destruct (Z.eqb_spec ch 10); by case_decide. Qed.

Lemma last_cons_from (bs : list Z) : forall ch prev, List.last (ch :: bs) prev = List.last bs ch.
Proof. induction bs as [|b bs IH]; intros ch prev; [done|]. change (List.last (ch :: b :: bs) prev) with (List.last (b :: bs) prev). by rewrite !IH. Qed.

(** The counters within the width of an int. *)
Definition counts_ok (n : Z) (s : counts) : Prop := 0 <= c_l s <= c_c s /\ 0 <= c_w s <= c_c s /\ c_c s + n < 2 ^ 31.

Lemma wc_char_step prev s ch n : 0 <= n -> blank prev = negb (inword s) -> counts_ok (n + 1) s ->
  wc_char s ch = Counts (c_l s + if ch =? 10 then 1 else 0) (c_w s + if blank prev && negb (blank ch) then 1 else 0)
    (c_c s + 1) (negb (blank ch)) /\ counts_ok n (wc_char s ch).
Proof.
  intros Hn Hp Hs. assert (E : wc_char s ch = Counts (c_l s + if ch =? 10 then 1 else 0)
    (c_w s + if blank prev && negb (blank ch) then 1 else 0) (c_c s + 1) (negb (blank ch))).
  { unfold counts_ok in Hs. unfold wc_char. pose proof (strchr_blanks ch) as Hb. rewrite Hp, !i32_id by lia.
    destruct (strchr blanks ch); rewrite <-Hb; cbn [negb]; destruct (ch =? 10), (inword s) eqn:Hi; cbn [negb andb];
      rewrite ?i32_id, ?Z.add_0_r by lia; rewrite ?Hi; reflexivity. }
  split; [done|]. rewrite E. unfold counts_ok in *. cbn [c_l c_w c_c].
  destruct (ch =? 10), (blank prev && negb (blank ch)); lia.
Qed.

(** The loop over a buffer adds what the buffer contains, given the last character
    before it. *)
Lemma wc_fold bs : forall prev s n, 0 <= n -> blank prev = negb (inword s) -> counts_ok (n + Z.of_nat (length bs)) s ->
  let s' := foldl wc_char s bs in
  c_l s' = c_l s + Z.of_nat (count_lines bs) /\ c_w s' = c_w s + Z.of_nat (words_from prev bs) /\
  c_c s' = c_c s + Z.of_nat (length bs) /\ blank (List.last bs prev) = negb (inword s') /\ counts_ok n s'.
Proof.
  induction bs as [|ch bs IH]; intros prev s n Hn Hp Hs; cbn [foldl].
  - cbn in *. rewrite Z.add_0_r in Hs. repeat split; done || (cbn; lia) || apply Hs.
  - destruct (wc_char_step prev s ch (n + Z.of_nat (length bs)) ltac:(lia) Hp) as [E Hs']; [cbn [length] in Hs; by replace (n + _ + 1) with (n + Z.of_nat (S (length bs))) by lia|].
    destruct (IH ch (wc_char s ch) n Hn) as (H1 & H2 & H3 & H4 & H5); [rewrite E; cbn; by rewrite negb_involutive|done|].
    rewrite word_starts_cons, lines_cons. cbv zeta. rewrite H1, H2, H3. rewrite E at 1 2 3. cbn [c_l c_w c_c length].
    split; [destruct (ch =? 10); lia|]. split; [destruct (blank prev && negb (blank ch)); lia|]. split; [lia|].
    split; [|done]. by rewrite last_cons_from.
Qed.

Lemma words_app bs1 : forall prev bs2, words_from prev (bs1 ++ bs2) = (words_from prev bs1 + words_from (List.last bs1 prev) bs2)%nat.
Proof.
  induction bs1 as [|ch bs1 IH]; intros prev bs2; [done|].
  rewrite last_cons_from, <-app_comm_cons, !word_starts_cons, IH. lia.
Qed.

Lemma lines_app bs1 bs2 : count_lines (bs1 ++ bs2) = (count_lines bs1 + count_lines bs2)%nat.
Proof. unfold count_lines. by rewrite filter_app, length_app. Qed.

(** The line wc prints: three decimal numbers and the name. *)
Definition wc_report (name : list Z) (nl nw nc : Z) : list Z :=
  printint nl 10 true ++ [32] ++ printint nw 10 true ++ [32] ++ printint nc 10 true ++ [32] ++ name ++ [10].
Definition wc_spec (name bs : list Z) : list Z :=
  wc_report name (Z.of_nat (count_lines bs)) (Z.of_nat (count_words bs)) (Z.of_nat (length bs)).

Section correct.
Context {U : Type} `{SysLaws U}.

Lemma put_text_out t : forall u, exists u', put_text 1 t u = Ret tt u' /\ us_out u' = us_out u ++ t /\
  us_pend u' = us_pend u /\ us_file u' = us_file u.
Proof.
  induction t as [|ch t IH]; intros u; [exists u; by rewrite app_nil_r|].
  destruct (us_write u [ch]) as (u1 & E1 & O1 & P1 & F1). destruct (IH u1) as (u2 & E2 & O2 & P2 & F2).
  exists u2. cbn [put_text]. rewrite (bind_Ret _ _ _ _ _ E1), O2, O1, <-app_assoc. split; [done|]. split; [done|]. split; congruence.
Qed.

Lemma wc_print name s u : counts_ok 0 s -> exists u',
  uprintf 1 (line "%d %d %d %s") [name] [c_l s; c_w s; c_c s; 1] u = Ret tt u' /\
  us_out u' = us_out u ++ wc_report name (c_l s) (c_w s) (c_c s) /\ us_pend u' = us_pend u /\ us_file u' = us_file u.
Proof.
  intros (Hl & Hw & Hc). unfold uprintf.
  replace (printf _ _ _) with (wc_report name (c_l s) (c_w s) (c_c s)); [apply put_text_out|].
  rewrite <-(i32_id (c_l s)), <-(i32_id (c_w s)), <-(i32_id (c_c s)) at 1 by lia. reflexivity.
Qed.

Lemma wc_loop_counts fd name : forall fuel bs prev s u, us_pend u fd = Some bs -> (length bs < fuel)%nat ->
  blank prev = negb (inword s) -> counts_ok (Z.of_nat (length bs)) s ->
  exists u', wc_loop fuel fd name s u = Ret true u' /\ us_file u' = us_file u /\ is_Some (us_pend u' fd) /\
    us_out u' = us_out u ++ wc_report name (c_l s + Z.of_nat (count_lines bs)) (c_w s + Z.of_nat (words_from prev bs)) (c_c s + Z.of_nat (length bs)).
Proof.
  induction fuel as [|fuel IH]; intros bs prev s u Hp Hf Hb Hs; [lia|].
  destruct (us_read u fd bs Hp) as (k & u1 & E1 & Hk & Hpos & P1 & O1 & F1).
  cbn [wc_loop]. rewrite (bind_Ret _ _ _ _ _ E1). destruct (decide (k = 0%nat)) as [->|Hk0].
  - assert (bs = []) as -> by (destruct bs; [done|specialize (Hpos ltac:(done)); lia]).
    change (0 <? Z.of_nat 0) with false. change (Z.of_nat 0 <? 0) with false. cbv iota.
    destruct (wc_print name s u1 Hs) as (u2 & E2 & O2 & P2 & F2).
    rewrite (bind_Ret _ _ _ _ _ E2). exists u2. split; [done|]. split; [congruence|]. split; [rewrite P2, P1; eauto|].
    change (Z.of_nat (count_lines [])) with 0. change (Z.of_nat (words_from prev [])) with 0. cbn [length Z.of_nat].
    rewrite !Z.add_0_r, O2, O1. done.
  - rewrite (proj2 (Z.ltb_lt 0 (Z.of_nat k))) by lia.
    destruct (wc_fold (take k bs) prev s (Z.of_nat (length (drop k bs)))) as (H1 & H2 & H3 & H4 & H5); [lia|done| |].
    { rewrite length_take, length_drop. by replace (_ + _) with (Z.of_nat (length bs)) by lia. }
    destruct (IH (drop k bs) (List.last (take k bs) prev) (foldl wc_char s (take k bs)) u1 P1) as (u2 & E2 & F2 & P2 & O2);
      [rewrite length_drop; lia|done|done|].
    exists u2. split; [exact E2|]. split; [congruence|]. split; [done|]. rewrite O2, O1, H1, H2, H3.
    pose proof (lines_app (take k bs) (drop k bs)) as Hll. pose proof (words_app (take k bs) prev (drop k bs)) as Hww.
    pose proof (length_app (take k bs) (drop k bs)) as Hcc. rewrite take_drop in Hll, Hww, Hcc. f_equal. f_equal; lia.
Qed.
Lemma wc_files_count fuel argv : forall files u,
  Forall2 (fun a bs => us_file u a = Some bs /\ (length bs < fuel)%nat /\ Z.of_nat (length bs) < 2 ^ 31) argv files ->
  exists u', wc_files fuel argv u = Ret true u' /\ us_out u' = us_out u ++ mjoin (zip_with wc_spec argv files).
Proof.
  induction argv as [|a argv IH]; intros files u Hf; inversion Hf as [|? bs ? files' (Ha & Hl & Hb) Hf']; subst.
  - exists u. by rewrite app_nil_r.
  - destruct (us_open u a bs Ha) as (fd & u1 & E1 & Hfd & P1 & O1 & F1).
    destruct (wc_loop_counts fd a fuel bs 32 (Counts 0 0 0 false) u1 P1 Hl) as (u2 & E2 & F2 & P2 & O2);
      [done|unfold counts_ok; cbn; lia|].
    destruct (us_close u2 fd P2) as (u3 & E3 & O3 & F3).
    destruct (IH files' u3) as (u4 & E4 & O4).
    { eapply Forall2_impl; [exact Hf'|]. intros x y (Hx & ? & ?). rewrite F3, F2, F1. done. }
    exists u4. cbn [wc_files]. rewrite (bind_Ret _ _ _ _ _ E1), (proj2 (Z.ltb_ge fd 0)) by done.
    unfold wc. rewrite (bind_Ret _ _ _ _ _ E2). cbn [negb]. rewrite (bind_Ret _ _ _ _ _ E3), E4. split; [done|].
    rewrite O4, O3, O2, O1, <-app_assoc. reflexivity.
Qed.

(** wc prints, for each of its files, the number of newlines, the number of places
    where a word starts and the number of bytes: the counts do not depend on how
    the calls of [read] cut the file, a word across two buffers counting once. *)
Theorem wc_counts fuel argv files u : argv <> [] ->
  Forall2 (fun a bs => us_file u a = Some bs /\ (length bs < fuel)%nat /\ Z.of_nat (length bs) < 2 ^ 31) argv files ->
  exists u', wc_main fuel argv u = Ret true u' /\ us_out u' = us_out u ++ mjoin (zip_with wc_spec argv files).
Proof. intros Hne Hf. destruct argv; [done|]. by apply wc_files_count. Qed.

Lemma cat_copy fd : forall fuel bs u, us_pend u fd = Some bs -> (length bs < fuel)%nat ->
  exists u', cat fuel fd u = Ret true u' /\ us_file u' = us_file u /\ is_Some (us_pend u' fd) /\ us_out u' = us_out u ++ bs.
Proof.
  induction fuel as [|fuel IH]; intros bs u Hp Hf; [lia|].
  destruct (us_read u fd bs Hp) as (k & u1 & E1 & Hk & Hpos & P1 & O1 & F1).
  cbn [cat]. rewrite (bind_Ret _ _ _ _ _ E1). destruct (decide (k = 0%nat)) as [->|Hk0].
  - assert (bs = []) as -> by (destruct bs; [done|specialize (Hpos ltac:(done)); lia]).
    exists u1. split; [done|]. split; [done|]. split; [rewrite P1; eauto|]. by rewrite O1, app_nil_r.
  - rewrite (proj2 (Z.ltb_lt 0 (Z.of_nat k))) by lia. destruct (us_write u1 (take k bs)) as (u2 & E2 & O2 & P2 & F2).
    rewrite (bind_Ret _ _ _ _ _ E2), length_take, Nat.min_l, Z.eqb_refl by lia. cbn [negb].
    destruct (IH (drop k bs) u2) as (u3 & E3 & F3 & P3 & O3); [by rewrite P2|rewrite length_drop; lia|].
    exists u3. split; [done|]. split; [congruence|]. split; [done|]. by rewrite O3, O2, O1, <-app_assoc, take_drop.
Qed.

(** cat writes its files to the output, whole and in the order of its arguments. *)
Theorem cat_copies fuel argv : forall files u,
  Forall2 (fun a bs => us_file u a = Some bs /\ (length bs < fuel)%nat) argv files ->
  exists u', cat_files fuel argv u = Ret true u' /\ us_out u' = us_out u ++ mjoin files.
Proof.
  induction argv as [|a argv IH]; intros files u Hf; inversion Hf as [|? bs ? files' (Ha & Hl) Hf']; subst.
  - exists u. by rewrite app_nil_r.
  - destruct (us_open u a bs Ha) as (fd & u1 & E1 & Hfd & P1 & O1 & F1).
    destruct (cat_copy fd fuel bs u1 P1 Hl) as (u2 & E2 & F2 & P2 & O2). destruct (us_close u2 fd P2) as (u3 & E3 & O3 & F3).
    destruct (IH files' u3) as (u4 & E4 & O4).
    { eapply Forall2_impl; [exact Hf'|]. intros x y (Hx & ?). rewrite F3, F2, F1. done. }
    exists u4. cbn [cat_files]. rewrite (bind_Ret _ _ _ _ _ E1), (proj2 (Z.ltb_ge fd 0)) by done.
    rewrite (bind_Ret _ _ _ _ _ E2). cbn [negb]. rewrite (bind_Ret _ _ _ _ _ E3), E4. split; [done|].
    rewrite O4, O3, O2, O1, <-app_assoc. reflexivity.
Qed.

(** echo writes its arguments with blanks between them and a newline at the end. *)
Fixpoint echo_text (argv : list (list Z)) : list Z :=
  match argv with [] => [] | [a] => a ++ [10] | a :: argv => a ++ [32] ++ echo_text argv end.

Theorem echo_writes argv : forall u, exists u', echo_main argv u = Ret tt u' /\ us_out u' = us_out u ++ echo_text argv.
Proof.
  induction argv as [|a argv IH]; intros u; [exists u; by rewrite app_nil_r|].
  cbn [echo_main]. unfold uprintf. set (sep := match argv with [] => [10] | _ => [32] end).
  change (printf _ (text_of "%s%s") _) with (a ++ sep ++ []).
  destruct (put_text_out (a ++ sep ++ []) u) as (u1 & E1 & O1 & _). destruct (IH u1) as (u2 & E2 & O2).
  exists u2. rewrite (bind_Ret _ _ _ _ _ E1). split; [done|]. rewrite O2, O1, app_nil_r, <-app_assoc. f_equal. unfold sep.
  destruct argv; cbn [echo_text]; [by rewrite app_nil_r|by rewrite <-app_assoc].
Qed.
End correct.

(** ** Names *)

Lemma fmt_scan_name dir name : forall k, 47 ∉ name -> (k <= length name)%nat ->
  fmt_scan (dir ++ 47 :: name) (S (length dir) + k) = S (length dir).
Proof.
  induction k as [|k IH]; intros Hn Hk.
  - rewrite Nat.add_0_r. cbn [fmt_scan]. rewrite app_nth2, Nat.sub_diag by lia. done.
  - rewrite Nat.add_succ_r. cbn [fmt_scan].
    rewrite app_nth2 by lia. replace (S (length dir) + k - length dir)%nat with (S k) by lia. cbn [nth].
    destruct (Z.eqb_spec (nth k name 0) 47) as [E|_]; [|apply IH; [done|lia]].
    exfalso. apply Hn. rewrite <-E. apply list_elem_of_In, nth_In. lia.
Qed.

(** [fmtname] gives the name after the last slash, blank-padded to [DIRSIZ]. *)
Theorem fmtname_last dir name : 47 ∉ name -> Z.of_nat (length name) <= DIRSIZ ->
  fmtname (dir ++ 47 :: name) = name ++ replicate (Z.to_nat DIRSIZ - length name) 32.
Proof.
  intros Hn Hl. unfold fmtname. assert (Hs : fmt_scan (dir ++ 47 :: name) (S (length (dir ++ 47 :: name))) = S (length dir)).
  { cbn [fmt_scan]. rewrite nth_overflow by lia. cbn [Z.eqb].
    rewrite length_app. cbn [length]. rewrite Nat.add_succ_r. by apply fmt_scan_name. }
  rewrite Hs. replace (drop (S (length dir)) (dir ++ 47 :: name)) with name.
  - rewrite Z.geb_leb. destruct (Z.leb_spec DIRSIZ (Z.of_nat (length name))) as [Hge|]; [|done].
    replace (Z.to_nat DIRSIZ - length name)%nat with 0%nat by lia. by rewrite app_nil_r.
  - rewrite drop_app_ge, Nat.sub_succ_l, Nat.sub_diag by lia. done.
Qed.

(** ** Instance and witnesses *)

(** A fixed set of files; [read] returns at most five bytes. *)
Record flat_fs := FlatFs { ff_files : list Z -> option (list Z); ff_pend : Z -> option (list Z); ff_out : list Z; ff_next : nat }.

#[global] Instance flat_fs_sys : Sys flat_fs := {
  sys_open a _ u :=
    match ff_files u a with
    | None => Ret (-1) u
    | Some bs => Ret (Z.of_nat (ff_next u))
        (FlatFs (ff_files u) (fun fd => if fd =? Z.of_nat (ff_next u) then Some bs else ff_pend u fd) (ff_out u) (S (ff_next u)))
    end;
  sys_read fd n u :=
    match ff_pend u fd with
    | None => Ret (-1, []) u
    | Some bs =>
        let k := Nat.min 5 (Nat.min (Z.to_nat n) (length bs)) in
        Ret (Z.of_nat k, take k bs)
          (FlatFs (ff_files u) (fun d => if d =? fd then Some (drop k bs) else ff_pend u d) (ff_out u) (ff_next u))
    end;
  sys_write fd bs u :=
    Ret (Z.of_nat (length bs)) (FlatFs (ff_files u) (ff_pend u) (if fd =? 1 then ff_out u ++ bs else ff_out u) (ff_next u));
  sys_close fd u := Ret 0 (FlatFs (ff_files u) (fun d => if d =? fd then None else ff_pend u d) (ff_out u) (ff_next u));
  sys_fstat fd u := Ret (-1, Ustat 0 0 0) u;
  sys_unlink _ u := Ret (-1) u;
  sys_mkdir _ u := Ret (-1) u;
  sys_link _ _ u := Ret (-1) u;
  sys_kill _ u := Ret (-1) u;
}.

#[global] Instance flat_fs_laws : SysLaws flat_fs.
Proof.
  refine {| us_pend := ff_pend; us_out := ff_out; us_file := ff_files |}.
  - intros u a bs Hf. cbn. rewrite Hf. do 2 eexists. split; [reflexivity|]. split; [lia|]. cbn. by rewrite Z.eqb_refl.
  - intros u fd bs Hp. cbn [sys_read flat_fs_sys]. rewrite Hp. do 2 eexists. split; [reflexivity|]. cbn [ff_pend ff_out ff_files].
    rewrite Z.eqb_refl. split; [lia|]. split; [|done]. intros Hne. destruct bs; [done|]. cbn [length]. lia.
  - intros u bs. by eexists.
  - intros u fd _. by eexists.
Defined.

(** A file of eleven bytes, in which a word crosses the first buffer. *)
Definition notes : flat_fs :=
  FlatFs (fun a => if decide (a = text_of "notes") then Some (text_of "xv6 notes" ++ [10; 49]) else None) (fun _ => None) [] 3.

Lemma wc_counts_witness : exists u', wc_main 20 [text_of "notes"] notes = Ret true u' /\ ff_out u' = line "1 3 11 notes".
Proof.
  destruct (wc_counts 20 [text_of "notes"] [text_of "xv6 notes" ++ [10; 49]] notes) as (u' & E & O).
  - done.
  - constructor; [|constructor]. vm_compute. split; [reflexivity|]. split; [lia|reflexivity].
  - exists u'. split; [exact E|]. refine (eq_trans O _). vm_compute. reflexivity.
Defined.

Lemma cat_copies_witness : exists u', cat_files 20 [text_of "notes"; text_of "notes"] notes = Ret true u' /\
  ff_out u' = text_of "xv6 notes" ++ [10; 49] ++ text_of "xv6 notes" ++ [10; 49].
Proof.
  destruct (cat_copies 20 [text_of "notes"; text_of "notes"]
    [text_of "xv6 notes" ++ [10; 49]; text_of "xv6 notes" ++ [10; 49]] notes) as (u' & E & O).
  - do 2 (constructor; [vm_compute; split; [reflexivity|lia]|]). constructor.
  - exists u'. split; [exact E|]. refine (eq_trans O _). vm_compute. reflexivity.
Defined.

Lemma fmtname_last_witness : fmtname (text_of "/usr/ls") = text_of "ls            ".
Proof. apply (fmtname_last (text_of "/usr") (text_of "ls")); [by apply (bool_decide_eq_false_1 (47 ∈ text_of "ls"))|vm_compute; congruence]. Defined.
