(* ===== verification/Mkfs.v ===== *)
(** mkfs.c: the program that builds the file system image.

    The image file is a sequence of sectors; [assert] and [exit(1)] are the
    outcome [Panic].  The host is little-endian.  The arguments are the names
    and contents of the files to copy.  MkfsCorrect shows that the kernel's
    file system (Fs) reads these files back from the image. *)

From S2P Require Import Prelude Bio CString Fs FsBlocks.

Definition NINODES : Z := 200.
Definition FSSIZE : Z := 5000.

Definition nbitmap : Z := FSSIZE / (BSIZE * 8) + 1.
Definition ninodeblocks : Z := NINODES / IPB + 1.
Definition nlog : Z := LOGSIZE.
Definition nmeta : Z := 2 + nlog + ninodeblocks + nbitmap.
Definition nblocks : Z := FSSIZE - nmeta.

(** [nsect] is the length of the image file in sectors. *)
Record mk := Mk { image : Z -> block; nsect : Z; freeinode : Z; freeblock : Z; msb : superblock }.

Definition zeroes : block := replicate (Z.to_nat BSIZE) 0.

Definition set_image (d : Z -> block) (n : Z) (s : mk) : mk := Mk d n (freeinode s) (freeblock s) (msb s).
Definition set_freeinode (v : Z) (s : mk) : mk := Mk (image s) (nsect s) v (freeblock s) (msb s).
Definition set_freeblock (v : Z) (s : mk) : mk := Mk (image s) (nsect s) (freeinode s) v (msb s).
Definition set_msb (v : superblock) (s : mk) : mk := Mk (image s) (nsect s) (freeinode s) (freeblock s) v.

(** The bytes stored at the address of [y], read as an integer of the host. *)
Definition xshort (x : Z) : Z := get16 (half_bytes x) 0.
Definition xint (x : Z) : Z := get32 (word_bytes x) 0.

(** The sector the file offset [sec * BSIZE], an unsigned int, falls on. *)
Definition seek (sec : Z) : Z := u32 (sec * BSIZE) / BSIZE.

Definition wsect (sec : Z) (buf : block) : kern mk unit :=
  modify (fun s => set_image (upd (image s) (seek sec) buf) (Z.max (nsect s) (seek sec + 1)) s).

Definition rsect (sec : Z) : kern mk block := fun s =>
  if seek sec <? nsect s then Ret (image s (seek sec)) s else Panic "read".

Definition winode (inum : Z) (ip : dinode) : kern mk unit :=
  sp ← gets msb;
  let bn := IBLOCK inum sp in
  buf ← rsect bn;
  wsect bn (put_dinode buf (ioff inum) ip).

Definition rinode (inum : Z) : kern mk dinode :=
  sp ← gets msb;
  let bn := IBLOCK inum sp in
  buf ← rsect bn;
  mret (get_dinode buf (ioff inum)).

Definition ialloc (type : Z) : kern mk Z :=
  inum ← gets freeinode;
  modify (set_freeinode (u32 (inum + 1))) ;;
  winode inum (Dinode (i16 (xshort type)) 0 0 (i16 (xshort 1)) (xint 0) (replicate 13 0)) ;;
  mret inum.

(** [for(i = 0; i < used; i++) buf[i/8] |= 0x1 << (i%8)], from [i]. *)
Fixpoint mark_used (n : nat) (i : Z) (buf : block) : block :=
  match n with
  | O => buf
  | S n => mark_used n (i + 1) (upd_byte buf (i / 8) (fun x => Z.lor x (Z.shiftl 1 (i mod 8))))
  end.

Definition balloc (used : Z) : kern mk unit :=
  assert_panic (used <? BSIZE * 8) "used < BSIZE*8" ;;
  sp ← gets msb;
  wsect (sb_bmapstart sp) (mark_used (Z.to_nat used) 0 zeroes).

(** [freeblock++]. *)
Definition next_block : kern mk Z :=
  b ← gets freeblock;
  modify (set_freeblock (u32 (b + 1))) ;;
  mret b.

(** The inode and the disk block for block [fbn] of the file. *)
Definition file_block (din : dinode) (fbn : Z) : kern mk (dinode * Z) :=
  if fbn <? NDIRECT then
    let k := Z.to_nat fbn in
    din ← (if xint (nth k (d_addrs din) 0) =? 0 then
             b ← next_block; mret (set_addr k (xint b) din)
           else mret din);
    mret (din, xint (nth k (d_addrs din) 0))
  else
    let k := Z.to_nat NDIRECT in
    let o := Z.to_nat (4 * (fbn - NDIRECT)) in
    din ← (if xint (nth k (d_addrs din) 0) =? 0 then
             b ← next_block; mret (set_addr k (xint b) din)
           else mret din);
    indirect ← rsect (xint (nth k (d_addrs din) 0));
    indirect ← (if get32 indirect o =? 0 then
                  b ← next_block;
                  let indirect := put32 indirect o (xint b) in
                  wsect (xint (nth k (d_addrs din) 0)) indirect ;;
                  mret indirect
                else mret indirect);
    mret (din, xint (get32 indirect o)).

(** The loop of [iappend]: the inode and the offset at the end.  [fuel] bounds the
    iterations: one for each block touched and one to leave the loop. *)
Fixpoint iappend_loop (fuel : nat) (din : dinode) (off n : Z) (p : list Z) : kern mk (dinode * Z) :=
  match fuel with
  | O => fun _ => Fuel
  | S fuel =>
      if 0 <? n then
        let fbn := off / BSIZE in
        assert_panic (fbn <? MAXFILE) "fbn < MAXFILE" ;;
        r ← file_block din fbn;
        let din := fst r in
        let x := snd r in
        let n1 := Z.min n ((fbn + 1) * BSIZE - off) in
        buf ← rsect x;
        wsect x (put_at buf (Z.to_nat (off - fbn * BSIZE)) (take (Z.to_nat n1) p)) ;;
        iappend_loop fuel din (off + n1) (n - n1) (drop (Z.to_nat n1) p)
      else mret (din, off)
  end.

Definition iappend (inum : Z) (xp : list Z) (n : Z) : kern mk unit :=
  din ← rinode inum;
  r ← iappend_loop (S (io_fuel n)) din (xint (d_size din)) n xp;
  winode inum (set_size (xint (snd r)) (fst r)).

(** [while((cc = read(fd, buf, sizeof(buf))) > 0) iappend(inum, buf, cc)]. *)
Fixpoint copy_file (fuel : nat) (inum : Z) (data : list Z) : kern mk unit :=
  match fuel with
  | O => fun _ => Fuel
  | S fuel =>
      let buf := take (Z.to_nat BSIZE) data in
      let cc := Z.of_nat (length buf) in
      if 0 <? cc then iappend inum buf cc ;; copy_file fuel inum (drop (Z.to_nat BSIZE) data)
      else mret tt
  end.

(** A directory entry. *)
Definition entry (inum : Z) (name : list Z) : list Z := dirent_bytes (Dirent (xshort inum) name).

(** [strcpy] into a zeroed name. *)
Definition dot_name (n : list Z) : list Z := n ++ replicate (Z.to_nat DIRSIZ - length n) 0.

Definition strip (name : list Z) : list Z := if deref name =? 95 then tail name else name.

(** The loop over the arguments; a file that cannot be opened has no contents. *)
Fixpoint add_files (rootino : Z) (files : list (list Z * option (list Z))) : kern mk unit :=
  match files with
  | [] => mret tt
  | (argv, contents) :: files =>
      assert_panic (negb (bool_decide (47 ∈ argv))) "index(argv[i], '/') == 0" ;;
      match contents with
      | None => panic "open"
      | Some data =>
          let argv := strip argv in
          inum ← ialloc T_FILE;
          iappend rootino (entry inum (strncpy argv (Z.to_nat DIRSIZ))) 16 ;;
          copy_file (S (length data)) inum data ;;
          add_files rootino files
      end
  end.

(** [for(i = 0; i < FSSIZE; i++) wsect(i, zeroes)], from [i]. *)
Fixpoint zero_image (n : nat) (i : Z) : kern mk unit :=
  match n with
  | O => mret tt
  | S n => wsect i zeroes ;; zero_image n (i + 1)
  end.

Definition superblock_bytes (sp : superblock) : list Z :=
  word_bytes (sb_size sp) ++ word_bytes (sb_nblocks sp) ++ word_bytes (sb_ninodes sp) ++ word_bytes (sb_nlog sp) ++
  word_bytes (sb_logstart sp) ++ word_bytes (sb_inodestart sp) ++ word_bytes (sb_bmapstart sp).

Definition new_sb : superblock :=
  Superblock (xint FSSIZE) (xint nblocks) (xint NINODES) (xint nlog) (xint 2) (xint (2 + nlog)) (xint (2 + nlog + ninodeblocks)).

(** [main] once the image file is open. *)
Definition main (files : list (list Z * option (list Z))) : kern mk unit :=
  modify (set_msb new_sb) ;;
  modify (set_freeblock nmeta) ;;
  zero_image (Z.to_nat FSSIZE) 0 ;;
  wsect 1 (put_at zeroes 0 (superblock_bytes new_sb)) ;;
  rootino ← ialloc T_DIR;
  assert_panic (rootino =? ROOTINO) "rootino == ROOTINO" ;;
  iappend rootino (entry rootino (dot_name [46])) 16 ;;
  iappend rootino (entry rootino (dot_name [46; 46])) 16 ;;
  add_files rootino files ;;
  din ← rinode rootino;
  let off := xint (d_size din) in
  let off := u32 ((off / BSIZE + 1) * BSIZE) in
  winode rootino (set_size (xint off) din) ;;
  b ← gets freeblock;
  balloc (i32 b).

(** The image file just opened, and the globals. *)
Definition start : mk := Mk (fun _ => zeroes) 0 1 0 (Superblock 0 0 0 0 0 0 0).
