(* ===== verification/MkfsCorrect.v ===== *)
(** The image mkfs builds is a file system: every file can be read back from it
    with the kernel's [readi].

    While mkfs runs, [region] describes the data blocks: which blocks each file
    has, what they hold, and that they are disjoint. *)

From S2P Require Import Prelude Bio CString Fs FsBlocks FsFiles FsIO FsInode FsWrite FsDir Mkfs.

Lemma new_sb_eq : new_sb = Superblock 5000 4940 200 30 2 32 58.
Proof. by vm_compute. Qed.

Lemma new_layout : layout new_sb FSSIZE.
Proof. rewrite new_sb_eq. by split. Qed.

Lemma new_datastart : datastart new_sb = nmeta.
Proof. by vm_compute. Qed.

Lemma xint_id x : is_u32 x -> xint x = x.
Proof. intros H. unfold xint. rewrite get32_word. by apply u32_id. Qed.

Lemma seek_id sec : 0 <= sec < FSSIZE -> seek sec = sec.
Proof.
  intros H. unfold seek, FSSIZE in *. rewrite u32_id by (unfold is_u32, BSIZE; lia). by rewrite Z.div_mul.
Qed.

(** ** Runs *)

(** A state after the image has been zeroed. *)
Definition st (d : Z -> block) (fi fb : Z) : mk := Mk d FSSIZE fi fb new_sb.

Lemma bind_rsect {B} sec (k : block -> kern mk B) d fi fb :
  0 <= sec < FSSIZE -> (rsect sec ≫= k) (st d fi fb) = k (d sec) (st d fi fb).
Proof.
  intros H. unfold rsect, mbind, kern_bind. rewrite seek_id by done. cbn [nsect st image]. by rewrite (proj2 (Z.ltb_lt _ _)) by lia.
Qed.

Lemma run_wsect sec v d fi fb : 0 <= sec < FSSIZE -> wsect sec v (st d fi fb) = Ret tt (st (upd d sec v) fi fb).
Proof.
  intros H. unfold wsect, modify, st, set_image. rewrite seek_id by done. cbn [image nsect freeinode freeblock msb].
  by rewrite Z.max_l by lia.
Qed.

Lemma bind_wsect {B} sec v (k : unit -> kern mk B) d fi fb :
  0 <= sec < FSSIZE -> (wsect sec v ≫= k) (st d fi fb) = k tt (st (upd d sec v) fi fb).
Proof. intros H. by rewrite (bind_Ret _ _ _ _ _ (run_wsect sec v d fi fb H)). Qed.

Lemma bind_next {B} (k : Z -> kern mk B) d fi fb :
  0 <= fb < FSSIZE -> (next_block ≫= k) (st d fi fb) = k fb (st d fi (fb + 1)).
Proof.
  intros H. unfold next_block. rewrite bind_bind, bind_gets, bind_bind, bind_modify. cbn.
  unfold set_freeblock. cbn. rewrite u32_id; [done|]. unfold is_u32, FSSIZE in *. lia.
Qed.

Lemma bind_assert_true {B} (b : bool) m (k : unit -> kern mk B) s : b = true -> (assert_panic b m ≫= k) s = k tt s.
Proof. by intros ->. Qed.

(** ** Files and their blocks *)

(** A file: its inode, how many blocks it has, whether it has an indirect block,
    and its data. *)
Record finfo := Fi { f_di : dinode; f_nb : Z; f_ind : bool; f_data : list Z }.

(** Block [k] of a file; -1 is the indirect block. *)
Definition slot (d : Z -> block) (di : dinode) (k : Z) : Z := if k <? 0 then indirect di else fblock d di k.

Record file_in (d : Z -> block) (f : finfo) : Prop := {
  fi_addrs : length (d_addrs (f_di f)) = 13%nat;
  fi_nb : 0 <= f_nb f <= MAXFILE;
  fi_blk k : 0 <= k < MAXFILE -> fblock d (f_di f) k <> 0 <-> k < f_nb f;
  fi_ind : indirect (f_di f) <> 0 <-> f_ind f = true;
  fi_len : Z.of_nat (length (f_data f)) <= f_nb f * BSIZE;
  fi_byte x : 0 <= x < f_nb f * BSIZE -> fbyte d (f_di f) x = nth (Z.to_nat x) (f_data f) 0;
}.

(** The blocks of a file. *)
Definition cost (f : finfo) : Z := f_nb f + if f_ind f then 1 else 0.
Fixpoint total_cost (fl : list finfo) : Z :=
  match fl with [] => 0 | f :: fl => cost f + total_cost fl end.

Record region (d : Z -> block) (fb : Z) (fl : list finfo) : Prop := {
  rg_blocks : blocks_ok d;
  rg_fb : nmeta <= fb <= FSSIZE;
  rg_file i f : fl !! i = Some f -> file_in d f;
  rg_range i f k : fl !! i = Some f -> -1 <= k < MAXFILE -> slot d (f_di f) k <> 0 -> nmeta <= slot d (f_di f) k < fb;
  rg_inj i j f g k l : fl !! i = Some f -> fl !! j = Some g -> -1 <= k < MAXFILE -> -1 <= l < MAXFILE ->
    slot d (f_di f) k <> 0 -> slot d (f_di f) k = slot d (f_di g) l -> i = j /\ k = l;
  rg_free b : fb <= b < FSSIZE -> d b = zeroes;
  rg_count : fb = nmeta + total_cost fl;
}.

Lemma total_insert fl i f f' : fl !! i = Some f ->
  total_cost (<[i := f']> fl) = total_cost fl + (cost f' - cost f).
Proof.
  revert i. induction fl as [|g fl IH]; intros [|i] H; [done|done|injection H as ->; cbn; lia|].
  change (<[S i := f']> (g :: fl)) with (g :: <[i := f']> fl). cbn [total_cost]. rewrite (IH i H). lia.
Qed.

Lemma slot_blk d di k : 0 <= k -> slot d di k = fblock d di k.
Proof. intros H. unfold slot. by rewrite (proj2 (Z.ltb_ge _ _)). Qed.

Lemma slot_ind d di : slot d di (-1) = indirect di.
Proof. done. Qed.

(** A file does not see changes outside its blocks. *)
Lemma slot_same d d' di k :
  (indirect di <> 0 -> d' (indirect di) = d (indirect di)) -> slot d' di k = slot d di k.
Proof.
  intros H. unfold slot, fblock. destruct (k <? 0); [done|]. destruct (k <? NDIRECT); [done|].
  destruct (Z.eqb_spec (indirect di) 0); [done|]. by rewrite H.
Qed.

Lemma fblock_same d d' di k :
  (indirect di <> 0 -> d' (indirect di) = d (indirect di)) -> fblock d' di k = fblock d di k.
Proof.
  intros H. unfold fblock. destruct (k <? NDIRECT); [done|]. destruct (Z.eqb_spec (indirect di) 0); [done|]. by rewrite H.
Qed.

Lemma file_same d d' f :
  file_in d f ->
  (forall k, -1 <= k < MAXFILE -> slot d (f_di f) k <> 0 -> d' (slot d (f_di f) k) = d (slot d (f_di f) k)) ->
  file_in d' f.
Proof.
  intros [H1 H2 H3 H4 H5 H6] Hs.
  assert (Hi : indirect (f_di f) <> 0 -> d' (indirect (f_di f)) = d (indirect (f_di f))).
  { intros Hn. apply (Hs (-1)); [unfold MAXFILE; vm_compute; split; done|done]. }
  split; [done|done| |done|done|].
  - intros k Hk. rewrite (fblock_same d d') by done. by apply H3.
  - intros x Hx. rewrite <- H6 by done. unfold fbyte. rewrite (fblock_same d d') by done. f_equal.
    assert (Hk : 0 <= x / BSIZE < f_nb f).
    { split; [apply Z.div_pos; [lia|reflexivity]|apply Z.div_lt_upper_bound; [reflexivity|lia]]. }
    assert (Hm : 0 <= x / BSIZE < MAXFILE) by lia.
    rewrite <- (slot_blk d) by lia. apply Hs; [lia|]. rewrite slot_blk by lia. apply H3; lia.
Qed.

(** Changing file [i]: only its own and fresh blocks change. *)
Lemma region_replace d fb fl i f d' fb' f' :
  region d fb fl -> fl !! i = Some f -> blocks_ok d' -> fb <= fb' <= FSSIZE -> file_in d' f' ->
  (forall b, nmeta <= b < fb -> (forall k, -1 <= k < MAXFILE -> slot d (f_di f) k <> b) -> d' b = d b) ->
  (forall k, -1 <= k < MAXFILE -> slot d' (f_di f') k <> 0 ->
     slot d' (f_di f') k = slot d (f_di f) k \/ fb <= slot d' (f_di f') k < fb') ->
  (forall k l, -1 <= k < MAXFILE -> -1 <= l < MAXFILE -> slot d' (f_di f') k <> 0 ->
     slot d' (f_di f') k = slot d' (f_di f') l -> k = l) ->
  (forall b, fb' <= b < FSSIZE -> d' b = zeroes) ->
  fb' - fb = cost f' - cost f ->
  region d' fb' (<[i := f']> fl).
Proof.
  intros [R1 R2 R3 R4 R5 R6 R7] Hi Hb Hfb Hf Hown Hslot Hinj Hfree Hcost.
  assert (Hoth : forall j g k, fl !! j = Some g -> j <> i -> -1 <= k < MAXFILE -> slot d (f_di g) k <> 0 ->
     d' (slot d (f_di g) k) = d (slot d (f_di g) k)).
  { intros j g k Hj Hne Hk Hnz. apply Hown; [by eapply R4|]. intros l Hl E. destruct (R5 j i g f k l); congruence. }
  assert (Hs : forall j g k, fl !! j = Some g -> j <> i -> slot d' (f_di g) k = slot d (f_di g) k).
  { intros j g k Hj Hne. apply slot_same. intros Hn. apply (Hoth j g (-1)); [done|done|by vm_compute|done]. }
  assert (Hlen : (i < length fl)%nat) by (by eapply lookup_lt_Some).
  assert (Hsplit : forall j g, <[i := f']> fl !! j = Some g -> (j = i /\ g = f') \/ (j <> i /\ fl !! j = Some g)).
  { intros j g. destruct (decide (j = i)) as [->|Hne]; [rewrite list_lookup_insert_eq by done; intros [= <-]; by left|].
    rewrite list_lookup_insert_ne by done. by right. }
  split; [done|lia| | | |done|].
  - intros j g [[-> ->]|[Hne Hj]]%Hsplit; [done|]. eapply file_same; [by eapply R3|]. intros k Hk. by apply (Hoth j).
  - intros j g k [[-> ->]|[Hne Hj]]%Hsplit Hk.
    + intros Hnz. destruct (Hslot k Hk Hnz) as [E|?]; [|lia]. rewrite E in *. destruct (R4 i f k Hi Hk Hnz). lia.
    + rewrite (Hs j g k) by done. intros Hnz. destruct (R4 j g k Hj Hk Hnz). lia.
  - assert (Hx : forall j g k l, j <> i -> fl !! j = Some g -> -1 <= k < MAXFILE -> -1 <= l < MAXFILE ->
      slot d (f_di g) k <> 0 -> slot d (f_di g) k = slot d' (f_di f') l -> False).
    { intros j g k l Hne Hj Hk Hl Hnz E. destruct (Hslot l Hl) as [E'|Hr]; [congruence| |].
      - rewrite E' in E. destruct (R5 j i g f k l); congruence.
      - destruct (R4 j g k Hj Hk Hnz). lia. }
    intros j j' g g' k l [[-> ->]|[Hne Hj]]%Hsplit [[-> ->]|[Hne' Hj']]%Hsplit Hk Hl.
    + intros Hnz E. split; [done|]. by eapply Hinj.
    + rewrite (Hs j' g' l) by done. intros Hnz E. exfalso. apply (Hx j' g' l k); congruence.
    + rewrite (Hs j g k) by done. intros Hnz E. exfalso. by apply (Hx j g k l).
    + rewrite (Hs j g k), (Hs j' g' l) by done. by apply R5.
  - rewrite (total_insert fl i f) by done. lia.
Qed.

(** The next data block of a file. *)
Lemma grow_plug d fb fl i f k d' di' :
  region d fb fl -> fl !! i = Some f -> k = f_nb f -> k < MAXFILE -> fb < FSSIZE ->
  plugged d (f_di f) k fb d' di' -> blocks_ok d' ->
  (forall b, indirect (f_di f) = 0 \/ b <> indirect (f_di f) -> d' b = d b) ->
  region d' (fb + 1) (<[i := Fi di' (k + 1) (f_ind f) (f_data f)]> fl).
Proof.
  intros R Hi Hk Hmax Hfb [P1 P2 P3 P4 P5] Hb Hd. pose proof R as [R1 R2 R3 R4 R5 R6 R7].
  destruct (R3 i f Hi) as [F1 F2 F3 F4 F5 F6]. assert (Hfb0 : 0 < nmeta) by reflexivity.
  assert (Hif : indirect (f_di f) <> 0 -> indirect (f_di f) < fb).
  { intros Hn. apply (R4 i f (-1) Hi); [by vm_compute|done]. }
  assert (Hsl : forall j, -1 <= j < MAXFILE -> slot d' di' j = if decide (j = k) then fb else slot d (f_di f) j).
  { intros j Hj. unfold slot. destruct (Z.ltb_spec j 0); [by rewrite decide_False by lia|].
    destruct (decide (j = k)) as [->|]; [done|]. apply P4; [lia|done]. }
  assert (Hlt : forall j, -1 <= j < MAXFILE -> slot d (f_di f) j <> fb).
  { intros j Hj E. destruct (R4 i f j Hi Hj); lia. }
  assert (Hnew : d' fb = zeroes).
  { rewrite Hd; [apply R6; lia|]. destruct (decide (indirect (f_di f) = 0)); [by left|right; lia]. }
  apply (region_replace d fb fl i f); [done|done|done|lia| | | | | |unfold cost; cbn [f_nb f_ind]; destruct (f_ind f); lia].
  - split; cbn [f_di f_nb f_ind f_data]; [by rewrite P2|lia| |by rewrite P5|unfold BSIZE in *; lia|].
    + intros j Hj. destruct (decide (j = k)) as [->|Hne]; [rewrite P3; lia|]. rewrite P4, F3 by done. lia.
    + intros x Hx. assert (Hq : 0 <= x / BSIZE < k + 1).
      { split; [apply Z.div_pos; [lia|reflexivity]|apply Z.div_lt_upper_bound; [reflexivity|lia]]. }
      unfold fbyte. destruct (decide (x / BSIZE = k)) as [E|Hne].
      * rewrite E, P3, Hnew.
        rewrite (nth_overflow (f_data f)).
        -- unfold zeroes. rewrite nth_lookup. destruct (replicate _ _ !! _) eqn:El; [|done]. by apply lookup_replicate in El as [-> _].
        -- pose proof (Z.mul_div_le x BSIZE ltac:(reflexivity)). lia.
      * rewrite P4 by lia. rewrite Hd.
        -- apply F6. pose proof (Z.div_mod x BSIZE ltac:(done)). pose proof (Z.mod_pos_bound x BSIZE ltac:(reflexivity)).
           unfold BSIZE in *. lia.
        -- destruct (decide (indirect (f_di f) = 0)) as [|Hn]; [by left|]. right. intros E.
           destruct (R5 i i f f (x / BSIZE) (-1) Hi Hi) as [_ ?]; [lia|by vm_compute| | |lia].
           ++ rewrite slot_blk by lia. apply F3; lia.
           ++ rewrite slot_blk by lia. done.
  - intros b Hbr Hno. apply Hd. right. intros ->. by apply (Hno (-1)); [vm_compute|].
  - intros j Hj. cbn [f_di]. rewrite (Hsl j Hj). destruct (decide (j = k)); [right; lia|by left].
  - intros j l Hj Hl. cbn [f_di]. rewrite (Hsl j Hj), (Hsl l Hl). destruct (decide (j = k)) as [->|], (decide (l = k)) as [->|]; [done| | |].
    + intros _ E. symmetry in E. by apply Hlt in E.
    + intros _ E. by apply Hlt in E.
    + intros Hnz E. by destruct (R5 i i f f j l Hi Hi).
  - intros b Hbr. rewrite Hd; [apply R6; lia|]. destruct (decide (indirect (f_di f) = 0)); [by left|right; lia].
Qed.

(** The indirect block of a file. *)
Lemma grow_indirect d fb fl i f :
  region d fb fl -> fl !! i = Some f -> f_ind f = false -> fb < FSSIZE ->
  region d (fb + 1) (<[i := Fi (set_addr 12 fb (f_di f)) (f_nb f) true (f_data f)]> fl) /\
  indirect (set_addr 12 fb (f_di f)) = fb.
Proof.
  intros R Hi Hf Hfb. pose proof R as [R1 R2 R3 R4 R5 R6 R7]. destruct (R3 i f Hi) as [F1 F2 F3 F4 F5 F6].
  assert (Hfb0 : 0 < nmeta) by reflexivity.
  assert (Hi0 : indirect (f_di f) = 0).
  { destruct (decide (indirect (f_di f) = 0)) as [|Hn]; [done|]. apply F4 in Hn. congruence. }
  assert (Hin : indirect (set_addr 12 fb (f_di f)) = fb) by (unfold indirect; by rewrite set_addr_nth by lia).
  assert (Hfbk : forall k, 0 <= k < MAXFILE -> fblock d (set_addr 12 fb (f_di f)) k = fblock d (f_di f) k).
  { intros k Hk. unfold fblock. rewrite Hi0, Hin. change (0 =? 0) with true. destruct (Z.ltb_spec k NDIRECT) as [Hlt|Hge].
    - unfold NDIRECT in Hlt. rewrite set_addr_nth by lia. by rewrite decide_False by lia.
    - rewrite (proj2 (Z.eqb_neq fb 0)) by lia. rewrite R6 by lia. apply get32_zero. }
  assert (Hsl : forall j, -1 <= j < MAXFILE -> slot d (set_addr 12 fb (f_di f)) j = if decide (j = -1) then fb else slot d (f_di f) j).
  { intros j Hj. unfold slot. destruct (Z.ltb_spec j 0); [by rewrite decide_True by lia|]. rewrite decide_False by lia. apply Hfbk. lia. }
  assert (Hlt : forall j, -1 <= j < MAXFILE -> slot d (f_di f) j <> fb).
  { intros j Hj E. destruct (R4 i f j Hi Hj); lia. }
  split; [|done].
  apply (region_replace d fb fl i f); [done|done|done|lia| |done| | | |unfold cost; cbn [f_nb f_ind]; rewrite Hf; lia].
  - split; cbn [f_di f_nb f_ind f_data]; [cbn; by rewrite length_insert|done| |rewrite Hin; split; [done|lia]|done|].
    + intros k Hk. rewrite Hfbk by done. by apply F3.
    + intros x Hx. rewrite <- F6 by done. unfold fbyte. rewrite Hfbk; [done|]. apply div_block. unfold BSIZE in *. nia.
  - intros j Hj. cbn [f_di]. rewrite (Hsl j Hj). destruct (decide (j = -1)); [right; lia|by left].
  - intros j l Hj Hl. cbn [f_di]. rewrite (Hsl j Hj), (Hsl l Hl). destruct (decide (j = -1)) as [->|], (decide (l = -1)) as [->|]; [done| | |].
    + intros _ E. symmetry in E. by apply Hlt in E.
    + intros _ E. by apply Hlt in E.
    + intros Hnz E. by destruct (R5 i i f f j l Hi Hi).
  - intros b Hbr. apply R6. lia.
Qed.

(** Writing one block of a file. *)
Lemma write_block d fb fl i f k v data :
  region d fb fl -> fl !! i = Some f -> 0 <= k < f_nb f -> length v = Z.to_nat BSIZE ->
  Z.of_nat (length data) <= f_nb f * BSIZE ->
  (forall o, 0 <= o < BSIZE -> nth (Z.to_nat o) v 0 = nth (Z.to_nat (k * BSIZE + o)) data 0) ->
  (forall x, 0 <= x < f_nb f * BSIZE -> x / BSIZE <> k -> nth (Z.to_nat x) data 0 = nth (Z.to_nat x) (f_data f) 0) ->
  region (upd d (fblock d (f_di f) k) v) fb (<[i := Fi (f_di f) (f_nb f) (f_ind f) data]> fl).
Proof.
  intros R Hi Hk Hv Hlen Hin Hout. pose proof R as [R1 R2 R3 R4 R5 R6 R7]. destruct (R3 i f Hi) as [F1 F2 F3 F4 F5 F6].
  set (x := fblock d (f_di f) k). assert (Hx : x <> 0) by (apply F3; lia).
  assert (Hxs : slot d (f_di f) k = x) by (apply slot_blk; lia).
  assert (Hxr : nmeta <= x < fb) by (rewrite <- Hxs; apply (R4 i); [done|lia|by rewrite Hxs]).
  assert (Hne : forall j, -1 <= j < MAXFILE -> j <> k -> slot d (f_di f) j <> x).
  { intros j Hj Hjk E. rewrite <- Hxs in E. destruct (R5 i i f f j k Hi Hi Hj ltac:(lia)) as [_ ?]; [by rewrite E, Hxs|done|done]. }
  assert (Hs : forall j, slot (upd d x v) (f_di f) j = slot d (f_di f) j).
  { intros j. apply slot_same. intros Hn. apply upd_ne. apply (Hne (-1)); [by vm_compute|lia]. }
  assert (Hb : forall j, 0 <= j -> fblock (upd d x v) (f_di f) j = fblock d (f_di f) j).
  { intros j Hj. rewrite <- !slot_blk by done. apply Hs. }
  apply (region_replace d fb fl i f); [done|done|by apply blocks_upd|lia| | | | | |unfold cost; cbn; lia].
  - split; cbn [f_di f_nb f_ind f_data]; [done|done| |done|done|].
    + intros j Hj. rewrite Hb by lia. by apply F3.
    + intros y Hy. assert (Hq : 0 <= y / BSIZE < f_nb f).
      { split; [apply Z.div_pos; [lia|reflexivity]|apply Z.div_lt_upper_bound; [reflexivity|lia]]. }
      unfold fbyte. rewrite Hb by lia. pose proof (Z.mod_pos_bound y BSIZE ltac:(reflexivity)).
      pose proof (Z.div_mod y BSIZE ltac:(done)). destruct (decide (y / BSIZE = k)) as [E|Hyk].
      * rewrite E. fold x. rewrite upd_eq, Hin by done. f_equal. f_equal. lia.
      * rewrite Hout, <- F6 by done. unfold fbyte. rewrite upd_ne; [done|]. rewrite <- slot_blk by lia. by apply Hne; [lia|].
  - intros b Hbr Hno. apply upd_ne. intros ->. apply (Hno k); [lia|done].
  - intros j Hj. cbn [f_di]. rewrite Hs. by left.
  - intros j l Hj Hl. cbn [f_di]. rewrite !Hs. intros Hnz E. by destruct (R5 i i f f j l Hi Hi).
  - intros b Hbr. rewrite upd_ne by lia. by apply R6.
Qed.

(** ** Getting a block *)

Definition has_ind (n : Z) : bool := NDIRECT <? n.

(** What is below the data blocks does not change. *)
Definition same_low (d d' : Z -> block) : Prop := forall b, b < nmeta -> d' b = d b.

Lemma insert_twice {A} (l : list A) i x y : <[i := x]> (<[i := y]> l) = <[i := x]> l.
Proof. apply list_insert_insert_eq. Qed.

Lemma addr_small d fb fl i f k : region d fb fl -> fl !! i = Some f -> -1 <= k < MAXFILE -> 0 <= slot d (f_di f) k < FSSIZE.
Proof.
  intros R Hi Hk. destruct (decide (slot d (f_di f) k = 0)) as [->|Hn]; [done|]. destruct (rg_range _ _ _ R i f k Hi Hk Hn).
  destruct (rg_fb _ _ _ R). assert (0 < nmeta) by reflexivity. lia.
Qed.

Lemma small_xint x : 0 <= x < FSSIZE -> xint x = x.
Proof. intros H. apply xint_id. unfold is_u32, FSSIZE in *. lia. Qed.

Lemma nth_slot d di k : 0 <= k < NDIRECT -> nth (Z.to_nat k) (d_addrs di) 0 = slot d di k.
Proof. intros H. rewrite slot_blk by lia. unfold fblock. by rewrite (proj2 (Z.ltb_lt _ _)) by lia. Qed.

Lemma file_block_direct d fi fb fl i f k :
  region d fb fl -> fl !! i = Some f -> f_ind f = has_ind (f_nb f) -> 0 <= k <= f_nb f -> k < NDIRECT ->
  (k = f_nb f -> fb < FSSIZE) ->
  exists fb' di', file_block (f_di f) k (st d fi fb) = Ret (di', fblock d di' k) (st d fi fb') /\
    region d fb' (<[i := Fi di' (Z.max (f_nb f) (k + 1)) (has_ind (Z.max (f_nb f) (k + 1))) (f_data f)]> fl) /\
    same_meta (f_di f) di'.
Proof.
  intros R Hi Hind Hk Hk12 Hfb. destruct (rg_file _ _ _ R i f Hi) as [F1 F2 F3 F4 F5 F6].
  assert (Hm : MAXFILE = 140) by reflexivity. unfold file_block. rewrite (proj2 (Z.ltb_lt _ _)) by done.
  assert (E : xint (nth (Z.to_nat k) (d_addrs (f_di f)) 0) = fblock d (f_di f) k).
  { rewrite (nth_slot d) by lia. rewrite <- slot_blk by lia. apply small_xint. eapply addr_small; [done|done|unfold NDIRECT in *; lia]. }
  rewrite E. assert (Hblk : fblock d (f_di f) k <> 0 <-> k < f_nb f) by (apply F3; unfold NDIRECT in *; lia).
  destruct (Z.eqb_spec (fblock d (f_di f) k) 0) as [Hz|Hnz].
  - assert (k = f_nb f) as Ek by (destruct (decide (k < f_nb f)) as [H|]; [by apply Hblk in H|lia]).
    destruct (rg_fb _ _ _ R) as [Hfb0 _]. assert (0 < nmeta) by reflexivity. specialize (Hfb Ek).
    rewrite bind_bind, bind_next by lia. rewrite bind_mret. rewrite small_xint by lia.
    assert (Hp : plugged d (f_di f) k fb d (set_addr (Z.to_nat k) fb (f_di f))) by (apply plug_direct; [done|lia|done]).
    exists (fb + 1), (set_addr (Z.to_nat k) fb (f_di f)). rewrite (pl_new _ _ _ _ _ _ Hp). split; [|split; [|done]].
    + rewrite set_addr_nth by (unfold NDIRECT in *; lia). by rewrite decide_True, small_xint by (done || lia).
    + rewrite Z.max_r by lia. replace (has_ind (k + 1)) with (f_ind f).
      * apply (grow_plug d fb fl i f k); try done; [unfold NDIRECT in *; lia|apply R].
      * rewrite Hind. unfold has_ind, NDIRECT in *. destruct (Z.ltb_spec 12 (f_nb f)), (Z.ltb_spec 12 (k + 1)); done || lia.
  - apply Hblk in Hnz. exists fb, (f_di f). rewrite bind_mret. split; [by rewrite E|]. split; [|done]. rewrite Z.max_l by lia.
    rewrite <- Hind, list_insert_id; [done|]. by destruct f.
Qed.

(** The indirect block, made if it is not there. *)
Lemma ensure_indirect d fi fb fl i f :
  region d fb fl -> fl !! i = Some f -> (f_ind f = false -> fb < FSSIZE) ->
  exists fb' di', (if xint (nth (Z.to_nat NDIRECT) (d_addrs (f_di f)) 0) =? 0 then
       b ← next_block; mret (set_addr (Z.to_nat NDIRECT) (xint b) (f_di f)) else mret (f_di f)) (st d fi fb) =
      Ret di' (st d fi fb') /\
    fb' = fb + (if f_ind f then 0 else 1) /\ indirect di' <> 0 /\ same_meta (f_di f) di' /\
    region d fb' (<[i := Fi di' (f_nb f) true (f_data f)]> fl).
Proof.
  intros R Hi Hfb. destruct (rg_file _ _ _ R i f Hi) as [F1 F2 F3 F4 F5 F6].
  change (nth (Z.to_nat NDIRECT) (d_addrs (f_di f)) 0) with (slot d (f_di f) (-1)).
  rewrite small_xint by (eapply addr_small; [done|done|by vm_compute]). rewrite slot_ind.
  destruct (Z.eqb_spec (indirect (f_di f)) 0) as [Hz|Hnz].
  - assert (f_ind f = false) as Ef by (destruct (f_ind f); [destruct (proj2 F4); done|done]). specialize (Hfb Ef).
    destruct (rg_fb _ _ _ R) as [Hfb0 _]. assert (0 < nmeta) by reflexivity.
    destruct (grow_indirect d fb fl i f R Hi Ef Hfb) as [R' E'].
    exists (fb + 1), (set_addr 12 fb (f_di f)). rewrite bind_next by lia. rewrite small_xint by lia.
    rewrite Ef. split; [done|]. split; [done|]. split; [by rewrite E'; lia|]. done.
  - apply F4 in Hnz as Ef. exists fb, (f_di f). rewrite Ef. split; [done|]. split; [lia|]. split; [done|]. split; [done|].
    rewrite list_insert_id; [done|]. rewrite Hi. destruct f; cbn in *. by subst.
Qed.

Lemma get_slot d di k : NDIRECT <= k -> indirect di <> 0 ->
  get32 (d (indirect di)) (Z.to_nat (4 * (k - NDIRECT))) = fblock d di k.
Proof. intros Hk Hi. unfold fblock. by rewrite (proj2 (Z.ltb_ge _ _)), (proj2 (Z.eqb_neq _ _) Hi) by done. Qed.

Lemma file_block_indirect d fi fb fl i f k :
  region d fb fl -> fl !! i = Some f -> f_ind f = has_ind (f_nb f) -> NDIRECT <= k <= f_nb f -> k < MAXFILE ->
  (k = f_nb f -> fb + (if f_ind f then 0 else 1) < FSSIZE) ->
  exists d' fb' di', file_block (f_di f) k (st d fi fb) = Ret (di', fblock d' di' k) (st d' fi fb') /\
    region d' fb' (<[i := Fi di' (Z.max (f_nb f) (k + 1)) (has_ind (Z.max (f_nb f) (k + 1))) (f_data f)]> fl) /\
    same_meta (f_di f) di' /\ same_low d d'.
Proof.
  intros R Hi Hind Hk Hmax Hfb. assert (Hm : MAXFILE = 140) by reflexivity. assert (HN : NDIRECT = 12) by reflexivity.
  unfold file_block. rewrite (proj2 (Z.ltb_ge _ _)) by lia. cbv zeta.
  assert (Hif : f_ind f = false -> k = f_nb f).
  { rewrite Hind. unfold has_ind. intros ?%Z.ltb_ge. lia. }
  destruct (ensure_indirect d fi fb fl i f) as (fb1 & di1 & E1 & Efb & Hnz & Hsm & R1); [done|done| |].
  { intros Ef. specialize (Hfb (Hif Ef)). rewrite Ef in Hfb. lia. }
  rewrite (bind_Ret _ _ _ _ _ E1). set (f1 := Fi di1 (f_nb f) true (f_data f)) in *. set (fl1 := <[i := f1]> fl) in *.
  assert (Hi1 : fl1 !! i = Some f1) by (apply list_lookup_insert_eq; by eapply lookup_lt_Some).
  pose proof (rg_file _ _ _ R1 i f1 Hi1) as [F1 F2 F3 F4 F5 F6]. cbn [f_di f_nb f_data f_ind f1] in F1, F2, F3, F4, F5, F6.
  change (nth (Z.to_nat NDIRECT) (d_addrs di1) 0) with (indirect di1).
  assert (Hir : nmeta <= indirect di1 < fb1) by (apply (rg_range _ _ _ R1 i f1 (-1) Hi1); [lia|done]).
  destruct (rg_fb _ _ _ R1) as [Hlo Hhi]. assert (Hnm : nmeta = 60) by reflexivity.
  rewrite (small_xint (indirect di1)) by lia. rewrite bind_rsect by lia. rewrite get_slot by (done || lia).
  assert (Hbk : fblock d di1 k <> 0 <-> k < f_nb f) by (apply F3; unfold NDIRECT in *; lia).
  assert (Hh : has_ind (Z.max (f_nb f) (k + 1)) = true) by (unfold has_ind; apply Z.ltb_lt; lia).
  rewrite Hh. destruct (Z.eqb_spec (fblock d di1 k) 0) as [Hz|Hz].
  - assert (Ek : k = f_nb f) by (destruct (decide (k < f_nb f)) as [H|]; [by apply Hbk in H|lia]).
    specialize (Hfb Ek). rewrite bind_bind, bind_next by lia. rewrite (small_xint fb1) by lia.
    rewrite bind_bind, bind_wsect by lia. rewrite bind_mret. set (d' := upd d (indirect di1) _).
    assert (Hp : plugged d di1 k fb1 d' di1).
    { apply plug_indirect; [lia|done|unfold is_u32; unfold FSSIZE in *; lia|apply R1]. }
    exists d', (fb1 + 1), di1. assert (Hpn := pl_new _ _ _ _ _ _ Hp). split; [|split; [|split; [done|]]].
    + assert (Eg : get32 (put32 (d (indirect di1)) (Z.to_nat (4 * (k - NDIRECT))) fb1) (Z.to_nat (4 * (k - NDIRECT))) = fb1).
      { rewrite <- Hpn at 2. rewrite <- get_slot by (done || lia). unfold d'. by rewrite upd_eq. }
      rewrite Eg, Hpn, small_xint by lia. done.
    + rewrite Z.max_r by lia. replace (<[i := Fi di1 (k + 1) true (f_data f)]> fl) with (<[i := Fi di1 (k + 1) true (f_data f)]> fl1)
        by apply insert_twice.
      apply (grow_plug d fb1 fl1 i f1 k); try done; [lia| |].
      * apply blocks_upd; [apply R1|]. unfold put32. rewrite length_put_at; [apply R1|]. rewrite (rg_blocks _ _ _ R1).
        cbn [length word_bytes]. unfold BSIZE, NDIRECT in *. lia.
      * intros b [E|E]; [by destruct Hnz|]. by apply upd_ne.
    + intros b Hb. apply upd_ne. lia.
  - rewrite bind_mret. exists d, fb1, di1. apply Hbk in Hz. rewrite get_slot by (done || lia). rewrite <- slot_blk by lia.
    rewrite small_xint by (apply (addr_small d fb1 fl1 i f1); [done|done|lia]). split; [done|]. rewrite Z.max_l by lia. done.
Qed.

(** ** Appending *)

(** Data blocks of a file of [n] bytes, and all its blocks. *)
Definition nblk (n : Z) : Z := (n + (BSIZE - 1)) / BSIZE.
Definition costn (n : Z) : Z := n + if has_ind n then 1 else 0.

(** Between two appends a file has exactly the blocks its data needs. *)
Definition tidy (f : finfo) : Prop := f_nb f = nblk (Z.of_nat (length (f_data f))) /\ f_ind f = has_ind (f_nb f).

Lemma tidy_cost f : tidy f -> cost f = costn (f_nb f).
Proof. intros [_ E]. unfold cost, costn. by rewrite E. Qed.

Lemma costn_mono a b : 0 <= a <= b -> costn a <= costn b.
Proof. intros H. unfold costn, has_ind. destruct (Z.ltb_spec NDIRECT a), (Z.ltb_spec NDIRECT b); lia. Qed.

Lemma nblk_mono a b : a <= b -> nblk a <= nblk b.
Proof. intros H. unfold nblk. apply Z.div_le_mono; [reflexivity|lia]. Qed.

(** One step of the loop within a block. *)
Lemma nblk_step off m : 0 <= off -> 0 < m <= BSIZE - off mod BSIZE ->
  nblk (off + m) = off / BSIZE + 1 /\ off / BSIZE <= nblk off <= off / BSIZE + 1.
Proof.
  intros Ho Hm. unfold nblk. pose proof (Z.mod_pos_bound off BSIZE ltac:(reflexivity)). pose proof (Z.div_mod off BSIZE ltac:(done)).
  split; [symmetry; apply (Z.div_unique _ _ _ (off mod BSIZE + m - 1)); unfold BSIZE in *; lia|].
  split; [apply Z.div_le_mono; [reflexivity|unfold BSIZE; lia]|].
  assert ((off + (BSIZE - 1)) / BSIZE < off / BSIZE + 2); [|lia]. apply Z.div_lt_upper_bound; [reflexivity|unfold BSIZE in *; lia].
Qed.

Lemma file_block_spec d fi fb fl i f k :
  region d fb fl -> fl !! i = Some f -> f_ind f = has_ind (f_nb f) -> 0 <= k <= f_nb f -> k < MAXFILE ->
  fb + (costn (Z.max (f_nb f) (k + 1)) - costn (f_nb f)) <= FSSIZE ->
  exists d' fb' di', file_block (f_di f) k (st d fi fb) = Ret (di', fblock d' di' k) (st d' fi fb') /\
    region d' fb' (<[i := Fi di' (Z.max (f_nb f) (k + 1)) (has_ind (Z.max (f_nb f) (k + 1))) (f_data f)]> fl) /\
    same_meta (f_di f) di' /\ same_low d d'.
Proof.
  intros R Hi Hind Hk Hmax Hfb. assert (HN : NDIRECT = 12) by reflexivity.
  assert (Hc : k = f_nb f -> fb + (if f_ind f then 0 else if NDIRECT <=? k then 1 else 0) < FSSIZE).
  { intros E. rewrite Z.max_r in Hfb by lia. rewrite Hind. rewrite <- E in *. unfold costn, has_ind in *.
    destruct (Z.ltb_spec NDIRECT k), (Z.ltb_spec NDIRECT (k + 1)), (Z.leb_spec NDIRECT k); lia. }
  destruct (Z.lt_ge_cases k NDIRECT) as [Hd|Hd].
  - destruct (file_block_direct d fi fb fl i f k R Hi Hind Hk Hd) as (fb' & di' & E & R' & S').
    { intros Ek. specialize (Hc Ek). rewrite (proj2 (Z.leb_gt _ _) Hd) in Hc. destruct (f_ind f); lia. }
    exists d, fb', di'. by split_and!.
  - apply file_block_indirect; try done; try lia. intros Ek. specialize (Hc Ek). rewrite (proj2 (Z.leb_le _ _) Hd) in Hc.
    destruct (f_ind f); lia.
Qed.

(** The block with the new bytes. *)
Lemma put_block d fb fl i f k o bs :
  region d fb fl -> fl !! i = Some f -> Z.of_nat (length (f_data f)) = k * BSIZE + o -> 0 <= o -> 0 <= k < f_nb f ->
  o + Z.of_nat (length bs) <= BSIZE -> f_nb f = k + 1 ->
  region (upd d (fblock d (f_di f) k) (put_at (d (fblock d (f_di f) k)) (Z.to_nat o) bs)) fb
    (<[i := Fi (f_di f) (f_nb f) (f_ind f) (f_data f ++ bs)]> fl).
Proof.
  intros R Hi Hlen Ho Hk Hbs Hnb. pose proof (rg_file _ _ _ R i f Hi) as [F1 F2 F3 F4 F5 F6].
  set (x := fblock d (f_di f) k). assert (Hl : length (d x) = 512%nat) by apply R. assert (HB : BSIZE = 512) by reflexivity.
  apply write_block; [done|done|done| | | |].
  - rewrite length_put_at; [by apply R|]. lia.
  - rewrite length_app. lia.
  - intros p Hp. destruct (decide (o <= p < o + Z.of_nat (length bs))) as [Hin|Hout].
    + rewrite put_at_in by lia. rewrite app_nth2 by lia. f_equal. lia.
    + rewrite put_at_out by lia. assert (Eb : nth (Z.to_nat p) (d x) 0 = fbyte d (f_di f) (k * BSIZE + p)).
      { unfold fbyte. rewrite (Z.div_add_l k BSIZE p), (Z.div_small p), Z.add_0_r by lia. fold x. f_equal.
        rewrite Z.add_comm, Z.mod_add, Z.mod_small by lia. done. }
      rewrite Eb, F6 by lia. destruct (Z.lt_ge_cases p o).
      * by rewrite app_nth1 by lia.
      * rewrite (nth_overflow (f_data f)) by lia. rewrite nth_overflow; [done|]. rewrite length_app. lia.
  - intros y Hy Hne. destruct (Z.lt_ge_cases y (k * BSIZE)) as [Hlt|Hge]; [by rewrite app_nth1 by lia|].
    exfalso. apply Hne. symmetry. apply (Z.div_unique _ _ _ (y - k * BSIZE)); lia.
Qed.

(** File [i] of [fl] has got the bytes [p]; its inode is [di]. *)
Definition appended (fl : list finfo) (i : nat) (f : finfo) (di : dinode) (p : list Z) : list finfo :=
  let n := nblk (Z.of_nat (length (f_data f ++ p))) in <[i := Fi di n (has_ind n) (f_data f ++ p)]> fl.

(** The blocks the bytes [p] add to file [f]. *)
Definition grows (f : finfo) (p : list Z) : Z := costn (nblk (Z.of_nat (length (f_data f ++ p)))) - costn (f_nb f).

Lemma appended_lookup fl i f di p g : fl !! i = Some g ->
  appended fl i f di p !! i = Some (Fi di (nblk (Z.of_nat (length (f_data f ++ p)))) (has_ind (nblk (Z.of_nat (length (f_data f ++ p)))))
    (f_data f ++ p)).
Proof. intros H. apply list_lookup_insert_eq. by eapply lookup_lt_Some. Qed.

Lemma appended_twice fl i f di p di' q :
  appended (appended fl i f di p) i (Fi di (nblk (Z.of_nat (length (f_data f ++ p))))
    (has_ind (nblk (Z.of_nat (length (f_data f ++ p))))) (f_data f ++ p)) di' q = appended fl i f di' (p ++ q).
Proof. unfold appended. cbn [f_data]. by rewrite insert_twice, app_assoc. Qed.

(** One iteration, for bytes [bs] that fit in the last block. *)
Lemma append_step {B} d fi fb fl i f bs (K : dinode -> kern mk B) :
  let off := Z.of_nat (length (f_data f)) in
  region d fb fl -> fl !! i = Some f -> tidy f -> bs <> [] -> Z.of_nat (length bs) <= BSIZE - off mod BSIZE ->
  off < MAXFILE * BSIZE -> fb + grows f bs <= FSSIZE ->
  exists d' di', (r ← file_block (f_di f) (off / BSIZE);
      buf ← rsect (snd r);
      wsect (snd r) (put_at buf (Z.to_nat (off - off / BSIZE * BSIZE)) bs) ;; K (fst r)) (st d fi fb) =
        K di' (st d' fi (fb + grows f bs)) /\
    region d' (fb + grows f bs) (appended fl i f di' bs) /\ same_meta (f_di f) di' /\ same_low d d'.
Proof.
  intros off R Hi [Hnb Hind] Hne Hbs Hmax Hcap. assert (HB : BSIZE = 512) by reflexivity.
  pose proof (Z.mod_pos_bound off BSIZE ltac:(reflexivity)) as Hmod. assert (Hn1 : 0 < Z.of_nat (length bs)) by (destruct bs; [done|cbn; lia]).
  set (fbn := off / BSIZE) in *. pose proof (Z.div_mod off BSIZE ltac:(done)) as Hdm. fold fbn in Hdm.
  assert (Hfbn : 0 <= fbn < MAXFILE) by (split; [apply Z.div_pos; [lia|reflexivity]|apply Z.div_lt_upper_bound; [reflexivity|lia]]).
  destruct (nblk_step off (Z.of_nat (length bs)) ltac:(lia) ltac:(lia)) as [Hk1 Hk2]. fold fbn in Hk1, Hk2.
  assert (Hmaxnb : Z.max (f_nb f) (fbn + 1) = fbn + 1) by (rewrite Hnb; fold off; lia).
  assert (Hlen : Z.of_nat (length (f_data f ++ bs)) = off + Z.of_nat (length bs)) by (rewrite length_app; lia).
  unfold grows in *. rewrite Hlen, Hk1 in *.
  destruct (file_block_spec d fi fb fl i f fbn R Hi Hind) as (d1 & fb1 & di1 & E1 & R1 & S1 & L1); [rewrite Hnb; fold off; lia|lia|by rewrite Hmaxnb|].
  rewrite (bind_Ret _ _ _ _ _ E1). cbn [fst snd]. rewrite Hmaxnb in R1.
  set (f1 := Fi di1 (fbn + 1) (has_ind (fbn + 1)) (f_data f)) in *. set (fl1 := <[i := f1]> fl) in *.
  assert (Hi1 : fl1 !! i = Some f1) by (apply list_lookup_insert_eq; by eapply lookup_lt_Some).
  assert (Efb : fb1 = fb + (costn (fbn + 1) - costn (f_nb f))).
  { rewrite (rg_count _ _ _ R1). unfold fl1. rewrite (total_insert fl i f) by done. rewrite (tidy_cost f) by done.
    rewrite (rg_count _ _ _ R). change (cost f1) with (costn (fbn + 1)). lia. }
  assert (Hx : nmeta <= fblock d1 di1 fbn < FSSIZE).
  { rewrite <- slot_blk by lia. destruct (rg_fb _ _ _ R1). destruct (rg_range _ _ _ R1 i f1 fbn Hi1); [lia| |cbn in *; lia].
    rewrite slot_blk by lia. apply (fi_blk _ _ (rg_file _ _ _ R1 i f1 Hi1)); [lia|cbn; lia]. }
  assert (Hnm : nmeta = 60) by reflexivity. rewrite bind_rsect, bind_wsect by lia.
  pose proof (put_block d1 fb1 fl1 i f1 fbn (off mod BSIZE) bs R1 Hi1) as R2. cbn [f_data f_nb f_di f_ind f1] in R2.
  fold off in R2. specialize (R2 ltac:(lia) ltac:(lia) ltac:(lia) ltac:(lia) eq_refl).
  replace (off - fbn * BSIZE) with (off mod BSIZE) by lia. eexists _, di1. rewrite <- Efb. split; [reflexivity|]. split.
  - unfold appended. rewrite Hlen, Hk1. unfold fl1 in R2. by rewrite insert_twice in R2.
  - split; [done|]. intros b Hb. rewrite upd_ne by lia. by apply L1.
Qed.

Lemma iappend_loop_S fuel din off n p :
  iappend_loop (S fuel) din off n p =
    if 0 <? n then
      let fbn := off / BSIZE in
      assert_panic (fbn <? MAXFILE) "fbn < MAXFILE" ;;
      r ← file_block din fbn;
      let din := fst r in
      let x := snd r in
      let n1 := Z.min n ((fbn + 1) * BSIZE - off) in
      buf ← rsect x;
      wsect x (put_at buf (Z.to_nat (off - fbn * BSIZE)) (take (Z.to_nat n1) p)) ;;
      iappend_loop fuel din (off + n1) (n - n1) (drop (Z.to_nat n1) p)
    else mret (din, off).
Proof. done. Qed.

Lemma iappend_loop_spec fuel : forall d fi fb fl i f p,
  region d fb fl -> fl !! i = Some f -> tidy f ->
  Z.of_nat (length (f_data f)) + Z.of_nat (length p) <= MAXFILE * BSIZE -> fb + grows f p <= FSSIZE ->
  (p <> [] -> Z.of_nat (length (f_data f)) mod BSIZE + Z.of_nat (length p) <= BSIZE * Z.of_nat fuel) ->
  exists d' di', iappend_loop (S fuel) (f_di f) (Z.of_nat (length (f_data f))) (Z.of_nat (length p)) p (st d fi fb) =
      Ret (di', Z.of_nat (length (f_data f ++ p))) (st d' fi (fb + grows f p)) /\
    region d' (fb + grows f p) (appended fl i f di' p) /\ same_meta (f_di f) di' /\ same_low d d'.
Proof.
  assert (HB : BSIZE = 512) by reflexivity.
  induction fuel as [|fuel IH]; intros d fi fb fl i f p R Hi Ht Hmax Hcap Hfuel; destruct (decide (p = [])) as [->|Hp].
  2: { exfalso. specialize (Hfuel Hp). destruct p; [done|]. cbn in *.
       pose proof (Z.mod_pos_bound (Z.of_nat (length (f_data f))) BSIZE ltac:(reflexivity)). lia. }
  1, 2: exists d, (f_di f); unfold appended, grows; rewrite app_nil_r; destruct Ht as [Hnb Hind];
     rewrite <- Hnb, Z.sub_diag, Z.add_0_r; split; [done|]; split; [|done];
     rewrite <- Hind, list_insert_id; [done|by destruct f].
  specialize (Hfuel Hp). set (off := Z.of_nat (length (f_data f))) in *. rewrite iappend_loop_S. set (n := Z.of_nat (length p)) in *. cbv zeta.
  pose proof (Z.mod_pos_bound off BSIZE ltac:(reflexivity)) as Hmod.
  assert (Hn : 0 < n) by (destruct p; [done|]; unfold n; cbn; lia). rewrite (proj2 (Z.ltb_lt 0 n) Hn).
  pose proof (Z.div_mod off BSIZE ltac:(done)) as Hdm.
  rewrite bind_assert_true by (apply Z.ltb_lt, Z.div_lt_upper_bound; [reflexivity|lia]).
  replace ((off / BSIZE + 1) * BSIZE - off) with (BSIZE - off mod BSIZE) by lia. set (n1 := Z.min n (BSIZE - off mod BSIZE)).
  set (bs := take (Z.to_nat n1) p). assert (Hbs : Z.of_nat (length bs) = n1) by (unfold bs; rewrite length_take; lia).
  assert (Hsplit : bs ++ drop (Z.to_nat n1) p = p) by apply take_drop.
  assert (Hg : grows f bs <= grows f p).
  { unfold grows. rewrite <- Hsplit, app_assoc, (length_app (f_data f ++ bs)). apply Z.sub_le_mono_r, costn_mono.
    split; [apply Z.div_pos; [lia|reflexivity]|apply nblk_mono; lia]. }
  destruct (append_step d fi fb fl i f bs
    (fun din => iappend_loop (S fuel) din (off + n1) (n - n1) (drop (Z.to_nat n1) p)) R Hi Ht) as (d1 & di1 & E1 & R1 & S1 & L1).
  { intros E. rewrite E in Hbs. cbn in Hbs. lia. }
  { fold off. lia. }
  { fold off. lia. }
  { lia. }
  fold off in E1. rewrite E1. clear E1.
  set (f1 := Fi di1 (nblk (Z.of_nat (length (f_data f ++ bs)))) (has_ind (nblk (Z.of_nat (length (f_data f ++ bs))))) (f_data f ++ bs)).
  assert (Hlen : Z.of_nat (length (f_data f1)) = off + n1) by (cbn; rewrite length_app; lia).
  assert (Hgg : grows f bs + grows f1 (drop (Z.to_nat n1) p) = grows f p).
  { unfold grows. cbn [f_data f_nb f1]. rewrite <- app_assoc, Hsplit. lia. }
  destruct (IH d1 fi (fb + grows f bs) (appended fl i f di1 bs) i f1 (drop (Z.to_nat n1) p)) as (d2 & di2 & E2 & R2 & S2 & L2).
  - done.
  - by eapply appended_lookup.
  - by split.
  - rewrite Hlen, length_drop. lia.
  - lia.
  - intros Hd. rewrite Hlen, length_drop. assert (n1 < n).
    { destruct (Z.lt_ge_cases n1 n); [done|]. exfalso. apply Hd. apply drop_ge. lia. }
    assert (n1 = BSIZE - off mod BSIZE) as E by lia. assert ((off + n1) mod BSIZE = 0) as ->; [|lia].
    rewrite E. symmetry. apply (Z.mod_unique _ _ (off / BSIZE + 1)); lia.
  - exists d2, di2. rewrite Hlen, <- Z.add_assoc, Hgg in E2. rewrite <- Z.add_assoc, Hgg in R2. unfold f1 in R2. rewrite appended_twice, Hsplit in R2.
    replace (Z.of_nat (length (drop (Z.to_nat n1) p))) with (n - n1) in E2 by (rewrite length_drop; lia).
    cbn [f_di f_data f1] in E2. rewrite E2, <- app_assoc, Hsplit. split; [done|]. split; [done|].
    split; [by eapply same_meta_trans|]. intros b Hb. rewrite L2 by done. by apply L1.
Qed.

(** ** Inodes on the image *)

Lemma inode_block inum : 0 <= inum < NINODES -> 32 <= IBLOCK inum new_sb < 58.
Proof.
  intros H. destruct (IBLOCK_range new_sb FSSIZE inum new_layout) as [E H2]; [by rewrite new_sb_eq|]. rewrite E. rewrite new_sb_eq in *.
  cbn [sb_inodestart sb_bmapstart] in *. assert (0 <= inum / IPB) by (apply Z.div_pos; [lia|reflexivity]). lia.
Qed.

Lemma winode_run d fi fb inum di : blocks_ok d -> dinode_ok di -> 0 <= inum < NINODES ->
  exists d', winode inum di (st d fi fb) = Ret tt (st d' fi fb) /\ inode_stored new_sb d inum di d'.
Proof.
  intros Hb Hd Hn. pose proof (inode_block inum Hn). unfold winode. rewrite bind_gets. cbn [msb st]. rewrite bind_rsect by (unfold FSSIZE; lia).
  rewrite run_wsect by (unfold FSSIZE; lia). eexists. split; [reflexivity|].
  eapply put_inode_stored; [exact new_layout|done|done|]. by rewrite new_sb_eq.
Qed.

Lemma rinode_run d fi fb inum : 0 <= inum < NINODES -> rinode inum (st d fi fb) = Ret (dinode_at new_sb d inum) (st d fi fb).
Proof.
  intros Hn. pose proof (inode_block inum Hn). unfold rinode. rewrite bind_gets. cbn [msb st]. by rewrite bind_rsect by (unfold FSSIZE; lia).
Qed.

(** ** What has been built *)

(** Types and contents of the files so far; file [i] is inode [i + 1]. *)
Abbreviation view := (list (Z * list Z)).

Definition flen (x : Z * list Z) : Z := Z.of_nat (length (snd x)).

(** The blocks in use. *)
Fixpoint data_cost (av : view) : Z := match av with [] => 0 | x :: av => costn (nblk (flen x)) + data_cost av end.
Definition need (av : view) : Z := nmeta + data_cost av.

Definition view_of (f : finfo) : Z * list Z := (d_type (f_di f), f_data f).

Record built_as (d : Z -> block) (av : view) (fl : list finfo) : Prop := {
  bl_region : region d (need av) fl;
  bl_view : view_of <$> fl = av;
  bl_tidy : Forall tidy fl;
  bl_ino i f : fl !! i = Some f -> dinode_at new_sb d (Z.of_nat i + 1) = f_di f;
  bl_ok i f : fl !! i = Some f -> dinode_ok (f_di f) /\ d_nlink (f_di f) = 1 /\ d_size (f_di f) = Z.of_nat (length (f_data f));
  bl_count : Z.of_nat (length fl) < NINODES;
  bl_super : d 1 = put_at zeroes 0 (superblock_bytes new_sb);
  bl_bmap : d 59 = zeroes;
}.

(** The state of the program. *)
Definition stv (d : Z -> block) (av : view) : mk := st d (Z.of_nat (length av) + 1) (need av).

Lemma data_cost_app av x : data_cost (av ++ [x]) = data_cost av + costn (nblk (flen x)).
Proof. induction av as [|y av IH]; cbn [data_cost app]; [lia|]. rewrite IH. lia. Qed.

Lemma data_cost_insert av i x y : av !! i = Some x ->
  data_cost (<[i := y]> av) = data_cost av + (costn (nblk (flen y)) - costn (nblk (flen x))).
Proof.
  revert i. induction av as [|z av IH]; intros [|i] H; [done|done|injection H as ->; cbn [data_cost insert list_insert]; lia|].
  change (<[S i := y]> (z :: av)) with (z :: <[i := y]> av). cbn [data_cost]. rewrite (IH i H). lia.
Qed.

(** A region does not see the blocks below it. *)
Lemma region_low d d' fb fl : region d fb fl -> blocks_ok d' -> (forall b, nmeta <= b -> d' b = d b) -> region d' fb fl.
Proof.
  intros [R1 R2 R3 R4 R5 R6 R7] Hb Hd. assert (0 < nmeta) by reflexivity.
  assert (Hs : forall i f k, fl !! i = Some f -> slot d' (f_di f) k = slot d (f_di f) k).
  { intros i f k Hi. apply slot_same. intros Hn. apply Hd. destruct (R4 i f (-1) Hi); [by vm_compute|done|done]. }
  split; [done|done| | | | |done].
  - intros i f Hi. eapply file_same; [by eapply R3|]. intros k Hk Hn. apply Hd. by destruct (R4 i f k Hi Hk Hn).
  - intros i f k Hi. rewrite (Hs i f k Hi). by apply (R4 i).
  - intros i j f g k l Hi Hj. rewrite (Hs i f k Hi), (Hs j g l Hj). by apply (R5 i j).
  - intros b Hbr. rewrite Hd by lia. by apply R6.
Qed.

Lemma region_addrs d fb fl i f : region d fb fl -> fl !! i = Some f -> Forall is_u32 (d_addrs (f_di f)).
Proof.
  intros R Hi. destruct (rg_file _ _ _ R i f Hi) as [F1 _ _ _ _ _]. apply Forall_lookup. intros k x Hk.
  pose proof (lookup_lt_Some _ _ _ Hk) as Hlt. assert (Ex : nth k (d_addrs (f_di f)) 0 = x) by (by rewrite nth_lookup, Hk).
  assert (Hr : 0 <= x < FSSIZE); [|unfold is_u32, FSSIZE in *; lia]. rewrite <- Ex.
  destruct (decide (k = 12%nat)) as [->|Hne]; [exact (addr_small d fb fl i f (-1) R Hi ltac:(by vm_compute))|].
  rewrite <- (Nat2Z.id k). rewrite (nth_slot d) by (unfold NDIRECT; lia). apply (addr_small d fb fl i f _ R Hi).
  change MAXFILE with 140. lia.
Qed.

Lemma region_size d fb fl i f v : region d fb fl -> fl !! i = Some f ->
  region d fb (<[i := Fi (set_size v (f_di f)) (f_nb f) (f_ind f) (f_data f)]> fl).
Proof.
  intros R Hi. pose proof R as [R1 R2 R3 R4 R5 R6 R7]. apply (region_replace d fb fl i f); [done|done|done|lia| |done| | |done|unfold cost; cbn; lia].
  - destruct (R3 i f Hi). by split.
  - intros k Hk Hn. by left.
  - intros k l Hk Hl Hn E. by destruct (R5 i i f f k l Hi Hi Hk Hl Hn E).
Qed.

Lemma low_inode d d' i : same_low d d' -> 0 <= i < NINODES -> dinode_at new_sb d' i = dinode_at new_sb d i.
Proof. intros H Hi. unfold dinode_at. rewrite H; [done|]. pose proof (inode_block i Hi). change nmeta with 60. lia. Qed.

Lemma need_insert av i x y : av !! i = Some x -> need (<[i := y]> av) = need av + (costn (nblk (flen y)) - costn (nblk (flen x))).
Proof. intros H. unfold need. rewrite (data_cost_insert _ _ _ _ H). lia. Qed.

(** Storing the inode of file [i] finishes a change of the file. *)
Lemma store_inode d av fl d1 av' i f f' :
  built_as d av fl -> fl !! i = Some f -> same_low d d1 -> region d1 (need av') (<[i := f']> fl) -> tidy f' ->
  av' = <[i := view_of f']> av -> dinode_ok (f_di f') -> d_nlink (f_di f') = 1 -> d_size (f_di f') = Z.of_nat (length (f_data f')) ->
  forall fi fb, exists d', winode (Z.of_nat i + 1) (f_di f') (st d1 fi fb) = Ret tt (st d' fi fb) /\ built_as d' av' (<[i := f']> fl).
Proof.
  intros [B1 B2 B3 B4 B5 B6 B7 B8] Hi Hlow Hreg Htidy -> Hok Hnl Hsz fi fb. pose proof (lookup_lt_Some _ _ _ Hi) as Hlt.
  destruct (winode_run d1 fi fb (Z.of_nat i + 1) (f_di f')) as (d' & E & [S1 S2 S3 S4]); [apply Hreg|done|lia|].
  exists d'. split; [done|]. pose proof (inode_block (Z.of_nat i + 1) ltac:(lia)) as Hib. assert (Hnm : nmeta = 60) by reflexivity.
  split.
  - eapply region_low; [exact Hreg|done|]. intros b Hb. apply S3. lia.
  - by rewrite list_fmap_insert, B2.
  - apply Forall_insert; done.
  - intros j g. destruct (decide (j = i)) as [->|Hne].
    + rewrite list_lookup_insert_eq by done. intros [= <-]. done.
    + rewrite list_lookup_insert_ne by done. intros Hj. pose proof (lookup_lt_Some _ _ _ Hj).
      rewrite S2 by (rewrite ?new_sb_eq; cbn [sb_ninodes]; unfold NINODES in *; lia). rewrite (low_inode d) by (done || lia). by apply B4.
  - intros j g. destruct (decide (j = i)) as [->|Hne].
    + rewrite list_lookup_insert_eq by done. intros [= <-]. done.
    + rewrite list_lookup_insert_ne by done. by apply B5.
  - by rewrite length_insert.
  - rewrite S3 by lia. by rewrite Hlow by lia.
  - rewrite S3 by lia. by rewrite Hlow by lia.
Qed.

Lemma iappend_spec d av fl i ty data p :
  built_as d av fl -> av !! i = Some (ty, data) -> Z.of_nat (length data) + Z.of_nat (length p) <= MAXFILE * BSIZE ->
  need (<[i := (ty, data ++ p)]> av) <= FSSIZE ->
  exists d' fl', iappend (Z.of_nat i + 1) p (Z.of_nat (length p)) (stv d av) = Ret tt (stv d' (<[i := (ty, data ++ p)]> av)) /\
    built_as d' (<[i := (ty, data ++ p)]> av) fl'.
Proof.
  intros B Hav Hmax Hneed. pose proof B as [B1 B2 B3 B4 B5 B6 B7 B8]. rewrite <- B2 in Hav. rewrite list_lookup_fmap in Hav.
  destruct (fl !! i) as [f|] eqn:Hi; [|done]. cbn in Hav. injection Hav as Ety Edata. pose proof (lookup_lt_Some _ _ _ Hi) as Hlt.
  destruct (B5 i f Hi) as (Hok & Hnl & Hsz). rewrite Forall_lookup in B3. pose proof (B3 i f Hi) as Ht.
  unfold iappend, stv. rewrite (bind_Ret _ _ _ _ _ (rinode_run d _ _ (Z.of_nat i + 1) ltac:(lia))), (B4 i f Hi), Hsz. rewrite Edata.
  rewrite xint_id by (change MAXFILE with 140 in Hmax; unfold is_u32, BSIZE in *; lia).
  assert (Eg : need (<[i := (ty, data ++ p)]> av) = need av + grows f p).
  { rewrite (need_insert av i (view_of f)) by (by rewrite <- B2, list_lookup_fmap, Hi). unfold grows, flen, view_of.
    cbn [snd]. destruct Ht as [-> _]. by rewrite Edata. }
  destruct (iappend_loop_spec (io_fuel (Z.of_nat (length p))) d (Z.of_nat (length av) + 1) (need av) fl i f p)
    as (d1 & di1 & E1 & R1 & S1 & L1); [done|done|done|by rewrite Edata|lia| |].
  { intros Hp. pose proof (enough_start (Z.of_nat (length data)) (Z.of_nat (length p)) ltac:(lia)) as He. rewrite Edata. unfold enough in He.
    assert (0 < Z.of_nat (length p)) by (destruct p; [done|cbn; lia]). specialize (He ltac:(done)). lia. }
  rewrite Edata in E1. rewrite (bind_Ret _ _ _ _ _ E1). cbn [fst snd]. set (nb := nblk (Z.of_nat (length (data ++ p)))).
  assert (Hsmall : is_u32 (Z.of_nat (length (data ++ p)))) by (rewrite length_app; change MAXFILE with 140 in Hmax; unfold is_u32, BSIZE in *; lia).
  rewrite xint_id by done.
  set (f' := Fi (set_size (Z.of_nat (length (data ++ p))) di1) nb (has_ind nb) (data ++ p)).
  assert (Hreg : region d1 (need (<[i := (ty, data ++ p)]> av)) (<[i := f']> fl)).
  { rewrite Eg. pose proof (region_size _ _ _ i _ (Z.of_nat (length (data ++ p))) R1 (appended_lookup _ _ _ _ _ _ Hi)) as H.
    cbn [f_di f_nb f_ind f_data] in H. unfold appended in H. rewrite insert_twice, Edata in H. done. }
  destruct S1 as (M1 & M2 & M3 & M4 & _). destruct Hok as [O1 O2 O3 O4 O5 O6 O7].
  assert (Hi' : <[i := f']> fl !! i = Some f') by (by apply list_lookup_insert_eq).
  assert (Hdok : dinode_ok (f_di f')).
  { split; cbn [f_di f' set_size d_type d_major d_minor d_nlink d_size d_addrs]; rewrite ?M1, ?M2, ?M3, ?M4; try done.
    - exact (fi_addrs _ _ (rg_file _ _ _ Hreg i f' Hi')).
    - exact (region_addrs _ _ _ i f' Hreg Hi'). }
  destruct (store_inode d av fl d1 (<[i := (ty, data ++ p)]> av) i f f') with (fi := Z.of_nat (length av) + 1) (fb := need av + grows f p)
    as (d' & E' & B'); try done.
  - unfold view_of. cbn [f_di f' set_size d_type f_data]. by rewrite M1, Ety.
  - cbn. by rewrite M4.
  - exists d', (<[i := f']> fl). split; [|done]. cbn [f_di f'] in E'. rewrite E'. by rewrite length_insert, Eg.
Qed.

(** ** Allocating inodes *)

Definition new_dinode (ty : Z) : dinode := Dinode ty 0 0 1 0 (replicate 13 0).

Lemma new_slot d ty k : slot d (new_dinode ty) k = 0.
Proof.
  unfold slot, fblock, indirect, new_dinode. cbn [d_addrs].
  assert (Hz : forall j, nth j (replicate 13 0) 0 = 0).
  { intros j. rewrite nth_lookup. destruct (replicate 13 0 !! j) eqn:E; [|done]. by apply lookup_replicate in E as [-> _]. }
  rewrite !Hz. by destruct (k <? 0), (k <? NDIRECT).
Qed.

Lemma region_snoc d fb fl ty : region d fb fl -> region d fb (fl ++ [Fi (new_dinode ty) 0 false []]).
Proof.
  intros [R1 R2 R3 R4 R5 R6 R7]. set (f0 := Fi _ _ _ _).
  assert (Hsplit : forall j g, (fl ++ [f0]) !! j = Some g -> fl !! j = Some g \/ g = f0).
  { intros j g Hj. apply lookup_app_Some in Hj as [|[_ Hj]]; [by left|]. right. apply list_lookup_singleton_Some in Hj as [_ <-]. done. }
  assert (Hold : forall j g k, (fl ++ [f0]) !! j = Some g -> slot d (f_di g) k <> 0 -> fl !! j = Some g).
  { intros j g k [|Hg]%Hsplit; [done|]. rewrite Hg. cbn. by rewrite new_slot. }
  split; [done|done| | | |done|].
  - intros j g [?| ->]%Hsplit; [by eapply R3|]. split; cbn [f_di f_nb f_ind f_data f0]; [done|done| | |done|intros x; lia].
    + intros k Hk. rewrite <- slot_blk, new_slot by lia. lia.
    + done.
  - intros j g k Hj Hk Hn. apply (R4 j); [by eapply Hold|done|done].
  - intros i j f g k l Hi Hj Hk Hl Hn E. apply (R5 i j f g); [by eapply Hold|eapply Hold; [done|by rewrite <- E]|done|done|done|done].
  - rewrite R7. clear. f_equal. induction fl as [|g fl IH]; [done|]. cbn [total_cost app]. by rewrite IH.
Qed.

Lemma ialloc_spec d av fl ty : built_as d av fl -> is_i16 ty -> Z.of_nat (length av) + 1 < NINODES ->
  exists d' fl', ialloc ty (stv d av) = Ret (Z.of_nat (length av) + 1) (stv d' (av ++ [(ty, [])])) /\
    built_as d' (av ++ [(ty, [])]) fl'.
Proof.
  intros [B1 B2 B3 B4 B5 B6 B7 B8] Hty Hn. assert (Hlen : length fl = length av) by (by rewrite <- B2, length_fmap).
  unfold ialloc, stv. rewrite bind_gets, bind_modify. cbn [freeinode st].
  replace (i16 (xshort ty)) with ty by (unfold xshort; rewrite get16_half; symmetry; by apply i16_u16).
  change (Dinode ty 0 0 (i16 (xshort 1)) (xint 0) (replicate 13 0)) with (new_dinode ty).
  set (inum := Z.of_nat (length av) + 1) in *. unfold set_freeinode. cbn [image nsect freeblock msb st].
  rewrite u32_id by (unfold is_u32, NINODES in *; lia). change (Mk d FSSIZE (inum + 1) (need av) new_sb) with (st d (inum + 1) (need av)).
  assert (Hok : dinode_ok (new_dinode ty)).
  { split; try done. by apply Forall_replicate. }
  destruct (winode_run d (inum + 1) (need av) inum (new_dinode ty)) as (d' & E & [S1 S2 S3 S4]); [apply B1|done|lia|].
  rewrite (bind_Ret _ _ _ _ _ E). pose proof (inode_block inum ltac:(lia)) as Hib. assert (Hnm : nmeta = 60) by reflexivity.
  assert (Hneed : need (av ++ [(ty, [])]) = need av).
  { unfold need. rewrite data_cost_app. change (costn (nblk (flen (ty, [])))) with 0. lia. }
  exists d', (fl ++ [Fi (new_dinode ty) 0 false []]). rewrite Hneed, length_app. cbn [length]. split; [do 2 f_equal; lia|]. split.
  - rewrite Hneed. apply region_snoc. eapply region_low; [exact B1|done|]. intros b Hb. apply S3. lia.
  - rewrite fmap_app, B2. done.
  - apply Forall_app. split; [done|]. by repeat constructor.
  - intros j g Hj. apply lookup_app_Some in Hj as [Hj|[Hge Hj]].
    + pose proof (lookup_lt_Some _ _ _ Hj). rewrite S2 by (rewrite ?new_sb_eq; cbn [sb_ninodes]; unfold NINODES in *; lia). by apply B4.
    + apply list_lookup_singleton_Some in Hj as [Hz <-]. replace (Z.of_nat j + 1) with inum by (unfold inum; lia). done.
  - intros j g Hj. apply lookup_app_Some in Hj as [Hj|[Hge Hj]]; [by apply (B5 j)|].
    apply list_lookup_singleton_Some in Hj as [Hz <-]. done.
  - rewrite length_app. cbn [length]. lia.
  - by rewrite S3 by lia.
  - by rewrite S3 by lia.
Qed.

(** ** Copying files *)

Lemma copy_file_spec fuel : forall d av fl i ty old data,
  built_as d av fl -> av !! i = Some (ty, old) -> (length data < fuel)%nat ->
  Z.of_nat (length old) + Z.of_nat (length data) <= MAXFILE * BSIZE -> need (<[i := (ty, old ++ data)]> av) <= FSSIZE ->
  exists d' fl', copy_file fuel (Z.of_nat i + 1) data (stv d av) = Ret tt (stv d' (<[i := (ty, old ++ data)]> av)) /\
    built_as d' (<[i := (ty, old ++ data)]> av) fl'.
Proof.
  induction fuel as [|fuel IH]; intros d av fl i ty old data B Hav Hf Hmax Hneed; [lia|].
  cbn [copy_file]. set (buf := take (Z.to_nat BSIZE) data). assert (Hsp : buf ++ drop (Z.to_nat BSIZE) data = data) by apply take_drop.
  destruct (decide (data = [])) as [->|Hne].
  - exists d, fl. rewrite app_nil_r, list_insert_id by done. done.
  - assert (Hbl : (0 < length buf)%nat) by (destruct data; [done|]; unfold buf; change (Z.to_nat BSIZE) with 512%nat; cbn; lia).
    rewrite (proj2 (Z.ltb_lt _ _)) by lia. assert (Hdl : length data = (length buf + length (drop (Z.to_nat BSIZE) data))%nat).
    { rewrite <- length_app, Hsp. done. }
    assert (Hmono : need (<[i := (ty, old ++ buf)]> av) <= need (<[i := (ty, old ++ data)]> av)).
    { rewrite !(need_insert av i _ _ Hav). unfold flen. cbn [snd]. rewrite !length_app.
      enough (costn (nblk (Z.of_nat (length old + length buf))) <= costn (nblk (Z.of_nat (length old + length data)))) by lia.
      apply costn_mono. split; [apply Z.div_pos; [unfold BSIZE; lia|reflexivity]|apply nblk_mono; lia]. }
    destruct (iappend_spec d av fl i ty old buf B Hav) as (d1 & fl1 & E1 & B1); [lia|lia|].
    rewrite (bind_Ret _ _ _ _ _ E1).
    destruct (IH d1 (<[i := (ty, old ++ buf)]> av) fl1 i ty (old ++ buf) (drop (Z.to_nat BSIZE) data)) as (d2 & fl2 & E2 & B2).
    + done.
    + apply list_lookup_insert_eq. by eapply lookup_lt_Some.
    + lia.
    + rewrite length_app. lia.
    + rewrite insert_twice, <- app_assoc, Hsp. done.
    + rewrite insert_twice, <- app_assoc, Hsp in E2, B2. by exists d2, fl2.
Qed.

(** ** The files of the command line *)

(** The root directory's data, and the view when [files] have been added. *)
Definition root_data (av : view) : list Z := match av with x :: _ => snd x | [] => [] end.

Definition add_file (av : view) (name data : list Z) : view :=
  <[0%nat := (T_DIR, root_data av ++ entry (Z.of_nat (length av) + 1) (strncpy (strip name) (Z.to_nat DIRSIZ)))]> av ++ [(T_FILE, data)].

Fixpoint with_files (av : view) (files : list (list Z * list Z)) : view :=
  match files with
  | [] => av
  | (name, data) :: files => with_files (add_file av name data) files
  end.

Lemma length_entry i name : length name = 14%nat -> length (entry i name) = 16%nat.
Proof. intros H. unfold entry, dirent_bytes. cbn. by rewrite H. Qed.

Lemma need_app av x : need av <= need (av ++ [x]).
Proof.
  unfold need. rewrite data_cost_app. enough (0 <= costn (nblk (flen x))) by lia. unfold costn.
  assert (0 <= nblk (flen x)) by (apply Z.div_pos; [unfold flen, BSIZE; lia|reflexivity]). destruct (has_ind _); lia.
Qed.

Lemma need_grow av i ty old more : av !! i = Some (ty, old) -> need av <= need (<[i := (ty, old ++ more)]> av).
Proof.
  intros H. rewrite (need_insert av i _ _ H). unfold flen. cbn [snd]. rewrite length_app.
  enough (costn (nblk (Z.of_nat (length old))) <= costn (nblk (Z.of_nat (length old + length more)))) by lia.
  apply costn_mono. split; [apply Z.div_pos; [unfold BSIZE; lia|reflexivity]|apply nblk_mono; lia].
Qed.

Lemma root_lookup ty rd av : av !! 0%nat = Some (ty, rd) -> root_data av = rd.
Proof. destruct av; [done|]. by intros [= ->]. Qed.

Lemma add_file_root av rd name data : av !! 0%nat = Some (T_DIR, rd) ->
  add_file av name data !! 0%nat =
    Some (T_DIR, rd ++ entry (Z.of_nat (length av) + 1) (strncpy (strip name) (Z.to_nat DIRSIZ))).
Proof. intros H. unfold add_file. rewrite (root_lookup _ _ _ H). destruct av; done. Qed.

Lemma need_files files : forall av rd, av !! 0%nat = Some (T_DIR, rd) -> need av <= need (with_files av files).
Proof.
  induction files as [|[name data] files IH]; intros av rd H; cbn [with_files]; [lia|].
  etransitivity; [|eapply IH; by apply add_file_root]. unfold add_file. rewrite (root_lookup _ _ _ H).
  etransitivity; [by eapply (need_grow av 0)|apply need_app].
Qed.

Lemma length_add_file av name data : length (add_file av name data) = S (length av).
Proof. unfold add_file. rewrite length_app, length_insert. cbn. lia. Qed.

(** Copying one file. *)
Lemma add_file_spec d av fl rd name data :
  built_as d av fl -> av !! 0%nat = Some (T_DIR, rd) -> Z.of_nat (length av) + 1 < NINODES ->
  Z.of_nat (length rd) + 16 <= MAXFILE * BSIZE -> Z.of_nat (length data) <= MAXFILE * BSIZE -> need (add_file av name data) <= FSSIZE ->
  exists d' fl', (inum ← ialloc T_FILE;
      iappend ROOTINO (entry inum (strncpy (strip name) (Z.to_nat DIRSIZ))) 16 ;;
      copy_file (S (length data)) inum data) (stv d av) = Ret tt (stv d' (add_file av name data)) /\
    built_as d' (add_file av name data) fl'.
Proof.
  intros B H0 Hn Hrd Hdata Hneed. pose proof (lookup_lt_Some _ _ _ H0) as Hpos. unfold add_file in *. rewrite (root_lookup _ _ _ H0) in *.
  set (e := entry (Z.of_nat (length av) + 1) (strncpy (strip name) (Z.to_nat DIRSIZ))) in *.
  assert (He : length e = 16%nat) by (apply length_entry, length_strncpy).
  destruct (ialloc_spec d av fl T_FILE B) as (d1 & fl1 & E1 & B1); [done|done|]. rewrite (bind_Ret _ _ _ _ _ E1).
  set (av1 := av ++ [(T_FILE, [])]) in *.
  assert (H1 : av1 !! 0%nat = Some (T_DIR, rd)) by (by apply lookup_app_l_Some).
  assert (Hins : forall x, <[0%nat := x]> av1 = <[0%nat := x]> av ++ [(T_FILE, [])]) by (intros x; by apply insert_app_l).
  destruct (iappend_spec d1 av1 fl1 0 T_DIR rd e B1 H1) as (d2 & fl2 & E2 & B2); [lia| |].
  { rewrite Hins. etransitivity; [|exact Hneed]. unfold need. rewrite !data_cost_app. change (costn (nblk (flen (T_FILE, [])))) with 0.
    enough (0 <= costn (nblk (flen (T_FILE, data)))) by lia. unfold costn.
    assert (0 <= nblk (flen (T_FILE, data))) by (apply Z.div_pos; [unfold flen, BSIZE; lia|reflexivity]). destruct (has_ind _); lia. }
  rewrite He in E2. change (Z.of_nat 0 + 1) with ROOTINO in E2. change (Z.of_nat 16) with 16 in E2. rewrite (bind_Ret _ _ _ _ _ E2).
  rewrite Hins in B2. set (av2 := <[0%nat := (T_DIR, rd ++ e)]> av ++ [(T_FILE, [])]) in *.
  assert (Hl : length (<[0%nat := (T_DIR, rd ++ e)]> av) = length av) by apply length_insert.
  assert (H2 : av2 !! length av = Some (T_FILE, [])).
  { unfold av2. rewrite lookup_app_r by lia. rewrite Hl, Nat.sub_diag. done. }
  assert (Hins2 : <[length av := (T_FILE, [] ++ data)]> av2 = <[0%nat := (T_DIR, rd ++ e)]> av ++ [(T_FILE, data)]).
  { unfold av2. rewrite insert_app_r_alt by lia. rewrite Hl, Nat.sub_diag. done. }
  destruct (copy_file_spec (S (length data)) d2 av2 fl2 (length av) T_FILE [] data B2 H2) as (d3 & fl3 & E3 & B3);
    [lia|cbn; lia|by rewrite Hins2|]. rewrite Hins2 in E3, B3. rewrite Hins. exists d3, fl3. done.
Qed.

(** Arguments that can be copied. *)
Definition copyable (files : list (list Z * list Z)) : Prop :=
  Forall (fun f => ~ (47 ∈ fst f) /\ Z.of_nat (length (snd f)) <= MAXFILE * BSIZE) files.

Definition args (files : list (list Z * list Z)) : list (list Z * option (list Z)) := (fun f => (fst f, Some (snd f))) <$> files.

Lemma add_files_spec files : forall d av fl rd,
  built_as d av fl -> av !! 0%nat = Some (T_DIR, rd) -> copyable files ->
  Z.of_nat (length av) + Z.of_nat (length files) < NINODES ->
  Z.of_nat (length rd) + 16 * Z.of_nat (length files) <= MAXFILE * BSIZE -> need (with_files av files) <= FSSIZE ->
  exists d' fl', add_files ROOTINO (args files) (stv d av) = Ret tt (stv d' (with_files av files)) /\ built_as d' (with_files av files) fl'.
Proof.
  induction files as [|[name data] files IH]; intros d av fl rd B H0 Hc Hn Hrd Hneed; [by exists d, fl|].
  apply Forall_cons in Hc as [[Hname Hdata] Hc]. cbn [fst snd] in *. cbn [args fmap list_fmap add_files with_files length] in *.
  rewrite bind_assert_true by (by rewrite bool_decide_eq_false_2). pose proof (add_file_root av rd name data H0) as H1.
  destruct (add_file_spec d av fl rd name data B H0) as (d1 & fl1 & E1 & B1); [lia|lia|done| |].
  { etransitivity; [eapply need_files; exact H1|done]. }
  destruct (IH d1 (add_file av name data) fl1 _ B1 H1 Hc) as (d2 & fl2 & E2 & B2);
    [rewrite length_add_file; lia| |done|].
  { rewrite length_app, length_entry by apply length_strncpy. lia. }
  exists d2, fl2. split; [|done]. rewrite <- E2. unfold mbind, kern_bind in E1 |- *.
  destruct (ialloc T_FILE (stv d av)) as [inum s1| | |]; [|done..].
  destruct (iappend ROOTINO _ 16 s1) as [[] s2| | |]; [|done..].
  cbn [snd]. by rewrite E1.
Qed.

(** ** The whole program *)

Lemma zero_image_run n : forall i d fi fb sp, 0 <= i -> i + Z.of_nat n <= FSSIZE -> (forall b, d b = zeroes) ->
  exists d', zero_image n i (Mk d i fi fb sp) = Ret tt (Mk d' (i + Z.of_nat n) fi fb sp) /\ forall b, d' b = zeroes.
Proof.
  induction n as [|n IH]; intros i d fi fb sp Hi Hn Hd; cbn [zero_image]; [exists d; by rewrite Z.add_0_r|].
  unfold wsect. rewrite bind_modify. cbn [set_image image nsect]. rewrite seek_id by lia. unfold set_image. cbn [image nsect freeinode freeblock msb].
  rewrite Z.max_r by lia. destruct (IH (i + 1) (upd d i zeroes) fi fb sp) as (d' & E & Hd'); [lia|lia| |].
  - intros b. unfold upd. by destruct (decide _).
  - exists d'. rewrite E. split; [|done]. do 2 f_equal. lia.
Qed.

Lemma built_start d : (forall b, b <> 1 -> d b = zeroes) -> d 1 = put_at zeroes 0 (superblock_bytes new_sb) -> built_as d [] [].
Proof.
  intros Hz H1. assert (Hb : blocks_ok d).
  { intros b. destruct (decide (b = 1)) as [->|Hne]; [by rewrite H1|by rewrite Hz]. }
  split; try done; [|by apply Hz]. split; try done. intros b Hbr. apply Hz. change (need []) with 60 in Hbr. lia.
Qed.

Definition dots : list Z := entry ROOTINO (dot_name [46]) ++ entry ROOTINO (dot_name [46; 46]).

(** The files of the finished image: the root directory and the arguments. *)
Definition image_view (files : list (list Z * list Z)) : view := with_files [(T_DIR, dots)] files.

(** [root] is the inode of the root directory before its size is rounded up. *)
Record finished (files : list (list Z * list Z)) (s : mk) (d : Z -> block) (fl : list finfo) (root : finfo) : Prop := {
  fn_built : built_as d (image_view files) fl;
  fn_root : fl !! 0%nat = Some root;
  fn_image : exists d2,
    inode_stored new_sb d ROOTINO (set_size ((Z.of_nat (length (f_data root)) / BSIZE + 1) * BSIZE) (f_di root)) d2 /\
    image s = upd d2 58 (mark_used (Z.to_nat (need (image_view files))) 0 zeroes);
}.

Lemma with_files_root files : forall av rd, av !! 0%nat = Some (T_DIR, rd) ->
  exists rd', with_files av files !! 0%nat = Some (T_DIR, rd') /\ Z.of_nat (length rd') = Z.of_nat (length rd) + 16 * Z.of_nat (length files).
Proof.
  induction files as [|[name data] files IH]; intros av rd H; cbn [with_files]; [exists rd; split; [done|cbn; lia]|].
  destruct (IH _ _ (add_file_root av rd name data H)) as (rd' & H' & Hl). exists rd'. split; [done|]. rewrite Hl, length_app.
  rewrite length_entry by apply length_strncpy. cbn [length]. lia.
Qed.

Lemma run_dots d fl : built_as d [(T_DIR, [])] fl ->
  exists d' fl', (iappend ROOTINO (entry ROOTINO (dot_name [46])) 16 ;; iappend ROOTINO (entry ROOTINO (dot_name [46; 46])) 16)
    (stv d [(T_DIR, [])]) = Ret tt (stv d' [(T_DIR, dots)]) /\ built_as d' [(T_DIR, dots)] fl'.
Proof.
  intros B. destruct (iappend_spec d _ fl 0 T_DIR [] (entry ROOTINO (dot_name [46])) B eq_refl) as (d1 & fl1 & E1 & B1); [done|done|].
  change (Z.of_nat 0 + 1) with ROOTINO in E1. change (Z.of_nat (length (entry ROOTINO (dot_name [46])))) with 16 in E1.
  rewrite (bind_Ret _ _ _ _ _ E1). set (e1 := [] ++ entry ROOTINO (dot_name [46])) in *.
  destruct (iappend_spec d1 _ fl1 0 T_DIR e1 (entry ROOTINO (dot_name [46; 46])) B1 eq_refl) as (d2 & fl2 & E2 & B2); [done|done|].
  by exists d2, fl2.
Qed.

Lemma main_run files :
  copyable files -> Z.of_nat (length files) + 1 < NINODES -> need (image_view files) < BPB ->
  exists s d fl root, main (args files) start = Ret tt s /\ freeblock s = need (image_view files) /\ finished files s d fl root.
Proof.
  intros Hc Hn Hneed. unfold main. rewrite !bind_modify. change (BPB) with 4096 in Hneed.
  change (set_freeblock nmeta (set_msb new_sb start)) with (Mk (fun _ => zeroes) 0 1 nmeta new_sb).
  destruct (zero_image_run (Z.to_nat FSSIZE) 0 (fun _ => zeroes) 1 nmeta new_sb) as (d0 & E0 & Hz0); [lia| |done|].
  { rewrite Z2Nat.id; unfold FSSIZE; lia. }
  rewrite (bind_Ret _ _ _ _ _ E0). clear E0. rewrite Z2Nat.id, Z.add_0_l by (unfold FSSIZE; lia). change (Mk d0 FSSIZE 1 nmeta new_sb) with (st d0 1 nmeta).
  rewrite bind_wsect by (unfold FSSIZE; lia). set (d1 := upd d0 1 _).
  assert (B1 : built_as d1 [] []).
  { apply built_start; [intros b Hb; unfold d1; rewrite upd_ne by done; apply Hz0|unfold d1; by rewrite upd_eq]. }
  change (st d1 1 nmeta) with (stv d1 []). destruct (ialloc_spec d1 [] [] T_DIR B1) as (d2 & fl2 & E2 & B2); [done|done|].
  rewrite (bind_Ret _ _ _ _ _ E2). clear E2. change (Z.of_nat (length (@nil (Z * list Z))) + 1) with ROOTINO. rewrite bind_assert_true by done. cbn [app] in *.
  destruct (run_dots d2 fl2 B2) as (d3 & fl3 & E3 & B3). rewrite <- bind_bind. rewrite (bind_Ret _ _ _ _ _ E3). clear E3.
  destruct (add_files_spec files d3 [(T_DIR, dots)] fl3 dots B3 eq_refl Hc) as (d4 & fl4 & E4 & B4).
  { cbn [length]. lia. }
  { change (Z.of_nat (length dots)) with 32. change MAXFILE with 140. unfold BSIZE, NINODES in *. lia. }
  { fold (image_view files). unfold FSSIZE. lia. }
  rewrite (bind_Ret _ _ _ _ _ E4). clear E4. fold (image_view files) in *. set (av := image_view files) in *.
  destruct (with_files_root files [(T_DIR, dots)] dots eq_refl) as (rd & Hrd & Hlen). fold (image_view files) in Hrd. fold av in Hrd.
  pose proof B4 as [R4 V4 _ I4 O4 _ _ _]. rewrite <- V4, list_lookup_fmap in Hrd. destruct (fl4 !! 0%nat) as [root|] eqn:Hr; [|done].
  cbn in Hrd. injection Hrd as _ Erd. destruct (O4 _ _ Hr) as (Hok & Hnl & Hsz). unfold stv.
  rewrite (bind_Ret _ _ _ _ _ (rinode_run d4 _ _ ROOTINO ltac:(done))). pose proof (I4 _ _ Hr) as Hi. change (Z.of_nat 0 + 1) with ROOTINO in Hi.
  rewrite Hi, Hsz. change (Z.of_nat (length dots)) with 32 in Hlen. rewrite Erd.
  assert (Hdiv : 0 <= Z.of_nat (length rd) / BSIZE <= 100).
  { split; [apply Z.div_pos; [lia|reflexivity]|]. apply Z.lt_succ_r, Z.div_lt_upper_bound; [reflexivity|]. unfold BSIZE, NINODES in *. lia. }
  rewrite (xint_id (Z.of_nat (length rd))) by (unfold is_u32, NINODES in *; lia). rewrite u32_id by (unfold is_u32, BSIZE in *; lia).
  rewrite xint_id by (unfold is_u32, BSIZE in *; lia). set (off := (Z.of_nat (length rd) / BSIZE + 1) * BSIZE).
  destruct (winode_run d4 (Z.of_nat (length av) + 1) (need av) ROOTINO (set_size off (f_di root))) as (d5 & E5 & S5); [apply R4| |done|].
  { destruct Hok as [O1 O2' O3 O4' O5 O6 O7]. split; try done. cbn [set_size d_size]. unfold off, is_u32, BSIZE in *. lia. }
  rewrite (bind_Ret _ _ _ _ _ E5), bind_gets. cbn [freeblock st]. destruct (rg_fb _ _ _ R4) as [Hlo _]. change nmeta with 60 in Hlo.
  unfold balloc. rewrite i32_id by lia. rewrite bind_assert_true by (by apply Z.ltb_lt). rewrite bind_gets. cbn [msb st].
  change (sb_bmapstart new_sb) with 58. rewrite run_wsect by (unfold FSSIZE; lia).
  eexists _, d4, fl4, root. split; [reflexivity|]. split; [done|]. split; [done|done|]. exists d5. rewrite Erd. split; [done|reflexivity].
Qed.

(** ** The finished image *)

Lemma mark_used_bits n : forall i buf, length buf = Z.to_nat BSIZE -> 0 <= i -> i + Z.of_nat n <= BPB ->
  length (mark_used n i buf) = Z.to_nat BSIZE /\
  forall j, 0 <= j -> bit_set (mark_used n i buf) j = bool_decide (i <= j < i + Z.of_nat n) || bit_set buf j.
Proof.
  change BPB with 4096. induction n as [|n IH]; intros i buf Hl Hi Hn; cbn [mark_used].
  - split; [done|]. intros j Hj. by rewrite bool_decide_eq_false_2 by lia.
  - destruct (IH (i + 1) (upd_byte buf (i / 8) (fun x => Z.lor x (Z.shiftl 1 (i mod 8))))) as [H1 H2]; [by rewrite length_upd_byte|lia|lia|].
    split; [done|]. intros j Hj. rewrite H2 by done.
    assert (Hq : (Z.to_nat (i / 8) < length buf)%nat).
    { rewrite Hl. apply Z2Nat.inj_lt; [apply Z.div_pos; lia|done|]. apply Z.div_lt_upper_bound; unfold BSIZE; lia. }
    rewrite (bit_upd true) by done. destruct (decide (j = i)) as [->|Hne].
    + rewrite orb_true_r. by rewrite bool_decide_eq_true_2 by lia.
    + f_equal. apply bool_decide_ext. lia.
Qed.

Lemma zero_bits j : 0 <= j -> bit_set zeroes j = false.
Proof.
  intros Hj. rewrite bit_set_testbit by done. unfold zeroes. rewrite nth_lookup.
  destruct (replicate _ 0 !! _) eqn:E; [apply lookup_replicate in E as [-> _]|]; apply Z.testbit_0_l.
Qed.

Section image.
Context (files : list (list Z * list Z)) (s : mk) (d : Z -> block) (fl : list finfo) (root : finfo).
Hypothesis Hfin : finished files s d fl root.
Hypothesis Hneed : need (image_view files) < BPB.

(** The root directory with its size rounded up. *)
Definition rounded : Z := (Z.of_nat (length (f_data root)) / BSIZE + 1) * BSIZE.
Definition root' : finfo := Fi (set_size rounded (f_di root)) (f_nb root) (f_ind root) (f_data root).
Definition final : list finfo := <[0%nat := root']> fl.

Lemma need_bounds : 60 <= need (image_view files) < 4096.
Proof using Hfin Hneed.
  destruct (rg_fb _ _ _ (bl_region _ _ _ (fn_built _ _ _ _ _ Hfin))) as [H _]. change nmeta with 60 in H. by change BPB with 4096 in Hneed.
Qed.

Lemma image_high b : 60 <= b -> image s b = d b.
Proof using Hfin.
  intros Hb. destruct (fn_image _ _ _ _ _ Hfin) as (d2 & S & ->). rewrite upd_ne by lia. apply (is_frame _ _ _ _ _ S).
  pose proof (inode_block ROOTINO ltac:(done)). lia.
Qed.

Lemma image_used b : 0 <= b < FSSIZE -> used new_sb (image s) b = bool_decide (b < need (image_view files)).
Proof using Hfin Hneed.
  intros Hb. pose proof need_bounds as Hnb. destruct (fn_image _ _ _ _ _ Hfin) as (d2 & S & ->). unfold used.
  rewrite (BBLOCK_eq new_sb FSSIZE) by (apply new_layout || by rewrite new_sb_eq). change (sb_bmapstart new_sb) with 58.
  unfold FSSIZE in Hb. change BPB with 4096. destruct (Z.lt_ge_cases b 4096) as [Hlt|Hge].
  - rewrite (Z.div_small b), (Z.mod_small b), Z.add_0_l, upd_eq by lia.
    destruct (mark_used_bits (Z.to_nat (need (image_view files))) 0 zeroes) as [_ H]; [done|lia|change BPB with 4096; lia|].
    rewrite H, zero_bits, orb_false_r by lia. apply bool_decide_ext. lia.
  - assert (b / 4096 = 1) as -> by (symmetry; apply (Z.div_unique _ _ _ (b - 4096)); lia). rewrite upd_ne by lia.
    rewrite (is_frame _ _ _ _ _ S) by (pose proof (inode_block ROOTINO ltac:(done)); lia).
    change (1 + 58) with 59. rewrite (bl_bmap _ _ _ (fn_built _ _ _ _ _ Hfin)).
    rewrite zero_bits by (apply Z.mod_pos_bound; lia). by rewrite bool_decide_eq_false_2 by lia.
Qed.

Lemma image_region : region (image s) (need (image_view files)) final.
Proof using Hfin Hneed.
  pose proof need_bounds as Hnb. apply region_size with (f := root); [|apply Hfin].
  destruct Hfin as [B Hr (d2 & S & E)]. eapply region_low; [apply B| |].
  - rewrite E. apply blocks_upd; [apply S|]. destruct (mark_used_bits (Z.to_nat (need (image_view files))) 0 zeroes) as [H _]; [done|lia| |done].
    change BPB with 4096. lia.
  - intros b Hb. apply image_high. exact Hb.
Qed.

Lemma image_inode i f : final !! i = Some f -> dinode_at new_sb (image s) (Z.of_nat i + 1) = f_di f.
Proof using Hfin.
  intros Hi. destruct Hfin as [B Hr (d2 & S & E)]. assert (Hlt := lookup_lt_Some _ _ _ Hi). unfold final in Hi, Hlt. rewrite length_insert in Hlt.
  pose proof (bl_count _ _ _ B) as Hc. pose proof (inode_block (Z.of_nat i + 1) ltac:(lia)) as Hib.
  assert (E' : dinode_at new_sb (image s) (Z.of_nat i + 1) = dinode_at new_sb d2 (Z.of_nat i + 1)).
  { unfold dinode_at. rewrite E. by rewrite upd_ne by lia. }
  rewrite E'. destruct (decide (i = 0%nat)) as [->|Hne].
  - rewrite list_lookup_insert_eq in Hi by lia. injection Hi as <-. apply S.
  - rewrite list_lookup_insert_ne in Hi by done. rewrite (is_other _ _ _ _ _ S).
    + by apply B.
    + rewrite new_sb_eq. cbn [sb_ninodes]. unfold NINODES in Hc. lia.
    + unfold ROOTINO. lia.
Qed.

End image.

(** A file of a region, as the kernel's file system sees it. *)
Section seen.
Context (d : Z -> block) (fb : Z) (fl : list finfo) (i : nat) (f : finfo).
Hypothesis R : region d fb fl.
Hypothesis Hi : fl !! i = Some f.

Lemma owns_slot b : owns d (f_di f) b -> b <> 0 /\ exists k, -1 <= k < MAXFILE /\ b = slot d (f_di f) k.
Proof using.
  intros (Hn & [->|(k & Hk & ->)]); (split; [done|]).
  - exists (-1). by split; [vm_compute|].
  - exists k. split; [lia|]. by rewrite slot_blk by lia.
Qed.

Lemma region_wf : (forall b, nmeta <= b < fb -> used new_sb d b = true) -> blocks_wf new_sb d (f_di f).
Proof using R Hi.
  intros Hu. pose proof R as [R1 R2 R3 R4 R5 R6 R7]. split.
  - apply (fi_addrs _ _ (R3 i f Hi)).
  - intros b (Hn & k & Hk & ->)%owns_slot. pose proof (R4 i f k Hi Hk Hn) as Hr. rewrite new_datastart.
    split; [|by apply Hu]. change (sb_size new_sb) with FSSIZE. lia.
  - intros j k Hj Hk Hn E. rewrite <- !slot_blk in * by lia. by destruct (R5 i i f f j k Hi Hi ltac:(lia) ltac:(lia) Hn E).
  - intros k Hk Hn E. rewrite <- !(slot_blk d _ k) in * by lia. change (indirect (f_di f)) with (slot d (f_di f) (-1)) in E.
    destruct (R5 i i f f k (-1) Hi Hi ltac:(lia) ltac:(by vm_compute) Hn E). lia.
Qed.

Lemma region_fbytes : fbytes d (f_di f) 0 (Z.of_nat (length (f_data f))) = f_data f.
Proof using R Hi.
  destruct (rg_file _ _ _ R i f Hi) as [F1 F2 F3 F4 F5 F6]. apply (list_eq_same_length _ _ (length (f_data f))); [done| |].
  - rewrite length_fbytes. lia.
  - intros k x y Hk. unfold fbytes. rewrite list_lookup_fmap, lookup_seq_lt by lia. cbn. rewrite F6 by lia.
    replace (Z.to_nat (0 + Z.of_nat k)) with k by lia. rewrite nth_lookup. intros [= <-] ->. done.
Qed.

Lemma region_no_holes : 0 <= d_size (f_di f) <= f_nb f * BSIZE -> no_holes d (f_di f).
Proof using R Hi.
  destruct (rg_file _ _ _ R i f Hi) as [F1 F2 F3 F4 F5 F6]. unfold BSIZE in *. intros Hs. split; [unfold BSIZE; lia|].
  intros k Hk Hlt. unfold BSIZE in Hlt. apply F3; lia.
Qed.

End seen.

(** *** The view of the arguments *)

Lemma with_files_old files : forall av i, (0 < i < length av)%nat -> with_files av files !! i = av !! i.
Proof.
  induction files as [|[name data] files IH]; intros av i Hi; cbn [with_files]; [done|]. rewrite IH by (rewrite length_add_file; lia).
  unfold add_file. rewrite lookup_app_l by (rewrite length_insert; lia). apply list_lookup_insert_ne. lia.
Qed.

Lemma with_files_new files : forall av j name data, (0 < length av)%nat -> files !! j = Some (name, data) ->
  with_files av files !! (length av + j)%nat = Some (T_FILE, data).
Proof.
  induction files as [|[name' data'] files IH]; intros av j name data Hav Hj; [done|]. cbn [with_files]. destruct j as [|j].
  - injection Hj as -> ->. rewrite with_files_old by (rewrite length_add_file; lia). unfold add_file.
    rewrite lookup_app_r by (rewrite length_insert; lia). rewrite length_insert. by replace (length av + 0 - length av)%nat with 0%nat by lia.
  - replace (length av + S j)%nat with (length (add_file av name' data') + j)%nat by (rewrite length_add_file; lia).
    eapply IH; [rewrite length_add_file; lia|done].
Qed.

(** The directory entries of the arguments, from inode number [n]. *)
Fixpoint entries (n : Z) (files : list (list Z * list Z)) : list Z :=
  match files with
  | [] => []
  | (name, _) :: files => entry n (strncpy (strip name) (Z.to_nat DIRSIZ)) ++ entries (n + 1) files
  end.

Lemma with_files_dir files : forall av rd, av !! 0%nat = Some (T_DIR, rd) ->
  with_files av files !! 0%nat = Some (T_DIR, rd ++ entries (Z.of_nat (length av) + 1) files).
Proof.
  induction files as [|[name data] files IH]; intros av rd H; cbn [with_files entries]; [by rewrite app_nil_r|].
  rewrite (IH _ _ (add_file_root av rd name data H)), <- app_assoc, length_add_file. do 4 f_equal. f_equal. lia.
Qed.

Definition root_dir (files : list (list Z * list Z)) : list Z := dots ++ entries 2 files.

(** *** Finding a file by its name *)

Lemma key_strncpy x : key (strncpy x (Z.to_nat DIRSIZ)) = key x.
Proof. unfold key. rewrite cstr_strncpy, take_take. f_equal. Qed.

Lemma dirents_entry n i name l : 0 <= i < 2 ^ 16 -> length name = 14%nat ->
  dirents (S n) (entry i name ++ l) = Dirent i name :: dirents n l.
Proof.
  intros Hi Hl. pose proof (length_entry i name Hl) as He. cbn [dirents]. rewrite take_app_length', drop_app_length' by done.
  unfold entry. rewrite get_dirent_bytes; cbn [de_inum de_name].
  - unfold xshort. rewrite get16_half. unfold u16. by rewrite Z.mod_small.
  - unfold xshort. rewrite get16_half. unfold u16. rewrite Z.mod_small; lia.
  - done.
Qed.

(** The first argument with the name is found. *)
Lemma entries_lookup files : forall n j name data, 0 < n -> n + Z.of_nat (length files) <= 2 ^ 16 -> files !! j = Some (name, data) ->
  (forall i name' data', (i < j)%nat -> files !! i = Some (name', data') -> key (strip name') <> key (strip name)) ->
  dlookup (key (strip name)) (dirents (length files) (entries n files)) = Some (n + Z.of_nat j).
Proof.
  induction files as [|[nm dt] files IH]; intros n j name data Hn Hmax Hj Hdiff; [done|]. cbn [length] in *. cbn [entries].
  rewrite dirents_entry by (apply length_strncpy || lia). cbn [dlookup]. destruct j as [|j].
  - injection Hj as -> ->. rewrite decide_True; [cbn; f_equal; lia|]. split; [cbn; lia|]. cbn [de_name]. apply key_strncpy.
  - rewrite decide_False.
    + rewrite (IH (n + 1) j name data); [f_equal; lia|lia|lia|done|]. intros i nm' dt' Hi Hl. by apply (Hdiff (S i) nm' dt'); [lia|].
    + intros [_ E]. cbn [de_name] in E. rewrite key_strncpy in E. by apply (Hdiff 0%nat nm dt); [lia| |].
Qed.

Lemma root_lookup_name files j name data :
  Z.of_nat (length files) + 1 < NINODES -> files !! j = Some (name, data) -> key (strip name) <> [46] -> key (strip name) <> [46; 46] ->
  (forall i name' data', (i < j)%nat -> files !! i = Some (name', data') -> key (strip name') <> key (strip name)) ->
  dlookup (key (strip name)) (dirents (S (S (length files))) (root_dir files)) = Some (Z.of_nat j + 2).
Proof.
  intros Hn Hj H1 H2 Hd. unfold root_dir, dots. rewrite <- app_assoc. rewrite !dirents_entry by done. cbn [dlookup].
  assert (K1 : key (dot_name [46]) = [46]) by (by vm_compute). assert (K2 : key (dot_name [46; 46]) = [46; 46]) by (by vm_compute).
  rewrite !decide_False by (intros [_ E]; cbn [de_name] in E; congruence). rewrite (entries_lookup files 2 j name data); [f_equal; lia|lia| |done|done].
  unfold NINODES in Hn. lia.
Qed.

(** The kernel with the image as its disk. *)
Definition mounted (d : Z -> block) (t : fs) : Prop :=
  fsdisk t = d /\ fssize t = FSSIZE /\ sb t = get_superblock (d 1).

Section theorem.
Context `{Devsw}.

(** The facts of one file, [i] of the image. *)
Lemma image_file files s d fl root i ty data :
  finished files s d fl root -> need (image_view files) < BPB -> image_view files !! i = Some (ty, data) -> (0 < i)%nat ->
  let di := dinode_at new_sb (image s) (Z.of_nat i + 1) in
  d_type di = ty /\ d_nlink di = 1 /\ d_size di = Z.of_nat (length data) /\
  blocks_wf new_sb (image s) di /\ no_holes (image s) di /\ fbytes (image s) di 0 (Z.of_nat (length data)) = data.
Proof.
  intros Hf Hn Hv Hi di. pose proof (fn_built _ _ _ _ _ Hf) as B. pose proof (bl_view _ _ _ B) as V. rewrite <- V, list_lookup_fmap in Hv.
  destruct (fl !! i) as [f|] eqn:Ef; [|done]. cbn in Hv. injection Hv as Ety Ed.
  assert (Ei : final fl root !! i = Some f) by (unfold final; rewrite list_lookup_insert_ne by lia; done).
  pose proof (image_region _ _ _ _ _ Hf Hn) as Hr. unfold di. rewrite (image_inode _ _ _ _ _ Hf i f Ei).
  destruct (bl_ok _ _ _ B i f Ef) as (Hok & Hnl & Hsz). rewrite <- Ed. split_and!; [done|done|done| | |by eapply region_fbytes].
  - eapply region_wf; [done|done|]. intros b Hb. rewrite (image_used _ _ _ _ _ Hf Hn).
    + apply bool_decide_eq_true_2. lia.
    + destruct (rg_fb _ _ _ Hr). change nmeta with 60 in *. lia.
  - eapply region_no_holes; [done|done|]. rewrite Hsz. split; [lia|]. apply (fi_len _ _ (rg_file _ _ _ Hr i f Ei)).
Qed.

Lemma image_root files s d fl root :
  finished files s d fl root -> need (image_view files) < BPB ->
  let di := dinode_at new_sb (image s) ROOTINO in
  d_type di = T_DIR /\ d_size di = (Z.of_nat (length (root_dir files)) / BSIZE + 1) * BSIZE /\
  blocks_wf new_sb (image s) di /\ fbytes (image s) di 0 (Z.of_nat (length (root_dir files))) = root_dir files.
Proof.
  intros Hf Hn di. pose proof (fn_built _ _ _ _ _ Hf) as B. pose proof (with_files_dir files [(T_DIR, dots)] dots eq_refl) as Hv.
  fold (image_view files) in Hv. rewrite <- (bl_view _ _ _ B), list_lookup_fmap, (fn_root _ _ _ _ _ Hf) in Hv.
  change (Some (view_of root) = Some (T_DIR, root_dir files)) in Hv. injection Hv as Ety Ed. assert (Ei : final fl root !! 0%nat = Some (root' root)).
  { apply list_lookup_insert_eq. by eapply lookup_lt_Some, Hf. }
  pose proof (image_region _ _ _ _ _ Hf Hn) as Hr. unfold di. change ROOTINO with (Z.of_nat 0 + 1). rewrite (image_inode _ _ _ _ _ Hf 0 _ Ei).
  rewrite <- Ed. split_and!; [done|done| |exact (region_fbytes _ _ _ _ _ Hr Ei)].
  eapply region_wf; [done|exact Ei|]. intros b Hb. rewrite (image_used _ _ _ _ _ Hf Hn).
  - apply bool_decide_eq_true_2. lia.
  - destruct (rg_fb _ _ _ Hr). change nmeta with 60 in *. lia.
Qed.

Lemma image_disjoint files s d fl root i j b :
  finished files s d fl root -> need (image_view files) < BPB -> (i < length fl)%nat -> (j < length fl)%nat -> i <> j ->
  owns (image s) (dinode_at new_sb (image s) (Z.of_nat i + 1)) b -> owns (image s) (dinode_at new_sb (image s) (Z.of_nat j + 1)) b -> False.
Proof.
  intros Hf Hn Hi Hj Hne. pose proof (image_region _ _ _ _ _ Hf Hn) as Hr.
  destruct (lookup_lt_is_Some_2 (final fl root) i) as [f Ei]; [by unfold final; rewrite length_insert|].
  destruct (lookup_lt_is_Some_2 (final fl root) j) as [g Ej]; [by unfold final; rewrite length_insert|].
  rewrite (image_inode _ _ _ _ _ Hf i f Ei), (image_inode _ _ _ _ _ Hf j g Ej).
  intros (Hb & k & Hk & E)%owns_slot (_ & l & Hl & E')%owns_slot. rewrite E in Hb, E'.
  by destruct (rg_inj _ _ _ Hr i j f g k l Ei Ej Hk Hl Hb E').
Qed.

Lemma image_super files s d fl root : finished files s d fl root -> get_superblock (image s 1) = new_sb.
Proof.
  intros Hf. destruct (fn_image _ _ _ _ _ Hf) as (d2 & S & ->). rewrite upd_ne by done. rewrite (is_frame _ _ _ _ _ S).
  - rewrite (bl_super _ _ _ (fn_built _ _ _ _ _ Hf)). by vm_compute.
  - pose proof (inode_block ROOTINO ltac:(done)). lia.
Qed.

Lemma length_with_files files : forall av, length (with_files av files) = (length av + length files)%nat.
Proof. induction files as [|[name data] files IH]; intros av; cbn [with_files length]; [lia|]. rewrite IH, length_add_file. lia. Qed.

(** C26: mkfs makes a file system the kernel can use.  For files whose names have no
    slash and that fit (fewer than 199 of them, each at most [MAXFILE] blocks,
    and all blocks within the first bitmap block) mkfs succeeds; the super block
    describes the layout; a block is marked in use exactly below [freeblock];
    inode [j + 2] is a regular file with the data of argument [j], and the
    kernel's [readi] on the mounted image returns these bytes; the root
    directory holds [.], [..] and an entry for each argument, in which looking up
    the name of argument [j] (without its underscore) finds inode [j + 2] unless
    an earlier entry has the same name; and no block belongs to two inodes. *)
Theorem mkfs_image files :
  copyable files -> Z.of_nat (length files) + 1 < NINODES -> need (image_view files) < BPB ->
  exists s, main (args files) start = Ret tt s /\
    (let d := image s in
     get_superblock (d 1) = new_sb /\ layout new_sb FSSIZE /\
     (forall b, 0 <= b < FSSIZE -> used new_sb d b = bool_decide (b < freeblock s)) /\
     (forall j name data, files !! j = Some (name, data) ->
        let di := dinode_at new_sb d (Z.of_nat j + 2) in
        d_type di = T_FILE /\ d_nlink di = 1 /\ d_size di = Z.of_nat (length data) /\
        forall t ip, mounted d t -> file_env t ip -> i_di (inodeat t ip) = di ->
          readi ip 0 (Z.of_nat (length data)) t = Ret (Z.of_nat (length data), data) t) /\
     (let di := dinode_at new_sb d ROOTINO in
      d_type di = T_DIR /\ d_size di = (Z.of_nat (length (root_dir files)) / BSIZE + 1) * BSIZE /\
      fbytes d di 0 (Z.of_nat (length (root_dir files))) = root_dir files) /\
     (forall j name data, files !! j = Some (name, data) -> key (strip name) <> [46] -> key (strip name) <> [46; 46] ->
        (forall i name' data', (i < j)%nat -> files !! i = Some (name', data') -> key (strip name') <> key (strip name)) ->
        dlookup (key (strip name)) (dirents (S (S (length files))) (root_dir files)) = Some (Z.of_nat j + 2)) /\
     (forall i j b, ROOTINO <= i < Z.of_nat (length files) + 2 -> ROOTINO <= j < Z.of_nat (length files) + 2 -> i <> j ->
        owns d (dinode_at new_sb d i) b -> owns d (dinode_at new_sb d j) b -> False)).
Proof.
  intros Hc Hn Hneed. destruct (main_run files Hc Hn Hneed) as (s & d & fl & root & E & Efb & Hf).
  exists s. split; [exact E|]. clear E. cbv zeta.
  pose proof (image_used _ _ _ _ _ Hf Hneed) as Hu. pose proof (image_super _ _ _ _ _ Hf) as Hsup. rewrite Efb.
  assert (Hlen : length fl = S (length files)).
  { rewrite <- (length_fmap view_of), (bl_view _ _ _ (fn_built _ _ _ _ _ Hf)). unfold image_view. rewrite length_with_files. done. }
  split; [done|]. split; [exact new_layout|]. split; [done|]. split; [|split; [|split]].
  - intros j name data Hj. pose proof (with_files_new files [(T_DIR, dots)] j name data ltac:(cbn; lia) Hj) as Hv.
    destruct (image_file files s d fl root (length [(T_DIR, dots)] + j) T_FILE data Hf Hneed Hv ltac:(cbn; lia)) as (T1 & T2 & T3 & T4 & T5 & T6).
    replace (Z.of_nat (length [(T_DIR, dots)] + j) + 1) with (Z.of_nat j + 2) in * by (cbn [length]; lia).
    split_and!; [done|done|done|]. intros t ip (M1 & M2 & M3) He Hdi. pose proof T5 as [Hs _]. change (MAXFILE * BSIZE) with 71680 in Hs.
    pose proof (readi_spec t ip 0 (Z.of_nat (length data)) He) as Hrd. cbv zeta in Hrd. rewrite M1, M3, Hdi, Hsup, T1, T3 in Hrd.
    rewrite Z.sub_0_r, Z.min_id, T6 in Hrd. rewrite Hrd; [| | |done|done|unfold is_u32; lia].
    + rewrite (proj2 (Z.ltb_ge _ _)), (proj2 (Z.leb_gt _ _)) by lia. done.
    + split; [apply (image_region _ _ _ _ _ Hf Hneed)| |done]. intros b Hb. rewrite new_datastart in Hb. change nmeta with 60 in Hb.
      rewrite Hu by (unfold FSSIZE; lia). apply bool_decide_eq_true_2. pose proof (need_bounds _ _ _ _ _ Hf Hneed). lia.
    + done.
  - destruct (image_root _ _ _ _ _ Hf Hneed) as (T1 & T2 & _ & T4). done.
  - intros j name data Hj H1 H2 Hd. by eapply root_lookup_name.
  - unfold ROOTINO. intros i j b Hi Hj Hne. replace i with (Z.of_nat (Z.to_nat (i - 1)) + 1) by lia.
    replace j with (Z.of_nat (Z.to_nat (j - 1)) + 1) by lia. apply (image_disjoint files s d fl root); [done|done|lia|lia|lia].
Qed.

End theorem.

(** Witness: a file of two bytes and one that needs an indirect block. *)
Definition demo_files : list (list Z * list Z) := [([95; 97], [104; 105]); ([98], replicate (Z.to_nat 6200) 7)].

Lemma demo_copyable : copyable demo_files.
Proof.
  assert (H : forall c, 47 <> c -> 47 ∉ [c]) by (intros c Hc Hin; by apply list_elem_of_singleton in Hin).
  apply Forall_cons. split; [split; [|by vm_compute]|].
  - intros Hin. apply elem_of_cons in Hin as [?|Hin]; [done|by apply H in Hin].
  - apply Forall_cons. split; [|by apply Forall_nil]. split; [by apply H|]. by vm_compute.
Qed.

Lemma mkfs_image_witness :
  exists s, main (args demo_files) start = Ret tt s /\
    d_size (dinode_at new_sb (image s) 2) = 2 /\ d_size (dinode_at new_sb (image s) 3) = 6200.
Proof.
  destruct (@mkfs_image {| dev_read := fun _ => None; dev_write := fun _ => None |} demo_files demo_copyable)
    as (s & E & _ & _ & _ & Hf & _); [by vm_compute|by vm_compute|].
  exists s. split; [exact E|]. clear E. destruct (Hf 0%nat [95; 97] [104; 105] eq_refl) as (_ & _ & H1 & _).
  destruct (Hf 1%nat [98] (replicate (Z.to_nat 6200) 7) eq_refl) as (_ & _ & H2 & _). split; [exact H1|].
  change (Z.of_nat 1 + 2) with 3 in H2. rewrite H2, length_replicate. apply Z2Nat.id. lia.
Defined.
